(* ===== verification/_CoqProject ===== *)
-Q . S2P
Prelude.v
Float.v
Domain.v
Json.v
Crypto.v
Store.v
AuthStore.v
Wire.v
Canonical.v
Parse.v
Decode.v
Tokens.v
SealedBox.v
DeviceStore.v
Repo.v
Fraud.v
Detector.v
Devices.v
AuthRepo.v
Text.v
Identity.v
UserAuth.v
Registration.v
Keys.v
Kyc.v
Books.v
Solvency.v
Wallet.v
DemoMint.v
Settlement.v
SettlementFacts.v
SubmitFacts.v
Gossip.v
Reconcile.v
Messages.v
WalletServer.v
Rest.v
Middleware.v
BffWallet.v
Acceptance.v
WalletProps.v
Honest.v
FraudProps.v
Members.v
DeviceFacts.v
AuthFacts.v
UserAuthProps.v
DeviceProps.v
RegistrationProps.v
OpsProps.v
Genesis.v
System.v
Purses.v
SettlementProps.v
GossipProps.v
TransferScore.v
Transfer.v
Push.v
Listings.v
BffAccounts.v
AdminStore.v
AdminRepo.v
Admin.v
AdminHttp.v
BffProps.v
TransferFacts.v
TransferProps.v
FinalizeProcessor.v
ReconcileProps.v
BffTransferProps.v
AdminProps.v
AdminListProps.v
Demo.v
Witnesses.v
AuthDemo.v
HonestDemo.v
DeviceDemo.v
BffDemo.v
AdminDemo.v
