(* ===== verification/Prelude.v ===== *)
(** * OfflinePay: a verification library of the Go backend

    OfflinePay lets a user lock money while online (the _ceiling_: a spending
    authorisation signed by the bank), pay with it while offline (payment tokens
    signed by the payer on a request signed by the payee), and settle when either
    party is online again.  This library models the backend under
    src/backend/internal and proves what makes it correct.

    ** The program and this library

    Every handler is an operation of a state monad: [op S L A] (Prelude.v) runs in a
    [world] made of the database, the counters of the clock readings, identifiers and
    store calls made so far, and a trace of the effects that leave the process.  [exec]
    and [query] are statements, [tx] is [pgrepo.Repo.Tx] with its rollback, [wrapping] is
    [fmt.Errorf] with a wrapped error, [attempt] is code that looks at an error.  What the
    process draws from outside is the class [Env]: the clock, the server's [now()], fresh
    identifiers and the failures of store calls.  [runs m w a w'] says that [m] succeeds.

    _The data._
    - Domain.v: internal/domain: tokens, validators, the payment state machine, limits.
    - Json.v, Crypto.v: internal/crypto/canonical.go and ed25519.go: what encoding/json makes
      of Go values, the canonical writer, signing and verifying.
    - Canonical.v: the canonical text determines what was signed.
    - Wire.v: decoding of the outbox messages (domain/outbox.go), with RFC 3339 instants.
    - Parse.v, Decode.v: encoding/json from text: the scanner, strings, numbers, bytes, and
      the structs a claim is made of; what was written is read back ([parse_write], [reads])
      and whatever is read is well formed ([yields]).
    - Tokens.v: auth/devicesession.go and userauth/jwt.go: the two kinds of signed text a client
      holds, and that they are read back as they were written.
    - SealedBox.v: crypto/sealed_box.go over the box of NaCl ([NaCl], [NaClLaws]).
    - Text.v: Go's strings.TrimSpace, ToLower and ToUpper as the services use them.

    _The database._
    - Store.v, AuthStore.v, DeviceStore.v: the tables of db/migrations with their constraints, and the
      statements of repository/sqlcgen, one definition [q_X] for the query X; each is a pure
      function from [now()] and the database to a result and the new database.
    - Genesis.v: the rows the migrations insert, and the statement that sees to the suspense
      account at start.
    - Repo.v, Devices.v, AuthRepo.v: pgrepo (Devices.v its devices and realm keys, and opsrepo,
      which is behind the operators' commands) and userauthrepo, with their cached reads; the
      other repositories are in the file of their service.

    _The services_ (internal/service).
    - Wallet.v: wallet/service.go: fund, drain, refresh, recover, release on expiry.
    - DemoMint.v: demomint/service.go: minting from the treasury.
    - Settlement.v: settlement/service.go: claims (phase 4a), finalization (phase 4b), the
      sweep.  FinalizeProcessor.v: settlement/processor.go, written against the two
      interfaces of the code ([EventTracker], [FinalizerService]).
    - TransferScore.v, Transfer.v: fraud/transfer_scorer.go; transfer/service.go,
      dispatcher.go, processor.go with transferrepo.
    - Reconcile.v: reconciliation/service.go with pgrepo/reconciliation.go.
    - UserAuth.v: userauth: sign-up, sessions, one-time codes, PINs.
    - Fraud.v: fraud/service.go and recorder_adapter.go: the score of a user in binary64
      (Float.v), the tiers and the wallet's clamp.  Detector.v: fraud/detector.go.
    - Gossip.v: gossip/service.go: claims carried by strangers in sealed blobs, written against
      the interface to settlement ([SettlementSubmitter]).
    - Identity.v, Kyc.v: display cards, account lookup; identity verification with kycrepo.

    _The handlers_ (internal/transport/grpc/server).
    - Registration.v: registration_server.go with the attestation package: challenges, enrolment,
      rotation, revocation, recovery of devices.  Its transactions nest as the code's do:
      [SetUserPayerPubkey] has one of its own.
    - Keys.v: keys_server.go, and the offline sessions of userauth/devicesession.go.
    - Messages.v: the messages of the wire with mappers.go; WalletServer.v: wallet_server.go and
      settlement_server.go, which check the caller, call the service and turn its errors into
      codes.

    _HTTP_ (internal/transport/http/bff).
    - Rest.v: converters.go and the statuses; Middleware.v: what stands before a handler, in the
      order in which cmd/bff installs it ([serve]).
    - BffWallet.v, BffAccounts.v: the handlers, which call those of the gRPC
      servers in process or the services; Listings.v: the listings of transfer/service.go and the
      feed of a user's events; Push.v: push_token.go and notification/fcm.go, the registry of push
      tokens and the sender that fans an event out.

    _The back office_ (service/admin, repository/adminrepo, transport/http/admin).
    - AdminStore.v: the tables of migration 0014 (staff, roles, sessions, audit log) beside the
      tables of the program ([admin_db]), with their statements, and what the dashboard reads of
      the tables of the program.
    - AdminRepo.v: adminrepo; Admin.v: jwt.go and service.go, then queries.go and kyc.go;
      AdminHttp.v: router.go and kyc.go of the transport, from the mux to the answer ([Mux]).

    How they meet: the wallet and settlement share the ceilings, the accounts and the
    ledger through pgrepo; settlement and transfers hand work to their workers through the
    outbox table, whose rows the dispatcher publishes and the processors decode; the
    identity service's cards are verified by settlement; sign-up opens the accounts the
    wallet moves money between; KYC sets the tier that limits transfers.

    ** What is proved

    - Books.v ([books]): the ledger is double entry, every account balance is the net of its
      postings, pending accounts hold the pending claims, the total of all balances is zero.
      Solvency.v ([solvent]): a lien account holds what is left of the one live ceiling of its
      payer, and no ceiling is settled beyond its amount.  Members.v ([members]): rows speak of
      registered users.  [money] (Books.v) is the abstract effect of an operation on
      funds; SettlementFacts.v and the services' files prove it per operation.
    - System.v: the handlers as a transition system.  Every transaction it lists keeps the books,
      in any interleaving of transactions ([commits_keep_books]), and payments only advance
      ([commits_advance_payments]).  The handlers and commands it lists keep liens and solvency,
      run one after the other ([steps_keep_liens]), with two provisos the code does not check: a
      claim names no ceiling of another user, and an operator forces only a used-up ceiling
      to expire.  Any other forced expiry strands the lien ([ForceExpireActiveCeiling_strands],
      OpsProps.v).  Online transfers are in neither list, as they post nothing to the ledger
      ([process_leaves_ledger_behind], TransferProps.v).  AuthFacts.v brings authentication
      and KYC into it.
    - Purses.v: the abstract specification: purses with funds, locked money and promised
      payments, and five deeds.  Every transaction performs a sequence of deeds its
      handler may do ([transactions_refine_purses]).
    - Acceptance.v, Honest.v: liveness: an honest payment made with what the wallet and the
      identity service issued is accepted by settlement ([honest_claim_accepted]).
    - BffProps.v: nothing protected is served without a valid token ([serve_admits]); the whole way of
      an honest payment over HTTP ([honest_claim_over_http]); what a batch of claims is
      answered ([claims_answered]); the lifetime of a ceiling asked for over the wire
      ([ceiling_lifetime]).  BffTransferProps.v: transfers need the PIN ([transfers_need_pin]), and
      what listings and receipts show.
    - SubmitFacts.v, SettlementProps.v: what each verdict of a claim means; the waterfall of
      finalization; batches; nothing happens twice.
    - GossipProps.v: a sealed claim opens to what was sealed; whatever a stranger seals is well
      formed once it decodes; blobs do not influence each other; an honest payment is accepted
      through anybody's device ([honest_gossip_accepted]).
    - FraudProps.v, Detector.v: the score stays between 0 and 1, a wallet wired with it grants
      what the tier allows ([FundOffline_tiers]), the detector signals what a stateless reading
      of the past deserves ([detector_signals]).
    - WalletProps.v: what funding, draining, recovering and expiring do, errors included, and
      how their windows fit the settlement's.
    - TransferFacts.v, TransferProps.v: limits, rules, idempotence under a reference
      ([InitiateTransfer_idempotent]), the way of a transfer through the outbox to the processor
      with its delays ([failed_dispatch_waits]), and that deliveries which do not overlap move
      the money at most once ([process_at_most_once]; overlapping ones can move it twice,
      [overlapping_deliveries_pay_twice] in Witnesses.v).
    - FinalizeProcessor.v: at-most-once delivery, proved from the laws of the interfaces,
      which the repository and settlement discharge.
    - ReconcileProps.v: the reports are exactly the disagreements; the nightly run is clean in
      every state the operations of System.v reach, with their provisos, and online transfers
      break it.
    - UserAuthProps.v: single use of refresh tokens, the bound on PIN guesses,
      resets, sign-up, promotion of tiers.
    - DeviceFacts.v, DeviceProps.v: a relation between the states before and after that composes
      along a run ([along]), and with it: whatever handlers run later, a revoked device is not
      active again, and is not let in unless the cache still holds an entry that says it is
      active, which is so when the deletion failed ([revoked_device_shut_out]); a user has one
      active device at most.
    - RegistrationProps.v: the ways to another device replace the old one, with the payer key;
      nonces are spent; a refused rotation may leave the key changed ([rotation_splits]); an
      offline session verifies with the published key until it expires.
    - AdminProps.v: what every request to the back office is answered: nothing is shown without a valid
      token, the audit log to nobody but SUPERADMIN, and no request changes the tables of the
      program ([back_office_admits]); a refresh token of the staff works once, whatever is
      requested afterwards ([admin_refresh_once]).  AdminListProps.v: the pages of the
      payments are the rows every filter is met by, once each as long as no two share an instant
      ([ListTransactions_pages]); the figures of the landing page agree with the invariants of the
      program ([Overview_reports]).
    - OpsProps.v: what rotating keys, forcing a ceiling to expire and freezing a user do, and
      what they do not.
    - Demo.v, Witnesses.v, AuthDemo.v, HonestDemo.v (an honest payment, directly and as gossip),
      DeviceDemo.v, BffDemo.v, AdminDemo.v: concrete instances of all that is left open, and runs
      in which every theorem with hypotheses is applied.

    ** Choices, bounds and fuel

    - int64 is [Z] with wrap-around written out ([add64], [sub64], [mul64]); a BIGINT out of
      range is an error of the statement.  Instants are nanoseconds since the epoch, and
      timestamptz rounds to microseconds ([tstz]).  The instants of tokens, cards and requests keep
      the offset they were parsed with ([Zoned]), which their text and so their signatures
      depend on; what the server itself dates, and what comes through the timestamps of gRPC
      or HTTP, is in UTC.
    - Fuel is only used on texts.  [sanitize_go] (Json.v) and [trim_left] (Text.v) consume at
      least one byte a turn and get the length of the text; the scanner of Parse.v gets
      [enough] for the text, and more changes nothing ([scan_fuel]).
    - Ed25519, the NaCl box, math.Pow and math.Exp, SHA-256, bcrypt, the random source, the
      order of a Go map's keys, KMS signers and the wallet's fraud clamp are parameters with
      the laws the code relies on; the worked runs instantiate each.
    - A transaction runs alone: the interleavings of the model are those of whole
      transactions and of statements outside of one.  That is what pgrepo asks for
      (SERIALIZABLE); the other repositories run at the default READ COMMITTED, where two open
      transactions can interfere in ways that are not in the model.  Theorems on
      [commit] interleave transactions freely, whatever was read before them; those that run
      whole handlers one after the other say so.  What a service writes
      through the pool while its transaction is open, and so keeps when that is rolled back, is
      kept in the model too ([tx_beside]: payer keys, scores of blocked transfers).
    - [now()] may differ between the statements of a transaction, which is more than
      Postgres does.  Cache writes, fraud records and notifications are the trace.  The cache
      ([CacheEnv]) may serve what was put in it last, or nothing, and may fail to carry out any
      write or deletion, which the code does not look at.
    - Strings that reach the database are taken as valid UTF-8, and [ToLower] and [ToUpper] only
      fold ASCII, which is what the services compare.
    - Rows that tie in the ORDER BY of a listing of the back office come in any order, another
      one at each call ([TieOrder], AdminStore.v).  Other rows that a statement leaves unordered
      come in the order of the table; the theorems only speak of what is there.

    ** Not modelled

    The generated routers and stubs beyond the types of their messages, the stores of
    the rate limiters (the limiter is an interface), KMS and realm-key wrappers, cache,
    configuration, logging and the commands that wire it all.  The text of an HTTP body is decoded by
    generated code, so a handler gets the decoded body.  The manifest lists each with its
    reason. *)

From stdpp Require Export base tactics list gmap strings pretty sorting.
From Stdlib Require Export ZArith Lia.
From Stdlib Require Import Strings.Byte.

#[global] Set Default Goal Selector "!".
Open Scope Z_scope.

Declare Scope op_scope.
Delimit Scope op_scope with op.

(** ** Machine integers *)

(** Go's int64 and Postgres' BIGINT have the same range.  Go arithmetic wraps
    around; Postgres raises [numeric_value_out_of_range]. *)
Definition int64_min : Z := - 2 ^ 63.
Definition int64_max : Z := 2 ^ 63 - 1.

Definition in_int64 (z : Z) : bool := (int64_min <=? z) && (z <=? int64_max).

Definition wrap64 (z : Z) : Z := (z + 2 ^ 63) mod 2 ^ 64 - 2 ^ 63.

Definition add64 (x y : Z) : Z := wrap64 (x + y).
Definition sub64 (x y : Z) : Z := wrap64 (x - y).
Definition mul64 (x y : Z) : Z := wrap64 (x * y).

Lemma in_int64_spec z : in_int64 z = true <-> int64_min <= z <= int64_max.
Proof. unfold in_int64. rewrite andb_true_iff, !Z.leb_le. tauto. Qed.

Lemma wrap64_range z : int64_min <= wrap64 z <= int64_max.
Proof.
  unfold wrap64, int64_min, int64_max.
  pose proof (Z.mod_pos_bound (z + 2 ^ 63) (2 ^ 64)). lia.
Qed.

Lemma wrap64_id z : int64_min <= z <= int64_max -> wrap64 z = z.
Proof.
  unfold wrap64, int64_min, int64_max. intros H.
  rewrite Z.mod_small; lia.
Qed.

Lemma wrap64_in z : in_int64 z = true -> wrap64 z = z.
Proof. rewrite in_int64_spec. apply wrap64_id. Qed.

Lemma sub64_nonneg x y :
  0 <= y <= x -> x <= int64_max -> sub64 x y = x - y.
Proof. intros. unfold sub64. apply wrap64_id. unfold int64_min, int64_max in *. lia. Qed.

(** ** Instants and durations

    A [time.Time] is its number of nanoseconds since the Unix epoch; the zero
    [time.Time] is the first instant of year 1.  Clock readings and columns are
    normalised with [UTC()] and keep no zone.  A [time.Time] that may have been
    parsed, as those of a signed payload are, is [Zoned]: an instant and the offset
    it is written with.  A [time.Duration] is its nanoseconds. *)
Abbreviation Time := Z (only parsing).
Abbreviation Duration := Z (only parsing).

Definition time_zero : Time := -62135596800 * 10 ^ 9.
Definition IsZero (t : Time) : bool := t =? time_zero.
Definition After (t u : Time) : bool := u <? t.
Definition Before (t u : Time) : bool := t <? u.

Definition Microsecond : Duration := 10 ^ 3.
Definition Second : Duration := 10 ^ 9.
Definition Minute : Duration := 60 * Second.
Definition Hour : Duration := 60 * Minute.

(** An instant with its offset from UTC, in minutes to the east.  Comparisons are of the
    instants. *)
Record Zoned := { instant :> Time; zone : Z }.
#[global] Instance Zoned_eq_dec : EqDecision Zoned.
Proof. solve_decision. Defined.

Definition utc (t : Time) : Zoned := {| instant := t; zone := 0 |}.

(** What the clock shows at the offset. *)
Definition wall (t : Zoned) : Time := instant t + zone t * Minute.

(** [t.Truncate(time.Microsecond)], also the precision of [timestamptz]. *)
Definition truncate_us (t : Time) : Time := t / 1000 * 1000.

Lemma truncate_us_idem t : truncate_us (truncate_us t) = truncate_us t.
Proof. unfold truncate_us. rewrite Z.div_mul by lia. reflexivity. Qed.

Lemma truncate_us_add t d :
  d mod 1000 = 0 -> truncate_us (truncate_us t + d) = truncate_us t + d.
Proof.
  intros Hd. unfold truncate_us.
  rewrite (Z.div_mod d 1000) by lia. rewrite Hd, Z.add_0_r.
  rewrite (Z.mul_comm 1000), <- Z.mul_add_distr_r, Z.div_mul by lia. reflexivity.
Qed.

Lemma truncate_us_near t : t - 1000 < truncate_us t <= t.
Proof. unfold truncate_us. pose proof (Z.div_mod t 1000). pose proof (Z.mod_pos_bound t 1000). lia. Qed.

(** ** Bytes *)

Abbreviation bytes := (list byte).

#[global] Instance byte_eq_decision : EqDecision byte := byte_eq_dec.

(** ** Errors

    A Go error is a sentinel built by [errors.New], one of the errors the
    database driver returns, a wrapper made by [fmt.Errorf("...%w", err)], the
    [errors.Join] of two, or the [status.Error] of a request handler. *)
Inductive error :=
| ErrNew (text : string)
| ErrNoRows
| ErrUnique (constraint_name : string)
| ErrForeignKey (constraint_name : string)
| ErrCheck (constraint_name : string)
| ErrNotNull (column : string)
| ErrNumericRange
| ErrInfra (text : string)
| ErrWrap (context : string) (inner : error)
| ErrJoin (e e' : error)
| ErrStatus (code text : string).

#[global] Instance error_eq_decision : EqDecision error.
Proof. solve_decision. Defined.

(** [errors.Is]. *)
Fixpoint errors_is (e target : error) : bool :=
  bool_decide (e = target) ||
  match e with
  | ErrWrap _ inner => errors_is inner target
  | ErrJoin e1 e2 => errors_is e1 target || errors_is e2 target
  | _ => false
  end.

Lemma errors_is_refl e : errors_is e e = true.
Proof. destruct e; cbn; rewrite bool_decide_true by done; reflexivity. Qed.

Lemma errors_is_wrap c e t : errors_is e t = true -> errors_is (ErrWrap c e) t = true.
Proof. intros H. cbn. rewrite H. apply orb_true_r. Qed.

Inductive result (A : Type) :=
| Ok (a : A)
| Err (e : error).
Arguments Ok {A} a.
Arguments Err {A} e.

Definition is_ok {A} (r : result A) : bool :=
  match r with Ok _ => true | Err _ => false end.

Definition result_map {A B} (f : A -> B) (r : result A) : result B :=
  match r with Ok a => Ok (f a) | Err e => Err e end.

(** [guard c e] is the code's [if !c { return e }]. *)
Definition guard_or (c : bool) (e : error) : result unit :=
  if c then Ok tt else Err e.

Definition result_bind {A B} (r : result A) (k : A -> result B) : result B :=
  match r with Ok a => k a | Err e => Err e end.

Notation "'try' x ':=' r 'in' k" := (result_bind r (fun x => k))
  (at level 10, x pattern, r at level 100, k at level 200) : op_scope.
Open Scope op_scope.

Lemma result_bind_ok {A B} (r : result A) (k : A -> result B) b :
  result_bind r k = Ok b -> exists a, r = Ok a /\ k a = Ok b.
Proof. destruct r; cbn; [eauto | discriminate]. Qed.

Lemma guard_or_ok c e x : guard_or c e = Ok x -> c = true.
Proof. unfold guard_or. by destruct c. Qed.

(** ** Effectful code

    A handler runs in a [world]: the store it shares with other handlers, the
    counters of the identifiers, clock readings and store calls made so far,
    and the trace of the effects that leave the process or live outside the
    store (fraud records, detector observations, publishes).  The trace, unlike
    the store, is not undone when a transaction rolls back. *)
Record world (S L : Type) := World {
  w_st : S;
  w_ids : nat;
  w_clk : nat;
  w_ops : nat;
  w_log : list L;
}.
Arguments World {S L} w_st w_ids w_clk w_ops w_log.
Arguments w_st {S L} w.
Arguments w_ids {S L} w.
Arguments w_clk {S L} w.
Arguments w_ops {S L} w.
Arguments w_log {S L} w.

(** What the process draws from outside: the readings of [Clock.Now], the
    server-side [now()] of a store call, fresh identifiers ([pgrepo.NewID]) and
    the infrastructure failures of store calls (the text of the driver's error
    for a lost connection or a serialization failure), all indexed by how often they were asked. *)
Class Env := {
  clock : nat -> Time;
  sql_now : nat -> Time;
  new_id : nat -> string;
  fault : nat -> option string;
}.

(** Identifiers are ULIDs, 26 characters long. *)
Class FreshIDs (E : Env) : Prop := { new_id_nonempty n : @new_id E n <> "" }.

(** An environment in which no store call fails. *)
Definition fault_free (E : Env) : Prop := forall n, @fault E n = None.

Definition op (S L A : Type) : Type := world S L -> result A * world S L.

Section Ops.
Context {E : Env} {S L : Type}.

Definition ret {A} (a : A) : op S L A := fun w => (Ok a, w).
Definition throw {A} (e : error) : op S L A := fun w => (Err e, w).

Definition bind {A B} (m : op S L A) (k : A -> op S L B) : op S L B :=
  fun w =>
    match m w with
    | (Ok a, w1) => k a w1
    | (Err e, w1) => (Err e, w1)
    end.

(** [if err := m; err != nil { ... }]: the code looks at the error itself. *)
Definition attempt {A} (m : op S L A) : op S L (result A) :=
  fun w => match m w with (r, w1) => (Ok r, w1) end.

(** [fmt.Errorf("ctx: %w", err)] around a failing call. *)
Definition wrapping {A} (ctx : string) (m : op S L A) : op S L A :=
  fun w =>
    match m w with
    | (Err e, w1) => (Err (ErrWrap ctx e), w1)
    | ok => ok
    end.

Definition lift {A} (r : result A) : op S L A := fun w => (r, w).

Definition now : op S L Time := fun w =>
  (Ok (clock (w_clk w)),
   World (w_st w) (w_ids w) (Datatypes.S (w_clk w)) (w_ops w) (w_log w)).

Definition fresh : op S L string := fun w =>
  (Ok (new_id (w_ids w)),
   World (w_st w) (Datatypes.S (w_ids w)) (w_clk w) (w_ops w) (w_log w)).

Definition emit (l : L) : op S L unit := fun w =>
  (Ok tt, World (w_st w) (w_ids w) (w_clk w) (w_ops w) (w_log w ++ [l])).

(** Reads the trace: the content of a store that is only ever changed by emitted
    effects, such as the cache, is a function of it. *)
Definition read_log : op S L (list L) := fun w => (Ok (w_log w), w).

Definition tick_ops (w : world S L) (s : S) : world S L :=
  World s (w_ids w) (w_clk w) (Datatypes.S (w_ops w)) (w_log w).

(** A statement sent to the store: it may fail in the infrastructure, read
    [now()], and either change the store and return a value or fail and leave
    the store as it was. *)
Definition exec {A} (f : Time -> S -> result (A * S)) : op S L A := fun w =>
  match fault (w_ops w) with
  | Some e => (Err (ErrInfra e), tick_ops w (w_st w))
  | None =>
      match f (sql_now (w_ops w)) (w_st w) with
      | Ok (a, s) => (Ok a, tick_ops w s)
      | Err e => (Err e, tick_ops w (w_st w))
      end
  end.

(** A read-only statement. *)
Definition query {A} (f : S -> result A) : op S L A :=
  exec (fun _ s => result_map (fun a => (a, s)) (f s)).

(** [Repo.Tx]: begin, run the body on the open transaction, commit.  An error of
    the body, of the commit itself, or of a deferred constraint checked at
    commit rolls the store back to what it was. *)
Definition tx {A} (check : S -> result unit) (m : op S L A) : op S L A := fun w =>
  let rollback w' :=
    World (w_st w) (w_ids w') (w_clk w') (w_ops w') (w_log w') in
  match fault (w_ops w) with
  | Some e => (Err (ErrInfra e), tick_ops w (w_st w))
  | None =>
      match m (tick_ops w (w_st w)) with
      | (Err e, w1) => (Err e, rollback w1)
      | (Ok a, w1) =>
          match fault (w_ops w1), check (w_st w1) with
          | Some e, _ => (Err (ErrInfra e), rollback (tick_ops w1 (w_st w1)))
          | None, Err e => (Err e, rollback (tick_ops w1 (w_st w1)))
          | None, Ok _ => (Ok a, tick_ops w1 (w_st w1))
          end
      end
  end.

(** A transaction whose body also writes through connections of its own, which commit by
    themselves: of the store a failing body leaves, [keep] says what survives the rollback. *)
Definition tx_beside {A} (keep : S -> S -> S) (check : S -> result unit) (m : op S L A)
  : op S L A := fun w =>
  let rollback w' :=
    World (keep (w_st w) (w_st w')) (w_ids w') (w_clk w') (w_ops w') (w_log w') in
  match fault (w_ops w) with
  | Some e => (Err (ErrInfra e), tick_ops w (w_st w))
  | None =>
      match m (tick_ops w (w_st w)) with
      | (Err e, w1) => (Err e, rollback w1)
      | (Ok a, w1) =>
          match fault (w_ops w1), check (w_st w1) with
          | Some e, _ => (Err (ErrInfra e), rollback (tick_ops w1 (w_st w1)))
          | None, Err e => (Err e, rollback (tick_ops w1 (w_st w1)))
          | None, Ok _ => (Ok a, tick_ops w1 (w_st w1))
          end
      end
  end.

Definition runs {A} (m : op S L A) (w : world S L) (a : A) (w' : world S L) : Prop :=
  m w = (Ok a, w').

End Ops.

Notation "'let!' x ':=' m 'in' k" := (bind m (fun x => k))
  (at level 10, x pattern, m at level 100, k at level 200) : op_scope.
Notation "'do!' m 'in' k" := (bind m (fun _ => k))
  (at level 10, m at level 100, k at level 200) : op_scope.

(** [for _, x := range xs] with an accumulator, stopping at the first error. *)
Fixpoint for_each {S L A B} (xs : list A) (body : B -> A -> op S L B) (b : B)
  : op S L B :=
  match xs with
  | [] => ret b
  | x :: rest => let! b' := body b x in for_each rest body b'
  end.

(** *** Inversion of successful runs *)

Section RunsInversion.
Context {E : Env} {S L : Type}.
Implicit Types w : world S L.

Lemma runs_ret {A} (a b : A) w w' : runs (ret a) w b w' <-> b = a /\ w' = w.
Proof. unfold runs, ret. split; [intros [=]; auto | intros [-> ->]; done]. Qed.

Lemma runs_throw {A} e (b : A) w w' : runs (throw e) w b w' <-> False.
Proof. unfold runs, throw. split; [intros [=] | done]. Qed.

Lemma runs_lift {A} (r : result A) b w w' : runs (lift r) w b w' <-> r = Ok b /\ w' = w.
Proof. unfold runs, lift. split; [intros [=]; auto | intros [-> ->]; done]. Qed.

Lemma runs_bind {A B} (m : op S L A) (k : A -> op S L B) w b w' :
  runs (bind m k) w b w' <-> exists a w1, runs m w a w1 /\ runs (k a) w1 b w'.
Proof.
  unfold runs, bind. destruct (m w) as [[a|e] w1].
  - split; [eauto | intros (a' & w2 & [= -> ->] & H); done].
  - split; [intros [=] | intros (a' & w2 & [=] & _)].
Qed.

Lemma bind_ok {A B} (m : op S L A) (k : A -> op S L B) w a w1 :
  m w = (Ok a, w1) -> bind m k w = k a w1.
Proof. unfold bind. by intros ->. Qed.

Lemma bind_err {A B} (m : op S L A) (k : A -> op S L B) w e w1 :
  m w = (Err e, w1) -> bind m k w = (Err e, w1).
Proof. unfold bind. by intros ->. Qed.

Lemma runs_attempt {A} (m : op S L A) w r w' :
  runs (attempt m) w r w' <-> m w = (r, w').
Proof.
  unfold runs, attempt. destruct (m w) as [r0 w0].
  split; intros [=]; subst; done.
Qed.

Lemma runs_wrapping {A} c (m : op S L A) w a w' :
  runs (wrapping c m) w a w' <-> runs m w a w'.
Proof. unfold runs, wrapping. by destruct (m w) as [[|] ?]. Qed.

Lemma runs_now w t w' :
  runs now w t w' <->
  t = clock (w_clk w) /\
  w' = World (w_st w) (w_ids w) (Datatypes.S (w_clk w)) (w_ops w) (w_log w).
Proof. unfold runs, now. split; [intros [=]; auto | intros [-> ->]; done]. Qed.

Lemma runs_fresh w i w' :
  runs fresh w i w' <->
  i = new_id (w_ids w) /\
  w' = World (w_st w) (Datatypes.S (w_ids w)) (w_clk w) (w_ops w) (w_log w).
Proof. unfold runs, fresh. split; [intros [=]; auto | intros [-> ->]; done]. Qed.

Lemma runs_emit (l : L) w u w' :
  runs (emit l) w u w' <->
  w' = World (w_st w) (w_ids w) (w_clk w) (w_ops w) (w_log w ++ [l]).
Proof. unfold runs, emit. destruct u. split; [intros [=]; auto | intros ->; done]. Qed.

Lemma runs_read_log w l w' : runs read_log w l w' <-> l = w_log w /\ w' = w.
Proof. unfold runs, read_log. split; [intros [=]; auto | intros [-> ->]; done]. Qed.

Lemma runs_exec {A} (f : Time -> S -> result (A * S)) w a w' :
  runs (exec f) w a w' <->
  fault (w_ops w) = None /\
  exists s, f (sql_now (w_ops w)) (w_st w) = Ok (a, s) /\ w' = tick_ops w s.
Proof.
  unfold runs, exec. destruct (fault (w_ops w)) as [e|].
  { split; [intros [=] | intros [[=] _]]. }
  destruct (f _ _) as [[a' s]|e].
  - split; [intros [= -> <-]; eauto | intros (_ & s' & [= -> ->] & ->); done].
  - split; [intros [=] | intros (_ & s' & [=] & _)].
Qed.

Lemma runs_query {A} (f : S -> result A) w a w' :
  runs (query f) w a w' <->
  fault (w_ops w) = None /\ f (w_st w) = Ok a /\ w' = tick_ops w (w_st w).
Proof.
  unfold query. rewrite runs_exec. destruct (f (w_st w)) as [x|e]; cbn.
  - split.
    + intros (? & s & [= -> <-] & ->); auto.
    + intros (? & [= ->] & ->); eauto.
  - split; [intros (? & s & [=] & _) | intros (? & [=] & _)].
Qed.

Lemma runs_tx {A} check (m : op S L A) w a w' :
  runs (tx check m) w a w' <->
  fault (w_ops w) = None /\
  exists w1, runs m (tick_ops w (w_st w)) a w1 /\
             fault (w_ops w1) = None /\ check (w_st w1) = Ok tt /\
             w' = tick_ops w1 (w_st w1).
Proof.
  unfold runs, tx. destruct (fault (w_ops w)) as [e|].
  { split; [intros [=] | intros [[=] _]]. }
  destruct (m _) as [[a'|e] w1].
  2:{ split; [intros [=] | intros (_ & ? & [=] & _)]. }
  destruct (fault (w_ops w1)) as [e|] eqn:Hf.
  { split; [intros [=] | intros (_ & ? & [= -> ->] & ? & _); congruence]. }
  destruct (check (w_st w1)) as [[]|e] eqn:Hc.
  - split; [intros [= -> <-]; eauto 10 | intros (_ & ? & [= -> ->] & _ & _ & ->); done].
  - split; [intros [=] | intros (_ & ? & [= -> ->] & _ & ? & _); congruence].
Qed.

(** One that commits is a transaction like any other. *)
Lemma runs_tx_beside {A} keep check (m : op S L A) w a w' :
  runs (tx_beside keep check m) w a w' <-> runs (tx check m) w a w'.
Proof.
  unfold runs, tx_beside, tx. destruct (fault (w_ops w)); [done|].
  destruct (m _) as [[x|e] w1]; [|by split; intros [=]].
  destruct (fault (w_ops w1)); [by split; intros [=]|]. destruct (check _); [done|].
  by split; intros [=].
Qed.

(** One that fails leaves what it found, or what is kept of its body's store. *)
Lemma tx_beside_err {A} keep check (m : op S L A) w e w' :
  tx_beside keep check m w = (Err e, w') ->
  w_st w' = w_st w \/
  exists r w1, m (tick_ops w (w_st w)) = (r, w1) /\ w_st w' = keep (w_st w) (w_st w1).
Proof.
  unfold tx_beside. destruct (fault (w_ops w)); [intros [= _ <-]; by left|].
  destruct (m _) as [[x|e'] w1]; [|intros [= _ <-]; right; eauto].
  destruct (fault (w_ops w1)); [intros [= _ <-]; right; eauto|].
  destruct (check _); intros [=]; subst; right; eauto.
Qed.

(** A failed transaction leaves the store exactly as it found it. *)
Lemma tx_err {A} check (m : op S L A) w e w' :
  tx check m w = (Err e, w') -> w_st w' = w_st w.
Proof.
  unfold tx. destruct (fault (w_ops w)); [intros [= _ <-]; done|].
  destruct (m _) as [[a|e'] w1]; [|intros [= _ <-]; done].
  destruct (fault (w_ops w1)); [intros [= _ <-]; done|].
  destruct (check _); [intros [=] | intros [= _ <-]; done].
Qed.

End RunsInversion.

Create Rewrite HintDb runs.
#[export] Hint Rewrite @runs_ret @runs_throw @runs_lift @runs_bind @runs_attempt
  @runs_wrapping @runs_now @runs_fresh @runs_emit @runs_read_log @runs_exec @runs_query @runs_tx : runs.

(** Opens every successful run in the hypotheses down to the store calls. *)
Ltac run_inv :=
  repeat match goal with
  | H : runs _ _ _ _ |- _ => progress autorewrite with runs in H
  | H : exists _, _ |- _ => destruct H
  | H : _ /\ _ |- _ => destruct H
  | H : False |- _ => destruct H
  | H : Ok _ = Ok _ |- _ => injection H as H
  | H : (_, _) = (_, _) |- _ => injection H; clear H; intros
  | H : Ok _ = Err _ |- _ => discriminate H
  | H : Err _ = Ok _ |- _ => discriminate H
  end; subst.

(** *** The counter of store calls *)

Section Advances.
Context {E : Env} {S L : Type}.
Implicit Types w : world S L.

(** Store calls are only ever added: the calls a run makes have the indices from its
    start to its end. *)
Definition advances {A} (m : op S L A) : Prop := forall w, (w_ops w <= w_ops (m w).2)%nat.

Lemma advances_ret {A} (a : A) : advances (ret a).
Proof. intros w. cbn. lia. Qed.
Lemma advances_throw {A} e : advances (throw (A:=A) e).
Proof. intros w. cbn. lia. Qed.
Lemma advances_lift {A} (r : result A) : advances (lift r).
Proof. intros w. cbn. lia. Qed.
Lemma advances_now : advances now.
Proof. intros w. cbn. lia. Qed.
Lemma advances_fresh : advances fresh.
Proof. intros w. cbn. lia. Qed.
Lemma advances_emit l : advances (emit l).
Proof. intros w. cbn. lia. Qed.
Lemma advances_exec {A} (f : Time -> S -> result (A * S)) : advances (exec f).
Proof.
  intros w. unfold exec. destruct (fault _); [cbn; lia|]. destruct (f _ _) as [[? ?]|?]; cbn; lia.
Qed.
Lemma advances_query {A} (f : S -> result A) : advances (query f).
Proof. apply advances_exec. Qed.
Lemma advances_bind {A B} (m : op S L A) (k : A -> op S L B) :
  advances m -> (forall a, advances (k a)) -> advances (bind m k).
Proof.
  intros Hm Hk w. unfold bind. specialize (Hm w). destruct (m w) as [[a|e] w1]; [|done].
  specialize (Hk a w1). cbn in *. lia.
Qed.
Lemma advances_attempt {A} (m : op S L A) : advances m -> advances (attempt m).
Proof. intros Hm w. unfold attempt. specialize (Hm w). by destruct (m w). Qed.
Lemma advances_wrapping {A} c (m : op S L A) : advances m -> advances (wrapping c m).
Proof. intros Hm w. unfold wrapping. specialize (Hm w). by destruct (m w) as [[|] ?]. Qed.
Lemma advances_tx {A} check (m : op S L A) : advances m -> advances (tx check m).
Proof.
  intros Hm w. unfold tx. destruct (fault (w_ops w)); [cbn; lia|].
  specialize (Hm (tick_ops w (w_st w))). destruct (m _) as [[a|e] w1]; cbn in *; [|lia].
  destruct (fault _); [cbn; lia|]. destruct (check _); cbn; lia.
Qed.
Lemma advances_for_each {A B} (xs : list A) (body : B -> A -> op S L B) b :
  (forall b x, x ∈ xs -> advances (body b x)) -> advances (for_each xs body b).
Proof.
  revert b. induction xs as [|x xs IH]; intros b H; cbn; [apply advances_ret|].
  apply advances_bind; [apply H; left|]. intros b'. apply IH. intros. apply H. by right.
Qed.

Lemma runs_advances {A} (m : op S L A) w a w' :
  advances m -> runs m w a w' -> (w_ops w <= w_ops w')%nat.
Proof. intros Hm H. specialize (Hm w). unfold runs in H. by rewrite H in Hm. Qed.

End Advances.

Create HintDb advance discriminated.
#[export] Hint Resolve advances_ret advances_throw advances_lift advances_now advances_fresh
  advances_emit advances_exec advances_query advances_attempt advances_wrapping advances_tx
  : advance.
#[export] Hint Extern 2 (advances (bind _ _)) => apply advances_bind; [| intros ?] : advance.
#[export] Hint Extern 3 (advances (match ?x with _ => _ end)) => destruct x : advance.

(** *** Store invariants *)

Section Preserves.
Context {E : Env} {S L : Type}.
Implicit Types P : S -> Prop.

(** Whatever the outcome, the store satisfies [P] afterwards if it did before. *)
Definition preserves {A} P (m : op S L A) : Prop :=
  forall w, P (w_st w) -> P (w_st (m w).2).

Lemma preserves_pure {A} P (m : op S L A) :
  (forall w, w_st (m w).2 = w_st w) -> preserves P m.
Proof. intros H w Hw. by rewrite H. Qed.

Lemma preserves_ret {A} P (a : A) : preserves P (ret a).
Proof. by apply preserves_pure. Qed.
Lemma preserves_throw {A} P e : preserves P (throw (A:=A) e).
Proof. by apply preserves_pure. Qed.
Lemma preserves_lift {A} P (r : result A) : preserves P (lift r).
Proof. by apply preserves_pure. Qed.
Lemma preserves_now P : preserves P now.
Proof. by apply preserves_pure. Qed.
Lemma preserves_fresh P : preserves P fresh.
Proof. by apply preserves_pure. Qed.
Lemma preserves_emit P l : preserves P (emit l).
Proof. by apply preserves_pure. Qed.

Lemma preserves_read_log P : preserves P read_log.
Proof. by apply preserves_pure. Qed.

Lemma preserves_bind {A B} P (m : op S L A) (k : A -> op S L B) :
  preserves P m -> (forall a, preserves P (k a)) -> preserves P (bind m k).
Proof.
  intros Hm Hk w Hw. unfold bind. specialize (Hm w Hw).
  destruct (m w) as [[a|e] w1]; cbn in *; [by apply Hk | done].
Qed.

Lemma preserves_attempt {A} P (m : op S L A) : preserves P m -> preserves P (attempt m).
Proof. intros Hm w Hw. unfold attempt. specialize (Hm w Hw). by destruct (m w). Qed.

Lemma preserves_wrapping {A} P c (m : op S L A) :
  preserves P m -> preserves P (wrapping c m).
Proof. intros Hm w Hw. unfold wrapping. specialize (Hm w Hw). by destruct (m w) as [[|] ?]. Qed.

Lemma preserves_exec {A} P (f : Time -> S -> result (A * S)) :
  (forall t s a s', P s -> f t s = Ok (a, s') -> P s') -> preserves P (exec f).
Proof.
  intros Hf w Hw. unfold exec. destruct (fault _); [done|].
  destruct (f _ _) as [[a s]|e] eqn:Hr; cbn; eauto.
Qed.

Lemma preserves_query {A} P (f : S -> result A) : preserves P (query f).
Proof.
  apply preserves_exec. intros t s a s' Hs. destruct (f s); cbn; [|discriminate].
  by intros [= _ <-].
Qed.

(** A transaction preserves [P] when its committed runs do. *)
Lemma preserves_tx {A} P check (m : op S L A) :
  (forall w a w', P (w_st w) -> runs m w a w' -> check (w_st w') = Ok tt -> P (w_st w')) ->
  preserves P (tx check m).
Proof.
  intros Hm w Hw. destruct (tx check m w) as [[a|e] w'] eqn:Hr; cbn.
  - change (runs (tx check m) w a w') in Hr. run_inv. cbn.
    eapply Hm; [|eassumption..]. done.
  - apply tx_err in Hr. congruence.
Qed.

Lemma preserves_for_each {A B} P (xs : list A) (body : B -> A -> op S L B) b :
  (forall b x, x ∈ xs -> preserves P (body b x)) -> preserves P (for_each xs body b).
Proof.
  revert b. induction xs as [|x xs IH]; intros b H; cbn; [apply preserves_ret|].
  apply preserves_bind; [apply H; left|]. intros b'. apply IH. intros. apply H. by right.
Qed.

Lemma runs_preserves {A} P (m : op S L A) w a w' :
  preserves P m -> runs m w a w' -> P (w_st w) -> P (w_st w').
Proof. intros Hp Hr Hw. specialize (Hp w Hw). unfold runs in Hr. by rewrite Hr in Hp. Qed.

End Preserves.

Create HintDb preserve discriminated.
#[export] Hint Resolve preserves_ret preserves_throw preserves_lift preserves_now
  preserves_fresh preserves_emit preserves_read_log preserves_query preserves_attempt preserves_wrapping
  : preserve.
#[export] Hint Extern 2 (preserves _ (bind _ _)) =>
  apply preserves_bind; [| intros ?] : preserve.
#[export] Hint Extern 3 (preserves _ (match ?x with _ => _ end)) => destruct x : preserve.

(** *** Operations that leave no trace *)

Section Silent.
Context {E : Env} {S L : Type}.

(** Whatever the outcome, nothing is emitted. *)
Definition silent {A} (m : op S L A) : Prop := forall w, w_log (m w).2 = w_log w.

Lemma silent_ret {A} (a : A) : silent (ret a).
Proof. done. Qed.
Lemma silent_throw {A} e : silent (throw (A:=A) e).
Proof. done. Qed.
Lemma silent_lift {A} (r : result A) : silent (lift r).
Proof. done. Qed.
Lemma silent_now : silent now.
Proof. done. Qed.
Lemma silent_fresh : silent fresh.
Proof. done. Qed.
Lemma silent_exec {A} (f : Time -> S -> result (A * S)) : silent (exec f).
Proof. intros w. unfold exec. destruct (fault _); [done|]. by destruct (f _ _) as [[? ?]|?]. Qed.
Lemma silent_query {A} (f : S -> result A) : silent (query f).
Proof. apply silent_exec. Qed.
Lemma silent_bind {A B} (m : op S L A) (k : A -> op S L B) :
  silent m -> (forall a, silent (k a)) -> silent (bind m k).
Proof.
  intros Hm Hk w. unfold bind. specialize (Hm w). destruct (m w) as [[a|e] w1]; [|done].
  by rewrite (Hk a w1).
Qed.
Lemma silent_attempt {A} (m : op S L A) : silent m -> silent (attempt m).
Proof. intros Hm w. unfold attempt. specialize (Hm w). by destruct (m w). Qed.
Lemma silent_wrapping {A} c (m : op S L A) : silent m -> silent (wrapping c m).
Proof. intros Hm w. unfold wrapping. specialize (Hm w). by destruct (m w) as [[|] ?]. Qed.

Lemma runs_silent {A} (m : op S L A) w a w' : silent m -> runs m w a w' -> w_log w' = w_log w.
Proof. intros Hm H. specialize (Hm w). unfold runs in H. by rewrite H in Hm. Qed.

End Silent.

Create HintDb silence discriminated.
#[export] Hint Resolve silent_ret silent_throw silent_lift silent_now silent_fresh silent_exec
  silent_query silent_attempt silent_wrapping : silence.
#[export] Hint Extern 2 (silent (bind _ _)) => apply silent_bind; [| intros ?] : silence.
#[export] Hint Extern 3 (silent (match ?x with _ => _ end)) => destruct x : silence.

(** *** Building successful runs *)

Section Forward.
Context {E : Env} {S L : Type}.
Implicit Types w : world S L.

Lemma bind_runs {A B} (m : op S L A) (k : A -> op S L B) w a w1 b w' :
  runs m w a w1 -> runs (k a) w1 b w' -> runs (bind m k) w b w'.
Proof. intros H1 H2. apply runs_bind. eauto. Qed.

Lemma fresh_runs w :
  runs fresh w (new_id (w_ids w)) (World (w_st w) (Datatypes.S (w_ids w)) (w_clk w) (w_ops w) (w_log w)).
Proof. done. Qed.

Lemma exec_runs {A} (f : Time -> S -> result (A * S)) w a s :
  fault_free E -> f (sql_now (w_ops w)) (w_st w) = Ok (a, s) -> runs (exec f) w a (tick_ops w s).
Proof. intros Hf H. unfold runs, exec. by rewrite Hf, H. Qed.

Lemma query_runs {A} (f : S -> result A) w a :
  fault_free E -> f (w_st w) = Ok a -> runs (query f) w a (tick_ops w (w_st w)).
Proof. intros Hf H. apply exec_runs; [done|]. by rewrite H. Qed.

Lemma tx_runs {A} check (m : op S L A) w a w' :
  fault_free E -> runs m (tick_ops w (w_st w)) a w' -> check (w_st w') = Ok tt ->
  runs (tx check m) w a (tick_ops w' (w_st w')).
Proof. intros Hf Hm Hc. apply runs_tx. rewrite Hf. split; [done|]. exists w'. by rewrite Hf. Qed.

End Forward.
