(* ===== verification/Float.v ===== *)
(** * float64

    Go's float64 is IEEE 754 binary64, rounded to nearest even: the executable specification
    of the standard library at 53 bits.  Here are the operations the fraud score uses and what
    they keep of the sign of their operands. *)

From Stdlib Require Import Floats.SpecFloat.
From S2P Require Import Prelude.

#[local] Open Scope Z_scope.

Abbreviation float := spec_float (only parsing).

Definition fprec : Z := 53.
Definition femax : Z := 1024.

Definition fadd : float -> float -> float := SFadd fprec femax.
Definition fsub : float -> float -> float := SFsub fprec femax.
Definition fmul : float -> float -> float := SFmul fprec femax.
Definition fdiv : float -> float -> float := SFdiv fprec femax.
Definition fopp : float -> float := SFopp.
Definition fltb : float -> float -> bool := SFltb.
Definition fleb : float -> float -> bool := SFleb.

(** [float64(n)] of an integer. *)
Definition float_of_Z (n : Z) : float := binary_normalize fprec femax n 0 false.
(** The constant [n/d]: both are exact, so the division rounds like the constant does. *)
Definition ratio (n d : Z) : float := fdiv (float_of_Z n) (float_of_Z d).

Definition fzero : float := float_of_Z 0.
Definition fone : float := float_of_Z 1.

(** [int64(x)], toward zero; what it makes of a number out of range depends on the platform. *)
Definition truncate (x : float) : Z :=
  match x with
  | S754_finite s m e =>
      let n := if 0 <=? e then Z.pos m * 2 ^ e else Z.pos m / 2 ^ (- e) in
      if s then - n else n
  | _ => 0
  end.

(** [Duration.Seconds]. *)
Definition Seconds (d : Duration) : float :=
  fadd (float_of_Z (Z.quot d Second)) (fdiv (float_of_Z (Z.rem d Second)) (float_of_Z (10 ^ 9))).

(** ** Signs *)

(** A number, not NaN, with sign bit [s]. *)
Definition has_sign (s : bool) (x : float) : Prop :=
  match x with
  | S754_zero s' | S754_infinity s' | S754_finite s' _ _ => s' = s
  | S754_nan => False
  end.

(** A number that is finite and not a zero. *)
Definition fpositive (x : float) : Prop :=
  match x with S754_finite false _ _ => True | _ => False end.

Definition fnonneg (x : float) : Prop := fleb fzero x = true.
Definition fnonpos (x : float) : Prop := fleb x fzero = true.

Lemma signed_nonneg x : has_sign false x -> fnonneg x.
Proof. by destruct x as [[]|[]| |[]]. Qed.
Lemma signed_nonpos x : has_sign true x -> fnonpos x.
Proof. by destruct x as [[]|[]| |[]]. Qed.
Lemma nonneg_cases x : fnonneg x -> has_sign false x \/ x = S754_zero true.
Proof. destruct x as [[]|[]| |[]]; cbn; intros H; first [by left|by right|discriminate H]. Qed.
Lemma positive_signed x : fpositive x -> has_sign false x.
Proof. by destruct x as [| | |[]]. Qed.

Lemma signed_fopp s x : has_sign s x -> has_sign (negb s) (fopp x).
Proof. destruct x; cbn; [by intros ->..|done|by intros ->]. Qed.

Lemma shr_1_nonneg r : 0 <= shr_m r -> 0 <= shr_m (shr_1 r).
Proof. destruct r as [[|[p|p|]|p] ? ?]; cbn; lia. Qed.

Lemma iter_shr_nonneg n : forall r, 0 <= shr_m r -> 0 <= shr_m (@SpecFloat.iter_pos shr_record shr_1 n r).
Proof. induction n as [n IH|n IH|]; intros r Hr; cbn; auto using shr_1_nonneg. Qed.

Lemma shr_fexp_nonneg m e l : 0 <= m -> 0 <= shr_m (shr_fexp fprec femax m e l).1.
Proof.
  intros Hm. unfold shr_fexp, shr. assert (0 <= shr_m (shr_record_of_loc m l)) by (destruct l as [|[]]; done).
  destruct (_ - e); cbn; auto using iter_shr_nonneg.
Qed.

Lemma round_nearest_even_nonneg m l : 0 <= m -> 0 <= round_nearest_even m l.
Proof. intros Hm. destruct l as [|[]]; cbn; [lia|destruct (Z.even m); lia|lia|lia]. Qed.

(** Rounding keeps the sign. *)
Lemma binary_round_aux_signed s m e l :
  0 <= m -> has_sign s (binary_round_aux fprec femax s m e l).
Proof.
  intros Hm. unfold binary_round_aux.
  pose proof (shr_fexp_nonneg m e l Hm) as H1. destruct (shr_fexp fprec femax m e l) as [r1 e1].
  pose proof (shr_fexp_nonneg _ e1 loc_Exact
    (round_nearest_even_nonneg _ (loc_of_shr_record r1) H1)) as H2.
  destruct (shr_fexp fprec femax _ e1 loc_Exact) as [r2 e2]. cbn in H2.
  destruct (shr_m r2) as [|p|p]; [done| |lia]. by destruct (_ <=? _).
Qed.

Lemma binary_round_signed s m e : has_sign s (binary_round fprec femax s m e).
Proof.
  unfold binary_round. destruct (shl_align _ _ _) as [mz ez]. by apply binary_round_aux_signed.
Qed.

Lemma binary_normalize_signed m e : 0 <= m -> has_sign false (binary_normalize fprec femax m e false).
Proof. destruct m as [|p|p]; cbn; [done|intros _; apply binary_round_signed|lia]. Qed.

Lemma binary_normalize_number m e s : binary_normalize fprec femax m e s <> S754_nan.
Proof.
  destruct m as [|p|p]; cbn; [done| |].
  - intros H. pose proof (binary_round_signed false p e) as Hs. by rewrite H in Hs.
  - intros H. pose proof (binary_round_signed true p e) as Hs. by rewrite H in Hs.
Qed.

Lemma float_of_Z_nonneg n : 0 <= n -> has_sign false (float_of_Z n).
Proof. intros. by apply binary_normalize_signed. Qed.

Lemma fadd_signed x y : has_sign false x -> fnonneg y -> has_sign false (fadd x y).
Proof.
  intros Hx [Hy| ->]%nonneg_cases; [|by destruct x as [[]|[]| |[]]].
  destruct x as [[]|[]| |[]], y as [[]|[]| |[]]; cbn in Hx, Hy; try done.
  apply (binary_normalize_signed (Z.pos _ + Z.pos _)). lia.
Qed.

Lemma fmul_nonneg x y : fpositive x -> fnonneg y -> fnonneg (fmul x y).
Proof.
  intros Hx [Hy| ->]%nonneg_cases; [|by destruct x as [| | |[]]].
  apply signed_nonneg. destruct x as [| | |[] mx ex], y as [[]|[]| |[] my ey]; cbn in Hx, Hy; try done.
  by apply binary_round_aux_signed.
Qed.

Lemma fdiv_signed s x y : has_sign s x -> fpositive y -> has_sign s (fdiv x y).
Proof.
  intros Hx Hy. destruct y as [| | |[] my ey]; try done.
  destruct x as [sx|sx| |sx mx ex]; cbn in Hx; try done; subst s; [by destruct sx..|].
  unfold fdiv, SFdiv. rewrite xorb_false_r. unfold SFdiv_core_binary.
  set (e' := Z.min _ _). destruct (Z.div_eucl _ _) as [q r] eqn:Hq.
  apply binary_round_aux_signed.
  assert (q = (match ex - ey - e' with
    | Z.pos _ => Z.shiftl (Z.pos mx) (ex - ey - e') | 0 => Z.pos mx | Z.neg _ => 0 end) / Z.pos my) as ->
    by (unfold Z.div; by rewrite Hq).
  apply Z.div_pos; [|lia]. destruct (ex - ey - e'); [lia| |lia]. by apply Z.shiftl_nonneg.
Qed.

(** [1 - x] is a number for [0 <= x <= 1]. *)
Lemma one_minus_number x : fnonneg x -> fleb x fone = true -> fsub fone x <> S754_nan.
Proof.
  intros [Hx| ->]%nonneg_cases Hle; [|done]. destruct x as [[]|[]| |[] m e]; cbn in Hx; try done.
  apply binary_normalize_number.
Qed.

Lemma not_less x y : x <> S754_nan -> y <> S754_nan -> fltb x y = false -> fleb y x = true.
Proof.
  assert (forall p q, Pos.compare_cont Eq q p = CompOpp (Pos.compare_cont Eq p q)) as Hcmp
    by (intros p q; apply (Pos.compare_antisym p q)).
  intros Hx Hy. unfold fltb, fleb, SFltb, SFleb.
  destruct x as [[]|[]| |[] m e], y as [[]|[]| |[] n f]; try done; cbn;
    rewrite (Z.compare_antisym e f); destruct (e ?= f); cbn; try done;
    rewrite (Hcmp m n); by destruct (Pos.compare_cont Eq m n).
Qed.

Lemma Seconds_signed d : 0 <= d -> has_sign false (Seconds d).
Proof.
  intros Hd. assert (0 < Second) by (vm_compute; reflexivity). apply fadd_signed.
  - apply float_of_Z_nonneg, Z.quot_pos; lia.
  - apply signed_nonneg, fdiv_signed; [|done]. apply float_of_Z_nonneg, Z.rem_nonneg; lia.
Qed.
