(* ===== verification/Domain.v ===== *)
(** * The domain models (internal/domain)

    The tokens, their signable payloads and validators, the payment state
    machine, ceilings, transfers, outbox envelopes, gossip blobs and fraud
    events.  Optional Go pointers are [option]s; string enumerations are
    inductive types with the source's constants as constructors. *)

From Stdlib Require Import Ascii.
From S2P Require Import Prelude.

(** ** Ceiling tokens (ceiling.go) *)

(** [CeilingUnset] is the empty string, the zero value of the type. *)
Inductive CeilingStatus :=
| CeilingActive
| CeilingExpired
| CeilingExhausted
| CeilingRevoked
| CeilingRecoveryPending
| CeilingUnset.

#[global] Instance CeilingStatus_eq_dec : EqDecision CeilingStatus.
Proof. solve_decision. Defined.

Record CeilingToken := {
  ct_ID : string;
  ct_PayerID : string;
  ct_CeilingAmount : Z;
  ct_IssuedAt : Zoned;
  ct_ExpiresAt : Zoned;
  ct_SequenceStart : Z;
  ct_NextSequence : Z;
  ct_PayerPublicKey : bytes;
  ct_BankKeyID : string;
  ct_BankSignature : bytes;
  ct_Status : CeilingStatus;
  ct_ReleaseAfter : option Time;
  ct_CreatedAt : Time;
}.

Record CeilingTokenPayload := {
  ctp_PayerID : string;
  ctp_CeilingAmount : Z;
  ctp_IssuedAt : Zoned;
  ctp_ExpiresAt : Zoned;
  ctp_SequenceStart : Z;
  ctp_PayerPublicKey : bytes;
  ctp_BankKeyID : string;
}.

Definition ErrInvalidCeilingPayload : error := ErrNew "invalid ceiling token payload".

Definition CeilingTokenPayload_Validate (p : CeilingTokenPayload) : result unit :=
  let invalid reason := Err (ErrWrap reason ErrInvalidCeilingPayload) in
  if bool_decide (ctp_PayerID p = "") then invalid "payer_id required"
  else if ctp_CeilingAmount p <=? 0 then invalid "ceiling_amount must be positive"
  else if IsZero (ctp_IssuedAt p) then invalid "issued_at required"
  else if IsZero (ctp_ExpiresAt p) then invalid "expires_at required"
  else if negb (After (ctp_ExpiresAt p) (ctp_IssuedAt p)) then
    invalid "expires_at must be after issued_at"
  else if ctp_SequenceStart p <? 0 then invalid "sequence_start must be non-negative"
  else if bool_decide (ctp_PayerPublicKey p = []) then invalid "public_key required"
  else if bool_decide (ctp_BankKeyID p = "") then invalid "bank_key_id required"
  else Ok tt.

Record BankSigningKey := {
  bk_KeyID : string;
  bk_PublicKey : bytes;
  bk_PrivateKey : bytes;
  bk_ActiveFrom : Time;
  bk_ActiveTo : option Time;
  bk_CreatedAt : Time;
}.

Record RealmKey := {
  rlm_Version : Z;
  rlm_Key : bytes;
  rlm_ActiveFrom : Time;
  rlm_ExpiresAt : Time;
}.

(** ** Display cards (display_card.go) *)

Record DisplayCard := {
  dc_UserID : string;
  dc_DisplayName : string;
  dc_AccountNumber : string;
  dc_IssuedAt : Zoned;
  dc_BankKeyID : string;
  dc_ServerSignature : bytes;
}.

Record DisplayCardPayload := {
  dcp_UserID : string;
  dcp_DisplayName : string;
  dcp_AccountNumber : string;
  dcp_IssuedAt : Zoned;
  dcp_BankKeyID : string;
}.

Definition DisplayCard_Payload (d : DisplayCard) : DisplayCardPayload := {|
  dcp_UserID := dc_UserID d;
  dcp_DisplayName := dc_DisplayName d;
  dcp_AccountNumber := dc_AccountNumber d;
  dcp_IssuedAt := dc_IssuedAt d;
  dcp_BankKeyID := dc_BankKeyID d;
|}.

Definition ErrInvalidDisplayCard : error := ErrNew "invalid display card".

Definition DisplayCardPayload_Validate (p : DisplayCardPayload) : result unit :=
  let invalid reason := Err (ErrWrap reason ErrInvalidDisplayCard) in
  if bool_decide (dcp_UserID p = "") then invalid "user_id required"
  else if bool_decide (dcp_DisplayName p = "") then invalid "display_name required"
  else if bool_decide (dcp_AccountNumber p = "") then invalid "account_number required"
  else if IsZero (dcp_IssuedAt p) then invalid "issued_at required"
  else if bool_decide (dcp_BankKeyID p = "") then invalid "bank_key_id required"
  else Ok tt.

(** ** Payment requests (payment_request.go) *)

Definition SessionNonceSize : nat := 16.
Definition UnboundAmount : Z := 0.

Record PaymentRequest := {
  pr_ReceiverID : string;
  pr_ReceiverDisplayCard : DisplayCard;
  pr_Amount : Z;
  pr_SessionNonce : bytes;
  pr_IssuedAt : Zoned;
  pr_ExpiresAt : Zoned;
  pr_ReceiverDevicePubkey : bytes;
  pr_ReceiverSignature : bytes;
}.

Record PaymentRequestPayload := {
  prp_ReceiverID : string;
  prp_ReceiverDisplayCard : DisplayCard;
  prp_Amount : Z;
  prp_SessionNonce : bytes;
  prp_IssuedAt : Zoned;
  prp_ExpiresAt : Zoned;
  prp_ReceiverDevicePubkey : bytes;
}.

Definition PaymentRequest_Payload (r : PaymentRequest) : PaymentRequestPayload := {|
  prp_ReceiverID := pr_ReceiverID r;
  prp_ReceiverDisplayCard := pr_ReceiverDisplayCard r;
  prp_Amount := pr_Amount r;
  prp_SessionNonce := pr_SessionNonce r;
  prp_IssuedAt := pr_IssuedAt r;
  prp_ExpiresAt := pr_ExpiresAt r;
  prp_ReceiverDevicePubkey := pr_ReceiverDevicePubkey r;
|}.

Definition ErrInvalidPaymentRequest : error := ErrNew "invalid payment request".

Definition PaymentRequestPayload_Validate (p : PaymentRequestPayload) : result unit :=
  let invalid reason := Err (ErrWrap reason ErrInvalidPaymentRequest) in
  if bool_decide (prp_ReceiverID p = "") then invalid "receiver_id required"
  else if negb (bool_decide (dc_UserID (prp_ReceiverDisplayCard p) = prp_ReceiverID p))
  then invalid "display_card.user_id must match receiver_id"
  else if prp_Amount p <? 0 then invalid "amount must be >= 0"
  else if negb (bool_decide (length (prp_SessionNonce p) = SessionNonceSize))
  then invalid "session_nonce must be 16 bytes"
  else if IsZero (prp_IssuedAt p) then invalid "issued_at required"
  else if IsZero (prp_ExpiresAt p) || negb (After (prp_ExpiresAt p) (prp_IssuedAt p))
  then invalid "expires_at must be after issued_at"
  else if bool_decide (prp_ReceiverDevicePubkey p = [])
  then invalid "receiver_device_pubkey required"
  else DisplayCardPayload_Validate (DisplayCard_Payload (prp_ReceiverDisplayCard p)).

Definition PaymentRequestPayload_IsUnbound (p : PaymentRequestPayload) : bool :=
  prp_Amount p =? UnboundAmount.

(** ** Payment tokens (payment.go) *)

Record PaymentToken := {
  pt_PayerID : string;
  pt_PayeeID : string;
  pt_Amount : Z;
  pt_SequenceNumber : Z;
  pt_RemainingCeiling : Z;
  pt_Timestamp : Zoned;
  pt_CeilingTokenID : string;
  pt_SessionNonce : bytes;
  pt_RequestHash : bytes;
  pt_PayerSignature : bytes;
}.

Record PaymentPayload := {
  pp_PayerID : string;
  pp_PayeeID : string;
  pp_Amount : Z;
  pp_SequenceNumber : Z;
  pp_RemainingCeiling : Z;
  pp_Timestamp : Zoned;
  pp_CeilingTokenID : string;
  pp_SessionNonce : bytes;
  pp_RequestHash : bytes;
}.

Definition ErrInvalidPaymentPayload : error := ErrNew "invalid payment payload".

Definition PaymentPayload_Validate (p : PaymentPayload) : result unit :=
  let invalid reason := Err (ErrWrap reason ErrInvalidPaymentPayload) in
  if bool_decide (pp_PayerID p = "") then invalid "payer_id required"
  else if bool_decide (pp_PayeeID p = "") then invalid "payee_id required"
  else if bool_decide (pp_PayerID p = pp_PayeeID p)
  then invalid "payer_id and payee_id must differ"
  else if pp_Amount p <=? 0 then invalid "amount must be positive"
  else if pp_SequenceNumber p <=? 0 then invalid "sequence_number must be positive"
  else if pp_RemainingCeiling p <? 0 then invalid "remaining_ceiling must be non-negative"
  else if IsZero (pp_Timestamp p) then invalid "timestamp required"
  else if bool_decide (pp_CeilingTokenID p = "") then invalid "ceiling_token_id required"
  else if negb (bool_decide (length (pp_SessionNonce p) = SessionNonceSize))
  then invalid "session_nonce must be 16 bytes"
  else if bool_decide (pp_RequestHash p = []) then invalid "request_hash required"
  else Ok tt.

(** ** The payment state machine (transaction.go) *)

Inductive TransactionStatus :=
| TxQueued
| TxSubmitted
| TxPending
| TxSettled
| TxPartiallySettled
| TxRejected
| TxExpired.

#[global] Instance TransactionStatus_eq_dec : EqDecision TransactionStatus.
Proof. solve_decision. Defined.

(** The map literal: [None] is an absent key. *)
Definition ValidTransitions (s : TransactionStatus) : option (list TransactionStatus) :=
  match s with
  | TxQueued => Some [TxSubmitted; TxExpired]
  | TxSubmitted => Some [TxPending; TxRejected]
  | TxPending => Some [TxSettled; TxPartiallySettled; TxRejected]
  | _ => None
  end.

Definition CanTransitionTo (s target : TransactionStatus) : bool :=
  match ValidTransitions s with
  | None => false
  | Some valid => existsb (fun v => bool_decide (v = target)) valid
  end.

Definition IsTerminal (s : TransactionStatus) : bool :=
  match ValidTransitions s with Some _ => false | None => true end.

Record Transaction := {
  t_ID : string;
  t_PayerID : string;
  t_PayeeID : string;
  t_Amount : Z;
  t_SequenceNumber : Z;
  t_CeilingTokenID : string;
  t_Status : TransactionStatus;
  t_SettledAmount : Z;
  t_SettlementBatchID : option string;
  t_RejectionReason : option string;
  t_SubmittedAt : option Time;
  t_SettledAt : option Time;
  t_CreatedAt : Time;
}.

(** ** Settlement batches and results (settlement.go) *)

Inductive SettlementBatchStatus :=
| BatchReceived
| BatchProcessing
| BatchCompleted
| BatchFailed.

#[global] Instance SettlementBatchStatus_eq_dec : EqDecision SettlementBatchStatus.
Proof. solve_decision. Defined.

Record SettlementBatch := {
  sb_ID : string;
  sb_ReceiverID : string;
  sb_TotalSubmitted : Z;
  sb_TotalSettled : Z;
  sb_TotalPartial : Z;
  sb_TotalRejected : Z;
  sb_TotalAmount : Z;
  sb_Status : option SettlementBatchStatus;
  sb_SubmittedAt : Time;
  sb_ProcessedAt : option Time;
  sb_CreatedAt : Time;
}.

(** The zero value [domain.SettlementBatch{}]. *)
Definition SettlementBatch_zero : SettlementBatch := {|
  sb_ID := ""; sb_ReceiverID := ""; sb_TotalSubmitted := 0; sb_TotalSettled := 0;
  sb_TotalPartial := 0; sb_TotalRejected := 0; sb_TotalAmount := 0; sb_Status := None;
  sb_SubmittedAt := time_zero; sb_ProcessedAt := None; sb_CreatedAt := time_zero;
|}.

(** [sr_Status] is [None] for the zero value of the string type. *)
Record SettlementResult := {
  sr_TransactionID : string;
  sr_SequenceNumber : Z;
  sr_SubmittedAmount : Z;
  sr_SettledAmount : Z;
  sr_Status : option TransactionStatus;
  sr_Reason : string;
  sr_ReceiverUserID : string;
}.

(** ** Business events (user_transaction.go) *)

Inductive TransactionKind :=
| TxKindOfflineFund
| TxKindOfflineDrain
| TxKindOfflineExpiryRelease
| TxKindOfflineRecoveryRelease
| TxKindOfflinePaymentSent
| TxKindOfflinePaymentReceived
| TxKindTransferSent
| TxKindTransferReceived
| TxKindDemoMint.

Inductive TransactionLifecycleStatus :=
| TxStatusPending
| TxStatusCompleted
| TxStatusFailed
| TxStatusReversed.

#[global] Instance TransactionKind_eq_dec : EqDecision TransactionKind.
Proof. solve_decision. Defined.
#[global] Instance TransactionLifecycleStatus_eq_dec :
  EqDecision TransactionLifecycleStatus.
Proof. solve_decision. Defined.

(** ** Fraud events (fraud.go) *)

Inductive FraudSignalType :=
| FraudDoubleSpend
| FraudCeilingExhaustion
| FraudGeographicAnomaly
| FraudSequenceAnomaly
| FraudDeviceChange
| FraudVelocityBreach
| FraudSignatureInvalid.

#[global] Instance FraudSignalType_eq_dec : EqDecision FraudSignalType.
Proof. solve_decision. Defined.

Inductive Severity := SevLow | SevMedium | SevHigh | SevCritical.

Record FraudEvent := {
  fe_ID : string;
  fe_UserID : string;
  fe_SignalType : FraudSignalType;
  fe_CeilingTokenID : option string;
  fe_TransactionID : option string;
  fe_Severity : Severity;
  fe_Details : string;
  fe_CreatedAt : Time;
}.

(** ** Transfers (transfer.go) *)

Inductive TransferStatus :=
| StatusAccepted
| StatusProcessing
| StatusSettled
| StatusFailed.

#[global] Instance TransferStatus_eq_dec : EqDecision TransferStatus.
Proof. solve_decision. Defined.

Record Transfer := {
  tr_ID : string;
  tr_SenderUserID : string;
  tr_ReceiverUserID : string;
  tr_SenderDisplayName : option string;
  tr_ReceiverDisplayName : option string;
  tr_ReceiverAccountNumber : string;
  tr_AmountKobo : Z;
  tr_Status : TransferStatus;
  tr_Reference : string;
  tr_FailureReason : option string;
  tr_CreatedAt : Time;
  tr_SettledAt : option Time;
}.

Definition ErrInvalidAmount : error := ErrNew "domain: amount must be positive".
Definition ErrInvalidReference : error := ErrNew "domain: reference must be 1..64 chars".
Definition ErrInvalidAccountNumber : error :=
  ErrNew "domain: account number must be exactly 10 digits".

Definition maxReferenceLen : nat := 64.

Definition ValidateAmount (amount : Z) : result unit :=
  if amount <=? 0 then Err ErrInvalidAmount else Ok tt.

Definition ValidateReference (ref : string) : result unit :=
  if bool_decide (ref = "") || (maxReferenceLen <? String.length ref)%nat
  then Err ErrInvalidReference else Ok tt.

Definition is_digit (c : Ascii.ascii) : bool :=
  let n := Ascii.nat_of_ascii c in (48 <=? n)%nat && (n <=? 57)%nat.

Definition all_digits (s : string) : bool := forallb is_digit (String.list_ascii_of_string s).

(** [MatchString] of the expression [^[0-9]{10}$]. *)
Definition accountNumberRe (n : string) : bool :=
  (String.length n =? 10)%nat && all_digits n.

Definition ValidateAccountNumber (n : string) : result unit :=
  if negb (accountNumberRe n) then Err ErrInvalidAccountNumber else Ok tt.

(** ** Account numbers (user.go) *)

Definition ErrUnsupportedPhoneFormat : error := ErrNew "domain: unsupported phone format".

(** [strings.ReplaceAll(s, string(c), "")]. *)
Fixpoint remove_char (c : Ascii.ascii) (s : string) : string :=
  match s with
  | EmptyString => EmptyString
  | String a rest =>
      if Ascii.eqb a c then remove_char c rest else String a (remove_char c rest)
  end.

(** [strings.HasPrefix] with the remainder. *)
Fixpoint strip_prefix (p s : string) : option string :=
  match p, s with
  | EmptyString, _ => Some s
  | String a p', String b s' => if Ascii.eqb a b then strip_prefix p' s' else None
  | String _ _, EmptyString => None
  end.

(** [MatchString] of the expression [^\+?[0-9]{7,15}$]. *)
Definition phoneE164Re (s : string) : bool :=
  let digits := match strip_prefix "+" s with Some r => r | None => s end in
  (7 <=? String.length digits)%nat && (String.length digits <=? 15)%nat
  && all_digits digits.

Definition AccountNumberFromPhone (phone : string) : result string :=
  let normalized := remove_char "-"%char (remove_char " "%char phone) in
  if bool_decide (normalized = "") then Err ErrUnsupportedPhoneFormat
  else if negb (phoneE164Re normalized) then Err ErrUnsupportedPhoneFormat
  else
    match strip_prefix "+234" normalized with
    | Some rest =>
        if negb (String.length rest =? 10)%nat then Err ErrUnsupportedPhoneFormat
        else Ok rest
    | None =>
        match strip_prefix "0" normalized with
        | Some rest =>
            if (String.length normalized =? 11)%nat then Ok rest
            else Err ErrUnsupportedPhoneFormat
        | None => Err ErrUnsupportedPhoneFormat
        end
    end.

(** ** Outbox envelopes (outbox.go) *)

Definition OutboxAggregateTransfer : string := "transfer".
Definition OutboxAggregateSettlementFinalize : string := "settlement-finalize".
Definition OutboxSubjectTransfer : string := "payments.transfer.v1".
Definition OutboxSubjectSettlementFinalize : string := "payments.settlement.v1".

Record TransferPayload := {
  tp_TransferID : string;
  tp_SenderUserID : string;
  tp_ReceiverUserID : string;
  tp_ReceiverAccountNumber : string;
  tp_AmountKobo : Z;
  tp_Reference : string;
}.

Record FinalizePayerPayload := {
  fp_PayerUserID : string;
  fp_Reason : string;
  fp_EnqueuedAt : Time;
}.

Definition FinalizeReasonClaimAccepted : string := "claim_accepted".
Definition FinalizeReasonSyncRequested : string := "sync_requested".
Definition FinalizeReasonSweep : string := "sweep".

(** ** Gossip blobs (gossip.go) *)

Definition MaxGossipHops : Z := 3.

Record GossipBlob := {
  gb_TransactionHash : bytes;
  gb_EncryptedBlob : bytes;
  gb_BankSignature : bytes;
  gb_CeilingTokenHash : bytes;
  gb_HopCount : Z;
  gb_BlobSize : Z;
}.

Definition ErrInvalidGossipBlob : error := ErrNew "invalid gossip blob".

Definition GossipBlob_Validate (b : GossipBlob) : result unit :=
  let invalid reason := Err (ErrJoin ErrInvalidGossipBlob (ErrNew reason)) in
  if gb_HopCount b <? 0 then invalid "hop_count must be non-negative"
  else if MaxGossipHops <? gb_HopCount b then invalid "hop_count exceeds MaxGossipHops"
  else if gb_BlobSize b <=? 0 then invalid "blob_size must be positive"
  else if bool_decide (gb_EncryptedBlob b = []) then invalid "encrypted_blob required"
  else if negb (Z.of_nat (length (gb_EncryptedBlob b)) =? gb_BlobSize b)
  then invalid "blob_size must match encrypted_blob length"
  else if bool_decide (gb_TransactionHash b = []) then invalid "transaction_hash required"
  else if bool_decide (gb_CeilingTokenHash b = []) then invalid "ceiling_token_hash required"
  else if bool_decide (gb_BankSignature b = []) then invalid "bank_signature required"
  else Ok tt.

(** ** Reconciliation records (reconciliation.go) *)

Inductive ReconciliationType := ReconPayer | ReconMerchant | ReconLedger.
Inductive ReconciliationStatus := ReconClean | ReconDiscrepancy | ReconInProgress.

#[global] Instance ReconciliationStatus_eq_dec : EqDecision ReconciliationStatus.
Proof. solve_decision. Defined.

Record Discrepancy := {
  ds_TransactionID : string;
  ds_Field : string;
  ds_Expected : string;
  ds_Actual : string;
  ds_Severity : string;
}.

Record ReconciliationRecord := {
  rr_ID : string;
  rr_Type : ReconciliationType;
  rr_EntityID : string;
  rr_RunAt : Time;
  rr_Status : ReconciliationStatus;
  rr_Discrepancies : list Discrepancy;
  rr_CreatedAt : Time;
}.
