(* ===== verification/Json.v ===== *)
(** * JSON values, encoding/json and the canonical encoder (internal/crypto/canonical.go)

    JSON trees, what [encoding/json] makes of the Go values the backend encodes
    (strings, byte slices, instants, 64-bit integers), and the canonical writer
    whose output is signed and hashed. *)

From Stdlib Require Import Ascii Strings.Byte.
From S2P Require Import Prelude.

#[local] Set Warnings "-register-all".
#[local] Open Scope string_scope.
#[local] Open Scope Z_scope.

(** Numbers are kept as integers: every number the backend encodes is an [int] or an
    [int64]. *)
Inductive json :=
| JNull
| JBool (b : bool)
| JNum (z : Z)
| JStr (s : string)
| JArr (xs : list json)
| JObj (fields : list (string * json)).

(** The value a decoded object holds for a key; as in Go, the last one wins. *)
Definition jfield (k : string) (fields : list (string * json)) : option json :=
  snd <$> last (List.filter (fun kv => bool_decide (kv.1 = k)) fields).

(** ** Text of Go values *)

Definition char (n : Z) : ascii := ascii_of_N (Z.to_N n).
Definition code (a : ascii) : Z := Z.of_N (N_of_ascii a).

(** The [n] last decimal digits of [z]. *)
Fixpoint digits (n : nat) (z : Z) : string :=
  match n with
  | O => ""
  | S n' => digits n' (z / 10) ++ String (char (48 + z mod 10)) ""
  end.

(** [strings.TrimRight(s, "0")]. *)
Fixpoint trim_zeros (s : string) : string :=
  match s with
  | EmptyString => EmptyString
  | String a rest =>
      match trim_zeros rest with
      | EmptyString => if Ascii.eqb a "0"%char then EmptyString else String a ""
      | rest' => String a rest'
      end
  end.

(** The proleptic Gregorian date of a day number counted from 1970-01-01. *)
Definition civil_from_days (days : Z) : Z * Z * Z :=
  let z := days + 719468 in
  let era := z / 146097 in
  let doe := z mod 146097 in
  let yoe := (doe - doe / 1460 + doe / 36524 - doe / 146096) / 365 in
  let doy := doe - (365 * yoe + yoe / 4 - yoe / 100) in
  let mp := (5 * doy + 2) / 153 in
  let d := doy - (153 * mp + 2) / 5 + 1 in
  let m := if mp <? 10 then mp + 3 else mp - 9 in
  (yoe + era * 400 + (if m <=? 2 then 1 else 0), m, d).

(** [Z07:00]: the offset as it is written. *)
Definition zone_text (minutes : Z) : string :=
  if minutes =? 0 then "Z"
  else String (if minutes <? 0 then "-"%char else "+"%char)
         (digits 2 (Z.abs minutes / 60) ++ ":" ++ digits 2 (Z.abs minutes mod 60)).

(** [t.Format(time.RFC3339Nano)]: the wall clock, then the offset. *)
Definition rfc3339nano (t : Zoned) : string :=
  let secs := wall t / Second in
  let nanos := wall t mod Second in
  let '(y, m, d) := civil_from_days (secs / 86400) in
  let sod := secs mod 86400 in
  digits 4 y ++ "-" ++ digits 2 m ++ "-" ++ digits 2 d ++ "T"
  ++ digits 2 (sod / 3600) ++ ":" ++ digits 2 (sod / 60 mod 60) ++ ":"
  ++ digits 2 (sod mod 60)
  ++ (if nanos =? 0 then "" else "." ++ trim_zeros (digits 9 nanos)) ++ zone_text (zone t).

(** [time.Time.MarshalJSON] refuses years outside 0..9999, by the wall clock, and offsets of a
    day or more. *)
Definition marshal_time (t : Zoned) : result json :=
  let '(y, _, _) := civil_from_days (wall t / Second / 86400) in
  if (y <? 0) || (9999 <? y)
  then Err (ErrNew "Time.MarshalJSON: year outside of range [0,9999]")
  else if 1440 <=? Z.abs (zone t)
  then Err (ErrNew "Time.MarshalJSON: timezone hour outside of range [0,23]")
  else Ok (JStr (rfc3339nano t)).

(** [base64.StdEncoding]. *)
Definition b64_char (n : Z) : ascii :=
  char (if n <? 26 then 65 + n
        else if n <? 52 then 97 + (n - 26)
        else if n <? 62 then 48 + (n - 52)
        else if n =? 62 then 43 else 47).

Definition byte_code (b : byte) : Z := Z.of_N (Byte.to_N b).

Fixpoint base64 (bs : bytes) : string :=
  match bs with
  | [] => ""
  | [a] =>
      let x := byte_code a in
      String (b64_char (x / 4)) (String (b64_char (x mod 4 * 16)) "==")
  | [a; b] =>
      let x := byte_code a in let y := byte_code b in
      String (b64_char (x / 4)) (String (b64_char (x mod 4 * 16 + y / 16))
        (String (b64_char (y mod 16 * 4)) "="))
  | a :: b :: c :: rest =>
      let x := byte_code a in let y := byte_code b in let z := byte_code c in
      String (b64_char (x / 4)) (String (b64_char (x mod 4 * 16 + y / 16))
        (String (b64_char (y mod 16 * 4 + z / 64)) (String (b64_char (z mod 64))
          (base64 rest))))
  end.

(** A slice of length zero is taken to be nil, which encodes as [null]. *)
Definition marshal_bytes (bs : bytes) : json :=
  match bs with [] => JNull | _ => JStr (base64 bs) end.

(** ** Strings *)

Definition in_range (lo hi : Z) (a : ascii) : bool := (lo <=? code a) && (code a <=? hi).
Definition is_cont : ascii -> bool := in_range 128 191.

(** The length of the UTF-8 sequence at the head of a byte string; 0 when the
    head is not a valid sequence ([utf8.DecodeRune]). *)
Definition rune_len (s : list ascii) : nat :=
  match s with
  | [] => 0%nat
  | a :: rest =>
      if code a <? 128 then 1%nat
      else match rest with
      | b :: rest1 =>
          if in_range 194 223 a && is_cont b then 2%nat
          else match rest1 with
          | c :: rest2 =>
              if ((code a =? 224) && in_range 160 191 b
                  || (code a =? 237) && in_range 128 159 b
                  || (in_range 225 236 a || in_range 238 239 a) && is_cont b)
                 && is_cont c then 3%nat
              else match rest2 with
              | d :: _ =>
                  if ((code a =? 240) && in_range 144 191 b
                      || (code a =? 244) && in_range 128 143 b
                      || in_range 241 243 a && is_cont b)
                     && is_cont c && is_cont d then 4%nat
                  else 0%nat
              | [] => 0%nat
              end
          | [] => 0%nat
          end
      | [] => 0%nat
      end
  end.

(** What a Go string becomes when it is encoded and decoded again: every byte that
    is not part of a valid sequence turns into U+FFFD. *)
Fixpoint sanitize_go (fuel : nat) (s : list ascii) : list ascii :=
  match fuel with
  | O => []
  | S fuel' =>
      match s, rune_len s with
      | [], _ => []
      | a :: rest, O => [char 239; char 191; char 189] ++ sanitize_go fuel' rest
      | _, n => take n s ++ sanitize_go fuel' (drop n s)
      end
  end.

Definition sanitize (s : string) : string :=
  let l := String.list_ascii_of_string s in
  String.string_of_list_ascii (sanitize_go (length l) l).

Definition marshal_string (s : string) : json := JStr (sanitize s).

Definition hex_digit (n : Z) : ascii := char (if n <? 10 then 48 + n else 87 + n).

Definition quote : ascii := char 34.
Definition backslash : ascii := char 92.

(** [appendString] with HTML escaping, as [json.Marshal] does, on one byte below
    0x80. *)
Definition escape_byte (a : ascii) : string :=
  let esc c := String backslash (String c "") in
  let n := code a in
  if n =? 34 then esc quote
  else if n =? 92 then esc backslash
  else if n =? 8 then esc "b"%char
  else if n =? 12 then esc "f"%char
  else if n =? 10 then esc "n"%char
  else if n =? 13 then esc "r"%char
  else if n =? 9 then esc "t"%char
  else if (n <? 32) || (n =? 60) || (n =? 62) || (n =? 38) then
    String backslash ("u00" ++ String (hex_digit (n / 16)) (String (hex_digit (n mod 16)) ""))
  else String a "".

Fixpoint escape (s : string) : string :=
  match s with
  | EmptyString => ""
  | String a ((String b (String c rest)) as tail) =>
      if (code a =? 226) && (code b =? 128) && ((code c =? 168) || (code c =? 169))
      then String backslash ("u202" ++ String (hex_digit (code c mod 16)) (escape rest))
      else escape_byte a ++ escape tail
  | String a tail => escape_byte a ++ escape tail
  end.

Definition quoted (s : string) : string := String quote (escape s ++ String quote "").

(** ** The canonical writer (canonical.go) *)

(** [sort.Strings] orders by bytes. *)
Fixpoint string_leb (s t : string) : bool :=
  match s, t with
  | EmptyString, _ => true
  | String _ _, EmptyString => false
  | String a s', String b t' =>
      (code a <? code b) || ((code a =? code b) && string_leb s' t')
  end.

Fixpoint insert_key {A} (k : string) (v : A) (l : list (string * A)) : list (string * A) :=
  match l with
  | [] => [(k, v)]
  | (k', v') :: rest =>
      if string_leb k k' then (k, v) :: l else (k', v') :: insert_key k v rest
  end.

(** The keys of a decoded object in sorted order, with their values. *)
Definition sort_keys {A} (l : list (string * A)) : list (string * A) :=
  foldr (fun kv acc => insert_key kv.1 kv.2 acc) [] l.

Definition join_comma (xs : list string) : string :=
  match xs with
  | [] => ""
  | x :: rest => x ++ foldr (fun y acc => "," ++ y ++ acc) "" rest
  end.

Fixpoint writeCanonical (v : json) : string :=
  match v with
  | JNull => "null"
  | JBool true => "true"
  | JBool false => "false"
  | JNum z => pretty z
  | JStr s => quoted s
  | JArr xs => "[" ++ join_comma (map writeCanonical xs) ++ "]"
  | JObj fields =>
      let written := map (fun kv => (kv.1, writeCanonical kv.2)) fields in
      "{" ++ join_comma (map (fun kv => quoted kv.1 ++ ":" ++ kv.2) (sort_keys written))
      ++ "}"
  end.

Definition Canonicalize (v : result json) : result string := result_map writeCanonical v.
