(* ===== verification/Crypto.v ===== *)
(** * Signing and verifying tokens (internal/crypto/ed25519.go)

    The signable payloads as JSON trees, their canonical text, and the sign,
    verify and hash functions over it.  Ed25519 and SHA-256 themselves
    ([crypto/ed25519], [crypto/sha256]) are the interface [Ed25519]. *)

From S2P Require Import Prelude Domain Json.

(** What the code relies on from the primitives: a signature made with the private
    half of a key verifies under its public half, over the same message. *)
Class Ed25519 := {
  ed_sign : bytes -> string -> bytes;
  ed_verify : bytes -> string -> bytes -> bool;
  ed_public : bytes -> bytes;
  sha256 : string -> bytes;
}.

Class Ed25519Laws (C : Ed25519) : Prop := {
  ed_verify_sign priv msg :
    ed_verify (ed_public priv) msg (ed_sign priv msg) = true;
}.

(** [ed25519.PrivateKeySize]. *)
Definition PrivateKeySize : nat := 64.

(** ** Payloads on the wire: the struct fields with their [json] tags *)

Definition json_object (fields : list (string * result json)) : result json :=
  result_map JObj
    (foldr (fun kv acc => try rest := acc in try v := kv.2 in Ok ((kv.1, v) :: rest))
      (Ok []) fields).

Definition js (s : string) : result json := Ok (marshal_string s).
Definition jn (z : Z) : result json := Ok (JNum z).
Definition jb (b : bytes) : result json := Ok (marshal_bytes b).

Definition CeilingTokenPayload_json (p : CeilingTokenPayload) : result json :=
  json_object [
    ("payer_id", js (ctp_PayerID p));
    ("ceiling_amount", jn (ctp_CeilingAmount p));
    ("issued_at", marshal_time (ctp_IssuedAt p));
    ("expires_at", marshal_time (ctp_ExpiresAt p));
    ("sequence_start", jn (ctp_SequenceStart p));
    ("public_key", jb (ctp_PayerPublicKey p));
    ("bank_key_id", js (ctp_BankKeyID p))].

Definition PaymentPayload_json (p : PaymentPayload) : result json :=
  json_object [
    ("payer_id", js (pp_PayerID p));
    ("payee_id", js (pp_PayeeID p));
    ("amount", jn (pp_Amount p));
    ("sequence_number", jn (pp_SequenceNumber p));
    ("remaining_ceiling", jn (pp_RemainingCeiling p));
    ("timestamp", marshal_time (pp_Timestamp p));
    ("ceiling_token_id", js (pp_CeilingTokenID p));
    ("session_nonce", jb (pp_SessionNonce p));
    ("request_hash", jb (pp_RequestHash p))].

Definition DisplayCardPayload_json (p : DisplayCardPayload) : result json :=
  json_object [
    ("user_id", js (dcp_UserID p));
    ("display_name", js (dcp_DisplayName p));
    ("account_number", js (dcp_AccountNumber p));
    ("issued_at", marshal_time (dcp_IssuedAt p));
    ("bank_key_id", js (dcp_BankKeyID p))].

Definition DisplayCard_json (d : DisplayCard) : result json :=
  json_object [
    ("user_id", js (dc_UserID d));
    ("display_name", js (dc_DisplayName d));
    ("account_number", js (dc_AccountNumber d));
    ("issued_at", marshal_time (dc_IssuedAt d));
    ("bank_key_id", js (dc_BankKeyID d));
    ("server_signature", jb (dc_ServerSignature d))].

Definition PaymentRequestPayload_json (p : PaymentRequestPayload) : result json :=
  json_object [
    ("receiver_id", js (prp_ReceiverID p));
    ("receiver_display_card", DisplayCard_json (prp_ReceiverDisplayCard p));
    ("amount", jn (prp_Amount p));
    ("session_nonce", jb (prp_SessionNonce p));
    ("issued_at", marshal_time (prp_IssuedAt p));
    ("expires_at", marshal_time (prp_ExpiresAt p));
    ("receiver_device_pubkey", jb (prp_ReceiverDevicePubkey p))].

Definition PaymentRequest_json (r : PaymentRequest) : result json :=
  json_object [
    ("receiver_id", js (pr_ReceiverID r));
    ("receiver_display_card", DisplayCard_json (pr_ReceiverDisplayCard r));
    ("amount", jn (pr_Amount r));
    ("session_nonce", jb (pr_SessionNonce r));
    ("issued_at", marshal_time (pr_IssuedAt r));
    ("expires_at", marshal_time (pr_ExpiresAt r));
    ("receiver_device_pubkey", jb (pr_ReceiverDevicePubkey r));
    ("receiver_signature", jb (pr_ReceiverSignature r))].

Definition ErrBadSignature : error := ErrNew "ed25519: bad signature".

Section Signatures.
Context {C : Ed25519}.

(** [signer.Sign(ctx, keyID, msg)] of an out-of-process signer. *)
Definition Signer : Type := string -> string -> result bytes.

Definition sign_with (priv : bytes) (validated : result unit) (v : result json)
  : result bytes :=
  try _ := validated in
  try msg := Canonicalize v in
  Ok (ed_sign priv msg).

Definition sign_with_signer (signer : Signer) (keyID : string) (validated : result unit)
  (v : result json) : result bytes :=
  try _ := validated in
  try msg := Canonicalize v in
  signer keyID msg.

Definition verify_with (pub : bytes) (v : result json) (sig : bytes) : result unit :=
  try msg := Canonicalize v in
  if negb (ed_verify pub msg sig) then Err ErrBadSignature else Ok tt.

Definition SignCeiling (priv : bytes) (p : CeilingTokenPayload) : result bytes :=
  sign_with priv (CeilingTokenPayload_Validate p) (CeilingTokenPayload_json p).
Definition SignCeilingWithSigner (signer : Signer) (keyID : string)
  (p : CeilingTokenPayload) : result bytes :=
  sign_with_signer signer keyID (CeilingTokenPayload_Validate p) (CeilingTokenPayload_json p).
Definition VerifyCeiling (pub : bytes) (p : CeilingTokenPayload) (sig : bytes) : result unit :=
  verify_with pub (CeilingTokenPayload_json p) sig.

Definition SignPayment (priv : bytes) (p : PaymentPayload) : result bytes :=
  sign_with priv (PaymentPayload_Validate p) (PaymentPayload_json p).
Definition VerifyPayment (pub : bytes) (p : PaymentPayload) (sig : bytes) : result unit :=
  verify_with pub (PaymentPayload_json p) sig.

Definition SignDisplayCard (priv : bytes) (p : DisplayCardPayload) : result bytes :=
  sign_with priv (DisplayCardPayload_Validate p) (DisplayCardPayload_json p).
Definition SignDisplayCardWithSigner (signer : Signer) (keyID : string)
  (p : DisplayCardPayload) : result bytes :=
  sign_with_signer signer keyID (DisplayCardPayload_Validate p) (DisplayCardPayload_json p).
Definition VerifyDisplayCard (pub : bytes) (p : DisplayCardPayload) (sig : bytes)
  : result unit :=
  verify_with pub (DisplayCardPayload_json p) sig.

Definition SignRequest (priv : bytes) (p : PaymentRequestPayload) : result bytes :=
  sign_with priv (PaymentRequestPayload_Validate p) (PaymentRequestPayload_json p).
Definition VerifyRequest (pub : bytes) (p : PaymentRequestPayload) (sig : bytes)
  : result unit :=
  verify_with pub (PaymentRequestPayload_json p) sig.

Definition HashRequest (r : PaymentRequest) : result bytes :=
  result_map sha256 (Canonicalize (PaymentRequest_json r)).

(** *** What is signed verifies *)

Context {HC : Ed25519Laws C}.

Lemma verify_sign_with priv validated v sig :
  sign_with priv validated v = Ok sig -> verify_with (ed_public priv) v sig = Ok tt.
Proof.
  unfold sign_with, verify_with. intros H.
  apply result_bind_ok in H as ([] & _ & H).
  apply result_bind_ok in H as (msg & -> & [= <-]). cbn.
  by rewrite ed_verify_sign.
Qed.

Lemma sign_with_validated priv validated v sig :
  sign_with priv validated v = Ok sig -> validated = Ok tt.
Proof. intros H. by apply result_bind_ok in H as ([] & ? & _). Qed.

End Signatures.
