(* ===== verification/Store.v ===== *)
(** * The PostgreSQL schema and its statements (db/migrations, internal/repository/sqlcgen)

    The tables the services share, as finite maps from primary keys to rows, and
    every SQL statement they send as a pure function from the server's [now()]
    and the database to a result and the new database.  The schema's
    constraints (primary keys, CHECKs, unique indexes, foreign keys, the range
    of BIGINT, the precision of timestamptz and the deferred ledger trigger)
    are part of the statements. *)

From Stdlib Require Import Ascii.
From S2P Require Import Prelude Float Domain Json.

(** ** Generic table lemmas *)

Section Tables.
Context {A : Type}.
Implicit Types m : gmap string A.

(** The rows of a table that satisfy a WHERE clause. *)
Definition rows_where (P : string -> A -> bool) m : list (string * A) :=
  List.filter (fun kv => P kv.1 kv.2) (map_to_list m).

(** A [:one] query: the first row, or [pgx.ErrNoRows]. *)
Definition first_row (P : string -> A -> bool) m : result (string * A) :=
  match rows_where P m with
  | [] => Err ErrNoRows
  | kv :: _ => Ok kv
  end.

Definition exists_row (P : string -> A -> bool) m : bool :=
  match rows_where P m with [] => false | _ :: _ => true end.

(** [SELECT SUM(f)] over a table. *)
Definition sum_rows (f : string -> A -> Z) m : Z :=
  map_fold (fun k a acc => f k a + acc) 0 m.

Lemma elem_of_rows_where P m k a :
  (k, a) ∈ rows_where P m <-> m !! k = Some a /\ P k a = true.
Proof.
  unfold rows_where. rewrite list_elem_of_In, filter_In, <- list_elem_of_In.
  rewrite elem_of_map_to_list. cbn. tauto.
Qed.

Lemma rows_where_NoDup P m : NoDup (rows_where P m).*1.
Proof.
  unfold rows_where. pose proof (NoDup_fst_map_to_list m) as H.
  induction (map_to_list m) as [|[k a] l IH]; cbn in *; [constructor|].
  apply NoDup_cons in H as [H1 H2]. destruct (P k a); cbn; [|by apply IH].
  constructor; [|by apply IH]. intros Hin. apply H1.
  apply list_elem_of_fmap in Hin as ([k' a'] & -> & Hin).
  apply list_elem_of_In, filter_In in Hin as [Hin _]. apply list_elem_of_In in Hin.
  apply list_elem_of_fmap. by exists (k', a').
Qed.

Lemma first_row_ok P m k a :
  first_row P m = Ok (k, a) -> m !! k = Some a /\ P k a = true.
Proof.
  unfold first_row. destruct (rows_where P m) as [|kv l] eqn:H; [discriminate|].
  intros [= ->]. apply elem_of_rows_where. rewrite H. left.
Qed.

Lemma first_row_err P m e :
  first_row P m = Err e ->
  e = ErrNoRows /\ forall k a, m !! k = Some a -> P k a = false.
Proof.
  unfold first_row. destruct (rows_where P m) as [|kv l] eqn:H; [|discriminate].
  intros [= <-]. split; [done|]. intros k a Hk.
  destruct (P k a) eqn:HP; [|done].
  assert ((k, a) ∈ rows_where P m) as Hin by (by apply elem_of_rows_where).
  rewrite H in Hin. by apply not_elem_of_nil in Hin.
Qed.

Lemma first_row_unique P m k a :
  m !! k = Some a -> P k a = true ->
  (forall k' a', m !! k' = Some a' -> P k' a' = true -> k' = k) ->
  first_row P m = Ok (k, a).
Proof.
  intros Hk HP Hu. destruct (first_row P m) as [[k' a']|e] eqn:H.
  - apply first_row_ok in H as [Hk' HP']. rewrite (Hu k' a' Hk' HP') in Hk' |- *.
    congruence.
  - apply first_row_err in H as [_ H]. rewrite (H k a Hk) in HP. discriminate.
Qed.

Lemma exists_row_true P m :
  exists_row P m = true <-> exists k a, m !! k = Some a /\ P k a = true.
Proof.
  unfold exists_row. destruct (rows_where P m) as [|[k a] l] eqn:H.
  - split; [discriminate|]. intros (k & a & Hk).
    apply elem_of_rows_where in Hk. rewrite H in Hk. by apply not_elem_of_nil in Hk.
  - split; [intros _|done]. exists k, a. apply elem_of_rows_where. rewrite H. left.
Qed.

Lemma exists_row_false P m :
  exists_row P m = false <-> forall k a, m !! k = Some a -> P k a = false.
Proof.
  rewrite <- not_true_iff_false, exists_row_true. split.
  - intros H k a Hk. destruct (P k a) eqn:HP; [|done]. exfalso. eauto.
  - intros H (k & a & Hk & HP). rewrite (H k a Hk) in HP. discriminate.
Qed.

Lemma sum_rows_empty f : sum_rows f ∅ = 0.
Proof. apply map_fold_empty. Qed.

Lemma sum_rows_fresh f m k a :
  m !! k = None -> sum_rows f (<[k:=a]> m) = f k a + sum_rows f m.
Proof.
  intros H. unfold sum_rows.
  rewrite (map_fold_insert_L (fun k a acc => f k a + acc)); [done| |done].
  intros. lia.
Qed.

Lemma sum_rows_delete f m k a :
  m !! k = Some a -> sum_rows f m = f k a + sum_rows f (delete k m).
Proof.
  intros H. rewrite <- (insert_delete_id m k a H) at 1.
  apply sum_rows_fresh, lookup_delete_eq.
Qed.

Lemma sum_rows_update f m k a b :
  m !! k = Some a -> sum_rows f (<[k:=b]> m) = sum_rows f m - f k a + f k b.
Proof.
  intros H. rewrite (sum_rows_delete f m k a H).
  rewrite <- insert_delete_eq, sum_rows_fresh by apply lookup_delete_eq. lia.
Qed.

Lemma sum_rows_ext f g m :
  (forall k a, m !! k = Some a -> f k a = g k a) -> sum_rows f m = sum_rows g m.
Proof.
  induction m as [|k a m Hk IH] using map_ind; intros H; [by rewrite !sum_rows_empty|].
  rewrite !sum_rows_fresh by done. rewrite H by apply lookup_insert_eq. f_equal.
  apply IH. intros k' a' Hk'. apply H. rewrite lookup_insert_ne; [done|congruence].
Qed.

Lemma sum_rows_add f g m :
  sum_rows (fun k a => f k a + g k a) m = sum_rows f m + sum_rows g m.
Proof.
  induction m as [|k a m Hk IH] using map_ind; [by rewrite !sum_rows_empty|].
  rewrite !sum_rows_fresh, IH by done. lia.
Qed.

Lemma sum_rows_zero f m :
  (forall k a, m !! k = Some a -> f k a = 0) -> sum_rows f m = 0.
Proof.
  induction m as [|k a m Hk IH] using map_ind; intros H; [apply sum_rows_empty|].
  rewrite sum_rows_fresh by done. rewrite IH, (H k a); [done|apply lookup_insert_eq|].
  intros k' a' Hk'. apply (H k' a'). rewrite lookup_insert_ne; [done|congruence].
Qed.

Lemma sum_rows_nonneg f m :
  (forall k a, m !! k = Some a -> 0 <= f k a) -> 0 <= sum_rows f m.
Proof.
  induction m as [|k a m Hk IH] using map_ind; intros H; [by rewrite sum_rows_empty|].
  rewrite sum_rows_fresh by done.
  assert (0 <= f k a) by (apply H, lookup_insert_eq).
  assert (0 <= sum_rows f m); [|lia].
  apply IH. intros k' a' Hk'. apply (H k' a'). rewrite lookup_insert_ne; [done|congruence].
Qed.

Lemma sum_rows_le f g m :
  (forall k a, m !! k = Some a -> f k a <= g k a) -> sum_rows f m <= sum_rows g m.
Proof.
  intros H. assert (0 <= sum_rows (fun k a => g k a + - f k a) m) as Hn.
  { apply sum_rows_nonneg. intros k a Hk. specialize (H k a Hk). lia. }
  rewrite sum_rows_add in Hn.
  assert (sum_rows (fun k a => - f k a) m = - sum_rows f m) as Ho; [|lia]. clear.
  induction m as [|k a m Hk IH] using map_ind; [by rewrite !sum_rows_empty|].
  rewrite !sum_rows_fresh by done. lia.
Qed.

Lemma sum_rows_ge f m k a :
  (forall k a, m !! k = Some a -> 0 <= f k a) -> m !! k = Some a -> f k a <= sum_rows f m.
Proof.
  intros H Hk. rewrite (sum_rows_delete f m k a Hk).
  assert (0 <= sum_rows f (delete k m)); [|lia].
  apply sum_rows_nonneg. intros k' a' Hk'. apply (H k' a').
  by apply lookup_delete_Some in Hk' as [_ ?].
Qed.

End Tables.

(** ** Tables *)

Inductive AccountKind :=
| AccountKindMain
| AccountKindLienHolding
| AccountKindReceivingPending
| AccountKindSuspense.

#[global] Instance AccountKind_eq_dec : EqDecision AccountKind.
Proof. solve_decision. Defined.

Inductive LedgerDirection := LedgerDirectionDEBIT | LedgerDirectionCREDIT.

#[global] Instance LedgerDirection_eq_dec : EqDecision LedgerDirection.
Proof. solve_decision. Defined.

Record User := {
  u_Phone : string;
  u_AccountNumber : string;
  u_Bvn : option string;
  u_KycTier : string;
  u_RealmKeyVersion : Z;
  u_FirstName : string;
  u_LastName : string;
  u_Email : string;
  u_PasswordHash : string;
  u_EmailVerified : bool;
  u_CreatedAt : Time;
  u_UpdatedAt : Time;
}.

Record Account := {
  a_UserID : string;
  a_Kind : AccountKind;
  a_BalanceKobo : Z;
}.

Record LedgerEntry := {
  le_ID : string;
  le_TxnID : string;
  le_AccountID : string;
  le_Direction : LedgerDirection;
  le_AmountKobo : Z;
  le_Memo : option string;
}.

Record SigningKey := {
  sk_UserID : string;
  sk_PublicKey : bytes;
  sk_Active : bool;
  sk_RotatedAt : option Time;
}.

Record CeilingRow := {
  c_PayerUserID : string;
  c_CeilingKobo : Z;
  c_SequenceStart : Z;
  c_IssuedAt : Time;
  c_ExpiresAt : Time;
  c_PayerPubkey : bytes;
  c_BankKeyID : string;
  c_BankSig : bytes;
  c_Status : CeilingStatus;
  c_LienAccountID : string;
  c_CreatedAt : Time;
  c_ReleaseAfter : option Time;
}.

Record PaymentRow := {
  p_CeilingID : string;
  p_PayerUserID : string;
  p_PayeeUserID : string;
  p_AmountKobo : Z;
  p_SequenceNumber : Z;
  p_RemainingCeilingKobo : Z;
  p_SettledAmountKobo : Z;
  p_SignedAt : Time;
  p_PayerSig : bytes;
  p_Status : TransactionStatus;
  p_RejectionReason : option string;
  p_SettlementBatchID : option string;
  p_SubmittedAt : option Time;
  p_SettledAt : option Time;
  p_CreatedAt : Time;
  p_UpdatedAt : Time;
  p_SessionNonce : bytes;
  p_RequestHash : bytes;
  p_RequestAmountKobo : Z;
  p_SubmittedByUserID : option string;
}.

Record TxnRow := {
  x_UserID : string;
  x_CounterpartyUserID : option string;
  x_Kind : TransactionKind;
  x_Status : TransactionLifecycleStatus;
  x_Direction : LedgerDirection;
  x_AmountKobo : Z;
  x_SettledAmountKobo : option Z;
  x_Memo : option string;
  x_PaymentTokenID : option string;
  x_TransferID : option string;
  x_CeilingID : option string;
  x_GroupID : string;
  x_FailureReason : option string;
  x_CreatedAt : Time;
  x_UpdatedAt : Time;
}.

Record TransferRow := {
  f_SenderUserID : string;
  f_ReceiverUserID : string;
  f_ReceiverAccountNumber : string;
  f_AmountKobo : Z;
  f_Status : TransferStatus;
  f_Reference : string;
  f_FailureReason : option string;
  f_Flagged : bool;
  f_CreatedAt : Time;
  f_SettledAt : option Time;
}.

Record OutboxRow := {
  o_Aggregate : string;
  o_AggregateID : string;
  o_Payload : json;
  o_CreatedAt : Time;
  o_DispatchedAt : option Time;
  o_Attempts : Z;
  o_NextAttemptAt : Time;
}.

Record FraudSignalRow := {
  g_UserID : string;
  g_SignalType : FraudSignalType;
  g_CeilingTokenID : option string;
  g_TransactionID : option string;
  g_Details : string;
  g_Severity : Severity;
  g_Weight : float;
  g_CreatedAt : Time;
}.

Record FraudScoreRow := {
  fs_TransferID : string;
  fs_SenderID : string;
  fs_Decision : string;
  fs_Rule : option string;
  fs_Reason : option string;
  fs_RuleHits : json;
  fs_AmountKobo : Z;
  fs_CreatedAt : Time;
}.

Record KycSubmissionRow := {
  ks_UserID : string;
  ks_IDType : string;
  ks_IDNumber : string;
  ks_Status : string;
  ks_RejectionReason : option string;
  ks_TierGranted : option string;
  ks_SubmittedBy : option string;
  ks_SubmittedAt : Time;
  ks_VerifiedAt : option Time;
}.

(** Refresh sessions, one-time-code challenges and transaction PINs (migrations 0002
    and 0015). *)
Record SessionRow := {
  us_UserID : string;
  us_RefreshHash : string;
  us_UserAgent : string;
  us_Ip : string;
  us_DeviceID : option string;
  us_CreatedAt : Time;
  us_ExpiresAt : Time;
  us_RevokedAt : option Time;
}.

Record OtpRow := {
  oc_CodeHash : string;
  oc_Attempts : Z;
  oc_CreatedAt : Time;
  oc_ExpiresAt : Time;
  oc_ConsumedAt : option Time;
}.

Record PinRow := {
  pn_PinHash : string;
  pn_Attempts : Z;
  pn_LockedAt : option Time;
  pn_CreatedAt : Time;
  pn_UpdatedAt : Time;
}.

(** Devices and realm keys (migrations devices and realm_keys). *)
Record DeviceRow := {
  dv_UserID : string;
  dv_AttestationBlob : bytes;
  dv_PublicKey : bytes;
  dv_Active : bool;
  dv_LastSeenAt : option Time;
  dv_CreatedAt : Time;
  dv_UpdatedAt : Time;
}.

Record RealmKeyRow := {
  rk_KeyEnc : bytes;
  rk_ActiveFrom : Time;
  rk_RetiredAt : option Time;
  rk_CreatedAt : Time;
}.

Record db := {
  users : gmap string User;
  accounts : gmap string Account;
  ledger_entries : list LedgerEntry;
  signing_keys : gmap string SigningKey;
  bank_signing_keys : gmap string BankSigningKey;
  ceiling_tokens : gmap string CeilingRow;
  payment_tokens : gmap string PaymentRow;
  transactions : gmap string TxnRow;
  transfers : gmap string TransferRow;
  outbox : gmap string OutboxRow;
  processed_events : gmap string string;
  fraud_signals : gmap string FraudSignalRow;
  reconciliation_runs : gmap string ReconciliationRecord;
  fraud_scores : gmap string FraudScoreRow;
  kyc_submissions : gmap string KycSubmissionRow;
  user_sessions : gmap string SessionRow;
  otp_challenges : gmap (string * string) OtpRow;
  user_pins : gmap string PinRow;
  devices : gmap string DeviceRow;
  realm_keys : gmap Z RealmKeyRow;
}.

Definition db_empty : db := {|
  users := ∅; accounts := ∅; ledger_entries := []; signing_keys := ∅;
  bank_signing_keys := ∅; ceiling_tokens := ∅; payment_tokens := ∅;
  transactions := ∅; transfers := ∅; outbox := ∅; processed_events := ∅;
  fraud_signals := ∅; reconciliation_runs := ∅; fraud_scores := ∅; kyc_submissions := ∅;
  user_sessions := ∅; otp_challenges := ∅; user_pins := ∅; devices := ∅;
  realm_keys := ∅;
|}.

(** The record with one table replaced. *)
Definition with_users v (d : db) : db := {|
  users := v; accounts := accounts d; ledger_entries := ledger_entries d;
  signing_keys := signing_keys d; bank_signing_keys := bank_signing_keys d;
  ceiling_tokens := ceiling_tokens d; payment_tokens := payment_tokens d;
  transactions := transactions d; transfers := transfers d; outbox := outbox d;
  processed_events := processed_events d; fraud_signals := fraud_signals d;
  reconciliation_runs := reconciliation_runs d;
  fraud_scores := fraud_scores d; kyc_submissions := kyc_submissions d;
  user_sessions := user_sessions d; otp_challenges := otp_challenges d;
  user_pins := user_pins d; devices := devices d; realm_keys := realm_keys d;
|}.
Definition with_accounts v (d : db) : db := {|
  users := users d; accounts := v; ledger_entries := ledger_entries d;
  signing_keys := signing_keys d; bank_signing_keys := bank_signing_keys d;
  ceiling_tokens := ceiling_tokens d; payment_tokens := payment_tokens d;
  transactions := transactions d; transfers := transfers d; outbox := outbox d;
  processed_events := processed_events d; fraud_signals := fraud_signals d;
  reconciliation_runs := reconciliation_runs d;
  fraud_scores := fraud_scores d; kyc_submissions := kyc_submissions d;
  user_sessions := user_sessions d; otp_challenges := otp_challenges d;
  user_pins := user_pins d; devices := devices d; realm_keys := realm_keys d;
|}.
Definition with_ledger_entries v (d : db) : db := {|
  users := users d; accounts := accounts d; ledger_entries := v;
  signing_keys := signing_keys d; bank_signing_keys := bank_signing_keys d;
  ceiling_tokens := ceiling_tokens d; payment_tokens := payment_tokens d;
  transactions := transactions d; transfers := transfers d; outbox := outbox d;
  processed_events := processed_events d; fraud_signals := fraud_signals d;
  reconciliation_runs := reconciliation_runs d;
  fraud_scores := fraud_scores d; kyc_submissions := kyc_submissions d;
  user_sessions := user_sessions d; otp_challenges := otp_challenges d;
  user_pins := user_pins d; devices := devices d; realm_keys := realm_keys d;
|}.
Definition with_signing_keys v (d : db) : db := {|
  users := users d; accounts := accounts d; ledger_entries := ledger_entries d;
  signing_keys := v; bank_signing_keys := bank_signing_keys d;
  ceiling_tokens := ceiling_tokens d; payment_tokens := payment_tokens d;
  transactions := transactions d; transfers := transfers d; outbox := outbox d;
  processed_events := processed_events d; fraud_signals := fraud_signals d;
  reconciliation_runs := reconciliation_runs d;
  fraud_scores := fraud_scores d; kyc_submissions := kyc_submissions d;
  user_sessions := user_sessions d; otp_challenges := otp_challenges d;
  user_pins := user_pins d; devices := devices d; realm_keys := realm_keys d;
|}.
Definition with_bank_signing_keys v (d : db) : db := {|
  users := users d; accounts := accounts d; ledger_entries := ledger_entries d;
  signing_keys := signing_keys d; bank_signing_keys := v;
  ceiling_tokens := ceiling_tokens d; payment_tokens := payment_tokens d;
  transactions := transactions d; transfers := transfers d; outbox := outbox d;
  processed_events := processed_events d; fraud_signals := fraud_signals d;
  reconciliation_runs := reconciliation_runs d;
  fraud_scores := fraud_scores d; kyc_submissions := kyc_submissions d;
  user_sessions := user_sessions d; otp_challenges := otp_challenges d;
  user_pins := user_pins d; devices := devices d; realm_keys := realm_keys d;
|}.
Definition with_ceiling_tokens v (d : db) : db := {|
  users := users d; accounts := accounts d; ledger_entries := ledger_entries d;
  signing_keys := signing_keys d; bank_signing_keys := bank_signing_keys d;
  ceiling_tokens := v; payment_tokens := payment_tokens d;
  transactions := transactions d; transfers := transfers d; outbox := outbox d;
  processed_events := processed_events d; fraud_signals := fraud_signals d;
  reconciliation_runs := reconciliation_runs d;
  fraud_scores := fraud_scores d; kyc_submissions := kyc_submissions d;
  user_sessions := user_sessions d; otp_challenges := otp_challenges d;
  user_pins := user_pins d; devices := devices d; realm_keys := realm_keys d;
|}.
Definition with_payment_tokens v (d : db) : db := {|
  users := users d; accounts := accounts d; ledger_entries := ledger_entries d;
  signing_keys := signing_keys d; bank_signing_keys := bank_signing_keys d;
  ceiling_tokens := ceiling_tokens d; payment_tokens := v;
  transactions := transactions d; transfers := transfers d; outbox := outbox d;
  processed_events := processed_events d; fraud_signals := fraud_signals d;
  reconciliation_runs := reconciliation_runs d;
  fraud_scores := fraud_scores d; kyc_submissions := kyc_submissions d;
  user_sessions := user_sessions d; otp_challenges := otp_challenges d;
  user_pins := user_pins d; devices := devices d; realm_keys := realm_keys d;
|}.
Definition with_transactions v (d : db) : db := {|
  users := users d; accounts := accounts d; ledger_entries := ledger_entries d;
  signing_keys := signing_keys d; bank_signing_keys := bank_signing_keys d;
  ceiling_tokens := ceiling_tokens d; payment_tokens := payment_tokens d;
  transactions := v; transfers := transfers d; outbox := outbox d;
  processed_events := processed_events d; fraud_signals := fraud_signals d;
  reconciliation_runs := reconciliation_runs d;
  fraud_scores := fraud_scores d; kyc_submissions := kyc_submissions d;
  user_sessions := user_sessions d; otp_challenges := otp_challenges d;
  user_pins := user_pins d; devices := devices d; realm_keys := realm_keys d;
|}.
Definition with_transfers v (d : db) : db := {|
  users := users d; accounts := accounts d; ledger_entries := ledger_entries d;
  signing_keys := signing_keys d; bank_signing_keys := bank_signing_keys d;
  ceiling_tokens := ceiling_tokens d; payment_tokens := payment_tokens d;
  transactions := transactions d; transfers := v; outbox := outbox d;
  processed_events := processed_events d; fraud_signals := fraud_signals d;
  reconciliation_runs := reconciliation_runs d;
  fraud_scores := fraud_scores d; kyc_submissions := kyc_submissions d;
  user_sessions := user_sessions d; otp_challenges := otp_challenges d;
  user_pins := user_pins d; devices := devices d; realm_keys := realm_keys d;
|}.
Definition with_outbox v (d : db) : db := {|
  users := users d; accounts := accounts d; ledger_entries := ledger_entries d;
  signing_keys := signing_keys d; bank_signing_keys := bank_signing_keys d;
  ceiling_tokens := ceiling_tokens d; payment_tokens := payment_tokens d;
  transactions := transactions d; transfers := transfers d; outbox := v;
  processed_events := processed_events d; fraud_signals := fraud_signals d;
  reconciliation_runs := reconciliation_runs d;
  fraud_scores := fraud_scores d; kyc_submissions := kyc_submissions d;
  user_sessions := user_sessions d; otp_challenges := otp_challenges d;
  user_pins := user_pins d; devices := devices d; realm_keys := realm_keys d;
|}.
Definition with_processed_events v (d : db) : db := {|
  users := users d; accounts := accounts d; ledger_entries := ledger_entries d;
  signing_keys := signing_keys d; bank_signing_keys := bank_signing_keys d;
  ceiling_tokens := ceiling_tokens d; payment_tokens := payment_tokens d;
  transactions := transactions d; transfers := transfers d; outbox := outbox d;
  processed_events := v; fraud_signals := fraud_signals d;
  reconciliation_runs := reconciliation_runs d;
  fraud_scores := fraud_scores d; kyc_submissions := kyc_submissions d;
  user_sessions := user_sessions d; otp_challenges := otp_challenges d;
  user_pins := user_pins d; devices := devices d; realm_keys := realm_keys d;
|}.
Definition with_fraud_signals v (d : db) : db := {|
  users := users d; accounts := accounts d; ledger_entries := ledger_entries d;
  signing_keys := signing_keys d; bank_signing_keys := bank_signing_keys d;
  ceiling_tokens := ceiling_tokens d; payment_tokens := payment_tokens d;
  transactions := transactions d; transfers := transfers d; outbox := outbox d;
  processed_events := processed_events d; fraud_signals := v;
  reconciliation_runs := reconciliation_runs d;
  fraud_scores := fraud_scores d; kyc_submissions := kyc_submissions d;
  user_sessions := user_sessions d; otp_challenges := otp_challenges d;
  user_pins := user_pins d; devices := devices d; realm_keys := realm_keys d;
|}.
Definition with_reconciliation_runs v (d : db) : db := {|
  users := users d; accounts := accounts d; ledger_entries := ledger_entries d;
  signing_keys := signing_keys d; bank_signing_keys := bank_signing_keys d;
  ceiling_tokens := ceiling_tokens d; payment_tokens := payment_tokens d;
  transactions := transactions d; transfers := transfers d; outbox := outbox d;
  processed_events := processed_events d; fraud_signals := fraud_signals d;
  reconciliation_runs := v;
  fraud_scores := fraud_scores d; kyc_submissions := kyc_submissions d;
  user_sessions := user_sessions d; otp_challenges := otp_challenges d;
  user_pins := user_pins d; devices := devices d; realm_keys := realm_keys d;
|}.
Definition with_fraud_scores v (d : db) : db := {|
  users := users d; accounts := accounts d; ledger_entries := ledger_entries d;
  signing_keys := signing_keys d; bank_signing_keys := bank_signing_keys d;
  ceiling_tokens := ceiling_tokens d; payment_tokens := payment_tokens d;
  transactions := transactions d; transfers := transfers d; outbox := outbox d;
  processed_events := processed_events d; fraud_signals := fraud_signals d;
  reconciliation_runs := reconciliation_runs d;
  fraud_scores := v; kyc_submissions := kyc_submissions d;
  user_sessions := user_sessions d; otp_challenges := otp_challenges d;
  user_pins := user_pins d; devices := devices d; realm_keys := realm_keys d;
|}.
Definition with_kyc_submissions v (d : db) : db := {|
  users := users d; accounts := accounts d; ledger_entries := ledger_entries d;
  signing_keys := signing_keys d; bank_signing_keys := bank_signing_keys d;
  ceiling_tokens := ceiling_tokens d; payment_tokens := payment_tokens d;
  transactions := transactions d; transfers := transfers d; outbox := outbox d;
  processed_events := processed_events d; fraud_signals := fraud_signals d;
  reconciliation_runs := reconciliation_runs d;
  fraud_scores := fraud_scores d; kyc_submissions := v;
  user_sessions := user_sessions d; otp_challenges := otp_challenges d;
  user_pins := user_pins d; devices := devices d; realm_keys := realm_keys d;
|}.
Definition with_user_sessions v (d : db) : db := {|
  users := users d; accounts := accounts d; ledger_entries := ledger_entries d;
  signing_keys := signing_keys d; bank_signing_keys := bank_signing_keys d;
  ceiling_tokens := ceiling_tokens d; payment_tokens := payment_tokens d;
  transactions := transactions d; transfers := transfers d; outbox := outbox d;
  processed_events := processed_events d; fraud_signals := fraud_signals d;
  reconciliation_runs := reconciliation_runs d;
  fraud_scores := fraud_scores d; kyc_submissions := kyc_submissions d;
  user_sessions := v; otp_challenges := otp_challenges d;
  user_pins := user_pins d; devices := devices d; realm_keys := realm_keys d;
|}.
Definition with_otp_challenges v (d : db) : db := {|
  users := users d; accounts := accounts d; ledger_entries := ledger_entries d;
  signing_keys := signing_keys d; bank_signing_keys := bank_signing_keys d;
  ceiling_tokens := ceiling_tokens d; payment_tokens := payment_tokens d;
  transactions := transactions d; transfers := transfers d; outbox := outbox d;
  processed_events := processed_events d; fraud_signals := fraud_signals d;
  reconciliation_runs := reconciliation_runs d;
  fraud_scores := fraud_scores d; kyc_submissions := kyc_submissions d;
  user_sessions := user_sessions d; otp_challenges := v;
  user_pins := user_pins d; devices := devices d; realm_keys := realm_keys d;
|}.
Definition with_user_pins v (d : db) : db := {|
  users := users d; accounts := accounts d; ledger_entries := ledger_entries d;
  signing_keys := signing_keys d; bank_signing_keys := bank_signing_keys d;
  ceiling_tokens := ceiling_tokens d; payment_tokens := payment_tokens d;
  transactions := transactions d; transfers := transfers d; outbox := outbox d;
  processed_events := processed_events d; fraud_signals := fraud_signals d;
  reconciliation_runs := reconciliation_runs d;
  fraud_scores := fraud_scores d; kyc_submissions := kyc_submissions d;
  user_sessions := user_sessions d; otp_challenges := otp_challenges d;
  user_pins := v; devices := devices d; realm_keys := realm_keys d;
|}.
Definition with_devices v (d : db) : db := {|
  users := users d; accounts := accounts d; ledger_entries := ledger_entries d;
  signing_keys := signing_keys d; bank_signing_keys := bank_signing_keys d;
  ceiling_tokens := ceiling_tokens d; payment_tokens := payment_tokens d;
  transactions := transactions d; transfers := transfers d; outbox := outbox d;
  processed_events := processed_events d; fraud_signals := fraud_signals d;
  reconciliation_runs := reconciliation_runs d;
  fraud_scores := fraud_scores d; kyc_submissions := kyc_submissions d;
  user_sessions := user_sessions d; otp_challenges := otp_challenges d;
  user_pins := user_pins d; devices := v; realm_keys := realm_keys d;
|}.
Definition with_realm_keys v (d : db) : db := {|
  users := users d; accounts := accounts d; ledger_entries := ledger_entries d;
  signing_keys := signing_keys d; bank_signing_keys := bank_signing_keys d;
  ceiling_tokens := ceiling_tokens d; payment_tokens := payment_tokens d;
  transactions := transactions d; transfers := transfers d; outbox := outbox d;
  processed_events := processed_events d; fraud_signals := fraud_signals d;
  reconciliation_runs := reconciliation_runs d;
  fraud_scores := fraud_scores d; kyc_submissions := kyc_submissions d;
  user_sessions := user_sessions d; otp_challenges := otp_challenges d;
  user_pins := user_pins d; devices := devices d; realm_keys := v;
|}.

(** ** Constraints *)

Definition fk {A} (name : string) (m : gmap string A) (id : string) : result unit :=
  guard_or (bool_decide (is_Some (m !! id))) (ErrForeignKey name).

Definition fk_opt {A} (name : string) (m : gmap string A) (id : option string)
  : result unit :=
  match id with None => Ok tt | Some i => fk name m i end.

Definition pk {A} (name : string) (m : gmap string A) (id : string) : result unit :=
  guard_or (bool_decide (m !! id = None)) (ErrUnique name).

Definition unique {A} (name : string) (P : string -> A -> bool) (m : gmap string A)
  : result unit :=
  guard_or (negb (exists_row P m)) (ErrUnique name).

Definition check (name : string) (b : bool) : result unit := guard_or b (ErrCheck name).

(** A value cast to, or stored in, a BIGINT. *)
Definition bigint (z : Z) : result Z := if in_int64 z then Ok z else Err ErrNumericRange.

(** A timestamptz keeps microseconds. *)
Definition tstz (t : Time) : Time := truncate_us t.

(** [pgrepo.tsz] maps the zero time to NULL; a NOT NULL column then refuses it. *)
Definition tsz (t : Time) : option Time := if IsZero t then None else Some (tstz t).
Definition tszPtr (t : option Time) : option Time :=
  match t with None => None | Some t => tsz t end.
Definition not_null (column : string) (t : option Time) : result Time :=
  match t with None => Err (ErrNotNull column) | Some t => Ok t end.

(** A nil byte slice is sent as NULL. *)
Definition not_null_bytes (column : string) (b : bytes) : result unit :=
  guard_or (negb (bool_decide (b = []))) (ErrNotNull column).

(** [lower(...)] on ASCII text. *)
Definition lower_ascii (a : ascii) : ascii :=
  let n := code a in if (65 <=? n) && (n <=? 90) then char (n + 32) else a.
Definition lower (s : string) : string :=
  String.string_of_list_ascii (map lower_ascii (String.list_ascii_of_string s)).

Definition status_in (s : TransactionStatus) (l : list TransactionStatus) : bool :=
  existsb (fun x => bool_decide (x = s)) l.

(** ** users *)

Definition q_CreateUser (id : string) (u : User) (t : Time) (d : db) : result (unit * db) :=
  try _ := check "users_kyc_tier_check"
      (existsb (String.eqb (u_KycTier u)) ["TIER_0"; "TIER_1"; "TIER_2"; "TIER_3"; "SYSTEM"]) in
  try _ := pk "users_pkey" (users d) id in
  try _ := unique "users_phone_key" (fun _ r => bool_decide (u_Phone r = u_Phone u)) (users d) in
  try _ := unique "users_account_number_key"
      (fun _ r => bool_decide (u_AccountNumber r = u_AccountNumber u)) (users d) in
  try _ := unique "idx_users_email"
      (fun _ r => bool_decide (lower (u_Email r) = lower (u_Email u))) (users d) in
  Ok (tt, with_users (<[id := u]> (users d)) d).

(** ** accounts (accounts.sql.go) *)

Definition account_is (userID : string) (kind : AccountKind) (a : Account) : bool :=
  bool_decide (a_UserID a = userID) && bool_decide (a_Kind a = kind).

Definition q_CreateAccount (id userID : string) (kind : AccountKind) (balance : Z)
  (_ : Time) (d : db) : result (unit * db) :=
  try _ := bigint balance in
  try _ := check "accounts_balance_nonneg"
      (bool_decide (kind = AccountKindSuspense) || (0 <=? balance)) in
  try _ := pk "accounts_pkey" (accounts d) id in
  try _ := unique "accounts_user_id_kind_key"
      (fun _ a => account_is userID kind a) (accounts d) in
  try _ := fk "accounts_user_id_fkey" (users d) userID in
  Ok (tt, with_accounts (<[id := {| a_UserID := userID; a_Kind := kind;
                                    a_BalanceKobo := balance |}]> (accounts d)) d).

Definition q_GetAccountByUserAndKind (userID : string) (kind : AccountKind) (d : db)
  : result (string * Account) :=
  first_row (fun _ a => account_is userID kind a) (accounts d).

(** [SET balance_kobo = v] on one row, under the table's CHECK. *)
Definition set_balance (id : string) (a : Account) (v : Z) (d : db) : result (Account * db) :=
  try b := bigint v in
  try _ := check "accounts_balance_nonneg"
      (bool_decide (a_Kind a = AccountKindSuspense) || (0 <=? b)) in
  let a' := {| a_UserID := a_UserID a; a_Kind := a_Kind a; a_BalanceKobo := b |} in
  Ok (a', with_accounts (<[id := a']> (accounts d)) d).

Definition q_DecrementAccountBalance (id : string) (amount : Z) (_ : Time) (d : db)
  : result (Account * db) :=
  match accounts d !! id with
  | Some a =>
      if amount <=? a_BalanceKobo a then set_balance id a (a_BalanceKobo a - amount) d
      else Err ErrNoRows
  | None => Err ErrNoRows
  end.

Definition q_ForceDecrementAccountBalance (id : string) (amount : Z) (_ : Time) (d : db)
  : result (Account * db) :=
  match accounts d !! id with
  | Some a => set_balance id a (a_BalanceKobo a - amount) d
  | None => Err ErrNoRows
  end.

Definition q_IncrementAccountBalance (id : string) (amount : Z) (_ : Time) (d : db)
  : result (Account * db) :=
  match accounts d !! id with
  | Some a => set_balance id a (a_BalanceKobo a + amount) d
  | None => Err ErrNoRows
  end.

Definition q_LockMainAccountForUser (userID : string) (d : db) : result (string * Account) :=
  q_GetAccountByUserAndKind userID AccountKindMain d.

(** ** ledger_entries (ledger.sql.go, migration 0006) *)

Definition q_InsertLedgerEntry (e : LedgerEntry) (_ : Time) (d : db) : result (unit * db) :=
  try _ := bigint (le_AmountKobo e) in
  try _ := check "ledger_entries_amount_kobo_check" (0 <? le_AmountKobo e) in
  try _ := guard_or (forallb (fun e' => negb (String.eqb (le_ID e') (le_ID e)))
                        (ledger_entries d)) (ErrUnique "ledger_entries_pkey") in
  try _ := fk "ledger_entries_account_id_fkey" (accounts d) (le_AccountID e) in
  try _ := fk "fk_ledger_txn" (transactions d) (le_TxnID e) in
  Ok (tt, with_ledger_entries (ledger_entries d ++ [e]) d).

(** [COALESCE(SUM(amount_kobo) FILTER ..., 0)] over the ledger. *)
Fixpoint ledger_sum (P : LedgerEntry -> bool) (l : list LedgerEntry) : Z :=
  match l with
  | [] => 0
  | e :: rest => (if P e then le_AmountKobo e else 0) + ledger_sum P rest
  end.

Definition has_direction (dir : LedgerDirection) (e : LedgerEntry) : bool :=
  bool_decide (le_Direction e = dir).
Definition of_account (id : string) (e : LedgerEntry) : bool :=
  bool_decide (le_AccountID e = id).
Definition of_txn (id : string) (e : LedgerEntry) : bool :=
  bool_decide (le_TxnID e = id).

Definition q_SumAccountCredits (id : string) (d : db) : result Z :=
  bigint (ledger_sum (fun e => of_account id e && has_direction LedgerDirectionCREDIT e)
            (ledger_entries d)).

Definition q_SumAccountDebits (id : string) (d : db) : result Z :=
  bigint (ledger_sum (fun e => of_account id e && has_direction LedgerDirectionDEBIT e)
            (ledger_entries d)).

Definition txn_debits (txn : string) (l : list LedgerEntry) : Z :=
  ledger_sum (fun e => of_txn txn e && has_direction LedgerDirectionDEBIT e) l.
Definition txn_credits (txn : string) (l : list LedgerEntry) : Z :=
  ledger_sum (fun e => of_txn txn e && has_direction LedgerDirectionCREDIT e) l.

(** The deferred constraint trigger.  It fires at commit for each entry the
    transaction inserted.  Entries are never changed or deleted and those
    committed before passed the trigger, so checking every entry is the same. *)
Definition check_ledger_txn_balanced (d : db) : result unit :=
  let l := ledger_entries d in
  foldr (fun e acc =>
      try _ := acc in
      try dr := bigint (txn_debits (le_TxnID e) l) in
      try cr := bigint (txn_credits (le_TxnID e) l) in
      check "ledger txn unbalanced" (dr =? cr))
    (Ok tt) l.

(** ** bank_signing_keys (bank_keys.sql.go) *)

Definition q_CreateBankSigningKey (k : BankSigningKey) (t : Time) (d : db)
  : result (unit * db) :=
  try _ := not_null_bytes "pubkey" (bk_PublicKey k) in
  try _ := not_null_bytes "privkey_enc" (bk_PrivateKey k) in
  try _ := pk "bank_signing_keys_pkey" (bank_signing_keys d) (bk_KeyID k) in
  Ok (tt, with_bank_signing_keys (<[bk_KeyID k := k]> (bank_signing_keys d)) d).

Definition q_GetBankSigningKey (keyID : string) (d : db) : result BankSigningKey :=
  match bank_signing_keys d !! keyID with Some k => Ok k | None => Err ErrNoRows end.

(** The key with the latest [active_from] among those not retired. *)
Definition latest_key (best : option BankSigningKey) (kv : string * BankSigningKey)
  : option BankSigningKey :=
  match best with
  | None => Some kv.2
  | Some b => if bk_ActiveFrom b <? bk_ActiveFrom kv.2 then Some kv.2 else Some b
  end.

Definition q_GetActiveBankSigningKey (d : db) : result BankSigningKey :=
  match foldl latest_key None
          (rows_where (fun _ k => bool_decide (bk_ActiveTo k = None)) (bank_signing_keys d))
  with Some k => Ok k | None => Err ErrNoRows end.

(** ** signing_keys (signing_keys.sql.go) *)

Definition active_key_of (userID : string) (k : SigningKey) : bool :=
  bool_decide (sk_UserID k = userID) && sk_Active k.

Definition q_GetActiveSigningKeyPubkey (userID : string) (d : db) : result bytes :=
  result_map (fun r => sk_PublicKey r.2)
    (first_row (fun _ k => active_key_of userID k) (signing_keys d)).

Definition q_InsertSigningKey (id userID : string) (pub : bytes) (_ : Time) (d : db)
  : result (unit * db) :=
  try _ := not_null_bytes "public_key" pub in
  try _ := pk "signing_keys_pkey" (signing_keys d) id in
  try _ := unique "uq_signing_keys_one_active_per_user"
      (fun _ k => active_key_of userID k) (signing_keys d) in
  try _ := fk "signing_keys_user_id_fkey" (users d) userID in
  Ok (tt, with_signing_keys
        (<[id := {| sk_UserID := userID; sk_PublicKey := pub; sk_Active := true;
                    sk_RotatedAt := None |}]> (signing_keys d)) d).

Definition q_RetireActiveSigningKey (userID : string) (t : Time) (d : db)
  : result (unit * db) :=
  Ok (tt, with_signing_keys
        ((fun k => if active_key_of userID k
                   then {| sk_UserID := sk_UserID k; sk_PublicKey := sk_PublicKey k;
                           sk_Active := false; sk_RotatedAt := Some t |}
                   else k) <$> signing_keys d) d).

(** ** ceiling_tokens (ceilings.sql.go, migrations 0009, 0022, 0023) *)

Definition is_live (s : CeilingStatus) : bool :=
  match s with CeilingActive | CeilingRecoveryPending => true | _ => false end.

Definition live_of (userID : string) (c : CeilingRow) : bool :=
  bool_decide (c_PayerUserID c = userID) && is_live (c_Status c).

Definition active_of (userID : string) (c : CeilingRow) : bool :=
  bool_decide (c_PayerUserID c = userID) && bool_decide (c_Status c = CeilingActive).

Definition set_c_Status (s : CeilingStatus) (c : CeilingRow) : CeilingRow := {|
  c_PayerUserID := c_PayerUserID c; c_CeilingKobo := c_CeilingKobo c;
  c_SequenceStart := c_SequenceStart c; c_IssuedAt := c_IssuedAt c;
  c_ExpiresAt := c_ExpiresAt c; c_PayerPubkey := c_PayerPubkey c;
  c_BankKeyID := c_BankKeyID c; c_BankSig := c_BankSig c; c_Status := s;
  c_LienAccountID := c_LienAccountID c; c_CreatedAt := c_CreatedAt c;
  c_ReleaseAfter := c_ReleaseAfter c;
|}.

Definition set_c_ReleaseAfter (t : option Time) (c : CeilingRow) : CeilingRow := {|
  c_PayerUserID := c_PayerUserID c; c_CeilingKobo := c_CeilingKobo c;
  c_SequenceStart := c_SequenceStart c; c_IssuedAt := c_IssuedAt c;
  c_ExpiresAt := c_ExpiresAt c; c_PayerPubkey := c_PayerPubkey c;
  c_BankKeyID := c_BankKeyID c; c_BankSig := c_BankSig c; c_Status := c_Status c;
  c_LienAccountID := c_LienAccountID c; c_CreatedAt := c_CreatedAt c;
  c_ReleaseAfter := t;
|}.

Record CreateCeilingTokenParams := {
  ccp_ID : string;
  ccp_PayerUserID : string;
  ccp_CeilingKobo : Z;
  ccp_SequenceStart : Z;
  ccp_IssuedAt : option Time;
  ccp_ExpiresAt : option Time;
  ccp_PayerPubkey : bytes;
  ccp_BankKeyID : string;
  ccp_BankSig : bytes;
  ccp_Status : CeilingStatus;
  ccp_LienAccountID : string;
}.

Definition q_CreateCeilingToken (a : CreateCeilingTokenParams) (t : Time) (d : db)
  : result ((string * CeilingRow) * db) :=
  try amount := bigint (ccp_CeilingKobo a) in
  try start := bigint (ccp_SequenceStart a) in
  try issued := not_null "issued_at" (ccp_IssuedAt a) in
  try expires := not_null "expires_at" (ccp_ExpiresAt a) in
  try _ := not_null_bytes "payer_pubkey" (ccp_PayerPubkey a) in
  try _ := not_null_bytes "bank_sig" (ccp_BankSig a) in
  try _ := check "ceiling_tokens_ceiling_kobo_check" (0 <? amount) in
  try _ := check "ceiling_tokens_sequence_start_check" (0 <=? start) in
  try _ := pk "ceiling_tokens_pkey" (ceiling_tokens d) (ccp_ID a) in
  try _ := guard_or (negb (is_live (ccp_Status a)
                           && exists_row (fun _ c => live_of (ccp_PayerUserID a) c)
                                (ceiling_tokens d)))
             (ErrUnique "uq_ceiling_one_live_per_user") in
  try _ := fk "ceiling_tokens_payer_user_id_fkey" (users d) (ccp_PayerUserID a) in
  try _ := fk "ceiling_tokens_lien_account_id_fkey" (accounts d) (ccp_LienAccountID a) in
  let row := {|
    c_PayerUserID := ccp_PayerUserID a; c_CeilingKobo := amount;
    c_SequenceStart := start; c_IssuedAt := issued; c_ExpiresAt := expires;
    c_PayerPubkey := ccp_PayerPubkey a; c_BankKeyID := ccp_BankKeyID a;
    c_BankSig := ccp_BankSig a; c_Status := ccp_Status a;
    c_LienAccountID := ccp_LienAccountID a; c_CreatedAt := tstz t;
    c_ReleaseAfter := None |} in
  Ok ((ccp_ID a, row), with_ceiling_tokens (<[ccp_ID a := row]> (ceiling_tokens d)) d).

Definition q_GetCeilingToken (id : string) (d : db) : result (string * CeilingRow) :=
  match ceiling_tokens d !! id with Some c => Ok (id, c) | None => Err ErrNoRows end.

Definition q_GetActiveCeilingForUser (userID : string) (d : db)
  : result (string * CeilingRow) :=
  first_row (fun _ c => active_of userID c) (ceiling_tokens d).

(** An UPDATE of the status: moving a row into the partial unique index of live
    ceilings may violate it. *)
Definition q_UpdateCeilingStatus (id : string) (status : CeilingStatus) (_ : Time) (d : db)
  : result (unit * db) :=
  try _ := guard_or (negb (bool_decide (status = CeilingUnset)))
             (ErrInfra "ERROR: invalid input value for enum ceiling_status (SQLSTATE 22P02)") in
  match ceiling_tokens d !! id with
  | None => Ok (tt, d)
  | Some c =>
      try _ := guard_or (negb (is_live status
                  && exists_row (fun i r => negb (String.eqb i id)
                                            && live_of (c_PayerUserID c) r)
                       (ceiling_tokens d)))
                 (ErrUnique "uq_ceiling_one_live_per_user") in
      Ok (tt, with_ceiling_tokens (<[id := set_c_Status status c]> (ceiling_tokens d)) d)
  end.

(** The row stays within the live ceilings, so the unique index is not at stake. *)
Definition q_MarkCeilingRecoveryPending (id : string) (releaseAfter : option Time)
  (_ : Time) (d : db) : result (Z * db) :=
  match ceiling_tokens d !! id with
  | Some c =>
      if bool_decide (c_Status c = CeilingActive) then
        Ok (1, with_ceiling_tokens
                 (<[id := set_c_ReleaseAfter releaseAfter
                            (set_c_Status CeilingRecoveryPending c)]> (ceiling_tokens d)) d)
      else Ok (0, d)
  | None => Ok (0, d)
  end.

(** ** payment_tokens (payments.sql.go, migrations 0010, 0024, 0025) *)

Definition in_flight (s : TransactionStatus) : bool := status_in s [TxPending; TxSubmitted].

Definition settled_of (ceilingID : string) (p : PaymentRow) : Z :=
  if bool_decide (p_CeilingID p = ceilingID) then p_SettledAmountKobo p else 0.

Definition sum_settled (ceilingID : string) (d : db) : Z :=
  sum_rows (fun _ p => settled_of ceilingID p) (payment_tokens d).

Definition in_flight_for (ceilingID : string) (p : PaymentRow) : bool :=
  bool_decide (p_CeilingID p = ceilingID) && in_flight (p_Status p).

Definition q_CountInFlightPaymentsForCeiling (ceilingID : string) (d : db) : result Z :=
  Ok (Z.of_nat (length (rows_where (fun _ p => in_flight_for ceilingID p)
                          (payment_tokens d)))).

Definition q_SumSettledForCeiling (ceilingID : string) (d : db) : result Z :=
  bigint (sum_settled ceilingID d).

Definition releasable (before : Time) (d : db) (id : string) (c : CeilingRow) : bool :=
  match c_Status c with
  | CeilingActive => c_ExpiresAt c <? before
  | CeilingRecoveryPending =>
      match c_ReleaseAfter c with Some r => r <? before | None => false end
  | _ => false
  end
  && negb (exists_row (fun _ p => in_flight_for id p) (payment_tokens d)).

Definition q_ListReleasableExpiredCeilings (before : option Time) (d : db)
  : result (list (string * CeilingRow)) :=
  match before with
  | None => Ok []
  | Some b => Ok (rows_where (releasable b d) (ceiling_tokens d))
  end.

(** The most recently issued of the payer's live ceilings, with its totals. *)
Definition latest_ceiling (best : option (string * CeilingRow)) (kv : string * CeilingRow)
  : option (string * CeilingRow) :=
  match best with
  | None => Some kv
  | Some b => if c_IssuedAt b.2 <? c_IssuedAt kv.2 then Some kv else Some b
  end.

Definition q_GetCurrentCeilingForPayer (userID : string) (d : db)
  : result (string * CeilingRow * Z * Z) :=
  match foldl latest_ceiling None
          (rows_where (fun _ c => live_of userID c) (ceiling_tokens d)) with
  | None => Err ErrNoRows
  | Some (id, c) =>
      try settled := bigint (sum_settled id d) in
      try remaining := bigint (c_CeilingKobo c - sum_settled id d) in
      Ok (id, c, settled, remaining)
  end.

Record CreatePaymentTokenParams := {
  cpp_ID : string;
  cpp_CeilingID : string;
  cpp_PayerUserID : string;
  cpp_PayeeUserID : string;
  cpp_AmountKobo : Z;
  cpp_SequenceNumber : Z;
  cpp_RemainingCeilingKobo : Z;
  cpp_SignedAt : option Time;
  cpp_PayerSig : bytes;
  cpp_Status : TransactionStatus;
  cpp_SessionNonce : bytes;
  cpp_RequestHash : bytes;
  cpp_RequestAmountKobo : Z;
  cpp_SubmittedByUserID : option string;
}.

Definition same_sequence (payer : string) (seq : Z) (p : PaymentRow) : bool :=
  bool_decide (p_PayerUserID p = payer) && (p_SequenceNumber p =? seq).

Definition same_nonce (payee : string) (nonce : bytes) (p : PaymentRow) : bool :=
  bool_decide (p_PayeeUserID p = payee) && bool_decide (p_SessionNonce p = nonce).

Definition new_payment (a : CreatePaymentTokenParams) (signedAt t : Time) : PaymentRow := {|
  p_CeilingID := cpp_CeilingID a; p_PayerUserID := cpp_PayerUserID a;
  p_PayeeUserID := cpp_PayeeUserID a; p_AmountKobo := cpp_AmountKobo a;
  p_SequenceNumber := cpp_SequenceNumber a;
  p_RemainingCeilingKobo := cpp_RemainingCeilingKobo a; p_SettledAmountKobo := 0;
  p_SignedAt := signedAt; p_PayerSig := cpp_PayerSig a; p_Status := cpp_Status a;
  p_RejectionReason := None; p_SettlementBatchID := None; p_SubmittedAt := None;
  p_SettledAt := None; p_CreatedAt := tstz t; p_UpdatedAt := tstz t;
  p_SessionNonce := cpp_SessionNonce a; p_RequestHash := cpp_RequestHash a;
  p_RequestAmountKobo := cpp_RequestAmountKobo a;
  p_SubmittedByUserID := cpp_SubmittedByUserID a;
|}.

Definition q_CreatePaymentToken (a : CreatePaymentTokenParams) (t : Time) (d : db)
  : result ((string * PaymentRow) * db) :=
  try _ := bigint (cpp_AmountKobo a) in
  try _ := bigint (cpp_SequenceNumber a) in
  try _ := bigint (cpp_RemainingCeilingKobo a) in
  try _ := bigint (cpp_RequestAmountKobo a) in
  try signedAt := not_null "signed_at" (cpp_SignedAt a) in
  try _ := not_null_bytes "payer_sig" (cpp_PayerSig a) in
  try _ := not_null_bytes "session_nonce" (cpp_SessionNonce a) in
  try _ := not_null_bytes "request_hash" (cpp_RequestHash a) in
  try _ := check "payment_tokens_amount_kobo_check" (0 <? cpp_AmountKobo a) in
  try _ := check "payment_tokens_sequence_number_check" (0 <? cpp_SequenceNumber a) in
  try _ := check "payment_tokens_remaining_ceiling_kobo_check"
      (0 <=? cpp_RemainingCeilingKobo a) in
  try _ := check "payment_tokens_check"
      (negb (String.eqb (cpp_PayerUserID a) (cpp_PayeeUserID a))) in
  try _ := pk "payment_tokens_pkey" (payment_tokens d) (cpp_ID a) in
  try _ := unique "payment_tokens_payer_user_id_sequence_number_key"
      (fun _ p => same_sequence (cpp_PayerUserID a) (cpp_SequenceNumber a) p)
      (payment_tokens d) in
  try _ := unique "idx_payment_session_nonce"
      (fun _ p => same_nonce (cpp_PayeeUserID a) (cpp_SessionNonce a) p)
      (payment_tokens d) in
  try _ := fk "payment_tokens_ceiling_id_fkey" (ceiling_tokens d) (cpp_CeilingID a) in
  try _ := fk "payment_tokens_payer_user_id_fkey" (users d) (cpp_PayerUserID a) in
  try _ := fk "payment_tokens_payee_user_id_fkey" (users d) (cpp_PayeeUserID a) in
  try _ := fk_opt "payment_tokens_submitted_by_user_id_fkey" (users d)
      (cpp_SubmittedByUserID a) in
  let row := new_payment a signedAt t in
  Ok ((cpp_ID a, row), with_payment_tokens (<[cpp_ID a := row]> (payment_tokens d)) d).

Definition q_GetPaymentToken (id : string) (d : db) : result (string * PaymentRow) :=
  match payment_tokens d !! id with Some p => Ok (id, p) | None => Err ErrNoRows end.

Definition q_GetPaymentBySequence (payer : string) (seq : Z) (d : db)
  : result (string * PaymentRow) :=
  first_row (fun _ p => same_sequence payer seq p) (payment_tokens d).

Definition pending_of (payer : string) (p : PaymentRow) : bool :=
  bool_decide (p_PayerUserID p = payer) && bool_decide (p_Status p = TxPending).

Definition seq_le (x y : string * PaymentRow) : Prop :=
  p_SequenceNumber x.2 <= p_SequenceNumber y.2.

#[global] Instance seq_le_dec x y : Decision (seq_le x y).
Proof. unfold seq_le. apply _. Defined.
#[global] Instance seq_le_total : Total seq_le.
Proof. intros x y. unfold seq_le. lia. Qed.
#[global] Instance seq_le_trans : Transitive seq_le.
Proof. intros x y z. unfold seq_le. lia. Qed.

(** [ORDER BY sequence_number ASC]. *)
Definition q_ListPendingPaymentsByPayer (payer : string) (d : db)
  : result (list (string * PaymentRow)) :=
  Ok (merge_sort seq_le (rows_where (fun _ p => pending_of payer p) (payment_tokens d))).

(** [GROUP BY payer_user_id HAVING MIN(submitted_at) < $1]: MIN ignores NULLs. *)
Definition stale_pending (olderThan : Time) (p : PaymentRow) : bool :=
  bool_decide (p_Status p = TxPending)
  && match p_SubmittedAt p with Some t => t <? olderThan | None => false end.

Definition q_ListPayersWithStalePending (olderThan : option Time) (d : db)
  : result (list string) :=
  match olderThan with
  | None => Ok []
  | Some t =>
      Ok (remove_dups (map (fun kv => p_PayerUserID kv.2)
            (rows_where (fun _ p => stale_pending t p) (payment_tokens d))))
  end.

Definition set_payment_status (status : TransactionStatus) (reason : option string)
  (settled : Z) (batch : option string) (submittedAt settledAt : option Time) (t : Time)
  (p : PaymentRow) : PaymentRow := {|
  p_CeilingID := p_CeilingID p; p_PayerUserID := p_PayerUserID p;
  p_PayeeUserID := p_PayeeUserID p; p_AmountKobo := p_AmountKobo p;
  p_SequenceNumber := p_SequenceNumber p;
  p_RemainingCeilingKobo := p_RemainingCeilingKobo p; p_SettledAmountKobo := settled;
  p_SignedAt := p_SignedAt p; p_PayerSig := p_PayerSig p; p_Status := status;
  p_RejectionReason := reason; p_SettlementBatchID := batch;
  p_SubmittedAt := match p_SubmittedAt p with Some s => Some s | None => submittedAt end;
  p_SettledAt := settledAt; p_CreatedAt := p_CreatedAt p; p_UpdatedAt := tstz t;
  p_SessionNonce := p_SessionNonce p; p_RequestHash := p_RequestHash p;
  p_RequestAmountKobo := p_RequestAmountKobo p;
  p_SubmittedByUserID := p_SubmittedByUserID p;
|}.

Definition q_UpdatePaymentStatus (id : string) (status : TransactionStatus)
  (reason : option string) (settled : Z) (batch : option string)
  (submittedAt settledAt : option Time) (t : Time) (d : db)
  : result ((string * PaymentRow) * db) :=
  match payment_tokens d !! id with
  | None => Err ErrNoRows
  | Some p =>
      try _ := bigint settled in
      try _ := check "payment_tokens_settled_amount_kobo_check" (0 <=? settled) in
      let p' := set_payment_status status reason settled batch submittedAt settledAt t p in
      Ok ((id, p'), with_payment_tokens (<[id := p']> (payment_tokens d)) d)
  end.

(** ** transactions (transactions.sql.go, migration 0018) *)

Record RecordTransactionParams := {
  rt_ID : string;
  rt_GroupID : string;
  rt_UserID : string;
  rt_CounterpartyUserID : option string;
  rt_Kind : TransactionKind;
  rt_Status : TransactionLifecycleStatus;
  rt_Direction : LedgerDirection;
  rt_AmountKobo : Z;
  rt_SettledAmountKobo : option Z;
  rt_Memo : option string;
  rt_PaymentTokenID : option string;
  rt_TransferID : option string;
  rt_CeilingID : option string;
  rt_FailureReason : option string;
}.

Definition new_txn (a : RecordTransactionParams) (t : Time) : TxnRow := {|
  x_UserID := rt_UserID a; x_CounterpartyUserID := rt_CounterpartyUserID a;
  x_Kind := rt_Kind a; x_Status := rt_Status a; x_Direction := rt_Direction a;
  x_AmountKobo := rt_AmountKobo a; x_SettledAmountKobo := rt_SettledAmountKobo a;
  x_Memo := rt_Memo a; x_PaymentTokenID := rt_PaymentTokenID a;
  x_TransferID := rt_TransferID a; x_CeilingID := rt_CeilingID a;
  x_GroupID := rt_GroupID a; x_FailureReason := rt_FailureReason a;
  x_CreatedAt := tstz t; x_UpdatedAt := tstz t;
|}.

Definition q_RecordTransaction (a : RecordTransactionParams) (t : Time) (d : db)
  : result (unit * db) :=
  try _ := bigint (rt_AmountKobo a) in
  try _ := check "transactions_amount_kobo_check" (0 <? rt_AmountKobo a) in
  try _ := pk "transactions_pkey" (transactions d) (rt_ID a) in
  try _ := fk "transactions_user_id_fkey" (users d) (rt_UserID a) in
  try _ := fk_opt "transactions_counterparty_user_id_fkey" (users d)
      (rt_CounterpartyUserID a) in
  try _ := fk_opt "transactions_payment_token_id_fkey" (payment_tokens d)
      (rt_PaymentTokenID a) in
  try _ := fk_opt "transactions_transfer_id_fkey" (transfers d) (rt_TransferID a) in
  try _ := fk_opt "transactions_ceiling_id_fkey" (ceiling_tokens d) (rt_CeilingID a) in
  Ok (tt, with_transactions (<[rt_ID a := new_txn a t]> (transactions d)) d).

Definition anchor_of_payment (paymentID : string) (x : TxnRow) : bool :=
  bool_decide (x_PaymentTokenID x = Some paymentID)
  && bool_decide (x_Direction x = LedgerDirectionDEBIT).

Definition anchor_of_transfer (transferID : string) (x : TxnRow) : bool :=
  bool_decide (x_TransferID x = Some transferID)
  && bool_decide (x_Direction x = LedgerDirectionDEBIT).

(** The row's id and group_id. *)
Definition q_GetTransactionAnchorForPayment (paymentID : string) (d : db)
  : result (string * string) :=
  result_map (fun r => (r.1, x_GroupID r.2))
    (first_row (fun _ x => anchor_of_payment paymentID x) (transactions d)).

Definition q_GetTransactionAnchorForTransfer (transferID : string) (d : db)
  : result (string * string) :=
  result_map (fun r => (r.1, x_GroupID r.2))
    (first_row (fun _ x => anchor_of_transfer transferID x) (transactions d)).

Definition in_group (groupID : string) (x : TxnRow) : bool :=
  bool_decide (x_GroupID x = groupID).

(** [ORDER BY direction]: DEBIT is declared before CREDIT. *)
Definition q_ListTransactionsByGroup (groupID : string) (d : db)
  : result (list (string * TxnRow)) :=
  let rows := rows_where (fun _ x => in_group groupID x) (transactions d) in
  let is_debit r := bool_decide (x_Direction r.2 = LedgerDirectionDEBIT) in
  Ok (List.filter is_debit rows ++ List.filter (fun r => negb (is_debit r)) rows).

Definition set_txn_status (status : TransactionLifecycleStatus) (settled : option Z)
  (failure : option string) (t : Time) (x : TxnRow) : TxnRow := {|
  x_UserID := x_UserID x; x_CounterpartyUserID := x_CounterpartyUserID x;
  x_Kind := x_Kind x; x_Status := status; x_Direction := x_Direction x;
  x_AmountKobo := x_AmountKobo x;
  x_SettledAmountKobo := match settled with Some s => Some s | None => x_SettledAmountKobo x end;
  x_Memo := x_Memo x; x_PaymentTokenID := x_PaymentTokenID x;
  x_TransferID := x_TransferID x; x_CeilingID := x_CeilingID x;
  x_GroupID := x_GroupID x;
  x_FailureReason := match failure with Some f => Some f | None => x_FailureReason x end;
  x_CreatedAt := x_CreatedAt x; x_UpdatedAt := tstz t;
|}.

Definition q_UpdateTransactionStatus (id : string) (status : TransactionLifecycleStatus)
  (settled : option Z) (failure : option string) (t : Time) (d : db)
  : result (unit * db) :=
  match transactions d !! id with
  | None => Ok (tt, d)
  | Some x =>
      Ok (tt, with_transactions
                (<[id := set_txn_status status settled failure t x]> (transactions d)) d)
  end.

(** ** outbox and processed_events (migration 0016) *)

Definition q_InsertOutboxEntry (id aggregate aggregateID : string) (payload : json)
  (t : Time) (d : db) : result (unit * db) :=
  try _ := pk "outbox_pkey" (outbox d) id in
  Ok (tt, with_outbox
        (<[id := {| o_Aggregate := aggregate; o_AggregateID := aggregateID;
                    o_Payload := payload; o_CreatedAt := tstz t; o_DispatchedAt := None;
                    o_Attempts := 0; o_NextAttemptAt := tstz t |}]> (outbox d)) d).

Definition q_IsEventProcessed (outboxID : string) (d : db) : result bool :=
  Ok (bool_decide (is_Some (processed_events d !! outboxID))).

(** [ON CONFLICT (outbox_id) DO NOTHING]. *)
Definition q_MarkEventProcessed (outboxID status : string) (_ : Time) (d : db)
  : result (unit * db) :=
  match processed_events d !! outboxID with
  | Some _ => Ok (tt, d)
  | None => Ok (tt, with_processed_events (<[outboxID := status]> (processed_events d)) d)
  end.

(** ** fraud_signals (migration 0011) *)

(** [created_at] has the default of its column. *)
Definition q_InsertFraudSignal (id : string) (g : FraudSignalRow) (now : Time) (d : db)
  : result (string * FraudSignalRow * db) :=
  let g := {| g_UserID := g_UserID g; g_SignalType := g_SignalType g;
    g_CeilingTokenID := g_CeilingTokenID g; g_TransactionID := g_TransactionID g;
    g_Details := g_Details g; g_Severity := g_Severity g; g_Weight := g_Weight g;
    g_CreatedAt := tstz now |} in
  try _ := pk "fraud_signals_pkey" (fraud_signals d) id in
  try _ := fk "fraud_signals_user_id_fkey" (users d) (g_UserID g) in
  try _ := fk_opt "fraud_signals_ceiling_token_id_fkey" (ceiling_tokens d)
      (g_CeilingTokenID g) in
  try _ := fk_opt "fraud_signals_transaction_id_fkey" (payment_tokens d)
      (g_TransactionID g) in
  Ok ((id, g), with_fraud_signals (<[id := g]> (fraud_signals d)) d).

(** ** Look-ups in users (users.sql.go) *)

(** Two CHAR(n) values are equal when they are up to trailing blanks. *)
Fixpoint rtrim (s : string) : string :=
  match s with
  | EmptyString => EmptyString
  | String a r =>
      match rtrim r with
      | EmptyString => if bool_decide (code a = 32) then EmptyString else String a EmptyString
      | r' => String a r'
      end
  end.
Definition bpchar_eq (s t : string) : bool := String.eqb (rtrim s) (rtrim t).

Definition q_GetUserIDByAccountNumber (number : string) (d : db) : result string :=
  result_map fst (first_row (fun _ u => bpchar_eq (u_AccountNumber u) number) (users d)).

Definition q_GetUserNameByAccountNumber (number : string) (d : db) : result (string * User) :=
  first_row (fun _ u => bpchar_eq (u_AccountNumber u) number
                        && negb (String.eqb (u_KycTier u) "SYSTEM")) (users d).

Definition q_GetUserKYCTier (id : string) (d : db) : result string :=
  match users d !! id with Some u => Ok (u_KycTier u) | None => Err ErrNoRows end.

Definition q_GetUserPhoneAndTier (id : string) (d : db) : result (string * string) :=
  match users d !! id with Some u => Ok (u_Phone u, u_KycTier u) | None => Err ErrNoRows end.

Definition q_GetUserPhoneByID (id : string) (d : db) : result string :=
  match users d !! id with Some u => Ok (u_Phone u) | None => Err ErrNoRows end.

(** The age in hours; the code only looks at its integral part. *)
Definition q_GetUserAccountAgeHours (id : string) (t : Time) (d : db) : result (Z * db) :=
  match users d !! id with
  | Some u => Ok (Z.quot (tstz t - u_CreatedAt u) Hour, d)
  | None => Err ErrNoRows
  end.

Definition tier_rank (tier : string) : Z :=
  if String.eqb tier "TIER_1" then 1 else if String.eqb tier "TIER_2" then 2
  else if String.eqb tier "TIER_3" then 3 else 0.

Definition set_tier (tier : string) (t : Time) (u : User) : User := {|
  u_Phone := u_Phone u; u_AccountNumber := u_AccountNumber u; u_Bvn := u_Bvn u;
  u_KycTier := tier; u_RealmKeyVersion := u_RealmKeyVersion u;
  u_FirstName := u_FirstName u; u_LastName := u_LastName u; u_Email := u_Email u;
  u_PasswordHash := u_PasswordHash u; u_EmailVerified := u_EmailVerified u;
  u_CreatedAt := u_CreatedAt u; u_UpdatedAt := tstz t;
|}.

Definition known_tier (tier : string) : bool :=
  existsb (String.eqb tier) ["TIER_0"; "TIER_1"; "TIER_2"; "TIER_3"; "SYSTEM"].

(** The row is only touched when the new tier ranks strictly higher. *)
Definition q_PromoteUserToTier (id tier : string) (t : Time) (d : db) : result (unit * db) :=
  match users d !! id with
  | None => Ok (tt, d)
  | Some u =>
      if tier_rank (u_KycTier u) <? tier_rank tier then
        try _ := check "users_kyc_tier_check" (known_tier tier) in
        Ok (tt, with_users (<[id := set_tier tier t u]> (users d)) d)
      else Ok (tt, d)
  end.

(** ** transfers (transfers.sql.go, migration 0016) *)

(** How far the session's [TimeZone] is ahead of UTC: a [timestamp] compared with a
    [timestamptz] is read in that zone. *)
Class PgSession := { session_offset : Duration }.

Record InsertAcceptedParams := {
  ia_ID : string;
  ia_SenderUserID : string;
  ia_ReceiverUserID : string;
  ia_ReceiverAccountNumber : string;
  ia_AmountKobo : Z;
  ia_Reference : string;
  ia_Flagged : bool;
}.

Definition same_reference (sender reference : string) (f : TransferRow) : bool :=
  bool_decide (f_SenderUserID f = sender) && bool_decide (f_Reference f = reference).

Definition new_transfer (a : InsertAcceptedParams) (t : Time) : TransferRow := {|
  f_SenderUserID := ia_SenderUserID a; f_ReceiverUserID := ia_ReceiverUserID a;
  f_ReceiverAccountNumber := ia_ReceiverAccountNumber a; f_AmountKobo := ia_AmountKobo a;
  f_Status := StatusAccepted; f_Reference := ia_Reference a; f_FailureReason := None;
  f_Flagged := ia_Flagged a; f_CreatedAt := tstz t; f_SettledAt := None;
|}.

Definition q_CreateTransferAcceptedFlagged (a : InsertAcceptedParams) (t : Time) (d : db)
  : result ((string * TransferRow) * db) :=
  try _ := bigint (ia_AmountKobo a) in
  try _ := check "transfers_amount_kobo_check" (0 <? ia_AmountKobo a) in
  try _ := pk "transfers_pkey" (transfers d) (ia_ID a) in
  try _ := unique "transfers_sender_user_id_reference_key"
      (fun _ f => same_reference (ia_SenderUserID a) (ia_Reference a) f) (transfers d) in
  try _ := fk "transfers_sender_user_id_fkey" (users d) (ia_SenderUserID a) in
  try _ := fk "transfers_receiver_user_id_fkey" (users d) (ia_ReceiverUserID a) in
  Ok ((ia_ID a, new_transfer a t),
      with_transfers (<[ia_ID a := new_transfer a t]> (transfers d)) d).

Definition q_GetTransferByRef (sender reference : string) (d : db)
  : result (string * TransferRow) :=
  first_row (fun _ f => same_reference sender reference f) (transfers d).

Definition q_GetTransfer (id : string) (d : db) : result (string * TransferRow) :=
  match transfers d !! id with Some f => Ok (id, f) | None => Err ErrNoRows end.

Definition sent_by (sender : string) (f : TransferRow) : bool :=
  bool_decide (f_SenderUserID f = sender).

(** Counts at most [limit] rows. *)
Definition q_CountRecentTransfersBySender (sender : string) (window : Duration) (limit : Z)
  (t : Time) (d : db) : result (Z * db) :=
  Ok (Z.min limit (Z.of_nat (length (rows_where
        (fun _ f => sent_by sender f && (tstz t - window <=? f_CreatedAt f)) (transfers d)))),
      d).

Definition q_ExistsTransferBetween (sender receiver : string) (d : db) : result bool :=
  Ok (exists_row (fun _ f => sent_by sender f && bool_decide (f_ReceiverUserID f = receiver))
        (transfers d)).

Definition lagos_offset : Duration := Hour.
Definition Day : Duration := 24 * Hour.
(** [date_trunc('day', now() AT TIME ZONE 'Africa/Lagos')]: midnight on the wall clock of
    Lagos, as a timestamp without zone. *)
Definition lagos_midnight (t : Time) : Z :=
  let wall := tstz t + lagos_offset in wall - wall mod Day.

Definition counts_today {P : PgSession} (sender : string) (t : Time) (f : TransferRow) : bool :=
  sent_by sender f
  && match f_Status f with StatusFailed => false | _ => true end
  && (lagos_midnight t - session_offset <=? f_CreatedAt f).

Definition q_SumSenderTransfersToday {P : PgSession} (sender : string) (t : Time) (d : db)
  : result (Z * db) :=
  result_map (fun n => (n, d))
    (bigint (sum_rows (fun _ f => if counts_today sender t f then f_AmountKobo f else 0)
               (transfers d))).

Definition set_transfer (status : TransferStatus) (reason : option string) (t : Time)
  (f : TransferRow) : TransferRow := {|
  f_SenderUserID := f_SenderUserID f; f_ReceiverUserID := f_ReceiverUserID f;
  f_ReceiverAccountNumber := f_ReceiverAccountNumber f; f_AmountKobo := f_AmountKobo f;
  f_Status := status; f_Reference := f_Reference f; f_FailureReason := reason;
  f_Flagged := f_Flagged f; f_CreatedAt := f_CreatedAt f; f_SettledAt := Some (tstz t);
|}.

Definition q_MarkTransferSettled (id : string) (t : Time) (d : db) : result (unit * db) :=
  Ok (tt, with_transfers (alter (set_transfer StatusSettled None t) id (transfers d)) d).

Definition q_MarkTransferFailed (id reason : string) (t : Time) (d : db)
  : result (unit * db) :=
  Ok (tt, with_transfers (alter (set_transfer StatusFailed (Some reason) t) id
            (transfers d)) d).

(** ** The dispatcher's side of the outbox (outbox.sql.go) *)

Definition created_le (x y : string * OutboxRow) : Prop := o_CreatedAt x.2 <= o_CreatedAt y.2.
#[global] Instance created_le_dec x y : Decision (created_le x y).
Proof. unfold created_le. apply _. Defined.

Definition due (t : Time) (o : OutboxRow) : bool :=
  bool_decide (o_DispatchedAt o = None) && (o_NextAttemptAt o <=? tstz t).

Definition q_ClaimOutboxBatch (limit : nat) (t : Time) (d : db)
  : result (list (string * OutboxRow) * db) :=
  Ok (take limit (merge_sort created_le (rows_where (fun _ o => due t o) (outbox d))), d).

Definition set_dispatch (dispatched : option Time) (attempts : Z) (next : Time)
  (o : OutboxRow) : OutboxRow := {|
  o_Aggregate := o_Aggregate o; o_AggregateID := o_AggregateID o; o_Payload := o_Payload o;
  o_CreatedAt := o_CreatedAt o; o_DispatchedAt := dispatched; o_Attempts := attempts;
  o_NextAttemptAt := next;
|}.

Definition q_MarkOutboxDispatched (id : string) (t : Time) (d : db) : result (unit * db) :=
  Ok (tt, with_outbox (alter (fun o => set_dispatch (Some (tstz t)) (o_Attempts o)
            (o_NextAttemptAt o) o) id (outbox d)) d).

(** An INTEGER column. *)
Definition int4 (z : Z) : result Z :=
  if (- 2 ^ 31 <=? z) && (z <? 2 ^ 31) then Ok z else Err ErrNumericRange.

Definition q_BumpOutboxAttempt (id : string) (next : Time) (_ : Time) (d : db)
  : result (unit * db) :=
  match outbox d !! id with
  | None => Ok (tt, d)
  | Some o =>
      try n := int4 (o_Attempts o + 1) in
      Ok (tt, with_outbox (<[id := set_dispatch (o_DispatchedAt o) n (tstz next) o]>
                (outbox d)) d)
  end.

(** ** fraud_scores (fraud.sql.go, migration 0017) and reading signals *)

Definition q_InsertFraudScore (id : string) (r : FraudScoreRow) (_ : Time) (d : db)
  : result (unit * db) :=
  try _ := bigint (fs_AmountKobo r) in
  try _ := check "fraud_scores_decision_check"
      (existsb (String.eqb (fs_Decision r)) ["ALLOW"; "FLAG"; "BLOCK"]) in
  try _ := pk "fraud_scores_pkey" (fraud_scores d) id in
  Ok (tt, with_fraud_scores (<[id := r]> (fraud_scores d)) d).

Definition signal_newest (x y : string * FraudSignalRow) : Prop :=
  g_CreatedAt y.2 <= g_CreatedAt x.2.
#[global] Instance signal_newest_dec x y : Decision (signal_newest x y).
Proof. unfold signal_newest. apply _. Defined.

Definition q_ListFraudSignalsForUser (userID : string) (d : db)
  : result (list (string * FraudSignalRow)) :=
  Ok (merge_sort signal_newest
        (rows_where (fun _ g => bool_decide (g_UserID g = userID)) (fraud_signals d))).

(** ** Reads and writes of the reconcilers (reconciliation.sql.go) *)

Definition key_le {A} (x y : string * A) : Prop := string_leb x.1 y.1 = true.
#[global] Instance key_le_dec {A} (x y : string * A) : Decision (key_le x y).
Proof. unfold key_le. apply _. Defined.

Definition q_ListAllAccounts (d : db) : result (list (string * Account)) :=
  Ok (merge_sort key_le (map_to_list (accounts d))).

Definition q_ListAllCeilings (d : db) : result (list (string * CeilingRow)) :=
  Ok (merge_sort key_le (map_to_list (ceiling_tokens d))).

Definition q_AccountLedgerSum (id : string) (d : db) : result (Z * Z) :=
  try debit := q_SumAccountDebits id d in
  try credit := q_SumAccountCredits id d in
  Ok (debit, credit).

Definition was_settled (s : TransactionStatus) : bool :=
  status_in s [TxSettled; TxPartiallySettled].

Definition q_SettledTotalForCeiling (ceilingID : string) (d : db) : result Z :=
  bigint (sum_rows (fun _ p => if was_settled (p_Status p) then settled_of ceilingID p else 0)
            (payment_tokens d)).

Definition q_ListSettledTxnsForPayer (userID : string) (d : db)
  : result (list (string * PaymentRow)) :=
  Ok (merge_sort seq_le (rows_where
        (fun _ p => bool_decide (p_PayerUserID p = userID) && was_settled (p_Status p))
        (payment_tokens d))).

Definition created_before (x y : string * PaymentRow) : Prop :=
  p_CreatedAt x.2 <= p_CreatedAt y.2.
#[global] Instance created_before_dec x y : Decision (created_before x y).
Proof. unfold created_before. apply _. Defined.

Definition q_ListSettledTxnsForReceiver (userID : string) (d : db)
  : result (list (string * PaymentRow)) :=
  Ok (merge_sort created_before (rows_where
        (fun _ p => bool_decide (p_PayeeUserID p = userID) && was_settled (p_Status p))
        (payment_tokens d))).

Definition q_ListPaymentsByBatch (batchID : string) (d : db)
  : result (list (string * PaymentRow)) :=
  Ok (merge_sort seq_le (rows_where
        (fun _ p => bool_decide (p_SettlementBatchID p = Some batchID)) (payment_tokens d))).

(** The run's time and creation time are the column defaults. *)
Definition q_CreateReconciliationRun (id : string) (r : ReconciliationRecord) (t : Time)
  (d : db) : result (ReconciliationRecord * db) :=
  try _ := pk "reconciliation_runs_pkey" (reconciliation_runs d) id in
  let row := {| rr_ID := id; rr_Type := rr_Type r; rr_EntityID := rr_EntityID r;
                rr_RunAt := tstz t; rr_Status := rr_Status r;
                rr_Discrepancies := rr_Discrepancies r; rr_CreatedAt := tstz t |} in
  Ok (row, with_reconciliation_runs (<[id := row]> (reconciliation_runs d)) d).

(** ** kyc_submissions (kyc.sql.go, migration 0013) *)

Record InsertKYCSubmissionParams := {
  ik_ID : string;
  ik_UserID : string;
  ik_IDType : string;
  ik_IDNumber : string;
  ik_Status : string;
  ik_RejectionReason : option string;
  ik_TierGranted : option string;
  ik_SubmittedBy : option string;
  ik_VerifiedAt : option Time;
}.

(** [submitted_at] is the column's default. *)
Definition kyc_row (a : InsertKYCSubmissionParams) (t : Time) : KycSubmissionRow := {|
  ks_UserID := ik_UserID a; ks_IDType := ik_IDType a; ks_IDNumber := ik_IDNumber a;
  ks_Status := ik_Status a; ks_RejectionReason := ik_RejectionReason a;
  ks_TierGranted := ik_TierGranted a; ks_SubmittedBy := ik_SubmittedBy a;
  ks_SubmittedAt := tstz t; ks_VerifiedAt := tstz <$> ik_VerifiedAt a |}.

Definition q_InsertKYCSubmission (a : InsertKYCSubmissionParams) (t : Time) (d : db)
  : result (unit * db) :=
  try _ := check "kyc_submissions_id_type_check"
      (existsb (String.eqb (ik_IDType a)) ["BVN"; "NIN"]) in
  try _ := check "kyc_submissions_status_check"
      (existsb (String.eqb (ik_Status a)) ["PENDING"; "VERIFIED"; "REJECTED"]) in
  try _ := pk "kyc_submissions_pkey" (kyc_submissions d) (ik_ID a) in
  try _ := fk "kyc_submissions_user_id_fkey" (users d) (ik_UserID a) in
  Ok (tt, with_kyc_submissions (<[ik_ID a := kyc_row a t]> (kyc_submissions d)) d).

Definition q_GetKYCSubmissionSubmittedAt (id : string) (d : db) : result Time :=
  match kyc_submissions d !! id with
  | Some r => Ok (ks_SubmittedAt r) | None => Err ErrNoRows
  end.

(** [ORDER BY submitted_at DESC]. *)
Definition latest_first (x y : string * KycSubmissionRow) : Prop :=
  ks_SubmittedAt y.2 <= ks_SubmittedAt x.2.
#[export] Instance latest_first_dec : forall x y, Decision (latest_first x y).
Proof. intros x y. unfold latest_first. apply _. Defined.

Definition q_ListKYCSubmissionsByUser (userID : string) (d : db)
  : result (list (string * KycSubmissionRow)) :=
  Ok (merge_sort latest_first
        (rows_where (fun _ r => bool_decide (ks_UserID r = userID)) (kyc_submissions d))).

(** ** Statements that nothing calls *)

(** The column [flagged] has its default. *)
Definition q_CreateTransferAccepted (id sender receiver number : string) (amount : Z)
  (reference : string) : Time -> db -> result ((string * TransferRow) * db) :=
  q_CreateTransferAcceptedFlagged {|
    ia_ID := id; ia_SenderUserID := sender; ia_ReceiverUserID := receiver;
    ia_ReceiverAccountNumber := number; ia_AmountKobo := amount; ia_Reference := reference;
    ia_Flagged := false |}.

Definition q_UpdateTransferStatus (id : string) (status : TransferStatus)
  (failureReason : option string) (settledAt : option Time) (_ : Time) (d : db)
  : result (unit * db) :=
  Ok (tt, with_transfers (alter (fun f => {|
    f_SenderUserID := f_SenderUserID f; f_ReceiverUserID := f_ReceiverUserID f;
    f_ReceiverAccountNumber := f_ReceiverAccountNumber f; f_AmountKobo := f_AmountKobo f;
    f_Status := status; f_Reference := f_Reference f; f_FailureReason := failureReason;
    f_Flagged := f_Flagged f; f_CreatedAt := f_CreatedAt f; f_SettledAt := tstz <$> settledAt |})
    id (transfers d)) d).

Definition q_UpdateUserKYC (id tier : string) (t : Time) (d : db) : result (unit * db) :=
  match users d !! id with
  | None => Ok (tt, d)
  | Some u =>
      try _ := check "users_kyc_tier_check" (known_tier tier) in
      Ok (tt, with_users (<[id := set_tier tier t u]> (users d)) d)
  end.

Definition q_UpdateReconciliationRun (id : string) (status : ReconciliationStatus)
  (discrepancies : list Discrepancy) (_ : Time) (d : db) : result (unit * db) :=
  Ok (tt, with_reconciliation_runs (alter (fun r => {|
    rr_ID := rr_ID r; rr_Type := rr_Type r; rr_EntityID := rr_EntityID r; rr_RunAt := rr_RunAt r;
    rr_Status := status; rr_Discrepancies := discrepancies; rr_CreatedAt := rr_CreatedAt r |})
    id (reconciliation_runs d)) d).
