(* ===== verification/AuthStore.v ===== *)
(** * Sessions, one-time codes and PINs in PostgreSQL (migrations 0002 and 0015)

    The statements of sqlcgen/user_auth.sql.go and user_pins.sql.go, and those of
    users.sql.go that authentication uses. *)

From S2P Require Import Prelude Domain Json Store.

(** The projection behind the profile endpoint ([userauthrepo.Me]). *)
Record Me := {
  me_ID : string;
  me_Phone : string;
  me_AccountNumber : string;
  me_KYCTier : string;
  me_FirstName : string;
  me_LastName : string;
  me_Email : string;
  me_EmailVerified : bool;
}.

(** ** users (users.sql.go) *)

Definition q_GetUserLoginByPhone (phone : string) (d : db) : result (string * User) :=
  first_row (fun _ u => bool_decide (u_Phone u = phone)) (users d).

Definition q_GetMeProjection (id : string) (d : db) : result (string * User) :=
  match users d !! id with Some u => Ok (id, u) | None => Err ErrNoRows end.

Definition q_GetUserByEmail (email : string) (d : db) : result (string * User) :=
  first_row (fun _ u => bool_decide (lower (u_Email u) = lower email)) (users d).

Definition q_GetUserAccountNumber (id : string) (d : db) : result string :=
  match users d !! id with Some u => Ok (u_AccountNumber u) | None => Err ErrNoRows end.

(** The columns authentication rewrites. *)
Definition set_credentials (hash : string) (verified : bool) (t : Time) (u : User) : User := {|
  u_Phone := u_Phone u; u_AccountNumber := u_AccountNumber u; u_Bvn := u_Bvn u;
  u_KycTier := u_KycTier u; u_RealmKeyVersion := u_RealmKeyVersion u;
  u_FirstName := u_FirstName u; u_LastName := u_LastName u; u_Email := u_Email u;
  u_PasswordHash := hash; u_EmailVerified := verified;
  u_CreatedAt := u_CreatedAt u; u_UpdatedAt := tstz t;
|}.

Definition q_MarkEmailVerified (id : string) (t : Time) (d : db) : result (unit * db) :=
  Ok (tt, with_users (alter (fun u => set_credentials (u_PasswordHash u) true t u) id (users d)) d).

Definition q_UpdateUserPassword (id hash : string) (t : Time) (d : db) : result (unit * db) :=
  Ok (tt, with_users (alter (fun u => set_credentials hash (u_EmailVerified u) t u) id (users d)) d).

(** ** user_sessions *)

Definition q_CreateUserSession (id userID refreshHash userAgent ip : string)
  (deviceID : option string) (expiresAt : Time) (t : Time) (d : db) : result (unit * db) :=
  try _ := pk "user_sessions_pkey" (user_sessions d) id in
  try _ := unique "user_sessions_refresh_hash_key"
      (fun _ r => bool_decide (us_RefreshHash r = refreshHash)) (user_sessions d) in
  try _ := fk "user_sessions_user_id_fkey" (users d) userID in
  Ok (tt, with_user_sessions (<[id := {|
    us_UserID := userID; us_RefreshHash := refreshHash; us_UserAgent := userAgent;
    us_Ip := ip; us_DeviceID := deviceID; us_CreatedAt := tstz t;
    us_ExpiresAt := tstz expiresAt; us_RevokedAt := None |}]> (user_sessions d)) d).

(** The other columns have their defaults. *)
Definition q_CreateUserSessionRotation (id userID refreshHash : string) (expiresAt : Time)
  : Time -> db -> result (unit * db) :=
  q_CreateUserSession id userID refreshHash "" "" None expiresAt.

Definition q_GetUserSessionByRefreshHash (refreshHash : string) (d : db)
  : result (string * SessionRow) :=
  first_row (fun _ r => bool_decide (us_RefreshHash r = refreshHash)) (user_sessions d).

Definition q_GetUserSessionOwner (id : string) (d : db) : result SessionRow :=
  match user_sessions d !! id with Some r => Ok r | None => Err ErrNoRows end.

(** [ORDER BY created_at DESC]. *)
Definition newest_first (x y : string * SessionRow) : Prop :=
  us_CreatedAt y.2 <= us_CreatedAt x.2.
#[export] Instance newest_first_dec : forall x y, Decision (newest_first x y).
Proof. intros x y. unfold newest_first. apply _. Defined.

Definition is_active (userID : string) (t : Time) (r : SessionRow) : bool :=
  bool_decide (us_UserID r = userID) && bool_decide (us_RevokedAt r = None)
  && (tstz t <? us_ExpiresAt r).

Definition q_ListActiveUserSessions (userID : string) (t : Time) (d : db)
  : result (list (string * SessionRow) * db) :=
  Ok (merge_sort newest_first (rows_where (fun _ r => is_active userID t r) (user_sessions d)), d).

(** [SET revoked_at = now() ... AND revoked_at IS NULL]. *)
Definition revoke (t : Time) (r : SessionRow) : SessionRow := {|
  us_UserID := us_UserID r; us_RefreshHash := us_RefreshHash r;
  us_UserAgent := us_UserAgent r; us_Ip := us_Ip r; us_DeviceID := us_DeviceID r;
  us_CreatedAt := us_CreatedAt r; us_ExpiresAt := us_ExpiresAt r;
  us_RevokedAt := match us_RevokedAt r with None => Some (tstz t) | Some x => Some x end;
|}.

(** The rows of an UPDATE on the sessions, revoked. *)
Definition revoke_where (P : string -> SessionRow -> bool) (t : Time) (d : db) : db :=
  with_user_sessions (map_imap (fun id r => Some (if P id r then revoke t r else r))
    (user_sessions d)) d.

Definition q_RevokeUserSessionByHash (refreshHash : string) (t : Time) (d : db)
  : result (unit * db) :=
  Ok (tt, revoke_where (fun _ r => bool_decide (us_RefreshHash r = refreshHash)) t d).

Definition q_RevokeUserSessionByID (id : string) (t : Time) (d : db) : result (unit * db) :=
  Ok (tt, revoke_where (fun i _ => bool_decide (i = id)) t d).

(** The count is of the rows that were not revoked yet. *)
Definition q_RevokeOtherUserSessions (userID keep : string) (t : Time) (d : db)
  : result (Z * db) :=
  let P id r := bool_decide (us_UserID r = userID) && negb (bool_decide (id = keep)) in
  Ok (Z.of_nat (length (rows_where
        (fun id r => P id r && bool_decide (us_RevokedAt r = None)) (user_sessions d))),
      revoke_where P t d).

(** ** otp_challenges *)

Definition q_UpsertOTPChallenge (identifier purpose codeHash : string) (expiresAt : Time)
  (t : Time) (d : db) : result (unit * db) :=
  try _ := check "otp_challenges_purpose_check"
      (existsb (String.eqb purpose) ["signup_email_verify"; "password_reset"]) in
  Ok (tt, with_otp_challenges (<[(identifier, purpose) := {|
    oc_CodeHash := codeHash; oc_Attempts := 0; oc_CreatedAt := tstz t;
    oc_ExpiresAt := tstz expiresAt; oc_ConsumedAt := None |}]> (otp_challenges d)) d).

Definition q_GetOTPChallenge (identifier purpose : string) (d : db) : result OtpRow :=
  match otp_challenges d !! (identifier, purpose) with
  | Some r => Ok r | None => Err ErrNoRows
  end.

Definition set_otp (attempts : Z) (consumed : option Time) (r : OtpRow) : OtpRow := {|
  oc_CodeHash := oc_CodeHash r; oc_Attempts := attempts; oc_CreatedAt := oc_CreatedAt r;
  oc_ExpiresAt := oc_ExpiresAt r; oc_ConsumedAt := consumed |}.

Definition q_IncrementOTPAttempts (identifier purpose : string) (_ : Time) (d : db)
  : result (unit * db) :=
  match otp_challenges d !! (identifier, purpose) with
  | None => Ok (tt, d)
  | Some r =>
      try n := int4 (oc_Attempts r + 1) in
      Ok (tt, with_otp_challenges (<[(identifier, purpose) := set_otp n (oc_ConsumedAt r) r]>
                (otp_challenges d)) d)
  end.

(** Whether or not it was consumed already. *)
Definition q_ConsumeOTPChallenge (identifier purpose : string) (t : Time) (d : db)
  : result (unit * db) :=
  Ok (tt, with_otp_challenges
    (alter (fun r => set_otp (oc_Attempts r) (Some (tstz t)) r) (identifier, purpose)
       (otp_challenges d)) d).

(** ** user_pins *)

Definition q_SetUserPIN (userID hash : string) (t : Time) (d : db) : result (Z * db) :=
  try _ := fk "user_pins_user_id_fkey" (users d) userID in
  Ok (1, with_user_pins (<[userID := {|
    pn_PinHash := hash; pn_Attempts := 0; pn_LockedAt := None;
    pn_CreatedAt := match user_pins d !! userID with
                    | Some r => pn_CreatedAt r | None => tstz t end;
    pn_UpdatedAt := tstz t |}]> (user_pins d)) d).

Definition q_GetUserPINState (userID : string) (d : db) : result PinRow :=
  match user_pins d !! userID with Some r => Ok r | None => Err ErrNoRows end.

Definition set_pin (attempts : Z) (locked : option Time) (t : Time) (r : PinRow) : PinRow := {|
  pn_PinHash := pn_PinHash r; pn_Attempts := attempts; pn_LockedAt := locked;
  pn_CreatedAt := pn_CreatedAt r; pn_UpdatedAt := tstz t |}.

(** The parameter is an [int32] the repository converts to. *)
Definition int32 (z : Z) : Z := (z + 2 ^ 31) mod 2 ^ 32 - 2 ^ 31.

Definition q_BumpPINAttempts (userID : string) (attempts : Z) (t : Time) (d : db)
  : result (unit * db) :=
  Ok (tt, with_user_pins (alter (fun r => set_pin attempts (pn_LockedAt r) t r) userID
            (user_pins d)) d).

Definition q_LockUserPIN (userID : string) (attempts : Z) (t : Time) (d : db)
  : result (unit * db) :=
  Ok (tt, with_user_pins (alter (set_pin attempts (Some (tstz t)) t) userID (user_pins d)) d).

Definition q_ClearUserPINAttempts (userID : string) (t : Time) (d : db) : result (unit * db) :=
  Ok (tt, with_user_pins (alter (fun r =>
        if negb (pn_Attempts r =? 0) || bool_decide (is_Some (pn_LockedAt r))
        then set_pin 0 None t r else r) userID (user_pins d)) d).

(** What fits is kept. *)
Lemma int32_id z : - 2 ^ 31 <= z < 2 ^ 31 -> int32 z = z.
Proof. intros H. unfold int32. rewrite Z.mod_small; lia. Qed.
