(* ===== verification/Wire.v ===== *)
(** * Decoding messages (encoding/json's Unmarshal into the wire structs)

    What a decoded JSON tree makes of the structs the consumers unmarshal into, and
    that the producers' encodings decode to what was encoded. *)

From Stdlib Require Import Ascii.
From S2P Require Import Prelude Domain Json Crypto Store.

#[local] Open Scope Z_scope.

(** ** Setting fields

    [Unmarshal] goes through the object's members in order, sets the field a key names
    (ignoring case) and keeps going after a member of the wrong type; what it set stays
    set, and the first such error is returned at the end.  [null] leaves a value alone. *)

Definition setter (A : Type) : Type := A -> json -> A * bool.

Definition set_string {A} (set : A -> string -> A) : setter A := fun a v =>
  match v with JStr s => (set a s, true) | JNull => (a, true) | _ => (a, false) end.

Definition set_int64 {A} (set : A -> Z -> A) : setter A := fun a v =>
  match v with
  | JNum z => if in_int64 z then (set a z, true) else (a, false)
  | JNull => (a, true)
  | _ => (a, false)
  end.

Definition find_setter {A} (setters : list (string * setter A)) (key : string)
  : option (setter A) :=
  snd <$> List.find (fun kv => String.eqb (lower kv.1) (lower key)) setters.

Definition set_member {A} (setters : list (string * setter A)) (st : A * bool)
  (kv : string * json) : A * bool :=
  match find_setter setters kv.1 with
  | None => st
  | Some set => let '(a, ok) := set st.1 kv.2 in (a, st.2 && ok)
  end.

(** The struct and whether decoding reported no error. *)
Definition unmarshal {A} (setters : list (string * setter A)) (zero : A) (v : json)
  : A * bool :=
  match v with
  | JNull => (zero, true)
  | JObj fields => foldl (set_member setters) (zero, true) fields
  | _ => (zero, false)
  end.

(** ** Instants *)

(** The day number of a date ([days_from_civil]). *)
Definition days_from_civil (y m d : Z) : Z :=
  let y' := if m <=? 2 then y - 1 else y in
  let era := y' / 400 in
  let yoe := y' mod 400 in
  let mp := if m <=? 2 then m + 9 else m - 3 in
  let doy := (153 * mp + 2) / 5 + d - 1 in
  let doe := yoe * 365 + yoe / 4 - yoe / 100 + doy in
  era * 146097 + doe - 719468.

Definition is_leap (y : Z) : bool :=
  (y mod 4 =? 0) && (negb (y mod 100 =? 0) || (y mod 400 =? 0)).
Definition days_in (y m : Z) : Z :=
  if (m =? 4) || (m =? 6) || (m =? 9) || (m =? 11) then 30
  else if m =? 2 then (if is_leap y then 29 else 28) else 31.

(** [n] decimal digits at the head, and the rest. *)
Fixpoint take_digits (n : nat) (acc : Z) (s : string) : option (Z * string) :=
  match n, s with
  | O, _ => Some (acc, s)
  | S n', String a rest =>
      if is_digit a then take_digits n' (10 * acc + (code a - 48)) rest else None
  | S _, EmptyString => None
  end.

Definition expect (c : ascii) (s : string) : option string :=
  match s with
  | String a rest => if Ascii.eqb a c then Some rest else None
  | EmptyString => None
  end.

(** The digits of a fraction: nine of them count, the others are dropped. *)
Fixpoint fraction (weight acc : Z) (s : string) : Z * string :=
  match s with
  | String a rest =>
      if is_digit a then fraction (weight / 10) (acc + (code a - 48) * weight) rest
      else (acc, s)
  | EmptyString => (acc, s)
  end.

Definition parse_fraction (s : string) : option (Z * string) :=
  match s with
  | String "."%char (String a _ as rest) =>
      if is_digit a then Some (fraction (10 ^ 8) 0 (match s with String _ r => r | _ => s end))
      else None
  | _ => Some (0, s)
  end.

(** The offset from UTC at the end of the text, in minutes. *)
Definition parse_zone (s : string) : option Z :=
  match s with
  | String "Z"%char EmptyString => Some 0
  | String c rest =>
      let sign := if Ascii.eqb c "+"%char then Some 1
                  else if Ascii.eqb c "-"%char then Some (-1) else None in
      sg ← sign; '(h, r) ← take_digits 2 0 rest; r ← expect ":"%char r;
      '(m, r) ← take_digits 2 0 r;
      if (h <? 24) && (m <? 60) && String.eqb r "" then Some (sg * (h * 60 + m))
      else None
  | EmptyString => None
  end.

(** [parseStrictRFC3339]: the time keeps the offset it was written with. *)
Definition parse_zoned (s : string) : option Zoned :=
  '(y, r) ← take_digits 4 0 s; r ← expect "-"%char r;
  '(mo, r) ← take_digits 2 0 r; r ← expect "-"%char r;
  '(d, r) ← take_digits 2 0 r; r ← expect "T"%char r;
  '(h, r) ← take_digits 2 0 r; r ← expect ":"%char r;
  '(mi, r) ← take_digits 2 0 r; r ← expect ":"%char r;
  '(sec, r) ← take_digits 2 0 r; '(nanos, r) ← parse_fraction r; off ← parse_zone r;
  if (1 <=? mo) && (mo <=? 12) && (1 <=? d) && (d <=? days_in y mo) && (h <? 24)
     && (mi <? 60) && (sec <? 60)
  then Some {| instant := (days_from_civil y mo d * 86400 + h * 3600 + mi * 60 + sec) * Second
                          + nanos - off * Minute;
               zone := off |}
  else None.

(** Its instant, where that is all that is used. *)
Definition parse_time (s : string) : option Time := instant <$> parse_zoned s.

Definition set_time {A} (set : A -> Time -> A) : setter A := fun a v =>
  match v with
  | JStr s => match parse_time s with Some t => (set a t, true) | None => (a, false) end
  | JNull => (a, true)
  | _ => (a, false)
  end.

(** ** Outbox payloads (domain/outbox.go) *)

Definition TransferPayload_zero : TransferPayload := {|
  tp_TransferID := ""; tp_SenderUserID := ""; tp_ReceiverUserID := "";
  tp_ReceiverAccountNumber := ""; tp_AmountKobo := 0; tp_Reference := "" |}.

Definition TransferPayload_json (p : TransferPayload) : result json :=
  json_object [
    ("transfer_id", js (tp_TransferID p));
    ("sender_user_id", js (tp_SenderUserID p));
    ("receiver_user_id", js (tp_ReceiverUserID p));
    ("receiver_account_number", js (tp_ReceiverAccountNumber p));
    ("amount_kobo", jn (tp_AmountKobo p));
    ("reference", js (tp_Reference p))].

Definition TransferPayload_setters : list (string * setter TransferPayload) := [
  ("transfer_id", set_string (fun p s => {|
     tp_TransferID := s; tp_SenderUserID := tp_SenderUserID p;
     tp_ReceiverUserID := tp_ReceiverUserID p;
     tp_ReceiverAccountNumber := tp_ReceiverAccountNumber p;
     tp_AmountKobo := tp_AmountKobo p; tp_Reference := tp_Reference p |}));
  ("sender_user_id", set_string (fun p s => {|
     tp_TransferID := tp_TransferID p; tp_SenderUserID := s;
     tp_ReceiverUserID := tp_ReceiverUserID p;
     tp_ReceiverAccountNumber := tp_ReceiverAccountNumber p;
     tp_AmountKobo := tp_AmountKobo p; tp_Reference := tp_Reference p |}));
  ("receiver_user_id", set_string (fun p s => {|
     tp_TransferID := tp_TransferID p; tp_SenderUserID := tp_SenderUserID p;
     tp_ReceiverUserID := s; tp_ReceiverAccountNumber := tp_ReceiverAccountNumber p;
     tp_AmountKobo := tp_AmountKobo p; tp_Reference := tp_Reference p |}));
  ("receiver_account_number", set_string (fun p s => {|
     tp_TransferID := tp_TransferID p; tp_SenderUserID := tp_SenderUserID p;
     tp_ReceiverUserID := tp_ReceiverUserID p; tp_ReceiverAccountNumber := s;
     tp_AmountKobo := tp_AmountKobo p; tp_Reference := tp_Reference p |}));
  ("amount_kobo", set_int64 (fun p z => {|
     tp_TransferID := tp_TransferID p; tp_SenderUserID := tp_SenderUserID p;
     tp_ReceiverUserID := tp_ReceiverUserID p;
     tp_ReceiverAccountNumber := tp_ReceiverAccountNumber p;
     tp_AmountKobo := z; tp_Reference := tp_Reference p |}));
  ("reference", set_string (fun p s => {|
     tp_TransferID := tp_TransferID p; tp_SenderUserID := tp_SenderUserID p;
     tp_ReceiverUserID := tp_ReceiverUserID p;
     tp_ReceiverAccountNumber := tp_ReceiverAccountNumber p;
     tp_AmountKobo := tp_AmountKobo p; tp_Reference := s |}))].

Definition TransferPayload_unmarshal : json -> TransferPayload * bool :=
  unmarshal TransferPayload_setters TransferPayload_zero.

Definition FinalizePayerPayload_zero : FinalizePayerPayload := {|
  fp_PayerUserID := ""; fp_Reason := ""; fp_EnqueuedAt := time_zero |}.

Definition FinalizePayerPayload_setters : list (string * setter FinalizePayerPayload) := [
  ("payer_user_id", set_string (fun p s => {|
     fp_PayerUserID := s; fp_Reason := fp_Reason p; fp_EnqueuedAt := fp_EnqueuedAt p |}));
  ("reason", set_string (fun p s => {|
     fp_PayerUserID := fp_PayerUserID p; fp_Reason := s; fp_EnqueuedAt := fp_EnqueuedAt p |}));
  ("enqueued_at", set_time (fun p t => {|
     fp_PayerUserID := fp_PayerUserID p; fp_Reason := fp_Reason p; fp_EnqueuedAt := t |}))].

Definition FinalizePayerPayload_unmarshal : json -> FinalizePayerPayload * bool :=
  unmarshal FinalizePayerPayload_setters FinalizePayerPayload_zero.

Record OutboxEnvelope := {
  oe_ID : string;
  oe_Aggregate : string;
  oe_AggregateID : string;
  oe_Payload : json;
}.

Definition OutboxEnvelope_zero : OutboxEnvelope := {|
  oe_ID := ""; oe_Aggregate := ""; oe_AggregateID := ""; oe_Payload := JNull |}.

Definition OutboxEnvelope_json (e : OutboxEnvelope) : result json :=
  json_object [
    ("id", js (oe_ID e));
    ("aggregate", js (oe_Aggregate e));
    ("aggregate_id", js (oe_AggregateID e));
    ("payload", Ok (oe_Payload e))].

Definition OutboxEnvelope_setters : list (string * setter OutboxEnvelope) := [
  ("id", set_string (fun e s => {| oe_ID := s; oe_Aggregate := oe_Aggregate e;
     oe_AggregateID := oe_AggregateID e; oe_Payload := oe_Payload e |}));
  ("aggregate", set_string (fun e s => {| oe_ID := oe_ID e; oe_Aggregate := s;
     oe_AggregateID := oe_AggregateID e; oe_Payload := oe_Payload e |}));
  ("aggregate_id", set_string (fun e s => {| oe_ID := oe_ID e; oe_Aggregate := oe_Aggregate e;
     oe_AggregateID := s; oe_Payload := oe_Payload e |}));
  ("payload", fun e v => ({| oe_ID := oe_ID e; oe_Aggregate := oe_Aggregate e;
     oe_AggregateID := oe_AggregateID e; oe_Payload := v |}, true))].

Definition OutboxEnvelope_unmarshal : json -> OutboxEnvelope * bool :=
  unmarshal OutboxEnvelope_setters OutboxEnvelope_zero.

(** ** Round trips *)

(** A Go string that survives encoding: it is valid UTF-8. *)
Definition utf8 (s : string) : Prop := sanitize s = s.

(** *** Dates

    Within an era of 400 years (starting on a 1 March) the year of a day is found
    between the first days of the years; the 400 years and the 366 days of a year are
    checked by computation, the rest is shifts by whole eras. *)

Fixpoint all_below (n : nat) (z : Z) (P : Z -> bool) : bool :=
  match n with O => true | S n' => P z && all_below n' (z + 1) P end.

Lemma all_below_spec n z P k :
  all_below n z P = true -> z <= k < z + Z.of_nat n -> P k = true.
Proof.
  revert z. induction n as [|n IH]; intros z H Hk; [lia|]. cbn in H.
  apply andb_true_iff in H as [H1 H2]. destruct (decide (k = z)) as [->|Hne]; [done|].
  apply (IH (z + 1)); [done|lia].
Qed.

(** The first day of a year of the era, and the year a day is found in. *)
Definition year_start (yoe : Z) : Z := 365 * yoe + yoe / 4 - yoe / 100.
Definition weighted (doe : Z) : Z := doe - doe / 1460 + doe / 36524 - doe / 146096.
Definition year_of (doe : Z) : Z := weighted doe / 365.
Definition year_end (yoe : Z) : Z := if yoe =? 399 then 146097 else year_start (yoe + 1).

Definition year_ok (yoe : Z) : bool :=
  (year_of (year_start yoe) =? yoe) && (year_of (year_end yoe - 1) =? yoe)
  && (year_end yoe - year_start yoe =? (if is_leap (yoe + 1) then 366 else 365)).

Lemma years_checked : all_below 400 0 year_ok = true.
Proof. vm_compute. reflexivity. Qed.

Lemma weighted_step n : 0 <= n < 146096 -> weighted n <= weighted (n + 1).
Proof.
  intros H. unfold weighted.
  assert (146096 / 146096 = 1) by done.
  destruct (decide (n = 146095)) as [->|Hne]; [by vm_compute|].
  rewrite !(Z.div_small _ 146096) by lia.
  pose proof (Z.div_mod n 1460 ltac:(lia)). pose proof (Z.mod_pos_bound n 1460 ltac:(lia)).
  pose proof (Z.div_mod (n + 1) 1460 ltac:(lia)).
  pose proof (Z.mod_pos_bound (n + 1) 1460 ltac:(lia)).
  pose proof (Z.div_le_mono n (n + 1) 36524 ltac:(lia) ltac:(lia)). lia.
Qed.

Lemma weighted_mono a b : 0 <= a <= b -> b <= 146096 -> weighted a <= weighted b.
Proof.
  intros [H0 H1] H2. replace b with (a + Z.of_nat (Z.to_nat (b - a))) in * by lia.
  induction (Z.to_nat (b - a)) as [|k IH]; [rewrite Z.add_0_r; lia|].
  etransitivity; [apply IH; lia|]. rewrite Nat2Z.inj_succ.
  replace (a + Z.succ (Z.of_nat k)) with (a + Z.of_nat k + 1) by lia.
  apply weighted_step. lia.
Qed.

(** Every day of the era lies in the year it is found in. *)
Lemma year_of_spec doe :
  0 <= doe < 146097 ->
  let yoe := year_of doe in
  0 <= yoe < 400 /\ year_start yoe <= doe < year_end yoe /\
  year_end yoe - year_start yoe = if is_leap (yoe + 1) then 366 else 365.
Proof.
  intros Hd yoe.
  assert (0 <= yoe < 400) as Hy.
  { pose proof (weighted_mono 0 doe ltac:(lia) ltac:(lia)) as Hlo.
    pose proof (weighted_mono doe 146096 ltac:(lia) ltac:(lia)) as Hhi.
    change (weighted 0) with 0 in Hlo. change (weighted 146096) with 145999 in Hhi.
    unfold yoe, year_of. split; [apply Z.div_pos; lia|].
    apply Z.div_lt_upper_bound; lia. }
  assert (forall y, 0 <= y < 400 -> year_of (year_start y) = y /\
    year_of (year_end y - 1) = y /\
    year_end y - year_start y = if is_leap (y + 1) then 366 else 365) as Hok.
  { intros y Hr. pose proof (all_below_spec _ _ _ y years_checked ltac:(lia)) as H.
    unfold year_ok in H. rewrite !andb_true_iff, !Z.eqb_eq in H. tauto. }
  destruct (Hok yoe Hy) as (_ & _ & Hlen). split; [done|]. split; [|done].
  assert (forall y, 0 <= y < 400 -> 0 <= year_start y /\ year_end y <= 146097) as Hrange.
  { intros y Hr. unfold year_end, year_start. destruct (y =? 399); [|];
      (split; [|]); try lia; Z.to_euclidean_division_equations; lia. }
  destruct (Hrange yoe Hy) as [Hs He]. split.
  - destruct (decide (year_start yoe <= doe)) as [?|Hlt]; [done|exfalso].
    assert (yoe <> 0) as Hnz.
    { intros Hz. rewrite Hz in Hlt. change (year_start 0) with 0 in Hlt. lia. }
    destruct (Hok (yoe - 1) ltac:(lia)) as (_ & Hend & _).
    assert (year_end (yoe - 1) = year_start yoe) as Hnext.
    { unfold year_end. destruct (Z.eqb_spec (yoe - 1) 399); [lia|]. f_equal. lia. }
    destruct (Hrange (yoe - 1) ltac:(lia)) as [_ Hup].
    rewrite Hnext in Hend, Hup.
    pose proof (weighted_mono doe (year_start yoe - 1) ltac:(lia) ltac:(lia)) as Hm.
    pose proof (Z.div_le_mono _ _ 365 ltac:(lia) Hm) as Hq.
    unfold year_of in Hend. rewrite Hend in Hq. fold (year_of doe) in Hq.
    fold yoe in Hq. lia.
  - destruct (decide (doe < year_end yoe)) as [?|Hge]; [done|exfalso].
    assert (yoe <> 399) as Hnz.
    { intros Hz. rewrite Hz in Hge. change (year_end 399) with 146097 in Hge. lia. }
    destruct (Hok (yoe + 1) ltac:(lia)) as (Hst & _).
    assert (year_end yoe = year_start (yoe + 1)) as Hnext
      by (unfold year_end; by destruct (Z.eqb_spec yoe 399)).
    rewrite Hnext in Hge. destruct (Hrange (yoe + 1) ltac:(lia)) as [Hs' _].
    pose proof (weighted_mono (year_start (yoe + 1)) doe ltac:(lia) ltac:(lia)) as Hm.
    pose proof (Z.div_le_mono _ _ 365 ltac:(lia) Hm) as Hq.
    unfold year_of in Hst. rewrite Hst in Hq. fold (year_of doe) in Hq. fold yoe in Hq. lia.
Qed.

(** The month and day of a day of the year. *)
Definition month_of (doy : Z) : Z :=
  let mp := (5 * doy + 2) / 153 in if mp <? 10 then mp + 3 else mp - 9.
Definition mday_of (doy : Z) : Z := doy - (153 * ((5 * doy + 2) / 153) + 2) / 5 + 1.

Definition doy_ok (doy : Z) : bool :=
  let m := month_of doy in
  let d := mday_of doy in
  ((153 * (if m <=? 2 then m + 9 else m - 3) + 2) / 5 + d - 1 =? doy)
  && (1 <=? m) && (m <=? 12) && (1 <=? d)
  && (d <=? (if m =? 2 then (if doy =? 365 then 29 else 28)
             else if (m =? 4) || (m =? 6) || (m =? 9) || (m =? 11) then 30 else 31)).

Lemma doys_checked : all_below 366 0 doy_ok = true.
Proof. vm_compute. reflexivity. Qed.

Lemma days_shift e y m d : days_from_civil (y + 400 * e) m d = days_from_civil y m d + e * 146097.
Proof.
  unfold days_from_civil.
  replace (if m <=? 2 then y + 400 * e - 1 else y + 400 * e) with
    ((if m <=? 2 then y - 1 else y) + e * 400) by (destruct (m <=? 2); lia).
  rewrite Z.div_add, Z_mod_plus_full by lia. lia.
Qed.

Lemma is_leap_shift e y : is_leap (y + 400 * e) = is_leap y.
Proof.
  unfold is_leap.
  replace ((y + 400 * e) mod 4) with (y mod 4)
    by (replace (400 * e) with (100 * e * 4) by lia; by rewrite Z_mod_plus_full).
  replace ((y + 400 * e) mod 100) with (y mod 100)
    by (replace (400 * e) with (4 * e * 100) by lia; by rewrite Z_mod_plus_full).
  by replace ((y + 400 * e) mod 400) with (y mod 400)
    by (replace (400 * e) with (e * 400) by lia; by rewrite Z_mod_plus_full).
Qed.

Lemma civil_days days :
  let '(y, m, d) := civil_from_days days in
  days_from_civil y m d = days /\ 1 <= m <= 12 /\ 1 <= d <= days_in y m.
Proof.
  unfold civil_from_days. set (z := days + 719468).
  pose proof (Z.mod_pos_bound z 146097 ltac:(lia)) as Hdoe.
  pose proof (Z.div_mod z 146097 ltac:(lia)) as Hz.
  set (e := z / 146097) in *. set (doe := z mod 146097) in *.
  change ((doe - doe / 1460 + doe / 36524 - doe / 146096) / 365) with (year_of doe).
  destruct (year_of_spec doe Hdoe) as (Hy & Hrange & Hlen). set (yoe := year_of doe) in *.
  cbn zeta. change (365 * yoe + yoe / 4 - yoe / 100) with (year_start yoe).
  set (doy := doe - year_start yoe).
  assert (0 <= doy < 366 /\ (doy = 365 -> is_leap (yoe + 1) = true)) as [Hdoy Hlast]
    by (subst doy; destruct (is_leap (yoe + 1)); split; lia || done).
  fold (mday_of doy). fold (month_of doy).
  pose proof (all_below_spec _ _ _ doy doys_checked ltac:(lia)) as Hok. unfold doy_ok in Hok.
  rewrite !andb_true_iff, Z.eqb_eq, !Z.leb_le in Hok. destruct Hok as ((((H1 & H2) & H3) & H4) & H5).
  replace (yoe + e * 400 + (if month_of doy <=? 2 then 1 else 0)) with
    (yoe + (if month_of doy <=? 2 then 1 else 0) + 400 * e) by lia.
  rewrite days_shift. split; [|split; [lia|split; [lia|]]].
  - unfold days_from_civil.
    replace (if month_of doy <=? 2 then yoe + (if month_of doy <=? 2 then 1 else 0) - 1
             else yoe + (if month_of doy <=? 2 then 1 else 0)) with yoe
      by (destruct (month_of doy <=? 2); lia).
    rewrite Z.div_small, Z.mod_small by lia. rewrite H1. subst doy z. unfold year_start in *. lia.
  - unfold days_in. rewrite is_leap_shift.
    destruct ((month_of doy =? 4) || _ || _ || _) eqn:H30.
    { destruct (month_of doy =? 2) eqn:H2'; [|done].
      apply Z.eqb_eq in H2'. rewrite H2' in H30. done. }
    destruct (month_of doy =? 2) eqn:Hfeb; [|done].
    apply Z.eqb_eq in Hfeb. rewrite Hfeb. cbn. destruct (doy =? 365) eqn:Hl.
    + rewrite Hlast by lia. done.
    + destruct (is_leap _); lia.
Qed.

(** *** Digits *)

Lemma code_char z : 0 <= z < 256 -> code (char z) = z.
Proof. intros H. unfold code, char. rewrite N_ascii_embedding by lia. lia. Qed.

Lemma is_digit_code a : is_digit a = (48 <=? code a) && (code a <=? 57).
Proof.
  unfold is_digit, code, nat_of_ascii. apply eq_true_iff_eq.
  rewrite !andb_true_iff, !Nat.leb_le, !Z.leb_le. lia.
Qed.

Definition digit_char (z : Z) : ascii := char (48 + z).

Lemma digit_char_spec z :
  0 <= z < 10 -> is_digit (digit_char z) = true /\ code (digit_char z) - 48 = z.
Proof.
  intros H. pose proof (code_char (48 + z) ltac:(lia)) as Hc. fold (digit_char z) in Hc.
  rewrite is_digit_code, Hc. split; [|lia]. rewrite andb_true_iff, !Z.leb_le. lia.
Qed.

Lemma app_string_assoc (s t u : string) : ((s +:+ t) +:+ u = s +:+ (t +:+ u))%string.
Proof. induction s as [|a s IH]; [done|]. change (String a ((s +:+ t) +:+ u) = String a (s +:+ (t +:+ u)))%string. by rewrite IH. Qed.

Lemma take_digits_more n : forall acc s v c r,
  take_digits n acc s = Some (v, String c r) -> is_digit c = true ->
  take_digits (S n) acc s = Some (10 * v + (code c - 48), r).
Proof.
  induction n as [|n IH]; intros acc s v c r H Hc.
  - cbn in H. injection H as -> ->. cbn. by rewrite Hc.
  - destruct s as [|a s]; [discriminate|]. cbn in H |- *.
    destruct (is_digit a); [|discriminate]. by apply (IH _ _ _ _ _ H).
Qed.

Lemma take_digits_digits n : forall z s, 0 <= z < 10 ^ Z.of_nat n ->
  take_digits n 0 (digits n z +:+ s) = Some (z, s).
Proof.
  induction n as [|n IH]; intros z s Hz.
  - cbn in *. by replace z with 0 by lia.
  - rewrite Nat2Z.inj_succ, Z.pow_succ_r in Hz by lia. cbn [digits].
    rewrite app_string_assoc. fold (digit_char (z mod 10)).
    pose proof (Z.mod_pos_bound z 10 ltac:(lia)) as Hm.
    destruct (digit_char_spec (z mod 10) Hm) as [Hd Hc].
    erewrite take_digits_more; [| |exact Hd].
    2:{ apply IH. split; [apply Z.div_pos; lia|]. apply Z.div_lt_upper_bound; lia. }
    rewrite Hc. f_equal. f_equal. pose proof (Z.div_mod z 10 ltac:(lia)). lia.
Qed.

(** *** Fractions *)

#[local] Arguments is_digit : simpl never.
#[local] Arguments code : simpl never.

Fixpoint fvalue (weight : Z) (s : string) : Z :=
  match s with
  | EmptyString => 0
  | String a rest => (code a - 48) * weight + fvalue (weight / 10) rest
  end.

Definition starts_no_digit (r : string) : Prop :=
  match r with EmptyString => True | String a _ => is_digit a = false end.

Lemma fraction_digits s : forall weight acc r,
  all_digits s = true -> starts_no_digit r ->
  fraction weight acc (s +:+ r) = (acc + fvalue weight s, r).
Proof.
  induction s as [|a s IH]; intros weight acc r Hs Hr; cbn.
  - rewrite Z.add_0_r. change (fraction weight acc r = (acc, r)).
    destruct r as [|b r]; [done|]. unfold starts_no_digit in Hr. cbn [fraction]. by rewrite Hr.
  - change (fraction weight acc (String a (s +:+ r)) =
      (acc + ((code a - 48) * weight + fvalue (weight / 10) s), r)).
    unfold all_digits in Hs. cbn in Hs. apply andb_true_iff in Hs as [Ha Hs]. cbn [fraction].
    rewrite Ha, IH by done. f_equal. lia.
Qed.

Lemma fvalue_app s : forall weight t,
  fvalue weight (s +:+ t) = fvalue weight s + fvalue (weight / 10 ^ Z.of_nat (String.length s)) t.
Proof.
  induction s as [|a s IH]; intros weight t; cbn [fvalue String.append String.length].
  - cbn. by rewrite Z.div_1_r.
  - change (String a s +:+ t)%string with (String a (s +:+ t)). cbn [fvalue].
    rewrite IH, Nat2Z.inj_succ, Z.pow_succ_r, Z.div_div by lia. lia.
Qed.

Lemma length_append (s t : string) :
  String.length (s +:+ t) = (String.length s + String.length t)%nat.
Proof.
  induction s as [|a s IH]; [done|].
  change (S (String.length (s +:+ t)) = S (String.length s) + String.length t)%nat.
  by rewrite IH.
Qed.

Lemma length_digits n z : String.length (digits n z) = n.
Proof.
  revert z. induction n as [|n IH]; intros z; [done|]. cbn [digits].
  rewrite length_append, IH. cbn. lia.
Qed.

Lemma all_digits_append s t : all_digits (s +:+ t) = all_digits s && all_digits t.
Proof.
  induction s as [|a s IH]; [done|].
  change (is_digit a && all_digits (s +:+ t) = (is_digit a && all_digits s) && all_digits t).
  by rewrite IH, andb_assoc.
Qed.

Lemma all_digits_digits n z : all_digits (digits n z) = true.
Proof.
  revert z. induction n as [|n IH]; intros z; [done|]. cbn [digits].
  rewrite all_digits_append, IH. fold (digit_char (z mod 10)).
  unfold all_digits. cbn. rewrite (proj1 (digit_char_spec (z mod 10) (Z.mod_pos_bound z 10 ltac:(lia)))).
  done.
Qed.

Lemma fvalue_digits n : forall z j, (0 < n)%nat -> 0 <= z < 10 ^ Z.of_nat n -> 0 <= j ->
  fvalue (10 ^ (Z.of_nat n - 1 + j)) (digits n z) = z * 10 ^ j.
Proof.
  induction n as [|n IH]; intros z j Hn Hz Hj; [lia|].
  rewrite Nat2Z.inj_succ, Z.pow_succ_r in Hz by lia. cbn [digits]. rewrite fvalue_app, length_digits.
  replace (Z.of_nat (S n) - 1 + j) with (j + Z.of_nat n) by lia.
  rewrite Z.pow_add_r by lia. rewrite Z.div_mul by lia.
  fold (digit_char (z mod 10)). cbn [fvalue].
  rewrite (proj2 (digit_char_spec (z mod 10) (Z.mod_pos_bound z 10 ltac:(lia)))).
  destruct n as [|n].
  - cbn in Hz |- *. rewrite Z.mod_small by lia. lia.
  - rewrite <- Z.pow_add_r by lia.
    replace (j + Z.of_nat (S n)) with (Z.of_nat (S n) - 1 + (j + 1)) by lia.
    rewrite IH; [|lia| |lia].
    + rewrite Z.pow_add_r by lia. pose proof (Z.div_mod z 10 ltac:(lia)). lia.
    + split; [apply Z.div_pos; lia|]. apply Z.div_lt_upper_bound; lia.
Qed.

Lemma fvalue_trim s : forall weight, fvalue weight (trim_zeros s) = fvalue weight s.
Proof.
  induction s as [|a s IH]; intros weight; [done|]. cbn.
  specialize (IH (weight / 10)). destruct (trim_zeros s) as [|b t] eqn:Ht.
  - cbn in IH. destruct (Ascii.eqb_spec a "0"%char) as [->|Hne]; cbn; rewrite <- IH; [|lia].
    change (code "0"%char) with 48. lia.
  - cbn [fvalue] in *. by rewrite <- IH.
Qed.

Lemma all_digits_trim s : all_digits s = true -> all_digits (trim_zeros s) = true.
Proof.
  unfold all_digits. induction s as [|a s IH]; [done|]. cbn. rewrite andb_true_iff. intros [Ha Hs].
  specialize (IH Hs). destruct (trim_zeros s) as [|b t].
  - destruct (Ascii.eqb a "0"%char); cbn; [done|by rewrite Ha].
  - cbn in *. by rewrite Ha.
Qed.

Lemma parse_fraction_nanos nanos r :
  0 < nanos < Second -> starts_no_digit r ->
  parse_fraction (("." +:+ trim_zeros (digits 9 nanos)) +:+ r) = Some (nanos, r).
Proof.
  intros Hn Hr. set (f := trim_zeros (digits 9 nanos)).
  assert (fvalue (10 ^ 8) f = nanos) as Hv.
  { unfold f. rewrite fvalue_trim.
    assert (0 <= nanos < 10 ^ Z.of_nat 9) as Hb
      by (change (10 ^ Z.of_nat 9) with Second; lia).
    pose proof (fvalue_digits 9 nanos 0 ltac:(lia) Hb ltac:(lia)) as H.
    by rewrite Z.pow_0_r, Z.mul_1_r in H. }
  assert (all_digits f = true) as Hd by apply all_digits_trim, all_digits_digits.
  destruct f as [|a f'] eqn:Hf; [cbn in Hv; lia|].
  assert (is_digit a = true) as Ha by (unfold all_digits in Hd; cbn in Hd; by apply andb_true_iff in Hd as [? _]).
  change (parse_fraction (String "."%char (String a (f' +:+ r))) = Some (nanos, r)).
  unfold parse_fraction. rewrite Ha. f_equal.
  etransitivity; [apply (fraction_digits (String a f') (10 ^ 8) 0 r Hd Hr)|].
  f_equal. lia.
Qed.

(** *** An instant survives its encoding *)

Lemma expect_char c s : expect c (String c s) = Some s.
Proof. unfold expect. by rewrite Ascii.eqb_refl. Qed.

Lemma take_then n z c s {A} (k : Z -> string -> option A) :
  0 <= z < 10 ^ Z.of_nat n ->
  ('(v, r) ← take_digits n 0 (digits n z +:+ String c s); r' ← expect c r; k v r') = k z s.
Proof. intros Hz. rewrite take_digits_digits by done. cbn. by rewrite Ascii.eqb_refl. Qed.

Lemma civil_year_range days :
  let '(y, _, _) := civil_from_days days in 0 <= y -> y <= 9999 -> 0 <= y < 10 ^ Z.of_nat 4.
Proof. destruct (civil_from_days days) as [[y m] d]. cbn. lia. Qed.

Lemma zone_char_checked : all_below 24 0 (fun h => all_below 60 0 (fun m =>
  (h * 60 + m =? 0)
  || (bool_decide (parse_zone (String "+" (digits 2 h +:+ ":" +:+ digits 2 m)) = Some (h * 60 + m))
      && bool_decide (parse_zone (String "-" (digits 2 h +:+ ":" +:+ digits 2 m)) = Some (- (h * 60 + m)))))) = true.
Proof. vm_compute. reflexivity. Qed.

(** An offset is read back, and nothing in it continues a number before it. *)
Lemma parse_zone_text z :
  Z.abs z < 1440 -> parse_zone (zone_text z) = Some z /\ starts_no_digit (zone_text z).
Proof.
  intros Hz. unfold zone_text. destruct (Z.eqb_spec z 0) as [->|Hne]; [done|].
  split; [|by destruct (z <? 0)].
  assert (0 <= Z.abs z / 60 < 24 /\ 0 <= Z.abs z mod 60 < 60 /\
    Z.abs z / 60 * 60 + Z.abs z mod 60 = Z.abs z) as (Hh & Hm & Hs)
    by (Z.to_euclidean_division_equations; lia).
  pose proof (all_below_spec _ _ _ (Z.abs z / 60) zone_char_checked ltac:(lia)) as H.
  pose proof (all_below_spec _ _ _ (Z.abs z mod 60) H ltac:(lia)) as H'. clear H.
  cbv beta in H'. rewrite Hs in H'. destruct (Z.eqb_spec (Z.abs z) 0) as [|_]; [lia|].
  apply andb_true_iff in H' as [Hp Hn]. apply bool_decide_eq_true in Hp, Hn.
  destruct (Z.ltb_spec z 0); [rewrite Hn|rewrite Hp]; f_equal; lia.
Qed.

Lemma parse_rfc3339nano t :
  (exists v, marshal_time t = Ok v) -> parse_zoned (rfc3339nano t) = Some t.
Proof.
  intros [v Hv]. unfold marshal_time in Hv. unfold rfc3339nano.
  assert (instant t = wall t - zone t * Minute) as Hinst by (unfold wall; lia).
  set (secs := wall t / Second) in *. set (nanos := wall t mod Second).
  pose proof (civil_days (secs / 86400)) as Hc.
  destruct (civil_from_days (secs / 86400)) as [[y m] d].
  destruct Hc as (Hdays & Hm & Hd).
  destruct ((y <? 0) || (9999 <? y)) eqn:Hy; [discriminate|].
  apply orb_false_iff in Hy as [Hy1 Hy2]. apply Z.ltb_ge in Hy1, Hy2.
  destruct (Z.leb_spec 1440 (Z.abs (zone t))) as [|Hzone]; [discriminate|].
  destruct (parse_zone_text (zone t) Hzone) as [Hz Hzd].
  pose proof (Z.mod_pos_bound secs 86400 ltac:(lia)) as Hsod.
  pose proof (Z.div_mod secs 86400 ltac:(lia)) as Hsecs.
  pose proof (Z.mod_pos_bound (wall t) Second ltac:(done)) as Hn.
  pose proof (Z.div_mod (wall t) Second ltac:(done)) as Ht. fold secs nanos in Ht, Hn.
  set (sod := secs mod 86400) in *. set (days := secs / 86400) in *.
  assert (days_in y m <= 31) as H31
    by (unfold days_in; destruct (_ || _); [lia|]; destruct (_ =? 2); [destruct (is_leap y)|]; lia).
  assert (0 <= sod / 3600 < 24 /\ 0 <= sod / 60 mod 60 < 60 /\ 0 <= sod mod 60 < 60 /\
    sod / 3600 * 3600 + sod / 60 mod 60 * 60 + sod mod 60 = sod) as (Hh & Hmi & Hs & Hsum)
    by (Z.to_euclidean_division_equations; lia).
  set (h := sod / 3600) in *. set (mi := sod / 60 mod 60) in *. set (se := sod mod 60) in *.
  set (fr := if nanos =? 0 then ""%string else ("." +:+ trim_zeros (digits 9 nanos))%string).
  change (parse_zoned (digits 4 y +:+ String "-"%char (digits 2 m +:+ String "-"%char
    (digits 2 d +:+ String "T"%char (digits 2 h +:+ String ":"%char (digits 2 mi +:+
      String ":"%char (digits 2 se +:+ (fr +:+ zone_text (zone t)))))))) = Some t).
  unfold parse_zoned. rewrite take_then by (cbn; lia). rewrite !take_then by (cbn; lia).
  rewrite take_digits_digits by (cbn; lia). cbn [mbind option_bind].
  assert (parse_fraction (fr +:+ zone_text (zone t)) = Some (nanos, zone_text (zone t))) as ->.
  { unfold fr. destruct (Z.eqb_spec nanos 0) as [->|Hne]; [|by apply parse_fraction_nanos; [lia|]].
    clear -Hzd. unfold zone_text. by destruct (zone t =? 0); [|destruct (zone t <? 0)]. }
  cbn [mbind option_bind]. rewrite Hz. cbn [mbind option_bind].
  rewrite !(proj2 (Z.leb_le _ _)), !(proj2 (Z.ltb_lt _ _)) by lia. cbn [andb].
  f_equal. destruct t as [i z]. cbn [instant zone] in *. f_equal. rewrite Hdays. lia.
Qed.

Lemma set_time_marshal {A} (set : A -> Time -> A) a t v :
  marshal_time t = Ok v -> set_time set a v = (set a (instant t), true).
Proof.
  intros H. pose proof (parse_rfc3339nano t ltac:(by exists v)) as Hp.
  unfold marshal_time in H. destruct (civil_from_days _) as [[y m] d].
  destruct (_ || _); [discriminate|]. destruct (_ <=? _); [discriminate|]. injection H as <-.
  unfold set_time, parse_time. by rewrite Hp.
Qed.

(** *** Messages survive their encoding *)


Lemma TransferPayload_roundtrip p v :
  TransferPayload_json p = Ok v -> in_int64 (tp_AmountKobo p) = true ->
  utf8 (tp_TransferID p) -> utf8 (tp_SenderUserID p) -> utf8 (tp_ReceiverUserID p) ->
  utf8 (tp_ReceiverAccountNumber p) -> utf8 (tp_Reference p) ->
  TransferPayload_unmarshal v = (p, true).
Proof.
  unfold utf8. intros [= <-] Ha H1 H2 H3 H4 H5. unfold marshal_string. rewrite H1, H2, H3, H4, H5.
  destruct p as [tid snd rcv acc amt ref]. cbn in Ha.
  lazy -[in_int64]. by rewrite Ha.
Qed.

Lemma FinalizePayerPayload_roundtrip p v :
  json_object [
    ("payer_user_id", js (fp_PayerUserID p)); ("reason", js (fp_Reason p));
    ("enqueued_at", marshal_time (utc (fp_EnqueuedAt p)))] = Ok v ->
  utf8 (fp_PayerUserID p) -> utf8 (fp_Reason p) ->
  FinalizePayerPayload_unmarshal v = (p, true).
Proof.
  unfold utf8. intros H H1 H2. destruct (marshal_time (utc (fp_EnqueuedAt p))) as [t|e] eqn:Ht; [|discriminate].
  injection H as <-. unfold marshal_string. rewrite H1, H2. destruct p as [u r t0].
  cbn [fp_EnqueuedAt] in Ht.
  lazy -[set_time]. by rewrite (set_time_marshal _ _ _ _ Ht).
Qed.

Lemma OutboxEnvelope_roundtrip e v :
  OutboxEnvelope_json e = Ok v -> utf8 (oe_ID e) -> utf8 (oe_Aggregate e) ->
  utf8 (oe_AggregateID e) -> OutboxEnvelope_unmarshal v = (e, true).
Proof.
  unfold utf8. intros [= <-] H1 H2 H3. unfold marshal_string. rewrite H1, H2, H3.
  by destruct e.
Qed.
