(* ===== verification/Canonical.v ===== *)
(** * The canonical text is unambiguous (internal/crypto/canonical.go)

    The canonical text of a JSON value determines the value up to the order of its
    objects' keys, and the text of a signed payload determines which kind of payload it
    is and every field of it. *)

From Stdlib Require Import Ascii Strings.Byte.
From S2P Require Import Prelude Domain Json Crypto Wire.

#[local] Open Scope string_scope.
#[local] Open Scope Z_scope.

Lemma str_app_assoc (x y z : string) : (x ++ y) ++ z = x ++ y ++ z.
Proof. induction x as [|a x IH]; [done|]. change (String a ((x ++ y) ++ z) = String a (x ++ y ++ z)). by f_equal. Qed.

Lemma str_app_nil (x : string) : x ++ "" = x.
Proof. induction x as [|a x IH]; [done|]. change (String a (x ++ "") = String a x). by f_equal. Qed.

(** ** Induction on trees *)

Section JsonInd.
Variable P : json -> Prop.
Hypothesis Hnull : P JNull.
Hypothesis Hbool : forall b, P (JBool b).
Hypothesis Hnum : forall z, P (JNum z).
Hypothesis Hstr : forall s, P (JStr s).
Hypothesis Harr : forall xs, Forall P xs -> P (JArr xs).
Hypothesis Hobj : forall fs, Forall (fun kv : string * json => P kv.2) fs -> P (JObj fs).

Fixpoint json_ind' (v : json) : P v :=
  match v with
  | JNull => Hnull
  | JBool b => Hbool b
  | JNum z => Hnum z
  | JStr s => Hstr s
  | JArr xs => Harr xs
      ((fix go l : Forall P l :=
          match l with [] => List.Forall_nil _ | x :: r => List.Forall_cons _ _ _ (json_ind' x) (go r) end) xs)
  | JObj fs => Hobj fs
      ((fix go l : Forall (fun kv : string * json => P kv.2) l :=
          match l with
          | [] => List.Forall_nil _
          | kv :: r => List.Forall_cons _ _ _ (json_ind' kv.2) (go r)
          end) fs)
  end.
End JsonInd.

(** ** The order of keys *)

(** A value with the keys of all its objects in order. *)
Fixpoint norm (v : json) : json :=
  match v with
  | JArr xs => JArr (map norm xs)
  | JObj fs => JObj (sort_keys (map (fun kv => (kv.1, norm kv.2)) fs))
  | _ => v
  end.

(** The writer without the sorting. *)
Fixpoint write_raw (v : json) : string :=
  match v with
  | JNull => "null"
  | JBool true => "true"
  | JBool false => "false"
  | JNum z => pretty z
  | JStr s => quoted s
  | JArr xs => "[" ++ join_comma (map write_raw xs) ++ "]"
  | JObj fs =>
      "{" ++ join_comma (map (fun kv => quoted kv.1 ++ ":" ++ write_raw kv.2) fs) ++ "}"
  end.

Lemma insert_key_map {A B} (f : A -> B) k v l :
  insert_key k (f v) (map (fun kv => (kv.1, f kv.2)) l)
  = map (fun kv => (kv.1, f kv.2)) (insert_key k v l).
Proof.
  induction l as [|[k' v'] l IH]; cbn; [done|]. destruct (string_leb k k'); cbn; [done|].
  by rewrite IH.
Qed.

Lemma sort_keys_map {A B} (f : A -> B) l :
  sort_keys (map (fun kv => (kv.1, f kv.2)) l) = map (fun kv => (kv.1, f kv.2)) (sort_keys l).
Proof.
  induction l as [|[k v] l IH]; cbn; [done|]. fold (sort_keys (map (fun kv => (kv.1, f kv.2)) l)).
  rewrite IH. apply insert_key_map.
Qed.

Lemma writeCanonical_norm v : writeCanonical v = write_raw (norm v).
Proof.
  induction v as [| | | |xs IH|fs IH] using json_ind'; try done.
  - cbn. do 2 f_equal. f_equal. induction IH as [|x xs Hx _ IHx]; cbn; [done|]. by rewrite Hx, IHx.
  - cbn [writeCanonical norm write_raw].
    assert (map (fun kv : string * json => (kv.1, writeCanonical kv.2)) fs
      = map (fun kv => (kv.1, write_raw kv.2)) (map (fun kv => (kv.1, norm kv.2)) fs)) as ->.
    { rewrite map_map. cbn. induction IH as [|x xs Hx _ IHx]; cbn; [done|]. by rewrite Hx, IHx. }
    rewrite (sort_keys_map write_raw), map_map. done.
Qed.

(** ** Texts with a delimiter behind them *)

Definition delimiter (a : ascii) : bool :=
  existsb (Ascii.eqb a) [","; "]"; "}"]%char.

Definition numeral (a : ascii) : bool := (code a =? 45) || in_range 48 57 a.

Fixpoint all_chars (P : ascii -> bool) (s : string) : bool :=
  match s with EmptyString => true | String a r => P a && all_chars P r end.

Lemma span_inj P x : forall x' a a' r r',
  all_chars P x = true -> all_chars P x' = true -> P a = false -> P a' = false ->
  x ++ String a r = x' ++ String a' r' -> x = x' /\ a = a' /\ r = r'.
Proof.
  induction x as [|b x IH]; intros [|b' x'] a a' r r' Hx Hx' Ha Ha' H; cbn in *.
  - by injection H as -> ->.
  - injection H as -> _. apply andb_true_iff in Hx' as [? _]. congruence.
  - injection H as -> _. apply andb_true_iff in Hx as [? _]. congruence.
  - injection H as -> H. apply andb_true_iff in Hx as [_ Hx], Hx' as [_ Hx'].
    destruct (IH x' a a' r r' Hx Hx' Ha Ha' H) as (-> & -> & ->). done.
Qed.

(** *** Numbers *)

Lemma pretty_char_numeral x : (x < 10)%N -> numeral (pretty_N_char x) = true.
Proof.
  intros Hx. destruct x as [|p]; [done|].
  do 4 (destruct p as [p|p|]; try done; try lia).
Qed.

Lemma pretty_N_go_numeral x s :
  all_chars numeral s = true -> all_chars numeral (pretty_N_go x s) = true.
Proof.
  revert s. induction (N.lt_wf_0 x) as [x _ IH]; intros s Hs.
  destruct (decide (x = 0)%N) as [->|Hx]; [by rewrite pretty_N_go_0|].
  rewrite pretty_N_go_step by lia. apply IH; [by apply N.div_lt; lia|]. cbn.
  rewrite Hs, pretty_char_numeral; [done|]. by apply N.mod_lt.
Qed.

Lemma pretty_numeral (z : Z) : all_chars numeral (pretty z) = true.
Proof.
  assert (forall p, all_chars numeral (pretty (Npos p)) = true) as H.
  { intros p. unfold pretty, pretty_N. case_decide; [done|]. by apply pretty_N_go_numeral. }
  destruct z as [|p|p]; [done|apply H|].
  change (numeral "-" && all_chars numeral (pretty (Npos p)) = true). by rewrite H.
Qed.

Lemma pretty_N_go_nonempty x s : s <> "" -> pretty_N_go x s <> "".
Proof.
  revert s. induction (N.lt_wf_0 x) as [x _ IH]; intros s Hs.
  destruct (decide (x = 0)%N) as [->|Hx]; [by rewrite pretty_N_go_0|].
  rewrite pretty_N_go_step by lia. apply IH; [by apply N.div_lt; lia|done].
Qed.

Lemma pretty_pos_nonempty p : pretty (Npos p) <> "".
Proof.
  unfold pretty, pretty_N. rewrite decide_False by done. rewrite pretty_N_go_step by done.
  by apply pretty_N_go_nonempty.
Qed.

Lemma pretty_nonempty (z : Z) : exists a s, pretty z = String a s /\ numeral a = true.
Proof.
  pose proof (pretty_numeral z) as H. destruct (pretty z) as [|a s] eqn:He.
  - exfalso. destruct z as [|p|p]; [done|by apply (pretty_pos_nonempty p)|discriminate].
  - cbn in H. apply andb_true_iff in H as [H _]. eauto.
Qed.

(** *** Strings *)

Definition hex_value (a : ascii) : Z := if code a <? 58 then code a - 48 else code a - 87.

(** Reads a string back up to its closing quote. *)
Fixpoint unescape (s : string) : option (string * string) :=
  let more a r := match unescape r with Some (t, rest) => Some (String a t, rest) | None => None end in
  match s with
  | EmptyString => None
  | String a r =>
      if Ascii.eqb a quote then Some ("", r)
      else if negb (Ascii.eqb a backslash) then more a r
      else match r with
      | String b r =>
          if Ascii.eqb b "u" then
            match r with
            | String h0 (String _ (String h1 (String h2 r))) =>
                if Ascii.eqb h0 "2" then
                  match unescape r with
                  | Some (t, rest) =>
                      Some (String (char 226) (String (char 128)
                              (String (char (160 + hex_value h2)) t)), rest)
                  | None => None
                  end
                else more (char (16 * hex_value h1 + hex_value h2)) r
            | _ => None
            end
          else more (if Ascii.eqb b "b" then char 8
                     else if Ascii.eqb b "f" then char 12
                     else if Ascii.eqb b "n" then char 10
                     else if Ascii.eqb b "r" then char 13
                     else if Ascii.eqb b "t" then char 9 else b) r
      | EmptyString => None
      end
  end.

Lemma unescape_byte a r :
  unescape (escape_byte a ++ r) =
    match unescape r with Some (t, rest) => Some (String a t, rest) | None => None end.
Proof. destruct a as [[] [] [] [] [] [] [] []]; reflexivity. Qed.

Lemma escape_step a b c rest :
  escape (String a (String b (String c rest))) =
    if (code a =? 226) && (code b =? 128) && ((code c =? 168) || (code c =? 169))
    then String backslash ("u202" ++ String (hex_digit (code c mod 16)) (escape rest))
    else escape_byte a ++ escape (String b (String c rest)).
Proof. reflexivity. Qed.

Lemma unescape_separator c t r :
  c = char 168 \/ c = char 169 ->
  unescape (String backslash ("u202" ++ String (hex_digit (code c mod 16)) t) ++ String quote r)
  = match unescape (t ++ String quote r) with
    | Some (u, rest) => Some (String (char 226) (String (char 128) (String c u)), rest)
    | None => None
    end.
Proof. intros [->| ->]; reflexivity. Qed.

Lemma unescape_escape s r : unescape (escape s ++ String quote r) = Some (s, r).
Proof.
  remember (String.length s) as n eqn:Hn. revert s Hn.
  induction (lt_wf n) as [n _ IH]; intros s ->.
  assert (forall a tail, s = String a tail ->
    unescape ((escape_byte a ++ escape tail) ++ String quote r) = Some (s, r)) as Hplain.
  { intros a tail ->. rewrite str_app_assoc, unescape_byte.
    rewrite (IH (String.length tail)); [done|cbn; lia|done]. }
  destruct s as [|a [|b [|c rest]]]; [done|by apply Hplain|by apply Hplain|].
  rewrite escape_step. destruct (_ && _) eqn:Hsep; [|by apply Hplain].
  apply andb_true_iff in Hsep as [Hab Hc]. apply andb_true_iff in Hab as [Ha Hb].
  assert (forall x n, code x = n -> x = char n) as Hcode.
  { intros x m <-. unfold char, code. by rewrite N2Z.id, ascii_N_embedding. }
  apply Z.eqb_eq, Hcode in Ha, Hb. subst a b.
  apply orb_true_iff in Hc as [Hc|Hc]; apply Z.eqb_eq, Hcode in Hc; subst c;
    rewrite unescape_separator by auto;
    (rewrite (IH (String.length rest)); [done|cbn; lia|done]).
Qed.

Lemma quoted_inj s s' r r' : quoted s ++ r = quoted s' ++ r' -> s = s' /\ r = r'.
Proof.
  unfold quoted. intros H.
  assert (escape s ++ String quote r = escape s' ++ String quote r') as He.
  { injection H as H. by rewrite !str_app_assoc in H. }
  apply (f_equal unescape) in He. rewrite !unescape_escape in He. by injection He as -> ->.
Qed.

(** *** Sequences *)

Section Sequences.
Context {A : Type} (f : A -> string) (close : ascii).
Hypothesis Hclose : delimiter close = true.
Hypothesis Hcomma : close <> ","%char.
(** The text of an element does not look like the end of the sequence. *)
Hypothesis Hopen : forall x s t, f x ++ s <> String close t.

(** The text of [x] followed by a delimiter can be read in one way only. *)
Definition readable (x : A) : Prop := forall x' a a' r r',
  delimiter a = true -> delimiter a' = true ->
  f x ++ String a r = f x' ++ String a' r' -> x = x' /\ String a r = String a' r'.

Definition tail_text (xs : list A) : string :=
  foldr (fun y acc => "," ++ y ++ acc) "" (map f xs).

Lemma tail_text_cons x xs r :
  tail_text (x :: xs) ++ r = String "," (f x ++ tail_text xs ++ r).
Proof.
  change (String "," ((f x ++ tail_text xs) ++ r) = String "," (f x ++ tail_text xs ++ r)).
  by rewrite str_app_assoc.
Qed.

Lemma tail_text_head xs r :
  exists a s, tail_text xs ++ String close r = String a s /\ delimiter a = true.
Proof.
  destruct xs as [|x xs]; [by exists close, r|]. rewrite tail_text_cons. by eexists _, _.
Qed.

Lemma tail_text_inj xs : Forall readable xs -> forall xs' r r',
  tail_text xs ++ String close r = tail_text xs' ++ String close r' -> xs = xs' /\ r = r'.
Proof.
  induction 1 as [|x xs Hx _ IH]; intros [|x' xs'] r r' H.
  - by injection H.
  - rewrite tail_text_cons in H. injection H as H _. by destruct Hcomma.
  - rewrite tail_text_cons in H. injection H as H _. by destruct Hcomma.
  - rewrite !tail_text_cons in H. injection H as H.
    destruct (tail_text_head xs r) as (a & s & Ha & Hd).
    destruct (tail_text_head xs' r') as (a' & s' & Ha' & Hd'). rewrite Ha, Ha' in H.
    apply Hx in H as [-> H]; [|done..]. rewrite <- Ha, <- Ha' in H.
    apply IH in H as [-> ->]. done.
Qed.

Lemma join_inj xs : Forall readable xs -> forall xs' r r',
  join_comma (map f xs) ++ String close r = join_comma (map f xs') ++ String close r' ->
  xs = xs' /\ r = r'.
Proof.
  assert (forall x xs s, join_comma (map f (x :: xs)) ++ s = f x ++ tail_text xs ++ s) as Hjoin.
  { intros x l s. change ((f x ++ tail_text l) ++ s = f x ++ tail_text l ++ s).
    apply str_app_assoc. }
  intros Hall. destruct Hall as [|x xs Hx Hxs]; intros [|x' xs'] r r' H; rewrite ?Hjoin in H.
  - by injection H.
  - symmetry in H. by apply Hopen in H.
  - by apply Hopen in H.
  -
    destruct (tail_text_head xs r) as (a & s & Ha & Hd).
    destruct (tail_text_head xs' r') as (a' & s' & Ha' & Hd'). rewrite Ha, Ha' in H.
    apply Hx in H as [-> H]; [|done..]. rewrite <- Ha, <- Ha' in H.
    by apply tail_text_inj in H as [-> ->].
Qed.
End Sequences.

(** ** One reading per text *)

(** The kind of value a text starts, by its first character. *)
Definition kind (a : ascii) : Z :=
  if Ascii.eqb a "n" then 0
  else if Ascii.eqb a "t" || Ascii.eqb a "f" then 1
  else if numeral a then 2
  else if Ascii.eqb a quote then 3
  else if Ascii.eqb a "[" then 4
  else if Ascii.eqb a "{" then 5 else 6.

Definition tag (v : json) : Z :=
  match v with
  | JNull => 0 | JBool _ => 1 | JNum _ => 2 | JStr _ => 3 | JArr _ => 4 | JObj _ => 5
  end.

Lemma numeral_kind a : numeral a = true -> kind a = 2.
Proof. by destruct a as [[] [] [] [] [] [] [] []]. Qed.

Lemma write_raw_head v : exists a s, write_raw v = String a s /\ kind a = tag v.
Proof.
  destruct v as [|[]|z|s|xs|fs]; try (by eexists _, _).
  destruct (pretty_nonempty z) as (a & s & Hp & Ha). exists a, s. split; [done|].
  by apply numeral_kind.
Qed.

Lemma write_raw_not_closed v c s t :
  Ascii.eqb c "]" = true \/ Ascii.eqb c "}" = true -> write_raw v ++ s <> String c t.
Proof.
  destruct (write_raw_head v) as (a & r & -> & Hk). intros Hc [= -> _].
  destruct Hc as [Hc|Hc]; apply Ascii.eqb_eq in Hc; subst c; destruct v; discriminate.
Qed.

Lemma write_raw_readable v : readable write_raw v.
Proof.
  induction v as [|b|z|s|xs IH|fs IH] using json_ind';
    intros v' a a' r r' Ha Ha' H;
    (assert (tag v' = tag (ltac:(match goal with H : write_raw ?v ++ _ = _ |- _ => exact v end)))
       as Htag; [destruct (write_raw_head v') as (c' & s' & Hc' & <-);
         match goal with |- _ = tag ?v => destruct (write_raw_head v) as (c & s0 & Hc & <-) end;
         rewrite Hc, Hc' in H; injection H as -> _; done|]);
    destruct v' as [|b'|z'|s'|xs'|fs']; try discriminate; clear Htag.
  - by injection H as -> ->.
  - destruct b, b'; try discriminate; by injection H as -> ->.
  - cbn in H. assert (numeral a = false /\ numeral a' = false) as [Hn Hn'].
    { split; [destruct a as [[] [] [] [] [] [] [] []]|destruct a' as [[] [] [] [] [] [] [] []]];
        done. }
    apply (span_inj numeral) in H as (Hz & -> & ->); try done; [|apply pretty_numeral..].
    by apply (inj pretty) in Hz as ->.
  - cbn in H. apply quoted_inj in H as [-> H]. done.
  - cbn [write_raw] in H. injection H as H. rewrite !str_app_assoc in H.
    apply (join_inj write_raw "]"%char) in H as [-> H]; try done.
    intros x s t. apply write_raw_not_closed. by left.
  - cbn [write_raw] in H. injection H as H. rewrite !str_app_assoc in H.
    apply (join_inj (fun kv => quoted kv.1 ++ ":" ++ write_raw kv.2) "}"%char) in H as [-> H];
      try done.
    eapply Forall_impl; [exact IH|]. intros [k v] Hv [k' v'] b b' t t' Hb Hb' Ht. cbn in *.
    rewrite !str_app_assoc in Ht. apply quoted_inj in Ht as [-> Ht]. injection Ht as Ht.
    apply Hv in Ht as [-> Ht]; done.
Qed.

Lemma writeCanonical_inj v v' : writeCanonical v = writeCanonical v' -> norm v = norm v'.
Proof.
  rewrite !writeCanonical_norm. intros H. apply (f_equal (fun s => s ++ String "," "")) in H.
  by apply write_raw_readable in H as [H _].
Qed.

(** The canonical text of a JSON value determines the value up to the order of the keys of its
    objects, and does not depend on that order. *)
Theorem writeCanonical_complete v v' : writeCanonical v = writeCanonical v' <-> norm v = norm v'.
Proof. split; [apply writeCanonical_inj|]. rewrite !writeCanonical_norm. by intros ->. Qed.

(** ** Signed payloads *)

(** *** Base64 *)

Definition b64_value (a : ascii) : Z :=
  let n := code a in
  if n <? 48 then (if n =? 43 then 62 else 63)
  else if n <? 58 then n + 4
  else if n <? 91 then n - 65
  else n - 71.

Lemma b64_all : all_below 64 0 (fun n => (b64_value (b64_char n) =? n)
  && negb (Ascii.eqb (b64_char n) "=")) = true.
Proof. vm_compute. reflexivity. Qed.

Lemma b64_char_spec n : 0 <= n < 64 -> b64_value (b64_char n) = n /\ b64_char n <> "="%char.
Proof.
  intros Hn. pose proof (all_below_spec _ _ _ n b64_all ltac:(lia)) as H.
  apply andb_true_iff in H as [H1 H2]. apply Z.eqb_eq in H1. split; [done|].
  intros He. by rewrite He in H2.
Qed.

Lemma b64_char_inj n m : 0 <= n < 64 -> 0 <= m < 64 -> b64_char n = b64_char m -> n = m.
Proof.
  intros Hn Hm H. apply (f_equal b64_value) in H.
  by rewrite (proj1 (b64_char_spec n Hn)), (proj1 (b64_char_spec m Hm)) in H.
Qed.

Lemma byte_code_range b : 0 <= byte_code b < 256.
Proof. unfold byte_code. pose proof (Byte.to_N_bounded b). lia. Qed.

Lemma byte_code_inj a b : byte_code a = byte_code b -> a = b.
Proof.
  unfold byte_code. intros H. apply N2Z.inj in H. apply (f_equal Byte.of_N) in H.
  rewrite !Byte.of_to_N in H. by injection H.
Qed.

(** The four ways six bits are taken out of the bytes. *)
Lemma sextet1 x : 0 <= byte_code x / 4 < 64.
Proof. pose proof (byte_code_range x). Z.to_euclidean_division_equations. lia. Qed.
Lemma sextet2 x : 0 <= byte_code x mod 4 * 16 < 64.
Proof. pose proof (byte_code_range x). Z.to_euclidean_division_equations. lia. Qed.
Lemma sextet3 x y : 0 <= byte_code x mod 4 * 16 + byte_code y / 16 < 64.
Proof.
  pose proof (byte_code_range x). pose proof (byte_code_range y).
  Z.to_euclidean_division_equations. lia.
Qed.
Lemma sextet4 y : 0 <= byte_code y mod 16 * 4 < 64.
Proof. pose proof (byte_code_range y). Z.to_euclidean_division_equations. lia. Qed.
Lemma sextet5 y z : 0 <= byte_code y mod 16 * 4 + byte_code z / 64 < 64.
Proof.
  pose proof (byte_code_range y). pose proof (byte_code_range z).
  Z.to_euclidean_division_equations. lia.
Qed.
Lemma sextet6 z : 0 <= byte_code z mod 64 < 64.
Proof. apply Z.mod_pos_bound. lia. Qed.

#[local] Hint Resolve sextet1 sextet2 sextet3 sextet4 sextet5 sextet6 : core.

Lemma padding_ne n : 0 <= n < 64 -> "="%char = b64_char n -> False.
Proof. intros Hn H. by apply (proj2 (b64_char_spec n Hn)). Qed.

(** Reads equal base64 characters back as equal numbers; padding is no character. *)
Ltac b64_inv :=
  repeat match goal with
  | H : "="%char = b64_char _ |- _ => exfalso; revert H; by apply padding_ne
  | H : b64_char _ = "="%char |- _ => exfalso; symmetry in H; revert H; by apply padding_ne
  | H : b64_char _ = b64_char _ |- _ => apply b64_char_inj in H; [|by auto..]
  end.

Lemma bytes_of_sextets a b c a' b' c' :
  byte_code a / 4 = byte_code a' / 4 ->
  byte_code a mod 4 * 16 + byte_code b / 16 = byte_code a' mod 4 * 16 + byte_code b' / 16 ->
  byte_code b mod 16 * 4 + byte_code c / 64 = byte_code b' mod 16 * 4 + byte_code c' / 64 ->
  byte_code c mod 64 = byte_code c' mod 64 -> a = a' /\ b = b' /\ c = c'.
Proof.
  intros H1 H2 H3 H4. pose proof (byte_code_range a). pose proof (byte_code_range b).
  pose proof (byte_code_range c). pose proof (byte_code_range a').
  pose proof (byte_code_range b'). pose proof (byte_code_range c').
  split_and!; apply byte_code_inj; Z.to_euclidean_division_equations; lia.
Qed.

Lemma base64_inj_length n : forall bs bs',
  (length bs <= n)%nat -> base64 bs = base64 bs' -> bs = bs'.
Proof.
  induction n as [|n IH]; intros bs bs' Hlen H.
  { destruct bs; [|cbn in Hlen; lia]. by destruct bs' as [|a [|b [|c l]]]. }
  assert (byte_code x00 = 0) as Hz by done.
  destruct bs as [|a [|b [|c l]]], bs' as [|a' [|b' [|c' l']]]; try done; cbn [base64] in H;
    injection H; clear H; intros; b64_inv.
  - destruct (bytes_of_sextets a x00 x00 a' x00 x00) as (-> & _); try done; rewrite Hz; lia.
  - destruct (bytes_of_sextets a b x00 a' b' x00) as (-> & -> & _); try done; rewrite Hz; lia.
  - destruct (bytes_of_sextets a b c a' b' c') as (-> & -> & ->); try done.
    do 3 f_equal. apply IH; [cbn in Hlen; lia|done].
Qed.

Lemma marshal_bytes_inj bs bs' : marshal_bytes bs = marshal_bytes bs' -> bs = bs'.
Proof.
  destruct bs as [|b bs], bs' as [|b' bs']; try done. unfold marshal_bytes. intros [= H].
  by apply (base64_inj_length (S (length bs))).
Qed.

Lemma marshal_time_text t v : marshal_time t = Ok v -> v = JStr (rfc3339nano t).
Proof.
  unfold marshal_time. destruct (civil_from_days _) as [[? ?] ?]. destruct (_ || _); [discriminate|].
  destruct (_ <=? _); [discriminate|]. by intros [= <-].
Qed.

Lemma marshal_time_inj t t' v : marshal_time t = Ok v -> marshal_time t' = Ok v -> t = t'.
Proof.
  intros H H'. pose proof (parse_rfc3339nano t ltac:(by exists v)) as Ht.
  pose proof (parse_rfc3339nano t' ltac:(by exists v)) as Ht'.
  apply marshal_time_text in H, H'. assert (rfc3339nano t = rfc3339nano t') as He by congruence.
  rewrite He, Ht' in Ht. by injection Ht.
Qed.

(** The instants of a payload that encodes do encode. *)
Lemma rfc3339nano_inj t t' v v' :
  marshal_time t = Ok v -> marshal_time t' = Ok v' -> rfc3339nano t = rfc3339nano t' -> t = t'.
Proof.
  intros H H' He. apply (marshal_time_inj t t' v H).
  rewrite (marshal_time_text _ _ H), He, <- (marshal_time_text _ _ H'). done.
Qed.

Lemma marshal_bytes_norm bs : norm (marshal_bytes bs) = marshal_bytes bs.
Proof. by destruct bs. Qed.

Lemma marshal_string_inj s s' :
  utf8 s -> utf8 s' -> marshal_string s = marshal_string s' -> s = s'.
Proof. unfold utf8, marshal_string. congruence. Qed.

(** *** The four signed kinds *)

Inductive signed :=
| SignedCeiling (p : CeilingTokenPayload)
| SignedPayment (p : PaymentPayload)
| SignedCard (p : DisplayCardPayload)
| SignedRequest (p : PaymentRequestPayload).

Definition signed_json (x : signed) : result json :=
  match x with
  | SignedCeiling p => CeilingTokenPayload_json p
  | SignedPayment p => PaymentPayload_json p
  | SignedCard p => DisplayCardPayload_json p
  | SignedRequest p => PaymentRequestPayload_json p
  end.

(** Its strings are valid UTF-8: what is not does not survive encoding/json. *)
Definition clean_card (d : DisplayCard) : Prop :=
  utf8 (dc_UserID d) /\ utf8 (dc_DisplayName d) /\ utf8 (dc_AccountNumber d) /\
  utf8 (dc_BankKeyID d).

Definition clean (x : signed) : Prop :=
  match x with
  | SignedCeiling p => utf8 (ctp_PayerID p) /\ utf8 (ctp_BankKeyID p)
  | SignedPayment p => utf8 (pp_PayerID p) /\ utf8 (pp_PayeeID p) /\ utf8 (pp_CeilingTokenID p)
  | SignedCard p => utf8 (dcp_UserID p) /\ utf8 (dcp_DisplayName p) /\
      utf8 (dcp_AccountNumber p) /\ utf8 (dcp_BankKeyID p)
  | SignedRequest p => utf8 (prp_ReceiverID p) /\ clean_card (prp_ReceiverDisplayCard p)
  end.

(** What encodes to a payload's tree, field by field. *)
Lemma signed_json_norm x v :
  signed_json x = Ok v -> norm v =
    match x with
    | SignedCeiling p =>
        JObj [("bank_key_id", marshal_string (ctp_BankKeyID p));
              ("ceiling_amount", JNum (ctp_CeilingAmount p));
              ("expires_at", JStr (rfc3339nano (ctp_ExpiresAt p)));
              ("issued_at", JStr (rfc3339nano (ctp_IssuedAt p)));
              ("payer_id", marshal_string (ctp_PayerID p));
              ("public_key", marshal_bytes (ctp_PayerPublicKey p));
              ("sequence_start", JNum (ctp_SequenceStart p))]
    | SignedPayment p =>
        JObj [("amount", JNum (pp_Amount p));
              ("ceiling_token_id", marshal_string (pp_CeilingTokenID p));
              ("payee_id", marshal_string (pp_PayeeID p));
              ("payer_id", marshal_string (pp_PayerID p));
              ("remaining_ceiling", JNum (pp_RemainingCeiling p));
              ("request_hash", marshal_bytes (pp_RequestHash p));
              ("sequence_number", JNum (pp_SequenceNumber p));
              ("session_nonce", marshal_bytes (pp_SessionNonce p));
              ("timestamp", JStr (rfc3339nano (pp_Timestamp p)))]
    | SignedCard p =>
        JObj [("account_number", marshal_string (dcp_AccountNumber p));
              ("bank_key_id", marshal_string (dcp_BankKeyID p));
              ("display_name", marshal_string (dcp_DisplayName p));
              ("issued_at", JStr (rfc3339nano (dcp_IssuedAt p)));
              ("user_id", marshal_string (dcp_UserID p))]
    | SignedRequest p =>
        JObj [("amount", JNum (prp_Amount p));
              ("expires_at", JStr (rfc3339nano (prp_ExpiresAt p)));
              ("issued_at", JStr (rfc3339nano (prp_IssuedAt p)));
              ("receiver_device_pubkey", marshal_bytes (prp_ReceiverDevicePubkey p));
              ("receiver_display_card",
                let c := prp_ReceiverDisplayCard p in
                JObj [("account_number", marshal_string (dc_AccountNumber c));
                      ("bank_key_id", marshal_string (dc_BankKeyID c));
                      ("display_name", marshal_string (dc_DisplayName c));
                      ("issued_at", JStr (rfc3339nano (dc_IssuedAt c)));
                      ("server_signature", marshal_bytes (dc_ServerSignature c));
                      ("user_id", marshal_string (dc_UserID c))]);
              ("receiver_id", marshal_string (prp_ReceiverID p));
              ("session_nonce", marshal_bytes (prp_SessionNonce p))]
    end.
Proof.
  destruct x as [p|p|p|p]; cbn [signed_json]; intros H;
    unfold CeilingTokenPayload_json, PaymentPayload_json, DisplayCardPayload_json,
      PaymentRequestPayload_json, DisplayCard_json, json_object, js, jn, jb in H;
    cbn [foldr fst snd result_bind result_map] in H;
    repeat match type of H with
    | context [marshal_time ?t] =>
        let Ht := fresh "Ht" in
        destruct (marshal_time t) eqn:Ht; cbn [result_bind result_map] in H; [|discriminate H];
        apply marshal_time_text in Ht; subst
    end;
    injection H as <-; cbn [norm map fst snd]; rewrite ?marshal_bytes_norm; reflexivity.
Qed.

Definition encodes (t : Zoned) : Prop := exists v, marshal_time t = Ok v.

Lemma signed_json_times x v :
  signed_json x = Ok v ->
  match x with
  | SignedCeiling p => encodes (ctp_IssuedAt p) /\ encodes (ctp_ExpiresAt p)
  | SignedPayment p => encodes (pp_Timestamp p)
  | SignedCard p => encodes (dcp_IssuedAt p)
  | SignedRequest p => encodes (prp_IssuedAt p) /\ encodes (prp_ExpiresAt p) /\
      encodes (dc_IssuedAt (prp_ReceiverDisplayCard p))
  end.
Proof.
  unfold encodes. destruct x as [p|p|p|p]; cbn [signed_json]; intros H;
    unfold CeilingTokenPayload_json, PaymentPayload_json, DisplayCardPayload_json,
      PaymentRequestPayload_json, DisplayCard_json, json_object, js, jn, jb in H;
    cbn [foldr fst snd result_bind result_map] in H;
    repeat match type of H with
    | context [marshal_time ?t] =>
        destruct (marshal_time t) eqn:?; cbn [result_bind result_map] in H; [|discriminate H]
    end; eauto 10.
Qed.

Lemma rfc_inj t t' : encodes t -> encodes t' -> rfc3339nano t = rfc3339nano t' -> t = t'.
Proof. intros [v H] [v' H']. by eapply rfc3339nano_inj. Qed.

Lemma obj_cons k a b l l' :
  JObj ((k, a) :: l) = JObj ((k, b) :: l') -> a = b /\ JObj l = JObj l'.
Proof. by intros [= -> ->]. Qed.

Lemma num_inj a b : JNum a = JNum b -> a = b.
Proof. by intros [= ->]. Qed.

Lemma text_inj t t' : encodes t -> encodes t' -> JStr (rfc3339nano t) = JStr (rfc3339nano t') -> t = t'.
Proof.
  assert (forall a b, JStr a = JStr b -> a = b) as Hs by (by intros a b [= ->]).
  intros H H' He%Hs. by apply rfc_inj.
Qed.

(** Turns two equal trees of the same kind into equal fields. *)
Ltac fields_inv :=
  repeat match goal with
  | H : JObj (_ :: _) = JObj (_ :: _) |- _ => apply obj_cons in H as [? H]
  | H : JNum _ = JNum _ |- _ => apply num_inj in H
  | H : marshal_string _ = marshal_string _ |- _ => apply marshal_string_inj in H; [|assumption..]
  | H : marshal_bytes _ = marshal_bytes _ |- _ => apply marshal_bytes_inj in H
  | H : JStr (rfc3339nano _) = JStr (rfc3339nano _) |- _ => apply text_inj in H; [|assumption..]
  end.

Definition keys (v : json) : list string := match v with JObj fs => fs.*1 | _ => [] end.

(** Claim C20: a signature binds everything it signs: two payloads of any of the four signed kinds
    (ceiling, payment, display card, payment request) with the same canonical text are
    of the same kind and equal in every field, so no signature can be presented for
    another payload or another kind of payload. *)
Theorem signed_text_determines x y m :
  clean x -> clean y ->
  Canonicalize (signed_json x) = Ok m -> Canonicalize (signed_json y) = Ok m -> x = y.
Proof.
  intros Hx Hy H1 H2. unfold Canonicalize in *.
  destruct (signed_json x) as [v|] eqn:Hv; [|discriminate].
  destruct (signed_json y) as [v'|] eqn:Hv'; [|discriminate]. cbn in H1, H2.
  injection H1 as <-. injection H2 as H2. apply writeCanonical_inj in H2.
  pose proof (signed_json_times _ _ Hv) as Ht. pose proof (signed_json_times _ _ Hv') as Ht'.
  rewrite (signed_json_norm _ _ Hv), (signed_json_norm _ _ Hv') in H2. clear Hv Hv'.
  pose proof (f_equal keys H2) as Hkeys.
  destruct x as [p|p|p|p], y as [q|q|q|q]; try discriminate Hkeys; clear Hkeys; cbn zeta in H2;
    cbn [clean] in Hx, Hy; unfold clean_card in *; destruct_and?; fields_inv; f_equal;
    destruct p, q; cbn in *; subst; try reflexivity.
  f_equal. destruct prp_ReceiverDisplayCard, prp_ReceiverDisplayCard0. by cbn in *; subst.
Qed.
