(* ===== verification/Parse.v ===== *)
(** * Reading JSON text (encoding/json)

    The scanner of [json.Unmarshal] as a function from text to a tree of literals, and the
    readings of literals by the types of struct fields.  The canonical writer's text is
    read back as the tree it was written from. *)

From Stdlib Require Import Ascii Strings.Byte.
From S2P Require Import Prelude Domain Json Crypto Wire Canonical.

#[local] Set Warnings "-register-all".
#[local] Open Scope string_scope.
#[local] Open Scope Z_scope.

(** ** The syntax *)

(** Strings and numbers keep their source text, as [json.Unmarshal] does until it knows
    the type of the field they go to; the text of a string is without its quotes. *)
Inductive tree :=
| TNull
| TBool (b : bool)
| TNum (text : string)
| TStr (text : string)
| TArr (xs : list tree)
| TObj (members : list (string * tree)).

Definition space (a : ascii) : bool :=
  (code a =? 32) || (code a =? 9) || (code a =? 10) || (code a =? 13).

Fixpoint skip_space (s : string) : string :=
  match s with
  | String a r => if space a then skip_space r else s
  | EmptyString => ""
  end.

Definition hex_char (a : ascii) : bool :=
  is_digit a || in_range 97 102 a || in_range 65 70 a.

Definition simple_escape (a : ascii) : bool :=
  existsb (Ascii.eqb a) [quote; backslash; "/"; "b"; "f"; "n"; "r"; "t"]%char.

(** The text of a string up to its closing quote, and what follows it. *)
Fixpoint scan_string (s : string) : option (string * string) :=
  match s with
  | EmptyString => None
  | String a r =>
      if Ascii.eqb a quote then Some ("", r)
      else if Ascii.eqb a backslash then
        match r with
        | String b r1 =>
            if simple_escape b then
              '(t, rest) ← scan_string r1; Some (String a (String b t), rest)
            else if Ascii.eqb b "u" then
              match r1 with
              | String c (String d (String e (String f r2))) =>
                  if hex_char c && hex_char d && hex_char e && hex_char f then
                    '(t, rest) ← scan_string r2;
                    Some (String a (String b (String c (String d (String e (String f t))))), rest)
                  else None
              | _ => None
              end
            else None
        | EmptyString => None
        end
      else if code a <? 32 then None
      else '(t, rest) ← scan_string r; Some (String a t, rest)
  end.

Fixpoint span_digits (s : string) : string * string :=
  match s with
  | String a r => if is_digit a then (String a (span_digits r).1, (span_digits r).2) else ("", s)
  | EmptyString => ("", "")
  end.

(** One digit or more. *)
Definition scan_digits (s : string) : option (string * string) :=
  let '(ds, r) := span_digits s in if String.eqb ds "" then None else Some (ds, r).

Definition scan_int (s : string) : option (string * string) :=
  match s with
  | String a r => if Ascii.eqb a "0" then Some ("0", r) else scan_digits s
  | EmptyString => None
  end.

Definition scan_fraction (s : string) : option (string * string) :=
  match s with
  | String a r =>
      if Ascii.eqb a "." then '(ds, r) ← scan_digits r; Some (String a ds, r) else Some ("", s)
  | EmptyString => Some ("", s)
  end.

Definition scan_sign (s : string) : string * string :=
  match s with
  | String a r =>
      if Ascii.eqb a "+" || Ascii.eqb a "-" then (String a "", r) else ("", s)
  | EmptyString => ("", s)
  end.

Definition scan_exponent (s : string) : option (string * string) :=
  match s with
  | String a r =>
      if Ascii.eqb a "e" || Ascii.eqb a "E" then
        let '(sign, r) := scan_sign r in
        '(ds, r) ← scan_digits r; Some (String a (sign ++ ds), r)
      else Some ("", s)
  | EmptyString => Some ("", s)
  end.

Definition scan_unsigned (s : string) : option (string * string) :=
  '(i, r) ← scan_int s; '(f, r) ← scan_fraction r; '(e, r) ← scan_exponent r;
  Some (i ++ f ++ e, r).

Definition scan_number (s : string) : option (string * string) :=
  match s with
  | String a r =>
      if Ascii.eqb a "-" then '(t, r) ← scan_unsigned r; Some (String a t, r)
      else scan_unsigned s
  | EmptyString => None
  end.

(** [strip_prefix] with what a keyword means. *)
Fixpoint scan_word (word s : string) : option string :=
  match word, s with
  | EmptyString, _ => Some s
  | String a w, String b r => if Ascii.eqb a b then scan_word w r else None
  | String _ _, EmptyString => None
  end.

(** [scanner]'s limit on nested arrays and objects. *)
Definition maxNestingDepth : Z := 10000.

(** A value and what follows it; the elements of an array after its bracket, and the
    members of an object after its brace, up to the closing one.  [depth] is how many more
    brackets may be opened.  Two units of fuel for each byte of the text are enough. *)
Fixpoint scan_value (fuel : nat) (depth : Z) (s : string) : option (tree * string) :=
  match fuel with
  | O => None
  | S fuel =>
      match skip_space s with
      | EmptyString => None
      | String a r as s =>
          if Ascii.eqb a quote then '(t, r) ← scan_string r; Some (TStr t, r)
          else if Ascii.eqb a "[" then
            if depth <=? 0 then None
            else
              let r := skip_space r in
              match scan_word "]" r with
              | Some r => Some (TArr [], r)
              | None => '(xs, r) ← scan_elements fuel (depth - 1) r; Some (TArr xs, r)
              end
          else if Ascii.eqb a "{" then
            if depth <=? 0 then None
            else
              let r := skip_space r in
              match scan_word "}" r with
              | Some r => Some (TObj [], r)
              | None => '(ms, r) ← scan_members fuel (depth - 1) r; Some (TObj ms, r)
              end
          else if Ascii.eqb a "n" then r ← scan_word "null" s; Some (TNull, r)
          else if Ascii.eqb a "t" then r ← scan_word "true" s; Some (TBool true, r)
          else if Ascii.eqb a "f" then r ← scan_word "false" s; Some (TBool false, r)
          else '(t, r) ← scan_number s; Some (TNum t, r)
      end
  end
with scan_elements (fuel : nat) (depth : Z) (s : string) : option (list tree * string) :=
  match fuel with
  | O => None
  | S fuel =>
      '(x, r) ← scan_value fuel depth s;
      let r := skip_space r in
      match scan_word "," r with
      | Some r => '(xs, r) ← scan_elements fuel depth r; Some (x :: xs, r)
      | None => r ← scan_word "]" r; Some ([x], r)
      end
  end
with scan_members (fuel : nat) (depth : Z) (s : string)
  : option (list (string * tree) * string) :=
  match fuel with
  | O => None
  | S fuel =>
      match skip_space s with
      | EmptyString => None
      | String a r =>
          if negb (Ascii.eqb a quote) then None
          else
            '(k, r) ← scan_string r;
            r ← scan_word ":" (skip_space r);
            '(v, r) ← scan_value fuel depth r;
            let r := skip_space r in
            match scan_word "," r with
            | Some r => '(ms, r) ← scan_members fuel depth r; Some ((k, v) :: ms, r)
            | None => r ← scan_word "}" r; Some ([(k, v)], r)
            end
      end
  end.

Definition enough (s : string) : nat := 2 * String.length s + 1.

(** [checkValid] and the value it is about: nothing but space may follow it. *)
Definition parse (s : string) : option tree :=
  '(v, r) ← scan_value (enough s) maxNestingDepth s;
  if String.eqb (skip_space r) "" then Some v else None.

(** ** Every reading consumes text *)

Lemma skip_space_length s : (String.length (skip_space s) <= String.length s)%nat.
Proof. induction s as [|a s IH]; cbn; [done|]. destruct (space a); cbn; lia. Qed.

Lemma scan_word_length w s r :
  scan_word w s = Some r -> String.length s = (String.length w + String.length r)%nat.
Proof.
  revert s. induction w as [|a w IH]; intros [|b s]; cbn; try (intros [= <-]; done).
  destruct (Ascii.eqb a b); [|done]. intros H. by rewrite (IH _ H).
Qed.

(** Induction on texts by length. *)
Lemma text_ind (P : string -> Prop) :
  (forall s, (forall t, (String.length t < String.length s)%nat -> P t) -> P s) -> forall s, P s.
Proof. intros H s. induction (well_founded_ltof _ String.length s) as [s _ IH]. by apply H. Qed.

Lemma scan_string_length s : forall t r,
  scan_string s = Some (t, r) -> (String.length r < String.length s)%nat.
Proof.
  induction s as [s IH] using text_ind. intros t r H. destruct s as [|a s]; [done|].
  cbn [scan_string] in H.
  assert (forall s' u, (String.length s' <= String.length s)%nat ->
    ('(t, rest) ← scan_string s'; Some (u t, rest)) = Some (t, r) ->
    (String.length r < String.length (String a s))%nat) as Hgo.
  { intros s' u Hs Hu. apply bind_Some in Hu as ((t' & r') & Hu & [= _ <-]).
    apply IH in Hu; cbn; lia. }
  destruct (Ascii.eqb a quote); [injection H as _ <-; cbn; lia|].
  destruct (Ascii.eqb a backslash).
  - destruct s as [|b s]; [done|]. destruct (simple_escape b).
    + eapply Hgo; [|exact H]. cbn. lia.
    + destruct (Ascii.eqb b "u"); [|done]. destruct s as [|c [|d [|e [|f s]]]]; try done.
      destruct (_ && _); [|done]. eapply Hgo; [|exact H]. cbn. lia.
  - destruct (code a <? 32); [done|]. eapply Hgo; [|exact H]. done.
Qed.

Lemma span_digits_length s : (String.length (span_digits s).2 <= String.length s)%nat.
Proof. induction s as [|a s IH]; cbn; [done|]. destruct (is_digit a); cbn; lia. Qed.

Lemma scan_digits_length s t r :
  scan_digits s = Some (t, r) -> (String.length r < String.length s)%nat.
Proof.
  unfold scan_digits. destruct s as [|a s]; [done|]. cbn. destruct (is_digit a); cbn; [|done].
  intros [= _ <-]. pose proof (span_digits_length s). lia.
Qed.

Lemma scan_unsigned_length s t r :
  scan_unsigned s = Some (t, r) -> (String.length r < String.length s)%nat.
Proof.
  unfold scan_unsigned. intros H. apply bind_Some in H as ((i & r1) & Hi & H).
  apply bind_Some in H as ((f & r2) & Hf & H). apply bind_Some in H as ((e & r3) & He & [= _ <-]).
  assert (String.length r1 < String.length s)%nat.
  { destruct s as [|a s]; [done|]. cbn in Hi. destruct (Ascii.eqb a "0").
    - injection Hi as _ <-. cbn. lia.
    - by apply scan_digits_length in Hi. }
  assert (String.length r2 <= String.length r1)%nat.
  { destruct r1 as [|a r1]; [by injection Hf as _ <-|]. cbn in Hf. destruct (Ascii.eqb a ".").
    - apply bind_Some in Hf as ((ds & r') & Hf & [= _ <-]). apply scan_digits_length in Hf. cbn. lia.
    - by injection Hf as _ <-. }
  enough (String.length r3 <= String.length r2)%nat by lia.
  destruct r2 as [|a r2]; [by injection He as _ <-|]. cbn in He.
  destruct (Ascii.eqb a "e" || Ascii.eqb a "E"); [|by injection He as _ <-].
  assert (String.length (scan_sign r2).2 <= String.length r2)%nat.
  { destruct r2 as [|b r2]; cbn; [done|]. destruct (_ || _); cbn; lia. }
  destruct (scan_sign r2) as [sign r4]. apply bind_Some in He as ((ds & r') & He & [= _ <-]).
  apply scan_digits_length in He. cbn in *. lia.
Qed.

Lemma scan_number_length s t r :
  scan_number s = Some (t, r) -> (String.length r < String.length s)%nat.
Proof.
  unfold scan_number. destruct s as [|a s]; [done|]. destruct (Ascii.eqb a "-").
  - intros H. apply bind_Some in H as ((t' & r') & H & [= _ <-]).
    apply scan_unsigned_length in H. cbn. lia.
  - apply scan_unsigned_length.
Qed.

Definition shorter {A} (s : string) (o : option (A * string)) : Prop :=
  forall a r, o = Some (a, r) -> (String.length r < String.length s)%nat.

(** What the three mutual readers have left is shorter than what they were given. *)
Lemma scan_shorter fuel : forall depth s,
  shorter s (scan_value fuel depth s) /\ shorter s (scan_elements fuel depth s) /\
  shorter s (scan_members fuel depth s).
Proof.
  induction fuel as [|fuel IH]; [by repeat split|]. intros depth s.
  assert (forall w t r, w <> "" -> scan_word w t = Some r ->
    (String.length r < String.length t)%nat) as Hword.
  { intros w t r Hw H. apply scan_word_length in H. destruct w; [done|]. cbn in H. lia. }
  pose proof (skip_space_length s) as Hs. repeat split; intros x r H.
  - cbn [scan_value] in H. destruct (skip_space s) as [|a t]; [done|]. cbn in Hs.
    pose proof (skip_space_length t) as Ht.
    destruct (Ascii.eqb a quote).
    { apply bind_Some in H as ((t' & r') & H & [= _ <-]). apply scan_string_length in H. lia. }
    destruct (Ascii.eqb a "[").
    { destruct (depth <=? 0); [done|]. destruct (scan_word "]" (skip_space t)) as [t'|] eqn:Hw.
      - injection H as _ <-. apply Hword in Hw; [lia|done].
      - apply bind_Some in H as ((xs & r') & H & [= _ <-]). apply (proj1 (proj2 (IH _ _))) in H. lia. }
    destruct (Ascii.eqb a "{").
    { destruct (depth <=? 0); [done|]. destruct (scan_word "}" (skip_space t)) as [t'|] eqn:Hw.
      - injection H as _ <-. apply Hword in Hw; [lia|done].
      - apply bind_Some in H as ((xs & r') & H & [= _ <-]). apply (proj2 (proj2 (IH _ _))) in H. lia. }
    destruct (Ascii.eqb a "n");
      [apply bind_Some in H as (r' & H & [= _ <-]); apply Hword in H; [cbn in H; lia|done]|].
    destruct (Ascii.eqb a "t");
      [apply bind_Some in H as (r' & H & [= _ <-]); apply Hword in H; [cbn in H; lia|done]|].
    destruct (Ascii.eqb a "f");
      [apply bind_Some in H as (r' & H & [= _ <-]); apply Hword in H; [cbn in H; lia|done]|].
    apply bind_Some in H as ((t' & r') & H & [= _ <-]). apply scan_number_length in H.
    cbn in H. lia.
  - cbn [scan_elements] in H. apply bind_Some in H as ((y & r1) & H1 & H).
    apply (proj1 (IH _ _)) in H1. pose proof (skip_space_length r1).
    destruct (scan_word "," (skip_space r1)) as [r2|] eqn:Hw.
    + apply bind_Some in H as ((xs & r') & H & [= _ <-]). apply (proj1 (proj2 (IH _ _))) in H.
      apply Hword in Hw; [lia|done].
    + apply bind_Some in H as (r' & H & [= _ <-]). apply Hword in H; [lia|done].
  - cbn [scan_members] in H. destruct (skip_space s) as [|a t]; [done|]. cbn in Hs.
    destruct (negb _); [done|]. apply bind_Some in H as ((k & r1) & H1 & H).
    apply scan_string_length in H1. pose proof (skip_space_length r1).
    apply bind_Some in H as (r2 & H2 & H). apply Hword in H2; [|done].
    apply bind_Some in H as ((v & r3) & H3 & H). apply (proj1 (IH _ _)) in H3.
    pose proof (skip_space_length r3). destruct (scan_word "," (skip_space r3)) as [r4|] eqn:Hw.
    + apply bind_Some in H as ((xs & r') & H & [= _ <-]). apply (proj2 (proj2 (IH _ _))) in H.
      apply Hword in Hw; [lia|done].
    + apply bind_Some in H as (r' & H & [= _ <-]). apply Hword in H; [lia|done].
Qed.

(** Beyond two units for each byte, fuel changes nothing. *)
Lemma scan_fuel f : forall f' depth s,
  ((2 * String.length s < f)%nat -> (2 * String.length s < f')%nat ->
   scan_value f depth s = scan_value f' depth s) /\
  ((2 * String.length s + 1 < f)%nat -> (2 * String.length s + 1 < f')%nat ->
   scan_elements f depth s = scan_elements f' depth s) /\
  ((2 * String.length s + 1 < f)%nat -> (2 * String.length s + 1 < f')%nat ->
   scan_members f depth s = scan_members f' depth s).
Proof.
  induction f as [|f IH]; [repeat split; lia|]. intros [|f'] depth s; [repeat split; lia|].
  pose proof (skip_space_length s) as Hs.
  repeat split; intros Hf Hf'; cbn [scan_value scan_elements scan_members].
  - destruct (skip_space s) as [|a t]; [done|]. cbn in Hs. pose proof (skip_space_length t).
    destruct (Ascii.eqb a quote); [done|].
    destruct (Ascii.eqb a "[");
      [|destruct (Ascii.eqb a "{"); [|done]];
      (destruct (depth <=? 0); [done|]; destruct (scan_word _ _); [done|]).
    + by rewrite (proj1 (proj2 (IH f' (depth - 1) (skip_space t)))) by lia.
    + by rewrite (proj2 (proj2 (IH f' (depth - 1) (skip_space t)))) by lia.
  - rewrite (proj1 (IH f' depth s)) by lia.
    destruct (scan_value f' depth s) as [[x r]|] eqn:Hv; [|done]. cbn [mbind option_bind].
    apply (proj1 (scan_shorter _ _ _)) in Hv. pose proof (skip_space_length r).
    destruct (scan_word "," (skip_space r)) as [r2|] eqn:Hw; [|done].
    apply scan_word_length in Hw. cbn in Hw.
    by rewrite (proj1 (proj2 (IH f' depth r2))) by lia.
  - destruct (skip_space s) as [|a t]; [done|]. cbn in Hs. destruct (negb _); [done|].
    destruct (scan_string t) as [[k r]|] eqn:Hk; [|done]. cbn [mbind option_bind]. apply scan_string_length in Hk.
    pose proof (skip_space_length r).
    destruct (scan_word ":" (skip_space r)) as [r1|] eqn:Hw; [|done]. cbn [mbind option_bind].
    apply scan_word_length in Hw. cbn in Hw. rewrite (proj1 (IH f' depth r1)) by lia.
    destruct (scan_value f' depth r1) as [[x r2]|] eqn:Hv; [|done]. cbn [mbind option_bind].
    apply (proj1 (scan_shorter _ _ _)) in Hv. pose proof (skip_space_length r2).
    destruct (scan_word "," (skip_space r2)) as [r3|] eqn:Hw'; [|done].
    apply scan_word_length in Hw'. cbn in Hw'.
    by rewrite (proj2 (proj2 (IH f' depth r3))) by lia.
Qed.

(** ** Written text is read back *)

(** The literals the writer leaves for a tree. *)
Fixpoint tree_of (v : json) : tree :=
  match v with
  | JNull => TNull
  | JBool b => TBool b
  | JNum z => TNum (pretty z)
  | JStr s => TStr (escape s)
  | JArr xs => TArr (map tree_of xs)
  | JObj fs => TObj (map (fun kv => (escape kv.1, tree_of kv.2)) fs)
  end.

(** How deep arrays and objects nest. *)
Fixpoint height (v : json) : Z :=
  match v with
  | JArr xs => 1 + foldr Z.max 0 (map height xs)
  | JObj fs => 1 + foldr Z.max 0 (map (fun kv => height kv.2) fs)
  | _ => 0
  end.

(** What may follow a value. *)
Definition ends (r : string) : Prop :=
  match r with EmptyString => True | String a _ => delimiter a = true end.

Lemma scan_escape_byte a t :
  scan_string (escape_byte a ++ t)
  = '(u, rest) ← scan_string t; Some (escape_byte a ++ u, rest).
Proof. by destruct a as [[] [] [] [] [] [] [] []]. Qed.

Lemma scan_escape s r : scan_string (escape s ++ String quote r) = Some (escape s, r).
Proof.
  induction s as [s IH] using text_ind.
  assert (forall a tail, s = String a tail ->
    scan_string ((escape_byte a ++ escape tail) ++ String quote r)
    = Some (escape_byte a ++ escape tail, r)) as Hplain.
  { intros a tail ->. rewrite str_app_assoc, scan_escape_byte. rewrite IH by (cbn; lia). done. }
  destruct s as [|a [|b [|c rest]]]; [done|by apply Hplain|by apply Hplain|].
  rewrite escape_step. destruct (_ && _) eqn:Hsep; [|by apply Hplain].
  assert (forall d t, d = "8"%char \/ d = "9"%char ->
    scan_string (String backslash ("u202" ++ String d t))
    = '(u, rest) ← scan_string t; Some (String backslash ("u202" ++ String d u), rest)) as Hu.
  { by intros d t [->| ->]. }
  apply andb_true_iff in Hsep as [_ Hc].
  change (scan_string (String backslash ("u202" ++ String (hex_digit (code c mod 16))
    (escape rest ++ String quote r))) = Some (String backslash
      ("u202" ++ String (hex_digit (code c mod 16)) (escape rest)), r)).
  rewrite Hu; [rewrite IH by (cbn; lia); done|].
  apply orb_true_iff in Hc as [Hc|Hc]; apply Z.eqb_eq in Hc; rewrite Hc; auto.
Qed.

(** *** Numbers *)

#[local] Arguments is_digit : simpl never.
#[local] Arguments code : simpl never.

Lemma pretty_char_spec x : (x < 10)%N ->
  pretty_N_char x = digit_char (Z.of_N x).
Proof. intros Hx. destruct x as [|p]; [done|]. do 4 (destruct p as [p|p|]; try done; try lia). Qed.

Lemma pretty_char_digit x : (x < 10)%N ->
  is_digit (pretty_N_char x) = true /\ code (pretty_N_char x) - 48 = Z.of_N x.
Proof. intros Hx. rewrite pretty_char_spec by done. apply digit_char_spec. lia. Qed.

Lemma pretty_go_digits x s : (0 < x)%N -> all_digits s = true ->
  exists a r, pretty_N_go x s = String a r /\ is_digit a = true /\ a <> "0"%char /\
    all_digits r = true.
Proof.
  revert s. induction (N.lt_wf_0 x) as [x _ IH]; intros s Hx Hs.
  rewrite pretty_N_go_step by done.
  destruct (pretty_char_digit (x `mod` 10) ltac:(by apply N.mod_lt)) as [Hd Hc].
  destruct (decide (x < 10)%N) as [Hsmall|].
  - rewrite N.div_small, pretty_N_go_0 by done. rewrite N.mod_small in * by done.
    exists (pretty_N_char x), s. repeat split; [done| |done]. intros He. rewrite He in Hc.
    change (0 = Z.of_N x) in Hc. lia.
  - apply IH; [by apply N.div_lt|apply N.div_str_pos; lia|].
    change (is_digit (pretty_N_char (x `mod` 10)) && all_digits s = true). by rewrite Hd, Hs.
Qed.

Lemma pretty_pos_digits p :
  exists a r, pretty (Npos p) = String a r /\ is_digit a = true /\ a <> "0"%char /\
    all_digits r = true.
Proof.
  unfold pretty, pretty_N. rewrite decide_False by done. by apply pretty_go_digits.
Qed.

Lemma span_digits_app ds r : all_digits ds = true -> starts_no_digit r ->
  span_digits (ds ++ r) = (ds, r).
Proof.
  intros Hd Hr. induction ds as [|a ds IH].
  - destruct r as [|b r]; [done|]. cbn in Hr. change (span_digits (String b r) = ("", String b r)).
    cbn [span_digits]. by rewrite Hr.
  - change (is_digit a && all_digits ds = true) in Hd. apply andb_true_iff in Hd as [Ha Hd].
    change (span_digits (String a (ds ++ r)) = (String a ds, r)). cbn [span_digits].
    by rewrite Ha, IH.
Qed.

Lemma scan_digits_end ds r : ds <> "" -> all_digits ds = true -> ends r ->
  scan_digits (ds ++ r) = Some (ds, r).
Proof.
  intros Hne Hd Hr. unfold scan_digits. rewrite span_digits_app; [|done|].
  - destruct (String.eqb_spec ds ""); [done|]. done.
  - destruct r as [|a r]; [done|]. cbn in *. by destruct a as [[] [] [] [] [] [] [] []].
Qed.

Lemma scan_unsigned_pretty n r : ends r ->
  scan_unsigned (pretty n ++ r) = Some (pretty (n : N), r).
Proof.
  intros Hr.
  assert (scan_fraction r = Some ("", r) /\ scan_exponent r = Some ("", r)) as [Hf He].
  { destruct r as [|a r]; [done|]. cbn in Hr |- *. by destruct a as [[] [] [] [] [] [] [] []]. }
  assert (scan_int (pretty n ++ r) = Some (pretty n, r)) as Hi.
  { destruct n as [|p]; [done|]. destruct (pretty_pos_digits p) as (a & s & Hp & Ha & Hz & Hs).
    rewrite Hp. change (String a s ++ r) with (String a (s ++ r)). unfold scan_int.
    destruct (Ascii.eqb_spec a "0"); [done|].
    apply (scan_digits_end (String a s)); [done| |done].
    change (is_digit a && all_digits s = true). by rewrite Ha, Hs. }
  unfold scan_unsigned. rewrite Hi. cbn [mbind option_bind]. rewrite Hf. cbn [mbind option_bind].
  rewrite He. cbn [mbind option_bind]. f_equal. f_equal. cbn. apply str_app_nil.
Qed.

Lemma scan_number_pretty (z : Z) r : ends r -> scan_number (pretty z ++ r) = Some (pretty z, r).
Proof.
  intros Hr. destruct z as [|p|p].
  - apply (scan_unsigned_pretty 0). done.
  - change (pretty (Zpos p)) with (pretty (Npos p)). rewrite <- (scan_unsigned_pretty (Npos p) r Hr).
    destruct (pretty_pos_digits p) as (a & s & -> & Ha & _ & _).
    change (String a s ++ r) with (String a (s ++ r)). unfold scan_number.
    destruct (Ascii.eqb_spec a "-") as [->|]; [|done]. discriminate.
  - change (scan_number (String "-" (pretty (Npos p) ++ r)) = Some (String "-" (pretty (Npos p)), r)).
    cbn [scan_number]. rewrite (scan_unsigned_pretty (Npos p) r Hr). done.
Qed.

(** *** Values *)

Lemma skip_head a s : space a = false -> skip_space (String a s) = String a s.
Proof. intros H. cbn [skip_space]. by rewrite H. Qed.

Lemma skip_written v s : skip_space (write_raw v ++ s) = write_raw v ++ s.
Proof.
  destruct (write_raw_head v) as (a & r & -> & Hk). apply (skip_head a (r ++ s)).
  destruct v; destruct a as [[] [] [] [] [] [] [] []]; done.
Qed.

Lemma skip_ends r : ends r -> skip_space r = r.
Proof. destruct r as [|a r]; [done|]. intros H. apply skip_head. by destruct a as [[] [] [] [] [] [] [] []]. Qed.

Lemma scan_numeral f d a s : kind a = 2 ->
  scan_value (S f) d (String a s)
  = '(t, r) ← scan_number (String a s); Some (TNum t, r).
Proof. by destruct a as [[] [] [] [] [] [] [] []]. Qed.

Lemma length_app_string (s t : string) :
  String.length (s ++ t) = (String.length s + String.length t)%nat.
Proof. induction s as [|a s IH]; [done|]. change (S (String.length (s ++ t)) = S (String.length s) + String.length t)%nat. by rewrite IH. Qed.

Lemma quoted_app k s : quoted k ++ s = String quote (escape k ++ String quote s).
Proof. change (String quote ((escape k ++ String quote "") ++ s) = String quote (escape k ++ String quote s)). by rewrite str_app_assoc. Qed.

(** What the round trip says of one value. *)
Definition read_back (v : json) : Prop := forall f d r,
  (2 * String.length (write_raw v ++ r) < f)%nat -> height v <= d -> ends r ->
  scan_value f d (write_raw v ++ r) = Some (tree_of v, r).

Lemma ends_tail {A} (f : A -> string) c xs r :
  delimiter c = true -> ends (tail_text f xs ++ String c r).
Proof. intros Hc. by destruct (tail_text_head f c Hc xs r) as (a & s & -> & ?). Qed.

Lemma scan_comma {A} (f : A -> string) x xs r :
  scan_word "," (skip_space (tail_text f (x :: xs) ++ r)) = Some (f x ++ tail_text f xs ++ r).
Proof. by rewrite tail_text_cons. Qed.

Lemma elements_written xs : Forall read_back xs -> forall x f d r, read_back x ->
  (2 * String.length (write_raw x ++ tail_text write_raw xs ++ String "]" r) + 1 < f)%nat ->
  Forall (fun v => height v <= d) (x :: xs) ->
  scan_elements f d (write_raw x ++ tail_text write_raw xs ++ String "]" r)
  = Some (map tree_of (x :: xs), r).
Proof.
  induction 1 as [|y xs Hy _ IH]; intros x [|f] d r Hx Hf Hh; try lia;
    apply Forall_cons in Hh as [Hhx Hh]; cbn [scan_elements];
    (rewrite (Hx f d) by (try apply ends_tail; done || lia)); cbn [mbind option_bind]; [done|].
  rewrite scan_comma.
  rewrite tail_text_cons, length_app_string in Hf. cbn [String.length] in Hf.
  rewrite IH; [done|done| |done]. lia.
Qed.

Definition member_text (kv : string * json) : string := quoted kv.1 ++ ":" ++ write_raw kv.2.

Lemma member_text_app k v s :
  member_text (k, v) ++ s
  = String quote (escape k ++ String quote (String ":" (write_raw v ++ s))).
Proof. unfold member_text. cbn [fst snd]. by rewrite str_app_assoc, quoted_app. Qed.

Lemma scan_key f d k v s :
  scan_members (S f) d (member_text (k, v) ++ s)
  = '(x, r) ← scan_value f d (write_raw v ++ s);
    match scan_word "," (skip_space r) with
    | Some r => '(ms, r) ← scan_members f d r; Some ((escape k, x) :: ms, r)
    | None => r ← scan_word "}" (skip_space r); Some ([(escape k, x)], r)
    end.
Proof.
  rewrite member_text_app. cbn [scan_members]. rewrite skip_head by done.
  change (negb (Ascii.eqb quote quote)) with false. cbn iota. by rewrite scan_escape.
Qed.

Lemma members_written fs : Forall (fun kv => read_back kv.2) fs -> forall kv f d r,
  read_back kv.2 ->
  (2 * String.length (member_text kv ++ tail_text member_text fs ++ String "}" r) + 1 < f)%nat ->
  Forall (fun kv => height kv.2 <= d) (kv :: fs) ->
  scan_members f d (member_text kv ++ tail_text member_text fs ++ String "}" r)
  = Some (map (fun kv => (escape kv.1, tree_of kv.2)) (kv :: fs), r).
Proof.
  induction 1 as [|[k' v'] fs Hy _ IH]; intros [k v] [|f] d r Hx Hf Hh; try lia;
    apply Forall_cons in Hh as [Hhx Hh]; cbn [fst snd] in *; rewrite scan_key;
    rewrite member_text_app in Hf; cbn [String.length] in Hf; rewrite length_app_string in Hf;
    cbn [String.length] in Hf;
    (rewrite (Hx f d) by (try apply ends_tail; done || lia)); cbn [mbind option_bind]; [done|].
  rewrite scan_comma. rewrite length_app_string, tail_text_cons in Hf. cbn [String.length] in Hf.
  rewrite IH; [done|done| |done]. lia.
Qed.

Lemma height_list {A} (f : A -> Z) xs d :
  foldr Z.max 0 (map f xs) <= d -> Forall (fun x => f x <= d) xs.
Proof. induction xs as [|x xs IH]; cbn; [constructor|]. constructor; [lia|apply IH; lia]. Qed.

Lemma foldr_max_nonneg xs : 0 <= foldr Z.max 0 xs.
Proof. induction xs; cbn; lia. Qed.

Lemma bracket_app a c body r :
  (String a "" ++ body ++ String c "") ++ r = String a (body ++ String c r).
Proof.
  change (String a ((body ++ String c "") ++ r) = String a (body ++ String c r)).
  by rewrite str_app_assoc.
Qed.

Lemma join_cons {A} (f : A -> string) x xs s :
  join_comma (map f (x :: xs)) ++ s = f x ++ tail_text f xs ++ s.
Proof. apply str_app_assoc. Qed.

Lemma skip_member kv s : skip_space (member_text kv ++ s) = member_text kv ++ s.
Proof. destruct kv as [k v]. rewrite member_text_app. by apply skip_head. Qed.

Lemma not_closed v s : scan_word "]" (write_raw v ++ s) = None.
Proof.
  destruct (write_raw v ++ s) as [|a t] eqn:H; [done|]. cbn [scan_word].
  destruct (Ascii.eqb_spec "]" a) as [<-|]; [|done].
  exfalso. eapply write_raw_not_closed; [|exact H]. by left.
Qed.

Lemma scan_written v : read_back v.
Proof.
  induction v as [|b|z|s|xs IH|fs IH] using json_ind'; intros [|f] d r Hf Hd Hr; try lia.
  - done.
  - by destruct b.
  - cbn [write_raw tree_of].
    pose proof (scan_number_pretty z r Hr) as Hs.
    destruct (pretty_nonempty z) as (a & t & Hp & Ha). rewrite Hp in *.
    change (scan_value (S f) d (String a (t ++ r)) = Some (TNum (String a t), r)).
    rewrite scan_numeral by (by apply numeral_kind).
    change (String a t ++ r) with (String a (t ++ r)) in Hs. by rewrite Hs.
  - cbn [write_raw tree_of]. rewrite quoted_app. cbn [scan_value].
    rewrite skip_head by done. cbn iota. rewrite Ascii.eqb_refl. by rewrite scan_escape.
  - cbn [write_raw tree_of height] in *. rewrite bracket_app in *.
    pose proof (foldr_max_nonneg (map height xs)). cbn [scan_value]. rewrite skip_head by done.
    cbn iota. change (Ascii.eqb "[" quote) with false. rewrite Ascii.eqb_refl.
    destruct (Z.leb_spec d 0); [lia|]. destruct xs as [|x xs]; [done|].
    rewrite join_cons, skip_written, not_closed in *. apply Forall_cons in IH as [Hx IH].
    rewrite elements_written; [done|done|done| |apply height_list; lia].
    cbn [String.length] in Hf. lia.
  - cbn [write_raw tree_of height] in *. fold member_text in *. rewrite bracket_app in *.
    pose proof (foldr_max_nonneg (map (fun kv => height kv.2) fs)). cbn [scan_value].
    rewrite skip_head by done. cbn iota. change (Ascii.eqb "{" quote) with false.
    change (Ascii.eqb "{" "[") with false. rewrite Ascii.eqb_refl.
    destruct (Z.leb_spec d 0); [lia|]. destruct fs as [|kv fs]; [done|].
    change (fun kv : string * json => quoted kv.1 ++ ":" ++ write_raw kv.2) with member_text in *.
    rewrite join_cons, skip_member in *. apply Forall_cons in IH as [Hx IH].
    destruct kv as [k v]. rewrite member_text_app at 1. cbn [scan_word].
    change (Ascii.eqb "}" quote) with false. cbn iota.
    rewrite members_written; [done|done|done| |apply (height_list (fun kv => height kv.2)); lia].
    cbn [String.length] in Hf. lia.
Qed.

Lemma insert_key_max {A} (g : string * A -> Z) k v l :
  foldr Z.max 0 (map g (insert_key k v l)) = Z.max (g (k, v)) (foldr Z.max 0 (map g l)).
Proof.
  induction l as [|[k' v'] l IH]; [done|]. cbn [insert_key].
  destruct (string_leb k k'); [done|]. cbn [map foldr]. rewrite IH. lia.
Qed.

Lemma height_norm v : height (norm v) = height v.
Proof.
  induction v as [| | | |xs IH|fs IH] using json_ind'; try done; cbn [norm height]; f_equal.
  - induction IH as [|x xs Hx _ IH]; [done|]. cbn. by rewrite Hx, IH.
  - induction IH as [|[k x] fs Hx _ IH]; [done|]. cbn [map sort_keys foldr fst snd] in *.
    change (foldr _ [] _) with (sort_keys (map (fun kv : string * json => (kv.1, norm kv.2)) fs)).
    by rewrite insert_key_max, IH, <- Hx.
Qed.

(** A text is read back as the tree of its value, whatever the order of its keys. *)
Lemma parse_raw v : height v <= maxNestingDepth -> parse (write_raw v) = Some (tree_of v).
Proof.
  intros Hv. unfold parse. pose proof (scan_written v (enough (write_raw v)) maxNestingDepth "") as H.
  rewrite str_app_nil in H. rewrite H; [done|unfold enough; lia|done|done].
Qed.

Lemma parse_write v : height v <= maxNestingDepth ->
  parse (writeCanonical v) = Some (tree_of (norm v)).
Proof. intros Hv. rewrite writeCanonical_norm. apply parse_raw. by rewrite height_norm. Qed.

(** ** Literals *)

(** The UTF-8 encoding of a code point ([utf8.EncodeRune]). *)
Definition encode_rune (n : Z) : string :=
  if n <? 128 then String (char n) ""
  else if n <? 2048 then String (char (192 + n / 64)) (String (char (128 + n mod 64)) "")
  else if n <? 65536 then
    String (char (224 + n / 4096)) (String (char (128 + n / 64 mod 64))
      (String (char (128 + n mod 64)) ""))
  else
    String (char (240 + n / 262144)) (String (char (128 + n / 4096 mod 64))
      (String (char (128 + n / 64 mod 64)) (String (char (128 + n mod 64)) ""))).

Definition hex_digit_value (a : ascii) : Z :=
  let n := code a in if n <? 58 then n - 48 else if n <? 97 then n - 55 else n - 87.

Definition hex4 (a b c d : ascii) : Z :=
  ((hex_digit_value a * 16 + hex_digit_value b) * 16 + hex_digit_value c) * 16
  + hex_digit_value d.

Definition replacement : Z := 65533.
Definition high_surrogate (n : Z) : bool := (55296 <=? n) && (n <? 56320).
Definition low_surrogate (n : Z) : bool := (56320 <=? n) && (n <? 57344).

(** The text of a string literal with its escapes replaced ([unquoteBytes], before ill-formed
    UTF-8 is); a surrogate without its partner is U+FFFD. *)
Fixpoint unescape_text (s : string) : string :=
  match s with
  | EmptyString => ""
  | String a r =>
      if negb (Ascii.eqb a backslash) then String a (unescape_text r)
      else match r with
      | String b r1 =>
          if Ascii.eqb b "u" then
            match r1 with
            | String c (String d (String e (String f r2))) =>
                let n := hex4 c d e f in
                if high_surrogate n then
                  match r2 with
                  | String x (String y (String g (String h (String i (String j r3))))) =>
                      if Ascii.eqb x backslash && Ascii.eqb y "u" && low_surrogate (hex4 g h i j)
                      then encode_rune (65536 + (n - 55296) * 1024 + (hex4 g h i j - 56320))
                             ++ unescape_text r3
                      else encode_rune replacement ++ unescape_text r2
                  | _ => encode_rune replacement ++ unescape_text r2
                  end
                else encode_rune (if low_surrogate n then replacement else n)
                       ++ unescape_text r2
            | _ => ""
            end
          else String (if Ascii.eqb b "b" then char 8
                       else if Ascii.eqb b "f" then char 12
                       else if Ascii.eqb b "n" then char 10
                       else if Ascii.eqb b "r" then char 13
                       else if Ascii.eqb b "t" then char 9 else b) (unescape_text r1)
      | EmptyString => ""
      end
  end.

Definition unquote (text : string) : string := sanitize (unescape_text text).

(** [strconv.ParseInt(text, 10, 64)] of a JSON number, the range apart. *)
Fixpoint digits_value (acc : Z) (s : string) : option Z :=
  match s with
  | EmptyString => Some acc
  | String a r => if is_digit a then digits_value (10 * acc + (code a - 48)) r else None
  end.

Definition parse_int (text : string) : option Z :=
  match text with
  | String a r => if Ascii.eqb a "-" then Z.opp <$> digits_value 0 r else digits_value 0 text
  | EmptyString => None
  end.

Lemma unescape_text_byte a t :
  unescape_text (escape_byte a ++ t) = String a (unescape_text t).
Proof. by destruct a as [[] [] [] [] [] [] [] []]. Qed.

Lemma unescape_text_escape s : unescape_text (escape s) = s.
Proof.
  induction s as [s IH] using text_ind.
  assert (forall a tail, s = String a tail -> unescape_text (escape_byte a ++ escape tail) = s)
    as Hplain.
  { intros a tail ->. rewrite unescape_text_byte, IH by (cbn; lia). done. }
  destruct s as [|a [|b [|c rest]]]; [done|by apply Hplain|by apply Hplain|].
  rewrite escape_step. destruct (_ && _) eqn:Hsep; [|by apply Hplain].
  apply andb_true_iff in Hsep as [Hab Hc]. apply andb_true_iff in Hab as [Ha Hb].
  assert (forall x n, code x = n -> x = char n) as Hcode.
  { intros x m <-. unfold char, code. by rewrite N2Z.id, ascii_N_embedding. }
  assert (forall c t, c = char 168 \/ c = char 169 ->
    unescape_text (String backslash ("u202" ++ String (hex_digit (code c mod 16)) t))
    = String (char 226) (String (char 128) (String c (unescape_text t)))) as Hu.
  { by intros d t [->| ->]. }
  apply Z.eqb_eq, Hcode in Ha, Hb. subst a b.
  rewrite Hu; [by rewrite IH by (cbn; lia)|].
  apply orb_true_iff in Hc as [Hc|Hc]; apply Z.eqb_eq, Hcode in Hc; auto.
Qed.

Lemma unquote_escape s : utf8 s -> unquote (escape s) = s.
Proof. unfold unquote. by rewrite unescape_text_escape. Qed.
