(* ===== verification/Decode.v ===== *)
(** * Decoding fields and structs (encoding/json's Unmarshal)

    What a tree of literals makes of the fields of a struct, type by type, and that each
    type reads back what encoding/json writes of it. *)

From Stdlib Require Import Ascii Strings.Byte.
From S2P Require Import Prelude Domain Json Crypto Wire Canonical Parse.

#[local] Open Scope string_scope.
#[local] Open Scope Z_scope.

(** ** Decoders

    A decoder gets the value a field has so far and answers the value it has afterwards and
    whether decoding reported no error.  [null] leaves a value alone, except that it empties
    a slice.  What a field holds after an error is never looked at: [DecodeInner] discards
    the struct. *)
Definition decoder (A : Type) : Type := A -> tree -> A * bool.

Definition dec_string : decoder string := fun old v =>
  match v with TStr t => (unquote t, true) | TNull => (old, true) | _ => (old, false) end.

Definition dec_int64 : decoder Z := fun old v =>
  match v with
  | TNum t =>
      match parse_int t with
      | Some z => if in_int64 z then (z, true) else (old, false)
      | None => (old, false)
      end
  | TNull => (old, true)
  | _ => (old, false)
  end.

(** [Time.UnmarshalJSON] looks at the text between the quotes as it is. *)
(** The time keeps the offset of its text. *)
Definition dec_time : decoder Zoned := fun old v =>
  match v with
  | TStr t => match parse_zoned t with Some i => (i, true) | None => (old, false) end
  | TNull => (old, true)
  | _ => (old, false)
  end.

(** *** Bytes *)

Definition b64_digit (a : ascii) : option Z :=
  if in_range 65 90 a then Some (code a - 65)
  else if in_range 97 122 a then Some (code a - 71)
  else if in_range 48 57 a then Some (code a + 4)
  else if code a =? 43 then Some 62
  else if code a =? 47 then Some 63
  else None.

Definition byte_of (n : Z) : byte := default x00 (Byte.of_N (Z.to_N (n mod 256))).

Definition padding : ascii := "="%char.

Fixpoint b64_quads (s : string) : option bytes :=
  match s with
  | EmptyString => Some []
  | String a (String b (String c (String d r))) =>
      x ← b64_digit a; y ← b64_digit b;
      let b1 := byte_of (x * 4 + y / 16) in
      if Ascii.eqb c padding then
        if Ascii.eqb d padding && String.eqb r "" then Some [b1] else None
      else
        z ← b64_digit c;
        let b2 := byte_of (y mod 16 * 16 + z / 4) in
        if Ascii.eqb d padding then if String.eqb r "" then Some [b1; b2] else None
        else
          w ← b64_digit d; rest ← b64_quads r;
          Some (b1 :: b2 :: byte_of (z mod 4 * 64 + w) :: rest)
  | _ => None
  end.

(** [base64.StdEncoding.Decode] skips line ends and does not look at the bits that padding
    leaves over. *)
Definition line_end (a : ascii) : bool := (code a =? 10) || (code a =? 13).

Fixpoint drop_line_ends (s : string) : string :=
  match s with
  | EmptyString => ""
  | String a r => if line_end a then drop_line_ends r else String a (drop_line_ends r)
  end.

Definition b64_decode (s : string) : option bytes := b64_quads (drop_line_ends s).

(** An array of small numbers is a slice of bytes too; [null] keeps the byte that was
    there. *)
Fixpoint dec_byte_list (old : bytes) (xs : list tree) : bytes * bool :=
  match xs with
  | [] => ([], true)
  | x :: xs =>
      let '(b, ok) :=
        match x with
        | TNum t =>
            match parse_int t with
            | Some z =>
                if (0 <=? z) && (z <? 256) && negb (Ascii.eqb (default "0"%char (String.get 0 t)) "-")
                then (byte_of z, true) else (x00, false)
            | None => (x00, false)
            end
        | TNull => (default x00 (head old), true)
        | _ => (x00, false)
        end in
      let '(rest, ok') := dec_byte_list (tail old) xs in (b :: rest, ok && ok')
  end.

Definition dec_bytes : decoder bytes := fun old v =>
  match v with
  | TStr t => match b64_decode (unquote t) with Some b => (b, true) | None => (old, false) end
  | TNull => ([], true)
  | TArr xs => dec_byte_list old xs
  | _ => (old, false)
  end.

(** ** Structs *)

(** [foldName]: letters without their case; U+017F and U+212A fold to S and K. *)
Fixpoint fold_name (s : string) : string :=
  match s with
  | EmptyString => ""
  | String a r =>
      if in_range 97 122 a then String (char (code a - 32)) (fold_name r)
      else match r with
      | String b r1 =>
          if (code a =? 197) && (code b =? 191) then String "S" (fold_name r1)
          else match r1 with
          | String c r2 =>
              if (code a =? 226) && (code b =? 132) && (code c =? 170)
              then String "K" (fold_name r2) else String a (fold_name r)
          | EmptyString => String a (fold_name r)
          end
      | EmptyString => String a (fold_name r)
      end
  end.

(** The values of the members whose key names a field, in the order of the text.  No two
    fields of a struct here fold to the same name, so a key names at most one. *)
Definition named (field : string) (ms : list (string * tree)) : list tree :=
  map snd (List.filter (fun kv => String.eqb (fold_name (unquote kv.1)) (fold_name field)) ms).

(** A field is set once for every member that names it. *)
Definition member {A} (field : string) (dec : decoder A) (old : A)
  (ms : list (string * tree)) : A * bool :=
  foldl (fun st v => let '(a, ok) := dec st.1 v in (a, st.2 && ok)) (old, true)
    (named field ms).

Definition with_ok {A B} (m : A * bool) (k : A -> B * bool) : B * bool :=
  let '(a, ok) := m in let '(b, ok') := k a in (b, ok && ok').

Definition dec_struct {A} (fields : A -> list (string * tree) -> A * bool) : decoder A :=
  fun old v =>
    match v with
    | TNull => (old, true)
    | TObj ms => fields old ms
    | _ => (old, false)
    end.

Notation "'field' x ':=' m 'in' k" := (with_ok m (fun x => k))
  (at level 10, x name, m at level 100, k at level 200) : op_scope.

Definition dec_DisplayCard : decoder DisplayCard := dec_struct (fun c ms =>
  field u := member "user_id" dec_string (dc_UserID c) ms in
  field n := member "display_name" dec_string (dc_DisplayName c) ms in
  field a := member "account_number" dec_string (dc_AccountNumber c) ms in
  field i := member "issued_at" dec_time (dc_IssuedAt c) ms in
  field k := member "bank_key_id" dec_string (dc_BankKeyID c) ms in
  field s := member "server_signature" dec_bytes (dc_ServerSignature c) ms in
  ({| dc_UserID := u; dc_DisplayName := n; dc_AccountNumber := a; dc_IssuedAt := i;
      dc_BankKeyID := k; dc_ServerSignature := s |}, true)).

Definition dec_PaymentRequest : decoder PaymentRequest := dec_struct (fun q ms =>
  field u := member "receiver_id" dec_string (pr_ReceiverID q) ms in
  field c := member "receiver_display_card" dec_DisplayCard (pr_ReceiverDisplayCard q) ms in
  field a := member "amount" dec_int64 (pr_Amount q) ms in
  field n := member "session_nonce" dec_bytes (pr_SessionNonce q) ms in
  field i := member "issued_at" dec_time (pr_IssuedAt q) ms in
  field e := member "expires_at" dec_time (pr_ExpiresAt q) ms in
  field k := member "receiver_device_pubkey" dec_bytes (pr_ReceiverDevicePubkey q) ms in
  field s := member "receiver_signature" dec_bytes (pr_ReceiverSignature q) ms in
  ({| pr_ReceiverID := u; pr_ReceiverDisplayCard := c; pr_Amount := a; pr_SessionNonce := n;
      pr_IssuedAt := i; pr_ExpiresAt := e; pr_ReceiverDevicePubkey := k;
      pr_ReceiverSignature := s |}, true)).

Definition dec_PaymentToken : decoder PaymentToken := dec_struct (fun p ms =>
  field payer := member "payer_id" dec_string (pt_PayerID p) ms in
  field payee := member "payee_id" dec_string (pt_PayeeID p) ms in
  field a := member "amount" dec_int64 (pt_Amount p) ms in
  field n := member "sequence_number" dec_int64 (pt_SequenceNumber p) ms in
  field r := member "remaining_ceiling" dec_int64 (pt_RemainingCeiling p) ms in
  field t := member "timestamp" dec_time (pt_Timestamp p) ms in
  field c := member "ceiling_token_id" dec_string (pt_CeilingTokenID p) ms in
  field o := member "session_nonce" dec_bytes (pt_SessionNonce p) ms in
  field h := member "request_hash" dec_bytes (pt_RequestHash p) ms in
  field s := member "payer_signature" dec_bytes (pt_PayerSignature p) ms in
  ({| pt_PayerID := payer; pt_PayeeID := payee; pt_Amount := a; pt_SequenceNumber := n;
      pt_RemainingCeiling := r; pt_Timestamp := t; pt_CeilingTokenID := c;
      pt_SessionNonce := o; pt_RequestHash := h; pt_PayerSignature := s |}, true)).

Definition dec_CeilingTokenPayload : decoder CeilingTokenPayload := dec_struct (fun p ms =>
  field u := member "payer_id" dec_string (ctp_PayerID p) ms in
  field a := member "ceiling_amount" dec_int64 (ctp_CeilingAmount p) ms in
  field i := member "issued_at" dec_time (ctp_IssuedAt p) ms in
  field e := member "expires_at" dec_time (ctp_ExpiresAt p) ms in
  field n := member "sequence_start" dec_int64 (ctp_SequenceStart p) ms in
  field k := member "public_key" dec_bytes (ctp_PayerPublicKey p) ms in
  field b := member "bank_key_id" dec_string (ctp_BankKeyID p) ms in
  ({| ctp_PayerID := u; ctp_CeilingAmount := a; ctp_IssuedAt := i; ctp_ExpiresAt := e;
      ctp_SequenceStart := n; ctp_PayerPublicKey := k; ctp_BankKeyID := b |}, true)).

(** ** What is written is read back *)

Definition reads {A} (dec : decoder A) (v : json) (a : A) : Prop :=
  forall old, dec old (tree_of (norm v)) = (a, true).

Lemma reads_string s : utf8 s -> reads dec_string (marshal_string s) s.
Proof.
  intros Hs old. unfold marshal_string. rewrite Hs. cbn. by rewrite unquote_escape.
Qed.

(** *** What decoding leaves is well formed *)

(** The sequence at the head is the head's own: what follows it does not matter. *)
Lemma rune_len_prefix s n t :
  rune_len s = S n -> (S n <= length s)%nat /\ rune_len (take (S n) s ++ t)%list = S n.
Proof.
  destruct s as [|a [|b [|c [|d s]]]]; cbn -[code in_range is_cont Z.ltb Z.eqb]; try done;
    repeat match goal with
    | |- context [if ?x then _ else _] => destruct x eqn:?
    end; try done; intros [= <-]; cbn -[code in_range is_cont Z.ltb Z.eqb];
    repeat match goal with H : _ = _ |- _ => rewrite ?H; clear H end; (split; [lia|done]).
Qed.

Lemma sanitize_go_fuel f : forall f' l, (length l <= f)%nat -> (length l <= f')%nat ->
  sanitize_go f l = sanitize_go f' l.
Proof.
  induction f as [|f IH]; intros [|f'] [|a l] Hf Hf'; try (cbn in *; done || lia).
  cbn [sanitize_go]. cbn [length] in *. destruct (rune_len (a :: l)) as [|n] eqn:Hn.
  - f_equal. apply IH; lia.
  - f_equal. assert (length (drop (S n) (a :: l)) <= length l)%nat by (rewrite length_drop; cbn; lia).
    apply IH; lia.
Qed.

Lemma sanitize_go_rune n s t f :
  rune_len s = S n -> (length t <= f)%nat ->
  sanitize_go (S n + f) (take (S n) s ++ t)%list = (take (S n) s ++ sanitize_go f t)%list.
Proof.
  intros Hn Hf. destruct (rune_len_prefix s n t Hn) as [Hlen Hp].
  destruct s as [|a s]; [done|]. cbn [take app] in *. cbn [Nat.add sanitize_go]. rewrite Hp.
  change (a :: (take n s ++ t)%list) with ((a :: take n s) ++ t)%list.
  rewrite take_app_length', drop_app_length' by (cbn [length]; rewrite length_take; cbn in Hlen; lia).
  cbn [app]. do 2 f_equal. apply sanitize_go_fuel; lia.
Qed.

Lemma sanitize_go_idem f : forall l, (length l <= f)%nat ->
  sanitize_go (length (sanitize_go f l)) (sanitize_go f l) = sanitize_go f l.
Proof.
  induction f as [|f IH]; intros [|a l] Hl; try (cbn in *; done || lia).
  cbn [sanitize_go]. cbn [length] in Hl. destruct (rune_len (a :: l)) as [|n] eqn:Hn.
  - specialize (IH l ltac:(lia)). set (r := sanitize_go f l) in *.
    change (sanitize_go (3 + length r) (take 3 (char 239 :: char 191 :: char 189 :: []) ++ r)%list
      = (take 3 (char 239 :: char 191 :: char 189 :: []) ++ r)%list).
    rewrite (sanitize_go_rune 2); [|done|done]. by rewrite IH.
  - assert (length (drop (S n) (a :: l)) <= f)%nat as Hd by (rewrite length_drop; cbn; lia).
    specialize (IH _ Hd). set (r := sanitize_go f (drop (S n) (a :: l))) in *.
    pose proof (proj1 (rune_len_prefix _ _ [] Hn)) as Hlen.
    rewrite length_app, length_take, Nat.min_l by done.
    rewrite sanitize_go_rune by done. by rewrite IH.
Qed.

Lemma sanitize_utf8 s : utf8 (sanitize s).
Proof.
  unfold utf8, sanitize. rewrite String.list_ascii_of_string_of_list_ascii.
  by rewrite sanitize_go_idem.
Qed.

(** Every value a decoder answers without an error satisfies [P], if the old one did. *)
Definition yields {A} (P : A -> Prop) (dec : decoder A) : Prop :=
  forall old v a, P old -> dec old v = (a, true) -> P a.

Lemma string_yields : yields utf8 dec_string.
Proof. intros old [] a Ho [= <-]; [done|apply sanitize_utf8]. Qed.

Lemma int64_yields : yields (fun z => in_int64 z = true) dec_int64.
Proof.
  intros old v a Ho H. unfold dec_int64 in H. destruct v; try discriminate; [by injection H as <-|].
  destruct (parse_int _) as [z|]; [|discriminate]. destruct (in_int64 z) eqn:Hz; [|discriminate].
  by injection H as <-.
Qed.

Lemma member_yields {A} (P : A -> Prop) name dec : yields P dec ->
  forall old ms a, P old -> member name dec old ms = (a, true) -> P a.
Proof.
  intros Hd old ms a Ho H. unfold member in H.
  assert (forall vs st, (st.2 = true -> P st.1) ->
    foldl (fun st v => let '(a, ok) := dec st.1 v in (a, st.2 && ok)) st vs = (a, true) -> P a) as Hgo.
  { induction vs as [|v vs IH]; intros [b ok] Hst Hf; cbn in Hf; [injection Hf as <- ->; by apply Hst|].
    destruct (dec b v) as [c ok'] eqn:Hc. apply IH in Hf; [done|]. cbn. intros [-> ->]%andb_true_iff.
    by eapply Hd; [apply Hst|]. }
  by eapply Hgo; [|exact H].
Qed.

Lemma with_ok_true {A B} (m : A * bool) (k : A -> B * bool) b :
  with_ok m k = (b, true) -> exists a, m = (a, true) /\ k a = (b, true).
Proof.
  unfold with_ok. destruct m as [a ok]. destruct (k a) as [c ok'] eqn:Hk.
  intros [= <- [-> ->]%andb_true_iff]. by exists a.
Qed.

(** *** Numbers *)

Lemma digits_value_pretty x : forall s, digits_value 0 (pretty_N_go x s) = digits_value (Z.of_N x) s.
Proof.
  induction (N.lt_wf_0 x) as [x _ IH]; intros s.
  destruct (decide (x = 0)%N) as [->|Hx]; [by rewrite pretty_N_go_0|].
  rewrite pretty_N_go_step by lia. rewrite IH by (apply N.div_lt; lia).
  destruct (pretty_char_digit (x `mod` 10) ltac:(by apply N.mod_lt)) as [Hd Hc].
  cbn [digits_value]. rewrite Hd, Hc. f_equal. rewrite N2Z.inj_div, N2Z.inj_mod.
  pose proof (Z.div_mod (Z.of_N x) 10). lia.
Qed.

Lemma parse_int_pretty z : parse_int (pretty z) = Some z.
Proof.
  assert (forall p, digits_value 0 (pretty (Npos p)) = Some (Zpos p)) as H.
  { intros p. unfold pretty, pretty_N. rewrite decide_False by done. apply digits_value_pretty. }
  destruct z as [|p|p]; [done| |].
  - change (pretty (Zpos p)) with (pretty (Npos p)). rewrite <- (H p).
    destruct (pretty_pos_digits p) as (a & s & -> & Ha & _ & _). unfold parse_int.
    destruct (Ascii.eqb_spec a "-") as [->|]; [discriminate|done].
  - change (Z.opp <$> digits_value 0 (pretty (Npos p)) = Some (Zneg p)). by rewrite H.
Qed.

Lemma reads_int64 z : in_int64 z = true -> reads dec_int64 (JNum z) z.
Proof. intros Hz old. cbn. by rewrite parse_int_pretty, Hz. Qed.

(** *** Plain text: neither escaped nor changed by decoding *)

Definition plain (a : ascii) : bool :=
  in_range 32 126 a && negb (existsb (Ascii.eqb a) [quote; backslash; "<"; ">"; "&"]%char).

Lemma escape_plain s : all_chars plain s = true -> escape s = s.
Proof.
  induction s as [|a s IH]; [done|]. intros H. apply andb_true_iff in H as [Ha Hs].
  assert (escape (String a s) = escape_byte a ++ escape s) as ->.
  { destruct s as [|b [|c s]]; [done|done|]. rewrite escape_step.
    destruct ((code a =? 226) && _ && _) eqn:He; [|done].
    apply andb_true_iff in He as [He _]. apply andb_true_iff in He as [He _].
    apply Z.eqb_eq in He. unfold plain, in_range in Ha. rewrite He in Ha. done. }
  rewrite IH by done. by destruct a as [[] [] [] [] [] [] [] []].
Qed.

Lemma sanitize_ascii fuel : forall l, (length l <= fuel)%nat ->
  forallb (fun a => code a <? 128) l = true -> sanitize_go fuel l = l.
Proof.
  induction fuel as [|fuel IH]; intros [|a l] Hl H; cbn [length] in Hl; [done|lia|done|].
  cbn [forallb] in H. apply andb_true_iff in H as [Ha H]. cbn [sanitize_go rune_len].
  rewrite Ha. cbn [take drop app]. f_equal. apply IH; [lia|done].
Qed.

Lemma plain_utf8 s : all_chars plain s = true -> utf8 s.
Proof.
  intros H. unfold utf8, sanitize. rewrite sanitize_ascii; [|done|].
  - apply String.string_of_list_ascii_of_string.
  - induction s as [|a s IH]; [done|]. apply andb_true_iff in H as [Ha Hs]. cbn.
    rewrite IH by done. unfold plain, in_range in Ha. rewrite !andb_true_iff, !Z.leb_le in Ha.
    rewrite (proj2 (Z.ltb_lt _ _)); [done|lia].
Qed.

Lemma all_chars_app P s t : all_chars P (s ++ t) = all_chars P s && all_chars P t.
Proof.
  induction s as [|a s IH]; [done|].
  change (P a && all_chars P (s ++ t) = P a && all_chars P s && all_chars P t).
  by rewrite IH, andb_assoc.
Qed.

Lemma plain_digits s : all_digits s = true -> all_chars plain s = true.
Proof.
  induction s as [|a s IH]; [done|]. change (is_digit a && all_digits s = true -> all_chars plain (String a s) = true).
  intros H. apply andb_true_iff in H as [Ha Hs]. cbn [all_chars]. rewrite IH by done.
  by destruct a as [[] [] [] [] [] [] [] []].
Qed.

Lemma rfc3339nano_plain t : all_chars plain (rfc3339nano t) = true.
Proof.
  unfold rfc3339nano. destruct (civil_from_days _) as [[y m] d].
  assert (forall n z, all_chars plain (digits n z) = true) as Hd.
  { intros n z. apply plain_digits, all_digits_digits. }
  assert (all_chars plain (zone_text (zone t)) = true) as Hz.
  { unfold zone_text. destruct (_ =? 0); [done|]. cbn [all_chars]. rewrite !all_chars_app, !Hd.
    by destruct (_ <? 0). }
  rewrite !all_chars_app, !Hd, Hz. destruct (_ =? 0); [done|].
  rewrite all_chars_app. rewrite (plain_digits (trim_zeros _)); [done|].
  apply all_digits_trim, all_digits_digits.
Qed.

Lemma reads_time t u : marshal_time t = Ok u -> reads dec_time u t.
Proof.
  intros H old. rewrite (marshal_time_text _ _ H). cbn [norm tree_of dec_time]. rewrite escape_plain by apply rfc3339nano_plain.
  by rewrite (parse_rfc3339nano t) by eauto.
Qed.

(** *** Bytes *)

Lemma b64_checked : all_below 64 0 (fun n =>
  bool_decide (b64_digit (b64_char n) = Some n) && negb (Ascii.eqb (b64_char n) padding)
  && negb (line_end (b64_char n)) && plain (b64_char n)) = true.
Proof. vm_compute. reflexivity. Qed.

Lemma b64_char_read n : 0 <= n < 64 ->
  b64_digit (b64_char n) = Some n /\ Ascii.eqb (b64_char n) padding = false /\
  line_end (b64_char n) = false /\ plain (b64_char n) = true.
Proof.
  intros Hn. pose proof (all_below_spec _ _ _ n b64_checked ltac:(lia)) as H.
  rewrite !andb_true_iff, !negb_true_iff in H. destruct H as [[[H1 H2] H3] H4].
  by apply bool_decide_eq_true in H1.
Qed.

Lemma byte_of_code b z : z = byte_code b -> byte_of z = b.
Proof.
  intros ->. pose proof (byte_code_range b). unfold byte_of. rewrite Z.mod_small by lia.
  unfold byte_code. by rewrite N2Z.id, Byte.of_to_N.
Qed.

Lemma b64_text bs : all_chars plain (base64 bs) = true /\ drop_line_ends (base64 bs) = base64 bs /\
  b64_quads (base64 bs) = Some bs.
Proof.
  remember (length bs) as n eqn:Hn. revert bs Hn.
  induction (lt_wf n) as [n _ IH]; intros bs ->.
  destruct bs as [|a [|b [|c l]]]; [done|..]; cbn [base64].
  - destruct (b64_char_read _ (sextet1 a)) as (D1 & P1 & E1 & Q1).
    destruct (b64_char_read _ (sextet2 a)) as (D2 & P2 & E2 & Q2).
    cbn [all_chars drop_line_ends b64_quads]. rewrite D1, D2, E1, E2, Q1, Q2.
    split_and!; [done|done|]. cbn [mbind option_bind]. cbn -[byte_of]. rewrite (byte_of_code a); [done|].
    pose proof (byte_code_range a). Z.to_euclidean_division_equations. lia.
  - destruct (b64_char_read _ (sextet1 a)) as (D1 & P1 & E1 & Q1).
    destruct (b64_char_read _ (sextet3 a b)) as (D2 & P2 & E2 & Q2).
    destruct (b64_char_read _ (sextet4 b)) as (D3 & P3 & E3 & Q3).
    cbn [all_chars drop_line_ends b64_quads]. rewrite D1, D2, D3, E1, E2, E3, Q1, Q2, Q3, P3.
    split_and!; [done|done|]. cbn [mbind option_bind]. rewrite (byte_of_code a), (byte_of_code b);
      [done|pose proof (byte_code_range a); pose proof (byte_code_range b);
            Z.to_euclidean_division_equations; lia..].
  - destruct (b64_char_read _ (sextet1 a)) as (D1 & P1 & E1 & Q1).
    destruct (b64_char_read _ (sextet3 a b)) as (D2 & P2 & E2 & Q2).
    destruct (b64_char_read _ (sextet5 b c)) as (D3 & P3 & E3 & Q3).
    destruct (b64_char_read _ (sextet6 c)) as (D4 & P4 & E4 & Q4).
    destruct (IH (length l) ltac:(cbn; lia) l eq_refl) as (Hp & Hl & Hq).
    cbn [all_chars drop_line_ends b64_quads].
    rewrite D1, D2, D3, D4, E1, E2, E3, E4, Q1, Q2, Q3, Q4, P3, P4, Hp, Hl, Hq.
    split_and!; [done|done|]. cbn [mbind option_bind].
    rewrite (byte_of_code a), (byte_of_code b), (byte_of_code c);
      [done|pose proof (byte_code_range a); pose proof (byte_code_range b);
            pose proof (byte_code_range c); Z.to_euclidean_division_equations; lia..].
Qed.

Lemma reads_bytes bs : reads dec_bytes (marshal_bytes bs) bs.
Proof.
  intros old. destruct bs as [|b bs]; [done|].
  destruct (b64_text (b :: bs)) as (Hp & Hl & Hq). cbn [marshal_bytes norm tree_of dec_bytes].
  rewrite escape_plain by done. unfold unquote, b64_decode.
  assert (unescape_text (base64 (b :: bs)) = base64 (b :: bs)) as ->.
  { rewrite <- (escape_plain (base64 (b :: bs))) at 1 by done. apply unescape_text_escape. }
  by rewrite (plain_utf8 _ Hp), Hl, Hq.
Qed.

(** *** Structs *)

(** Field names that escape and fold to themselves apart. *)
Definition apart (names : list string) : bool :=
  bool_decide (NoDup (map fold_name names))
  && forallb (fun k => String.eqb (unquote (escape k)) k) names.

Lemma insert_key_perm {A} k (v : A) l : Permutation (insert_key k v l) ((k, v) :: l).
Proof.
  induction l as [|[k' v'] l IH]; [done|]. cbn. destruct (string_leb k k'); [done|].
  rewrite IH. apply perm_swap.
Qed.

Lemma sort_keys_perm {A} (l : list (string * A)) : Permutation (sort_keys l) l.
Proof.
  induction l as [|[k v] l IH]; [done|]. change (sort_keys ((k, v) :: l)) with (insert_key k v (sort_keys l)).
  by rewrite insert_key_perm, IH.
Qed.

(** The members a written object is read back with. *)
Definition members_of (fs : list (string * json)) : list (string * tree) :=
  map (fun kv => (escape kv.1, tree_of kv.2)) (sort_keys (map (fun kv => (kv.1, norm kv.2)) fs)).

Lemma filter_perm {A} (p : A -> bool) l l' :
  Permutation l l' -> Permutation (List.filter p l) (List.filter p l').
Proof.
  induction 1 as [|x l l' _ IH|x y l|]; cbn [List.filter].
  - done.
  - destruct (p x); [by constructor|done].
  - destruct (p x), (p y); try done. apply perm_swap.
  - by etransitivity.
Qed.

(** In whatever order they come. *)
Definition members_in (fs : list (string * json)) (ms : list (string * tree)) : Prop :=
  Permutation ms (map (fun kv => (escape kv.1, tree_of (norm kv.2))) fs).

Lemma members_sorted fs : members_in fs (members_of fs).
Proof. unfold members_in, members_of. rewrite sort_keys_perm, map_map. done. Qed.

Lemma named_once fs ms k v : members_in fs ms -> apart (fs.*1) = true -> In (k, v) fs ->
  named k ms = [tree_of (norm v)].
Proof.
  unfold members_in. intros Hperm Ha Hin. unfold named.
  set (p := fun kv : string * tree => String.eqb (fold_name (unquote kv.1)) (fold_name k)).
  set (g := fun kv : string * json => (escape kv.1, tree_of (norm kv.2))) in *.
  apply andb_true_iff in Ha as [Hnd Hesc]. apply bool_decide_eq_true in Hnd.
  assert (List.filter p (map g fs) = [g (k, v)]) as Hone.
  { clear Hperm. induction fs as [|[k' v'] fs IH]; [done|].
    cbn [fmap list_fmap map fst] in Hnd. apply NoDup_cons in Hnd as [Hk Hnd].
    cbn [forallb fmap list_fmap map fst] in Hesc. apply andb_true_iff in Hesc as [He Hesc].
    apply String.eqb_eq in He. cbn [map List.filter]. unfold p at 1, g at 1. cbn [fst].
    rewrite He. destruct Hin as [[= -> ->]|Hin].
    - rewrite String.eqb_refl. f_equal. clear IH. revert Hk Hesc. clear.
      induction fs as [|[k' v'] fs IH]; [done|]. intros Hk He.
      cbn [forallb fmap list_fmap map fst] in He, Hk. apply andb_true_iff in He as [He Hesc].
      apply String.eqb_eq in He. apply not_elem_of_cons in Hk as [Hne Hk].
      cbn [map List.filter]. unfold p at 1, g at 1. cbn [fst]. rewrite He.
      destruct (String.eqb_spec (fold_name k') (fold_name k)); [congruence|]. by apply IH.
    - destruct (String.eqb_spec (fold_name k') (fold_name k)) as [Hf|]; [|by apply IH].
      exfalso. apply Hk. rewrite Hf. change (fold_name k) with (fold_name (k, v).1).
      apply list_elem_of_In. rewrite map_map. apply (in_map (fun kv => fold_name kv.1)) in Hin. exact Hin. }
  assert (Permutation (List.filter p ms) [g (k, v)]) as Hf.
  { rewrite <- Hone. by apply filter_perm. }
  apply Permutation_sym, Permutation_length_1_inv in Hf. rewrite Hf. done.
Qed.

Lemma json_object_fields fields v :
  json_object fields = Ok v ->
  exists fs, v = JObj fs /\ Forall2 (fun kr kv => kr.1 = kv.1 /\ kr.2 = Ok kv.2) fields fs.
Proof.
  unfold json_object. revert v.
  induction fields as [|[k r] fields IH]; cbn [foldr]; intros v H; [injection H as <-; by eexists|].
  destruct (foldr _ _ fields) as [rest|]; [|done]. destruct (IH _ eq_refl) as (fs & [= ->] & Hfs).
  cbn [result_bind fst snd] in H. destruct r as [u|]; [|done]. injection H as <-.
  exists ((k, u) :: fs). split; [done|]. by constructor.
Qed.

Lemma named_absent fs ms k : members_in fs ms -> apart (fs.*1) = true ->
  existsb (fun n => String.eqb (fold_name n) (fold_name k)) (fs.*1) = false -> named k ms = [].
Proof.
  unfold members_in, named. intros Hperm Ha Hk. apply andb_true_iff in Ha as [_ Hesc].
  set (p := fun kv : string * tree => String.eqb (fold_name (unquote kv.1)) (fold_name k)).
  apply (filter_perm p) in Hperm.
  assert (List.filter p (map (fun kv => (escape kv.1, tree_of (norm kv.2))) fs) = []) as Hnil.
  { clear Hperm. induction fs as [|[k' v'] fs IH]; [done|].
    cbn [forallb existsb fmap list_fmap map fst] in Hesc, Hk.
    apply andb_true_iff in Hesc as [He Hesc]. apply orb_false_iff in Hk as [Hk' Hk].
    apply String.eqb_eq in He. cbn [map List.filter]. unfold p at 1. cbn [fst].
    rewrite He, Hk'. by apply IH. }
  rewrite Hnil in Hperm. apply Permutation_sym, Permutation_nil in Hperm. by rewrite Hperm.
Qed.

(** Reading a written struct: each of its fields is there once and reads back; a field that is
    left out keeps what it had. *)
Definition reads_fields {A} (fields : list (string * result json))
  (decode : A -> list (string * tree) -> A * bool) (old a : A) : Prop :=
  forall ms,
    (forall B k r (dec : decoder B) b, In (k, r) fields ->
      (forall u, r = Ok u -> reads dec u b) -> forall o, member k dec o ms = (b, true)) ->
    (forall B k (dec : decoder B) o,
      existsb (fun n => String.eqb (fold_name n) (fold_name k)) (fields.*1) = false ->
      member k dec o ms = (o, true)) ->
    decode old ms = (a, true).

Lemma read_members {A} (decode : A -> list (string * tree) -> A * bool) fields fs ms old a :
  Forall2 (fun kr kv => kr.1 = kv.1 /\ kr.2 = Ok kv.2) fields fs -> members_in fs ms ->
  apart (fields.*1) = true -> reads_fields fields decode old a -> decode old ms = (a, true).
Proof.
  intros Hfs Hms Ha Hdec.
  assert (fields.*1 = fs.*1) as Hnames.
  { clear -Hfs. induction Hfs as [|[] [] ? ? [] _ IH]; [done|]. cbn in *. congruence. }
  rewrite Hnames in Ha. apply Hdec.
  - intros B k r dec b Hin Hr o. assert (exists u, In (k, u) fs /\ r = Ok u) as (u & Hu & ->).
    { clear -Hin Hfs. induction Hfs as [|[] [k' u] ? ? [] _ IH]; [done|].
      destruct Hin as [[= -> ->]|Hin].
      - cbn in *. subst. exists u. split; [by left|done].
      - destruct (IH Hin) as (u' & ? & ?). exists u'. split; [by right|done]. }
    unfold member. rewrite (named_once fs ms k u Hms Ha Hu). cbn. by rewrite (Hr u eq_refl).
  - intros B k dec o Hk. rewrite Hnames in Hk. unfold member.
    by rewrite (named_absent fs ms k Hms Ha Hk).
Qed.

Lemma dec_struct_written {A} (decode : A -> list (string * tree) -> A * bool) fields v a :
  json_object fields = Ok v -> apart (fields.*1) = true ->
  (forall old, reads_fields fields decode old a) -> reads (dec_struct decode) v a.
Proof.
  intros Hv Ha Hdec old. destruct (json_object_fields _ _ Hv) as (fs & -> & Hfs).
  change (decode old (members_of fs) = (a, true)).
  eapply read_members; [exact Hfs|apply members_sorted|done|apply Hdec].
Qed.

(** The same for a struct whose keys were not sorted and whose fields are literals. *)
Lemma dec_struct_raw {A} (decode : A -> list (string * tree) -> A * bool) fields v old a :
  json_object fields = Ok v -> apart (fields.*1) = true ->
  (forall k r u, In (k, r) fields -> r = Ok u -> norm u = u) ->
  reads_fields fields decode old a -> dec_struct decode old (tree_of v) = (a, true).
Proof.
  intros Hv Ha Hnorm Hdec. destruct (json_object_fields _ _ Hv) as (fs & -> & Hfs).
  change (decode old (map (fun kv => (escape kv.1, tree_of kv.2)) fs) = (a, true)).
  eapply read_members; [exact Hfs| |done|done]. unfold members_in.
  enough (map (fun kv => (escape kv.1, tree_of kv.2)) fs
          = map (fun kv => (escape kv.1, tree_of (norm kv.2))) fs) as -> by done.
  clear -Hfs Hnorm. induction Hfs as [|[k r] [k' u] ? ? [_ Hu] _ IH]; [done|]. cbn in *.
  rewrite (Hnorm k r u (or_introl eq_refl) Hu), IH; [done|]. eauto.
Qed.

(** Objects nest as deep as their deepest field, and one more. *)
Lemma json_object_height n fields v :
  json_object fields = Ok v -> 0 <= n ->
  (forall k r u, In (k, r) fields -> r = Ok u -> height u <= n) -> height v <= 1 + n.
Proof.
  intros Hv Hn Hr. apply json_object_fields in Hv as (fs & -> & Hfs). cbn [height].
  enough (foldr Z.max 0 (map (fun kv => height kv.2) fs) <= n) by lia.
  induction Hfs as [|[k r] [k' u] fields fs [_ Hu] _ IH]; [done|]. cbn in *.
  pose proof (Hr k r u (or_introl eq_refl) Hu).
  enough (foldr Z.max 0 (map (fun kv => height kv.2) fs) <= n) by lia.
  apply IH. intros. eapply Hr; [by right|done].
Qed.

(** Reads one field after the other of a written struct. *)
Ltac read_fields H :=
  repeat (erewrite H;
    [|repeat first [left; reflexivity | right]
     |intros u Hu; first
        [ injection Hu as <-; first [by apply reads_string | by apply reads_int64 | apply reads_bytes]
        | by apply reads_time | by eauto ]]; cbn [with_ok andb]).

Lemma DisplayCard_reads d v : DisplayCard_json d = Ok v -> clean_card d -> reads dec_DisplayCard v d.
Proof.
  intros Hv (H1 & H2 & H3 & H4). eapply dec_struct_written; [exact Hv|vm_compute; done|].
  intros old ms H _. read_fields H. by destruct d.
Qed.

Definition clean_request (q : PaymentRequest) : Prop :=
  utf8 (pr_ReceiverID q) /\ clean_card (pr_ReceiverDisplayCard q) /\ in_int64 (pr_Amount q) = true.

Lemma PaymentRequest_reads q v :
  PaymentRequest_json q = Ok v -> clean_request q -> reads dec_PaymentRequest v q.
Proof.
  intros Hv (H1 & H2 & H3). eapply dec_struct_written; [exact Hv|vm_compute; done|].
  intros old ms H _. pose proof DisplayCard_reads. read_fields H. by destruct q.
Qed.

Definition clean_ceiling (p : CeilingTokenPayload) : Prop :=
  utf8 (ctp_PayerID p) /\ utf8 (ctp_BankKeyID p) /\
  in_int64 (ctp_CeilingAmount p) = true /\ in_int64 (ctp_SequenceStart p) = true.

Lemma CeilingTokenPayload_reads p v :
  CeilingTokenPayload_json p = Ok v -> clean_ceiling p -> reads dec_CeilingTokenPayload v p.
Proof.
  intros Hv (H1 & H2 & H3 & H4). eapply dec_struct_written; [exact Hv|vm_compute; done|].
  intros old ms H _. read_fields H. by destruct p.
Qed.

(** ** Payment tokens (domain/payment.go) *)

Definition PaymentToken_json (p : PaymentToken) : result json :=
  json_object [
    ("payer_id", js (pt_PayerID p));
    ("payee_id", js (pt_PayeeID p));
    ("amount", jn (pt_Amount p));
    ("sequence_number", jn (pt_SequenceNumber p));
    ("remaining_ceiling", jn (pt_RemainingCeiling p));
    ("timestamp", marshal_time (pt_Timestamp p));
    ("ceiling_token_id", js (pt_CeilingTokenID p));
    ("session_nonce", jb (pt_SessionNonce p));
    ("request_hash", jb (pt_RequestHash p));
    ("payer_signature", jb (pt_PayerSignature p))].

Definition clean_payment (p : PaymentToken) : Prop :=
  utf8 (pt_PayerID p) /\ utf8 (pt_PayeeID p) /\ utf8 (pt_CeilingTokenID p) /\
  in_int64 (pt_Amount p) = true /\ in_int64 (pt_SequenceNumber p) = true /\
  in_int64 (pt_RemainingCeiling p) = true.

Lemma PaymentToken_reads p v :
  PaymentToken_json p = Ok v -> clean_payment p -> reads dec_PaymentToken v p.
Proof.
  intros Hv (H1 & H2 & H3 & H4 & H5 & H6). eapply dec_struct_written; [exact Hv|vm_compute; done|].
  intros old ms H _. read_fields H. by destruct p.
Qed.

(** ** Decoded structs are well formed

    Whatever text a struct was read from, its strings are UTF-8 and its numbers fit. *)

Lemma dec_struct_yields {A} (P : A -> Prop) fields :
  (forall old ms a, P old -> fields old ms = (a, true) -> P a) -> yields P (dec_struct fields).
Proof.
  intros Hf old v a Ho H. destruct v; try discriminate; [by injection H as <-|by eapply Hf].
Qed.

(** Takes a struct that was read apart into the fields it was read from. *)
Ltac yielded_fields :=
  let old := fresh "old" in let ms := fresh "ms" in let a := fresh "a" in
  let Ho := fresh "Ho" in let H := fresh "H" in
  apply dec_struct_yields; intros old ms a Ho H;
  repeat (apply with_ok_true in H as (? & ? & H)); injection H as <-; red in Ho; destruct_and?;
  red; cbn; split_and?.

(** What a field's decoder yields, its field holds. *)
Ltac yielded :=
  match goal with
  | H : member _ ?dec ?o ?ms = (?a, true) |- context [?a] =>
      lazymatch dec with
      | dec_int64 => apply (member_yields _ _ _ int64_yields _ _ _) with (2 := H); assumption
      | dec_string => apply (member_yields _ _ _ string_yields _ _ _) with (2 := H); assumption
      | _ => eapply member_yields; [ | |exact H]; eassumption
      end
  end.

Lemma DisplayCard_yields : yields clean_card dec_DisplayCard.
Proof. yielded_fields; yielded. Qed.

Lemma PaymentRequest_yields : yields clean_request dec_PaymentRequest.
Proof. pose proof DisplayCard_yields. yielded_fields; yielded. Qed.

Lemma PaymentToken_yields : yields clean_payment dec_PaymentToken.
Proof. yielded_fields; yielded. Qed.

Lemma CeilingTokenPayload_yields : yields clean_ceiling dec_CeilingTokenPayload.
Proof. yielded_fields; yielded. Qed.
