(* ===== verification/Tokens.v ===== *)
(** * Tokens (internal/auth/devicesession.go, internal/service/userauth/jwt.go)

    Two kinds of text with two dots: device session tokens, which the device checks offline
    against a public key, and access tokens, which only the server can check.  Both carry the
    JSON of their claims. *)

From Stdlib Require Import Ascii Strings.Byte.
From S2P Require Import Prelude Float Domain Json Crypto Wire Canonical Parse Decode.

#[local] Open Scope string_scope.
#[local] Open Scope Z_scope.

(** ** base64.RawURLEncoding *)

Definition to_url (a : ascii) : ascii :=
  if code a =? 43 then "-"%char else if code a =? 47 then "_"%char else a.

Definition from_url (a : ascii) : option ascii :=
  if code a =? 45 then Some "+"%char
  else if code a =? 95 then Some "/"%char
  else if (code a =? 43) || (code a =? 47) then None
  else match b64_digit a with Some _ => Some a | None => None end.

(** The standard text without padding and in the other alphabet. *)
Fixpoint strip (s : string) : string :=
  match s with
  | EmptyString => ""
  | String a r => if Ascii.eqb a padding then strip r else String (to_url a) (strip r)
  end.

Fixpoint to_standard (s : string) : option string :=
  match s with
  | EmptyString => Some ""
  | String a r => b ← from_url a; t ← to_standard r; Some (String b t)
  end.

Fixpoint pad (s : string) : option string :=
  match s with
  | EmptyString => Some ""
  | String _ EmptyString => None
  | String a (String b EmptyString) => Some (String a (String b "=="))
  | String a (String b (String c EmptyString)) => Some (String a (String b (String c "=")))
  | String a (String b (String c (String d r))) =>
      t ← pad r; Some (String a (String b (String c (String d t))))
  end.

Definition b64 (bs : bytes) : string := strip (base64 bs).

(** Line ends are skipped. *)
Definition b64d (s : string) : option bytes :=
  t ← to_standard (drop_line_ends s); u ← pad t; b64_quads u.

(** ** [strings.Split(token, ".")] *)

Definition dot : ascii := "."%char.

Fixpoint split_dots (s : string) : list string :=
  match s with
  | EmptyString => [""]
  | String a r =>
      if Ascii.eqb a dot then "" :: split_dots r
      else match split_dots r with
           | h :: t => String a h :: t
           | [] => [String a ""]
           end
  end.

(** ** JSON of flat structs *)

(** [json.Marshal] of a struct writes its fields in the order of their declaration. *)
Definition Marshal (v : result json) : result bytes :=
  result_map (fun v => String.list_byte_of_string (write_raw v)) v.

Definition Unmarshal {A} (dec : decoder A) (zero : A) (bs : bytes) : option A :=
  v ← parse (String.string_of_list_byte bs);
  let '(a, ok) := dec zero v in if ok : bool then Some a else None.

(** An [omitempty] string. *)
Definition omitempty (key value : string) : list (string * result json) :=
  if bool_decide (value = "") then [] else [(key, js value)].

(** [t.Unix()]. *)
Definition Unix (t : Time) : Z := t / Second.

(** ** Device session tokens *)

Definition ErrDSMalformed : error := ErrNew "auth: device session token malformed".
Definition ErrDSBadSignature : error := ErrNew "auth: device session token signature invalid".
Definition ErrDSExpired : error := ErrNew "auth: device session token expired".
Definition ErrDSWrongAud : error := ErrNew "auth: device session token audience mismatch".
Definition ErrDSWrongScope : error := ErrNew "auth: device session token scope unsupported".
Definition ErrDSWrongDevice : error :=
  ErrNew "auth: device session token bound to different device".

Definition ScopeOfflinePay : string := "offline_pay".

Record DeviceSessionHeader := { dh_Alg : string; dh_Typ : string; dh_Kid : string }.

Record DeviceSessionClaims := {
  ds_Sub : string;
  ds_AccountNumber : string;
  ds_DeviceID : string;
  ds_Scope : string;
  ds_Iat : Z;
  ds_Exp : Z;
  ds_Aud : string;
  ds_SessionID : string;
}.

Definition DeviceSessionHeader_json (h : DeviceSessionHeader) : result json :=
  json_object [("alg", js (dh_Alg h)); ("typ", js (dh_Typ h)); ("kid", js (dh_Kid h))].

Definition claims_fields (c : DeviceSessionClaims) : list (string * result json) :=
  ([("sub", js (ds_Sub c)); ("acc", js (ds_AccountNumber c)); ("did", js (ds_DeviceID c));
    ("scope", js (ds_Scope c)); ("iat", jn (ds_Iat c)); ("exp", jn (ds_Exp c));
    ("aud", js (ds_Aud c))] ++ omitempty "sid" (ds_SessionID c))%list.
Definition DeviceSessionClaims_json (c : DeviceSessionClaims) : result json :=
  json_object (claims_fields c).

Definition header_members (h : DeviceSessionHeader) (ms : list (string * tree))
  : DeviceSessionHeader * bool :=
  (field a := member "alg" dec_string (dh_Alg h) ms in
   field t := member "typ" dec_string (dh_Typ h) ms in
   field k := member "kid" dec_string (dh_Kid h) ms in
   ({| dh_Alg := a; dh_Typ := t; dh_Kid := k |}, true))%op.
Definition dec_DeviceSessionHeader : decoder DeviceSessionHeader := dec_struct header_members.

Definition claims_members (c : DeviceSessionClaims) (ms : list (string * tree))
  : DeviceSessionClaims * bool :=
  (field u := member "sub" dec_string (ds_Sub c) ms in
   field n := member "acc" dec_string (ds_AccountNumber c) ms in
   field d := member "did" dec_string (ds_DeviceID c) ms in
   field s := member "scope" dec_string (ds_Scope c) ms in
   field i := member "iat" dec_int64 (ds_Iat c) ms in
   field e := member "exp" dec_int64 (ds_Exp c) ms in
   field a := member "aud" dec_string (ds_Aud c) ms in
   field r := member "sid" dec_string (ds_SessionID c) ms in
   ({| ds_Sub := u; ds_AccountNumber := n; ds_DeviceID := d; ds_Scope := s; ds_Iat := i;
       ds_Exp := e; ds_Aud := a; ds_SessionID := r |}, true))%op.
Definition dec_DeviceSessionClaims : decoder DeviceSessionClaims := dec_struct claims_members.

Definition no_header : DeviceSessionHeader := {| dh_Alg := ""; dh_Typ := ""; dh_Kid := "" |}.
Definition no_claims : DeviceSessionClaims := {|
  ds_Sub := ""; ds_AccountNumber := ""; ds_DeviceID := ""; ds_Scope := ""; ds_Iat := 0;
  ds_Exp := 0; ds_Aud := ""; ds_SessionID := "" |}.

Record ParsedDeviceSession := {
  pd_Header : DeviceSessionHeader;
  pd_Claims : DeviceSessionClaims;
  pd_SigningInput : string;
  pd_Signature : bytes;
}.

Definition PublicKeySize : nat := 32.

Section DeviceSession.
Context {C : Ed25519}.

Definition SignDeviceSession (priv : bytes) (kid : string) (claims : DeviceSessionClaims)
  : result string :=
  if negb (length priv =? PrivateKeySize)%nat
  then Err (ErrNew "auth: device session: bad private key size")
  else
    try hb := Marshal (DeviceSessionHeader_json
      {| dh_Alg := "EdDSA"; dh_Typ := "DST"; dh_Kid := kid |}) in
    try cb := Marshal (DeviceSessionClaims_json claims) in
    let signingInput := b64 hb ++ "." ++ b64 cb in
    Ok (signingInput ++ "." ++ b64 (ed_sign priv signingInput)).

Definition malformed {A} (what : string) (o : option A) : result A :=
  match o with Some a => Ok a | None => Err (ErrWrap what ErrDSMalformed) end.

Definition ParseDeviceSession (token : string) : result ParsedDeviceSession :=
  match split_dots token with
  | [h; c; s] =>
      try hb := malformed "header b64" (b64d h) in
      try cb := malformed "claims b64" (b64d c) in
      try sig := malformed "sig b64" (b64d s) in
      try hdr := malformed "header json" (Unmarshal dec_DeviceSessionHeader no_header hb) in
      if negb (bool_decide (dh_Alg hdr = "EdDSA")) then Err (ErrWrap "alg" ErrDSMalformed)
      else
        try claims := malformed "claims json" (Unmarshal dec_DeviceSessionClaims no_claims cb) in
        Ok {| pd_Header := hdr; pd_Claims := claims; pd_SigningInput := h ++ "." ++ c;
              pd_Signature := sig |}
  | _ => Err ErrDSMalformed
  end.

Definition Verify (p : ParsedDeviceSession) (pub : bytes) (audience expectedDeviceID : string)
  (now : Time) (skew : Duration) : result unit :=
  if negb (length pub =? PublicKeySize)%nat then Err ErrDSBadSignature
  else if negb (ed_verify pub (pd_SigningInput p) (pd_Signature p)) then Err ErrDSBadSignature
  else if negb (bool_decide (audience = "")) && negb (bool_decide (ds_Aud (pd_Claims p) = audience))
  then Err ErrDSWrongAud
  else if negb (bool_decide (expectedDeviceID = ""))
          && negb (bool_decide (ds_DeviceID (pd_Claims p) = expectedDeviceID))
  then Err ErrDSWrongDevice
  else if negb (bool_decide (ds_Scope (pd_Claims p) = ScopeOfflinePay)) then Err ErrDSWrongScope
  else
    let skewSec := truncate (Seconds skew) in
    if (0 <? ds_Exp (pd_Claims p)) && (add64 (ds_Exp (pd_Claims p)) skewSec <? Unix now)
    then Err ErrDSExpired else Ok tt.

End DeviceSession.

(** ** Access tokens *)

Definition ErrInvalidToken : error := ErrNew "userauth: invalid token".
Definition ErrExpired : error := ErrNew "userauth: token expired".

Record AccessClaims := {
  at_Sub : string;
  at_Acc : string;
  at_Sid : string;
  at_Iat : Z;
  at_Exp : Z;
  at_Aud : string;
}.

Record JWTSigner := { jw_Secret : bytes; jw_Audience : string; jw_TTL : Duration }.

Definition access_fields (c : AccessClaims) : list (string * result json) :=
  ([("sub", js (at_Sub c)); ("acc", js (at_Acc c))] ++ omitempty "sid" (at_Sid c)
   ++ [("iat", jn (at_Iat c)); ("exp", jn (at_Exp c)); ("aud", js (at_Aud c))])%list.
Definition AccessClaims_json (c : AccessClaims) : result json := json_object (access_fields c).

Definition access_members (c : AccessClaims) (ms : list (string * tree)) : AccessClaims * bool :=
  (field u := member "sub" dec_string (at_Sub c) ms in
   field n := member "acc" dec_string (at_Acc c) ms in
   field r := member "sid" dec_string (at_Sid c) ms in
   field i := member "iat" dec_int64 (at_Iat c) ms in
   field e := member "exp" dec_int64 (at_Exp c) ms in
   field a := member "aud" dec_string (at_Aud c) ms in
   ({| at_Sub := u; at_Acc := n; at_Sid := r; at_Iat := i; at_Exp := e; at_Aud := a |}, true))%op.
Definition dec_AccessClaims : decoder AccessClaims := dec_struct access_members.

Definition no_access : AccessClaims :=
  {| at_Sub := ""; at_Acc := ""; at_Sid := ""; at_Iat := 0; at_Exp := 0; at_Aud := "" |}.

Section Access.
Context {C : Ed25519}.

Definition xor_byte (n : Z) (b : byte) : byte := byte_of (Z.lxor n (byte_code b)).

Definition hash (m : bytes) : bytes := sha256 (String.string_of_list_byte m).

(** [hmac.New(sha256.New, key)]: RFC 2104 with blocks of 64 bytes. *)
Definition hmac_sha256 (key : bytes) (msg : string) : bytes :=
  let key := if (64 <? length key)%nat then hash key else key in
  let key := (key ++ repeat x00 (64 - length key))%list in
  hash (map (xor_byte 92) key
        ++ hash (map (xor_byte 54) key ++ String.list_byte_of_string msg))%list.

(** The keys of a Go map are written in order. *)
Definition jwt_header : result json := json_object [("alg", js "HS256"); ("typ", js "JWT")].

Definition jwt_Sign (s : JWTSigner) (sub accountNumber sid : string) (now : Time) : result string :=
  let c := {| at_Sub := sub; at_Acc := accountNumber; at_Sid := sid; at_Iat := Unix now;
              at_Exp := Unix (now + jw_TTL s); at_Aud := jw_Audience s |} in
  try hb := Marshal jwt_header in
  try cb := Marshal (AccessClaims_json c) in
  let signingInput := b64 hb ++ "." ++ b64 cb in
  Ok (signingInput ++ "." ++ b64 (hmac_sha256 (jw_Secret s) signingInput)).

Definition invalid {A} (o : option A) : result A :=
  match o with Some a => Ok a | None => Err ErrInvalidToken end.

Definition jwt_Verify (s : JWTSigner) (tok : string) (now : Time) : result AccessClaims :=
  match split_dots tok with
  | [h; c; g] =>
      let expected := hmac_sha256 (jw_Secret s) (h ++ "." ++ c) in
      try got := invalid (b64d g) in
      if negb (bool_decide (expected = got)) then Err ErrInvalidToken
      else
        try cb := invalid (b64d c) in
        try c := invalid (Unmarshal dec_AccessClaims no_access cb) in
        if negb (at_Exp c =? 0) && (at_Exp c <? Unix now) then Err ErrExpired
        else if negb (bool_decide (jw_Audience s = "")) && negb (bool_decide (at_Aud c = jw_Audience s))
        then Err (ErrNew "userauth: wrong audience")
        else Ok c
  | _ => Err ErrInvalidToken
  end.

End Access.

(** ** Texts without dots *)

Definition dotless (s : string) : Prop := all_chars (fun a => negb (Ascii.eqb a dot)) s = true.

Lemma split_dotless s : dotless s -> split_dots s = [s].
Proof.
  induction s as [|a s IH]; [done|]. unfold dotless. cbn [all_chars]. intros [Ha Hs]%andb_true_iff.
  apply negb_true_iff in Ha. cbn [split_dots]. by rewrite Ha, (IH Hs).
Qed.

Lemma split_dotless_cons s t : dotless s -> split_dots (s ++ "." ++ t) = s :: split_dots t.
Proof.
  induction s as [|a s IH]; [done|]. unfold dotless. cbn [all_chars]. intros [Ha Hs]%andb_true_iff.
  apply negb_true_iff in Ha. change (String a s ++ "." ++ t) with (String a (s ++ "." ++ t)).
  cbn [split_dots]. by rewrite Ha, (IH Hs).
Qed.

(** What lies between the dots has none. *)
Lemma split_dots_dotless s : Forall dotless (split_dots s).
Proof.
  induction s as [|a s IH]; [by repeat constructor|]. cbn [split_dots].
  destruct (Ascii.eqb a dot) eqn:Ha; [by constructor|].
  assert (forall t, dotless t -> dotless (String a t)) as Hcons.
  { intros t Ht. unfold dotless in *. cbn [all_chars]. by rewrite Ha, Ht. }
  destruct (split_dots s) as [|h t]; [by repeat constructor; apply Hcons|].
  apply Forall_cons in IH as [Hh Ht]. constructor; [by apply Hcons|done].
Qed.

Lemma dotted_inj h c h' c' :
  dotless h -> dotless c -> dotless h' -> dotless c' -> h ++ "." ++ c = h' ++ "." ++ c' ->
  h = h' /\ c = c'.
Proof.
  intros Hh Hc Hh' Hc' Heq. apply (f_equal split_dots) in Heq.
  rewrite !split_dotless_cons, !split_dotless in Heq by done. by injection Heq.
Qed.

(** ** base64 without padding *)

Lemma url_checked : all_below 64 0 (fun n =>
  let u := to_url (b64_char n) in
  bool_decide (from_url u = Some (b64_char n)) && negb (line_end u) && negb (Ascii.eqb u dot)) = true.
Proof. vm_compute. reflexivity. Qed.

Lemma url_char n : 0 <= n < 64 ->
  Ascii.eqb (b64_char n) padding = false /\ from_url (to_url (b64_char n)) = Some (b64_char n) /\
  line_end (to_url (b64_char n)) = false /\ Ascii.eqb (to_url (b64_char n)) dot = false.
Proof.
  intros Hn. destruct (b64_char_read n Hn) as (_ & Hp & _).
  pose proof (all_below_spec _ _ _ n url_checked ltac:(lia)) as H. cbv zeta in H.
  rewrite !andb_true_iff, !negb_true_iff in H. destruct H as [[H1 H2] H3].
  by apply bool_decide_eq_true in H1.
Qed.

Lemma b64_stripped bs :
  dotless (b64 bs) /\ drop_line_ends (b64 bs) = b64 bs /\
  exists t, to_standard (b64 bs) = Some t /\ pad t = Some (base64 bs).
Proof.
  unfold b64, dotless. remember (length bs) as n eqn:Hn. revert bs Hn.
  induction (lt_wf n) as [n _ IH]; intros bs ->.
  destruct bs as [|a [|b [|c l]]]; [by repeat split; exists ""|..]; cbn [base64].
  - destruct (url_char _ (sextet1 a)) as (P1 & F1 & L1 & D1).
    destruct (url_char _ (sextet2 a)) as (P2 & F2 & L2 & D2).
    cbn -[to_url from_url b64_char line_end byte_code Ascii.eqb].
    rewrite P1, P2. cbn -[to_url from_url b64_char line_end byte_code Ascii.eqb].
    rewrite L1, L2, D1, D2, F1. cbn [mbind option_bind]. rewrite F2. repeat split. by eexists.
  - destruct (url_char _ (sextet1 a)) as (P1 & F1 & L1 & D1).
    destruct (url_char _ (sextet3 a b)) as (P2 & F2 & L2 & D2).
    destruct (url_char _ (sextet4 b)) as (P3 & F3 & L3 & D3).
    cbn -[to_url from_url b64_char line_end byte_code Ascii.eqb].
    rewrite P1, P2, P3. cbn -[to_url from_url b64_char line_end byte_code Ascii.eqb].
    rewrite L1, L2, L3, D1, D2, D3, F1. cbn [mbind option_bind]. rewrite F2.
    cbn [mbind option_bind]. rewrite F3. repeat split. by eexists.
  - destruct (url_char _ (sextet1 a)) as (P1 & F1 & L1 & D1).
    destruct (url_char _ (sextet3 a b)) as (P2 & F2 & L2 & D2).
    destruct (url_char _ (sextet5 b c)) as (P3 & F3 & L3 & D3).
    destruct (url_char _ (sextet6 c)) as (P4 & F4 & L4 & D4).
    destruct (IH (length l) ltac:(cbn; lia) l eq_refl) as (Hd & Hl & t & Ht & Hp).
    cbn [strip]. rewrite P1, P2, P3, P4. cbn [all_chars drop_line_ends to_standard].
    rewrite L1, L2, L3, L4, D1, D2, D3, D4, F1, F2, F3, F4, Hd, Hl, Ht.
    repeat split. cbn [mbind option_bind]. eexists. split; [reflexivity|]. cbn [pad]. by rewrite Hp.
Qed.

Lemma b64_dotless bs : dotless (b64 bs).
Proof. by destruct (b64_stripped bs). Qed.

Lemma b64_round bs : b64d (b64 bs) = Some bs.
Proof.
  destruct (b64_stripped bs) as (_ & Hl & t & Ht & Hp). unfold b64d. rewrite Hl, Ht.
  cbn [mbind option_bind]. rewrite Hp. cbn [mbind option_bind]. by destruct (b64_text bs) as (_ & _ & ->).
Qed.

(** ** Flat structs *)

Definition flat (r : result json) : Prop := (exists s, r = js s) \/ (exists z, r = jn z).

Lemma flat_js s : flat (js s).
Proof. left. by exists s. Qed.
Lemma flat_jn z : flat (jn z).
Proof. right. by exists z. Qed.

Ltac flat_fields := repeat (constructor; [cbn; first [apply flat_js|apply flat_jn]|]); constructor.

Lemma unmarshal_written {A} (decode : A -> list (string * tree) -> A * bool) fields zero a bs :
  Marshal (json_object fields) = Ok bs -> Forall (fun kr => flat kr.2) fields ->
  apart (fields.*1) = true -> reads_fields fields decode zero a ->
  Unmarshal (dec_struct decode) zero bs = Some a.
Proof.
  intros Hm Hflat Ha Hr. unfold Marshal in Hm. destruct (json_object fields) as [v|] eqn:Hv; [|done].
  injection Hm as <-. unfold Unmarshal. rewrite String.string_of_list_byte_of_string.
  assert (forall k r u, In (k, r) fields -> r = Ok u -> norm u = u /\ height u = 0) as Hlit.
  { intros k r u Hin ->. rewrite Forall_forall in Hflat. apply list_elem_of_In, Hflat in Hin.
    by destruct Hin as [[s [= ->]]|[z [= ->]]]. }
  rewrite parse_raw.
  - cbn [mbind option_bind]. erewrite dec_struct_raw; [done|exact Hv|done| |done].
    intros k r u Hin Hu. by destruct (Hlit k r u Hin Hu).
  - assert (height v <= 1) as Hh; [|unfold maxNestingDepth; lia].
    apply (json_object_height 0 fields); [done|lia|]. intros k r u Hin Hu.
    destruct (Hlit k r u Hin Hu) as [_ ->]. lia.
Qed.

(** Reads the fields of a flat struct, those that were left out too. *)
Ltac read_flat H Hout :=
  repeat (first
    [ erewrite H;
        [|repeat first [left; reflexivity | right]
         |intros u Hu; injection Hu as <-; first [by apply reads_string | by apply reads_int64]]
    | rewrite Hout by (vm_compute; reflexivity) ]; cbn [with_ok andb]).

Definition clean_claims (c : DeviceSessionClaims) : Prop :=
  utf8 (ds_Sub c) /\ utf8 (ds_AccountNumber c) /\ utf8 (ds_DeviceID c) /\ utf8 (ds_Scope c) /\
  utf8 (ds_Aud c) /\ utf8 (ds_SessionID c) /\ in_int64 (ds_Iat c) = true /\
  in_int64 (ds_Exp c) = true.

Lemma header_read h bs :
  Marshal (DeviceSessionHeader_json h) = Ok bs ->
  utf8 (dh_Alg h) -> utf8 (dh_Typ h) -> utf8 (dh_Kid h) ->
  Unmarshal dec_DeviceSessionHeader no_header bs = Some h.
Proof.
  intros Hm H1 H2 H3. eapply unmarshal_written; [exact Hm| |vm_compute; done|].
  - flat_fields.
  - intros ms H Hout. unfold header_members. read_flat H Hout. by destruct h.
Qed.

Lemma claims_read c bs :
  Marshal (DeviceSessionClaims_json c) = Ok bs -> clean_claims c ->
  Unmarshal dec_DeviceSessionClaims no_claims bs = Some c.
Proof.
  intros Hm (H1 & H2 & H3 & H4 & H5 & H6 & H7 & H8). eapply unmarshal_written; [exact Hm|..].
  - unfold claims_fields, omitempty. destruct (bool_decide _); cbn; flat_fields.
  - unfold claims_fields, omitempty. by destruct (bool_decide _); vm_compute.
  - intros ms H Hout. unfold claims_fields, omitempty, claims_members in *.
    destruct (bool_decide (ds_SessionID c = "")) eqn:Hs; cbn [app] in *.
    + apply bool_decide_eq_true in Hs. read_flat H Hout. destruct c; cbn in *. by subst.
    + read_flat H Hout. by destruct c.
Qed.

Definition clean_access (c : AccessClaims) : Prop :=
  utf8 (at_Sub c) /\ utf8 (at_Acc c) /\ utf8 (at_Sid c) /\ utf8 (at_Aud c) /\
  in_int64 (at_Iat c) = true /\ in_int64 (at_Exp c) = true.

Lemma access_read c bs :
  Marshal (AccessClaims_json c) = Ok bs -> clean_access c ->
  Unmarshal dec_AccessClaims no_access bs = Some c.
Proof.
  intros Hm (H1 & H2 & H3 & H4 & H5 & H6). eapply unmarshal_written; [exact Hm|..].
  - unfold access_fields, omitempty. destruct (bool_decide _); cbn; flat_fields.
  - unfold access_fields, omitempty. by destruct (bool_decide _); vm_compute.
  - intros ms H Hout. unfold access_fields, omitempty, access_members in *.
    destruct (bool_decide (at_Sid c = "")) eqn:Hs; cbn [app] in *.
    + apply bool_decide_eq_true in Hs. read_flat H Hout. destruct c; cbn in *. by subst.
    + read_flat H Hout. by destruct c.
Qed.

(** ** What tokens say *)

Section DeviceTokens.
Context {C : Ed25519} {HC : Ed25519Laws C}.

(** The claims let the device in. *)
Definition admits (c : DeviceSessionClaims) (audience device : string) (now : Time) (skew : Duration)
  : Prop :=
  (audience = "" \/ ds_Aud c = audience) /\ (device = "" \/ ds_DeviceID c = device) /\
  ds_Scope c = ScopeOfflinePay /\
  (0 < ds_Exp c -> Unix now <= add64 (ds_Exp c) (truncate (Seconds skew))).

Lemma unless_other (s t : string) :
  negb (bool_decide (s = "")) && negb (bool_decide (t = s)) = true <-> ~ (s = "" \/ t = s).
Proof. rewrite andb_true_iff, !negb_true_iff, !bool_decide_eq_false. tauto. Qed.

Lemma Verify_iff p pub audience device now skew :
  Verify p pub audience device now skew = Ok tt <->
  length pub = PublicKeySize /\ ed_verify pub (pd_SigningInput p) (pd_Signature p) = true /\
  admits (pd_Claims p) audience device now skew.
Proof.
  unfold Verify, admits. destruct (Nat.eqb_spec (length pub) PublicKeySize) as [Hl|Hl]; cbn [negb].
  2: { split; [discriminate|tauto]. }
  destruct (ed_verify _ _ _); cbn [negb]; [|split; [discriminate|intros (_ & ? & _); discriminate]].
  destruct (negb (bool_decide (audience = "")) && _) eqn:Ha.
  { apply unless_other in Ha. split; [discriminate|tauto]. }
  apply not_true_iff_false in Ha. rewrite unless_other in Ha. apply dec_stable in Ha.
  destruct (negb (bool_decide (device = "")) && _) eqn:Hd.
  { apply unless_other in Hd. split; [discriminate|tauto]. }
  apply not_true_iff_false in Hd. rewrite unless_other in Hd. apply dec_stable in Hd.
  case_bool_decide as Hs; cbn [negb]; [|split; [discriminate|tauto]].
  match goal with |- context [if ?x then Err ErrDSExpired else _] => destruct x eqn:Hx end.
  - apply andb_true_iff in Hx as [H1%Z.ltb_lt H2%Z.ltb_lt]. split; [discriminate|].
    intros (_ & _ & _ & _ & _ & Hexp). specialize (Hexp H1). lia.
  - split; [intros _|done]. split_and!; try done. intros H1.
    apply andb_false_iff in Hx as [Hx%Z.ltb_ge|Hx%Z.ltb_ge]; lia.
Qed.

Lemma parsed_token hb cb sig hdr c :
  Unmarshal dec_DeviceSessionHeader no_header hb = Some hdr -> dh_Alg hdr = "EdDSA" ->
  Unmarshal dec_DeviceSessionClaims no_claims cb = Some c ->
  ParseDeviceSession (b64 hb ++ "." ++ b64 cb ++ "." ++ b64 sig) =
  Ok {| pd_Header := hdr; pd_Claims := c; pd_SigningInput := b64 hb ++ "." ++ b64 cb;
        pd_Signature := sig |}.
Proof.
  intros Hh Ha Hc. unfold ParseDeviceSession.
  rewrite !split_dotless_cons, split_dotless by apply b64_dotless. rewrite !b64_round.
  cbn [malformed result_bind]. rewrite Hh. cbn [malformed result_bind].
  rewrite bool_decide_eq_true_2 by done. cbn [negb]. by rewrite Hc.
Qed.

(** A device session token is read back as the header and the claims it was signed for,
    and the device accepts it with the public key of the signer exactly while they let it in: for
    their audience and device, in the offline scope, until they expire and the clock skew has
    passed. *)
Lemma DeviceSession_roundtrip priv kid c token :
  SignDeviceSession priv kid c = Ok token -> utf8 kid -> clean_claims c ->
  length (ed_public priv) = PublicKeySize ->
  exists p, ParseDeviceSession token = Ok p /\
    pd_Header p = {| dh_Alg := "EdDSA"; dh_Typ := "DST"; dh_Kid := kid |} /\ pd_Claims p = c /\
    forall audience device now skew,
      Verify p (ed_public priv) audience device now skew = Ok tt
      <-> admits c audience device now skew.
Proof.
  intros H Hkid Hc Hpub. unfold SignDeviceSession in H. destruct (negb _); [done|].
  destruct (Marshal (DeviceSessionHeader_json _)) as [hb|] eqn:Hh; [|done].
  destruct (Marshal (DeviceSessionClaims_json c)) as [cb|] eqn:Hcb; [|done].
  injection H as <-. eexists. split; [|split; [|split]].
  - rewrite !app_string_assoc. apply parsed_token; [by apply (header_read _ _ Hh)|done|].
    by apply claims_read.
  - done.
  - done.
  - intros audience device now skew. rewrite Verify_iff. cbn. rewrite ed_verify_sign. tauto.
Qed.

(** The signature covers the whole token: two tokens whose signed parts are the same text
    have the same header and the same claims, whoever wrote them, so a signature cannot be moved
    from one set of claims to another. *)
Lemma signed_part_determines token token' p p' :
  ParseDeviceSession token = Ok p -> ParseDeviceSession token' = Ok p' ->
  pd_SigningInput p = pd_SigningInput p' -> pd_Header p = pd_Header p' /\ pd_Claims p = pd_Claims p'.
Proof.
  assert (forall t q, ParseDeviceSession t = Ok q -> exists h c hb cb,
    dotless h /\ dotless c /\ pd_SigningInput q = h ++ "." ++ c /\
    b64d h = Some hb /\ b64d c = Some cb /\
    Unmarshal dec_DeviceSessionHeader no_header hb = Some (pd_Header q) /\
    Unmarshal dec_DeviceSessionClaims no_claims cb = Some (pd_Claims q)) as Hparts.
  { intros t q Hq. unfold ParseDeviceSession in Hq. pose proof (split_dots_dotless t) as Hd.
    destruct (split_dots t) as [|h [|c [|s [|x l]]]]; try done.
    apply Forall_cons in Hd as [Hh [Hc _]%Forall_cons].
    destruct (b64d h) as [hb|] eqn:Hhb; [|done]. destruct (b64d c) as [cb|] eqn:Hcb; [|done].
    destruct (b64d s) as [sig|]; [|done]. cbn [malformed result_bind] in Hq.
    destruct (Unmarshal dec_DeviceSessionHeader _ hb) as [hdr|] eqn:Hh'; [|done]. cbn [malformed result_bind] in Hq.
    destruct (negb _); [done|].
    destruct (Unmarshal dec_DeviceSessionClaims _ cb) as [cl|] eqn:Hc'; [|done].
    injection Hq as <-. by exists h, c, hb, cb. }
  intros (h & c & hb & cb & Dh & Dc & Hi & Hhb & Hcb & Hh & Hc)%Hparts
    (h' & c' & hb' & cb' & Dh' & Dc' & Hi' & Hhb' & Hcb' & Hh' & Hc')%Hparts Heq.
  rewrite Hi, Hi' in Heq. apply dotted_inj in Heq as [-> ->]; try done.
  assert (hb' = hb) as -> by congruence. assert (cb' = cb) as -> by congruence.
  split; congruence.
Qed.

End DeviceTokens.

Section AccessTokens.
Context {C : Ed25519}.

Definition access_claims (s : JWTSigner) (sub acc sid : string) (t : Time) : AccessClaims := {|
  at_Sub := sub; at_Acc := acc; at_Sid := sid; at_Iat := Unix t; at_Exp := Unix (t + jw_TTL s);
  at_Aud := jw_Audience s |}.

(** An access token is read back as the claims it was signed for, until they expire. *)
Lemma access_token_verifies s sub acc sid t token :
  jwt_Sign s sub acc sid t = Ok token -> clean_access (access_claims s sub acc sid t) ->
  forall now, jwt_Verify s token now =
    if negb (Unix (t + jw_TTL s) =? 0) && (Unix (t + jw_TTL s) <? Unix now) then Err ErrExpired
    else Ok (access_claims s sub acc sid t).
Proof.
  intros H Hc now. unfold jwt_Sign in H. fold (access_claims s sub acc sid t) in H.
  destruct (Marshal jwt_header) as [hb|]; [|done].
  destruct (Marshal (AccessClaims_json _)) as [cb|] eqn:Hcb; [|done]. injection H as <-.
  unfold jwt_Verify. rewrite !app_string_assoc.
  rewrite !split_dotless_cons, split_dotless by apply b64_dotless. cbn zeta.
  rewrite !b64_round. cbn [invalid result_bind]. rewrite bool_decide_eq_true_2 by done. cbn [negb].
  rewrite (access_read _ _ Hcb Hc). cbn [invalid result_bind].
  change (at_Exp (access_claims s sub acc sid t)) with (Unix (t + jw_TTL s)).
  destruct (negb _ && _); [done|]. cbn [at_Aud access_claims].
  by rewrite (bool_decide_eq_true_2 (jw_Audience s = jw_Audience s)), andb_false_r.
Qed.

End AccessTokens.
