(* ===== verification/SealedBox.v ===== *)
(** * Sealed boxes (internal/crypto/sealed_box.go)

    Anonymous public-key encryption: a fresh key pair for every message, whose public half
    goes in front of the box.  The boxes themselves (golang.org/x/crypto/nacl/box), X25519
    and BLAKE2b are the interface [NaCl]. *)

From Stdlib Require Import Strings.Byte.
From S2P Require Import Prelude.

#[local] Open Scope Z_scope.

(** A key pair is its private half: [ScalarBaseMult] gives the public one. *)
Class NaCl := {
  box_Seal : bytes -> bytes -> bytes -> bytes -> bytes;
  box_Open : bytes -> bytes -> bytes -> bytes -> option bytes;
  ScalarBaseMult : bytes -> bytes;
  blake2b : nat -> bytes -> bytes;
}.

(** [box.Overhead]. *)
Definition box_Overhead : nat := 16.

(** Two parties open each other's boxes; a box adds its tag to the message. *)
Class NaClLaws (X : NaCl) : Prop := {
  box_open_seal nonce a b m :
    box_Open nonce (ScalarBaseMult a) b (box_Seal nonce (ScalarBaseMult b) a m) = Some m;
  box_seal_length nonce p k m : length (box_Seal nonce p k m) = (length m + box_Overhead)%nat;
  base_mult_length k : length (ScalarBaseMult k) = 32%nat;
}.

Definition SealedBoxPubKeySize : nat := 32.
Definition SealedBoxPrivKeySize : nat := 32.
Definition SealedBoxOverhead : nat := 32 + box_Overhead.

Definition ErrBadSealedBox : error := ErrNew "sealed-box: decrypt failed".

Section SealedBox.
Context {X : NaCl}.

Definition DerivePublicFromSealedBoxPrivate (priv : option bytes) : result bytes :=
  match priv with
  | None => Err (ErrNew "sealed-box: nil private key")
  | Some k => Ok (ScalarBaseMult k)
  end.

(** [box.GenerateKey(rand.Reader)] of the private half [random], or the failure of the
    random source. *)
Definition GenerateSealedBoxKeyPair (random : result bytes) : result (bytes * bytes) :=
  match random with
  | Err e => Err (ErrWrap "sealed-box: generate" e)
  | Ok priv => Ok (ScalarBaseMult priv, priv)
  end.

Definition sealedBoxNonce (ephPub recipientPub : bytes) : bytes :=
  blake2b 24 (ephPub ++ recipientPub).

Definition SealAnonymous (random : result bytes) (recipientPub plaintext : bytes)
  : result bytes :=
  match random with
  | Err e => Err (ErrWrap "sealed-box: eph keygen" e)
  | Ok ephPriv =>
      let ephPub := ScalarBaseMult ephPriv in
      let nonce := sealedBoxNonce ephPub recipientPub in
      Ok (ephPub ++ box_Seal nonce recipientPub ephPriv plaintext)
  end.

Definition OpenAnonymous (recipientPub recipientPriv ciphertext : bytes) : result bytes :=
  if (length ciphertext <? SealedBoxOverhead)%nat then Err ErrBadSealedBox
  else
    let ephPub := take 32 ciphertext in
    let nonce := sealedBoxNonce ephPub recipientPub in
    match box_Open nonce ephPub recipientPriv (drop 32 ciphertext) with
    | None => Err ErrBadSealedBox
    | Some pt => Ok pt
    end.

Context {HX : NaClLaws X}.

(** Whoever holds the private half opens what was sealed to the public one. *)
Lemma open_sealed random priv m c :
  SealAnonymous random (ScalarBaseMult priv) m = Ok c ->
  OpenAnonymous (ScalarBaseMult priv) priv c = Ok m /\
  length c = (length m + SealedBoxOverhead)%nat.
Proof.
  unfold SealAnonymous, OpenAnonymous, SealedBoxOverhead. destruct random as [eph|]; [|done].
  intros [= <-]. rewrite length_app, base_mult_length, box_seal_length.
  rewrite (proj2 (Nat.ltb_ge _ _)) by lia.
  rewrite take_app_length', drop_app_length' by (symmetry; apply base_mult_length).
  rewrite box_open_seal. split; [done|lia].
Qed.

End SealedBox.
