(* ===== verification/DeviceStore.v ===== *)
(** * The statements on devices and realm keys (sqlcgen/devices.sql.go, realm_keys.sql.go)

    Migrations 0004 and 0008: one active device per user, by a partial unique index; realm
    keys by their version, retired with an overlap. *)

From S2P Require Import Prelude Domain Json Store AuthStore.

#[local] Open Scope Z_scope.

(** ** devices *)

Definition active_device_of (userID : string) (r : DeviceRow) : bool :=
  bool_decide (dv_UserID r = userID) && dv_Active r.

Record CreateDeviceParams := {
  cd_ID : string;
  cd_UserID : string;
  cd_AttestationBlob : option bytes;
  cd_PublicKey : bytes;
  cd_Active : bool;
  cd_LastSeenAt : option Time;
}.

(** A nil blob is NULL, which the column refuses; an empty one is not nil. *)
Definition q_CreateDevice (a : CreateDeviceParams) (t : Time) (d : db) : result (unit * db) :=
  try blob := match cd_AttestationBlob a with
              | Some b => Ok b
              | None => Err (ErrNotNull "attestation_blob") end in
  try _ := pk "devices_pkey" (devices d) (cd_ID a) in
  try _ := (if cd_Active a
            then unique "uq_device_one_active_per_user"
                   (fun _ r => active_device_of (cd_UserID a) r) (devices d)
            else Ok tt) in
  try _ := fk "devices_user_id_fkey" (users d) (cd_UserID a) in
  Ok (tt, with_devices (<[cd_ID a := {|
    dv_UserID := cd_UserID a; dv_AttestationBlob := blob;
    dv_PublicKey := cd_PublicKey a; dv_Active := cd_Active a; dv_LastSeenAt := cd_LastSeenAt a;
    dv_CreatedAt := tstz t; dv_UpdatedAt := tstz t |}]> (devices d)) d).

Definition set_device (active : bool) (seen : option Time) (t : Time) (r : DeviceRow) : DeviceRow := {|
  dv_UserID := dv_UserID r; dv_AttestationBlob := dv_AttestationBlob r;
  dv_PublicKey := dv_PublicKey r; dv_Active := active; dv_LastSeenAt := seen;
  dv_CreatedAt := dv_CreatedAt r; dv_UpdatedAt := tstz t |}.

Definition q_DeactivateDevice (id : string) (t : Time) (d : db) : result (unit * db) :=
  Ok (tt, with_devices (alter (fun r => set_device false (dv_LastSeenAt r) t r) id (devices d)) d).

Definition q_TouchDevice (id : string) (seen : option Time) (t : Time) (d : db)
  : result (unit * db) :=
  Ok (tt, with_devices (alter (fun r => set_device (dv_Active r) seen t r) id (devices d)) d).

Definition q_GetActiveDeviceForUser (userID : string) (d : db) : result (string * DeviceRow) :=
  first_row (fun _ r => active_device_of userID r) (devices d).

Definition q_GetDevice (id : string) (d : db) : result DeviceRow :=
  match devices d !! id with Some r => Ok r | None => Err ErrNoRows end.

(** ** realm_keys *)

Definition q_CreateRealmKey (version : Z) (keyEnc : bytes) (activeFrom : option Time) (t : Time)
  (d : db) : result (unit * db) :=
  try _ := not_null_bytes "key_enc" keyEnc in
  try from := not_null "active_from" activeFrom in
  try _ := guard_or (bool_decide (realm_keys d !! version = None)) (ErrUnique "realm_keys_pkey") in
  Ok (tt, with_realm_keys (<[version := {|
    rk_KeyEnc := keyEnc; rk_ActiveFrom := from; rk_RetiredAt := None; rk_CreatedAt := tstz t |}]>
    (realm_keys d)) d).

Definition realm_rows (P : Z -> RealmKeyRow -> bool) (d : db) : list (Z * RealmKeyRow) :=
  List.filter (fun r => P r.1 r.2) (map_to_list (realm_keys d)).

Definition active_first (x y : Z * RealmKeyRow) : Prop := rk_ActiveFrom y.2 <= rk_ActiveFrom x.2.
#[global] Instance active_first_dec x y : Decision (active_first x y).
Proof. unfold active_first. apply _. Defined.

Definition version_first (x y : Z * RealmKeyRow) : Prop := y.1 <= x.1.
#[global] Instance version_first_dec x y : Decision (version_first x y).
Proof. unfold version_first. apply _. Defined.

Definition not_retired (r : RealmKeyRow) : bool := bool_decide (rk_RetiredAt r = None).

Definition q_GetActiveRealmKey (d : db) : result (Z * RealmKeyRow) :=
  match merge_sort active_first (realm_rows (fun _ r => not_retired r) d) with
  | r :: _ => Ok r
  | [] => Err ErrNoRows
  end.

Definition q_GetRealmKey (version : Z) (d : db) : result (Z * RealmKeyRow) :=
  match realm_keys d !! version with Some r => Ok (version, r) | None => Err ErrNoRows end.

(** Still inside its overlap. *)
Definition in_overlap (t : Time) (r : RealmKeyRow) : bool :=
  match rk_RetiredAt r with None => true | Some at_ => t <? at_ end.

(** A negative LIMIT is an error. *)
Definition q_ListActiveRealmKeys (limit : Z) (t : Time) (d : db)
  : result (list (Z * RealmKeyRow) * db) :=
  if limit <? 0 then Err (ErrNew "ERROR: LIMIT must not be negative (SQLSTATE 2201W)")
  else Ok (take (Z.to_nat limit)
             (merge_sort version_first (realm_rows (fun _ r => in_overlap t r) d)), d).

Definition retire_key (at_ : option Time) (r : RealmKeyRow) : RealmKeyRow := {|
  rk_KeyEnc := rk_KeyEnc r; rk_ActiveFrom := rk_ActiveFrom r; rk_RetiredAt := at_;
  rk_CreatedAt := rk_CreatedAt r |}.

Definition q_RetireRealmKey (version : Z) (at_ : option Time) (_ : Time) (d : db)
  : result (unit * db) :=
  Ok (tt, with_realm_keys (alter (retire_key at_) version (realm_keys d)) d).

Definition q_RetireOtherRealmKeys (version : Z) (at_ : option Time) (_ : Time) (d : db)
  : result (unit * db) :=
  Ok (tt, with_realm_keys (map_imap (fun v r => Some
        (if not_retired r && negb (v =? version) then retire_key at_ r else r)) (realm_keys d)) d).

(** The keys whose time is up are deleted. *)
Definition without_realm_keys (gone : RealmKeyRow -> bool) (d : db) : db :=
  with_realm_keys (filter (fun kv : Z * RealmKeyRow => gone kv.2 = false) (realm_keys d)) d.

Definition q_DeleteExpiredRealmKeys (t : Time) (d : db) : result (unit * db) :=
  Ok (tt, without_realm_keys (fun r =>
    match rk_RetiredAt r with None => false | Some at_ => at_ <=? t end) d).

Definition q_DeleteRetiredRealmKeysBefore (cutoff : option Time) (_ : Time) (d : db)
  : result (unit * db) :=
  Ok (tt, without_realm_keys (fun r =>
    match rk_RetiredAt r, cutoff with Some at_, Some c => at_ <? c | _, _ => false end) d).

Definition q_NextRealmKeyVersion (d : db) : result Z :=
  int4 (match map fst (map_to_list (realm_keys d)) with
        | [] => 0
        | v :: versions => foldr Z.max v versions
        end + 1).

(** ** bank_signing_keys, ceiling_tokens (opsctl) *)

Definition retire_bank_key (at_ : option Time) (k : BankSigningKey) : BankSigningKey := {|
  bk_KeyID := bk_KeyID k; bk_PublicKey := bk_PublicKey k; bk_PrivateKey := bk_PrivateKey k;
  bk_ActiveFrom := bk_ActiveFrom k; bk_ActiveTo := at_; bk_CreatedAt := bk_CreatedAt k |}.

Definition q_RetireAllActiveBankSigningKeys (at_ : option Time) (_ : Time) (d : db)
  : result (unit * db) :=
  Ok (tt, with_bank_signing_keys
        ((fun k => if bool_decide (bk_ActiveTo k = None) then retire_bank_key at_ k else k)
         <$> bank_signing_keys d) d).

(** Nothing calls it. *)
Definition q_RetireBankSigningKey (keyID : string) (at_ : option Time) (_ : Time) (d : db)
  : result (unit * db) :=
  Ok (tt, with_bank_signing_keys (alter (retire_bank_key at_) keyID (bank_signing_keys d)) d).

(** The number of rows changed. *)
Definition q_ForceExpireActiveCeiling (id : string) (_ : Time) (d : db) : result (Z * db) :=
  match ceiling_tokens d !! id with
  | Some c =>
      if bool_decide (c_Status c = CeilingActive)
      then Ok (1, with_ceiling_tokens (<[id := set_c_Status CeilingExpired c]> (ceiling_tokens d)) d)
      else Ok (0, d)
  | None => Ok (0, d)
  end.
