(* ===== verification/Repo.v ===== *)
(** * The repository (internal/repository/pgrepo)

    The domain-typed methods the services call, as operations on the database,
    with the row-to-domain mapping of mapping.go and the cache-aside reads. *)

From Stdlib Require Import Ascii.
From S2P Require Import Prelude Domain Json Store AuthStore.

(** ** Effects

    What leaves the process or lives outside the database: fraud records and
    detector observations, the sequence tracker, the cache, published events,
    notifications, one-time codes and the attestation nonces in memory. *)
Inductive cached :=
| CachedBankKey (k : BankSigningKey)
| CachedDevice (userID : string) (pub : bytes) (active : bool)
| CachedText (s : string)
| CachedMe (m : Me)
| CachedRealmKey (k : RealmKey)
| CachedRealmKeys (ks : list RealmKey).

Inductive effect :=
| EvFraudRecord (ev : FraudEvent)
| EvObserveSettled (userID : string) (at_ : Time)
| EvObserveClaim (userID country : string) (at_ : Time)
| EvRegisterCeiling (userID ceilingID : string) (sequenceStart : Z)
| EvCacheSet (key : string) (v : cached)
| EvCacheDel (keys : list string)
| EvPublish (subject msgID : string) (envelope : json)
| EvNotify (userID kind ref : string) (amount : Z)
| EvTerminate
| EvSendOTP (recipient code purpose : string)
| EvNonceIssued (key : string) (expires swept : Time)
| EvNonceTaken (key : string).

Abbreviation dbop A := (op db effect A) (only parsing).

(** ** Row to domain mapping (mapping.go)

    The timestamps of a row are already [option]s and UTC instants here, so
    [fromTSZ] and [fromTSZPtr] are the identity on them. *)

Definition strPtr (s : string) : option string := if bool_decide (s = "") then None else Some s.

Definition ceilingToDomain (r : string * CeilingRow) : CeilingToken :=
  let '(id, c) := r in {|
    ct_ID := id; ct_PayerID := c_PayerUserID c; ct_CeilingAmount := c_CeilingKobo c;
    ct_IssuedAt := utc (c_IssuedAt c); ct_ExpiresAt := utc (c_ExpiresAt c);
    ct_SequenceStart := c_SequenceStart c; ct_NextSequence := add64 (c_SequenceStart c) 1;
    ct_PayerPublicKey := c_PayerPubkey c; ct_BankKeyID := c_BankKeyID c;
    ct_BankSignature := c_BankSig c; ct_Status := c_Status c;
    ct_ReleaseAfter := c_ReleaseAfter c; ct_CreatedAt := c_CreatedAt c |}.

Definition paymentToDomainTxn (r : string * PaymentRow) : Transaction :=
  let '(id, p) := r in {|
    t_ID := id; t_PayerID := p_PayerUserID p; t_PayeeID := p_PayeeUserID p;
    t_Amount := p_AmountKobo p; t_SequenceNumber := p_SequenceNumber p;
    t_CeilingTokenID := p_CeilingID p; t_Status := p_Status p;
    t_SettledAmount := p_SettledAmountKobo p; t_SettlementBatchID := p_SettlementBatchID p;
    t_RejectionReason := p_RejectionReason p; t_SubmittedAt := p_SubmittedAt p;
    t_SettledAt := p_SettledAt p; t_CreatedAt := p_CreatedAt p |}.

(** [err.Error() == "no rows in result set"], or the sentinel of the services' test
    doubles; a wrapped driver error does not match. *)
Definition isNoRows (e : error) : bool :=
  errors_is e (ErrNew "no rows in result set") || bool_decide (e = ErrNoRows).

(** [pgrepo.IsUniqueViolation]: [errors.As] on SQLSTATE 23505. *)
Fixpoint IsUniqueViolation (e : error) : bool :=
  match e with
  | ErrUnique _ => true
  | ErrWrap _ e' => IsUniqueViolation e'
  | ErrJoin e1 e2 => IsUniqueViolation e1 || IsUniqueViolation e2
  | _ => false
  end.

Definition AllAccountKinds : list AccountKind :=
  [AccountKindMain; AccountKindLienHolding; AccountKindReceivingPending].

Section Repo.
Context {E : Env}.

(** [Repo.Tx]; the failure to begin is wrapped by the code, the others are not. *)
Definition Tx {A} (m : dbop A) : dbop A := tx check_ledger_txn_balanced m.

(** ** Accounts *)

Definition GetAccountID (userID : string) (kind : AccountKind) : dbop string :=
  let! a := query (q_GetAccountByUserAndKind userID kind) in ret a.1.

Definition GetAccountBalance (userID : string) (kind : AccountKind) : dbop Z :=
  let! a := query (q_GetAccountByUserAndKind userID kind) in ret (a_BalanceKobo a.2).

Definition DebitAccount (accountID : string) (amount : Z) : dbop unit :=
  do! exec (q_DecrementAccountBalance accountID amount) in ret tt.

Definition ForceDebitAccount (accountID : string) (amount : Z) : dbop unit :=
  do! exec (q_ForceDecrementAccountBalance accountID amount) in ret tt.

Definition CreditAccount (accountID : string) (amount : Z) : dbop unit :=
  do! exec (q_IncrementAccountBalance accountID amount) in ret tt.

Definition placeholderEmail (userID : string) : string :=
  ("device-" +:+ userID +:+ "@placeholder.local")%string.

(** ** Keys *)

Definition SetUserPayerPubkey (userID : string) (pubkey : bytes) : dbop unit :=
  Tx (do! wrapping "retire signing key" (exec (q_RetireActiveSigningKey userID)) in
      let! id := fresh in
      wrapping "insert signing key" (exec (q_InsertSigningKey id userID pubkey))).

Definition GetUserPayerPubkey (userID : string) : dbop bytes :=
  let! r := attempt (query (q_GetActiveSigningKeyPubkey userID)) in
  match r with
  | Ok pub => ret pub
  | Err e => if errors_is e ErrNoRows then ret [] else throw e
  end.

Definition UpsertBankSigningKey (k : BankSigningKey) : dbop unit :=
  let! activeFrom := (if IsZero (bk_ActiveFrom k) then now else ret (bk_ActiveFrom k)) in
  do! exec (fun t => q_CreateBankSigningKey
              {| bk_KeyID := bk_KeyID k; bk_PublicKey := bk_PublicKey k;
                 bk_PrivateKey := bk_PrivateKey k; bk_ActiveFrom := tstz activeFrom;
                 bk_ActiveTo := None; bk_CreatedAt := tstz t |} t) in
  emit (EvCacheDel ["bank:sig:active"]).

Definition GetBankSigningKey (keyID : string) : dbop BankSigningKey :=
  query (q_GetBankSigningKey keyID).

Definition bankSigningActiveCacheKey : string := "bank:sig:active".

End Repo.

(** The cache is beside the database and may fail by itself; the code ignores its errors.
    [cache_serves]: whether it answers a lookup (it is up and the entry has not expired), by
    the number of store calls made so far.  [cache_obeys]: whether it carries out the write or
    the deletion the trace has at a position; one it does not carry out leaves the entry that
    was there. *)
Class CacheEnv := { cache_serves : nat -> bool; cache_obeys : nat -> bool }.

(** What becomes of the entry of [key] by the event at position [n] of the trace. *)
Definition cache_step {K : CacheEnv} (key : string) (nv : nat * option cached) (ev : effect)
  : nat * option cached :=
  let '(n, v) := nv in
  (S n, match ev with
        | EvCacheSet k x => if String.eqb k key && cache_obeys n then Some x else v
        | EvCacheDel ks => if existsb (String.eqb key) ks && cache_obeys n then None else v
        | _ => v
        end).

(** The value a cache holds for a key after a trace of effects, had nothing expired. *)
Definition cache_get {K : CacheEnv} (key : string) (log : list effect) : option cached :=
  (foldl (cache_step key) (0%nat, None) log).2.

Lemma cache_position {K : CacheEnv} key log : forall n v,
  (foldl (cache_step key) (n, v) log).1 = (n + length log)%nat.
Proof.
  induction log as [|ev log IH]; intros n v; cbn [foldl length]; [cbn; lia|].
  unfold cache_step at 2. rewrite IH. lia.
Qed.

(** One event more. *)
Lemma cache_get_snoc {K : CacheEnv} key log ev :
  cache_get key (log ++ [ev])%list =
  match ev with
  | EvCacheSet k x =>
      if String.eqb k key && cache_obeys (length log) then Some x else cache_get key log
  | EvCacheDel ks =>
      if existsb (String.eqb key) ks && cache_obeys (length log) then None else cache_get key log
  | _ => cache_get key log
  end.
Proof.
  unfold cache_get. rewrite foldl_app. cbn [foldl].
  pose proof (cache_position key log 0 None) as Hn.
  destruct (foldl (cache_step key) (0%nat, None) log) as [n v]. cbn in Hn. subst n.
  by destruct ev.
Qed.

(** Other events leave it. *)
Lemma cache_get_other {K : CacheEnv} key log ev :
  (forall k x, ev = EvCacheSet k x -> k <> key) ->
  (forall ks, ev <> EvCacheDel ks) -> cache_get key (log ++ [ev])%list = cache_get key log.
Proof.
  intros Hs Hd. rewrite cache_get_snoc. destruct ev as [| | | |k x|ks| | | | | |]; try done.
  - specialize (Hs k x eq_refl). by destruct (String.eqb_spec k key).
  - by destruct (Hd ks).
Qed.

Section Cached.
Context {E : Env} {K : CacheEnv}.

Definition cache_lookup (key : string) : dbop (option cached) := fun w =>
  (Ok (if cache_serves (w_ops w) then cache_get key (w_log w) else None), w).

Definition GetActiveBankSigningKey : dbop BankSigningKey :=
  let! hit := cache_lookup bankSigningActiveCacheKey in
  match hit with
  | Some (CachedBankKey k) => ret k
  | _ =>
      let! k := query q_GetActiveBankSigningKey in
      do! emit (EvCacheSet bankSigningActiveCacheKey (CachedBankKey k)) in
      ret k
  end.

End Cached.

Lemma isNoRows_wrap c e : isNoRows (ErrWrap c e) = errors_is e (ErrNew "no rows in result set").
Proof.
  unfold isNoRows. cbn. rewrite (bool_decide_false (ErrWrap c e = ErrNoRows)) by done.
  rewrite (bool_decide_false (ErrWrap c e = ErrNew _)) by done. by rewrite orb_false_r.
Qed.

(** A lookup that reports no rows did reach the database. *)
Lemma attempt_query_no_rows {E : Env} {A B} (f : db -> result A) (g : A -> B)
    (w w' : world db effect) e :
  attempt (bind (query f) (fun a => ret (g a))) w = (Ok (Err e), w') ->
  isNoRows e = true -> f (w_st w) = Err e.
Proof.
  unfold attempt, bind, query, exec, ret.
  destruct (fault (w_ops w)); [intros [= <- _]; discriminate|].
  destruct (f (w_st w)); cbn; [discriminate|]. by intros [= <- _].
Qed.

Lemma preserves_cache_lookup {E : Env} {K : CacheEnv} P key :
  preserves P (cache_lookup key).
Proof. by apply preserves_pure. Qed.
#[export] Hint Resolve preserves_cache_lookup : preserve.

Section Repo2.
Context {E : Env}.

(** ** Ceilings *)

Definition CountInFlightPaymentsForCeiling (ceilingID : string) : dbop Z :=
  query (q_CountInFlightPaymentsForCeiling ceilingID).

Definition SumSettledForCeiling (ceilingID : string) : dbop Z :=
  query (q_SumSettledForCeiling ceilingID).

Record CurrentCeilingRow := {
  cc_ID : string;
  cc_Status : CeilingStatus;
  cc_CeilingKobo : Z;
  cc_SettledKobo : Z;
  cc_RemainingKobo : Z;
  cc_IssuedAt : Time;
  cc_ExpiresAt : Time;
  cc_ReleaseAfter : option Time;
}.

Definition GetCurrentCeilingForPayer (payer : string) : dbop (option CurrentCeilingRow) :=
  let! r := attempt (query (q_GetCurrentCeilingForPayer payer)) in
  match r with
  | Err e => if errors_is e ErrNoRows then ret None else throw e
  | Ok (id, c, settled, remaining) =>
      ret (Some {| cc_ID := id; cc_Status := c_Status c; cc_CeilingKobo := c_CeilingKobo c;
                   cc_SettledKobo := settled; cc_RemainingKobo := remaining;
                   cc_IssuedAt := c_IssuedAt c; cc_ExpiresAt := c_ExpiresAt c;
                   cc_ReleaseAfter := c_ReleaseAfter c |})
  end.

Definition ListReleasableExpiredCeilings (before : Time) : dbop (list CeilingToken) :=
  let! rows := query (q_ListReleasableExpiredCeilings (tsz before)) in
  ret (map ceilingToDomain rows).

Record IssueCeilingParams := {
  ic_ID : string;
  ic_PayerUserID : string;
  ic_CeilingAmount : Z;
  ic_SequenceStart : Z;
  ic_IssuedAt : Time;
  ic_ExpiresAt : Time;
  ic_PayerPublicKey : bytes;
  ic_BankKeyID : string;
  ic_BankSignature : bytes;
  ic_LienAccountID : string;
}.

Definition IssueCeilingToken (p : IssueCeilingParams) : dbop CeilingToken :=
  let! id := (if bool_decide (ic_ID p = "") then fresh else ret (ic_ID p)) in
  let! row := exec (q_CreateCeilingToken {|
      ccp_ID := id; ccp_PayerUserID := ic_PayerUserID p;
      ccp_CeilingKobo := ic_CeilingAmount p; ccp_SequenceStart := ic_SequenceStart p;
      ccp_IssuedAt := tsz (ic_IssuedAt p); ccp_ExpiresAt := tsz (ic_ExpiresAt p);
      ccp_PayerPubkey := ic_PayerPublicKey p; ccp_BankKeyID := ic_BankKeyID p;
      ccp_BankSig := ic_BankSignature p; ccp_Status := CeilingActive;
      ccp_LienAccountID := ic_LienAccountID p |}) in
  ret (ceilingToDomain row).

Definition GetCeilingToken (id : string) : dbop CeilingToken :=
  let! row := query (q_GetCeilingToken id) in ret (ceilingToDomain row).

Definition GetActiveCeiling (userID : string) : dbop CeilingToken :=
  let! row := query (q_GetActiveCeilingForUser userID) in ret (ceilingToDomain row).

Definition UpdateCeilingStatus (id : string) (status : CeilingStatus) : dbop unit :=
  exec (q_UpdateCeilingStatus id status).

Definition MarkCeilingRecoveryPending (id : string) (releaseAfter : Time) : dbop Z :=
  exec (q_MarkCeilingRecoveryPending id (tsz releaseAfter)).

(** ** Payments *)

Record CreatePaymentParams := {
  cp_ID : string;
  cp_CeilingID : string;
  cp_PayerUserID : string;
  cp_PayeeUserID : string;
  cp_Amount : Z;
  cp_SequenceNumber : Z;
  cp_RemainingCeiling : Z;
  cp_SignedAt : Time;
  cp_PayerSignature : bytes;
  cp_Status : option TransactionStatus;
  cp_SessionNonce : bytes;
  cp_RequestHash : bytes;
  cp_RequestAmountKobo : Z;
  cp_SubmittedByUserID : string;
}.

Definition CreatePayment (p : CreatePaymentParams) : dbop Transaction :=
  let! id := (if bool_decide (cp_ID p = "") then fresh else ret (cp_ID p)) in
  let! row := exec (q_CreatePaymentToken {|
      cpp_ID := id; cpp_CeilingID := cp_CeilingID p; cpp_PayerUserID := cp_PayerUserID p;
      cpp_PayeeUserID := cp_PayeeUserID p; cpp_AmountKobo := cp_Amount p;
      cpp_SequenceNumber := cp_SequenceNumber p;
      cpp_RemainingCeilingKobo := cp_RemainingCeiling p;
      cpp_SignedAt := tsz (cp_SignedAt p); cpp_PayerSig := cp_PayerSignature p;
      cpp_Status := default TxQueued (cp_Status p); cpp_SessionNonce := cp_SessionNonce p;
      cpp_RequestHash := cp_RequestHash p; cpp_RequestAmountKobo := cp_RequestAmountKobo p;
      cpp_SubmittedByUserID := strPtr (cp_SubmittedByUserID p) |}) in
  ret (paymentToDomainTxn row).

Definition GetPayment (id : string) : dbop Transaction :=
  let! row := query (q_GetPaymentToken id) in ret (paymentToDomainTxn row).

Definition GetPaymentBySequence (payer : string) (seq : Z) : dbop Transaction :=
  let! row := query (q_GetPaymentBySequence payer seq) in ret (paymentToDomainTxn row).

Definition ListPayersWithStalePending (olderThan : Time) : dbop (list string) :=
  query (q_ListPayersWithStalePending (tsz olderThan)).

Definition ListPendingForPayer (payer : string) : dbop (list Transaction) :=
  let! rows := query (q_ListPendingPaymentsByPayer payer) in
  ret (map paymentToDomainTxn rows).

Definition UpdatePaymentStatus (id : string) (status : TransactionStatus) (settled : Z)
  (reason : string) (batchID : option string) (submittedAt settledAt : option Time)
  : dbop Transaction :=
  let! row := exec (q_UpdatePaymentStatus id status (strPtr reason) settled batchID
                      (tszPtr submittedAt) (tszPtr settledAt)) in
  ret (paymentToDomainTxn row).

(** ** Ledger *)

Record LedgerLeg := Leg {
  lg_AccountID : string;
  lg_Direction : string;
  lg_Amount : Z;
  lg_Memo : string;
}.

Definition leg_direction (s : string) : result LedgerDirection :=
  if String.eqb s "DEBIT" then Ok LedgerDirectionDEBIT
  else if String.eqb s "CREDIT" then Ok LedgerDirectionCREDIT
  else Err (ErrNew ("pgrepo: unknown direction " +:+ s)).

Definition post_leg (txnID : string) (leg : LedgerLeg) : dbop unit :=
  let! dir := lift (leg_direction (lg_Direction leg)) in
  let! id := fresh in
  wrapping "pgrepo: insert ledger leg"
    (exec (q_InsertLedgerEntry {|
       le_ID := id; le_TxnID := txnID; le_AccountID := lg_AccountID leg;
       le_Direction := dir; le_AmountKobo := lg_Amount leg;
       le_Memo := strPtr (lg_Memo leg) |})).

Definition PostLedger (txnID : string) (legs : list LedgerLeg) : dbop unit :=
  if bool_decide (txnID = "") then throw (ErrNew "pgrepo: txnID required")
  else if (length legs <? 2)%nat
  then throw (ErrNew "pgrepo: double-entry requires at least 2 legs")
  else for_each legs (fun _ leg => post_leg txnID leg) tt.

(** ** Business events *)

(** [memo] is the non-optional field of [pgrepo.RecordTransactionParams]. *)
Definition RecordTransaction (p : RecordTransactionParams) : dbop unit :=
  exec (q_RecordTransaction p).

(** The parameters most callers leave nil. *)
Definition txn_params (id group user : string) (counterparty : option string)
  (kind : TransactionKind) (status : TransactionLifecycleStatus) (dir : LedgerDirection)
  (amount : Z) (memo : string) (payment transfer ceiling : option string)
  : RecordTransactionParams := {|
  rt_ID := id; rt_GroupID := group; rt_UserID := user;
  rt_CounterpartyUserID := counterparty; rt_Kind := kind; rt_Status := status;
  rt_Direction := dir; rt_AmountKobo := amount; rt_SettledAmountKobo := None;
  rt_Memo := strPtr memo; rt_PaymentTokenID := payment; rt_TransferID := transfer;
  rt_CeilingID := ceiling; rt_FailureReason := None |}.

Record TransactionAnchor := { an_ID : string; an_GroupID : string }.

Definition GetTransactionAnchorForPayment (paymentID : string) : dbop TransactionAnchor :=
  let! r := query (q_GetTransactionAnchorForPayment paymentID) in
  ret {| an_ID := r.1; an_GroupID := r.2 |}.

Definition GetTransactionAnchorForTransfer (transferID : string) : dbop TransactionAnchor :=
  let! r := query (q_GetTransactionAnchorForTransfer transferID) in
  ret {| an_ID := r.1; an_GroupID := r.2 |}.

Definition UpdateTransactionStatus (id : string) (status : TransactionLifecycleStatus)
  (settled : option Z) (failureReason : option string) : dbop unit :=
  exec (q_UpdateTransactionStatus id status settled failureReason).

Definition FinalizePairedTransactions (groupID : string)
  (status : TransactionLifecycleStatus) (settled : option Z) (failureReason : option string)
  : dbop unit :=
  let! rows := query (q_ListTransactionsByGroup groupID) in
  for_each rows
    (fun _ row => exec (q_UpdateTransactionStatus row.1 status settled failureReason)) tt.

(** ** Outbox *)

Definition InsertFinalizeOutbox (outboxID payer : string) (payload : json) : dbop unit :=
  exec (q_InsertOutboxEntry outboxID OutboxAggregateSettlementFinalize payer payload).

(** ** Users (repo.go, helpers.go) *)

Definition create_accounts (userID : string) : dbop unit :=
  for_each AllAccountKinds (fun _ kind =>
    let! id := fresh in
    wrapping "create account" (exec (q_CreateAccount id userID kind 0))) tt.

Definition placeholder_user (userID phone accountNumber bvn kycTier : string)
  (realmKeyVersion : Z) (t : Time) : User := {|
  u_Phone := phone; u_AccountNumber := accountNumber; u_Bvn := strPtr bvn;
  u_KycTier := kycTier; u_RealmKeyVersion := realmKeyVersion; u_FirstName := "";
  u_LastName := ""; u_Email := placeholderEmail userID; u_PasswordHash := "";
  u_EmailVerified := false; u_CreatedAt := tstz t; u_UpdatedAt := tstz t |}.

Definition RegisterUser (phone accountNumber bvn kycTier : string) (realmKeyVersion : Z)
  : dbop string :=
  let tier := if bool_decide (kycTier = "") then "TIER_0" else kycTier in
  let! userID := fresh in
  do! Tx (do! wrapping "create user" (exec (fun t => q_CreateUser userID
                (placeholder_user userID phone accountNumber bvn tier realmKeyVersion t) t)) in
          create_accounts userID) in
  ret userID.

Fixpoint keep_digits (s : string) : string :=
  match s with
  | EmptyString => EmptyString
  | String a rest => if is_digit a then String a (keep_digits rest) else keep_digits rest
  end.

Fixpoint zeros (n : nat) : string :=
  match n with O => "" | S n' => String "0"%char (zeros n') end.

Definition deriveAccountNumberFromPhone (phone : string) : string :=
  let digits := keep_digits phone in
  let n := String.length digits in
  if (10 <=? n)%nat then String.substring (n - 10) 10 digits
  else (zeros (10 - n) +:+ digits)%string.

Definition RegisterUserWithID (userID phone accountNumber bvn kycTier : string)
  (realmKeyVersion : Z) : dbop unit :=
  if bool_decide (userID = "") then throw (ErrNew "pgrepo: userID required")
  else
    let phone := if bool_decide (phone = "") then "+registered-" +:+ userID else phone in
    let tier := if bool_decide (kycTier = "") then "TIER_0" else kycTier in
    let accountNumber := if bool_decide (accountNumber = "")
                         then deriveAccountNumberFromPhone phone else accountNumber in
    Tx (let! r := attempt (query (fun d => match users d !! userID with
                                           | Some u => Ok (u_Phone u)
                                           | None => Err ErrNoRows end)) in
        match r with
        | Ok _ => ret tt
        | Err e =>
            if negb (errors_is e ErrNoRows)
            then throw (ErrWrap "check user existence" e)
            else
              do! wrapping "create user" (exec (fun t => q_CreateUser userID
                    (placeholder_user userID phone accountNumber bvn tier realmKeyVersion t)
                    t)) in
              create_accounts userID
        end).

End Repo2.
