(* ===== verification/Fraud.v ===== *)
(** * Offline fraud (internal/service/fraud: service.go, recorder_adapter.go, detector.go)

    Signals are recorded with the weight of their kind; a score that decays with their age
    puts a user into a tier, which limits the ceilings the wallet grants.  A detector in the
    memory of the process derives signals from the stream of settlement. *)

From S2P Require Import Prelude Float Domain Json Store Repo.

#[local] Open Scope Z_scope.

(** ** Signals in the repository (pgrepo) *)

Definition fraudToDomain (r : string * FraudSignalRow) : FraudEvent :=
  let '(id, g) := r in {|
  fe_ID := id; fe_UserID := g_UserID g; fe_SignalType := g_SignalType g;
  fe_CeilingTokenID := g_CeilingTokenID g; fe_TransactionID := g_TransactionID g;
  fe_Severity := g_Severity g; fe_Details := g_Details g; fe_CreatedAt := g_CreatedAt g |}.

(** ** Weights *)

Definition WeightSignatureInvalid : float := ratio 7 10.
Definition WeightDoubleSpend : float := ratio 5 10.
Definition WeightGeographicAnomaly : float := ratio 4 10.
Definition WeightSequenceAnomaly : float := ratio 3 10.
Definition WeightDeviceChange : float := ratio 3 10.
Definition WeightVelocityBreach : float := ratio 3 10.
Definition WeightCeilingExhaustion : float := ratio 2 10.

Definition ThresholdReduced : float := ratio 3 10.
Definition ThresholdSuspended : float := ratio 7 10.

Definition TierStandard : string := "STANDARD".
Definition TierReduced : string := "REDUCED".
Definition TierSuspended : string := "SUSPENDED".

Definition ReducedCapKobo : Z := 500000.
Definition SuspendedCapKobo : Z := 0.

Definition HalfLife : Duration := 30 * 24 * Hour.

Definition WeightFor (t : FraudSignalType) : float :=
  match t with
  | FraudSignatureInvalid => WeightSignatureInvalid
  | FraudDoubleSpend => WeightDoubleSpend
  | FraudGeographicAnomaly => WeightGeographicAnomaly
  | FraudSequenceAnomaly => WeightSequenceAnomaly
  | FraudDeviceChange => WeightDeviceChange
  | FraudVelocityBreach => WeightVelocityBreach
  | FraudCeilingExhaustion => WeightCeilingExhaustion
  end.

(** [math.Pow] and [math.Exp]: their last digits depend on the platform.  What the score
    needs of them is that they do not leave [0, 1] where the functions do not. *)
Class Libm := { Pow : float -> float -> float; Exp : float -> float }.

Definition ftwo : float := float_of_Z 2.

Class LibmLaws (M : Libm) := {
  Pow_decays y : fnonpos y -> fnonneg (Pow ftwo y);
  Exp_decays x : fnonpos x -> fnonneg (Exp x) /\ fleb (Exp x) fone = true;
}.

(** [Time.Sub] saturates. *)
Definition Sub (t u : Time) : Duration := Z.max int64_min (Z.min int64_max (t - u)).

(** ** The service *)

(** domain.FraudScore. *)
Record FraudScore := {
  sr_UserID : string;
  sr_Score : float;
  sr_EventCount : Z;
  sr_LastEventAt : option Time;
  sr_CeilingTier : string;
  sr_UpdatedAt : Time;
}.

Definition tierFor (score : float) : string :=
  if fleb ThresholdSuspended score then TierSuspended
  else if fleb ThresholdReduced score then TierReduced
  else TierStandard.

Section Service.
Context {E : Env} {M : Libm}.

(** The event keeps its identifier and its severity if it has them; every severity of
    [Severity] is one.  [created_at] is the database's [now()], whatever the event says. *)
Definition InsertFraudSignal (ev : FraudEvent) (weight : float) : dbop FraudEvent :=
  let! id := (if bool_decide (fe_ID ev = "") then fresh else ret (fe_ID ev)) in
  let! row := exec (q_InsertFraudSignal id {|
    g_UserID := fe_UserID ev; g_SignalType := fe_SignalType ev;
    g_CeilingTokenID := fe_CeilingTokenID ev; g_TransactionID := fe_TransactionID ev;
    g_Details := fe_Details ev; g_Severity := fe_Severity ev; g_Weight := weight;
    g_CreatedAt := 0 |}) in
  ret (fraudToDomain row).

Definition ListFraudSignalsForUser (userID : string) : dbop (list FraudEvent) :=
  let! rows := query (q_ListFraudSignalsForUser userID) in ret (map fraudToDomain rows).

Definition RecordSignal (event : FraudEvent) : dbop unit :=
  let! event :=
    (if IsZero (fe_CreatedAt event) then
       let! t := now in
       ret {| fe_ID := fe_ID event; fe_UserID := fe_UserID event;
              fe_SignalType := fe_SignalType event;
              fe_CeilingTokenID := fe_CeilingTokenID event;
              fe_TransactionID := fe_TransactionID event; fe_Severity := fe_Severity event;
              fe_Details := fe_Details event; fe_CreatedAt := t |}
     else ret event) in
  let! _ := InsertFraudSignal event (WeightFor (fe_SignalType event)) in
  ret tt.

(** [RecorderAdapter.Record]: errors are logged only. *)
Definition Record_ (ev : FraudEvent) : dbop unit :=
  let! _ := attempt (RecordSignal ev) in ret tt.

Definition decay (t : Time) (e : FraudEvent) : float :=
  let age := Z.max 0 (Sub t (fe_CreatedAt e)) in
  Pow ftwo (fdiv (fopp (Seconds age)) (Seconds HalfLife)).

(** One turn of the loop: the sum so far and the latest instant seen. *)
Definition add_event (t : Time) (st : float * Time) (e : FraudEvent) : float * Time :=
  (fadd st.1 (fmul (WeightFor (fe_SignalType e)) (decay t e)),
   if After (fe_CreatedAt e) st.2 then fe_CreatedAt e else st.2).

Definition squash (raw : float) : float :=
  let score := fsub fone (Exp (fopp raw)) in
  let score := if fltb score fzero then fzero else score in
  if fltb fone score then fone else score.

Definition score_of (userID : string) (events : list FraudEvent) (t : Time) : FraudScore :=
  match events with
  | [] => {| sr_UserID := userID; sr_Score := fzero; sr_EventCount := 0; sr_LastEventAt := None;
             sr_CeilingTier := TierStandard; sr_UpdatedAt := t |}
  | _ =>
      let '(raw, latest) := foldl (add_event t) (fzero, time_zero) events in
      {| sr_UserID := userID; sr_Score := squash raw;
         sr_EventCount := Z.of_nat (length events);
         sr_LastEventAt := if IsZero latest then None else Some latest;
         sr_CeilingTier := tierFor (squash raw); sr_UpdatedAt := t |}
  end.

Definition Score (userID : string) : dbop FraudScore :=
  let! events := ListFraudSignalsForUser userID in
  let! t := now in
  ret (score_of userID events t).

Definition cap (tier : string) (requested : Z) : Z * string :=
  if bool_decide (tier = TierSuspended) then (SuspendedCapKobo, TierSuspended)
  else if bool_decide (tier = TierReduced) then
    (if ReducedCapKobo <? requested then ReducedCapKobo else requested, TierReduced)
  else (requested, TierStandard).

Definition ClampCeiling (userID : string) (requested : Z) : dbop (Z * string) :=
  let! score := Score userID in
  ret (cap (sr_CeilingTier score) requested).

End Service.
