(* ===== verification/Detector.v ===== *)
(** * The fraud detector (internal/service/fraud/detector.go)

    Velocity and geography from the stream of settlement events.  The detector lives in the
    memory of the process; what it sees is the trace of the services, in order, as its
    methods hold its lock. *)

From Stdlib Require Import Sorting.Sorted.
From S2P Require Import Prelude Float Domain Json Store Repo Fraud.

#[local] Open Scope Z_scope.

(** ** [Duration.String] *)

(** The fraction of [u / 10 ^ n], without zeros at its end and without a lone point. *)
Definition fmtFrac (u : Z) (n : nat) : string :=
  let f := trim_zeros (digits n (u mod 10 ^ Z.of_nat n)) in
  if bool_decide (f = "") then "" else "." +:+ f.

Definition micro : string := String (char 194) (String (char 181) "").

Definition Duration_String (d : Duration) : string :=
  let u := Z.abs d in
  let text :=
    if u <? Second then
      if u =? 0 then "0s"
      else if u <? Microsecond then pretty u +:+ "ns"
      else if u <? 10 ^ 6 then pretty (u / 10 ^ 3) +:+ fmtFrac u 3 +:+ micro +:+ "s"
      else pretty (u / 10 ^ 6) +:+ fmtFrac u 6 +:+ "ms"
    else
      let s := u / Second in
      (if 60 <=? s then
         (if 3600 <=? s then pretty (s / 3600) +:+ "h" else "") +:+ pretty (s / 60 mod 60) +:+ "m"
       else "")
      +:+ pretty (s mod 60) +:+ fmtFrac u 9 +:+ "s" in
  if d <? 0 then "-" +:+ text else text.

Example Duration_String_ex :
  map Duration_String [5 * Minute; 1500 * 10 ^ 6; 2 * Hour + 3 * Second; 1; 1230; - 45 * 10 ^ 7]
  = ["5m0s"; "1.5s"; "2h0m3s"; "1ns"; "1.23" +:+ micro +:+ "s"; "-450ms"].
Proof. vm_compute. reflexivity. Qed.

(** ** The detector *)

Definition DefaultVelocityWindow : Duration := 5 * Minute.
Definition DefaultVelocityThreshold : Z := 20.
Definition DefaultGeoWindow : Duration := 10 * Minute.

(** Its settings; without a sink nothing is emitted. *)
Record Detector := {
  dt_HasSink : bool;
  dt_VelocityWindow : Duration;
  dt_VelocityThreshold : Z;
  dt_GeoWindow : Duration;
}.

Record geoObservation := { gob_country : string; gob_at : Time }.

Record detector_state := {
  dt_velocity : gmap string (list Time);
  dt_geo : gmap string geoObservation;
  dt_emitted : gset string;
}.

Definition NewDetector (sink : bool) : Detector := {|
  dt_HasSink := sink; dt_VelocityWindow := DefaultVelocityWindow;
  dt_VelocityThreshold := DefaultVelocityThreshold; dt_GeoWindow := DefaultGeoWindow |}.

Definition no_observations : detector_state := {|
  dt_velocity := ∅; dt_geo := ∅; dt_emitted := ∅ |}.

Section Detector.
Variable d : Detector.

Definition signal (userID : string) (kind : FraudSignalType) (details : string) (at_ : Time)
  : FraudEvent := {|
  fe_ID := ""; fe_UserID := userID; fe_SignalType := kind; fe_CeilingTokenID := None;
  fe_TransactionID := None; fe_Severity := SevMedium; fe_Details := details;
  fe_CreatedAt := at_ |}.

Definition velocity_signal (userID : string) (count : Z) (at_ : Time) : FraudEvent :=
  signal userID FraudVelocityBreach
    (pretty count +:+ " settled txns in " +:+ Duration_String (dt_VelocityWindow d)
     +:+ " (threshold " +:+ pretty (dt_VelocityThreshold d) +:+ ")") at_.

Definition geo_signal (userID from to : string) (at_ : Time) : FraudEvent :=
  signal userID FraudGeographicAnomaly
    ("claims from " +:+ from +:+ " and " +:+ to +:+ " within "
     +:+ Duration_String (dt_GeoWindow d)) at_.

Definition to_sink (ev : FraudEvent) : option FraudEvent :=
  if dt_HasSink d then Some ev else None.

Definition ObserveSettled (userID : string) (at_ : Time) (st : detector_state)
  : detector_state * option FraudEvent :=
  if bool_decide (userID = "") then (st, None)
  else
    let cutoff := at_ - dt_VelocityWindow d in
    let kept := List.filter (fun t => After t cutoff) (default [] (dt_velocity st !! userID))
                ++ [at_] in
    let count := Z.of_nat (length kept) in
    let remember emitted := {| dt_velocity := <[userID := kept]> (dt_velocity st);
                               dt_geo := dt_geo st; dt_emitted := emitted |} in
    if count <=? dt_VelocityThreshold d then (remember (dt_emitted st ∖ {[userID]}), None)
    else if bool_decide (userID ∈ dt_emitted st) then (remember (dt_emitted st), None)
    else (remember ({[userID]} ∪ dt_emitted st), to_sink (velocity_signal userID count at_)).

Definition ObserveClaim (userID country : string) (at_ : Time) (st : detector_state)
  : detector_state * option FraudEvent :=
  if bool_decide (userID = "") || bool_decide (country = "") then (st, None)
  else
    let st' := {| dt_velocity := dt_velocity st;
                  dt_geo := <[userID := {| gob_country := country; gob_at := at_ |}]> (dt_geo st);
                  dt_emitted := dt_emitted st |} in
    (st', match dt_geo st !! userID with
          | None => None
          | Some prev =>
              if bool_decide (gob_country prev = country) then None
              else if dt_GeoWindow d <? Sub at_ (gob_at prev) then None
              else to_sink (geo_signal userID (gob_country prev) country at_)
          end).

(** What of the trace the detector sees. *)
Definition observe (ev : effect) (st : detector_state) : detector_state * option FraudEvent :=
  match ev with
  | EvObserveSettled u t => ObserveSettled u t st
  | EvObserveClaim u c t => ObserveClaim u c t st
  | _ => (st, None)
  end.

(** The signals of a trace. *)
Fixpoint signals (st : detector_state) (trace : list effect) : list FraudEvent :=
  match trace with
  | [] => []
  | ev :: trace =>
      let '(st', s) := observe ev st in option_list s ++ signals st' trace
  end.

(** ** What it should signal

    Said of the observations of one user alone, the newest first, without any state. *)

Definition settled_of (u : string) (ev : effect) : option Time :=
  match ev with
  | EvObserveSettled u' t => if bool_decide (u' = u) then Some t else None
  | _ => None
  end.
Definition claimed_of (u : string) (ev : effect) : option geoObservation :=
  match ev with
  | EvObserveClaim u' c t =>
      if bool_decide (u' = u) && negb (bool_decide (c = ""))
      then Some {| gob_country := c; gob_at := t |} else None
  | _ => None
  end.

(** An instant and those before it that fall into the window that ends there. *)
Definition in_window (at_ : Time) (older : list Time) : Z :=
  1 + Z.of_nat (length (List.filter (fun t => After t (at_ - dt_VelocityWindow d)) older)).

Definition burst (history : list Time) : bool :=
  match history with
  | [] => false
  | at_ :: older => dt_VelocityThreshold d <? in_window at_ older
  end.

(** The signal an effect deserves after the [past], the newest first. *)
Definition deserved (past : list effect) (ev : effect) : option FraudEvent :=
  match ev with
  | EvObserveSettled u t =>
      let history := omap (settled_of u) past in
      if negb (bool_decide (u = "")) && negb (burst history) && burst (t :: history)
      then to_sink (velocity_signal u (in_window t history) t) else None
  | EvObserveClaim u c t =>
      if bool_decide (u = "") || bool_decide (c = "") then None
      else
        match omap (claimed_of u) past with
        | [] => None
        | last :: _ =>
            if negb (bool_decide (gob_country last = c)) && (Sub t (gob_at last) <=? dt_GeoWindow d)
            then to_sink (geo_signal u (gob_country last) c t) else None
        end
  | _ => None
  end.

Fixpoint all_deserved (past trace : list effect) : list FraudEvent :=
  match trace with
  | [] => []
  | ev :: trace => option_list (deserved past ev) ++ all_deserved (ev :: past) trace
  end.

(** The payments of a user are settled in the order of their instants. *)
Definition in_order (trace : list effect) : Prop :=
  forall u, StronglySorted Z.le (omap (settled_of u) trace).

(** ** The state is a summary of the past *)

Record summarises (past : list effect) (st : detector_state) : Prop := {
  sm_velocity : forall u, u <> "" ->
    default [] (dt_velocity st !! u) =
    match omap (settled_of u) past with
    | [] => []
    | t :: older => reverse (List.filter (fun t' => After t' (t - dt_VelocityWindow d)) older) ++ [t]
    end;
  sm_emitted : forall u, u <> "" ->
    u ∈ dt_emitted st <-> burst (omap (settled_of u) past) = true;
  sm_geo : forall u, u <> "" -> dt_geo st !! u = head (omap (claimed_of u) past);
}.

Lemma summarises_start : summarises [] no_observations.
Proof. by split. Qed.

(** The window of the newest instant, from the stored one. *)
Lemma window_moves t history velocity :
  Forall (fun t' => t' <= t) (take 1 history) ->
  velocity = match history with
    | [] => []
    | t0 :: older => reverse (List.filter (fun t' => After t' (t0 - dt_VelocityWindow d)) older) ++ [t0]
    end ->
  List.filter (fun t' => After t' (t - dt_VelocityWindow d)) velocity
  = reverse (List.filter (fun t' => After t' (t - dt_VelocityWindow d)) history).
Proof.
  intros Ht ->. destruct history as [|t0 older]; [done|]. apply Forall_cons in Ht as [Ht _].
  rewrite List.filter_app. cbn [List.filter].
  assert (List.filter (fun t' => After t' (t - dt_VelocityWindow d))
            (reverse (List.filter (fun t' => After t' (t0 - dt_VelocityWindow d)) older))
          = reverse (List.filter (fun t' => After t' (t - dt_VelocityWindow d)) older)) as ->.
  { unfold reverse. rewrite !rev_append_rev, !app_nil_r, List.filter_rev. f_equal.
    induction older as [|x older IH]; [done|]. cbn [List.filter].
    destruct (After x (t0 - _)) eqn:H0; cbn [List.filter]; [by rewrite IH|].
    destruct (After x (t - _)) eqn:H1; [|exact IH].
    unfold After in *. apply Z.ltb_ge in H0. apply Z.ltb_lt in H1. lia. }
  destruct (After t0 _); [by rewrite reverse_cons|by rewrite app_nil_r].
Qed.

(** The size of the stored window is that of the window of the newest instant. *)
Lemma window_size t history :
  Z.of_nat (length (reverse (List.filter (fun t' => After t' (t - dt_VelocityWindow d)) history) ++ [t]))
  = in_window t history.
Proof. unfold in_window. rewrite length_app, length_reverse. cbn. lia. Qed.

Lemma observe_settled past st u t :
  summarises past st ->
  Forall (fun t' => t' <= t) (take 1 (omap (settled_of u) past)) ->
  let '(st', s) := ObserveSettled u t st in
  s = deserved past (EvObserveSettled u t) /\ summarises (EvObserveSettled u t :: past) st'.
Proof.
  intros [Hv He Hg] Ht. unfold ObserveSettled, deserved.
  case_bool_decide as Hu.
  { split; [done|]. split; intros v Hne; cbn;
      rewrite ?bool_decide_eq_false_2 by congruence; eauto. }
  rewrite (window_moves t _ _ Ht (Hv u Hu)), window_size.
  set (history := omap (settled_of u) past) in *. cbn [negb andb burst].
  assert (forall v, v <> u -> omap (settled_of v) (EvObserveSettled u t :: past) = omap (settled_of v) past)
    as Hother by (intros v Hne; cbn; by rewrite bool_decide_eq_false_2 by congruence).
  assert (omap (settled_of u) (EvObserveSettled u t :: past) = t :: history) as Hown
    by (cbn; by rewrite bool_decide_eq_true_2).
  assert (forall emitted,
    (forall v, v <> "" -> v ∈ emitted <-> if bool_decide (v = u)
       then dt_VelocityThreshold d <? in_window t history = true else v ∈ dt_emitted st) ->
    summarises (EvObserveSettled u t :: past) {|
      dt_velocity := <[u := reverse (List.filter (fun t' => After t' (t - dt_VelocityWindow d)) history)
                            ++ [t]]> (dt_velocity st);
      dt_geo := dt_geo st; dt_emitted := emitted |}) as Hnext.
  { intros emitted Hem. split; intros v Hne; cbn [dt_velocity dt_geo dt_emitted].
    - destruct (decide (v = u)) as [->|Hv']; [by rewrite lookup_insert_eq, Hown|].
      rewrite lookup_insert_ne, Hother by congruence. by apply Hv.
    - rewrite Hem by done. destruct (decide (v = u)) as [->|Hv'].
      + by rewrite bool_decide_eq_true_2, Hown.
      + rewrite bool_decide_eq_false_2, Hother by done. by apply He.
    - by apply Hg. }
  destruct (Z.leb_spec (in_window t history) (dt_VelocityThreshold d)) as [Hle|Hgt].
  - rewrite (proj2 (Z.ltb_ge _ _)), andb_false_r by lia. split; [done|]. apply Hnext. intros v Hne.
    rewrite elem_of_difference, elem_of_singleton. case_bool_decide as Hvu; [|tauto].
    rewrite Z.ltb_lt. split; [tauto|lia].
  - rewrite (proj2 (Z.ltb_lt _ _)) by lia. pose proof (He u Hu) as Hemitted. fold history in Hemitted.
    case_bool_decide as Hin.
    + rewrite (proj1 Hemitted Hin). split; [done|]. apply Hnext. intros v Hne.
      case_bool_decide; [|done]. subst v. rewrite Z.ltb_lt. tauto.
    + destruct (burst history) eqn:Hb; [by destruct Hin; apply Hemitted|]. split; [done|].
      apply Hnext. intros v Hne. rewrite elem_of_union, elem_of_singleton.
      case_bool_decide; [|tauto]. rewrite Z.ltb_lt. split; [lia|by left].
Qed.

Lemma observe_claim past st u c t :
  summarises past st ->
  let '(st', s) := ObserveClaim u c t st in
  s = deserved past (EvObserveClaim u c t) /\ summarises (EvObserveClaim u c t :: past) st'.
Proof.
  intros [Hv He Hg]. unfold ObserveClaim, deserved.
  case_bool_decide as Hu; [|case_bool_decide as Hc]; cbn [orb].
  - split; [done|]. split; intros v Hne; cbn; eauto.
    rewrite bool_decide_eq_false_2 by congruence. by apply Hg.
  - split; [done|]. split; intros v Hne; cbn; eauto. subst c.
    rewrite andb_false_r. by apply Hg.
  - rewrite (Hg u Hu). split.
    + destruct (omap (claimed_of u) past) as [|last older]; [done|]. cbn [head].
      case_bool_decide; [done|]. cbn [negb andb]. by rewrite Z.leb_antisym; destruct (_ <? _).
    + split; intros v Hne; cbn; eauto. destruct (decide (v = u)) as [->|Hvu].
      * rewrite lookup_insert_eq, bool_decide_eq_true_2, bool_decide_eq_false_2 by done. done.
      * rewrite lookup_insert_ne, bool_decide_eq_false_2 by congruence. by apply Hg.
Qed.

Lemma signals_deserved trace : forall past st,
  summarises past st ->
  (forall u, StronglySorted Z.le (reverse (omap (settled_of u) past) ++ omap (settled_of u) trace)) ->
  signals st trace = all_deserved past trace.
Proof.
  induction trace as [|ev trace IH]; intros past st Hst Hord; [done|]. cbn [signals all_deserved].
  assert (let '(st', s) := observe ev st in s = deserved past ev /\ summarises (ev :: past) st') as Hstep.
  { destruct ev; cbn [observe]; try (split; [done|]; destruct Hst as [Hv He Hg]; by split).
    - apply observe_settled; [done|]. specialize (Hord userID). cbn in Hord.
      rewrite bool_decide_eq_true_2 in Hord by done.
      destruct (omap (settled_of userID) past) as [|t0 older]; cbn [take]; [done|].
      constructor; [|constructor]. apply (StronglySorted_app_1_elem_of _ _ _ _ _ Hord).
      + rewrite reverse_cons. set_solver.
      + set_solver.
    - by apply observe_claim. }
  destruct (observe ev st) as [st' s]. destruct Hstep as [-> Hst']. f_equal. apply IH; [done|].
  intros u. specialize (Hord u). cbn [omap list_omap] in *. destruct (settled_of u ev); [|done].
  by rewrite reverse_cons, <- app_assoc.
Qed.

(** Claim C30: run over the trace of the services, the detector signals exactly what the past of each
    user, looked at without any state, deserves: a velocity breach when a settled payment is the
    one that brings more than the threshold into the window ending there, and none again
    before a payment whose window is back below it; a geographic anomaly when the last claim of
    the user came from another country within the geographic window.  What users do has no
    influence on each other's signals. *)
Theorem detector_signals trace :
  in_order trace -> signals no_observations trace = all_deserved [] trace.
Proof. intros Hord. by apply signals_deserved; [apply summarises_start|]. Qed.

End Detector.
