(* ===== verification/Devices.v ===== *)
(** * Devices and realm keys (internal/repository/pgrepo, opsrepo)

    The repository's methods on the device registry and on the symmetric realm keys, with
    their cache-aside reads, and the operators' commands on them. *)

From S2P Require Import Prelude Float Domain Json Store AuthStore DeviceStore Repo Fraud.

#[local] Open Scope Z_scope.

Definition realmKeyToDomain (r : Z * RealmKeyRow) : RealmKey := {|
  rlm_Version := r.1; rlm_Key := rk_KeyEnc r.2; rlm_ActiveFrom := rk_ActiveFrom r.2;
  rlm_ExpiresAt := default time_zero (rk_RetiredAt r.2) |}.

Definition realmActiveCacheKey : string := "realm:active".
Definition realmActiveListCacheKey : string := "realm:active:list".

Definition deviceAuthCacheKey (deviceID : string) : string := ("dev:auth:" +:+ deviceID)%string.

Section Devices.
Context {E : Env} {K : CacheEnv}.

(** ** Realm keys *)

Definition UpsertRealmKey (version : Z) (keyEnc : bytes) (activeFrom : Time) : dbop unit :=
  do! exec (q_CreateRealmKey (int32 version) keyEnc (tsz activeFrom)) in
  emit (EvCacheDel [realmActiveCacheKey; realmActiveListCacheKey]).

Definition GetActiveRealmKey : dbop RealmKey :=
  let! hit := cache_lookup realmActiveCacheKey in
  match hit with
  | Some (CachedRealmKey k) => ret k
  | _ =>
      let! row := query q_GetActiveRealmKey in
      do! emit (EvCacheSet realmActiveCacheKey (CachedRealmKey (realmKeyToDomain row))) in
      ret (realmKeyToDomain row)
  end.

Definition GetRealmKey (version : Z) : dbop RealmKey :=
  let! row := query (q_GetRealmKey (int32 version)) in ret (realmKeyToDomain row).

(** Only the default limit is cached. *)
Definition ListActiveRealmKeys (limit : Z) : dbop (list RealmKey) :=
  let useCache := (limit <=? 0) || (limit =? 3) in
  let limit := if limit <=? 0 then 3 else limit in
  let! hit := (if useCache then cache_lookup realmActiveListCacheKey else ret None) in
  match hit with
  | Some (CachedRealmKeys ks) => ret ks
  | _ =>
      let! rows := exec (q_ListActiveRealmKeys (int32 limit)) in
      let out := map realmKeyToDomain rows in
      do! (if useCache then emit (EvCacheSet realmActiveListCacheKey (CachedRealmKeys out))
           else ret tt) in
      ret out
  end.

Definition RetireRealmKey (version : Z) (retiredAt : Time) : dbop unit :=
  do! exec (q_RetireRealmKey (int32 version) (tsz retiredAt)) in
  emit (EvCacheDel [realmActiveCacheKey; realmActiveListCacheKey]).

Definition DeleteExpiredRealmKeys : dbop unit := exec q_DeleteExpiredRealmKeys.

(** ** Devices *)

Definition RegisterDevice (userID : string) (attestation : option bytes) (publicKey : bytes)
  : dbop string :=
  let! id := fresh in
  let! t := now in
  do! exec (q_CreateDevice {|
    cd_ID := id; cd_UserID := userID; cd_AttestationBlob := attestation;
    cd_PublicKey := publicKey; cd_Active := true; cd_LastSeenAt := tsz t |}) in
  do! emit (EvCacheDel [deviceAuthCacheKey id]) in
  ret id.

Definition TouchDevice (deviceID : string) (seenAt : Time) : dbop unit :=
  exec (q_TouchDevice deviceID (tsz seenAt)).

Definition DeactivateDevice (deviceID : string) : dbop unit :=
  do! exec (q_DeactivateDevice deviceID) in
  emit (EvCacheDel [deviceAuthCacheKey deviceID]).

Record ActiveDeviceInfo := {
  ad_ID : string;
  ad_UserID : string;
  ad_PublicKey : bytes;
  ad_Active : bool;
}.

Definition GetActiveDeviceForUser (userID : string) : dbop ActiveDeviceInfo :=
  let! row := query (q_GetActiveDeviceForUser userID) in
  ret {| ad_ID := row.1; ad_UserID := dv_UserID row.2; ad_PublicKey := dv_PublicKey row.2;
         ad_Active := dv_Active row.2 |}.

(** The owner, the key and whether the device is active. *)
Definition LookupDeviceForAuth (deviceID : string) : dbop (string * bytes * bool) :=
  let key := deviceAuthCacheKey deviceID in
  let! hit := cache_lookup key in
  match hit with
  | Some (CachedDevice userID publicKey active) => ret (userID, publicKey, active)
  | _ =>
      let! row := query (q_GetDevice deviceID) in
      do! emit (EvCacheSet key (CachedDevice (dv_UserID row) (dv_PublicKey row) (dv_Active row))) in
      ret (dv_UserID row, dv_PublicKey row, dv_Active row)
  end.

End Devices.

(** * Operator commands (internal/repository/opsrepo, cmd/opsctl)

    What the command line of the operators does to the store: rotating the realm key and the
    bank's signing key, forcing a ceiling to expire, freezing a user.  These run in a process
    of their own, without the cache of the server. *)

(** [opsrepo.ts]: the zero time is sent like any other. *)
Definition ts (t : Time) : option Time := Some (tstz t).

Section Ops.
Context {E : Env}.

(** [Repo.tx] of the operators' repository, at the default isolation; only the failure to begin
    is wrapped. *)
Definition ops_tx {A} (m : dbop A) : dbop A := tx check_ledger_txn_balanced m.

Definition RotateRealmKey (keyBytes : bytes) (overlap : Duration) : dbop Z :=
  ops_tx (let! v := wrapping "next version" (query q_NextRealmKeyVersion) in
          let! t := now in
          do! wrapping "insert new key" (exec (q_CreateRealmKey v keyBytes (ts t))) in
          do! wrapping "retire old keys" (exec (q_RetireOtherRealmKeys v (ts (t + overlap)))) in
          do! wrapping "prune expired keys" (exec (q_DeleteRetiredRealmKeysBefore (ts t))) in
          ret v).

Definition RotateBankKey (keyID : string) (pub priv : bytes) (retirePrev : bool) : dbop unit :=
  ops_tx (let! t := now in
          do! (if retirePrev
               then wrapping "retire previous" (exec (q_RetireAllActiveBankSigningKeys (ts t)))
               else ret tt) in
          wrapping "insert key" (exec (fun u => q_CreateBankSigningKey
            {| bk_KeyID := keyID; bk_PublicKey := pub; bk_PrivateKey := priv;
               bk_ActiveFrom := tstz t; bk_ActiveTo := None; bk_CreatedAt := tstz u |} u))).

Definition ForceExpireActiveCeiling (id : string) : dbop bool :=
  let! n := exec (q_ForceExpireActiveCeiling id) in ret (0 <? n).

Definition FreezeUser (signalID userID reason : string) : dbop unit :=
  do! exec (q_InsertFraudSignal signalID {|
    g_UserID := userID; g_SignalType := FraudSignatureInvalid; g_CeilingTokenID := None;
    g_TransactionID := None; g_Details := reason; g_Severity := SevCritical;
    g_Weight := float_of_Z 5; g_CreatedAt := 0 |}) in
  ret tt.

End Ops.
