(* ===== verification/AuthRepo.v ===== *)
(** * The authentication repository (internal/repository/userauthrepo)

    What the authentication service asks of the database, with the two cached reads. *)

From S2P Require Import Prelude Domain Json Store AuthStore Repo.

Definition ErrNotFound : error := ErrNew "userauthrepo: not found".
Definition ErrPhoneTaken : error := ErrNew "userauthrepo: phone already registered".
Definition ErrEmailTaken : error := ErrNew "userauthrepo: email already registered".

Record OTPChallenge := {
  otp_CodeHash : string;
  otp_Attempts : Z;
  otp_ExpiresAt : Time;
  otp_ConsumedAt : option Time;
}.

Record LoginRow := {
  lr_UserID : string;
  lr_AccountNumber : string;
  lr_PasswordHash : string;
}.

(** [userauthrepo.Session]. *)
Record RefreshSession := {
  rs_ID : string;
  rs_UserID : string;
  rs_ExpiresAt : Time;
  rs_RevokedAt : option Time;
}.

Record OpenSessionInput := {
  os_SessionID : string;
  os_UserID : string;
  os_RefreshHash : string;
  os_UserAgent : string;
  os_IP : string;
  os_ExpiresAt : Time;
}.

Record ActiveSession := {
  as_ID : string;
  as_UserAgent : string;
  as_IP : string;
  as_DeviceID : option string;
  as_CreatedAt : Time;
  as_ExpiresAt : Time;
}.

Record PINState := {
  ps_Hash : string;
  ps_Attempts : Z;
  ps_LockedAt : option Time;
  ps_Set : bool;
}.

Record SignupRow := {
  su_UserID : string;
  su_Phone : string;
  su_Email : string;
  su_FirstName : string;
  su_LastName : string;
  su_PasswordHash : string;
  su_KYCTier : string;
  su_AccountNumber : string;
  su_SessionID : string;
  su_RefreshHash : string;
  su_UserAgent : string;
  su_IP : string;
  su_RefreshExpires : Time;
  su_AccountIDs : list string;
}.

Definition CanonicalAccountKinds : list AccountKind :=
  [AccountKindMain; AccountKindLienHolding; AccountKindReceivingPending].

(** Postgres names the violated constraint, so the search of the detail text that the
    code falls back to is never reached. *)
Definition classifyUniqueViolation (e : error) : error :=
  match e with
  | ErrUnique name =>
      if String.eqb name "users_phone_key" then ErrPhoneTaken
      else if String.eqb name "idx_users_email" then ErrEmailTaken
      else e
  | _ => e
  end.

Section AuthRepo.
Context {E : Env}.

(** [if errors.Is(err, pgx.ErrNoRows) { return ErrNotFound }]. *)
Definition or_missing {A} (m : dbop A) : dbop A :=
  let! r := attempt m in
  match r with
  | Ok a => ret a
  | Err e => throw (if errors_is e ErrNoRows then ErrNotFound else e)
  end.

(** ** One-time codes *)

Definition UpsertOTPChallenge (identifier purpose codeHash : string) (expiresAt : Time)
  : dbop unit := exec (q_UpsertOTPChallenge identifier purpose codeHash expiresAt).

Definition GetOTPChallenge (identifier purpose : string) : dbop OTPChallenge :=
  let! row := or_missing (query (q_GetOTPChallenge identifier purpose)) in
  ret {| otp_CodeHash := oc_CodeHash row; otp_Attempts := oc_Attempts row;
         otp_ExpiresAt := oc_ExpiresAt row; otp_ConsumedAt := oc_ConsumedAt row |}.

Definition IncrementOTPAttempts (identifier purpose : string) : dbop unit :=
  exec (q_IncrementOTPAttempts identifier purpose).

Definition ConsumeOTPChallenge (identifier purpose : string) : dbop unit :=
  exec (q_ConsumeOTPChallenge identifier purpose).

(** ** Users *)

Definition GetUserLoginByPhone (phone : string) : dbop LoginRow :=
  let! row := or_missing (query (q_GetUserLoginByPhone phone)) in
  ret {| lr_UserID := row.1; lr_AccountNumber := u_AccountNumber row.2;
         lr_PasswordHash := u_PasswordHash row.2 |}.

Definition GetUserEmail (userID : string) : dbop (string * bool) :=
  let! row := or_missing (query (q_GetMeProjection userID)) in
  ret (u_Email row.2, u_EmailVerified row.2).

Definition EmailExists (email : string) : dbop bool :=
  let! r := attempt (query (q_GetUserByEmail email)) in
  match r with
  | Ok _ => ret true
  | Err e => if errors_is e ErrNoRows then ret false else throw e
  end.

Definition GetUserIDByEmail (email : string) : dbop string :=
  let! row := or_missing (query (q_GetUserByEmail email)) in ret row.1.

Definition userMeCacheKey (userID : string) : string := ("user:me:" +:+ userID)%string.
Definition userAccountNumberCacheKey (userID : string) : string := ("user:acct:" +:+ userID)%string.

Definition MarkEmailVerified (userID : string) : dbop unit :=
  do! exec (q_MarkEmailVerified userID) in emit (EvCacheDel [userMeCacheKey userID]).

Definition UpdateUserPassword (userID passwordHash : string) : dbop unit :=
  exec (q_UpdateUserPassword userID passwordHash).

(** ** Sessions *)

Definition GetUserSessionByRefreshHash (refreshHash : string) : dbop RefreshSession :=
  let! row := or_missing (query (q_GetUserSessionByRefreshHash refreshHash)) in
  ret {| rs_ID := row.1; rs_UserID := us_UserID row.2; rs_ExpiresAt := us_ExpiresAt row.2;
         rs_RevokedAt := us_RevokedAt row.2 |}.

Definition RevokeUserSessionByHash (refreshHash : string) : dbop unit :=
  exec (q_RevokeUserSessionByHash refreshHash).

Definition OpenSession (i : OpenSessionInput) : dbop unit :=
  exec (q_CreateUserSession (os_SessionID i) (os_UserID i) (os_RefreshHash i) (os_UserAgent i)
          (os_IP i) None (os_ExpiresAt i)).

Definition ListActiveUserSessions (userID : string) : dbop (list ActiveSession) :=
  let! rows := exec (q_ListActiveUserSessions userID) in
  ret (map (fun r => {|
    as_ID := r.1; as_UserAgent := us_UserAgent r.2; as_IP := us_Ip r.2;
    as_DeviceID := us_DeviceID r.2; as_CreatedAt := us_CreatedAt r.2;
    as_ExpiresAt := us_ExpiresAt r.2 |}) rows).

Definition GetUserSessionOwner (sessionID : string) : dbop (string * option Time) :=
  let! row := or_missing (query (q_GetUserSessionOwner sessionID)) in
  ret (us_UserID row, us_RevokedAt row).

Definition RevokeUserSessionByID (sessionID : string) : dbop unit :=
  exec (q_RevokeUserSessionByID sessionID).

Definition RevokeOtherUserSessions (userID keepSessionID : string) : dbop Z :=
  exec (q_RevokeOtherUserSessions userID keepSessionID).

Definition RotateSession (oldSessionID newSessionID userID newRefreshHash : string)
  (newExpires : Time) : dbop unit :=
  Tx (do! exec (q_RevokeUserSessionByID oldSessionID) in
      exec (q_CreateUserSessionRotation newSessionID userID newRefreshHash newExpires)).

(** ** PINs *)

Definition SetUserPIN (userID pinHash : string) : dbop bool :=
  let! r := attempt (exec (q_SetUserPIN userID pinHash)) in
  match r with
  | Ok n => ret (0 <? n)
  | Err e => throw (if bool_decide (e = ErrForeignKey "user_pins_user_id_fkey")
                    then ErrNotFound else e)
  end.

Definition GetUserPINState (userID : string) : dbop PINState :=
  let! r := attempt (query (q_GetUserPINState userID)) in
  match r with
  | Ok row => ret {| ps_Hash := pn_PinHash row; ps_Attempts := pn_Attempts row;
                     ps_LockedAt := pn_LockedAt row; ps_Set := true |}
  | Err e =>
      if errors_is e ErrNoRows
      then ret {| ps_Hash := ""; ps_Attempts := 0; ps_LockedAt := None; ps_Set := false |}
      else throw e
  end.

Definition BumpPINAttempts (userID : string) (attempts : Z) : dbop unit :=
  exec (q_BumpPINAttempts userID (int32 attempts)).

Definition LockUserPIN (userID : string) (attempts : Z) : dbop unit :=
  exec (q_LockUserPIN userID (int32 attempts)).

Definition ClearUserPINAttempts (userID : string) : dbop unit :=
  exec (q_ClearUserPINAttempts userID).

(** ** Signing up *)

Definition signup_user (i : SignupRow) (t : Time) : User := {|
  u_Phone := su_Phone i; u_AccountNumber := su_AccountNumber i; u_Bvn := None;
  u_KycTier := su_KYCTier i; u_RealmKeyVersion := 1; u_FirstName := su_FirstName i;
  u_LastName := su_LastName i; u_Email := su_Email i; u_PasswordHash := su_PasswordHash i;
  u_EmailVerified := false; u_CreatedAt := tstz t; u_UpdatedAt := tstz t |}.

Definition signup_in_tx (i : SignupRow) : dbop unit :=
  let! r := attempt (exec (fun t => q_CreateUser (su_UserID i) (signup_user i t) t)) in
  match r with
  | Err e => throw (classifyUniqueViolation e)
  | Ok _ =>
      do! for_each (combine (su_AccountIDs i) CanonicalAccountKinds) (fun _ x =>
            exec (q_CreateAccount x.1 (su_UserID i) x.2 0)) tt in
      exec (q_CreateUserSession (su_SessionID i) (su_UserID i) (su_RefreshHash i)
              (su_UserAgent i) (su_IP i) None (su_RefreshExpires i))
  end.

Definition Repo_Signup (i : SignupRow) : dbop unit := Tx (signup_in_tx i).

(** ** The cached reads *)

Context {K : CacheEnv}.

Definition me_of (row : string * User) : Me := {|
  me_ID := row.1; me_Phone := u_Phone row.2; me_AccountNumber := u_AccountNumber row.2;
  me_KYCTier := u_KycTier row.2; me_FirstName := u_FirstName row.2;
  me_LastName := u_LastName row.2; me_Email := u_Email row.2;
  me_EmailVerified := u_EmailVerified row.2 |}.

Definition Repo_GetMe (userID : string) : dbop Me :=
  let! hit := cache_lookup (userMeCacheKey userID) in
  match hit with
  | Some (CachedMe m) => ret m
  | _ =>
      let! row := or_missing (query (q_GetMeProjection userID)) in
      do! emit (EvCacheSet (userMeCacheKey userID) (CachedMe (me_of row))) in
      ret (me_of row)
  end.

Definition GetUserAccountNumber (userID : string) : dbop string :=
  let! hit := cache_lookup (userAccountNumberCacheKey userID) in
  match hit with
  | Some (CachedText s) => ret s
  | _ =>
      let! s := or_missing (query (q_GetUserAccountNumber userID)) in
      do! emit (EvCacheSet (userAccountNumberCacheKey userID) (CachedText s)) in
      ret s
  end.

End AuthRepo.
