(* ===== verification/Text.v ===== *)
(** * Text as the services clean it (Go's strings and unicode)

    Trimming white space and folding case, on UTF-8 text. *)

From Stdlib Require Import Ascii.
From S2P Require Import Prelude Domain Json Store.

(** The UTF-8 encodings of [unicode.IsSpace]. *)
Definition text_of (codes : list Z) : string :=
  String.string_of_list_ascii (map char codes).
Definition white_space : list string := map text_of
  ([[9]; [10]; [11]; [12]; [13]; [32]; [194; 133]; [194; 160]; [225; 154; 128];
    [226; 128; 168]; [226; 128; 169]; [226; 128; 175]; [226; 129; 159]; [227; 128; 128]]
   ++ map (fun c => [226; 128; Z.of_nat c]) (seq 128 11))%list.

Fixpoint first_prefix (ps : list string) (s : string) : option string :=
  match ps with
  | [] => None
  | p :: ps' => match strip_prefix p s with Some rest => Some rest | None => first_prefix ps' s end
  end.

(** Drops leading members of [ps]; each step drops a character at least, so the length of
    the text is fuel enough. *)
Fixpoint trim_left (fuel : nat) (ps : list string) (s : string) : string :=
  match fuel with
  | O => s
  | S fuel' =>
      match first_prefix ps s with Some rest => trim_left fuel' ps rest | None => s end
  end.

Definition reverse (s : string) : string :=
  String.string_of_list_ascii (rev (String.list_ascii_of_string s)).

(** [strings.TrimSpace]. *)
Definition TrimSpace (s : string) : string :=
  let l := trim_left (String.length s) white_space s in
  reverse (trim_left (String.length l) (map reverse white_space) (reverse l)).

(** [strings.ToLower] as far as a comparison with ASCII text can tell: ASCII letters and
    the two other letters whose lower case is ASCII, the Kelvin sign and the dotted
    capital I. *)
Fixpoint ToLower (s : string) : string :=
  match s with
  | EmptyString => EmptyString
  | String a rest =>
      match first_prefix [text_of [226; 132; 170]] s, first_prefix [text_of [196; 176]] s, rest with
      | Some _, _, String _ (String _ rest') => String "k"%char (ToLower rest')
      | _, Some _, String _ rest' => String "i"%char (ToLower rest')
      | _, _, _ => String (lower_ascii a) (ToLower rest)
      end
  end.

Definition upper_ascii (a : ascii) : ascii :=
  let n := code a in if (97 <=? n) && (n <=? 122) then char (n - 32) else a.

(** [strings.ToUpper] likewise: the other letters whose upper case is ASCII are the
    dotless i and the long s. *)
Fixpoint ToUpper (s : string) : string :=
  match s with
  | EmptyString => EmptyString
  | String a rest =>
      match first_prefix [text_of [196; 177]] s, first_prefix [text_of [197; 191]] s, rest with
      | Some _, _, String _ rest' => String "I"%char (ToUpper rest')
      | _, Some _, String _ rest' => String "S"%char (ToUpper rest')
      | _, _, _ => String (upper_ascii a) (ToUpper rest)
      end
  end.

Example TrimSpace_ex : TrimSpace "  Ada Obi	" = "Ada Obi".
Proof. vm_compute. reflexivity. Qed.
Example ToUpper_ex : ToUpper "nIn" = "NIN".
Proof. vm_compute. reflexivity. Qed.
