(* ===== verification/Identity.v ===== *)
(** * Display cards and account owners (internal/service/identity and service/account)

    The bank signs a card that binds a user to a name and an account number; payees put it
    in their payment requests.  [ResolveAccount] is the unsigned lookup of online
    transfers. *)

From S2P Require Import Prelude Domain Json Crypto Store AuthStore Repo AuthRepo Text.

(** ** identity/service.go *)

Record MeRow := {
  mr_UserID : string;
  mr_FirstName : string;
  mr_LastName : string;
  mr_AccountNumber : string;
}.

Definition Identity_ErrUserNotFound : error := ErrNew "identity: user not found".

Record IdentityService := { id_Signer : option Signer }.

Section Identity.
Context {E : Env} {K : CacheEnv} {C : Ed25519}.
Variable s : IdentityService.

(** [PgRepoAdapter.GetMe] over [userauthrepo.GetMe]. *)
Definition Adapter_GetMe (userID : string) : dbop MeRow :=
  let! me := Repo_GetMe userID in
  ret {| mr_UserID := me_ID me; mr_FirstName := me_FirstName me;
         mr_LastName := me_LastName me; mr_AccountNumber := me_AccountNumber me |}.

Definition Identity_sign (bankKey : BankSigningKey) (p : DisplayCardPayload) : result bytes :=
  match id_Signer s with
  | Some signer => SignDisplayCardWithSigner signer (bk_KeyID bankKey) p
  | None =>
      if negb (length (bk_PrivateKey bankKey) =? PrivateKeySize)%nat
      then Err (ErrNew "identity: bank key has no usable private half and no Signer is configured")
      else SignDisplayCard (bk_PrivateKey bankKey) p
  end.

Definition display_name (me : MeRow) : string :=
  let name := TrimSpace (mr_FirstName me +:+ " " +:+ mr_LastName me) in
  if bool_decide (name = "") then mr_AccountNumber me else name.

Definition card_payload (me : MeRow) (t : Time) (bankKey : BankSigningKey)
  : DisplayCardPayload := {|
  dcp_UserID := mr_UserID me; dcp_DisplayName := display_name me;
  dcp_AccountNumber := mr_AccountNumber me; dcp_IssuedAt := utc (truncate_us t);
  dcp_BankKeyID := bk_KeyID bankKey |}.

Definition card_of (p : DisplayCardPayload) (sig : bytes) : DisplayCard := {|
  dc_UserID := dcp_UserID p; dc_DisplayName := dcp_DisplayName p;
  dc_AccountNumber := dcp_AccountNumber p; dc_IssuedAt := dcp_IssuedAt p;
  dc_BankKeyID := dcp_BankKeyID p; dc_ServerSignature := sig |}.

Definition IssueDisplayCard (userID : string) : dbop DisplayCard :=
  let! me := wrapping "identity: load user" (Adapter_GetMe userID) in
  if bool_decide (mr_UserID me = "") then throw Identity_ErrUserNotFound
  else
    let! bankKey := wrapping "identity: load bank key" GetActiveBankSigningKey in
    let! t := now in
    let payload := card_payload me t bankKey in
    let! sig := wrapping "identity: sign" (lift (Identity_sign bankKey payload)) in
    ret (card_of payload sig).

End Identity.

(** ** accountrepo/repo.go and account/service.go *)

Definition Accountrepo_ErrNotFound : error := ErrNew "accountrepo: not found".
Definition Account_ErrNotFound : error := ErrNew "account: not found".

Record AccountOwner := {
  ao_AccountNumber : string;
  ao_FirstName : string;
  ao_LastName : string;
}.

Record ResolvedAccount := { ra_AccountNumber : string; ra_MaskedName : string }.

Section Account.
Context {E : Env}.

Definition GetAccountOwner (accountNumber : string) : dbop AccountOwner :=
  let! r := attempt (query (q_GetUserNameByAccountNumber accountNumber)) in
  match r with
  | Err e => throw (if errors_is e ErrNoRows then Accountrepo_ErrNotFound else e)
  | Ok row => ret {| ao_AccountNumber := u_AccountNumber row.2;
                     ao_FirstName := u_FirstName row.2; ao_LastName := u_LastName row.2 |}
  end.

Definition ResolveAccount (accountNumber : string) : dbop ResolvedAccount :=
  do! lift (ValidateAccountNumber accountNumber) in
  let! r := attempt (GetAccountOwner accountNumber) in
  match r with
  | Err e => throw (if errors_is e Accountrepo_ErrNotFound then Account_ErrNotFound else e)
  | Ok owner =>
      ret {| ra_AccountNumber := ao_AccountNumber owner;
             ra_MaskedName := TrimSpace (ao_FirstName owner +:+ " " +:+ ao_LastName owner) |}
  end.

End Account.
