(* ===== verification/UserAuth.v ===== *)
(** * End-user authentication (internal/service/userauth)

    Signing up and in, refresh sessions, one-time codes, password reset and the
    transaction PIN.  The text of the access token ([JWTSigner.Sign]) and the delivery of
    codes ([OTPSender]) are fields of the service; bcrypt and the random source are the
    interface [AuthLib]. *)

From Stdlib Require Import Ascii.
From S2P Require Import Prelude Domain Json Crypto Store AuthStore Repo AuthRepo Text.

(** ** Library code *)

(** [golang.org/x/crypto/bcrypt] with the salt it draws as an argument, and the bytes of
    [crypto/rand], by the number of draws. *)
Class AuthLib := {
  bcrypt_generate : bytes -> string -> result string;
  bcrypt_matches : string -> string -> bool;
  random_bytes : nat -> bytes;
}.

(** [CompareHashAndPassword] accepts the password a hash was generated from. *)
Class AuthLibLaws (L : AuthLib) : Prop := {
  bcrypt_matches_generated salt pw hash :
    bcrypt_generate salt pw = Ok hash -> bcrypt_matches hash pw = true;
  bcrypt_hash_nonempty salt pw hash : bcrypt_generate salt pw = Ok hash -> hash <> "";
}.

(** ** Constants and errors *)

Definition PurposeSignupEmailVerify : string := "signup_email_verify".
Definition PurposePasswordReset : string := "password_reset".
Definition defaultOTPMaxAttempts : Z := 5.
Definition TierOne : string := "TIER_1".
Definition minPasswordLen : nat := 8.

Definition ErrInvalidPhone : error := ErrNew "userauth: invalid phone".
Definition ErrInvalidEmail : error := ErrNew "userauth: invalid email".
Definition ErrInvalidName : error := ErrNew "userauth: invalid name".
Definition ErrInvalidPassword : error :=
  ErrNew "userauth: password must be 8+ chars and contain a letter and a digit".
Definition ErrChallengeMissing : error := ErrNew "userauth: otp challenge not found".
Definition ErrChallengeExpired : error := ErrNew "userauth: otp challenge expired".
Definition ErrChallengeUsed : error := ErrNew "userauth: otp challenge already used".
Definition ErrTooManyAttempts : error := ErrNew "userauth: too many otp attempts".
Definition ErrInvalidCode : error := ErrNew "userauth: invalid otp code".
Definition ErrUserNotFound : error := ErrNew "userauth: user not found".
Definition Service_ErrPhoneTaken : error := ErrNew "userauth: phone already registered".
Definition Service_ErrEmailTaken : error := ErrNew "userauth: email already registered".
Definition ErrInvalidCredentials : error := ErrNew "userauth: invalid credentials".
Definition ErrInvalidRefresh : error := ErrNew "userauth: invalid refresh".
Definition ErrInvalidPIN : error := ErrNew "userauth: pin must be 4 or 6 digits".
Definition ErrBadPIN : error := ErrNew "userauth: wrong pin".
Definition ErrPINLocked : error := ErrNew "userauth: pin locked".
Definition ErrPINNotSet : error := ErrNew "userauth: pin not set".
Definition ErrSessionNotFound : error := ErrNew "userauth: session not found".
Definition ErrCannotRevokeCurrent : error := ErrNew "userauth: cannot revoke current session".

Definition pinMaxAttempts : Z := 5.
Definition pinLockWindow : Duration := 15 * Minute.

(** ** Normalising what users type *)

(** [normalizePhone]: national numbers become E.164. *)
Definition normalizePhone (phone : string) : result string :=
  let p := remove_char "-"%char (remove_char " "%char phone) in
  if bool_decide (p = "") || negb (phoneE164Re p) then Err ErrInvalidPhone
  else
    match strip_prefix "+234" p with
    | Some rest => if (String.length rest =? 10)%nat then Ok p else Err ErrInvalidPhone
    | None =>
        match strip_prefix "0" p with
        | Some rest =>
            if (String.length p =? 11)%nat then Ok ("+234" +:+ rest)%string
            else Err ErrInvalidPhone
        | None => Err ErrInvalidPhone
        end
    end.

Definition is_letter (a : ascii) : bool :=
  let n := code a in ((65 <=? n) && (n <=? 90)) || ((97 <=? n) && (n <=? 122)).
Definition one_of (cs : string) (a : ascii) : bool :=
  existsb (Ascii.eqb a) (String.list_ascii_of_string cs).
Definition chars_all (P : ascii -> bool) (s : string) : bool :=
  forallb P (String.list_ascii_of_string s).

(** The text before and after the first [c]. *)
Fixpoint cut (c : ascii) (s : string) : option (string * string) :=
  match s with
  | EmptyString => None
  | String a rest =>
      if Ascii.eqb a c then Some ("", rest)
      else match cut c rest with Some (x, y) => Some (String a x, y) | None => None end
  end.

(** [MatchString] of the expression [^[A-Za-z0-9._%+\-]+@[A-Za-z0-9.\-]+\.[A-Za-z]{2,}$]:
    neither side has another [@], and the last label starts after the last dot. *)
Definition emailRe (s : string) : bool :=
  match cut "@"%char s with
  | None => false
  | Some (local, domain) =>
      let atom extra a := is_letter a || is_digit a || one_of extra a in
      match cut "."%char (reverse domain) with
      | None => false
      | Some (label, host) =>
          negb (bool_decide (local = "")) && chars_all (atom "._%+-") local
          && negb (bool_decide (host = "")) && chars_all (atom ".-") host
          && (2 <=? String.length label)%nat && chars_all is_letter label
      end
  end.

Definition normalizeEmail (email : string) : result string :=
  let e := ToLower (TrimSpace email) in
  if emailRe e then Ok e else Err ErrInvalidEmail.

Definition validatePassword (p : string) : result unit :=
  let cs := String.list_ascii_of_string p in
  if (String.length p <? minPasswordLen)%nat then Err ErrInvalidPassword
  else if existsb is_letter cs && existsb is_digit cs then Ok tt
  else Err ErrInvalidPassword.

(** [MatchString] of the expression [^[0-9]{4}$|^[0-9]{6}$]. *)
Definition pinRe (s : string) : bool :=
  ((String.length s =? 4)%nat || (String.length s =? 6)%nat) && all_digits s.

Definition truncate (s : string) (n : nat) : string :=
  if (String.length s <=? n)%nat then s else String.substring 0 n s.

(** The last six characters: the code that is sent. *)
Definition last6 (s : string) : string :=
  if (String.length s <=? 6)%nat then s else String.substring (String.length s - 6) 6 s.

(** [hex.EncodeToString]. *)
Fixpoint EncodeToString (bs : bytes) : string :=
  match bs with
  | [] => ""
  | b :: rest =>
      String (hex_digit (byte_code b / 16)) (String (hex_digit (byte_code b mod 16))
        (EncodeToString rest))
  end.

(** ** The service *)

Record UserAuthService := {
  ua_Sign : string -> string -> string -> Time -> result string;
  ua_Send : string -> string -> string -> result unit;
  ua_AccessTTL : Duration;
  ua_RefreshTTL : Duration;
  ua_OTPTTL : Duration;
  ua_OTPMaxAttempts : Z;
}.

Record AuthResult := {
  ar_UserID : string;
  ar_AccountNumber : string;
  ar_AccessToken : string;
  ar_RefreshToken : string;
  ar_AccessExpiresAt : Time;
  ar_RefreshExpiresAt : Time;
}.

Record SignupInput := {
  si_Phone : string;
  si_Password : string;
  si_FirstName : string;
  si_LastName : string;
  si_Email : string;
  si_UserAgent : string;
  si_IP : string;
}.

(** [userauth.Session], what a user sees of a session. *)
Record SessionView := {
  sv_ID : string;
  sv_UserAgent : string;
  sv_IP : string;
  sv_DeviceID : option string;
  sv_CreatedAt : Time;
  sv_ExpiresAt : Time;
}.

Section UserAuth.
Context {E : Env} {K : CacheEnv} {C : Ed25519} {AL : AuthLib}.
Variable s : UserAuthService.

(** A draw from [crypto/rand]. *)
Definition rand_read : dbop bytes := fun w =>
  (Ok (random_bytes (w_ids w)),
   World (w_st w) (S (w_ids w)) (w_clk w) (w_ops w) (w_log w)).

Definition GenerateFromPassword (pw : string) : dbop string :=
  let! salt := rand_read in lift (bcrypt_generate salt pw).

Definition newID : dbop string := let! i := fresh in ret (lower i).

Definition hashRefresh (tok : string) : string := EncodeToString (sha256 tok).

Definition newRefreshToken : dbop (string * string) :=
  let! b := rand_read in
  let token := EncodeToString b in
  ret (token, hashRefresh token).

Definition sign (userID accountNumber sessionID : string) : dbop string :=
  let! t := now in lift (ua_Sign s userID accountNumber sessionID t).

Definition send (recipient codeText purpose : string) : dbop unit :=
  do! emit (EvSendOTP recipient codeText purpose) in lift (ua_Send s recipient codeText purpose).

(** *** One-time codes *)

Definition issueOTP (identifier purpose : string) : dbop unit :=
  let codeText := last6 identifier in
  let! hash := GenerateFromPassword codeText in
  let! t := now in
  do! UpsertOTPChallenge identifier purpose hash (t + ua_OTPTTL s) in
  send identifier codeText purpose.

Definition max_attempts : Z :=
  if ua_OTPMaxAttempts s <=? 0 then defaultOTPMaxAttempts else ua_OTPMaxAttempts s.

Definition consumeOTP (identifier purpose codeText : string) : dbop unit :=
  let! r := attempt (GetOTPChallenge identifier purpose) in
  match r with
  | Err e => throw (if errors_is e ErrNotFound then ErrChallengeMissing else e)
  | Ok ch =>
      match otp_ConsumedAt ch with
      | Some _ => throw ErrChallengeUsed
      | None =>
          let! t := now in
          if After t (otp_ExpiresAt ch) then throw ErrChallengeExpired
          else if max_attempts <=? otp_Attempts ch then throw ErrTooManyAttempts
          else if bcrypt_matches (otp_CodeHash ch) codeText
          then ConsumeOTPChallenge identifier purpose
          else
            let! _ := attempt (IncrementOTPAttempts identifier purpose) in
            throw ErrInvalidCode
      end
  end.

(** *** Signing up and in *)

Definition auth_result (userID accountNumber access refresh : string) (refreshExp : Time)
  : dbop AuthResult :=
  let! t := now in
  ret {| ar_UserID := userID; ar_AccountNumber := accountNumber; ar_AccessToken := access;
         ar_RefreshToken := refresh; ar_AccessExpiresAt := t + ua_AccessTTL s;
         ar_RefreshExpiresAt := refreshExp |}.

Definition check_names (first last : string) : result unit :=
  guard_or (negb (bool_decide (first = "")) && negb (bool_decide (last = ""))) ErrInvalidName.

(** The row of a sign-up, with the identifiers and secrets drawn for it, and the refresh
    token of its session. *)
Definition signup_row (i : SignupInput) : dbop (SignupRow * string) :=
  let! phone := lift (normalizePhone (si_Phone i)) in
  let! email := lift (normalizeEmail (si_Email i)) in
  let first := TrimSpace (si_FirstName i) in
  let last := TrimSpace (si_LastName i) in
  do! lift (check_names first last) in
  do! lift (validatePassword (si_Password i)) in
  let! hash := GenerateFromPassword (si_Password i) in
  let! acc := lift (AccountNumberFromPhone phone) in
  let! userID := newID in
  let! sessionID := newID in
  let! tok := newRefreshToken in
  let! t := now in
  let! id1 := newID in
  let! id2 := newID in
  let! id3 := newID in
  ret ({| su_UserID := userID; su_Phone := phone; su_Email := email; su_FirstName := first;
          su_LastName := last; su_PasswordHash := hash; su_KYCTier := TierOne;
          su_AccountNumber := acc; su_SessionID := sessionID; su_RefreshHash := tok.2;
          su_UserAgent := truncate (si_UserAgent i) 512; su_IP := truncate (si_IP i) 64;
          su_RefreshExpires := t + ua_RefreshTTL s; su_AccountIDs := [id1; id2; id3] |}, tok.1).

Definition signup_error (e : error) : error :=
  if errors_is e ErrPhoneTaken then Service_ErrPhoneTaken
  else if errors_is e ErrEmailTaken then Service_ErrEmailTaken
  else e.

Definition Signup (i : SignupInput) : dbop AuthResult :=
  let! row := signup_row i in
  let! r := attempt (Repo_Signup row.1) in
  match r with
  | Err e => throw (signup_error e)
  | Ok _ =>
      let! _ := attempt (issueOTP (su_Email row.1) PurposeSignupEmailVerify) in
      let! access := sign (su_UserID row.1) (su_AccountNumber row.1) (su_SessionID row.1) in
      auth_result (su_UserID row.1) (su_AccountNumber row.1) access row.2
        (su_RefreshExpires row.1)
  end.

Definition Login (phone password ua ip : string) : dbop AuthResult :=
  match normalizePhone phone with
  | Err _ => throw ErrInvalidCredentials
  | Ok normalized =>
      let! r := attempt (GetUserLoginByPhone normalized) in
      match r with
      | Err e => throw (if errors_is e ErrNotFound then ErrInvalidCredentials else e)
      | Ok row =>
          if negb (bcrypt_matches (lr_PasswordHash row) password)
          then throw ErrInvalidCredentials
          else
            let! sessionID := newID in
            let! tok := newRefreshToken in
            let! t := now in
            do! OpenSession {|
                  os_SessionID := sessionID; os_UserID := lr_UserID row;
                  os_RefreshHash := tok.2; os_UserAgent := truncate ua 512;
                  os_IP := truncate ip 64; os_ExpiresAt := t + ua_RefreshTTL s |} in
            let! access := sign (lr_UserID row) (lr_AccountNumber row) sessionID in
            auth_result (lr_UserID row) (lr_AccountNumber row) access tok.1
              (t + ua_RefreshTTL s)
      end
  end.

(** *** Verifying the email and resetting the password *)

(** [if errors.Is(err, userauthrepo.ErrNotFound) { return e }]. *)
Definition not_found_as {A} (e : error) (m : dbop A) : dbop A :=
  let! r := attempt m in
  match r with
  | Ok a => ret a
  | Err x => throw (if errors_is x ErrNotFound then e else x)
  end.

Definition RequestEmailVerification (userID : string) : dbop unit :=
  let! r := not_found_as ErrUserNotFound (GetUserEmail userID) in
  if r.2 : bool then ret tt else issueOTP r.1 PurposeSignupEmailVerify.

Definition VerifyEmail (userID codeText : string) : dbop unit :=
  let! r := not_found_as ErrUserNotFound (GetUserEmail userID) in
  if r.2 : bool then ret tt
  else
    do! consumeOTP r.1 PurposeSignupEmailVerify codeText in
    MarkEmailVerified userID.

Definition ForgotPasswordRequest (email : string) : dbop unit :=
  match normalizeEmail email with
  | Err _ => ret tt
  | Ok normalized =>
      let! exists_ := EmailExists normalized in
      if exists_ : bool then issueOTP normalized PurposePasswordReset else ret tt
  end.

Definition ForgotPasswordReset (email codeText newPassword : string) : dbop unit :=
  match normalizeEmail email with
  | Err _ => throw ErrInvalidCredentials
  | Ok normalized =>
      do! lift (validatePassword newPassword) in
      let! userID := not_found_as ErrInvalidCredentials (GetUserIDByEmail normalized) in
      do! consumeOTP normalized PurposePasswordReset codeText in
      let! hash := GenerateFromPassword newPassword in
      do! UpdateUserPassword userID hash in
      let! _ := attempt (RevokeOtherUserSessions userID "") in
      ret tt
  end.

(** *** Refresh sessions *)

Definition Refresh (refresh : string) : dbop AuthResult :=
  let! r := attempt (GetUserSessionByRefreshHash (hashRefresh refresh)) in
  match r with
  | Err _ => throw ErrInvalidRefresh
  | Ok sess =>
      let! t := (match rs_RevokedAt sess with Some _ => throw ErrInvalidRefresh | None => now end) in
      if After t (rs_ExpiresAt sess) then throw ErrInvalidRefresh
      else
        let! accountNumber := GetUserAccountNumber (rs_UserID sess) in
        let! tok := newRefreshToken in
        let! newSessionID := newID in
        let! t1 := now in
        let accessExp := t1 + ua_AccessTTL s in
        let! t2 := now in
        let refreshExp := t2 + ua_RefreshTTL s in
        do! RotateSession (rs_ID sess) newSessionID (rs_UserID sess) tok.2 refreshExp in
        let! access := sign (rs_UserID sess) accountNumber newSessionID in
        ret {| ar_UserID := rs_UserID sess; ar_AccountNumber := accountNumber;
               ar_AccessToken := access; ar_RefreshToken := tok.1;
               ar_AccessExpiresAt := accessExp; ar_RefreshExpiresAt := refreshExp |}
  end.

Definition Logout (refresh : string) : dbop unit := RevokeUserSessionByHash (hashRefresh refresh).

Definition GetMe (userID : string) : dbop Me := not_found_as ErrUserNotFound (Repo_GetMe userID).

Definition ErrUserIDRequired : error := ErrNew "userauth: user_id required".

Definition ListSessions (userID : string) : dbop (list SessionView) :=
  if bool_decide (userID = "") then throw ErrUserIDRequired
  else
    let! rows := ListActiveUserSessions userID in
    ret (map (fun r => {|
      sv_ID := as_ID r; sv_UserAgent := as_UserAgent r; sv_IP := as_IP r;
      sv_DeviceID := as_DeviceID r; sv_CreatedAt := as_CreatedAt r;
      sv_ExpiresAt := as_ExpiresAt r |}) rows).

Definition RevokeSession (userID sessionID currentSessionID : string) : dbop unit :=
  if bool_decide (userID = "") || bool_decide (sessionID = "")
  then throw (ErrNew "userauth: user_id and session_id required")
  else if negb (bool_decide (currentSessionID = "")) && bool_decide (sessionID = currentSessionID)
  then throw ErrCannotRevokeCurrent
  else
    let! r := not_found_as ErrSessionNotFound (GetUserSessionOwner sessionID) in
    if negb (bool_decide (r.1 = userID)) then throw ErrSessionNotFound
    else match r.2 with
         | Some _ => ret tt
         | None => RevokeUserSessionByID sessionID
         end.

Definition RevokeAllOtherSessions (userID keepSessionID : string) : dbop Z :=
  if bool_decide (userID = "") then throw ErrUserIDRequired
  else RevokeOtherUserSessions userID keepSessionID.

(** *** The transaction PIN *)

Definition SetPIN (userID pin currentSessionID : string) : dbop unit :=
  if bool_decide (userID = "") then throw ErrUserIDRequired
  else if negb (pinRe pin) then throw ErrInvalidPIN
  else
    let! hash := GenerateFromPassword pin in
    let! ok := not_found_as ErrUserNotFound (SetUserPIN userID hash) in
    if negb ok then throw ErrUserNotFound
    else
      do! RevokeOtherUserSessions userID currentSessionID in ret tt.

Definition pin_locked (st : PINState) (t : Time) : bool :=
  match ps_LockedAt st with Some l => t - l <? pinLockWindow | None => false end.

(** [time.Since] is only asked for when there is a lock. *)
Definition VerifyPIN (userID pin : string) : dbop unit :=
  if bool_decide (userID = "") then throw ErrUserIDRequired
  else if negb (pinRe pin) then throw ErrInvalidPIN
  else
    let! st := GetUserPINState userID in
    if negb (ps_Set st) || bool_decide (ps_Hash st = "") then throw ErrPINNotSet
    else
      let! locked := (match ps_LockedAt st with
                      | Some _ => let! t := now in ret (pin_locked st t)
                      | None => ret false
                      end) in
      if locked : bool then throw ErrPINLocked
      else if negb (bcrypt_matches (ps_Hash st) pin) then
        let newAttempts := ps_Attempts st + 1 in
        if pinMaxAttempts <=? newAttempts then
          do! LockUserPIN userID newAttempts in throw ErrPINLocked
        else
          do! BumpPINAttempts userID newAttempts in throw ErrBadPIN
      else ClearUserPINAttempts userID.

End UserAuth.
