(* ===== verification/Registration.v ===== *)
(** * Device registration (internal/transport/grpc/server: auth.go, registration_server.go; internal/service/registration/attestation)

    Registering, rotating, revoking and recovering a user's device.  A registration consumes a
    nonce that was issued for it and shows an attestation to a verifier; the new device's key
    becomes the payer key of the user.  The nonces are kept in memory: the store is a function
    of the trace, like the cache. *)

From S2P Require Import Prelude Domain Json Crypto Store AuthStore DeviceStore Parse Decode Tokens Repo Devices UserAuth.

#[local] Open Scope string_scope.
#[local] Open Scope Z_scope.

(** What [%v] prints of an error: the driver and the library have texts of their own. *)
Class ErrorText := { error_string : error -> string }.

(** ** Who calls (auth.go) *)

Record AuthUser := { au_UserID : string; au_DeviceID : string }.

(** The user in the context of a request, if there is one. *)
Definition MustAuthUser (ctx : option AuthUser) : result AuthUser :=
  match ctx with
  | Some u => Ok u
  | None => Err (ErrStatus "Unauthenticated" "missing auth context")
  end.

Definition MustMatchUser (ctx : option AuthUser) (requestUserID : string) : result AuthUser :=
  try u := MustAuthUser ctx in
  if negb (bool_decide (requestUserID = "")) && negb (bool_decide (requestUserID = au_UserID u))
  then Err (ErrStatus "PermissionDenied" "auth user does not match request user")
  else Ok u.

(** ** Attestation *)

Definition ErrAttestationFailed : error := ErrNew "attestation: verification failed".
Definition ErrNonceMismatch : error := ErrNew "attestation: nonce mismatch".

Definition PlatformAndroid : string := "android".
Definition PlatformIOS : string := "ios".
Definition PlatformDev : string := "dev".

Record Attestation := {
  at_Platform : string;
  at_DevicePublicKey : bytes;
  at_Nonce : bytes;
  at_VerifiedAt : Time;
  at_Raw : bytes;
}.

(** The zero [Attestation]: callers look at the error only. *)
Definition no_attestation : Attestation := {|
  at_Platform := ""; at_DevicePublicKey := []; at_Nonce := []; at_VerifiedAt := time_zero;
  at_Raw := [] |}.

(** [Verifier]: platform, blob, expected key, expected nonce. *)
Definition Verifier : Type := string -> bytes -> bytes -> bytes -> dbop Attestation.

Record DevBlob := { db_Platform : string; db_DevicePublicKey : bytes; db_Nonce : bytes }.

Definition dev_blob_members (b : DevBlob) (ms : list (string * tree)) : DevBlob * bool :=
  (field p := member "platform" dec_string (db_Platform b) ms in
   field k := member "device_public_key" dec_bytes (db_DevicePublicKey b) ms in
   field n := member "nonce" dec_bytes (db_Nonce b) ms in
   ({| db_Platform := p; db_DevicePublicKey := k; db_Nonce := n |}, true))%op.
Definition dec_DevBlob : decoder DevBlob := dec_struct dev_blob_members.

Definition no_dev_blob : DevBlob :=
  {| db_Platform := ""; db_DevicePublicKey := []; db_Nonce := [] |}.

(** *** The nonces in memory *)

Definition nonce_key (userID : string) (nonce : bytes) : string :=
  userID ++ "|" ++ EncodeToString nonce.

(** The entries after a trace: issuing adds one and sweeps those that have expired. *)
Definition nonce_event (m : gmap string Time) (ev : effect) : gmap string Time :=
  match ev with
  | EvNonceIssued key expires swept =>
      filter (fun kv : string * Time => After swept kv.2 = false) (<[key := expires]> m)
  | EvNonceTaken key => delete key m
  | _ => m
  end.
Definition nonces (log : list effect) : gmap string Time := foldl nonce_event ∅ log.

Section Registration.
Context {E : Env} {K : CacheEnv} {C : Ed25519} {AL : AuthLib} {T : ErrorText}.

(** [MemoryNonceStore.Issue]: 32 random bytes. *)
Definition Issue (userID : string) (ttl : Duration) : dbop bytes :=
  let! r := rand_read in
  let n := take 32 r in
  let! t := now in
  let! swept := now in
  do! emit (EvNonceIssued (nonce_key userID n) (t + ttl) swept) in
  ret n.

(** [MemoryNonceStore.Consume]: an entry is gone once it was looked up. *)
Definition Consume (userID : string) (nonce : bytes) : dbop unit :=
  let! log := read_log in
  match nonces log !! nonce_key userID nonce with
  | None => throw ErrNonceMismatch
  | Some expires =>
      do! emit (EvNonceTaken (nonce_key userID nonce)) in
      let! t := now in
      if After t expires then throw ErrNonceMismatch else ret tt
  end.

(** *** Verifiers *)

(** [DevVerifier.Verify]. *)
Definition DevVerifier : Verifier := fun _ blob expectedPub expectedNonce =>
  match Unmarshal dec_DevBlob no_dev_blob blob with
  | None => throw (ErrWrap "decode dev blob" ErrAttestationFailed)
  | Some b =>
      if negb (bool_decide (db_DevicePublicKey b = expectedPub))
      then throw (ErrWrap "device public key mismatch" ErrAttestationFailed)
      else if negb (bool_decide (db_Nonce b = expectedNonce)) then throw ErrNonceMismatch
      else
        let! t := now in
        ret {| at_Platform := PlatformDev; at_DevicePublicKey := expectedPub;
               at_Nonce := expectedNonce; at_VerifiedAt := t; at_Raw := blob |}
  end.

(** [PlayIntegrityVerifier] and [DeviceCheckVerifier] refuse everything. *)
Definition PlayIntegrityVerifier : Verifier := fun _ _ _ _ =>
  throw (ErrNew "play integrity: verifier not yet implemented; use DevVerifier or wire the real API call").
Definition DeviceCheckVerifier : Verifier := fun _ _ _ _ =>
  throw (ErrNew "device check: verifier not yet implemented; use DevVerifier or wire App Attest").

(** [Composite.Verify]. *)
Definition Composite (byPlatform : string -> option Verifier) : Verifier :=
  fun platform blob expectedPub expectedNonce =>
    match byPlatform platform with
    | None => throw (ErrWrap "platform not configured" ErrAttestationFailed)
    | Some v => v platform blob expectedPub expectedNonce
    end.

(** ** The server *)

Definition attestationChallengeTTL : Duration := 5 * Minute.

Record RegistrationServer := {
  reg_Recovery : string -> bytes -> result unit;
  reg_Attestation : option Verifier;
  reg_Nonces : bool;
}.

(** [devRecoveryGate.Verify]. *)
Definition devRecoveryGate (_ : string) (proof : bytes) : result unit :=
  if bool_decide (proof = []) then Err (ErrStatus "InvalidArgument" "recovery_proof required")
  else Ok tt.

Definition NewRegistrationServer : RegistrationServer :=
  {| reg_Recovery := devRecoveryGate; reg_Attestation := None; reg_Nonces := true |}.

(** [wireAttestation] of the HTTP server's main, the only one there is: the dev verifier for
    every platform, or a process that does not start. *)
Definition wireAttestation (mode : string) (s : RegistrationServer) : result RegistrationServer :=
  if bool_decide (mode = "") || bool_decide (mode = "dev") then
    Ok {| reg_Recovery := reg_Recovery s; reg_Nonces := reg_Nonces s;
          reg_Attestation := Some (Composite (fun p =>
            if bool_decide (p ∈ [PlatformDev; PlatformAndroid; PlatformIOS])
            then Some DevVerifier else None)) |}
  else if bool_decide (mode = "production")
  then Err (ErrNew "ATTESTATION_MODE=production requires wiring real PlayIntegrity + DeviceCheck verifiers")
  else Err (ErrWrap "unknown ATTESTATION_MODE" (ErrNew mode)).

(** [status.Errorf(code, "what: %v", err)]. *)
Definition status_of (code what : string) (e : error) : error :=
  ErrStatus code (what ++ ": " ++ error_string e).
Definition internally {A} (what : string) (m : dbop A) : dbop A :=
  let! r := attempt m in
  match r with Ok a => ret a | Err e => throw (status_of "Internal" what e) end.

Definition required (missing : bool) (what : string) : dbop unit :=
  if missing then throw (ErrStatus "InvalidArgument" (what ++ " required")) else ret tt.

(** [Repo.Tx] around a body that calls [SetUserPayerPubkey]: that method begins a
    transaction of its own on another connection, which commits by itself, so rolling back
    leaves the signing keys as they are by then.  The body reaches them in no other way. *)
Definition Tx_beside_keys {A} (m : dbop A) : dbop A :=
  tx_beside (fun d d1 => with_signing_keys (signing_keys d1) d) check_ledger_txn_balanced m.

Variable s : RegistrationServer.

Record ChallengeResponse := { ch_Nonce : bytes; ch_ExpiresAt : Time }.

Definition GetAttestationChallenge (userID : string) : dbop ChallengeResponse :=
  do! required (bool_decide (userID = "")) "user_id" in
  if negb (reg_Nonces s)
  then throw (ErrStatus "FailedPrecondition" "attestation nonces not configured")
  else
    let! nonce := internally "issue nonce" (Issue userID attestationChallengeTTL) in
    let! t := now in
    ret {| ch_Nonce := nonce; ch_ExpiresAt := t + attestationChallengeTTL |}.

Definition consume_nonce (userID : string) (nonce : bytes) : dbop unit :=
  let! r := attempt (Consume userID nonce) in
  match r with
  | Ok _ => ret tt
  | Err e =>
      throw (if errors_is e ErrNonceMismatch
             then ErrStatus "FailedPrecondition" "attestation nonce invalid or already consumed"
             else status_of "Internal" "consume nonce" e)
  end.

Definition verifyAttestation (userID platform : string) (blob nonce devicePub : bytes)
  : dbop Attestation :=
  do! (if reg_Nonces s then consume_nonce userID nonce else ret tt) in
  match reg_Attestation s with
  | None => ret no_attestation
  | Some verify =>
      let platformKey := if bool_decide (platform = "") then PlatformDev else platform in
      let! r := attempt (verify platformKey blob devicePub nonce) in
      match r with
      | Ok att => ret att
      | Err e =>
          throw (if errors_is e ErrNonceMismatch
                 then ErrStatus "FailedPrecondition" "attestation nonce mismatch"
                 else if errors_is e ErrAttestationFailed
                 then status_of "Unauthenticated" "attestation rejected" e
                 else status_of "Internal" "attestation verify" e)
      end
  end.

(** The answer that names a device: its JWT is always empty. *)
Record DeviceResponse := {
  dr_DeviceID : string;
  dr_At : Time;
  dr_RealmKeyVersion : Z;
}.
Definition device_response (deviceID : string) : dbop DeviceResponse :=
  let! t := now in ret {| dr_DeviceID := deviceID; dr_At := t; dr_RealmKeyVersion := 1 |}.

(** What the three transactions do once the old device is gone. *)
Definition enroll (userID : string) (blob : option bytes) (pub : bytes) : dbop string :=
  do! SetUserPayerPubkey userID pub in
  RegisterDevice userID blob pub.

Definition register_in_tx (existing : string) (userID : string) (blob : option bytes)
  (pub : bytes) : dbop string :=
  do! (if bool_decide (existing = "") then ret tt else DeactivateDevice existing) in
  enroll userID blob pub.

Definition srv_RegisterDevice (userID platform : string) (blob : option bytes) (nonce pub : bytes)
  : dbop DeviceResponse :=
  do! required (bool_decide (userID = "")) "user_id" in
  do! required (bool_decide (pub = [])) "device_public_key" in
  let! _ := verifyAttestation userID platform (default [] blob) nonce pub in
  let! r := attempt (RegisterUserWithID userID "" "" "" "TIER_0" 1) in
  do! match r with
      | Err e => if IsUniqueViolation e then ret tt else throw (status_of "Internal" "register user" e)
      | Ok _ => ret tt
      end in
  let! existing := attempt (GetActiveDeviceForUser userID) in
  match existing with
  | Ok d =>
      if bool_decide (ad_PublicKey d = pub) then device_response (ad_ID d)
      else
        let! id := internally "register device" (Tx_beside_keys (register_in_tx (ad_ID d) userID blob pub)) in
        device_response id
  | Err e =>
      if errors_is e ErrNoRows then
        let! id := internally "register device" (Tx_beside_keys (register_in_tx "" userID blob pub)) in
        device_response id
      else throw (status_of "Internal" "lookup active device" e)
  end.

Record AttestResponse := { att_Valid : bool; att_DeviceJwt : string; att_ExpiresAt : Time }.

Definition Attest : dbop AttestResponse :=
  let! t := now in
  ret {| att_Valid := true; att_DeviceJwt := ""; att_ExpiresAt := t + 24 * Hour |}.

Definition assertDeviceBelongsToUser (deviceID userID : string) : dbop unit :=
  let! r := attempt (LookupDeviceForAuth deviceID) in
  match r with
  | Err _ => throw (ErrStatus "NotFound" "device not found")
  | Ok (ownerID, _, _) =>
      if negb (bool_decide (ownerID = userID))
      then throw (ErrStatus "PermissionDenied" "device belongs to a different user")
      else ret tt
  end.

Definition Deactivate (ctx : option AuthUser) (deviceID : string) : dbop Time :=
  let! authed := lift (MustAuthUser ctx) in
  let target := if bool_decide (deviceID = "") then au_DeviceID authed else deviceID in
  do! assertDeviceBelongsToUser target (au_UserID authed) in
  do! internally "deactivate" (DeactivateDevice target) in
  now.

Definition rotate_in_tx (oldID userID : string) (blob : option bytes) (newPub : bytes)
  : dbop string :=
  do! DeactivateDevice oldID in enroll userID blob newPub.

Definition RotateDevice (ctx : option AuthUser) (userID oldDeviceID : string)
  (blob : option bytes) (newPub : bytes) : dbop DeviceResponse :=
  let! authed := lift (MustMatchUser ctx userID) in
  do! required (bool_decide (newPub = [])) "new_device_public_key" in
  let oldID := if bool_decide (oldDeviceID = "") then au_DeviceID authed else oldDeviceID in
  if negb (bool_decide (oldID = au_DeviceID authed))
  then throw (ErrStatus "PermissionDenied" "rotate must originate from old device")
  else
    let! id := internally "rotate device"
      (Tx_beside_keys (rotate_in_tx oldID (au_UserID authed) blob newPub)) in
    device_response id.

Definition RevokeDevice (ctx : option AuthUser) (deviceID : string) : dbop Time :=
  let! authed := lift (MustAuthUser ctx) in
  do! required (bool_decide (deviceID = "")) "device_id" in
  if bool_decide (deviceID = au_DeviceID authed)
  then throw (ErrStatus "InvalidArgument" "cannot revoke own device — use RotateDevice")
  else
    do! assertDeviceBelongsToUser deviceID (au_UserID authed) in
    do! internally "revoke device" (DeactivateDevice deviceID) in
    now.

(** A prior device that cannot be read is passed over.  A statement that failed otherwise has
    aborted the transaction: the model leaves it to [fault] whether the next one runs. *)
Definition recover_in_tx (userID : string) (blob : option bytes) (newPub : bytes) : dbop string :=
  let! prior := attempt (GetActiveDeviceForUser userID) in
  do! match prior with
      | Ok d => if bool_decide (ad_ID d = "") then ret tt else DeactivateDevice (ad_ID d)
      | Err _ => ret tt
      end in
  enroll userID blob newPub.

Definition RecoverDevice (userID : string) (proof : bytes) (blob : option bytes) (newPub : bytes)
  : dbop DeviceResponse :=
  do! required (bool_decide (userID = "")) "user_id" in
  do! required (bool_decide (newPub = [])) "new_device_public_key" in
  do! lift (reg_Recovery s userID proof) in
  let! id := internally "recover device" (Tx_beside_keys (recover_in_tx userID blob newPub)) in
  device_response id.

End Registration.
