(* ===== verification/Keys.v ===== *)
(** * Key material for devices (keys_server.go, userauth/devicesession.go, and their HTTP guards)

    The bank's public keys, the realm keys and the sealed-box key as the server hands them
    out, and the offline session tokens it mints for a device. *)

From S2P Require Import Prelude Domain Json Crypto Store AuthStore DeviceStore Tokens Repo Devices AuthRepo UserAuth Registration.

#[local] Open Scope string_scope.
#[local] Open Scope Z_scope.

(** A protobuf timestamp that may be missing. *)
Definition tsOrNil (t : Time) : option Time := if IsZero t then None else Some t.
Definition tsPtrOrNil (t : option Time) : option Time :=
  match t with None => None | Some t => tsOrNil t end.
(** Protobuf getters and [AsTime] read a missing timestamp as the zero time or skip it. *)
Definition fromTs (t : option Time) : Time := default time_zero t.

Record pb_BankPublicKey := {
  bp_KeyId : string;
  bp_PublicKey : bytes;
  bp_ActiveFrom : option Time;
  bp_RetiredAt : option Time;
}.

Record pb_RealmKey := {
  pk_Version : Z;
  pk_Key : bytes;
  pk_ActiveFrom : option Time;
  pk_RetiredAt : option Time;
}.

Record KeysServer := { ks_SealedBoxPublicKey : bytes; ks_SealedBoxKeyID : string }.

(** [userauth.DeviceSessionSigner]; [activated] is set the first time it is asked for. *)
Record DeviceSessionSigner := {
  sg_KeyID : string;
  sg_PrivateKey : bytes;
  sg_PublicKey : bytes;
  sg_Audience : string;
  sg_TTL : Duration;
}.

Definition ErrDeviceNotOwned : error := ErrNew "userauth: device not owned by caller".
Definition ErrDeviceInactive : error := ErrNew "userauth: device deactivated".
Definition ErrDeviceUnknown : error := ErrNew "userauth: device unknown".
Definition ErrUnsupportedScope : error := ErrNew "userauth: unsupported scope".
Definition ErrDeviceSessionUnav : error :=
  ErrNew "userauth: device session signer not configured".

Record DeviceSessionToken := {
  dt_Token : string;
  dt_ServerPublicKey : bytes;
  dt_KeyID : string;
  dt_IssuedAt : Time;
  dt_ExpiresAt : Time;
  dt_Scope : string;
}.

Section Keys.
Context {E : Env} {K : CacheEnv} {C : Ed25519} {T : ErrorText}.
Variable s : KeysServer.

(** ** Public keys *)

Definition bank_public_key (k : BankSigningKey) : pb_BankPublicKey := {|
  bp_KeyId := bk_KeyID k; bp_PublicKey := bk_PublicKey k;
  bp_ActiveFrom := tsOrNil (bk_ActiveFrom k); bp_RetiredAt := tsPtrOrNil (bk_ActiveTo k) |}.

(** A key that cannot be read is left out. *)
Definition GetBankPublicKeys (ids : list string) : dbop (list pb_BankPublicKey) :=
  if bool_decide (ids = []) then
    let! active := internally "active bank key" GetActiveBankSigningKey in
    ret [bank_public_key active]
  else
    for_each ids (fun out id =>
      let! r := attempt (GetBankSigningKey id) in
      match r with
      | Ok k => ret (out ++ [bank_public_key k])%list
      | Err _ => ret out
      end) [].

Record RealmKeyResponse := {
  rr_Version : Z;
  rr_Key : bytes;
  rr_ActiveFrom : option Time;
  rr_ExpiresAt : option Time;
}.

Definition srv_GetRealmKey (deviceID : string) (version : Z) : dbop RealmKeyResponse :=
  do! required (bool_decide (deviceID = "")) "device_id" in
  let! rk := internally "realm key"
    (if 0 <? version then GetRealmKey version else GetActiveRealmKey) in
  ret {| rr_Version := int32 (rlm_Version rk); rr_Key := rlm_Key rk;
         rr_ActiveFrom := tsOrNil (rlm_ActiveFrom rk); rr_ExpiresAt := tsOrNil (rlm_ExpiresAt rk) |}.

Definition GetActiveRealmKeys (deviceID : string) (limit : Z) : dbop (list pb_RealmKey) :=
  do! required (bool_decide (deviceID = "")) "device_id" in
  let limit := if limit <=? 0 then 3 else limit in
  let! keys := internally "list realm keys" (ListActiveRealmKeys limit) in
  ret (map (fun k => {| pk_Version := int32 (rlm_Version k); pk_Key := rlm_Key k;
                        pk_ActiveFrom := tsOrNil (rlm_ActiveFrom k);
                        pk_RetiredAt := tsOrNil (rlm_ExpiresAt k) |}) keys).

Definition GetServerSealedBoxPubkey : dbop (bytes * string) :=
  if bool_decide (ks_SealedBoxPublicKey s = [])
  then throw (ErrStatus "FailedPrecondition" "sealed-box key not provisioned")
  else ret (ks_SealedBoxPublicKey s, ks_SealedBoxKeyID s).

(** ** Who may have a realm key (the HTTP server's guard)

    The code and message of the refusal, if it is refused. *)
Definition assertRealmKeyDeviceOwnership (callerUserID deviceID : string)
  : dbop (option (string * string)) :=
  if bool_decide (deviceID = "") then ret (Some ("bad_request", "device_id required"))
  else
    let! r := attempt (LookupDeviceForAuth deviceID) in
    match r with
    | Err _ => ret (Some ("unauthorized", "device not found"))
    | Ok (userID, _, active) =>
        if bool_decide (userID = "") then ret (Some ("unauthorized", "device not found"))
        else if negb (bool_decide (userID = callerUserID))
        then ret (Some ("unauthorized", "device not owned by caller"))
        else if negb active then ret (Some ("unauthorized", "device inactive"))
        else ret None
    end.

(** ** Device sessions *)

Variable signer : option DeviceSessionSigner.

Definition HasDeviceSessionSigner : option DeviceSessionSigner :=
  match signer with
  | Some k => if (length (sg_PrivateKey k) =? PrivateKeySize)%nat then Some k else None
  | None => None
  end.

(** [DeviceLookup] is the closure of the HTTP server's main over [LookupDeviceForAuth]. *)
Definition DeviceLookup (deviceID : string) : dbop (string * bool) :=
  let! r := LookupDeviceForAuth deviceID in
  let '(userID, _, active) := r in ret (userID, active).

Definition IssueDeviceSession (userID deviceID sessionID scope : string) : dbop DeviceSessionToken :=
  match HasDeviceSessionSigner with
  | None => throw ErrDeviceSessionUnav
  | Some k =>
      let scope := if bool_decide (scope = "") then ScopeOfflinePay else scope in
      if negb (bool_decide (scope = ScopeOfflinePay)) then throw ErrUnsupportedScope
      else
        let! r := attempt (DeviceLookup deviceID) in
        match r with
        | Err _ => throw ErrDeviceUnknown
        | Ok (owner, active) =>
            if negb (bool_decide (owner = userID)) then throw ErrDeviceNotOwned
            else if negb active then throw ErrDeviceInactive
            else
              let! accountNumber := GetUserAccountNumber userID in
              let! t := now in
              let exp := t + sg_TTL k in
              let! tok := lift (SignDeviceSession (sg_PrivateKey k) (sg_KeyID k) {|
                ds_Sub := userID; ds_AccountNumber := accountNumber; ds_DeviceID := deviceID;
                ds_Scope := scope; ds_Iat := Unix t; ds_Exp := Unix exp;
                ds_Aud := sg_Audience k; ds_SessionID := sessionID |}) in
              ret {| dt_Token := tok; dt_ServerPublicKey := sg_PublicKey k; dt_KeyID := sg_KeyID k;
                     dt_IssuedAt := t; dt_ExpiresAt := exp; dt_Scope := scope |}
        end
  end.

(** The key identifiers and public keys a device checks tokens with; when a key first was
    asked for is left out. *)
Definition ListDeviceSessionPublicKeys : list (string * bytes) :=
  match HasDeviceSessionSigner with
  | Some k => [(sg_KeyID k, sg_PublicKey k)]
  | None => []
  end.

End Keys.
