(* ===== verification/Kyc.v ===== *)
(** * Identity verification (internal/service/kyc, internal/repository/kycrepo)

    Users submit their NIN for tier two and their BVN for tier three; a submission is
    recorded either way, and one that matches promotes the user in the same transaction. *)

From Stdlib Require Import Ascii.
From S2P Require Import Prelude Domain Json Store AuthStore Repo AuthRepo Text UserAuth.

(** ** The repository (kycrepo/repo.go) *)

Definition Kycrepo_ErrNotFound : error := ErrNew "kycrepo: not found".

Record UserContext := { uc_Phone : string; uc_KYCTier : string }.

Section KycRepo.
Context {E : Env}.

(** [if errors.Is(err, pgx.ErrNoRows) { return ErrNotFound }]. *)
Definition kyc_or_missing {A} (m : dbop A) : dbop A :=
  let! r := attempt m in
  match r with
  | Ok a => ret a
  | Err e => throw (if errors_is e ErrNoRows then Kycrepo_ErrNotFound else e)
  end.

Definition GetUserContext (userID : string) : dbop UserContext :=
  let! row := kyc_or_missing (query (q_GetUserPhoneAndTier userID)) in
  ret {| uc_Phone := row.1; uc_KYCTier := row.2 |}.

(** [in.TierGranted != nil && *in.TierGranted != ""]. *)
Definition granted (t : option string) : option string :=
  match t with Some x => if bool_decide (x = "") then None else Some x | None => None end.

Definition submit_in_tx (i : InsertKYCSubmissionParams) : dbop Time :=
  do! exec (q_InsertKYCSubmission i) in
  do! (match granted (ik_TierGranted i) with
       | Some tier => wrapping "promote tier" (exec (q_PromoteUserToTier (ik_UserID i) tier))
       | None => ret tt
       end) in
  query (q_GetKYCSubmissionSubmittedAt (ik_ID i)).

Definition Kycrepo_Submit (i : InsertKYCSubmissionParams) : dbop Time :=
  let! submittedAt := Tx (submit_in_tx i) in
  do! (match granted (ik_TierGranted i) with
       | Some _ => emit (EvCacheDel ["user:tier:" +:+ ik_UserID i; "user:me:" +:+ ik_UserID i])%string
       | None => ret tt
       end) in
  ret submittedAt.

Definition ListByUser (userID : string) : dbop (list (string * KycSubmissionRow)) :=
  query (q_ListKYCSubmissionsByUser userID).

Definition GetUserPhone (userID : string) : dbop string :=
  kyc_or_missing (query (q_GetUserPhoneByID userID)).

End KycRepo.

(** ** The service (kyc/service.go) *)

Definition IDTypeNIN : string := "NIN".
Definition IDTypeBVN : string := "BVN".
Definition statusVerified : string := "VERIFIED".
Definition statusRejected : string := "REJECTED".
Definition TierTwo : string := "TIER_2".
Definition TierThree : string := "TIER_3".

Definition Kyc_ErrUserNotFound : error := ErrNew "kyc: user not found".
Definition ErrInvalidInput : error := ErrNew "kyc: invalid input".

Record Submission := {
  sb_ID : string;
  sb_UserID : string;
  sb_IDType : string;
  sb_IDNumber : string;
  sb_Status : string;
  sb_RejectionReason : option string;
  sb_TierGranted : option string;
  sb_SubmittedBy : option string;
  sb_SubmittedAt : Time;
  sb_VerifiedAt : option Time;
}.

Definition allDigits (s : string) : bool := all_digits s && negb (bool_decide (s = "")).

Fixpoint digits_of (s : string) : string :=
  match s with
  | EmptyString => EmptyString
  | String a rest => if is_digit a then String a (digits_of rest) else digits_of rest
  end.

Definition last8Digits (phone : string) : string :=
  let digits := digits_of phone in
  if (String.length digits <? 8)%nat then ""
  else String.substring (String.length digits - 8) 8 digits.

Definition Expected (phone idType : string) : result string :=
  let last8 := last8Digits phone in
  if bool_decide (last8 = "")
  then Err (ErrNew "phone has fewer than 8 digits; cannot derive mock KYC id")
  else if String.eqb (ToUpper idType) IDTypeBVN then Ok ("222" +:+ last8)%string
  else if String.eqb (ToUpper idType) IDTypeNIN then Ok ("333" +:+ last8)%string
  else Err (ErrNew ("unknown id_type " +:+ idType)%string).

Definition Kyc_tierFor (idType : string) : string :=
  if String.eqb idType IDTypeBVN then TierThree else TierTwo.

Section Kyc.
Context {E : Env}.

(** What is submitted, once it is well-formed. *)
Definition read_id (idType idNumber : string) : result (string * string) :=
  let ty := ToUpper (TrimSpace idType) in
  let num := TrimSpace idNumber in
  if negb (String.eqb ty IDTypeNIN) && negb (String.eqb ty IDTypeBVN)
  then Err (ErrWrap "id_type must be NIN or BVN" ErrInvalidInput)
  else if negb (String.length num =? 11)%nat || negb (allDigits num)
  then Err (ErrWrap "id_number must be 11 digits" ErrInvalidInput)
  else Ok (ty, num).

(** The verdict on a number: the status, the reason, the tier and the time. *)
Definition judge (idType idNumber expected : string)
  : dbop (string * option string * option string * option Time) :=
  if negb (String.eqb idNumber expected)
  then ret (statusRejected, Some "id_number does not match expected pattern for this user",
            None, None)
  else let! t := now in ret (statusVerified, None, Some (Kyc_tierFor idType), Some t).

Definition Submit (userID idType idNumber : string) : dbop Submission :=
  let! id := lift (read_id idType idNumber) in
  let ty := id.1 in
  let num := id.2 in
  let! r := attempt (GetUserContext userID) in
  match r with
  | Err e => throw (if errors_is e Kycrepo_ErrNotFound then Kyc_ErrUserNotFound else e)
  | Ok uc =>
      let! expected := lift (Expected (uc_Phone uc) ty) in
      let! verdict := judge ty num expected in
      let '(status, reason, tier, verifiedAt) := verdict in
      let! subID := newID in
      let! submittedAt := Kycrepo_Submit {|
        ik_ID := subID; ik_UserID := userID; ik_IDType := ty; ik_IDNumber := num;
        ik_Status := status; ik_RejectionReason := reason; ik_TierGranted := tier;
        ik_SubmittedBy := Some userID; ik_VerifiedAt := verifiedAt |} in
      ret {| sb_ID := subID; sb_UserID := userID; sb_IDType := ty; sb_IDNumber := num;
             sb_Status := status; sb_RejectionReason := reason; sb_TierGranted := tier;
             sb_SubmittedBy := Some userID; sb_SubmittedAt := submittedAt;
             sb_VerifiedAt := verifiedAt |}
  end.

Definition Kyc_List (userID : string) : dbop (list Submission) :=
  let! rows := ListByUser userID in
  ret (map (fun r => {|
    sb_ID := r.1; sb_UserID := ks_UserID r.2; sb_IDType := ks_IDType r.2;
    sb_IDNumber := ks_IDNumber r.2; sb_Status := ks_Status r.2;
    sb_RejectionReason := ks_RejectionReason r.2; sb_TierGranted := ks_TierGranted r.2;
    sb_SubmittedBy := ks_SubmittedBy r.2; sb_SubmittedAt := ks_SubmittedAt r.2;
    sb_VerifiedAt := ks_VerifiedAt r.2 |}) rows).

Definition Hint (userID : string) : dbop (gmap string string) :=
  let! r := attempt (GetUserPhone userID) in
  match r with
  | Err e => throw (if errors_is e Kycrepo_ErrNotFound then Kyc_ErrUserNotFound else e)
  | Ok phone =>
      let! bvn := lift (Expected phone IDTypeBVN) in
      let! nin := lift (Expected phone IDTypeNIN) in
      ret (<["BVN" := bvn]> (<["NIN" := nin]> ∅))
  end.

End Kyc.
