(* ===== verification/Books.v ===== *)
(** * The books: balances, ledger and pending claims

    What the accounts, the ledger and the pending payments say about each other,
    as quantities, and how each repository operation moves them.  [money] is the
    abstract effect of the operations that move funds; the services' proofs
    compose it instead of opening the tables. *)

From S2P Require Import Prelude Domain Json Store Repo.

(** ** Quantities *)

Definition bal (d : db) (id : string) : Z :=
  match accounts d !! id with Some a => a_BalanceKobo a | None => 0 end.

Definition signed (e : LedgerEntry) : Z :=
  match le_Direction e with
  | LedgerDirectionCREDIT => le_AmountKobo e
  | LedgerDirectionDEBIT => - le_AmountKobo e
  end.

(** Credits less debits of an account. *)
Fixpoint net_of (id : string) (l : list LedgerEntry) : Z :=
  match l with
  | [] => 0
  | e :: rest => (if decide (le_AccountID e = id) then signed e else 0) + net_of id rest
  end.

Definition net (d : db) (id : string) : Z := net_of id (ledger_entries d).

Definition pending_amount (p : PaymentRow) : Z :=
  if decide (p_Status p = TxPending) then p_AmountKobo p else 0.

Definition pending_to (u : string) (p : PaymentRow) : Z :=
  if decide (p_PayeeUserID p = u) then pending_amount p else 0.

Definition pend_all (d : db) : Z := sum_rows (fun _ p => pending_amount p) (payment_tokens d).
Definition pend_to (d : db) (u : string) : Z :=
  sum_rows (fun _ p => pending_to u p) (payment_tokens d).

Lemma net_of_app id l1 l2 : net_of id (l1 ++ l2) = net_of id l1 + net_of id l2.
Proof. induction l1 as [|e l1 IH]; cbn; [done|]. rewrite IH. lia. Qed.

Lemma ledger_sum_app P l1 l2 : ledger_sum P (l1 ++ l2) = ledger_sum P l1 + ledger_sum P l2.
Proof. induction l1 as [|e l1 IH]; cbn; [done|]. rewrite IH. lia. Qed.

Lemma net_of_sums id l :
  net_of id l =
    ledger_sum (fun e => of_account id e && has_direction LedgerDirectionCREDIT e) l
    - ledger_sum (fun e => of_account id e && has_direction LedgerDirectionDEBIT e) l.
Proof.
  induction l as [|e l IH]; cbn; [done|]. rewrite IH.
  unfold of_account, has_direction, signed.
  case_decide; [rewrite bool_decide_true by done | rewrite bool_decide_false by done];
    destruct (le_Direction e); cbn; repeat case_bool_decide; try congruence; lia.
Qed.

(** Summing over accounts gives the ledger's total, when every entry's account is
    in the table. *)
Fixpoint ledger_total (l : list LedgerEntry) : Z :=
  match l with [] => 0 | e :: rest => signed e + ledger_total rest end.

Lemma sum_rows_single {A} (m : gmap string A) k v a :
  m !! k = Some a -> sum_rows (fun i _ => if decide (k = i) then v else 0) m = v.
Proof.
  intros Hk. rewrite (sum_rows_delete _ _ _ _ Hk). rewrite decide_True by done.
  rewrite sum_rows_zero; [lia|]. intros k' a' Hk'. apply lookup_delete_Some in Hk' as [? _].
  by rewrite decide_False.
Qed.

Lemma sum_net_of (m : gmap string Account) l :
  (forall e, e ∈ l -> is_Some (m !! le_AccountID e)) ->
  sum_rows (fun id _ => net_of id l) m = ledger_total l.
Proof.
  induction l as [|e l IH]; intros H; cbn.
  - by apply sum_rows_zero.
  - rewrite (sum_rows_add (fun id _ => if decide (le_AccountID e = id) then signed e else 0)).
    destruct (H e) as [a Ha]; [left|]. rewrite (sum_rows_single _ _ _ _ Ha).
    rewrite IH; [done|]. intros e' He'. apply H. by right.
Qed.

(** ** The deferred trigger *)

Lemma bigint_ok z x : bigint z = Ok x -> x = z /\ in_int64 z = true.
Proof. unfold bigint. destruct (in_int64 z); [|discriminate]. by intros [= <-]. Qed.

Lemma ledger_sum_none P l : (forall e, e ∈ l -> P e = false) -> ledger_sum P l = 0.
Proof.
  induction l as [|e l IH]; intros H; cbn; [done|].
  rewrite (H e) by left. rewrite IH; [done|]. intros e' He'. apply H. by right.
Qed.

Lemma check_ledger_ok d :
  check_ledger_txn_balanced d = Ok tt ->
  forall txn, txn_debits txn (ledger_entries d) = txn_credits txn (ledger_entries d).
Proof.
  unfold check_ledger_txn_balanced. set (l := ledger_entries d). intros H txn.
  destruct (existsb (of_txn txn) l) eqn:Hex.
  - apply existsb_exists in Hex as (e & Hin & He). apply list_elem_of_In in Hin.
    unfold of_txn in He. apply bool_decide_eq_true in He. subst txn.
    clearbody l. revert H Hin.
    enough (forall l', foldr (fun e0 acc => try _ := acc in
        try dr := bigint (txn_debits (le_TxnID e0) l) in
        try cr := bigint (txn_credits (le_TxnID e0) l) in
        check "ledger txn unbalanced" (dr =? cr)) (Ok tt) l' = Ok tt -> e ∈ l' ->
        txn_debits (le_TxnID e) l = txn_credits (le_TxnID e) l) as Hx by (apply Hx).
    induction l' as [|e' l' IH]; cbn; intros H Hin; [by apply not_elem_of_nil in Hin|].
    apply result_bind_ok in H as ([] & Hrest & H).
    apply result_bind_ok in H as (dr & Hdr & H).
    apply result_bind_ok in H as (cr & Hcr & H).
    apply bigint_ok in Hdr as [-> _]. apply bigint_ok in Hcr as [-> _].
    apply guard_or_ok, Z.eqb_eq in H.
    apply elem_of_cons in Hin as [->|Hin]; [done | by apply IH].
  - assert (forall e, e ∈ l -> of_txn txn e = false) as Hno.
    { intros e He. destruct (of_txn txn e) eqn:Ho; [|done].
      assert (existsb (of_txn txn) l = true); [|congruence].
      apply existsb_exists. exists e. split; [by apply list_elem_of_In | done]. }
    unfold txn_debits, txn_credits.
    rewrite !ledger_sum_none; [done| |]; intros e He; by rewrite Hno.
Qed.

(** ** The effect of moving funds *)

(** An entry of the ledger is a positive amount on an account of the table. *)
Definition posted (d : db) (e : LedgerEntry) : Prop :=
  is_Some (accounts d !! le_AccountID e) /\ 0 < le_AmountKobo e.

(** From [d] to [d'], balances change by [f] and the ledger's net by [g]; the
    accounts keep their owner and kind and, unless they are suspense accounts,
    stay non-negative. *)
Record moved (d d' : db) (f g : string -> Z) : Prop := {
  moved_bal id : bal d' id = bal d id + f id;
  moved_net id : net d' id = net d id + g id;
  moved_meta id : (fun a => (a_UserID a, a_Kind a)) <$> accounts d' !! id
                  = (fun a => (a_UserID a, a_Kind a)) <$> accounts d !! id;
  moved_nonneg :
    (forall id a, accounts d !! id = Some a ->
       a_Kind a <> AccountKindSuspense -> 0 <= a_BalanceKobo a) ->
    forall id a, accounts d' !! id = Some a ->
      a_Kind a <> AccountKindSuspense -> 0 <= a_BalanceKobo a;
  moved_posted :
    (forall e, e ∈ ledger_entries d -> posted d e) ->
    forall e, e ∈ ledger_entries d' -> posted d' e;
}.

(** The tables other than the accounts and the ledger. *)
Definition rest (d : db) :=
  (users d, signing_keys d, bank_signing_keys d, ceiling_tokens d, payment_tokens d,
   transactions d, transfers d, outbox d, processed_events d).

(** Funds move and nothing else happens. *)
Definition money (d d' : db) (f g : string -> Z) : Prop :=
  moved d d' f g /\ rest d' = rest d.

Definition no_move : string -> Z := fun _ => 0.
Definition move_at (id : string) (n : Z) : string -> Z :=
  fun x => if decide (x = id) then n else 0.

Lemma moved_same d d' :
  accounts d' = accounts d -> ledger_entries d' = ledger_entries d ->
  moved d d' no_move no_move.
Proof.
  intros Ha Hl. constructor; unfold no_move, bal, net, posted; rewrite ?Ha, ?Hl; intros;
    try lia; eauto.
Qed.

Lemma money_refl d : money d d no_move no_move.
Proof. split; [by apply moved_same | done]. Qed.

Lemma moved_trans d1 d2 d3 f1 g1 f2 g2 :
  moved d1 d2 f1 g1 -> moved d2 d3 f2 g2 ->
  moved d1 d3 (fun x => f1 x + f2 x) (fun x => g1 x + g2 x).
Proof.
  intros [] []. constructor; intros; try congruence.
  - rewrite moved_bal1, moved_bal0. lia.
  - rewrite moved_net1, moved_net0. lia.
  - eapply moved_nonneg1; [|eassumption..]. eauto.
  - eapply moved_posted1; [|eassumption]. eauto.
Qed.

Lemma money_trans d1 d2 d3 f1 g1 f2 g2 :
  money d1 d2 f1 g1 -> money d2 d3 f2 g2 ->
  money d1 d3 (fun x => f1 x + f2 x) (fun x => g1 x + g2 x).
Proof. intros [H1 R1] [H2 R2]. split; [by eapply moved_trans | congruence]. Qed.

Lemma moved_ext d d' f g f' g' :
  moved d d' f g -> (forall x, f x = f' x) -> (forall x, g x = g' x) -> moved d d' f' g'.
Proof.
  intros [] Hf Hg. constructor; intros; rewrite <- ?Hf, <- ?Hg; eauto.
Qed.

Lemma money_ext d d' f g f' g' :
  money d d' f g -> (forall x, f x = f' x) -> (forall x, g x = g' x) -> money d d' f' g'.
Proof. intros [H R] Hf Hg. split; [by eapply moved_ext | done]. Qed.

Lemma set_balance_money id a v d a' d' :
  accounts d !! id = Some a -> set_balance id a v d = Ok (a', d') ->
  money d d' (move_at id (v - a_BalanceKobo a)) no_move.
Proof.
  intros Ha H. unfold set_balance in H.
  apply result_bind_ok in H as (b & Hb & H). apply bigint_ok in Hb as [-> _].
  apply result_bind_ok in H as ([] & Hc & [= <- <-]). apply guard_or_ok in Hc.
  assert (forall e, is_Some (accounts d !! e) -> is_Some (accounts (with_accounts
    (<[id:={| a_UserID := a_UserID a; a_Kind := a_Kind a; a_BalanceKobo := v |}]> (accounts d))
    d) !! e)) as Hsome.
  { intros e. cbn. destruct (decide (e = id)) as [->|];
      [rewrite lookup_insert_eq | rewrite lookup_insert_ne by done]; done. }
  split; [|done]. constructor; unfold move_at, no_move, bal, net; cbn; intros.
  - destruct (decide (id0 = id)) as [->|Hn].
    + rewrite lookup_insert_eq, Ha. cbn. lia.
    + rewrite lookup_insert_ne by done. lia.
  - lia.
  - destruct (decide (id0 = id)) as [->|Hn];
      [by rewrite lookup_insert_eq, Ha | by rewrite lookup_insert_ne].
  - destruct (decide (id0 = id)) as [->|Hn].
    + rewrite lookup_insert_eq in H0. injection H0 as <-. cbn in *.
      rewrite bool_decide_false in Hc by done. cbn in Hc. by apply Z.leb_le.
    + rewrite lookup_insert_ne in H0 by done. eauto.
  - destruct (H e H0). split; [by apply Hsome|done].
Qed.

Lemma insert_entry_money e t d u d' :
  q_InsertLedgerEntry e t d = Ok (u, d') ->
  money d d' no_move (move_at (le_AccountID e) (signed e)).
Proof.
  unfold q_InsertLedgerEntry. intros H.
  apply result_bind_ok in H as (? & _ & H). apply result_bind_ok in H as (? & Hpos & H).
  apply result_bind_ok in H as (? & _ & H). apply result_bind_ok in H as (? & Hfk & H).
  apply result_bind_ok in H as (? & _ & H). injection H as _ <-.
  apply guard_or_ok, Z.ltb_lt in Hpos.
  apply guard_or_ok, bool_decide_eq_true in Hfk.
  split; [|done]. constructor; unfold move_at, no_move, bal, net; cbn; intros; try lia; try done.
  - rewrite net_of_app. cbn. case_decide; case_decide; congruence || lia.
  - eauto.
  - apply elem_of_app in H0 as [H0|H0%list_elem_of_singleton]; [by apply H | by subst].
Qed.

Definition leg_sign (leg : LedgerLeg) : Z :=
  if String.eqb (lg_Direction leg) "DEBIT" then - lg_Amount leg else lg_Amount leg.

Fixpoint legs_net (legs : list LedgerLeg) (id : string) : Z :=
  match legs with
  | [] => 0
  | leg :: rest => move_at (lg_AccountID leg) (leg_sign leg) id + legs_net rest id
  end.

Section Ops.
Context {E : Env}.
Implicit Types w : world db effect.

Lemma runs_GetAccountID u k w id w' :
  runs (GetAccountID u k) w id w' ->
  w_st w' = w_st w /\
  exists a, accounts (w_st w) !! id = Some a /\ a_UserID a = u /\ a_Kind a = k.
Proof.
  unfold GetAccountID. rewrite runs_bind. intros ([i a] & w1 & Hq & Hr).
  apply runs_query in Hq as (_ & Hq & ->). apply runs_ret in Hr as [-> ->].
  split; [done|]. apply first_row_ok in Hq as [Hi Ha].
  unfold account_is in Ha. apply andb_true_iff in Ha as [H2 H3].
  apply bool_decide_eq_true in H2, H3. cbn. eauto.
Qed.

Lemma runs_DebitAccount id n w u w' :
  runs (DebitAccount id n) w u w' ->
  money (w_st w) (w_st w') (move_at id (- n)) no_move /\ n <= bal (w_st w) id.
Proof.
  unfold DebitAccount. rewrite runs_bind. intros (x & w1 & Hq & Hr).
  apply runs_ret in Hr as [-> ->]. apply runs_exec in Hq as (_ & d & Hq & ->). cbn.
  unfold q_DecrementAccountBalance in Hq.
  destruct (accounts _ !! id) as [a|] eqn:Ha; [|discriminate].
  destruct (n <=? a_BalanceKobo a) eqn:Hn; [|discriminate]. apply Z.leb_le in Hn.
  split; [|unfold bal; by rewrite Ha].
  pose proof (set_balance_money _ _ _ _ _ _ Ha Hq) as Hm.
  replace (- n) with (a_BalanceKobo a - n - a_BalanceKobo a) by lia. done.
Qed.

Lemma runs_ForceDebitAccount id n w u w' :
  runs (ForceDebitAccount id n) w u w' ->
  money (w_st w) (w_st w') (move_at id (- n)) no_move.
Proof.
  unfold ForceDebitAccount. rewrite runs_bind. intros (x & w1 & Hq & Hr).
  apply runs_ret in Hr as [-> ->]. apply runs_exec in Hq as (_ & d & Hq & ->). cbn.
  unfold q_ForceDecrementAccountBalance in Hq.
  destruct (accounts _ !! id) as [a|] eqn:Ha; [|discriminate].
  pose proof (set_balance_money _ _ _ _ _ _ Ha Hq) as Hm.
  replace (- n) with (a_BalanceKobo a - n - a_BalanceKobo a) by lia. done.
Qed.

Lemma runs_CreditAccount id n w u w' :
  runs (CreditAccount id n) w u w' ->
  money (w_st w) (w_st w') (move_at id n) no_move.
Proof.
  unfold CreditAccount. rewrite runs_bind. intros (x & w1 & Hq & Hr).
  apply runs_ret in Hr as [-> ->]. apply runs_exec in Hq as (_ & d & Hq & ->). cbn.
  unfold q_IncrementAccountBalance in Hq.
  destruct (accounts _ !! id) as [a|] eqn:Ha; [|discriminate].
  pose proof (set_balance_money _ _ _ _ _ _ Ha Hq) as Hm.
  replace n with (a_BalanceKobo a + n - a_BalanceKobo a) by lia. done.
Qed.

Lemma runs_post_leg txn leg w u w' :
  runs (post_leg txn leg) w u w' ->
  money (w_st w) (w_st w') no_move (move_at (lg_AccountID leg) (leg_sign leg))
  /\ 0 < lg_Amount leg.
Proof.
  unfold post_leg. rewrite runs_bind. intros (dir & w1 & Hd & H).
  apply runs_lift in Hd as [Hd ->]. apply runs_bind in H as (id & w2 & Hid & H).
  apply runs_fresh in Hid as [-> ->]. apply runs_wrapping, runs_exec in H as (_ & d & H & ->).
  cbn in *. split.
  - apply insert_entry_money in H. cbn in H. unfold leg_sign, signed in *. cbn in *.
    unfold leg_direction in Hd.
    destruct (String.eqb (lg_Direction leg) "DEBIT"); [injection Hd as <-; done|].
    destruct (String.eqb (lg_Direction leg) "CREDIT"); [injection Hd as <-; done|discriminate].
  - unfold q_InsertLedgerEntry in H. apply result_bind_ok in H as (? & _ & H).
    apply result_bind_ok in H as (? & Hc & _). apply guard_or_ok in Hc. by apply Z.ltb_lt.
Qed.

Lemma runs_post_legs txn legs w u w' :
  runs (for_each legs (fun _ leg => post_leg txn leg) tt) w u w' ->
  money (w_st w) (w_st w') no_move (legs_net legs).
Proof.
  revert w. induction legs as [|leg legs IH]; intros w H; cbn in H.
  - apply runs_ret in H as [_ ->]. apply (money_ext _ _ _ _ _ _ (money_refl _)); done.
  - apply runs_bind in H as ([] & w1 & H & H0).
    apply runs_post_leg in H as [H _]. apply IH in H0.
    eapply money_ext; [eapply money_trans; [exact H|exact H0]| |]; intros; cbn;
      unfold no_move; lia.
Qed.

Lemma runs_PostLedger txn legs w u w' :
  runs (PostLedger txn legs) w u w' ->
  money (w_st w) (w_st w') no_move (legs_net legs).
Proof.
  unfold PostLedger. case_bool_decide; [by rewrite runs_throw|].
  destruct (length legs <? 2)%nat; [by rewrite runs_throw|]. apply runs_post_legs.
Qed.

End Ops.

(** ** What the other operations change *)

(** Opens a statement's guards one by one, keeping what each established. *)
Ltac guards H :=
  repeat match type of H with
  | result_bind _ _ = Ok _ =>
      let x := fresh "x" in let Hg := fresh "Hg" in
      apply result_bind_ok in H as (x & Hg & H)
  end.

Lemma fk_ok {A} n (m : gmap string A) id u : fk n m id = Ok u -> is_Some (m !! id).
Proof. intros H. apply guard_or_ok in H. by apply bool_decide_eq_true in H. Qed.

Lemma pk_ok {A} n (m : gmap string A) id u : pk n m id = Ok u -> m !! id = None.
Proof. intros H. apply guard_or_ok in H. by apply bool_decide_eq_true in H. Qed.

Lemma unique_ok {A} n P (m : gmap string A) u :
  unique n P m = Ok u -> forall k a, m !! k = Some a -> P k a = false.
Proof. intros H. apply guard_or_ok, negb_true_iff in H. by apply exists_row_false. Qed.

(** The ceilings after a status update. *)
Definition ceilings_after (id : string) (st : CeilingStatus) (m : gmap string CeilingRow)
  : gmap string CeilingRow := alter (set_c_Status st) id m.

Section Ops2.
Context {E : Env}.
Implicit Types w : world db effect.

Lemma runs_RecordTransaction p w u w' :
  runs (RecordTransaction p) w u w' ->
  transactions (w_st w) !! rt_ID p = None /\ 0 < rt_AmountKobo p /\
  exists t, w_st w' =
    with_transactions (<[rt_ID p := new_txn p t]> (transactions (w_st w))) (w_st w).
Proof.
  unfold RecordTransaction. rewrite runs_exec. intros (_ & d & H & ->). cbn.
  unfold q_RecordTransaction in H. guards H. injection H as _ <-.
  apply guard_or_ok in Hg0. apply pk_ok in Hg1. split; [done|]. split; [by apply Z.ltb_lt|].
  eauto.
Qed.

Lemma runs_UpdateCeilingStatus id st w u w' :
  runs (UpdateCeilingStatus id st) w u w' ->
  w_st w' = w_st w /\ ceiling_tokens (w_st w) !! id = None
  \/ exists c, ceiling_tokens (w_st w) !! id = Some c /\
       w_st w' = with_ceiling_tokens
                   (<[id := set_c_Status st c]> (ceiling_tokens (w_st w))) (w_st w).
Proof.
  unfold UpdateCeilingStatus. rewrite runs_exec. intros (_ & d & H & ->). cbn.
  unfold q_UpdateCeilingStatus in H. apply result_bind_ok in H as ([] & _ & H).
  destruct (ceiling_tokens _ !! id) as [c|] eqn:Hc.
  - guards H. injection H as _ <-. right. eauto.
  - injection H as _ <-. left. done.
Qed.

Lemma runs_UpdateCeilingStatus' id st w u w' :
  runs (UpdateCeilingStatus id st) w u w' ->
  moved (w_st w) (w_st w') no_move no_move /\
  payment_tokens (w_st w') = payment_tokens (w_st w) /\
  ceiling_tokens (w_st w') = ceilings_after id st (ceiling_tokens (w_st w)).
Proof.
  intros H. apply runs_UpdateCeilingStatus in H as [[-> Hc]|(c & Hc & ->)].
  - split; [by apply moved_same|]. split; [done|]. unfold ceilings_after.
    symmetry. apply map_eq. intros j. destruct (decide (j = id)) as [->|Hn].
    + by rewrite lookup_alter_eq, Hc.
    + by rewrite lookup_alter_ne.
  - split; [by apply moved_same|]. split; [done|]. cbn. unfold ceilings_after.
    apply map_eq. intros j. destruct (decide (j = id)) as [->|Hn].
    + by rewrite lookup_insert_eq, lookup_alter_eq, Hc.
    + by rewrite lookup_insert_ne, lookup_alter_ne.
Qed.

Lemma runs_IssueCeilingToken p w ct w' :
  runs (IssueCeilingToken p) w ct w' ->
  exists id row issued expires t,
    (ic_ID p <> "" -> id = ic_ID p) /\
    tsz (ic_IssuedAt p) = Some issued /\ tsz (ic_ExpiresAt p) = Some expires /\
    row = {| c_PayerUserID := ic_PayerUserID p; c_CeilingKobo := ic_CeilingAmount p;
             c_SequenceStart := ic_SequenceStart p; c_IssuedAt := issued;
             c_ExpiresAt := expires; c_PayerPubkey := ic_PayerPublicKey p;
             c_BankKeyID := ic_BankKeyID p; c_BankSig := ic_BankSignature p;
             c_Status := CeilingActive; c_LienAccountID := ic_LienAccountID p;
             c_CreatedAt := t; c_ReleaseAfter := None |} /\
    ct = ceilingToDomain (id, row) /\
    0 < ic_CeilingAmount p <= int64_max /\
    ceiling_tokens (w_st w) !! id = None /\
    (forall i c, ceiling_tokens (w_st w) !! i = Some c ->
       live_of (ic_PayerUserID p) c = false) /\
    w_st w' = with_ceiling_tokens (<[id := row]> (ceiling_tokens (w_st w))) (w_st w).
Proof.
  unfold IssueCeilingToken. rewrite runs_bind. intros (i & w1 & Hi & H).
  assert ((ic_ID p <> "" -> i = ic_ID p) /\ w_st w1 = w_st w) as [Hid Hw1].
  { case_bool_decide; [apply runs_fresh in Hi as [_ ->] | apply runs_ret in Hi as [-> ->]];
      done. }
  apply runs_bind in H as (row & w2 & H & Hr). apply runs_ret in Hr as [-> ->].
  apply runs_exec in H as (_ & d & H & ->). cbn in *.
  rewrite Hw1 in *. unfold q_CreateCeilingToken in H. cbn in H. guards H. injection H as <- <-.
  unfold not_null in *.
  destruct (tsz (ic_IssuedAt p)) as [issued|] eqn:Hi1; [|discriminate].
  destruct (tsz (ic_ExpiresAt p)) as [expires|] eqn:Hi2; [|discriminate].
  injection Hg1 as ->. injection Hg2 as ->.
  apply bigint_ok in Hg as [-> Hrange]. apply in_int64_spec in Hrange.
  apply bigint_ok in Hg0 as [-> _].
  apply guard_or_ok in Hg5. apply guard_or_ok in Hg8.
  apply pk_ok in Hg7. apply negb_true_iff in Hg8.
  do 5 eexists. split; [exact Hid|]. split; [done|]. split; [done|]. split; [done|]. split; [done|].
  apply Z.ltb_lt in Hg5. split; [lia|]. split; [done|]. split; [|done].
  intros j c Hic. by apply (proj1 (exists_row_false _ _) Hg8 j c).
Qed.

Lemma runs_CreatePayment p w tx w' :
  runs (CreatePayment p) w tx w' ->
  exists id row,
    (cp_ID p <> "" -> id = cp_ID p) /\
    p_CeilingID row = cp_CeilingID p /\ p_PayerUserID row = cp_PayerUserID p /\
    p_PayeeUserID row = cp_PayeeUserID p /\ p_AmountKobo row = cp_Amount p /\
    p_SequenceNumber row = cp_SequenceNumber p /\
    p_SettledAmountKobo row = 0 /\ p_Status row = default TxQueued (cp_Status p) /\
    p_SessionNonce row = cp_SessionNonce p /\
    p_SubmittedByUserID row = strPtr (cp_SubmittedByUserID p) /\
    0 < cp_Amount p /\ cp_Amount p <= int64_max /\ cp_PayerUserID p <> cp_PayeeUserID p /\
    payment_tokens (w_st w) !! id = None /\
    (forall i q, payment_tokens (w_st w) !! i = Some q ->
       same_sequence (cp_PayerUserID p) (cp_SequenceNumber p) q = false) /\
    (forall i q, payment_tokens (w_st w) !! i = Some q ->
       same_nonce (cp_PayeeUserID p) (cp_SessionNonce p) q = false) /\
    is_Some (ceiling_tokens (w_st w) !! cp_CeilingID p) /\
    w_st w' = with_payment_tokens (<[id := row]> (payment_tokens (w_st w))) (w_st w).
Proof.
  unfold CreatePayment. rewrite runs_bind. intros (i & w1 & Hi & H).
  assert ((cp_ID p <> "" -> i = cp_ID p) /\ w_st w1 = w_st w) as [Hid Hw1].
  { case_bool_decide; [apply runs_fresh in Hi as [_ ->] | apply runs_ret in Hi as [-> ->]];
      done. }
  apply runs_bind in H as (row & w2 & H & Hr). apply runs_ret in Hr as [-> ->].
  apply runs_exec in H as (_ & d & H & ->). cbn in *.
  rewrite Hw1 in *. unfold q_CreatePaymentToken in H. cbn in H. guards H. injection H as <- <-.
  apply bigint_ok in Hg as [-> Hg]. apply in_int64_spec in Hg.
  apply guard_or_ok in Hg7. apply guard_or_ok in Hg10.
  apply pk_ok in Hg11. apply negb_true_iff in Hg10.
  pose proof (unique_ok _ _ _ _ Hg12). pose proof (unique_ok _ _ _ _ Hg13).
  apply fk_ok in Hg14. cbn in *.
  do 2 eexists. split; [exact Hid|]. cbn. repeat split; try done; try lia.
  intros Heq. rewrite Heq, String.eqb_refl in Hg10. discriminate.
Qed.

Lemma runs_UpdatePaymentStatus id st settled reason batch sub_ set_ w tx w' :
  runs (UpdatePaymentStatus id st settled reason batch sub_ set_) w tx w' ->
  0 <= settled /\
  exists p t, payment_tokens (w_st w) !! id = Some p /\
    w_st w' = with_payment_tokens
      (<[id := set_payment_status st (strPtr reason) settled batch (tszPtr sub_)
                 (tszPtr set_) t p]> (payment_tokens (w_st w))) (w_st w).
Proof.
  unfold UpdatePaymentStatus. rewrite runs_bind. intros (row & w1 & H & Hr).
  apply runs_ret in Hr as [-> ->]. apply runs_exec in H as (_ & d & H & ->). cbn.
  unfold q_UpdatePaymentStatus in H.
  destruct (payment_tokens _ !! id) as [p|] eqn:Hp; [|discriminate].
  guards H. injection H as _ <-. apply guard_or_ok in Hg0.
  split; [by apply Z.leb_le|]. eauto.
Qed.

(** The paired rows of a group take the new status; no other table changes. *)
Lemma runs_update_txns (rows : list (string * TxnRow)) st settled failure w u w' :
  runs (for_each rows
          (fun _ row => exec (q_UpdateTransactionStatus row.1 st settled failure)) tt) w u w' ->
  exists m, w_st w' = with_transactions m (w_st w) /\
    (forall i, i ∉ rows.*1 -> m !! i = transactions (w_st w) !! i) /\
    (forall i x, transactions (w_st w) !! i = Some x ->
       exists x', m !! i = Some x' /\ x_PaymentTokenID x' = x_PaymentTokenID x /\
         x_Direction x' = x_Direction x /\ x_GroupID x' = x_GroupID x /\
         (i ∈ rows.*1 -> x_Status x' = st /\
            (is_Some settled -> x_SettledAmountKobo x' = settled))) /\
    (forall i, transactions (w_st w) !! i = None -> m !! i = None).
Proof.
  revert w. induction rows as [|[i x] rows IH]; intros w H; cbn in H.
  - apply runs_ret in H as [_ ->]. exists (transactions (w_st w)).
    split; [by destruct (w_st w)|]. split; [done|]. split; [|done].
    intros i x Hi. exists x. split_and!; try done. intros Hin; by apply not_elem_of_nil in Hin.
  - apply runs_bind in H as (v & w1 & H1 & H). destruct v.
    apply runs_exec in H1 as (_ & d & H1 & ->). apply IH in H as (m & Hst & Hne & Hin & Hno).
    cbn in *. unfold q_UpdateTransactionStatus in H1.
    destruct (transactions (w_st w) !! i) as [x0|] eqn:Hi; injection H1 as <-; cbn in *.
    + exists m. split; [by rewrite Hst; destruct (w_st w)|]. split; [|split].
      * intros j Hj. apply not_elem_of_cons in Hj as [Hj1 Hj2].
        rewrite Hne by done. by rewrite lookup_insert_ne.
      * intros j y Hj. destruct (decide (j = i)) as [->|Hn].
        -- destruct (Hin i _ (lookup_insert_eq _ _ _)) as (y' & Hy & H2 & H3 & H4 & H5).
           cbn in *. exists y'. rewrite Hi in Hj. injection Hj as <-.
           split_and!; try done. intros _.
           destruct (decide (i ∈ rows.*1)) as [Hr|Hr]; [by apply H5|].
           rewrite Hne, lookup_insert_eq in Hy by done. injection Hy as <-. cbn.
           split; [done|]. by intros [z ->].
        -- destruct (Hin j y) as (y' & Hy & H2 & H3 & H4 & H5).
           { by rewrite lookup_insert_ne. }
           exists y'. split_and!; try done. intros Hr. apply H5.
           by apply elem_of_cons in Hr as [?|?].
      * intros j Hj. apply Hno. rewrite lookup_insert_ne; [done|congruence].
    + exists m. split; [done|]. split; [|split].
      * intros j Hj. apply not_elem_of_cons in Hj as [Hj1 Hj2]. by apply Hne.
      * intros j y Hj. destruct (Hin j y Hj) as (y' & Hy & H2 & H3 & H4 & H5).
        exists y'. split_and!; try done. intros Hr. apply H5.
        apply elem_of_cons in Hr as [->|?]; [congruence|done].
      * done.
Qed.

End Ops2.

(** ** The invariant of the books *)

(** Double entry: every ledger transaction's debits equal its credits. *)
Definition balanced (d : db) : Prop :=
  forall txn, txn_debits txn (ledger_entries d) = txn_credits txn (ledger_entries d).

(** A payer's sequence number names one payment. *)
Definition sequences (m : gmap string PaymentRow) : Prop := forall i j p q,
  m !! i = Some p -> m !! j = Some q -> p_PayerUserID p = p_PayerUserID q ->
  p_SequenceNumber p = p_SequenceNumber q -> i = j.

Lemma sequences_insert m k r :
  sequences m ->
  (forall i q, m !! i = Some q ->
     same_sequence (p_PayerUserID r) (p_SequenceNumber r) q = false) ->
  sequences (<[k := r]> m).
Proof.
  intros Hm Hr.
  assert (forall i q, m !! i = Some q -> p_PayerUserID r = p_PayerUserID q ->
    p_SequenceNumber r = p_SequenceNumber q -> False) as Hclash.
  { intros i q Hi Hu Hs. pose proof (Hr i q Hi) as H. unfold same_sequence in H.
    by rewrite bool_decide_true, Hs, Z.eqb_refl in H. }
  intros i j p q Hi Hj Hu Hs.
  apply lookup_insert_Some in Hi as [[<- <-]|[_ Hi]];
    apply lookup_insert_Some in Hj as [[<- <-]|[_ Hj]]; try done.
  - by destruct (Hclash _ _ Hj).
  - by destruct (Hclash _ _ Hi).
  - by apply (Hm i j p q).
Qed.

(** Changing a row keeps the numbers, when the row keeps its own. *)
Lemma sequences_update m k r r' :
  sequences m -> m !! k = Some r -> p_PayerUserID r' = p_PayerUserID r ->
  p_SequenceNumber r' = p_SequenceNumber r -> sequences (<[k := r']> m).
Proof.
  intros Hm Hk Hu Hs i j p q Hi Hj Hpq Hseq.
  apply lookup_insert_Some in Hi as [[<- <-]|[_ Hi]];
    apply lookup_insert_Some in Hj as [[<- <-]|[_ Hj]]; try done.
  - apply (Hm k j r q); congruence.
  - apply (Hm i k p r); congruence.
  - by apply (Hm i j p q).
Qed.

(** [sus] is the suspense account of the settlement service. *)
Record books (sus : string) (d : db) : Prop := {
  bk_booked id : bal d id = net d id;
  bk_nonneg id a : accounts d !! id = Some a ->
    a_Kind a <> AccountKindSuspense -> 0 <= a_BalanceKobo a;
  bk_posted e : e ∈ ledger_entries d -> posted d e;
  bk_unique i j a b : accounts d !! i = Some a -> accounts d !! j = Some b ->
    a_UserID a = a_UserID b -> a_Kind a = a_Kind b -> i = j;
  bk_suspense : exists a, accounts d !! sus = Some a /\ a_Kind a = AccountKindSuspense;
  bk_suspense_bal : bal d sus = - pend_all d;
  bk_pending id a : accounts d !! id = Some a -> a_Kind a = AccountKindReceivingPending ->
    bal d id = pend_to d (a_UserID a);
  bk_amounts i p : payment_tokens d !! i = Some p -> 0 < p_AmountKobo p <= int64_max;
  bk_sequences : sequences (payment_tokens d);
}.

Lemma bal_lookup d id a : accounts d !! id = Some a -> bal d id = a_BalanceKobo a.
Proof. unfold bal. by intros ->. Qed.

Lemma meta_lookup d d' f g id a :
  moved d d' f g -> accounts d' !! id = Some a ->
  exists a0, accounts d !! id = Some a0 /\ a_UserID a0 = a_UserID a /\ a_Kind a0 = a_Kind a.
Proof.
  intros Hm Ha. pose proof (moved_meta _ _ _ _ Hm id) as H. rewrite Ha in H. cbn in H.
  destruct (accounts d !! id) as [a0|]; [|discriminate]. cbn in H. injection H as H1 H2.
  eauto.
Qed.

Lemma meta_lookup_fwd d d' f g id a :
  moved d d' f g -> accounts d !! id = Some a ->
  exists a', accounts d' !! id = Some a' /\ a_UserID a' = a_UserID a /\ a_Kind a' = a_Kind a.
Proof.
  intros Hm Ha. pose proof (moved_meta _ _ _ _ Hm id) as H. rewrite Ha in H. cbn in H.
  destruct (accounts d' !! id) as [a'|]; [|discriminate]. cbn in H. injection H as H1 H2.
  eauto.
Qed.

(** A step keeps the books when its balance changes equal its
    postings and the suspense and pending accounts follow the pending payments. *)
Lemma books_step sus d d' f g :
  books sus d -> moved d d' f g ->
  (forall x, f x = g x) ->
  f sus = pend_all d - pend_all d' ->
  (forall id a, accounts d !! id = Some a -> a_Kind a = AccountKindReceivingPending ->
     f id = pend_to d' (a_UserID a) - pend_to d (a_UserID a)) ->
  (forall i p, payment_tokens d' !! i = Some p -> 0 < p_AmountKobo p <= int64_max) ->
  sequences (payment_tokens d') ->
  books sus d'.
Proof.
  intros [] Hm Hfg Hsus Hpend Ham Hseq. constructor.
  - intros id. rewrite (moved_bal _ _ _ _ Hm), (moved_net _ _ _ _ Hm), Hfg. by f_equal.
  - by apply (moved_nonneg _ _ _ _ Hm).
  - by apply (moved_posted _ _ _ _ Hm).
  - intros i j a b Hi Hj Hu Hk.
    destruct (meta_lookup _ _ _ _ _ _ Hm Hi) as (a0 & Hi0 & Hu0 & Hk0).
    destruct (meta_lookup _ _ _ _ _ _ Hm Hj) as (b0 & Hj0 & Hu1 & Hk1).
    apply (bk_unique0 i j a0 b0); congruence.
  - destruct bk_suspense0 as (a & Ha & Hk).
    destruct (meta_lookup_fwd _ _ _ _ _ _ Hm Ha) as (a' & Ha' & _ & Hk'). exists a'.
    split; congruence.
  - rewrite (moved_bal _ _ _ _ Hm), Hsus. lia.
  - intros id a Ha Hk.
    destruct (meta_lookup _ _ _ _ _ _ Hm Ha) as (a0 & Ha0 & Hu0 & Hk0).
    rewrite (moved_bal _ _ _ _ Hm), (Hpend id a0) by congruence.
    rewrite (bk_pending0 id a0) by congruence. rewrite Hu0. lia.
  - done.
  - done.
Qed.

(** The same when no payment changes: only suspense and pending accounts must be
    left alone. *)
Lemma books_step_same_payments sus d d' f g :
  books sus d -> moved d d' f g -> payment_tokens d' = payment_tokens d ->
  (forall x, f x = g x) ->
  f sus = 0 ->
  (forall id a, accounts d !! id = Some a -> a_Kind a = AccountKindReceivingPending ->
     f id = 0) ->
  books sus d'.
Proof.
  intros Hb Hm Hp Hfg Hsus Hpend. unshelve eapply (books_step sus d d' f g); try done.
  - unfold pend_all. rewrite Hp. lia.
  - intros id a Ha Hk. unfold pend_to. rewrite Hp. rewrite (Hpend id a Ha Hk). lia.
  - rewrite Hp. apply Hb.
  - rewrite Hp. apply Hb.
Qed.

(** Changes of tables the books do not speak of. *)
Lemma books_same sus d d' :
  books sus d -> accounts d' = accounts d -> ledger_entries d' = ledger_entries d ->
  payment_tokens d' = payment_tokens d -> books sus d'.
Proof.
  intros [] Ha Hl Hp. constructor; unfold bal, net, pend_all, pend_to, posted in *;
    rewrite ?Ha, ?Hl, ?Hp; try done; rewrite <- ?Ha; eauto.
Qed.

(** Money is neither made nor lost: the balances of all accounts add up to zero,
    the system's suspense accounts being the counterweight. *)
Lemma ledger_total_sums l :
  (forall txn, txn_debits txn l = txn_credits txn l) -> ledger_total l = 0.
Proof.
  (* group the entries by transaction: remove one transaction's entries at a time *)
  remember (length l) as n eqn:Hn. assert (length l <= n)%nat as Hlen by lia. clear Hn.
  revert l Hlen. induction n as [|n IH]; intros l Hlen H.
  - destruct l; [done | cbn in Hlen; lia].
  - destruct l as [|e l]; [done|].
    set (l0 := e :: l) in *.
    set (other := List.filter (fun x => negb (of_txn (le_TxnID e) x)) l0).
    assert (forall l1, ledger_total l1 =
      (txn_credits (le_TxnID e) l1 - txn_debits (le_TxnID e) l1)
      + ledger_total (List.filter (fun x => negb (of_txn (le_TxnID e) x)) l1)) as Hsplit.
    { induction l1 as [|x l1 IHl]; [done|]. cbn. rewrite IHl.
      unfold txn_credits, txn_debits, signed, has_direction. cbn.
      destruct (of_txn (le_TxnID e) x); destruct (le_Direction x) eqn:Hd; cbn;
        repeat case_bool_decide; try congruence; cbn; unfold signed; rewrite ?Hd; lia. }
    rewrite Hsplit, H. rewrite IH; [lia| |].
    + assert (length (List.filter (fun x => negb (of_txn (le_TxnID e) x)) l0) <= length l)%nat.
      { subst l0. cbn. unfold of_txn at 1. rewrite bool_decide_true by done. cbn.
        apply filter_length_le. }
      cbn in Hlen. lia.
    + intros txn. unfold txn_debits, txn_credits.
      assert (forall P l1, ledger_sum (fun x => of_txn txn x && P x)
        (List.filter (fun x => negb (of_txn (le_TxnID e) x)) l1) =
        if decide (txn = le_TxnID e) then 0 else ledger_sum (fun x => of_txn txn x && P x) l1)
        as Hf.
      { intros P l1. induction l1 as [|x l1 IHl]; cbn; [by case_decide|].
        unfold of_txn in *. destruct (decide (le_TxnID x = le_TxnID e)) as [He|He].
        - rewrite bool_decide_true by done. cbn. rewrite IHl. case_decide; [done|].
          rewrite bool_decide_false by congruence. cbn. lia.
        - rewrite (bool_decide_false (le_TxnID x = le_TxnID e)) by done. cbn. rewrite IHl.
          case_decide; [|done]. rewrite bool_decide_false by congruence. done. }
      rewrite !Hf. case_decide; [done|]. apply H.
Qed.

Definition total_balance (d : db) : Z := sum_rows (fun _ a => a_BalanceKobo a) (accounts d).

Lemma sum_rows_fmap {A B} (h : A -> B) (f : string -> B -> Z) (m : gmap string A) :
  sum_rows f (h <$> m) = sum_rows (fun k a => f k (h a)) m.
Proof.
  induction m as [|k a m Hk IH] using map_ind; [by rewrite fmap_empty, !sum_rows_empty|].
  rewrite fmap_insert, !sum_rows_fresh, IH; [done|done|]. by rewrite lookup_fmap, Hk.
Qed.

(** Moving funds changes the balance of the accounts of some owners and kinds by what is
    moved into those that exist. *)
Lemma moved_sum d d' f g (q : string -> AccountKind -> bool) :
  moved d d' f g ->
  sum_rows (fun _ a => if q (a_UserID a) (a_Kind a) then a_BalanceKobo a else 0) (accounts d')
  = sum_rows (fun _ a => if q (a_UserID a) (a_Kind a) then a_BalanceKobo a else 0) (accounts d)
    + sum_rows (fun id a => if q (a_UserID a) (a_Kind a) then f id else 0) (accounts d).
Proof.
  intros Hm.
  rewrite (sum_rows_ext _ (fun id a => if q (a_UserID a) (a_Kind a) then bal d' id else 0) (accounts d'))
    by (intros k a Hk; by rewrite (bal_lookup _ _ _ Hk)).
  rewrite (sum_rows_ext (fun _ a => if q (a_UserID a) (a_Kind a) then a_BalanceKobo a else 0)
    (fun id a => if q (a_UserID a) (a_Kind a) then bal d id else 0) (accounts d))
    by (intros k a Hk; by rewrite (bal_lookup _ _ _ Hk)).
  rewrite <- sum_rows_add. set (h := fun a => (a_UserID a, a_Kind a)).
  assert (h <$> accounts d' = h <$> accounts d) as Hmeta.
  { apply map_eq. intros i. rewrite !lookup_fmap. apply (moved_meta _ _ _ _ Hm). }
  rewrite <- (sum_rows_fmap h (fun id x => if q x.1 x.2 then bal d' id else 0)), Hmeta,
    sum_rows_fmap.
  apply sum_rows_ext. intros k a _. cbn. rewrite (moved_bal _ _ _ _ Hm). by case_match.
Qed.

Lemma books_total sus d : books sus d -> balanced d -> total_balance d = 0.
Proof.
  intros [] Hbal. unfold total_balance.
  rewrite (sum_rows_ext _ (fun id _ => net_of id (ledger_entries d))).
  - rewrite sum_net_of by (intros; by apply bk_posted0). by apply ledger_total_sums.
  - intros k a Ha. rewrite <- (bal_lookup d k a Ha). apply bk_booked0.
Qed.

(** ** Transactions *)

(** What the body of a transaction keeps, the transaction keeps, and the deferred
    trigger keeps double entry whatever the body does. *)
Lemma preserves_Tx {E : Env} {A} (P : db -> Prop) (m : op db effect A) :
  (forall w a w', P (w_st w) -> runs m w a w' -> P (w_st w')) ->
  preserves (fun d => P d /\ balanced d) (Tx m).
Proof.
  intros H. unfold Tx. apply preserves_tx. intros w a w' [HP _] Hr Hck.
  split; [by eapply H | intros txn; by apply check_ledger_ok].
Qed.

(** ** Which errors an operation can return *)

(** The operation never fails with an error that is [e0]. *)
Definition never {E : Env} {S L A} (e0 : error) (m : op S L A) : Prop :=
  forall w e w', m w = (Err e, w') -> errors_is e e0 = false.

(** The errors the database itself reports. *)
Definition driver_error (e : error) : bool :=
  match e with ErrNew _ | ErrWrap _ _ | ErrJoin _ _ => false | _ => true end.

Definition statement {A} (r : result A) : Prop :=
  forall e, r = Err e -> driver_error e = true.

Lemma statement_ok {A} (a : A) : statement (Ok a).
Proof. by intros e. Qed.
Lemma statement_guard b e : driver_error e = true -> statement (guard_or b e).
Proof. intros He e'. unfold guard_or. destruct b; [done|]. by intros [= <-]. Qed.
Lemma statement_bind {A B} (r : result A) (k : A -> result B) :
  statement r -> (forall a, statement (k a)) -> statement (result_bind r k).
Proof. intros Hr Hk e. destruct r; cbn; [apply Hk | intros [= <-]; by apply Hr]. Qed.
Lemma statement_map {A B} (f : A -> B) r : statement r -> statement (result_map f r).
Proof. intros Hr e. destruct r; cbn; [done|]. intros [= <-]. by apply Hr. Qed.
Lemma statement_first_row {A} P (m : gmap string A) : statement (first_row P m).
Proof. intros e H. by apply first_row_err in H as [-> _]. Qed.
Lemma statement_err {A} e : driver_error e = true -> statement (Err (A:=A) e).
Proof. intros He e' [= <-]. done. Qed.

Create HintDb statement discriminated.
#[export] Hint Resolve statement_ok statement_guard statement_map statement_first_row
  statement_err : statement.
#[export] Hint Extern 1 (statement (result_bind _ _)) =>
  apply statement_bind; [| intros ?] : statement.
#[export] Hint Extern 1 (driver_error _ = true) => reflexivity : statement.
#[export] Hint Extern 3 (statement (match ?x with _ => _ end)) => destruct x : statement.
#[export] Hint Unfold bigint check fk fk_opt pk unique not_null not_null_bytes : statement.

Section Never.
Context {E : Env} {S L : Type}.
Variable t : string.

Lemma never_ret {A} (a : A) : never (S:=S) (L:=L) (ErrNew t) (ret a).
Proof. by intros w e w'. Qed.
Lemma never_fresh : never (S:=S) (L:=L) (ErrNew t) fresh.
Proof. by intros w e w'. Qed.
Lemma never_throw {A} e :
  errors_is e (ErrNew t) = false -> never (S:=S) (L:=L) (A:=A) (ErrNew t) (throw e).
Proof. intros He w e' w' [= <- _]. done. Qed.
Lemma never_lift {A} (r : result A) :
  (forall e, r = Err e -> errors_is e (ErrNew t) = false) ->
  never (S:=S) (L:=L) (ErrNew t) (lift r).
Proof. intros Hr w e w' [= -> _]. by apply Hr. Qed.
Lemma never_bind {A B} (m : op S L A) (k : A -> op S L B) :
  never (ErrNew t) m -> (forall a, never (ErrNew t) (k a)) -> never (ErrNew t) (bind m k).
Proof.
  intros Hm Hk w e w'. unfold bind. destruct (m w) as [[a|e'] w1] eqn:H.
  - apply Hk.
  - intros [= <- _]. by eapply Hm.
Qed.
Lemma never_wrapping {A} c (m : op S L A) :
  never (ErrNew t) m -> never (ErrNew t) (wrapping c m).
Proof.
  intros Hm w e w'. unfold wrapping. destruct (m w) as [[a|e'] w1] eqn:H; [done|].
  intros [= <- _]. cbn. rewrite bool_decide_false by done. by eapply Hm.
Qed.
Lemma never_driver e : driver_error e = true -> errors_is e (ErrNew t) = false.
Proof. destruct e; cbn; try done; intros _; by rewrite bool_decide_false. Qed.
Lemma never_exec {A} (f : Time -> S -> result (A * S)) :
  (forall n d, statement (f n d)) -> never (L:=L) (ErrNew t) (exec f).
Proof.
  intros Hf w e w'. unfold exec. destruct (fault _); [by intros [= <- _]; apply never_driver|].
  destruct (f _ _) as [[a d]|e'] eqn:H; [done|]. intros [= <- _]. by eapply never_driver, Hf.
Qed.
Lemma never_query {A} (f : S -> result A) :
  (forall d, statement (f d)) -> never (L:=L) (ErrNew t) (query f).
Proof. intros Hf. apply never_exec. intros n d. by apply statement_map. Qed.

End Never.

Create HintDb never discriminated.
#[export] Hint Resolve never_ret never_fresh never_wrapping never_exec never_query : never.
#[export] Hint Extern 2 (never _ (bind _ _)) => apply never_bind; [| intros ?] : never.
#[export] Hint Extern 3 (never _ (match ?x with _ => _ end)) => destruct x : never.
#[export] Hint Extern 3 (forall _ _, statement _) => intros; autounfold with statement;
  auto 20 with statement : never.
#[export] Hint Extern 3 (forall _, statement _) => intros; autounfold with statement;
  auto 20 with statement : never.

(** ** Operations that leave the database alone *)

Lemma quiet_runs {E : Env} {S L A} (m : op S L A) w a w' :
  (forall P : S -> Prop, preserves P m) -> runs m w a w' -> w_st w' = w_st w.
Proof.
  intros Hm H. by apply (runs_preserves (fun d => d = w_st w) m w a w' (Hm _) H).
Qed.

Section Quiet.
Context {E : Env} {K : CacheEnv}.
Implicit Types P : db -> Prop.

Lemma preserves_GetAccountID P u k : preserves P (GetAccountID u k).
Proof. unfold GetAccountID. auto with preserve. Qed.
Lemma preserves_GetAccountBalance P u k : preserves P (GetAccountBalance u k).
Proof. unfold GetAccountBalance. auto with preserve. Qed.
Lemma preserves_GetUserPayerPubkey P u : preserves P (GetUserPayerPubkey u).
Proof. unfold GetUserPayerPubkey. auto 10 with preserve. Qed.
Lemma preserves_GetBankSigningKey P k : preserves P (GetBankSigningKey k).
Proof. unfold GetBankSigningKey. auto with preserve. Qed.
Lemma preserves_GetActiveBankSigningKey P : preserves P GetActiveBankSigningKey.
Proof. unfold GetActiveBankSigningKey. auto 10 with preserve. Qed.
Lemma preserves_GetActiveCeiling P u : preserves P (GetActiveCeiling u).
Proof. unfold GetActiveCeiling. auto with preserve. Qed.
Lemma preserves_GetCeilingToken P i : preserves P (GetCeilingToken i).
Proof. unfold GetCeilingToken. auto with preserve. Qed.
Lemma preserves_GetPaymentBySequence P u n : preserves P (GetPaymentBySequence u n).
Proof. unfold GetPaymentBySequence. auto with preserve. Qed.
Lemma preserves_CountInFlight P i : preserves P (CountInFlightPaymentsForCeiling i).
Proof. unfold CountInFlightPaymentsForCeiling. auto with preserve. Qed.
Lemma preserves_SumSettled P i : preserves P (SumSettledForCeiling i).
Proof. unfold SumSettledForCeiling. auto with preserve. Qed.
Lemma preserves_ListPendingForPayer P u : preserves P (ListPendingForPayer u).
Proof. unfold ListPendingForPayer. auto with preserve. Qed.
Lemma preserves_ListReleasable P t : preserves P (ListReleasableExpiredCeilings t).
Proof. unfold ListReleasableExpiredCeilings. auto with preserve. Qed.
Lemma preserves_ListStale P t : preserves P (ListPayersWithStalePending t).
Proof. unfold ListPayersWithStalePending. auto with preserve. Qed.
Lemma preserves_GetTransactionAnchorForPayment P i :
  preserves P (GetTransactionAnchorForPayment i).
Proof. unfold GetTransactionAnchorForPayment. auto with preserve. Qed.
Lemma preserves_GetCurrentCeilingForPayer P u : preserves P (GetCurrentCeilingForPayer u).
Proof. unfold GetCurrentCeilingForPayer. auto 10 with preserve. Qed.

End Quiet.

#[export] Hint Resolve preserves_GetAccountID preserves_GetAccountBalance
  preserves_GetUserPayerPubkey preserves_GetBankSigningKey
  preserves_GetActiveBankSigningKey preserves_GetActiveCeiling preserves_GetCeilingToken
  preserves_GetPaymentBySequence preserves_CountInFlight preserves_SumSettled
  preserves_ListPendingForPayer preserves_ListReleasable preserves_ListStale
  preserves_GetTransactionAnchorForPayment preserves_GetCurrentCeilingForPayer : preserve.

(** Closes [forall P, preserves P m] for an [m] made of reads, effects and control. *)
Ltac quiet := intros; auto 20 with preserve.

(** From a run [H] of such an [m], that the database is the same afterwards. *)
Ltac quiet_in H Hw :=
  match type of H with
  | runs ?m ?w ?a ?w' =>
      assert (w_st w' = w_st w) as Hw by (apply (quiet_runs m w a w'); [quiet | exact H])
  end.
