(* ===== verification/Solvency.v ===== *)
(** * Liens: what the lien accounts hold against the ceilings

    A payer's lien account holds exactly what is left of the one live ceiling the
    payer may have; every pending payment is drawn on a live ceiling of its
    payer; no ceiling is ever settled beyond its amount. *)

From S2P Require Import Prelude Domain Json Store Repo Books.

Record liens (d : db) : Prop := {
  ln_one i j c c' : ceiling_tokens d !! i = Some c -> ceiling_tokens d !! j = Some c' ->
    is_live (c_Status c) = true -> is_live (c_Status c') = true ->
    c_PayerUserID c = c_PayerUserID c' -> i = j;
  ln_live id a i c : accounts d !! id = Some a -> a_Kind a = AccountKindLienHolding ->
    ceiling_tokens d !! i = Some c -> live_of (a_UserID a) c = true ->
    bal d id = c_CeilingKobo c - sum_settled i d;
  ln_idle id a : accounts d !! id = Some a -> a_Kind a = AccountKindLienHolding ->
    (forall i c, ceiling_tokens d !! i = Some c -> live_of (a_UserID a) c = false) ->
    bal d id = 0;
  ln_bound i p : payment_tokens d !! i = Some p ->
    exists c, ceiling_tokens d !! p_CeilingID p = Some c /\
              c_PayerUserID c = p_PayerUserID p /\
              (p_Status p = TxPending -> is_live (c_Status c) = true);
  ln_settled i p : payment_tokens d !! i = Some p ->
    0 <= p_SettledAmountKobo p <= p_AmountKobo p /\
    (p_Status p = TxPending -> p_SettledAmountKobo p = 0);
  ln_cap i c : ceiling_tokens d !! i = Some c -> sum_settled i d <= c_CeilingKobo c;
  ln_ceiling i c : ceiling_tokens d !! i = Some c -> 0 < c_CeilingKobo c <= int64_max;
}.

Record solvent (sus : string) (d : db) : Prop := {
  sv_books : books sus d;
  sv_liens : liens d;
}.

Definition good (sus : string) (d : db) : Prop := solvent sus d /\ balanced d.

(** The part of it that concerns the money alone. *)
Definition amounts_ok (d : db) : Prop :=
  forall i c, ceiling_tokens d !! i = Some c -> 0 < c_CeilingKobo c <= int64_max.

Definition booked (sus : string) (d : db) : Prop :=
  (books sus d /\ amounts_ok d) /\ balanced d.

Lemma amounts_ok_same d d' :
  ceiling_tokens d' = ceiling_tokens d -> amounts_ok d -> amounts_ok d'.
Proof. unfold amounts_ok. by intros ->. Qed.

Lemma amounts_ok_after id st d d' :
  ceiling_tokens d' = ceilings_after id st (ceiling_tokens d) -> amounts_ok d -> amounts_ok d'.
Proof.
  intros Hc H i c Hi. rewrite Hc in Hi. unfold ceilings_after in Hi.
  apply lookup_alter_Some in Hi as [(-> & c0 & Hi & ->)|[_ Hi]]; [|by eapply H].
  cbn. by eapply H.
Qed.

Lemma live_of_spec u c : live_of u c = true <-> c_PayerUserID c = u /\ is_live (c_Status c) = true.
Proof. unfold live_of. by rewrite andb_true_iff, bool_decide_eq_true. Qed.

Lemma active_of_spec u c : active_of u c = true <-> c_PayerUserID c = u /\ c_Status c = CeilingActive.
Proof. unfold active_of. by rewrite andb_true_iff, !bool_decide_eq_true. Qed.

Lemma active_live u c : active_of u c = true -> live_of u c = true.
Proof. rewrite active_of_spec, live_of_spec. intros [-> ->]. done. Qed.

(** ** Sums of settled amounts *)

Lemma sum_settled_same i d d' :
  payment_tokens d' = payment_tokens d -> sum_settled i d' = sum_settled i d.
Proof. unfold sum_settled. by intros ->. Qed.

Lemma sum_settled_insert i d d' k p :
  payment_tokens d !! k = None -> payment_tokens d' = <[k := p]> (payment_tokens d) ->
  sum_settled i d' = sum_settled i d + settled_of i p.
Proof. intros Hk H. unfold sum_settled. rewrite H, sum_rows_fresh by done. lia. Qed.

Lemma sum_settled_update i d d' k p p' :
  payment_tokens d !! k = Some p -> payment_tokens d' = <[k := p']> (payment_tokens d) ->
  sum_settled i d' = sum_settled i d - settled_of i p + settled_of i p'.
Proof. intros Hk H. unfold sum_settled. rewrite H, (sum_rows_update _ _ _ _ p' Hk). done. Qed.

Lemma sum_settled_none d i :
  (forall k p, payment_tokens d !! k = Some p -> p_CeilingID p <> i) -> sum_settled i d = 0.
Proof.
  intros H. unfold sum_settled. apply sum_rows_zero. intros k p Hk. unfold settled_of.
  by rewrite bool_decide_false by (by apply (H k p)).
Qed.

Lemma sum_settled_nonneg d i : liens d -> 0 <= sum_settled i d.
Proof.
  intros Hl. apply sum_rows_nonneg. intros k p Hk. unfold settled_of.
  case_bool_decide; [|lia]. by apply (ln_settled d Hl k).
Qed.

(** A new ceiling has nothing settled against it. *)
Lemma sum_settled_fresh d i : liens d -> ceiling_tokens d !! i = None -> sum_settled i d = 0.
Proof.
  intros Hl Hi. apply sum_settled_none. intros k p Hk <-.
  destruct (ln_bound d Hl k p Hk) as (c & Hc & _). congruence.
Qed.

Lemma sum_settled_int64 d i c :
  liens d -> ceiling_tokens d !! i = Some c ->
  0 <= sum_settled i d <= c_CeilingKobo c /\ c_CeilingKobo c <= int64_max.
Proof.
  intros Hl Hc. pose proof (sum_settled_nonneg d i Hl). pose proof (ln_cap d Hl i c Hc).
  pose proof (ln_ceiling d Hl i c Hc). lia.
Qed.

(** ** Steps that keep the liens *)

(** Money moves that leave lien accounts alone and change neither payments nor
    ceilings. *)
Lemma liens_step_frame d d' f g :
  liens d -> moved d d' f g ->
  payment_tokens d' = payment_tokens d -> ceiling_tokens d' = ceiling_tokens d ->
  (forall id a, accounts d !! id = Some a -> a_Kind a = AccountKindLienHolding -> f id = 0) ->
  liens d'.
Proof.
  intros [] Hm Hp Hc Hf.
  assert (forall i, sum_settled i d' = sum_settled i d) as Hs
    by (intros; by apply sum_settled_same).
  constructor; rewrite ?Hc, ?Hp; try done.
  - intros id a i c Ha Hk Hi Hlive.
    destruct (meta_lookup _ _ _ _ _ _ Hm Ha) as (a0 & Ha0 & Hu & Hk0).
    rewrite (moved_bal _ _ _ _ Hm), (Hf id a0), Hs by congruence.
    rewrite (ln_live0 id a0 i c) by congruence. lia.
  - intros id a Ha Hk Hno.
    destruct (meta_lookup _ _ _ _ _ _ Hm Ha) as (a0 & Ha0 & Hu & Hk0).
    rewrite (moved_bal _ _ _ _ Hm), (Hf id a0) by congruence.
    rewrite (ln_idle0 id a0); try congruence; [lia|]. rewrite Hu. done.
  - intros i c. rewrite Hs. eauto.
Qed.

Lemma account_other d sus id a u k :
  books sus d -> (exists b, accounts d !! id = Some b /\ a_UserID b = u /\ a_Kind b = k) ->
  accounts d !! id = Some a -> a_UserID a = u /\ a_Kind a = k.
Proof. intros _ (b & Hb & <- & <-) Ha. rewrite Ha in Hb. by injection Hb as ->. Qed.

(** Issuing a ceiling and moving its amount into the payer's lien account. *)
Lemma liens_step_issue d d' f g u id row n :
  liens d -> moved d d' f g -> payment_tokens d' = payment_tokens d ->
  ceiling_tokens d !! id = None -> ceiling_tokens d' = <[id := row]> (ceiling_tokens d) ->
  (forall i c, ceiling_tokens d !! i = Some c -> live_of u c = false) ->
  c_PayerUserID row = u -> c_CeilingKobo row = n -> is_live (c_Status row) = true ->
  0 < n <= int64_max ->
  (forall x a, accounts d !! x = Some a -> a_Kind a = AccountKindLienHolding ->
     f x = if decide (a_UserID a = u) then n else 0) ->
  liens d'.
Proof.
  intros Hl Hm Hp Hfresh Hc Hno Hu Hn Hlive Hpos Hf.
  assert (forall i, sum_settled i d' = sum_settled i d) as Hs
    by (intros; by apply sum_settled_same).
  pose proof (sum_settled_fresh d id Hl Hfresh) as H0. destruct Hl.
  assert (forall i c, ceiling_tokens d !! i = Some c -> i <> id) as Hne
    by (intros; congruence).
  constructor; rewrite ?Hp; try done.
  - intros i j c c' Hi Hj Hli Hlj Heq. rewrite Hc in Hi, Hj.
    apply lookup_insert_Some in Hi as [[<- <-]|[Hi' Hi]];
      apply lookup_insert_Some in Hj as [[<- <-]|[Hj' Hj]]; try done.
    + exfalso. pose proof (Hno j c' Hj) as Hx.
      assert (live_of u c' = true) by (apply live_of_spec; split; congruence). congruence.
    + exfalso. pose proof (Hno i c Hi) as Hx.
      assert (live_of u c = true) by (apply live_of_spec; split; congruence). congruence.
    + by apply (ln_one0 i j c c').
  - intros x a i c Ha Hk Hi Hx.
    destruct (meta_lookup _ _ _ _ _ _ Hm Ha) as (a0 & Ha0 & Hu0 & Hk0).
    rewrite (moved_bal _ _ _ _ Hm), (Hf x a0), Hs by congruence.
    rewrite Hc in Hi. apply lookup_insert_Some in Hi as [[<- <-]|[Hi' Hi]].
    + apply live_of_spec in Hx as [Hx _].
      rewrite decide_True by congruence.
      rewrite (ln_idle0 x a0); [lia|done|congruence|].
      intros i c Hi. replace (a_UserID a0) with u by congruence. by apply (Hno i).
    + assert (a_UserID a0 <> u) as Hother.
      { intros Hau. pose proof (Hno i c Hi) as Hz. rewrite <- Hau, Hu0 in Hz. congruence. }
      rewrite decide_False.
      * rewrite (ln_live0 x a0 i c); [lia|done|congruence|done|congruence].
      * done.
  - intros x a Ha Hk Hnone.
    destruct (meta_lookup _ _ _ _ _ _ Hm Ha) as (a0 & Ha0 & Hu0 & Hk0).
    assert (a_UserID a0 <> u) as Hau.
    { intros Hau. assert (live_of (a_UserID a) row = false) as Hz.
      { apply (Hnone id). rewrite Hc. apply lookup_insert_eq. }
      assert (live_of (a_UserID a) row = true); [|congruence].
      apply live_of_spec. split; congruence. }
    rewrite (moved_bal _ _ _ _ Hm), (Hf x a0) by congruence. rewrite decide_False.
    + rewrite (ln_idle0 x a0); [lia|done|congruence|]. rewrite Hu0. intros i c Hi.
      apply (Hnone i). rewrite Hc, lookup_insert_ne; [done|]. by apply not_eq_sym, (Hne i c).
    + congruence.
  - intros i p Hi. destruct (ln_bound0 i p Hi) as (c & Hci & Hb). exists c. split; [|done].
    rewrite Hc, lookup_insert_ne; [done|]. by apply not_eq_sym, (Hne _ c).
  - intros i c Hi. rewrite Hs. rewrite Hc in Hi.
    apply lookup_insert_Some in Hi as [[<- <-]|[Hi' Hi]]; [lia|eauto].
  - intros i c Hi. rewrite Hc in Hi.
    apply lookup_insert_Some in Hi as [[<- <-]|[Hi' Hi]]; [lia|eauto].
Qed.

(** Terminating a live ceiling and giving back what is left of it. *)
Lemma liens_step_release d d' f g u id row st n :
  liens d -> moved d d' f g -> payment_tokens d' = payment_tokens d ->
  ceiling_tokens d !! id = Some row -> live_of u row = true ->
  ceiling_tokens d' = alter (set_c_Status st) id (ceiling_tokens d) -> is_live st = false ->
  (forall i p, payment_tokens d !! i = Some p -> p_CeilingID p = id -> p_Status p <> TxPending) ->
  n = c_CeilingKobo row - sum_settled id d ->
  (forall x a, accounts d !! x = Some a -> a_Kind a = AccountKindLienHolding ->
     f x = if decide (a_UserID a = u) then - n else 0) ->
  liens d'.
Proof.
  intros Hl Hm Hp Hrow Hlive Hc Hst Hidle Hn Hf.
  assert (forall i, sum_settled i d' = sum_settled i d) as Hs
    by (intros; by apply sum_settled_same).
  apply live_of_spec in Hlive as [Hu Hlive].
  destruct Hl.
  assert (forall i c, ceiling_tokens d' !! i = Some c ->
    i = id /\ c = set_c_Status st row \/ i <> id /\ ceiling_tokens d !! i = Some c) as Hcs.
  { intros i c Hi. rewrite Hc in Hi. destruct (decide (i = id)) as [->|Hne].
    - rewrite lookup_alter_eq, Hrow in Hi. injection Hi as <-. by left.
    - rewrite lookup_alter_ne in Hi by done. by right. }
  constructor; rewrite ?Hp; try done.
  - intros i j c c' Hi Hj Hli Hlj Heq.
    apply Hcs in Hi as [[-> ->]|[Hi' Hi]]; [cbn in Hli; congruence|].
    apply Hcs in Hj as [[-> ->]|[Hj' Hj]]; [cbn in Hlj; congruence|].
    by apply (ln_one0 i j c c').
  - intros x a i c Ha Hk Hi Hx.
    destruct (meta_lookup _ _ _ _ _ _ Hm Ha) as (a0 & Ha0 & Hu0 & Hk0).
    apply live_of_spec in Hx as [Hx1 Hx2].
    apply Hcs in Hi as [[-> ->]|[Hi' Hi]]; [cbn in Hx2; congruence|].
    rewrite (moved_bal _ _ _ _ Hm), (Hf x a0), Hs by congruence.
    rewrite decide_False.
    + rewrite (ln_live0 x a0 i c); [lia|done|congruence|done|]. apply live_of_spec.
      split; congruence.
    + intros Hau. apply Hi'. apply (ln_one0 i id c row); try done. congruence.
  - intros x a Ha Hk Hnone.
    destruct (meta_lookup _ _ _ _ _ _ Hm Ha) as (a0 & Ha0 & Hu0 & Hk0).
    rewrite (moved_bal _ _ _ _ Hm), (Hf x a0) by congruence. case_decide as Hx.
    + rewrite (ln_live0 x a0 id row); [lia|done|congruence|done|].
      apply live_of_spec. split; [congruence|done].
    + rewrite (ln_idle0 x a0); [lia|done|congruence|]. rewrite Hu0. intros i c Hi.
      destruct (decide (i = id)) as [->|Hne].
      * rewrite Hrow in Hi. injection Hi as <-. destruct (live_of (a_UserID a) row) eqn:Hz; [|done].
        exfalso. apply live_of_spec in Hz as [Hz _]. apply Hx. congruence.
      * apply (Hnone i). rewrite Hc, lookup_alter_ne by done. done.
  - intros i p Hi. destruct (ln_bound0 i p Hi) as (c & Hci & Hb1 & Hb2).
    destruct (decide (p_CeilingID p = id)) as [He|Hne].
    + exists (set_c_Status st row). rewrite Hc, He, lookup_alter_eq, Hrow. split; [done|].
      cbn. rewrite He, Hrow in Hci. injection Hci as <-. split; [done|].
      intros Hpend. by destruct (Hidle i p Hi He).
    + exists c. rewrite Hc, lookup_alter_ne by done. done.
  - intros i c Hi. rewrite Hs. apply Hcs in Hi as [[-> ->]|[Hi' Hi]]; cbn; eauto.
  - intros i c Hi. apply Hcs in Hi as [[-> ->]|[Hi' Hi]]; cbn; eauto.
Qed.

(** Changing a ceiling without changing its payer, amount or being live. *)
Lemma liens_step_touch d d' id c c' :
  liens d -> accounts d' = accounts d -> payment_tokens d' = payment_tokens d ->
  ceiling_tokens d !! id = Some c -> ceiling_tokens d' = <[id := c']> (ceiling_tokens d) ->
  c_PayerUserID c' = c_PayerUserID c -> c_CeilingKobo c' = c_CeilingKobo c ->
  is_live (c_Status c') = is_live (c_Status c) ->
  liens d'.
Proof.
  intros Hl Ha Hp Hc Hc' Hu Hk Hv. destruct Hl.
  assert (forall i, sum_settled i d' = sum_settled i d) as Hs
    by (intros; by apply sum_settled_same).
  assert (forall i, bal d' i = bal d i) as Hbal by (intros; unfold bal; by rewrite Ha).
  assert (forall i x, ceiling_tokens d' !! i = Some x ->
    exists y, ceiling_tokens d !! i = Some y /\ c_PayerUserID x = c_PayerUserID y /\
              c_CeilingKobo x = c_CeilingKobo y /\ is_live (c_Status x) = is_live (c_Status y))
    as Hcs.
  { intros i x Hi. rewrite Hc' in Hi. apply lookup_insert_Some in Hi as [[<- <-]|[_ Hi]]; eauto. }
  assert (forall u x y, c_PayerUserID x = c_PayerUserID y ->
    is_live (c_Status x) = is_live (c_Status y) -> live_of u x = live_of u y) as Hlv
    by (intros u x y H1 H2; unfold live_of; by rewrite H1, H2).
  constructor; rewrite ?Hp, ?Ha; try done.
  - intros i j x y Hi Hj Hli Hlj Heq.
    apply Hcs in Hi as (x' & Hi & ? & _ & ?). apply Hcs in Hj as (y' & Hj & ? & _ & ?).
    apply (ln_one0 i j x' y'); congruence.
  - intros id0 a i x Hid Hka Hi Hx. apply Hcs in Hi as (y & Hi & Hy1 & Hy2 & Hy3).
    rewrite Hbal, Hs, Hy2. apply (ln_live0 id0 a i y); try done.
    by rewrite <- (Hlv _ x y).
  - intros id0 a Hid Hka Hno. rewrite Hbal. apply (ln_idle0 id0 a); try done.
    intros i y Hi. destruct (decide (i = id)) as [->|Hne].
    + rewrite Hc in Hi. injection Hi as <-. rewrite <- (Hlv _ c' c); [|done..].
      apply (Hno id). rewrite Hc'. apply lookup_insert_eq.
    + apply (Hno i). rewrite Hc', lookup_insert_ne; done.
  - intros i p Hi. destruct (ln_bound0 i p Hi) as (y & Hy & Hb1 & Hb2).
    destruct (decide (p_CeilingID p = id)) as [He|Hne].
    + exists c'. rewrite Hc', He, lookup_insert_eq. rewrite He, Hc in Hy. injection Hy as <-.
      rewrite Hu, Hv. done.
    + exists y. rewrite Hc', lookup_insert_ne; done.
  - intros i x Hi. rewrite Hs. apply Hcs in Hi as (y & Hi & _ & -> & _). eauto.
  - intros i x Hi. apply Hcs in Hi as (y & Hi & _ & -> & _). eauto.
Qed.

(** Recording a payment of the payer of a live ceiling, nothing settled yet. *)
Lemma liens_step_claim d d' f g id p c :
  liens d -> moved d d' f g -> ceiling_tokens d' = ceiling_tokens d ->
  payment_tokens d !! id = None -> payment_tokens d' = <[id := p]> (payment_tokens d) ->
  ceiling_tokens d !! p_CeilingID p = Some c -> c_PayerUserID c = p_PayerUserID p ->
  is_live (c_Status c) = true -> p_SettledAmountKobo p = 0 -> 0 <= p_AmountKobo p ->
  (forall x a, accounts d !! x = Some a -> a_Kind a = AccountKindLienHolding -> f x = 0) ->
  liens d'.
Proof.
  intros Hl Hm Hc Hid Hp Hpc Hpu Hlive Hz Ham Hf. destruct Hl.
  assert (forall i, sum_settled i d' = sum_settled i d) as Hs.
  { intros i. rewrite (sum_settled_insert i d d' id p Hid Hp). unfold settled_of.
    case_bool_decide; lia. }
  constructor; rewrite ?Hc; try done.
  - intros x a i c0 Ha Hk Hi Hx.
    destruct (meta_lookup _ _ _ _ _ _ Hm Ha) as (a0 & Ha0 & Hu0 & Hk0).
    rewrite (moved_bal _ _ _ _ Hm), (Hf x a0), Hs by congruence.
    rewrite (ln_live0 x a0 i c0); [lia|done|congruence|done|congruence].
  - intros x a Ha Hk Hno.
    destruct (meta_lookup _ _ _ _ _ _ Hm Ha) as (a0 & Ha0 & Hu0 & Hk0).
    rewrite (moved_bal _ _ _ _ Hm), (Hf x a0) by congruence.
    rewrite (ln_idle0 x a0); [lia|done|congruence|]. by rewrite Hu0.
  - intros i q Hi. rewrite Hp in Hi. apply lookup_insert_Some in Hi as [[<- <-]|[_ Hi]]; eauto.
  - intros i q Hi. rewrite Hp in Hi. apply lookup_insert_Some in Hi as [[<- <-]|[_ Hi]]; eauto.
    rewrite Hz. lia.
  - intros i c0 Hi. rewrite Hs. eauto.
Qed.

(** Settling [n] of a pending payment out of the payer's lien account. *)
Lemma liens_step_settle d d' f g lienAcc u id p p' c n :
  liens d -> moved d d' f g -> ceiling_tokens d' = ceiling_tokens d ->
  payment_tokens d !! id = Some p -> payment_tokens d' = <[id := p']> (payment_tokens d) ->
  p_Status p = TxPending -> p_Status p' <> TxPending -> p_PayerUserID p = u ->
  p_CeilingID p' = p_CeilingID p -> p_PayerUserID p' = u -> p_AmountKobo p' = p_AmountKobo p ->
  p_SettledAmountKobo p' = n -> 0 <= n <= p_AmountKobo p ->
  ceiling_tokens d !! p_CeilingID p = Some c ->
  n <= bal d lienAcc ->
  (forall x a, accounts d !! x = Some a -> a_Kind a = AccountKindLienHolding ->
     f x = if decide (a_UserID a = u) then - n else 0) ->
  (exists a, accounts d !! lienAcc = Some a /\ a_UserID a = u /\
             a_Kind a = AccountKindLienHolding) ->
  liens d'.
Proof.
  intros Hl Hm Hc Hid Hp Hpend Hdone Hpu Hpc Hpu' Hpa Hset Hn Hcc Hle Hf
    (al & Hal & Halu & Halk).
  pose proof (ln_settled d Hl id p Hid) as [_ Hz]. specialize (Hz Hpend).
  destruct (ln_bound d Hl id p Hid) as (c1 & Hc1 & Hcu & Hcl). rewrite Hcc in Hc1.
  injection Hc1 as <-. specialize (Hcl Hpend).
  assert (live_of u c = true) as Hlv by (apply live_of_spec; split; congruence).
  pose proof (ln_live d Hl lienAcc al (p_CeilingID p) c Hal Halk Hcc
    ltac:(by rewrite Halu)) as Hbal.
  assert (forall i, sum_settled i d' =
    sum_settled i d + (if decide (i = p_CeilingID p) then n else 0)) as Hs.
  { intros i. rewrite (sum_settled_update i d d' id p p' Hid Hp). unfold settled_of.
    rewrite Hpc, Hz, Hset. case_decide as Hi.
    - rewrite bool_decide_true by done. lia.
    - rewrite bool_decide_false by congruence. lia. }
  destruct Hl. constructor; rewrite ?Hc; try done.
  - intros x a i c0 Ha Hk Hi Hx.
    destruct (meta_lookup _ _ _ _ _ _ Hm Ha) as (a0 & Ha0 & Hu0 & Hk0).
    rewrite (moved_bal _ _ _ _ Hm), (Hf x a0), Hs by congruence.
    rewrite (ln_live0 x a0 i c0); [|done|congruence|done|congruence].
    apply live_of_spec in Hx as [Hx1 Hx2].
    assert (a_UserID a0 = u <-> i = p_CeilingID p) as Hxi.
    { split.
      - intros Hau. apply (ln_one0 i (p_CeilingID p) c0 c); try done. congruence.
      - intros ->. rewrite Hcc in Hi. injection Hi as <-. congruence. }
    do 2 case_decide; lia || tauto.
  - intros x a Ha Hk Hno.
    destruct (meta_lookup _ _ _ _ _ _ Hm Ha) as (a0 & Ha0 & Hu0 & Hk0).
    rewrite (moved_bal _ _ _ _ Hm), (Hf x a0) by congruence. rewrite decide_False.
    + rewrite (ln_idle0 x a0); [lia|done|congruence|]. by rewrite Hu0.
    + intros Hau. specialize (Hno _ c Hcc). rewrite <- Hu0, Hau in Hno. congruence.
  - intros i q Hi. rewrite Hp in Hi. apply lookup_insert_Some in Hi as [[<- <-]|[_ Hi]]; eauto.
    exists c. rewrite Hpc. split; [done|]. split; [congruence|]. done.
  - intros i q Hi. rewrite Hp in Hi. apply lookup_insert_Some in Hi as [[<- <-]|[_ Hi]]; eauto.
    split; [lia|done].
  - intros i c0 Hi. rewrite Hs. case_decide as He.
    + subst i. rewrite Hcc in Hi. injection Hi as <-. lia.
    + specialize (ln_cap0 i c0 Hi). lia.
Qed.

(** ** Accounts told apart by their kind *)

Definition account_of (d : db) (id u : string) (k : AccountKind) : Prop :=
  exists a, accounts d !! id = Some a /\ a_UserID a = u /\ a_Kind a = k.

Lemma account_of_kind d id u k a :
  account_of d id u k -> accounts d !! id = Some a -> a_Kind a = k.
Proof. intros (b & Hb & _ & <-) Ha. rewrite Ha in Hb. by injection Hb as ->. Qed.

Lemma account_of_iff sus d id u k :
  books sus d -> account_of d id u k ->
  forall x a, accounts d !! x = Some a -> a_Kind a = k -> (a_UserID a = u <-> x = id).
Proof.
  intros Hb (b & Hid & Hu & Hk) x a Ha Hka. split.
  - intros He. apply (bk_unique sus d Hb x id a b); congruence.
  - intros ->. congruence.
Qed.

Lemma account_of_ne d id id' u u' k k' :
  account_of d id u k -> account_of d id' u' k' -> k <> k' -> id <> id'.
Proof. intros (a & Ha & _ & Hk) (b & Hb & _ & Hk') Hne ->. congruence. Qed.

Lemma suspense_account_of sus d :
  books sus d -> exists u, account_of d sus u AccountKindSuspense.
Proof. intros Hb. destruct (bk_suspense sus d Hb) as (a & Ha & Hk). by exists (a_UserID a), a. Qed.

Lemma move_at_eq id n : move_at id n id = n.
Proof. unfold move_at. by rewrite decide_True. Qed.
Lemma move_at_ne id n x : x <> id -> move_at id n x = 0.
Proof. intros. unfold move_at. by rewrite decide_False. Qed.

(** A balance never exceeds what a BIGINT holds because the ledger's trigger and the
    column keep it so; here only the bound through the books is needed. *)
Lemma account_of_nonneg sus d id u k :
  books sus d -> account_of d id u k -> k <> AccountKindSuspense -> 0 <= bal d id.
Proof.
  intros Hb (a & Ha & _ & Hk) Hne. rewrite (bal_lookup _ _ _ Ha).
  apply (bk_nonneg sus d Hb id a Ha). congruence.
Qed.
