(* ===== verification/Wallet.v ===== *)
(** * The offline wallet and its ceilings (internal/service/wallet/service.go)

    Funding, draining, refreshing, recovering and expiring the ceiling that
    authorises offline spending. *)

From S2P Require Import Prelude Domain Json Crypto Store Repo Books Solvency.

Definition ErrActiveCeilingExists : error := ErrNew "wallet: user already has an active ceiling".
Definition ErrNoActiveCeiling : error := ErrNew "wallet: no active ceiling for user".
Definition ErrUnsettledClaims : error := ErrNew "wallet: ceiling has unsettled claims".
Definition ErrInsufficientFunds : error := ErrNew "wallet: insufficient funds in main wallet".
Definition ErrMissingPayerPubkey : error :=
  ErrNew "wallet: user has no registered payer public key".
Definition ErrSuspended : error := ErrNew "wallet: user suspended by fraud tier".
Definition ErrRecoveryRaceLost : error :=
  ErrNew "wallet: ceiling no longer active (recovery race)".
Definition errStaleCandidate : error := ErrNew "wallet: stale expiry candidate".

Definition ReleaseGrace : Duration := 30 * Minute.
Definition DefaultAutoSettleTimeout : Duration := 72 * Hour.

(** [Service]: the collaborators that are interfaces in the code.  [None] is a nil
    [FraudGate], [SequenceTracker] or [Signer]. *)
Record Service := {
  s_Fraud : option (string -> Z -> dbop (Z * string));
  s_SeqTracker : option (string -> string -> Z -> dbop unit);
  s_Signer : option Signer;
  s_AutoSettleTimeout : Duration;
}.

(** [NoopFraudGate] and [NoopSequenceTracker], the defaults of [New]. *)
Definition NoopClampCeiling (_ : string) (requested : Z) : dbop (Z * string) :=
  ret (requested, "STANDARD").
Definition NoopRegisterCeiling (_ _ : string) (_ : Z) : dbop unit := ret tt.

Definition New : Service := {|
  s_Fraud := Some NoopClampCeiling;
  s_SeqTracker := Some NoopRegisterCeiling;
  s_Signer := None;
  s_AutoSettleTimeout := 0;
|}.

Section Wallet.
Context {E : Env} {K : CacheEnv} {C : Ed25519}.
Variable s : Service.

Definition signCeiling (bankKey : BankSigningKey) (payload : CeilingTokenPayload)
  : result bytes :=
  match s_Signer s with
  | Some signer => SignCeilingWithSigner signer (bk_KeyID bankKey) payload
  | None =>
      if negb (length (bk_PrivateKey bankKey) =? PrivateKeySize)%nat
      then Err (ErrNew "wallet: bank key has no usable private half and no Signer is configured")
      else SignCeiling (bk_PrivateKey bankKey) payload
  end.

(** Steps 1 to 4: the guards, and the accounts the funds move between. *)
Definition fund_guards (userID : string) (amountKobo : Z) : dbop (bytes * string * string) :=
  let! active := attempt (GetActiveCeiling userID) in
  do! (match active with
       | Ok _ => throw ErrActiveCeilingExists
       | Err e => if negb (isNoRows e) then throw (ErrWrap "wallet: lookup active ceiling" e)
                  else ret tt
       end) in
  let! payerPub := wrapping "wallet: load payer pubkey" (GetUserPayerPubkey userID) in
  if bool_decide (payerPub = []) then throw ErrMissingPayerPubkey
  else
    let! mainAcc := wrapping "wallet: resolve main account"
                      (GetAccountID userID AccountKindMain) in
    let! lienAcc := wrapping "wallet: resolve lien account"
                      (GetAccountID userID AccountKindLienHolding) in
    let! mainBal := wrapping "wallet: read main balance"
                      (GetAccountBalance userID AccountKindMain) in
    if mainBal <? amountKobo then throw ErrInsufficientFunds
    else ret (payerPub, mainAcc, lienAcc).

(** Step 5: the signed payload.  [now] is truncated to the precision of the
    database. *)
Definition fund_payload (userID : string) (amountKobo : Z) (ttl : Duration) (payerPub : bytes)
  (now : Time) (bankKey : BankSigningKey) : CeilingTokenPayload := {|
  ctp_PayerID := userID; ctp_CeilingAmount := amountKobo;
  ctp_IssuedAt := utc (truncate_us now); ctp_ExpiresAt := utc (truncate_us now + ttl);
  ctp_SequenceStart := 0; ctp_PayerPublicKey := payerPub;
  ctp_BankKeyID := bk_KeyID bankKey |}.

(** Steps 8 and 9 of a funding, and the same moves of a release: the ledger legs
    and the two balance updates. *)
Definition move_funds (txnID from to : string) (amount : Z) (memo ctx_from ctx_to : string)
  : dbop unit :=
  do! wrapping "wallet: post ledger" (PostLedger txnID
        [Leg from "DEBIT" amount memo; Leg to "CREDIT" amount memo]) in
  do! wrapping ctx_from (DebitAccount from amount) in
  wrapping ctx_to (CreditAccount to amount).

Definition fundOfflineInTx (userID : string) (amountKobo : Z) (ttl : Duration)
  : dbop CeilingToken :=
  let! (payerPub, mainAcc, lienAcc) := fund_guards userID amountKobo in
  let! bankKey := wrapping "wallet: load bank signing key" GetActiveBankSigningKey in
  let! t := now in
  let! ceilingID := fresh in
  let payload := fund_payload userID amountKobo ttl payerPub t bankKey in
  let! sig := wrapping "wallet: sign ceiling" (lift (signCeiling bankKey payload)) in
  let! ct := wrapping "wallet: insert ceiling" (IssueCeilingToken {|
      ic_ID := ceilingID; ic_PayerUserID := userID; ic_CeilingAmount := amountKobo;
      ic_SequenceStart := ctp_SequenceStart payload; ic_IssuedAt := ctp_IssuedAt payload;
      ic_ExpiresAt := ctp_ExpiresAt payload; ic_PayerPublicKey := payerPub;
      ic_BankKeyID := bk_KeyID bankKey; ic_BankSignature := sig;
      ic_LienAccountID := lienAcc |}) in
  let! txnID := fresh in
  do! wrapping "wallet: record transaction" (RecordTransaction
        (txn_params txnID txnID userID None TxKindOfflineFund TxStatusCompleted
           LedgerDirectionDEBIT amountKobo "offline wallet fund" None None
           (Some ceilingID))) in
  do! move_funds txnID mainAcc lienAcc amountKobo "offline wallet fund"
        "wallet: debit main" "wallet: credit lien" in
  ret ct.

(** The validation and fraud clamp FundOffline and Refresh share. *)
Definition clamp_amount (userID : string) (amountKobo : Z) (ttl : Duration) : dbop Z :=
  if amountKobo <=? 0 then throw (ErrNew "wallet: amount must be positive")
  else if ttl <=? 0 then throw (ErrNew "wallet: ttl must be positive")
  else
    match s_Fraud s with
    | None => ret amountKobo
    | Some clamp =>
        let! (allowed, _) := wrapping "wallet: fraud clamp" (clamp userID amountKobo) in
        if allowed <=? 0 then throw ErrSuspended
        else ret (if allowed <? amountKobo then allowed else amountKobo)
    end.

(** The pre-registration after commit: on its failure the issued token is
    returned together with the error, so the result carries both. *)
Definition register (userID : string) (issued : CeilingToken)
  : dbop (CeilingToken * option error) :=
  match s_SeqTracker s with
  | None => ret (issued, None)
  | Some registerCeiling =>
      let! r := attempt (registerCeiling userID (ct_ID issued) (ct_SequenceStart issued)) in
      match r with
      | Ok _ => ret (issued, None)
      | Err e => ret (issued, Some (ErrWrap "wallet: register sequence start" e))
      end
  end.

Definition FundOffline (userID : string) (amountKobo : Z) (ttl : Duration)
  : dbop (CeilingToken * option error) :=
  let! amountKobo := clamp_amount userID amountKobo ttl in
  let! issued := Tx (fundOfflineInTx userID amountKobo ttl) in
  register userID issued.

(** [releaseCeiling]: what is left of the ceiling goes back to the main wallet. *)
Definition releaseCeiling (userID : string) (c : CeilingToken) (terminal : CeilingStatus)
  (kind : TransactionKind) (memo : string) : dbop unit :=
  let! settled := wrapping "wallet: sum settled" (SumSettledForCeiling (ct_ID c)) in
  let remaining := sub64 (ct_CeilingAmount c) settled in
  let remaining := if remaining <? 0 then 0 else remaining in
  if remaining =? 0 then UpdateCeilingStatus (ct_ID c) terminal
  else
    let! mainAcc := wrapping "wallet: resolve main" (GetAccountID userID AccountKindMain) in
    let! lienAcc := wrapping "wallet: resolve lien"
                      (GetAccountID userID AccountKindLienHolding) in
    let! txnID := fresh in
    do! wrapping "wallet: record transaction" (RecordTransaction
          (txn_params txnID txnID userID None kind TxStatusCompleted LedgerDirectionCREDIT
             remaining memo None None (Some (ct_ID c)))) in
    do! move_funds txnID lienAcc mainAcc remaining memo
          "wallet: debit lien" "wallet: credit main" in
    wrapping "wallet: update ceiling status" (UpdateCeilingStatus (ct_ID c) terminal).

(** The active ceiling, refused while claims against it are in flight. *)
Definition idle_ceiling (userID count_ctx : string) : dbop CeilingToken :=
  let! r := attempt (GetActiveCeiling userID) in
  let! active := (match r with
                  | Ok c => ret c
                  | Err e => throw (if isNoRows e then ErrNoActiveCeiling
                                    else ErrWrap "wallet: load active ceiling" e)
                  end) in
  let! inflight := wrapping count_ctx (CountInFlightPaymentsForCeiling (ct_ID active)) in
  if 0 <? inflight then throw ErrUnsettledClaims else ret active.

Definition moveToMainInTx (userID : string) : dbop unit :=
  let! active := idle_ceiling userID "wallet: count in-flight claims" in
  releaseCeiling userID active CeilingRevoked TxKindOfflineDrain "offline wallet drain".

Definition MoveToMain (userID : string) : dbop unit := Tx (moveToMainInTx userID).

(** Drain, if there is something to drain, then fund, in one transaction. *)
Definition refreshInTx (userID : string) (newAmount : Z) (ttl : Duration)
  : dbop CeilingToken :=
  let! r := attempt (moveToMainInTx userID) in
  match r with
  | Err e => if negb (errors_is e ErrNoActiveCeiling) then throw e
             else fundOfflineInTx userID newAmount ttl
  | Ok _ => fundOfflineInTx userID newAmount ttl
  end.

Definition Refresh (userID : string) (newAmount : Z) (ttl : Duration)
  : dbop (CeilingToken * option error) :=
  let! newAmount := clamp_amount userID newAmount ttl in
  let! issued := Tx (refreshInTx userID newAmount ttl) in
  register userID issued.

Definition autoSettle : Duration :=
  if s_AutoSettleTimeout s <=? 0 then DefaultAutoSettleTimeout else s_AutoSettleTimeout s.

Definition recovery_deadline (expiresAt now : Time) : Time :=
  let anchor := if Before expiresAt now then now else expiresAt in
  anchor + autoSettle + ReleaseGrace.

Definition with_recovery (c : CeilingToken) (releaseAfter : Time) : CeilingToken := {|
  ct_ID := ct_ID c; ct_PayerID := ct_PayerID c; ct_CeilingAmount := ct_CeilingAmount c;
  ct_IssuedAt := ct_IssuedAt c; ct_ExpiresAt := ct_ExpiresAt c;
  ct_SequenceStart := ct_SequenceStart c; ct_NextSequence := ct_NextSequence c;
  ct_PayerPublicKey := ct_PayerPublicKey c; ct_BankKeyID := ct_BankKeyID c;
  ct_BankSignature := ct_BankSignature c; ct_Status := CeilingRecoveryPending;
  ct_ReleaseAfter := Some releaseAfter; ct_CreatedAt := ct_CreatedAt c |}.

Definition RecoverOfflineCeiling (userID : string) : dbop CeilingToken :=
  Tx (let! c := idle_ceiling userID "wallet: count in-flight" in
      let! t := now in
      let releaseAfter := recovery_deadline (ct_ExpiresAt c) t in
      let! n := wrapping "wallet: mark recovery"
                  (MarkCeilingRecoveryPending (ct_ID c) releaseAfter) in
      if n =? 0 then throw ErrRecoveryRaceLost else ret (with_recovery c releaseAfter)).

(** One candidate of the sweep, in its own transaction. *)
Definition release_candidate (c : CeilingToken) : dbop unit :=
  Tx (let! inflight := wrapping "wallet: recount in-flight"
                         (CountInFlightPaymentsForCeiling (ct_ID c)) in
      if 0 <? inflight then throw errStaleCandidate
      else if bool_decide (ct_Status c = CeilingRecoveryPending)
      then releaseCeiling (ct_PayerID c) c CeilingRevoked TxKindOfflineRecoveryRelease
             "offline wallet recovery release"
      else releaseCeiling (ct_PayerID c) c CeilingExpired TxKindOfflineExpiryRelease
             "offline wallet expiry release").

(** The count released, with the error that stopped the sweep if one did. *)
Fixpoint release_all (candidates : list CeilingToken) (released : Z)
  : dbop (Z * option error) :=
  match candidates with
  | [] => ret (released, None)
  | c :: rest =>
      let! r := attempt (release_candidate c) in
      match r with
      | Ok _ => release_all rest (released + 1)
      | Err e =>
          if errors_is e errStaleCandidate then release_all rest released
          else ret (released, Some e)
      end
  end.

Definition ReleaseOnExpiry : dbop (Z * option error) :=
  let! t := now in
  let! candidates := wrapping "wallet: list releasable"
                       (ListReleasableExpiredCeilings (t - ReleaseGrace)) in
  release_all candidates 0.

Definition GetCurrentCeiling (userID : string) : dbop (option CurrentCeilingRow) :=
  wrapping "wallet: load current ceiling" (GetCurrentCeilingForPayer userID).

Record Balances := { b_Main : Z; b_LienHolding : Z; b_ReceivingPending : Z }.

Definition GetBalances (userID : string) : dbop Balances :=
  let! m := wrapping "wallet: balance main" (GetAccountBalance userID AccountKindMain) in
  let! l := wrapping "wallet: balance lien_holding"
              (GetAccountBalance userID AccountKindLienHolding) in
  let! p := wrapping "wallet: balance receiving_pending"
              (GetAccountBalance userID AccountKindReceivingPending) in
  ret {| b_Main := m; b_LienHolding := l; b_ReceivingPending := p |}.

End Wallet.

(** ** What the operations do *)

Section WalletFacts.
Context {E : Env} {K : CacheEnv} {C : Ed25519}.
Variable s : Service.
Implicit Types w : world db effect.

Definition transfer_fn (from to : string) (n : Z) : string -> Z :=
  fun x => move_at from (- n) x + move_at to n x.

Lemma runs_move_funds txn from to n memo c1 c2 w u w' :
  runs (move_funds txn from to n memo c1 c2) w u w' ->
  money (w_st w) (w_st w') (transfer_fn from to n) (transfer_fn from to n)
  /\ n <= bal (w_st w) from.
Proof.
  unfold move_funds. rewrite runs_bind. intros ([] & w1 & H1 & H).
  apply runs_bind in H as ([] & w2 & H2 & H3).
  apply runs_wrapping, runs_PostLedger in H1.
  apply runs_wrapping, runs_DebitAccount in H2 as [H2 Hn].
  apply runs_wrapping, runs_CreditAccount in H3.
  split.
  - eapply money_ext.
    + eapply money_trans; [exact H1 | eapply money_trans; [exact H2 | exact H3]].
    + intros x. unfold transfer_fn, no_move. lia.
    + intros x. unfold transfer_fn, no_move. cbn. unfold leg_sign. cbn. lia.
  - destruct H1 as [H1 _]. rewrite (moved_bal _ _ _ _ H1) in Hn. unfold no_move in Hn. lia.
Qed.

Lemma preserves_fund_guards P u n : preserves P (fund_guards u n).
Proof. unfold fund_guards. quiet. Qed.

Lemma silent_fund_guards u n : silent (fund_guards u n).
Proof.
  unfold fund_guards, GetActiveCeiling, GetUserPayerPubkey, GetAccountID, GetAccountBalance.
  auto 12 with silence.
Qed.

Lemma runs_fund_guards u n w r w' :
  runs (fund_guards u n) w r w' ->
  w_st w' = w_st w /\
  let '(pub, mainAcc, lienAcc) := r in
  (forall id c, ceiling_tokens (w_st w) !! id = Some c -> active_of u c = false) /\
  pub <> [] /\
  (exists a, accounts (w_st w) !! mainAcc = Some a /\ a_UserID a = u /\
             a_Kind a = AccountKindMain) /\
  (exists a, accounts (w_st w) !! lienAcc = Some a /\ a_UserID a = u /\
             a_Kind a = AccountKindLienHolding).
Proof.
  intros H. split; [by apply (quiet_runs _ _ _ _ (fun P => preserves_fund_guards P u n) H)|].
  unfold fund_guards in H. destruct r as [[pub mainAcc] lienAcc].
  apply runs_bind in H as (active & w1 & Ha & H). quiet_in Ha Hw1.
  apply runs_bind in H as ([] & w2 & Hact & H).
  destruct active as [ct|e]; [by apply runs_throw in Hact|].
  destruct (isNoRows e) eqn:He; [|by apply runs_throw in Hact].
  apply runs_ret in Hact as [_ ->].
  apply runs_bind in H as (pub' & w3 & Hp & H). quiet_in Hp Hw3.
  case_bool_decide as Hpub; [by rewrite runs_throw in H|].
  apply runs_bind in H as (m & w4 & Hm & H).
  apply runs_wrapping, runs_GetAccountID in Hm as [Hw4 Hm].
  apply runs_bind in H as (l & w5 & Hl & H).
  apply runs_wrapping, runs_GetAccountID in Hl as [Hw5 Hl].
  apply runs_bind in H as (b & w6 & _ & H).
  destruct (b <? n); [by rewrite runs_throw in H|]. apply runs_ret in H as [[= -> -> ->] ->].
  split_and!; [|done| |].
  - pose proof (attempt_query_no_rows _ _ _ _ _ Ha He) as Hr.
    by apply first_row_err in Hr as [_ Hr].
  - by rewrite <- Hw1, <- Hw3.
  - by rewrite <- Hw1, <- Hw3, <- Hw4.
Qed.

(** A successful funding, as seen from the database. *)
Lemma runs_fundOfflineInTx u n ttl w ct w' :
  runs (fundOfflineInTx s u n ttl) w ct w' ->
  exists mainAcc lienAcc id row,
    ct = ceilingToDomain (id, row) /\
    (exists a, accounts (w_st w) !! mainAcc = Some a /\ a_UserID a = u /\
               a_Kind a = AccountKindMain) /\
    (exists a, accounts (w_st w) !! lienAcc = Some a /\ a_UserID a = u /\
               a_Kind a = AccountKindLienHolding) /\
    moved (w_st w) (w_st w') (transfer_fn mainAcc lienAcc n) (transfer_fn mainAcc lienAcc n) /\
    n <= bal (w_st w) mainAcc /\ 0 < n <= int64_max /\
    ceiling_tokens (w_st w') = <[id := row]> (ceiling_tokens (w_st w)) /\
    ceiling_tokens (w_st w) !! id = None /\
    (forall i c, ceiling_tokens (w_st w) !! i = Some c -> live_of u c = false) /\
    payment_tokens (w_st w') = payment_tokens (w_st w) /\
    c_PayerUserID row = u /\ c_CeilingKobo row = n /\ c_Status row = CeilingActive /\
    c_SequenceStart row = 0 /\ c_LienAccountID row = lienAcc /\
    exists pub bankKey t,
      tsz (truncate_us t) = Some (c_IssuedAt row) /\
      tsz (truncate_us t + ttl) = Some (c_ExpiresAt row) /\
      c_PayerPubkey row = pub /\ c_BankKeyID row = bk_KeyID bankKey /\
      signCeiling s bankKey (fund_payload u n ttl pub t bankKey) = Ok (c_BankSig row) /\
      exists v v', w_st v = w_st w /\ w_log v = w_log w /\ runs GetActiveBankSigningKey v bankKey v'.
Proof.
  unfold fundOfflineInTx. rewrite runs_bind. intros ([[pub mainAcc] lienAcc] & w1 & Hg & H).
  pose proof (runs_silent _ _ _ _ (silent_fund_guards u n) Hg) as Hlog.
  apply runs_fund_guards in Hg as [Hw1 (Hact & Hpub & Hmain & Hlien)].
  apply runs_bind in H as (bankKey & w2 & Hk & H). apply runs_wrapping in Hk.
  assert (exists v v', w_st v = w_st w /\ w_log v = w_log w /\
    runs GetActiveBankSigningKey v bankKey v') as Hread by (by exists w1, w2).
  quiet_in Hk Hw2.
  apply runs_bind in H as (t & w3 & Ht & H). apply runs_now in Ht as [_ ->].
  apply runs_bind in H as (cid & w4 & Hc & H). apply runs_fresh in Hc as [_ ->].
  apply runs_bind in H as (sig & w5 & Hs & H). apply runs_wrapping, runs_lift in Hs as [Hs ->].
  apply runs_bind in H as (ct' & w6 & Hi & H).
  apply runs_wrapping, runs_IssueCeilingToken in Hi
    as (id & row & issued & expires & t0 & _ & Hi1 & Hi2 & Hrow & Hct & Hn & Hfresh & Hlive & Hw6).
  cbn in *.
  apply runs_bind in H as (txn & w7 & Hx & H). apply runs_fresh in Hx as [_ ->].
  apply runs_bind in H as ([] & w8 & Hr & H).
  apply runs_wrapping, runs_RecordTransaction in Hr as (_ & _ & t1 & Hw8). cbn in *.
  apply runs_bind in H as ([] & w9 & Hm & H). apply runs_move_funds in Hm as [Hm Hle].
  apply runs_ret in H as [-> ->]. destruct Hm as [Hm Hrest].
  assert (moved (w_st w) (w_st w8) no_move no_move) as Hm0.
  { apply moved_same; rewrite Hw8; cbn; rewrite Hw6; cbn; congruence. }
  injection Hrest as _ _ _ HC HP _ _ _ _.
  exists mainAcc, lienAcc, id, row. rewrite Hw2, Hw1 in *.
  rewrite (moved_bal _ _ _ _ Hm0) in Hle. unfold no_move in Hle. split_and!; try done; try lia.
  - eapply moved_ext; [eapply moved_trans; [exact Hm0|exact Hm]| |]; intros; unfold no_move; lia.
  - rewrite HC, Hw8. cbn. rewrite Hw6. done.
  - rewrite HP, Hw8. cbn. rewrite Hw6. done.
  - by rewrite Hrow.
  - by rewrite Hrow.
  - by rewrite Hrow.
  - by rewrite Hrow.
  - by rewrite Hrow.
  - exists pub, bankKey, t. by rewrite Hrow.
Qed.

(** What a release gives back. *)
Definition release_amount (c : CeilingToken) (d : db) : Z :=
  Z.max 0 (sub64 (ct_CeilingAmount c) (sum_settled (ct_ID c) d)).

Lemma runs_releaseCeiling u c st kind memo w r w' :
  runs (releaseCeiling u c st kind memo) w r w' ->
  let n := release_amount c (w_st w) in
  payment_tokens (w_st w') = payment_tokens (w_st w) /\
  ceiling_tokens (w_st w') = ceilings_after (ct_ID c) st (ceiling_tokens (w_st w)) /\
  in_int64 (sum_settled (ct_ID c) (w_st w)) = true /\
  (n = 0 /\ moved (w_st w) (w_st w') no_move no_move
   \/ 0 < n /\ exists mainAcc lienAcc,
        (exists a, accounts (w_st w) !! mainAcc = Some a /\ a_UserID a = u /\
                   a_Kind a = AccountKindMain) /\
        (exists a, accounts (w_st w) !! lienAcc = Some a /\ a_UserID a = u /\
                   a_Kind a = AccountKindLienHolding) /\
        moved (w_st w) (w_st w') (transfer_fn lienAcc mainAcc n)
          (transfer_fn lienAcc mainAcc n)).
Proof.
  intros H n. unfold releaseCeiling in H.
  apply runs_bind in H as (settled & w1 & Hs & H). apply runs_wrapping in Hs.
  quiet_in Hs Hw1. unfold SumSettledForCeiling in Hs.
  apply runs_query in Hs as (_ & Hs & _). apply bigint_ok in Hs as [-> Hin].
  assert ((if sub64 (ct_CeilingAmount c) (sum_settled (ct_ID c) (w_st w)) <? 0 then 0
           else sub64 (ct_CeilingAmount c) (sum_settled (ct_ID c) (w_st w))) = n) as Hn.
  { subst n. unfold release_amount. destruct (_ <? 0) eqn:Hlt; lia. }
  rewrite Hn in H. destruct (n =? 0) eqn:Hz.
  - apply runs_UpdateCeilingStatus' in H as (Hm & Hp & Hc). rewrite Hw1 in *.
    split_and!; [done..|]. left. split; [lia|done].
  - apply runs_bind in H as (mainAcc & w2 & Hmain & H).
    apply runs_wrapping, runs_GetAccountID in Hmain as [Hw2 Hmain].
    apply runs_bind in H as (lienAcc & w3 & Hlien & H).
    apply runs_wrapping, runs_GetAccountID in Hlien as [Hw3 Hlien].
    apply runs_bind in H as (txn & w4 & Hx & H). apply runs_fresh in Hx as [_ ->].
    apply runs_bind in H as ([] & w5 & Hr & H).
    apply runs_wrapping, runs_RecordTransaction in Hr as (_ & _ & t1 & Hw5). cbn in *.
    apply runs_bind in H as ([] & w6 & Hm & H). apply runs_move_funds in Hm as [[Hm Hrest] _].
    injection Hrest as _ _ _ HC HP _ _ _ _.
    apply runs_wrapping, runs_UpdateCeilingStatus' in H as (Hm2 & Hp & Hc).
    assert (moved (w_st w) (w_st w5) no_move no_move) as Hm0
      by (apply moved_same; rewrite Hw5; cbn; congruence).
    split_and!.
    + rewrite Hp, HP, Hw5. cbn. congruence.
    + rewrite Hc, HC, Hw5. cbn. congruence.
    + done.
    + right. split; [subst n; unfold release_amount in *; lia|].
      exists mainAcc, lienAcc. rewrite Hw2, Hw1 in *. split_and!; try done.
      eapply moved_ext; [eapply moved_trans; [exact Hm0|eapply moved_trans; [exact Hm|exact Hm2]]| |];
        intros; unfold no_move; lia.
Qed.

(** *** The books and the liens are kept *)

Variable sus : string.

Lemma transfer_fn_to d from to u1 u2 k1 k2 n x a :
  account_of d from u1 k1 -> account_of d to u2 k2 -> k1 <> k2 ->
  accounts d !! x = Some a -> a_Kind a <> k1 ->
  transfer_fn from to n x = if decide (x = to) then n else 0.
Proof.
  intros Hf Ht Hk Ha Hx. unfold transfer_fn. rewrite move_at_ne.
  - unfold move_at. lia.
  - intros ->. apply Hx. by apply (account_of_kind _ _ _ _ _ Hf).
Qed.

Lemma transfer_fn_from d from to u1 u2 k1 k2 n x a :
  account_of d from u1 k1 -> account_of d to u2 k2 -> k1 <> k2 ->
  accounts d !! x = Some a -> a_Kind a <> k2 ->
  transfer_fn from to n x = if decide (x = from) then - n else 0.
Proof.
  intros Hf Ht Hk Ha Hx. unfold transfer_fn. rewrite (move_at_ne to).
  - unfold move_at. lia.
  - intros ->. apply Hx. by apply (account_of_kind _ _ _ _ _ Ht).
Qed.

(** Moving funds between a main and a lien account keeps the books. *)
Lemma books_transfer d d' from to u1 u2 k1 k2 n :
  books sus d -> account_of d from u1 k1 -> account_of d to u2 k2 ->
  (k1 = AccountKindMain \/ k1 = AccountKindLienHolding) ->
  (k2 = AccountKindMain \/ k2 = AccountKindLienHolding) ->
  moved d d' (transfer_fn from to n) (transfer_fn from to n) ->
  payment_tokens d' = payment_tokens d ->
  books sus d'.
Proof.
  intros Hb Hf Ht H1 H2 Hm Hp.
  assert (forall x a, accounts d !! x = Some a ->
    a_Kind a = AccountKindSuspense \/ a_Kind a = AccountKindReceivingPending ->
    transfer_fn from to n x = 0) as Hz.
  { intros x a Ha Hk. unfold transfer_fn. rewrite !move_at_ne; [done| |]; intros ->.
    - pose proof (account_of_kind _ _ _ _ _ Ht Ha). intuition congruence.
    - pose proof (account_of_kind _ _ _ _ _ Hf Ha). intuition congruence. }
  apply (books_step_same_payments sus d d' _ _ Hb Hm Hp); try done.
  - destruct (bk_suspense sus d Hb) as (a & Ha & Hk). apply (Hz sus a Ha). by left.
  - intros id a Ha Hk. apply (Hz id a Ha). by right.
Qed.

Lemma fundOfflineInTx_solvent u n ttl w ct w' :
  solvent sus (w_st w) -> runs (fundOfflineInTx s u n ttl) w ct w' ->
  solvent sus (w_st w').
Proof.
  intros [Hb Hl] H. apply runs_fundOfflineInTx in H
    as (m & l & id & row & _ & Hm & Hli & Hmv & Hle & Hpos & Hc & Hfresh & Hno & Hp & Hu & Hk
        & Hst & _).
  split; [by apply (books_transfer _ _ m l u u AccountKindMain AccountKindLienHolding n Hb);
          auto|].
  apply (liens_step_issue _ _ _ _ u id row n Hl Hmv Hp Hfresh Hc Hno Hu Hk); [|done|].
  - by rewrite Hst.
  - intros x a Ha Hka. pose proof (account_of_iff sus _ l u _ Hb Hli x a Ha Hka) as Hiff.
    rewrite (transfer_fn_to _ m l u u AccountKindMain AccountKindLienHolding n x a Hm Hli);
      [|done|done|congruence]. do 2 case_decide; tauto.
Qed.

(** A release of a live ceiling nothing is in flight against. *)
Lemma releaseCeiling_solvent u c row st kind memo w r w' :
  solvent sus (w_st w) -> runs (releaseCeiling u c st kind memo) w r w' ->
  ceiling_tokens (w_st w) !! ct_ID c = Some row -> live_of u row = true ->
  ct_CeilingAmount c = c_CeilingKobo row -> is_live st = false ->
  (forall i p, payment_tokens (w_st w) !! i = Some p -> p_CeilingID p = ct_ID c ->
     p_Status p <> TxPending) ->
  solvent sus (w_st w') /\
  release_amount c (w_st w) = c_CeilingKobo row - sum_settled (ct_ID c) (w_st w).
Proof.
  intros [Hb Hl] H Hrow Hlive Ham Hst Hidle.
  apply runs_releaseCeiling in H as (Hp & Hc & _ & Hcase).
  pose proof (sum_settled_int64 _ _ _ Hl Hrow) as Hs.
  assert (release_amount c (w_st w) = c_CeilingKobo row - sum_settled (ct_ID c) (w_st w)) as Hn.
  { unfold release_amount. rewrite Ham, sub64_nonneg by lia. lia. }
  split; [|done].
  destruct Hcase as [[Hz Hm]|(Hpos & m & l & Hmain & Hlien & Hm)].
  - split.
    + by apply (books_step_same_payments sus _ _ _ _ Hb Hm Hp).
    + apply (liens_step_release _ _ _ _ u (ct_ID c) row st _ Hl Hm Hp Hrow Hlive Hc Hst Hidle Hn).
      intros. rewrite Hz. unfold no_move. by case_decide.
  - split; [by apply (books_transfer _ _ l m u u AccountKindLienHolding AccountKindMain
                        (release_amount c (w_st w)) Hb Hlien Hmain); auto|].
    apply (liens_step_release _ _ _ _ u (ct_ID c) row st _ Hl Hm Hp Hrow Hlive Hc Hst Hidle Hn).
    intros x a Ha Hka. pose proof (account_of_iff sus _ l u _ Hb Hlien x a Ha Hka) as Hiff.
    rewrite (transfer_fn_from _ l m u u AccountKindLienHolding AccountKindMain _ x a Hlien
      Hmain); [|done|done|congruence]. do 2 case_decide; tauto.
Qed.

Lemma runs_idle_ceiling u ctx w c w' :
  runs (idle_ceiling u ctx) w c w' ->
  w_st w' = w_st w /\
  exists id row, ceiling_tokens (w_st w) !! id = Some row /\ active_of u row = true /\
    c = ceilingToDomain (id, row) /\
    forall i p, payment_tokens (w_st w) !! i = Some p -> p_CeilingID p = id ->
      in_flight (p_Status p) = false.
Proof.
  intros H. assert (w_st w' = w_st w) as Hw'.
  { apply (quiet_runs (idle_ceiling u ctx) w c w'); [|done]. unfold idle_ceiling. quiet. }
  split; [done|]. unfold idle_ceiling in H.
  apply runs_bind in H as (r & w1 & Hr & H). quiet_in Hr Hw1.
  apply runs_bind in H as (active & w2 & Ha & H).
  destruct r as [ct|e]; [|by apply runs_throw in Ha]. apply runs_ret in Ha as [-> ->].
  apply (proj1 (runs_attempt _ _ _ _)) in Hr. change (runs (GetActiveCeiling u) w ct w1) in Hr.
  unfold GetActiveCeiling in Hr. apply runs_bind in Hr as ([id row] & w3 & Hq & Hr).
  apply runs_ret in Hr as [-> _]. apply runs_query in Hq as (_ & Hq & _).
  apply first_row_ok in Hq as [Hid Hact].
  apply runs_bind in H as (n & w4 & Hn & H). apply runs_wrapping in Hn.
  unfold CountInFlightPaymentsForCeiling in Hn. apply runs_query in Hn as (_ & Hn & _).
  rewrite Hw1 in Hn. injection Hn as <-.
  destruct (0 <? _) eqn:Hlt; [by apply runs_throw in H|]. apply runs_ret in H as [-> _].
  exists id, row. split_and!; try done. intros i p Hi Hc.
  apply Z.ltb_ge in Hlt. cbn in Hlt.
  destruct (in_flight (p_Status p)) eqn:Hf; [|done]. exfalso.
  assert ((i, p) ∈ rows_where (fun _ p => in_flight_for id p) (payment_tokens (w_st w))) as Hin.
  { apply elem_of_rows_where. split; [done|]. unfold in_flight_for.
    by rewrite bool_decide_true, Hf. }
  destruct (rows_where _ _); [by apply not_elem_of_nil in Hin|cbn in Hlt; lia].
Qed.

Lemma not_in_flight_not_pending st : in_flight st = false -> st <> TxPending.
Proof. by intros H ->. Qed.

Lemma moveToMainInTx_solvent u w r w' :
  solvent sus (w_st w) -> runs (moveToMainInTx u) w r w' ->
  solvent sus (w_st w').
Proof.
  intros Hs H. unfold moveToMainInTx in H.
  apply runs_bind in H as (c & w1 & Hi & H).
  apply runs_idle_ceiling in Hi as (Hw1 & id & row & Hrow & Hact & -> & Hidle).
  rewrite <- Hw1 in *.
  apply (releaseCeiling_solvent u _ row _ _ _ _ _ _ Hs H); try done.
  - by apply active_live.
  - intros i p Hi Hc. by apply not_in_flight_not_pending, (Hidle i).
Qed.

(** The collaborators the service calls keep the invariant; those the code ships
    do, as they never write to these tables. *)
Definition keeps_with (P : db -> Prop) : Prop :=
  (forall clamp u n, s_Fraud s = Some clamp -> preserves P (clamp u n)) /\
  (forall reg u i n, s_SeqTracker s = Some reg -> preserves P (reg u i n)).

Lemma preserves_clamp_amount P u n ttl : keeps_with P -> preserves P (clamp_amount s u n ttl).
Proof.
  intros [H _]. unfold clamp_amount. destruct (n <=? 0); [quiet|].
  destruct (ttl <=? 0); [quiet|]. destruct (s_Fraud s) eqn:Hf; [|quiet].
  apply preserves_bind; [apply preserves_wrapping; eauto|]. intros [x y]. quiet.
Qed.

Lemma preserves_register P u ct : keeps_with P -> preserves P (register s u ct).
Proof.
  intros [_ H]. unfold register. destruct (s_SeqTracker s) eqn:Hf; [|quiet].
  apply preserves_bind; [apply preserves_attempt; eauto|]. intros [x|y]; quiet.
Qed.

(** Funding an offline wallet, whatever its outcome and whichever store
    calls fail, keeps double entry, every balance equal to its postings, and every
    lien account equal to what is left of its owner's live ceiling. *)
Lemma FundOffline_good u n ttl :
  keeps_with (good sus) -> preserves (good sus) (FundOffline s u n ttl).
Proof.
  intros Hs. unfold FundOffline.
  apply preserves_bind; [by apply preserves_clamp_amount|]. intros m.
  apply preserves_bind; [|intros; by apply preserves_register].
  apply preserves_Tx. intros. by eapply fundOfflineInTx_solvent.
Qed.

Lemma MoveToMain_good u : preserves (good sus) (MoveToMain u).
Proof. apply preserves_Tx. intros. by eapply moveToMainInTx_solvent. Qed.

Lemma never_post_leg txn leg t :
  t <> ("pgrepo: unknown direction " +:+ lg_Direction leg)%string ->
  never (ErrNew t) (post_leg txn leg).
Proof.
  intros Ht. unfold post_leg, leg_direction. apply never_bind.
  - apply never_lift. intros e. destruct (String.eqb _ _); [done|].
    destruct (String.eqb _ _); [done|]. intros [= <-]. cbn.
    rewrite bool_decide_false by (intros [= ?]; congruence). done.
  - intros dir. apply never_bind; [auto with never|]. intros id.
    apply never_wrapping, never_exec. intros n d.
    unfold q_InsertLedgerEntry. autounfold with statement. auto 20 with statement.
Qed.

Lemma never_move_funds txn from to n memo c1 c2 :
  never ErrNoActiveCeiling (move_funds txn from to n memo c1 c2).
Proof.
  unfold move_funds, ErrNoActiveCeiling. apply never_bind.
  - apply never_wrapping. unfold PostLedger. case_bool_decide; [by apply never_throw|].
    cbn. repeat (apply never_bind; [by apply never_post_leg | intros []]).
    apply never_ret.
  - intros []. apply never_bind; apply never_wrapping || intros [];
      [|apply never_wrapping]; unfold DebitAccount, CreditAccount,
        q_DecrementAccountBalance, q_IncrementAccountBalance, set_balance; auto with never.
Qed.

Lemma never_releaseCeiling u c st kind memo :
  never ErrNoActiveCeiling (releaseCeiling u c st kind memo).
Proof.
  unfold releaseCeiling.
  assert (never ErrNoActiveCeiling (UpdateCeilingStatus (ct_ID c) st)) as Hupd.
  { unfold ErrNoActiveCeiling, UpdateCeilingStatus, q_UpdateCeilingStatus. auto with never. }
  assert (forall k, never ErrNoActiveCeiling (GetAccountID u k)) as Hacc.
  { intros. unfold ErrNoActiveCeiling, GetAccountID, q_GetAccountByUserAndKind. auto with never. }
  apply never_bind.
  { apply never_wrapping. unfold SumSettledForCeiling, q_SumSettledForCeiling. auto with never. }
  intros settled. cbn zeta. destruct (_ =? 0); [done|].
  apply never_bind; [by apply never_wrapping|]. intros m.
  apply never_bind; [by apply never_wrapping|]. intros l.
  apply never_bind; [apply never_fresh|]. intros txn.
  apply never_bind.
  { apply never_wrapping. unfold RecordTransaction, q_RecordTransaction. auto with never. }
  intros _. apply never_bind; [apply never_move_funds|]. intros _. by apply never_wrapping.
Qed.

(** When there is no active ceiling to drain, nothing was written. *)
Lemma moveToMainInTx_no_active u w e w' :
  moveToMainInTx u w = (Err e, w') -> errors_is e ErrNoActiveCeiling = true ->
  w_st w' = w_st w.
Proof.
  unfold moveToMainInTx, bind at 1. destruct (idle_ceiling _ _ w) as [[c|e1] w1] eqn:Hi.
  - intros H He. by rewrite (never_releaseCeiling _ _ _ _ _ _ _ _ H) in He.
  - intros [= -> ->] _.
    assert (preserves (fun d => d = w_st w)
      (idle_ceiling u "wallet: count in-flight claims")) as Hp
      by (unfold idle_ceiling; quiet).
    specialize (Hp w eq_refl). by rewrite Hi in Hp.
Qed.

Lemma refreshInTx_solvent u n ttl w ct w' :
  solvent sus (w_st w) -> runs (refreshInTx s u n ttl) w ct w' -> solvent sus (w_st w').
Proof.
  intros Hg H. unfold refreshInTx in H.
  apply runs_bind in H as (r & w1 & Hr & H). apply (proj1 (runs_attempt _ _ _ _)) in Hr.
  destruct r as [[]|e].
  - eapply fundOfflineInTx_solvent; [|exact H]. by eapply moveToMainInTx_solvent.
  - destruct (errors_is e ErrNoActiveCeiling) eqn:He; [|by apply runs_throw in H].
    eapply fundOfflineInTx_solvent; [|exact H].
    by rewrite (moveToMainInTx_no_active _ _ _ _ Hr He).
Qed.

Lemma Refresh_good u n ttl :
  keeps_with (good sus) -> preserves (good sus) (Refresh s u n ttl).
Proof.
  intros Hs. unfold Refresh.
  apply preserves_bind; [by apply preserves_clamp_amount|]. intros m.
  apply preserves_bind; [|intros; by apply preserves_register].
  apply preserves_Tx. intros. by eapply refreshInTx_solvent.
Qed.

Lemma RecoverOfflineCeiling_good u : preserves (good sus) (RecoverOfflineCeiling s u).
Proof.
  apply preserves_Tx. intros w a w' [Hb Hl] H.
  apply runs_bind in H as (c & w1 & Hi & H).
  apply runs_idle_ceiling in Hi as (Hw1 & id & row & Hrow & Hact & -> & _).
  apply runs_bind in H as (t & w2 & Ht & H). apply runs_now in Ht as [_ ->].
  apply runs_bind in H as (k & w3 & Hm & H). apply runs_wrapping in Hm.
  assert (w_st w' = w_st w3) as Hw'.
  { destruct (k =? 0); [by apply runs_throw in H | by apply runs_ret in H as [_ ->]]. }
  rewrite Hw'. unfold MarkCeilingRecoveryPending in Hm. apply runs_exec in Hm as (_ & d & Hm & ->).
  cbn in *. rewrite Hw1 in Hm. unfold q_MarkCeilingRecoveryPending in Hm. rewrite Hrow in Hm.
  case_bool_decide as Hst; injection Hm as _ <-; [|done].
  split; [by apply (books_same sus _ _ Hb)|].
  eapply (liens_step_touch (w_st w)); [done|reflexivity|reflexivity|exact Hrow|reflexivity|..];
    cbn; try done. by rewrite Hst.
Qed.

(** *** The expiry sweep *)

(** A candidate as listed, still the row of the database. *)
Definition current (d : db) (c : CeilingToken) : Prop :=
  exists row, ceiling_tokens d !! ct_ID c = Some row /\ is_live (c_Status row) = true /\
              c = ceilingToDomain (ct_ID c, row).

Lemma runs_no_in_flight c w n w' :
  runs (CountInFlightPaymentsForCeiling c) w n w' -> n <= 0 ->
  w_st w' = w_st w /\
  forall i p, payment_tokens (w_st w) !! i = Some p -> p_CeilingID p = c ->
    in_flight (p_Status p) = false.
Proof.
  intros H Hn. quiet_in H Hw. split; [done|]. apply runs_query in H as (_ & H & _).
  injection H as <-. intros i p Hi Hc. destruct (in_flight (p_Status p)) eqn:Hf; [|done].
  assert ((i, p) ∈ rows_where (fun _ p => in_flight_for c p) (payment_tokens (w_st w))) as Hin.
  { apply elem_of_rows_where. split; [done|]. unfold in_flight_for.
    by rewrite bool_decide_true, Hf. }
  destruct (rows_where _ _); [by apply not_elem_of_nil in Hin|cbn in Hn; lia].
Qed.

(** One release: the books stay good, and only the candidate's ceiling changes. *)
Lemma release_candidate_step c w r w' :
  good sus (w_st w) -> current (w_st w) c -> attempt (release_candidate c) w = (Ok r, w') ->
  good sus (w_st w') /\
  forall i, i <> ct_ID c -> ceiling_tokens (w_st w') !! i = ceiling_tokens (w_st w) !! i.
Proof.
  intros Hg Hcur H. unfold attempt in H. destruct (release_candidate c w) as [r0 w0] eqn:Hr.
  injection H as <- <-. unfold release_candidate in Hr. destruct r0 as [[]|e].
  2:{ unfold Tx in Hr. apply tx_err in Hr. by rewrite Hr. }
  unfold Tx in Hr.
  change (runs (tx check_ledger_txn_balanced
    (let! inflight := wrapping "wallet: recount in-flight"
       (CountInFlightPaymentsForCeiling (ct_ID c)) in
     if 0 <? inflight then throw errStaleCandidate
     else if bool_decide (ct_Status c = CeilingRecoveryPending)
     then releaseCeiling (ct_PayerID c) c CeilingRevoked TxKindOfflineRecoveryRelease
            "offline wallet recovery release"
     else releaseCeiling (ct_PayerID c) c CeilingExpired TxKindOfflineExpiryRelease
            "offline wallet expiry release")) w tt w0) in Hr.
  apply runs_tx in Hr as (_ & w1 & Hb & _ & Hck & ->).
  apply runs_bind in Hb as (n & w2 & Hn & Hb). apply runs_wrapping in Hn.
  destruct (0 <? n) eqn:Hlt; [by apply runs_throw in Hb|]. apply Z.ltb_ge in Hlt.
  apply runs_no_in_flight in Hn as [Hw2 Hidle]; [|done]. cbn in Hw2, Hidle.
  assert (exists st kind memo, is_live st = false /\
    runs (releaseCeiling (ct_PayerID c) c st kind memo) w2 tt w1) as (st & kind & memo & Hst & Hrel)
    by (case_bool_decide; do 3 eexists; (split; [|exact Hb]); done).
  rewrite <- Hw2 in *. destruct Hg as [Hs _]. destruct Hcur as (row & Hrow & Hlive & Hceq).
  assert (live_of (ct_PayerID c) row = true) as Hlo
    by (apply live_of_spec; split; [by rewrite Hceq | done]).
  assert (ct_CeilingAmount c = c_CeilingKobo row) as Ham by (by rewrite Hceq).
  split.
  - split; cbn.
    + eapply (releaseCeiling_solvent _ c row _ _ _ w2 _ w1 Hs Hrel Hrow Hlo Ham Hst).
      intros i p Hi Hc. by apply not_in_flight_not_pending, (Hidle i).
    + intros txn. by apply check_ledger_ok.
  - apply runs_releaseCeiling in Hrel as (_ & Hc & _). cbn. intros i Hi.
    rewrite Hc. unfold ceilings_after. by rewrite lookup_alter_ne.
Qed.

Lemma release_all_good cs : forall n w,
  good sus (w_st w) -> NoDup (map ct_ID cs) -> (forall c, c ∈ cs -> current (w_st w) c) ->
  good sus (w_st (release_all cs n w).2).
Proof.
  induction cs as [|c cs IH]; intros n w Hg Hnd Hcur; [done|]. cbn.
  apply NoDup_cons in Hnd as [Hc Hnd]. unfold bind.
  destruct (attempt (release_candidate c) w) as [[r|e] w1] eqn:Hr.
  - destruct (release_candidate_step c w r w1 Hg) as [Hg1 Hne]; [apply Hcur; left|done|].
    assert (forall c', c' ∈ cs -> current (w_st w1) c') as Hcur1.
    { intros c' Hc'. destruct (Hcur c') as (row & Hrow & Hx); [by right|]. exists row.
      rewrite Hne; [done|]. intros Heq. apply Hc. rewrite <- Heq.
      by apply list_elem_of_fmap_2. }
    destruct r as [[]|e]; [by apply IH|]. destruct (errors_is e errStaleCandidate); [by apply IH|].
    done.
  - unfold attempt in Hr. by destruct (release_candidate c w).
Qed.

Lemma ReleaseOnExpiry_good : preserves (good sus) ReleaseOnExpiry.
Proof.
  intros w Hg. unfold ReleaseOnExpiry, bind at 1. cbn. unfold bind.
  set (w0 := World _ _ _ _ _).
  destruct (wrapping _ _ w0) as [[cs|e] w1] eqn:Hl.
  - change (runs (wrapping "wallet: list releasable" (ListReleasableExpiredCeilings
      (clock (w_clk w) - ReleaseGrace))) w0 cs w1) in Hl.
    quiet_in Hl Hw1. apply runs_wrapping in Hl. unfold ListReleasableExpiredCeilings in Hl.
    apply runs_bind in Hl as (rows & w2 & Hq & Hl). apply runs_ret in Hl as [-> ->].
    apply runs_query in Hq as (_ & Hq & _).
    assert (exists P, rows = rows_where P (ceiling_tokens (w_st w0)) /\
      forall i c, P i c = true -> is_live (c_Status c) = true) as (P & -> & HP).
    { unfold q_ListReleasableExpiredCeilings in Hq. destruct (tsz _); injection Hq as <-.
      - eexists. split; [done|]. intros i c. unfold releasable.
        by destruct (c_Status c).
      - exists (fun _ _ => false). split; [|done]. unfold rows_where.
        by induction (map_to_list _). }
    apply release_all_good.
    + by rewrite Hw1.
    + rewrite map_map. pose proof (rows_where_NoDup P (ceiling_tokens (w_st w0))) as Hnd.
      erewrite map_ext; [exact Hnd|]. by intros [].
    + intros c Hc. apply list_elem_of_fmap in Hc as ([id row] & -> & Hin).
      apply elem_of_rows_where in Hin as [Hid Hrow]. rewrite Hw1.
      exists row. split; [done|]. split; [by eapply HP|done].
  - assert (preserves (fun d => d = w_st w) (wrapping "wallet: list releasable"
      (ListReleasableExpiredCeilings (clock (w_clk w) - ReleaseGrace)))) as Hp by quiet.
    specialize (Hp w0 eq_refl). rewrite Hl in Hp. cbn in *. by rewrite Hp.
Qed.

End WalletFacts.
