(* ===== verification/DemoMint.v ===== *)
(** * Demo funding (internal/service/demomint/service.go)

    The treasury's mint: an amount between the two limits moves from the seeded
    treasury account to the main account of the holder of an account number. *)

From S2P Require Import Prelude Domain Store Repo Books Solvency Wallet.

Definition TreasuryAccountID : string := "system-mint-treasury".
Definition SupportedBankCode : string := "TEST".
Definition MinAmountKobo : Z := 100.
Definition MaxAmountKobo : Z := 50000000.

Definition ErrAccountNotFound : error := ErrNew "demomint: account not found".
Definition ErrAmountOutOfRange : error := ErrNew "demomint: amount out of range".
Definition ErrUnsupportedBank : error := ErrNew "demomint: unsupported bank code".
Definition ErrTreasuryExhausted : error := ErrNew "demomint: treasury exhausted".
Definition ErrMissingAccountNum : error := ErrNew "demomint: missing account_number".

Record NameEnquiryResult := {
  ne_AccountNumber : string;
  ne_FullName : string;
}.

Record FundResult := {
  fr_TxnID : string;
  fr_NewBalanceKobo : Z;
}.

Section DemoMint.
Context {E : Env}.

Definition GetUserNameByAccountNumber (accountNumber : string)
  : dbop (string * string * string) :=
  let! row := query (q_GetUserNameByAccountNumber accountNumber) in
  ret (row.1, u_FirstName row.2, u_LastName row.2).

(** A failing lookup: no rows is the caller's [ErrAccountNotFound]. *)
Definition lookup_holder (accountNumber ctx : string) : dbop (string * string * string) :=
  let! r := attempt (GetUserNameByAccountNumber accountNumber) in
  match r with
  | Ok h => ret h
  | Err e => if errors_is e ErrNoRows then throw ErrAccountNotFound
             else throw (ErrWrap ctx e)
  end.

Definition NameEnquiry (accountNumber bankCode : string) : dbop NameEnquiryResult :=
  if bool_decide (accountNumber = "") then throw ErrMissingAccountNum
  else if negb (bool_decide (bankCode = SupportedBankCode)) then throw ErrUnsupportedBank
  else
    let! h := lookup_holder accountNumber "name enquiry" in
    ret {| ne_AccountNumber := accountNumber;
           ne_FullName := (h.1.2 +:+ " " +:+ h.2)%string |}.

Definition debit_treasury (amount : Z) : dbop unit :=
  let! r := attempt (DebitAccount TreasuryAccountID amount) in
  match r with
  | Ok _ => ret tt
  | Err e => if errors_is e ErrNoRows then throw ErrTreasuryExhausted
             else throw (ErrWrap "debit treasury" e)
  end.

Definition mint_in_tx (accountNumber : string) (amount : Z) : dbop FundResult :=
  let! h := lookup_holder accountNumber "lookup recipient" in
  let userID := h.1.1 in
  let! main := wrapping "resolve main account" (GetAccountID userID AccountKindMain) in
  let! txnID := fresh in
  do! debit_treasury amount in
  do! wrapping "credit recipient" (CreditAccount main amount) in
  do! wrapping "record transaction" (RecordTransaction
        (txn_params txnID txnID userID None TxKindDemoMint TxStatusCompleted
           LedgerDirectionCREDIT amount "Demo mint from Test Bank" None None None)) in
  do! wrapping "post ledger" (PostLedger txnID
        [Leg TreasuryAccountID "DEBIT" amount "demo mint";
         Leg main "CREDIT" amount "demo mint"]) in
  let! balance := wrapping "read balance" (GetAccountBalance userID AccountKindMain) in
  ret {| fr_TxnID := txnID; fr_NewBalanceKobo := balance |}.

Definition Fund (accountNumber bankCode : string) (amount : Z) : dbop FundResult :=
  if bool_decide (accountNumber = "") then throw ErrMissingAccountNum
  else if negb (bool_decide (bankCode = SupportedBankCode)) then throw ErrUnsupportedBank
  else if (amount <? MinAmountKobo) || (MaxAmountKobo <? amount) then throw ErrAmountOutOfRange
  else Tx (mint_in_tx accountNumber amount).

(** ** What a mint does *)

Lemma runs_lookup_holder number ctx w h w' :
  runs (lookup_holder number ctx) w h w' ->
  w_st w' = w_st w /\
  exists u, users (w_st w) !! h.1.1 = Some u /\ bpchar_eq (u_AccountNumber u) number = true /\
    u_KycTier u <> "SYSTEM" /\ h.1.2 = u_FirstName u /\ h.2 = u_LastName u.
Proof.
  unfold lookup_holder. intros H. apply runs_bind in H as (r & w1 & Hr & H).
  apply (proj1 (runs_attempt _ _ _ _)) in Hr. destruct r as [x|e].
  2:{ by destruct (errors_is e ErrNoRows); apply runs_throw in H. }
  apply runs_ret in H as [-> ->].
  apply runs_bind in Hr as ([i u] & w2 & Hq & Hr). apply runs_ret in Hr as [-> ->].
  apply (proj1 (runs_query _ _ _ _)) in Hq as (_ & Hq & ->). split; [done|].
  apply first_row_ok in Hq as [Hi Hu]. apply andb_true_iff in Hu as [Hu Ht].
  exists u. split_and!; try done.
  intros Heq. by rewrite Heq in Ht.
Qed.

Lemma runs_debit_treasury n w x w' :
  runs (debit_treasury n) w x w' ->
  money (w_st w) (w_st w') (move_at TreasuryAccountID (- n)) no_move /\
  n <= bal (w_st w) TreasuryAccountID.
Proof.
  unfold debit_treasury. intros H. apply runs_bind in H as (r & w1 & Hr & H).
  apply (proj1 (runs_attempt _ _ _ _)) in Hr. destruct r as [y|e].
  - apply runs_ret in H as [_ ->]. by apply runs_DebitAccount in Hr.
  - by destruct (errors_is e ErrNoRows); apply runs_throw in H.
Qed.

(** The transactions table after a mint: one completed business event. *)
Definition minted_event (u : string) (n : Z) (d d' : db) (id : string) : Prop :=
  exists t, transactions d !! id = None /\
    transactions d' = <[id := new_txn (txn_params id id u None TxKindDemoMint
      TxStatusCompleted LedgerDirectionCREDIT n "Demo mint from Test Bank" None None None) t]>
      (transactions d).

Lemma runs_mint_in_tx number n w r w' :
  runs (mint_in_tx number n) w r w' ->
  exists u row main,
    users (w_st w) !! u = Some row /\ bpchar_eq (u_AccountNumber row) number = true /\
    u_KycTier row <> "SYSTEM" /\ account_of (w_st w) main u AccountKindMain /\
    n <= bal (w_st w) TreasuryAccountID /\
    moved (w_st w) (w_st w') (transfer_fn TreasuryAccountID main n)
      (transfer_fn TreasuryAccountID main n) /\
    minted_event u n (w_st w) (w_st w') (fr_TxnID r) /\
    (exists i, account_of (w_st w') i u AccountKindMain /\
       fr_NewBalanceKobo r = bal (w_st w') i) /\
    users (w_st w') = users (w_st w) /\
    payment_tokens (w_st w') = payment_tokens (w_st w) /\
    ceiling_tokens (w_st w') = ceiling_tokens (w_st w).
Proof.
  intros H. unfold mint_in_tx in H.
  apply runs_bind in H as (h & w1 & Hh & H). apply runs_lookup_holder in Hh as [Hw1 (row & Hu)].
  apply runs_bind in H as (main & w2 & Hm & H). apply runs_wrapping, runs_GetAccountID in Hm
    as [Hw2 Hm].
  apply runs_bind in H as (id & w3 & Hi & H). apply runs_fresh in Hi as [_ ->].
  apply runs_bind in H as (x1 & w4 & Hd & H). apply runs_debit_treasury in Hd as [[Md Rd] Hle].
  apply runs_bind in H as (x2 & w5 & Hc & H). apply runs_wrapping, runs_CreditAccount in Hc
    as [Mc Rc].
  apply runs_bind in H as (x3 & w6 & Hr & H). apply runs_wrapping, runs_RecordTransaction in Hr
    as (Hnew & _ & t & Hw6).
  apply runs_bind in H as (x4 & w7 & Hp & H). apply runs_wrapping, runs_PostLedger in Hp
    as [Mp Rp].
  apply runs_bind in H as (b & w8 & Hb & H). apply runs_wrapping in Hb.
  apply runs_ret in H as [-> ->]. unfold GetAccountBalance in Hb.
  apply runs_bind in Hb as ([i a] & w9 & Hq & Hb). apply runs_ret in Hb as [-> ->].
  apply runs_query in Hq as (_ & Hq & ->). apply first_row_ok in Hq as [Hi Ha].
  unfold account_is in Ha. apply andb_true_iff in Ha as [H2 H3].
  apply bool_decide_eq_true in H2, H3.
  destruct Hu as (Hu & Hn & Ht & _). rewrite Hw1 in *. rewrite Hw2 in *. cbn in *.
  injection Rd as HU1 _ _ HC1 HP1 HT1 _ _ _. injection Rc as HU2 _ _ HC2 HP2 HT2 _ _ _.
  injection Rp as HU3 _ _ HC3 HP3 HT3 _ _ _.
  rewrite Hw6 in HU3, HC3, HP3, HT3. cbn in HU3, HC3, HP3, HT3.
  assert (moved (w_st w5) (w_st w6) no_move no_move) as M6 by (apply moved_same; by rewrite Hw6).
  exists (h.1.1), row, main. split_and!; try done; try congruence.
  - eapply moved_ext;
      [eapply moved_trans; [exact Md|eapply moved_trans; [exact Mc|
         eapply moved_trans; [exact M6|exact Mp]]]| |];
      intros; cbn; unfold transfer_fn, no_move, move_at, leg_sign; cbn;
      repeat case_decide; lia.
  - exists t. cbn. split; [congruence|]. rewrite HT3. congruence.
  - exists i. split; [|cbn; symmetry; by apply bal_lookup]. by exists a.
Qed.

(** Demo money is moved, not made: a successful mint takes an amount between the two limits,
    no more than the treasury has, from the treasury to the main account of the holder
    of the account number, who is not a system user, in the balances and in the ledger
    alike, records one completed business event and reports the holder's new balance;
    nothing else changes. *)
Theorem Fund_mints number bank n w r w' :
  runs (Fund number bank n) w r w' ->
  bank = SupportedBankCode /\ MinAmountKobo <= n <= MaxAmountKobo /\
  exists u row main,
    users (w_st w) !! u = Some row /\ bpchar_eq (u_AccountNumber row) number = true /\
    u_KycTier row <> "SYSTEM" /\ account_of (w_st w) main u AccountKindMain /\
    n <= bal (w_st w) TreasuryAccountID /\
    (forall x, bal (w_st w') x = bal (w_st w) x + transfer_fn TreasuryAccountID main n x) /\
    (forall x, net (w_st w') x = net (w_st w) x + transfer_fn TreasuryAccountID main n x) /\
    minted_event u n (w_st w) (w_st w') (fr_TxnID r) /\
    (exists i, account_of (w_st w') i u AccountKindMain /\
       fr_NewBalanceKobo r = bal (w_st w') i) /\
    payment_tokens (w_st w') = payment_tokens (w_st w) /\
    ceiling_tokens (w_st w') = ceiling_tokens (w_st w).
Proof.
  unfold Fund. intros H. case_bool_decide; [by apply runs_throw in H|].
  case_bool_decide as Hb; [cbn in H|by apply runs_throw in H].
  destruct (_ || _) eqn:Hr; [by apply runs_throw in H|].
  apply orb_false_iff in Hr as [H1%Z.ltb_ge H2%Z.ltb_ge]. split; [done|]. split; [lia|].
  apply runs_tx in H as (_ & w1 & H & _ & _ & ->). cbn in *.
  apply runs_mint_in_tx in H as (u & row & main & Hu & Hn & Ht & Hm & Hle & Hmv & Hev & Hbal & _ & Hrest).
  exists u, row, main. do 5 (split; [done|]).
  split; [apply Hmv|]. split; [apply Hmv|]. done.
Qed.

End DemoMint.
