(* ===== verification/Settlement.v ===== *)
(** * Settling offline payments (internal/service/settlement/service.go)

    Phase 4a: [SubmitClaim] verifies the uploaded tokens, dedupes them by payer
    and sequence number and credits the payees' pending accounts.  Phase 4b:
    [FinalizeForPayer] drains a payer's pending payments against the lien of the
    ceiling, in sequence order.  [AutoSettleSweep] and [enqueueFinalize] hand
    payers over to phase 4b through the outbox. *)

From S2P Require Import Prelude Domain Json Crypto Store Repo.

Definition ErrSelfPay : error := ErrNew "settlement: payer_id == payee_id".
Definition ErrCeilingExpired : error := ErrNew "settlement: ceiling expired past grace window".
Definition ErrCeilingRevoked : error :=
  ErrNew "settlement: ceiling terminated server-side (revoked/expired/exhausted)".
Definition ErrCeilingRecoveryClosed : error :=
  ErrNew "settlement: ceiling in recovery; release window has closed".
Definition ErrBadBankSignature : error := ErrNew "settlement: ceiling bank signature invalid".
Definition ErrBadPayerSignature : error := ErrNew "settlement: payment payer signature invalid".
Definition ErrBadReceiverSignature : error :=
  ErrNew "settlement: payment request receiver signature invalid".
Definition ErrBadDisplayCardSig : error :=
  ErrNew "settlement: display card server signature invalid".
Definition ErrSequenceBelowStart : error :=
  ErrNew "settlement: sequence_number <= ceiling.sequence_start".
Definition ErrCeilingMismatch : error :=
  ErrNew "settlement: payment.ceiling_token_id does not match provided ceiling".
Definition ErrPayerIDMismatch : error :=
  ErrNew "settlement: payment.payer_id does not match ceiling.payer_id".
Definition ErrSubmitterNotParty : error :=
  ErrNew "settlement: submitter is not the payer or the payee on the token".
Definition ErrRequestReceiverMismatch : error :=
  ErrNew "settlement: request.receiver_id does not match payment.payee_id".
Definition ErrRequestNonceMismatch : error :=
  ErrNew "settlement: payment.session_nonce does not match request.session_nonce".
Definition ErrRequestHashMismatch : error :=
  ErrNew "settlement: payment.request_hash does not match hash(request)".
Definition ErrRequestAmountMismatch : error :=
  ErrNew "settlement: payment.amount does not match request.amount".
Definition ErrRequestExpired : error :=
  ErrNew "settlement: payment request expired past grace window".
Definition ErrRequestDisplayCardUser : error :=
  ErrNew "settlement: display_card.user_id does not match request.receiver_id".

Definition error_text (e : error) : string :=
  match e with ErrNew t => t | _ => "" end.

Definition RequestGrace : Duration := 5 * Minute.
Definition DefaultClockGrace : Duration := 30 * Minute.
Definition SettlementAutoSettleTimeout : Duration := 72 * Hour.
Definition SystemSuspenseAccountID : string := "system-suspense".

Record ClaimItem := {
  ci_Payment : PaymentToken;
  ci_Ceiling : CeilingToken;
  ci_Request : PaymentRequest;
}.

(** [Service]; [PanicAfter] is a test hook that production never sets. *)
Record SettlementService := {
  ss_HasDetector : bool;
  ss_ClockGrace : Duration;
  ss_AutoSettleTimeout : Duration;
  ss_SuspenseAccountID : string;
}.

Definition NewSettlement : SettlementService := {|
  ss_HasDetector := true;
  ss_ClockGrace := DefaultClockGrace;
  ss_AutoSettleTimeout := SettlementAutoSettleTimeout;
  ss_SuspenseAccountID := SystemSuspenseAccountID;
|}.

(** The order in which [range] visits the keys of a map, which Go leaves open. *)
Class MapOrder := { map_order : list string -> list string }.
Class MapOrderLaws (M : MapOrder) : Prop := {
  map_order_perm keys : map_order keys ≡ₚ keys;
}.

Fixpoint bytes_loop (a b : bytes) : bool :=
  match a, b with
  | x :: a', y :: b' => if negb (bool_decide (x = y)) then false else bytes_loop a' b'
  | _, _ => true
  end.

Definition bytesEqual (a b : bytes) : bool :=
  if negb (length a =? length b)%nat then false else bytes_loop a b.

Lemma bytesEqual_spec a b : bytesEqual a b = true <-> a = b.
Proof.
  unfold bytesEqual. revert b. induction a as [|x a IH]; intros [|y b]; cbn; try done.
  specialize (IH b). destruct (decide (x = y)) as [->|Hn].
  - rewrite bool_decide_true by done. cbn.
    destruct (Nat.eqb (length a) (length b)); cbn in *.
    + rewrite IH. split; congruence.
    + split; [discriminate|]. intros [= ->]. by apply IH.
  - rewrite (bool_decide_false (x = y)) by done. cbn.
    destruct (Nat.eqb (length a) (length b)); cbn; split; congruence.
Qed.

Section Settlement.
Context {E : Env} {C : Ed25519}.
Variable s : SettlementService.

Definition new_result (p : PaymentToken) : SettlementResult := {|
  sr_TransactionID := ""; sr_SequenceNumber := pt_SequenceNumber p;
  sr_SubmittedAmount := pt_Amount p; sr_SettledAmount := 0; sr_Status := None;
  sr_Reason := ""; sr_ReceiverUserID := "" |}.

Definition rejected (p : PaymentToken) (e : error) : SettlementResult := {|
  sr_TransactionID := ""; sr_SequenceNumber := pt_SequenceNumber p;
  sr_SubmittedAmount := pt_Amount p; sr_SettledAmount := 0;
  sr_Status := Some TxRejected; sr_Reason := error_text e; sr_ReceiverUserID := "" |}.

(** 1) Structural sanity. *)
Definition structural_guard (submitter : string) (item : ClaimItem) : option error :=
  let p := ci_Payment item in
  let c := ci_Ceiling item in
  let req := ci_Request item in
  if bool_decide (pt_PayerID p = pt_PayeeID p) then Some ErrSelfPay
  else if negb (bool_decide (pt_PayerID p = ct_PayerID c)) then Some ErrPayerIDMismatch
  else if negb (bool_decide (pt_CeilingTokenID p = ct_ID c)) then Some ErrCeilingMismatch
  else if negb (bool_decide (submitter = pt_PayerID p))
          && negb (bool_decide (submitter = pt_PayeeID p)) then Some ErrSubmitterNotParty
  else if negb (bool_decide (pr_ReceiverID req = pt_PayeeID p))
  then Some ErrRequestReceiverMismatch
  else if negb (bool_decide (dc_UserID (pr_ReceiverDisplayCard req) = pr_ReceiverID req))
  then Some ErrRequestDisplayCardUser
  else None.

Definition ceiling_payload (c : CeilingToken) : CeilingTokenPayload := {|
  ctp_PayerID := ct_PayerID c; ctp_CeilingAmount := ct_CeilingAmount c;
  ctp_IssuedAt := ct_IssuedAt c; ctp_ExpiresAt := ct_ExpiresAt c;
  ctp_SequenceStart := ct_SequenceStart c; ctp_PayerPublicKey := ct_PayerPublicKey c;
  ctp_BankKeyID := ct_BankKeyID c |}.

Definition payment_payload (p : PaymentToken) : PaymentPayload := {|
  pp_PayerID := pt_PayerID p; pp_PayeeID := pt_PayeeID p; pp_Amount := pt_Amount p;
  pp_SequenceNumber := pt_SequenceNumber p; pp_RemainingCeiling := pt_RemainingCeiling p;
  pp_Timestamp := pt_Timestamp p; pp_CeilingTokenID := pt_CeilingTokenID p;
  pp_SessionNonce := pt_SessionNonce p; pp_RequestHash := pt_RequestHash p |}.

Definition fraud_event (user : string) (signal : FraudSignalType) (ceiling txn : option string)
  (sev : Severity) (details : string) : effect :=
  EvFraudRecord {| fe_ID := ""; fe_UserID := user; fe_SignalType := signal; fe_CeilingTokenID := ceiling;
                   fe_TransactionID := txn; fe_Severity := sev; fe_Details := details;
                   fe_CreatedAt := time_zero |}.

Definition load_bank_key (keyID : string) : dbop BankSigningKey :=
  wrapping "settlement: load bank key" (GetBankSigningKey keyID).

(** 2) to 3c) The four signatures; [Some] is the rejection. *)
Definition verify_signatures (item : ClaimItem) : dbop (option error) :=
  let p := ci_Payment item in
  let c := ci_Ceiling item in
  let req := ci_Request item in
  let! bankKey := load_bank_key (ct_BankKeyID c) in
  if negb (is_ok (VerifyCeiling (bk_PublicKey bankKey) (ceiling_payload c)
                    (ct_BankSignature c)))
  then
    do! emit (fraud_event (ct_PayerID c) FraudSignatureInvalid (Some (ct_ID c)) None SevHigh
                "bank signature on ceiling failed verification at settlement") in
    ret (Some ErrBadBankSignature)
  else if negb (is_ok (VerifyPayment (ct_PayerPublicKey c) (payment_payload p)
                         (pt_PayerSignature p)))
  then
    do! emit (fraud_event (pt_PayerID p) FraudSignatureInvalid (Some (ct_ID c)) (Some "")
                SevHigh "payer signature on payment failed verification at settlement") in
    ret (Some ErrBadPayerSignature)
  else
    let cardPayload := DisplayCard_Payload (pr_ReceiverDisplayCard req) in
    let! cardKey := (if negb (bool_decide (dcp_BankKeyID cardPayload = ct_BankKeyID c))
                     then load_bank_key (dcp_BankKeyID cardPayload)
                     else ret bankKey) in
    if negb (is_ok (VerifyDisplayCard (bk_PublicKey cardKey) cardPayload
                      (dc_ServerSignature (pr_ReceiverDisplayCard req))))
    then ret (Some ErrBadDisplayCardSig)
    else if negb (is_ok (VerifyRequest (pr_ReceiverDevicePubkey req)
                           (PaymentRequest_Payload req) (pr_ReceiverSignature req)))
    then ret (Some ErrBadReceiverSignature)
    else ret None.

(** 3d) and 4) The binding of the payment to the request, the sequence number and
    the two expiries. *)
Definition binding_guard (item : ClaimItem) (now : Time) : dbop (option error) :=
  let p := ci_Payment item in
  let c := ci_Ceiling item in
  let req := ci_Request item in
  if negb (bytesEqual (pt_SessionNonce p) (pr_SessionNonce req))
  then ret (Some ErrRequestNonceMismatch)
  else
    let! reqHash := wrapping "settlement: hash request" (lift (HashRequest req)) in
    if negb (bytesEqual (pt_RequestHash p) reqHash) then ret (Some ErrRequestHashMismatch)
    else if negb (pr_Amount req =? UnboundAmount) && negb (pt_Amount p =? pr_Amount req)
    then ret (Some ErrRequestAmountMismatch)
    else if After now (pr_ExpiresAt req + RequestGrace) then ret (Some ErrRequestExpired)
    else if pt_SequenceNumber p <=? ct_SequenceStart c then
      do! emit (fraud_event (pt_PayerID p) FraudSequenceAnomaly (Some (ct_ID c)) None SevMedium
                  "payment sequence_number <= ceiling.sequence_start") in
      ret (Some ErrSequenceBelowStart)
    else if After now (ct_ExpiresAt c + ss_ClockGrace s) then ret (Some ErrCeilingExpired)
    else ret None.

(** 5) The result of a claim that was accepted before. *)
Definition existing_result (p : PaymentToken) (existing : Transaction) : SettlementResult := {|
  sr_TransactionID := t_ID existing; sr_SequenceNumber := pt_SequenceNumber p;
  sr_SubmittedAmount := pt_Amount p; sr_SettledAmount := t_SettledAmount existing;
  sr_Status := Some (t_Status existing);
  sr_Reason := match t_RejectionReason existing with Some r => r | None => "" end;
  sr_ReceiverUserID := "" |}.

(** 4b) The server-side status of the ceiling. *)
Definition live_guard (live : CeilingToken) (now : Time) : option error :=
  match ct_Status live with
  | CeilingActive => None
  | CeilingRecoveryPending =>
      match ct_ReleaseAfter live with
      | None => Some ErrCeilingRecoveryClosed
      | Some r => if negb (Before now r) then Some ErrCeilingRecoveryClosed else None
      end
  | _ => Some ErrCeilingRevoked
  end.

(** 6) Accept.  The payment row, the payee as signed and the submitter as authenticated,
    and the paired business events. *)
Definition payment_params (submitter : string) (item : ClaimItem) (paymentID : string)
  : CreatePaymentParams :=
  let p := ci_Payment item in {|
  cp_ID := paymentID; cp_CeilingID := ct_ID (ci_Ceiling item);
  cp_PayerUserID := pt_PayerID p; cp_PayeeUserID := pt_PayeeID p; cp_Amount := pt_Amount p;
  cp_SequenceNumber := pt_SequenceNumber p; cp_RemainingCeiling := pt_RemainingCeiling p;
  cp_SignedAt := pt_Timestamp p; cp_PayerSignature := pt_PayerSignature p;
  cp_Status := Some TxPending; cp_SessionNonce := pt_SessionNonce p;
  cp_RequestHash := pt_RequestHash p; cp_RequestAmountKobo := pr_Amount (ci_Request item);
  cp_SubmittedByUserID := submitter |}.

Definition sent_event (p : PaymentToken) (anchorID paymentID : string) : RecordTransactionParams :=
  txn_params anchorID anchorID (pt_PayerID p) (Some (pt_PayeeID p))
    TxKindOfflinePaymentSent TxStatusPending LedgerDirectionDEBIT (pt_Amount p)
    "offline payment sent" (Some paymentID) None None.

Definition received_event (p : PaymentToken) (id anchorID paymentID : string)
  : RecordTransactionParams :=
  txn_params id anchorID (pt_PayeeID p) (Some (pt_PayerID p))
    TxKindOfflinePaymentReceived TxStatusPending LedgerDirectionCREDIT (pt_Amount p)
    "offline payment received" (Some paymentID) None None.

(** The rows, the ledger and the balances, in one transaction.  Returns the payment's id. *)
Definition accept_in_tx (batchID submitter : string) (item : ClaimItem) (now : Time)
  : dbop string :=
  let p := ci_Payment item in
  let! paymentID := fresh in
  let! pendingAcc := wrapping "settlement: receiver pending account"
                       (GetAccountID (pt_PayeeID p) AccountKindReceivingPending) in
  do! wrapping "settlement: insert payment"
        (CreatePayment (payment_params submitter item paymentID)) in
  let! anchorID := fresh in
  let! receiverRowID := fresh in
  do! wrapping "settlement: record payer transaction"
        (RecordTransaction (sent_event p anchorID paymentID)) in
  do! wrapping "settlement: record receiver transaction"
        (RecordTransaction (received_event p receiverRowID anchorID paymentID)) in
  do! wrapping "settlement: post 4a ledger" (PostLedger anchorID
        [Leg (ss_SuspenseAccountID s) "DEBIT" (pt_Amount p) "claim 4a suspense";
         Leg pendingAcc "CREDIT" (pt_Amount p) "claim 4a receiver pending"]) in
  do! wrapping "settlement: debit suspense"
        (ForceDebitAccount (ss_SuspenseAccountID s) (pt_Amount p)) in
  do! wrapping "settlement: credit pending" (CreditAccount pendingAcc (pt_Amount p)) in
  do! wrapping "settlement: stamp submit" (UpdatePaymentStatus paymentID TxPending 0 ""
        (Some batchID) (Some now) None) in
  ret paymentID.

Definition accepted (p : PaymentToken) (paymentID : string) : SettlementResult := {|
  sr_TransactionID := paymentID; sr_SequenceNumber := pt_SequenceNumber p;
  sr_SubmittedAmount := pt_Amount p; sr_SettledAmount := 0; sr_Status := Some TxPending;
  sr_Reason := ""; sr_ReceiverUserID := "" |}.

(** Everything before the accepting transaction: [inl] is the final result (a
    rejection, or an earlier acceptance), [inr] lets the claim through. *)
Definition submit_checks (submitter : string) (item : ClaimItem) (now : Time)
  : dbop (SettlementResult + unit) :=
  let p := ci_Payment item in
  let reject e := ret (inl (rejected p e)) in
  match structural_guard submitter item with
  | Some e => reject e
  | None =>
      let! bad := verify_signatures item in
      match bad with
      | Some e => reject e
      | None =>
          let! bad := binding_guard item now in
          match bad with
          | Some e => reject e
          | None =>
              let! existing := attempt (GetPaymentBySequence (pt_PayerID p)
                                          (pt_SequenceNumber p)) in
              match existing with
              | Ok t => ret (inl (existing_result p t))
              | Err e =>
                  if negb (isNoRows e) then throw (ErrWrap "settlement: dedupe lookup" e)
                  else
                    let! live := wrapping "settlement: reload ceiling status"
                                   (GetCeilingToken (ct_ID (ci_Ceiling item))) in
                    match live_guard live now with
                    | Some e => reject e
                    | None => ret (inr tt)
                    end
              end
          end
      end
  end.

Definition submitOne (batchID submitter : string) (item : ClaimItem) (now : Time)
  : dbop SettlementResult :=
  let! checked := submit_checks submitter item now in
  match checked with
  | inl res => ret res
  | inr _ =>
      let! paymentID := Tx (accept_in_tx batchID submitter item now) in
      ret (accepted (ci_Payment item) paymentID)
  end.

Definition FinalizePayerPayload_json (p : FinalizePayerPayload) : result json :=
  json_object [
    ("payer_user_id", js (fp_PayerUserID p));
    ("reason", js (fp_Reason p));
    ("enqueued_at", marshal_time (utc (fp_EnqueuedAt p)))].

Definition enqueueFinalize (payer reason : string) : dbop unit :=
  if bool_decide (payer = "")
  then throw (ErrNew "settlement: enqueueFinalize: empty payer_user_id")
  else
    let! t := now in
    let! payload := wrapping "settlement: marshal finalize payload"
      (lift (FinalizePayerPayload_json
         {| fp_PayerUserID := payer; fp_Reason := reason; fp_EnqueuedAt := t |})) in
    let! id := fresh in
    InsertFinalizeOutbox id payer payload.

Definition EnqueueFinalize : string -> string -> dbop unit := enqueueFinalize.

(** The state of the loop of [SubmitClaim] over the batch. *)
Record BatchState := {
  bs_Batch : SettlementBatch;
  bs_Results : list SettlementResult;
  bs_AnyAccepted : bool;
  bs_Payers : list string;
}.

Definition set_batch (b : SettlementBatch) (rejectedN amount : Z)
  (status : SettlementBatchStatus) (processedAt : option Time) : SettlementBatch := {|
  sb_ID := sb_ID b; sb_ReceiverID := sb_ReceiverID b;
  sb_TotalSubmitted := sb_TotalSubmitted b; sb_TotalSettled := sb_TotalSettled b;
  sb_TotalPartial := sb_TotalPartial b; sb_TotalRejected := rejectedN;
  sb_TotalAmount := amount; sb_Status := Some status; sb_SubmittedAt := sb_SubmittedAt b;
  sb_ProcessedAt := processedAt; sb_CreatedAt := sb_CreatedAt b |}.

(** [payersToFinalize[payer] = struct{}{}]. *)
Definition add_payer (payer : string) (payers : list string) : list string :=
  if bool_decide (payer ∈ payers) then payers else payers ++ [payer].

Definition step_batch (st : BatchState) (item : ClaimItem) (res : SettlementResult)
  : BatchState :=
  let b := bs_Batch st in
  let results := bs_Results st ++ [res] in
  match sr_Status res with
  | Some TxPending => {|
      bs_Batch := set_batch b (sb_TotalRejected b)
        (add64 (sb_TotalAmount b) (sr_SettledAmount res)) BatchProcessing None;
      bs_Results := results; bs_AnyAccepted := true;
      bs_Payers := add_payer (pt_PayerID (ci_Payment item)) (bs_Payers st) |}
  | Some TxRejected => {|
      bs_Batch := set_batch b (sb_TotalRejected b + 1) (sb_TotalAmount b) BatchProcessing None;
      bs_Results := results; bs_AnyAccepted := bs_AnyAccepted st;
      bs_Payers := bs_Payers st |}
  | _ => {| bs_Batch := b; bs_Results := results; bs_AnyAccepted := bs_AnyAccepted st;
            bs_Payers := bs_Payers st |}
  end.

(** The loop over the batch; an infrastructure error stops it and is returned with
    what was done so far. *)
Fixpoint submit_all (batchID submitter : string) (items : list ClaimItem) (now : Time)
  (st : BatchState) : dbop (BatchState * option error) :=
  match items with
  | [] => ret (st, None)
  | item :: rest =>
      let! r := attempt (submitOne batchID submitter item now) in
      match r with
      | Err e => ret (st, Some e)
      | Ok res => submit_all batchID submitter rest now (step_batch st item res)
      end
  end.

(** Stops at the first failure, which names the payer. *)
Fixpoint enqueue_all (payers : list string) (reason : string) : dbop (option error) :=
  match payers with
  | [] => ret None
  | payer :: rest =>
      let! r := attempt (enqueueFinalize payer reason) in
      match r with
      | Err e => ret (Some (ErrWrap ("settlement: enqueue finalize for " +:+ payer) e))
      | Ok _ => enqueue_all rest reason
      end
  end.

Context {M : MapOrder}.

Definition fail_batch (b : SettlementBatch) : SettlementBatch :=
  set_batch b (sb_TotalRejected b) (sb_TotalAmount b) BatchFailed None.

Definition SubmitClaim (submitter : string) (batch : list ClaimItem) (country : string)
  : dbop (SettlementBatch * list SettlementResult * option error) :=
  if bool_decide (submitter = "")
  then ret (SettlementBatch_zero, [], Some (ErrNew "settlement: submitter id required"))
  else
    let! t := now in
    let! batchID := fresh in
    let b := {|
      sb_ID := batchID; sb_ReceiverID := submitter;
      sb_TotalSubmitted := Z.of_nat (length batch); sb_TotalSettled := 0;
      sb_TotalPartial := 0; sb_TotalRejected := 0; sb_TotalAmount := 0;
      sb_Status := Some BatchProcessing; sb_SubmittedAt := t; sb_ProcessedAt := None;
      sb_CreatedAt := t |} in
    let! (st, failed) := submit_all batchID submitter batch t
      {| bs_Batch := b; bs_Results := []; bs_AnyAccepted := false; bs_Payers := [] |} in
    match failed with
    | Some e => ret (fail_batch (bs_Batch st), bs_Results st, Some e)
    | None =>
        do! (if bs_AnyAccepted st && ss_HasDetector s && negb (bool_decide (country = ""))
             then emit (EvObserveClaim submitter country t) else ret tt) in
        let! failed := enqueue_all (map_order (bs_Payers st)) FinalizeReasonClaimAccepted in
        match failed with
        | Some e => ret (fail_batch (bs_Batch st), bs_Results st, Some e)
        | None =>
            let! processedAt := now in
            let b := bs_Batch st in
            ret (set_batch b (sb_TotalRejected b) (sb_TotalAmount b) BatchCompleted
                   (Some processedAt), bs_Results st, None)
        end
    end.

(** *** Phase 4b *)

(** What one payment gets out of what remains: the settled amount, the final
    status, the reason, and whether the ceiling ran out on it. *)
Definition waterfall_step (remaining amount : Z) : Z * TransactionStatus * string * option string :=
  if remaining <=? 0 then
    (0, TxPartiallySettled, "ceiling exhausted",
     Some "txn reached settlement after ceiling already exhausted")
  else if amount <=? remaining then (amount, TxSettled, "", None)
  else
    (remaining, TxPartiallySettled,
     ("ceiling short by " +:+ pretty (sub64 amount remaining) +:+ " kobo")%string,
     Some "txn settlement exhausted the ceiling (partial)").

(** [remaining] after it. *)
Definition remaining_after (remaining settled : Z) : Z :=
  if remaining <=? 0 then remaining else sub64 remaining settled.

Definition settle_legs (suspense lienAcc pendingAcc mainAcc : string) (settled unsettled : Z)
  : list LedgerLeg :=
  (if 0 <? settled then
     [Leg lienAcc "DEBIT" settled "4b lien release";
      Leg suspense "CREDIT" settled "4b suspense repay";
      Leg pendingAcc "DEBIT" settled "4b pending drain";
      Leg mainAcc "CREDIT" settled "4b main credit"] else [])
  ++ (if 0 <? unsettled then
        [Leg pendingAcc "DEBIT" unsettled "4b unsettled reverse";
         Leg suspense "CREDIT" unsettled "4b suspense reverse"] else []).

Definition settle_balances (suspense lienAcc pendingAcc mainAcc : string)
  (settled unsettled : Z) : dbop unit :=
  do! (if 0 <? settled then
         do! wrapping "settlement: debit lien" (DebitAccount lienAcc settled) in
         do! wrapping "settlement: credit suspense" (CreditAccount suspense settled) in
         do! wrapping "settlement: debit pending" (DebitAccount pendingAcc settled) in
         wrapping "settlement: credit main" (CreditAccount mainAcc settled)
       else ret tt) in
  if 0 <? unsettled then
    do! wrapping "settlement: reverse debit pending" (DebitAccount pendingAcc unsettled) in
    wrapping "settlement: reverse credit suspense" (CreditAccount suspense unsettled)
  else ret tt.

(** The body of the loop: the results so far and what remains of the ceiling. *)
Definition finalize_one (payer lienAcc : string) (ceiling : CeilingToken) (now : Time)
  (st : list SettlementResult * Z) (txn : Transaction)
  : dbop (list SettlementResult * Z) :=
  let '(results, remaining) := st in
  let '(settled, status, reason, exhausted) := waterfall_step remaining (t_Amount txn) in
  do! (match exhausted with
       | Some details =>
           emit (fraud_event payer FraudCeilingExhaustion (Some (ct_ID ceiling))
                   (Some (t_ID txn)) SevLow details)
       | None => ret tt
       end) in
  let! pendingAcc := wrapping "settlement: receiver pending"
                       (GetAccountID (t_PayeeID txn) AccountKindReceivingPending) in
  let! mainAcc := wrapping "settlement: receiver main"
                    (GetAccountID (t_PayeeID txn) AccountKindMain) in
  let! anchor := wrapping "settlement: load txn anchor"
                   (GetTransactionAnchorForPayment (t_ID txn)) in
  let suspense := ss_SuspenseAccountID s in
  let unsettled := sub64 (t_Amount txn) settled in
  let legs := settle_legs suspense lienAcc pendingAcc mainAcc settled unsettled in
  do! (if (0 <? length legs)%nat then
         do! wrapping "settlement: 4b ledger" (PostLedger (an_ID anchor) legs) in
         settle_balances suspense lienAcc pendingAcc mainAcc settled unsettled
       else ret tt) in
  do! wrapping "settlement: update state" (UpdatePaymentStatus (t_ID txn) status settled
        reason (t_SettlementBatchID txn) (t_SubmittedAt txn) (Some now)) in
  do! (if (0 <? settled) && ss_HasDetector s then emit (EvObserveSettled payer now)
       else ret tt) in
  do! wrapping "settlement: finalize transactions"
        (FinalizePairedTransactions (an_GroupID anchor) TxStatusCompleted (Some settled)
           (if bool_decide (reason = "") then None else Some reason)) in
  ret (results ++ [{|
         sr_TransactionID := t_ID txn; sr_SequenceNumber := t_SequenceNumber txn;
         sr_SubmittedAmount := t_Amount txn; sr_SettledAmount := settled;
         sr_Status := Some status; sr_Reason := reason;
         sr_ReceiverUserID := t_PayeeID txn |}],
       remaining_after remaining settled).

Definition txn_seq_le (x y : Transaction) : Prop := t_SequenceNumber x <= t_SequenceNumber y.
#[global] Instance txn_seq_le_dec x y : Decision (txn_seq_le x y).
Proof. unfold txn_seq_le. apply _. Defined.

Definition finalize_in_tx (payer : string) : dbop (list SettlementResult) :=
  let! pending := wrapping "settlement: list pending" (ListPendingForPayer payer) in
  match merge_sort txn_seq_le pending with
  | [] => ret []
  | first :: rest =>
      let! lienAcc := wrapping "settlement: lien account"
                        (GetAccountID payer AccountKindLienHolding) in
      let! ceiling := wrapping "settlement: load ceiling"
                        (GetCeilingToken (t_CeilingTokenID first)) in
      let! t := now in
      let! (results, remaining) := for_each (first :: rest)
        (finalize_one payer lienAcc ceiling t) ([], ct_CeilingAmount ceiling) in
      do! (if remaining =? 0
           then wrapping "settlement: exhaust ceiling"
                  (UpdateCeilingStatus (ct_ID ceiling) CeilingExhausted)
           else ret tt) in
      ret results
  end.

Definition FinalizeForPayer (payer : string) : dbop (list SettlementResult) :=
  Tx (finalize_in_tx payer).

(** The count enqueued, with the error that stopped the sweep if one did. *)
Fixpoint sweep_all (payers : list string) (enqueued : Z) : dbop (Z * option error) :=
  match payers with
  | [] => ret (enqueued, None)
  | p :: rest =>
      let! r := attempt (enqueueFinalize p FinalizeReasonSweep) in
      match r with
      | Err e => ret (enqueued, Some e)
      | Ok _ => sweep_all rest (enqueued + 1)
      end
  end.

Definition AutoSettleSweep : dbop (Z * option error) :=
  let! t := now in
  let! payers := wrapping "settlement: list stale payers"
                   (ListPayersWithStalePending (t - ss_AutoSettleTimeout s)) in
  sweep_all payers 0.

End Settlement.
