(* ===== verification/SettlementFacts.v ===== *)
(** * What settlement guarantees (internal/service/settlement/service.go)

    The effect of accepting a claim and of finalizing a payer on the books and the
    liens; the waterfall that splits a ceiling over the pending payments; and what
    a verdict of [submitOne] says about the claim. *)

From S2P Require Import Prelude Domain Json Crypto Store Repo Books Solvency Settlement.

Section SettlementFacts.
Context {E : Env} {C : Ed25519} {F : FreshIDs E}.
Variable s : SettlementService.
Implicit Types w : world db effect.

#[local] Abbreviation sus := (ss_SuspenseAccountID s).

Definition claim_fn (pendingAcc : string) (n : Z) : string -> Z :=
  fun x => move_at sus (- n) x + move_at pendingAcc n x.

(** A committed acceptance. *)
Lemma runs_accept_in_tx batch submitter item now w id w' :
  runs (accept_in_tx s batch submitter item now) w id w' ->
  let p := ci_Payment item in
  exists pendingAcc row,
    account_of (w_st w) pendingAcc (pt_PayeeID p) AccountKindReceivingPending /\
    moved (w_st w) (w_st w') (claim_fn pendingAcc (pt_Amount p)) (claim_fn pendingAcc (pt_Amount p)) /\
    ceiling_tokens (w_st w') = ceiling_tokens (w_st w) /\
    payment_tokens (w_st w) !! id = None /\
    payment_tokens (w_st w') = <[id := row]> (payment_tokens (w_st w)) /\
    p_CeilingID row = ct_ID (ci_Ceiling item) /\ p_PayerUserID row = pt_PayerID p /\
    p_PayeeUserID row = pt_PayeeID p /\ p_AmountKobo row = pt_Amount p /\
    p_SequenceNumber row = pt_SequenceNumber p /\ p_SettledAmountKobo row = 0 /\
    p_Status row = TxPending /\ p_SessionNonce row = pt_SessionNonce p /\
    p_SettlementBatchID row = Some batch /\
    p_SubmittedByUserID row = strPtr submitter /\
    0 < pt_Amount p <= int64_max /\
    (forall i q, payment_tokens (w_st w) !! i = Some q ->
       same_sequence (pt_PayerID p) (pt_SequenceNumber p) q = false /\
       same_nonce (pt_PayeeID p) (pt_SessionNonce p) q = false).
Proof.
  intros H p. unfold accept_in_tx in H. subst p. set (p := ci_Payment item) in *.
  apply runs_bind in H as (pid & w1 & Hi & H). apply runs_fresh in Hi as [Hpid ->].
  assert (pid <> "") as Hne by (rewrite Hpid; apply new_id_nonempty).
  apply runs_bind in H as (acc & w2 & Ha & H). apply runs_wrapping, runs_GetAccountID in Ha as [Hw2 Ha].
  apply runs_bind in H as (tx & w3 & Hc & H).
  apply runs_wrapping, runs_CreatePayment in Hc as (i & row & Hi & H1 & H2 & H3 & H4 & H5 & H6 & H7
    & H8 & H9 & Hpos & Hmax & Hdiff & Hfresh & Hseq & Hnonce & _ & Hw3).
  cbn in *. specialize (Hi Hne). subst i.
  apply runs_bind in H as (anchor & w4 & Hx & H). apply runs_fresh in Hx as [_ ->].
  apply runs_bind in H as (rid & w5 & Hx & H). apply runs_fresh in Hx as [_ ->].
  apply runs_bind in H as ([] & w6 & Hr & H).
  apply runs_wrapping, runs_RecordTransaction in Hr as (_ & _ & t1 & Hw6).
  apply runs_bind in H as ([] & w7 & Hr & H).
  apply runs_wrapping, runs_RecordTransaction in Hr as (_ & _ & t2 & Hw7).
  apply runs_bind in H as ([] & w8 & Hl & H). apply runs_wrapping, runs_PostLedger in Hl as [Hl Rl].
  apply runs_bind in H as ([] & w9 & Hd & H). apply runs_wrapping, runs_ForceDebitAccount in Hd as [Hd Rd].
  apply runs_bind in H as ([] & w10 & Hcr & H). apply runs_wrapping, runs_CreditAccount in Hcr as [Hcr Rc].
  apply runs_bind in H as (tx2 & w11 & Hu & H).
  apply runs_wrapping, runs_UpdatePaymentStatus in Hu as (_ & q & t3 & Hq & Hw11).
  apply runs_ret in H as [-> ->]. cbn in *.
  assert (moved (w_st w) (w_st w7) no_move no_move) as Hm0.
  { apply moved_same; rewrite Hw7; cbn; rewrite Hw6; cbn; rewrite Hw3; cbn; congruence. }
  assert (rest (w_st w10) = rest (w_st w7)) as R by congruence.
  injection R as _ _ _ RC RP _ _ _ _.
  assert (payment_tokens (w_st w10) = <[pid := row]> (payment_tokens (w_st w))) as HP.
  { rewrite RP, Hw7. cbn. rewrite Hw6. cbn. rewrite Hw3. cbn. by rewrite ?Hw2. }
  rewrite HP, lookup_insert_eq in Hq. injection Hq as <-.
  exists acc, (set_payment_status TxPending None 0 (Some batch) (tszPtr (Some now)) None t3 row).
  rewrite Hw2 in *. split_and!; try done; try lia.
  - eapply moved_ext.
    + eapply moved_trans; [exact Hm0|]. eapply moved_trans; [exact Hl|].
      eapply moved_trans; [exact Hd|]. eapply moved_trans; [exact Hcr|].
      apply moved_same; rewrite Hw11; done.
    + intros x. unfold claim_fn, no_move. lia.
    + intros x. unfold claim_fn, no_move. cbn. unfold leg_sign. cbn. lia.
  - rewrite Hw11. cbn. rewrite RC, Hw7. cbn. rewrite Hw6. cbn. rewrite Hw3. cbn. by rewrite ?Hw2.
  - rewrite Hw11. cbn. rewrite HP, insert_insert_eq. done.
  - intros i q Hi. split; eauto.
Qed.

Lemma pend_all_insert d d' i p :
  payment_tokens d !! i = None -> payment_tokens d' = <[i := p]> (payment_tokens d) ->
  pend_all d' = pend_all d + pending_amount p.
Proof. intros Hi H. unfold pend_all. rewrite H, sum_rows_fresh by done. lia. Qed.

Lemma pend_to_insert d d' i p u :
  payment_tokens d !! i = None -> payment_tokens d' = <[i := p]> (payment_tokens d) ->
  pend_to d' u = pend_to d u + pending_to u p.
Proof. intros Hi H. unfold pend_to. rewrite H, sum_rows_fresh by done. lia. Qed.

Lemma pend_all_update d d' i p q :
  payment_tokens d !! i = Some p -> payment_tokens d' = <[i := q]> (payment_tokens d) ->
  pend_all d' = pend_all d - pending_amount p + pending_amount q.
Proof. intros Hi H. unfold pend_all. by rewrite H, (sum_rows_update _ _ _ _ q Hi). Qed.

Lemma pend_to_update d d' i p q u :
  payment_tokens d !! i = Some p -> payment_tokens d' = <[i := q]> (payment_tokens d) ->
  pend_to d' u = pend_to d u - pending_to u p + pending_to u q.
Proof. intros Hi H. unfold pend_to. by rewrite H, (sum_rows_update _ _ _ _ q Hi). Qed.

(** Accepting a claim keeps the books, whoever's ceiling it names. *)
Lemma accept_books batch submitter item now w id w' :
  books sus (w_st w) -> runs (accept_in_tx s batch submitter item now) w id w' ->
  books sus (w_st w').
Proof.
  intros Hb H. apply runs_accept_in_tx in H
    as (acc & row & Hacc & Hm & _ & Hfresh & Hp & _ & Hpayer & Hpayee & Ham & Hnum & _ & Hst & _ & _
        & _ & Hpos & Hseq).
  assert (pending_amount row = pt_Amount (ci_Payment item)) as Hpa
    by (unfold pending_amount; by rewrite decide_True).
  destruct (suspense_account_of _ _ Hb) as [us Hsus].
  pose proof (account_of_ne _ _ _ _ _ _ _ Hsus Hacc ltac:(done)) as Hne.
  apply (books_step sus _ _ _ _ Hb Hm); [done| | | |].
  - rewrite (pend_all_insert _ _ _ _ Hfresh Hp), Hpa. unfold claim_fn.
    rewrite move_at_eq, move_at_ne by done. lia.
  - intros x a Ha Hk. rewrite (pend_to_insert _ _ _ _ _ Hfresh Hp).
    pose proof (account_of_iff _ _ _ _ _ Hb Hacc x a Ha Hk) as Hiff.
    unfold claim_fn. rewrite (move_at_ne sus).
    + assert (pt_PayeeID (ci_Payment item) = a_UserID a <-> x = acc) as Hiff'
        by (rewrite <- Hiff; split; congruence).
      unfold move_at, pending_to. rewrite Hpa, Hpayee. do 2 case_decide; lia || tauto.
    + intros ->. pose proof (account_of_kind _ _ _ _ _ Hsus Ha). congruence.
  - intros i q Hi. rewrite Hp in Hi.
    apply lookup_insert_Some in Hi as [[<- <-]|[_ Hi]]; [lia | by apply (bk_amounts sus _ Hb i)].
  - rewrite Hp. apply sequences_insert; [apply Hb|]. intros i q Hi.
    rewrite Hpayer, Hnum. by apply (Hseq i q).
Qed.

(** The ceiling a claim names, when there is one, is the payer's. *)
Definition bound (d : db) (item : ClaimItem) : Prop :=
  forall c, ceiling_tokens d !! ct_ID (ci_Ceiling item) = Some c ->
    c_PayerUserID c = pt_PayerID (ci_Payment item).

(** The ceiling a claim names is there, and live. *)
Definition names_live (d : db) (item : ClaimItem) : Prop :=
  exists c, ceiling_tokens d !! ct_ID (ci_Ceiling item) = Some c /\ is_live (c_Status c) = true.

Lemma accept_liens batch submitter item now w id w' :
  solvent sus (w_st w) -> bound (w_st w) item -> names_live (w_st w) item ->
  runs (accept_in_tx s batch submitter item now) w id w' -> liens (w_st w').
Proof.
  intros [Hb Hl] Hbound (c & Hc & Hlive) H. pose proof (Hbound c Hc) as Hu. apply runs_accept_in_tx in H
    as (acc & row & Hacc & Hm & HC & Hfresh & Hp & Hcid & Hpayer & _ & Ham & _ & Hz & Hst & _ & _ & _
        & Hpos & _).
  destruct (suspense_account_of _ _ Hb) as [us Hsus].
  apply (liens_step_claim _ _ _ _ id row c Hl Hm HC Hfresh Hp); try congruence; try lia.
  intros x a Ha Hk. unfold claim_fn. rewrite !move_at_ne; [done| |]; intros ->.
  - pose proof (account_of_kind _ _ _ _ _ Hacc Ha). congruence.
  - pose proof (account_of_kind _ _ _ _ _ Hsus Ha). congruence.
Qed.

(** *** Phase 4b: one payment *)

Lemma waterfall_bounds remaining amount :
  0 < amount ->
  let '(settled, status, _, _) := waterfall_step remaining amount in
  settled = Z.min amount (Z.max 0 remaining) /\ 0 <= settled <= amount /\
  (status = TxSettled <-> settled = amount) /\
  (status = TxSettled \/ status = TxPartiallySettled).
Proof.
  intros Ha. unfold waterfall_step. destruct (remaining <=? 0) eqn:H1; cbn.
  - apply Z.leb_le in H1. split; [lia|]. split; [lia|]. split; [|by right].
    split; [done|lia].
  - apply Z.leb_gt in H1. destruct (amount <=? remaining) eqn:H2; cbn.
    + apply Z.leb_le in H2. split; [lia|]. split; [lia|]. split; [|by left]. done.
    + apply Z.leb_gt in H2. split; [lia|]. split; [lia|]. split; [|by right].
      split; [done|lia].
Qed.

Definition settle_fn (lienAcc pendingAcc mainAcc : string) (amount settled : Z) : string -> Z :=
  fun x => move_at lienAcc (- settled) x + move_at sus amount x
           + move_at pendingAcc (- amount) x + move_at mainAcc settled x.

(** The ledger legs and the balance updates are the same movement. *)
Lemma settle_legs_net lienAcc pendingAcc mainAcc amount settled x :
  0 <= settled <= amount ->
  legs_net (settle_legs sus lienAcc pendingAcc mainAcc settled (amount - settled)) x
  = settle_fn lienAcc pendingAcc mainAcc amount settled x.
Proof.
  intros H. unfold settle_legs, settle_fn.
  destruct (0 <? settled) eqn:H1; destruct (0 <? amount - settled) eqn:H2;
    cbn; unfold leg_sign, move_at; cbn; repeat case_decide; lia.
Qed.

Lemma runs_settle_balances lienAcc pendingAcc mainAcc amount settled w u w' :
  0 <= settled <= amount ->
  runs (settle_balances sus lienAcc pendingAcc mainAcc settled (amount - settled)) w u w' ->
  money (w_st w) (w_st w') (settle_fn lienAcc pendingAcc mainAcc amount settled) no_move /\
  (0 < settled -> settled <= bal (w_st w) lienAcc).
Proof.
  intros Hs H. unfold settle_balances in H. apply runs_bind in H as ([] & w1 & H1 & H2).
  assert (money (w_st w) (w_st w1) (fun x => move_at lienAcc (- settled) x + move_at sus settled x
            + move_at pendingAcc (- settled) x + move_at mainAcc settled x) no_move /\
          (0 < settled -> settled <= bal (w_st w) lienAcc)) as [M1 Hle].
  { destruct (0 <? settled) eqn:Hlt.
    - apply runs_bind in H1 as ([] & v1 & Ha & H1). apply runs_wrapping, runs_DebitAccount in Ha as [Ha Hle].
      apply runs_bind in H1 as ([] & v2 & Hb & H1). apply runs_wrapping, runs_CreditAccount in Hb.
      apply runs_bind in H1 as ([] & v3 & Hc & H1). apply runs_wrapping, runs_DebitAccount in Hc as [Hc _].
      apply runs_wrapping, runs_CreditAccount in H1. split; [|done].
      eapply money_ext.
      + eapply money_trans; [exact Ha|]. eapply money_trans; [exact Hb|].
        eapply money_trans; [exact Hc|exact H1].
      + intros x. cbn. lia.
      + intros x. unfold no_move. lia.
    - apply runs_ret in H1 as [_ ->]. apply Z.ltb_ge in Hlt. split; [|lia].
      assert (settled = 0) as -> by lia.
      eapply money_ext; [apply money_refl| |done].
      intros x. unfold no_move, move_at. repeat case_decide; lia. }
  split; [|done].
  assert (money (w_st w1) (w_st w') (fun x => move_at pendingAcc (- (amount - settled)) x
            + move_at sus (amount - settled) x) no_move) as M2.
  { destruct (0 <? amount - settled) eqn:Hlt.
    - apply runs_bind in H2 as ([] & v1 & Ha & H2). apply runs_wrapping, runs_DebitAccount in Ha as [Ha _].
      apply runs_wrapping, runs_CreditAccount in H2.
      eapply money_ext; [eapply money_trans; [exact Ha|exact H2]| |].
      + intros x. cbn. lia.
      + intros x. unfold no_move. lia.
    - apply runs_ret in H2 as [_ ->]. apply Z.ltb_ge in Hlt.
      replace (amount - settled) with 0 by lia.
      eapply money_ext; [apply money_refl| |done].
      intros x. unfold no_move, move_at. repeat case_decide; lia. }
  eapply money_ext; [eapply money_trans; [exact M1|exact M2]| |].
  - intros x. cbn. unfold settle_fn, move_at. repeat case_decide; lia.
  - intros x. unfold no_move. lia.
Qed.

(** What is settled of a payment when [remaining] is left of the ceiling. *)
Definition share (remaining amount : Z) : Z := Z.min amount (Z.max 0 remaining).

Definition waterfall_status (remaining amount : Z) : TransactionStatus :=
  if amount <=? remaining then TxSettled else TxPartiallySettled.

Lemma waterfall_step_spec remaining amount :
  0 < amount ->
  exists reason details,
    waterfall_step remaining amount =
      (share remaining amount, waterfall_status remaining amount, reason, details).
Proof.
  intros Ha. unfold waterfall_step, share, waterfall_status.
  destruct (remaining <=? 0) eqn:H1.
  - apply Z.leb_le in H1. replace (Z.min amount (Z.max 0 remaining)) with 0 by lia.
    replace (amount <=? remaining) with false by (symmetry; apply Z.leb_gt; lia). eauto.
  - apply Z.leb_gt in H1. destruct (amount <=? remaining) eqn:H2.
    + apply Z.leb_le in H2. replace (Z.min amount (Z.max 0 remaining)) with amount by lia. eauto.
    + apply Z.leb_gt in H2. replace (Z.min amount (Z.max 0 remaining)) with remaining by lia.
      eauto.
Qed.

Lemma remaining_after_spec remaining amount :
  0 <= remaining <= int64_max -> 0 < amount ->
  remaining_after remaining (share remaining amount) = remaining - share remaining amount
  /\ 0 <= share remaining amount <= amount /\ share remaining amount <= remaining.
Proof.
  intros H Ha. unfold remaining_after, share. destruct (remaining <=? 0) eqn:H1; [lia|].
  apply Z.leb_gt in H1. rewrite sub64_nonneg by lia. lia.
Qed.

Lemma runs_finalize_one payer lienAcc ceiling now results remaining txn w st' w' :
  0 <= remaining <= int64_max -> 0 < t_Amount txn <= int64_max ->
  runs (finalize_one s payer lienAcc ceiling now (results, remaining) txn) w st' w' ->
  let n := share remaining (t_Amount txn) in
  exists pendingAcc mainAcc p p' r,
    account_of (w_st w) pendingAcc (t_PayeeID txn) AccountKindReceivingPending /\
    account_of (w_st w) mainAcc (t_PayeeID txn) AccountKindMain /\
    moved (w_st w) (w_st w') (settle_fn lienAcc pendingAcc mainAcc (t_Amount txn) n)
      (settle_fn lienAcc pendingAcc mainAcc (t_Amount txn) n) /\
    (0 < n -> n <= bal (w_st w) lienAcc) /\
    ceiling_tokens (w_st w') = ceiling_tokens (w_st w) /\
    payment_tokens (w_st w) !! t_ID txn = Some p /\
    payment_tokens (w_st w') = <[t_ID txn := p']> (payment_tokens (w_st w)) /\
    p_CeilingID p' = p_CeilingID p /\ p_PayerUserID p' = p_PayerUserID p /\
    p_PayeeUserID p' = p_PayeeUserID p /\ p_AmountKobo p' = p_AmountKobo p /\
    p_SettledAmountKobo p' = n /\ p_Status p' = waterfall_status remaining (t_Amount txn) /\
    st' = (results ++ [r], remaining - n) /\
    sr_TransactionID r = t_ID txn /\ sr_SettledAmount r = n /\
    sr_Status r = Some (waterfall_status remaining (t_Amount txn)) /\
    sr_ReceiverUserID r = t_PayeeID txn /\ p_SequenceNumber p' = p_SequenceNumber p.
Proof.
  intros Hrem Ham H n. destruct (remaining_after_spec remaining (t_Amount txn) Hrem ltac:(lia))
    as (Hafter & Hn & _). fold n in Hafter, Hn.
  unfold finalize_one in H.
  destruct (waterfall_step_spec remaining (t_Amount txn) ltac:(lia)) as (reason & details & Hws).
  rewrite Hws in H. fold n in H.
  apply runs_bind in H as ([] & w1 & Hf & H).
  assert (w_st w1 = w_st w) as Hw1
    by (destruct details; [apply runs_emit in Hf as -> | apply runs_ret in Hf as [_ ->]]; done).
  apply runs_bind in H as (acc & w2 & Ha & H). apply runs_wrapping, runs_GetAccountID in Ha as [Hw2 Ha].
  apply runs_bind in H as (main & w3 & Hm & H). apply runs_wrapping, runs_GetAccountID in Hm as [Hw3 Hm].
  apply runs_bind in H as (anchor & w4 & Hx & H). apply runs_wrapping in Hx. quiet_in Hx Hw4.
  rewrite sub64_nonneg in H by lia.
  apply runs_bind in H as ([] & w5 & Hl & H).
  assert (money (w_st w) (w_st w5) (settle_fn lienAcc acc main (t_Amount txn) n)
            (settle_fn lienAcc acc main (t_Amount txn) n) /\
          (0 < n -> n <= bal (w_st w) lienAcc)) as [[M R] Hle].
  { rewrite Hw2, Hw1 in *. destruct (0 <? length _)%nat eqn:Hlen.
    - apply runs_bind in Hl as ([] & v & Hp & Hl). apply runs_wrapping, runs_PostLedger in Hp.
      apply runs_settle_balances in Hl as [Hl Hle]; [|done].
      assert (w_st w4 = w_st w) as Hw by congruence. rewrite Hw in Hp. split.
      + eapply money_ext; [eapply money_trans; [exact Hp|exact Hl]| |]; intros x; cbn.
        * unfold no_move. lia.
        * rewrite settle_legs_net by done. unfold no_move. lia.
      + intros Hpos. specialize (Hle Hpos). destruct Hp as [Hp _].
        rewrite (moved_bal _ _ _ _ Hp) in Hle. unfold no_move in Hle. lia.
    - exfalso. apply Nat.ltb_ge in Hlen. unfold settle_legs in Hlen.
      destruct (0 <? n) eqn:H1; destruct (0 <? t_Amount txn - n) eqn:H2; cbn in Hlen; lia. }
  injection R as _ _ _ RC RP _ _ _ _.
  apply runs_bind in H as (tx & w6 & Hu & H).
  apply runs_wrapping, runs_UpdatePaymentStatus in Hu as (_ & p & t3 & Hp & Hw6).
  apply runs_bind in H as ([] & w7 & Ho & H).
  assert (w_st w7 = w_st w6) as Hw7.
  { destruct ((0 <? n) && ss_HasDetector s);
      [apply runs_emit in Ho as -> | apply runs_ret in Ho as [_ ->]]; done. }
  apply runs_bind in H as ([] & w8 & Hg & H). apply runs_wrapping in Hg.
  unfold FinalizePairedTransactions in Hg. apply runs_bind in Hg as (rows & w9 & Hq & Hg).
  quiet_in Hq Hw9. apply runs_update_txns in Hg as (m & Hw8 & _).
  apply runs_ret in H as [-> ->].
  rewrite RP in Hp. rewrite Hw2, Hw1 in *.
  do 2 eexists. exists p. do 2 eexists.
  split; [exact Ha|]. split; [exact Hm|]. split.
  { eapply moved_ext; [eapply moved_trans; [exact M|apply moved_same]| |].
    - by rewrite Hw8, Hw9, Hw7, Hw6.
    - by rewrite Hw8, Hw9, Hw7, Hw6.
    - intros x. unfold no_move. lia.
    - intros x. unfold no_move. lia. }
  split; [done|]. split. { rewrite Hw8, Hw9, Hw7, Hw6. cbn. done. }
  split; [done|]. split. { rewrite Hw8, Hw9, Hw7, Hw6. cbn. rewrite RP. reflexivity. }
  rewrite Hafter. cbn. done.
Qed.

Lemma waterfall_status_not_pending r a : waterfall_status r a <> TxPending.
Proof. unfold waterfall_status. by destruct (_ <=? _). Qed.

(** A pending transaction as listed, still the row of the database. *)
Definition listed (payer : string) (d : db) (txn : Transaction) : Prop :=
  exists p, payment_tokens d !! t_ID txn = Some p /\ txn = paymentToDomainTxn (t_ID txn, p) /\
            pending_of payer p = true.

Lemma pending_of_spec payer p :
  pending_of payer p = true <-> p_PayerUserID p = payer /\ p_Status p = TxPending.
Proof. unfold pending_of. by rewrite andb_true_iff, !bool_decide_eq_true. Qed.

Lemma finalize_one_books payer lienAcc ceiling now results remaining txn w st' w' :
  books sus (w_st w) -> account_of (w_st w) lienAcc payer AccountKindLienHolding ->
  listed payer (w_st w) txn -> 0 <= remaining <= int64_max ->
  runs (finalize_one s payer lienAcc ceiling now (results, remaining) txn) w st' w' ->
  books sus (w_st w').
Proof.
  intros Hb Hlien (p0 & Hp0 & Htxn & Hpend) Hrem H.
  apply pending_of_spec in Hpend as [Hpayer Hst].
  pose proof (bk_amounts sus _ Hb _ _ Hp0) as Ham.
  assert (t_Amount txn = p_AmountKobo p0 /\ t_PayeeID txn = p_PayeeUserID p0) as [Hta Hte]
    by (by rewrite Htxn).
  apply runs_finalize_one in H as (acc & main & p & p' & r & Hacc & Hmain & Hm & Hle & HC & Hp & HP
    & Hc & Hpr & Hpe & Hpa & Hset & Hps & _ & _ & _ & _ & _ & Hnum); [|done|by rewrite Hta].
  rewrite Hp0 in Hp. injection Hp as <-.
  destruct (suspense_account_of _ _ Hb) as [us Hsus].
  pose proof (account_of_ne _ _ _ _ _ _ _ Hsus Hacc ltac:(done)) as N1.
  pose proof (account_of_ne _ _ _ _ _ _ _ Hsus Hmain ltac:(done)) as N2.
  pose proof (account_of_ne _ _ _ _ _ _ _ Hsus Hlien ltac:(done)) as N3.
  assert (pending_amount p0 = t_Amount txn) as Hpa0
    by (unfold pending_amount; rewrite decide_True by done; congruence).
  assert (pending_amount p' = 0) as Hpa'.
  { unfold pending_amount. rewrite decide_False; [done|]. rewrite Hps.
    apply waterfall_status_not_pending. }
  apply (books_step sus _ _ _ _ Hb Hm); [done| | | |].
  - rewrite (pend_all_update _ _ _ _ _ Hp0 HP), Hpa0, Hpa'. unfold settle_fn.
    rewrite move_at_eq, !move_at_ne by done. lia.
  - intros x a Ha Hk. rewrite (pend_to_update _ _ _ _ _ _ Hp0 HP).
    pose proof (account_of_iff _ _ _ _ _ Hb Hacc x a Ha Hk) as Hiff.
    assert (p_PayeeUserID p0 = a_UserID a <-> x = acc) as Hiff'
      by (rewrite <- Hiff; split; congruence).
    unfold settle_fn. rewrite (move_at_ne lienAcc), (move_at_ne sus), (move_at_ne main).
    + unfold move_at, pending_to. rewrite Hpa0, Hpa', Hpe. do 2 case_decide; lia || tauto.
    + intros ->. pose proof (account_of_kind _ _ _ _ _ Hmain Ha). congruence.
    + intros ->. pose proof (account_of_kind _ _ _ _ _ Hsus Ha). congruence.
    + intros ->. pose proof (account_of_kind _ _ _ _ _ Hlien Ha). congruence.
  - intros i q Hi. rewrite HP in Hi. apply lookup_insert_Some in Hi as [[<- <-]|[_ Hi]].
    + by rewrite Hpa.
    + by apply (bk_amounts sus _ Hb i).
  - rewrite HP. by apply (sequences_update _ _ p0); [apply Hb|..].
Qed.

Lemma finalize_one_solvent payer lienAcc ceiling now results remaining txn w st' w' :
  solvent sus (w_st w) -> account_of (w_st w) lienAcc payer AccountKindLienHolding ->
  listed payer (w_st w) txn -> 0 <= remaining <= int64_max ->
  runs (finalize_one s payer lienAcc ceiling now (results, remaining) txn) w st' w' ->
  solvent sus (w_st w').
Proof.
  intros [Hb Hl] Hlien Hlisted Hrem H.
  split; [by eapply finalize_one_books|]. destruct Hlisted as (p0 & Hp0 & Htxn & Hpend).
  apply pending_of_spec in Hpend as [Hpayer Hst].
  pose proof (bk_amounts sus _ Hb _ _ Hp0) as Ham.
  assert (t_Amount txn = p_AmountKobo p0) as Hta by (by rewrite Htxn).
  apply runs_finalize_one in H as (acc & main & p & p' & r & Hacc & Hmain & Hm & Hle & HC & Hp & HP
    & Hc & Hpr & Hpe & Hpa & Hset & Hps & _); [|done|by rewrite Hta].
  rewrite Hp0 in Hp. injection Hp as <-.
  destruct (remaining_after_spec remaining (t_Amount txn) Hrem ltac:(lia)) as (_ & Hn & _).
  set (n := share remaining (t_Amount txn)) in *.
  destruct (suspense_account_of _ _ Hb) as [us Hsus].
  destruct (ln_bound _ Hl _ _ Hp0) as (c & Hcc & _).
  apply (liens_step_settle _ _ _ _ lienAcc payer (t_ID txn) p0 p' c n Hl Hm HC Hp0 HP); try done.
  - rewrite Hps. apply waterfall_status_not_pending.
  - congruence.
  - lia.
  - pose proof (account_of_nonneg _ _ _ _ _ Hb Hlien ltac:(done)). lia.
  - intros x a Ha Hk. pose proof (account_of_iff _ _ _ _ _ Hb Hlien x a Ha Hk) as Hiff.
    unfold settle_fn. rewrite (move_at_ne sus), (move_at_ne acc), (move_at_ne main).
    + unfold move_at. do 2 case_decide; lia || tauto.
    + intros ->. pose proof (account_of_kind _ _ _ _ _ Hmain Ha). congruence.
    + intros ->. pose proof (account_of_kind _ _ _ _ _ Hacc Ha). congruence.
    + intros ->. pose proof (account_of_kind _ _ _ _ _ Hsus Ha). congruence.
Qed.

(** *** Phase 4b: the loop *)

(** The shares of a list of amounts, in order, and what is left. *)
Fixpoint waterfall (remaining : Z) (amounts : list Z) : list Z :=
  match amounts with
  | [] => []
  | a :: rest => share remaining a :: waterfall (remaining - share remaining a) rest
  end.

Definition sum_list (l : list Z) : Z := foldr Z.add 0 l.

Lemma waterfall_bound amounts : forall remaining,
  0 <= remaining -> Forall (fun a => 0 < a) amounts ->
  sum_list (waterfall remaining amounts) = Z.min remaining (sum_list amounts) /\
  Forall2 (fun n a => 0 <= n <= a) (waterfall remaining amounts) amounts.
Proof.
  induction amounts as [|a rest IH]; intros remaining Hr Hpos; cbn.
  - split; [lia|constructor].
  - apply Forall_cons in Hpos as [Ha Hrest].
    destruct (IH (remaining - share remaining a)) as [H1 H2]; [unfold share; lia|done|].
    assert (0 <= sum_list rest).
    { clear -Hrest. induction rest as [|x rest IH]; cbn; [lia|].
      apply Forall_cons in Hrest as [? ?]. specialize (IH H0). unfold sum_list in IH. lia. }
    unfold sum_list in *. rewrite H1. split; [unfold share; lia|].
    constructor; [unfold share; lia|done].
Qed.

Definition has_result (txn : Transaction) (n : Z) (r : SettlementResult) : Prop :=
  sr_TransactionID r = t_ID txn /\ sr_SettledAmount r = n /\
  sr_ReceiverUserID r = t_PayeeID txn /\
  sr_Status r = Some (if n =? t_Amount txn then TxSettled else TxPartiallySettled).

Lemma waterfall_status_share remaining a :
  0 < a -> waterfall_status remaining a =
           if share remaining a =? a then TxSettled else TxPartiallySettled.
Proof.
  intros Ha. unfold waterfall_status, share.
  destruct (a <=? remaining) eqn:H1; destruct (Z.min a (Z.max 0 remaining) =? a) eqn:H2;
    done || (exfalso; lia).
Qed.

(** What the loop maintains while [txns] remain to be processed. *)
Record looping (payer lienAcc cid : string) (txns : list Transaction) (ceil remaining : Z)
  (d : db) : Prop := {
  lp_solvent : solvent sus d;
  lp_lien : account_of d lienAcc payer AccountKindLienHolding;
  lp_listed txn : txn ∈ txns -> listed payer d txn;
  lp_nodup : NoDup (map t_ID txns);
  lp_all i p : payment_tokens d !! i = Some p -> pending_of payer p = true ->
    i ∈ map t_ID txns;
  lp_ceiling txn : txn ∈ txns -> t_CeilingTokenID txn = cid;
  lp_remaining : 0 <= remaining <= int64_max;
  lp_spent : ceil - remaining <= sum_settled cid d;
}.

Lemma looping_step payer lienAcc cid ceiling now txn txns ceil remaining results w st' w' :
  looping payer lienAcc cid (txn :: txns) ceil remaining (w_st w) ->
  runs (finalize_one s payer lienAcc ceiling now (results, remaining) txn) w st' w' ->
  let n := share remaining (t_Amount txn) in
  looping payer lienAcc cid txns ceil (remaining - n) (w_st w') /\
  ceiling_tokens (w_st w') = ceiling_tokens (w_st w) /\
  exists r, st' = (results ++ [r], remaining - n) /\ has_result txn n r.
Proof.
  intros [Hs Hlien Hlist Hnd Hall Hcid Hrem Hspent] H n.
  assert (listed payer (w_st w) txn) as Hl by (apply Hlist; left).
  pose proof (finalize_one_solvent _ _ _ _ _ _ _ _ _ _ Hs Hlien Hl Hrem H) as Hs'.
  destruct Hl as (p0 & Hp0 & Htxn & Hpend). apply pending_of_spec in Hpend as [Hpayer Hst].
  pose proof (bk_amounts sus _ (sv_books _ _ Hs) _ _ Hp0) as Ham.
  assert (t_Amount txn = p_AmountKobo p0) as Hta by (by rewrite Htxn).
  assert (t_CeilingTokenID txn = p_CeilingID p0) as Htc by (by rewrite Htxn).
  destruct (remaining_after_spec remaining (t_Amount txn) Hrem ltac:(lia)) as (_ & Hn & Hn').
  apply runs_finalize_one in H as (acc & main & p & p' & r & Hacc & Hmain & Hm & Hle & HC & Hp & HP
    & Hc & Hpr & Hpe & Hpa & Hset & Hps & Hres & Hr1 & Hr2 & Hr3 & Hr4 & _); [|done|by rewrite Hta].
  rewrite Hp0 in Hp. injection Hp as <-. fold n in Hres, Hr2, Hset, Hn, Hn'.
  cbn in Hnd. apply NoDup_cons in Hnd as [Hnin Hnd].
  split; [|split; [done|]].
  - constructor; try done.
    + destruct Hlien as (a & Ha & Hu & Hk).
      destruct (meta_lookup_fwd _ _ _ _ _ _ Hm Ha) as (a' & Ha' & Hu' & Hk').
      exists a'. split_and!; congruence.
    + intros t Ht. destruct (Hlist t) as (q & Hq & Hteq & Hqp); [by right|].
      exists q. split; [|done]. rewrite HP, lookup_insert_ne; [done|].
      intros Heq. apply Hnin. rewrite Heq. by apply list_elem_of_fmap_2.
    + intros i q Hi Hq. rewrite HP in Hi. apply lookup_insert_Some in Hi as [[<- <-]|[Hne Hi]].
      * apply pending_of_spec in Hq as [_ Hq]. rewrite Hps in Hq.
        by apply waterfall_status_not_pending in Hq.
      * specialize (Hall i q Hi Hq). cbn in Hall. apply elem_of_cons in Hall as [->|?]; done.
    + intros t Ht. apply Hcid. by right.
    + lia.
    + rewrite (sum_settled_update cid _ _ _ _ _ Hp0 HP).
      pose proof (ln_settled _ (sv_liens _ _ Hs) _ _ Hp0) as [_ Hz]. specialize (Hz Hst).
      unfold settled_of. rewrite Hc, Hset, Hz.
      rewrite <- Htc, (Hcid txn) by left. rewrite bool_decide_true by done. lia.
  - exists r. split; [done|]. unfold has_result. split_and!; try done.
    rewrite Hr3. f_equal. apply waterfall_status_share. lia.
Qed.

Lemma runs_finalize_loop payer lienAcc cid ceiling now txns :
  forall ceil remaining results w st' w',
  looping payer lienAcc cid txns ceil remaining (w_st w) ->
  runs (for_each txns (finalize_one s payer lienAcc ceiling now) (results, remaining)) w st' w' ->
  let shares := waterfall remaining (map t_Amount txns) in
  looping payer lienAcc cid [] ceil (remaining - sum_list shares) (w_st w') /\
  ceiling_tokens (w_st w') = ceiling_tokens (w_st w) /\
  exists rs, st' = (results ++ rs, remaining - sum_list shares) /\
    length rs = length txns /\
    forall i txn, txns !! i = Some txn -> exists r n, rs !! i = Some r /\ shares !! i = Some n /\
      has_result txn n r.
Proof.
  induction txns as [|txn txns IH]; intros ceil remaining results w st' w' Hl H; cbn in H |- *.
  - apply runs_ret in H as [-> ->]. rewrite Z.sub_0_r. split; [done|]. split; [done|].
    exists []. rewrite app_nil_r. split; [done|]. split; [done|]. by intros i txn.
  - apply runs_bind in H as (st1 & w1 & H1 & H).
    destruct (looping_step _ _ _ _ _ _ _ _ _ _ _ _ _ Hl H1) as (Hl1 & HC1 & r & -> & Hr).
    destruct (IH _ _ _ _ _ _ Hl1 H) as (Hl2 & HC2 & rs & -> & Hlen & Hrs).
    unfold sum_list in *. cbn.
    rewrite Z.sub_add_distr. split; [done|]. split; [congruence|].
    exists (r :: rs). rewrite <- app_assoc. split; [done|]. split; [cbn; by rewrite Hlen|].
    intros [|i] t Ht; cbn in *.
    + injection Ht as <-. eauto.
    + by apply Hrs.
Qed.

Lemma runs_ListPending payer w l w' :
  runs (ListPendingForPayer payer) w l w' ->
  w_st w' = w_st w /\
  l ≡ₚ map paymentToDomainTxn (rows_where (fun _ p => pending_of payer p)
                                 (payment_tokens (w_st w))).
Proof.
  intros H. quiet_in H Hw. split; [done|]. unfold ListPendingForPayer in H.
  apply runs_bind in H as (rows & w1 & Hq & H). apply runs_ret in H as [-> _].
  apply runs_query in Hq as (_ & Hq & _). injection Hq as <-.
  by rewrite merge_sort_Permutation.
Qed.

Lemma listed_of_rows payer d l :
  l ≡ₚ map paymentToDomainTxn (rows_where (fun _ p => pending_of payer p) (payment_tokens d)) ->
  (forall txn, txn ∈ l -> listed payer d txn) /\ NoDup (map t_ID l) /\
  (forall i p, payment_tokens d !! i = Some p -> pending_of payer p = true -> i ∈ map t_ID l).
Proof.
  intros Hl. split; [|split].
  - intros txn Ht. rewrite Hl in Ht. apply list_elem_of_fmap in Ht as ([i p] & -> & Hin).
    apply elem_of_rows_where in Hin as [Hi Hp]. exists p. done.
  - assert (map t_ID l ≡ₚ (rows_where (fun _ p => pending_of payer p) (payment_tokens d)).*1) as Hp.
    { rewrite Hl, map_map. apply reflexive_eq, map_ext. by intros []. }
    rewrite Hp. apply rows_where_NoDup.
  - intros i p Hi Hp. apply list_elem_of_fmap. exists (paymentToDomainTxn (i, p)). split; [done|].
    rewrite Hl. apply list_elem_of_fmap. exists (i, p). split; [done|]. by apply elem_of_rows_where.
Qed.

(** A committed finalization: the waterfall over the pending payments in sequence
    order, from the full amount of their ceiling. *)
Lemma runs_finalize_in_tx payer w rs w' :
  solvent sus (w_st w) -> runs (finalize_in_tx s payer) w rs w' ->
  solvent sus (w_st w') /\
  exists txns,
    txns ≡ₚ map paymentToDomainTxn (rows_where (fun _ p => pending_of payer p)
              (payment_tokens (w_st w))) /\
    Sorted txn_seq_le txns /\
    (txns = [] /\ rs = [] /\ w_st w' = w_st w \/
     txns <> [] /\
     exists cid c, ceiling_tokens (w_st w) !! cid = Some c /\ live_of payer c = true /\
       (forall txn, txn ∈ txns -> t_CeilingTokenID txn = cid) /\
       length rs = length txns /\
       let shares := waterfall (c_CeilingKobo c) (map t_Amount txns) in
       (forall i txn, txns !! i = Some txn -> exists r n, rs !! i = Some r /\
          shares !! i = Some n /\ has_result txn n r) /\
       (forall i p, payment_tokens (w_st w') !! i = Some p -> pending_of payer p = false) /\
       ceiling_tokens (w_st w') =
         (if sum_list shares =? c_CeilingKobo c
          then alter (set_c_Status CeilingExhausted) cid (ceiling_tokens (w_st w))
          else ceiling_tokens (w_st w))).
Proof.
  intros Hs H. unfold finalize_in_tx in H.
  apply runs_bind in H as (l & w1 & Hl & H). apply runs_wrapping, runs_ListPending in Hl as [Hw1 Hl].
  assert (merge_sort txn_seq_le l ≡ₚ map paymentToDomainTxn
    (rows_where (fun _ p => pending_of payer p) (payment_tokens (w_st w)))) as Hperm
    by (by rewrite merge_sort_Permutation).
  assert (Sorted txn_seq_le (merge_sort txn_seq_le l)) as Hsort.
  { apply Sorted_merge_sort. intros x y. unfold txn_seq_le. lia. }
  destruct (listed_of_rows payer (w_st w) _ Hperm) as (Hlist & Hnd & Hall).
  destruct (merge_sort txn_seq_le l) as [|first more] eqn:Hms.
  { apply runs_ret in H as [-> ->]. rewrite Hw1. split; [done|]. exists [].
    split; [done|]. split; [done|]. left. done. }
  set (txns := first :: more) in *.
  apply runs_bind in H as (lienAcc & w2 & Hli & H).
  apply runs_wrapping, runs_GetAccountID in Hli as [Hw2 Hli]. rewrite Hw1 in Hli.
  apply runs_bind in H as (ct & w3 & Hct & H). apply runs_wrapping in Hct. quiet_in Hct Hw3.
  unfold GetCeilingToken in Hct. apply runs_bind in Hct as ([cid c] & w4 & Hq & Hct).
  apply runs_ret in Hct as [-> _]. apply runs_query in Hq as (_ & Hq & _).
  assert (cid = t_CeilingTokenID first /\ ceiling_tokens (w_st w) !! cid = Some c) as [Hcid Hc].
  { unfold q_GetCeilingToken in Hq. rewrite Hw2, Hw1 in Hq.
    destruct (ceiling_tokens _ !! _) eqn:Hx; [|discriminate]. injection Hq as <- <-. done. }
  apply runs_bind in H as (t & w5 & Ht & H). apply runs_now in Ht as [_ ->].
  apply runs_bind in H as ([rs1 left_] & w6 & Hloop & H).
  assert (w_st w3 = w_st w) as Hww by congruence.
  assert (forall txn, txn ∈ txns -> exists cc, ceiling_tokens (w_st w) !! t_CeilingTokenID txn = Some cc
    /\ live_of payer cc = true) as Hlive.
  { intros txn Ht. destruct (Hlist txn Ht) as (p & Hp & -> & Hpp).
    apply pending_of_spec in Hpp as [Hpu Hps].
    destruct (ln_bound _ (sv_liens _ _ Hs) _ _ Hp) as (cc & Hcc & Hcu & Hcl).
    exists cc. split; [done|]. apply live_of_spec. split; [congruence|auto]. }
  destruct (Hlive first) as (cc & Hcc & Hclive); [left|]. rewrite <- Hcid, Hc in Hcc.
  injection Hcc as <-.
  pose proof (ln_ceiling _ (sv_liens _ _ Hs) _ _ Hc) as Hcpos.
  assert (looping payer lienAcc cid txns (c_CeilingKobo c) (c_CeilingKobo c) (w_st w)) as Hinit.
  { constructor; try done.
    - intros txn Ht. destruct (Hlive txn Ht) as (c2 & Hc2 & Hl2).
      apply live_of_spec in Hl2 as [Hu2 Hl2]. apply live_of_spec in Hclive as [Hu1 Hl1].
      apply (ln_one _ (sv_liens _ _ Hs) _ _ c2 c); congruence || done.
    - lia.
    - pose proof (sum_settled_nonneg (w_st w) cid (sv_liens _ _ Hs)). lia. }
  rewrite <- Hww in Hinit.
  match type of Hloop with runs _ ?v _ _ => change (w_st w3) with (w_st v) in Hinit end.
  destruct (runs_finalize_loop _ _ _ _ _ _ _ _ _ _ _ _ Hinit Hloop) as (Hend & HCe & rs2 & Heq & Hlen
    & Hrs). rewrite Hww in HCe. apply pair_equal_spec in Heq as [-> ->].
  set (shares := waterfall (c_CeilingKobo c) (map t_Amount txns)) in *.
  apply runs_bind in H as ([] & w7 & Hex & H). apply runs_ret in H as [-> ->].
  assert (forall i p, payment_tokens (w_st w6) !! i = Some p -> pending_of payer p = false) as Hnone.
  { intros i p Hi. destruct (pending_of payer p) eqn:Hpp; [|done].
    pose proof (lp_all _ _ _ _ _ _ _ Hend i p Hi Hpp) as Hin. by apply not_elem_of_nil in Hin. }
  assert ((c_CeilingKobo c - sum_list shares =? 0) = (sum_list shares =? c_CeilingKobo c)) as Hbeq
    by (apply eq_true_iff_eq; rewrite !Z.eqb_eq; lia).
  cbn [ct_CeilingAmount ceilingToDomain ct_ID] in Hex.
  fold shares in Hex. rewrite Hbeq in Hex.
  assert (solvent sus (w_st w7) /\ payment_tokens (w_st w7) = payment_tokens (w_st w6) /\
    ceiling_tokens (w_st w7) = if sum_list shares =? c_CeilingKobo c
          then alter (set_c_Status CeilingExhausted) cid (ceiling_tokens (w_st w))
          else ceiling_tokens (w_st w)) as (Hs7 & HP7 & HC7).
  { destruct (sum_list shares =? c_CeilingKobo c) eqn:Hsum.
    2:{ apply runs_ret in Hex as [_ ->]. split; [apply Hend|]. done. }
    apply Z.eqb_eq in Hsum. apply runs_wrapping, runs_UpdateCeilingStatus' in Hex as (Hm & HP & HC).
    cbn in HC. split; [|split; [done|by rewrite HC, HCe]].
    pose proof (lp_solvent _ _ _ _ _ _ _ Hend) as [Hb6 Hl6].
    assert (ceiling_tokens (w_st w6) !! cid = Some c) as Hc6 by (by rewrite HCe).
    split; [by apply (books_step_same_payments sus _ _ _ _ Hb6 Hm HP)|].
    apply (liens_step_release _ _ _ _ payer cid c CeilingExhausted 0 Hl6 Hm HP Hc6 Hclive HC);
      try done.
    - intros i p Hi Hpc Hps. destruct (ln_bound _ Hl6 _ _ Hi) as (c2 & Hc2 & Hu2 & _).
      rewrite Hpc, Hc6 in Hc2. injection Hc2 as <-. apply live_of_spec in Hclive as [Hu _].
      specialize (Hnone i p Hi). assert (pending_of payer p = true); [|congruence].
      apply pending_of_spec. split; congruence.
    - pose proof (lp_spent _ _ _ _ _ _ _ Hend). pose proof (ln_cap _ Hl6 _ _ Hc6). lia.
    - intros. unfold no_move. by case_decide. }
  split; [done|]. exists txns. split; [done|]. split; [done|]. right.
  split; [done|]. exists cid, c. split_and!; try done.
  - intros txn Ht. destruct (Hlive txn Ht) as (c2 & Hc2 & Hl2).
    apply live_of_spec in Hl2 as [Hu2 Hl2]. apply live_of_spec in Hclive as [Hu1 Hl1].
    apply (ln_one _ (sv_liens _ _ Hs) _ _ c2 c); congruence || done.
  - rewrite HP7. done.
Qed.

(** *** What may become of a recorded payment *)

Definition transition (x y : TransactionStatus) : Prop := CanTransitionTo x y = true.

(** [p'] is [p] at a later time: the same payment, further along the state machine, and
    with the same amount settled while the status is the same. *)
Record follows (p p' : PaymentRow) : Prop := {
  fl_payer : p_PayerUserID p' = p_PayerUserID p;
  fl_payee : p_PayeeUserID p' = p_PayeeUserID p;
  fl_amount : p_AmountKobo p' = p_AmountKobo p;
  fl_ceiling : p_CeilingID p' = p_CeilingID p;
  fl_status : rtc transition (p_Status p) (p_Status p');
  fl_settled : p_Status p' = p_Status p -> p_SettledAmountKobo p' = p_SettledAmountKobo p;
}.

Definition follows_all (m m' : gmap string PaymentRow) : Prop :=
  forall i p, m !! i = Some p -> exists p', m' !! i = Some p' /\ follows p p'.

(** How far along a status is. *)
Definition stage (x : TransactionStatus) : Z :=
  match x with TxQueued => 0 | TxSubmitted => 1 | TxPending => 2 | _ => 3 end.

Lemma transition_stage x y : rtc transition x y -> x = y \/ stage x < stage y.
Proof.
  induction 1 as [|x y z Hxy _ IH]; [by left|]. right.
  assert (stage x < stage y) by (destruct x, y; done).
  destruct IH as [<-|?]; lia.
Qed.

Lemma follows_refl p : follows p p.
Proof. by constructor. Qed.

Lemma follows_trans p q r : follows p q -> follows q r -> follows p r.
Proof.
  intros [] []. constructor; try congruence; [by etrans|]. intros Heq.
  destruct (transition_stage _ _ fl_status0) as [H1|H1]; [|exfalso].
  - rewrite fl_settled1, fl_settled0; congruence.
  - destruct (transition_stage _ _ fl_status1) as [H2|H2]; rewrite ?H2, Heq in *; lia.
Qed.

Lemma follows_all_refl m : follows_all m m.
Proof. intros i p Hi. exists p. split; [done|apply follows_refl]. Qed.

Lemma follows_all_trans m1 m2 m3 : follows_all m1 m2 -> follows_all m2 m3 -> follows_all m1 m3.
Proof.
  intros H1 H2 i p Hi. destruct (H1 i p Hi) as (q & Hq & Hpq). destruct (H2 i q Hq) as (r & Hr & Hqr).
  exists r. split; [done|]. by eapply follows_trans.
Qed.

Lemma follows_all_insert m i p' :
  (forall p, m !! i = Some p -> follows p p') -> follows_all m (<[i := p']> m).
Proof.
  intros H j p Hj. destruct (decide (j = i)) as [->|Hne].
  - exists p'. split; [apply lookup_insert_eq|by apply H].
  - exists p. rewrite lookup_insert_ne by done. split; [done|apply follows_refl].
Qed.

(** *** The money of a finalization, whatever the payments are charged to *)

Lemma listed_other payer d d' t p' txn :
  payment_tokens d' = <[t := p']> (payment_tokens d) -> t_ID txn <> t ->
  listed payer d txn -> listed payer d' txn.
Proof.
  intros HP Hne (q & Hq & Hx). exists q. split; [|done]. by rewrite HP, lookup_insert_ne.
Qed.

Lemma finalize_one_follows payer lienAcc ceiling now results remaining txn w st' w' :
  books sus (w_st w) -> listed payer (w_st w) txn -> 0 <= remaining <= int64_max ->
  runs (finalize_one s payer lienAcc ceiling now (results, remaining) txn) w st' w' ->
  follows_all (payment_tokens (w_st w)) (payment_tokens (w_st w')).
Proof.
  intros Hb (p0 & Hp0 & Htxn & Hpend) Hrem H. pose proof (bk_amounts sus _ Hb _ _ Hp0) as Ham.
  assert (t_Amount txn = p_AmountKobo p0) as Hta by (by rewrite Htxn).
  apply runs_finalize_one in H as (acc & main & p & p' & r & _ & _ & _ & _ & _ & Hp & HP
    & Hf1 & Hf2 & Hf3 & Hf4 & _ & Hf5 & _); [|done|by rewrite Hta].
  rewrite HP. apply follows_all_insert. intros q Hq.
  assert (q = p) as -> by congruence. apply pending_of_spec in Hpend as [_ Hst].
  assert (p = p0) as -> by congruence.
  constructor; try done; rewrite Hf5, Hst.
  - apply rtc_once. unfold transition, waterfall_status. by destruct (_ <=? _).
  - intros He. by apply waterfall_status_not_pending in He.
Qed.

(** What one payment's settlement relates, the whole finalization relates. *)
Section FinalizeRelates.
Variable payer : string.
Variable R : relation db.
Context `{!PreOrder R}.

Hypothesis HRone : forall lienAcc ceiling now results remaining txn w st' w',
  books sus (w_st w) -> account_of (w_st w) lienAcc payer AccountKindLienHolding ->
  listed payer (w_st w) txn -> 0 <= remaining <= int64_max ->
  runs (finalize_one s payer lienAcc ceiling now (results, remaining) txn) w st' w' ->
  R (w_st w) (w_st w').
Hypothesis HRstatus : forall d d',
  moved d d' no_move no_move -> payment_tokens d' = payment_tokens d -> R d d'.

Lemma finalize_loop_relates lienAcc ceiling now txns : forall remaining results w st' w',
  books sus (w_st w) -> account_of (w_st w) lienAcc payer AccountKindLienHolding ->
  (forall txn, txn ∈ txns -> listed payer (w_st w) txn) -> NoDup (map t_ID txns) ->
  0 <= remaining <= int64_max ->
  runs (for_each txns (finalize_one s payer lienAcc ceiling now) (results, remaining)) w st' w' ->
  books sus (w_st w') /\ ceiling_tokens (w_st w') = ceiling_tokens (w_st w) /\
  R (w_st w) (w_st w').
Proof.
  induction txns as [|txn txns IH]; intros remaining results w st' w' Hb Hlien Hlist Hnd Hrem H;
    cbn in H.
  { by apply runs_ret in H as [_ ->]. }
  apply runs_bind in H as (st1 & w1 & H1 & H).
  assert (listed payer (w_st w) txn) as Hl by (apply Hlist; left).
  pose proof (finalize_one_books _ _ _ _ _ _ _ _ _ _ Hb Hlien Hl Hrem H1) as Hb1.
  pose proof (HRone _ _ _ _ _ _ _ _ _ Hb Hlien Hl Hrem H1) as HR1.
  destruct Hl as (p0 & Hp0 & Htxn & _). pose proof (bk_amounts sus _ Hb _ _ Hp0) as Ham.
  assert (t_Amount txn = p_AmountKobo p0) as Hta by (by rewrite Htxn).
  destruct (remaining_after_spec remaining (t_Amount txn) Hrem ltac:(lia)) as (_ & Hn & Hn').
  apply runs_finalize_one in H1 as (acc & main & p & p' & r & _ & _ & Hm & _ & HC & _ & HP
    & _ & _ & _ & _ & _ & _ & -> & _); [|done|by rewrite Hta].
  cbn in Hnd. apply NoDup_cons in Hnd as [Hnin Hnd]. rewrite <- HC.
  assert (books sus (w_st w') /\ ceiling_tokens (w_st w') = ceiling_tokens (w_st w1) /\
    R (w_st w1) (w_st w')) as (? & ? & ?); [|split_and!; [done..|by etrans]].
  eapply IH; [done| | |done| |exact H].
  - destruct Hlien as (a & Ha & Hu & Hk).
    destruct (meta_lookup_fwd _ _ _ _ _ _ Hm Ha) as (a' & Ha' & Hu' & Hk').
    exists a'. split_and!; congruence.
  - intros t Ht. eapply listed_other; [exact HP| |apply Hlist; by right].
    intros Heq. apply Hnin. rewrite <- Heq. by apply list_elem_of_fmap_2.
  - lia.
Qed.

Lemma finalize_in_tx_relates w rs w' :
  books sus (w_st w) -> amounts_ok (w_st w) -> runs (finalize_in_tx s payer) w rs w' ->
  books sus (w_st w') /\ amounts_ok (w_st w') /\ R (w_st w) (w_st w').
Proof.
  intros Hb Ha H. unfold finalize_in_tx in H.
  apply runs_bind in H as (l & w1 & Hl & H). apply runs_wrapping, runs_ListPending in Hl as [Hw1 Hl].
  assert (merge_sort txn_seq_le l ≡ₚ map paymentToDomainTxn
    (rows_where (fun _ p => pending_of payer p) (payment_tokens (w_st w)))) as Hperm
    by (by rewrite merge_sort_Permutation).
  destruct (listed_of_rows payer (w_st w) _ Hperm) as (Hlist & Hnd & _).
  destruct (merge_sort txn_seq_le l) as [|first more].
  { apply runs_ret in H as [-> ->]. by rewrite Hw1. }
  apply runs_bind in H as (lienAcc & w2 & Hli & H).
  apply runs_wrapping, runs_GetAccountID in Hli as [Hw2 Hli]. rewrite Hw1 in Hli.
  apply runs_bind in H as (ct & w3 & Hct & H). apply runs_wrapping in Hct. quiet_in Hct Hw3.
  unfold GetCeilingToken in Hct. apply runs_bind in Hct as ([cid c] & w4 & Hq & Hct).
  apply runs_ret in Hct as [-> _]. apply runs_query in Hq as (_ & Hq & _).
  assert (0 < c_CeilingKobo c <= int64_max) as Hc.
  { unfold q_GetCeilingToken in Hq. rewrite Hw2, Hw1 in Hq.
    destruct (ceiling_tokens _ !! _) eqn:Hx; [|discriminate]. injection Hq as _ <-.
    by apply (Ha _ _ Hx). }
  apply runs_bind in H as (t & w5 & Ht & H). apply runs_now in Ht as [_ ->].
  apply runs_bind in H as ([rs1 left_] & w6 & Hloop & H).
  assert (w_st w3 = w_st w) as Hww by congruence.
  apply finalize_loop_relates in Hloop as (Hb6 & Hc6 & Hf6); cbn [w_st] in *; rewrite ?Hww in *;
    [|done..|cbn; lia].
  apply runs_bind in H as ([] & w7 & Hex & H). apply runs_ret in H as [_ ->].
  assert (amounts_ok (w_st w6)) as Ha6 by (unfold amounts_ok in *; by rewrite Hc6).
  destruct (left_ =? 0); [|by apply runs_ret in Hex as [_ ->]].
  apply runs_wrapping, runs_UpdateCeilingStatus' in Hex as (Hm & HP & HC).
  split; [by apply (books_step_same_payments sus _ _ _ _ Hb6 Hm HP)|].
  split; [by eapply amounts_ok_after|]. etrans; [exact Hf6|by apply HRstatus].
Qed.

End FinalizeRelates.

Lemma finalize_in_tx_books payer w rs w' :
  books sus (w_st w) -> amounts_ok (w_st w) -> runs (finalize_in_tx s payer) w rs w' ->
  books sus (w_st w') /\ amounts_ok (w_st w') /\
  follows_all (payment_tokens (w_st w)) (payment_tokens (w_st w')).
Proof.
  set (R := fun d d' => follows_all (payment_tokens d) (payment_tokens d')).
  assert (PreOrder R) as HR.
  { constructor; [intros d; apply follows_all_refl|]. intros d1 d2 d3. apply follows_all_trans. }
  apply (finalize_in_tx_relates payer R).
  - intros lienAcc ceiling now results remaining txn v st' v' Hb _ Hl Hrem H.
    by eapply finalize_one_follows.
  - intros d d' _ Heq. unfold R. rewrite Heq. apply follows_all_refl.
Qed.

End SettlementFacts.
