(* ===== verification/SubmitFacts.v ===== *)
(** * Verdicts of claim submission (internal/service/settlement/service.go, phase 4a)

    What an accepted claim has been checked for, that every other verdict leaves the
    database alone, and what a batch does to the books, the liens and the outbox. *)

From S2P Require Import Prelude Domain Json Crypto Store Repo Books Solvency Settlement SettlementFacts.

Section SubmitFacts.
Context {E : Env} {C : Ed25519} {F : FreshIDs E}.
Variable s : SettlementService.
Implicit Types w : world db effect.

#[local] Abbreviation sus := (ss_SuspenseAccountID s).

(** ** The checks *)

(** The parties: the payer pays somebody else out of a ceiling of their own, one of
    the two submits, and the request is the payee's. *)
Record parties (submitter : string) (item : ClaimItem) : Prop := {
  pa_distinct : pt_PayerID (ci_Payment item) <> pt_PayeeID (ci_Payment item);
  pa_payer : pt_PayerID (ci_Payment item) = ct_PayerID (ci_Ceiling item);
  pa_ceiling : pt_CeilingTokenID (ci_Payment item) = ct_ID (ci_Ceiling item);
  pa_submitter : submitter = pt_PayerID (ci_Payment item) \/
                 submitter = pt_PayeeID (ci_Payment item);
  pa_receiver : pr_ReceiverID (ci_Request item) = pt_PayeeID (ci_Payment item);
  pa_card : dc_UserID (pr_ReceiverDisplayCard (ci_Request item)) =
            pt_PayeeID (ci_Payment item);
}.

(** The signatures: the bank's on the ceiling, the payer's on the payment under the
    key the ceiling names, the bank's on the display card, the receiver's on the
    request. *)
Record signed_claim (d : db) (item : ClaimItem) : Prop := {
  sg_bank : exists k, q_GetBankSigningKey (ct_BankKeyID (ci_Ceiling item)) d = Ok k /\
    VerifyCeiling (bk_PublicKey k) (ceiling_payload (ci_Ceiling item))
      (ct_BankSignature (ci_Ceiling item)) = Ok tt;
  sg_payer : VerifyPayment (ct_PayerPublicKey (ci_Ceiling item))
    (payment_payload (ci_Payment item)) (pt_PayerSignature (ci_Payment item)) = Ok tt;
  sg_card : let card := pr_ReceiverDisplayCard (ci_Request item) in
    exists k, q_GetBankSigningKey (dc_BankKeyID card) d = Ok k /\
      VerifyDisplayCard (bk_PublicKey k) (DisplayCard_Payload card)
        (dc_ServerSignature card) = Ok tt;
  sg_receiver : VerifyRequest (pr_ReceiverDevicePubkey (ci_Request item))
    (PaymentRequest_Payload (ci_Request item)) (pr_ReceiverSignature (ci_Request item)) = Ok tt;
}.

(** The binding of the payment to the request, and the windows. *)
Record bound_claim (item : ClaimItem) (t : Time) : Prop := {
  bd_nonce : pt_SessionNonce (ci_Payment item) = pr_SessionNonce (ci_Request item);
  bd_hash : HashRequest (ci_Request item) = Ok (pt_RequestHash (ci_Payment item));
  bd_amount : pr_Amount (ci_Request item) = UnboundAmount \/
              pt_Amount (ci_Payment item) = pr_Amount (ci_Request item);
  bd_request : t <= pr_ExpiresAt (ci_Request item) + RequestGrace;
  bd_sequence : ct_SequenceStart (ci_Ceiling item) < pt_SequenceNumber (ci_Payment item);
  bd_ceiling : t <= ct_ExpiresAt (ci_Ceiling item) + ss_ClockGrace s;
}.

(** The ceiling as the server has it. *)
Definition open_ceiling (d : db) (id : string) (t : Time) : Prop :=
  exists c, ceiling_tokens d !! id = Some c /\
    (c_Status c = CeilingActive \/
     c_Status c = CeilingRecoveryPending /\ exists r, c_ReleaseAfter c = Some r /\ t < r).

(** No payment of this payer with this sequence number has been recorded. *)
Definition new_sequence (d : db) (p : PaymentToken) : Prop :=
  forall i q, payment_tokens d !! i = Some q ->
    same_sequence (pt_PayerID p) (pt_SequenceNumber p) q = false.

Lemma structural_guard_ok submitter item :
  structural_guard submitter item = None <-> parties submitter item.
Proof.
  unfold structural_guard. split.
  - intros H. repeat case_bool_decide; cbn in H; try discriminate; constructor; auto; congruence.
  - intros []. rewrite (bool_decide_false (pt_PayerID _ = pt_PayeeID _)) by done.
    rewrite (bool_decide_true (_ = ct_PayerID _)) by done.
    rewrite (bool_decide_true (_ = ct_ID _)) by done.
    rewrite (bool_decide_true (pr_ReceiverID _ = _)) by done.
    rewrite (bool_decide_true (dc_UserID _ = _)) by congruence. cbn.
    destruct pa_submitter0 as [->| ->];
      [rewrite (bool_decide_true (_ = pt_PayerID _)) by done
      |rewrite (bool_decide_true (_ = pt_PayeeID (ci_Payment item))) by done];
      by rewrite ?andb_false_r.
Qed.

Lemma is_ok_unit (r : result unit) : is_ok r = true -> r = Ok tt.
Proof. by destruct r as [[]|]. Qed.

Lemma runs_load_bank_key id w k w' :
  runs (load_bank_key id) w k w' ->
  w_st w' = w_st w /\ q_GetBankSigningKey id (w_st w) = Ok k.
Proof.
  intros H. apply runs_wrapping, runs_query in H as (_ & H & ->). done.
Qed.

Lemma runs_verify_signatures item w w' :
  runs (verify_signatures item) w None w' ->
  w_st w' = w_st w /\ signed_claim (w_st w) item.
Proof.
  intros H. unfold verify_signatures in H.
  apply runs_bind in H as (k & w1 & Hk & H). apply runs_load_bank_key in Hk as [Hw1 Hk].
  destruct (is_ok (VerifyCeiling _ _ _)) eqn:H1; cbn in H.
  2:{ by apply runs_bind in H as (? & ? & _ & [[=] _]%runs_ret). }
  destruct (is_ok (VerifyPayment _ _ _)) eqn:H2; cbn in H.
  2:{ by apply runs_bind in H as (? & ? & _ & [[=] _]%runs_ret). }
  apply runs_bind in H as (ck & w2 & Hck & H).
  assert (w_st w2 = w_st w /\
    q_GetBankSigningKey (dc_BankKeyID (pr_ReceiverDisplayCard (ci_Request item))) (w_st w) = Ok ck)
    as [Hw2 Hck'].
  { case_bool_decide as Heq; cbn in Hck.
    - apply runs_ret in Hck as [-> ->]. split; [done|]. cbn in Heq. by rewrite Heq.
    - apply runs_load_bank_key in Hck as [Hw Hck]. rewrite Hw1 in *. done. }
  destruct (is_ok (VerifyDisplayCard _ _ _)) eqn:H3; cbn in H; [|by apply runs_ret in H as [[=] _]].
  destruct (is_ok (VerifyRequest _ _ _)) eqn:H4; cbn in H; [|by apply runs_ret in H as [[=] _]].
  apply runs_ret in H as [_ ->]. split; [done|].
  apply is_ok_unit in H1, H2, H3, H4. constructor; eauto.
Qed.

Lemma runs_binding_guard item t w w' :
  runs (binding_guard s item t) w None w' ->
  w_st w' = w_st w /\ bound_claim item t.
Proof.
  intros H. unfold binding_guard in H.
  destruct (bytesEqual (pt_SessionNonce _) _) eqn:H1; cbn in H; [|by apply runs_ret in H as [[=] _]].
  apply runs_bind in H as (h & w1 & Hh & H). apply runs_wrapping, runs_lift in Hh as [Hh ->].
  destruct (bytesEqual (pt_RequestHash _) _) eqn:H2; cbn in H; [|by apply runs_ret in H as [[=] _]].
  destruct (negb (_ =? UnboundAmount) && _) eqn:H3; [by apply runs_ret in H as [[=] _]|].
  destruct (After t _) eqn:H4; [by apply runs_ret in H as [[=] _]|].
  destruct (_ <=? ct_SequenceStart _) eqn:H5.
  { by apply runs_bind in H as (? & ? & _ & [[=] _]%runs_ret). }
  destruct (After t (_ + ss_ClockGrace s)) eqn:H6; [by apply runs_ret in H as [[=] _]|].
  apply runs_ret in H as [_ ->]. split; [done|].
  apply bytesEqual_spec in H1, H2. unfold After in *.
  apply andb_false_iff in H3. rewrite !negb_false_iff, !Z.eqb_eq in H3.
  constructor; try lia; try done. congruence.
Qed.

Lemma preserves_submit_checks P submitter item t :
  preserves P (submit_checks s submitter item t).
Proof.
  unfold submit_checks, verify_signatures, load_bank_key, binding_guard. cbn zeta. quiet.
Qed.

Lemma runs_dedupe p w e w' :
  runs (attempt (GetPaymentBySequence (pt_PayerID p) (pt_SequenceNumber p))) w (Err e) w' ->
  isNoRows e = true -> w_st w' = w_st w /\ new_sequence (w_st w) p.
Proof.
  intros H He. quiet_in H Hw. split; [done|].
  apply (proj1 (runs_attempt _ _ _ _)) in H. unfold GetPaymentBySequence, bind, query, exec in H.
  destruct (fault (w_ops w)); [injection H as <- _; by cbn in He|].
  destruct (q_GetPaymentBySequence _ _ (w_st w)) as [row|e'] eqn:Hq; cbn in H; [done|].
  unfold q_GetPaymentBySequence in Hq. by apply first_row_err in Hq as [_ Hq].
Qed.

(** A claim passes the checks only if it is all of the above. *)
Lemma runs_submit_checks submitter item t w w' :
  runs (submit_checks s submitter item t) w (inr tt) w' ->
  w_st w' = w_st w /\ parties submitter item /\ signed_claim (w_st w) item /\
  bound_claim item t /\ new_sequence (w_st w) (ci_Payment item) /\
  open_ceiling (w_st w) (ct_ID (ci_Ceiling item)) t.
Proof.
  intros H.
  assert (w_st w' = w_st w) as Hw
    by (eapply quiet_runs; [intros; apply preserves_submit_checks|exact H]).
  split; [done|]. unfold submit_checks in H.
  destruct (structural_guard submitter item) eqn:Hg; [by apply runs_ret in H as [[=] _]|].
  apply structural_guard_ok in Hg. split; [done|].
  apply runs_bind in H as ([e|] & w1 & Hv & H); [by apply runs_ret in H as [[=] _]|].
  apply runs_verify_signatures in Hv as [Hw1 Hv]. split; [done|].
  apply runs_bind in H as ([e|] & w2 & Hb & H); [by apply runs_ret in H as [[=] _]|].
  apply runs_binding_guard in Hb as [Hw2 Hb]. split; [done|].
  apply runs_bind in H as ([x|e] & w3 & Hd & H); [by apply runs_ret in H as [[=] _]|].
  destruct (isNoRows e) eqn:He; cbn in H; [|by apply runs_throw in H].
  apply runs_dedupe in Hd as [Hw3 Hd]; [|done]. rewrite Hw2, Hw1 in Hd. split; [done|].
  apply runs_bind in H as (live & w4 & Hl & H). apply runs_wrapping in Hl.
  unfold GetCeilingToken in Hl. apply runs_bind in Hl as ([cid c] & w5 & Hq & Hl).
  apply runs_ret in Hl as [-> _]. apply runs_query in Hq as (_ & Hq & _).
  rewrite Hw3, Hw2, Hw1 in Hq. unfold q_GetCeilingToken in Hq.
  destruct (ceiling_tokens (w_st w) !! _) as [c'|] eqn:Hc; [|discriminate].
  injection Hq as <- ->. exists c. split; [done|].
  destruct (live_guard _ t) eqn:Hlg; [by apply runs_ret in H as [[=] _]|].
  unfold live_guard in Hlg. cbn in Hlg. destruct (c_Status c); try discriminate; [by left|right].
  split; [done|]. destruct (c_ReleaseAfter c) as [r|]; [|discriminate].
  exists r. split; [done|]. unfold Before in Hlg. destruct (t <? r) eqn:Hlt; [lia|discriminate].
Qed.

(** ** One claim *)

(** All a claim has been checked for when it is accepted. *)
Record checked (submitter : string) (item : ClaimItem) (t : Time) (d : db) : Prop := {
  ck_parties : parties submitter item;
  ck_signed : signed_claim d item;
  ck_bound : bound_claim item t;
  ck_new : new_sequence d (ci_Payment item);
  ck_open : open_ceiling d (ct_ID (ci_Ceiling item)) t;
}.

Lemma runs_submitOne batch submitter item t w r w' :
  runs (submitOne s batch submitter item t) w r w' ->
  (w_st w' = w_st w /\ runs (submit_checks s submitter item t) w (inl r) w') \/
  exists id w1 w2, r = accepted (ci_Payment item) id /\
    checked submitter item t (w_st w) /\ w_st w1 = w_st w /\
    runs (accept_in_tx s batch submitter item t) w1 id w2 /\
    check_ledger_txn_balanced (w_st w2) = Ok tt /\ w_st w' = w_st w2.
Proof.
  intros H. unfold submitOne in H. apply runs_bind in H as ([res|[]] & w1 & Hc & H).
  - apply runs_ret in H as [-> ->]. left. split; [|done].
    eapply quiet_runs; [intros; apply preserves_submit_checks|exact Hc].
  - right. apply runs_submit_checks in Hc as (Hw1 & H1 & H2 & H3 & H4 & H5).
    apply runs_bind in H as (id & w2 & Ht & H). apply runs_ret in H as [-> ->].
    unfold Tx in Ht. apply runs_tx in Ht as (_ & w3 & Ha & _ & Hck & ->).
    exists id, (tick_ops w1 (w_st w1)), w3. by split_and!.
Qed.

(** Every verdict answers for the claim's sequence number and amount. *)
Definition answers (item : ClaimItem) (r : SettlementResult) : Prop :=
  sr_SequenceNumber r = pt_SequenceNumber (ci_Payment item) /\
  sr_SubmittedAmount r = pt_Amount (ci_Payment item).

Lemma submit_checks_answers submitter item t w r w' :
  runs (submit_checks s submitter item t) w (inl r) w' -> answers item r.
Proof.
  intros Hc. unfold submit_checks in Hc.
  assert (forall e v v', runs (ret (inl (rejected (ci_Payment item) e)) : dbop (SettlementResult + unit))
    v (inl r) v' -> answers item r) as Hrej
    by (intros e v v' Hx; apply runs_ret in Hx as [[= ->] _]; done).
  destruct (structural_guard _ _); [by eapply Hrej|].
  apply runs_bind in Hc as ([e|] & v1 & _ & Hc); [by eapply Hrej|].
  apply runs_bind in Hc as ([e|] & v2 & _ & Hc); [by eapply Hrej|].
  apply runs_bind in Hc as ([x|e] & v3 & _ & Hc); [by apply runs_ret in Hc as [[= ->] _]|].
  destruct (negb _); [by apply runs_throw in Hc|].
  apply runs_bind in Hc as (live & v4 & _ & Hc).
  destruct (live_guard _ _); [by eapply Hrej|]. by apply runs_ret in Hc as [[=] _].
Qed.

Lemma submitOne_answers batch submitter item t w r w' :
  runs (submitOne s batch submitter item t) w r w' -> answers item r.
Proof.
  intros H. apply runs_submitOne in H as [[_ Hc]|(id & w1 & w2 & -> & _)]; [|done].
  by eapply submit_checks_answers.
Qed.

(** What [submitOne] keeps: anything the accepting transaction keeps. *)
Lemma submitOne_keeps (P : db -> Prop) batch submitter item t :
  preserves P (Tx (accept_in_tx s batch submitter item t)) ->
  preserves P (submitOne s batch submitter item t).
Proof.
  intros HP. unfold submitOne. apply preserves_bind; [apply preserves_submit_checks|].
  intros [res|[]]; [quiet|]. by apply preserves_bind; [|quiet].
Qed.

Lemma preserves_submitOne (P : db -> Prop) batch submitter item t :
  (forall w id w', P (w_st w) -> runs (accept_in_tx s batch submitter item t) w id w' ->
     P (w_st w')) ->
  preserves (fun d => P d /\ balanced d) (submitOne s batch submitter item t).
Proof. intros HP. by apply submitOne_keeps, preserves_Tx. Qed.

(** The accepting transaction only runs on a claim that names a live ceiling. *)
Lemma preserves_submitOne_live (P : db -> Prop) batch submitter item t :
  (forall w id w', P (w_st w) -> names_live (w_st w) item ->
     runs (accept_in_tx s batch submitter item t) w id w' -> P (w_st w')) ->
  preserves (fun d => P d /\ balanced d) (submitOne s batch submitter item t).
Proof.
  intros HP w Hw.
  destruct (submit_checks s submitter item t w) as [[[res|[]]|e] w1] eqn:Hc.
  1,3: pose proof (preserves_submit_checks (fun d => P d /\ balanced d) submitter item t w Hw) as Hk;
    unfold submitOne, bind; by rewrite Hc in *.
  pose proof (runs_submit_checks _ _ _ _ _ Hc) as (Hst & _ & _ & _ & _ & c & Hrow & Ho).
  assert (names_live (w_st w) item) as Hlive by (exists c; split; [done|]; by destruct Ho as [->|[-> _]]).
  unfold submitOne. rewrite (bind_ok _ _ _ _ _ Hc). unfold bind.
  destruct (Tx (accept_in_tx s batch submitter item t) w1) as [[id|e] w2] eqn:Hx; cbn; unfold Tx in Hx.
  - apply runs_tx in Hx as (_ & w3 & Hx & _ & Hck & ->). rewrite <- Hst in *.
    cbn. split; [eapply (HP (tick_ops w1 (w_st w1))); [apply Hw|exact Hlive|exact Hx]|]. intros txn. by apply check_ledger_ok.
  - apply tx_err in Hx. by rewrite Hx, Hst.
Qed.

End SubmitFacts.
