(* ===== verification/Gossip.v ===== *)
(** * Gossip upload (internal/service/gossip/service.go)

    Devices carry claims for each other in sealed blobs.  The service opens each blob an
    uploader hands in, decodes the claim and submits it to settlement, blob by blob. *)

From Stdlib Require Import Strings.Byte.
From S2P Require Import Prelude Domain Json Crypto Store Canonical Parse Decode SealedBox Repo Books Settlement.

#[local] Open Scope string_scope.
#[local] Open Scope Z_scope.

Definition ErrBadBlob : error := ErrNew "gossip: bad blob".
Definition ErrBlobHopLimitExceeded : error := ErrNew "gossip: blob hop limit exceeded".

Record SealedBoxKey := {
  sk_KeyID : string;
  sk_Public : bytes;
  sk_Private : bytes;
  sk_RetiredAt : option Time;
}.

(** A current key without its private half is [None]; retired keys always have theirs. *)
Record SealedBoxKeyring := {
  kr_Current : option SealedBoxKey;
  kr_Previous : list SealedBoxKey;
}.

Definition all_keys (r : SealedBoxKeyring) : list SealedBoxKey :=
  match kr_Current r with Some k => [k] | None => [] end ++ kr_Previous r.

(** A legacy single pair, without its private half when there is none. *)
Record SealedBoxKeys := { sb_Public : bytes; sb_Private : option bytes }.

Definition Keyring (s : SealedBoxKeys) : SealedBoxKeyring := {|
  kr_Current := priv ← sb_Private s;
    Some {| sk_KeyID := "sealed-box-1"; sk_Public := sb_Public s; sk_Private := priv;
            sk_RetiredAt := None |};
  kr_Previous := [] |}.

(** ** The claim inside a blob *)

Record CeilingTokenWire := {
  cw_ID : string;
  cw_Payload : CeilingTokenPayload;
  cw_BankSignature : bytes;
}.

Record WireInnerPayload := {
  wi_Ceiling : CeilingTokenWire;
  wi_Payment : PaymentToken;
  wi_Request : PaymentRequest;
  wi_SenderUserID : string;
}.

Definition CeilingTokenWire_json (c : CeilingTokenWire) : result json :=
  json_object [
    ("id", js (cw_ID c));
    ("payload", CeilingTokenPayload_json (cw_Payload c));
    ("bank_signature", jb (cw_BankSignature c))].

Definition WireInnerPayload_json (p : WireInnerPayload) : result json :=
  json_object [
    ("ceiling", CeilingTokenWire_json (wi_Ceiling p));
    ("payment", PaymentToken_json (wi_Payment p));
    ("request", PaymentRequest_json (wi_Request p));
    ("sender_user_id", js (wi_SenderUserID p))].

Definition EncodeInner (p : WireInnerPayload) : result string :=
  Canonicalize (WireInnerPayload_json p).

(** The zero values of the structs. *)
Definition DisplayCard_zero : DisplayCard := {|
  dc_UserID := ""; dc_DisplayName := ""; dc_AccountNumber := ""; dc_IssuedAt := utc time_zero;
  dc_BankKeyID := ""; dc_ServerSignature := [] |}.
Definition PaymentRequest_zero : PaymentRequest := {|
  pr_ReceiverID := ""; pr_ReceiverDisplayCard := DisplayCard_zero; pr_Amount := 0;
  pr_SessionNonce := []; pr_IssuedAt := utc time_zero; pr_ExpiresAt := utc time_zero;
  pr_ReceiverDevicePubkey := []; pr_ReceiverSignature := [] |}.
Definition PaymentToken_zero : PaymentToken := {|
  pt_PayerID := ""; pt_PayeeID := ""; pt_Amount := 0; pt_SequenceNumber := 0;
  pt_RemainingCeiling := 0; pt_Timestamp := utc time_zero; pt_CeilingTokenID := "";
  pt_SessionNonce := []; pt_RequestHash := []; pt_PayerSignature := [] |}.
Definition CeilingTokenWire_zero : CeilingTokenWire := {|
  cw_ID := "";
  cw_Payload := {| ctp_PayerID := ""; ctp_CeilingAmount := 0; ctp_IssuedAt := utc time_zero;
    ctp_ExpiresAt := utc time_zero; ctp_SequenceStart := 0; ctp_PayerPublicKey := [];
    ctp_BankKeyID := "" |};
  cw_BankSignature := [] |}.
Definition WireInnerPayload_zero : WireInnerPayload := {|
  wi_Ceiling := CeilingTokenWire_zero; wi_Payment := PaymentToken_zero;
  wi_Request := PaymentRequest_zero; wi_SenderUserID := "" |}.

Definition dec_CeilingTokenWire : decoder CeilingTokenWire := dec_struct (fun c ms =>
  field i := member "id" dec_string (cw_ID c) ms in
  field p := member "payload" dec_CeilingTokenPayload (cw_Payload c) ms in
  field s := member "bank_signature" dec_bytes (cw_BankSignature c) ms in
  ({| cw_ID := i; cw_Payload := p; cw_BankSignature := s |}, true)).

Definition dec_WireInnerPayload : decoder WireInnerPayload := dec_struct (fun p ms =>
  field c := member "ceiling" dec_CeilingTokenWire (wi_Ceiling p) ms in
  field y := member "payment" dec_PaymentToken (wi_Payment p) ms in
  field q := member "request" dec_PaymentRequest (wi_Request p) ms in
  field s := member "sender_user_id" dec_string (wi_SenderUserID p) ms in
  ({| wi_Ceiling := c; wi_Payment := y; wi_Request := q; wi_SenderUserID := s |}, true)).

(** The text of [encoding/json]'s error is not kept. *)
Definition DecodeInner (text : string) : result WireInnerPayload :=
  let failed := Err (ErrWrap "gossip: decode inner" (ErrNew "json")) in
  match parse text with
  | None => failed
  | Some v =>
      let '(p, ok) := dec_WireInnerPayload WireInnerPayload_zero v in
      if ok : bool then Ok p else failed
  end.

(** ** Upload *)

(** [SubmitClaim] of the settlement service, as the service here sees it. *)
Class SettlementSubmitter := {
  sub_SubmitClaim : string -> list ClaimItem ->
    dbop (SettlementBatch * list SettlementResult * option error);
}.

Record BlobResult := {
  br_TransactionHash : bytes;
  br_Accepted : bool;
  br_Err : option error;
  br_SettlementResult : option SettlementResult;
}.

Record UploadResult := {
  ur_Accepted : Z;
  ur_Rejected : Z;
  ur_Items : list BlobResult;
}.

Section Gossip.
Context {E : Env} {X : NaCl} {Sub : SettlementSubmitter}.
Variable keyring : SealedBoxKeyring.

Fixpoint openWithKeyring (candidates : list SealedBoxKey) (ciphertext : bytes)
  : result bytes :=
  match candidates with
  | [] => Err ErrBadSealedBox
  | k :: rest =>
      match OpenAnonymous (sk_Public k) (sk_Private k) ciphertext with
      | Ok pt => Ok pt
      | Err _ => openWithKeyring rest ciphertext
      end
  end.

(** The ceiling token of the claim.  The fields the blob does not carry keep the zero value
    of Go; settlement looks at none of them. *)
Definition ceiling_of (c : CeilingTokenWire) : CeilingToken :=
  let p := cw_Payload c in {|
  ct_ID := cw_ID c; ct_PayerID := ctp_PayerID p; ct_CeilingAmount := ctp_CeilingAmount p;
  ct_IssuedAt := ctp_IssuedAt p; ct_ExpiresAt := ctp_ExpiresAt p;
  ct_SequenceStart := ctp_SequenceStart p; ct_NextSequence := 0;
  ct_PayerPublicKey := ctp_PayerPublicKey p; ct_BankKeyID := ctp_BankKeyID p;
  ct_BankSignature := cw_BankSignature c; ct_Status := CeilingUnset;
  ct_ReleaseAfter := None; ct_CreatedAt := time_zero |}.

Definition receiver_of (inner : WireInnerPayload) : string :=
  if bool_decide (wi_SenderUserID inner = "") then pt_PayeeID (wi_Payment inner)
  else wi_SenderUserID inner.

Definition item_of (inner : WireInnerPayload) : ClaimItem := {|
  ci_Payment := wi_Payment inner; ci_Ceiling := ceiling_of (wi_Ceiling inner);
  ci_Request := wi_Request inner |}.

(** The part of the loop's body before settlement is asked. *)
Definition open_blob (candidates : list SealedBoxKey) (blob : GossipBlob)
  : result WireInnerPayload :=
  let bad {A} (r : result A) : result A :=
    match r with Err e => Err (ErrJoin ErrBadBlob e) | ok => ok end in
  try _ := bad (GossipBlob_Validate blob) in
  if MaxGossipHops <? gb_HopCount blob then Err ErrBlobHopLimitExceeded
  else
    try pt := bad (openWithKeyring candidates (gb_EncryptedBlob blob)) in
    bad (DecodeInner (String.string_of_list_byte pt)).

Definition reject_blob (blob : GossipBlob) (e : error) (out : UploadResult) : UploadResult := {|
  ur_Accepted := ur_Accepted out; ur_Rejected := ur_Rejected out + 1;
  ur_Items := ur_Items out ++ [{| br_TransactionHash := gb_TransactionHash blob;
    br_Accepted := false; br_Err := Some e; br_SettlementResult := None |}] |}.

Definition accept_blob (blob : GossipBlob) (results : list SettlementResult)
  (out : UploadResult) : UploadResult := {|
  ur_Accepted := ur_Accepted out + 1; ur_Rejected := ur_Rejected out;
  ur_Items := ur_Items out ++ [{| br_TransactionHash := gb_TransactionHash blob;
    br_Accepted := true; br_Err := None; br_SettlementResult := head results |}] |}.

(** One turn of the loop. *)
Definition upload_blob (candidates : list SealedBoxKey) (out : UploadResult)
  (blob : GossipBlob) : dbop UploadResult :=
  match open_blob candidates blob with
  | Err e => ret (reject_blob blob e out)
  | Ok inner =>
      let! (_, results, failed) := sub_SubmitClaim (receiver_of inner) [item_of inner] in
      match failed with
      | Some e => ret (reject_blob blob (ErrWrap "gossip: settlement submit" e) out)
      | None => ret (accept_blob blob results out)
      end
  end.

Definition Upload (uploaderUserID : string) (blobs : list GossipBlob) : dbop UploadResult :=
  let candidates := all_keys keyring in
  if bool_decide (candidates = [])
  then throw (ErrNew "gossip: sealed-box keys not configured")
  else for_each blobs (upload_blob candidates)
         {| ur_Accepted := 0; ur_Rejected := 0; ur_Items := [] |}.

End Gossip.

(** The production submitter: settlement, without a country. *)
Definition settlement_submitter {E : Env} {C : Ed25519} {O : MapOrder} (s : SettlementService)
  : SettlementSubmitter :=
  {| sub_SubmitClaim receiver items := SubmitClaim s receiver items "" |}.

(** ** What an upload does *)

Section Facts.
Context {E : Env} {X : NaCl} {Sub : SettlementSubmitter}.
Implicit Types w : world db effect.

Lemma runs_for_each_app {A B} (xs ys : list A) (body : B -> A -> dbop B) b w r w' :
  runs (for_each (xs ++ ys) body b) w r w' <->
  exists b1 w1, runs (for_each xs body b) w b1 w1 /\ runs (for_each ys body b1) w1 r w'.
Proof.
  revert b w. induction xs as [|x xs IH]; intros b w; cbn [for_each app].
  - split; [intros H; exists b, w; split; [by apply runs_ret|done]|].
    intros (b1 & w1 & H & Hr). by apply runs_ret in H as [-> ->].
  - rewrite runs_bind. setoid_rewrite IH. setoid_rewrite runs_bind. naive_solver.
Qed.

(** Nothing but the claims of the blobs that open reaches settlement. *)
Lemma preserves_Upload (P : db -> Prop) keyring uploader blobs :
  (forall b inner, In b blobs -> open_blob (all_keys keyring) b = Ok inner ->
     preserves P (sub_SubmitClaim (receiver_of inner) [item_of inner])) ->
  preserves P (Upload keyring uploader blobs).
Proof.
  intros HP. unfold Upload. case_bool_decide; [quiet|].
  generalize {| ur_Accepted := 0; ur_Rejected := 0; ur_Items := [] |}.
  induction blobs as [|b blobs IH]; intros out; cbn [for_each]; [quiet|].
  apply preserves_bind.
  - unfold upload_blob. destruct (open_blob _ b) as [inner|e] eqn:Hb; [|quiet].
    apply preserves_bind; [apply (HP b); [by left|done]|]. intros [[batch results] [e|]]; quiet.
  - intros out'. apply IH. intros b' inner Hin. apply HP. by right.
Qed.

End Facts.
