(* ===== verification/Reconcile.v ===== *)
(** * Reconciliation (internal/service/reconciliation, pgrepo/reconciliation.go)

    The three loops that compare what the server holds with itself and with what its
    clients report: the diff of a device's log, the receipt of a settlement batch and
    the nightly check of every balance against the ledger. *)

From S2P Require Import Prelude Domain Json Store Repo Books Solvency Settlement.

Definition ErrNoSuchBatch : error := ErrNew "reconciliation: no such batch".

(** The Postgres and Go strings of the two enumerations the loops print. *)
Definition kind_text (k : AccountKind) : string :=
  match k with
  | AccountKindMain => "main" | AccountKindLienHolding => "lien_holding"
  | AccountKindReceivingPending => "receiving_pending" | AccountKindSuspense => "suspense"
  end.

Definition status_text (s : TransactionStatus) : string :=
  match s with
  | TxQueued => "QUEUED" | TxSubmitted => "SUBMITTED" | TxPending => "PENDING"
  | TxSettled => "SETTLED" | TxPartiallySettled => "PARTIALLY_SETTLED"
  | TxRejected => "REJECTED" | TxExpired => "EXPIRED"
  end.

(** What a device reports; its status is any string. *)
Record ClientTxnEntry := {
  ce_TransactionID : string;
  ce_PayerID : string;
  ce_PayeeID : string;
  ce_Amount : Z;
  ce_SequenceNumber : Z;
  ce_Status : string;
}.

Record SyncResult := {
  sy_PayerSide : list Transaction;
  sy_ReceiverSide : list Transaction;
  sy_Discrepancies : list Discrepancy;
}.

(** ** The diff of a client's log *)

Definition seqKey (payer : string) (seq : Z) : string := payer +:+ "|" +:+ pretty seq.

(** The two indexes over the server's transactions. *)
Definition index : Type := gmap string Transaction * gmap string Transaction.

Definition add_payer_txn (ix : index) (t : Transaction) : index :=
  (<[t_ID t := t]> ix.1, <[seqKey (t_PayerID t) (t_SequenceNumber t) := t]> ix.2).

Definition add_receiver_txn (ix : index) (t : Transaction) : index :=
  match ix.1 !! t_ID t with Some _ => ix | None => add_payer_txn ix t end.

Definition build_index (payerSide receiverSide : list Transaction) : index :=
  foldl add_receiver_txn (foldl add_payer_txn (∅, ∅) payerSide) receiverSide.

Definition resolve (ix : index) (e : ClientTxnEntry) : option Transaction :=
  let byID := if bool_decide (ce_TransactionID e = "") then None
              else ix.1 !! ce_TransactionID e in
  match byID with
  | Some t => Some t
  | None => ix.2 !! seqKey (ce_PayerID e) (ce_SequenceNumber e)
  end.

Definition amount_diff (e : ClientTxnEntry) (t : Transaction) : list Discrepancy :=
  if ce_Amount e =? t_Amount t then []
  else [{| ds_TransactionID := t_ID t; ds_Field := "amount"; ds_Expected := pretty (t_Amount t);
           ds_Actual := pretty (ce_Amount e); ds_Severity := "CRITICAL" |}].

Definition status_diff (e : ClientTxnEntry) (t : Transaction) : list Discrepancy :=
  if bool_decide (ce_Status e = "") || bool_decide (ce_Status e = status_text (t_Status t)) then []
  else [{| ds_TransactionID := t_ID t; ds_Field := "status";
           ds_Expected := status_text (t_Status t); ds_Actual := ce_Status e;
           ds_Severity := "WARNING" |}].

Definition unknown_entry (e : ClientTxnEntry) : Discrepancy :=
  {| ds_TransactionID := ce_TransactionID e; ds_Field := "existence";
     ds_Expected := "present on server"; ds_Actual := "absent"; ds_Severity := "WARNING" |}.

Definition missing_entry (id : string) : Discrepancy :=
  {| ds_TransactionID := id; ds_Field := "existence"; ds_Expected := "present on client log";
     ds_Actual := "missing"; ds_Severity := "WARNING" |}.

(** Pass 1: the entries the client reports, with the ids they were found under. *)
Definition diff_entry (ix : index) (st : list Discrepancy * gset string) (e : ClientTxnEntry)
  : list Discrepancy * gset string :=
  match resolve ix e with
  | None => (st.1 ++ [unknown_entry e], st.2)
  | Some t => (st.1 ++ amount_diff e t ++ status_diff e t, {[t_ID t]} ∪ st.2)
  end.

Section Reconcile.
Context {E : Env} {M : MapOrder}.

(** Pass 2 visits the map of the server's transactions in any order. *)
Definition diffClientLog (clientLog : list ClientTxnEntry)
  (payerSide receiverSide : list Transaction) : list Discrepancy :=
  let ix := build_index payerSide receiverSide in
  let '(found, seen) := foldl (diff_entry ix) ([], ∅) clientLog in
  found ++ map missing_entry
    (List.filter (fun id => negb (bool_decide (id ∈ seen))) (map_order (map_to_list ix.1).*1)).

Definition ListSettledTxnsForPayer (userID : string) : dbop (list Transaction) :=
  let! rows := query (q_ListSettledTxnsForPayer userID) in ret (map paymentToDomainTxn rows).

Definition ListSettledTxnsForReceiver (userID : string) : dbop (list Transaction) :=
  let! rows := query (q_ListSettledTxnsForReceiver userID) in ret (map paymentToDomainTxn rows).

Definition dispute_event (userID txn : string) (t : Time) : FraudEvent := {|
  fe_ID := ""; fe_UserID := userID; fe_SignalType := FraudGeographicAnomaly;
  fe_CeilingTokenID := None; fe_TransactionID := Some txn; fe_Severity := SevMedium;
  fe_Details := "user-disputed transaction during reconciliation sync"; fe_CreatedAt := t |}.

Definition SyncUser (userID : string) (clientLog : list ClientTxnEntry)
  (disputed : list string) : dbop SyncResult :=
  if bool_decide (userID = "") then throw (ErrNew "reconciliation: userID required")
  else
    let! payerSide := wrapping "reconciliation: list payer-side"
                        (ListSettledTxnsForPayer userID) in
    let! receiverSide := wrapping "reconciliation: list receiver-side"
                           (ListSettledTxnsForReceiver userID) in
    let discrepancies := diffClientLog clientLog payerSide receiverSide in
    let! t := now in
    do! for_each disputed (fun _ d => emit (EvFraudRecord (dispute_event userID d t))) tt in
    ret {| sy_PayerSide := payerSide; sy_ReceiverSide := receiverSide;
           sy_Discrepancies := discrepancies |}.

End Reconcile.

(** ** The receipt of a batch *)

Section Receipt.
Context {E : Env}.

Definition ListPaymentsByBatch (batchID : string) : dbop (list Transaction) :=
  let! rows := query (q_ListPaymentsByBatch batchID) in ret (map paymentToDomainTxn rows).

Definition receipt_line (t : Transaction) : SettlementResult := {|
  sr_TransactionID := t_ID t; sr_SequenceNumber := t_SequenceNumber t;
  sr_SubmittedAmount := t_Amount t; sr_SettledAmount := t_SettledAmount t;
  sr_Status := Some (t_Status t);
  sr_Reason := match t_RejectionReason t with Some r => r | None => "" end;
  sr_ReceiverUserID := "" |}.

(** The counters of the first loop. *)
Definition count_row (b : SettlementBatch) (t : Transaction) : SettlementBatch :=
  let settled := match t_Status t with TxSettled => 1 | _ => 0 end in
  let partial := match t_Status t with TxPartiallySettled => 1 | _ => 0 end in
  let rejectedN := match t_Status t with TxRejected => 1 | _ => 0 end in
  {| sb_ID := sb_ID b;
     sb_ReceiverID := if bool_decide (sb_ReceiverID b = "") then t_PayeeID t else sb_ReceiverID b;
     sb_TotalSubmitted := sb_TotalSubmitted b;
     sb_TotalSettled := sb_TotalSettled b + settled;
     sb_TotalPartial := sb_TotalPartial b + partial;
     sb_TotalRejected := sb_TotalRejected b + rejectedN;
     sb_TotalAmount :=
       if settled + partial =? 0 then sb_TotalAmount b
       else add64 (sb_TotalAmount b) (t_SettledAmount t);
     sb_Status := sb_Status b; sb_SubmittedAt := sb_SubmittedAt b;
     sb_ProcessedAt := sb_ProcessedAt b; sb_CreatedAt := sb_CreatedAt b |}.

(** The first submission and the last settlement; the zero time is "none yet". *)
Definition first_submitted (acc : Time) (t : Transaction) : Time :=
  match t_SubmittedAt t with
  | Some x => if IsZero acc || Before x acc then x else acc
  | None => acc
  end.

Definition last_settled (acc : Time) (t : Transaction) : Time :=
  match t_SettledAt t with
  | Some x => if After x acc then x else acc
  | None => acc
  end.

(** A row that is not settled, rejected or expired keeps the batch in processing. *)
Definition still_open (t : Transaction) : bool :=
  (negb (IsTerminal (t_Status t)) && negb (status_in (t_Status t) [TxPending; TxSubmitted]))
  || status_in (t_Status t) [TxPending; TxSubmitted].

Definition BatchReceipt (batchID : string) : dbop (SettlementBatch * list SettlementResult) :=
  if bool_decide (batchID = "") then throw (ErrNew "reconciliation: batchID required")
  else
    let! rows := wrapping "reconciliation: list batch payments" (ListPaymentsByBatch batchID) in
    match rows with
    | [] => throw ErrNoSuchBatch
    | _ =>
        let b := foldl count_row
          {| sb_ID := batchID; sb_ReceiverID := ""; sb_TotalSubmitted := Z.of_nat (length rows);
             sb_TotalSettled := 0; sb_TotalPartial := 0; sb_TotalRejected := 0;
             sb_TotalAmount := 0; sb_Status := Some BatchCompleted;
             sb_SubmittedAt := time_zero; sb_ProcessedAt := None; sb_CreatedAt := time_zero |}
          rows in
        let firstSubmitted := foldl first_submitted time_zero rows in
        let lastSettled := foldl last_settled time_zero rows in
        ret ({| sb_ID := sb_ID b; sb_ReceiverID := sb_ReceiverID b;
                sb_TotalSubmitted := sb_TotalSubmitted b; sb_TotalSettled := sb_TotalSettled b;
                sb_TotalPartial := sb_TotalPartial b; sb_TotalRejected := sb_TotalRejected b;
                sb_TotalAmount := sb_TotalAmount b;
                sb_Status := Some (if existsb still_open rows then BatchProcessing
                                   else BatchCompleted);
                sb_SubmittedAt := firstSubmitted;
                sb_ProcessedAt := if IsZero lastSettled then None else Some lastSettled;
                sb_CreatedAt := firstSubmitted |},
             map receipt_line rows)
    end.

(** ** The nightly check *)

Definition AccountLedgerSum (accountID : string) : dbop (Z * Z) :=
  query (q_AccountLedgerSum accountID).

Definition ListAllAccounts : dbop (list (string * Account)) := query q_ListAllAccounts.
Definition ListAllCeilings : dbop (list (string * CeilingRow)) := query q_ListAllCeilings.

Definition SettledTotalForCeiling (ceilingID : string) : dbop Z :=
  query (q_SettledTotalForCeiling ceilingID).

Definition check_account (found : list Discrepancy) (a : string * Account)
  : dbop (list Discrepancy) :=
  let! sums := wrapping ("reconciliation: ledger sum " +:+ a.1) (AccountLedgerSum a.1) in
  let expected := sub64 sums.2 sums.1 in
  ret (if expected =? a_BalanceKobo a.2 then found
       else found ++ [{|
         ds_TransactionID := "";
         ds_Field := ("account_balance:" +:+ a.1 +:+ ":" +:+ kind_text (a_Kind a.2))%string;
         ds_Expected := pretty expected; ds_Actual := pretty (a_BalanceKobo a.2);
         ds_Severity := "CRITICAL" |}]).

Definition check_ceiling (found : list Discrepancy) (c : string * CeilingRow)
  : dbop (list Discrepancy) :=
  let! settled := wrapping ("reconciliation: ceiling sum " +:+ c.1)
                    (SettledTotalForCeiling c.1) in
  ret (if c_CeilingKobo c.2 <? settled then
         found ++ [{|
           ds_TransactionID := ""; ds_Field := ("ceiling_overdraw:" +:+ c.1)%string;
           ds_Expected := ("<= " +:+ pretty (c_CeilingKobo c.2))%string;
           ds_Actual := pretty settled; ds_Severity := "CRITICAL" |}]
       else found).

(** The saved record, with the discrepancies that were computed. *)
Definition InsertReconciliationRun (rec : ReconciliationRecord) : dbop ReconciliationRecord :=
  let! id := (if bool_decide (rr_ID rec = "") then fresh else ret (rr_ID rec)) in
  exec (q_CreateReconciliationRun id rec).

Definition NightlyLedgerReconcile : dbop ReconciliationRecord :=
  let! accs := wrapping "reconciliation: list accounts" ListAllAccounts in
  let! ceilings := wrapping "reconciliation: list ceilings" ListAllCeilings in
  let! found := for_each accs check_account [] in
  let! found := for_each ceilings check_ceiling found in
  let! t := now in
  let! id := fresh in
  wrapping "reconciliation: persist run" (InsertReconciliationRun {|
    rr_ID := id; rr_Type := ReconLedger; rr_EntityID := "system"; rr_RunAt := t;
    rr_Status := match found with [] => ReconClean | _ => ReconDiscrepancy end;
    rr_Discrepancies := found; rr_CreatedAt := time_zero |}).

End Receipt.
