(* ===== verification/Messages.v ===== *)
(** * Messages (internal/transport/grpc/server/mappers.go, gen/offlinepay/v1)

    The protobuf messages the handlers still speak in process, and their conversions from and
    to the domain.  A timestamp is [None] where the code has a nil pointer; the elements of a
    list are never nil. *)

From S2P Require Import Prelude Domain Json Crypto Store AuthStore Repo Settlement Gossip Keys.

#[local] Open Scope string_scope.
#[local] Open Scope Z_scope.

(** ** The messages (common.proto, settlement.proto) *)

Inductive pb_TransactionStatus :=
| TRANSACTION_STATUS_UNSPECIFIED
| TRANSACTION_STATUS_QUEUED
| TRANSACTION_STATUS_SUBMITTED
| TRANSACTION_STATUS_PENDING
| TRANSACTION_STATUS_SETTLED
| TRANSACTION_STATUS_PARTIALLY_SETTLED
| TRANSACTION_STATUS_REJECTED
| TRANSACTION_STATUS_EXPIRED.

Inductive pb_CeilingStatus :=
| CEILING_STATUS_UNSPECIFIED
| CEILING_STATUS_ACTIVE
| CEILING_STATUS_EXPIRED
| CEILING_STATUS_EXHAUSTED
| CEILING_STATUS_REVOKED.

Inductive pb_AccountKind :=
| ACCOUNT_KIND_UNSPECIFIED
| ACCOUNT_KIND_MAIN
| ACCOUNT_KIND_LIEN_HOLDING
| ACCOUNT_KIND_RECEIVING_PENDING.

Inductive pb_SettlementBatchStatus :=
| SETTLEMENT_BATCH_STATUS_UNSPECIFIED
| SETTLEMENT_BATCH_STATUS_RECEIVED
| SETTLEMENT_BATCH_STATUS_PROCESSING
| SETTLEMENT_BATCH_STATUS_COMPLETED
| SETTLEMENT_BATCH_STATUS_FAILED.

Record pb_CeilingToken := {
  pbc_Id : string;
  pbc_PayerId : string;
  pbc_CeilingAmountKobo : Z;
  pbc_IssuedAt : option Time;
  pbc_ExpiresAt : option Time;
  pbc_SequenceStart : Z;
  pbc_PayerPublicKey : bytes;
  pbc_BankKeyId : string;
  pbc_BankSignature : bytes;
  pbc_Status : pb_CeilingStatus;
}.

Record pb_PaymentToken := {
  pbp_PayerId : string;
  pbp_PayeeId : string;
  pbp_AmountKobo : Z;
  pbp_SequenceNumber : Z;
  pbp_RemainingCeilingKobo : Z;
  pbp_Timestamp : option Time;
  pbp_CeilingTokenId : string;
  pbp_PayerSignature : bytes;
  pbp_SessionNonce : bytes;
  pbp_RequestHash : bytes;
}.

Record pb_DisplayCard := {
  pbd_UserId : string;
  pbd_DisplayName : string;
  pbd_AccountNumber : string;
  pbd_IssuedAt : option Time;
  pbd_BankKeyId : string;
  pbd_ServerSignature : bytes;
}.

Record pb_PaymentRequest := {
  pbq_ReceiverId : string;
  pbq_ReceiverDisplayCard : option pb_DisplayCard;
  pbq_AmountKobo : Z;
  pbq_SessionNonce : bytes;
  pbq_IssuedAt : option Time;
  pbq_ExpiresAt : option Time;
  pbq_ReceiverDevicePubkey : bytes;
  pbq_ReceiverSignature : bytes;
}.

Record pb_GossipBlob := {
  pbg_TransactionHash : bytes;
  pbg_EncryptedBlob : bytes;
  pbg_BankSignature : bytes;
  pbg_CeilingTokenHash : bytes;
  pbg_HopCount : Z;
  pbg_BlobSize : Z;
}.

Record pb_SettlementResult := {
  pbr_TransactionId : string;
  pbr_SequenceNumber : Z;
  pbr_SubmittedAmountKobo : Z;
  pbr_SettledAmountKobo : Z;
  pbr_Status : pb_TransactionStatus;
  pbr_Reason : string;
}.

Record pb_BatchReceipt := {
  pbb_BatchId : string;
  pbb_ReceiverUserId : string;
  pbb_TotalSubmitted : Z;
  pbb_TotalSettled : Z;
  pbb_TotalPartial : Z;
  pbb_TotalRejected : Z;
  pbb_TotalAmountKobo : Z;
  pbb_Status : pb_SettlementBatchStatus;
  pbb_SubmittedAt : option Time;
  pbb_ProcessedAt : option Time;
  pbb_Results : list pb_SettlementResult;
}.

Record pb_AccountBalance := {
  pba_Kind : pb_AccountKind;
  pba_BalanceKobo : Z;
  pba_Currency : string;
  pba_UpdatedAt : option Time;
}.

Record pb_SyncedTransaction := {
  pbs_TransactionId : string;
  pbs_PayerId : string;
  pbs_PayeeId : string;
  pbs_AmountKobo : Z;
  pbs_SettledAmountKobo : Z;
  pbs_SequenceNumber : Z;
  pbs_CeilingTokenId : string;
  pbs_Status : pb_TransactionStatus;
  pbs_RejectionReason : string;
  pbs_SubmittedAt : option Time;
  pbs_SettledAt : option Time;
}.

(** ** Statuses *)

Definition ceilingStatusToProto (s : CeilingStatus) : pb_CeilingStatus :=
  match s with
  | CeilingActive => CEILING_STATUS_ACTIVE
  | CeilingExpired => CEILING_STATUS_EXPIRED
  | CeilingExhausted => CEILING_STATUS_EXHAUSTED
  | CeilingRevoked => CEILING_STATUS_REVOKED
  | _ => CEILING_STATUS_UNSPECIFIED
  end.

Definition ceilingStatusFromProto (s : pb_CeilingStatus) : CeilingStatus :=
  match s with
  | CEILING_STATUS_ACTIVE => CeilingActive
  | CEILING_STATUS_EXPIRED => CeilingExpired
  | CEILING_STATUS_EXHAUSTED => CeilingExhausted
  | CEILING_STATUS_REVOKED => CeilingRevoked
  | CEILING_STATUS_UNSPECIFIED => CeilingUnset
  end.

(** [None] is the empty status. *)
Definition txStatusToProto (s : option TransactionStatus) : pb_TransactionStatus :=
  match s with
  | Some TxQueued => TRANSACTION_STATUS_QUEUED
  | Some TxSubmitted => TRANSACTION_STATUS_SUBMITTED
  | Some TxPending => TRANSACTION_STATUS_PENDING
  | Some TxSettled => TRANSACTION_STATUS_SETTLED
  | Some TxPartiallySettled => TRANSACTION_STATUS_PARTIALLY_SETTLED
  | Some TxRejected => TRANSACTION_STATUS_REJECTED
  | Some TxExpired => TRANSACTION_STATUS_EXPIRED
  | None => TRANSACTION_STATUS_UNSPECIFIED
  end.

Definition txStatusFromProto (s : pb_TransactionStatus) : option TransactionStatus :=
  match s with
  | TRANSACTION_STATUS_QUEUED => Some TxQueued
  | TRANSACTION_STATUS_SUBMITTED => Some TxSubmitted
  | TRANSACTION_STATUS_PENDING => Some TxPending
  | TRANSACTION_STATUS_SETTLED => Some TxSettled
  | TRANSACTION_STATUS_PARTIALLY_SETTLED => Some TxPartiallySettled
  | TRANSACTION_STATUS_REJECTED => Some TxRejected
  | TRANSACTION_STATUS_EXPIRED => Some TxExpired
  | TRANSACTION_STATUS_UNSPECIFIED => None
  end.

Definition batchStatusToProto (s : option SettlementBatchStatus) : pb_SettlementBatchStatus :=
  match s with
  | Some BatchReceived => SETTLEMENT_BATCH_STATUS_RECEIVED
  | Some BatchProcessing => SETTLEMENT_BATCH_STATUS_PROCESSING
  | Some BatchCompleted => SETTLEMENT_BATCH_STATUS_COMPLETED
  | Some BatchFailed => SETTLEMENT_BATCH_STATUS_FAILED
  | None => SETTLEMENT_BATCH_STATUS_UNSPECIFIED
  end.

Definition accountKindToProto (k : AccountKind) : pb_AccountKind :=
  match k with
  | AccountKindMain => ACCOUNT_KIND_MAIN
  | AccountKindLienHolding => ACCOUNT_KIND_LIEN_HOLDING
  | AccountKindReceivingPending => ACCOUNT_KIND_RECEIVING_PENDING
  | AccountKindSuspense => ACCOUNT_KIND_UNSPECIFIED
  end.

(** ** Tokens, cards and requests *)

Definition CeilingToken_zero : CeilingToken := {|
  ct_ID := ""; ct_PayerID := ""; ct_CeilingAmount := 0; ct_IssuedAt := utc time_zero;
  ct_ExpiresAt := utc time_zero; ct_SequenceStart := 0; ct_NextSequence := 0;
  ct_PayerPublicKey := []; ct_BankKeyID := ""; ct_BankSignature := [];
  ct_Status := CeilingUnset; ct_ReleaseAfter := None; ct_CreatedAt := time_zero |}.

Definition CeilingToProto (c : CeilingToken) : pb_CeilingToken := {|
  pbc_Id := ct_ID c; pbc_PayerId := ct_PayerID c; pbc_CeilingAmountKobo := ct_CeilingAmount c;
  pbc_IssuedAt := tsOrNil (ct_IssuedAt c); pbc_ExpiresAt := tsOrNil (ct_ExpiresAt c);
  pbc_SequenceStart := ct_SequenceStart c; pbc_PayerPublicKey := ct_PayerPublicKey c;
  pbc_BankKeyId := ct_BankKeyID c; pbc_BankSignature := ct_BankSignature c;
  pbc_Status := ceilingStatusToProto (ct_Status c) |}.

Definition CeilingFromProto (c : option pb_CeilingToken) : CeilingToken :=
  match c with
  | None => CeilingToken_zero
  | Some c => {|
      ct_ID := pbc_Id c; ct_PayerID := pbc_PayerId c;
      ct_CeilingAmount := pbc_CeilingAmountKobo c; ct_IssuedAt := utc (fromTs (pbc_IssuedAt c));
      ct_ExpiresAt := utc (fromTs (pbc_ExpiresAt c)); ct_SequenceStart := pbc_SequenceStart c;
      ct_NextSequence := 0; ct_PayerPublicKey := pbc_PayerPublicKey c;
      ct_BankKeyID := pbc_BankKeyId c; ct_BankSignature := pbc_BankSignature c;
      ct_Status := ceilingStatusFromProto (pbc_Status c); ct_ReleaseAfter := None;
      ct_CreatedAt := time_zero |}
  end.

Definition PaymentToProto (p : PaymentToken) : pb_PaymentToken := {|
  pbp_PayerId := pt_PayerID p; pbp_PayeeId := pt_PayeeID p; pbp_AmountKobo := pt_Amount p;
  pbp_SequenceNumber := pt_SequenceNumber p; pbp_RemainingCeilingKobo := pt_RemainingCeiling p;
  pbp_Timestamp := tsOrNil (pt_Timestamp p); pbp_CeilingTokenId := pt_CeilingTokenID p;
  pbp_PayerSignature := pt_PayerSignature p; pbp_SessionNonce := pt_SessionNonce p;
  pbp_RequestHash := pt_RequestHash p |}.

Definition PaymentFromProto (p : option pb_PaymentToken) : PaymentToken :=
  match p with
  | None => PaymentToken_zero
  | Some p => {|
      pt_PayerID := pbp_PayerId p; pt_PayeeID := pbp_PayeeId p; pt_Amount := pbp_AmountKobo p;
      pt_SequenceNumber := pbp_SequenceNumber p;
      pt_RemainingCeiling := pbp_RemainingCeilingKobo p;
      pt_Timestamp := utc (fromTs (pbp_Timestamp p)); pt_CeilingTokenID := pbp_CeilingTokenId p;
      pt_SessionNonce := pbp_SessionNonce p; pt_RequestHash := pbp_RequestHash p;
      pt_PayerSignature := pbp_PayerSignature p |}
  end.

Definition DisplayCardToProto (d : DisplayCard) : pb_DisplayCard := {|
  pbd_UserId := dc_UserID d; pbd_DisplayName := dc_DisplayName d;
  pbd_AccountNumber := dc_AccountNumber d; pbd_IssuedAt := tsOrNil (dc_IssuedAt d);
  pbd_BankKeyId := dc_BankKeyID d; pbd_ServerSignature := dc_ServerSignature d |}.

Definition DisplayCardFromProto (d : option pb_DisplayCard) : DisplayCard :=
  match d with
  | None => DisplayCard_zero
  | Some d => {|
      dc_UserID := pbd_UserId d; dc_DisplayName := pbd_DisplayName d;
      dc_AccountNumber := pbd_AccountNumber d; dc_IssuedAt := utc (fromTs (pbd_IssuedAt d));
      dc_BankKeyID := pbd_BankKeyId d; dc_ServerSignature := pbd_ServerSignature d |}
  end.

Definition PaymentRequestToProto (r : PaymentRequest) : pb_PaymentRequest := {|
  pbq_ReceiverId := pr_ReceiverID r;
  pbq_ReceiverDisplayCard := Some (DisplayCardToProto (pr_ReceiverDisplayCard r));
  pbq_AmountKobo := pr_Amount r; pbq_SessionNonce := pr_SessionNonce r;
  pbq_IssuedAt := tsOrNil (pr_IssuedAt r); pbq_ExpiresAt := tsOrNil (pr_ExpiresAt r);
  pbq_ReceiverDevicePubkey := pr_ReceiverDevicePubkey r;
  pbq_ReceiverSignature := pr_ReceiverSignature r |}.

Definition PaymentRequestFromProto (r : option pb_PaymentRequest) : PaymentRequest :=
  match r with
  | None => PaymentRequest_zero
  | Some r => {|
      pr_ReceiverID := pbq_ReceiverId r;
      pr_ReceiverDisplayCard := DisplayCardFromProto (pbq_ReceiverDisplayCard r);
      pr_Amount := pbq_AmountKobo r; pr_SessionNonce := pbq_SessionNonce r;
      pr_IssuedAt := utc (fromTs (pbq_IssuedAt r)); pr_ExpiresAt := utc (fromTs (pbq_ExpiresAt r));
      pr_ReceiverDevicePubkey := pbq_ReceiverDevicePubkey r;
      pr_ReceiverSignature := pbq_ReceiverSignature r |}
  end.

Definition GossipBlobFromProto (b : option pb_GossipBlob) : GossipBlob :=
  match b with
  | None => {| gb_TransactionHash := []; gb_EncryptedBlob := []; gb_BankSignature := [];
               gb_CeilingTokenHash := []; gb_HopCount := 0; gb_BlobSize := 0 |}
  | Some b => {|
      gb_TransactionHash := pbg_TransactionHash b; gb_EncryptedBlob := pbg_EncryptedBlob b;
      gb_BankSignature := pbg_BankSignature b; gb_CeilingTokenHash := pbg_CeilingTokenHash b;
      gb_HopCount := pbg_HopCount b; gb_BlobSize := pbg_BlobSize b |}
  end.

(** ** Answers *)

Definition SettlementResultToProto (r : SettlementResult) : pb_SettlementResult := {|
  pbr_TransactionId := sr_TransactionID r; pbr_SequenceNumber := sr_SequenceNumber r;
  pbr_SubmittedAmountKobo := sr_SubmittedAmount r; pbr_SettledAmountKobo := sr_SettledAmount r;
  pbr_Status := txStatusToProto (sr_Status r); pbr_Reason := sr_Reason r |}.

Definition BatchReceiptToProto (b : SettlementBatch) (results : list SettlementResult)
  : pb_BatchReceipt := {|
  pbb_BatchId := sb_ID b; pbb_ReceiverUserId := sb_ReceiverID b;
  pbb_TotalSubmitted := int32 (sb_TotalSubmitted b); pbb_TotalSettled := int32 (sb_TotalSettled b);
  pbb_TotalPartial := int32 (sb_TotalPartial b); pbb_TotalRejected := int32 (sb_TotalRejected b);
  pbb_TotalAmountKobo := sb_TotalAmount b; pbb_Status := batchStatusToProto (sb_Status b);
  pbb_SubmittedAt := tsOrNil (sb_SubmittedAt b);
  pbb_ProcessedAt := t ← sb_ProcessedAt b; tsOrNil t;
  pbb_Results := map SettlementResultToProto results |}.

Definition TxnToSyncedProto (t : Transaction) : pb_SyncedTransaction := {|
  pbs_TransactionId := t_ID t; pbs_PayerId := t_PayerID t; pbs_PayeeId := t_PayeeID t;
  pbs_AmountKobo := t_Amount t; pbs_SettledAmountKobo := t_SettledAmount t;
  pbs_SequenceNumber := t_SequenceNumber t; pbs_CeilingTokenId := t_CeilingTokenID t;
  pbs_Status := txStatusToProto (Some (t_Status t));
  pbs_RejectionReason := default "" (t_RejectionReason t);
  pbs_SubmittedAt := tsPtrOrNil (t_SubmittedAt t); pbs_SettledAt := tsPtrOrNil (t_SettledAt t) |}.

(** ** The items of a claim

    Ceilings are found by identifier and requests by nonce; a later one of a list replaces an
    earlier one, and what is not found has the zero value. *)

Definition nonce_text (nonce : bytes) : string := String.string_of_list_byte nonce.

Definition ceilings_by_id (ceilings : list pb_CeilingToken) : gmap string CeilingToken :=
  foldl (fun m c => let d := CeilingFromProto (Some c) in <[ct_ID d := d]> m) ∅ ceilings.

Definition requests_by_nonce (requests : list pb_PaymentRequest) : gmap string PaymentRequest :=
  foldl (fun m r => let d := PaymentRequestFromProto (Some r) in
                    <[nonce_text (pr_SessionNonce d) := d]> m) ∅ requests.

Definition ClaimItemsFromProto (tokens : list pb_PaymentToken) (ceilings : list pb_CeilingToken)
  (requests : list pb_PaymentRequest) : list ClaimItem :=
  let byID := ceilings_by_id ceilings in
  let byNonce := requests_by_nonce requests in
  map (fun t =>
    let pm := PaymentFromProto (Some t) in {|
    ci_Payment := pm;
    ci_Ceiling := default CeilingToken_zero (byID !! pt_CeilingTokenID pm);
    ci_Request := default PaymentRequest_zero (byNonce !! nonce_text (pt_SessionNonce pm)) |})
  tokens.
