(* ===== verification/WalletServer.v ===== *)
(** * The wallet's and the settlement's handlers (internal/transport/grpc/server)

    What a request must satisfy before the wallet service is called, and what becomes of the
    service's answers and errors (wallet_server.go); the same for the settlement below
    (settlement_server.go).  [ctx] is the user of the request's context. *)

From S2P Require Import Prelude Domain Json Crypto Store AuthStore SealedBox Repo Text Registration Keys Wallet Settlement Gossip Reconcile Messages.

#[local] Open Scope string_scope.
#[local] Open Scope Z_scope.

Record FundOfflineResponse := { fo_Ceiling : pb_CeilingToken; fo_LienId : string }.
Record GetBalancesResponse := { gbl_AsOf : option Time; gbl_Balances : list pb_AccountBalance }.
Record MoveToMainResponse := { mm_ReleasedKobo : Z; mm_NewMainBalanceKobo : Z }.

Record RecoverOfflineCeilingResponse := {
  ro_CeilingID : string;
  ro_QuarantinedKobo : Z;
  ro_ReleaseAfter : Time;
}.

Record GetCurrentCeilingResponse := {
  gc_Present : bool;
  gc_CeilingID : string;
  gc_Status : string;
  gc_CeilingKobo : Z;
  gc_SettledKobo : Z;
  gc_RemainingKobo : Z;
  gc_IssuedAt : Time;
  gc_ExpiresAt : Time;
  gc_ReleaseAfter : Time;
}.

(** [string(status)]. *)
Definition ceiling_status_text (s : CeilingStatus) : string :=
  match s with
  | CeilingActive => "ACTIVE" | CeilingExpired => "EXPIRED" | CeilingExhausted => "EXHAUSTED"
  | CeilingRevoked => "REVOKED" | CeilingRecoveryPending => "RECOVERY_PENDING"
  | CeilingUnset => ""
  end.

Section WalletServer.
Context {E : Env} {K : CacheEnv} {C : Ed25519} {T : ErrorText}.
Variable ws : Service.
Variable ctx : option AuthUser.

(** [user_id] is there, and it is the caller's. *)
Definition own_user (userID : string) : dbop unit :=
  do! required (bool_decide (userID = "")) "user_id" in
  do! lift (MustMatchUser ctx userID) in
  ret tt.

Definition status_as (code : string) (e : error) : error := ErrStatus code (error_string e).

Definition fundOfflineErr (e : error) : error :=
  if errors_is e ErrActiveCeilingExists then status_as "AlreadyExists" e
  else if errors_is e ErrInsufficientFunds then status_as "FailedPrecondition" e
  else if errors_is e ErrMissingPayerPubkey then status_as "FailedPrecondition" e
  else if errors_is e ErrUnsettledClaims then status_as "FailedPrecondition" e
  else if errors_is e ErrNoActiveCeiling then status_as "FailedPrecondition" e
  else status_as "Internal" e.

Definition move_error (e : error) : error :=
  if errors_is e ErrNoActiveCeiling then status_as "FailedPrecondition" e
  else if errors_is e ErrUnsettledClaims then status_as "FailedPrecondition" e
  else status_of "Internal" "move to main" e.

Definition recover_error (e : error) : error :=
  if errors_is e ErrNoActiveCeiling then status_as "NotFound" e
  else if errors_is e ErrUnsettledClaims then status_as "FailedPrecondition" e
  else if errors_is e ErrRecoveryRaceLost then status_as "FailedPrecondition" e
  else status_of "Internal" "recover offline ceiling" e.

(** The requests that issue a ceiling: the amount and the lifetime in seconds are positive,
    and the payer's key is stored first, by itself, when there is one.  The lifetime is
    multiplied in an int64. *)
Definition issuing (amount_field : string) (userID : string) (amountKobo ttlSeconds : Z)
  (payerPublicKey : bytes) (call : Duration -> dbop (CeilingToken * option error))
  : dbop FundOfflineResponse :=
  do! own_user userID in
  if amountKobo <=? 0
  then throw (ErrStatus "InvalidArgument" (amount_field ++ " must be positive"))
  else if ttlSeconds <=? 0
  then throw (ErrStatus "InvalidArgument" "ttl_seconds must be positive")
  else
    do! (if bool_decide (payerPublicKey = []) then ret tt
         else internally "persist payer pubkey" (SetUserPayerPubkey userID payerPublicKey)) in
    let! r := attempt (call (mul64 ttlSeconds Second)) in
    match r with
    | Err e | Ok (_, Some e) => throw (fundOfflineErr e)
    | Ok (ct, None) => ret {| fo_Ceiling := CeilingToProto ct; fo_LienId := ct_ID ct |}
    end.

Definition srv_FundOffline (userID : string) (amountKobo ttlSeconds : Z)
  (payerPublicKey : bytes) : dbop FundOfflineResponse :=
  issuing "amount_kobo" userID amountKobo ttlSeconds payerPublicKey
    (fun ttl => FundOffline ws userID amountKobo ttl).

Definition srv_RefreshCeiling (userID : string) (newAmountKobo ttlSeconds : Z)
  (payerPublicKey : bytes) : dbop FundOfflineResponse :=
  issuing "new_amount_kobo" userID newAmountKobo ttlSeconds payerPublicKey
    (fun ttl => Refresh ws userID newAmountKobo ttl).

Definition mkBal (at_ : Time) (k : AccountKind) (kobo : Z) : pb_AccountBalance := {|
  pba_Kind := accountKindToProto k; pba_BalanceKobo := kobo; pba_Currency := "NGN";
  pba_UpdatedAt := Some at_ |}.

Definition srv_GetBalances (userID : string) : dbop GetBalancesResponse :=
  do! own_user userID in
  let! b := internally "balances" (GetBalances userID) in
  let! t := now in
  ret {| gbl_AsOf := Some t;
         gbl_Balances := [mkBal t AccountKindMain (b_Main b);
                          mkBal t AccountKindLienHolding (b_LienHolding b);
                          mkBal t AccountKindReceivingPending (b_ReceivingPending b)] |}.

(** The amount released is the difference of two readings around the drain. *)
Definition srv_MoveToMain (userID : string) : dbop MoveToMainResponse :=
  do! own_user userID in
  let! before := internally "pre balance" (GetBalances userID) in
  let! r := attempt (MoveToMain userID) in
  match r with
  | Err e => throw (move_error e)
  | Ok _ =>
      let! after := internally "post balance" (GetBalances userID) in
      ret {| mm_ReleasedKobo := sub64 (b_Main after) (b_Main before);
             mm_NewMainBalanceKobo := b_Main after |}
  end.

Definition srv_RecoverOfflineCeiling (userID : string) : dbop RecoverOfflineCeilingResponse :=
  do! own_user userID in
  let! r := attempt (RecoverOfflineCeiling ws userID) in
  match r with
  | Err e => throw (recover_error e)
  | Ok ct => ret {| ro_CeilingID := ct_ID ct; ro_QuarantinedKobo := ct_CeilingAmount ct;
                    ro_ReleaseAfter := default time_zero (ct_ReleaseAfter ct) |}
  end.

Definition srv_GetCurrentCeiling (userID : string) : dbop GetCurrentCeilingResponse :=
  do! own_user userID in
  let! cur := internally "get current ceiling" (GetCurrentCeiling userID) in
  ret match cur with
      | None => {|
          gc_Present := false; gc_CeilingID := ""; gc_Status := ""; gc_CeilingKobo := 0;
          gc_SettledKobo := 0; gc_RemainingKobo := 0; gc_IssuedAt := time_zero;
          gc_ExpiresAt := time_zero; gc_ReleaseAfter := time_zero |}
      | Some c => {|
          gc_Present := true; gc_CeilingID := cc_ID c;
          gc_Status := ceiling_status_text (cc_Status c); gc_CeilingKobo := cc_CeilingKobo c;
          gc_SettledKobo := cc_SettledKobo c; gc_RemainingKobo := cc_RemainingKobo c;
          gc_IssuedAt := cc_IssuedAt c; gc_ExpiresAt := cc_ExpiresAt c;
          gc_ReleaseAfter := default time_zero (cc_ReleaseAfter c) |}
      end.

End WalletServer.

(** * The settlement's handlers (internal/transport/grpc/server/settlement_server.go)

    Claims, receipts, synchronisation and gossip as the handlers offer them, over the services
    for settlement, reconciliation and gossip. *)

Record SyncUserResponse := {
  su_PayerSide : list pb_SyncedTransaction;
  su_ReceiverSide : list pb_SyncedTransaction;
  su_SyncedAt : option Time;
  su_FinalizedCount : Z;
  su_FinalizePending : bool;
}.

Record GossipUploadResponse := { gu_Accepted : Z; gu_Duplicates : Z; gu_Invalid : Z }.

(** [WithSubmitterCountry]: what the context carries; empty is nothing. *)
Definition WithSubmitterCountry (country : string) : string := ToUpper (TrimSpace country).

Section SettlementServer.
Context {E : Env} {C : Ed25519} {O : MapOrder} {T : ErrorText} {X : NaCl}
  {Sub : SettlementSubmitter}.
Variable ss : SettlementService.
(** [None] is a server without the gossip service. *)
Variable keyring : option SealedBoxKeyring.
Variable ctx : option AuthUser.

(** The error that comes with the batch so far is all that is answered. *)
Definition srv_SubmitClaim (country : string) (receiverUserID : string)
  (tokens : list pb_PaymentToken) (ceilings : list pb_CeilingToken)
  (requests : list pb_PaymentRequest) : dbop pb_BatchReceipt :=
  do! required (bool_decide (receiverUserID = "")) "receiver_user_id" in
  do! lift (MustMatchUser ctx receiverUserID) in
  let items := ClaimItemsFromProto tokens ceilings requests in
  let! r := attempt (SubmitClaim ss receiverUserID items country) in
  match r with
  | Err e | Ok (_, _, Some e) => throw (status_of "Internal" "submit claim" e)
  | Ok (batch, results, None) => ret (BatchReceiptToProto batch results)
  end.

Definition srv_GetBatchReceipt (batchID : string) : dbop pb_BatchReceipt :=
  do! required (bool_decide (batchID = "")) "batch_id" in
  let! r := attempt (BatchReceipt batchID) in
  match r with
  | Err e => throw (if errors_is e ErrNoSuchBatch then status_as "NotFound" e
                    else status_of "Internal" "batch receipt" e)
  | Ok (batch, results) => ret (BatchReceiptToProto batch results)
  end.

(** The log of the client is never passed on, and [since] is not looked at. *)
Definition srv_SyncUser (userID : string) (since : option Time) (disputed : list string)
  (finalize : bool) : dbop SyncUserResponse :=
  do! own_user ctx userID in
  do! (if finalize
       then internally "enqueue finalize" (EnqueueFinalize userID FinalizeReasonSyncRequested)
       else ret tt) in
  let! res := internally "sync user" (SyncUser userID [] disputed) in
  let! t := now in
  ret {| su_PayerSide := map TxnToSyncedProto (sy_PayerSide res);
         su_ReceiverSide := map TxnToSyncedProto (sy_ReceiverSide res);
         su_SyncedAt := Some t; su_FinalizedCount := 0; su_FinalizePending := finalize |}.

Definition srv_GossipUpload (uploaderUserID : string) (blobs : list pb_GossipBlob)
  : dbop GossipUploadResponse :=
  match keyring with
  | None => throw (ErrStatus "Unimplemented" "gossip service not configured")
  | Some keyring =>
      do! required (bool_decide (uploaderUserID = "")) "uploader_user_id" in
      do! lift (MustMatchUser ctx uploaderUserID) in
      let! res := internally "gossip upload"
        (Upload keyring uploaderUserID (map (fun b => GossipBlobFromProto (Some b)) blobs)) in
      ret {| gu_Accepted := int32 (ur_Accepted res); gu_Duplicates := 0;
             gu_Invalid := int32 (ur_Rejected res) |}
  end.

End SettlementServer.
