(* ===== verification/Rest.v ===== *)
(** * The REST surface (internal/transport/http/bff/converters.go, gen/bff.gen.go)

    The bodies of the HTTP requests and answers, their conversions from and to the messages,
    and the HTTP status an error of a handler becomes. *)

From S2P Require Import Prelude Domain Store Registration Keys Messages.

#[local] Open Scope string_scope.
#[local] Open Scope Z_scope.

(** The answers of the generated strict server: a body with status 200, status 204, or another
    status with an [Error] body.  A handler's own error becomes a plain 500. *)
Inductive http (A : Type) :=
| JSON200 (a : A)
| NoContent204
| JSONError (status : Z) (code message : string).
Arguments JSON200 {A} a.
Arguments NoContent204 {A}.
Arguments JSONError {A} status code message.

(** ** Bodies *)

Record rest_CeilingToken := {
  rc_Id : string;
  rc_PayerId : string;
  rc_CeilingAmountKobo : Z;
  rc_IssuedAt : Time;
  rc_ExpiresAt : Time;
  rc_SequenceStart : Z;
  rc_PayerPublicKey : bytes;
  rc_BankKeyId : string;
  rc_BankSignature : bytes;
  rc_Status : string;
}.

(** A ceiling in a claim has the same fields. *)
Definition CeilingTokenInput : Type := rest_CeilingToken.

Record PaymentTokenInput := {
  rp_PayerId : string;
  rp_PayeeId : string;
  rp_AmountKobo : Z;
  rp_SequenceNumber : Z;
  rp_RemainingCeilingKobo : Z;
  rp_Timestamp : Time;
  rp_CeilingTokenId : string;
  rp_PayerSignature : bytes;
  rp_SessionNonce : bytes;
  rp_RequestHash : bytes;
}.

Record DisplayCardInput := {
  rd_UserId : string;
  rd_DisplayName : string;
  rd_AccountNumber : string;
  rd_IssuedAt : Time;
  rd_BankKeyId : string;
  rd_ServerSignature : bytes;
}.

Record PaymentRequestInput := {
  rq_ReceiverId : string;
  rq_ReceiverDisplayCard : DisplayCardInput;
  rq_AmountKobo : Z;
  rq_SessionNonce : bytes;
  rq_IssuedAt : Time;
  rq_ExpiresAt : Time;
  rq_ReceiverDevicePubkey : bytes;
  rq_ReceiverSignature : bytes;
}.

Record GossipBlobInput := {
  rg_TransactionHash : bytes;
  rg_EncryptedBlob : bytes;
  rg_BankSignature : bytes;
  rg_CeilingTokenHash : bytes;
  rg_HopCount : Z;
  rg_BlobSize : Z;
}.

Record rest_AccountBalance := {
  rab_Kind : string;
  rab_BalanceKobo : Z;
  rab_Currency : string;
  rab_UpdatedAt : Time;
}.

Record rest_SettlementResult := {
  rsr_TransactionId : string;
  rsr_SequenceNumber : Z;
  rsr_SubmittedAmountKobo : Z;
  rsr_SettledAmountKobo : Z;
  rsr_Status : string;
  rsr_Reason : option string;
}.

Record rest_BatchReceipt := {
  rbr_BatchId : string;
  rbr_ReceiverUserId : string;
  rbr_TotalSubmitted : Z;
  rbr_TotalSettled : Z;
  rbr_TotalPartial : Z;
  rbr_TotalRejected : Z;
  rbr_TotalAmountKobo : Z;
  rbr_Status : string;
  rbr_SubmittedAt : Time;
  rbr_ProcessedAt : option Time;
  rbr_Results : list rest_SettlementResult;
}.

Record rest_SyncedTransaction := {
  rst_TransactionId : string;
  rst_PayerId : string;
  rst_PayeeId : string;
  rst_AmountKobo : Z;
  rst_SettledAmountKobo : Z;
  rst_SequenceNumber : Z;
  rst_CeilingTokenId : string;
  rst_Status : string;
  rst_RejectionReason : option string;
  rst_SubmittedAt : option Time;
  rst_SettledAt : option Time;
}.

Record rest_Key := {
  rky_KeyId : string;
  rky_PublicKey : bytes;
  rky_ActiveFrom : Time;
  rky_RetiredAt : option Time;
}.

Record rest_RealmKey := {
  rrk_Version : Z;
  rrk_Key : bytes;
  rrk_ActiveFrom : Time;
  rrk_RetiredAt : option Time;
}.

(** ** Timestamps and names of constants *)

Definition tsToTime (t : option Time) : Time := default time_zero t.
Definition tsToTimePtr (t : option Time) : option Time := t.
Definition timeToTS (t : Time) : option Time := if IsZero t then None else Some t.

Definition ceilingStatusToREST (s : pb_CeilingStatus) : string :=
  match s with
  | CEILING_STATUS_UNSPECIFIED => "CEILING_STATUS_UNSPECIFIED"
  | CEILING_STATUS_ACTIVE => "CEILING_STATUS_ACTIVE"
  | CEILING_STATUS_EXPIRED => "CEILING_STATUS_EXPIRED"
  | CEILING_STATUS_EXHAUSTED => "CEILING_STATUS_EXHAUSTED"
  | CEILING_STATUS_REVOKED => "CEILING_STATUS_REVOKED"
  end.

(** [CeilingStatus_value]: an unknown name is 0. *)
Definition CeilingStatus_value (s : string) : pb_CeilingStatus :=
  if bool_decide (s = "CEILING_STATUS_ACTIVE") then CEILING_STATUS_ACTIVE
  else if bool_decide (s = "CEILING_STATUS_EXPIRED") then CEILING_STATUS_EXPIRED
  else if bool_decide (s = "CEILING_STATUS_EXHAUSTED") then CEILING_STATUS_EXHAUSTED
  else if bool_decide (s = "CEILING_STATUS_REVOKED") then CEILING_STATUS_REVOKED
  else CEILING_STATUS_UNSPECIFIED.

Definition accountKindToREST (k : pb_AccountKind) : string :=
  match k with
  | ACCOUNT_KIND_UNSPECIFIED => "ACCOUNT_KIND_UNSPECIFIED"
  | ACCOUNT_KIND_MAIN => "ACCOUNT_KIND_MAIN"
  | ACCOUNT_KIND_LIEN_HOLDING => "ACCOUNT_KIND_LIEN_HOLDING"
  | ACCOUNT_KIND_RECEIVING_PENDING => "ACCOUNT_KIND_RECEIVING_PENDING"
  end.

Definition txStatusToREST (s : pb_TransactionStatus) : string :=
  match s with
  | TRANSACTION_STATUS_UNSPECIFIED => "TRANSACTION_STATUS_UNSPECIFIED"
  | TRANSACTION_STATUS_QUEUED => "TRANSACTION_STATUS_QUEUED"
  | TRANSACTION_STATUS_SUBMITTED => "TRANSACTION_STATUS_SUBMITTED"
  | TRANSACTION_STATUS_PENDING => "TRANSACTION_STATUS_PENDING"
  | TRANSACTION_STATUS_SETTLED => "TRANSACTION_STATUS_SETTLED"
  | TRANSACTION_STATUS_PARTIALLY_SETTLED => "TRANSACTION_STATUS_PARTIALLY_SETTLED"
  | TRANSACTION_STATUS_REJECTED => "TRANSACTION_STATUS_REJECTED"
  | TRANSACTION_STATUS_EXPIRED => "TRANSACTION_STATUS_EXPIRED"
  end.
Definition settlementResultStatusToREST : pb_TransactionStatus -> string := txStatusToREST.

Definition batchStatusToREST (s : pb_SettlementBatchStatus) : string :=
  match s with
  | SETTLEMENT_BATCH_STATUS_UNSPECIFIED => "SETTLEMENT_BATCH_STATUS_UNSPECIFIED"
  | SETTLEMENT_BATCH_STATUS_RECEIVED => "SETTLEMENT_BATCH_STATUS_RECEIVED"
  | SETTLEMENT_BATCH_STATUS_PROCESSING => "SETTLEMENT_BATCH_STATUS_PROCESSING"
  | SETTLEMENT_BATCH_STATUS_COMPLETED => "SETTLEMENT_BATCH_STATUS_COMPLETED"
  | SETTLEMENT_BATCH_STATUS_FAILED => "SETTLEMENT_BATCH_STATUS_FAILED"
  end.

(** ** From messages *)

(** An empty reason is left out. *)
Definition reason_ptr (reason : string) : option string :=
  if bool_decide (reason = "") then None else Some reason.

Definition ceilingTokenFromProto (c : pb_CeilingToken) : rest_CeilingToken := {|
  rc_Id := pbc_Id c; rc_PayerId := pbc_PayerId c;
  rc_CeilingAmountKobo := pbc_CeilingAmountKobo c; rc_IssuedAt := tsToTime (pbc_IssuedAt c);
  rc_ExpiresAt := tsToTime (pbc_ExpiresAt c); rc_SequenceStart := pbc_SequenceStart c;
  rc_PayerPublicKey := pbc_PayerPublicKey c; rc_BankKeyId := pbc_BankKeyId c;
  rc_BankSignature := pbc_BankSignature c; rc_Status := ceilingStatusToREST (pbc_Status c) |}.

Definition accountBalanceFromProto (b : pb_AccountBalance) : rest_AccountBalance := {|
  rab_Kind := accountKindToREST (pba_Kind b); rab_BalanceKobo := pba_BalanceKobo b;
  rab_Currency := pba_Currency b; rab_UpdatedAt := tsToTime (pba_UpdatedAt b) |}.

Definition syncedTransactionFromProto (t : pb_SyncedTransaction) : rest_SyncedTransaction := {|
  rst_TransactionId := pbs_TransactionId t; rst_PayerId := pbs_PayerId t;
  rst_PayeeId := pbs_PayeeId t; rst_AmountKobo := pbs_AmountKobo t;
  rst_SettledAmountKobo := pbs_SettledAmountKobo t; rst_SequenceNumber := pbs_SequenceNumber t;
  rst_CeilingTokenId := pbs_CeilingTokenId t; rst_Status := txStatusToREST (pbs_Status t);
  rst_RejectionReason := reason_ptr (pbs_RejectionReason t);
  rst_SubmittedAt := tsToTimePtr (pbs_SubmittedAt t);
  rst_SettledAt := tsToTimePtr (pbs_SettledAt t) |}.

(** A retirement in the first second of 1970 is left out. *)
Definition retired_ptr (t : option Time) : option Time :=
  match t with
  | Some r => if r / Second =? 0 then None else Some r
  | None => None
  end.

Definition bankPublicKeyFromProto (k : pb_BankPublicKey) : rest_Key := {|
  rky_KeyId := bp_KeyId k; rky_PublicKey := bp_PublicKey k;
  rky_ActiveFrom := tsToTime (bp_ActiveFrom k); rky_RetiredAt := retired_ptr (bp_RetiredAt k) |}.

Definition realmKeyFromProto (k : pb_RealmKey) : rest_RealmKey := {|
  rrk_Version := pk_Version k; rrk_Key := pk_Key k; rrk_ActiveFrom := tsToTime (pk_ActiveFrom k);
  rrk_RetiredAt := retired_ptr (pk_RetiredAt k) |}.

Definition settlementResultFromProto (r : pb_SettlementResult) : rest_SettlementResult := {|
  rsr_TransactionId := pbr_TransactionId r; rsr_SequenceNumber := pbr_SequenceNumber r;
  rsr_SubmittedAmountKobo := pbr_SubmittedAmountKobo r;
  rsr_SettledAmountKobo := pbr_SettledAmountKobo r;
  rsr_Status := settlementResultStatusToREST (pbr_Status r);
  rsr_Reason := reason_ptr (pbr_Reason r) |}.

Definition batchReceiptFromProto (b : pb_BatchReceipt) : rest_BatchReceipt := {|
  rbr_BatchId := pbb_BatchId b; rbr_ReceiverUserId := pbb_ReceiverUserId b;
  rbr_TotalSubmitted := pbb_TotalSubmitted b; rbr_TotalSettled := pbb_TotalSettled b;
  rbr_TotalPartial := pbb_TotalPartial b; rbr_TotalRejected := pbb_TotalRejected b;
  rbr_TotalAmountKobo := pbb_TotalAmountKobo b; rbr_Status := batchStatusToREST (pbb_Status b);
  rbr_SubmittedAt := tsToTime (pbb_SubmittedAt b);
  rbr_ProcessedAt := tsToTimePtr (pbb_ProcessedAt b);
  rbr_Results := map settlementResultFromProto (pbb_Results b) |}.

(** ** To messages *)

Definition paymentTokenFromInput (i : PaymentTokenInput) : pb_PaymentToken := {|
  pbp_PayerId := rp_PayerId i; pbp_PayeeId := rp_PayeeId i; pbp_AmountKobo := rp_AmountKobo i;
  pbp_SequenceNumber := rp_SequenceNumber i;
  pbp_RemainingCeilingKobo := rp_RemainingCeilingKobo i;
  pbp_Timestamp := timeToTS (rp_Timestamp i); pbp_CeilingTokenId := rp_CeilingTokenId i;
  pbp_PayerSignature := rp_PayerSignature i; pbp_SessionNonce := rp_SessionNonce i;
  pbp_RequestHash := rp_RequestHash i |}.

Definition displayCardFromInput (i : DisplayCardInput) : pb_DisplayCard := {|
  pbd_UserId := rd_UserId i; pbd_DisplayName := rd_DisplayName i;
  pbd_AccountNumber := rd_AccountNumber i; pbd_IssuedAt := timeToTS (rd_IssuedAt i);
  pbd_BankKeyId := rd_BankKeyId i; pbd_ServerSignature := rd_ServerSignature i |}.

Definition displayCardToInput (c : pb_DisplayCard) : DisplayCardInput := {|
  rd_UserId := pbd_UserId c; rd_DisplayName := pbd_DisplayName c;
  rd_AccountNumber := pbd_AccountNumber c; rd_IssuedAt := tsToTime (pbd_IssuedAt c);
  rd_BankKeyId := pbd_BankKeyId c; rd_ServerSignature := pbd_ServerSignature c |}.

Definition paymentRequestFromInput (i : PaymentRequestInput) : pb_PaymentRequest := {|
  pbq_ReceiverId := rq_ReceiverId i;
  pbq_ReceiverDisplayCard := Some (displayCardFromInput (rq_ReceiverDisplayCard i));
  pbq_AmountKobo := rq_AmountKobo i; pbq_SessionNonce := rq_SessionNonce i;
  pbq_IssuedAt := timeToTS (rq_IssuedAt i); pbq_ExpiresAt := timeToTS (rq_ExpiresAt i);
  pbq_ReceiverDevicePubkey := rq_ReceiverDevicePubkey i;
  pbq_ReceiverSignature := rq_ReceiverSignature i |}.

Definition ceilingTokenFromInput (i : CeilingTokenInput) : pb_CeilingToken := {|
  pbc_Id := rc_Id i; pbc_PayerId := rc_PayerId i; pbc_CeilingAmountKobo := rc_CeilingAmountKobo i;
  pbc_IssuedAt := timeToTS (rc_IssuedAt i); pbc_ExpiresAt := timeToTS (rc_ExpiresAt i);
  pbc_SequenceStart := rc_SequenceStart i; pbc_PayerPublicKey := rc_PayerPublicKey i;
  pbc_BankKeyId := rc_BankKeyId i; pbc_BankSignature := rc_BankSignature i;
  pbc_Status := CeilingStatus_value (rc_Status i) |}.

Definition gossipBlobFromInput (i : GossipBlobInput) : pb_GossipBlob := {|
  pbg_TransactionHash := rg_TransactionHash i; pbg_EncryptedBlob := rg_EncryptedBlob i;
  pbg_BankSignature := rg_BankSignature i; pbg_CeilingTokenHash := rg_CeilingTokenHash i;
  pbg_HopCount := rg_HopCount i; pbg_BlobSize := rg_BlobSize i |}.

(** ** Errors *)

(** The code of the first [status.Error] in an error's tree ([errors.As]). *)
Fixpoint as_status (e : error) : option string :=
  match e with
  | ErrStatus code _ => Some code
  | ErrWrap _ inner => as_status inner
  | ErrJoin e1 e2 => match as_status e1 with Some c => Some c | None => as_status e2 end
  | _ => None
  end.

Section Errors.
Context {T : ErrorText}.

(** [status.FromError]: a wrapped status has the text of the whole. *)
Definition FromError (e : error) : option (string * string) :=
  match e with
  | ErrStatus code text => Some (code, text)
  | _ => c ← as_status e; Some (c, error_string e)
  end.

Definition grpcHTTPStatus (e : error) : Z * string * string :=
  match FromError e with
  | None => (502, "upstream_error", error_string e)
  | Some (code, message) =>
      if bool_decide (code = "OK") then (200, "", "")
      else if bool_decide (code = "NotFound") then (404, "not_found", message)
      else if bool_decide (code = "InvalidArgument") then (400, "invalid_request", message)
      else if bool_decide (code = "FailedPrecondition") then (409, "precondition_failed", message)
      else if bool_decide (code = "AlreadyExists") then (409, "already_exists", message)
      else if bool_decide (code = "PermissionDenied") then (403, "forbidden", message)
      else if bool_decide (code = "Unauthenticated") then (401, "unauthorized", message)
      else if bool_decide (code = "DeadlineExceeded") then (504, "deadline_exceeded", message)
      else if bool_decide (code = "Canceled") then (499, "canceled", message)
      else if bool_decide (code = "Unavailable") then (502, "upstream_unavailable", message)
      else (502, "upstream_error", message)
  end.

(** The [switch] of a handler over the HTTP status: those it lists are answered as they are,
    any other with 502. *)
Definition refuse {A} (listed : list Z) (e : error) : http A :=
  let '(status, code, message) := grpcHTTPStatus e in
  JSONError (if bool_decide (status ∈ listed) then status else 502) code message.

End Errors.
