(* ===== verification/Middleware.v ===== *)
(** * The HTTP pipeline (internal/transport/http/bff/middleware.go, ratelimit*.go, cmd/bff/main.go)

    What a request goes through before a handler sees it: its metadata are put into the
    context, the rate limiter looks at the claims in the context, and a path that needs a
    token is refused without a valid one. *)

From S2P Require Import Prelude Domain Json Crypto Tokens Store Repo Text Registration WalletServer Rest.

#[local] Open Scope string_scope.
#[local] Open Scope Z_scope.

(** ** Requests and contexts *)

Record HttpRequest := {
  hr_Path : string;
  hr_Authorization : string;
  hr_UserAgent : string;
  hr_ForwardedFor : string;
  hr_RemoteAddr : string;
  hr_SubmitterCountry : string;
}.

(** The values of the context; the empty string is an absent one. *)
Record Ctx := {
  cx_Claims : option AccessClaims;
  cx_UserAgent : string;
  cx_ClientIP : string;
  cx_SubmitterCountry : string;
}.

Definition no_ctx : Ctx :=
  {| cx_Claims := None; cx_UserAgent := ""; cx_ClientIP := ""; cx_SubmitterCountry := "" |}.

Definition ClaimsFromContext (cx : Ctx) : option AccessClaims := cx_Claims cx.

Definition with_request_claims (c : AccessClaims) (cx : Ctx) : Ctx := {|
  cx_Claims := Some c; cx_UserAgent := cx_UserAgent cx; cx_ClientIP := cx_ClientIP cx;
  cx_SubmitterCountry := cx_SubmitterCountry cx |}.

(** [strings.HasPrefix]. *)
Definition HasPrefix (s pre : string) : bool := String.prefix pre s.

Definition bearerToken (r : HttpRequest) : string :=
  if HasPrefix (hr_Authorization r) "Bearer "
  then String.substring 7 (String.length (hr_Authorization r) - 7) (hr_Authorization r)
  else "".

(** The text before the first comma, unless the comma comes first. *)
Definition clientIP (r : HttpRequest) : string :=
  let xf := hr_ForwardedFor r in
  if bool_decide (xf = "") then hr_RemoteAddr r
  else
    match String.index 0 "," xf with
    | Some (S i) => TrimSpace (String.substring 0 (S i) xf)
    | _ => TrimSpace xf
    end.

(** ** Middlewares

    A handler here is what is left of the pipeline: it gets the context. *)

Section Middleware.
Context {E : Env} {C : Ed25519} {T : ErrorText}.

Definition next_handler (A : Type) : Type := Ctx -> dbop (http A).

Definition RequestMetadata {A} (r : HttpRequest) (next : next_handler A) : next_handler A :=
  fun cx => next {|
    cx_Claims := cx_Claims cx; cx_UserAgent := hr_UserAgent r; cx_ClientIP := clientIP r;
    cx_SubmitterCountry :=
      if bool_decide (TrimSpace (hr_SubmitterCountry r) = "") then cx_SubmitterCountry cx
      else WithSubmitterCountry (hr_SubmitterCountry r) |}.

(** [RequireUserJWT]. *)
Definition RequireUserJWT {A} (signer : JWTSigner) (r : HttpRequest) (next : next_handler A)
  : next_handler A :=
  fun cx =>
    let tok := bearerToken r in
    if bool_decide (tok = "") then ret (JSONError 401 "unauthorized" "missing bearer token")
    else
      let! t := now in
      match jwt_Verify signer tok t with
      | Err e => ret (JSONError 401 "unauthorized" (error_string e))
      | Ok claims => next (with_request_claims claims cx)
      end.

(** [UserLimiter]: the limiters are stores of their own, and [Allow] may answer anything. *)
Definition UserLimiter : Type := string -> dbop bool.

Definition RateLimitByUser {A} (limiter : UserLimiter) (next : next_handler A)
  : next_handler A :=
  fun cx =>
    match ClaimsFromContext cx with
    | None => next cx
    | Some claims =>
        let! allowed := limiter (at_Sub claims) in
        if allowed : bool then next cx
        else ret (JSONError 429 "rate_limited" "Too many requests. Please wait and try again.")
    end.

(** The paths that [run] sends through [RequireUserJWT]. *)
Definition needs_token (p : string) : bool :=
  let devicesAuthed :=
    HasPrefix p "/v1/devices" && negb (bool_decide (p = "/v1/devices/recover")) in
  let keysAuthed := HasPrefix p "/v1/keys/realm/" || HasPrefix p "/v1/keys/realm?" in
  let deviceSessionAuthed := bool_decide (p = "/v1/auth/device-session") in
  HasPrefix p "/v1/me" || HasPrefix p "/v1/accounts/" || bool_decide (p = "/v1/auth/pin")
  || HasPrefix p "/v1/auth/sessions" || HasPrefix p "/v1/auth/email/verify"
  || deviceSessionAuthed || HasPrefix p "/v1/kyc/" || HasPrefix p "/v1/identity/"
  || bool_decide (p = "/v1/transfers") || HasPrefix p "/v1/transfers/"
  || HasPrefix p "/v1/transfers?" || HasPrefix p "/v1/wallet/"
  || HasPrefix p "/v1/settlement/" || devicesAuthed || keysAuthed.

Definition protect {A} (signer : JWTSigner) (r : HttpRequest) (next : next_handler A)
  : next_handler A :=
  if needs_token (hr_Path r) then RequireUserJWT signer r next else next.

(** The order of [r.Use] in [run]: metadata, limiter, token. *)
Definition serve {A} (limiter : UserLimiter) (signer : JWTSigner) (r : HttpRequest)
  (handler : next_handler A) : dbop (http A) :=
  RequestMetadata r (RateLimitByUser limiter (protect signer r handler)) no_ctx.

(** ** What handlers do with the context *)

(** [authCtx]: the caller as the handlers of Registration.v to WalletServer.v see it. *)
Definition authCtx (userID : string) : option AuthUser :=
  Some {| au_UserID := userID; au_DeviceID := "bff" |}.

Definition missing_claims {A} : dbop (http A) :=
  ret (JSONError 401 "unauthorized" "missing claims").

(** [if !ok || claims.Sub == ""]. *)
Definition with_subject {A} (cx : Ctx) (k : AccessClaims -> dbop (http A)) : dbop (http A) :=
  match ClaimsFromContext cx with
  | Some c => if bool_decide (at_Sub c = "") then missing_claims else k c
  | None => missing_claims
  end.

(** [if !ok]. *)
Definition with_claims {A} (cx : Ctx) (k : AccessClaims -> dbop (http A)) : dbop (http A) :=
  match ClaimsFromContext cx with
  | Some c => k c
  | None => missing_claims
  end.

(** [if req.Body == nil]. *)
Definition with_body {A B} (body : option B) (k : B -> dbop (http A)) : dbop (http A) :=
  match body with
  | Some b => k b
  | None => ret (JSONError 400 "bad_request" "missing body")
  end.

(** A call of an in-process handler, answered with its result or the status of its error. *)
Definition relay {A B} (listed : list Z) (call : dbop B) (answer : B -> A) : dbop (http A) :=
  let! r := attempt call in
  match r with
  | Ok b => ret (JSON200 (answer b))
  | Err e => ret (refuse listed e)
  end.

End Middleware.
