(* ===== verification/BffWallet.v ===== *)
(** * Wallet, settlement, devices and keys over HTTP (internal/transport/http/bff:
    wallet_settlement.go, settlement_claim.go, wallet_topup.go, devices_keys.go)

    Each handler takes the user from the claims, calls the in-process handler for that user
    only, and turns its answer or error into an HTTP answer. *)

From S2P Require Import Prelude Domain Json Crypto Store AuthStore Tokens SealedBox DeviceStore Repo Devices UserAuth Registration Keys Wallet Settlement Gossip Reconcile Messages WalletServer Rest Middleware.

#[local] Open Scope string_scope.
#[local] Open Scope Z_scope.

(** ** Bodies *)

Record IssueBody := { fb_AmountKobo : Z; fb_PayerPublicKey : bytes; fb_TtlSeconds : Z }.
(** [RefreshCeilingBody] has the same fields. *)
Definition FundOfflineBody : Type := IssueBody.

Record rest_FundOfflineResponse := { rfo_Ceiling : rest_CeilingToken; rfo_LienId : string }.
Record rest_GetBalancesResponse := { rgb_AsOf : Time; rgb_Balances : list rest_AccountBalance }.

Record CurrentCeilingResponse := {
  rcc_Present : bool;
  rcc_CeilingId : option string;
  rcc_Status : option string;
  rcc_CeilingKobo : option Z;
  rcc_SettledKobo : option Z;
  rcc_RemainingKobo : option Z;
  rcc_IssuedAt : option Time;
  rcc_ExpiresAt : option Time;
  rcc_ReleaseAfter : option Time;
}.

Record SyncBody := {
  yb_Since : option Time;
  yb_DisputedTransactionIds : option (list string);
  yb_Finalize : option bool;
}.

Record SyncResponse := {
  ry_SyncedAt : Time;
  ry_FinalizedCount : Z;
  ry_FinalizePending : option bool;
  ry_PayerSide : list rest_SyncedTransaction;
  ry_ReceiverSide : list rest_SyncedTransaction;
}.

Record SubmitClaimBody := {
  cb_ClientBatchId : string;
  cb_Tokens : list PaymentTokenInput;
  cb_Ceilings : list CeilingTokenInput;
  cb_Requests : list PaymentRequestInput;
}.

Section BffWallet.
Context {E : Env} {K : CacheEnv} {C : Ed25519} {T : ErrorText}.
Variable ws : Service.

(** ** wallet_settlement.go *)

Definition fund_answer (r : FundOfflineResponse) : rest_FundOfflineResponse :=
  {| rfo_Ceiling := ceilingTokenFromProto (fo_Ceiling r); rfo_LienId := fo_LienId r |}.

Definition PostV1WalletFundOffline (cx : Ctx) (body : option FundOfflineBody)
  : dbop (http rest_FundOfflineResponse) :=
  with_subject cx (fun claims => with_body body (fun b =>
    relay [400; 401; 403; 409]
      (srv_FundOffline ws (authCtx (at_Sub claims)) (at_Sub claims) (fb_AmountKobo b)
         (fb_TtlSeconds b) (fb_PayerPublicKey b)) fund_answer)).

Definition PostV1WalletRefreshCeiling (cx : Ctx) (body : option FundOfflineBody)
  : dbop (http rest_FundOfflineResponse) :=
  with_subject cx (fun claims => with_body body (fun b =>
    relay [400; 401; 409]
      (srv_RefreshCeiling ws (authCtx (at_Sub claims)) (at_Sub claims) (fb_AmountKobo b)
         (fb_TtlSeconds b) (fb_PayerPublicKey b)) fund_answer)).

Definition GetV1WalletBalances (cx : Ctx) : dbop (http rest_GetBalancesResponse) :=
  with_subject cx (fun claims =>
    relay [401] (srv_GetBalances (authCtx (at_Sub claims)) (at_Sub claims)) (fun r =>
      {| rgb_AsOf := tsToTime (gbl_AsOf r);
         rgb_Balances := map accountBalanceFromProto (gbl_Balances r) |})).

(** A zero release instant is left out. *)
Definition current_answer (r : GetCurrentCeilingResponse) : CurrentCeilingResponse :=
  if gc_Present r then {|
    rcc_Present := true; rcc_CeilingId := Some (gc_CeilingID r); rcc_Status := Some (gc_Status r);
    rcc_CeilingKobo := Some (gc_CeilingKobo r); rcc_SettledKobo := Some (gc_SettledKobo r);
    rcc_RemainingKobo := Some (gc_RemainingKobo r); rcc_IssuedAt := Some (gc_IssuedAt r);
    rcc_ExpiresAt := Some (gc_ExpiresAt r);
    rcc_ReleaseAfter := if IsZero (gc_ReleaseAfter r) then None else Some (gc_ReleaseAfter r) |}
  else {|
    rcc_Present := false; rcc_CeilingId := None; rcc_Status := None; rcc_CeilingKobo := None;
    rcc_SettledKobo := None; rcc_RemainingKobo := None; rcc_IssuedAt := None;
    rcc_ExpiresAt := None; rcc_ReleaseAfter := None |}.

(** Only an unauthorized error has an answer of its own; any other is passed on. *)
Definition GetV1WalletCeilingCurrent (cx : Ctx) : dbop (http CurrentCeilingResponse) :=
  with_subject cx (fun claims =>
    let! r := attempt (srv_GetCurrentCeiling (authCtx (at_Sub claims)) (at_Sub claims)) in
    match r with
    | Ok resp => ret (JSON200 (current_answer resp))
    | Err e =>
        let '(status, code, message) := grpcHTTPStatus e in
        if status =? 401 then ret (JSONError 401 code message) else throw e
    end).

Definition PostV1WalletRecoverOfflineCeiling (cx : Ctx)
  : dbop (http RecoverOfflineCeilingResponse) :=
  with_subject cx (fun claims =>
    let! r := attempt (srv_RecoverOfflineCeiling ws (authCtx (at_Sub claims)) (at_Sub claims)) in
    match r with
    | Ok resp => ret (JSON200 resp)
    | Err e =>
        let '(status, code, message) := grpcHTTPStatus e in
        if status =? 401 then ret (JSONError 401 code message)
        else if status =? 404 then ret (JSONError 404 "no_active_ceiling" message)
        else if status =? 409 then ret (JSONError 409 "unsettled_claims" message)
        else if status =? 412 then ret (JSONError 409 code message)
        else throw e
    end).

Definition PostV1WalletMoveToMain (cx : Ctx) : dbop (http MoveToMainResponse) :=
  with_subject cx (fun claims =>
    relay [401; 409] (srv_MoveToMain (authCtx (at_Sub claims)) (at_Sub claims)) (fun r => r)).

(** ** wallet_topup.go *)

(** The statement of the handler itself. *)
Definition q_TopUp (amount : Z) (userID : string) (_ : Time) (d : db) : result (Z * db) :=
  try row := first_row (fun _ a => bool_decide (a_UserID a = userID)
                                   && bool_decide (a_Kind a = AccountKindMain)) (accounts d) in
  try credited := set_balance row.1 row.2 (a_BalanceKobo row.2 + amount) d in
  Ok (a_BalanceKobo credited.1, credited.2).

Definition PostV1WalletTopUp (enabled : bool) (cx : Ctx) (body : option Z) : dbop (http Z) :=
  if negb enabled then ret (JSONError 404 "not_found" "not found")
  else
    with_subject cx (fun claims => with_body body (fun amount =>
      if (amount <=? 0) || (10000000 <? amount)
      then ret (JSONError 400 "invalid_amount"
                  "amount_kobo must be between 1 and 10000000 (max 100k naira)")
      else let! balance := exec (q_TopUp amount (at_Sub claims)) in ret (JSON200 balance))).

Context {O : MapOrder} {X : NaCl} {Sub : SettlementSubmitter}.
Variable ss : SettlementService.
Variable keyring : option SealedBoxKeyring.

Definition sync_answer (r : SyncUserResponse) : SyncResponse := {|
  ry_SyncedAt := tsToTime (su_SyncedAt r); ry_FinalizedCount := su_FinalizedCount r;
  ry_FinalizePending := Some (su_FinalizePending r);
  ry_PayerSide := map syncedTransactionFromProto (su_PayerSide r);
  ry_ReceiverSide := map syncedTransactionFromProto (su_ReceiverSide r) |}.

Definition PostV1SettlementSync (cx : Ctx) (body : option SyncBody) : dbop (http SyncResponse) :=
  with_subject cx (fun claims =>
    let since := b ← body; t ← yb_Since b; timeToTS t in
    let disputed := default [] (b ← body; yb_DisputedTransactionIds b) in
    let finalize := default false (b ← body; yb_Finalize b) in
    relay [400; 401] (srv_SyncUser (authCtx (at_Sub claims)) (at_Sub claims) since disputed finalize)
      sync_answer).

(** ** settlement_claim.go *)

Definition PostV1SettlementClaims (cx : Ctx) (body : option SubmitClaimBody)
  : dbop (http rest_BatchReceipt) :=
  with_subject cx (fun claims => with_body body (fun b =>
    relay [400; 401; 403; 409]
      (srv_SubmitClaim ss (authCtx (at_Sub claims)) (cx_SubmitterCountry cx) (at_Sub claims)
         (map paymentTokenFromInput (cb_Tokens b)) (map ceilingTokenFromInput (cb_Ceilings b))
         (map paymentRequestFromInput (cb_Requests b)))
      batchReceiptFromProto)).

(** The handler asked for a receipt is told who asks, and does not look. *)
Definition GetV1SettlementClaimsBatchID (cx : Ctx) (batchID : string)
  : dbop (http rest_BatchReceipt) :=
  with_subject cx (fun _ =>
    relay [401; 403; 404] (srv_GetBatchReceipt batchID) batchReceiptFromProto).

Definition PostV1SettlementGossip (cx : Ctx) (body : option (list GossipBlobInput))
  : dbop (http GossipUploadResponse) :=
  with_subject cx (fun claims => with_body body (fun blobs =>
    relay [400; 401]
      (srv_GossipUpload keyring (authCtx (at_Sub claims)) (at_Sub claims)
         (map gossipBlobFromInput blobs)) (fun r => r))).

End BffWallet.

(** * Devices and keys over HTTP (internal/transport/http/bff: devices_keys.go)

    The caller of the in-process handlers is the user of the token, on a device always called
    "bff"; realm keys are handed out only beside an active device of the caller. *)

(** ** Bodies *)

Record RegisterDeviceBody := {
  eb_DevicePublicKey : bytes;
  eb_Platform : string;
  eb_AttestationBlob : option bytes;
  eb_AttestationNonce : bytes;
}.

Record RotateDeviceBody := {
  vb_OldDeviceId : string;
  vb_NewDevicePublicKey : bytes;
  vb_AttestationBlob : option bytes;
}.

Record RecoverDeviceBody := {
  wb_UserId : string;
  wb_RecoveryProof : bytes;
  wb_NewDevicePublicKey : bytes;
  wb_AttestationBlob : option bytes;
}.

Record AttestationChallengeResponse := { rac_Nonce : bytes; rac_ExpiresAt : Time }.

(** The answers of registering, rotating and recovering name the device alike; only the first
    two carry a JWT, which is always empty. *)
Record rest_DeviceResponse := {
  rdv_DeviceId : string;
  rdv_At : Time;
  rdv_RealmKeyVersion : Z;
}.

Record rest_RealmKeyResponse := {
  rkr_Version : Z;
  rkr_Key : bytes;
  rkr_ActiveFrom : Time;
  rkr_ExpiresAt : Time;
}.

Definition device_answer (r : DeviceResponse) : rest_DeviceResponse := {|
  rdv_DeviceId := dr_DeviceID r; rdv_At := dr_At r;
  rdv_RealmKeyVersion := dr_RealmKeyVersion r |}.

Section BffDevices.
Context {E : Env} {K : CacheEnv} {C : Ed25519} {AL : AuthLib} {T : ErrorText}.
Variable reg : RegistrationServer.

(** ** Registration *)

Definition PostV1DevicesAttestationChallenge (cx : Ctx)
  : dbop (http AttestationChallengeResponse) :=
  with_subject cx (fun claims =>
    relay [401] (GetAttestationChallenge reg (at_Sub claims))
      (fun r => {| rac_Nonce := ch_Nonce r; rac_ExpiresAt := ch_ExpiresAt r |})).

Definition PostV1Devices (cx : Ctx) (body : option RegisterDeviceBody)
  : dbop (http rest_DeviceResponse) :=
  with_subject cx (fun claims => with_body body (fun b =>
    relay [400; 401; 409]
      (srv_RegisterDevice reg (at_Sub claims) (eb_Platform b) (eb_AttestationBlob b)
         (eb_AttestationNonce b) (eb_DevicePublicKey b)) device_answer)).

Definition PostV1DevicesDeviceIdAttest (cx : Ctx) (body : option unit)
  : dbop (http AttestResponse) :=
  with_subject cx (fun _ => with_body body (fun _ =>
    relay [400; 401; 404] Attest (fun r => r))).

Definition PostV1DevicesDeviceIdDeactivate (cx : Ctx) (deviceID : string) (body : option unit)
  : dbop (http Time) :=
  with_subject cx (fun claims => with_body body (fun _ =>
    relay [400; 401; 403; 404] (Deactivate (authCtx (at_Sub claims)) deviceID) (fun t => t))).

Definition PostV1DevicesRotate (cx : Ctx) (body : option RotateDeviceBody)
  : dbop (http rest_DeviceResponse) :=
  with_subject cx (fun claims => with_body body (fun b =>
    relay [400; 401; 409]
      (RotateDevice (authCtx (at_Sub claims)) (at_Sub claims) (vb_OldDeviceId b)
         (vb_AttestationBlob b) (vb_NewDevicePublicKey b)) device_answer)).

Definition PostV1DevicesDeviceIdRevoke (cx : Ctx) (deviceID : string) (body : option unit)
  : dbop (http Time) :=
  with_subject cx (fun claims => with_body body (fun _ =>
    relay [400; 401; 403; 404] (RevokeDevice (authCtx (at_Sub claims)) deviceID) (fun t => t))).

(** No token: the proof is what the gate looks at. *)
Definition PostV1DevicesRecover (body : option RecoverDeviceBody)
  : dbop (http rest_DeviceResponse) :=
  with_body body (fun b =>
    relay [400; 403; 404]
      (RecoverDevice reg (wb_UserId b) (wb_RecoveryProof b) (wb_AttestationBlob b)
         (wb_NewDevicePublicKey b)) device_answer).

(** ** Keys *)

Variable keys : KeysServer.

(** Whatever its status, an error is answered with 502. *)
Definition PostV1KeysBankPublicKeys (keyIDs : list string) : dbop (http (list rest_Key)) :=
  relay [] (GetBankPublicKeys keyIDs) (map bankPublicKeyFromProto).

(** The guard's refusal, or what follows. *)
Definition beside_device {A} (claims : AccessClaims) (deviceID : string) (k : dbop (http A))
  : dbop (http A) :=
  let! refusal := assertRealmKeyDeviceOwnership (at_Sub claims) deviceID in
  match refusal with
  | Some (code, message) =>
      ret (JSONError (if bool_decide (code = "bad_request") then 400 else 401) code message)
  | None => k
  end.

Definition GetV1KeysRealmVersion (cx : Ctx) (version : Z) (deviceID : string)
  : dbop (http rest_RealmKeyResponse) :=
  with_subject cx (fun claims => beside_device claims deviceID (
    relay [400; 404] (srv_GetRealmKey deviceID version) (fun r =>
      {| rkr_Version := rr_Version r; rkr_Key := rr_Key r;
         rkr_ActiveFrom := tsToTime (rr_ActiveFrom r);
         rkr_ExpiresAt := tsToTime (rr_ExpiresAt r) |}))).

Definition GetV1KeysRealmActive (cx : Ctx) (deviceID : string) (limit : option Z)
  : dbop (http (list rest_RealmKey)) :=
  with_subject cx (fun claims => beside_device claims deviceID (
    relay [400; 401] (GetActiveRealmKeys deviceID (default 0 limit)) (map realmKeyFromProto))).

Definition GetV1KeysSealedBoxPubkey : dbop (http (bytes * string)) :=
  relay [] (GetServerSealedBoxPubkey keys) (fun r => r).

End BffDevices.
