(* ===== verification/Acceptance.v ===== *)
(** * Claims that pass are accepted (internal/service/settlement/service.go, phase 4a)

    The converse of SubmitFacts.v: when nothing fails in the infrastructure, a claim that
    satisfies every check is let through, and the accepting transaction stores it, given
    that the database has room for it. *)

From S2P Require Import Prelude Domain Json Crypto Store Repo Books Solvency Settlement SettlementFacts SubmitFacts.

Section Acceptance.
Context {E : Env} {C : Ed25519} {F : FreshIDs E}.
Variable s : SettlementService.
Hypothesis Hf : fault_free E.
Implicit Types w : world db effect.

(** ** The checks are complete *)

Lemma load_bank_key_runs id k w :
  q_GetBankSigningKey id (w_st w) = Ok k ->
  runs (load_bank_key id) w k (tick_ops w (w_st w)).
Proof. intros H. apply runs_wrapping. by apply query_runs. Qed.

Lemma verify_signatures_runs item w :
  signed_claim (w_st w) item ->
  exists w', runs (verify_signatures item) w None w' /\ w_st w' = w_st w /\ w_ids w' = w_ids w.
Proof.
  intros [(k & Hk & H1) H2 (ck & Hck & H3) H4]. unfold verify_signatures.
  eexists. split; [|split].
  - eapply bind_runs; [by apply load_bank_key_runs|]. rewrite H1, H2. cbn [is_ok negb].
    eapply bind_runs with (a := ck)
      (w1 := if bool_decide (dc_BankKeyID (pr_ReceiverDisplayCard (ci_Request item))
                             = ct_BankKeyID (ci_Ceiling item))
             then tick_ops w (w_st w) else tick_ops (tick_ops w (w_st w)) (w_st w)).
    + cbn [DisplayCard_Payload dcp_BankKeyID]. case_bool_decide as Heq; cbn [negb].
      * apply runs_ret. split; [|done]. rewrite Heq in Hck. congruence.
      * exact (load_bank_key_runs _ _ (tick_ops w (w_st w)) Hck).
    + rewrite H3, H4. by apply runs_ret.
  - by case_bool_decide.
  - by case_bool_decide.
Qed.

Lemma binding_guard_runs item t w :
  bound_claim s item t -> runs (binding_guard s item t) w None w.
Proof.
  intros [Hn Hh Ha Hr Hq Hc]. unfold binding_guard.
  rewrite (proj2 (bytesEqual_spec _ _)) by done. cbn [negb].
  eapply bind_runs; [apply runs_wrapping; by apply runs_lift|].
  rewrite (proj2 (bytesEqual_spec _ _)) by done. cbn [negb].
  assert (negb (pr_Amount (ci_Request item) =? UnboundAmount) &&
    negb (pt_Amount (ci_Payment item) =? pr_Amount (ci_Request item)) = false) as ->.
  { destruct Ha as [-> | ->]; rewrite Z.eqb_refl; cbn; by rewrite ?andb_false_r. }
  unfold After. rewrite (proj2 (Z.ltb_ge _ _)) by lia. rewrite (proj2 (Z.leb_gt _ _)) by lia.
  rewrite (proj2 (Z.ltb_ge _ _)) by lia. by apply runs_ret.
Qed.

Lemma dedupe_runs p w :
  new_sequence (w_st w) p ->
  runs (attempt (GetPaymentBySequence (pt_PayerID p) (pt_SequenceNumber p))) w
    (Err ErrNoRows) (tick_ops w (w_st w)).
Proof.
  intros Hn. apply runs_attempt. unfold GetPaymentBySequence, bind, query, exec. rewrite Hf.
  destruct (q_GetPaymentBySequence _ _ (w_st w)) as [[i q]|e] eqn:Hq.
  - apply first_row_ok in Hq as [Hi Hq]. by rewrite (Hn i q Hi) in Hq.
  - by apply first_row_err in Hq as [-> _].
Qed.

Lemma submit_checks_runs submitter item t w :
  checked s submitter item t (w_st w) ->
  exists w', runs (submit_checks s submitter item t) w (inr tt) w' /\ w_st w' = w_st w /\
    w_ids w' = w_ids w.
Proof.
  intros [Hp Hs Hb Hn (c & Hc & Hlive)]. unfold submit_checks.
  rewrite (proj2 (structural_guard_ok _ _)) by done.
  destruct (verify_signatures_runs item w Hs) as (w1 & Hv & Hw1 & Hi1).
  exists (tick_ops (tick_ops w1 (w_st w)) (w_st w)). split; [|done].
  eapply bind_runs; [exact Hv|]. eapply bind_runs; [by apply binding_guard_runs|].
  eapply bind_runs; [apply dedupe_runs; by rewrite Hw1|]. cbn [isNoRows].
  rewrite (eq_refl : isNoRows ErrNoRows = true). cbn [negb].
  eapply bind_runs.
  { apply runs_wrapping. unfold GetCeilingToken. eapply bind_runs; [|by apply runs_ret].
    apply query_runs; [done|]. cbn [w_st tick_ops]. unfold q_GetCeilingToken. by rewrite Hw1, Hc. }
  assert (live_guard (ceilingToDomain (ct_ID (ci_Ceiling item), c)) t = None) as ->.
  { unfold live_guard. cbn. destruct Hlive as [-> |[-> (r & -> & Hr)]]; [done|].
    unfold Before. by rewrite (proj2 (Z.ltb_lt _ _)). }
  apply runs_ret. split; [done|]. by rewrite Hw1.
Qed.

(** ** The accepting transaction *)

(** What the tables must have room for: the parties are registered, the numbers fit their
    columns, the nonce is new, the accounts exist and have room, the ledger is in order. *)
Record room (item : ClaimItem) (d : db) : Prop := {
  rm_payer : is_Some (users d !! pt_PayerID (ci_Payment item));
  rm_payee : is_Some (users d !! pt_PayeeID (ci_Payment item));
  rm_amount : 0 < pt_Amount (ci_Payment item) <= int64_max;
  rm_sequence : 0 < pt_SequenceNumber (ci_Payment item) <= int64_max;
  rm_left : 0 <= pt_RemainingCeiling (ci_Payment item) <= int64_max;
  rm_request : in_int64 (pr_Amount (ci_Request item)) = true;
  rm_time : IsZero (pt_Timestamp (ci_Payment item)) = false;
  rm_signature : pt_PayerSignature (ci_Payment item) <> [];
  rm_nonce : pt_SessionNonce (ci_Payment item) <> [];
  rm_hash : pt_RequestHash (ci_Payment item) <> [];
  rm_new_nonce i q : payment_tokens d !! i = Some q ->
    same_nonce (pt_PayeeID (ci_Payment item)) (pt_SessionNonce (ci_Payment item)) q = false;
  rm_pending : exists id a, accounts d !! id = Some a /\
    account_is (pt_PayeeID (ci_Payment item)) AccountKindReceivingPending a = true;
  rm_pending_room id a : accounts d !! id = Some a ->
    account_is (pt_PayeeID (ci_Payment item)) AccountKindReceivingPending a = true ->
    0 <= a_BalanceKobo a /\ a_BalanceKobo a + pt_Amount (ci_Payment item) <= int64_max;
  rm_suspense : exists a, accounts d !! ss_SuspenseAccountID s = Some a /\
    a_Kind a = AccountKindSuspense /\
    in_int64 (a_BalanceKobo a - pt_Amount (ci_Payment item)) = true;
  rm_ledger : check_ledger_txn_balanced d = Ok tt;
}.

(** The identifiers still to be drawn are new. *)
Record unused (w : world db effect) : Prop := {
  un_distinct n m : new_id n = new_id m -> n = m;
  un_payment n : (w_ids w <= n)%nat -> payment_tokens (w_st w) !! new_id n = None;
  un_transaction n : (w_ids w <= n)%nat -> transactions (w_st w) !! new_id n = None;
  un_entry n e : (w_ids w <= n)%nat -> e ∈ ledger_entries (w_st w) -> le_ID e <> new_id n;
  un_entry_txn n e : (w_ids w <= n)%nat -> e ∈ ledger_entries (w_st w) -> le_TxnID e <> new_id n;
}.

Lemma bigint_fits z : in_int64 z = true -> bigint z = Ok z.
Proof. unfold bigint. by intros ->. Qed.

Lemma pk_free {A} n (m : gmap string A) id : m !! id = None -> pk n m id = Ok tt.
Proof. intros H. unfold pk, guard_or. by rewrite bool_decide_true. Qed.

Lemma fk_there {A} n (m : gmap string A) id : is_Some (m !! id) -> fk n m id = Ok tt.
Proof. intros H. unfold fk, guard_or. by rewrite bool_decide_true. Qed.

Lemma unique_free {A} n P (m : gmap string A) :
  (forall k a, m !! k = Some a -> P k a = false) -> unique n P m = Ok tt.
Proof.
  intros H. unfold unique, guard_or. destruct (exists_row P m) eqn:He; [|done].
  apply exists_row_true in He as (k & a & Hk & HP). by rewrite (H k a Hk) in HP.
Qed.

Lemma bytes_there n b : b <> [] -> not_null_bytes n b = Ok tt.
Proof. intros H. unfold not_null_bytes, guard_or. by rewrite bool_decide_false. Qed.

Lemma positive_fits z : 0 <= z <= int64_max -> in_int64 z = true.
Proof. intros H. apply in_int64_spec. unfold int64_min. lia. Qed.

(** The row is stored. *)
Lemma payment_stored a t d :
  in_int64 (cpp_RequestAmountKobo a) = true -> 0 < cpp_AmountKobo a <= int64_max ->
  0 < cpp_SequenceNumber a <= int64_max -> 0 <= cpp_RemainingCeilingKobo a <= int64_max ->
  is_Some (cpp_SignedAt a) -> cpp_PayerSig a <> [] -> cpp_SessionNonce a <> [] ->
  cpp_RequestHash a <> [] -> cpp_PayerUserID a <> cpp_PayeeUserID a ->
  payment_tokens d !! cpp_ID a = None ->
  (forall i q, payment_tokens d !! i = Some q ->
     same_sequence (cpp_PayerUserID a) (cpp_SequenceNumber a) q = false /\
     same_nonce (cpp_PayeeUserID a) (cpp_SessionNonce a) q = false) ->
  is_Some (ceiling_tokens d !! cpp_CeilingID a) -> is_Some (users d !! cpp_PayerUserID a) ->
  is_Some (users d !! cpp_PayeeUserID a) ->
  (forall u, cpp_SubmittedByUserID a = Some u -> is_Some (users d !! u)) ->
  exists row, q_CreatePaymentToken a t d
    = Ok ((cpp_ID a, row), with_payment_tokens (<[cpp_ID a := row]> (payment_tokens d)) d).
Proof.
  intros Hr Ha Hq Hl [t0 Ht] Hs Hn Hh Hne Hid Hnew Hc Hu Hv Hby. unfold q_CreatePaymentToken.
  rewrite !bigint_fits by (done || apply positive_fits; lia). cbn [result_bind].
  rewrite Ht. cbn [not_null result_bind]. rewrite !bytes_there by done. cbn [result_bind].
  unfold check. rewrite !(proj2 (Z.ltb_lt _ _)) by lia. rewrite (proj2 (Z.leb_le _ _)) by lia.
  rewrite (proj2 (String.eqb_neq _ _)) by done. cbn [guard_or negb result_bind].
  rewrite pk_free by done. cbn [result_bind].
  rewrite !unique_free by (intros k q Hk; by apply (Hnew k q Hk)). cbn [result_bind].
  rewrite !fk_there by done. cbn [result_bind].
  assert (fk_opt "payment_tokens_submitted_by_user_id_fkey" (users d) (cpp_SubmittedByUserID a)
    = Ok tt) as ->.
  { unfold fk_opt. destruct (cpp_SubmittedByUserID a) as [u|] eqn:Hb; [|done]. by apply fk_there, Hby. }
  cbn [result_bind]. by eexists.
Qed.

(** The statement behind [CreatePayment]. *)
Definition payment_columns (submitter : string) (item : ClaimItem) (id : string)
  : CreatePaymentTokenParams :=
  let p := payment_params submitter item id in {|
  cpp_ID := cp_ID p; cpp_CeilingID := cp_CeilingID p; cpp_PayerUserID := cp_PayerUserID p;
  cpp_PayeeUserID := cp_PayeeUserID p; cpp_AmountKobo := cp_Amount p;
  cpp_SequenceNumber := cp_SequenceNumber p; cpp_RemainingCeilingKobo := cp_RemainingCeiling p;
  cpp_SignedAt := tsz (cp_SignedAt p); cpp_PayerSig := cp_PayerSignature p;
  cpp_Status := TxPending; cpp_SessionNonce := cp_SessionNonce p;
  cpp_RequestHash := cp_RequestHash p; cpp_RequestAmountKobo := cp_RequestAmountKobo p;
  cpp_SubmittedByUserID := strPtr (cp_SubmittedByUserID p) |}.

Lemma item_stored submitter item id t d :
  parties submitter item -> room item d -> new_sequence d (ci_Payment item) ->
  is_Some (ceiling_tokens d !! ct_ID (ci_Ceiling item)) -> payment_tokens d !! id = None ->
  exists row, q_CreatePaymentToken (payment_columns submitter item id) t d
    = Ok ((id, row), with_payment_tokens (<[id := row]> (payment_tokens d)) d).
Proof.
  intros [Hne _ _ Hby _ _] [] Hseq Hc Hid.
  apply (payment_stored (payment_columns submitter item id)); cbn; try done.
  - unfold tsz. rewrite rm_time0. by eexists.
  - intros i q Hi. split; [by apply (Hseq i q Hi)|by apply (rm_new_nonce0 i q Hi)].
  - unfold strPtr. case_bool_decide; [done|]. intros u [= <-]. by destruct Hby as [->| ->].
Qed.

Lemma payment_runs submitter item id row w :
  id <> "" ->
  q_CreatePaymentToken (payment_columns submitter item id) (sql_now (w_ops w)) (w_st w)
    = Ok ((id, row), with_payment_tokens (<[id := row]> (payment_tokens (w_st w))) (w_st w)) ->
  exists x, runs (CreatePayment (payment_params submitter item id)) w x
    (tick_ops w (with_payment_tokens (<[id := row]> (payment_tokens (w_st w))) (w_st w))).
Proof.
  intros Hid Hq. eexists. unfold CreatePayment. cbn [cp_ID payment_params].
  rewrite bool_decide_false by done. eapply bind_runs; [by apply runs_ret|].
  eapply bind_runs; [|by apply runs_ret]. by apply exec_runs.
Qed.

Lemma transaction_stored a t d :
  0 < rt_AmountKobo a <= int64_max -> transactions d !! rt_ID a = None ->
  is_Some (users d !! rt_UserID a) ->
  (forall u, rt_CounterpartyUserID a = Some u -> is_Some (users d !! u)) ->
  (forall i, rt_PaymentTokenID a = Some i -> is_Some (payment_tokens d !! i)) ->
  rt_TransferID a = None -> rt_CeilingID a = None ->
  q_RecordTransaction a t d
    = Ok (tt, with_transactions (<[rt_ID a := new_txn a t]> (transactions d)) d).
Proof.
  intros Ha Hid Hu Hv Hp Ht Hc. unfold q_RecordTransaction.
  rewrite bigint_fits by (apply positive_fits; lia). cbn [result_bind]. unfold check.
  rewrite (proj2 (Z.ltb_lt _ _)) by lia. cbn [guard_or result_bind].
  rewrite pk_free by done. cbn [result_bind]. rewrite fk_there by done. cbn [result_bind].
  assert (forall A n (m : gmap string A) o, (forall i, o = Some i -> is_Some (m !! i)) ->
    fk_opt n m o = Ok tt) as Hopt by (intros A n m [i|] H; [by apply fk_there, H|done]).
  rewrite !Hopt by (done || congruence). by cbn [result_bind].
Qed.

Lemma entry_stored e t d :
  0 < le_AmountKobo e <= int64_max -> (forall e', e' ∈ ledger_entries d -> le_ID e' <> le_ID e) ->
  is_Some (accounts d !! le_AccountID e) -> is_Some (transactions d !! le_TxnID e) ->
  q_InsertLedgerEntry e t d = Ok (tt, with_ledger_entries (ledger_entries d ++ [e]) d).
Proof.
  intros Ha Hid Hacc Htx. unfold q_InsertLedgerEntry.
  rewrite bigint_fits by (apply positive_fits; lia). cbn [result_bind]. unfold check.
  rewrite (proj2 (Z.ltb_lt _ _)) by lia. cbn [guard_or result_bind].
  assert (forallb (fun e' => negb (String.eqb (le_ID e') (le_ID e))) (ledger_entries d) = true) as ->.
  { apply forallb_forall. intros e' He. apply list_elem_of_In in He. apply negb_true_iff.
    by apply String.eqb_neq, Hid. }
  cbn [guard_or result_bind]. rewrite !fk_there by done. by cbn [result_bind].
Qed.

Lemma balance_stored id a v d :
  in_int64 v = true -> (a_Kind a = AccountKindSuspense \/ 0 <= v) ->
  set_balance id a v d
  = Ok ({| a_UserID := a_UserID a; a_Kind := a_Kind a; a_BalanceKobo := v |},
        with_accounts (<[id := {| a_UserID := a_UserID a; a_Kind := a_Kind a;
                                  a_BalanceKobo := v |}]> (accounts d)) d).
Proof.
  intros Hv Hk. unfold set_balance. rewrite bigint_fits by done. cbn [result_bind]. unfold check.
  assert (bool_decide (a_Kind a = AccountKindSuspense) || (0 <=? v) = true) as ->.
  { apply orb_true_iff. destruct Hk; [left; by apply bool_decide_eq_true|right; by apply Z.leb_le]. }
  by cbn [guard_or result_bind].
Qed.

(** A balanced pair of legs under a new transaction keeps the ledger in order. *)
Definition in_order (l : list LedgerEntry) (txn : string) : Prop :=
  in_int64 (txn_debits txn l) = true /\ txn_debits txn l = txn_credits txn l.

Lemma check_ledger_spec d :
  check_ledger_txn_balanced d = Ok tt <->
  forall e, e ∈ ledger_entries d -> in_order (ledger_entries d) (le_TxnID e).
Proof.
  unfold check_ledger_txn_balanced.
  enough (forall l l', foldr (fun e acc => try _ := acc in
      try dr := bigint (txn_debits (le_TxnID e) l) in
      try cr := bigint (txn_credits (le_TxnID e) l) in
      check "ledger txn unbalanced" (dr =? cr)) (Ok tt) l' = Ok tt <->
    Forall (fun e => in_order l (le_TxnID e)) l') as Hall
    by (rewrite <- (Forall_forall (fun e => in_order (ledger_entries d) (le_TxnID e))); apply Hall).
  intros l l'.
  induction l' as [|e l' IH]; cbn; [split; [constructor|done]|].
  rewrite Forall_cons, <- IH. unfold in_order. split.
  - intros H. apply result_bind_ok in H as ([] & H1 & H).
    apply result_bind_ok in H as (dr & H2 & H). apply bigint_ok in H2 as [-> H2].
    apply result_bind_ok in H as (cr & H3 & H). apply bigint_ok in H3 as [-> H3].
    apply guard_or_ok, Z.eqb_eq in H. done.
  - intros [[H1 H2] H]. rewrite H. cbn [result_bind]. rewrite bigint_fits by done. cbn [result_bind].
    rewrite <- H2, bigint_fits by done. cbn [result_bind]. unfold check. by rewrite Z.eqb_refl.
Qed.

Lemma in_order_pair d d' txn n e1 e2 :
  check_ledger_txn_balanced d = Ok tt ->
  (forall e, e ∈ ledger_entries d -> le_TxnID e <> txn) -> 0 < n <= int64_max ->
  le_TxnID e1 = txn -> le_TxnID e2 = txn -> le_AmountKobo e1 = n -> le_AmountKobo e2 = n ->
  le_Direction e1 = LedgerDirectionDEBIT -> le_Direction e2 = LedgerDirectionCREDIT ->
  ledger_entries d' = ledger_entries d ++ [e1; e2] ->
  check_ledger_txn_balanced d' = Ok tt.
Proof.
  intros Hc Hnew Hn H1 H2 Ha1 Ha2 Hd1 Hd2 Hl. apply check_ledger_spec. rewrite Hl. intros e He.
  assert (forall x, in_order (ledger_entries d) x -> x <> txn ->
    in_order (ledger_entries d ++ [e1; e2]) x) as Hold.
  { intros x [Hx1 Hx2] Hne. unfold in_order, txn_debits, txn_credits in *.
    rewrite !ledger_sum_app. cbn. unfold of_txn.
    rewrite (bool_decide_false (le_TxnID e1 = x)), (bool_decide_false (le_TxnID e2 = x)) by congruence.
    cbn. rewrite !Z.add_0_r. done. }
  assert (in_order (ledger_entries d ++ [e1; e2]) txn) as Hpair.
  { unfold in_order, txn_debits, txn_credits. rewrite !ledger_sum_app. cbn. unfold of_txn, has_direction.
    rewrite (bool_decide_true (le_TxnID e1 = txn)), (bool_decide_true (le_TxnID e2 = txn)) by done.
    rewrite Hd1, Hd2, Ha1, Ha2. cbn.
    rewrite !ledger_sum_none.
    - rewrite (bool_decide_true (LedgerDirectionDEBIT = _)), (bool_decide_false (LedgerDirectionDEBIT = _)),
        (bool_decide_false (LedgerDirectionCREDIT = _)), (bool_decide_true (LedgerDirectionCREDIT = _)) by done.
      split; [apply positive_fits; lia|lia].
    - intros x Hx. by rewrite bool_decide_false by (by apply Hnew).
    - intros x Hx. by rewrite bool_decide_false by (by apply Hnew). }
  apply elem_of_app in He as [He|He].
  - apply Hold; [by apply check_ledger_spec|by apply Hnew].
  - apply elem_of_cons in He as [->|He]; [by rewrite H1|].
    apply list_elem_of_singleton in He as ->. by rewrite H2.
Qed.

Lemma post_pair_runs txn a b n m1 m2 w :
  txn <> "" -> 0 < n <= int64_max -> is_Some (accounts (w_st w) !! a) ->
  is_Some (accounts (w_st w) !! b) -> is_Some (transactions (w_st w) !! txn) ->
  (forall x, (w_ids w <= x)%nat -> forall e, e ∈ ledger_entries (w_st w) -> le_ID e <> new_id x) ->
  (forall x y, new_id x = new_id y -> x = y) ->
  exists w' e1 e2, runs (PostLedger txn [Leg a "DEBIT" n m1; Leg b "CREDIT" n m2]) w tt w' /\
    w_st w' = with_ledger_entries (ledger_entries (w_st w) ++ [e1; e2]) (w_st w) /\
    le_TxnID e1 = txn /\ le_TxnID e2 = txn /\ le_AmountKobo e1 = n /\ le_AmountKobo e2 = n /\
    le_Direction e1 = LedgerDirectionDEBIT /\ le_Direction e2 = LedgerDirectionCREDIT /\
    w_ids w' = S (S (w_ids w)).
Proof.
  intros Ht Hn Ha Hb Htx Hnew Hinj.
  set (e1 := {| le_ID := new_id (w_ids w); le_TxnID := txn; le_AccountID := a;
    le_Direction := LedgerDirectionDEBIT; le_AmountKobo := n; le_Memo := strPtr m1 |}).
  set (e2 := {| le_ID := new_id (S (w_ids w)); le_TxnID := txn; le_AccountID := b;
    le_Direction := LedgerDirectionCREDIT; le_AmountKobo := n; le_Memo := strPtr m2 |}).
  eexists _, e1, e2. split; [|split].
  - unfold PostLedger. rewrite bool_decide_false by done. cbn [length Nat.ltb Nat.leb for_each].
    unfold post_leg at 1. eapply bind_runs with (a := tt).
    { cbn [lg_Direction leg_direction String.eqb]. eapply bind_runs; [by apply runs_lift|].
      eapply bind_runs; [exact (fresh_runs _)|]. apply runs_wrapping.
      apply exec_runs; [exact Hf|]. apply (entry_stored e1); cbn; try done. intros e He. by apply Hnew. }
    eapply bind_runs with (a := tt); [|by apply runs_ret]. unfold post_leg.
    eapply bind_runs; [by apply runs_lift|]. eapply bind_runs; [exact (fresh_runs _)|].
    apply runs_wrapping, exec_runs; [exact Hf|]. apply (entry_stored e2); cbn; try done.
    intros e He. apply elem_of_app in He as [He|He]; [by apply Hnew; [lia|]|].
    apply list_elem_of_singleton in He as ->. cbn. intros Heq. apply Hinj in Heq. lia.
  - cbn. by rewrite <- app_assoc.
  - done.
Qed.

Lemma credit_runs id a n w :
  accounts (w_st w) !! id = Some a -> 0 <= a_BalanceKobo a + n <= int64_max ->
  exists a', runs (CreditAccount id n) w tt
    (tick_ops w (with_accounts (<[id := a']> (accounts (w_st w))) (w_st w))).
Proof.
  intros Ha Hn. eexists. unfold CreditAccount. eapply bind_runs; [|by apply runs_ret].
  apply exec_runs; [done|]. unfold q_IncrementAccountBalance. rewrite Ha.
  apply balance_stored; [by apply positive_fits|right; lia].
Qed.

Lemma force_debit_runs id a n w :
  accounts (w_st w) !! id = Some a -> a_Kind a = AccountKindSuspense ->
  in_int64 (a_BalanceKobo a - n) = true ->
  exists a', runs (ForceDebitAccount id n) w tt
    (tick_ops w (with_accounts (<[id := a']> (accounts (w_st w))) (w_st w))).
Proof.
  intros Ha Hk Hn. eexists. unfold ForceDebitAccount. eapply bind_runs; [|by apply runs_ret].
  apply exec_runs; [done|]. unfold q_ForceDecrementAccountBalance. rewrite Ha.
  apply balance_stored; [done|by left].
Qed.

Lemma stamp_runs id row batch t w :
  payment_tokens (w_st w) !! id = Some row ->
  exists r w', runs (UpdatePaymentStatus id TxPending 0 "" batch (Some t) None) w r w' /\
    ledger_entries (w_st w') = ledger_entries (w_st w) /\
    outbox (w_st w') = outbox (w_st w) /\ w_ids w' = w_ids w.
Proof.
  intros Hr. do 2 eexists. split.
  - unfold UpdatePaymentStatus. eapply bind_runs; [|by apply runs_ret].
    apply exec_runs; [done|]. unfold q_UpdatePaymentStatus. rewrite Hr.
    rewrite bigint_fits by done. by cbn [result_bind check guard_or].
  - done.
Qed.

(** The paired events of a recorded payment. *)
Lemma events_runs p id anchor rid w :
  0 < pt_Amount p <= int64_max -> is_Some (users (w_st w) !! pt_PayerID p) ->
  is_Some (users (w_st w) !! pt_PayeeID p) -> is_Some (payment_tokens (w_st w) !! id) ->
  transactions (w_st w) !! anchor = None -> transactions (w_st w) !! rid = None -> anchor <> rid ->
  exists w1 m, runs (RecordTransaction (sent_event p anchor id)) w tt w1 /\
    runs (RecordTransaction (received_event p rid anchor id)) w1 tt
      (tick_ops w1 (with_transactions m (w_st w))) /\
    is_Some (m !! anchor) /\ w_ids w1 = w_ids w.
Proof.
  intros Hn Hu Hv Hp Ha Hr Hne.
  set (x1 := new_txn (sent_event p anchor id) (sql_now (w_ops w))).
  set (x2 := new_txn (received_event p rid anchor id) (sql_now (S (w_ops w)))).
  set (d1 := with_transactions (<[anchor := x1]> (transactions (w_st w))) (w_st w)).
  exists (tick_ops w d1), (<[rid := x2]> (<[anchor := x1]> (transactions (w_st w)))).
  split; [|split; [|split; [|done]]].
  - apply (exec_runs _ w tt d1); [done|]. apply transaction_stored; cbn; try done.
    + by intros u [= <-].
    + by intros i [= <-].
  - apply (exec_runs _ (tick_ops w d1) tt); [done|].
    etrans; [apply transaction_stored|reflexivity]; cbn; try done.
    + by rewrite lookup_insert_ne.
    + by intros u [= <-].
    + by intros i [= <-].
  - rewrite lookup_insert_ne by done. rewrite lookup_insert_eq. by eexists.
Qed.

(** The suspense account pays the pending account, and the payment is stamped. *)
Lemma pending_runs item batch t id row pid pacc w :
  payment_tokens (w_st w) !! id = Some row -> accounts (w_st w) !! pid = Some pacc ->
  0 <= a_BalanceKobo pacc + pt_Amount (ci_Payment item) <= int64_max ->
  a_Kind pacc <> AccountKindSuspense ->
  (exists a, accounts (w_st w) !! ss_SuspenseAccountID s = Some a /\
     a_Kind a = AccountKindSuspense /\
     in_int64 (a_BalanceKobo a - pt_Amount (ci_Payment item)) = true) ->
  exists w1 w2 w3 x,
    runs (ForceDebitAccount (ss_SuspenseAccountID s) (pt_Amount (ci_Payment item))) w tt w1 /\
    runs (CreditAccount pid (pt_Amount (ci_Payment item))) w1 tt w2 /\
    runs (UpdatePaymentStatus id TxPending 0 "" (Some batch) (Some t) None) w2 x w3 /\
    ledger_entries (w_st w3) = ledger_entries (w_st w) /\
    outbox (w_st w3) = outbox (w_st w) /\ w_ids w3 = w_ids w.
Proof.
  intros Hrow Hp Hn Hk (sa & Hsa & Hks & Hs).
  assert (pid <> ss_SuspenseAccountID s) as Hne by congruence.
  destruct (force_debit_runs (ss_SuspenseAccountID s) sa (pt_Amount (ci_Payment item)) w) as [sa' Hd];
    [done..|].
  set (w1 := tick_ops w _) in Hd.
  destruct (credit_runs pid pacc (pt_Amount (ci_Payment item)) w1) as [pa' Hc];
    [cbn; by rewrite lookup_insert_ne|done|].
  set (w2 := tick_ops w1 _) in Hc.
  destruct (stamp_runs id row (Some batch) t w2) as (x & w3 & Hx & Hl & Ho & Hi);
    [exact Hrow|].
  exists w1, w2, w3, x. by split_and!.
Qed.

(** The accepting transaction goes through where there is room. *)
Lemma accept_in_tx_runs batch submitter item t w :
  parties submitter item -> room item (w_st w) -> unused w ->
  new_sequence (w_st w) (ci_Payment item) ->
  is_Some (ceiling_tokens (w_st w) !! ct_ID (ci_Ceiling item)) ->
  exists w', runs (accept_in_tx s batch submitter item t) w (new_id (w_ids w)) w' /\
    check_ledger_txn_balanced (w_st w') = Ok tt /\
    outbox (w_st w') = outbox (w_st w) /\ (w_ids w <= w_ids w')%nat.
Proof.
  intros Hp Hr Hun Hseq Hc. set (n0 := w_ids w). destruct Hun as [Hinj Hid Hx He Hex].
  destruct (item_stored submitter item (new_id n0) (sql_now (S (w_ops w))) (w_st w) Hp Hr Hseq Hc)
    as [row Hrow]; [by apply Hid|].
  destruct Hr as [Hu Hv Hn _ _ _ _ _ _ _ _ (pa & pe & Hpe & His) Hproom (sa & Hsa & Hk & Hsroom) Hled].
  destruct (q_GetAccountByUserAndKind (pt_PayeeID (ci_Payment item)) AccountKindReceivingPending
    (w_st w)) as [[pid pacc]|e] eqn:Hq; cycle 1.
  { apply first_row_err in Hq as [_ Hq]. by rewrite (Hq _ _ Hpe) in His. }
  pose proof (first_row_ok _ _ _ _ Hq) as [Hpacc Hpis].
  set (w2 := tick_ops (World (w_st w) (S n0) (w_clk w) (w_ops w) (w_log w)) (w_st w)).
  destruct (payment_runs submitter item (new_id n0) row w2) as [px Hpay];
    [apply new_id_nonempty|exact Hrow|].
  set (d1 := with_payment_tokens _ _) in Hpay.
  (* the events, the ledger, the balances *)
  set (w3 := World d1 (S (S (S n0))) (w_clk w) (S (S (w_ops w))) (w_log w)).
  destruct (events_runs (ci_Payment item) (new_id n0) (new_id (S n0)) (new_id (S (S n0))) w3)
    as (w4 & m & Hsent & Hreceived & Hanchor & Hids4); try done.
  { cbn. rewrite lookup_insert_eq. by eexists. }
  { apply Hx. lia. }
  { apply Hx. lia. }
  { intros Heq. apply Hinj in Heq. lia. }
  set (w5 := tick_ops w4 _) in Hreceived.
  destruct (post_pair_runs (new_id (S n0)) (ss_SuspenseAccountID s) pid (pt_Amount (ci_Payment item))
    "claim 4a suspense" "claim 4a receiver pending" w5) as
    (w6 & e1 & e2 & Hpost & Hw6 & Ht1 & Ht2 & Ha1 & Ha2 & Hd1 & Hd2 & Hids6); try done.
  { apply new_id_nonempty. }
  { cbn [w5 tick_ops w_ids]. rewrite Hids4. intros x Hxn e Hin. apply He; [cbn in Hxn; lia|done]. }
  pose proof (Hproom _ _ Hpacc Hpis) as Hfits.
  destruct (pending_runs item batch t (new_id n0) row pid pacc w6) as
    (w7 & w8 & w9 & x & Hdebit & Hcredit & Hstamp & Hled9 & Hout9 & Hids9); rewrite ?Hw6; try done.
  { cbn. apply lookup_insert_eq. }
  { lia. }
  { apply andb_true_iff in Hpis as [_ Hpk]. apply bool_decide_eq_true in Hpk. congruence. }
  { by exists sa. }
  exists w9. split; [|split; [|split]].
  - eapply bind_runs; [exact (fresh_runs _)|]. eapply bind_runs.
    { apply runs_wrapping. unfold GetAccountID. eapply bind_runs; [|by apply runs_ret].
      apply query_runs; [done|]. exact Hq. }
    eapply bind_runs; [apply runs_wrapping; exact Hpay|].
    eapply bind_runs; [exact (fresh_runs _)|]. eapply bind_runs; [exact (fresh_runs _)|].
    eapply bind_runs; [apply runs_wrapping; exact Hsent|].
    eapply bind_runs; [apply runs_wrapping; exact Hreceived|].
    eapply bind_runs; [apply runs_wrapping; exact Hpost|].
    eapply bind_runs; [apply runs_wrapping; exact Hdebit|].
    eapply bind_runs; [apply runs_wrapping; exact Hcredit|].
    eapply bind_runs; [apply runs_wrapping; exact Hstamp|]. by apply runs_ret.
  - apply (in_order_pair (w_st w) _ (new_id (S n0)) (pt_Amount (ci_Payment item)) e1 e2); try done.
    + intros e Hin. apply Hex; [lia|done].
    + by rewrite Hled9, Hw6.
  - by rewrite Hout9, Hw6.
  - rewrite Hids9, Hids6. cbn [w5 tick_ops w_ids]. rewrite Hids4. cbn. lia.
Qed.

(** When nothing fails in the infrastructure, a claim that satisfies the checks is
    accepted: [submitOne] answers with a pending payment under a new identifier, provided
    the database has room for the row and the identifiers drawn are new. *)
Lemma checked_claim_accepted batch submitter item t w :
  checked s submitter item t (w_st w) -> room item (w_st w) -> unused w ->
  exists w', runs (submitOne s batch submitter item t) w
    (accepted (ci_Payment item) (new_id (w_ids w))) w' /\
    outbox (w_st w') = outbox (w_st w) /\ (w_ids w <= w_ids w')%nat.
Proof.
  intros Hck Hr Hun. destruct (submit_checks_runs submitter item t w Hck) as (w1 & Hc & Hw1 & Hi1).
  destruct Hck as [Hp _ _ Hn (c & Hc' & _)].
  assert (unused (tick_ops w1 (w_st w1))) as Hun1.
  { destruct Hun as [H1 H2 H3 H4 H5]. by constructor; cbn [w_st tick_ops w_ids]; rewrite ?Hw1, ?Hi1. }
  rewrite <- Hw1 in Hr, Hn, Hc'.
  destruct (accept_in_tx_runs batch submitter item t (tick_ops w1 (w_st w1)) Hp Hr Hun1 Hn
    (mk_is_Some _ _ Hc')) as (w2 & Ha & Hl & Ho & Hi).
  cbn [w_ids w_st tick_ops] in Ha, Hi, Ho. rewrite Hi1 in Ha, Hi. rewrite Hw1 in Ho.
  exists (tick_ops w2 (w_st w2)). split; [|done]. unfold submitOne. eapply bind_runs; [exact Hc|].
  eapply bind_runs; [|by apply runs_ret]. by apply tx_runs.
Qed.

(** ** A batch of one *)

Context {M : MapOrder} {ML : MapOrderLaws M}.

(** The clock stays in the years a timestamp can be written in. *)
Definition writable_clock : Prop := forall n, exists v, marshal_time (utc (clock n)) = Ok v.

Lemma enqueue_runs payer reason w :
  writable_clock -> payer <> "" -> outbox (w_st w) !! new_id (w_ids w) = None ->
  exists w', runs (enqueueFinalize payer reason) w tt w'.
Proof.
  intros Hk Hp Ho. destruct (Hk (w_clk w)) as [v Hv]. eexists. unfold enqueueFinalize.
  rewrite bool_decide_false by done. eapply bind_runs; [reflexivity|].
  eapply bind_runs.
  { apply runs_wrapping, runs_lift. split; [|reflexivity].
    unfold FinalizePayerPayload_json, json_object, js. cbn [foldr fst snd fp_EnqueuedAt].
    rewrite Hv. reflexivity. }
  eapply bind_runs; [exact (fresh_runs _)|]. apply exec_runs; [done|].
  unfold q_InsertOutboxEntry. rewrite pk_free by exact Ho. reflexivity.
Qed.

(** The world [SubmitClaim] starts the loop in. *)
Definition batch_begun w : world db effect :=
  World (w_st w) (S (w_ids w)) (S (w_clk w)) (w_ops w) (w_log w).

Lemma single_claim_accepted submitter item w :
  writable_clock -> submitter <> "" -> pt_PayerID (ci_Payment item) <> "" ->
  (forall n, (w_ids w <= n)%nat -> outbox (w_st w) !! new_id n = None) ->
  checked s submitter item (clock (w_clk w)) (w_st w) -> room item (w_st w) -> unused w ->
  exists b w', runs (SubmitClaim s submitter [item] "") w
    (b, [accepted (ci_Payment item) (new_id (S (w_ids w)))], None) w'.
Proof.
  intros Hk Hne Hp Ho Hck Hr Hun.
  assert (unused (batch_begun w)) as Hun1.
  { destruct Hun as [H1 H2 H3 H4 H5]. constructor; cbn [w_st w_ids batch_begun]; intros;
      first [by apply H1 | apply H2; lia | apply H3; lia | by apply H4; [lia|] | by apply H5; [lia|]]. }
  destruct (checked_claim_accepted (new_id (w_ids w)) submitter item (clock (w_clk w)) (batch_begun w)
    Hck Hr Hun1) as (w1 & H1 & Ho1 & Hi1). cbn in Hi1.
  destruct (enqueue_runs (pt_PayerID (ci_Payment item)) FinalizeReasonClaimAccepted w1 Hk Hp) as [w2 H2].
  { rewrite Ho1. apply Ho. cbn. lia. }
  do 2 eexists. unfold SubmitClaim. rewrite bool_decide_false by done.
  eapply bind_runs; [reflexivity|]. eapply bind_runs; [exact (fresh_runs _)|]. cbn zeta.
  eapply bind_runs.
  { cbn [submit_all]. eapply bind_runs; [apply runs_attempt; exact H1|]. by apply runs_ret. }
  eapply bind_runs with (a := tt).
  { cbn [step_batch accepted sr_Status bs_AnyAccepted bs_Batch].
    rewrite (bool_decide_true ("" = "")) by done. rewrite andb_false_r. by apply runs_ret. }
  assert (map_order [pt_PayerID (ci_Payment item)] = [pt_PayerID (ci_Payment item)]) as Hord
    by (apply Permutation_length_1_inv, symmetry, map_order_perm).
  eapply bind_runs.
  { cbn [step_batch accepted sr_Status bs_Payers bs_Batch add_payer].
    unfold add_payer. rewrite bool_decide_false by (by apply not_elem_of_nil). cbn [app].
    rewrite Hord. cbn [enqueue_all]. eapply bind_runs; [apply runs_attempt; exact H2|].
    by apply runs_ret. }
  eapply bind_runs; [reflexivity|]. by apply runs_ret.
Qed.

End Acceptance.
