(* ===== verification/WalletProps.v ===== *)
(** * The properties of the offline wallet

    What funding, draining, recovering and expiring a ceiling do to a user's money, and
    how the wallet's windows fit the settlement's. *)

From S2P Require Import Prelude Domain Json Crypto Store Repo Books Solvency Wallet Settlement SettlementFacts SubmitFacts.

Section WalletProps.
Context {E : Env} {K : CacheEnv} {C : Ed25519} {HC : Ed25519Laws C}.
Variable s : Service.
Implicit Types w : world db effect.

(** The fraud gate and the sequence tracker do not write to the database. *)
Definition quiet_service : Prop := forall P, keeps_with s P.

(** *** The stored keys *)

(** The bank's stored keys are pairs, filed under their identifiers, and a cached active key
    is one of them. *)
Record bank_ok w : Prop := {
  bo_filed id k : bank_signing_keys (w_st w) !! id = Some k -> bk_KeyID k = id;
  bo_paired id k : bank_signing_keys (w_st w) !! id = Some k ->
    bk_PublicKey k = ed_public (bk_PrivateKey k);
  bo_cached k : cache_get bankSigningActiveCacheKey (w_log w) = Some (CachedBankKey k) ->
    bank_signing_keys (w_st w) !! bk_KeyID k = Some k;
}.

(** The service's fraud gate leaves no trace. *)
Definition silent_gate : Prop := forall clamp u n, s_Fraud s = Some clamp -> silent (clamp u n).

Lemma latest_key_stored d k :
  q_GetActiveBankSigningKey d = Ok k -> exists id, bank_signing_keys d !! id = Some k.
Proof.
  unfold q_GetActiveBankSigningKey.
  enough (forall l best, (forall b, best = Some b -> exists id, bank_signing_keys d !! id = Some b) ->
    (forall kv, kv ∈ l -> bank_signing_keys d !! kv.1 = Some kv.2) ->
    forall b, foldl latest_key best l = Some b -> exists id, bank_signing_keys d !! id = Some b) as H.
  { destruct (foldl latest_key None _) as [b|] eqn:Hb; [|done]. intros [= <-].
    eapply (H _ None); [done| |exact Hb]. intros [i x] Hi. by apply elem_of_rows_where in Hi as [Hi _]. }
  induction l as [|kv l IH]; intros best Hbest Hl b; cbn; [apply Hbest|].
  apply IH; [|intros; apply Hl; by right].
  intros b' Hb'. unfold latest_key in Hb'.
  assert (bank_signing_keys d !! kv.1 = Some kv.2) as Hkv by (apply Hl; left).
  destruct best as [b0|]; [destruct (_ <? _)|]; injection Hb' as <-; eauto.
Qed.

Lemma runs_active_key w k w' :
  bank_ok w -> runs GetActiveBankSigningKey w k w' ->
  bank_signing_keys (w_st w) !! bk_KeyID k = Some k.
Proof.
  intros [Hfl Hpr Hc] H. unfold GetActiveBankSigningKey in H.
  apply runs_bind in H as (hit & w1 & Hh & H).
  assert (w1 = w /\ (hit = None \/ hit = cache_get bankSigningActiveCacheKey (w_log w))) as [-> Hhit].
  { unfold runs, cache_lookup in Hh. injection Hh as <- <-. split; [done|].
    destruct (cache_serves _); auto. }
  assert (forall v, runs (let! x := query q_GetActiveBankSigningKey in
      do! emit (EvCacheSet bankSigningActiveCacheKey (CachedBankKey x)) in ret x) w k v ->
    bank_signing_keys (w_st w) !! bk_KeyID k = Some k) as Hdb.
  { intros v Hv. apply runs_bind in Hv as (x & v1 & Hq & Hv). apply runs_query in Hq as (_ & Hq & ->).
    apply runs_bind in Hv as ([] & v2 & _ & Hv). apply runs_ret in Hv as [-> _].
    apply latest_key_stored in Hq as [id Hid]. by rewrite (Hfl id x Hid). }
  destruct hit as [[x| | | | |]|]; try by eapply Hdb.
  apply runs_ret in H as [-> _]. apply Hc. destruct Hhit as [?|<-]; [done|]. done.
Qed.

Lemma silent_clamp_amount u n ttl : silent_gate -> silent (clamp_amount s u n ttl).
Proof.
  intros Hs. unfold clamp_amount. destruct (n <=? 0); [auto with silence|].
  destruct (ttl <=? 0); [auto with silence|]. destruct (s_Fraud s) as [clamp|] eqn:Hc; [|auto with silence].
  apply silent_bind; [by apply silent_wrapping, (Hs clamp)|]. intros [a tier]. auto with silence.
Qed.

Lemma register_issued u issued w ct e w' : runs (register s u issued) w (ct, e) w' -> ct = issued.
Proof.
  unfold register. destruct (s_SeqTracker s); [|by intros [[= ->] _]%runs_ret].
  intros ([r|r] & w1 & _ & H)%runs_bind; by apply runs_ret in H as [[= ->] _].
Qed.

Lemma runs_FundOffline u n ttl w ct e w' :
  quiet_service -> runs (FundOffline s u n ttl) w (ct, e) w' ->
  0 < n /\ 0 < ttl /\ exists m w1 w2, m <= n /\ w_st w1 = w_st w /\
    (silent_gate -> w_log w1 = w_log w) /\
    runs (fundOfflineInTx s u m ttl) w1 ct w2 /\ w_st w' = w_st w2.
Proof.
  intros Hq H. unfold FundOffline in H. apply runs_bind in H as (m & w1 & Hc & H).
  assert (w_st w1 = w_st w) as Hw1
    by (apply (quiet_runs _ _ _ _ (fun P => preserves_clamp_amount s P u n ttl (Hq P)) Hc)).
  assert (0 < n /\ 0 < ttl /\ m <= n) as (Hn & Ht & Hm).
  { unfold clamp_amount in Hc. destruct (n <=? 0) eqn:H1; [by apply runs_throw in Hc|].
    destruct (ttl <=? 0) eqn:H2; [by apply runs_throw in Hc|].
    apply Z.leb_gt in H1, H2. split; [done|]. split; [done|].
    destruct (s_Fraud s) as [clamp|]; [|by apply runs_ret in Hc as [-> _]].
    apply runs_bind in Hc as ([allowed tier] & w3 & _ & Hc).
    destruct (allowed <=? 0); [by apply runs_throw in Hc|]. apply runs_ret in Hc as [-> _].
    destruct (allowed <? n) eqn:H3; lia. }
  split; [done|]. split; [done|].
  apply runs_bind in H as (issued & w2 & Hx & H).
  assert (w_st w' = w_st w2) as Hw'
    by (apply (quiet_runs _ _ _ _ (fun P => preserves_register s P u issued (Hq P)) H)).
  unfold Tx in Hx. apply runs_tx in Hx as (_ & w3 & Hx & _ & _ & ->).
  apply register_issued in H as ->.
  exists m, (tick_ops w1 (w_st w1)), w3. split_and!; try done.
  intros Hs. exact (runs_silent _ _ _ _ (silent_clamp_amount u n ttl Hs) Hc).
Qed.

(** The claim of settlement is the payload that was signed. *)
Lemma ceiling_payload_issued u n ttl pub key t id row :
  c_PayerUserID row = u -> c_CeilingKobo row = n -> c_SequenceStart row = 0 ->
  c_PayerPubkey row = pub -> c_BankKeyID row = bk_KeyID key ->
  tsz (truncate_us t) = Some (c_IssuedAt row) ->
  tsz (truncate_us t + ttl) = Some (c_ExpiresAt row) -> ttl mod 1000 = 0 ->
  ceiling_payload (ceilingToDomain (id, row)) = fund_payload u n ttl pub t key.
Proof.
  intros <- <- Hseq <- Hkey Hi He Hd. unfold ceiling_payload, fund_payload. cbn.
  unfold tsz in Hi, He. destruct (IsZero (truncate_us t)); [discriminate|].
  destruct (IsZero (truncate_us t + ttl)); [discriminate|]. injection Hi as Hi. injection He as He.
  unfold tstz in *. rewrite truncate_us_idem in Hi. rewrite truncate_us_add in He by done.
  by rewrite <- Hi, <- He, Hkey, Hseq.
Qed.

(** What funding issues verifies under the stored key it names. *)
Lemma issued_verifies u n ttl w ct e w' :
  quiet_service -> silent_gate -> s_Signer s = None -> ttl mod 1000 = 0 -> bank_ok w ->
  runs (FundOffline s u n ttl) w (ct, e) w' ->
  exists k, bank_signing_keys (w_st w) !! ct_BankKeyID ct = Some k /\
    VerifyCeiling (bk_PublicKey k) (ceiling_payload ct) (ct_BankSignature ct) = Ok tt.
Proof.
  intros Hq Hs Hsg Htl Hbank H. apply runs_FundOffline in H as (_ & _ & m & w1 & w2 & _ & Hst & Hlog
    & Hx & _); [|done]. specialize (Hlog Hs).
  apply runs_fundOfflineInTx in Hx as (ma & li & id & row & -> & _ & _ & _ & _ & _ & _ & _ & _ & _ & Hu
    & Hn & _ & Hseq & _ & pub & key & t & Hi & He & Hpub & Hkid & Hsig & v & v' & Hvst & Hvlog & Hread).
  assert (bank_ok v) as Hv.
  { destruct Hbank as [H1 H2 H3]. constructor; rewrite Hvst, ?Hst; [done|done|].
    rewrite Hvlog, Hlog. done. }
  pose proof (runs_active_key _ _ _ Hv Hread) as Hkey. rewrite Hvst, Hst in Hkey.
  exists key. split; [cbn; by rewrite Hkid|]. rewrite (bo_paired _ Hbank _ _ Hkey).
  rewrite (ceiling_payload_issued u m ttl pub key t id row) by done.
  unfold signCeiling in Hsig. rewrite Hsg in Hsig. destruct (negb _); [discriminate|].
  by apply verify_sign_with in Hsig.
Qed.

(** Claim C10: funding an offline wallet moves exactly the granted amount, positive, no more than asked
    for and no more than the balance, from the user's main to the lien account, in the
    balances and in the ledger alike; it needs a user without a live ceiling and leaves
    one new active ceiling of that amount, which is the token returned. The returned token
    passes the signature check settlement makes, under the public key stored for the key
    identifier the token names, whenever the bank signs with its stored keys (no remote
    signer), those keys are pairs filed under their identifiers and the cached active key is
    one of them, the fraud gate leaves no trace in the cache, and the lifetime is a
    whole number of microseconds, the precision the database keeps (over HTTP and gRPC it
    is given in seconds). *)
Theorem FundOffline_funds u n ttl w ct e w' :
  quiet_service -> runs (FundOffline s u n ttl) w (ct, e) w' ->
  exists m mainAcc lienAcc id row,
    0 < m <= n /\ account_of (w_st w) mainAcc u AccountKindMain /\
    account_of (w_st w) lienAcc u AccountKindLienHolding /\ m <= bal (w_st w) mainAcc /\
    (forall x, bal (w_st w') x = bal (w_st w) x + transfer_fn mainAcc lienAcc m x) /\
    (forall x, net (w_st w') x = net (w_st w) x + transfer_fn mainAcc lienAcc m x) /\
    (forall i c, ceiling_tokens (w_st w) !! i = Some c -> live_of u c = false) /\
    ceiling_tokens (w_st w) !! id = None /\
    ceiling_tokens (w_st w') = <[id := row]> (ceiling_tokens (w_st w)) /\
    payment_tokens (w_st w') = payment_tokens (w_st w) /\
    active_of u row = true /\ c_CeilingKobo row = m /\
    ct = ceilingToDomain (id, row) /\
    (s_Signer s = None -> bank_ok w -> silent_gate -> ttl mod 1000 = 0 ->
     exists key, bank_signing_keys (w_st w) !! ct_BankKeyID ct = Some key /\
       VerifyCeiling (bk_PublicKey key) (ceiling_payload ct) (ct_BankSignature ct) = Ok tt).
Proof.
  intros Hq H. pose proof (fun Hs Hsg Htl Hb => issued_verifies u n ttl w ct e w' Hq Hs Hsg Htl Hb H)
    as Hver.
  apply runs_FundOffline in H as (_ & _ & m & w1 & w2 & Hm & Hw1 & _ & H & Hw'); [|done].
  apply runs_fundOfflineInTx in H as (ma & li & id & row & Hct & Hma & Hli & Hmv & Hle & Hpos & Hc
    & Hfresh & Hno & Hp & Hu & Hk & Hst & _).
  rewrite <- Hw', Hw1 in *. exists m, ma, li, id, row.
  split; [lia|]. split; [done|]. split; [done|]. split; [done|].
  split; [apply (moved_bal _ _ _ _ Hmv)|]. split; [apply (moved_net _ _ _ _ Hmv)|].
  split_and!; try done.
  - apply active_of_spec. done.
  - intros Hsg Hb Hs Htl. by apply Hver.
Qed.

(** A failed funding or refresh leaves the database as it was. *)
Lemma FundOffline_atomic u n ttl w e w' :
  quiet_service ->
  (FundOffline s u n ttl w = (Err e, w') \/ Refresh s u n ttl w = (Err e, w')) ->
  w_st w' = w_st w.
Proof.
  intros Hq.
  assert (forall body : Z -> dbop CeilingToken,
    (let! m := clamp_amount s u n ttl in let! issued := Tx (body m) in register s u issued) w
      = (Err e, w') -> w_st w' = w_st w) as Hgen; [|by intros [H|H]; apply Hgen in H].
  intros body H.
  pose proof (preserves_clamp_amount s (fun d => d = w_st w) u n ttl (Hq _) w eq_refl) as Hc.
  destruct (clamp_amount s u n ttl w) as [[m|e1] w1] eqn:H1; cbn in Hc;
    [rewrite (bind_ok _ _ _ _ _ H1) in H|rewrite (bind_err _ _ _ _ _ H1) in H; by injection H as _ <-].
  destruct (Tx (body m) w1) as [[ct|e2] w2] eqn:H2;
    [rewrite (bind_ok _ _ _ _ _ H2) in H|rewrite (bind_err _ _ _ _ _ H2) in H].
  - unfold register in H. destruct (s_SeqTracker s); [|discriminate].
    unfold bind, attempt, ret in H. by destruct (o _ _ _ _) as [[?|?] ?].
  - injection H as _ <-. unfold Tx in H2. apply tx_err in H2. congruence.
Qed.

(** Draining gives back exactly what is left: it needs an active ceiling with no claim in
    flight, moves its amount less what was settled on it from the lien to the main
    account, empties the lien account and revokes the ceiling. *)
Lemma MoveToMain_releases sus u w r w' :
  good sus (w_st w) -> runs (MoveToMain u) w r w' ->
  exists id row, ceiling_tokens (w_st w) !! id = Some row /\ active_of u row = true /\
    (forall i p, payment_tokens (w_st w) !! i = Some p -> p_CeilingID p = id ->
       in_flight (p_Status p) = false) /\
    ceiling_tokens (w_st w') = <[id := set_c_Status CeilingRevoked row]> (ceiling_tokens (w_st w)) /\
    payment_tokens (w_st w') = payment_tokens (w_st w) /\
    let left_ := c_CeilingKobo row - sum_settled id (w_st w) in
    0 <= left_ /\
    (forall x a, accounts (w_st w) !! x = Some a ->
       bal (w_st w') x = bal (w_st w) x
         + (if decide (a_UserID a = u /\ a_Kind a = AccountKindMain) then left_ else 0)
         - (if decide (a_UserID a = u /\ a_Kind a = AccountKindLienHolding) then left_ else 0)) /\
    forall x, account_of (w_st w) x u AccountKindLienHolding -> bal (w_st w') x = 0.
Proof.
  intros [[Hb Hl] Hbal] H.
  pose proof (MoveToMain_good sus u w ltac:(done)) as Hg'. rewrite H in Hg'. cbn in Hg'.
  unfold MoveToMain, Tx in H. apply runs_tx in H as (_ & w1 & H & _ & _ & ->). cbn.
  unfold moveToMainInTx in H. apply runs_bind in H as (c & w2 & Hi & H).
  apply runs_idle_ceiling in Hi as (Hw2 & id & row & Hrow & Hact & -> & Hidle). cbn in Hw2, Hrow, Hidle.
  assert (release_amount (ceilingToDomain (id, row)) (w_st w2)
          = c_CeilingKobo row - sum_settled id (w_st w)) as Hn.
  { unfold release_amount. cbn. rewrite Hw2.
    pose proof (sum_settled_int64 _ _ _ Hl Hrow). rewrite sub64_nonneg by lia. lia. }
  apply runs_releaseCeiling in H as (Hp & Hc & _ & Hcase). rewrite Hn, Hw2 in Hcase.
  rewrite Hw2 in Hp, Hc. cbn in Hc.
  exists id, row. split; [done|]. split; [done|]. split; [done|]. split.
  { rewrite Hc. unfold ceilings_after. apply map_eq. intros i. destruct (decide (i = id)) as [->|Hx].
    - by rewrite lookup_alter_eq, lookup_insert_eq, Hrow.
    - by rewrite lookup_alter_ne, lookup_insert_ne. }
  split; [done|]. cbn zeta.
  pose proof (sum_settled_int64 _ _ _ Hl Hrow) as Hs. split; [lia|]. split.
  - intros x a Ha. destruct Hcase as [[Hz Hm]|(_ & m & l & Hma & Hli & Hm)];
      rewrite (moved_bal _ _ _ _ Hm).
    + rewrite Hz. unfold no_move. repeat case_decide; lia.
    + pose proof (account_of_iff sus _ m u AccountKindMain Hb Hma x a Ha) as Him.
      pose proof (account_of_iff sus _ l u AccountKindLienHolding Hb Hli x a Ha) as Hil.
      pose proof (account_of_ne _ _ _ _ _ _ _ Hma Hli ltac:(done)) as Hne.
      assert (x = m -> a_Kind a = AccountKindMain) as Hkm.
      { intros ->. by apply (account_of_kind _ _ _ _ _ Hma). }
      assert (x = l -> a_Kind a = AccountKindLienHolding) as Hkl.
      { intros ->. by apply (account_of_kind _ _ _ _ _ Hli). }
      unfold transfer_fn, move_at. repeat case_decide; intuition (lia || congruence).
  - intros x (a & Ha & Hu & Hk). destruct Hg' as [[_ Hl'] _].
    assert (exists a', accounts (w_st w1) !! x = Some a' /\ a_UserID a' = u
      /\ a_Kind a' = AccountKindLienHolding) as (a' & Ha' & Hu' & Hk').
    { destruct Hcase as [[_ Hm]|(_ & m & l & _ & _ & Hm)];
        destruct (meta_lookup_fwd _ _ _ _ _ _ Hm Ha) as (a' & ? & ? & ?); exists a';
        split_and!; congruence. }
    apply (ln_idle _ Hl' x a' Ha' Hk'). rewrite Hu'. intros i y Hi. cbn in Hi. rewrite Hc in Hi.
    apply lookup_alter_Some in Hi as [(-> & y0 & Hy & ->)|[Hx Hy]].
    + unfold live_of. cbn. apply andb_false_r.
    + destruct (live_of u y) eqn:Hlv; [|done]. apply live_of_spec in Hlv as [Hy1 Hy2].
      apply active_of_spec in Hact as [Hr1 Hr2]. destruct Hx. symmetry.
      apply (ln_one _ Hl i id y row); try done; [by rewrite Hr2|congruence].
Qed.

(** Recovery only starts a quarantine: no account changes, the user's active ceiling, with
    no claim in flight, becomes RECOVERY_PENDING until a deadline at least the
    auto-settle timeout and the grace after both its expiry and now. *)
Theorem RecoverOfflineCeiling_quarantines u w ct w' :
  runs (RecoverOfflineCeiling s u) w ct w' ->
  exists id row t, ceiling_tokens (w_st w) !! id = Some row /\ active_of u row = true /\
    ct = with_recovery (ceilingToDomain (id, row)) (recovery_deadline s (c_ExpiresAt row) t) /\
    accounts (w_st w') = accounts (w_st w) /\ ledger_entries (w_st w') = ledger_entries (w_st w) /\
    ceiling_tokens (w_st w') =
      <[id := set_c_ReleaseAfter (tsz (recovery_deadline s (c_ExpiresAt row) t))
                (set_c_Status CeilingRecoveryPending row)]> (ceiling_tokens (w_st w)) /\
    (exists n, t = clock n) /\
    c_ExpiresAt row + autoSettle s + ReleaseGrace <= recovery_deadline s (c_ExpiresAt row) t /\
    t + autoSettle s + ReleaseGrace <= recovery_deadline s (c_ExpiresAt row) t.
Proof.
  intros H. unfold RecoverOfflineCeiling, Tx in H. apply runs_tx in H as (_ & w1 & H & _ & _ & ->).
  apply runs_bind in H as (c & w2 & Hi & H).
  apply runs_idle_ceiling in Hi as (Hw2 & id & row & Hrow & Hact & -> & _).
  apply runs_bind in H as (t & w3 & Ht & H). apply runs_now in Ht as [Ht ->].
  apply runs_bind in H as (k & w4 & Hm & H). apply runs_wrapping in Hm.
  destruct (k =? 0) eqn:Hk; [by apply runs_throw in H|]. apply runs_ret in H as [-> ->].
  unfold MarkCeilingRecoveryPending in Hm. apply runs_exec in Hm as (_ & d & Hm & ->). cbn in *.
  rewrite Hw2 in Hm. unfold q_MarkCeilingRecoveryPending in Hm. rewrite Hrow in Hm.
  apply active_of_spec in Hact as Hst. rewrite bool_decide_true in Hm by apply Hst.
  injection Hm as <- <-. exists id, row, t. split_and!; try done.
  - by eexists.
  - unfold recovery_deadline, Before. destruct (Z.ltb_spec (c_ExpiresAt row) t); lia.
  - unfold recovery_deadline, Before. destruct (Z.ltb_spec (c_ExpiresAt row) t); lia.
Qed.

(** *** The expiry sweep *)

(** The status a released ceiling ends in. *)
Definition released_status (c : CeilingRow) : CeilingStatus :=
  if decide (c_Status c = CeilingRecoveryPending) then CeilingRevoked else CeilingExpired.

Lemma release_candidate_ceilings id row w :
  let d' := w_st (release_candidate (ceilingToDomain (id, row)) w).2 in
  ceiling_tokens d' = ceiling_tokens (w_st w) \/
  ceiling_tokens d' = ceilings_after id (released_status row) (ceiling_tokens (w_st w)).
Proof.
  cbn zeta. destruct (release_candidate _ w) as [[[]|e] w'] eqn:H.
  2:{ left. unfold release_candidate, Tx in H. apply tx_err in H. cbn. by rewrite H. }
  right. unfold release_candidate, Tx in H. apply runs_tx in H as (_ & w1 & H & _ & _ & ->).
  apply runs_bind in H as (n & w2 & Hn & H). apply runs_wrapping in Hn. quiet_in Hn Hw2.
  destruct (0 <? n); [by apply runs_throw in H|]. cbn in Hw2. cbn [ct_Status ceilingToDomain] in H.
  unfold released_status. case_bool_decide as Hst;
    apply runs_releaseCeiling in H as (_ & Hc & _); cbn; cbn in Hc; rewrite Hc, Hw2.
  - by rewrite decide_True.
  - by rewrite decide_False.
Qed.

Lemma release_all_ceilings (rows : list (string * CeilingRow)) : forall n w,
  NoDup rows.*1 -> (forall r, r ∈ rows -> ceiling_tokens (w_st w) !! r.1 = Some r.2) ->
  let d' := w_st (release_all (map ceilingToDomain rows) n w).2 in
  (forall i, i ∉ rows.*1 -> ceiling_tokens d' !! i = ceiling_tokens (w_st w) !! i) /\
  forall r, r ∈ rows -> ceiling_tokens d' !! r.1 = Some r.2 \/
    ceiling_tokens d' !! r.1 = Some (set_c_Status (released_status r.2) r.2).
Proof.
  cbn zeta. induction rows as [|[id row] rows IH]; intros n w Hnd Hrows; cbn [map release_all].
  { split; [done|]. by intros r ?%not_elem_of_nil. }
  cbn in Hnd. apply NoDup_cons in Hnd as [Hid Hnd].
  destruct (release_candidate (ceilingToDomain (id, row)) w) as [r w1] eqn:H1.
  assert (attempt (release_candidate (ceilingToDomain (id, row))) w = (Ok r, w1)) as Ha
    by (unfold attempt; by rewrite H1).
  rewrite (bind_ok _ _ _ _ _ Ha).
  pose proof (release_candidate_ceilings id row w) as Hc. rewrite H1 in Hc. cbn in Hc.
  assert (forall i, i <> id -> ceiling_tokens (w_st w1) !! i = ceiling_tokens (w_st w) !! i) as Hne.
  { intros i Hi. destruct Hc as [->| ->]; [done|]. unfold ceilings_after.
    by rewrite lookup_alter_ne. }
  assert (ceiling_tokens (w_st w1) !! id = Some row \/
    ceiling_tokens (w_st w1) !! id = Some (set_c_Status (released_status row) row)) as Hown.
  { pose proof (Hrows (id, row) ltac:(left)) as Hr. cbn in Hr. destruct Hc as [->| ->]; [by left|right].
    unfold ceilings_after. by rewrite lookup_alter_eq, Hr. }
  assert (forall m, let d' := w_st (release_all (map ceilingToDomain rows) m w1).2 in
    (forall i, i ∉ id :: rows.*1 -> ceiling_tokens d' !! i = ceiling_tokens (w_st w) !! i) /\
    forall r, r ∈ (id, row) :: rows -> ceiling_tokens d' !! r.1 = Some r.2 \/
      ceiling_tokens d' !! r.1 = Some (set_c_Status (released_status r.2) r.2)) as Hgo.
  { intros m. cbn zeta. destruct (IH m w1) as [IH1 IH2]; [done| |].
    - intros r' Hr'. rewrite Hne; [apply Hrows; by right|]. intros Heq. apply Hid.
      rewrite <- Heq. by apply list_elem_of_fmap_2.
    - split.
      + intros i [Hi1 Hi2]%not_elem_of_cons. by rewrite IH1, Hne.
      + intros r' [->|Hr']%elem_of_cons; [|by apply IH2]. cbn. by rewrite IH1. }
  destruct r as [[]|e]; [apply Hgo|]. destruct (errors_is e errStaleCandidate); [apply Hgo|].
  cbn. split.
  - intros i [Hi1 Hi2]%not_elem_of_cons. by apply Hne.
  - intros r' [->|Hr']%elem_of_cons; [done|]. left. rewrite Hne; [apply Hrows; by right|].
    intros Heq. apply Hid. rewrite <- Heq. by apply list_elem_of_fmap_2.
Qed.

(** The sweep touches due ceilings only: whatever its outcome, every ceiling stays as it was
    unless it was past its expiry (or, in recovery, past its release deadline) by more
    than the grace and had no claim in flight, and those become EXPIRED (or REVOKED). *)
Lemma ReleaseOnExpiry_only_due w i c :
  let now := clock (w_clk w) in
  let d := w_st w in let d' := w_st (ReleaseOnExpiry w).2 in
  ceiling_tokens d !! i = Some c ->
  ceiling_tokens d' !! i = Some c \/
  releasable (tstz (now - ReleaseGrace)) d i c = true /\
  ceiling_tokens d' !! i = Some (set_c_Status (released_status c) c).
Proof.
  cbn zeta. intros Hc. unfold ReleaseOnExpiry.
  set (w0 := World (w_st w) (w_ids w) (S (w_clk w)) (w_ops w) (w_log w)).
  assert (now w = (Ok (clock (w_clk w)), w0)) as Hnow by done.
  rewrite (bind_ok _ _ _ _ _ Hnow). set (t := clock (w_clk w) - ReleaseGrace) in *.
  set (m := wrapping "wallet: list releasable" (ListReleasableExpiredCeilings t)).
  assert (forall P, preserves P m) as Hq by (subst m; quiet).
  destruct (m w0) as [[cs|e] w1] eqn:Hl;
    [rewrite (bind_ok _ _ _ _ _ Hl)|rewrite (bind_err _ _ _ _ _ Hl)].
  2:{ left. pose proof (Hq (fun d => d = w_st w) w0 eq_refl) as Hw1. rewrite Hl in Hw1.
      cbn in *. by rewrite Hw1. }
  assert (w_st w1 = w_st w) as Hw1 by (apply (quiet_runs m w0 cs w1 Hq Hl)).
  apply runs_wrapping in Hl. unfold ListReleasableExpiredCeilings in Hl.
  apply runs_bind in Hl as (rows & w2 & Hr & Hl). apply runs_ret in Hl as [-> ->].
  apply runs_query in Hr as (_ & Hr & _). cbn in Hr.
  unfold q_ListReleasableExpiredCeilings, tsz in Hr. destruct (IsZero t).
  { injection Hr as <-. left. cbn. by rewrite Hw1. }
  injection Hr as <-. set (P := releasable (tstz t) (w_st w)) in *.
  set (rows := rows_where P (ceiling_tokens (w_st w))) in *.
  destruct (release_all_ceilings rows 0 w2) as [Hout Hin].
  { apply rows_where_NoDup. }
  { intros [k r] Hk. apply elem_of_rows_where in Hk as [Hk _]. by rewrite Hw1. }
  destruct (decide (i ∈ rows.*1)) as [Hi|Hi].
  - apply list_elem_of_fmap in Hi as ([k r] & -> & Hk). pose proof Hk as Hk'.
    apply elem_of_rows_where in Hk as [Hk1 Hk2]. cbn in Hc. rewrite Hk1 in Hc. injection Hc as ->.
    destruct (Hin _ Hk') as [?|?]; [by left|right]. done.
  - left. rewrite Hout, Hw1 by done. done.
Qed.

(** The two windows do not overlap: once a ceiling is due for the sweep, no claim on it
    passes the checks of settlement, at that time or later, as long as the claim carries
    the expiry the ceiling was issued with and settlement's grace is not longer than the
    sweep's. *)
Lemma due_ceilings_take_no_claims (ss : SettlementService) d id row t t' submitter item :
  ss_ClockGrace ss <= ReleaseGrace ->
  ceiling_tokens d !! id = Some row ->
  releasable (tstz (t - ReleaseGrace)) d id row = true -> t <= t' ->
  ct_ID (ci_Ceiling item) = id -> instant (ct_ExpiresAt (ci_Ceiling item)) = c_ExpiresAt row ->
  ~ checked ss submitter item t' d.
Proof.
  intros Hg Hrow Hrel Ht Hid Hexp [_ _ [_ _ _ _ _ Hwin] _ (c & Hc & Hopen)].
  rewrite Hid, Hrow in Hc. injection Hc as <-. rewrite Hexp in Hwin.
  assert (tstz (t - ReleaseGrace) <= t - ReleaseGrace) as Htr.
  { unfold tstz, truncate_us. pose proof (Z.mul_div_le (t - ReleaseGrace) 1000). lia. }
  unfold releasable in Hrel. apply andb_true_iff in Hrel as [Hrel _].
  destruct Hopen as [Hst|[Hst (r & Hr & Hlt)]]; rewrite Hst in Hrel.
  - apply Z.ltb_lt in Hrel. lia.
  - rewrite Hr in Hrel. apply Z.ltb_lt in Hrel. unfold ReleaseGrace, Minute, Second in *. lia.
Qed.

End WalletProps.
