(* ===== verification/Honest.v ===== *)
(** * An honest payment goes through

    The wallet, the identity service and settlement together: a payment made with a ceiling
    the bank issued, for a request that carries a card the bank issued, each party signing
    with the key of its device, passes every check of settlement and is accepted. *)

From S2P Require Import Prelude Domain Json Crypto Store AuthStore Repo AuthRepo Text Identity Books Solvency Wallet Settlement SettlementFacts SubmitFacts Acceptance WalletProps.

Section Honest.
Context {E : Env} {K : CacheEnv} {C : Ed25519} {HC : Ed25519Laws C} {F : FreshIDs E}.
Variables (ws : Service) (cs : IdentityService) (ss : SettlementService).
Implicit Types w : world db effect.

(** ** What the bank issues verifies under its stored key *)

Lemma issued_ceiling u n ttl w ct e w' :
  quiet_service ws -> silent_gate ws -> s_Signer ws = None -> ttl mod 1000 = 0 -> bank_ok w ->
  runs (FundOffline ws u n ttl) w (ct, e) w' ->
  ct_PayerID ct = u /\ ct_SequenceStart ct = 0 /\
  exists k, bank_signing_keys (w_st w) !! ct_BankKeyID ct = Some k /\
    VerifyCeiling (bk_PublicKey k) (ceiling_payload ct) (ct_BankSignature ct) = Ok tt.
Proof.
  intros Hq Hs Hsg Htl Hbank H. pose proof H as Hx. apply runs_FundOffline in Hx as (_ & _ & m & w1
    & w2 & _ & Hst & Hlog & Hx & _); [|done].
  apply runs_fundOfflineInTx in Hx as (ma & li & id & row & -> & _ & _ & _ & _ & _ & _ & _ & _ & _ & Hu
    & _ & _ & Hseq & _). split; [exact Hu|]. split; [exact Hseq|].
  by apply (issued_verifies ws u n ttl w (ceilingToDomain (id, row)) e w').
Qed.

Lemma silent_GetMe u w me w' :
  runs (Adapter_GetMe u) w me w' ->
  w_st w' = w_st w /\
  cache_get bankSigningActiveCacheKey (w_log w') = cache_get bankSigningActiveCacheKey (w_log w).
Proof.
  unfold Adapter_GetMe. intros H. apply runs_bind in H as (x & w1 & H1 & H).
  apply runs_ret in H as [_ ->]. unfold Repo_GetMe in H1.
  apply runs_bind in H1 as (hit & w2 & Hh & H1).
  assert (w2 = w) as -> by (unfold runs, cache_lookup in Hh; by injection Hh as _ <-).
  assert (forall v, runs (let! row := or_missing (query (q_GetMeProjection u)) in
      do! emit (EvCacheSet (userMeCacheKey u) (CachedMe (me_of row))) in ret (me_of row)) w x v ->
    w_st v = w_st w /\
    cache_get bankSigningActiveCacheKey (w_log v) = cache_get bankSigningActiveCacheKey (w_log w)) as Hdb.
  { intros v Hv. apply runs_bind in Hv as (row & v1 & Hq & Hv).
    assert (w_log v1 = w_log w) as Hl
      by (eapply runs_silent; [|exact Hq]; unfold or_missing; auto with silence).
    unfold or_missing in Hq. quiet_in Hq Hv1.
    apply runs_bind in Hv as ([] & v2 & He & Hv). apply runs_emit in He as ->.
    apply runs_ret in Hv as [_ ->]. cbn. split; [done|]. rewrite Hl. by rewrite cache_get_snoc. }
  destruct hit as [[|? ? ?|?|m|?|?]|]; try by apply Hdb. by apply runs_ret in H1 as [_ ->].
Qed.

Lemma issued_card u w card w' :
  id_Signer cs = None -> bank_ok w -> runs (IssueDisplayCard cs u) w card w' ->
  exists k, bank_signing_keys (w_st w) !! dc_BankKeyID card = Some k /\
    VerifyDisplayCard (bk_PublicKey k) (DisplayCard_Payload card) (dc_ServerSignature card) = Ok tt.
Proof.
  intros Hsg Hbank H. unfold IssueDisplayCard in H. apply runs_bind in H as (me & w1 & Hm & H).
  apply runs_wrapping, silent_GetMe in Hm as [Hst Hlog].
  case_bool_decide; [by apply runs_throw in H|].
  apply runs_bind in H as (key & w2 & Hk & H). apply runs_wrapping in Hk.
  assert (bank_ok w1) as Hb1
    by (destruct Hbank as [H1 H2 H3]; constructor; rewrite ?Hst, ?Hlog; done).
  pose proof (runs_active_key _ _ _ Hb1 Hk) as Hkey. rewrite Hst in Hkey.
  apply runs_bind in H as (t & w3 & _ & H).
  apply runs_bind in H as (sig & w4 & Hs & H). apply runs_wrapping, runs_lift in Hs as [Hs _].
  apply runs_ret in H as [-> _]. exists key. cbn. split; [done|].
  rewrite (bo_paired _ Hbank _ _ Hkey). unfold Identity_sign in Hs. rewrite Hsg in Hs.
  destruct (negb _); [discriminate|]. by apply verify_sign_with in Hs.
Qed.

(** What the bank issues is dated without an offset. *)
Lemma issued_ceiling_utc u n ttl w ct e w' :
  runs (FundOffline ws u n ttl) w (ct, e) w' ->
  zone (ct_IssuedAt ct) = 0 /\ zone (ct_ExpiresAt ct) = 0.
Proof.
  intros H. unfold FundOffline in H. apply runs_bind in H as (m & w1 & _ & H).
  apply runs_bind in H as (issued & w2 & Hx & H). apply runs_tx in Hx as (_ & w3 & Hx & _).
  assert (issued = ct) as ->.
  { unfold register in H. destruct (s_SeqTracker ws); [|by apply runs_ret in H as [[= ->] _]].
    apply runs_bind in H as ([r|r] & w4 & _ & H); by apply runs_ret in H as [[= ->] _]. }
  apply runs_fundOfflineInTx in Hx as (ma & li & id & row & -> & _). done.
Qed.

Lemma issued_card_utc u w card w' :
  runs (IssueDisplayCard cs u) w card w' -> zone (dc_IssuedAt card) = 0.
Proof.
  intros H. unfold IssueDisplayCard in H. apply runs_bind in H as (me & w1 & _ & H).
  case_bool_decide; [by apply runs_throw in H|].
  apply runs_bind in H as (key & w2 & _ & H). apply runs_bind in H as (t & w3 & _ & H).
  apply runs_bind in H as (sig & w4 & _ & H). by apply runs_ret in H as [-> _].
Qed.

(** ** The parties are honest *)

(** The payee's request carries the card and is signed by the device it names. *)
Record honest_request (priv : bytes) (card : DisplayCard) (req : PaymentRequest) : Prop := {
  hr_card : pr_ReceiverDisplayCard req = card;
  hr_receiver : pr_ReceiverID req = dc_UserID card;
  hr_key : pr_ReceiverDevicePubkey req = ed_public priv;
  hr_signed : SignRequest priv (PaymentRequest_Payload req) = Ok (pr_ReceiverSignature req);
}.

(** The payer answers that request out of the ceiling, signed by the device it names. *)
Record honest_payment (priv : bytes) (ct : CeilingToken) (req : PaymentRequest)
  (p : PaymentToken) : Prop := {
  hp_payer : pt_PayerID p = ct_PayerID ct;
  hp_payee : pt_PayeeID p = pr_ReceiverID req;
  hp_others : pt_PayerID p <> pt_PayeeID p;
  hp_ceiling : pt_CeilingTokenID p = ct_ID ct;
  hp_nonce : pt_SessionNonce p = pr_SessionNonce req;
  hp_hash : HashRequest req = Ok (pt_RequestHash p);
  hp_amount : pr_Amount req = UnboundAmount \/ pt_Amount p = pr_Amount req;
  hp_key : ct_PayerPublicKey ct = ed_public priv;
  hp_signed : SignPayment priv (payment_payload p) = Ok (pt_PayerSignature p);
}.

Lemma honest_checked u n ttl w0 ct e w1 v w2 card w3 payer_key payee_key req p submitter t w :
  fault_free E -> quiet_service ws -> silent_gate ws ->
  s_Signer ws = None -> ttl mod 1000 = 0 -> bank_ok w0 ->
  runs (FundOffline ws u n ttl) w0 (ct, e) w1 ->
  id_Signer cs = None -> bank_ok w2 -> runs (IssueDisplayCard cs v) w2 card w3 ->
  honest_request payee_key card req -> honest_payment payer_key ct req p ->
  bank_signing_keys (w_st w0) ⊆ bank_signing_keys (w_st w) ->
  bank_signing_keys (w_st w2) ⊆ bank_signing_keys (w_st w) ->
  submitter = pt_PayerID p \/ submitter = pt_PayeeID p ->
  t <= pr_ExpiresAt req + RequestGrace -> t <= ct_ExpiresAt ct + ss_ClockGrace ss ->
  open_ceiling (w_st w) (ct_ID ct) t -> new_sequence (w_st w) p ->
  0 < pt_SequenceNumber p ->
  checked ss submitter {| ci_Payment := p; ci_Ceiling := ct; ci_Request := req |} t (w_st w).
Proof.
  intros Hf Hq Hs Hsg Htl Hb0 Hfund Hid Hb2 Hcard [Hc Hr Hrk Hrs] [Hp1 Hp2 Hp3 Hp4 Hp5 Hp6 Hp7 Hp8 Hp9]
    Hk0 Hk2 Hby Ht1 Ht2 Hopen Hnew Hpos.
  destruct (issued_ceiling _ _ _ _ _ _ _ Hq Hs Hsg Htl Hb0 Hfund) as (Hct & Hstart & k & Hk & Hver).
  destruct (issued_card _ _ _ _ Hid Hb2 Hcard) as (ck & Hck & Hcver).
  pose proof (lookup_weaken _ _ _ _ Hk Hk0) as Hkw. pose proof (lookup_weaken _ _ _ _ Hck Hk2) as Hckw.
  constructor; [| | |done|done].
  - constructor; cbn; congruence || done.
  - constructor; cbn.
    + exists k. split; [|done]. unfold q_GetBankSigningKey. by rewrite Hkw.
    + rewrite Hp8. by eapply verify_sign_with.
    + rewrite Hc. exists ck. split; [|done]. unfold q_GetBankSigningKey. by rewrite Hckw.
    + rewrite Hrk. by eapply verify_sign_with.
  - constructor; cbn; try done. by rewrite Hstart.
Qed.

(** An honest payment is accepted: when the payer spends a ceiling the wallet
    issued, on a request with a display card the identity service issued, both parties sign
    with the keys their tokens name, and either of them uploads the claim in time, while the
    ceiling is open and the sequence number unused, settlement accepts it, as long as
    nothing fails in the infrastructure and the database has room. *)
Lemma honest_claim_accepted u n ttl w0 ct e w1 v w2 card w3 payer_key payee_key req p
  batch submitter t w :
  fault_free E -> quiet_service ws -> silent_gate ws ->
  s_Signer ws = None -> ttl mod 1000 = 0 -> bank_ok w0 ->
  runs (FundOffline ws u n ttl) w0 (ct, e) w1 ->
  id_Signer cs = None -> bank_ok w2 -> runs (IssueDisplayCard cs v) w2 card w3 ->
  honest_request payee_key card req -> honest_payment payer_key ct req p ->
  bank_signing_keys (w_st w0) ⊆ bank_signing_keys (w_st w) ->
  bank_signing_keys (w_st w2) ⊆ bank_signing_keys (w_st w) ->
  submitter = pt_PayerID p \/ submitter = pt_PayeeID p ->
  t <= pr_ExpiresAt req + RequestGrace -> t <= ct_ExpiresAt ct + ss_ClockGrace ss ->
  open_ceiling (w_st w) (ct_ID ct) t -> new_sequence (w_st w) p ->
  let item := {| ci_Payment := p; ci_Ceiling := ct; ci_Request := req |} in
  room ss item (w_st w) -> unused w ->
  exists w', runs (submitOne ss batch submitter item t) w (accepted p (new_id (w_ids w))) w'.
Proof.
  intros Hf Hq Hs Hsg Htl Hb0 Hfund Hid Hb2 Hcard Hreq Hpay Hk0 Hk2 Hby Ht1 Ht2 Hopen Hnew item
    Hroom Hun.
  assert (checked ss submitter item t (w_st w)) as Hck.
  { apply (honest_checked u n ttl w0 ct e w1 v w2 card w3 payer_key payee_key); try done.
    apply (rm_sequence _ _ _ Hroom). }
  destruct (checked_claim_accepted ss Hf batch submitter item t w Hck Hroom Hun) as (w' & Hw' & _).
  by exists w'.
Qed.

End Honest.
