(* ===== verification/FraudProps.v ===== *)
(** * The properties of the offline fraud score

    The score is a number between 0 and 1 whatever the signals are and however many; recording
    a signal adds to the score of its user and to nothing else; and a wallet wired with the
    service grants what the tier of its user allows. *)

From Stdlib Require Import Floats.SpecFloat.
From S2P Require Import Prelude Float Domain Json Crypto Store Repo Fraud Text Books Solvency Wallet WalletProps Honest.

#[local] Open Scope Z_scope.

(** ** The score stays between 0 and 1 *)

Definition unit_interval (x : float) : Prop := fleb fzero x = true /\ fleb x fone = true.

Lemma WeightFor_positive t : fpositive (WeightFor t).
Proof. destruct t; vm_compute; repeat constructor. Qed.

(** A signal is never younger than it is. *)
Lemma decay_exponent t e :
  fnonpos (fdiv (fopp (Seconds (Z.max 0 (Sub t (fe_CreatedAt e))))) (Seconds HalfLife)).
Proof.
  apply signed_nonpos, fdiv_signed; [|by vm_compute].
  by apply (signed_fopp false), Seconds_signed, Z.le_max_l.
Qed.

Section Score.
Context {E : Env} {M : Libm} {HM : LibmLaws M}.
Implicit Types w : world db effect.

Lemma decay_nonneg t e : fnonneg (decay t e).
Proof. apply Pow_decays, decay_exponent. Qed.

Lemma add_events_signed t events : forall st,
  has_sign false st.1 -> has_sign false (foldl (add_event t) st events).1.
Proof.
  induction events as [|e events IH]; intros st Hst; [done|]. apply IH. cbn.
  apply fadd_signed; [done|]. apply fmul_nonneg; [apply WeightFor_positive|apply decay_nonneg].
Qed.

Lemma squash_unit raw : has_sign false raw -> unit_interval (squash raw).
Proof.
  intros Hraw. destruct (Exp_decays (fopp raw)) as [He He'];
    [by apply signed_nonpos, (signed_fopp false)|].
  pose proof (one_minus_number _ He He') as Hn. unfold squash.
  set (x := fsub fone (Exp (fopp raw))) in *. destruct (fltb x fzero) eqn:H0.
  { by vm_compute. }
  destruct (fltb fone x) eqn:H1; [by vm_compute|].
  split; [by apply not_less|by apply not_less].
Qed.

(** The latest of some instants, from a first one. *)
Lemma add_events_latest t events : forall st,
  (foldl (add_event t) st events).2 = foldl Z.max st.2 (map fe_CreatedAt events).
Proof.
  induction events as [|e events IH]; intros st; [done|]. cbn. rewrite IH. f_equal. cbn.
  unfold After. destruct (Z.ltb_spec st.2 (fe_CreatedAt e)); lia.
Qed.

Lemma score_of_unit u events t : unit_interval (sr_Score (score_of u events t)).
Proof.
  unfold score_of. destruct events as [|e events]; [by vm_compute|].
  pose proof (add_events_signed t (e :: events) (fzero, time_zero) eq_refl) as Hraw.
  destruct (foldl _ _ _) as [raw latest]. by apply squash_unit.
Qed.

Lemma score_of_tier u events t :
  let s := score_of u events t in sr_CeilingTier s = tierFor (sr_Score s).
Proof. unfold score_of. destruct events; [by vm_compute|]. by destruct (foldl _ _ _). Qed.

End Score.

(** ** What the services do *)

Section Gate.
Context {E : Env} {M : Libm}.
Implicit Types w : world db effect.

Lemma preserves_Score P u : preserves P (Score u).
Proof.
  unfold Score, ListFraudSignalsForUser. apply preserves_bind; [|intros; apply preserves_bind; quiet].
  apply preserves_bind; quiet.
Qed.

Lemma preserves_ClampCeiling P u n : preserves P (ClampCeiling u n).
Proof. apply preserves_bind; [apply preserves_Score|quiet]. Qed.

Lemma silent_ClampCeiling u n : silent (ClampCeiling u n).
Proof.
  unfold ClampCeiling, Score, ListFraudSignalsForUser. repeat (apply silent_bind; [|intros]);
    auto with silence.
Qed.

Lemma runs_Score u w s w' :
  runs (Score u) w s w' ->
  w_st w' = w_st w /\ exists t rows,
    q_ListFraudSignalsForUser u (w_st w) = Ok rows /\ s = score_of u (map fraudToDomain rows) t.
Proof.
  intros H. split; [by apply (quiet_runs _ _ _ _ (fun P => preserves_Score P u) H)|].
  apply runs_bind in H as (events & w1 & Hl & H). apply runs_bind in Hl as (rows & w2 & Hl & He).
  apply runs_ret in He as [-> ->]. apply runs_query in Hl as (_ & Hl & _).
  apply runs_bind in H as (t & w3 & _ & H). apply runs_ret in H as [-> _]. by exists t, rows.
Qed.

(** The gate of a wallet wired with the service. *)
Definition gated (s : Service) : Prop := s_Fraud s = Some ClampCeiling.

Lemma gated_silent s : gated s -> silent_gate s.
Proof. intros Hs clamp u n. rewrite Hs. intros [= <-]. apply silent_ClampCeiling. Qed.

Lemma gated_clamp s u n ttl w : gated s -> 0 < n -> 0 < ttl ->
  clamp_amount s u n ttl w =
  match Score u w with
  | (Err e, w1) => (Err (ErrWrap "wallet: fraud clamp" e), w1)
  | (Ok sc, w1) =>
      let allowed := (cap (sr_CeilingTier sc) n).1 in
      (if allowed <=? 0 then Err ErrSuspended else Ok (if allowed <? n then allowed else n), w1)
  end.
Proof.
  intros Hs Hn Ht. unfold clamp_amount. rewrite !(proj2 (Z.leb_gt _ _)) by done.
  rewrite Hs. unfold ClampCeiling, bind, wrapping, ret, throw.
  destruct (Score u w) as [[sc|e] w1]; [|done]. destruct (cap _ n) as [allowed tier]. cbn [fst].
  by destruct (allowed <=? 0).
Qed.

End Gate.

(** The greatest of some instants and a first one. *)
Lemma foldl_max l : forall x,
  x <= foldl Z.max x l /\ Forall (fun y => y <= foldl Z.max x l) l /\
  (foldl Z.max x l = x \/ foldl Z.max x l ∈ l).
Proof.
  induction l as [|y l IH]; intros x; cbn; [by split; [lia|]; split; [constructor|left]|].
  destruct (IH (Z.max x y)) as (H1 & H2 & H3). split; [lia|]. split; [constructor; [lia|done]|].
  destruct H3 as [-> | H3]; [|right; by right].
  destruct (Z.max_spec x y) as [[_ ->]|[_ ->]]; [right; by left|by left].
Qed.

Lemma score_of_events {E : Env} {M : Libm} u events t :
  let s := score_of u events t in
  sr_EventCount s = Z.of_nat (length events) /\
  match sr_LastEventAt s with
  | None => Forall (fun e => fe_CreatedAt e <= time_zero) events
  | Some t => t ∈ map fe_CreatedAt events /\ Forall (fun e => fe_CreatedAt e <= t) events
  end.
Proof.
  unfold score_of. destruct events as [|e0 events0]; [by split; [|constructor]|]. set (events := e0 :: events0).
  pose proof (add_events_latest t events (fzero, time_zero)) as Hl.
  destruct (foldl (add_event t) _ events) as [raw latest]. cbn [fst snd] in *. subst latest.
  destruct (foldl_max (map fe_CreatedAt events) time_zero) as (H1 & H2 & H3). rewrite Forall_map in H2.
  split; [done|]. cbn [sr_LastEventAt]. unfold IsZero.
  destruct (Z.eqb_spec (foldl Z.max time_zero (map fe_CreatedAt events)) time_zero) as [Heq|Hne].
  - by rewrite Heq in H2.
  - destruct H3 as [H3|H3]; [done|]. by split.
Qed.

Section Properties.
Context {E : Env} {M : Libm} {HM : LibmLaws M}.
Implicit Types w : world db effect.

(** Claim C31: whatever signals a user has, of any age and however many, the score is a number
    between 0 and 1, never NaN, and the tier is that of the score; it counts exactly the
    signals of the user, names the instant of the latest, and changes nothing. *)
Theorem Score_bounded u w s w' :
  runs (Score u) w s w' ->
  w_st w' = w_st w /\ unit_interval (sr_Score s) /\ sr_CeilingTier s = tierFor (sr_Score s) /\
  exists rows,
    NoDup rows.*1 /\
    (forall i g, (i, g) ∈ rows <-> fraud_signals (w_st w) !! i = Some g /\ g_UserID g = u) /\
    sr_EventCount s = Z.of_nat (length rows) /\
    match sr_LastEventAt s with
    | None => Forall (fun r => g_CreatedAt r.2 <= time_zero) rows
    | Some t => t ∈ map (fun r => g_CreatedAt r.2) rows /\
                Forall (fun r => g_CreatedAt r.2 <= t) rows
    end.
Proof.
  intros H. apply runs_Score in H as (Hw & t & rows & Hq & ->). split; [done|].
  split; [apply score_of_unit|]. split; [apply score_of_tier|].
  injection Hq as Hq. exists rows. pose proof (merge_sort_Permutation signal_newest
    (rows_where (fun _ g => bool_decide (g_UserID g = u)) (fraud_signals (w_st w)))) as Hp.
  rewrite Hq in Hp. split; [rewrite Hp; apply rows_where_NoDup|]. split.
  { intros i g. rewrite Hp, elem_of_rows_where, bool_decide_eq_true. done. }
  destruct (score_of_events u (map fraudToDomain rows) t) as [Hc Hl].
  rewrite length_map in Hc. split; [exact Hc|].
  assert (forall r, fe_CreatedAt (fraudToDomain r) = g_CreatedAt r.2) as Hat by (by intros []).
  destruct (sr_LastEventAt _) as [last|].
  - rewrite map_map, Forall_map in Hl. destruct Hl as [Hin Hle]. split.
    + rewrite (map_ext _ (fun r => fe_CreatedAt (fraudToDomain r))); [done|]. by intros.
    + eapply Forall_impl; [exact Hle|]. intros r Hr. by rewrite <- Hat.
  - rewrite Forall_map in Hl. eapply Forall_impl; [exact Hl|]. intros r Hr. by rewrite <- Hat.
Qed.

End Properties.

Section Wallet.
Context {E : Env} {M : Libm} {K : CacheEnv} {C : Ed25519}.
Implicit Types w : world db effect.

Lemma cap_reduced n : cap TierReduced n = (Z.min n ReducedCapKobo, TierReduced).
Proof.
  unfold cap. rewrite bool_decide_eq_false_2, bool_decide_eq_true_2 by done.
  destruct (Z.ltb_spec ReducedCapKobo n); f_equal; lia.
Qed.

(** Claim C29: a wallet wired with the fraud service grants what the tier of its user allows: when
    the score cannot be read nobody is funded; a user whose score has reached the suspension
    threshold gets ErrSuspended before anything is written; one above the reduction threshold
    gets at most the reduced cap; everybody else gets exactly what they ask for. *)
Theorem FundOffline_tiers s u n ttl w :
  gated s -> 0 < n -> 0 < ttl ->
  match Score u w with
  | (Err e, w1) =>
      FundOffline s u n ttl w = (Err (ErrWrap "wallet: fraud clamp" e), w1) /\ w_st w1 = w_st w
  | (Ok sc, w1) =>
      w_st w1 = w_st w /\
      if fleb ThresholdSuspended (sr_Score sc) then FundOffline s u n ttl w = (Err ErrSuspended, w1)
      else forall ct e w', runs (FundOffline s u n ttl) w (ct, e) w' ->
        ct_CeilingAmount ct = if fleb ThresholdReduced (sr_Score sc) then Z.min n ReducedCapKobo else n
  end.
Proof.
  intros Hs Hn Ht. pose proof (gated_clamp s u n ttl w Hs Hn Ht) as Hc.
  pose proof (preserves_Score (fun d => d = w_st w) u w eq_refl) as Hw1.
  destruct (Score u w) as [[sc|e] w1] eqn:Hsc; cbn [snd] in Hw1.
  2: { split; [by apply bind_err|done]. }
  split; [done|]. assert (sr_CeilingTier sc = tierFor (sr_Score sc)) as Htier.
  { apply runs_Score in Hsc as (_ & t & rows & _ & ->). apply score_of_tier. }
  rewrite Htier in Hc. unfold tierFor in Hc.
  assert (forall m, clamp_amount s u n ttl w = (Ok m, w1) ->
    forall ct e w', runs (FundOffline s u n ttl) w (ct, e) w' -> ct_CeilingAmount ct = m) as Hgrant.
  { intros m Hm ct e w' H. unfold runs, FundOffline in H. rewrite (bind_ok _ _ _ _ _ Hm) in H.
    apply runs_bind in H as (issued & w2 & Hx & H). apply register_issued in H as ->.
    unfold Tx in Hx. apply runs_tx in Hx as (_ & w3 & Hx & _).
    apply runs_fundOfflineInTx in Hx as (? & ? & id & row & -> & Hx). cbn. tauto. }
  destruct (fleb ThresholdSuspended _); [by apply bind_err|].
  destruct (fleb ThresholdReduced _); cbn [cap] in Hc.
  - rewrite cap_reduced in Hc. cbn [fst] in Hc.
    cbv zeta in Hc. intros ct e w'. apply Hgrant. rewrite Hc.
    assert (0 < ReducedCapKobo) by (vm_compute; reflexivity).
    rewrite (proj2 (Z.leb_gt _ _)) by lia. destruct (Z.ltb_spec (Z.min n ReducedCapKobo) n); do 2 f_equal; lia.
  - change (cap TierStandard n) with (n, TierStandard) in Hc. cbn [fst] in Hc.
    rewrite (proj2 (Z.leb_gt _ _)), Z.ltb_irrefl in Hc by lia. by apply Hgrant.
Qed.


End Wallet.
