(* ===== verification/Members.v ===== *)
(** * Members: who the rows speak of, and how users join

    Payments and ceilings only name registered users, and the treasury is a main
    account.  With that, a registration opens empty accounts nothing refers to yet, so
    that it keeps the books and the liens. *)

From S2P Require Import Prelude Domain Json Crypto Store Repo Books Solvency Wallet DemoMint Settlement.

Record members (d : db) : Prop := {
  mb_payee i p : payment_tokens d !! i = Some p -> is_Some (users d !! p_PayeeUserID p);
  mb_payer i c : ceiling_tokens d !! i = Some c -> is_Some (users d !! c_PayerUserID c);
  mb_treasury : exists u, account_of d TreasuryAccountID u AccountKindMain;
}.

(** ** The statements keep the members *)

Definition keeps_members {A} (f : Time -> db -> result (A * db)) : Prop :=
  forall t d a d', members d -> f t d = Ok (a, d') -> members d'.

Lemma members_same d d' :
  members d -> users d' = users d -> accounts d' = accounts d ->
  payment_tokens d' = payment_tokens d -> ceiling_tokens d' = ceiling_tokens d -> members d'.
Proof.
  intros [] Hu Ha Hp Hc. constructor; unfold account_of in *; rewrite ?Hu, ?Ha, ?Hp, ?Hc; done.
Qed.

Lemma members_balance d id a v :
  members d -> accounts d !! id = Some a ->
  members (with_accounts (<[id := {| a_UserID := a_UserID a; a_Kind := a_Kind a;
                                     a_BalanceKobo := v |}]> (accounts d)) d).
Proof.
  intros [Hp Hc (u & b & Hb & Hu & Hk)] Ha. constructor; cbn; [done..|].
  exists u. unfold account_of. cbn. destruct (decide (id = TreasuryAccountID)) as [->|Hn].
  - rewrite lookup_insert_eq. rewrite Ha in Hb. injection Hb as <-. eauto.
  - rewrite lookup_insert_ne by done. eauto.
Qed.

Lemma members_ceiling d id c :
  members d -> is_Some (users d !! c_PayerUserID c) ->
  members (with_ceiling_tokens (<[id := c]> (ceiling_tokens d)) d).
Proof.
  intros [Hp Hc Ht] Hu. constructor; cbn; [done| |done].
  intros i x Hi. apply lookup_insert_Some in Hi as [[_ <-]|[_ Hi]]; eauto.
Qed.

Lemma members_payment d id p :
  members d -> is_Some (users d !! p_PayeeUserID p) ->
  members (with_payment_tokens (<[id := p]> (payment_tokens d)) d).
Proof.
  intros [Hp Hc Ht] Hu. constructor; cbn; [|done..].
  intros i x Hi. apply lookup_insert_Some in Hi as [[_ <-]|[_ Hi]]; eauto.
Qed.

Lemma members_user d id u :
  members d -> users d !! id = None -> members (with_users (<[id := u]> (users d)) d).
Proof.
  intros [Hp Hc Ht] Hid.
  assert (forall x, is_Some (users d !! x) -> is_Some (<[id := u]> (users d) !! x)) as Hs.
  { intros x Hx. destruct (decide (x = id)) as [->|Hn];
      [by rewrite lookup_insert_eq|by rewrite lookup_insert_ne]. }
  constructor; cbn; [|by eauto..]. eauto.
Qed.

Lemma set_balance_members id a v d x d' :
  members d -> accounts d !! id = Some a -> set_balance id a v d = Ok (x, d') -> members d'.
Proof.
  intros Hm Ha H. unfold set_balance in H. guards H. injection H as _ <-.
  by apply members_balance.
Qed.

Lemma debit_members id n : keeps_members (q_DecrementAccountBalance id n).
Proof.
  intros t d a d' Hm H. unfold q_DecrementAccountBalance in H.
  destruct (accounts d !! id) as [x|] eqn:Hx; [|done]. destruct (n <=? _); [|done].
  by eapply set_balance_members.
Qed.
Lemma force_debit_members id n : keeps_members (q_ForceDecrementAccountBalance id n).
Proof.
  intros t d a d' Hm H. unfold q_ForceDecrementAccountBalance in H.
  destruct (accounts d !! id) as [x|] eqn:Hx; [|done]. by eapply set_balance_members.
Qed.
Lemma credit_members id n : keeps_members (q_IncrementAccountBalance id n).
Proof.
  intros t d a d' Hm H. unfold q_IncrementAccountBalance in H.
  destruct (accounts d !! id) as [x|] eqn:Hx; [|done]. by eapply set_balance_members.
Qed.
Lemma entry_members e : keeps_members (q_InsertLedgerEntry e).
Proof.
  intros t d a d' Hm H. unfold q_InsertLedgerEntry in H. guards H. injection H as _ <-.
  by apply (members_same d).
Qed.
Lemma issue_members p : keeps_members (q_CreateCeilingToken p).
Proof.
  intros t d a d' Hm H. unfold q_CreateCeilingToken in H. guards H. injection H as _ <-.
  apply members_ceiling; [done|]. cbn. eapply fk_ok; eassumption.
Qed.
Lemma ceiling_status_members id st : keeps_members (q_UpdateCeilingStatus id st).
Proof.
  intros t d a d' Hm H. unfold q_UpdateCeilingStatus in H. apply result_bind_ok in H as ([] & _ & H).
  destruct (ceiling_tokens d !! id) as [c|] eqn:Hc; [|by injection H as _ <-].
  guards H. injection H as _ <-. apply members_ceiling; [done|]. exact (mb_payer d Hm _ _ Hc).
Qed.
Lemma recovery_members id r : keeps_members (q_MarkCeilingRecoveryPending id r).
Proof.
  intros t d a d' Hm H. unfold q_MarkCeilingRecoveryPending in H.
  destruct (ceiling_tokens d !! id) as [c|] eqn:Hc; [|by injection H as _ <-].
  case_bool_decide; injection H as _ <-; [|done].
  apply members_ceiling; [done|]. exact (mb_payer d Hm _ _ Hc).
Qed.
Lemma payment_members p : keeps_members (q_CreatePaymentToken p).
Proof.
  intros t d a d' Hm H. unfold q_CreatePaymentToken in H. guards H. injection H as _ <-.
  apply members_payment; [done|]. cbn. eapply fk_ok; eassumption.
Qed.
Lemma payment_status_members id st reason n b t1 t2 :
  keeps_members (q_UpdatePaymentStatus id st reason n b t1 t2).
Proof.
  intros t d a d' Hm H. unfold q_UpdatePaymentStatus in H.
  destruct (payment_tokens d !! id) as [p|] eqn:Hp; [|done]. guards H. injection H as _ <-.
  apply members_payment; [done|]. exact (mb_payee d Hm _ _ Hp).
Qed.
Lemma event_members p : keeps_members (q_RecordTransaction p).
Proof.
  intros t d a d' Hm H. unfold q_RecordTransaction in H. guards H. injection H as _ <-.
  by apply (members_same d).
Qed.
Lemma event_status_members id st n f : keeps_members (q_UpdateTransactionStatus id st n f).
Proof.
  intros t d a d' Hm H. unfold q_UpdateTransactionStatus in H.
  destruct (transactions d !! id); injection H as _ <-; [by apply (members_same d)|done].
Qed.
Lemma outbox_members id g gid p : keeps_members (q_InsertOutboxEntry id g gid p).
Proof.
  intros t d a d' Hm H. unfold q_InsertOutboxEntry in H. guards H. injection H as _ <-.
  by apply (members_same d).
Qed.
Lemma user_members id u : keeps_members (fun t => q_CreateUser id (u t) t).
Proof.
  intros t d a d' Hm H. unfold q_CreateUser in H. guards H. injection H as _ <-.
  apply members_user; [done|]. eapply pk_ok; eassumption.
Qed.
Lemma account_members id u k b : keeps_members (q_CreateAccount id u k b).
Proof.
  intros t d a d' Hm H. unfold q_CreateAccount in H. guards H. injection H as _ <-.
  destruct Hm as [Hp Hc (v & y & Hx & Hu & Hk)]. constructor; cbn; [done..|].
  exists v, y. cbn. split; [|done]. rewrite lookup_insert_ne; [done|].
  intros ->. apply pk_ok in Hg1. congruence.
Qed.

Create HintDb members discriminated.
#[export] Hint Resolve debit_members force_debit_members credit_members entry_members
  issue_members ceiling_status_members recovery_members payment_members
  payment_status_members event_members event_status_members outbox_members user_members
  account_members : members.

Section Members.
Context {E : Env} {K : CacheEnv} {C : Ed25519}.

Lemma members_exec {A} (f : Time -> db -> result (A * db)) :
  keeps_members f -> preserves members (exec (L:=effect) f).
Proof. intros Hf. apply preserves_exec. intros. by eapply Hf. Qed.

Lemma members_tx {A} (m : dbop A) : preserves members m -> preserves members (Tx m).
Proof. intros Hm. apply preserves_tx. intros w a w' Hw H _. by eapply runs_preserves. Qed.

Lemma members_for_each {A B} (xs : list A) (body : B -> A -> dbop B) b :
  (forall b x, preserves members (body b x)) -> preserves members (for_each xs body b).
Proof. intros H. apply preserves_for_each. eauto. Qed.

End Members.

#[export] Hint Resolve members_exec members_tx members_for_each : members.
#[export] Hint Extern 2 (preserves _ (bind _ _)) => apply preserves_bind; [| intros ?] : members.
#[export] Hint Extern 3 (preserves _ (match ?x with _ => _ end)) => destruct x : members.
#[export] Hint Extern 4 (preserves _ (let '(_, _) := ?x in _)) => destruct x : members.

(** Closes [preserves members m] by walking through [m]. *)
Ltac members := intros; auto 60 with members preserve.

(** ** The operations keep the members *)

Section OperationsKeepMembers.
Context {E : Env} {K : CacheEnv} {C : Ed25519} {M : MapOrder}.
Variable ws : Service.
Variable ss : SettlementService.

Lemma members_debit id n : preserves members (DebitAccount id n).
Proof. unfold DebitAccount. members. Qed.
Lemma members_force_debit id n : preserves members (ForceDebitAccount id n).
Proof. unfold ForceDebitAccount. members. Qed.
Lemma members_credit id n : preserves members (CreditAccount id n).
Proof. unfold CreditAccount. members. Qed.
Lemma members_RecordTransaction p : preserves members (RecordTransaction p).
Proof. unfold RecordTransaction. members. Qed.
Lemma members_PostLedger txn legs : preserves members (PostLedger txn legs).
Proof.
  unfold PostLedger. case_bool_decide; [members|]. destruct (_ <? _)%nat; [members|].
  apply members_for_each. intros _ leg. unfold post_leg. members.
Qed.
Lemma members_UpdateCeilingStatus id st : preserves members (UpdateCeilingStatus id st).
Proof. unfold UpdateCeilingStatus. members. Qed.
Lemma members_IssueCeilingToken p : preserves members (IssueCeilingToken p).
Proof. unfold IssueCeilingToken. members. Qed.
Lemma members_CreatePayment p : preserves members (CreatePayment p).
Proof. unfold CreatePayment. members. Qed.
Lemma members_UpdatePaymentStatus id st n r b t1 t2 :
  preserves members (UpdatePaymentStatus id st n r b t1 t2).
Proof. unfold UpdatePaymentStatus. members. Qed.
Lemma members_FinalizePaired g st n f : preserves members (FinalizePairedTransactions g st n f).
Proof. unfold FinalizePairedTransactions. members. Qed.
Lemma members_UpdateTransactionStatus i st n f :
  preserves members (UpdateTransactionStatus i st n f).
Proof. unfold UpdateTransactionStatus. members. Qed.

#[local] Hint Resolve members_debit members_force_debit members_credit
  members_RecordTransaction members_PostLedger members_UpdateCeilingStatus
  members_IssueCeilingToken members_CreatePayment members_UpdatePaymentStatus
  members_FinalizePaired members_UpdateTransactionStatus : members.

Lemma members_move_funds txn from to n memo c1 c2 :
  preserves members (move_funds txn from to n memo c1 c2).
Proof. unfold move_funds. members. Qed.
#[local] Hint Resolve members_move_funds : members.

Lemma members_fundOfflineInTx u n ttl : preserves members (fundOfflineInTx ws u n ttl).
Proof. unfold fundOfflineInTx, fund_guards. members. Qed.

Lemma members_releaseCeiling u c st kind memo :
  preserves members (releaseCeiling u c st kind memo).
Proof. unfold releaseCeiling. members. Qed.
#[local] Hint Resolve members_fundOfflineInTx members_releaseCeiling : members.

Lemma members_moveToMainInTx u : preserves members (moveToMainInTx u).
Proof. unfold moveToMainInTx, idle_ceiling. members. Qed.
#[local] Hint Resolve members_moveToMainInTx : members.

Lemma members_refreshInTx u n ttl : preserves members (refreshInTx ws u n ttl).
Proof. unfold refreshInTx. members. Qed.

Lemma members_MoveToMain u : preserves members (MoveToMain u).
Proof. unfold MoveToMain. members. Qed.

Lemma members_RecoverOfflineCeiling u : preserves members (RecoverOfflineCeiling ws u).
Proof. unfold RecoverOfflineCeiling, idle_ceiling, MarkCeilingRecoveryPending. members. Qed.

Lemma members_release_candidate c : preserves members (release_candidate c).
Proof. unfold release_candidate. members. Qed.

Lemma members_accept batch submitter item t :
  preserves members (Tx (accept_in_tx ss batch submitter item t)).
Proof. unfold accept_in_tx. members. Qed.

Lemma members_FinalizeForPayer payer : preserves members (FinalizeForPayer ss payer).
Proof.
  apply members_tx. unfold finalize_in_tx.
  apply preserves_bind; [members|]. intros pending.
  destruct (merge_sort txn_seq_le pending) as [|txn rest]; [members|].
  do 3 (apply preserves_bind; [members|intros ?]).
  apply preserves_bind; [|members].
  apply members_for_each. intros [rs remaining] x. unfold finalize_one, settle_balances.
  destruct (waterfall_step _ _) as [[[settled st] reason] exhausted]. members.
Qed.

Lemma members_mint_in_tx number n : preserves members (mint_in_tx number n).
Proof. unfold mint_in_tx, lookup_holder, GetUserNameByAccountNumber, debit_treasury. members. Qed.

Lemma members_create_accounts u : preserves members (create_accounts u).
Proof. unfold create_accounts. members. Qed.

Lemma members_register ctx u (row : Time -> User) :
  preserves members
    (do! wrapping ctx (exec (fun t => q_CreateUser u (row t) t)) in create_accounts u).
Proof.
  apply preserves_bind; [|intros; apply members_create_accounts].
  apply preserves_wrapping, members_exec, user_members.
Qed.

Lemma members_RegisterUserWithID u phone number bvn tier v :
  preserves members (RegisterUserWithID u phone number bvn tier v).
Proof.
  unfold RegisterUserWithID. case_bool_decide; [members|]. cbn zeta.
  apply members_tx, preserves_bind; [members|]. intros [x|e]; [members|].
  destruct (negb _); [members|]. apply members_register.
Qed.

Lemma members_RegisterUser phone number bvn tier v :
  preserves members (RegisterUser phone number bvn tier v).
Proof.
  unfold RegisterUser. cbn zeta. apply preserves_bind; [members|]. intros u.
  apply preserves_bind; [|members]. apply members_tx, members_register.
Qed.

Lemma members_Fund number bank n : preserves members (Fund number bank n).
Proof.
  unfold Fund. case_bool_decide; [members|]. destruct (negb _); [members|].
  destruct (_ || _); [members|]. apply members_tx, members_mint_in_tx.
Qed.

Lemma members_FundOffline u n ttl :
  keeps_with ws members -> preserves members (FundOffline ws u n ttl).
Proof.
  intros Hk. unfold FundOffline. apply preserves_bind; [by apply preserves_clamp_amount|].
  intros m. apply preserves_bind; [apply members_tx, members_fundOfflineInTx|].
  intros ct. by apply preserves_register.
Qed.

Lemma members_Refresh u n ttl :
  keeps_with ws members -> preserves members (Refresh ws u n ttl).
Proof.
  intros Hk. unfold Refresh. apply preserves_bind; [by apply preserves_clamp_amount|].
  intros m. apply preserves_bind; [apply members_tx, members_refreshInTx|].
  intros ct. by apply preserves_register.
Qed.

Lemma members_ReleaseOnExpiry : preserves members ReleaseOnExpiry.
Proof.
  unfold ReleaseOnExpiry. apply preserves_bind; [members|]. intros t.
  apply preserves_bind; [members|]. intros cs. generalize 0.
  induction cs as [|c rest IH]; intros n; cbn; [members|].
  apply preserves_bind; [apply preserves_attempt, members_release_candidate|].
  intros [x|e]; [apply IH|members].
Qed.

End OperationsKeepMembers.

(** ** Registration *)

(** No payment goes to the user and no ceiling is the user's. *)
Definition nobody (u : string) (d : db) : Prop :=
  (forall i p, payment_tokens d !! i = Some p -> p_PayeeUserID p <> u) /\
  (forall i c, ceiling_tokens d !! i = Some c -> c_PayerUserID c <> u).

Lemma members_nobody u d : members d -> users d !! u = None -> nobody u d.
Proof.
  intros [Hp Hc _] Hu. split.
  - intros i p Hi <-. destruct (Hp i p Hi) as [x Hx]. congruence.
  - intros i c Hi <-. destruct (Hc i c Hi) as [x Hx]. congruence.
Qed.

(** An empty account is opened for a user nothing refers to. *)
Record opened (d d' : db) (u id : string) (k : AccountKind) : Prop := {
  op_fresh : accounts d !! id = None;
  op_unique i a : accounts d !! i = Some a -> account_is u k a = false;
  op_account : accounts d' =
    <[id := {| a_UserID := u; a_Kind := k; a_BalanceKobo := 0 |}]> (accounts d);
  op_ledger : ledger_entries d' = ledger_entries d;
  op_payments : payment_tokens d' = payment_tokens d;
  op_ceilings : ceiling_tokens d' = ceiling_tokens d;
}.

Section Opened.
Variables (d d' : db) (u id : string) (k : AccountKind).
Hypothesis Hop : opened d d' u id k.
Hypothesis Hno : nobody u d.

Lemma opened_lookup i a :
  accounts d' !! i = Some a ->
  accounts d !! i = Some a \/
  i = id /\ a = {| a_UserID := u; a_Kind := k; a_BalanceKobo := 0 |}.
Proof.
  rewrite (op_account _ _ _ _ _ Hop). intros Hi.
  apply lookup_insert_Some in Hi as [[<- <-]|[_ Hi]]; [by right|by left].
Qed.

Lemma opened_kept i a : accounts d !! i = Some a -> accounts d' !! i = Some a.
Proof.
  rewrite (op_account _ _ _ _ _ Hop). intros Hi. pose proof (op_fresh _ _ _ _ _ Hop).
  rewrite lookup_insert_ne; [done|congruence].
Qed.

Lemma opened_bal i : bal d' i = bal d i.
Proof.
  unfold bal. rewrite (op_account _ _ _ _ _ Hop).
  destruct (decide (i = id)) as [->|Hn].
  - by rewrite lookup_insert_eq, (op_fresh _ _ _ _ _ Hop).
  - by rewrite lookup_insert_ne.
Qed.

Lemma opened_bal_new : bal d id = 0.
Proof. unfold bal. by rewrite (op_fresh _ _ _ _ _ Hop). Qed.

Lemma opened_nobody : nobody u d'.
Proof. unfold nobody. by rewrite (op_payments _ _ _ _ _ Hop), (op_ceilings _ _ _ _ _ Hop). Qed.

Lemma opened_clash i a : accounts d !! i = Some a -> a_UserID a = u -> a_Kind a = k -> False.
Proof.
  intros Hi <- <-. pose proof (op_unique _ _ _ _ _ Hop i a Hi) as H. unfold account_is in H.
  by rewrite !bool_decide_true in H.
Qed.

Lemma opened_books sus : books sus d -> books sus d'.
Proof.
  intros []. pose proof Hop as [_ _ _ Hl Hp _].
  constructor; unfold net, pend_all, pend_to in *; rewrite ?Hl, ?Hp; try done.
  - intros i. rewrite opened_bal. apply bk_booked.
  - intros i a Hi Hk. apply opened_lookup in Hi as [Hi|[_ ->]]; [by eapply bk_nonneg|done].
  - intros e He. destruct (bk_posted e He) as [[a Ha] Hpos]. split; [|done]. exists a. by apply opened_kept.
  - intros i j a b Hi Hj Hu Hk.
    apply opened_lookup in Hi as [Hi|[-> ->]]; apply opened_lookup in Hj as [Hj|[-> ->]]; cbn in *.
    + by eapply bk_unique.
    + by destruct (opened_clash i a Hi).
    + by destruct (opened_clash j b Hj).
    + done.
  - destruct bk_suspense as (a & Ha & Hk). exists a. split; [by apply opened_kept|done].
  - by rewrite opened_bal.
  - intros i a Hi Hk. rewrite opened_bal.
    apply opened_lookup in Hi as [Hi|[-> ->]]; [by apply bk_pending|].
    rewrite opened_bal_new. symmetry. apply sum_rows_zero. intros j p Hj. unfold pending_to.
    rewrite decide_False; [done|]. by apply (proj1 Hno j).
Qed.

Lemma opened_liens : liens d -> liens d'.
Proof.
  intros []. pose proof Hop as [_ _ _ _ Hp Hc].
  assert (forall i, sum_settled i d' = sum_settled i d) as Hs
    by (intros; by apply sum_settled_same).
  constructor; rewrite ?Hc, ?Hp; try done.
  - intros i a j c Hi Hk Hj Hlive. rewrite opened_bal, Hs.
    apply opened_lookup in Hi as [Hi|[-> ->]]; [by eapply ln_live|].
    apply live_of_spec in Hlive as [Hu _]. by destruct (proj2 Hno j c).
  - intros i a Hi Hk Hlive. rewrite opened_bal.
    apply opened_lookup in Hi as [Hi|[-> ->]]; [by eapply ln_idle|apply opened_bal_new].
  - intros i c Hi. rewrite Hs. by apply ln_cap.
Qed.

End Opened.

(** What does not look at the users, and survives the opening of accounts. *)
Record joinable (P : db -> Prop) : Prop := {
  jn_users d m : P d -> P (with_users m d);
  jn_opened d d' u id k : P d -> opened d d' u id k -> nobody u d -> P d';
}.

Lemma joinable_sound sus : joinable (fun d => books sus d /\ amounts_ok d).
Proof.
  constructor.
  - intros d m [Hb Ha]. split; [by apply (books_same sus d)|done].
  - intros d d' u id k [Hb Ha] Ho Hn. split; [by eapply opened_books|].
    eapply amounts_ok_same; [apply Ho|done].
Qed.

Lemma joinable_solvent sus : joinable (solvent sus).
Proof.
  constructor.
  - intros d m [Hb []]. split; [by apply (books_same sus d)|]. by constructor.
  - intros d d' u id k [Hb Hl] Ho Hn.
    split; [by eapply opened_books|by eapply opened_liens].
Qed.

Section Registration.
Context {E : Env}.
Variable P : db -> Prop.
Hypothesis HP : joinable P.

Lemma create_account_opens id u k t d x d' :
  q_CreateAccount id u k 0 t d = Ok (x, d') -> opened d d' u id k.
Proof.
  unfold q_CreateAccount. intros H. guards H. injection H as _ <-.
  apply pk_ok in Hg1. pose proof (unique_ok _ _ _ _ Hg2). by constructor.
Qed.

Lemma create_accounts_joins u : preserves (fun d => P d /\ nobody u d) (create_accounts u).
Proof.
  apply preserves_for_each. intros _ k _. apply preserves_bind; [quiet|]. intros id.
  apply preserves_wrapping, preserves_exec. intros t d x d' [Hd Hn] Hq.
  apply create_account_opens in Hq. split; [by eapply jn_opened|by eapply opened_nobody].
Qed.

Lemma create_user_joins id u t d x d' :
  P d /\ members d -> q_CreateUser id u t d = Ok (x, d') -> P d' /\ nobody id d'.
Proof.
  intros [Hd Hm] H. unfold q_CreateUser in H. guards H. injection H as _ <-.
  split; [by apply (jn_users P HP)|]. apply pk_ok in Hg0. by apply (members_nobody id d) in Hg0.
Qed.

Lemma register_joins ctx u (row : Time -> User) w x w' :
  P (w_st w) /\ members (w_st w) ->
  runs (do! wrapping ctx (exec (fun t => q_CreateUser u (row t) t)) in create_accounts u) w x w' ->
  P (w_st w').
Proof.
  intros Hw H. apply runs_bind in H as (y & w1 & H1 & H).
  apply runs_wrapping, runs_exec in H1 as (_ & d & H1 & ->).
  destruct (create_user_joins _ _ _ _ _ _ Hw H1) as [Hd Hn]. cbn in *.
  by eapply (runs_preserves _ _ _ _ _ (create_accounts_joins u) H).
Qed.

(** Registering a user keeps what joining keeps. *)
Lemma RegisterUserWithID_joins u phone number bvn tier v :
  preserves (fun d => (P d /\ members d) /\ balanced d)
    (RegisterUserWithID u phone number bvn tier v).
Proof.
  unfold RegisterUserWithID. case_bool_decide as Hid; [quiet|]. cbn zeta.
  apply preserves_Tx. intros w a w' Hw H.
  apply runs_bind in H as (r & w1 & Hr & H). quiet_in Hr Hw1. rewrite <- Hw1 in Hw.
  destruct r as [y|e]; [by apply runs_ret in H as [_ ->]|].
  destruct (negb _); [by apply runs_throw in H|].
  split; [by eapply register_joins|].
  apply (runs_preserves _ _ _ _ _ (members_register _ _ _) H), Hw.
Qed.

Lemma RegisterUser_joins phone number bvn tier v :
  preserves (fun d => (P d /\ members d) /\ balanced d) (RegisterUser phone number bvn tier v).
Proof.
  unfold RegisterUser. cbn zeta. apply preserves_bind; [quiet|]. intros u.
  apply preserves_bind; [|quiet]. apply preserves_Tx. intros w a w' Hw H.
  split; [by eapply register_joins|].
  apply (runs_preserves _ _ _ _ _ (members_register _ _ _) H), Hw.
Qed.

End Registration.

(** ** The two invariants of the system, with its members *)

Definition established (sus : string) (d : db) : Prop := booked sus d /\ members d.
Definition thriving (sus : string) (d : db) : Prop := good sus d /\ members d.

Lemma thriving_established sus d : thriving sus d -> established sus d.
Proof.
  intros [[[Hb Hl] Hbal] Hm]. split; [|done]. split; [|done]. split; [done|].
  intros i c Hi. by apply (ln_ceiling d Hl i).
Qed.

Section Joins.
Context {E : Env}.
Variable sus : string.

Lemma register_established u phone number bvn tier v :
  preserves (established sus) (RegisterUserWithID u phone number bvn tier v).
Proof.
  intros w [[Hs Hb] Hm].
  by destruct (RegisterUserWithID_joins _ (joinable_sound sus) u phone number bvn tier v w)
    as [[? ?] ?].
Qed.

Lemma register_thriving u phone number bvn tier v :
  preserves (thriving sus) (RegisterUserWithID u phone number bvn tier v).
Proof.
  intros w [[Hs Hb] Hm].
  by destruct (RegisterUserWithID_joins _ (joinable_solvent sus) u phone number bvn tier v w)
    as [[? ?] ?].
Qed.

Lemma register_phone_established phone number bvn tier v :
  preserves (established sus) (RegisterUser phone number bvn tier v).
Proof.
  intros w [[Hs Hb] Hm].
  by destruct (RegisterUser_joins _ (joinable_sound sus) phone number bvn tier v w) as [[? ?] ?].
Qed.

Lemma register_phone_thriving phone number bvn tier v :
  preserves (thriving sus) (RegisterUser phone number bvn tier v).
Proof.
  intros w [[Hs Hb] Hm].
  by destruct (RegisterUser_joins _ (joinable_solvent sus) phone number bvn tier v w)
    as [[? ?] ?].
Qed.

(** A mint moves money between two main accounts. *)
Lemma mint_moves number n w r w' :
  members (w_st w) -> runs (mint_in_tx number n) w r w' ->
  exists main u v, account_of (w_st w) main u AccountKindMain /\
    account_of (w_st w) TreasuryAccountID v AccountKindMain /\
    moved (w_st w) (w_st w') (transfer_fn TreasuryAccountID main n)
      (transfer_fn TreasuryAccountID main n) /\
    payment_tokens (w_st w') = payment_tokens (w_st w) /\
    ceiling_tokens (w_st w') = ceiling_tokens (w_st w).
Proof.
  intros [_ _ [v Hv]] H. apply runs_mint_in_tx in H
    as (u & row & main & _ & _ & _ & Hm & _ & Hmv & _ & _ & _ & Hp & Hc).
  by exists main, u, v.
Qed.

Lemma mint_sound number n w r w' :
  books sus (w_st w) /\ amounts_ok (w_st w) -> members (w_st w) ->
  runs (mint_in_tx number n) w r w' -> books sus (w_st w') /\ amounts_ok (w_st w').
Proof.
  intros [Hb Ha] Hmem H.
  destruct (mint_moves _ _ _ _ _ Hmem H) as (main & u & v & Hm & Ht & Hmv & Hp & Hc).
  split; [|by eapply amounts_ok_same].
  apply (books_transfer sus _ _ _ _ _ _ _ _ n Hb Ht Hm); auto.
Qed.

Lemma mint_solvent number n w r w' :
  solvent sus (w_st w) -> members (w_st w) ->
  runs (mint_in_tx number n) w r w' -> solvent sus (w_st w').
Proof.
  intros [Hb Hl] Hmem H.
  destruct (mint_moves _ _ _ _ _ Hmem H) as (main & u & v & Hm & Ht & Hmv & Hp & Hc).
  split; [apply (books_transfer sus _ _ _ _ _ _ _ _ n Hb Ht Hm); auto|].
  apply (liens_step_frame _ _ _ _ Hl Hmv Hp Hc). intros id a Ha Hk. unfold transfer_fn.
  rewrite !move_at_ne; [done| |]; intros ->.
  - pose proof (account_of_kind _ _ _ _ _ Hm Ha). congruence.
  - pose proof (account_of_kind _ _ _ _ _ Ht Ha). congruence.
Qed.

Lemma Fund_keeps (P : db -> Prop) number bank n :
  (forall w r w', P (w_st w) -> members (w_st w) -> runs (mint_in_tx number n) w r w' ->
     P (w_st w')) ->
  preserves (fun d => (P d /\ members d) /\ balanced d) (Fund number bank n).
Proof.
  intros HP. unfold Fund. case_bool_decide as Hn; [quiet|]. destruct (negb _); [quiet|].
  destruct (_ || _); [quiet|]. apply preserves_Tx. intros w r w' [Hw Hm] H.
  split; [by eapply HP|]. by apply (runs_preserves _ _ _ _ _ (members_mint_in_tx _ _) H).
Qed.

Lemma Fund_established number bank n : preserves (established sus) (Fund number bank n).
Proof.
  intros w [[Hs Hb] Hm].
  destruct (Fund_keeps (fun d => books sus d /\ amounts_ok d) number bank n) with (w := w)
    as [[? ?] ?]; [intros; by eapply mint_sound|done..].
Qed.

Lemma Fund_thriving number bank n : preserves (thriving sus) (Fund number bank n).
Proof.
  intros w [[Hs Hb] Hm].
  destruct (Fund_keeps (solvent sus) number bank n) with (w := w)
    as [[? ?] ?]; [intros; by eapply mint_solvent|done..].
Qed.

End Joins.

(** ** Keys

    Devices, device keys, realm keys and bank keys are of no concern to the money. *)

Record keyless (P : db -> Prop) : Prop := {
  kl_signing m d : P d -> P (with_signing_keys m d);
  kl_bank m d : P d -> P (with_bank_signing_keys m d);
  kl_devices m d : P d -> P (with_devices m d);
  kl_realm m d : P d -> P (with_realm_keys m d);
}.

Lemma keyless_thriving sus : keyless (thriving sus).
Proof.
  constructor; intros m d [[[Hb []] Hbal] Hm];
    (split; [split; [split; [by apply (books_same sus d)|by constructor]|done]
            |by apply (members_same d)]).
Qed.

Lemma keyless_established sus : keyless (established sus).
Proof.
  constructor; intros m d [[[Hb Ha] Hbal] Hm];
    (split; [split; [split; [by apply (books_same sus d)|done]|done]
            |by apply (members_same d)]).
Qed.

Section Keys.
Context {E : Env}.
Variable P : db -> Prop.
Hypothesis HP : keyless P.

Lemma SetUserPayerPubkey_keeps u pub : preserves P (SetUserPayerPubkey u pub).
Proof.
  apply preserves_tx. intros w a w' Hw H _.
  apply runs_bind in H as ([] & w1 & H1 & H). apply runs_wrapping, runs_exec in H1 as (_ & d & H1 & ->).
  apply runs_bind in H as (i & w2 & H2 & H). apply runs_fresh in H2 as [_ ->].
  apply runs_wrapping, runs_exec in H as (_ & d' & H & ->). cbn in *.
  injection H1 as <-. unfold q_InsertSigningKey in H. guards H. injection H as _ <-.
  apply (kl_signing P HP), (kl_signing P HP), Hw.
Qed.

Lemma UpsertBankSigningKey_keeps k : preserves P (UpsertBankSigningKey k).
Proof.
  unfold UpsertBankSigningKey. apply preserves_bind; [destruct (IsZero _); quiet|]. intros t.
  apply preserves_bind; [|quiet]. apply preserves_exec. intros t' d a d' Hd Hq.
  unfold q_CreateBankSigningKey in Hq. guards Hq. injection Hq as _ <-. by apply (kl_bank P HP).
Qed.

End Keys.
