(* ===== verification/DeviceFacts.v ===== *)
(** * What the device handlers do to the store and the cache

    A calculus for the steps that a preorder on worlds relates, the run lemmas of the
    registration, and the handlers that touch devices as one family. *)

From S2P Require Import Prelude Domain Json Crypto Store AuthStore DeviceStore Tokens Repo Devices AuthRepo UserAuth Fraud Books Members Registration Keys.

#[local] Open Scope Z_scope.

(** ** Steps within a preorder *)

Section Along.
Context {E : Env} {S L : Type} (R : world S L -> world S L -> Prop).

(** Whatever its outcome, the operation ends in a world that [R] relates to the first. *)
Definition along {A} (m : op S L A) : Prop := forall w, R w (m w).2.

(** Counters do not matter to [R]. *)
Class Uncounted : Prop := {
  uncounted_preorder :: PreOrder R;
  uncounted w w' : w_st w' = w_st w -> w_log w' = w_log w -> R w w';
}.

Context {HU : Uncounted}.

Lemma along_same {A} (m : op S L A) :
  (forall w, w_st (m w).2 = w_st w /\ w_log (m w).2 = w_log w) -> along m.
Proof. intros H w. by apply uncounted; apply H. Qed.

Lemma along_ret {A} (a : A) : along (ret a).
Proof. by apply along_same. Qed.
Lemma along_throw {A} e : along (throw (A:=A) e).
Proof. by apply along_same. Qed.
Lemma along_lift {A} (r : result A) : along (lift r).
Proof. by apply along_same. Qed.
Lemma along_now : along now.
Proof. by apply along_same. Qed.
Lemma along_fresh : along fresh.
Proof. by apply along_same. Qed.
Lemma along_read_log : along read_log.
Proof. by apply along_same. Qed.
Lemma along_query {A} (f : S -> result A) : along (query f).
Proof.
  apply along_same. intros w. unfold query, exec. destruct (fault _); [done|].
  by destruct (f (w_st w)).
Qed.

Lemma along_bind {A B} (m : op S L A) (k : A -> op S L B) :
  along m -> (forall a, along (k a)) -> along (bind m k).
Proof.
  intros Hm Hk w. unfold bind. specialize (Hm w). destruct (m w) as [[a|e] w1]; [|done].
  etrans; [exact Hm|apply Hk].
Qed.
Lemma along_attempt {A} (m : op S L A) : along m -> along (attempt m).
Proof. intros Hm w. unfold attempt. specialize (Hm w). by destruct (m w). Qed.
Lemma along_wrapping {A} c (m : op S L A) : along m -> along (wrapping c m).
Proof. intros Hm w. unfold wrapping. specialize (Hm w). by destruct (m w) as [[|] ?]. Qed.
Lemma along_for_each {A B} (xs : list A) (body : B -> A -> op S L B) b :
  (forall b x, along (body b x)) -> along (for_each xs body b).
Proof.
  intros H. revert b. induction xs as [|x xs IH]; intros b; cbn; [apply along_ret|].
  by apply along_bind.
Qed.

(** A statement, by its effect on the store under the trace as it is. *)
Lemma along_exec {A} (f : Time -> S -> result (A * S)) :
  (forall t a d' w, f t (w_st w) = Ok (a, d') -> R w (tick_ops w d')) -> along (exec f).
Proof.
  intros H w. unfold exec. destruct (fault _); [by apply uncounted|].
  destruct (f _ (w_st w)) as [[a d']|e] eqn:Hf; [by eapply H|by apply uncounted].
Qed.

Lemma runs_along {A} (m : op S L A) w a w' : along m -> runs m w a w' -> R w w'.
Proof. intros Hm H. specialize (Hm w). unfold runs in H. by rewrite H in Hm. Qed.

End Along.

Create HintDb along discriminated.
#[export] Hint Resolve along_ret along_throw along_lift along_now along_fresh along_read_log
  along_query along_attempt along_wrapping along_for_each : along.
#[export] Hint Extern 0 (Uncounted _) => apply _ : along.
#[export] Hint Extern 2 (along _ (bind _ _)) => apply along_bind; [apply _| | intros ?] : along.
#[export] Hint Extern 3 (along _ (match ?x with _ => _ end)) => destruct x : along.

(** ** The operations *)

Section Facts.
Context {E : Env} {K : CacheEnv} {C : Ed25519} {AL : AuthLib} {T : ErrorText}.
Implicit Types w : world db effect.

Lemma runs_internally {A} what (m : dbop A) w a w' :
  runs (internally what m) w a w' -> runs m w a w'.
Proof.
  unfold internally. intros ([x|e] & w1 & H1 & H)%runs_bind; [|by apply runs_throw in H].
  apply (proj1 (runs_attempt _ _ _ _)) in H1. by apply runs_ret in H as [-> ->].
Qed.

Lemma runs_required missing what w x w' :
  runs (required missing what) w x w' -> missing = false /\ w' = w.
Proof.
  unfold required. destruct missing; intros H; [by apply runs_throw in H|].
  by apply runs_ret in H as [_ ->].
Qed.

(** A replacement that commits is a transaction like any other. *)
Lemma runs_Tx_beside_keys {A} (m : dbop A) w a w' :
  runs (Tx_beside_keys m) w a w' <-> runs (Tx m) w a w'.
Proof. apply runs_tx_beside. Qed.

(** One that fails leaves the keys of its body. *)
Lemma Tx_beside_keys_err {A} (m : dbop A) w e w' :
  Tx_beside_keys m w = (Err e, w') ->
  exists ks, w_st w' = with_signing_keys ks (w_st w).
Proof.
  assert (with_signing_keys (signing_keys (w_st w)) (w_st w) = w_st w) as Hid by by destruct (w_st w).
  intros [->|(r & w1 & _ & ->)]%tx_beside_err; by eexists.
Qed.

Lemma preserves_Tx_beside_keys {A} (P : db -> Prop) (m : dbop A) :
  (forall ks d, P d -> P (with_signing_keys ks d)) -> preserves P m ->
  preserves P (Tx_beside_keys m).
Proof.
  intros Hks Hm w Hw. destruct (Tx_beside_keys m w) as [[a|e] w'] eqn:H; cbn.
  - apply (proj1 (runs_Tx_beside_keys _ _ _ _)), runs_tx in H as (_ & w1 & H & _ & _ & ->).
    by apply (runs_preserves _ _ _ _ _ Hm H).
  - apply Tx_beside_keys_err in H as [ks ->]. by apply Hks.
Qed.

(** The new key is the user's only active one. *)
Lemma runs_SetUserPayerPubkey u pub w x w' :
  runs (SetUserPayerPubkey u pub) w x w' ->
  q_GetActiveSigningKeyPubkey u (w_st w') = Ok pub /\
  (exists ks, w_st w' = with_signing_keys ks (w_st w)) /\ w_log w' = w_log w.
Proof.
  intros H. unfold SetUserPayerPubkey in H. apply runs_tx in H as (_ & w0 & H & _ & _ & ->).
  apply runs_bind in H as ([] & w1 & H1 & H). apply runs_wrapping, runs_exec in H1 as (_ & d1 & H1 & ->).
  injection H1 as <-. apply runs_bind in H as (i & w2 & H2 & H). apply runs_fresh in H2 as [-> ->].
  apply runs_wrapping, runs_exec in H as (_ & d2 & H & ->). cbn [w_st tick_ops w_ids] in *.
  unfold q_InsertSigningKey in H. destruct (not_null_bytes _ _) as [[]|]; [|done]. cbn [result_bind] in H.
  destruct (pk _ _ _) as [[]|]; [|done]. cbn [result_bind] in H.
  destruct (unique _ _ _) as [[]|] eqn:Hu; [|done]. cbn [result_bind] in H.
  destruct (fk _ _ _) as [[]|]; [|done]. cbn [result_bind] in H. injection H as <- <-.
  split; [|split; [by eexists|done]]. unfold q_GetActiveSigningKeyPubkey. cbn [signing_keys with_signing_keys].
  erewrite first_row_unique; [|apply lookup_insert_eq| |]; [reflexivity| |].
  - unfold active_key_of. cbn. by rewrite bool_decide_true.
  - intros k' a' Hk' HP. destruct (decide (k' = new_id (w_ids w))) as [|Hne]; [done|].
    rewrite lookup_insert_ne in Hk' by done.
    by rewrite (unique_ok _ _ _ _ Hu k' a' Hk') in HP.
Qed.

Lemma SetUserPayerPubkey_touches u pub w :
  exists ks, w_st (SetUserPayerPubkey u pub w).2 = with_signing_keys ks (w_st w).
Proof.
  destruct (SetUserPayerPubkey u pub w) as [[x|e] w'] eqn:H.
  - by apply runs_SetUserPayerPubkey in H as (_ & Hk & _).
  - apply tx_err in H. exists (signing_keys (w_st w)). cbn. rewrite H. by destruct (w_st w).
Qed.

(** A registration inserts an active device where the user has none. *)
Lemma runs_RegisterDevice u blob pub w id w' :
  runs (RegisterDevice u blob pub) w id w' ->
  devices (w_st w) !! id = None /\
  (forall i r, devices (w_st w) !! i = Some r -> active_device_of u r = false) /\
  exists r, dv_UserID r = u /\ dv_PublicKey r = pub /\ dv_Active r = true /\
    w_st w' = with_devices (<[id := r]> (devices (w_st w))) (w_st w) /\
    w_log w' = (w_log w ++ [EvCacheDel [deviceAuthCacheKey id]])%list.
Proof.
  intros H. unfold RegisterDevice in H. apply runs_bind in H as (i & w1 & H1 & H).
  apply runs_fresh in H1 as [-> ->]. apply runs_bind in H as (t & w2 & H2 & H).
  apply runs_now in H2 as [-> ->]. apply runs_bind in H as ([] & w3 & H3 & H).
  apply runs_exec in H3 as (_ & d & H3 & ->). apply runs_bind in H as ([] & w4 & H4 & H).
  apply runs_emit in H4 as ->. apply runs_ret in H as [-> ->]. cbn [w_st tick_ops w_log w_ids] in *.
  unfold q_CreateDevice in H3. cbn [cd_AttestationBlob cd_ID cd_UserID cd_Active] in H3.
  destruct blob as [b|]; [|done]. cbn [result_bind] in H3.
  destruct (pk _ _ _) as [[]|] eqn:Hpk; [|done]. cbn [result_bind] in H3.
  destruct (unique _ _ _) as [[]|] eqn:Hu; [|done]. cbn [result_bind] in H3.
  destruct (fk _ _ _) as [[]|]; [|done]. injection H3 as <-.
  split; [by apply pk_ok in Hpk|]. split; [exact (unique_ok _ _ _ _ Hu)|].
  eexists. by split_and!; [..|reflexivity|reflexivity].
Qed.

Lemma RegisterDevice_err u blob pub w e w' :
  RegisterDevice u blob pub w = (Err e, w') -> w_st w' = w_st w /\ w_log w' = w_log w.
Proof.
  unfold RegisterDevice, bind, fresh, now, exec, emit, ret. cbn. intros H.
  destruct (fault _); [by injection H as _ <-|]. destruct (q_CreateDevice _ _ _) as [[[] d]|]; [done|].
  by injection H as _ <-.
Qed.

Lemma DeactivateDevice_err id w e w' :
  DeactivateDevice id w = (Err e, w') -> w_st w' = w_st w /\ w_log w' = w_log w.
Proof.
  unfold DeactivateDevice, bind, exec, emit. intros H. destruct (fault _); [by injection H as _ <-|done].
Qed.

Lemma runs_DeactivateDevice id w x w' :
  runs (DeactivateDevice id) w x w' ->
  (exists t, w_st w' = with_devices (alter (fun r => set_device false (dv_LastSeenAt r) t r) id
                                       (devices (w_st w))) (w_st w)) /\
  w_log w' = (w_log w ++ [EvCacheDel [deviceAuthCacheKey id]])%list.
Proof.
  intros H. unfold DeactivateDevice in H. apply runs_bind in H as ([] & w1 & H1 & H).
  apply runs_exec in H1 as (_ & d & H1 & ->). injection H1 as <-. apply runs_emit in H as ->.
  split; [by eexists|done].
Qed.

End Facts.

(** ** What devices and keys are of no concern to *)

Section Calls.
Context {E : Env} {K : CacheEnv} {C : Ed25519} {AL : AuthLib} {T : ErrorText}.

(** The calls that write devices or keys, each a statement or a transaction of its own. *)
Inductive device_call : forall A, dbop A -> Prop :=
| dc_register i u blob pub : device_call _ (Tx_beside_keys (register_in_tx i u blob pub))
| dc_rotate i u blob pub : device_call _ (Tx_beside_keys (rotate_in_tx i u blob pub))
| dc_recover u blob pub : device_call _ (Tx_beside_keys (recover_in_tx u blob pub))
| dc_deactivate id : device_call _ (DeactivateDevice id)
| dc_touch id t : device_call _ (TouchDevice id t)
| dc_payer_key u pub : device_call _ (SetUserPayerPubkey u pub)
| dc_bank_key k : device_call _ (UpsertBankSigningKey k)
| dc_bank_rotate id pub priv retire : device_call _ (RotateBankKey id pub priv retire)
| dc_realm_key v key t : device_call _ (UpsertRealmKey v key t)
| dc_realm_retire v t : device_call _ (RetireRealmKey v t)
| dc_realm_expire : device_call _ DeleteExpiredRealmKeys
| dc_realm_rotate key overlap : device_call _ (RotateRealmKey key overlap).

Variable P : db -> Prop.
Hypothesis HP : keyless P.

Lemma preserves_keys {A} (f : Time -> db -> result (A * db)) :
  (forall t d a d', f t d = Ok (a, d') ->
     (exists m, d' = with_devices m d) \/ (exists m, d' = with_realm_keys m d) \/
     (exists m, d' = with_bank_signing_keys m d)) -> preserves P (exec (L:=effect) f).
Proof.
  intros Hf. apply preserves_exec. intros t d a d' Hd H.
  destruct (Hf _ _ _ _ H) as [[m ->]|[[m ->]|[m ->]]];
    [by apply (kl_devices P HP)|by apply (kl_realm P HP)|by apply (kl_bank P HP)].
Qed.

Lemma preserves_RegisterDevice u blob pub : preserves P (RegisterDevice u blob pub).
Proof.
  unfold RegisterDevice. do 2 (apply preserves_bind; [quiet|intros]).
  apply preserves_bind; [|quiet]. apply preserves_keys. intros t d a' d' H. left.
  unfold q_CreateDevice in H. destruct (cd_AttestationBlob _); [|done]. cbn [result_bind] in H.
  destruct (pk _ _ _); [|done]. cbn [result_bind] in H. destruct (if cd_Active _ then _ else _); [|done].
  cbn [result_bind] in H. destruct (fk _ _ _); [|done]. injection H as _ <-. by eexists.
Qed.

Lemma preserves_DeactivateDevice id : preserves P (DeactivateDevice id).
Proof.
  apply preserves_bind; [|quiet]. apply preserves_keys. intros t d a d' [= _ <-]. left. by eexists.
Qed.

Lemma preserves_enroll u blob pub : preserves P (enroll u blob pub).
Proof.
  apply preserves_bind; [by apply SetUserPayerPubkey_keeps|intros; apply preserves_RegisterDevice].
Qed.

Lemma preserves_create_realm_key v key from : preserves P (exec (L:=effect) (q_CreateRealmKey v key from)).
Proof.
  apply preserves_keys. intros t d a d' H. right; left. unfold q_CreateRealmKey in H. guards H.
  destruct (not_null _ _); [|done]. guards H. injection H as _ <-. by eexists.
Qed.

Lemma preserves_realm {A} (f : Time -> db -> result (A * db)) :
  (forall t d a d', f t d = Ok (a, d') -> exists m, d' = with_realm_keys m d) -> preserves P (exec (L:=effect) f).
Proof. intros Hf. apply preserves_keys. intros t d a d' H. right; left. by eapply Hf. Qed.

Lemma device_call_keeps A (m : dbop A) : device_call A m -> preserves P m.
Proof.
  intros [].
  - apply preserves_Tx_beside_keys; [apply (kl_signing P HP)|]. unfold register_in_tx.
    apply preserves_bind; [|intros; apply preserves_enroll].
    case_bool_decide; [quiet|apply preserves_DeactivateDevice].
  - apply preserves_Tx_beside_keys; [apply (kl_signing P HP)|]. unfold rotate_in_tx.
    apply preserves_bind; [apply preserves_DeactivateDevice|intros; apply preserves_enroll].
  - apply preserves_Tx_beside_keys; [apply (kl_signing P HP)|]. unfold recover_in_tx, GetActiveDeviceForUser.
    apply preserves_bind; [quiet|intros r]. apply preserves_bind; [|intros; apply preserves_enroll].
    destruct r; [|quiet]. case_bool_decide; [quiet|apply preserves_DeactivateDevice].
  - apply preserves_DeactivateDevice.
  - apply preserves_keys. intros u d a d' [= _ <-]. left. by eexists.
  - by apply SetUserPayerPubkey_keeps.
  - by apply UpsertBankSigningKey_keeps.
  - apply preserves_tx. intros w a w' Hw H _. eapply (runs_preserves P _ _ _ _); [|exact H|exact Hw].
    apply preserves_bind; [quiet|intros t]. apply preserves_bind.
    + destruct retire; [|quiet]. apply preserves_wrapping, preserves_keys. intros u d b d' [= _ <-].
      right; right. by eexists.
    + intros _. apply preserves_wrapping, preserves_keys. intros u d b d' Hq. right; right.
      unfold q_CreateBankSigningKey in Hq. guards Hq. injection Hq as _ <-. by eexists.
  - apply preserves_bind; [apply preserves_create_realm_key|quiet].
  - apply preserves_bind; [|quiet]. apply preserves_realm. intros u d a d' [= _ <-]. by eexists.
  - apply preserves_realm. intros u d a d' [= _ <-]. by eexists.
  - apply preserves_tx. intros w a w' Hw H _. eapply (runs_preserves P _ _ _ _); [|exact H|exact Hw].
    apply preserves_bind; [quiet|intros v]. apply preserves_bind; [quiet|intros t].
    apply preserves_bind; [apply preserves_wrapping, preserves_create_realm_key|intros _].
    apply preserves_bind; [apply preserves_wrapping, preserves_realm|intros _].
    { intros u d b d' [= _ <-]. by eexists. }
    apply preserves_bind; [apply preserves_wrapping, preserves_realm|quiet].
    intros u d b d' [= _ <-]. by eexists.
Qed.

(** Freezing writes a signal. *)
Lemma FreezeUser_keeps Q id u reason :
  (forall m d, Q d -> Q (with_fraud_signals m d)) -> preserves Q (FreezeUser id u reason).
Proof.
  intros HQ. unfold FreezeUser. apply preserves_bind; [|quiet]. apply preserves_exec.
  intros t d a d' Hd H. unfold q_InsertFraudSignal in H. guards H. injection H as _ <-. by apply HQ.
Qed.

End Calls.
