(* ===== verification/AuthFacts.v ===== *)
(** * What authentication and identity verification write

    The repository calls of the two services and the handlers built from them, and a
    criterion for the invariants they keep: what survives the columns and tables these
    services own, and a sign-up. *)

From S2P Require Import Prelude Domain Json Crypto Store AuthStore Repo AuthRepo Books Solvency Wallet DemoMint Settlement Members UserAuth Kyc.

Section AuthFacts.
Context {E : Env} {K : CacheEnv} {C : Ed25519} {AL : AuthLib}.
Variable s : UserAuthService.

(** The calls that write, each a statement or a transaction of its own. *)
Inductive auth_call : forall A, dbop A -> Prop :=
| call_signup row : auth_call _ (Repo_Signup row)
| call_otp identifier purpose hash t : auth_call _ (UpsertOTPChallenge identifier purpose hash t)
| call_attempt identifier purpose : auth_call _ (IncrementOTPAttempts identifier purpose)
| call_consume identifier purpose : auth_call _ (ConsumeOTPChallenge identifier purpose)
| call_verified u : auth_call _ (MarkEmailVerified u)
| call_password u hash : auth_call _ (UpdateUserPassword u hash)
| call_session i : auth_call _ (OpenSession i)
| call_revoke_hash h : auth_call _ (RevokeUserSessionByHash h)
| call_revoke_id id : auth_call _ (RevokeUserSessionByID id)
| call_revoke_others u keep : auth_call _ (RevokeOtherUserSessions u keep)
| call_rotate old new u hash t : auth_call _ (RotateSession old new u hash t)
| call_pin u hash : auth_call _ (SetUserPIN u hash)
| call_bump u n : auth_call _ (BumpPINAttempts u n)
| call_lock u n : auth_call _ (LockUserPIN u n)
| call_clear u : auth_call _ (ClearUserPINAttempts u)
| call_kyc i : auth_call _ (Tx (submit_in_tx i)).

(** The handlers. *)
Inductive auth_handler : forall A, dbop A -> Prop :=
| auth_signup i : auth_handler _ (Signup s i)
| auth_login phone password ua ip : auth_handler _ (Login s phone password ua ip)
| auth_verify_request u : auth_handler _ (RequestEmailVerification s u)
| auth_verify u code : auth_handler _ (VerifyEmail s u code)
| auth_forgot email : auth_handler _ (ForgotPasswordRequest s email)
| auth_reset email code password : auth_handler _ (ForgotPasswordReset s email code password)
| auth_refresh refresh : auth_handler _ (Refresh s refresh)
| auth_logout refresh : auth_handler _ (Logout refresh)
| auth_me u : auth_handler _ (GetMe u)
| auth_sessions u : auth_handler _ (ListSessions u)
| auth_revoke u id current : auth_handler _ (RevokeSession u id current)
| auth_revoke_all u keep : auth_handler _ (RevokeAllOtherSessions u keep)
| auth_set_pin u pin current : auth_handler _ (SetPIN u pin current)
| auth_verify_pin u pin : auth_handler _ (VerifyPIN u pin)
| auth_kyc u idType idNumber : auth_handler _ (Submit u idType idNumber)
| auth_kyc_list u : auth_handler _ (Kyc_List u)
| auth_kyc_hint u : auth_handler _ (Hint u).

(** ** What authentication keeps *)

Record auth_blind (P : db -> Prop) : Prop := {
  ab_user f id d : P d -> P (with_users (alter f id (users d)) d);
  ab_otp m d : P d -> P (with_otp_challenges m d);
  ab_pins m d : P d -> P (with_user_pins m d);
  ab_kyc m d : P d -> P (with_kyc_submissions m d);
  ab_revoke Q t d : P d -> P (revoke_where Q t d);
  ab_session id u hash ua ip dev ex t d x d' :
    P d -> q_CreateUserSession id u hash ua ip dev ex t d = Ok (x, d') -> P d';
  ab_signup row : preserves P (Repo_Signup row);
}.

(** A promotion rewrites one user at most. *)
Lemma promote_alters id tier t d x d' :
  q_PromoteUserToTier id tier t d = Ok (x, d') ->
  d' = d \/ exists f, d' = with_users (alter f id (users d)) d.
Proof.
  unfold q_PromoteUserToTier. destruct (users d !! id) as [u|] eqn:Hu; [|intros [= _ <-]; by left].
  destruct (_ <? _); [|intros [= _ <-]; by left]. intros H. guards H. injection H as _ <-.
  right. exists (set_tier tier t). by rewrite (alter_alt_Some _ _ _ _ Hu).
Qed.

Section Blind.
Variable P : db -> Prop.
Hypothesis HP : auth_blind P.

Lemma preserves_unbound {A} (f : Time -> db -> result (A * db)) :
  (forall t d, P d -> match f t d with Ok (_, d') => P d' | Err _ => True end) ->
  preserves (L:=effect) P (exec f).
Proof. intros H. apply preserves_exec. intros t d a d' Hd Hf. specialize (H t d Hd). by rewrite Hf in H. Qed.

Lemma auth_call_keeps A (m : dbop A) : auth_call A m -> preserves P m.
Proof.
  pose proof HP as [Hu Ho Hp Hk Hr Hs Hsi].
  intros []; [apply Hsi|..]; try (apply preserves_unbound; intros t' d Hd).
  - unfold q_UpsertOTPChallenge. destruct (check _ _); cbn; [by apply Ho|done].
  - unfold q_IncrementOTPAttempts. destruct (otp_challenges d !! _); [|done].
    destruct (int4 _); cbn; [by apply Ho|done].
  - by apply Ho.
  - apply preserves_bind; [|quiet]. apply preserves_unbound. intros t d Hd. by apply Hu.
  - by apply Hu.
  - destruct (q_CreateUserSession _ _ _ _ _ _ _ t' d) as [[? ?]|] eqn:Hq; [by eapply Hs|done].
  - by apply Hr.
  - by apply Hr.
  - by apply Hr.
  - apply preserves_tx. intros w a w' Hw H _. run_inv. cbn in *.
    repeat match goal with H : q_RevokeUserSessionByID _ _ _ = _ |- _ => injection H as H; subst end.
    eapply Hs; [|eassumption]. by apply Hr.
  - unfold SetUserPIN. apply preserves_bind; [|intros [?|?]; quiet]. apply preserves_attempt, preserves_unbound.
    intros t d Hd. unfold q_SetUserPIN. destruct (fk _ _ _); cbn; [by apply Hp|done].
  - by apply Hp.
  - by apply Hp.
  - by apply Hp.
  - apply preserves_tx. intros w x w' Hw H _. refine (runs_preserves _ _ _ _ _ _ H Hw).
    unfold submit_in_tx. apply preserves_bind; [|intros _; apply preserves_bind; [|quiet]].
    + apply preserves_exec. intros t d y d' Hd Hq. unfold q_InsertKYCSubmission in Hq. guards Hq.
      injection Hq as _ <-. by apply Hk.
    + destruct (granted _); [|quiet]. apply preserves_wrapping, preserves_exec.
      intros t d y d' Hd Hq. apply promote_alters in Hq as [->|[f ->]]; [done|by apply Hu].
Qed.

#[local] Hint Extern 1 (preserves P _) => apply auth_call_keeps; constructor : preserve.

Lemma preserves_rand_read : preserves P rand_read.
Proof. by apply preserves_pure. Qed.
#[local] Hint Resolve preserves_rand_read : preserve.

Lemma preserves_newID : preserves P newID.
Proof. unfold newID. quiet. Qed.
Lemma preserves_GenerateFromPassword pw : preserves P (GenerateFromPassword pw).
Proof. unfold GenerateFromPassword. quiet. Qed.
Lemma preserves_newRefreshToken : preserves P newRefreshToken.
Proof. unfold newRefreshToken. quiet. Qed.
Lemma preserves_sign u acc sid : preserves P (sign s u acc sid).
Proof. unfold sign. quiet. Qed.
Lemma preserves_auth_result u acc access refresh t : preserves P (auth_result s u acc access refresh t).
Proof. unfold auth_result. quiet. Qed.
Lemma preserves_or_missing {A} (m : dbop A) : preserves P m -> preserves P (or_missing m).
Proof. intros. unfold or_missing. auto 10 with preserve. Qed.
Lemma preserves_not_found_as {A} e (m : dbop A) : preserves P m -> preserves P (not_found_as e m).
Proof. intros. unfold not_found_as. auto 10 with preserve. Qed.
#[local] Hint Resolve preserves_newID preserves_GenerateFromPassword preserves_newRefreshToken
  preserves_sign preserves_auth_result preserves_or_missing preserves_not_found_as : preserve.

Lemma preserves_issueOTP identifier purpose : preserves P (issueOTP s identifier purpose).
Proof. unfold issueOTP, send. quiet. Qed.

Lemma preserves_consumeOTP identifier purpose code : preserves P (consumeOTP s identifier purpose code).
Proof. unfold consumeOTP, GetOTPChallenge. quiet. Qed.
#[local] Hint Resolve preserves_issueOTP preserves_consumeOTP : preserve.

Lemma preserves_signup_row i : preserves P (signup_row s i).
Proof. unfold signup_row. quiet. Qed.
#[local] Hint Resolve preserves_signup_row : preserve.

Lemma preserves_GetUserAccountNumber u : preserves P (GetUserAccountNumber u).
Proof. unfold GetUserAccountNumber. quiet. Qed.
Lemma preserves_ListActiveUserSessions u : preserves P (ListActiveUserSessions u).
Proof.
  unfold ListActiveUserSessions. apply preserves_bind; [|quiet].
  by apply preserves_unbound.
Qed.
#[local] Hint Resolve preserves_GetUserAccountNumber preserves_ListActiveUserSessions : preserve.

Lemma auth_handler_keeps A (m : dbop A) : auth_handler A m -> preserves P m.
Proof.
  intros []; unfold Signup, Login, RequestEmailVerification, VerifyEmail, ForgotPasswordRequest,
    ForgotPasswordReset, Refresh, Logout, GetMe, ListSessions, RevokeSession,
    RevokeAllOtherSessions, SetPIN, VerifyPIN, GetUserLoginByPhone, GetUserEmail, EmailExists,
    GetUserIDByEmail, GetUserSessionByRefreshHash, Repo_GetMe, GetUserSessionOwner,
    GetUserPINState, Submit, Kyc_List, Hint, GetUserContext, GetUserPhone, ListByUser,
    kyc_or_missing, judge, Kycrepo_Submit; quiet.
Qed.

End Blind.
End AuthFacts.

(** ** Signing up is joining *)

Section SigningUp.
Context {E : Env}.
Variable P : db -> Prop.
Hypothesis HP : joinable P.
Hypothesis HPs : forall m d, P d -> P (with_user_sessions m d).
Implicit Types w : world db effect.

Lemma session_writes id u hash ua ip dev ex t d x d' :
  q_CreateUserSession id u hash ua ip dev ex t d = Ok (x, d') ->
  exists m, d' = with_user_sessions m d.
Proof.
  unfold q_CreateUserSession. intros H. guards H. injection H as _ <-. eauto.
Qed.

Lemma members_sessions m d : members d -> members (with_user_sessions m d).
Proof. intros Hm. by apply (members_same d). Qed.

Lemma signup_accounts_join u (xs : list (string * AccountKind)) :
  preserves (L:=effect) (fun d => (P d /\ nobody u d) /\ members d)
    (for_each xs (fun _ x => exec (q_CreateAccount x.1 u x.2 0)) tt).
Proof.
  apply preserves_for_each. intros _ k _. apply preserves_exec.
  intros t d0 z d' [[Hd Hnd] Hmd] Hq. split; [|by eapply account_members].
  apply create_account_opens in Hq. split; [by eapply jn_opened|by eapply opened_nobody].
Qed.

Lemma signup_in_tx_joins row w x w' :
  P (w_st w) /\ members (w_st w) -> runs (signup_in_tx row) w x w' ->
  P (w_st w') /\ members (w_st w').
Proof.
  intros [HPw Hm] H. unfold signup_in_tx in H. apply runs_bind in H as (r & w1 & Hr & H).
  apply (proj1 (runs_attempt _ _ _ _)) in Hr. destruct r as [y|e]; [|by apply runs_throw in H].
  apply runs_exec in Hr as (_ & d & Hr & ->).
  pose proof (user_members _ _ _ _ _ _ Hm Hr) as Hm1.
  destruct (create_user_joins P HP _ _ _ _ _ _ (conj HPw Hm) Hr) as [HP1 Hn].
  apply runs_bind in H as ([] & w2 & Ha & H).
  assert ((P (w_st w2) /\ nobody (su_UserID row) (w_st w2)) /\ members (w_st w2)) as [[HP2 _] Hm2].
  { by apply (runs_preserves _ _ _ _ _ (signup_accounts_join _ _) Ha). }
  apply runs_exec in H as (_ & d3 & H & ->). apply session_writes in H as [m ->]. cbn.
  split; [by apply HPs|by apply members_sessions].
Qed.

Lemma Signup_joins row :
  preserves (fun d => (P d /\ members d) /\ balanced d) (Repo_Signup row).
Proof.
  apply preserves_Tx. intros w a w' Hw H. by eapply signup_in_tx_joins.
Qed.

End SigningUp.

(** ** The system's invariants do not see authentication *)

Lemma members_alter f id d : members d -> members (with_users (alter f id (users d)) d).
Proof.
  intros [Hp Hc Ht].
  assert (forall x, is_Some (users d !! x) -> is_Some (alter f id (users d) !! x)) as Hs.
  { intros x [u Hu]. rewrite lookup_alter. case_decide as Hx; [subst id|]; rewrite Hu; by eexists. }
  constructor; cbn; eauto.
Qed.

(** What is joinable and does not look at the authentication tables is kept. *)
Lemma joined_blind {E : Env} (P : db -> Prop) :
  joinable P -> (forall m d, P d -> P (with_user_sessions m d)) ->
  (forall m d, P d -> P (with_otp_challenges m d)) ->
  (forall m d, P d -> P (with_user_pins m d)) ->
  (forall m d, P d -> P (with_kyc_submissions m d)) ->
  auth_blind (fun d => (P d /\ members d) /\ balanced d).
Proof.
  intros HP Hs Ho Hp Hk.
  constructor.
  - intros f id d [[Hd Hm] Hb]. split; [|done]. split; [by apply (jn_users P HP)|by apply members_alter].
  - intros m d [[Hd Hm] Hb]. split; [|done]. split; [by apply Ho|by apply (members_same d)].
  - intros m d [[Hd Hm] Hb]. split; [|done]. split; [by apply Hp|by apply (members_same d)].
  - intros m d [[Hd Hm] Hb]. split; [|done]. split; [by apply Hk|by apply (members_same d)].
  - intros Q t d [[Hd Hm] Hb]. split; [|done]. split; [by apply Hs|by apply members_sessions].
  - intros id u hash ua ip dev ex t d x d' [[Hd Hm] Hb] Hq. apply session_writes in Hq as [m ->].
    split; [|done]. split; [by apply Hs|by apply members_sessions].
  - intros row. by apply Signup_joins.
Qed.

Lemma auth_members {E : Env} : auth_blind members.
Proof.
  constructor; intros.
  - by apply members_alter.
  - by apply (members_same d).
  - by apply (members_same d).
  - by apply (members_same d).
  - by apply members_sessions.
  - match goal with H : q_CreateUserSession _ _ _ _ _ _ _ _ _ = _ |- _ =>
      apply session_writes in H as [m ->] end. by apply members_sessions.
  - apply members_tx. unfold signup_in_tx. apply preserves_bind.
    { apply preserves_attempt, members_exec, user_members. }
    intros [x|e]; [|quiet]. apply preserves_bind; [|intros _].
    + apply preserves_for_each. intros _ k _. apply members_exec, account_members.
    + apply preserves_exec. intros t d y d' Hd Hq. apply session_writes in Hq as [m ->].
      by apply members_sessions.
Qed.

Lemma auth_established {E : Env} sus : auth_blind (established sus).
Proof.
  assert (auth_blind (fun d => ((books sus d /\ amounts_ok d) /\ members d) /\ balanced d)) as [].
  { apply joined_blind; [apply joinable_sound|..]; intros m d [Hb Ha];
      (split; [by apply (books_same sus d)|done]). }
  assert (forall d, established sus d <-> ((books sus d /\ amounts_ok d) /\ members d) /\ balanced d) as Heq.
  { unfold established, booked. tauto. }
  constructor; intros; rewrite ?Heq in *; eauto.
  intros w. rewrite !Heq. apply ab_signup0.
Qed.

Lemma auth_thriving {E : Env} sus : auth_blind (thriving sus).
Proof.
  assert (auth_blind (fun d => (solvent sus d /\ members d) /\ balanced d)) as [].
  { apply joined_blind; [apply joinable_solvent|..]; intros m d [Hb []];
      (split; [by apply (books_same sus d)|by constructor]). }
  assert (forall d, thriving sus d <-> (solvent sus d /\ members d) /\ balanced d) as Heq.
  { unfold thriving, good. tauto. }
  constructor; intros; rewrite ?Heq in *; eauto.
  intros w. rewrite !Heq. apply ab_signup0.
Qed.
