(* ===== verification/UserAuthProps.v ===== *)
(** * The properties of authentication

    A refresh token works once; a reset takes a live code and closes the account to whoever
    knew the old password; a PIN can be guessed a few times in a quarter of an hour; a
    sign-up opens what the rest of the system expects of a user; a verified identity
    promotes the tier. *)

From S2P Require Import Prelude Domain Json Crypto Store AuthStore Repo AuthRepo Text UserAuth Kyc Books Solvency Members AuthFacts.

(** ** Sessions *)

(** A session stays what it is, and stays revoked once it is. *)
Definition session_kept (r r' : SessionRow) : Prop :=
  us_UserID r' = us_UserID r /\ us_RefreshHash r' = us_RefreshHash r /\
  us_ExpiresAt r' = us_ExpiresAt r /\
  (is_Some (us_RevokedAt r) -> us_RevokedAt r' = us_RevokedAt r).

Definition sessions_kept (m m' : gmap string SessionRow) : Prop :=
  forall id r, m !! id = Some r -> exists r', m' !! id = Some r' /\ session_kept r r'.

(** The table's UNIQUE constraint. *)
Definition tokens_distinct (m : gmap string SessionRow) : Prop := forall i j r q,
  m !! i = Some r -> m !! j = Some q -> us_RefreshHash r = us_RefreshHash q -> i = j.

#[export] Instance sessions_kept_preorder : PreOrder sessions_kept.
Proof.
  split.
  - intros m id r Hr. exists r. by split_and!.
  - intros m1 m2 m3 H1 H2 id r Hr. destruct (H1 id r Hr) as (r2 & Hr2 & Hu & Hh & He & Hv).
    destruct (H2 id r2 Hr2) as (r3 & Hr3 & Hu3 & Hh3 & He3 & Hv3).
    exists r3. split; [done|]. split_and!; try congruence. intros Hs.
    rewrite <- (Hv Hs). apply Hv3. by rewrite (Hv Hs).
Qed.

Lemma lookup_revoke Q t d id :
  user_sessions (revoke_where Q t d) !! id
  = (fun r => if Q id r then revoke t r else r) <$> user_sessions d !! id.
Proof. cbn. rewrite map_lookup_imap. by destruct (user_sessions d !! id). Qed.

Lemma revoke_kept t r : session_kept r (revoke t r).
Proof. split_and!; try done. cbn. by intros [x ->]. Qed.

Lemma revoke_where_kept Q t d :
  sessions_kept (user_sessions d) (user_sessions (revoke_where Q t d)).
Proof.
  intros id r Hr. rewrite lookup_revoke, Hr. cbn. eexists. split; [reflexivity|].
  destruct (Q id r); [apply revoke_kept|by split_and!].
Qed.

Lemma revoke_where_distinct Q t d :
  tokens_distinct (user_sessions d) -> tokens_distinct (user_sessions (revoke_where Q t d)).
Proof.
  intros H i j r q. rewrite !lookup_revoke.
  destruct (user_sessions d !! i) as [r0|] eqn:Hi; [|done].
  destruct (user_sessions d !! j) as [q0|] eqn:Hj; [|done].
  intros [= <-] [= <-] Heq. apply (H i j r0 q0 Hi Hj).
  by destruct (Q i r0), (Q j q0).
Qed.

(** What a created session looks like. *)
Lemma created_session id u hash ua ip dev ex t d x d' :
  q_CreateUserSession id u hash ua ip dev ex t d = Ok (x, d') ->
  user_sessions d !! id = None /\ is_Some (users d !! u) /\
  (forall j q, user_sessions d !! j = Some q -> us_RefreshHash q <> hash) /\
  d' = with_user_sessions (<[id := {|
    us_UserID := u; us_RefreshHash := hash; us_UserAgent := ua; us_Ip := ip;
    us_DeviceID := dev; us_CreatedAt := tstz t; us_ExpiresAt := tstz ex;
    us_RevokedAt := None |}]> (user_sessions d)) d.
Proof.
  unfold q_CreateUserSession. intros H. guards H. injection H as _ <-.
  split; [by apply pk_ok in Hg|]. split; [by eapply fk_ok|]. split; [|done].
  intros j q Hj Heq. pose proof (unique_ok _ _ _ _ Hg0 j q Hj) as Hu. cbn in Hu.
  by rewrite bool_decide_true in Hu.
Qed.

Definition kept_from (m : gmap string SessionRow) (d : db) : Prop :=
  sessions_kept m (user_sessions d) /\ tokens_distinct (user_sessions d).

Lemma kept_from_created m id u hash ua ip dev ex t d x d' :
  kept_from m d -> q_CreateUserSession id u hash ua ip dev ex t d = Ok (x, d') -> kept_from m d'.
Proof.
  intros [Hk Hd] H. apply created_session in H as (Hid & _ & Hfresh & ->). cbn. split.
  - etrans; [exact Hk|]. intros i r Hi. exists r. cbn. split; [|by split_and!].
    rewrite lookup_insert_ne; [done|congruence].
  - intros i j r q Hi Hj Heq. cbn in Hi, Hj.
    apply lookup_insert_Some in Hi as [[<- <-]|[_ Hi]];
      apply lookup_insert_Some in Hj as [[<- <-]|[_ Hj]]; [done|..].
    + by destruct (Hfresh j q Hj).
    + by destruct (Hfresh i r Hi).
    + by eapply Hd.
Qed.

Lemma kept_from_blind {E : Env} m : auth_blind (kept_from m).
Proof.
  constructor; try done.
  - intros Q t d [Hk Hd]. split; [|by apply revoke_where_distinct].
    etrans; [exact Hk|apply revoke_where_kept].
  - intros. by eapply kept_from_created.
  - intros row. unfold Repo_Signup, Tx. apply preserves_tx. intros w x w' Hw H _.
    unfold signup_in_tx in H. apply runs_bind in H as ([y|e] & w1 & Hr & H);
      [|by apply runs_throw in H].
    apply (proj1 (runs_attempt _ _ _ _)), runs_exec in Hr as (_ & d & Hr & ->).
    unfold q_CreateUser in Hr. guards Hr. injection Hr as _ <-.
    apply runs_bind in H as ([] & w2 & Ha & H).
    assert (kept_from m (w_st w2)) as H2.
    { refine (runs_preserves _ _ _ _ _ _ Ha Hw). apply preserves_for_each.
      intros _ k _. apply preserves_exec. intros t d0 z d' Hd Hq.
      unfold q_CreateAccount in Hq. guards Hq. by injection Hq as _ <-. }
    apply runs_exec in H as (_ & d3 & H & ->). by eapply kept_from_created.
Qed.

Section UserAuthProps.
Context {E : Env} {K : CacheEnv} {C : Ed25519} {AL : AuthLib}.
Variable s : UserAuthService.
Implicit Types w v : world db effect.

(** A handler ran, whatever its outcome. *)
Inductive auth_step : db -> db -> Prop :=
| auth_step_run A (m : dbop A) w : auth_handler s A m -> auth_step (w_st w) (w_st (m w).2).

Lemma auth_steps_keep m d d' : rtc auth_step d d' -> kept_from m d -> kept_from m d'.
Proof.
  induction 1 as [|d d1 d' [A mm w Hm] _ IH]; [done|]. intros Hk. apply IH.
  by apply (auth_handler_keeps s _ (kept_from_blind m) A mm Hm).
Qed.

Lemma runs_or_missing {A} (m : dbop A) w a w' : runs (or_missing m) w a w' -> runs m w a w'.
Proof.
  unfold or_missing. intros H. apply runs_bind in H as ([y|e] & w1 & Hr & H);
    [|by apply runs_throw in H].
  apply (proj1 (runs_attempt _ _ _ _)) in Hr. by apply runs_ret in H as [-> ->].
Qed.

Lemma runs_rand_read w b w' :
  runs rand_read w b w' ->
  b = random_bytes (w_ids w) /\ w_st w' = w_st w /\ w_ops w' = w_ops w /\ w_clk w' = w_clk w.
Proof. unfold runs, rand_read. by intros [= <- <-]. Qed.

Lemma runs_newRefreshToken w tok w' :
  runs newRefreshToken w tok w' -> w_st w' = w_st w /\ tok.2 = hashRefresh tok.1.
Proof.
  unfold newRefreshToken. intros H. apply runs_bind in H as (b & w1 & Hb & H).
  apply runs_rand_read in Hb as (_ & Hb & _). by apply runs_ret in H as [-> ->].
Qed.

Lemma runs_sign u acc sid w x w' : runs (sign s u acc sid) w x w' -> w_st w' = w_st w.
Proof. unfold sign. intros H. by quiet_in H Hw. Qed.

Lemma runs_newID w i w' : runs newID w i w' -> w_st w' = w_st w.
Proof. unfold newID. intros H. by quiet_in H Hw. Qed.

Lemma runs_GetUserAccountNumber u w x w' :
  runs (GetUserAccountNumber u) w x w' -> w_st w' = w_st w.
Proof.
  unfold GetUserAccountNumber, or_missing. intros H. by quiet_in H Hw.
Qed.

(** The session a refresh token names. *)
Lemma runs_session_by_hash h w r w' :
  runs (GetUserSessionByRefreshHash h) w r w' ->
  w_st w' = w_st w /\
  exists row, user_sessions (w_st w) !! rs_ID r = Some row /\ us_RefreshHash row = h /\
    rs_UserID r = us_UserID row /\ rs_ExpiresAt r = us_ExpiresAt row /\
    rs_RevokedAt r = us_RevokedAt row.
Proof.
  unfold GetUserSessionByRefreshHash. intros H. apply runs_bind in H as ([id row] & w1 & Hq & H).
  apply runs_or_missing, runs_query in Hq as (_ & Hq & ->). apply runs_ret in H as [-> ->].
  split; [done|]. apply first_row_ok in Hq as [Hi Hh]. apply bool_decide_eq_true in Hh. by exists row.
Qed.

(** A revoked token is refused. *)
Lemma Refresh_revoked tok id row w :
  tokens_distinct (user_sessions (w_st w)) ->
  user_sessions (w_st w) !! id = Some row -> us_RefreshHash row = hashRefresh tok ->
  is_Some (us_RevokedAt row) -> exists w', Refresh s tok w = (Err ErrInvalidRefresh, w').
Proof.
  intros Hd Hi Hh [t Ht]. destruct (Refresh s tok w) as [[a|e] w'] eqn:Hr; cycle 1.
  - unfold Refresh, bind in Hr. unfold attempt in Hr.
    destruct (GetUserSessionByRefreshHash _ w) as [[r|e0] w1] eqn:Hg; [|injection Hr as <- <-; eauto].
    apply runs_session_by_hash in Hg as (_ & row' & Hi' & Hh' & _ & _ & Hrev).
    assert (rs_ID r = id) as Hid by (eapply Hd; [exact Hi'|exact Hi|congruence]).
    rewrite Hid, Hi in Hi'. injection Hi' as <-. rewrite Hrev, Ht in Hr. injection Hr as <- <-. eauto.
  - exfalso. change (runs (Refresh s tok) w a w') in Hr. unfold Refresh in Hr.
    apply runs_bind in Hr as ([r|e0] & w1 & Hg & H); [|by apply runs_throw in H].
    apply (proj1 (runs_attempt _ _ _ _)), runs_session_by_hash in Hg
      as (_ & row' & Hi' & Hh' & _ & _ & Hrev).
    assert (rs_ID r = id) as Hid by (eapply Hd; [exact Hi'|exact Hi|congruence]).
    rewrite Hid, Hi in Hi'. injection Hi' as <-. rewrite Hrev, Ht in H.
    apply runs_bind in H as (x & w2 & Hx & _). by apply runs_throw in Hx.
Qed.

(** A rotation revokes the old session and opens a new one. *)
Lemma runs_RotateSession old new u h ex w x w' :
  runs (RotateSession old new u h ex) w x w' ->
  user_sessions (w_st w) !! new = None /\
  (forall r, user_sessions (w_st w) !! old = Some r ->
     exists r', user_sessions (w_st w') !! old = Some r' /\ session_kept r r' /\
       is_Some (us_RevokedAt r')) /\
  exists r', user_sessions (w_st w') !! new = Some r' /\ us_UserID r' = u /\
    us_RefreshHash r' = h /\ us_ExpiresAt r' = tstz ex /\ us_RevokedAt r' = None.
Proof.
  unfold RotateSession, Tx. intros H. apply runs_tx in H as (_ & w1 & H & _ & _ & ->). cbn.
  apply runs_bind in H as ([] & w2 & H1 & H). apply runs_exec in H1 as (_ & d & [= <-] & ->).
  apply runs_exec in H as (_ & d2 & H & ->). apply created_session in H as (Hnew & _ & _ & ->).
  cbn [w_st tick_ops] in *. rewrite lookup_revoke in Hnew.
  destruct (user_sessions (w_st w) !! new) eqn:Hn; [done|].
  split; [done|]. split.
  - intros r Hr. cbn. rewrite lookup_insert_ne by congruence. rewrite map_lookup_imap, Hr. cbn.
    rewrite bool_decide_true by done. eexists. split; [done|]. split; [apply revoke_kept|].
    cbn. destruct (us_RevokedAt r); eauto.
  - cbn. rewrite lookup_insert_eq. by eexists.
Qed.

(** Claim C22: a refresh token works once: a successful refresh was given the token of a live
    session, revokes that session and opens another for the same user, whose token it
    returns; and from then on, whatever handlers run, the old token is always refused. *)
Theorem Refresh_single_use tok w r w' :
  tokens_distinct (user_sessions (w_st w)) -> runs (Refresh s tok) w r w' ->
  (exists id row, user_sessions (w_st w) !! id = Some row /\
     us_RefreshHash row = hashRefresh tok /\ us_UserID row = ar_UserID r /\
     us_RevokedAt row = None /\ (exists n, clock n <= us_ExpiresAt row)) /\
  (exists id row, user_sessions (w_st w) !! id = None /\
     user_sessions (w_st w') !! id = Some row /\ us_UserID row = ar_UserID r /\
     us_RefreshHash row = hashRefresh (ar_RefreshToken r) /\ us_RevokedAt row = None /\
     us_ExpiresAt row = tstz (ar_RefreshExpiresAt r)) /\
  forall v, rtc auth_step (w_st w') (w_st v) ->
    exists v', Refresh s tok v = (Err ErrInvalidRefresh, v').
Proof.
  intros Hd H. pose proof H as Hrun. unfold Refresh in H.
  apply runs_bind in H as ([sess|e0] & w1 & Hg & H); [|by apply runs_throw in H].
  apply (proj1 (runs_attempt _ _ _ _)), runs_session_by_hash in Hg
    as (Hw1 & row & Hi & Hh & Hu & Hex & Hrev).
  apply runs_bind in H as (t & w2 & Ht & H). rewrite Hrev in Ht.
  destruct (us_RevokedAt row) eqn:Hlive; [by apply runs_throw in Ht|].
  apply runs_now in Ht as [-> ->]. unfold After in H. destruct (_ <? _) eqn:Hafter;
    [by apply runs_throw in H|]. apply Z.ltb_ge in Hafter. rewrite Hex in Hafter.
  apply runs_bind in H as (acc & w3 & Ha & H). apply runs_GetUserAccountNumber in Ha as Hw3.
  apply runs_bind in H as (token & w4 & Htok & H). apply runs_newRefreshToken in Htok as [Hw4 Htok].
  apply runs_bind in H as (sid & w5 & Hsid & H). apply runs_newID in Hsid as Hw5.
  apply runs_bind in H as (t1 & w6 & Ht & H). apply runs_now in Ht as [_ ->].
  apply runs_bind in H as (t2 & w7 & Ht & H). apply runs_now in Ht as [_ ->].
  apply runs_bind in H as ([] & w8 & Hrot & H). apply runs_RotateSession in Hrot
    as (Hfresh & Hold & rn & Hrn & Hrnu & Hrnh & Hrne & Hrnv).
  apply runs_bind in H as (access & w9 & Hs & H). apply runs_sign in Hs as Hw9.
  apply runs_ret in H as [-> ->]. cbn [w_st] in *. rewrite Hw5, Hw4, Hw3, Hw1 in *.
  destruct (Hold row Hi) as (r' & Hr' & (Hk1 & Hk2 & _ & _) & Hr'v).
  split; [exists (rs_ID sess), row; cbn; split_and!; [done..|by eexists]|].
  split; [exists sid, rn; rewrite Hw9; cbn; split_and!; congruence|].
  intros v Hv.
  assert (kept_from (user_sessions (w_st w8)) (w_st w8)) as Hk8.
  { split; [done|]. assert (kept_from (user_sessions (w_st w)) (w_st w)) as Hk0 by done.
    assert (kept_from (user_sessions (w_st w)) (w_st w9)) as [_ Hd9]; [|by rewrite <- Hw9].
    assert (preserves (kept_from (user_sessions (w_st w))) (Refresh s tok)) as Hp
      by (apply (auth_handler_keeps s _ (kept_from_blind _)); constructor).
    exact (runs_preserves _ _ _ _ _ Hp Hrun Hk0). }
  rewrite Hw9 in Hv. destruct (auth_steps_keep _ _ _ Hv Hk8) as [Hkv Hdv].
  destruct (Hkv _ _ Hr') as (q & Hq & Hqu & Hqh & _ & Hqv).
  eapply (Refresh_revoked tok _ q v Hdv Hq); [congruence|]. by rewrite Hqv.
Qed.

(** ** One-time codes and the password *)

Lemma runs_GenerateFromPassword pw w h w' :
  runs (GenerateFromPassword pw) w h w' ->
  w_st w' = w_st w /\ exists salt, bcrypt_generate salt pw = Ok h.
Proof.
  unfold GenerateFromPassword. intros H. apply runs_bind in H as (b & w1 & Hb & H).
  apply runs_rand_read in Hb as (_ & Hb & _). apply runs_lift in H as [H ->]. eauto.
Qed.

Lemma runs_not_found_as {A} e (m : dbop A) w a w' : runs (not_found_as e m) w a w' -> runs m w a w'.
Proof.
  unfold not_found_as. intros H. apply runs_bind in H as ([y|x] & w1 & Hr & H);
    [|by apply runs_throw in H].
  apply (proj1 (runs_attempt _ _ _ _)) in Hr. by apply runs_ret in H as [-> ->].
Qed.

(** The challenge [ch] takes [code] now. *)
Definition takes (ch : OtpRow) (code : string) : Prop :=
  oc_ConsumedAt ch = None /\ oc_Attempts ch < max_attempts s /\
  bcrypt_matches (oc_CodeHash ch) code = true /\ exists n, clock n <= oc_ExpiresAt ch.

Lemma runs_consumeOTP identifier purpose code w x w' :
  runs (consumeOTP s identifier purpose code) w x w' ->
  exists ch t, otp_challenges (w_st w) !! (identifier, purpose) = Some ch /\ takes ch code /\
    w_st w' = with_otp_challenges
      (<[(identifier, purpose) := set_otp (oc_Attempts ch) (Some t) ch]>
         (otp_challenges (w_st w))) (w_st w).
Proof.
  unfold consumeOTP. intros H. apply runs_bind in H as ([c|e] & w1 & Hg & H);
    [|by apply runs_throw in H].
  apply (proj1 (runs_attempt _ _ _ _)) in Hg. unfold GetOTPChallenge in Hg.
  apply runs_bind in Hg as (row & w2 & Hq & Hg).
  apply runs_or_missing, runs_query in Hq as (_ & Hq & ->). apply runs_ret in Hg as [-> ->].
  cbn [otp_ConsumedAt otp_ExpiresAt otp_Attempts otp_CodeHash] in H.
  unfold q_GetOTPChallenge in Hq. destruct (otp_challenges _ !! _) as [ch|] eqn:Hch; [|done].
  injection Hq as <-. destruct (oc_ConsumedAt ch) eqn:Hc; [by apply runs_throw in H|].
  apply runs_bind in H as (t & w3 & Ht & H). apply runs_now in Ht as [-> ->].
  unfold After in H. destruct (_ <? _) eqn:H1; [by apply runs_throw in H|].
  destruct (_ <=? _) eqn:H2; [by apply runs_throw in H|].
  destruct (bcrypt_matches _ _) eqn:H3;
    [|apply runs_bind in H as (y & w4 & _ & H); by apply runs_throw in H].
  apply runs_exec in H as (_ & d & [= _ <-] & ->). cbn in *.
  exists ch. eexists. split; [done|]. split.
  - split_and!; try done; [lia|]. eexists. apply Z.ltb_ge. exact H1.
  - f_equal. apply map_eq. intros k. rewrite lookup_alter.
    destruct (decide (k = (identifier, purpose))) as [->|Hne].
    + rewrite decide_True by done. rewrite lookup_insert_eq, Hch. reflexivity.
    + rewrite decide_False by congruence. by rewrite lookup_insert_ne by congruence.
Qed.

(** Resetting a password takes a live code and shuts the others out: a reset that succeeds
    was given a code that matches the unused, unexpired challenge last sent to that email,
    with attempts left; afterwards the user's password is the new one and nobody else's has
    changed, the code does not work again, and every session of the user is
    revoked unless the store failed on the last statement. *)
Lemma ForgotPasswordReset_resets (AH : AuthLibLaws AL) email code password w x w' :
  runs (ForgotPasswordReset s email code password) w x w' ->
  exists e u row hash ch t,
    normalizeEmail email = Ok e /\ validatePassword password = Ok tt /\
    users (w_st w) !! u = Some row /\ lower (u_Email row) = lower e /\
    otp_challenges (w_st w) !! (e, PurposePasswordReset) = Some ch /\ takes ch code /\
    users (w_st w') = <[u := set_credentials hash (u_EmailVerified row) t row]> (users (w_st w)) /\
    bcrypt_matches hash password = true /\
    (forall code' password' y v v', w_st v = w_st w' ->
       ~ runs (ForgotPasswordReset s email code' password') v y v') /\
    ((exists n, fault n <> None) \/
     forall id r, user_sessions (w_st w') !! id = Some r -> us_UserID r = u -> id <> "" ->
       is_Some (us_RevokedAt r)).
Proof.
  unfold ForgotPasswordReset at 1. destruct (normalizeEmail email) as [e|] eqn:He;
    [|intros H; by apply runs_throw in H].
  intros H. apply runs_bind in H as ([] & w1 & Hv & H). apply runs_lift in Hv as [Hv ->].
  apply runs_bind in H as (u & w2 & Hu & H). apply runs_not_found_as in Hu.
  unfold GetUserIDByEmail in Hu. apply runs_bind in Hu as ([u0 row] & w3 & Hq & Hu).
  apply runs_or_missing, runs_query in Hq as (_ & Hq & ->). apply runs_ret in Hu as [-> ->].
  apply first_row_ok in Hq as [Hrow Hemail]. apply bool_decide_eq_true in Hemail. cbn [fst] in H.
  apply runs_bind in H as ([] & w4 & Hc & H). apply runs_consumeOTP in Hc as (ch & t & Hch & Htk & Hw4).
  apply runs_bind in H as (hash & w5 & Hh & H). apply runs_GenerateFromPassword in Hh as [Hw5 [salt Hh]].
  apply runs_bind in H as ([] & w6 & Hp & H). apply runs_exec in Hp as (_ & d & [= <-] & ->).
  apply runs_bind in H as (rv & w7 & Hrv & H). apply runs_ret in H as [-> ->].
  apply (proj1 (runs_attempt _ _ _ _)) in Hrv.
  assert (users (w_st w7) = users (with_users (alter
    (fun z => set_credentials hash (u_EmailVerified z) (sql_now (w_ops w5)) z) u0 (users (w_st w5))) (w_st w5))
    /\ otp_challenges (w_st w7) = otp_challenges (w_st w5) /\
    ((exists n, fault n <> None) \/
     forall id r, user_sessions (w_st w7) !! id = Some r -> us_UserID r = u0 -> id <> "" ->
       is_Some (us_RevokedAt r))) as (Hus & Hot & Hss).
  { unfold RevokeOtherUserSessions, exec in Hrv. cbn [w_ops tick_ops] in Hrv.
    destruct (fault (S (w_ops w5))) eqn:Hf.
    - injection Hrv as _ <-. split; [done|]. split; [done|]. left. exists (S (w_ops w5)). congruence.
    - injection Hrv as _ <-. split; [done|]. split; [done|]. right. intros id r Hid Hru Hne.
      cbn [w_st tick_ops] in Hid. rewrite lookup_revoke in Hid.
      apply fmap_Some in Hid as (r0 & Hr0 & ->).
      assert (us_UserID r0 = u0) as Hr0u by (rewrite <- Hru; by case_match).
      rewrite bool_decide_true, bool_decide_false by done. cbn. destruct (us_RevokedAt r0); eauto. }
  rewrite Hw5, Hw4 in Hus, Hot. cbn in Hus, Hot.
  exists e, u0, row, hash, ch, (sql_now (w_ops w5)).
  split; [done|]. split; [done|]. split; [done|]. split; [done|]. split; [done|]. split; [done|].
  split.
  { rewrite Hus. apply map_eq. intros k. rewrite lookup_alter.
    destruct (decide (k = u0)) as [->|Hne].
    - rewrite decide_True by done. by rewrite lookup_insert_eq, Hrow.
    - rewrite decide_False by congruence. by rewrite lookup_insert_ne by congruence. }
  split; [by eapply bcrypt_matches_generated|]. split; [|done].
  intros code' password' y v v' Hv' H. unfold ForgotPasswordReset in H. rewrite He in H.
  apply runs_bind in H as ([] & v1 & Hx & H). apply runs_lift in Hx as [_ ->].
  apply runs_bind in H as (u' & v2 & Hu & H).
  assert (w_st v2 = w_st v) as Hv2.
  { apply runs_not_found_as in Hu. unfold GetUserIDByEmail, or_missing in Hu. by quiet_in Hu Hw. }
  apply runs_bind in H as ([] & v3 & Hc & _). apply runs_consumeOTP in Hc as (ch' & t' & Hch' & Htk' & _).
  rewrite Hv2, Hv', Hot, lookup_insert_eq in Hch'. injection Hch' as <-.
  by destruct Htk' as [Hn _].
Qed.

(** ** The transaction PIN *)

(** A lock that still holds at [t]. *)
Definition locked_at (r : PinRow) (t : Time) : bool :=
  match pn_LockedAt r with Some l => t - l <? pinLockWindow | None => false end.

(** A PIN is stored and entered as the code wants it. *)
Definition enters (u pin : string) : Prop := u <> "" /\ pinRe pin = true.

(** What a wrong PIN leaves of the row. *)
Definition wrong_pin (t : Time) (r : PinRow) : PinRow :=
  let n := pn_Attempts r + 1 in
  set_pin n (if pinMaxAttempts <=? n then Some (tstz t) else pn_LockedAt r) t r.

Lemma pin_state u r w :
  fault_free E -> user_pins (w_st w) !! u = Some r ->
  GetUserPINState u w = (Ok {| ps_Hash := pn_PinHash r; ps_Attempts := pn_Attempts r;
    ps_LockedAt := pn_LockedAt r; ps_Set := true |}, tick_ops w (w_st w)).
Proof.
  intros Hf Hr. unfold GetUserPINState, attempt, bind, query, exec. rewrite Hf.
  unfold q_GetUserPINState. by rewrite Hr.
Qed.

(** What [VerifyPIN] answers at [t] to a stored PIN. *)
Definition pin_answer (r : PinRow) (pin : string) (t : Time) : result unit :=
  if locked_at r t then Err ErrPINLocked
  else if bcrypt_matches (pn_PinHash r) pin then Ok tt
  else Err (if pinMaxAttempts <=? pn_Attempts r + 1 then ErrPINLocked else ErrBadPIN).

(** Past the lock, the PIN is compared and the answer recorded. *)
Lemma VerifyPIN_compares u pin r w v :
  fault_free E -> user_pins (w_st v) !! u = Some r -> 0 <= pn_Attempts r < 2 ^ 31 - 1 ->
  w_st v = w_st w -> w_ops v = S (w_ops w) ->
  exists w',
    (if negb (bcrypt_matches (pn_PinHash r) pin) then
       if pinMaxAttempts <=? pn_Attempts r + 1 then
         do! LockUserPIN u (pn_Attempts r + 1) in throw ErrPINLocked
       else do! BumpPINAttempts u (pn_Attempts r + 1) in throw ErrBadPIN
     else ClearUserPINAttempts u) v
    = (if bcrypt_matches (pn_PinHash r) pin then Ok tt
       else Err (if pinMaxAttempts <=? pn_Attempts r + 1 then ErrPINLocked else ErrBadPIN), w') /\
    w_clk w' = w_clk v /\ (w_ops w <= w_ops w')%nat /\
    (bcrypt_matches (pn_PinHash r) pin = false ->
     w_st w' = with_user_pins
       (<[u := wrong_pin (sql_now (S (w_ops w))) r]> (user_pins (w_st w))) (w_st w)).
Proof.
  intros Hf Hr Ha Hv Ho. destruct (bcrypt_matches _ _); cbn [negb].
  - unfold ClearUserPINAttempts, exec. rewrite Hf. eexists. split; [reflexivity|].
    cbn. by split_and!; [|lia|].
  - unfold wrong_pin. destruct (pinMaxAttempts <=? pn_Attempts r + 1);
      [unfold LockUserPIN|unfold BumpPINAttempts]; unfold bind, exec, throw; rewrite Hf;
      cbn; eexists; (split; [reflexivity|]); cbn; (split; [done|]); (split; [lia|]); intros _;
      rewrite int32_id, (alter_alt_Some _ _ _ _ Hr), Hv, Ho by lia; reflexivity.
Qed.

Lemma VerifyPIN_answers u pin r w :
  fault_free E -> enters u pin -> user_pins (w_st w) !! u = Some r -> pn_PinHash r <> "" ->
  0 <= pn_Attempts r < 2 ^ 31 - 1 ->
  exists w', VerifyPIN u pin w = (pin_answer r pin (clock (w_clk w)), w') /\
    (w_clk w <= w_clk w' <= S (w_clk w))%nat /\ (w_ops w <= w_ops w')%nat /\
    (locked_at r (clock (w_clk w)) = true -> w_st w' = w_st w) /\
    (locked_at r (clock (w_clk w)) = false -> bcrypt_matches (pn_PinHash r) pin = false ->
     w_st w' = with_user_pins
       (<[u := wrong_pin (sql_now (S (w_ops w))) r]> (user_pins (w_st w))) (w_st w)).
Proof.
  intros Hf [Hu Hp] Hr Hh Ha. unfold VerifyPIN, pin_answer.
  rewrite (bool_decide_false (u = "")) by done. rewrite Hp. cbn [negb].
  rewrite (bind_ok _ _ _ _ _ (pin_state _ _ _ Hf Hr)).
  unfold locked_at, pin_locked. cbn [ps_Hash ps_Set ps_LockedAt ps_Attempts].
  rewrite (bool_decide_false (pn_PinHash r = "")) by done. cbn [negb orb].
  destruct (pn_LockedAt r) as [l|] eqn:Hl.
  - rewrite bind_ok with (a := clock (w_clk w) - l <? pinLockWindow)
      (w1 := World (w_st w) (w_ids w) (S (w_clk w)) (S (w_ops w)) (w_log w)) by done.
    destruct (_ <? _).
    + eexists. split; [reflexivity|]. cbn. by split_and!; [lia..| |].
    + edestruct (VerifyPIN_compares u pin r w) as (w' & -> & Hc & Ho & Hs);
        [exact Hf| |exact Ha| | |]; [exact Hr|reflexivity..|].
      exists w'. rewrite Hc. cbn. by split_and!; [|lia..|done|].
  - rewrite bind_ok with (a := false) (w1 := tick_ops w (w_st w)) by done.
    edestruct (VerifyPIN_compares u pin r w) as (w' & -> & Hc & Ho & Hs);
      [exact Hf| |exact Ha| | |]; [exact Hr|reflexivity..|].
    exists w'. rewrite Hc. cbn. by split_and!; [|lia..|done|].
Qed.

(** The PINs tried one after the other, with their answers. *)
Fixpoint tries (u : string) (pins : list string) (w : world db effect)
  : list (result unit) * world db effect :=
  match pins with
  | [] => ([], w)
  | pin :: pins' =>
      let '(r, w1) := VerifyPIN u pin w in
      let '(rs, w2) := tries u pins' w1 in (r :: rs, w2)
  end.

(** The answers to [n] wrong PINs after [a] wrong ones. *)
Fixpoint wrong_answers (a : Z) (n : nat) : list (result unit) :=
  match n with
  | O => []
  | S n' =>
      Err (if pinMaxAttempts <=? a + 1 then ErrPINLocked else ErrBadPIN) ::
      wrong_answers (a + 1) n'
  end.

Lemma wrong_answers_locked a n :
  pinMaxAttempts <= a + 1 -> wrong_answers a n = replicate n (Err ErrPINLocked).
Proof.
  revert a. induction n as [|n IH]; intros a Ha; [done|]. cbn.
  rewrite (proj2 (Z.leb_le _ _)) by lia. by rewrite IH by lia.
Qed.

Lemma tries_locked u pins r w :
  fault_free E -> Forall (enters u) pins -> user_pins (w_st w) !! u = Some r ->
  pn_PinHash r <> "" -> 0 <= pn_Attempts r < 2 ^ 31 - 1 ->
  (forall n, (w_clk w <= n < w_clk w + length pins)%nat -> locked_at r (clock n) = true) ->
  exists w', tries u pins w = (replicate (length pins) (Err ErrPINLocked), w') /\
    w_st w' = w_st w.
Proof.
  intros Hf Hp. revert w. induction Hp as [|pin pins Hpin _ IH]; intros w Hr Hh Ha Hl;
    [by exists w|]. cbn in *.
  destruct (VerifyPIN_answers u pin r w Hf Hpin Hr Hh Ha) as (w1 & -> & Hc & _ & Hs & _).
  unfold pin_answer. rewrite (Hl (w_clk w)) in * by lia. specialize (Hs eq_refl).
  destruct (IH w1) as (w2 & -> & Hw2); rewrite ?Hs; [done..| |].
  - intros n Hn. apply Hl. lia.
  - exists w2. split; [done|]. congruence.
Qed.

Lemma lock_holds r t n : clock n < tstz t + pinLockWindow -> pinMaxAttempts <= pn_Attempts r + 1 ->
  locked_at (wrong_pin t r) (clock n) = true.
Proof.
  intros Hn Ha. unfold locked_at, wrong_pin, set_pin. cbn.
  rewrite (proj2 (Z.leb_le _ _)) by lia. apply Z.ltb_lt. lia.
Qed.

(** Claim C23: wrong PINs are counted over requests: out of [5 - attempts] wrong guesses all
    but the last are told the PIN is wrong and the last locks it; further
    guesses are told it is locked and change nothing, and for a quarter of an hour after the
    lock nobody, not even with the right PIN, gets past it. *)
Theorem VerifyPIN_guess_bound u r pins w :
  fault_free E -> user_pins (w_st w) !! u = Some r -> pn_PinHash r <> "" ->
  0 <= pn_Attempts r < pinMaxAttempts ->
  Forall (fun pin => enters u pin /\ bcrypt_matches (pn_PinHash r) pin = false) pins ->
  (forall n, locked_at r (clock n) = false) ->
  (forall n m, (n <= w_clk w + length pins)%nat -> (w_ops w <= m)%nat ->
     clock n < tstz (sql_now m) + pinLockWindow) ->
  exists w', tries u pins w = (wrong_answers (pn_Attempts r) (length pins), w') /\
    (pinMaxAttempts <= pn_Attempts r + Z.of_nat (length pins) ->
     exists r' l, user_pins (w_st w') !! u = Some r' /\ pn_Attempts r' = pinMaxAttempts /\
       pn_LockedAt r' = Some l /\ (exists m, (w_ops w < m)%nat /\ l = tstz (sql_now m)) /\
       forall pin v, enters u pin -> user_pins (w_st v) !! u = Some r' ->
         clock (w_clk v) < l + pinLockWindow ->
         exists v', VerifyPIN u pin v = (Err ErrPINLocked, v') /\ w_st v' = w_st v).
Proof.
  intros Hf Hr Hh Ha Hp. revert r w Hr Hh Ha Hp.
  induction pins as [|pin pins IH]; intros r w Hr Hh Ha Hp Hun Hcl.
  { exists w. split; [done|]. cbn. unfold pinMaxAttempts in *. lia. }
  apply Forall_cons in Hp as [[Hpin Hno] Hp]. cbn in *.
  destruct (VerifyPIN_answers u pin r w Hf Hpin Hr Hh) as (w1 & -> & Hc & Ho & _ & Hs);
    [unfold pinMaxAttempts in *; lia|].
  unfold pin_answer. rewrite (Hun (w_clk w)) in *. rewrite Hno. specialize (Hs eq_refl Hno).
  assert (user_pins (w_st w1) !! u = Some (wrong_pin (sql_now (S (w_ops w))) r)) as Hr1
    by (rewrite Hs; cbn; by rewrite lookup_insert_eq).
  destruct (Z.leb_spec pinMaxAttempts (pn_Attempts r + 1)) as [Hlock|Hlock].
  - assert (forall n, clock n < tstz (sql_now (S (w_ops w))) + pinLockWindow ->
      locked_at (wrong_pin (sql_now (S (w_ops w))) r) (clock n) = true) as Hl
      by (intros; by apply lock_holds).
    assert (Forall (enters u) pins) as Hen by (eapply Forall_impl; [exact Hp|by intros ? []]).
    destruct (tries_locked u pins _ w1 Hf Hen Hr1 Hh) as (w2 & -> & Hw2);
      [cbn; unfold pinMaxAttempts in *; lia|intros n Hn; apply Hl, Hcl; lia|].
    exists w2. split; [by rewrite wrong_answers_locked by lia|]. intros _.
    exists (wrong_pin (sql_now (S (w_ops w))) r), (tstz (sql_now (S (w_ops w)))).
    rewrite Hw2. split; [done|]. split; [cbn; lia|].
    split; [unfold wrong_pin, set_pin; cbn; by rewrite (proj2 (Z.leb_le _ _)) by lia|].
    split; [exists (S (w_ops w)); split; [lia|done]|]. intros p v Hpv Hv Hcv.
    destruct (VerifyPIN_answers u p _ v Hf Hpv Hv Hh) as (v1 & -> & _ & _ & Hsv & _);
      [cbn; unfold pinMaxAttempts in *; lia|].
    unfold pin_answer. rewrite (Hl _ Hcv) in *. by exists v1; auto.
  - destruct (IH (wrong_pin (sql_now (S (w_ops w))) r) w1) as (w2 & Ht & Hw2); try done.
    + cbn. lia.
    + intros n. unfold locked_at, wrong_pin, set_pin. cbn.
      rewrite (proj2 (Z.leb_gt _ _)) by lia. apply Hun.
    + intros n m Hn Hm. apply Hcl; lia.
    + rewrite Ht. exists w2. split; [done|]. intros Hlen.
      destruct Hw2 as (r' & l & ? & ? & ? & (m & Hm & ?) & ?); [cbn; lia|].
      exists r', l. split_and!; try done. exists m. split; [lia|done].
Qed.

(** ** Signing up *)

(** Sending a code touches the codes only. *)
Lemma issueOTP_keeps identifier purpose d0 :
  preserves (fun d => users d = users d0 /\ accounts d = accounts d0 /\
                      user_sessions d = user_sessions d0) (issueOTP s identifier purpose).
Proof.
  unfold issueOTP, send, GenerateFromPassword, UpsertOTPChallenge.
  assert (forall P, preserves (L:=effect) P rand_read) as Hr by (intros P; by apply preserves_pure).
  assert (preserves (L:=effect) (fun d => users d = users d0 /\ accounts d = accounts d0 /\
    user_sessions d = user_sessions d0) rand_read) as Hr' by apply Hr.
  apply preserves_bind; [quiet|]. intros h. apply preserves_bind; [quiet|]. intros t.
  apply preserves_bind; [|quiet]. apply preserves_exec. intros t' d x d' Hd H.
  unfold q_UpsertOTPChallenge in H. guards H. by injection H as _ <-.
Qed.

Lemma runs_signup_row i w row w' :
  runs (signup_row s i) w row w' ->
  w_st w' = w_st w /\ normalizePhone (si_Phone i) = Ok (su_Phone row.1) /\
  normalizeEmail (si_Email i) = Ok (su_Email row.1) /\
  validatePassword (si_Password i) = Ok tt /\
  AccountNumberFromPhone (su_Phone row.1) = Ok (su_AccountNumber row.1) /\
  (exists salt, bcrypt_generate salt (si_Password i) = Ok (su_PasswordHash row.1)) /\
  su_FirstName row.1 = TrimSpace (si_FirstName i) /\
  su_LastName row.1 = TrimSpace (si_LastName i) /\
  su_FirstName row.1 <> "" /\ su_LastName row.1 <> "" /\
  su_KYCTier row.1 = TierOne /\ su_RefreshHash row.1 = hashRefresh row.2 /\
  exists id1 id2 id3, su_AccountIDs row.1 = [id1; id2; id3].
Proof.
  unfold signup_row. intros H.
  apply runs_bind in H as (phone & w1 & Hx & H). apply runs_lift in Hx as [Hphone ->].
  apply runs_bind in H as (email & w2 & Hx & H). apply runs_lift in Hx as [Hemail ->].
  apply runs_bind in H as ([] & w3 & Hx & H). apply runs_lift in Hx as [Hnames ->].
  apply runs_bind in H as ([] & w4 & Hx & H). apply runs_lift in Hx as [Hpw ->].
  apply runs_bind in H as (hash & w5 & Hx & H). apply runs_GenerateFromPassword in Hx as [Hw5 Hh].
  apply runs_bind in H as (acc & w6 & Hx & H). apply runs_lift in Hx as [Hacc ->].
  apply runs_bind in H as (uid & w7 & Hx & H). apply runs_newID in Hx as Hw7.
  apply runs_bind in H as (sid & w8 & Hx' & H). apply runs_newID in Hx' as Hw8.
  apply runs_bind in H as (tok & w9 & Ht & H). apply runs_newRefreshToken in Ht as [Hw9 Ht].
  apply runs_bind in H as (t & wa & Hn & H). apply runs_now in Hn as [_ ->].
  apply runs_bind in H as (id1 & wb & H1 & H). apply runs_newID in H1 as Hwb.
  apply runs_bind in H as (id2 & wc & H2 & H). apply runs_newID in H2 as Hwc.
  apply runs_bind in H as (id3 & wd & H3 & H). apply runs_newID in H3 as Hwd.
  apply runs_ret in H as [-> ->]. cbn in *.
  apply guard_or_ok, andb_true_iff in Hnames as [Hf Hl].
  apply negb_true_iff, bool_decide_eq_false in Hf, Hl.
  split; [congruence|]. split_and!; try done. by exists id1, id2, id3.
Qed.

Lemma runs_create_account id u k w x w' :
  runs (exec (q_CreateAccount id u k 0)) w x w' ->
  accounts (w_st w) !! id = None /\
  w_st w' = with_accounts (<[id := {| a_UserID := u; a_Kind := k; a_BalanceKobo := 0 |}]>
    (accounts (w_st w))) (w_st w).
Proof.
  intros H. apply runs_exec in H as (_ & d & H & ->). unfold q_CreateAccount in H.
  guards H. apply pk_ok in Hg1. injection H as _ <-. done.
Qed.

(** What a sign-up writes, in one transaction. *)
Lemma runs_Repo_Signup row id1 id2 id3 w x w' :
  su_AccountIDs row = [id1; id2; id3] -> runs (Repo_Signup row) w x w' ->
  exists t expires user session,
    user = signup_user row t /\
    users (w_st w) !! su_UserID row = None /\
    (forall j q, users (w_st w) !! j = Some q ->
       u_Phone q <> su_Phone row /\ u_AccountNumber q <> su_AccountNumber row /\
       lower (u_Email q) <> lower (su_Email row)) /\
    users (w_st w') = <[su_UserID row := user]> (users (w_st w)) /\
    Forall (fun id => accounts (w_st w) !! id = None) [id1; id2; id3] /\ NoDup [id1; id2; id3] /\
    accounts (w_st w') = foldl (fun m x => <[x.1 := {| a_UserID := su_UserID row; a_Kind := x.2;
        a_BalanceKobo := 0 |}]> m) (accounts (w_st w))
      [(id1, AccountKindMain); (id2, AccountKindLienHolding); (id3, AccountKindReceivingPending)] /\
    user_sessions (w_st w) !! su_SessionID row = None /\
    user_sessions (w_st w') = <[su_SessionID row := session]> (user_sessions (w_st w)) /\
    us_UserID session = su_UserID row /\ us_RefreshHash session = su_RefreshHash row /\
    us_ExpiresAt session = expires /\ expires = tstz (su_RefreshExpires row) /\
    us_RevokedAt session = None.
Proof.
  intros Hids H. unfold Repo_Signup, Tx in H. apply runs_tx in H as (_ & w1 & H & _ & _ & ->).
  unfold signup_in_tx in H. rewrite Hids in H.
  apply runs_bind in H as ([y|e] & w2 & Hr & H); [|by apply runs_throw in H].
  apply (proj1 (runs_attempt _ _ _ _)), runs_exec in Hr as (_ & d & Hr & ->).
  unfold q_CreateUser in Hr. guards Hr. injection Hr as _ <-. apply pk_ok in Hg0.
  apply runs_bind in H as ([] & w3 & Ha & H). cbn [CanonicalAccountKinds combine for_each] in Ha.
  apply runs_bind in Ha as (? & wa & H1 & Ha). apply runs_create_account in H1 as [Hn1 Hw1].
  apply runs_bind in Ha as (? & wb & H2 & Ha). apply runs_create_account in H2 as [Hn2 Hw2].
  apply runs_bind in Ha as (? & wc & H3 & Ha). apply runs_create_account in H3 as [Hn3 Hw3].
  apply runs_ret in Ha as [_ ->]. apply runs_exec in H as (_ & d & H & ->).
  apply created_session in H as (Hsn & _ & _ & ->). rewrite Hw3, Hw2, Hw1 in *. cbn in *.
  apply lookup_insert_None in Hn2 as [Hn2 H12].
  apply lookup_insert_None in Hn3 as [Hn3 H23]. apply lookup_insert_None in Hn3 as [Hn3 H13].
  do 4 eexists. split; [reflexivity|]. split; [exact Hg0|]. split.
  { intros j q Hj. pose proof (unique_ok _ _ _ _ Hg1 j q Hj) as Hp1.
    pose proof (unique_ok _ _ _ _ Hg2 j q Hj) as Hp2.
    pose proof (unique_ok _ _ _ _ Hg3 j q Hj) as Hp3. cbn in *.
    by rewrite !bool_decide_eq_false in *. }
  split; [reflexivity|]. split; [by repeat constructor|]. split.
  { repeat constructor; rewrite ?list_elem_of_In; cbn; naive_solver. }
  split; [reflexivity|]. split; [exact Hsn|]. split; [reflexivity|]. done.
Qed.

(** Claim C24: signing up opens a user: the answer names a user that did not exist, with the
    normalised phone and email, which nobody had, the account number the phone gives, tier
    one and a hash of the password; three accounts with nothing on them; and a live session
    for the refresh token of the answer.  No other user, account or session changes, and the
    phone is from then on the new user's to log in with. *)
Theorem Signup_opens (AH : AuthLibLaws AL) i w r w' :
  runs (Signup s i) w r w' ->
  exists user session sid id1 id2 id3,
    normalizePhone (si_Phone i) = Ok (u_Phone user) /\
    normalizeEmail (si_Email i) = Ok (u_Email user) /\
    validatePassword (si_Password i) = Ok tt /\
    AccountNumberFromPhone (u_Phone user) = Ok (u_AccountNumber user) /\
    ar_AccountNumber r = u_AccountNumber user /\
    u_FirstName user = TrimSpace (si_FirstName i) /\ u_LastName user = TrimSpace (si_LastName i) /\
    u_KycTier user = TierOne /\ u_EmailVerified user = false /\
    bcrypt_matches (u_PasswordHash user) (si_Password i) = true /\
    users (w_st w) !! ar_UserID r = None /\
    (forall j q, users (w_st w) !! j = Some q ->
       u_Phone q <> u_Phone user /\ u_AccountNumber q <> u_AccountNumber user /\
       lower (u_Email q) <> lower (u_Email user)) /\
    users (w_st w') = <[ar_UserID r := user]> (users (w_st w)) /\
    q_GetUserLoginByPhone (u_Phone user) (w_st w') = Ok (ar_UserID r, user) /\
    Forall (fun id => accounts (w_st w) !! id = None) [id1; id2; id3] /\ NoDup [id1; id2; id3] /\
    accounts (w_st w') = foldl (fun m x => <[x.1 := {| a_UserID := ar_UserID r; a_Kind := x.2;
        a_BalanceKobo := 0 |}]> m) (accounts (w_st w))
      [(id1, AccountKindMain); (id2, AccountKindLienHolding); (id3, AccountKindReceivingPending)] /\
    user_sessions (w_st w) !! sid = None /\
    user_sessions (w_st w') = <[sid := session]> (user_sessions (w_st w)) /\
    us_UserID session = ar_UserID r /\ us_RefreshHash session = hashRefresh (ar_RefreshToken r) /\
    us_ExpiresAt session = tstz (ar_RefreshExpiresAt r) /\ us_RevokedAt session = None.
Proof.
  unfold Signup. intros H. apply runs_bind in H as ([row tok] & w1 & Hrow & H).
  apply runs_signup_row in Hrow as
    (Hw1 & Hph & Hem & Hpw & Hacc & (salt & Hh) & Hfn & Hln & _ & _ & Htier & Htok &
     id1 & id2 & id3 & Hids). cbn [fst snd] in *.
  apply runs_bind in H as ([x|e] & w2 & Hr & H); [|by apply runs_throw in H].
  apply (proj1 (runs_attempt _ _ _ _)) in Hr.
  destruct (runs_Repo_Signup _ _ _ _ _ _ _ Hids Hr) as (t & ex & user & session & -> & Hnone &
    Hfresh & Hus & Han & Hnd & Hacs & Hsn & Hss & Hsu & Hsh & Hse & -> & Hsv).
  apply runs_bind in H as (o & w3 & Ho & H).
  assert (users (w_st w3) = users (w_st w2) /\ accounts (w_st w3) = accounts (w_st w2) /\
    user_sessions (w_st w3) = user_sessions (w_st w2)) as (Hu3 & Ha3 & Hs3).
  { refine (runs_preserves _ _ _ _ _ (preserves_attempt _ _ (issueOTP_keeps _ _ (w_st w2))) Ho _).
    done. }
  apply runs_bind in H as (access & w4 & Hs & H). apply runs_sign in Hs as Hw4.
  unfold auth_result in H. apply runs_bind in H as (t' & w5 & Ht & H).
  apply runs_now in Ht as [_ ->]. apply runs_ret in H as [-> ->]. cbn.
  rewrite Hw4, Hu3, Ha3, Hs3, Hus, Hacs, Hss. rewrite Hw1 in *.
  exists (signup_user row t), session, (su_SessionID row), id1, id2, id3. cbn.
  split_and!; try done; try congruence.
  - by eapply bcrypt_matches_generated.
  - unfold q_GetUserLoginByPhone. rewrite Hu3, Hus. apply first_row_unique.
    + apply lookup_insert_eq.
    + by apply bool_decide_eq_true.
    + intros k q Hk Hq. apply bool_decide_eq_true in Hq.
      apply lookup_insert_Some in Hk as [[<- _]|[_ Hk]]; [done|].
      by destruct (Hfresh k q Hk) as [? _].
Qed.

End UserAuthProps.

(** * The properties of identity verification

    What a submission records, and when and to what it promotes a user. *)

Section KycProps.
Context {E : Env}.
Implicit Types w : world db effect.

(** The row a submission leaves in the history. *)
Definition history_row (sub : Submission) (t : Time) : KycSubmissionRow := {|
  ks_UserID := sb_UserID sub; ks_IDType := sb_IDType sub; ks_IDNumber := sb_IDNumber sub;
  ks_Status := sb_Status sub; ks_RejectionReason := sb_RejectionReason sub;
  ks_TierGranted := sb_TierGranted sub; ks_SubmittedBy := sb_SubmittedBy sub;
  ks_SubmittedAt := tstz t; ks_VerifiedAt := tstz <$> sb_VerifiedAt sub |}.

Lemma runs_judge ty num expected w v w' :
  runs (judge ty num expected) w v w' ->
  w_st w' = w_st w /\
  if String.eqb num expected then
    exists t, v = (statusVerified, None, Some (Kyc_tierFor ty), Some t)
  else exists reason, v = (statusRejected, Some reason, None, None).
Proof.
  unfold judge. destruct (String.eqb num expected); cbn [negb]; intros H.
  - apply runs_bind in H as (t & w1 & Ht & H). apply runs_now in Ht as [_ ->].
    apply runs_ret in H as [-> ->]. by eauto.
  - apply runs_ret in H as [-> ->]. by eauto.
Qed.

(** A promotion raises the tier to the granted one, or leaves the user alone. *)
Lemma promote_max u tier row t d x d' :
  users d !! u = Some row -> 0 <= tier_rank tier ->
  q_PromoteUserToTier u tier t d = Ok (x, d') ->
  exists row', users d' = <[u := row']> (users d) /\ kyc_submissions d' = kyc_submissions d /\
    (row' = row \/ row' = set_tier tier t row) /\
    tier_rank (u_KycTier row') = Z.max (tier_rank (u_KycTier row)) (tier_rank tier).
Proof.
  intros Hu _. unfold q_PromoteUserToTier. rewrite Hu. destruct (Z.ltb_spec (tier_rank (u_KycTier row)) (tier_rank tier)).
  - intros Hq. guards Hq. injection Hq as _ <-. exists (set_tier tier t row). cbn.
    split_and!; try done; [by right|lia].
  - intros [= _ <-]. exists row. rewrite insert_id by done. split_and!; try done; [by left|lia].
Qed.

Lemma runs_submit_in_tx i row w t w' :
  users (w_st w) !! ik_UserID i = Some row -> runs (submit_in_tx i) w t w' ->
  exists t0, kyc_submissions (w_st w) !! ik_ID i = None /\
    kyc_submissions (w_st w') = <[ik_ID i := kyc_row i t0]> (kyc_submissions (w_st w)) /\
    t = tstz t0 /\
    match granted (ik_TierGranted i) with
    | None => users (w_st w') = users (w_st w)
    | Some tier => exists row' t', users (w_st w') = <[ik_UserID i := row']> (users (w_st w)) /\
        (row' = row \/ row' = set_tier tier t' row) /\
        tier_rank (u_KycTier row') = Z.max (tier_rank (u_KycTier row)) (tier_rank tier)
    end.
Proof.
  intros Hu H. unfold submit_in_tx in H. apply runs_bind in H as ([] & w1 & Hi & H).
  apply runs_exec in Hi as (_ & d & Hi & ->). unfold q_InsertKYCSubmission in Hi. guards Hi.
  injection Hi as <-. apply pk_ok in Hg1. exists (sql_now (w_ops w)).
  apply runs_bind in H as ([] & w2 & Hp & H).
  apply runs_query in H as (_ & Hq & ->). cbn.
  assert (forall m, kyc_submissions (w_st w2) = m -> m !! ik_ID i = Some (kyc_row i (sql_now (w_ops w))) ->
    t = tstz (sql_now (w_ops w))) as Ht.
  { intros m Hm Hl. unfold q_GetKYCSubmissionSubmittedAt in Hq. rewrite Hm, Hl in Hq. by injection Hq as <-. }
  destruct (granted (ik_TierGranted i)) as [tier|].
  - apply runs_wrapping, runs_exec in Hp as (_ & d & Hp & ->).
    assert (0 <= tier_rank tier) as Hr by (unfold tier_rank; repeat case_match; lia).
    eapply promote_max in Hp as (row' & Hus & Hks & Hrow & Hmax); [|exact Hu|exact Hr]. cbn in *.
    rewrite Hks in *. split_and!; try done; [by eapply Ht; [|apply lookup_insert_eq]|].
    exists row', (sql_now (S (w_ops w))). by split_and!.
  - apply runs_ret in Hp as [_ ->]. cbn in *.
    split_and!; try done. by eapply Ht; [|apply lookup_insert_eq].
Qed.

Lemma runs_kyc_or_missing {A} (m : dbop A) w a w' : runs (kyc_or_missing m) w a w' -> runs m w a w'.
Proof.
  unfold kyc_or_missing. intros H. apply runs_bind in H as ([y|e] & w1 & Hr & H);
    [|by apply runs_throw in H].
  apply (proj1 (runs_attempt _ _ _ _)) in Hr. by apply runs_ret in H as [-> ->].
Qed.

Lemma runs_GetUserContext u w uc w' :
  runs (GetUserContext u) w uc w' ->
  w_st w' = w_st w /\ exists row, users (w_st w) !! u = Some row /\ uc_Phone uc = u_Phone row.
Proof.
  unfold GetUserContext. intros H. apply runs_bind in H as (x & w1 & Hq & H).
  apply runs_kyc_or_missing, runs_query in Hq as (_ & Hq & ->). apply runs_ret in H as [-> ->].
  split; [done|]. unfold q_GetUserPhoneAndTier in Hq. destruct (users _ !! u) as [row|]; [|done].
  injection Hq as <-. by exists row.
Qed.

(** A submission is judged by the number the user's phone gives for that kind of
    document: a match is recorded as verified and raises the user to tier two for a NIN and
    three for a BVN, never lowering a tier already held; anything else is recorded as
    rejected and promotes nobody.  No other user changes and no history is overwritten. *)
Lemma Submit_promotes u idType idNumber w sub w' :
  runs (Submit u idType idNumber) w sub w' ->
  exists row expected t,
    read_id idType idNumber = Ok (sb_IDType sub, sb_IDNumber sub) /\
    users (w_st w) !! u = Some row /\ Expected (u_Phone row) (sb_IDType sub) = Ok expected /\
    sb_UserID sub = u /\ sb_SubmittedAt sub = tstz t /\
    kyc_submissions (w_st w) !! sb_ID sub = None /\
    kyc_submissions (w_st w') = <[sb_ID sub := history_row sub t]> (kyc_submissions (w_st w)) /\
    if String.eqb (sb_IDNumber sub) expected then
      let tier := if String.eqb (sb_IDType sub) "BVN" then "TIER_3" else "TIER_2" in
      sb_Status sub = "VERIFIED" /\ sb_TierGranted sub = Some tier /\
      exists row' t', users (w_st w') = <[u := row']> (users (w_st w)) /\
        (row' = row \/ row' = set_tier tier t' row) /\
        tier_rank (u_KycTier row') = Z.max (tier_rank (u_KycTier row)) (tier_rank tier)
    else sb_Status sub = "REJECTED" /\ sb_TierGranted sub = None /\
      users (w_st w') = users (w_st w).
Proof.
  unfold Submit. intros H. apply runs_bind in H as ([ty num] & w1 & Hid & H).
  apply runs_lift in Hid as [Hid ->]. cbn [fst snd] in H.
  apply runs_bind in H as ([uc|e] & w2 & Hc & H); [|by apply runs_throw in H].
  apply (proj1 (runs_attempt _ _ _ _)), runs_GetUserContext in Hc as (Hw2 & row & Hrow & Hph).
  apply runs_bind in H as (expected & w3 & He & H). apply runs_lift in He as [He ->].
  apply runs_bind in H as ([[[status reason] tier] verified] & w4 & Hj & H).
  apply runs_judge in Hj as [Hw4 Hj].
  apply runs_bind in H as (sid & w5 & Hs & H).
  assert (w_st w5 = w_st w4) as Hw5 by (unfold newID in Hs; by quiet_in Hs Hw).
  apply runs_bind in H as (at_ & w6 & Hk & H). apply runs_ret in H as [-> ->]. cbn.
  unfold Kycrepo_Submit in Hk. apply runs_bind in Hk as (t1 & w7 & Ht & Hk).
  apply runs_bind in Hk as (x & w8 & Hx & Hk). apply runs_ret in Hk as [-> ->].
  assert (w_st w8 = w_st w7) as Hw8
    by (destruct (granted _) in Hx; [by apply runs_emit in Hx as ->|by apply runs_ret in Hx as [_ ->]]).
  unfold Tx in Ht. apply runs_tx in Ht as (_ & w9 & Ht & _ & _ & ->).
  eapply runs_submit_in_tx in Ht as (t0 & Hnone & Hks & -> & Hus);
    [|cbn [w_st tick_ops ik_UserID]; rewrite Hw5, Hw4, Hw2; exact Hrow].
  cbn [w_st tick_ops ik_UserID ik_ID ik_TierGranted] in *. rewrite Hw5, Hw4, Hw2 in *.
  exists row, expected, t0. rewrite Hw8.
  split; [done|]. split; [done|]. split; [by rewrite <- Hph|]. split; [done|]. split; [done|].
  split; [done|]. split; [done|].
  destruct (String.eqb num expected).
  - destruct Hj as (t & [= -> -> -> ->]). split; [done|]. split; [done|].
    unfold Kyc_tierFor, IDTypeBVN, TierTwo, TierThree in *.
    destruct (String.eqb ty "BVN"); cbn in Hus; exact Hus.
  - destruct Hj as (r & [= -> -> -> ->]). done.
Qed.

End KycProps.
