(* ===== verification/DeviceProps.v ===== *)
(** * What holds of devices

    One active device per user; a device that was revoked stays inactive, and gets neither a
    session nor a realm key again unless the cache kept an entry that calls it active. *)

From S2P Require Import Prelude Domain Json Crypto Store AuthStore DeviceStore Parse Decode Tokens Repo Devices AuthRepo UserAuth Books Members Registration Keys DeviceFacts.

#[local] Open Scope Z_scope.

(** ** What the store and the cache say of a device *)

Definition standing : Type := string * bytes * bool.
Definition access (d : db) (id : string) : option standing :=
  (fun r => (dv_UserID r, dv_PublicKey r, dv_Active r)) <$> devices d !! id.

Definition one_active (d : db) : Prop := forall i j r r',
  devices d !! i = Some r -> devices d !! j = Some r' -> dv_Active r = true ->
  dv_Active r' = true -> dv_UserID r = dv_UserID r' -> i = j.


(** No device comes back, and users keep to one. *)
Record kept (w w' : world db effect) : Prop := {
  kp_off id u p : access (w_st w) id = Some (u, p, false) -> access (w_st w') id = Some (u, p, false);
  kp_one : one_active (w_st w) -> one_active (w_st w');
}.

Section Cache.
Context {K : CacheEnv}.

Definition cached_at (w : world db effect) (id : string) : option cached :=
  cache_get (deviceAuthCacheKey id) (w_log w).

(** The cache calls the device active. *)
Definition cached_active (w : world db effect) (id : string) : Prop :=
  exists u p, cached_at w id = Some (CachedDevice u p true).

(** The device is off, in the registry and in the cache. *)
Definition off (w : world db effect) (id : string) : Prop :=
  (exists u p, access (w_st w) id = Some (u, p, false)) /\ ~ cached_active w id.

(** The cache only loses devices: this survives both the commit and the rollback of a
    transaction, and deletions that fail. *)
Record narrows (w w' : world db effect) : Prop := {
  nr_cache id v : cached_at w' id = Some v -> cached_at w id = Some v;
  nr_kept : kept w w';
}.

Record sound (w w' : world db effect) : Prop := {
  so_off id : off w id -> off w' id;
  so_kept : kept w w';
}.

End Cache.

#[global] Instance kept_preorder : PreOrder kept.
Proof.
  split; [by split|]. intros w w1 w2 [H1 H2] [H3 H4]. split; [|by auto].
  intros. by apply H3, H1.
Qed.

Lemma kept_same w w' : devices (w_st w') = devices (w_st w) -> kept w w'.
Proof. intros H. split; unfold access, one_active; rewrite H; done. Qed.

Section Narrowing.
Context {K : CacheEnv}.

#[global] Instance narrows_uncounted : Uncounted narrows.
Proof.
  split.
  - split.
    + intros w. split; auto. reflexivity.
    + intros w w1 w2 [C1 K1] [C2 K2]. split; [auto|by etrans].
  - intros w w' Hs Hl. split; [unfold cached_at; by rewrite Hl|by apply kept_same; rewrite Hs].
Qed.

Lemma narrows_sound w w' : narrows w w' -> sound w w'.
Proof.
  intros [HC HK]. split; [|done]. intros id [(u & p & Ha) Hn]. split; [exists u, p; by apply HK|].
  intros (v & q & Hv). apply Hn. exists v, q. by apply HC.
Qed.

#[global] Instance sound_uncounted : Uncounted sound.
Proof.
  split.
  - split; [by split; [|reflexivity]|]. intros w w1 w2 [C1 K1] [C2 K2]. split; [auto|by etrans].
  - intros w w' Hs Hl. apply narrows_sound. by apply (uncounted narrows).
Qed.

Lemma along_narrows_sound {E : Env} {A} (m : dbop A) : along narrows m -> along sound m.
Proof. intros H w. by apply narrows_sound. Qed.

(** ** Traces *)

End Narrowing.

Lemma deviceAuthCacheKey_inj id id' : deviceAuthCacheKey id = deviceAuthCacheKey id' -> id = id'.
Proof. unfold deviceAuthCacheKey. intros H. by injection H. Qed.

(** Some other effect. *)
Definition off_devices (ev : effect) : Prop :=
  forall k v, ev = EvCacheSet k v -> forall id, k <> deviceAuthCacheKey id.

Section Effects.
Context {E : Env} {K : CacheEnv} {C : Ed25519} {AL : AuthLib} {T : ErrorText}.
Implicit Types w : world db effect.

Lemma along_emit_off ev : off_devices ev -> along narrows (emit ev).
Proof.
  intros Hoff w. cbn. split; [|by apply kept_same].
  intros id v. unfold cached_at. cbn [w_log]. rewrite cache_get_snoc.
  destruct ev; try done.
  - destruct (String.eqb_spec key (deviceAuthCacheKey id)) as [->|]; [|done].
    by destruct (Hoff _ _ eq_refl id).
  - by destruct (existsb _ _ && _).
Qed.

(** A statement on other tables. *)
Lemma along_off_devices {A} (f : Time -> db -> result (A * db)) :
  (forall t d a d', f t d = Ok (a, d') -> devices d' = devices d) -> along narrows (exec f).
Proof.
  intros Hf. apply along_exec; [apply _|]. intros t a d' w H. apply Hf in H.
  split; [done|by apply kept_same].
Qed.

Lemma along_Tx {A} (m : dbop A) : along narrows m -> along narrows (Tx m).
Proof.
  intros Hm w. unfold Tx, tx. destruct (fault (w_ops w)); [by apply (uncounted narrows)|].
  specialize (Hm (tick_ops w (w_st w))).
  assert (forall w1, narrows (tick_ops w (w_st w)) w1 ->
    narrows w (World (w_st w) (w_ids w1) (w_clk w1) (w_ops w1) (w_log w1))) as Hback.
  { intros w1 [HC _]. split; [exact HC|by apply kept_same]. }
  destruct (m _) as [[a|e] w1]; cbn [fst snd] in *; [|by apply Hback].
  destruct (fault (w_ops w1)); [by apply Hback; etrans; [exact Hm|by apply (uncounted narrows)]|].
  destruct (check_ledger_txn_balanced _); cbn [snd].
  - etrans; [|etrans; [exact Hm|]]; by apply (uncounted narrows).
  - by apply Hback; etrans; [exact Hm|by apply (uncounted narrows)].
Qed.

Lemma along_Tx_beside_keys {A} (m : dbop A) : along narrows m -> along narrows (Tx_beside_keys m).
Proof.
  intros Hm w. destruct (Tx_beside_keys m w) as [[a|e] w'] eqn:H; cbn [snd].
  - apply (proj1 (runs_Tx_beside_keys _ _ _ _)) in H. by apply (runs_along narrows (Tx m) w a w' (along_Tx m Hm)).
  - pose proof H as Hs. apply Tx_beside_keys_err in Hs as [ks Hs].
    assert (forall id v, cached_at w' id = Some v -> cached_at w id = Some v) as HC.
    { intros id v. unfold Tx_beside_keys, tx_beside in H. destruct (fault (w_ops w)); [by injection H as _ <-|].
      specialize (Hm (tick_ops w (w_st w))). destruct (m _) as [[a|e'] w1]; cbn [snd] in Hm.
      - destruct (fault (w_ops w1)); [injection H as _ <-; apply (nr_cache _ _ Hm)|].
        destruct (check_ledger_txn_balanced _); [done|injection H as _ <-; apply (nr_cache _ _ Hm)].
      - injection H as _ <-. apply (nr_cache _ _ Hm). }
    split; [done|apply kept_same]; by rewrite Hs.
Qed.

Lemma access_insert_ne id i r d :
  id <> i -> access (with_devices (<[i := r]> (devices d)) d) id = access d id.
Proof. intros Hne. unfold access. cbn. by rewrite lookup_insert_ne by done. Qed.

Lemma along_RegisterDevice u blob pub : along narrows (RegisterDevice u blob pub).
Proof.
  intros w. destruct (RegisterDevice u blob pub w) as [[id|e] w'] eqn:H; cbn [snd].
  - change (runs (RegisterDevice u blob pub) w id w') in H.
    apply runs_RegisterDevice in H as (Hnew & Hfree & r & Hu & Hp & Ha & Hs & Hl).
    split; [intros i v; unfold cached_at; rewrite Hl, cache_get_snoc; by destruct (_ && _)|].
    split.
      * intros i u' p Hi. rewrite Hs, access_insert_ne; [done|]. intros ->.
        unfold access in Hi. by rewrite Hnew in Hi.
      * intros H1 i j x y. rewrite Hs. cbn [devices with_devices].
        intros [[<- <-]|[Hi Hx]]%lookup_insert_Some [[<- <-]|[Hj Hy]]%lookup_insert_Some Hax Hay Huu;
          [done| | |by eapply H1].
        -- specialize (Hfree j y Hy). unfold active_device_of in Hfree.
           rewrite Hay, bool_decide_true in Hfree by congruence. done.
        -- specialize (Hfree i x Hx). unfold active_device_of in Hfree.
           rewrite Hax, bool_decide_true in Hfree by congruence. done.
  - by apply RegisterDevice_err in H as [Hs Hl]; apply (uncounted narrows).
Qed.

Lemma along_DeactivateDevice id : along narrows (DeactivateDevice id).
Proof.
  intros w. destruct (DeactivateDevice id w) as [[[]|e] w'] eqn:H; cbn [snd].
  - change (runs (DeactivateDevice id) w tt w') in H.
    apply runs_DeactivateDevice in H as [[t Hs] Hl].
    split; [intros i v; unfold cached_at; rewrite Hl, cache_get_snoc; by destruct (_ && _)|].
    split.
      * intros i u p. rewrite Hs. unfold access. cbn. destruct (decide (i = id)) as [->|Hne].
        -- rewrite lookup_alter_eq. destruct (devices (w_st w) !! id); cbn; [|done]. by intros [= -> -> _].
        -- by rewrite lookup_alter_ne by done.
      * intros H1 i j x y. rewrite Hs. cbn [devices with_devices].
        intros [(-> & x' & Hx & ->)|[Hi Hx]]%lookup_alter_Some [(-> & y' & Hy & ->)|[Hj Hy]]%lookup_alter_Some;
          try done. by eapply H1.
  - by apply DeactivateDevice_err in H as [Hs Hl]; apply (uncounted narrows).
Qed.

Lemma along_SetUserPayerPubkey u pub : along narrows (SetUserPayerPubkey u pub).
Proof.
  apply along_Tx. apply along_bind; [apply _| |intros; apply along_bind; [apply _| |intros]].
  - apply along_wrapping, along_off_devices. by intros ???? [= _ <-].
  - apply along_fresh, _.
  - apply along_wrapping, along_off_devices. intros ???? H. unfold q_InsertSigningKey in H. guards H.
    by injection H as _ <-.
Qed.

End Effects.

#[export] Hint Resolve along_RegisterDevice along_DeactivateDevice along_SetUserPayerPubkey
  along_Tx along_Tx_beside_keys : along.

(** ** The handlers *)

Section Handlers.
Context {E : Env} {K : CacheEnv} {C : Ed25519} {AL : AuthLib} {T : ErrorText}.
Implicit Types w : world db effect.

Lemma along_off {A} (m : dbop A) : along narrows m -> along sound m.
Proof. intros H w. by apply narrows_sound. Qed.

(** A look-up caches the row it read. *)
Lemma along_LookupDeviceForAuth id : along sound (LookupDeviceForAuth id).
Proof.
  unfold LookupDeviceForAuth. intros w. unfold bind at 1, cache_lookup. cbn [fst snd].
  set (hit := if cache_serves _ then _ else _).
  assert (forall v, sound v ((let! row := query (q_GetDevice id) in
      do! emit (EvCacheSet (deviceAuthCacheKey id)
                  (CachedDevice (dv_UserID row) (dv_PublicKey row) (dv_Active row))) in
      ret (dv_UserID row, dv_PublicKey row, dv_Active row)) v).2) as Hread.
  { intros v. unfold query, exec, bind, q_GetDevice. destruct (fault _); [by apply (uncounted sound)|].
    destruct (devices (w_st v) !! id) as [r|] eqn:Hr; cbn; [|by apply (uncounted sound)].
    split; [|by apply kept_same]. intros i [(u & p & Ha) Hn]. split; [by exists u, p|].
    intros (u' & p' & Hc). apply Hn. exists u', p'. revert Hc. unfold cached_at. cbn [w_log].
    rewrite cache_get_snoc.
    destruct (String.eqb_spec (deviceAuthCacheKey id) (deviceAuthCacheKey i)) as [Heq|Hne]; [|done].
    apply deviceAuthCacheKey_inj in Heq as <-. destruct (cache_obeys _); [|done]. intros [= _ _ Hact].
    unfold access in Ha. cbn in Ha. rewrite Hr in Ha. cbn in Ha. injection Ha as _ _ Hoff. congruence. }
  destruct hit as [[?|? ? ?|?|?|?|?]|]; try apply Hread. by apply (uncounted sound).
Qed.

Lemma along_GetUserAccountNumber u : along narrows (GetUserAccountNumber u).
Proof.
  unfold GetUserAccountNumber, or_missing.
  apply along_bind; [apply _|by apply along_same; [apply _|]|]. intros hit.
  assert (forall x, along narrows (emit (EvCacheSet (userAccountNumberCacheKey u) (CachedText x)))) as Hset.
  { intros x. apply along_emit_off. by intros k v [= <- _] id. }
  destruct hit as [[?|? ? ?|?|?|?|?]|]; auto 10 with along.
Qed.

Lemma along_RegisterUserWithID u phone number bvn tier v :
  along narrows (RegisterUserWithID u phone number bvn tier v).
Proof.
  unfold RegisterUserWithID. case_bool_decide as Hu0; [apply along_throw, _|]. cbv zeta. apply along_Tx.
  assert (forall k, along narrows (create_accounts k)) as Hacc.
  { intros k. unfold create_accounts. apply along_for_each; [apply _|]. intros b x.
    apply along_bind; [apply _|apply along_fresh, _|]. intros i. apply along_wrapping, along_off_devices.
    intros t d a d' H. unfold q_CreateAccount in H. guards H. by injection H as _ <-. }
  apply along_bind; [apply _|apply along_attempt, along_query, _|]. intros [?|e]; [auto with along|].
  destruct (negb _); [auto with along|]. apply along_bind; [apply _| |by intros].
  apply along_wrapping, along_off_devices. intros t d a d' H. unfold q_CreateUser in H. guards H.
  by injection H as _ <-.
Qed.

Lemma along_internally R `{!Uncounted R} {A} what (m : dbop A) : along R m -> along R (internally what m).
Proof. unfold internally. auto with along. Qed.

(** A server as the HTTP server wires it. *)
Definition wired (s : RegistrationServer) : Prop :=
  exists mode, wireAttestation mode NewRegistrationServer = Ok s.

Lemma wired_is s : wired s ->
  reg_Recovery s = devRecoveryGate /\ reg_Nonces s = true /\
  exists by_platform, reg_Attestation s = Some (Composite by_platform) /\
    forall p v, by_platform p = Some v -> v = DevVerifier.
Proof.
  intros [mode H]. unfold wireAttestation in H. destruct (_ || _).
  - injection H as <-. cbn. split_and!; [done|done|]. eexists. split; [done|]. intros p v.
    cbn. case_bool_decide; [by intros [= <-]|done].
  - by destruct (bool_decide _).
Qed.

Lemma along_rand_read R `{!Uncounted R} : along R rand_read.
Proof. by apply along_same. Qed.

Lemma along_Consume u nonce : along sound (Consume u nonce).
Proof.
  apply along_off. unfold Consume. apply along_bind; [apply _|apply along_read_log, _|]. intros log.
  destruct (nonces log !! _); [|auto with along].
  apply along_bind; [apply _|by apply along_emit_off|]. auto with along.
Qed.

Lemma along_verifyAttestation s u platform blob nonce pub :
  wired s -> along sound (verifyAttestation s u platform blob nonce pub).
Proof.
  intros (_ & Hn & by_platform & Ha & Hdev)%wired_is. unfold verifyAttestation, consume_nonce.
  rewrite Hn, Ha. apply along_bind; [apply _| |intros _].
  { apply along_bind; [apply _|apply along_attempt, along_Consume|]. intros []; auto with along. }
  cbv zeta. apply along_bind; [apply _|apply along_attempt|intros []; auto with along].
  unfold Composite. destruct (by_platform _) as [v|] eqn:Hv; [|auto with along].
  apply Hdev in Hv as ->. unfold DevVerifier. destruct (Unmarshal _ _ _); [|auto with along].
  destruct (negb _); [auto with along|]. destruct (negb _); auto with along.
Qed.

Lemma along_enroll u blob pub : along narrows (enroll u blob pub).
Proof. unfold enroll. auto with along. Qed.

Lemma along_register_in_tx i u blob pub : along narrows (register_in_tx i u blob pub).
Proof.
  unfold register_in_tx. apply along_bind; [apply _| |intros; apply along_enroll].
  case_bool_decide; auto with along.
Qed.

Lemma along_rotate_in_tx i u blob pub : along narrows (rotate_in_tx i u blob pub).
Proof. unfold rotate_in_tx. apply along_bind; [apply _|auto with along|intros; apply along_enroll]. Qed.

Lemma along_recover_in_tx u blob pub : along narrows (recover_in_tx u blob pub).
Proof.
  unfold recover_in_tx, GetActiveDeviceForUser. apply along_bind; [apply _|auto with along|].
  intros r. apply along_bind; [apply _| |intros; apply along_enroll].
  destruct r as [d|e]; [|auto with along]. case_bool_decide; auto with along.
Qed.

Variable s : RegistrationServer.

(** What reads or changes devices. *)
Inductive device_handler : forall A, dbop A -> Prop :=
| dh_challenge u : device_handler _ (GetAttestationChallenge s u)
| dh_register u platform blob nonce pub :
    device_handler _ (srv_RegisterDevice s u platform blob nonce pub)
| dh_attest : device_handler _ Attest
| dh_deactivate ctx id : device_handler _ (Deactivate ctx id)
| dh_rotate ctx u old blob pub : device_handler _ (RotateDevice ctx u old blob pub)
| dh_revoke ctx id : device_handler _ (RevokeDevice ctx id)
| dh_recover u proof blob pub : device_handler _ (RecoverDevice s u proof blob pub)
| dh_touch id t : device_handler _ (TouchDevice id t)
| dh_guard u id : device_handler _ (assertRealmKeyDeviceOwnership u id)
| dh_session signer u id sid scope : device_handler _ (IssueDeviceSession signer u id sid scope).

Lemma along_assertDeviceBelongsToUser id u : along sound (assertDeviceBelongsToUser id u).
Proof.
  unfold assertDeviceBelongsToUser. apply along_bind; [apply _|apply along_attempt, along_LookupDeviceForAuth|].
  intros [[[? ?] ?]|?]; auto with along.
Qed.

Lemma along_required R `{!Uncounted R} b what : along R (required b what).
Proof. unfold required. auto with along. Qed.

Lemma along_device_response R `{!Uncounted R} id : along R (device_response id).
Proof. unfold device_response. auto with along. Qed.

#[local] Hint Resolve along_required along_device_response along_internally
  along_assertDeviceBelongsToUser along_LookupDeviceForAuth : along.
#[local] Hint Extern 4 (along sound (DeactivateDevice _)) => apply along_off : along.
#[local] Hint Extern 4 (along sound (Tx_beside_keys _)) => apply along_off, along_Tx_beside_keys : along.
#[local] Hint Resolve along_register_in_tx along_rotate_in_tx along_recover_in_tx : along.

Lemma device_handler_sound A (m : dbop A) : wired s -> device_handler A m -> along sound m.
Proof.
  intros Hs []; unfold GetAttestationChallenge, Attest, Deactivate, RotateDevice, RevokeDevice, RecoverDevice.
  - apply along_bind; [apply _|auto with along|intros _]. destruct (negb _); [auto with along|].
    apply along_bind; [apply _|apply along_internally; [apply _|]|auto with along].
    unfold Issue. apply along_bind; [apply _|apply along_rand_read, _|]. intros r. cbv zeta.
    do 2 (apply along_bind; [apply _|auto with along|intros]).
    apply along_bind; [apply _|by apply along_off, along_emit_off|auto with along].
  - unfold srv_RegisterDevice. do 2 (apply along_bind; [apply _|auto with along|intros _]).
    apply along_bind; [apply _|by apply along_verifyAttestation|intros _].
    apply along_bind; [apply _|apply along_off, along_attempt, along_RegisterUserWithID|intros r].
    apply along_bind; [apply _|destruct r; auto with along|intros _].
    apply along_bind; [apply _|unfold GetActiveDeviceForUser; auto with along|].
    intros [d|e]; [case_bool_decide; auto 10 with along|]. destruct (errors_is e ErrNoRows); auto 10 with along.
  - auto with along.
  - apply along_bind; [apply _|auto with along|intros a]. cbv zeta. auto 10 with along.
  - apply along_bind; [apply _|auto with along|intros a].
    apply along_bind; [apply _|auto with along|intros _]. cbv zeta. destruct (negb _); auto 10 with along.
  - apply along_bind; [apply _|auto with along|intros a].
    apply along_bind; [apply _|auto with along|intros _]. case_bool_decide; auto 10 with along.
  - do 2 (apply along_bind; [apply _|auto with along|intros _]). auto 10 with along.
  - unfold TouchDevice. apply along_exec; [apply _|]. intros t1 a d' w [= _ <-]. apply narrows_sound.
    assert (forall i, access (with_devices (alter (fun r => set_device (dv_Active r) (tsz t) t1 r) id
        (devices (w_st w))) (w_st w)) i = access (w_st w) i) as Ha.
    { intros i. unfold access. cbn. destruct (decide (i = id)) as [->|]; [|by rewrite lookup_alter_ne].
      rewrite lookup_alter_eq. by destruct (devices (w_st w) !! id). }
    split; [done|]. split; [intros i u p; by rewrite Ha|].
    intros H1 i j x y. cbn [w_st tick_ops devices with_devices].
    intros Hx Hy.
    assert (forall k z, alter (fun r => set_device (dv_Active r) (tsz t) t1 r) id (devices (w_st w)) !! k = Some z ->
      exists z', devices (w_st w) !! k = Some z' /\ dv_Active z' = dv_Active z /\ dv_UserID z' = dv_UserID z) as Hz.
    { intros k z [(-> & z' & Hz & ->)|[_ Hz]]%lookup_alter_Some; by eexists. }
    apply Hz in Hx as (x' & Hx & <- & <-). apply Hz in Hy as (y' & Hy & <- & <-). by eapply H1.
  - unfold assertRealmKeyDeviceOwnership. case_bool_decide; [auto with along|].
    apply along_bind; [apply _|auto with along|]. intros [[[? ?] ?]|?]; [|auto with along].
    case_bool_decide; [auto with along|]. destruct (negb _); [auto with along|]. destruct (negb _); auto with along.
  - unfold IssueDeviceSession, DeviceLookup. destruct (HasDeviceSessionSigner signer); [|auto with along].
    cbv zeta. destruct (negb _); [auto with along|].
    apply along_bind; [apply _|apply along_attempt, along_bind; [apply _|auto with along|]|].
    { intros [[? ?] ?]; auto with along. }
    intros [[owner active]|e]; [|auto with along]. destruct (negb _); [auto with along|].
    destruct (negb _); [auto with along|].
    apply along_bind; [apply _|apply along_off, along_GetUserAccountNumber|auto with along].
Qed.

(** One of them ran. *)
Inductive device_step : world db effect -> world db effect -> Prop :=
| device_run A (m : dbop A) w : device_handler A m -> device_step w (m w).2.

Lemma device_steps_sound w w' : wired s -> rtc device_step w w' -> sound w w'.
Proof.
  intros Hs Hr. induction Hr as [w|w w1 w2 [A m w' Hm] Hr IH]; [by apply (uncounted sound)|].
  etrans; [by apply (device_handler_sound A m)|exact IH].
Qed.

End Handlers.

(** ** What a look-up answers *)

Section Lookups.
Context {E : Env} {K : CacheEnv} {C : Ed25519} {AL : AuthLib} {T : ErrorText}.
Implicit Types w : world db effect.

(** The standing a look-up answers: that of the row, or that of a cached copy. *)
Definition standing_seen w (id : string) (x : standing) : Prop :=
  access (w_st w) id = Some x \/
  cached_at w id = Some (CachedDevice x.1.1 x.1.2 x.2) /\ cache_serves (w_ops w) = true.

Lemma runs_LookupDeviceForAuth id w x w' :
  runs (LookupDeviceForAuth id) w x w' -> standing_seen w id x /\ w_st w' = w_st w.
Proof.
  intros H. unfold LookupDeviceForAuth in H. apply runs_bind in H as (hit & w1 & Hh & H).
  unfold runs, cache_lookup in Hh. injection Hh as <- <-.
  assert (forall v, runs (let! row := query (q_GetDevice id) in
      do! emit (EvCacheSet (deviceAuthCacheKey id)
                  (CachedDevice (dv_UserID row) (dv_PublicKey row) (dv_Active row))) in
      ret (dv_UserID row, dv_PublicKey row, dv_Active row)) v x w' ->
    access (w_st v) id = Some x /\ w_st w' = w_st v) as Hread.
  { intros v Hv. apply runs_bind in Hv as (row & v1 & Hq & Hv). apply runs_query in Hq as (_ & Hq & ->).
    apply runs_bind in Hv as ([] & v2 & He & Hv). apply runs_emit in He as ->.
    apply runs_ret in Hv as [-> ->]. split; [|done]. unfold q_GetDevice in Hq. unfold access.
    destruct (devices (w_st v) !! id); [|done]. by injection Hq as ->. }
  unfold standing_seen, cached_at.
  destruct (cache_serves _) eqn:Hserves; [|apply Hread in H as [Ha Hs]; by auto].
  destruct (cache_get (deviceAuthCacheKey id) (w_log w)) as [[?|u p a|?|?|?|?]|] eqn:Hv;
    try (apply Hread in H as [Ha Hs]; by auto).
  apply runs_ret in H as [-> ->]. auto.
Qed.

Lemma runs_assertDeviceBelongsToUser id u w x w' :
  runs (assertDeviceBelongsToUser id u) w x w' -> w_st w' = w_st w.
Proof.
  intros H. unfold assertDeviceBelongsToUser in H. apply runs_bind in H as (r & w1 & H1 & H).
  apply (proj1 (runs_attempt _ _ _ _)) in H1. destruct r as [[[o p] a]|e]; [|by apply runs_throw in H].
  apply runs_LookupDeviceForAuth in H1 as [_ Hs].
  case_bool_decide as Ho; [|by apply runs_throw in H]. by apply runs_ret in H as [_ ->].
Qed.

(** What is off is seen as off. *)
Lemma off_seen w id x : off w id -> standing_seen w id x -> x.2 = false.
Proof.
  intros [(u & p & Ha) Hn] [Hx|[Hx _]]; [rewrite Ha in Hx; by injection Hx as <-|].
  destruct x as [[v q] []]; [|done]. destruct Hn. by exists v, q.
Qed.

(** Nobody gets anything for a device that is off. *)
Lemma shut_out id w :
  off w id ->
  (forall signer v sid scope, is_ok (IssueDeviceSession signer v id sid scope w).1 = false) /\
  (forall v verdict w', runs (assertRealmKeyDeviceOwnership v id) w verdict w' -> verdict <> None).
Proof.
  intros Ho. split.
  - intros signer v sid scope. destruct (IssueDeviceSession _ _ _ _ _ w) as [[tok|e] w'] eqn:H; [|done].
    exfalso. change (runs (IssueDeviceSession signer v id sid scope) w tok w') in H.
    unfold IssueDeviceSession in H. destruct (HasDeviceSessionSigner signer); [|by apply runs_throw in H].
    cbv zeta in H. destruct (negb _); [by apply runs_throw in H|].
    apply runs_bind in H as (r & w1 & H1 & H). apply (proj1 (runs_attempt _ _ _ _)) in H1.
    destruct r as [[o a]|e]; [|by apply runs_throw in H].
    change (runs (DeviceLookup id) w (o, a) w1) in H1. unfold DeviceLookup in H1.
    apply runs_bind in H1 as ([[o' p'] a'] & w2 & H1 & H2). apply runs_ret in H2 as [[= -> ->] ->].
    apply runs_LookupDeviceForAuth in H1 as [Hx _]. apply (off_seen _ _ _ Ho) in Hx as Ha. cbn in Ha. subst a'.
    destruct (negb _); by apply runs_throw in H.
  - intros v verdict w' H. unfold assertRealmKeyDeviceOwnership in H.
    case_bool_decide; [by apply runs_ret in H as [-> _]|]. apply runs_bind in H as (r & w1 & H1 & H).
    apply (proj1 (runs_attempt _ _ _ _)) in H1.
    destruct r as [[[o p'] a]|e]; [|by apply runs_ret in H as [-> _]].
    apply runs_LookupDeviceForAuth in H1 as [Hx _]. apply (off_seen _ _ _ Ho) in Hx as Ha. cbn in Ha. subst a.
    case_bool_decide; [by apply runs_ret in H as [-> _]|].
    destruct (negb _); by apply runs_ret in H as [-> _].
Qed.

Variable s : RegistrationServer.

(** Claim C32: a registered device that was revoked stays inactive in the registry, however the
    registration server is used afterwards.  Look-ups are cached for an hour, and the revocation
    does not look at whether its deletion of the cached entry succeeded.  When it did, or the
    cache holds no entry that calls the device active, the device is shut out for good: it gets
    no offline session and no realm key, for any user.  When it did not, what is left is the entry
    that was there, and the device can be let in on the strength of it alone.  The device's key stays
    the payer key of the user in either case.  (Calls run one after the other: a look-up that
    is under way while the device is revoked can put the old entry back.) *)
Theorem revoked_device_shut_out ctx id r w t w1 w2 :
  wired s -> devices (w_st w) !! id = Some r -> runs (RevokeDevice ctx id) w t w1 ->
  rtc (device_step s) w1 w2 ->
  (exists r', devices (w_st w2) !! id = Some r' /\ dv_Active r' = false) /\
  (cache_obeys (pred (length (w_log w1))) = true -> cached_at w1 id = None) /\
  (~ cached_active w1 id ->
     (forall signer u sid scope, is_ok (IssueDeviceSession signer u id sid scope w2).1 = false) /\
     (forall u verdict w3, runs (assertRealmKeyDeviceOwnership u id) w2 verdict w3 -> verdict <> None)) /\
  signing_keys (w_st w1) = signing_keys (w_st w).
Proof.
  intros Hs Hrow H Hr. pose proof (device_steps_sound s _ _ Hs Hr) as [Hoff Hk].
  unfold RevokeDevice in H. apply runs_bind in H as (a & v1 & H1 & H). apply runs_lift in H1 as [_ ->].
  apply runs_bind in H as ([] & v2 & H2 & H). apply runs_required in H2 as [_ ->].
  case_bool_decide; [by apply runs_throw in H|]. apply runs_bind in H as ([] & v3 & H3 & H).
  apply runs_assertDeviceBelongsToUser in H3 as Hs3.
  apply runs_bind in H as ([] & v4 & H4 & H). apply runs_internally, runs_DeactivateDevice in H4 as [[u H4] Hl4].
  apply runs_now in H as [_ ->]. cbn [w_st w_log] in *.
  assert (access (w_st v4) id = Some (dv_UserID r, dv_PublicKey r, false)) as Ha.
  { rewrite H4, Hs3. unfold access. cbn [devices with_devices]. by rewrite lookup_alter_eq, Hrow. }
  split; [|split; [|split]].
  - pose proof (kp_off _ _ Hk id _ _ Ha) as Ha2. unfold access in Ha2.
    destruct (devices (w_st w2) !! id) as [r'|]; [|done]. exists r'. split; [done|]. by injection Ha2.
  - unfold cached_at. cbn [w_log]. rewrite Hl4, length_app, cache_get_snoc. cbn [length existsb].
    rewrite Nat.add_1_r. cbn [pred]. intros ->. by rewrite String.eqb_refl.
  - intros Hn. apply shut_out, Hoff. split; [by do 2 eexists|exact Hn].
  - by rewrite H4, Hs3.
Qed.

End Lookups.
