(* ===== verification/RegistrationProps.v ===== *)
(** * What registering a device does

    Replacing a device, with and without a commit; attestation nonces; the offline session a
    device is given. *)

From S2P Require Import Prelude Float Domain Json Crypto Store AuthStore DeviceStore Wire Canonical Parse Decode Tokens Repo Devices AuthRepo UserAuth Books Members Registration Keys DeviceFacts DeviceProps.

#[local] Open Scope string_scope.
#[local] Open Scope Z_scope.

(** ** Replacing *)

(** The user's device is now [id], with the payer's key; [gone] is the one that was replaced. *)
Record replaced (u : string) (pub : bytes) (id : string) (gone : option string) (d d' : db) : Prop := {
  rp_new : devices d !! id = None;
  rp_key : q_GetActiveSigningKeyPubkey u d' = Ok pub;
  rp_row : exists r, devices d' !! id = Some r /\ active_device_of u r = true /\ dv_PublicKey r = pub;
  rp_only i r : devices d' !! i = Some r -> active_device_of u r = true -> i = id;
  rp_rest i : i <> id -> gone <> Some i -> devices d' !! i = devices d !! i;
  rp_gone i r : gone = Some i -> devices d !! i = Some r ->
    exists t, devices d' !! i = Some (set_device false (dv_LastSeenAt r) t r);
}.

Section Replacing.
Context {E : Env} {K : CacheEnv} {C : Ed25519} {AL : AuthLib} {T : ErrorText}.
Implicit Types w : world db effect.

Lemma runs_enroll u blob pub w id w' :
  runs (enroll u blob pub) w id w' -> replaced u pub id None (w_st w) (w_st w').
Proof.
  intros H. unfold enroll in H. apply runs_bind in H as ([] & w1 & H1 & H).
  apply runs_SetUserPayerPubkey in H1 as (Hkey & [ks Hks] & _).
  apply runs_RegisterDevice in H as (Hnew & Hfree & r & Hu & Hp & Ha & Hs & _).
  rewrite Hs, Hks in *. cbn [devices with_devices with_signing_keys] in *.
  assert (active_device_of u r = true) as Hact.
  { unfold active_device_of. by rewrite bool_decide_true. }
  split; cbn [devices with_devices]; [done|exact Hkey| | | |done].
  - exists r. by rewrite lookup_insert_eq.
  - intros i x [[<- _]|[_ Hx]]%lookup_insert_Some Hax; [done|]. by rewrite (Hfree i x Hx) in Hax.
  - intros i Hne _. by rewrite lookup_insert_ne.
Qed.

Lemma runs_replace i u blob pub w id w' :
  runs (do! DeactivateDevice i in enroll u blob pub) w id w' ->
  replaced u pub id (Some i) (w_st w) (w_st w').
Proof.
  intros H. apply runs_bind in H as ([] & w1 & H1 & H). apply runs_DeactivateDevice in H1 as [[t Hs] _].
  apply runs_enroll in H as [Hnew Hkey Hrow Honly Hrest _]. rewrite Hs in *. cbn [devices with_devices] in *.
  apply lookup_alter_None in Hnew. split; [done|done|done|done| |].
  - intros j Hj Hg. rewrite Hrest by done. rewrite lookup_alter_ne by congruence. done.
  - intros j r [= <-] Hr. exists t. rewrite Hrest; [|intros ->; congruence|done].
    by rewrite lookup_alter_eq, Hr.
Qed.

Lemma preserves_verifyAttestation P s u platform blob nonce pub :
  wired s -> preserves P (verifyAttestation s u platform blob nonce pub).
Proof.
  intros (_ & Hn & by_platform & Ha & Hdev)%wired_is. unfold verifyAttestation, consume_nonce, Consume.
  rewrite Hn, Ha. apply preserves_bind; [quiet|intros _]. cbv zeta.
  apply preserves_bind; [apply preserves_attempt|quiet].
  unfold Composite. destruct (by_platform _) as [v|] eqn:Hv; [|quiet]. apply Hdev in Hv as ->.
  unfold DevVerifier. destruct (Unmarshal _ _ _); quiet.
Qed.

Lemma RegisterUserWithID_keeps P u phone number bvn tier v :
  (forall d us acs, P d -> P (with_accounts acs (with_users us d))) ->
  preserves P (RegisterUserWithID u phone number bvn tier v).
Proof.
  intros HP. unfold RegisterUserWithID. case_bool_decide as Hid; [quiet|]. cbn zeta.
  assert (forall d us, P d -> P (with_users us d)) as HU.
  { intros d us Hd. replace (with_users us d) with (with_accounts (accounts d) (with_users us d))
      by by destruct d. by apply HP. }
  assert (forall d acs, P d -> P (with_accounts acs d)) as HA.
  { intros d acs Hd. replace (with_accounts acs d) with (with_accounts acs (with_users (users d) d))
      by by destruct d. by apply HP. }
  assert (forall k, preserves P (create_accounts k)) as Hacc.
  { intros k. unfold create_accounts. apply preserves_for_each. intros b x _.
    apply preserves_bind; [quiet|]. intros i. apply preserves_wrapping, preserves_exec.
    intros t d a d' Hd H. unfold q_CreateAccount in H. guards H. injection H as _ <-. by apply HA. }
  apply preserves_tx. intros w a w' Hw H _. eapply (runs_preserves P _ _ _ _); [|exact H|exact Hw].
  apply preserves_bind; [quiet|]. intros [?|e]; [quiet|]. destruct (negb _); [quiet|].
  apply preserves_bind; [|intros; apply Hacc]. apply preserves_wrapping, preserves_exec.
  intros t d b d' Hd H'. unfold q_CreateUser in H'. guards H'. injection H' as _ <-. by apply HU.
Qed.

Variable s : RegistrationServer.

(** The three ways a user gets another device; a registration may find that the device it is
    about is there already. *)
Inductive replacing (u : string) (pub : bytes) : bool -> dbop DeviceResponse -> Prop :=
| by_registration platform blob nonce :
    replacing u pub true (srv_RegisterDevice s u platform blob nonce pub)
| by_rotation device old blob :
    replacing u pub false (RotateDevice (Some {| au_UserID := u; au_DeviceID := device |}) u old blob pub)
| by_recovery proof blob : replacing u pub false (RecoverDevice s u proof blob pub).

(** The user's active device [id] has the key. *)
Definition has_device (u : string) (pub : bytes) (id : string) (d : db) : Prop :=
  exists row, q_GetActiveDeviceForUser u d = Ok (id, row) /\ dv_PublicKey row = pub.

(** Devices and payer keys are as they were. *)
Definition same_devices (d d' : db) : Prop :=
  devices d' = devices d /\ signing_keys d' = signing_keys d.

Lemma runs_device_response id w r w' :
  runs (device_response id) w r w' -> dr_DeviceID r = id /\ w_st w' = w_st w.
Proof.
  intros H. unfold device_response in H. apply runs_bind in H as (t & w1 & H1 & H).
  apply runs_now in H1 as [_ ->]. by apply runs_ret in H as [-> ->].
Qed.

Lemma runs_replacing_tx (m : dbop string) what w r w' u pub gone :
  (forall v id v', runs m v id v' -> replaced u pub id gone (w_st v) (w_st v')) ->
  runs (let! id := internally what (Tx_beside_keys m) in device_response id) w r w' ->
  replaced u pub (dr_DeviceID r) gone (w_st w) (w_st w').
Proof.
  intros Hm H. apply runs_bind in H as (id & w1 & H1 & H).
  apply runs_internally, runs_Tx_beside_keys, runs_tx in H1 as (_ & w2 & H1 & _ & _ & ->).
  apply runs_device_response in H as [-> ->]. by apply Hm in H1.
Qed.

Lemma replaced_frame u pub id gone d0 d d' :
  devices d = devices d0 -> replaced u pub id gone d d' -> replaced u pub id gone d0 d'.
Proof. intros Hd []. split; rewrite <- ?Hd; done. Qed.

Lemma runs_srv_RegisterDevice u platform blob nonce pub w r w' :
  wired s -> runs (srv_RegisterDevice s u platform blob nonce pub) w r w' ->
  (exists id, has_device u pub id (w_st w) /\ dr_DeviceID r = id /\ same_devices (w_st w) (w_st w')) \/
  (forall id, ~ has_device u pub id (w_st w)) /\
  exists gone, replaced u pub (dr_DeviceID r) gone (w_st w) (w_st w').
Proof.
  intros Hs H. unfold srv_RegisterDevice in H.
  do 2 (apply runs_bind in H as ([] & ? & Hq & H); apply runs_required in Hq as [_ ->]).
  apply runs_bind in H as (att & w1 & H1 & H).
  apply (quiet_runs _ _ _ _ (fun P => preserves_verifyAttestation P s u platform _ nonce pub Hs)) in H1.
  apply runs_bind in H as (r1 & w2 & H2 & H). apply (proj1 (runs_attempt _ _ _ _)) in H2.
  assert (devices (w_st w2) = devices (w_st w) /\ signing_keys (w_st w2) = signing_keys (w_st w)) as [Hdev Hkeys].
  { rewrite <- H1. pose proof (RegisterUserWithID_keeps (fun d => devices d = devices (w_st w1) /\
      signing_keys d = signing_keys (w_st w1)) u "" "" "" "TIER_0" 1 ltac:(done) w1 (conj eq_refl eq_refl)) as Hp.
    by rewrite H2 in Hp. }
  apply runs_bind in H as ([] & w3 & H3 & H).
  assert (w3 = w2) as ->.
  { destruct r1 as [?|e]; [by apply runs_ret in H3 as [_ ->]|].
    destruct (IsUniqueViolation e); [by apply runs_ret in H3 as [_ ->]|by apply runs_throw in H3]. }
  apply runs_bind in H as (r2 & w4 & H4 & H). apply (proj1 (runs_attempt _ _ _ _)) in H4.
  destruct r2 as [a|e].
  - change (runs (GetActiveDeviceForUser u) w2 a w4) in H4. unfold GetActiveDeviceForUser in H4.
    apply runs_bind in H4 as ([i row] & w5 & H4 & H5). apply runs_query in H4 as (_ & H4 & ->).
    apply runs_ret in H5 as [-> ->]. cbn [ad_PublicKey ad_ID fst snd] in H.
    unfold q_GetActiveDeviceForUser in H4. rewrite Hdev in H4.
    case_bool_decide as Hpub.
    + left. apply runs_device_response in H as [-> ->]. exists i. split; [by exists row|]. by split.
    + right. split.
      { intros i' (row' & Hq & Hp). unfold q_GetActiveDeviceForUser in Hq. congruence. }
      exists (if bool_decide (i = "") then None else Some i).
      eapply (replaced_frame _ _ _ _ _ (w_st (tick_ops w2 (w_st w2)))); [exact Hdev|].
      eapply runs_replacing_tx; [|exact H]. intros v id v' Hv. unfold register_in_tx in Hv. case_bool_decide.
      * apply runs_bind in Hv as ([] & v1 & Hv1 & Hv). apply runs_ret in Hv1 as [_ ->].
        by apply runs_enroll in Hv.
      * by apply runs_replace in Hv.
  - unfold GetActiveDeviceForUser, query, exec, bind in H4.
    destruct (errors_is e ErrNoRows) eqn:He; [|by apply runs_throw in H].
    assert (w_st w4 = w_st w2 /\ exists e', q_GetActiveDeviceForUser u (w_st w2) = Err e') as [Hs4 [e' Hq]].
    { destruct (fault _); [injection H4 as <- _; discriminate He|].
      destruct (q_GetActiveDeviceForUser _ _) as [?|e']; [done|]. injection H4 as _ <-. eauto. }
    right. split.
    { intros i' (row' & Hq' & _). unfold q_GetActiveDeviceForUser in *. rewrite Hdev in Hq. congruence. }
    exists None.
    eapply replaced_frame; [exact Hdev|]. rewrite <- Hs4. eapply runs_replacing_tx; [|exact H].
    intros v id v' Hv. unfold register_in_tx in Hv. cbn in Hv. by apply runs_enroll in Hv.
Qed.

End Replacing.

Section Theorems.
Context {E : Env} {K : CacheEnv} {C : Ed25519} {AL : AuthLib} {T : ErrorText}.
Implicit Types w : world db effect.
Variable s : RegistrationServer.

Lemma runs_RotateDevice u device old blob pub w r w' :
  runs (RotateDevice (Some {| au_UserID := u; au_DeviceID := device |}) u old blob pub) w r w' ->
  exists gone, replaced u pub (dr_DeviceID r) gone (w_st w) (w_st w').
Proof.
  intros H. unfold RotateDevice in H. apply runs_bind in H as (a & w1 & H1 & H).
  apply runs_lift in H1 as [H1 ->]. unfold MustMatchUser in H1. cbn in H1.
  destruct (_ && _) in H1; [done|]. injection H1 as <-. cbn [au_DeviceID au_UserID] in H.
  apply runs_bind in H as ([] & w2 & H2 & H). apply runs_required in H2 as [_ ->]. cbv zeta in H.
  destruct (negb _); [by apply runs_throw in H|]. eexists.
  eapply runs_replacing_tx; [|exact H]. intros v id v' Hv. exact (runs_replace _ _ _ _ _ _ _ Hv).
Qed.

Lemma runs_RecoverDevice u proof blob pub w r w' :
  runs (RecoverDevice s u proof blob pub) w r w' ->
  exists gone, replaced u pub (dr_DeviceID r) gone (w_st w) (w_st w').
Proof.
  intros H. unfold RecoverDevice in H.
  do 2 (apply runs_bind in H as ([] & ? & Hq & H); apply runs_required in Hq as [_ ->]).
  apply runs_bind in H as ([] & w1 & H1 & H). apply runs_lift in H1 as [_ ->].
  apply runs_bind in H as (id & w2 & H2 & H). apply runs_device_response in H as [-> ->].
  apply runs_internally, runs_Tx_beside_keys, runs_tx in H2 as (_ & w3 & H2 & _ & _ & ->).
  unfold recover_in_tx in H2. apply runs_bind in H2 as (prior & w4 & H4 & H).
  apply (proj1 (runs_attempt _ _ _ _)) in H4.
  assert (w_st w4 = w_st w) as Hs4.
  { unfold GetActiveDeviceForUser, query, exec, bind in H4.
    destruct (fault _); [by injection H4 as _ <-|]. destruct (q_GetActiveDeviceForUser _ _) as [[? ?]|];
      by injection H4 as _ <-. }
  cbn [w_st tick_ops] in *. rewrite <- Hs4. destruct prior as [d|e].
  - case_bool_decide.
    + exists None. apply runs_bind in H as ([] & v & Hv & H). apply runs_ret in Hv as [_ ->].
      by apply runs_enroll in H.
    + exists (Some (ad_ID d)). by apply runs_replace in H.
  - exists None. apply runs_bind in H as ([] & v & Hv & H). apply runs_ret in Hv as [_ ->].
    by apply runs_enroll in H.
Qed.

(** Claim C33: however a user comes to another device - registering again with a new key, rotating from
    the old one, recovering - a call that succeeds leaves exactly one active device, the one it
    names, with the key of the call.  Registering the key the active device has already answers
    that device and changes no device and no payer key.  In every other case the device named is a new
    one, its key is the payer key from then on, at most one other device was switched off and the rest
    are as they were. *)
Theorem replacement_enrolls u pub again m w r w' :
  wired s -> one_active (w_st w) -> replacing s u pub again m -> runs m w r w' ->
  has_device u pub (dr_DeviceID r) (w_st w') /\
  (forall i x, devices (w_st w') !! i = Some x -> active_device_of u x = true -> i = dr_DeviceID r) /\
  (forall id, again = true -> has_device u pub id (w_st w) ->
     dr_DeviceID r = id /\ same_devices (w_st w) (w_st w')) /\
  ((again = true -> forall id, ~ has_device u pub id (w_st w)) ->
     exists gone, replaced u pub (dr_DeviceID r) gone (w_st w) (w_st w')).
Proof.
  intros Hs Hone Hm H.
  assert ((again = true /\ exists id, has_device u pub id (w_st w) /\ dr_DeviceID r = id /\
             same_devices (w_st w) (w_st w')) \/
    (again = true -> forall id, ~ has_device u pub id (w_st w)) /\
    exists gone, replaced u pub (dr_DeviceID r) gone (w_st w) (w_st w')) as [(-> & id & Hd & Hid & Hsame)|[Hno [gone Hg]]].
  { destruct Hm.
    - apply (runs_srv_RegisterDevice s u platform blob nonce pub) in H as [?|[? ?]]; auto.
    - right. split; [done|]. by apply runs_RotateDevice in H.
    - right. split; [done|]. by apply runs_RecoverDevice in H. }
  - subst id. pose proof Hsame as [Hdev _]. destruct Hd as (row & Hrow & Hp). split_and!.
    + exists row. unfold q_GetActiveDeviceForUser. by rewrite Hdev.
    + intros i x. rewrite Hdev. intros Hi Hx. apply first_row_ok in Hrow as [Hr Hact].
      unfold active_device_of in *. apply andb_true_iff in Hx as [Hxu Hxa], Hact as [Hru Hra].
      apply bool_decide_eq_true in Hxu, Hru. eapply Hone; [exact Hi|exact Hr|done|done|congruence].
    + intros id _ (row' & Hrow' & _). split; [congruence|done].
    + intros Hno. destruct (Hno eq_refl (dr_DeviceID r)). by exists row.
  - destruct (rp_row _ _ _ _ _ _ Hg) as (row & Hrow & Hact & Hp). split_and!.
    + exists row. split; [|done]. apply first_row_unique; [done|done|]. intros i x Hi Hx.
      by apply (rp_only _ _ _ _ _ _ Hg i x).
    + apply (rp_only _ _ _ _ _ _ Hg).
    + intros id Ha Hd. by destruct (Hno Ha id).
    + intros _. by exists gone.
Qed.

(** ** A replacement that does not commit *)

Lemma SetUserPayerPubkey_runs u pub w :
  fault_free E -> check_ledger_txn_balanced (w_st w) = Ok tt -> is_Some (users (w_st w) !! u) ->
  pub <> [] -> signing_keys (w_st w) !! new_id (w_ids w) = None ->
  exists w', runs (SetUserPayerPubkey u pub) w tt w'.
Proof.
  intros Hf Hb [x Hu] Hpub Hid. unfold SetUserPayerPubkey. eexists. apply runs_tx. split; [apply Hf|].
  eexists. split; [|split; [apply Hf|split; [|reflexivity]]].
  - eapply bind_runs; [apply runs_wrapping, runs_exec; split; [apply Hf|]; eexists; split; reflexivity|].
    eapply bind_runs; [apply runs_fresh; split; reflexivity|].
    apply runs_wrapping, runs_exec. split; [apply Hf|]. eexists. split; [|reflexivity].
    cbn [w_st tick_ops w_ids]. unfold q_InsertSigningKey, not_null_bytes, pk, unique, fk, guard_or.
    cbn [signing_keys with_signing_keys users]. rewrite lookup_fmap, Hid, Hu. cbn.
    rewrite (bool_decide_false (pub = [])) by done. cbn.
    erewrite (proj2 (exists_row_false _ _)); [reflexivity|].
    intros k a [b [<- Hb']]%lookup_fmap_Some. destruct (active_key_of u b) eqn:Hact; [|done].
    unfold active_key_of. cbn. by rewrite andb_false_r.
  - exact Hb.
Qed.

(** Where the user has another active device, enrolling fails; the key is changed if it was
    changed at all. *)
Lemma enroll_beside_active u blob pub w i r :
  devices (w_st w) !! i = Some r -> active_device_of u r = true ->
  exists e w', enroll u blob pub w = (Err e, w') /\
    ((exists w1, runs (SetUserPayerPubkey u pub) w tt w1) ->
     q_GetActiveSigningKeyPubkey u (w_st w') = Ok pub).
Proof.
  intros Hi Hr. unfold enroll, bind. destruct (SetUserPayerPubkey u pub w) as [[[]|e] w1] eqn:H1.
  - pose proof H1 as (Hkey & [ks Hks] & _)%(runs_SetUserPayerPubkey u pub).
    destruct (RegisterDevice u blob pub w1) as [[id|e] w2] eqn:H2.
    + exfalso. apply runs_RegisterDevice in H2 as (_ & Hfree & _). rewrite Hks in Hfree. cbn in Hfree.
      by rewrite (Hfree i r Hi) in Hr.
    + exists e, w2. split; [done|]. intros _. apply RegisterDevice_err in H2 as [-> _]. done.
  - exists e, w1. split; [done|]. intros [w2 Hw2]. unfold runs in Hw2. congruence.
Qed.

(** Claim C35: a rotation asked for by a caller whose own device is not registered - what every
    request through the HTTP server is, which calls itself device "bff" - fails whenever the
    user has an active device, and leaves the devices as they were.  Yet when no old device is
    named the payer key of the user has changed: the key is written by a transaction of its own
    that the failure does not undo. *)
Theorem rotation_splits u device old blob pub w i r :
  devices (w_st w) !! device = None ->
  devices (w_st w) !! i = Some r -> active_device_of u r = true ->
  exists e w', RotateDevice (Some {| au_UserID := u; au_DeviceID := device |}) u old blob pub w = (Err e, w') /\
    devices (w_st w') = devices (w_st w) /\
    (fault_free E -> check_ledger_txn_balanced (w_st w) = Ok tt -> is_Some (users (w_st w) !! u) ->
     signing_keys (w_st w) !! new_id (w_ids w) = None -> pub <> [] -> old = "" \/ old = device ->
     q_GetActiveSigningKeyPubkey u (w_st w') = Ok pub).
Proof.
  intros Hdev Hi Hr. unfold RotateDevice, MustMatchUser. cbn [MustAuthUser result_bind au_UserID].
  rewrite (bool_decide_true (u = u)) by done. cbn [negb]. rewrite andb_false_r. cbn [au_DeviceID au_UserID].
  erewrite bind_ok by reflexivity. unfold required. destruct (decide (pub = [])) as [Hpub|Hpub].
  { rewrite bool_decide_true by done. do 2 eexists. by split; [by erewrite bind_err by reflexivity|]. }
  rewrite bool_decide_false by done. erewrite bind_ok by reflexivity. cbv zeta. cbn [au_DeviceID au_UserID].
  set (old' := if bool_decide (old = "") then device else old).
  destruct (decide (old' = device)) as [Hold|Hold].
  2:{ rewrite bool_decide_false by done. do 2 eexists. split; [reflexivity|]. split; [done|].
      intros _ _ _ _ _ Ho. exfalso. apply Hold. unfold old'. case_bool_decide; [done|by destruct Ho]. }
  rewrite bool_decide_true by done. cbn [negb]. rewrite Hold. clear old' Hold.
  assert (forall v, devices (w_st v) = devices (w_st w) ->
    exists e v', rotate_in_tx device u blob pub v = (Err e, v') /\
      (fault_free E -> (forall v1, w_st v1 = w_st v -> w_ids v1 = w_ids v ->
        exists w1, runs (SetUserPayerPubkey u pub) v1 tt w1) ->
       q_GetActiveSigningKeyPubkey u (w_st v') = Ok pub)) as Hbody.
  { intros v Hv. unfold rotate_in_tx, bind. destruct (DeactivateDevice device v) as [[[]|e] v1] eqn:H1.
    - pose proof H1 as [[t Hs] _]%(runs_DeactivateDevice device).
      rewrite Hv, (alter_id _ _ device), <- Hv in Hs by by rewrite Hdev.
      assert (w_st v1 = w_st v) as Hs1 by (rewrite Hs; by destruct (w_st v)).
      destruct (enroll_beside_active u blob pub v1 i r) as (e & v2 & H2 & Hk); [by rewrite Hs1, Hv|done|].
      exists e, v2. split; [done|]. intros _ Hrun. apply Hk, Hrun; [done|].
      unfold DeactivateDevice, bind, exec, emit in H1. destruct (fault _); [done|]. by injection H1 as <-.
    - exists e, v1. split; [done|]. intros Hf _. unfold DeactivateDevice, bind, exec in H1.
      by rewrite Hf in H1. }
  unfold internally. destruct (Tx_beside_keys (rotate_in_tx device u blob pub) w) as [[x|e] w'] eqn:H.
  { exfalso. apply (proj1 (runs_Tx_beside_keys _ _ _ _)), runs_tx in H as (_ & w1 & H & _).
    destruct (Hbody (tick_ops w (w_st w)) eq_refl) as (e & v' & Hb & _). unfold runs in H. congruence. }
  exists (status_of "Internal" "rotate device" e), w'. split; [|split].
  - unfold attempt, bind. by rewrite H.
  - apply Tx_beside_keys_err in H as [ks ->]. done.
  - intros Hf Hl Hu Hid Hpub' _. unfold Tx_beside_keys, tx_beside in H. rewrite Hf in H.
    destruct (Hbody (tick_ops w (w_st w)) eq_refl) as (e' & v' & Hb & Hk). rewrite Hb in H.
    injection H as _ <-. cbn. apply Hk; [done|]. intros v1 Hs1 Hi1. cbn in *.
    apply SetUserPayerPubkey_runs; [done|by rewrite Hs1|by rewrite Hs1|done|by rewrite Hs1, Hi1].
Qed.

End Theorems.

(** ** Nonces *)

Definition spent (key : string) (w w' : world db effect) : Prop :=
  nonces (w_log w) !! key = None -> nonces (w_log w') !! key = None.

#[global] Instance spent_uncounted key : Uncounted (spent key).
Proof.
  split; [split|].
  - by intros w H.
  - intros w w1 w2 H1 H2 H. by apply H2, H1.
  - intros w w' _ Hl. unfold spent. by rewrite Hl.
Qed.

Lemma nonces_app log log' : nonces (log ++ log')%list = foldl nonce_event (nonces log) log'.
Proof. unfold nonces. by rewrite foldl_app. Qed.

(** Only issuing a nonce brings it back. *)
Lemma nonces_gone key log : forall m,
  m !! key = None -> (forall x y, EvNonceIssued key x y ∉ log) -> foldl nonce_event m log !! key = None.
Proof.
  induction log as [|ev log IH]; intros m Hm Hlog; [done|]. cbn [foldl]. apply IH.
  - destruct ev; cbn; try done.
    + apply map_lookup_filter_None. left. rewrite lookup_insert_ne; [done|]. intros ->.
      apply (Hlog expires swept). left.
    + destruct (decide (key0 = key)) as [->|]; [apply lookup_delete_eq|]. by rewrite lookup_delete_ne.
  - intros x y Hin. apply (Hlog x y). by right.
Qed.

Lemma nonces_issued key t log : forall m,
  foldl nonce_event m log !! key = Some t ->
  m !! key = Some t \/ exists swept, EvNonceIssued key t swept ∈ log.
Proof.
  induction log as [|ev log IH]; intros m Hm; [by left|]. cbn [foldl] in Hm.
  apply IH in Hm as [Hm|[swept Hm]]; [|right; exists swept; by right].
  destruct ev; cbn in Hm; try (by left).
  - apply map_lookup_filter_Some in Hm as [Hm _]. apply lookup_insert_Some in Hm as [[-> ->]|[_ Hm]].
    + right. exists swept. left.
    + by left.
  - apply lookup_delete_Some in Hm as [_ Hm]. by left.
Qed.

Section Nonces.
Context {E : Env} {K : CacheEnv} {C : Ed25519} {AL : AuthLib} {T : ErrorText}.
Implicit Types w : world db effect.
Variable s : RegistrationServer.

(** What a preorder says that looks at the trace only is not undone by a rollback. *)
Section Traced.
Variable R : world db effect -> world db effect -> Prop.
Context {HR : Uncounted R}.
Hypothesis Htrace : forall w w', w_log w' = w_log w -> R w w'.

Lemma along_statement {A} (f : Time -> db -> result (A * db)) : along R (exec f).
Proof. apply along_exec; [apply _|]. intros. by apply Htrace. Qed.

Lemma along_traced_tx {A} (m : dbop A) : along R m -> along R (Tx m).
Proof.
  intros Hm w. specialize (Hm (tick_ops w (w_st w))). unfold Tx, tx.
  destruct (fault (w_ops w)); [by apply Htrace|]. destruct (m _) as [[a|e] w1]; cbn [fst snd] in *.
  - destruct (fault (w_ops w1)); [|destruct (check_ledger_txn_balanced _)]; cbn [snd];
      (etrans; [by apply (Htrace w (tick_ops w (w_st w)))|]; etrans; [exact Hm|by apply Htrace]).
  - etrans; [by apply (Htrace w (tick_ops w (w_st w)))|]. etrans; [exact Hm|by apply Htrace].
Qed.

Lemma along_traced_beside {A} (m : dbop A) : along R m -> along R (Tx_beside_keys m).
Proof.
  intros Hm w. specialize (Hm (tick_ops w (w_st w))). unfold Tx_beside_keys, tx_beside.
  destruct (fault (w_ops w)); [by apply Htrace|]. destruct (m _) as [[a|e] w1]; cbn [fst snd] in *.
  - destruct (fault (w_ops w1)); [|destruct (check_ledger_txn_balanced _)]; cbn [snd];
      (etrans; [by apply (Htrace w (tick_ops w (w_st w)))|]; etrans; [exact Hm|by apply Htrace]).
  - etrans; [by apply (Htrace w (tick_ops w (w_st w)))|]. etrans; [exact Hm|by apply Htrace].
Qed.

End Traced.

Lemma spent_trace key w w' : w_log w' = w_log w -> spent key w w'.
Proof. intros Hl. unfold spent. by rewrite Hl. Qed.

Lemma along_spent_emit key ev : (forall k x y, ev <> EvNonceIssued k x y) -> along (spent key) (emit ev).
Proof.
  intros Hev w Hn. cbn [w_log snd emit]. rewrite nonces_app. apply nonces_gone; [done|].
  intros x y Hin%list_elem_of_singleton. by apply (Hev key x y).
Qed.

#[local] Hint Extern 1 (along (spent _) (exec _)) =>
  apply along_statement; [apply _|apply spent_trace] : along.
#[local] Hint Extern 1 (along (spent _) (Tx _)) =>
  apply along_traced_tx; [apply _|apply spent_trace|] : along.
#[local] Hint Extern 1 (along (spent _) (Tx_beside_keys _)) =>
  apply along_traced_beside; [apply _|apply spent_trace|] : along.
#[local] Hint Extern 1 (along (spent _) (emit _)) => by apply along_spent_emit : along.

Lemma along_spent_enroll key u blob pub : along (spent key) (enroll u blob pub).
Proof. unfold enroll, SetUserPayerPubkey, RegisterDevice. auto 20 with along. Qed.

Lemma along_spent_register key i u blob pub : along (spent key) (register_in_tx i u blob pub).
Proof.
  unfold register_in_tx, DeactivateDevice. apply along_bind; [apply _| |intros; apply along_spent_enroll].
  case_bool_decide; auto 20 with along.
Qed.

Lemma along_spent_user key u phone number bvn tier v :
  along (spent key) (RegisterUserWithID u phone number bvn tier v).
Proof.
  unfold RegisterUserWithID. case_bool_decide; [auto with along|]. cbv zeta.
  apply along_traced_tx; [apply _|apply spent_trace|].
  apply along_bind; [apply _|auto with along|]. intros [?|e]; [auto with along|].
  destruct (negb _); [auto with along|]. apply along_bind; [apply _|auto with along|intros _].
  unfold create_accounts. apply along_for_each; [apply _|]. auto 20 with along.
Qed.

Lemma runs_consume_nonce u nonce w x w' :
  runs (consume_nonce u nonce) w x w' ->
  nonces (w_log w') !! nonce_key u nonce = None /\
  exists expires, nonces (w_log w) !! nonce_key u nonce = Some expires /\ clock (w_clk w) <= expires.
Proof.
  intros H. unfold consume_nonce in H. apply runs_bind in H as ([[]|e] & w1 & H1 & H);
    [|by apply runs_throw in H]. apply (proj1 (runs_attempt _ _ _ _)) in H1. apply runs_ret in H as [_ ->].
  change (runs (Consume u nonce) w tt w1) in H1. unfold Consume in H1.
  apply runs_bind in H1 as (log & w2 & H2 & H). apply runs_read_log in H2 as [-> ->].
  destruct (nonces (w_log w) !! nonce_key u nonce) as [expires|] eqn:Hn; [|by apply runs_throw in H].
  apply runs_bind in H as ([] & w2 & H2 & H). apply runs_emit in H2 as ->.
  apply runs_bind in H as (t & w3 & H3 & H). apply runs_now in H3 as [-> ->]. cbn in H.
  unfold After in H. destruct (Z.ltb_spec expires (clock (w_clk w))); [by apply runs_throw in H|].
  apply runs_ret in H as [_ ->]. split; [|by exists expires]. cbn [w_log]. rewrite nonces_app. cbn.
  apply lookup_delete_eq.
Qed.

Lemma runs_dev_verifier platform blob pub nonce w a w' :
  runs (DevVerifier platform blob pub nonce) w a w' ->
  exists b, Unmarshal dec_DevBlob no_dev_blob blob = Some b /\ db_DevicePublicKey b = pub /\ db_Nonce b = nonce.
Proof.
  unfold DevVerifier. intros H. destruct (Unmarshal _ _ _) as [b|]; [|by apply runs_throw in H].
  exists b. case_bool_decide; [|by apply runs_throw in H]. cbn [negb] in H.
  case_bool_decide; [done|by apply runs_throw in H].
Qed.

(** A registration succeeds only with a nonce that was issued for the user and has not
    expired, shown in a blob that names the very key being registered; and it spends the nonce:
    as long as it is not issued anew, no registration with it succeeds again, whatever key and
    blob come with it. *)
Lemma registration_spends_nonce u platform blob nonce pub w r w' :
  wired s -> runs (srv_RegisterDevice s u platform blob nonce pub) w r w' ->
  (exists b, Unmarshal dec_DevBlob no_dev_blob (default [] blob) = Some b /\
             db_DevicePublicKey b = pub /\ db_Nonce b = nonce) /\
  (exists expires swept, EvNonceIssued (nonce_key u nonce) expires swept ∈ w_log w /\
                         clock (w_clk w) <= expires) /\
  forall w2 later platform' blob' pub',
    w_log w2 = (w_log w' ++ later)%list -> (forall x y, EvNonceIssued (nonce_key u nonce) x y ∉ later) ->
    pub' <> [] ->
    srv_RegisterDevice s u platform' blob' nonce pub' w2 =
      (Err (ErrStatus "FailedPrecondition" "attestation nonce invalid or already consumed"), w2).
Proof.
  intros Hs H. pose proof (wired_is s Hs) as (_ & Hn & by_platform & Ha & Hdev).
  unfold srv_RegisterDevice in H. apply runs_bind in H as ([] & ? & Hq & H).
  apply runs_required in Hq as [Hu ->]. apply runs_bind in H as ([] & ? & Hq & H).
  apply runs_required in Hq as [Hp ->]. apply runs_bind in H as (att & w1 & H1 & H).
  unfold verifyAttestation in H1. rewrite Hn, Ha in H1. apply runs_bind in H1 as ([] & w2 & H1 & H2).
  apply runs_consume_nonce in H1 as (Hgone & expires & Hexp & Hclk). cbv zeta in H2.
  apply runs_bind in H2 as (r2 & w3 & H2 & H3). apply (proj1 (runs_attempt _ _ _ _)) in H2.
  destruct r2 as [att'|e]; [|by apply runs_throw in H3]. apply runs_ret in H3 as [-> ->].
  unfold Composite in H2. destruct (by_platform _) as [v|] eqn:Hv; [|done]. apply Hdev in Hv as ->.
  pose proof H2 as Hblob. apply runs_dev_verifier in Hblob.
  assert (w_log w3 = w_log w2) as Hl3.
  { unfold DevVerifier in H2. destruct (Unmarshal _ _ _); [|done]. destruct (negb _); [done|].
    destruct (negb _); [done|]. by injection H2 as _ <-. }
  split; [exact Hblob|]. split.
  { apply nonces_issued in Hexp as [Hexp|[swept Hin]]; [by rewrite lookup_empty in Hexp|]. by exists expires, swept. }
  assert (nonces (w_log w') !! nonce_key u nonce = None) as Hend.
  { rewrite <- Hl3 in Hgone. revert Hgone. eapply (runs_along (spent (nonce_key u nonce))); [|exact H].
    apply along_bind; [apply _|apply along_attempt, along_spent_user|intros r1].
    apply along_bind; [apply _|destruct r1; auto with along|intros _].
    apply along_bind; [apply _|unfold GetActiveDeviceForUser; auto with along|].
    assert (forall i, along (spent (nonce_key u nonce))
      (internally "register device" (Tx_beside_keys (register_in_tx i u blob pub)))) as Hreg.
    { intros i. apply along_internally; [apply _|]. apply along_traced_beside; [apply _|apply spent_trace|].
      apply along_spent_register. }
    intros [d|e]; [case_bool_decide|destruct (errors_is e ErrNoRows)]; unfold device_response;
      auto 10 with along. }
  intros v later platform' blob' pub' Hlog Hlater Hpub'. unfold srv_RegisterDevice.
  rewrite Hu. erewrite bind_ok by reflexivity. unfold required. rewrite bool_decide_false by done.
  erewrite bind_ok by reflexivity. unfold verifyAttestation, consume_nonce, Consume. rewrite Hn.
  unfold bind, attempt, read_log. rewrite Hlog, nonces_app, nonces_gone by done. reflexivity.
Qed.

End Nonces.

(** ** Offline sessions *)

Section Sessions.
Context {E : Env} {K : CacheEnv} {C : Ed25519} {HC : Ed25519Laws C} {AL : AuthLib} {T : ErrorText}.
Implicit Types w : world db effect.

(** The text of a database is UTF-8. *)
Definition utf8_numbers w (u : string) : Prop :=
  (forall i x, users (w_st w) !! i = Some x -> utf8 (u_AccountNumber x)) /\
  (forall v, cache_get (userAccountNumberCacheKey u) (w_log w) = Some (CachedText v) -> utf8 v).

Lemma runs_GetUserAccountNumber_utf8 u w x w' :
  utf8_numbers w u -> runs (GetUserAccountNumber u) w x w' -> utf8 x.
Proof.
  intros [Hdb Hc] H. unfold GetUserAccountNumber in H. apply runs_bind in H as (hit & w1 & Hh & H).
  unfold runs, cache_lookup in Hh. injection Hh as <- <-.
  assert (forall v, runs (let! t := or_missing (query (q_GetUserAccountNumber u)) in
      do! emit (EvCacheSet (userAccountNumberCacheKey u) (CachedText t)) in ret t) v x w' ->
    w_st v = w_st w -> utf8 x) as Hread.
  { intros v Hv Hs. apply runs_bind in Hv as (t & v1 & Hq & Hv).
    apply runs_bind in Hv as ([] & v2 & He & Hv). apply runs_ret in Hv as [-> _].
    unfold or_missing in Hq. apply runs_bind in Hq as (r & v3 & Hq & Hr).
    apply (proj1 (runs_attempt _ _ _ _)) in Hq. destruct r as [t'|]; [|by apply runs_throw in Hr].
    apply runs_ret in Hr as [-> _]. apply runs_query in Hq as (_ & Hq & _). rewrite Hs in Hq.
    unfold q_GetUserAccountNumber in Hq. destruct (users (w_st w) !! u) as [row|] eqn:Hu; [|done].
    injection Hq as <-. by eapply Hdb. }
  destruct (cache_serves _); [|by eapply Hread].
  destruct (cache_get _ (w_log w)) as [[?|? ? ?|v|?|?|?]|] eqn:Hv; try by eapply Hread.
  apply runs_ret in H as [-> _]. by apply Hc.
Qed.

Lemma runs_DeviceLookup id u w x w' :
  utf8_numbers w u -> runs (DeviceLookup id) w x w' ->
  (exists p, standing_seen w id (x.1, p, x.2)) /\ w_st w' = w_st w /\ utf8_numbers w' u.
Proof.
  intros Hn H. unfold DeviceLookup in H. apply runs_bind in H as ([[o p] a] & w1 & H & H2).
  apply runs_ret in H2 as [-> ->]. pose proof H as Hl. apply runs_LookupDeviceForAuth in H as [Ha Hs].
  split; [by exists p|]. split; [done|]. split; [rewrite Hs; apply Hn|].
  assert (cache_get (userAccountNumberCacheKey u) (w_log w1) =
          cache_get (userAccountNumberCacheKey u) (w_log w)) as ->; [|apply Hn].
  unfold LookupDeviceForAuth in Hl. apply runs_bind in Hl as (hit & w2 & Hh & Hl).
  unfold runs, cache_lookup in Hh. injection Hh as <- <-.
  assert (forall v y, runs (let! row := query (q_GetDevice id) in
      do! emit (EvCacheSet (deviceAuthCacheKey id)
                  (CachedDevice (dv_UserID row) (dv_PublicKey row) (dv_Active row))) in
      ret (dv_UserID row, dv_PublicKey row, dv_Active row)) v y w1 ->
    cache_get (userAccountNumberCacheKey u) (w_log w1) = cache_get (userAccountNumberCacheKey u) (w_log v)) as Hread.
  { intros v y Hv. apply runs_bind in Hv as (row & v1 & Hq & Hv). apply runs_query in Hq as (_ & _ & ->).
    apply runs_bind in Hv as ([] & v2 & He & Hv). apply runs_emit in He as ->.
    apply runs_ret in Hv as [_ ->]. cbn [w_log tick_ops]. by rewrite cache_get_snoc. }
  destruct (cache_serves _); [|by eapply Hread].
  destruct (cache_get (deviceAuthCacheKey id) (w_log w)) as [[?|? ? ?|?|?|?|?]|]; try (by eapply Hread).
  by apply runs_ret in Hl as [_ ->].
Qed.

(** Claim C34: an offline session is issued only for a device that is the caller's and active, in the
    registry or, where the look-up is answered from the cache, in the copy the cache serves (a
    copy that outlived a revocation is trusted), and the token is accepted offline, with the public
    key that came with it, exactly for the signer's audience and for that device, until it
    expires; it names the user and the online session.  (The signer's public key is that of its private
    key and has the size of Ed25519, the text of the database is UTF-8, the signer's and the caller's
    texts are, and the token's instants fit a 64-bit number of seconds.) *)
Theorem IssueDeviceSession_issues k u id sid scope w tok w' :
  utf8_numbers w u -> runs (IssueDeviceSession (Some k) u id sid scope) w tok w' ->
  sg_PublicKey k = ed_public (sg_PrivateKey k) -> length (sg_PublicKey k) = PublicKeySize ->
  Forall utf8 [u; id; sid; sg_KeyID k; sg_Audience k] ->
  in_int64 (Unix (dt_IssuedAt tok)) = true -> in_int64 (Unix (dt_ExpiresAt tok)) = true ->
  (exists p, standing_seen w id (u, p, true)) /\ dt_ExpiresAt tok = dt_IssuedAt tok + sg_TTL k /\
  exists p, ParseDeviceSession (dt_Token tok) = Ok p /\ ds_Sub (pd_Claims p) = u /\
    ds_SessionID (pd_Claims p) = sid /\ dh_Kid (pd_Header p) = dt_KeyID tok /\
    forall audience device now skew,
      Verify p (dt_ServerPublicKey tok) audience device now skew = Ok tt <->
      (audience = "" \/ sg_Audience k = audience) /\ (device = "" \/ id = device) /\
      (0 < Unix (dt_ExpiresAt tok) ->
       Unix now <= add64 (Unix (dt_ExpiresAt tok)) (Float.truncate (Seconds skew))).
Proof.
  intros Hn H Hpub Hlen Hutf Hiat Hexp. unfold IssueDeviceSession in H.
  destruct (HasDeviceSessionSigner (Some k)) as [k'|] eqn:Hk; [|by apply runs_throw in H].
  assert (k' = k) as ->.
  { unfold HasDeviceSessionSigner in Hk. destruct (length (sg_PrivateKey k) =? PrivateKeySize)%nat; [|done].
    by injection Hk. }
  cbv zeta in H. case_bool_decide as Hscope; [|by apply runs_throw in H]. cbn [negb] in H.
  apply runs_bind in H as (r & w1 & H1 & H). apply (proj1 (runs_attempt _ _ _ _)) in H1.
  destruct r as [[o a]|e]; [|by apply runs_throw in H].
  apply (runs_DeviceLookup id u) in H1 as ([p Ha] & Hs & Hn1); [|done]. cbn [fst snd] in Ha.
  destruct (decide (o = u)) as [->|Ho]; [|rewrite bool_decide_false in H by done; by apply runs_throw in H].
  rewrite bool_decide_true in H by done. destruct a; [|by apply runs_throw in H]. cbn [negb] in H.
  apply runs_bind in H as (account & w2 & H2 & H). apply runs_GetUserAccountNumber_utf8 in H2; [|done].
  apply runs_bind in H as (t & w3 & H3 & H). apply runs_now in H3 as [-> ->].
  apply runs_bind in H as (text & w4 & H4 & H). apply runs_lift in H4 as [H4 ->].
  apply runs_ret in H as [-> ->]. cbn [dt_IssuedAt dt_ExpiresAt dt_Token dt_ServerPublicKey dt_KeyID] in *.
  split; [by exists p|]. split; [done|].
  repeat match type of Hutf with Forall _ (_ :: _) => apply Forall_cons in Hutf as [? Hutf] end.
  destruct (DeviceSession_roundtrip _ _ _ _ H4) as (q & Hq & Hh & Hc & Hv).
  { done. }
  { rewrite Hscope. repeat split; try done. }
  { by rewrite <- Hpub. }
  exists q. rewrite Hc, Hh. split_and!; [done|done|done|done|]. intros audience device now skew.
  rewrite Hpub, Hv. unfold admits. cbn. tauto.
Qed.

End Sessions.

(** ** The handlers keep what is not theirs *)

Section Keeps.
Context {E : Env} {K : CacheEnv} {C : Ed25519} {AL : AuthLib} {T : ErrorText}.
Variable P : db -> Prop.
Hypothesis HP : keyless P.
Hypothesis HR : forall u phone number bvn tier v, preserves P (RegisterUserWithID u phone number bvn tier v).

Lemma preserves_internally {A} what (m : dbop A) : preserves P m -> preserves P (internally what m).
Proof. unfold internally. intros Hm. apply preserves_bind; [by apply preserves_attempt|quiet]. Qed.

Lemma preserves_assertDevice id u : preserves P (assertDeviceBelongsToUser id u).
Proof. unfold assertDeviceBelongsToUser, LookupDeviceForAuth. quiet. Qed.

Lemma preserves_required b what : preserves P (required b what).
Proof. unfold required. quiet. Qed.

#[local] Hint Resolve preserves_internally preserves_assertDevice preserves_required : preserve.
#[local] Hint Extern 1 (preserves _ (DeactivateDevice _)) => by apply preserves_DeactivateDevice : preserve.
#[local] Hint Extern 1 (preserves _ (Tx_beside_keys _)) =>
  apply (device_call_keeps P HP); constructor : preserve.

Lemma device_handler_keeps s A (m : dbop A) : wired s -> device_handler s A m -> preserves P m.
Proof.
  intros Hs []; unfold GetAttestationChallenge, Attest, Deactivate, RotateDevice, RevokeDevice,
    RecoverDevice, device_response.
  - apply preserves_bind; [quiet|intros _]. destruct (negb _); [quiet|].
    apply preserves_bind; [|quiet]. apply preserves_internally. unfold Issue. cbv zeta.
    apply preserves_bind; [by apply preserves_pure|quiet].
  - unfold srv_RegisterDevice, device_response. do 2 (apply preserves_bind; [quiet|intros _]).
    apply preserves_bind; [by apply preserves_verifyAttestation|intros _].
    apply preserves_bind; [apply preserves_attempt, HR|intros r]. apply preserves_bind; [destruct r; quiet|intros _].
    apply preserves_bind; [unfold GetActiveDeviceForUser; quiet|].
    intros [d|e]; [case_bool_decide; quiet|]. destruct (errors_is e ErrNoRows); quiet.
  - quiet.
  - apply preserves_bind; [quiet|intros a]. cbv zeta. quiet.
  - apply preserves_bind; [quiet|intros a]. apply preserves_bind; [quiet|intros _]. cbv zeta.
    destruct (negb _); quiet.
  - apply preserves_bind; [quiet|intros a]. apply preserves_bind; [quiet|intros _].
    case_bool_decide; quiet.
  - do 2 (apply preserves_bind; [quiet|intros _]). quiet.
  - apply (device_call_keeps P HP). constructor.
  - unfold assertRealmKeyDeviceOwnership, LookupDeviceForAuth. case_bool_decide; quiet.
  - unfold IssueDeviceSession, DeviceLookup, LookupDeviceForAuth, GetUserAccountNumber, or_missing.
    destruct (HasDeviceSessionSigner signer); [|quiet]. cbv zeta. destruct (negb _); [quiet|].
    apply preserves_bind; [quiet|]. intros [[owner active]|e]; [|quiet].
    destruct (negb _); [quiet|]. destruct (negb _); quiet.
Qed.

End Keeps.
