(* ===== verification/OpsProps.v ===== *)
(** * What the operators' commands do

    Rotating keys leaves an overlap; a forced expiry strands the lien; a freeze weighs as any
    other signal. *)

From S2P Require Import Prelude Float Domain Json Crypto Store AuthStore DeviceStore Repo Devices Fraud Books Solvency Wallet FraudProps.

#[local] Open Scope Z_scope.

(** ** The realm key *)

(** The realm key rows after a rotation at [now]. *)
Definition rotated (v : Z) (key : bytes) (now : Time) (overlap : Duration) (created : Time)
  (old new_ : gmap Z RealmKeyRow) : Prop :=
  new_ !! v = Some {| rk_KeyEnc := key; rk_ActiveFrom := tstz now; rk_RetiredAt := None;
                      rk_CreatedAt := created |} /\
  forall v' r, v' <> v -> (new_ !! v' = Some r <-> exists r0, old !! v' = Some r0 /\
    match rk_RetiredAt r0 with
    | None => r = retire_key (ts (now + overlap)) r0 /\ tstz now <= tstz (now + overlap)
    | Some at_ => r = r0 /\ tstz now <= at_
    end).

Lemma foldr_max_ge l : forall x, x <= foldr Z.max x l /\ forall y, y ∈ l -> y <= foldr Z.max x l.
Proof.
  induction l as [|y l IH]; intros x; cbn; [split; [lia|]; by intros y ?%elem_of_nil|].
  destruct (IH x) as [H1 H2]. split; [lia|]. intros z [->|Hz]%elem_of_cons; [lia|]. specialize (H2 z Hz). lia.
Qed.

Lemma single {A} (l : list A) x : NoDup l -> (forall y, y ∈ l <-> y = x) -> l = [x].
Proof.
  intros Hnd Hin. destruct l as [|a [|b l]].
  - by destruct (not_elem_of_nil x (proj2 (Hin x) eq_refl)).
  - by rewrite (proj1 (Hin a) (list_elem_of_here _ _)).
  - apply NoDup_cons in Hnd as [Ha _]. exfalso. apply Ha.
    rewrite (proj1 (Hin a) (list_elem_of_here _ _)).
    rewrite (proj1 (Hin b) (list_elem_of_further _ _ _ (list_elem_of_here _ _))). left.
Qed.

(** The next version is above all there are. *)
Lemma next_version_above d v : q_NextRealmKeyVersion d = Ok v ->
  forall v' r, realm_keys d !! v' = Some r -> v' < v.
Proof.
  unfold q_NextRealmKeyVersion, int4. intros H v' r Hr.
  assert (v' ∈ map fst (map_to_list (realm_keys d))) as Hin.
  { apply list_elem_of_fmap. exists (v', r). split; [done|]. by apply elem_of_map_to_list. }
  destruct (map fst _) as [|x l]; [by apply elem_of_nil in Hin|].
  destruct (_ && _) in H; [|done]. injection H as <-. destruct (foldr_max_ge l x) as [H1 H2].
  apply elem_of_cons in Hin as [->|Hin]; [lia|]. specialize (H2 v' Hin). lia.
Qed.

Section Rotations.
Context {E : Env}.
Implicit Types w : world db effect.

Lemma tstz_mono t u : t <= u -> tstz t <= tstz u.
Proof. intros H. unfold tstz, truncate_us. apply Z.mul_le_mono_nonneg_r; [lia|]. by apply Z.div_le_mono. Qed.

(** Claim C36: rotating the realm key puts a new version above all others in force, and only it; the
    keys that were in force until then are kept for the overlap, keys that were retired before
    keep their time, and exactly the keys whose time is up are gone. *)
Theorem RotateRealmKey_overlaps key overlap w v w' :
  runs (RotateRealmKey key overlap) w v w' ->
  (forall v' r, realm_keys (w_st w) !! v' = Some r -> v' < v) /\
  (exists created, rotated v key (clock (w_clk w)) overlap created
                     (realm_keys (w_st w)) (realm_keys (w_st w'))) /\
  exists row, q_GetActiveRealmKey (w_st w') = Ok (v, row) /\ rk_KeyEnc row = key.
Proof.
  intros H. unfold RotateRealmKey, ops_tx in H. apply runs_tx in H as (_ & w0 & H & _ & _ & ->).
  apply runs_bind in H as (v0 & w1 & H1 & H). apply runs_wrapping, runs_query in H1 as (_ & Hv & ->).
  apply runs_bind in H as (t & w2 & H2 & H). apply runs_now in H2 as [-> ->].
  apply runs_bind in H as ([] & w3 & H3 & H). apply runs_wrapping, runs_exec in H3 as (_ & d3 & H3 & ->).
  apply runs_bind in H as ([] & w4 & H4 & H). apply runs_wrapping, runs_exec in H4 as (_ & d4 & H4 & ->).
  apply runs_bind in H as ([] & w5 & H5 & H). apply runs_wrapping, runs_exec in H5 as (_ & d5 & H5 & ->).
  apply runs_ret in H as [-> ->]. cbn [w_st tick_ops w_clk] in *.
  pose proof (next_version_above _ _ Hv) as Habove.
  unfold q_CreateRealmKey in H3. destruct (not_null_bytes _ _) as [[]|]; [|done]. cbn [result_bind ts not_null] in H3.
  destruct (guard_or _ _) as [[]|] eqn:Hnew; [|done]. apply guard_or_ok, bool_decide_eq_true in Hnew.
  injection H3 as <-. injection H4 as <-. injection H5 as <-.
  unfold q_GetActiveRealmKey, realm_rows. cbn [realm_keys with_realm_keys without_realm_keys].
  set (t := clock (w_clk w)). set (row := {| rk_KeyEnc := key; rk_ActiveFrom := tstz t;
    rk_RetiredAt := None; rk_CreatedAt := _ |}).
  set (new_ := filter _ _).
  assert (forall v' r, new_ !! v' = Some r <-> exists r0, <[v0 := row]> (realm_keys (w_st w)) !! v' = Some r0 /\
    r = (if not_retired r0 && negb (v' =? v0) then retire_key (ts (t + overlap)) r0 else r0) /\
    match rk_RetiredAt r with Some at_ => (at_ <? tstz t) = false | None => True end) as Hlook.
  { intros v' r. unfold new_. rewrite map_lookup_filter_Some, map_lookup_imap, bind_Some. cbn [fst snd ts].
    split.
    - intros [(r0 & Hr0 & [= <-]) Hk]. exists r0. split; [done|]. split; [done|].
      by destruct (rk_RetiredAt _).
    - intros (r0 & Hr0 & -> & Hk). split; [by exists r0|]. by destruct (rk_RetiredAt _). }
  assert (new_ !! v0 = Some row) as Hrow.
  { apply Hlook. exists row. rewrite lookup_insert_eq. split; [done|]. by rewrite Z.eqb_refl, andb_false_r. }
  split; [done|]. split.
  - exists (tstz (sql_now (S (S (w_ops w))))). split; [done|]. intros v' r Hne. rewrite Hlook, lookup_insert_ne by done.
    rewrite (proj2 (Z.eqb_neq v' v0)) by done. cbn [negb]. setoid_rewrite andb_true_r.
    split; intros (r0 & Hr0 & Hr); exists r0; (split; [done|]).
    + destruct Hr as [-> Hk]. unfold not_retired in *. destruct (rk_RetiredAt r0) as [a|] eqn:Ha.
      * rewrite bool_decide_false in * by done. rewrite Ha in Hk. split; [done|]. by apply Z.ltb_ge.
      * rewrite bool_decide_true in * by done. cbn in Hk. split; [done|]. by apply Z.ltb_ge.
    + unfold not_retired. destruct (rk_RetiredAt r0) as [a|] eqn:Ha; destruct Hr as [-> Hk].
      * rewrite bool_decide_false by done. split; [done|]. rewrite Ha. by apply Z.ltb_ge.
      * rewrite bool_decide_true by done. split; [done|]. cbn. by apply Z.ltb_ge.
  - exists row. split; [|done]. set (rows := List.filter _ _).
    assert (rows = [(v0, row)]) as ->; [|done].
    assert (forall kv, kv ∈ rows <-> kv = (v0, row)) as Hin.
    { intros [v' r]. unfold rows. rewrite list_elem_of_In, filter_In, <- list_elem_of_In, elem_of_map_to_list.
      cbn [fst snd]. split; [|by intros [= -> ->]]. intros [Hr Hn]. apply Hlook in Hr as (r0 & Hr0 & -> & _).
      destruct (not_retired r0 && negb (v' =? v0)) eqn:Hc; [done|].
      rewrite Hn in Hc. apply negb_false_iff, Z.eqb_eq in Hc as ->.
      rewrite lookup_insert_eq in Hr0. by injection Hr0 as <-. }
    apply single; [|exact Hin]. apply NoDup_ListNoDup, List.NoDup_filter, NoDup_ListNoDup, NoDup_map_to_list.
Qed.

(** Rotating the bank's key with [retire-previous] puts the new key in force alone; but the
    server's cache does not learn of it: while an entry is served, the server goes on with the
    key it has, although that is retired. *)
Lemma RotateBankKey_unseen {K : CacheEnv} keyID pub priv w x w' :
  runs (RotateBankKey keyID pub priv true) w x w' ->
  (exists k, q_GetActiveBankSigningKey (w_st w') = Ok k /\ bk_KeyID k = keyID /\ bk_PublicKey k = pub) /\
  (forall i k, bank_signing_keys (w_st w') !! i = Some k -> bk_ActiveTo k = None -> i = keyID) /\
  forall w2 k, w_st w2 = w_st w' -> w_log w2 = w_log w' ->
    cache_get bankSigningActiveCacheKey (w_log w) = Some (CachedBankKey k) ->
    cache_serves (w_ops w2) = true -> runs GetActiveBankSigningKey w2 k w2.
Proof.
  intros H. unfold RotateBankKey, ops_tx in H. apply runs_tx in H as (_ & w0 & H & _ & _ & ->).
  apply runs_bind in H as (t & w1 & H1 & H). apply runs_now in H1 as [-> ->].
  apply runs_bind in H as ([] & w2 & H2 & H). apply runs_wrapping, runs_exec in H2 as (_ & d2 & H2 & ->).
  apply runs_wrapping, runs_exec in H as (_ & d3 & H & ->). injection H2 as <-.
  unfold q_CreateBankSigningKey in H. cbn [bk_PublicKey bk_PrivateKey bk_KeyID] in H.
  do 2 (destruct (not_null_bytes _ _) as [[]|]; [|done]; cbn [result_bind] in H).
  destruct (pk _ _ _) as [[]|]; [|done]. injection H as <- <-.
  cbn [w_st w_log tick_ops bank_signing_keys with_bank_signing_keys].
  set (key := {| bk_KeyID := keyID |}). set (m := <[keyID := key]> _).
  assert (forall i k, m !! i = Some k -> bk_ActiveTo k = None -> (i, k) = (keyID, key)) as Honly.
  { intros i k [[<- <-]|[_ Hk]]%lookup_insert_Some Ha; [done|].
    apply lookup_fmap_Some in Hk as (k0 & <- & Hk0). destruct (bool_decide _) eqn:Hb; [done|].
    by apply bool_decide_eq_false in Hb. }
  split; [|split].
  - exists key. split; [|done]. unfold q_GetActiveBankSigningKey.
    cbn [bank_signing_keys with_bank_signing_keys].
    assert (rows_where (fun _ k => bool_decide (bk_ActiveTo k = None)) m = [(keyID, key)]) as ->; [|done].
    apply single; [apply (NoDup_fmap_1 fst), rows_where_NoDup|]. intros [i k].
    rewrite elem_of_rows_where, bool_decide_eq_true. split; [intros [Hk Ha]; by apply Honly|].
    intros [= -> ->]. split; [apply lookup_insert_eq|done].
  - intros i k Hi Ha. by injection (Honly i k Hi Ha).
  - intros w2 k _ Hl Hc Hserve. unfold GetActiveBankSigningKey.
    eapply bind_runs; [unfold runs, cache_lookup; rewrite Hserve, Hl, Hc; reflexivity|done].
Qed.

End Rotations.

(** ** A ceiling that is forced to expire *)

Section ForceExpire.
Context {E : Env}.
Implicit Types w : world db effect.

(** [force-expire-ceiling] strands the lien it is documented to release: the ceiling leaves
    the sweep's candidates for good and the payer has no live ceiling left to drain or recover,
    while the lien account still holds all that was not settled. *)
Lemma ForceExpireActiveCeiling_strands (ws : Service) sus id c lien a w b w' :
  solvent sus (w_st w) -> ceiling_tokens (w_st w) !! id = Some c -> c_Status c = CeilingActive ->
  accounts (w_st w) !! lien = Some a -> a_Kind a = AccountKindLienHolding ->
  a_UserID a = c_PayerUserID c -> runs (ForceExpireActiveCeiling id) w b w' ->
  b = true /\ bal (w_st w') lien = c_CeilingKobo c - sum_settled id (w_st w') /\
  (forall before rows, q_ListReleasableExpiredCeilings before (w_st w') = Ok rows -> id ∉ rows.*1) /\
  forall w2, w_st w2 = w_st w' ->
    is_ok (MoveToMain (c_PayerUserID c) w2).1 = false /\
    is_ok (RecoverOfflineCeiling ws (c_PayerUserID c) w2).1 = false.
Proof.
  intros [_ Hl] Hc Hact Ha Hk Hu H. unfold ForceExpireActiveCeiling in H.
  apply runs_bind in H as (n & w1 & H1 & H). apply runs_exec in H1 as (_ & d & H1 & ->).
  unfold q_ForceExpireActiveCeiling in H1. rewrite Hc, bool_decide_true in H1 by done.
  injection H1 as <- <-. apply runs_ret in H as [-> ->]. cbn [w_st tick_ops].
  set (d := with_ceiling_tokens _ _). split; [done|]. split; [|split].
  - change (bal d lien) with (bal (w_st w) lien).
    rewrite (sum_settled_same id (w_st w) d) by done.
    apply (ln_live _ Hl lien a id c); [done|done|done|]. apply live_of_spec. by rewrite Hact.
  - intros [before|] rows; cbn; intros [= <-]; [|by apply not_elem_of_nil].
    intros ([i r] & -> & Hin)%list_elem_of_fmap. apply elem_of_rows_where in Hin as [Hr Hrel].
    cbn in Hr. rewrite lookup_insert_eq in Hr. injection Hr as <-. by cbn in Hrel.
  - assert (forall i r, ceiling_tokens d !! i = Some r -> active_of (c_PayerUserID c) r = false) as Hnone.
    { intros i r. cbn [d ceiling_tokens with_ceiling_tokens].
      intros [[<- <-]|[Hne Hr]]%lookup_insert_Some; [unfold active_of; cbn; by rewrite andb_false_r|].
      destruct (active_of (c_PayerUserID c) r) eqn:Hx; [|done]. exfalso. apply Hne.
      apply active_of_spec in Hx as [Hp Hst].
      by apply (ln_one _ Hl id i c r); [| |rewrite Hact|rewrite Hst|]. }
    intros w2 Hw2.
    assert (forall ctx v, w_st v = d -> exists e v', idle_ceiling (c_PayerUserID c) ctx v = (Err e, v')) as Hidle.
    { intros ctx v Hv. destruct (idle_ceiling (c_PayerUserID c) ctx v) as [[x|e] v'] eqn:Hi; [|by eauto].
      exfalso. change (runs (idle_ceiling (c_PayerUserID c) ctx) v x v') in Hi. unfold idle_ceiling in Hi.
      apply runs_bind in Hi as (r & v1 & H1 & Hi). apply (proj1 (runs_attempt _ _ _ _)) in H1.
      destruct r as [y|e].
      - change (runs (GetActiveCeiling (c_PayerUserID c)) v y v1) in H1. unfold GetActiveCeiling in H1.
        apply runs_bind in H1 as ([i r] & v2 & H1 & _). apply runs_query in H1 as (_ & H1 & _).
        rewrite Hv in H1. apply first_row_ok in H1 as [Hr Hx]. by rewrite (Hnone i r Hr) in Hx.
      - apply runs_bind in Hi as (y & v2 & H2 & _). by apply runs_throw in H2. }
    split.
    + unfold MoveToMain, moveToMainInTx, Tx, tx. destruct (fault _); [done|].
      destruct (Hidle "wallet: count in-flight claims" (tick_ops w2 (w_st w2)) Hw2) as (e & v' & He).
      by rewrite (bind_err _ _ _ _ _ He).
    + unfold RecoverOfflineCeiling, Tx, tx. destruct (fault _); [done|].
      destruct (Hidle "wallet: count in-flight" (tick_ops w2 (w_st w2)) Hw2) as (e & v' & He).
      by rewrite (bind_err _ _ _ _ _ He).
Qed.

End ForceExpire.

(** ** Freezing a user *)

Section Freeze.
Context {E : Env} {M : Libm}.
Implicit Types w : world db effect.

(** One bad signature, however old, does not reach the threshold: 1 - e^-0.7 is about a
    half.  It is a fact about the exponential function, whose library the model leaves open. *)
Definition one_signal_short : Prop := forall y, fnonpos y ->
  fleb ThresholdSuspended (squash (fadd fzero (fmul WeightSignatureInvalid (Pow ftwo y)))) = false.

(** [freeze-user], documented to suspend, does not: the weight it stores is never read, the
    signal counts as one invalid signature, and a user without other signals is still granted
    ceilings up to the reduced cap. *)
Lemma FreezeUser_does_not_suspend id u reason n w x w1 w2 res w3 :
  one_signal_short -> (forall i g, fraud_signals (w_st w) !! i = Some g -> g_UserID g <> u) ->
  runs (FreezeUser id u reason) w x w1 -> w_st w2 = w_st w1 -> runs (ClampCeiling u n) w2 res w3 ->
  (exists g, fraud_signals (w_st w1) !! id = Some g /\ g_UserID g = u /\ g_Severity g = SevCritical) /\
  res.2 <> TierSuspended /\ Z.min n ReducedCapKobo <= res.1.
Proof.
  intros Hshort Hnone H Hs Hc. unfold FreezeUser in H.
  apply runs_bind in H as (row & v & H1 & H). apply runs_ret in H as [_ ->].
  apply runs_exec in H1 as (_ & d & H1 & ->). unfold q_InsertFraudSignal in H1.
  destruct (pk _ _ _) as [[]|]; [|done]. cbn [result_bind] in H1.
  destruct (fk _ _ _) as [[]|]; [|done]. cbn [result_bind g_CeilingTokenID g_TransactionID] in H1.
  injection H1 as _ <-. cbn [w_st tick_ops] in *.
  set (g := {| g_UserID := u |}) in *. split.
  { exists g. split; [apply lookup_insert_eq|done]. }
  unfold ClampCeiling in Hc. apply runs_bind in Hc as (sc & v & Hsc & Hc). apply runs_ret in Hc as [-> ->].
  apply runs_Score in Hsc as (_ & t & rows & Hrows & ->). rewrite Hs in Hrows.
  assert (rows = [(id, g)]) as ->.
  { unfold q_ListFraudSignalsForUser in Hrows. injection Hrows as <-. apply single.
    - rewrite merge_sort_Permutation. apply (NoDup_fmap_1 fst), rows_where_NoDup.
    - intros [i h]. rewrite merge_sort_Permutation, elem_of_rows_where, bool_decide_eq_true.
      cbn [fraud_signals with_fraud_signals]. split.
      + intros [[[<- <-]|[_ Hh]]%lookup_insert_Some Hu]; [done|]. by destruct (Hnone i h Hh).
      + intros [= -> ->]. split; [apply lookup_insert_eq|done]. }
  unfold score_of. cbn [map fraudToDomain foldl]. unfold add_event. cbn [fst snd fe_SignalType g_SignalType].
  cbn [sr_CeilingTier]. change (WeightFor FraudSignatureInvalid) with WeightSignatureInvalid.
  unfold tierFor, decay. rewrite (Hshort _ (decay_exponent _ _)).
  destruct (fleb ThresholdReduced _); [rewrite cap_reduced; cbn; split; [done|lia]|].
  unfold cap. rewrite !bool_decide_eq_false_2 by done. cbn. split; [done|lia].
Qed.

End Freeze.
