(* ===== verification/Genesis.v ===== *)
(** * Genesis: the database the migrations leave (db/migrations 0005 and 0021)

    The two system users, the suspense account and the treasury with its counterweight,
    whose opening balances are one posted transaction. *)

From S2P Require Import Prelude Domain Json Crypto Store Repo Books Solvency Wallet DemoMint Settlement Members.

Definition genesis_txn : string := "01HGENES1S0000000000000MINT".
Definition genesis_amount : Z := 500000000000.
Definition genesis_memo : string := "genesis: demo-mint treasury seed".

Section Genesis.
(** The server's [now()] when the migrations ran. *)
Variable t : Time.

Definition system_user (id number first last email : string) : User := {|
  u_Phone := id; u_AccountNumber := number; u_Bvn := None; u_KycTier := "SYSTEM";
  u_RealmKeyVersion := 0; u_FirstName := first; u_LastName := last; u_Email := email;
  u_PasswordHash := ""; u_EmailVerified := false; u_CreatedAt := tstz t;
  u_UpdatedAt := tstz t |}.

Definition system_account (user : string) (k : AccountKind) (n : Z) : Account :=
  {| a_UserID := user; a_Kind := k; a_BalanceKobo := n |}.

Definition genesis_event : TxnRow := {|
  x_UserID := "system-mint"; x_CounterpartyUserID := None; x_Kind := TxKindDemoMint;
  x_Status := TxStatusCompleted; x_Direction := LedgerDirectionCREDIT;
  x_AmountKobo := genesis_amount; x_SettledAmountKobo := None;
  x_Memo := Some genesis_memo; x_PaymentTokenID := None; x_TransferID := None;
  x_CeilingID := None; x_GroupID := genesis_txn; x_FailureReason := None;
  x_CreatedAt := tstz t; x_UpdatedAt := tstz t |}.

Definition genesis_entry (suffix account : string) (dir : LedgerDirection) : LedgerEntry := {|
  le_ID := (genesis_txn +:+ suffix)%string; le_TxnID := genesis_txn;
  le_AccountID := account; le_Direction := dir; le_AmountKobo := genesis_amount;
  le_Memo := Some genesis_memo |}.

Definition genesis : db :=
  with_users
    (<["system-settlement" := system_user "system-settlement" "0000000000" "System" "Settlement"
         "system-settlement@internal.invalid"]>
     {["system-mint" := system_user "system-mint" "0000000001" "System" "Mint"
         "system-mint@offlinepay.local"]})
  (with_accounts
    (<[SystemSuspenseAccountID := system_account "system-settlement" AccountKindSuspense 0]>
     (<[TreasuryAccountID := system_account "system-mint" AccountKindMain genesis_amount]>
      {["system-mint-source" := system_account "system-mint" AccountKindSuspense
          (- genesis_amount)]}))
  (with_transactions {[genesis_txn := genesis_event]}
  (with_ledger_entries
    [genesis_entry "-D" "system-mint-source" LedgerDirectionDEBIT;
     genesis_entry "-C" TreasuryAccountID LedgerDirectionCREDIT] db_empty))).

Lemma genesis_account i a :
  accounts genesis !! i = Some a ->
  i = SystemSuspenseAccountID /\ a = system_account "system-settlement" AccountKindSuspense 0 \/
  i = TreasuryAccountID /\ a = system_account "system-mint" AccountKindMain genesis_amount \/
  i = "system-mint-source" /\
    a = system_account "system-mint" AccountKindSuspense (- genesis_amount).
Proof.
  cbn. intros H.
  apply lookup_insert_Some in H as [[<- <-]|[_ H]]; [auto|].
  apply lookup_insert_Some in H as [[<- <-]|[_ H]]; [auto|].
  apply lookup_singleton_Some in H as [<- <-]. auto.
Qed.

(** The migrations' own checks: it starts in a state that satisfies every invariant. *)
Lemma genesis_thriving : thriving SystemSuspenseAccountID genesis.
Proof.
  assert (books SystemSuspenseAccountID genesis) as Hb.
  { constructor.
    - intros id. unfold bal, net. cbn.
      destruct (decide (id = SystemSuspenseAccountID)) as [->|H1]; [done|].
      destruct (decide (id = TreasuryAccountID)) as [->|H2]; [done|].
      destruct (decide (id = "system-mint-source")) as [->|H3]; [done|].
      rewrite !lookup_insert_ne, lookup_singleton_ne by done.
      rewrite !decide_False by done. done.
    - intros id a Ha Hk. by apply genesis_account in Ha as [[-> ->]|[[-> ->]|[-> ->]]].
    - intros e He. cbn in He. apply elem_of_cons in He as [->|He]; [by split; [eexists|]|].
      apply list_elem_of_singleton in He as ->. by split; [eexists|].
    - intros i j a b Hi Hj Hu Hk.
      apply genesis_account in Hi as [[-> ->]|[[-> ->]|[-> ->]]];
        by apply genesis_account in Hj as [[-> ->]|[[-> ->]|[-> ->]]].
    - by eexists.
    - done.
    - intros id a Ha Hk. by apply genesis_account in Ha as [[-> ->]|[[-> ->]|[-> ->]]].
    - done.
    - done. }
  split; [split; [split; [done|]|]|].
  - constructor; try done.
    intros id a Ha Hk. by apply genesis_account in Ha as [[-> ->]|[[-> ->]|[-> ->]]].
  - intros x. by apply (check_ledger_ok genesis).
  - constructor; [done..|]. by exists "system-mint", (system_account "system-mint" AccountKindMain genesis_amount).
Qed.

End Genesis.

(** ** The boot-time safety net *)

(** [INSERT INTO users ... ON CONFLICT (id) DO NOTHING], then the same for the account. *)
Definition q_EnsureSystemSuspenseAccount (t : Time) (d : db) : result (unit * db) :=
  try d1 := (match users d !! "system-settlement" with
             | Some _ => Ok d
             | None => result_map snd (q_CreateUser "system-settlement"
                 (system_user t "system-settlement" "0000000000" "System" "Settlement"
                    "system-settlement@internal.invalid") t d)
             end) in
  match accounts d1 !! SystemSuspenseAccountID with
  | Some _ => Ok (tt, d1)
  | None =>
      try _ := unique "accounts_user_id_kind_key"
          (fun _ a => account_is "system-settlement" AccountKindSuspense a) (accounts d1) in
      Ok (tt, with_accounts (<[SystemSuspenseAccountID :=
                system_account "system-settlement" AccountKindSuspense 0]> (accounts d1)) d1)
  end.

Definition EnsureSystemSuspenseAccount {E : Env} : dbop unit := exec q_EnsureSystemSuspenseAccount.

(** In the database of the migrations, and ever after, it does nothing. *)
Lemma EnsureSystemSuspenseAccount_idle {E : Env} (w : world db effect) x w' :
  is_Some (users (w_st w) !! "system-settlement") ->
  is_Some (accounts (w_st w) !! SystemSuspenseAccountID) ->
  runs EnsureSystemSuspenseAccount w x w' -> w_st w' = w_st w.
Proof.
  intros [u Hu] [a Ha] H. apply runs_exec in H as (_ & d & Hq & ->).
  unfold q_EnsureSystemSuspenseAccount in Hq. rewrite Hu in Hq. cbn in Hq. rewrite Ha in Hq.
  by injection Hq as _ <-.
Qed.

(** In an empty one it restores what settlement posts against. *)
Lemma EnsureSystemSuspenseAccount_restores {E : Env} (w : world db effect) x w' :
  w_st w = db_empty -> runs EnsureSystemSuspenseAccount w x w' ->
  account_of (w_st w') SystemSuspenseAccountID "system-settlement" AccountKindSuspense /\
  is_Some (users (w_st w') !! "system-settlement").
Proof.
  intros Hw H. apply runs_exec in H as (_ & d & Hq & ->). rewrite Hw in Hq.
  injection Hq as _ <-. split; [|by eexists]. by eexists.
Qed.
