(* ===== verification/System.v ===== *)
(** * The money of the whole system

    Every operation that moves money between wallets, ceilings, claims and
    settlements, and the two invariants that hold in every state they reach. *)

From S2P Require Import Prelude Domain Json Crypto Store AuthStore DeviceStore Repo Fraud UserAuth Books Solvency Wallet DemoMint Settlement SettlementFacts SubmitFacts SealedBox Gossip WalletProps Members AuthFacts Devices Registration DeviceFacts DeviceProps RegistrationProps.

(** ** The money alone: whatever is claimed *)

Section WalletBooked.
Context {E : Env} {K : CacheEnv} {C : Ed25519}.
Variable s : Service.
Variable sus : string.

#[local] Abbreviation sound d := (books sus d /\ amounts_ok d).

Lemma fundOfflineInTx_sound u n ttl w ct w' :
  sound (w_st w) -> runs (fundOfflineInTx s u n ttl) w ct w' -> sound (w_st w').
Proof.
  intros [Hb Ha] H. apply runs_fundOfflineInTx in H
    as (m & l & id & row & _ & Hm & Hli & Hmv & _ & Hpos & Hc & _ & _ & Hp & _ & Hk & _).
  split; [by apply (books_transfer sus _ _ m l u u AccountKindMain AccountKindLienHolding n Hb);
          auto|].
  intros i c Hi. rewrite Hc in Hi.
  apply lookup_insert_Some in Hi as [[_ <-]|[_ Hi]]; [lia|by eapply Ha].
Qed.

Lemma releaseCeiling_sound u c st kind memo w r w' :
  sound (w_st w) -> runs (releaseCeiling u c st kind memo) w r w' -> sound (w_st w').
Proof.
  intros [Hb Ha] H. apply runs_releaseCeiling in H as (Hp & Hc & _ & Hcase).
  split; [|by eapply amounts_ok_after].
  destruct Hcase as [[_ Hm]|(_ & m & l & Hmain & Hlien & Hm)].
  - by apply (books_step_same_payments sus _ _ _ _ Hb Hm Hp).
  - by apply (books_transfer sus _ _ l m u u AccountKindLienHolding AccountKindMain
      (release_amount c (w_st w)) Hb Hlien Hmain); auto.
Qed.

Lemma moveToMainInTx_sound u w r w' :
  sound (w_st w) -> runs (moveToMainInTx u) w r w' -> sound (w_st w').
Proof.
  intros Hs H. unfold moveToMainInTx in H. apply runs_bind in H as (c & w1 & Hi & H).
  apply runs_idle_ceiling in Hi as [Hw1 _]. rewrite <- Hw1 in Hs.
  by apply (releaseCeiling_sound _ _ _ _ _ _ _ _ Hs H).
Qed.

Lemma MoveToMain_booked u : preserves (booked sus) (MoveToMain u).
Proof. apply preserves_Tx. intros. by eapply moveToMainInTx_sound. Qed.

Lemma refreshInTx_sound u n ttl w ct w' :
  sound (w_st w) -> runs (refreshInTx s u n ttl) w ct w' -> sound (w_st w').
Proof.
  intros Hg H. unfold refreshInTx in H.
  apply runs_bind in H as (r & w1 & Hr & H). apply (proj1 (runs_attempt _ _ _ _)) in Hr.
  eapply fundOfflineInTx_sound.
  2:{ destruct r as [[]|e]; [exact H|].
      destruct (errors_is e ErrNoActiveCeiling); [exact H|by apply runs_throw in H]. }
  destruct r as [[]|e]; [by eapply moveToMainInTx_sound|].
  destruct (errors_is e ErrNoActiveCeiling) eqn:He; [|by apply runs_throw in H].
  by rewrite (moveToMainInTx_no_active _ _ _ _ Hr He).
Qed.

Lemma RecoverOfflineCeiling_booked u : preserves (booked sus) (RecoverOfflineCeiling s u).
Proof.
  apply preserves_Tx. intros w a w' [Hb Ha] H.
  apply runs_bind in H as (c & w1 & Hi & H). apply runs_idle_ceiling in Hi as [Hw1 _].
  apply runs_bind in H as (t & w2 & Ht & H). apply runs_now in Ht as [_ ->].
  apply runs_bind in H as (k & w3 & Hm & H). apply runs_wrapping in Hm.
  assert (w_st w' = w_st w3) as Hw'.
  { destruct (k =? 0); [by apply runs_throw in H | by apply runs_ret in H as [_ ->]]. }
  rewrite Hw'. unfold MarkCeilingRecoveryPending in Hm. apply runs_exec in Hm as (_ & d & Hm & ->).
  cbn in *. rewrite Hw1 in Hm. unfold q_MarkCeilingRecoveryPending in Hm.
  destruct (ceiling_tokens (w_st w) !! _) as [row|] eqn:Hrow; [|by injection Hm as _ <-].
  case_bool_decide; injection Hm as _ <-; [|done]. cbn.
  split; [by apply (books_same sus _ _ Hb)|]. intros i x Hi. cbn in Hi.
  apply lookup_insert_Some in Hi as [[_ <-]|[_ Hi]]; [|by eapply Ha].
  cbn. by apply (Ha _ _ Hrow).
Qed.

Lemma release_candidate_booked c : preserves (booked sus) (release_candidate c).
Proof.
  apply preserves_Tx. intros w a w' Hs H.
  apply runs_bind in H as (n & w1 & Hn & H). apply runs_wrapping in Hn. quiet_in Hn Hw1.
  destruct (0 <? n); [by apply runs_throw in H|].
  rewrite <- Hw1 in Hs. case_bool_decide; by eapply releaseCeiling_sound.
Qed.

End WalletBooked.

(** ** Settlement *)

(** The invariants do not look at the outbox. *)
Lemma booked_outbox sus m d : booked sus d -> booked sus (with_outbox m d).
Proof. intros [[Hb Ha] Hbal]. split; [split; [by apply (books_same sus d)|done]|done]. Qed.

Lemma solvent_outbox sus m d : solvent sus d -> solvent sus (with_outbox m d).
Proof.
  intros [Hb []]. split; [by apply (books_same sus d)|]. constructor; done.
Qed.

Lemma good_outbox sus m d : good sus d -> good sus (with_outbox m d).
Proof. intros [Hs Hbal]. split; [by apply solvent_outbox|done]. Qed.

Section SettlementBooked.
Context {E : Env} {C : Ed25519} {F : FreshIDs E} {M : MapOrder}.
Variable s : SettlementService.

#[local] Abbreviation sus := (ss_SuspenseAccountID s).

Lemma members_outbox m d : members d -> members (with_outbox m d).
Proof. intros Hm. by apply (members_same d). Qed.

Lemma established_outbox sus m d : established sus d -> established sus (with_outbox m d).
Proof. intros [Hb Hm]. split; [by apply booked_outbox|by apply members_outbox]. Qed.

Lemma members_signals m d : members d -> members (with_fraud_signals m d).
Proof. intros Hm. by apply (members_same d). Qed.

Lemma established_signals sus m d : established sus d -> established sus (with_fraud_signals m d).
Proof.
  intros [[[Hb Ha] Hbal] Hm]. split; [|by apply members_signals].
  split; [split; [by apply (books_same sus d)|done]|done].
Qed.

Lemma good_signals sus m d : good sus d -> good sus (with_fraud_signals m d).
Proof.
  intros [[Hb []] Hbal]. split; [|done]. split; [by apply (books_same sus d)|by constructor].
Qed.

Lemma preserves_RecordSignal (P : db -> Prop) ev :
  (forall m d, P d -> P (with_fraud_signals m d)) -> preserves P (RecordSignal ev).
Proof.
  intros HP. unfold RecordSignal, InsertFraudSignal.
  apply preserves_bind; [destruct (IsZero _); quiet|intros e].
  apply preserves_bind; [|quiet]. apply preserves_bind; [case_bool_decide; quiet|intros id].
  apply preserves_bind; [|quiet]. apply preserves_exec. intros t d r d' Hd Hq.
  unfold q_InsertFraudSignal in Hq. guards Hq. injection Hq as _ <-. by apply HP.
Qed.

Lemma preserves_enqueueFinalize (P : db -> Prop) payer reason :
  (forall m d, P d -> P (with_outbox m d)) -> preserves P (enqueueFinalize payer reason).
Proof.
  intros HP. unfold enqueueFinalize. case_bool_decide; [quiet|].
  do 3 (apply preserves_bind; [quiet|intros ?]). unfold InsertFinalizeOutbox.
  apply preserves_exec. intros n d u d' Hd Hq. unfold q_InsertOutboxEntry in Hq.
  guards Hq. injection Hq as _ <-. by apply HP.
Qed.

Lemma preserves_enqueue_all (P : db -> Prop) payers reason :
  (forall m d, P d -> P (with_outbox m d)) -> preserves P (enqueue_all payers reason).
Proof.
  intros HP. induction payers as [|p rest IH]; cbn; [quiet|].
  apply preserves_bind; [by apply preserves_attempt, preserves_enqueueFinalize|].
  intros [u|e]; [done|quiet].
Qed.

Lemma preserves_SubmitClaim (P : db -> Prop) submitter batch country :
  (forall m d, P d -> P (with_outbox m d)) ->
  (forall id item t, item ∈ batch -> preserves P (submitOne s id submitter item t)) ->
  preserves P (SubmitClaim s submitter batch country).
Proof.
  intros HP Hone. unfold SubmitClaim. case_bool_decide; [quiet|].
  apply preserves_bind; [quiet|]. intros t. apply preserves_bind; [quiet|]. intros id.
  cbn zeta. apply preserves_bind.
  - match goal with |- preserves _ (submit_all _ _ _ _ _ ?st) => generalize st end.
    induction batch as [|item rest IH]; intros st; cbn; [quiet|].
    apply preserves_bind; [apply preserves_attempt, Hone; left|].
    intros [res|e]; [|quiet]. apply IH. intros. apply Hone. by right.
  - intros [st [e|]]; [quiet|]. apply preserves_bind; [quiet|]. intros _.
    apply preserves_bind; [by apply preserves_enqueue_all|]. intros [e|]; quiet.
Qed.

Lemma preserves_AutoSettleSweep (P : db -> Prop) :
  (forall m d, P d -> P (with_outbox m d)) -> preserves P (AutoSettleSweep s).
Proof.
  intros HP. unfold AutoSettleSweep. apply preserves_bind; [quiet|]. intros t.
  apply preserves_bind; [quiet|]. intros payers. generalize 0.
  induction payers as [|p rest IH]; intros n; cbn; [quiet|].
  apply preserves_bind; [by apply preserves_attempt, preserves_enqueueFinalize|].
  intros [u|e]; [apply IH|quiet].
Qed.

Lemma accept_booked id submitter item t :
  preserves (booked sus) (Tx (accept_in_tx s id submitter item t)).
Proof.
  apply preserves_Tx. intros w i w' [Hb Ha] H. split; [by eapply accept_books|].
  apply runs_accept_in_tx in H as (acc & row & _ & _ & Hc & _). by eapply amounts_ok_same.
Qed.

(** Accepting changes no ceiling, so a claim bound to its payer's ceiling stays so. *)
Lemma bound_same d d' item :
  ceiling_tokens d' = ceiling_tokens d -> bound d item -> bound d' item.
Proof. unfold bound. by intros ->. Qed.

Lemma SubmitClaim_bound (claims : ClaimItem -> Prop) submitter batch country :
  (forall item, item ∈ batch -> claims item) ->
  preserves (fun d => (solvent sus d /\ forall item, claims item -> bound d item) /\ balanced d)
    (SubmitClaim s submitter batch country).
Proof.
  intros Hin. apply preserves_SubmitClaim.
  - intros m d [[Hs HB] Hbal]. split; [split; [by apply solvent_outbox|done]|done].
  - intros id item t Hi. apply preserves_submitOne_live. intros v i v' [Hs HB] Hlive H.
    assert (ceiling_tokens (w_st v') = ceiling_tokens (w_st v)) as Hc
      by (by apply runs_accept_in_tx in H as (acc & row & _ & _ & Hc & _)).
    split; [|intros x Hx; eapply bound_same; [exact Hc|by apply HB]].
    split; [eapply accept_books; [apply Hs|exact H]|].
    eapply accept_liens; [exact Hs|by apply HB, Hin|exact Hlive|exact H].
Qed.

Lemma SubmitClaim_good submitter batch country w :
  Forall (bound (w_st w)) batch -> good sus (w_st w) ->
  good sus (w_st (SubmitClaim s submitter batch country w).2).
Proof.
  intros Hb [Hs Hbal]. rewrite Forall_forall in Hb.
  destruct (SubmitClaim_bound (fun item => item ∈ batch) submitter batch country (fun _ H => H) w)
    as [[? _] ?]; done.
Qed.

(** The claims a blob brings along. *)
Definition brought {X : NaCl} (keyring : SealedBoxKeyring) (blobs : list GossipBlob)
  (item : ClaimItem) : Prop :=
  exists b inner, In b blobs /\ open_blob (all_keys keyring) b = Ok inner /\ item = item_of inner.

Lemma Upload_good {X : NaCl} keyring uploader blobs w :
  (forall item, brought keyring blobs item -> bound (w_st w) item) -> good sus (w_st w) ->
  good sus (w_st (Upload (Sub := settlement_submitter s) keyring uploader blobs w).2).
Proof.
  intros Hb [Hs Hbal].
  destruct (preserves_Upload (Sub := settlement_submitter s)
    (fun d => (solvent sus d /\ forall item, brought keyring blobs item -> bound d item) /\ balanced d)
    keyring uploader blobs) with w as [[? _] ?]; [|done|done].
  intros b inner Hin Ho. apply SubmitClaim_bound. intros item ->%list_elem_of_singleton.
  by exists b, inner.
Qed.

Lemma FinalizeForPayer_booked payer : preserves (booked sus) (FinalizeForPayer s payer).
Proof.
  apply preserves_Tx. intros w a w' [Hb Ha] H.
  by apply (finalize_in_tx_books s) in H as (? & ? & _).
Qed.

Lemma FinalizeForPayer_good payer : preserves (good sus) (FinalizeForPayer s payer).
Proof.
  apply preserves_Tx. intros w a w' Hs H. by apply (runs_finalize_in_tx s) in H as [H _].
Qed.

End SettlementBooked.

(** ** A forced expiry *)

(** Nothing is left on the ceiling, and no claim waits for it. *)
Definition used_up (id : string) (d : db) : Prop :=
  (forall c, ceiling_tokens d !! id = Some c -> sum_settled id d = c_CeilingKobo c) /\
  forall i p, payment_tokens d !! i = Some p -> p_CeilingID p = id -> p_Status p <> TxPending.

Section ForcedExpiry.
Context {E : Env}.
Implicit Types w : world db effect.

Lemma runs_force_expire (P : db -> Prop) id w :
  P (w_st w) ->
  (forall c, ceiling_tokens (w_st w) !! id = Some c -> c_Status c = CeilingActive ->
     P (with_ceiling_tokens (<[id := set_c_Status CeilingExpired c]> (ceiling_tokens (w_st w))) (w_st w))) ->
  P (w_st (ForceExpireActiveCeiling id w).2).
Proof.
  intros HP Hc. destruct (ForceExpireActiveCeiling id w) as [[b|e] w'] eqn:H.
  2:{ revert H. unfold ForceExpireActiveCeiling, bind, exec. destruct (fault _); [by intros [= _ <-]|].
      destruct (q_ForceExpireActiveCeiling _ _ _) as [[n d]|]; by intros [= _ <-]. }
  apply runs_bind in H as (n & w1 & H & [_ ->]%runs_ret). apply runs_exec in H as (_ & d & H & ->).
  unfold q_ForceExpireActiveCeiling in H. cbn in H |- *.
  destruct (ceiling_tokens (w_st w) !! id) as [c|] eqn:Hrow; [|by injection H as _ <-].
  case_bool_decide; injection H as _ <-; [by apply Hc|done].
Qed.

Lemma members_ForceExpire id : preserves members (ForceExpireActiveCeiling id).
Proof.
  intros w Hm. apply runs_force_expire; [done|]. intros c Hc _. apply members_ceiling; [done|].
  exact (mb_payer _ Hm _ _ Hc).
Qed.

(** Only a used-up ceiling can be forced to expire without stranding its lien. *)
Lemma ForceExpire_good sus id w :
  used_up id (w_st w) -> good sus (w_st w) -> good sus (w_st (ForceExpireActiveCeiling id w).2).
Proof.
  intros [Hs Hp] Hg. apply runs_force_expire; [done|]. intros c Hc Hact.
  destruct Hg as [[Hb Hl] Hbal]. split; [|done]. split; [by apply (books_same sus _ _ Hb)|].
  apply (liens_step_release (w_st w) _ no_move no_move (c_PayerUserID c) id c CeilingExpired 0 Hl);
    try done.
  - by apply moved_same.
  - apply live_of_spec. by rewrite Hact.
  - cbn. apply map_eq. intros i. destruct (decide (i = id)) as [->|Hne].
    + by rewrite lookup_insert_eq, lookup_alter_eq, Hc.
    + by rewrite lookup_insert_ne, lookup_alter_ne.
  - rewrite (Hs _ Hc). lia.
  - intros x a _ _. by destruct (decide _).
Qed.

End ForcedExpiry.

(** ** The system *)

Section System.
Context {E : Env} {K : CacheEnv} {C : Ed25519} {X : NaCl} {F : FreshIDs E} {M : MapOrder} {AL : AuthLib} {TX : ErrorText}.
Variable ws : Service.
Variable ss : SettlementService.

#[local] Abbreviation sus := (ss_SuspenseAccountID ss).

(** The transactions the handlers run, each with arbitrary arguments: whatever was
    checked before the transaction began is not relied on. *)
Inductive transaction : forall A, dbop A -> Prop :=
| tx_register u phone number bvn tier v :
    transaction _ (RegisterUserWithID u phone number bvn tier v)
| tx_register_phone phone number bvn tier v :
    transaction _ (RegisterUser phone number bvn tier v)
| tx_device_key u pub : transaction _ (SetUserPayerPubkey u pub)
| tx_bank_key k : transaction _ (UpsertBankSigningKey k)
| tx_mint number bank n : transaction _ (Fund number bank n)
| tx_fund u n ttl : transaction _ (Tx (fundOfflineInTx ws u n ttl))
| tx_drain u : transaction _ (MoveToMain u)
| tx_refresh u n ttl : transaction _ (Tx (refreshInTx ws u n ttl))
| tx_recover u : transaction _ (RecoverOfflineCeiling ws u)
| tx_release c : transaction _ (release_candidate c)
| tx_accept batch submitter item t :
    transaction _ (Tx (accept_in_tx ss batch submitter item t))
| tx_finalize payer : transaction _ (FinalizeForPayer ss payer)
| tx_enqueue payer reason : transaction _ (enqueueFinalize payer reason)
| tx_signal ev : transaction _ (RecordSignal ev)
| tx_freeze id u reason : transaction _ (FreezeUser id u reason)
| tx_device A m : device_call A m -> transaction A m
| tx_auth A m : auth_call A m -> transaction A m.

(** One of them ran, and committed, failed or was rolled back. *)
Inductive commit : db -> db -> Prop :=
| commit_run A (m : dbop A) w :
    transaction A m -> commit (w_st w) (w_st (m w).2).

(** Two invariants that hold together are kept together. *)
Lemma established_split A (m : dbop A) :
  preserves (booked sus) m -> preserves members m -> preserves (established sus) m.
Proof. intros H1 H2 w [Hb Hm]. split; [by apply H1|by apply H2]. Qed.

Lemma transaction_established A (m : dbop A) :
  transaction A m -> preserves (established sus) m.
Proof.
  intros [].
  - apply register_established.
  - apply register_phone_established.
  - apply SetUserPayerPubkey_keeps, keyless_established.
  - apply UpsertBankSigningKey_keeps, keyless_established.
  - apply Fund_established.
  - apply established_split; [|apply members_tx, members_fundOfflineInTx].
    apply preserves_Tx. intros. by eapply fundOfflineInTx_sound.
  - apply established_split; [apply MoveToMain_booked|apply members_MoveToMain].
  - apply established_split; [|apply members_tx, members_refreshInTx].
    apply preserves_Tx. intros. by eapply refreshInTx_sound.
  - apply established_split; [apply RecoverOfflineCeiling_booked|apply members_RecoverOfflineCeiling].
  - apply established_split; [apply release_candidate_booked|apply members_release_candidate].
  - apply established_split; [apply accept_booked|apply members_accept].
  - apply established_split; [apply FinalizeForPayer_booked|apply members_FinalizeForPayer].
  - apply preserves_enqueueFinalize, established_outbox.
  - apply preserves_RecordSignal, established_signals.
  - apply FreezeUser_keeps, established_signals.
  - by apply device_call_keeps; [apply keyless_established|].
  - apply auth_call_keeps; [apply auth_established|done].
Qed.

Lemma commits_established d d' : rtc commit d d' -> established sus d -> established sus d'.
Proof.
  induction 1 as [|d d1 d' [A m w Ht] _ IH]; [done|]. intros Hb. apply IH.
  by apply (transaction_established A m Ht).
Qed.

(** Claim C1: whatever the interleaving of the transactions of registering, minting, funding,
    draining, refreshing, recovery, expiry, claims and settlements, whatever their
    arguments and whichever store calls fail, the books hold: every balance is the net
    of its postings, every transaction balances, no user account is overdrawn, the
    pending accounts hold exactly the pending payments and the suspense account their
    opposite; the balances add up to zero. *)
Theorem commits_keep_books d d' :
  established sus d -> rtc commit d d' ->
  established sus d' /\ total_balance d' = 0 /\
  forall id a, accounts d' !! id = Some a -> a_Kind a <> AccountKindSuspense ->
    0 <= a_BalanceKobo a.
Proof.
  intros Hd Hr. pose proof (commits_established d d' Hr Hd) as Hb.
  pose proof Hb as [[[H1 _] H2] _]. split; [done|]. split; [by eapply books_total|].
  apply (bk_nonneg _ _ H1).
Qed.

(** *** The life of a payment *)

Lemma same_payments_follow d d' :
  payment_tokens d' = payment_tokens d -> follows_all (payment_tokens d) (payment_tokens d').
Proof. intros ->. apply follows_all_refl. Qed.

(** A transaction whose committed runs advance payments advances them. *)
Lemma Tx_follows A (m : dbop A) w :
  (forall a w1, runs m (tick_ops w (w_st w)) a w1 ->
     follows_all (payment_tokens (w_st w)) (payment_tokens (w_st w1))) ->
  follows_all (payment_tokens (w_st w)) (payment_tokens (w_st (Tx m w).2)).
Proof.
  intros H. destruct (Tx m w) as [[a|e] w'] eqn:Hr; cbn; unfold Tx in Hr.
  - apply runs_tx in Hr as (_ & w1 & Hr & _ & _ & ->). cbn. exact (H _ _ Hr).
  - apply tx_err in Hr. rewrite Hr. apply follows_all_refl.
Qed.

Lemma moveToMainInTx_payments u w r w' :
  runs (moveToMainInTx u) w r w' -> payment_tokens (w_st w') = payment_tokens (w_st w).
Proof.
  intros H. unfold moveToMainInTx in H. apply runs_bind in H as (c & w1 & Hi & H).
  apply runs_idle_ceiling in Hi as [Hw1 _]. apply runs_releaseCeiling in H as [Hp _]. congruence.
Qed.

Lemma fundOfflineInTx_payments u n ttl w r w' :
  runs (fundOfflineInTx ws u n ttl) w r w' -> payment_tokens (w_st w') = payment_tokens (w_st w).
Proof.
  intros H. by apply runs_fundOfflineInTx in H as (m & l & id & row & _ & _ & _ & _ & _ & _ & _ & _
    & _ & Hp & _).
Qed.

Lemma refreshInTx_payments u n ttl w r w' :
  runs (refreshInTx ws u n ttl) w r w' -> payment_tokens (w_st w') = payment_tokens (w_st w).
Proof.
  intros H. unfold refreshInTx in H. apply runs_bind in H as (x & w1 & Hr & H).
  apply (proj1 (runs_attempt _ _ _ _)) in Hr. destruct x as [[]|e].
  - apply moveToMainInTx_payments in Hr. apply fundOfflineInTx_payments in H. congruence.
  - destruct (errors_is e ErrNoActiveCeiling) eqn:He; [|by apply runs_throw in H].
    apply moveToMainInTx_no_active in Hr; [|done]. apply fundOfflineInTx_payments in H. congruence.
Qed.

(** Registering and minting write to no payment. *)
Definition paid_as (m : gmap string PaymentRow) (d : db) : Prop := payment_tokens d = m.

Lemma joinable_paid m : joinable (paid_as m).
Proof.
  constructor; unfold paid_as; [done|]. intros d d' u id k Hd Ho _.
  by rewrite (op_payments _ _ _ _ _ Ho).
Qed.

Lemma kept_payments A (m : dbop A) w :
  preserves (fun d => (paid_as (payment_tokens (w_st w)) d /\ members d) /\ balanced d) m ->
  established sus (w_st w) ->
  follows_all (payment_tokens (w_st w)) (payment_tokens (w_st (m w).2)).
Proof.
  intros H [[_ Hb] Hm]. apply same_payments_follow. by destruct (H w) as [[Hp _] _].
Qed.

Lemma transaction_follows A (m : dbop A) w :
  transaction A m -> established sus (w_st w) ->
  follows_all (payment_tokens (w_st w)) (payment_tokens (w_st (m w).2)).
Proof.
  intros Ht He. pose proof He as [[[Hb Ha] _] _].
  destruct Ht; lazymatch goal with
    | |- context [SetUserPayerPubkey] => idtac
    | _ => try (apply Tx_follows; intros r w1 H)
    end.
  - apply kept_payments; [apply RegisterUserWithID_joins, joinable_paid|done].
  - apply kept_payments; [apply RegisterUser_joins, joinable_paid|done].
  - apply same_payments_follow.
    by apply (SetUserPayerPubkey_keeps (paid_as (payment_tokens (w_st w)))).
  - apply same_payments_follow.
    by apply (UpsertBankSigningKey_keeps (paid_as (payment_tokens (w_st w)))).
  - apply kept_payments; [|done]. apply Fund_keeps. intros v r v' Hp Hm H.
    destruct (mint_moves _ _ _ _ _ Hm H) as (main & u & z & _ & _ & _ & Hpay & _).
    unfold paid_as in *. congruence.
  - apply same_payments_follow. exact (fundOfflineInTx_payments _ _ _ _ _ _ H).
  - apply same_payments_follow. exact (moveToMainInTx_payments _ _ _ _ H).
  - apply same_payments_follow. exact (refreshInTx_payments _ _ _ _ _ _ H).
  - apply same_payments_follow.
    apply runs_bind in H as (c & w2 & Hi & H). apply runs_idle_ceiling in Hi as [Hw2 _].
    apply runs_bind in H as (t & w3 & Hn & H). apply runs_now in Hn as [_ ->].
    apply runs_bind in H as (k & w4 & Hm & H). apply runs_wrapping in Hm.
    assert (w_st w1 = w_st w4) as ->
      by (destruct (k =? 0); [by apply runs_throw in H|by apply runs_ret in H as [_ ->]]).
    unfold MarkCeilingRecoveryPending in Hm. apply runs_exec in Hm as (_ & d & Hm & ->). cbn in *.
    rewrite Hw2 in Hm. unfold q_MarkCeilingRecoveryPending in Hm.
    destruct (ceiling_tokens (w_st w) !! _); [case_bool_decide|]; by injection Hm as _ <-.
  - apply same_payments_follow.
    apply runs_bind in H as (n & w2 & Hn & H). apply runs_wrapping in Hn. quiet_in Hn Hw2.
    destruct (0 <? n); [by apply runs_throw in H|]. cbn in Hw2. rewrite <- Hw2.
    case_bool_decide; by apply runs_releaseCeiling in H as [Hp _].
  - apply runs_accept_in_tx in H as (acc & row & _ & _ & _ & Hfresh & -> & _).
    apply follows_all_insert. intros p Hp. cbn in *. congruence.
  - by apply (finalize_in_tx_books ss) in H as (_ & _ & H).
  - apply (preserves_enqueueFinalize
      (fun d => follows_all (payment_tokens (w_st w)) (payment_tokens d))); [done|].
    apply follows_all_refl.
  - apply same_payments_follow.
    by apply (preserves_RecordSignal (paid_as (payment_tokens (w_st w)))).
  - apply same_payments_follow.
    by apply (FreezeUser_keeps (paid_as (payment_tokens (w_st w)))).
  - apply same_payments_follow.
    by eapply (device_call_keeps (paid_as (payment_tokens (w_st w)))).
  - apply kept_payments; [|done]. apply auth_call_keeps; [|done].
    apply joined_blind; [apply joinable_paid|done..].
Qed.

(** Claim C9: along every sequence of transactions a recorded payment keeps its parties, amount and
    ceiling, moves only along the edges of the domain's state machine, and once its
    status is terminal neither the status nor the settled amount ever changes again. *)
Theorem commits_advance_payments d d' i p :
  established sus d -> rtc commit d d' -> payment_tokens d !! i = Some p ->
  exists p', payment_tokens d' !! i = Some p' /\ follows p p' /\
    (IsTerminal (p_Status p) = true ->
     p_Status p' = p_Status p /\ p_SettledAmountKobo p' = p_SettledAmountKobo p).
Proof.
  intros Hb Hr Hi.
  assert (follows_all (payment_tokens d) (payment_tokens d')) as Hf.
  { clear Hi. induction Hr as [|d d1 d' [A m w Ht] Hr IH]; [apply follows_all_refl|].
    eapply follows_all_trans; [by apply (transaction_follows A)|]. apply IH.
    by apply (transaction_established A m Ht). }
  destruct (Hf i p Hi) as (p' & Hp' & Hpp). exists p'. split; [done|]. split; [done|].
  intros Hterm. assert (p_Status p' = p_Status p) as Heq; [|split; [done|by apply Hpp]].
  destruct Hpp as [_ _ _ _ Hst _]. apply rtc_inv in Hst as [?|(y & Hy & _)]; [done|].
  unfold transition, CanTransitionTo in Hy. unfold IsTerminal in Hterm.
  by destruct (ValidTransitions (p_Status p)).
Qed.

(** The handlers and commands, run to completion one after the other. Each comes with what its
    arguments must satisfy in the state it starts in, which the code does not check: a claim
    names a ceiling of its payer (the identifier is not signed), and the operator forces
    only a used-up ceiling to expire (any other strands its lien:
    [ForceExpireActiveCeiling_strands]). The online transfers of Transfer.v are not among them:
    they move balances without posting to the ledger ([process_leaves_ledger_behind]). *)
Inductive operation : (db -> Prop) -> forall A, dbop A -> Prop :=
| op_register u phone number bvn tier v :
    operation (fun _ => True) _ (RegisterUserWithID u phone number bvn tier v)
| op_register_phone phone number bvn tier v :
    operation (fun _ => True) _ (RegisterUser phone number bvn tier v)
| op_device_key u pub : operation (fun _ => True) _ (SetUserPayerPubkey u pub)
| op_bank_key k : operation (fun _ => True) _ (UpsertBankSigningKey k)
| op_mint number bank n : operation (fun _ => True) _ (Fund number bank n)
| op_fund u n ttl : operation (fun _ => True) _ (FundOffline ws u n ttl)
| op_drain u : operation (fun _ => True) _ (MoveToMain u)
| op_refresh u n ttl : operation (fun _ => True) _ (Refresh ws u n ttl)
| op_recover u : operation (fun _ => True) _ (RecoverOfflineCeiling ws u)
| op_expire : operation (fun _ => True) _ ReleaseOnExpiry
| op_submit submitter batch country :
    operation (fun d => Forall (bound d) batch) _ (SubmitClaim ss submitter batch country)
| op_gossip keyring uploader blobs :
    operation (fun d => forall item, brought keyring blobs item -> bound d item) _
      (Upload (Sub := settlement_submitter ss) keyring uploader blobs)
| op_finalize payer : operation (fun _ => True) _ (FinalizeForPayer ss payer)
| op_enqueue payer reason : operation (fun _ => True) _ (EnqueueFinalize payer reason)
| op_sweep : operation (fun _ => True) _ (AutoSettleSweep ss)
| op_signal ev : operation (fun _ => True) _ (RecordSignal ev)
| op_freeze id u reason : operation (fun _ => True) _ (FreezeUser id u reason)
| op_force_expire id : operation (used_up id) _ (ForceExpireActiveCeiling id)
| op_keys A m : device_call A m -> operation (fun _ => True) A m
| op_device rs A m : wired rs -> device_handler rs A m -> operation (fun _ => True) A m
| op_auth us A m : auth_handler us A m -> operation (fun _ => True) A m.

(** One of them ran in a state that satisfies its [pre]. *)
Inductive step : db -> db -> Prop :=
| step_run pre A (m : dbop A) w :
    operation pre A m -> pre (w_st w) -> step (w_st w) (w_st (m w).2).

Lemma operation_members pre A (m : dbop A) :
  quiet_service ws -> operation pre A m -> preserves members m.
Proof.
  intros Hk [].
  - apply members_RegisterUserWithID.
  - apply members_RegisterUser.
  - apply SetUserPayerPubkey_keeps; constructor; intros; by eapply members_same.
  - apply UpsertBankSigningKey_keeps; constructor; intros; by eapply members_same.
  - apply members_Fund.
  - apply members_FundOffline, Hk.
  - apply members_MoveToMain.
  - apply members_Refresh, Hk.
  - apply members_RecoverOfflineCeiling.
  - apply members_ReleaseOnExpiry.
  - apply preserves_SubmitClaim; [apply members_outbox|]. intros. apply submitOne_keeps.
    apply members_accept.
  - apply preserves_Upload. intros b inner _ _. apply preserves_SubmitClaim; [apply members_outbox|].
    intros. apply submitOne_keeps. apply members_accept.
  - apply members_FinalizeForPayer.
  - by apply preserves_enqueueFinalize, members_outbox.
  - by apply preserves_AutoSettleSweep, members_outbox.
  - apply preserves_RecordSignal, members_signals.
  - apply FreezeUser_keeps, members_signals.
  - apply members_ForceExpire.
  - apply device_call_keeps; [|done]. constructor; intros; by eapply members_same.
  - eapply device_handler_keeps; [|intros; apply members_RegisterUserWithID|eassumption..].
    constructor; intros; by eapply members_same.
  - apply auth_handler_keeps with us; [apply auth_members|done].
Qed.

Lemma operation_thriving pre A (m : dbop A) w :
  quiet_service ws -> operation pre A m -> pre (w_st w) -> thriving sus (w_st w) ->
  thriving sus (w_st (m w).2).
Proof.
  intros Hk Ho. pose proof (operation_members _ _ _ Hk Ho w) as Hmem. destruct Ho; intros Hp Ht.
  - by apply register_thriving.
  - by apply register_phone_thriving.
  - apply SetUserPayerPubkey_keeps; [apply keyless_thriving|done].
  - apply UpsertBankSigningKey_keeps; [apply keyless_thriving|done].
  - by apply Fund_thriving.
  - split; [apply FundOffline_good; [apply Hk|apply Ht]|apply Hmem, Ht].
  - split; [apply MoveToMain_good, Ht|apply Hmem, Ht].
  - split; [apply Refresh_good; [apply Hk|apply Ht]|apply Hmem, Ht].
  - split; [apply RecoverOfflineCeiling_good, Ht|apply Hmem, Ht].
  - split; [apply ReleaseOnExpiry_good, Ht|apply Hmem, Ht].
  - split; [apply SubmitClaim_good; [done|apply Ht]|apply Hmem, Ht].
  - split; [apply Upload_good; [done|apply Ht]|apply Hmem, Ht].
  - split; [apply FinalizeForPayer_good, Ht|apply Hmem, Ht].
  - split; [apply preserves_enqueueFinalize; [apply good_outbox|apply Ht]|apply Hmem, Ht].
  - split; [apply preserves_AutoSettleSweep; [apply good_outbox|apply Ht]|apply Hmem, Ht].
  - split; [apply preserves_RecordSignal; [apply good_signals|apply Ht]|apply Hmem, Ht].
  - split; [apply FreezeUser_keeps; [apply good_signals|apply Ht]|apply Hmem, Ht].
  - split; [apply ForceExpire_good; [done|apply Ht]|apply Hmem, Ht].
  - eapply device_call_keeps; [apply keyless_thriving|done..].
  - eapply device_handler_keeps; [apply keyless_thriving|intros; apply register_thriving|eassumption..].
  - by apply (auth_handler_keeps us _ (auth_thriving sus)).
Qed.

Lemma steps_thriving d d' :
  quiet_service ws -> rtc step d d' -> thriving sus d -> thriving sus d'.
Proof.
  intros Hk. induction 1 as [|d d1 d' [pre A m w Ho Hp] _ IH]; [done|]. intros Hg. apply IH.
  by eapply operation_thriving.
Qed.

(** Claim C3: along every sequence of wallet, mint, settlement, gossip, device, account and
    operator calls, run one after the other, a payer has at most one live ceiling, the
    payer's lien account holds exactly what is left of it (nothing when there is none), and no
    ceiling is ever settled for more than its amount. Two things the code leaves to its
    callers are assumed: the claims uploaded name no ceiling of another user, and an
    operator forces a ceiling to expire only when nothing is left on it and no claim waits
    for it; otherwise the command strands the lien. Online transfers, which do not
    post to the ledger, are left out, and the wallet's fraud gate and sequence tracker write
    nothing to the database. *)
Theorem steps_keep_liens d d' :
  quiet_service ws -> thriving sus d -> rtc step d d' ->
  thriving sus d' /\
  forall u id, account_of d' id u AccountKindLienHolding ->
    (forall i c, ceiling_tokens d' !! i = Some c -> live_of u c = true ->
       0 <= bal d' id /\ bal d' id = c_CeilingKobo c - sum_settled i d') /\
    ((forall i c, ceiling_tokens d' !! i = Some c -> live_of u c = false) -> bal d' id = 0).
Proof.
  intros Hk Hg Hr. pose proof (steps_thriving d d' Hk Hr Hg) as Hg'. split; [done|].
  destruct Hg' as [[[_ Hl] _] _]. intros u id (a & Ha & <- & Hkind). split.
  - intros i c Hi Hlive. rewrite (ln_live _ Hl id a i c Ha Hkind Hi Hlive).
    pose proof (ln_cap _ Hl i c Hi). lia.
  - apply (ln_idle _ Hl id a Ha Hkind).
Qed.

End System.
