(* ===== verification/Purses.v ===== *)
(** * Purses: the abstract specification of the offline wallet

    Seen from outside, offline pay is a table of purses: what each user has at hand, what
    each has locked for offline spending, and the payments that have been promised and not
    yet paid out.  Five deeds act on it.  The accounts, the double-entry ledger, the
    suspense and pending accounts, the statuses and the waterfall implement it: every
    database transaction of the system is a sequence of the deeds its handler may do. *)

From S2P Require Import Prelude Domain Json Crypto Store Repo Fraud UserAuth Books Solvency Wallet DemoMint Settlement SettlementFacts WalletProps Members AuthFacts Devices DeviceFacts System.

(** ** The specification *)

(** A payment promised to [db_payee], to be paid out of what [db_payer] has locked. *)
Record debt := { db_payer : string; db_payee : string; db_amount : Z }.

Record purses := {
  pu_bank : string;
  pu_main : string -> Z;
  pu_locked : string -> Z;
  pu_debts : gmap string debt;
}.

(** Tables of purses are the same when they hold the same for everybody. *)
#[export] Instance purses_equiv : Equiv purses := fun a b =>
  pu_bank a = pu_bank b /\ (forall u, pu_main a u = pu_main b u) /\
  (forall u, pu_locked a u = pu_locked b u) /\ pu_debts a = pu_debts b.

#[export] Instance purses_equivalence : Equivalence (≡@{purses}).
Proof.
  split.
  - done.
  - intros a b (? & ? & ? & ?). by split_and!.
  - intros a b c (? & H1 & H2 & ?) (? & H3 & H4 & ?).
    split_and!; intros; rewrite ?H1, ?H2; try done; congruence.
Qed.

Inductive deed :=
| Mint (u : string) (n : Z)
| Lock (u : string) (n : Z)
| Release (u : string) (n : Z)
| Promise (id : string) (x : debt)
| Pay (id : string) (n : Z).

Definition add_at (u : string) (n : Z) (f : string -> Z) : string -> Z :=
  fun x => f x + (if decide (x = u) then n else 0).

Definition with_funds (main locked : string -> Z) (a : purses) : purses :=
  {| pu_bank := pu_bank a; pu_main := main; pu_locked := locked; pu_debts := pu_debts a |}.

Definition with_debts (m : gmap string debt) (a : purses) : purses :=
  {| pu_bank := pu_bank a; pu_main := pu_main a; pu_locked := pu_locked a; pu_debts := m |}.

(** What a deed does, and when it may be done: nobody locks more than is at hand, a debt
    is paid at most once, never beyond its amount or what its payer has locked. *)
Definition perform (x : deed) (a : purses) : option purses :=
  match x with
  | Mint u n =>
      if (MinAmountKobo <=? n) && (n <=? MaxAmountKobo) && (n <=? pu_main a (pu_bank a)) then
        Some (with_funds (add_at u n (add_at (pu_bank a) (- n) (pu_main a))) (pu_locked a) a)
      else None
  | Lock u n =>
      if (0 <? n) && (n <=? pu_main a u) then
        Some (with_funds (add_at u (- n) (pu_main a)) (add_at u n (pu_locked a)) a)
      else None
  | Release u n =>
      if (0 <? n) && (n <=? pu_locked a u) then
        Some (with_funds (add_at u n (pu_main a)) (add_at u (- n) (pu_locked a)) a)
      else None
  | Promise id x =>
      match pu_debts a !! id with
      | Some _ => None
      | None => if 0 <? db_amount x then Some (with_debts (<[id := x]> (pu_debts a)) a) else None
      end
  | Pay id n =>
      match pu_debts a !! id with
      | None => None
      | Some x =>
          if (0 <=? n) && (n <=? db_amount x) && (n <=? pu_locked a (db_payer x)) then
            Some (with_debts (delete id (pu_debts a))
                   (with_funds (add_at (db_payee x) n (pu_main a))
                               (add_at (db_payer x) (- n) (pu_locked a)) a))
          else None
      end
  end.

(** ** The purses a database implements *)

(** What the accounts of a kind hold for a user. *)
Definition held (k : AccountKind) (d : db) (u : string) : Z :=
  sum_rows (fun _ a => if account_is u k a then a_BalanceKobo a else 0) (accounts d).

Definition debt_of (p : PaymentRow) : option debt :=
  match p_Status p with
  | TxPending => Some {| db_payer := p_PayerUserID p; db_payee := p_PayeeUserID p;
                         db_amount := p_AmountKobo p |}
  | _ => None
  end.

Definition purses_of (d : db) : purses := {|
  pu_bank := match accounts d !! TreasuryAccountID with Some a => a_UserID a | None => "" end;
  pu_main := held AccountKindMain d;
  pu_locked := held AccountKindLienHolding d;
  pu_debts := omap debt_of (payment_tokens d);
|}.

(** [d'] is reached from [d] by deeds that are all [can]. *)
Definition doing (can : deed -> Prop) (a b : purses) : Prop :=
  exists x, can x /\ perform x a = Some b.

Definition achieves (can : deed -> Prop) (d d' : db) : Prop :=
  exists a, rtc (doing can) (purses_of d) a /\ a ≡ purses_of d'.

(** *** Deeds respect the equivalence *)

#[export] Instance add_at_proper u n :
  Proper (pointwise_relation string eq ==> pointwise_relation string eq) (add_at u n).
Proof. intros f g Hfg x. unfold add_at. by rewrite Hfg. Qed.

#[export] Instance with_funds_proper :
  Proper (pointwise_relation string eq ==> pointwise_relation string eq ==> (≡) ==> (≡)) with_funds.
Proof. intros f g Hfg f' g' Hfg' a b (? & _ & _ & ?). by split_and!. Qed.

#[export] Instance with_debts_proper m : Proper ((≡) ==> (≡)) (with_debts m).
Proof. intros a b (? & ? & ? & _). by split_and!. Qed.

#[export] Instance pu_main_proper : Proper ((≡) ==> pointwise_relation string eq) pu_main.
Proof. intros a b (_ & H & _). exact H. Qed.

#[export] Instance pu_locked_proper : Proper ((≡) ==> pointwise_relation string eq) pu_locked.
Proof. intros a b (_ & _ & H & _). exact H. Qed.

#[export] Instance perform_proper x : Proper ((≡) ==> option_Forall2 (≡)) (perform x).
Proof.
  intros a b Hab. pose proof Hab as (Hk & Hm & Hl & Hd).
  destruct x as [u n|u n|u n|id x|id n]; cbn; rewrite ?Hm, ?Hl, ?Hk, ?Hd.
  - case_match; constructor. by rewrite Hab.
  - case_match; constructor. by rewrite Hab.
  - case_match; constructor. by rewrite Hab.
  - case_match; [constructor|]. case_match; constructor. by rewrite Hab.
  - case_match; [|constructor]. rewrite Hl. case_match; constructor. by rewrite Hab.
Qed.

Lemma doing_equiv can a a' b :
  a ≡ a' -> rtc (doing can) a b -> exists b', rtc (doing can) a' b' /\ b ≡ b'.
Proof.
  intros Ha H. revert a' Ha. induction H as [a|a c b (x & Hx & Hp) _ IH]; intros a' Ha.
  - exists a'. split; [done|exact Ha].
  - pose proof (perform_proper x _ _ Ha) as Hpp. rewrite Hp in Hpp.
    inversion Hpp as [? c' Hc Heq1 Heq2|]; subst. destruct (IH c' Hc) as (b' & Hb & Hbb).
    exists b'. split; [|done]. eapply rtc_l; [|exact Hb]. by exists x.
Qed.

#[export] Instance achieves_preorder can : PreOrder (achieves can).
Proof.
  split.
  - intros d. by exists (purses_of d).
  - intros d1 d2 d3 (a & Ha & Hd2) (b & Hb & Hd3). symmetry in Hd2.
    destruct (doing_equiv can _ _ _ Hd2 Hb) as (b' & Hb' & Hbb).
    exists b'. split; [by etrans|]. by rewrite <- Hbb.
Qed.

Lemma achieves_same can d d' : purses_of d ≡ purses_of d' -> achieves can d d'.
Proof. intros H. by exists (purses_of d). Qed.

Lemma achieves_one (can : deed -> Prop) x d d' b :
  can x -> perform x (purses_of d) = Some b -> b ≡ purses_of d' -> achieves can d d'.
Proof. intros Hx Hp Hb. exists b. split; [|done]. apply rtc_once. by exists x. Qed.

Lemma achieves_weaken (can can' : deed -> Prop) d d' :
  (forall x, can x -> can' x) -> achieves can d d' -> achieves can' d d'.
Proof.
  intros Hsub (a & Ha & Hd). exists a. split; [|done].
  eapply rtc_subrel; [|exact Ha]. intros b c (x & Hx & Hp). exists x. auto.
Qed.

(** ** What moving funds does to the purses *)

Lemma account_is_of d id u k a :
  account_of d id u k -> accounts d !! id = Some a ->
  forall u' k', account_is u' k' a = bool_decide (u' = u /\ k' = k).
Proof.
  intros (b & Hb & <- & <-) Ha u' k'. assert (b = a) as -> by congruence. unfold account_is.
  rewrite <- bool_decide_and. apply bool_decide_ext. intuition congruence.
Qed.

Lemma held_moved k d d' f g u :
  moved d d' f g ->
  held k d' u = held k d u + sum_rows (fun id a => if account_is u k a then f id else 0) (accounts d).
Proof.
  intros Hm. exact (moved_sum d d' f g (fun u' k' => account_is u k
    {| a_UserID := u'; a_Kind := k'; a_BalanceKobo := 0 |}) Hm).
Qed.

Lemma sum_rows_if_add k u (f g : string -> Z) (m : gmap string Account) :
  sum_rows (fun id a => if account_is u k a then f id + g id else 0) m
  = sum_rows (fun id a => if account_is u k a then f id else 0) m
    + sum_rows (fun id a => if account_is u k a then g id else 0) m.
Proof. rewrite <- sum_rows_add. apply sum_rows_ext. intros. by case_match. Qed.

(** Moving [n] into the account [id] of [u] and kind [k]. *)
Lemma sum_move_at d id u k n u' k' :
  account_of d id u k ->
  sum_rows (fun i a => if account_is u' k' a then move_at id n i else 0) (accounts d)
  = if decide (u' = u /\ k' = k) then n else 0.
Proof.
  intros Hacc. pose proof Hacc as (a & Ha & _ & _).
  rewrite (sum_rows_ext _ (fun i _ => if decide (id = i)
      then (if decide (u' = u /\ k' = k) then n else 0) else 0)).
  - apply (sum_rows_single _ _ _ _ Ha).
  - intros i b Hi. unfold move_at. destruct (decide (i = id)) as [->|Hne].
    + rewrite decide_True by done. rewrite (account_is_of _ _ _ _ _ Hacc Hi).
      by repeat case_decide; repeat case_bool_decide; try tauto.
    + rewrite decide_False by congruence. by case_match.
Qed.

(** A transfer between two accounts, seen by their owners. *)
Lemma held_transfer d d' i j u v ku kv n g k x :
  account_of d i u ku -> account_of d j v kv -> moved d d' (transfer_fn i j n) g ->
  held k d' x = held k d x + (if decide (x = u /\ k = ku) then - n else 0)
                           + (if decide (x = v /\ k = kv) then n else 0).
Proof.
  intros Hi Hj Hm. rewrite (held_moved _ _ _ _ _ _ Hm). unfold transfer_fn.
  rewrite sum_rows_if_add, (sum_move_at _ _ _ _ _ _ _ Hi), (sum_move_at _ _ _ _ _ _ _ Hj). lia.
Qed.

Lemma held_still d d' g k x : moved d d' no_move g -> held k d' x = held k d x.
Proof.
  intros Hm. rewrite (held_moved _ _ _ _ _ _ Hm). rewrite sum_rows_zero; [lia|].
  intros id a _. by case_match.
Qed.

(** The suspense and pending accounts are in nobody's purse. *)
Lemma held_claim d d' sus acc us u n g k x :
  account_of d sus us AccountKindSuspense -> account_of d acc u AccountKindReceivingPending ->
  moved d d' (fun i => move_at sus (- n) i + move_at acc n i) g ->
  k <> AccountKindSuspense -> k <> AccountKindReceivingPending -> held k d' x = held k d x.
Proof.
  intros Hs Ha Hm H1 H2. rewrite (held_moved _ _ _ _ _ _ Hm).
  rewrite sum_rows_if_add, (sum_move_at _ _ _ _ _ _ _ Hs), (sum_move_at _ _ _ _ _ _ _ Ha).
  rewrite !decide_False by tauto. lia.
Qed.

Lemma held_settle d d' li sus acc main payer us payee a n g k x :
  account_of d li payer AccountKindLienHolding -> account_of d sus us AccountKindSuspense ->
  account_of d acc payee AccountKindReceivingPending -> account_of d main payee AccountKindMain ->
  moved d d' (fun i => move_at li (- n) i + move_at sus a i + move_at acc (- a) i
                       + move_at main n i) g ->
  k <> AccountKindSuspense -> k <> AccountKindReceivingPending ->
  held k d' x = held k d x
    + (if decide (x = payer /\ k = AccountKindLienHolding) then - n else 0)
    + (if decide (x = payee /\ k = AccountKindMain) then n else 0).
Proof.
  intros Hl Hs Ha Hma Hm H1 H2. rewrite (held_moved _ _ _ _ _ _ Hm).
  rewrite !sum_rows_if_add, (sum_move_at _ _ _ _ _ _ _ Hl), (sum_move_at _ _ _ _ _ _ _ Hs),
    (sum_move_at _ _ _ _ _ _ _ Ha), (sum_move_at _ _ _ _ _ _ _ Hma).
  rewrite (decide_False (P := x = us /\ _)), (decide_False (P := x = payee /\ k = AccountKindReceivingPending))
    by tauto. lia.
Qed.

(** With the books kept, a user has one account of each kind. *)
Lemma held_bal sus d id u k : books sus d -> account_of d id u k -> held k d u = bal d id.
Proof.
  intros Hb Hacc. pose proof Hacc as (a & Ha & Hu & Hk). unfold held.
  rewrite (sum_rows_ext _ (fun i _ => if decide (id = i) then bal d id else 0)).
  - apply (sum_rows_single _ _ _ _ Ha).
  - intros i b Hi. unfold account_is. repeat case_bool_decide; cbn.
    + assert (i = id) as -> by (apply (bk_unique _ _ Hb i id b a); congruence).
      rewrite decide_True by done. symmetry. by apply bal_lookup.
    + rewrite decide_False; [done|]. intros ->. congruence.
    + rewrite decide_False; [done|]. intros ->. congruence.
    + rewrite decide_False; [done|]. intros ->. congruence.
Qed.

(** The treasury keeps its owner. *)
Lemma bank_moved d d' f g : moved d d' f g -> pu_bank (purses_of d') = pu_bank (purses_of d).
Proof.
  intros Hm. cbn. pose proof (moved_meta _ _ _ _ Hm TreasuryAccountID) as H.
  destruct (accounts d !! _), (accounts d' !! _); cbn in H; congruence.
Qed.

Lemma purses_still d d' g :
  moved d d' no_move g -> payment_tokens d' = payment_tokens d -> purses_of d ≡ purses_of d'.
Proof.
  intros Hm Hp. split_and!.
  - by rewrite (bank_moved _ _ _ _ Hm).
  - intros u. cbn. by rewrite (held_still _ _ _ _ _ Hm).
  - intros u. cbn. by rewrite (held_still _ _ _ _ _ Hm).
  - cbn. by rewrite Hp.
Qed.

(** The purses after a transfer between two accounts are [a] when [a] moves as much. *)
Lemma purses_transfer d d' i j u v ku kv n g a :
  account_of d i u ku -> account_of d j v kv -> moved d d' (transfer_fn i j n) g ->
  payment_tokens d' = payment_tokens d ->
  pu_bank a = pu_bank (purses_of d) -> pu_debts a = pu_debts (purses_of d) ->
  (forall x, pu_main a x = held AccountKindMain d x
    + (if decide (x = u /\ AccountKindMain = ku) then - n else 0)
    + (if decide (x = v /\ AccountKindMain = kv) then n else 0)) ->
  (forall x, pu_locked a x = held AccountKindLienHolding d x
    + (if decide (x = u /\ AccountKindLienHolding = ku) then - n else 0)
    + (if decide (x = v /\ AccountKindLienHolding = kv) then n else 0)) ->
  a ≡ purses_of d'.
Proof.
  intros Hi Hj Hmv Hp Hb Hd Hm Hl. split_and!.
  - by rewrite (bank_moved _ _ _ _ Hmv).
  - intros x. rewrite Hm. symmetry. apply (held_transfer _ _ _ _ _ _ _ _ _ _ _ _ Hi Hj Hmv).
  - intros x. rewrite Hl. symmetry. apply (held_transfer _ _ _ _ _ _ _ _ _ _ _ _ Hi Hj Hmv).
  - rewrite Hd. cbn. by rewrite Hp.
Qed.

(** Closes the arithmetic of a deed. *)
Ltac purse_arith :=
  intros; cbn -[held]; unfold add_at; repeat case_decide; first [done | lia | intuition (subst; lia || congruence)].

(** Opening an empty account for a new user. *)
Lemma purses_opened d d' u id k : opened d d' u id k -> (exists v, account_of d TreasuryAccountID v AccountKindMain) ->
  purses_of d ≡ purses_of d'.
Proof.
  intros [Hfresh _ Ha _ Hp _] (v & a & Ht & _). split_and!; cbn; rewrite ?Hp; try done.
  - rewrite Ha, lookup_insert_ne; [done|congruence].
  - intros x. unfold held. rewrite Ha, sum_rows_fresh by done. cbn. by case_match.
  - intros x. unfold held. rewrite Ha, sum_rows_fresh by done. cbn. by case_match.
Qed.

(** ** The deeds of each transaction *)

Section Refinement.
Context {E : Env} {K : CacheEnv} {C : Ed25519} {F : FreshIDs E} {M : MapOrder} {AL : AuthLib}.
Variable ws : Service.
Variable ss : SettlementService.
Implicit Types w : world db effect.

#[local] Abbreviation sus := (ss_SuspenseAccountID ss).

(** What each of the handlers' transactions may do, and to whom. *)
Inductive may : forall A, dbop A -> deed -> Prop :=
| may_mint number bank n u : may _ (Fund number bank n) (Mint u n)
| may_fund u n ttl : may _ (Tx (fundOfflineInTx ws u n ttl)) (Lock u n)
| may_drain u n : may _ (MoveToMain u) (Release u n)
| may_refresh_release u n ttl k : may _ (Tx (refreshInTx ws u n ttl)) (Release u k)
| may_refresh_lock u n ttl : may _ (Tx (refreshInTx ws u n ttl)) (Lock u n)
| may_release c n : may _ (release_candidate c) (Release (ct_PayerID c) n)
| may_accept batch submitter item t id :
    may _ (Tx (accept_in_tx ss batch submitter item t))
      (Promise id {| db_payer := pt_PayerID (ci_Payment item);
                     db_payee := pt_PayeeID (ci_Payment item);
                     db_amount := pt_Amount (ci_Payment item) |})
| may_finalize payer id n : may _ (FinalizeForPayer ss payer) (Pay id n).

Lemma Tx_achieves A (m : dbop A) can w :
  established sus (w_st w) ->
  (forall v a w1, established sus (w_st v) -> runs m v a w1 -> achieves can (w_st v) (w_st w1)) ->
  achieves can (w_st w) (w_st (Tx m w).2).
Proof.
  intros He H. destruct (Tx m w) as [[a|e] w'] eqn:Hr; cbn; unfold Tx in Hr.
  - apply runs_tx in Hr as (_ & w1 & Hr & _ & _ & ->). cbn.
    exact (H (tick_ops w (w_st w)) _ _ He Hr).
  - apply tx_err in Hr. by rewrite Hr.
Qed.

(** *** Registering *)

Definition joined_from (d d' : db) : Prop :=
  purses_of d ≡ purses_of d' /\ exists v, account_of d' TreasuryAccountID v AccountKindMain.

Lemma joinable_joined d : joinable (joined_from d).
Proof.
  constructor.
  - intros d' m H. exact H.
  - intros d1 d2 u id k [He Ht] Ho _. split; [by rewrite He, (purses_opened _ _ _ _ _ Ho Ht)|].
    destruct Ht as (v & a & Ha & Hx). exists v, a. split; [|done].
    rewrite (op_account _ _ _ _ _ Ho). pose proof (op_fresh _ _ _ _ _ Ho).
    rewrite lookup_insert_ne; [done|congruence].
Qed.

Lemma joining_achieves A (m : dbop A) can w :
  preserves (fun d => (joined_from (w_st w) d /\ members d) /\ balanced d) m ->
  established sus (w_st w) -> achieves can (w_st w) (w_st (m w).2).
Proof.
  intros H [[_ Hb] Hm]. destruct (H w) as [[[He _] _] _]; [|by apply achieves_same].
  split; [|done]. split; [|done]. split; [done|apply Hm].
Qed.

(** *** Moving the funds of one user *)

Lemma mint_achieves (can : deed -> Prop) number n w r w' :
  MinAmountKobo <= n <= MaxAmountKobo -> books sus (w_st w) -> members (w_st w) ->
  (forall u, can (Mint u n)) -> runs (mint_in_tx number n) w r w' ->
  achieves can (w_st w) (w_st w').
Proof.
  intros Hn Hb Hmem Hcan H. pose proof (mb_treasury _ Hmem) as [v Ht].
  apply runs_mint_in_tx in H
    as (u & row & main & _ & _ & _ & Hm & Hle & Hmv & _ & _ & _ & Hp & _).
  assert (pu_bank (purses_of (w_st w)) = v) as Hv.
  { destruct Ht as (a & Ha & <- & _). cbn. by rewrite Ha. }
  eapply (achieves_one can (Mint u n)); [apply Hcan| |].
  - unfold perform. rewrite Hv. cbn [pu_main purses_of]. rewrite (held_bal sus _ _ _ _ Hb Ht).
    rewrite (proj2 (Z.leb_le MinAmountKobo n)), (proj2 (Z.leb_le n MaxAmountKobo)),
      (proj2 (Z.leb_le n _)) by lia. reflexivity.
  - apply (purses_transfer _ _ _ _ _ _ _ _ _ _ _ Ht Hm Hmv Hp); purse_arith.
Qed.

Lemma Fund_achieves number bank n w :
  established sus (w_st w) -> achieves (may _ (Fund number bank n)) (w_st w) (w_st (Fund number bank n w).2).
Proof.
  intros He. unfold Fund at 2. case_bool_decide; [done|].
  case_bool_decide; [cbn|done]. destruct (_ || _) eqn:Hr; [done|].
  apply orb_false_iff in Hr as [H1%Z.ltb_ge H2%Z.ltb_ge].
  apply Tx_achieves; [done|]. intros v r w1 [[[Hb _] _] Hmem] H'. eapply mint_achieves; [..|exact H']; [lia|done|done|constructor].
Qed.

Lemma fund_achieves (can : deed -> Prop) u n ttl w r w' :
  books sus (w_st w) -> can (Lock u n) -> runs (fundOfflineInTx ws u n ttl) w r w' ->
  achieves can (w_st w) (w_st w').
Proof.
  intros Hb Hcan H. apply runs_fundOfflineInTx in H
    as (m & l & id & row & _ & Hm & Hl & Hmv & Hle & Hpos & _ & _ & _ & Hp & _).
  eapply (achieves_one can (Lock u n)); [exact Hcan| |].
  - unfold perform. cbn [pu_main purses_of]. rewrite (held_bal sus _ _ _ _ Hb Hm).
    rewrite (proj2 (Z.ltb_lt 0 n)), (proj2 (Z.leb_le n _)) by lia. reflexivity.
  - apply (purses_transfer _ _ _ _ _ _ _ _ _ _ _ Hm Hl Hmv Hp); purse_arith.
Qed.

Lemma release_achieves (can : deed -> Prop) u c st kind memo w r w' :
  books sus (w_st w) -> (forall n, can (Release u n)) ->
  runs (releaseCeiling u c st kind memo) w r w' -> achieves can (w_st w) (w_st w').
Proof.
  intros Hb Hcan H. apply runs_releaseCeiling in H as (Hp & _ & _ & Hcase).
  destruct Hcase as [[_ Hmv]|(Hpos & m & l & Hm & Hl & Hmv)].
  { by eapply achieves_same, purses_still. }
  set (n := release_amount c (w_st w)) in *.
  assert (n <= bal (w_st w) l) as Hle.
  { pose proof Hl as (b & Hlb & _ & Hkb).
    destruct (meta_lookup_fwd _ _ _ _ _ _ Hmv Hlb) as (a' & Ha' & _ & Hk').
    pose proof (moved_nonneg _ _ _ _ Hmv (bk_nonneg _ _ Hb) l a' Ha' ltac:(congruence)) as Hn.
    rewrite <- (bal_lookup _ _ _ Ha'), (moved_bal _ _ _ _ Hmv) in Hn.
    assert (l <> m) as Hne by (intros ->; destruct Hm as (b2 & Hmb & _ & Hkm); congruence).
    unfold transfer_fn in Hn. rewrite move_at_eq, move_at_ne in Hn by congruence. lia. }
  eapply (achieves_one can (Release u n)); [apply Hcan| |].
  - unfold perform. cbn [pu_locked purses_of]. rewrite (held_bal sus _ _ _ _ Hb Hl).
    rewrite (proj2 (Z.ltb_lt 0 n)), (proj2 (Z.leb_le n _)) by lia. reflexivity.
  - apply (purses_transfer _ _ _ _ _ _ _ _ _ _ _ Hl Hm Hmv Hp); purse_arith.
Qed.

Lemma drain_achieves (can : deed -> Prop) u w r w' :
  books sus (w_st w) -> (forall n, can (Release u n)) ->
  runs (moveToMainInTx u) w r w' -> achieves can (w_st w) (w_st w').
Proof.
  intros Hb Hcan H. unfold moveToMainInTx in H. apply runs_bind in H as (c & w1 & Hi & H).
  apply runs_idle_ceiling in Hi as [Hw1 _]. rewrite <- Hw1 in *. by eapply release_achieves.
Qed.

Lemma refresh_achieves (can : deed -> Prop) u n ttl w r w' :
  books sus (w_st w) -> amounts_ok (w_st w) -> can (Lock u n) -> (forall k, can (Release u k)) ->
  runs (refreshInTx ws u n ttl) w r w' -> achieves can (w_st w) (w_st w').
Proof.
  intros Hb Ha Hlock Hrel H. unfold refreshInTx in H.
  apply runs_bind in H as (x & w1 & Hr & H). apply (proj1 (runs_attempt _ _ _ _)) in Hr.
  destruct x as [[]|e].
  - destruct (moveToMainInTx_sound _ _ _ _ _ (conj Hb Ha) Hr) as [Hb1 _].
    etrans; [by eapply drain_achieves|by eapply fund_achieves].
  - destruct (errors_is e ErrNoActiveCeiling) eqn:He; [|by apply runs_throw in H].
    apply moveToMainInTx_no_active in Hr; [|done]. rewrite <- Hr in Hb |- *.
    exact (fund_achieves can u n ttl w1 r w' Hb Hlock H).
Qed.

(** A recovery only writes to the ceilings. *)
Lemma recover_writes u w :
  exists m, w_st (RecoverOfflineCeiling ws u w).2 = with_ceiling_tokens m (w_st w).
Proof.
  assert (forall d : db, d = with_ceiling_tokens (ceiling_tokens d) d) as Hid by (by intros []).
  destruct (RecoverOfflineCeiling ws u w) as [[a|e] w'] eqn:Hr; cbn; unfold RecoverOfflineCeiling, Tx in Hr.
  2:{ apply tx_err in Hr. rewrite Hr. eauto. }
  apply runs_tx in Hr as (_ & w1 & H & _ & _ & ->). cbn.
  apply runs_bind in H as (c & w2 & Hi & H). apply runs_idle_ceiling in Hi as [Hw2 _].
  apply runs_bind in H as (t & w3 & Hn & H). apply runs_now in Hn as [_ ->].
  apply runs_bind in H as (k & w4 & Hm & H). apply runs_wrapping in Hm.
  assert (w_st w1 = w_st w4) as ->
    by (destruct (k =? 0); [by apply runs_throw in H|by apply runs_ret in H as [_ ->]]).
  unfold MarkCeilingRecoveryPending in Hm. apply runs_exec in Hm as (_ & d & Hm & ->). cbn in *.
  rewrite Hw2 in Hm. unfold q_MarkCeilingRecoveryPending in Hm.
  destruct (ceiling_tokens (w_st w) !! _); [case_bool_decide|]; injection Hm as _ <-; eauto.
Qed.

Lemma release_candidate_achieves c w :
  established sus (w_st w) ->
  achieves (may _ (release_candidate c)) (w_st w) (w_st (release_candidate c w).2).
Proof.
  intros He. apply Tx_achieves; [done|]. intros v r w1 [[[Hb Ha] _] _] H.
  apply runs_bind in H as (n & w2 & Hn & H). apply runs_wrapping in Hn. quiet_in Hn Hw2.
  cbn in Hw2. destruct (0 <? n); [by apply runs_throw in H|]. rewrite <- Hw2 in Hb |- *.
  case_bool_decide; (eapply release_achieves; [..|exact H]; done || constructor).
Qed.

(** *** Claims and their settlement *)

Lemma accept_achieves (can : deed -> Prop) batch submitter item t w id w' :
  books sus (w_st w) ->
  can (Promise id {| db_payer := pt_PayerID (ci_Payment item);
                     db_payee := pt_PayeeID (ci_Payment item);
                     db_amount := pt_Amount (ci_Payment item) |}) ->
  runs (accept_in_tx ss batch submitter item t) w id w' -> achieves can (w_st w) (w_st w').
Proof.
  intros Hb Hcan H. destruct (suspense_account_of _ _ Hb) as [us Hsus].
  apply runs_accept_in_tx in H as (acc & row & Hacc & Hmv & _ & Hfresh & Hp & _ & Hpayer & Hpayee
    & Ham & _ & _ & Hst & _ & _ & _ & Hpos & _).
  eapply (achieves_one can); [exact Hcan| |].
  - unfold perform. cbn [pu_debts purses_of db_amount].
    rewrite lookup_omap, Hfresh. cbn [mbind option_bind].
    rewrite (proj2 (Z.ltb_lt 0 _)) by lia. reflexivity.
  - split_and!.
    + by rewrite (bank_moved _ _ _ _ Hmv).
    + intros x. cbn. symmetry.
      apply (held_claim _ _ _ _ _ _ _ _ _ _ Hsus Hacc Hmv); done.
    + intros x. cbn. symmetry.
      apply (held_claim _ _ _ _ _ _ _ _ _ _ Hsus Hacc Hmv); done.
    + cbn. rewrite Hp, omap_insert. unfold debt_of. rewrite Hst. congruence.
Qed.

Lemma finalize_one_achieves (can : deed -> Prop) payer lienAcc ceiling now results remaining txn
  w st' w' :
  (forall id n, can (Pay id n)) -> books sus (w_st w) ->
  account_of (w_st w) lienAcc payer AccountKindLienHolding -> listed payer (w_st w) txn ->
  0 <= remaining <= int64_max ->
  runs (finalize_one ss payer lienAcc ceiling now (results, remaining) txn) w st' w' ->
  achieves can (w_st w) (w_st w').
Proof.
  intros Hcan Hb Hlien (p0 & Hp0 & Htxn & Hpend) Hrem H.
  pose proof (bk_amounts sus _ Hb _ _ Hp0) as Ham.
  assert (t_Amount txn = p_AmountKobo p0) as Hta by (by rewrite Htxn).
  assert (t_PayeeID txn = p_PayeeUserID p0) as Hte by (by rewrite Htxn).
  destruct (remaining_after_spec remaining (t_Amount txn) Hrem ltac:(lia)) as (_ & Hn & _).
  apply runs_finalize_one in H as (acc & main & p & p' & r & Hacc & Hmain & Hmv & Hle & _ & Hp & HP
    & _ & _ & _ & _ & _ & Hf5 & _); [|done|by rewrite Hta].
  assert (p = p0) as -> by congruence. apply pending_of_spec in Hpend as [Hpayer Hst].
  set (n := share remaining (t_Amount txn)) in *.
  destruct (suspense_account_of _ _ Hb) as [us Hsus].
  eapply (achieves_one can (Pay (t_ID txn) n)); [apply Hcan| |].
  - unfold perform. cbn [pu_debts purses_of]. rewrite lookup_omap, Hp0. cbn [mbind option_bind].
    unfold debt_of. rewrite Hst. cbn [db_amount db_payer pu_locked purses_of].
    rewrite Hpayer, (held_bal sus _ _ _ _ Hb Hlien).
    pose proof (account_of_nonneg _ _ _ _ _ Hb Hlien ltac:(done)).
    rewrite (proj2 (Z.leb_le 0 n)), (proj2 (Z.leb_le n (p_AmountKobo p0))),
      (proj2 (Z.leb_le n (bal _ _))) by lia. reflexivity.
  - split_and!.
    + by rewrite (bank_moved _ _ _ _ Hmv).
    + intros x. cbn -[held].
      rewrite (held_settle _ _ _ _ _ _ _ _ _ _ _ _ _ _ Hlien Hsus Hacc Hmain Hmv) by done.
      rewrite Hte. purse_arith.
    + intros x. cbn -[held].
      rewrite (held_settle _ _ _ _ _ _ _ _ _ _ _ _ _ _ Hlien Hsus Hacc Hmain Hmv) by done.
      purse_arith.
    + cbn. rewrite HP, omap_insert_None; [done|]. unfold debt_of. rewrite Hf5.
      unfold waterfall_status. by destruct (_ <=? _).
Qed.

Lemma finalize_achieves (can : deed -> Prop) payer w rs w' :
  (forall id n, can (Pay id n)) -> books sus (w_st w) -> amounts_ok (w_st w) ->
  runs (finalize_in_tx ss payer) w rs w' -> achieves can (w_st w) (w_st w').
Proof.
  intros Hcan Hb Ha H.
  apply (finalize_in_tx_relates ss payer (achieves can)) in H as (_ & _ & H); try done.
  - intros. by eapply finalize_one_achieves.
  - intros d d' Hm Hp. by eapply achieves_same, purses_still.
Qed.

(** *** The simulation *)

Lemma transaction_achieves A (m : dbop A) w :
  transaction ws ss A m -> established sus (w_st w) ->
  achieves (may A m) (w_st w) (w_st (m w).2).
Proof.
  intros Ht He. destruct Ht.
  - apply joining_achieves; [apply RegisterUserWithID_joins, joinable_joined|done].
  - apply joining_achieves; [apply RegisterUser_joins, joinable_joined|done].
  - apply achieves_same.
    by apply (SetUserPayerPubkey_keeps (fun d => purses_of (w_st w) ≡ purses_of d)).
  - apply achieves_same.
    by apply (UpsertBankSigningKey_keeps (fun d => purses_of (w_st w) ≡ purses_of d)).
  - by apply Fund_achieves.
  - apply Tx_achieves; [done|]. intros v r w1 [[[Hb Ha] _] _] H. eapply fund_achieves; [..|exact H]; [done|constructor].
  - apply Tx_achieves; [done|]. intros v r w1 [[[Hb Ha] _] _] H. eapply drain_achieves; [..|exact H]; [done|constructor].
  - apply Tx_achieves; [done|]. intros v r w1 [[[Hb Ha] _] _] H.
    eapply refresh_achieves; [..|exact H]; done || constructor.
  - apply achieves_same. by destruct (recover_writes u w) as [m ->].
  - by apply release_candidate_achieves.
  - apply Tx_achieves; [done|]. intros v r w1 [[[Hb Ha] _] _] H. eapply accept_achieves; [..|exact H]; done || constructor.
  - apply Tx_achieves; [done|]. intros v r w1 [[[Hb Ha] _] _] H. eapply finalize_achieves; [..|exact H]; done || constructor.
  - apply achieves_same.
    by apply (preserves_enqueueFinalize (fun d => purses_of (w_st w) ≡ purses_of d)).
  - apply achieves_same.
    by apply (preserves_RecordSignal (fun d => purses_of (w_st w) ≡ purses_of d)).
  - apply achieves_same.
    by apply (FreezeUser_keeps (fun d => purses_of (w_st w) ≡ purses_of d)).
  - apply achieves_same.
    by apply (device_call_keeps (fun d => purses_of (w_st w) ≡ purses_of d)).
  - apply joining_achieves; [|done]. apply auth_call_keeps; [|done].
    apply joined_blind; [apply joinable_joined|done..].
Qed.

(** The deeds some transaction may do. *)
Definition lawful (x : deed) : Prop := exists A m, transaction ws ss A m /\ may A m x.

(** Claim C2: the system implements the purses: each committed, failed or rolled back
    transaction is, on the table of purses its database implements, a sequence of the deeds
    its handler may do to the users it serves (a drain releases what the drainer locked, a
    finalization pays debts, registering or moving keys does nothing), each within the guard
    of the specification; so every interleaving of transactions is a run of the
    specification. *)
Theorem transactions_refine_purses :
  (forall A (m : dbop A) w, transaction ws ss A m -> established sus (w_st w) ->
   exists a, rtc (doing (may A m)) (purses_of (w_st w)) a /\ a ≡ purses_of (w_st (m w).2)) /\
  (forall d d', established sus d -> rtc (commit ws ss) d d' ->
   exists a, rtc (doing lawful) (purses_of d) a /\ a ≡ purses_of d').
Proof.
  split; [intros A m w; apply transaction_achieves|].
  intros d d' He H. change (achieves lawful d d').
  induction H as [|d d1 d' [A m w Ht] _ IH]; [done|].
  etrans; [|apply IH, (transaction_established _ _ A m Ht _ He)].
  eapply achieves_weaken; [|by apply transaction_achieves].
  intros x Hx. by exists A, m.
Qed.

End Refinement.
