(* ===== verification/SettlementProps.v ===== *)
(** * The properties of settlement

    The theorems about [SubmitClaim] and [FinalizeForPayer] a reader of the service
    wants to know; the lemmas behind them are in SettlementFacts.v and SubmitFacts.v. *)

From S2P Require Import Prelude Domain Json Crypto Wire Store Repo Books Solvency Settlement SettlementFacts SubmitFacts System.

Section SettlementProps.
Context {E : Env} {C : Ed25519} {F : FreshIDs E}.
Variable s : SettlementService.
Implicit Types w : world db effect.

#[local] Abbreviation sus := (ss_SuspenseAccountID s).

(** Claim C6: a claim that [submitOne] accepts (its result says PENDING and names a payment that was
    not there before) has passed every check: the parties, the four signatures, the
    binding to the request, the windows, a new sequence number and an open ceiling; and
    all that happens to the money is that the payee's pending account gains the amount
    the suspense account loses. *)
Theorem submitOne_accepted batch submitter item t w r w' :
  runs (submitOne s batch submitter item t) w r w' ->
  payment_tokens (w_st w') <> payment_tokens (w_st w) ->
  checked s submitter item t (w_st w) /\
  let p := ci_Payment item in
  exists id pendingAcc row,
    r = accepted p id /\
    payment_tokens (w_st w) !! id = None /\
    payment_tokens (w_st w') = <[id := row]> (payment_tokens (w_st w)) /\
    p_Status row = TxPending /\ p_AmountKobo row = pt_Amount p /\
    p_PayerUserID row = pt_PayerID p /\ p_PayeeUserID row = pt_PayeeID p /\
    p_CeilingID row = ct_ID (ci_Ceiling item) /\ p_SettlementBatchID row = Some batch /\
    account_of (w_st w) pendingAcc (pt_PayeeID p) AccountKindReceivingPending /\
    forall x, bal (w_st w') x = bal (w_st w) x
      + (if decide (x = pendingAcc) then pt_Amount p else 0)
      - (if decide (x = sus) then pt_Amount p else 0).
Proof.
  intros H Hne. apply runs_submitOne in H as [[Hw _]|(id & w1 & w2 & -> & Hck & Hw1 & Ha & _ & Hw')].
  { by rewrite Hw in Hne. }
  split; [done|]. apply runs_accept_in_tx in Ha as (acc & row & Hacc & Hm & _ & Hfresh & HP & Hc & Hpr
    & Hpe & Ham & _ & _ & Hst & _ & Hb & _). rewrite Hw1, <- Hw' in *.
  exists id, acc, row. split_and!; try done. intros x. rewrite (moved_bal _ _ _ _ Hm).
  unfold claim_fn, move_at. do 2 case_decide; lia.
Qed.

(** Every other verdict (a rejection, or the repeated answer for a claim seen
    before) and every failure leaves the database exactly as it was. *)
Lemma submitOne_unchanged batch submitter item t w :
  let '(r, w') := submitOne s batch submitter item t w in
  (forall id, r <> Ok (accepted (ci_Payment item) id)) -> w_st w' = w_st w.
Proof.
  destruct (submitOne s batch submitter item t w) as [[r|e] w'] eqn:H; intros Hr.
  - apply runs_submitOne in H as [[Hw _]|(id & _ & _ & -> & _)]; [done|]. by destruct (Hr id).
  - unfold submitOne, bind in H.
    pose proof (preserves_submit_checks s (fun d => d = w_st w) submitter item t w eq_refl) as Hp.
    destruct (submit_checks s submitter item t w) as [[[res|[]]|e0] w1]; cbn in Hp.
    + discriminate.
    + destruct (Tx _ w1) as [[id|e1] w2] eqn:Ht; [discriminate|]. injection H as _ <-.
      unfold Tx in Ht. apply tx_err in Ht. congruence.
    + by injection H as _ <-.
Qed.

(** A claim for a payer's sequence number that is already recorded is never
    recorded again: submitting the same token twice, in any batch and by either party,
    changes nothing. *)
Lemma submitOne_duplicate batch submitter item t w r w' i q :
  payment_tokens (w_st w) !! i = Some q ->
  p_PayerUserID q = pt_PayerID (ci_Payment item) ->
  p_SequenceNumber q = pt_SequenceNumber (ci_Payment item) ->
  runs (submitOne s batch submitter item t) w r w' ->
  w_st w' = w_st w /\ sr_SequenceNumber r = pt_SequenceNumber (ci_Payment item).
Proof.
  intros Hi Hu Hq H. apply runs_submitOne in H as [[Hw Hc]|(id & w1 & w2 & _ & Hck & _)].
  2:{ pose proof (ck_new _ _ _ _ _ Hck i q Hi) as Hn. unfold same_sequence in Hn.
      by rewrite bool_decide_true, Hq, Z.eqb_refl in Hn. }
  split; [done|]. by eapply submit_checks_answers.
Qed.

(** What is left of a payer's pending payments. *)
Definition pending_rows (d : db) (payer : string) : list (string * PaymentRow) :=
  rows_where (fun _ p => pending_of payer p) (payment_tokens d).

Lemma no_pending_rows d payer :
  (forall i p, payment_tokens d !! i = Some p -> pending_of payer p = false) ->
  pending_rows d payer = [].
Proof.
  intros H. unfold pending_rows. apply elem_of_nil_inv. intros [i p] Hin.
  apply elem_of_rows_where in Hin as [Hi Hp]. by rewrite (H i p Hi) in Hp.
Qed.

(** The first-come-first-served reference: the shares of [amounts] out of [total] are
    what of each amount still fits after everything before it was served. *)
Definition served (total : Z) (amounts : list Z) (i : nat) : Z :=
  Z.min (nth i amounts 0) (Z.max 0 (total - sum_list (take i amounts))).

Lemma waterfall_served amounts : forall total i,
  0 <= total -> Forall (fun a => 0 < a) amounts -> (i < length amounts)%nat ->
  waterfall total amounts !! i = Some (served total amounts i).
Proof.
  induction amounts as [|a rest IH]; intros total i Ht Hpos Hi; cbn in Hi; [lia|].
  apply Forall_cons in Hpos as [Ha Hrest]. destruct i as [|i]; cbn.
  - unfold served, share. cbn. f_equal. lia.
  - rewrite IH; [|unfold share; lia|done|lia]. unfold served. cbn. f_equal.
    assert (0 <= sum_list (take i rest)).
    { clear -Hrest. revert i. induction rest as [|x rest IHr]; intros [|i]; cbn; try lia.
      apply Forall_cons in Hrest as [? ?]. specialize (IHr H0 i). unfold sum_list in IHr. lia. }
    unfold share, sum_list in *. rewrite Z.sub_add_distr. f_equal. lia.
Qed.

(** Claim C5: a finalization serves the payer's pending payments in the order of their
    sequence numbers out of their ceiling: each is settled for what is left after the
    ones before it, SETTLED when that is its whole amount and PARTIALLY_SETTLED
    otherwise; the total is the smaller of the ceiling and the sum of the amounts;
    nothing stays pending; the ceiling becomes EXHAUSTED when all of it was used. *)
Theorem FinalizeForPayer_waterfall payer w rs w' :
  good sus (w_st w) -> runs (FinalizeForPayer s payer) w rs w' ->
  exists txns,
    txns ≡ₚ map paymentToDomainTxn (pending_rows (w_st w) payer) /\
    Sorted txn_seq_le txns /\
    (txns = [] /\ rs = [] /\ w_st w' = w_st w \/
     exists cid c, ceiling_tokens (w_st w) !! cid = Some c /\ live_of payer c = true /\
       let amounts := map t_Amount txns in
       sum_list (map sr_SettledAmount rs) = Z.min (c_CeilingKobo c) (sum_list amounts) /\
       length rs = length txns /\
       (forall i txn, txns !! i = Some txn -> t_CeilingTokenID txn = cid /\
          exists r, rs !! i = Some r /\ has_result txn (served (c_CeilingKobo c) amounts i) r) /\
       pending_rows (w_st w') payer = [] /\
       ceiling_tokens (w_st w') =
         (if c_CeilingKobo c <=? sum_list amounts
          then alter (set_c_Status CeilingExhausted) cid (ceiling_tokens (w_st w))
          else ceiling_tokens (w_st w))).
Proof.
  intros [Hs _] H. unfold FinalizeForPayer, Tx in H.
  apply runs_tx in H as (_ & w1 & H & _ & _ & ->). cbn.
  apply (runs_finalize_in_tx s payer (tick_ops w (w_st w)) rs w1 Hs) in H
    as (_ & txns & Hperm & Hsort & Hcase). cbn in *.
  exists txns. split; [done|]. split; [done|].
  destruct Hcase as [?|(_ & cid & c & Hc & Hlive & Hcid & Hlen & Hres & Hnone & Hct)]; [by left|].
  right. exists cid, c. split; [done|]. split; [done|].
  destruct (listed_of_rows payer (w_st w) _ Hperm) as (Hlist & _ & _).
  pose proof (ln_ceiling _ (sv_liens _ _ Hs) _ _ Hc) as Hcpos.
  assert (Forall (fun a => 0 < a) (map t_Amount txns)) as Hpos.
  { apply Forall_fmap, Forall_forall. intros txn Ht. cbn.
    destruct (Hlist txn Ht) as (p & Hp & -> & _).
    pose proof (bk_amounts _ _ (sv_books _ _ Hs) _ _ Hp). cbn. lia. }
  destruct (waterfall_bound _ (c_CeilingKobo c) ltac:(lia) Hpos) as [Hsum _].
  set (shares := waterfall _ _) in *.
  assert (length shares = length txns) as Hslen.
  { subst shares. clear. generalize (c_CeilingKobo c). induction txns as [|x l IH]; intros z; cbn; [done|].
    by rewrite IH. }
  assert (map sr_SettledAmount rs = shares) as Hset.
  { apply list_eq. intros i. rewrite list_lookup_fmap.
    destruct (txns !! i) as [txn|] eqn:Hi.
    - destruct (Hres i txn Hi) as (r & n & -> & -> & (_ & <- & _)). done.
    - apply lookup_ge_None in Hi. rewrite !(proj2 (lookup_ge_None _ _)); [done|lia|lia]. }
  cbn zeta. rewrite Hset. split_and!; try done.
  - intros i txn Hi. split; [apply Hcid; by eapply list_elem_of_lookup_2|].
    destruct (Hres i txn Hi) as (r & n & Hr & Hn & Hh). exists r. split; [done|].
    pose proof (lookup_lt_Some _ _ _ Hi) as Hlt.
    subst shares. rewrite waterfall_served in Hn; [|lia|done|by rewrite length_map].
    injection Hn as ->. done.
  - by apply no_pending_rows.
  - rewrite Hct, Hsum. destruct (Z.leb_spec (c_CeilingKobo c) (sum_list (map t_Amount txns))) as [Hle|Hlt].
    + by rewrite Z.min_l, Z.eqb_refl by lia.
    + rewrite Z.min_r by lia. by destruct (Z.eqb_spec (sum_list (map t_Amount txns)) (c_CeilingKobo c)); [lia|].
Qed.

Lemma finalize_settles_up payer w rs w1 :
  good sus (w_st w) -> runs (FinalizeForPayer s payer) w rs w1 -> pending_rows (w_st w1) payer = [].
Proof.
  intros [Hs _] H. unfold FinalizeForPayer, Tx in H. apply runs_tx in H as (_ & v1 & H & _ & _ & ->).
  apply (runs_finalize_in_tx s payer (tick_ops w (w_st w)) rs v1 Hs) in H
    as (_ & txns & Hperm & _ & Hcase). cbn in *.
  destruct Hcase as [(-> & _ & ->)|(_ & _ & _ & _ & _ & _ & _ & _ & Hnone & _)];
    [|by apply no_pending_rows].
  symmetry in Hperm. apply Permutation_nil_r in Hperm. by apply map_eq_nil in Hperm.
Qed.

Lemma finalize_nothing payer w rs w' :
  good sus (w_st w) -> pending_rows (w_st w) payer = [] ->
  runs (FinalizeForPayer s payer) w rs w' -> rs = [] /\ w_st w' = w_st w.
Proof.
  intros [Hs _] Hnil H. unfold FinalizeForPayer, Tx in H.
  apply runs_tx in H as (_ & v & H & _ & _ & ->).
  apply (runs_finalize_in_tx s payer (tick_ops w (w_st w)) rs v Hs) in H
    as (_ & txns & Hperm & _ & Hcase). cbn in Hperm. unfold pending_rows in Hnil.
  rewrite Hnil in Hperm. symmetry in Hperm. apply Permutation_nil_l in Hperm.
  destruct Hcase as [(_ & -> & Hw)|(Hne & _)]; [by rewrite Hw|]. by destruct Hne.
Qed.

Context {M : MapOrder} {HM : MapOrderLaws M}.

(** Finalizing twice is finalizing once: as long as no new claim arrives the
    second run finds nothing to do and changes nothing, so a redelivered message is
    harmless. *)
Theorem FinalizeForPayer_twice payer w rs w1 w2 rs' w' :
  good sus (w_st w) -> runs (FinalizeForPayer s payer) w rs w1 ->
  w_st w2 = w_st w1 -> runs (FinalizeForPayer s payer) w2 rs' w' ->
  rs' = [] /\ w_st w' = w_st w1.
Proof.
  intros Hg H1 Heq H2. pose proof (FinalizeForPayer_good s payer w Hg) as Hg1.
  unfold runs in H1. rewrite H1 in Hg1. cbn in Hg1. rewrite <- Heq in Hg1 |- *.
  eapply finalize_nothing; [exact Hg1| |exact H2]. rewrite Heq.
  exact (finalize_settles_up payer w rs w1 Hg H1).
Qed.

(** *** Batches *)

Definition is_status (st : TransactionStatus) (r : SettlementResult) : bool :=
  bool_decide (sr_Status r = Some st).

Definition count (P : SettlementResult -> bool) (rs : list SettlementResult) : Z :=
  Z.of_nat (length (List.filter P rs)).

Lemma count_cons P r rs : count P (r :: rs) = (if P r then 1 else 0) + count P rs.
Proof. unfold count. cbn [List.filter]. destruct (P r); cbn [length]; lia. Qed.

Lemma step_batch_rejected st item res :
  sb_TotalRejected (bs_Batch (step_batch st item res)) =
    sb_TotalRejected (bs_Batch st) + (if is_status TxRejected res then 1 else 0).
Proof.
  unfold step_batch, is_status.
  destruct (sr_Status res) as [[]|]; case_bool_decide; cbn -[Z.add]; done || lia.
Qed.

Lemma step_batch_results st item res :
  bs_Results (step_batch st item res) = bs_Results st ++ [res].
Proof. unfold step_batch. by destruct (sr_Status res) as [[]|]. Qed.

Lemma step_batch_same st item res :
  sb_TotalSubmitted (bs_Batch (step_batch st item res)) = sb_TotalSubmitted (bs_Batch st) /\
  sb_ID (bs_Batch (step_batch st item res)) = sb_ID (bs_Batch st).
Proof. unfold step_batch. by destruct (sr_Status res) as [[]|]. Qed.

Lemma runs_submit_all batchID submitter t items : forall st w st' w',
  runs (submit_all s batchID submitter items t st) w (st', None) w' ->
  exists rs, bs_Results st' = bs_Results st ++ rs /\ Forall2 answers items rs /\
    sb_TotalRejected (bs_Batch st') = sb_TotalRejected (bs_Batch st) + count (is_status TxRejected) rs /\
    sb_TotalSubmitted (bs_Batch st') = sb_TotalSubmitted (bs_Batch st) /\
    sb_ID (bs_Batch st') = sb_ID (bs_Batch st) /\
    (forall u, u ∈ bs_Payers st \/
       (exists i item r, items !! i = Some item /\ rs !! i = Some r /\
          sr_Status r = Some TxPending /\ u = pt_PayerID (ci_Payment item)) ->
       u ∈ bs_Payers st').
Proof.
  induction items as [|item rest IH]; intros st w st' w' H; cbn in H.
  - apply runs_ret in H as [[= ->] _]. exists []. rewrite app_nil_r. split_and!; try done.
    + unfold count. cbn. lia.
    + intros u [?|(i & ? & ? & Hi & _)]; [done|]. by rewrite lookup_nil in Hi.
  - apply runs_bind in H as ([res|e] & w1 & H1 & H); [|by apply runs_ret in H as [[=] _]].
    apply (proj1 (runs_attempt _ _ _ _)) in H1. apply submitOne_answers in H1.
    apply IH in H as (rs & Hrs & Hall & Hrej & Hsub & Hid & Hpay).
    exists (res :: rs).
    assert (forall u, u ∈ bs_Payers st -> u ∈ bs_Payers st') as Hkeep.
    { intros u Hu. apply Hpay. left. unfold step_batch. destruct (sr_Status res) as [[]|]; cbn; try done.
      unfold add_payer. case_bool_decide; [done|]. apply elem_of_app. by left. }
    split_and!.
    + rewrite Hrs, step_batch_results, <- app_assoc. done.
    + by constructor.
    + rewrite Hrej, step_batch_rejected, count_cons. lia.
    + by rewrite Hsub, (proj1 (step_batch_same _ _ _)).
    + by rewrite Hid, (proj2 (step_batch_same _ _ _)).
    + intros u [Hu|(i & it & r & Hi & Hr & Hst & ->)]; [by apply Hkeep|].
      destruct i as [|i]; cbn in Hi, Hr.
      * injection Hi as <-. injection Hr as <-. apply Hpay. left. unfold step_batch. rewrite Hst. cbn.
        unfold add_payer. case_bool_decide; [done|]. apply elem_of_app. right. by left.
      * apply Hpay. right. by exists i, it, r.
Qed.

(** A finalization of [payer] waits in the outbox. *)
Definition finalize_job (d : db) (payer reason : string) : Prop :=
  exists id row t, outbox d !! id = Some row /\
    o_Aggregate row = OutboxAggregateSettlementFinalize /\ o_AggregateID row = payer /\
    o_DispatchedAt row = None /\ o_Attempts row = 0 /\
    (utf8 payer -> utf8 reason -> FinalizePayerPayload_unmarshal (o_Payload row) =
       ({| fp_PayerUserID := payer; fp_Reason := reason; fp_EnqueuedAt := t |}, true)).

Lemma runs_enqueueFinalize payer reason w u w' :
  runs (enqueueFinalize payer reason) w u w' ->
  finalize_job (w_st w') payer reason /\
  forall id row, outbox (w_st w) !! id = Some row -> outbox (w_st w') !! id = Some row.
Proof.
  intros H. unfold enqueueFinalize in H. case_bool_decide; [by apply runs_throw in H|].
  apply runs_bind in H as (t & w1 & Ht & H). apply runs_now in Ht as [_ ->].
  apply runs_bind in H as (v & w2 & Hv & H). apply runs_wrapping, runs_lift in Hv as [Hv ->].
  apply runs_bind in H as (id & w3 & Hi & H). apply runs_fresh in Hi as [_ ->].
  unfold InsertFinalizeOutbox in H. apply runs_exec in H as (_ & d & H & ->). cbn in *.
  unfold q_InsertOutboxEntry in H. guards H. injection H as _ <-.
  apply pk_ok in Hg. cbn. split.
  - eexists id, _, t. cbn. rewrite lookup_insert_eq. split_and!; [done..|]. cbn. intros Hu Hr.
    by apply (FinalizePayerPayload_roundtrip
      {| fp_PayerUserID := payer; fp_Reason := reason; fp_EnqueuedAt := t |}).
  - intros i row Hi. rewrite lookup_insert_ne; [done|congruence].
Qed.

Lemma runs_enqueue_all payers reason : forall w w',
  runs (enqueue_all payers reason) w None w' ->
  (forall u, u ∈ payers -> finalize_job (w_st w') u reason) /\
  forall id row, outbox (w_st w) !! id = Some row -> outbox (w_st w') !! id = Some row.
Proof.
  induction payers as [|p rest IH]; intros w w' H; cbn in H.
  - apply runs_ret in H as [_ ->]. split; [|done]. intros u Hu. by apply not_elem_of_nil in Hu.
  - apply runs_bind in H as ([u|e] & w1 & H1 & H); [|by apply runs_ret in H as [[=] _]].
    apply (proj1 (runs_attempt _ _ _ _)) in H1. apply runs_enqueueFinalize in H1 as [Hj Hk].
    apply IH in H as [Hall Hkeep]. split; [|eauto].
    intros v Hv. apply elem_of_cons in Hv as [->|Hv]; [|by apply Hall].
    destruct Hj as (id & row & t & Hid & Hx). exists id, row, t. eauto.
Qed.

(** What a batch that goes through has done. *)
Lemma runs_SubmitClaim submitter batch country w b rs w' :
  runs (SubmitClaim s submitter batch country) w (b, rs, None) w' ->
  Forall2 answers batch rs /\
  sb_TotalSubmitted b = Z.of_nat (length batch) /\
  sb_TotalRejected b = count (is_status TxRejected) rs /\
  sb_Status b = Some BatchCompleted /\
  forall i item r, batch !! i = Some item -> rs !! i = Some r -> sr_Status r = Some TxPending ->
    finalize_job (w_st w') (pt_PayerID (ci_Payment item)) FinalizeReasonClaimAccepted.
Proof.
  intros H. unfold SubmitClaim in H.
  case_bool_decide; [by apply runs_ret in H as [[=] _]|].
  apply runs_bind in H as (t & w1 & Ht & H). apply runs_bind in H as (id & w2 & Hi & H).
  cbn zeta in H. apply runs_bind in H as ([st [e|]] & w3 & Hall & H);
    [by apply runs_ret in H as [[=] _]|].
  apply runs_submit_all in Hall as (rs0 & Hrs & Hans & Hrej & Hsub & _ & Hpay). cbn in *.
  apply runs_bind in H as ([] & w4 & _ & H).
  apply runs_bind in H as ([e|] & w5 & Henq & H); [by apply runs_ret in H as [[=] _]|].
  apply runs_enqueue_all in Henq as [Hjobs _].
  apply runs_bind in H as (t' & w6 & Ht' & H). apply runs_now in Ht' as [_ ->].
  apply runs_ret in H as [[= -> ->] ->]. cbn. subst rs0. split_and!; try done.
  intros i item r Hi1 Hr Hst. apply Hjobs. rewrite map_order_perm. apply Hpay. right.
  by exists i, item, r.
Qed.

(** Claim C25: a batch that goes through is answered claim by claim, in order; the summary counts
    the claims and the rejections; and for every payer one of whose claims was accepted
    a finalization job is in the outbox, in a form the processor decodes back to that
    payer. *)
Theorem SubmitClaim_batch submitter batch country w b rs w' :
  runs (SubmitClaim s submitter batch country) w (b, rs, None) w' ->
  Forall2 answers batch rs /\
  sb_TotalSubmitted b = Z.of_nat (length batch) /\
  sb_TotalRejected b = count (is_status TxRejected) rs /\
  sb_Status b = Some BatchCompleted /\
  forall i item r, batch !! i = Some item -> rs !! i = Some r -> sr_Status r = Some TxPending ->
    finalize_job (w_st w') (pt_PayerID (ci_Payment item)) FinalizeReasonClaimAccepted.
Proof. apply runs_SubmitClaim. Qed.

End SettlementProps.
