(* ===== verification/GossipProps.v ===== *)
(** * The properties of gossip

    A claim survives its trip through a sealed blob; an upload deals with each blob as if it
    were alone; and an honest payment that reaches the bank this way is accepted like one
    its parties upload themselves. *)

From Stdlib Require Import Strings.Byte.
From S2P Require Import Prelude Domain Json Crypto Store AuthStore Canonical Wire Parse Decode SealedBox Repo AuthRepo Text Identity Books Solvency Wallet Settlement SettlementFacts SubmitFacts Gossip Acceptance WalletProps Honest SettlementProps.

#[local] Open Scope Z_scope.

(** ** The claim survives the blob *)

(** Strings are UTF-8 and numbers fit. *)
Definition clean_wire (c : CeilingTokenWire) : Prop :=
  utf8 (cw_ID c) /\ clean_ceiling (cw_Payload c).
Definition clean_inner (p : WireInnerPayload) : Prop :=
  clean_wire (wi_Ceiling p) /\ clean_payment (wi_Payment p) /\
  clean_request (wi_Request p) /\ utf8 (wi_SenderUserID p).

Lemma CeilingTokenWire_reads c v :
  CeilingTokenWire_json c = Ok v -> clean_wire c -> reads dec_CeilingTokenWire v c.
Proof.
  intros Hv (H1 & H2). eapply dec_struct_written; [exact Hv|vm_compute; done|].
  intros old ms H _. pose proof CeilingTokenPayload_reads. read_fields H. by destruct c.
Qed.

Lemma WireInnerPayload_reads p v :
  WireInnerPayload_json p = Ok v -> clean_inner p -> reads dec_WireInnerPayload v p.
Proof.
  intros Hv (H1 & H2 & H3 & H4).
  eapply dec_struct_written; [exact Hv|vm_compute; done|].
  intros old ms H _. pose proof CeilingTokenWire_reads. pose proof PaymentToken_reads.
  pose proof PaymentRequest_reads. read_fields H. by destruct p.
Qed.

Lemma time_height t u : marshal_time t = Ok u -> height u = 0.
Proof. intros H. by rewrite (marshal_time_text _ _ H). Qed.

Lemma bytes_height b : height (marshal_bytes b) = 0.
Proof. by destruct b. Qed.

(** Bounds the height of every field of an object. *)
Ltac field_heights :=
  let k := fresh in let r := fresh in let u := fresh in let Hin := fresh in let Hu := fresh in
  intros k r u Hin Hu; cbn [In] in Hin;
  repeat match type of Hin with
  | _ \/ _ => destruct Hin as [Hin|Hin]
  | False => destruct Hin
  end; injection Hin as <- <-;
  first [ injection Hu as <-; rewrite ?bytes_height; cbn; lia
        | apply time_height in Hu; lia | by eauto ].

Lemma inner_height p v : WireInnerPayload_json p = Ok v -> height v <= maxNestingDepth.
Proof.
  assert (forall d v, DisplayCard_json d = Ok v -> height v <= 1) as Hd.
  { intros d u H. apply (json_object_height 0 _ _ H); [lia|]. field_heights. }
  assert (forall q v, PaymentRequest_json q = Ok v -> height v <= 2) as Hq.
  { intros q u H. apply (json_object_height 1 _ _ H); [lia|]. field_heights. }
  assert (forall y v, PaymentToken_json y = Ok v -> height v <= 2) as Hy.
  { intros y u H. apply (json_object_height 1 _ _ H); [lia|]. field_heights. }
  assert (forall c v, CeilingTokenPayload_json c = Ok v -> height v <= 1) as Hp.
  { intros c u H. apply (json_object_height 0 _ _ H); [lia|]. field_heights. }
  assert (forall c v, CeilingTokenWire_json c = Ok v -> height v <= 2) as Hc.
  { intros c u H. apply (json_object_height 1 _ _ H); [lia|]. field_heights. }
  intros H. unfold maxNestingDepth. enough (height v <= 1 + 2) by lia.
  apply (json_object_height 2 _ _ H); [lia|]. field_heights.
Qed.

Lemma decode_encoded p text :
  clean_inner p -> EncodeInner p = Ok text -> DecodeInner text = Ok p.
Proof.
  intros Hp H. unfold EncodeInner, Canonicalize in H.
  destruct (WireInnerPayload_json p) as [v|] eqn:Hv; [|done]. injection H as <-.
  unfold DecodeInner. rewrite parse_write by (by eapply inner_height).
  by rewrite (WireInnerPayload_reads _ _ Hv Hp).
Qed.

(** *** And of any text *)

Lemma CeilingTokenWire_yields : yields clean_wire dec_CeilingTokenWire.
Proof. pose proof CeilingTokenPayload_yields. yielded_fields; yielded. Qed.

Lemma WireInnerPayload_yields : yields clean_inner dec_WireInnerPayload.
Proof.
  pose proof CeilingTokenWire_yields. pose proof PaymentToken_yields.
  pose proof PaymentRequest_yields. yielded_fields; yielded.
Qed.

Lemma DecodeInner_yields text p : DecodeInner text = Ok p -> clean_inner p.
Proof.
  unfold DecodeInner. destruct (parse text) as [v|]; [|done].
  destruct (dec_WireInnerPayload _ v) as [q ok] eqn:Hq. destruct ok; [|done]. intros [= <-].
  eapply WireInnerPayload_yields; [|exact Hq]. repeat split; vm_compute; reflexivity.
Qed.

(** Claim C28: whatever bytes a stranger puts into a blob, a claim that decodes is well formed:
    every string of it, of its ceiling, its payment and its request is UTF-8 and every amount
    and sequence number fits an int64.  Encoding it again gives a text that decodes to the same
    claim. *)
Theorem DecodeInner_clean text p :
  DecodeInner text = Ok p ->
  clean_inner p /\ forall text', EncodeInner p = Ok text' -> DecodeInner text' = Ok p.
Proof.
  intros H. apply DecodeInner_yields in H. split; [exact H|]. intros text' Ht. by apply decode_encoded.
Qed.

Section Gossip.
Context {E : Env} {X : NaCl} {HX : NaClLaws X}.
Implicit Types w : world db effect.

(** The blob carries the claim sealed to a key of the ring, which the keys tried before it
    do not open. *)
Record carries (keyring : SealedBoxKeyring) (p : WireInnerPayload) (blob : GossipBlob) : Prop := {
  ca_valid : GossipBlob_Validate blob = Ok tt;
  ca_clean : clean_inner p;
  ca_sealed : exists before k after random text,
    all_keys keyring = before ++ k :: after /\
    sk_Public k = ScalarBaseMult (sk_Private k) /\
    EncodeInner p = Ok text /\
    SealAnonymous random (sk_Public k) (String.list_byte_of_string text)
      = Ok (gb_EncryptedBlob blob) /\
    Forall (fun k' => is_ok (OpenAnonymous (sk_Public k') (sk_Private k') (gb_EncryptedBlob blob))
                      = false) before;
}.

Lemma openWithKeyring_skips before k after c pt :
  Forall (fun k' => is_ok (OpenAnonymous (sk_Public k') (sk_Private k') c) = false) before ->
  OpenAnonymous (sk_Public k) (sk_Private k) c = Ok pt ->
  openWithKeyring (before ++ k :: after) c = Ok pt.
Proof.
  intros Hb Hk. induction Hb as [|k' before Hk' _ IH]; cbn; [by rewrite Hk|].
  by destruct (OpenAnonymous (sk_Public k') _ _).
Qed.

Lemma carried_opens keyring p blob :
  carries keyring p blob -> open_blob (all_keys keyring) blob = Ok p.
Proof.
  intros [Hv Hc (before & k & after & random & text & Hk & Hpub & Ht & Hs & Hb)].
  unfold open_blob. rewrite Hv. cbn [result_bind].
  assert (gb_HopCount blob <= MaxGossipHops) as Hhop.
  { unfold GossipBlob_Validate in Hv. destruct (_ <? 0); [done|].
    destruct (Z.ltb_spec MaxGossipHops (gb_HopCount blob)); [done|lia]. }
  rewrite (proj2 (Z.ltb_ge _ _)) by lia.
  rewrite Hpub in Hs. apply open_sealed in Hs as [Ho _]. rewrite <- Hpub in Ho.
  rewrite Hk, (openWithKeyring_skips _ _ _ _ _ Hb Ho). cbn [result_bind].
  rewrite String.string_of_list_byte_of_string. by rewrite (decode_encoded _ _ Hc Ht).
Qed.

(** Claim C27: what a device seals into a blob is what the server reads out of it: any claim
    with valid text and numbers, encoded canonically and sealed to a current or retired
    server key, is opened and decoded to exactly the same claim, and no other claim has the
    same blob. *)
Theorem carried_claim_opens keyring p blob :
  carries keyring p blob ->
  open_blob (all_keys keyring) blob = Ok p /\ forall p', carries keyring p' blob -> p' = p.
Proof.
  intros H. apply carried_opens in H. split; [done|]. intros p' H'%carried_opens. congruence.
Qed.

(** [Validate] already refuses what [ErrBlobHopLimitExceeded] is for. *)
Lemma hop_limit_unreachable candidates blob :
  open_blob candidates blob <> Err ErrBlobHopLimitExceeded.
Proof.
  unfold open_blob. destruct (GossipBlob_Validate blob) as [[]|e] eqn:Hv; cbn [result_bind]; [|done].
  assert (gb_HopCount blob <= MaxGossipHops) as Hhop.
  { unfold GossipBlob_Validate in Hv. destruct (_ <? 0); [done|].
    destruct (Z.ltb_spec MaxGossipHops (gb_HopCount blob)); [done|lia]. }
  rewrite (proj2 (Z.ltb_ge _ _)) by lia.
  destruct (openWithKeyring _ _); cbn [result_bind]; [|done]. by destruct (DecodeInner _).
Qed.

(** ** Uploads *)

(** What settlement promises of a batch that went through. *)
Class SubmitterLaws (Sub : SettlementSubmitter) : Prop := {
  sub_answers receiver items w b rs w' :
    runs (sub_SubmitClaim receiver items) w (b, rs, None) w' -> Forall2 answers items rs;
}.

Context {Sub : SettlementSubmitter} {HS : SubmitterLaws Sub}.

Definition refused (blob : GossipBlob) (e : error) : BlobResult := {|
  br_TransactionHash := gb_TransactionHash blob; br_Accepted := false; br_Err := Some e;
  br_SettlementResult := None |}.

Definition routed (blob : GossipBlob) (r : SettlementResult) : BlobResult := {|
  br_TransactionHash := gb_TransactionHash blob; br_Accepted := true; br_Err := None;
  br_SettlementResult := Some r |}.

(** The outcome of one blob. *)
Definition blob_outcome (keyring : SealedBoxKeyring) (blob : GossipBlob) (r : BlobResult) : Prop :=
  match open_blob (all_keys keyring) blob with
  | Err e => r = refused blob e
  | Ok inner =>
      (exists res, answers (item_of inner) res /\ r = routed blob res) \/
      exists e, r = refused blob (ErrWrap "gossip: settlement submit" e)
  end.

Definition opens (keyring : SealedBoxKeyring) (blob : GossipBlob) : bool :=
  is_ok (open_blob (all_keys keyring) blob).

Definition tally (P : BlobResult -> bool) (rs : list BlobResult) : Z :=
  Z.of_nat (length (List.filter P rs)).

Lemma tally_cons P r rs : tally P (r :: rs) = (if P r then 1 else 0) + tally P rs.
Proof. unfold tally. cbn [List.filter]. destruct (P r); cbn [length]; lia. Qed.

(** The results of the blobs that open. *)
Definition of_opened (keyring : SealedBoxKeyring) (blobs : list GossipBlob)
  (rs : list BlobResult) : list BlobResult :=
  map snd (List.filter (fun br => opens keyring br.1) (combine blobs rs)).

Lemma runs_upload_blob keyring out blob w out' w' :
  runs (upload_blob (all_keys keyring) out blob) w out' w' ->
  exists r, blob_outcome keyring blob r /\ ur_Items out' = ur_Items out ++ [r] /\
    ur_Accepted out' = ur_Accepted out + (if br_Accepted r then 1 else 0) /\
    ur_Rejected out' = ur_Rejected out + (if br_Accepted r then 0 else 1) /\
    (opens keyring blob = false -> w' = w) /\
    (opens keyring blob = true -> forall o, exists o',
       runs (upload_blob (all_keys keyring) o blob) w o' w' /\ ur_Items o' = ur_Items o ++ [r]).
Proof.
  unfold blob_outcome, opens, upload_blob. intros H. destruct (open_blob _ blob) as [inner|e].
  - apply runs_bind in H as ([[b rs] [e|]] & w1 & H1 & H); apply runs_ret in H as [-> ->].
    + eexists. split; [right; by exists e|]. cbn. split_and!; try done; [lia|]. intros _ o.
      eexists. split; [eapply bind_runs; [exact H1|by apply runs_ret]|done].
    + pose proof (sub_answers _ _ _ _ _ _ H1) as Ha.
      apply Forall2_cons_inv_l in Ha as (r & rs' & Hr & _ & ->).
      exists (routed blob r). split; [left; by exists r|]. cbn. split_and!; try done; [lia|].
      intros _ o. eexists. split; [eapply bind_runs; [exact H1|by apply runs_ret]|done].
  - apply runs_ret in H as [-> ->]. exists (refused blob e). cbn. split_and!; try done; lia.
Qed.

Lemma runs_uploads keyring blobs : forall out w out' w',
  runs (for_each blobs (upload_blob (all_keys keyring)) out) w out' w' ->
  exists rs, Forall2 (blob_outcome keyring) blobs rs /\ ur_Items out' = ur_Items out ++ rs /\
    ur_Accepted out' = ur_Accepted out + tally br_Accepted rs /\
    ur_Rejected out' = ur_Rejected out + tally (fun r => negb (br_Accepted r)) rs /\
    forall o, exists o',
      runs (for_each (List.filter (opens keyring) blobs) (upload_blob (all_keys keyring)) o) w o' w' /\
      ur_Items o' = ur_Items o ++ of_opened keyring blobs rs.
Proof.
  induction blobs as [|blob blobs IH]; intros out w out' w' H; cbn [for_each] in H.
  - apply runs_ret in H as [-> ->]. exists []. unfold tally. cbn. rewrite app_nil_r.
    split_and!; try done; [lia|lia|]. intros o. exists o. by rewrite app_nil_r.
  - apply runs_bind in H as (out1 & w1 & H1 & H).
    apply runs_upload_blob in H1 as (r & Hr & Hi & Ha & Hj & Hno & Hyes).
    apply IH in H as (rs & Hrs & Hi' & Ha' & Hj' & Hf). exists (r :: rs).
    rewrite !tally_cons. split_and!; [by constructor| | | |].
    + by rewrite Hi', Hi, <- app_assoc.
    + lia.
    + destruct (br_Accepted r); cbn [negb]; lia.
    + intros o. unfold of_opened. cbn [List.filter combine fst]. destruct (opens keyring blob) eqn:Ho.
      * destruct (Hyes eq_refl o) as (o1 & H1 & Hio). destruct (Hf o1) as (o2 & H2 & Hio2).
        exists o2. split; [cbn [for_each]; by eapply bind_runs|].
        rewrite Hio2, Hio, <- app_assoc. done.
      * rewrite (Hno eq_refl) in Hf. apply Hf.
Qed.

(** An upload answers each blob in order, under its own hash, and the counters add up;
    a blob that does not open is refused and has no other effect: the database, the
    answers of settlement and the results of the others are as if only the blobs that open
    had been uploaded, by whoever carried them. *)
Lemma Upload_isolates keyring carrier carrier' blobs w out w' :
  runs (Upload keyring carrier blobs) w out w' ->
  Forall2 (blob_outcome keyring) blobs (ur_Items out) /\
  map br_TransactionHash (ur_Items out) = map gb_TransactionHash blobs /\
  ur_Accepted out = tally br_Accepted (ur_Items out) /\
  ur_Accepted out + ur_Rejected out = Z.of_nat (length blobs) /\
  exists out', runs (Upload keyring carrier' (List.filter (opens keyring) blobs)) w out' w' /\
    ur_Items out' = of_opened keyring blobs (ur_Items out).
Proof.
  unfold Upload. case_bool_decide; intros H1; [by apply runs_throw in H1|].
  apply runs_uploads in H1 as (rs & Hrs & Hi & Ha & Hj & Hf). cbn in Hi, Ha, Hj.
  rewrite Hi. split; [done|]. split; [|split; [|split]].
  - clear -Hrs. induction Hrs as [|blob r blobs rs Hr _ IH]; [done|]. cbn. rewrite IH. f_equal.
    unfold blob_outcome in Hr. destruct (open_blob _ _); [|by subst].
    by destruct Hr as [(? & _ & ->)|(? & ->)].
  - lia.
  - assert (tally br_Accepted rs + tally (fun r => negb (br_Accepted r)) rs = Z.of_nat (length rs)) as Ht.
    { clear. induction rs as [|r rs IH]; [done|]. rewrite !tally_cons. cbn [length].
      destruct (br_Accepted r); cbn [negb]; lia. }
    rewrite (Forall2_length _ _ _ Hrs). lia.
  - destruct (Hf {| ur_Accepted := 0; ur_Rejected := 0; ur_Items := [] |}) as (o' & Ho & Hio).
    by exists o'.
Qed.

End Gossip.

(** ** Settlement behind it *)

#[global] Instance settlement_answers {E : Env} {C : Ed25519} {O : MapOrder} {OL : MapOrderLaws O} s :
  SubmitterLaws (settlement_submitter s).
Proof.
  constructor. intros receiver items w b rs w' H. cbn in H. by apply runs_SubmitClaim in H as [? _].
Qed.

Section HonestGossip.
Context {E : Env} {K : CacheEnv} {C : Ed25519} {HC : Ed25519Laws C} {F : FreshIDs E}.
Context {X : NaCl} {HX : NaClLaws X} {M : MapOrder} {ML : MapOrderLaws M}.
Variables (ws : Service) (cs : IdentityService) (ss : SettlementService).
Implicit Types w : world db effect.

(** What a device puts in a blob for a ceiling it holds. *)
Definition wire_of (ct : CeilingToken) : CeilingTokenWire := {|
  cw_ID := ct_ID ct; cw_Payload := ceiling_payload ct; cw_BankSignature := ct_BankSignature ct |}.

(** Settlement reads of a ceiling token what the blob carries of it. *)
Lemma checked_wire submitter p ct req t d :
  checked ss submitter {| ci_Payment := p; ci_Ceiling := ct; ci_Request := req |} t d ->
  checked ss submitter {| ci_Payment := p; ci_Ceiling := ceiling_of (wire_of ct); ci_Request := req |} t d.
Proof.
  intros [[] [] [] H4 H5]. constructor; [by constructor|by constructor|by constructor|done|done].
Qed.

Lemma room_wire p ct req d :
  room ss {| ci_Payment := p; ci_Ceiling := ct; ci_Request := req |} d ->
  room ss {| ci_Payment := p; ci_Ceiling := ceiling_of (wire_of ct); ci_Request := req |} d.
Proof. intros []. by constructor. Qed.

Lemma signed_payment_parties priv p :
  SignPayment priv (payment_payload p) = Ok (pt_PayerSignature p) ->
  pt_PayerID p <> "" /\ pt_PayeeID p <> "".
Proof.
  intros H. unfold SignPayment in H. apply sign_with_validated in H.
  unfold PaymentPayload_Validate in H. cbn in H.
  destruct (bool_decide_reflect (pt_PayerID p = "")); [done|].
  by destruct (bool_decide_reflect (pt_PayeeID p = "")).
Qed.

(** Claim C26: an honest payment reaches the bank through anybody's device: when the payer spends
    a ceiling the wallet issued on a request with a card the identity service issued, and a
    stranger uploads the claim in a sealed blob before it expires, the blob is opened, the
    claim accepted as if a party had submitted it, and a finalization of the payer queued. *)
Theorem honest_gossip_accepted u n ttl w0 ct e w1 v w2 card w3 payer_key payee_key req p
  sender keyring blob carrier w :
  fault_free E -> writable_clock -> quiet_service ws -> silent_gate ws ->
  s_Signer ws = None -> ttl mod 1000 = 0 -> bank_ok w0 ->
  runs (FundOffline ws u n ttl) w0 (ct, e) w1 ->
  id_Signer cs = None -> bank_ok w2 -> runs (IssueDisplayCard cs v) w2 card w3 ->
  honest_request payee_key card req -> honest_payment payer_key ct req p ->
  carries keyring {| wi_Ceiling := wire_of ct; wi_Payment := p; wi_Request := req;
                     wi_SenderUserID := sender |} blob ->
  sender = "" \/ sender = pt_PayerID p \/ sender = pt_PayeeID p ->
  bank_signing_keys (w_st w0) ⊆ bank_signing_keys (w_st w) ->
  bank_signing_keys (w_st w2) ⊆ bank_signing_keys (w_st w) ->
  clock (w_clk w) <= pr_ExpiresAt req + RequestGrace ->
  clock (w_clk w) <= ct_ExpiresAt ct + ss_ClockGrace ss ->
  open_ceiling (w_st w) (ct_ID ct) (clock (w_clk w)) -> new_sequence (w_st w) p ->
  room ss {| ci_Payment := p; ci_Ceiling := ct; ci_Request := req |} (w_st w) -> unused w ->
  (forall n, (w_ids w <= n)%nat -> outbox (w_st w) !! new_id n = None) ->
  exists out w',
    runs (Upload (Sub := settlement_submitter ss) keyring carrier [blob]) w out w' /\
    ur_Items out = [routed blob (accepted p (new_id (S (w_ids w))))] /\
    finalize_job (w_st w') (pt_PayerID p) FinalizeReasonClaimAccepted.
Proof.
  intros Hf Hclk Hq Hs Hsg Htl Hb0 Hfund Hid Hb2 Hcard Hreq Hpay Hblob Hsend Hk0 Hk2 Ht1 Ht2 Hopen
    Hnew Hroom Hun Hout.
  destruct (signed_payment_parties _ _ (hp_signed _ _ _ _ Hpay)) as [Hpayer Hpayee].
  pose proof (carried_opens _ _ _ Hblob) as Ho.
  set (inner := {| wi_Ceiling := wire_of ct |}) in Ho.
  assert (receiver_of inner = pt_PayerID p \/ receiver_of inner = pt_PayeeID p) as Hrec.
  { unfold receiver_of. cbn. case_bool_decide; [by right|]. naive_solver. }
  assert (checked ss (receiver_of inner) (item_of inner) (clock (w_clk w)) (w_st w)) as Hck.
  { apply checked_wire. apply (honest_checked ws cs ss u n ttl w0 ct e w1 v w2 card w3 payer_key payee_key);
      try done. apply (rm_sequence _ _ _ Hroom). }
  destruct (single_claim_accepted ss Hf (receiver_of inner) (item_of inner) w Hclk) as (b & w' & Hw');
    [destruct Hrec; congruence|done|done|done|by apply room_wire|done|].
  do 2 eexists. split; [|split].
  - unfold Upload. rewrite bool_decide_false.
    2:{ destruct Hblob as [_ _ (before & k & after & _ & _ & -> & _)]. by destruct before. }
    cbn [for_each]. eapply bind_runs; [|by apply runs_ret]. unfold upload_blob. rewrite Ho.
    eapply bind_runs; [exact Hw'|by apply runs_ret].
  - done.
  - pose proof (runs_SubmitClaim ss _ _ _ _ _ _ _ Hw') as (_ & _ & _ & _ & Hjob). by eapply (Hjob 0%nat (item_of inner)).
Qed.

End HonestGossip.
