(* ===== verification/TransferScore.v ===== *)
(** * Scoring of online transfers (internal/service/fraud/transfer_scorer.go)

    The five rules, in the order the code runs them, the combination of their hits
    into ALLOW, FLAG or BLOCK, and the recording of the decision. *)

From S2P Require Import Prelude Domain Json Crypto Store Repo Books.

Inductive Decision := DecisionAllow | DecisionFlag | DecisionBlock.
#[global] Instance Decision_eq_dec : EqDecision Decision.
Proof. solve_decision. Defined.

Inductive RuleSeverity := SeverityFlag | SeverityBlock.
#[global] Instance RuleSeverity_eq_dec : EqDecision RuleSeverity.
Proof. solve_decision. Defined.

Definition RuleVelocitySender1m : string := "velocity_sender_1m".
Definition RuleVelocitySender1h : string := "velocity_sender_1h".
Definition RuleNewAccountLargeTransfer : string := "new_account_large_transfer".
Definition RuleNovelReceiverHighAmount : string := "novel_receiver_high_amount".
Definition RuleHighDailyShare : string := "high_daily_share".

Definition VelocityCount1m : Z := 10.
Definition VelocityCount1h : Z := 50.
Definition NewAccountAgeHours : Z := 24.
Definition NewAccountAmountKobo : Z := 2000000.
Definition NovelReceiverAmountKobo : Z := 10000000.
Definition HighDailySharePercent : Z := 80.

Record RuleHit := { rh_Name : string; rh_Severity : RuleSeverity; rh_Reason : string }.

Record Score := {
  sc_Decision : Decision;
  sc_Rule : string;
  sc_Reason : string;
  sc_RuleHits : list RuleHit;
}.

Record ScoreInput := {
  si_SenderUserID : string;
  si_ReceiverUserID : string;
  si_AmountKobo : Z;
  si_SenderTier : string;
  si_DailyTierLimitKobo : Z;
  si_SenderAccountAgeHours : Z;
}.

(** A rule; [None] is the empty [RuleHit], no hit. *)
Definition Rule : Type := ScoreInput -> dbop (option RuleHit).

Definition decision_text (d : Decision) : string :=
  match d with DecisionAllow => "ALLOW" | DecisionFlag => "FLAG" | DecisionBlock => "BLOCK" end.
Definition severity_text (s : RuleSeverity) : string :=
  match s with SeverityFlag => "FLAG" | SeverityBlock => "BLOCK" end.

Section Score.
Context {E : Env} {P : PgSession}.

Definition CountRecentTransfersBySender (sender : string) (window : Duration) (limit : Z)
  : dbop Z := exec (q_CountRecentTransfersBySender sender window limit).
Definition ExistsTransferBetween (sender receiver : string) : dbop bool :=
  query (q_ExistsTransferBetween sender receiver).
Definition SumSenderTransfersToday (sender : string) : dbop Z :=
  exec (q_SumSenderTransfersToday sender).

Definition hit (name : string) (sev : RuleSeverity) (reason : string) : option RuleHit :=
  Some {| rh_Name := name; rh_Severity := sev; rh_Reason := reason |}.

Definition ruleVelocitySender1m : Rule := fun i =>
  if bool_decide (si_SenderUserID i = "") then ret None
  else
    let! prior := CountRecentTransfersBySender (si_SenderUserID i) (60 * Second)
                    (VelocityCount1m + 1) in
    ret (if VelocityCount1m <=? prior
         then hit RuleVelocitySender1m SeverityBlock "velocity_spike: >10 transfers in 60s"
         else None).

Definition ruleVelocitySender1h : Rule := fun i =>
  if bool_decide (si_SenderUserID i = "") then ret None
  else
    let! prior := CountRecentTransfersBySender (si_SenderUserID i) Hour
                    (VelocityCount1h + 1) in
    ret (if VelocityCount1h <=? prior
         then hit RuleVelocitySender1h SeverityBlock "velocity_spike: >50 transfers in 1h"
         else None).

Definition ruleNewAccountLargeTransfer : Rule := fun i =>
  if si_SenderAccountAgeHours i <=? 0 then ret None
  else ret (if (si_SenderAccountAgeHours i <? NewAccountAgeHours)
                 && (NewAccountAmountKobo <? si_AmountKobo i)
            then hit RuleNewAccountLargeTransfer SeverityFlag
                   ("account_age=" +:+ pretty (si_SenderAccountAgeHours i) +:+ "h amount="
                    +:+ pretty (si_AmountKobo i) +:+ " > threshold="
                    +:+ pretty NewAccountAmountKobo)%string
            else None).

Definition ruleNovelReceiverHighAmount : Rule := fun i =>
  if si_AmountKobo i <=? NovelReceiverAmountKobo then ret None
  else if bool_decide (si_SenderUserID i = "") || bool_decide (si_ReceiverUserID i = "")
  then ret None
  else
    let! seen := ExistsTransferBetween (si_SenderUserID i) (si_ReceiverUserID i) in
    ret (if negb seen
         then hit RuleNovelReceiverHighAmount SeverityFlag
                ("first transfer to receiver at amount=" +:+ pretty (si_AmountKobo i)
                 +:+ " (> " +:+ pretty NovelReceiverAmountKobo +:+ ")")%string
         else None).

Definition ruleHighDailyShare : Rule := fun i =>
  if bool_decide (si_SenderUserID i = "") || (si_DailyTierLimitKobo i <=? 0) then ret None
  else if 10 ^ 18 <? si_DailyTierLimitKobo i then ret None
  else
    let! spentToday := SumSenderTransfersToday (si_SenderUserID i) in
    let projected := add64 spentToday (si_AmountKobo i) in
    let threshold := Z.quot (mul64 (si_DailyTierLimitKobo i) HighDailySharePercent) 100 in
    ret (if threshold <? projected
         then hit RuleHighDailyShare SeverityFlag
                ("projected_today=" +:+ pretty projected +:+ " > 80% of daily_limit="
                 +:+ pretty (si_DailyTierLimitKobo i))%string
         else None).

Definition defaultRules : list Rule :=
  [ruleVelocitySender1m; ruleVelocitySender1h; ruleNewAccountLargeTransfer;
   ruleNovelReceiverHighAmount; ruleHighDailyShare].

Definition has_severity (sev : RuleSeverity) (h : RuleHit) : bool :=
  bool_decide (rh_Severity h = sev).

(** Two passes: the first BLOCK wins, else the first FLAG. *)
Definition combine (hits : list RuleHit) : Score :=
  match List.find (has_severity SeverityBlock) hits with
  | Some h => {| sc_Decision := DecisionBlock; sc_Rule := rh_Name h;
                 sc_Reason := rh_Reason h; sc_RuleHits := hits |}
  | None =>
      match List.find (has_severity SeverityFlag) hits with
      | Some h => {| sc_Decision := DecisionFlag; sc_Rule := rh_Name h;
                     sc_Reason := rh_Reason h; sc_RuleHits := hits |}
      | None => {| sc_Decision := DecisionAllow; sc_Rule := ""; sc_Reason := "";
                   sc_RuleHits := hits |}
      end
  end.

Definition ScoreTransfer (rules : list Rule) (i : ScoreInput) : dbop Score :=
  let! hits := for_each rules (fun hits r =>
    let! h := wrapping "fraud rule" (r i) in
    ret (match h with Some h => hits ++ [h] | None => hits end)) [] in
  ret (combine hits).

Definition RuleHit_json (h : RuleHit) : result json :=
  json_object [("name", js (rh_Name h)); ("severity", js (severity_text (rh_Severity h)));
               ("reason", js (rh_Reason h))].

Definition hits_json (hits : list RuleHit) : result json :=
  result_map JArr
    (foldr (fun h acc => try rest := acc in try v := RuleHit_json h in Ok (v :: rest))
      (Ok []) hits).

Definition score_row (transferID : string) (i : ScoreInput) (s : Score) (hits : json)
  (t : Time) : FraudScoreRow := {|
  fs_TransferID := transferID; fs_SenderID := si_SenderUserID i;
  fs_Decision := decision_text (sc_Decision s); fs_Rule := strPtr (sc_Rule s);
  fs_Reason := strPtr (sc_Reason s); fs_RuleHits := hits;
  fs_AmountKobo := si_AmountKobo i; fs_CreatedAt := tstz t |}.

(** A BLOCK is written through the pool, so that it survives the rollback of the
    accepting transaction ([Tx_beside_scores]).  A FLAG commits with the transfer. *)
Definition RecordScore (transferID : string) (i : ScoreInput) (s : Score) : dbop unit :=
  match sc_Decision s with
  | DecisionAllow => ret tt
  | DecisionBlock | DecisionFlag =>
      let! hits := wrapping "marshal rule_hits" (lift (hits_json (sc_RuleHits s))) in
      let! id := fresh in
      exec (fun t => q_InsertFraudScore id (score_row transferID i s hits t) t)
  end.

End Score.
