(* ===== verification/Transfer.v ===== *)
(** * Online transfers (internal/service/transfer, internal/repository/transferrepo)

    Accepting a transfer under the KYC limits and the fraud rules, the dispatcher that
    publishes the outbox, and the processor that moves the money and makes
    redeliveries no-ops. *)

From S2P Require Import Prelude Domain Json Crypto Wire Store Repo Books TransferScore.

(** ** Limits (limits.go) *)

Record TierLimits := { tl_SingleMaxKobo : Z; tl_DailyMaxKobo : Z }.

Definition LimitsForTier (tier : string) : TierLimits :=
  if String.eqb tier "TIER_1" then {| tl_SingleMaxKobo := 1000000; tl_DailyMaxKobo := 3000000 |}
  else if String.eqb tier "TIER_2"
  then {| tl_SingleMaxKobo := 5000000; tl_DailyMaxKobo := 30000000 |}
  else if String.eqb tier "TIER_3"
  then {| tl_SingleMaxKobo := int64_max; tl_DailyMaxKobo := int64_max |}
  else {| tl_SingleMaxKobo := 0; tl_DailyMaxKobo := 0 |}.

Definition ErrTierBlocked : error :=
  ErrNew "transfer: kyc tier does not permit sending — complete kyc".
Definition ErrExceedsSingleLimit : error :=
  ErrNew "transfer: amount exceeds single-transaction limit for tier".
Definition ErrExceedsDailyLimit : error :=
  ErrNew "transfer: amount exceeds daily cumulative limit for tier".
Definition ErrReceiverNotFound : error := ErrNew "transfer: receiver account not found".
Definition ErrSelfTransfer : error := ErrNew "transfer: cannot transfer to self".
Definition ErrFraudBlocked : error := ErrNew "transfer: blocked by fraud scoring".
(** [transferrepo.ErrNotFound]. *)
Definition ErrNotFound : error := ErrNew "transferrepo: not found".

Record InitiateTransferInput := {
  it_SenderUserID : string;
  it_ReceiverAccountNumber : string;
  it_AmountKobo : Z;
  it_Reference : string;
}.

Definition transferToDomain (r : string * TransferRow) : Transfer := {|
  tr_ID := r.1; tr_SenderUserID := f_SenderUserID r.2;
  tr_ReceiverUserID := f_ReceiverUserID r.2; tr_SenderDisplayName := None;
  tr_ReceiverDisplayName := None; tr_ReceiverAccountNumber := f_ReceiverAccountNumber r.2;
  tr_AmountKobo := f_AmountKobo r.2; tr_Status := f_Status r.2;
  tr_Reference := f_Reference r.2; tr_FailureReason := f_FailureReason r.2;
  tr_CreatedAt := f_CreatedAt r.2; tr_SettledAt := f_SettledAt r.2 |}.

Section Accept.
Context {E : Env} {K : CacheEnv} {P : PgSession}.

(** [if errors.Is(err, pgx.ErrNoRows) { return ErrNotFound }]. *)
Definition or_not_found {A} (m : dbop A) : dbop A :=
  let! r := attempt m in
  match r with
  | Ok a => ret a
  | Err e => throw (if errors_is e ErrNoRows then ErrNotFound else e)
  end.

(** Cache-aside on a text value. *)
Definition cached_text (key : string) (m : dbop string) : dbop string :=
  let! hit := cache_lookup key in
  match hit with
  | Some (CachedText s) => ret s
  | _ =>
      let! s := or_not_found m in
      do! emit (EvCacheSet key (CachedText s)) in
      ret s
  end.

Definition ResolveReceiverUserID (accountNumber : string) : dbop string :=
  cached_text ("acct:uid:" +:+ accountNumber) (query (q_GetUserIDByAccountNumber accountNumber)).

Definition GetSenderKYCTier (userID : string) : dbop string :=
  cached_text ("user:tier:" +:+ userID) (query (q_GetUserKYCTier userID)).

Definition GetByRef (sender reference : string) : dbop (string * TransferRow) :=
  or_not_found (query (q_GetTransferByRef sender reference)).

Definition InsertAccepted (p : InsertAcceptedParams) : dbop (string * TransferRow) :=
  exec (q_CreateTransferAcceptedFlagged p).

(** The guards of the accepting transaction on the amount. *)
Definition check_limits (i : InitiateTransferInput) (limits : TierLimits) : dbop unit :=
  if tl_SingleMaxKobo limits =? 0 then throw ErrTierBlocked
  else if tl_SingleMaxKobo limits <? it_AmountKobo i
  then throw (ErrWrap "amount over limit" ErrExceedsSingleLimit)
  else
    let! spentToday := wrapping "lookup daily spend"
                         (SumSenderTransfersToday (it_SenderUserID i)) in
    if tl_DailyMaxKobo limits <? add64 spentToday (it_AmountKobo i)
    then throw (ErrWrap "over daily limit" ErrExceedsDailyLimit)
    else ret tt.

Definition score_input (i : InitiateTransferInput) (receiver tier : string)
  (limits : TierLimits) (age : Z) : ScoreInput := {|
  si_SenderUserID := it_SenderUserID i; si_ReceiverUserID := receiver;
  si_AmountKobo := it_AmountKobo i; si_SenderTier := tier;
  si_DailyTierLimitKobo := tl_DailyMaxKobo limits; si_SenderAccountAgeHours := age |}.

Definition no_score : Score :=
  {| sc_Decision := DecisionAllow; sc_Rule := ""; sc_Reason := ""; sc_RuleHits := [] |}.

(** Fraud scoring in the transaction; [None] is a nil [Fraud]. *)
Definition score (fraud : option (list Rule)) (i : InitiateTransferInput)
  (receiver tier : string) (limits : TierLimits) : dbop Score :=
  match fraud with
  | None => ret no_score
  | Some rules =>
      let! age := wrapping "lookup sender age"
                    (exec (q_GetUserAccountAgeHours (it_SenderUserID i))) in
      let input := score_input i receiver tier limits age in
      let! sc := wrapping "fraud score" (ScoreTransfer rules input) in
      match sc_Decision sc with
      | DecisionBlock =>
          let! _ := attempt (RecordScore "" input sc) in
          throw (ErrWrap ("rule=" +:+ sc_Rule sc) ErrFraudBlocked)
      | _ => ret sc
      end
  end.

Definition transfer_txn (id group user counterparty : string) (kind : TransactionKind)
  (dir : LedgerDirection) (amount : Z) (transfer : string) : RecordTransactionParams :=
  txn_params id group user (Some counterparty) kind TxStatusPending dir amount "" None
    (Some transfer) None.

(** The rows of an accepted transfer: the transfer, its two business events, the score
    of a flagged one, and the outbox entry. *)
Definition accept_rows (fraud : option (list Rule)) (i : InitiateTransferInput)
  (receiver tier : string) (limits : TierLimits) (sc : Score) : dbop Transfer :=
  let flagged := bool_decide (sc_Decision sc = DecisionFlag) in
  let! id := fresh in
  let! row := wrapping "insert transfer" (InsertAccepted {|
      ia_ID := id; ia_SenderUserID := it_SenderUserID i; ia_ReceiverUserID := receiver;
      ia_ReceiverAccountNumber := it_ReceiverAccountNumber i;
      ia_AmountKobo := it_AmountKobo i; ia_Reference := it_Reference i;
      ia_Flagged := flagged |}) in
  let! groupID := fresh in
  let! senderTxn := fresh in
  do! wrapping "record sender transaction" (RecordTransaction
        (transfer_txn senderTxn groupID (it_SenderUserID i) receiver TxKindTransferSent
           LedgerDirectionDEBIT (it_AmountKobo i) row.1)) in
  let! receiverTxn := fresh in
  do! wrapping "record receiver transaction" (RecordTransaction
        (transfer_txn receiverTxn groupID receiver (it_SenderUserID i) TxKindTransferReceived
           LedgerDirectionCREDIT (it_AmountKobo i) row.1)) in
  do! (match fraud with
       | Some _ =>
           if flagged
           then wrapping "fraud score record"
                  (RecordScore row.1 (score_input i receiver tier limits 0) sc)
           else ret tt
       | None => ret tt
       end) in
  let! body := wrapping "marshal payload" (lift (TransferPayload_json {|
      tp_TransferID := row.1; tp_SenderUserID := f_SenderUserID row.2;
      tp_ReceiverUserID := f_ReceiverUserID row.2;
      tp_ReceiverAccountNumber := f_ReceiverAccountNumber row.2;
      tp_AmountKobo := f_AmountKobo row.2; tp_Reference := f_Reference row.2 |})) in
  let! outboxID := fresh in
  do! wrapping "insert outbox"
        (exec (q_InsertOutboxEntry outboxID OutboxAggregateTransfer row.1 body)) in
  ret (transferToDomain row).

(** [Repo.Tx] around a body that records the score of a blocked transfer: the row goes through the
    pool, commits by itself and survives the rollback.  In the body only [RecordScore] writes
    scores, and those through the pool are the ones that say BLOCK. *)
Definition blocks (d : db) : gmap string FraudScoreRow :=
  filter (fun kv => fs_Decision kv.2 = decision_text DecisionBlock) (fraud_scores d).
Definition Tx_beside_scores {A} (m : dbop A) : dbop A :=
  tx_beside (fun d d1 => with_fraud_scores (blocks d1 ∪ fraud_scores d) d)
    check_ledger_txn_balanced m.

Definition accept_in_tx (fraud : option (list Rule)) (i : InitiateTransferInput)
  (receiver tier : string) : dbop Transfer :=
  let! existing := attempt (GetByRef (it_SenderUserID i) (it_Reference i)) in
  match existing with
  | Ok row => ret (transferToDomain row)
  | Err e =>
      if negb (errors_is e ErrNotFound) then throw e
      else
        let limits := LimitsForTier tier in
        do! check_limits i limits in
        let! sc := score fraud i receiver tier limits in
        accept_rows fraud i receiver tier limits sc
  end.

Definition validate_input (i : InitiateTransferInput) : result unit :=
  if bool_decide (it_SenderUserID i = "") then Err (ErrNew "transfer: sender_user_id required")
  else
    try _ := ValidateAccountNumber (it_ReceiverAccountNumber i) in
    try _ := ValidateAmount (it_AmountKobo i) in
    ValidateReference (it_Reference i).

Definition InitiateTransfer (fraud : option (list Rule)) (i : InitiateTransferInput)
  : dbop Transfer :=
  do! lift (validate_input i) in
  let! r := attempt (ResolveReceiverUserID (it_ReceiverAccountNumber i)) in
  let! receiver := (match r with
                    | Ok u => ret u
                    | Err e => throw (if errors_is e ErrNotFound then ErrReceiverNotFound
                                      else e)
                    end) in
  if bool_decide (receiver = it_SenderUserID i) then throw ErrSelfTransfer
  else
    let! tier := wrapping "lookup sender tier" (GetSenderKYCTier (it_SenderUserID i)) in
    Tx_beside_scores (accept_in_tx fraud i receiver tier).

End Accept.

(** ** The dispatcher (dispatcher.go) *)

(** [backoff]: the loop doubles while below a minute, at most [attempts] times. *)
Fixpoint backoff_loop (n : nat) (d : Duration) : Duration :=
  match n with
  | O => d
  | S n' => if d <? 60 * Second then backoff_loop n' (2 * d) else d
  end.

Definition backoff (attempts : nat) : Duration :=
  let d := backoff_loop attempts Second in if 60 * Second <? d then 60 * Second else d.

(** Whether JetStream confirms a publish, by the number of store calls made so far. *)
Class Stream := { publish_ok : nat -> bool }.

(** [Dispatcher]; an empty subject or batch size stands for the default. *)
Record Dispatcher := {
  dp_Subject : string;
  dp_SubjectByAggregate : list (string * string);
  dp_BatchSize : Z;
}.

Definition batch (d : Dispatcher) : nat :=
  if dp_BatchSize d <=? 0 then 16 else Z.to_nat (dp_BatchSize d).

Definition subject (d : Dispatcher) : string :=
  if bool_decide (dp_Subject d = "") then "payments.transfer.v1" else dp_Subject d.

Definition subjectFor (d : Dispatcher) (aggregate : string) : string :=
  match List.find (fun kv => String.eqb kv.1 aggregate) (dp_SubjectByAggregate d) with
  | Some (_, s) => if bool_decide (s = "") then subject d else s
  | None => subject d
  end.

Section Dispatch.
Context {E : Env} {N : Stream}.
Variable d : Dispatcher.

Definition publish (subj msgID : string) (body : json) : dbop bool := fun w =>
  if publish_ok (w_ops w)
  then (Ok true, World (w_st w) (w_ids w) (w_clk w) (w_ops w)
                   (w_log w ++ [EvPublish subj msgID body]))
  else (Ok false, w).

Definition dispatch_one (c : string * OutboxRow) : dbop unit :=
  match OutboxEnvelope_json {| oe_ID := c.1; oe_Aggregate := o_Aggregate c.2;
          oe_AggregateID := o_AggregateID c.2; oe_Payload := o_Payload c.2 |} with
  | Err _ => ret tt
  | Ok body =>
      let! ok := publish (subjectFor d (o_Aggregate c.2)) c.1 body in
      if ok : bool then exec (q_MarkOutboxDispatched c.1)
      else
        let! t := now in
        exec (q_BumpOutboxAttempt c.1 (t + backoff (Z.to_nat (o_Attempts c.2))))
  end.

Definition tick : dbop unit :=
  Tx (let! claims := exec (q_ClaimOutboxBatch (batch d)) in
      for_each claims (fun _ c => dispatch_one c) tt).

End Dispatch.

(** ** The processor (processor.go) *)

Section Process.
Context {E : Env}.

Definition IsEventProcessed (outboxID : string) : dbop bool := query (q_IsEventProcessed outboxID).
Definition MarkEventProcessed (outboxID status : string) : dbop unit :=
  exec (q_MarkEventProcessed outboxID status).
Definition LockMainAccount (userID : string) : dbop string :=
  let! row := query (q_LockMainAccountForUser userID) in ret row.1.

(** [FinalizeTransactionsForTransfer]: no paired rows is not an error. *)
Definition FinalizeTransactionsForTransfer (transferID : string)
  (status : TransactionLifecycleStatus) (settled : option Z) (failureReason : option string)
  : dbop unit :=
  let! r := attempt (GetTransactionAnchorForTransfer transferID) in
  match r with
  | Err e => if errors_is e ErrNoRows then ret tt else throw e
  | Ok anchor => FinalizePairedTransactions (an_GroupID anchor) status settled failureReason
  end.

Definition finalizeFailed (outboxID transferID reason : string) : dbop unit :=
  do! exec (q_MarkTransferFailed transferID reason) in
  do! FinalizeTransactionsForTransfer transferID TxStatusFailed None (Some reason) in
  MarkEventProcessed outboxID "FAILED".

(** The two main accounts, locked in the order of the user ids. *)
Definition lock_accounts (tp : TransferPayload) : dbop (option (string * string)) :=
  let a := tp_SenderUserID tp in
  let b := tp_ReceiverUserID tp in
  let '(uidA, uidB) := if string_leb a b then (a, b) else (b, a) in
  let! ra := attempt (LockMainAccount uidA) in
  match ra with
  | Err e => if errors_is e ErrNoRows then ret None else throw e
  | Ok accA =>
      let! rb := attempt (LockMainAccount uidB) in
      match rb with
      | Err e => if errors_is e ErrNoRows then ret None else throw e
      | Ok accB =>
          ret (Some (if String.eqb a uidB then accB else accA,
                     if String.eqb b uidB then accB else accA))
      end
  end.

(** The body of the processing transaction; the outcome it records. *)
Definition settle_in_tx (outboxID : string) (tp : TransferPayload) : dbop string :=
  let fail reason :=
    do! finalizeFailed outboxID (tp_TransferID tp) reason in ret "FAILED" in
  let! accs := lock_accounts tp in
  match accs with
  | None => fail "account not provisioned"
  | Some (senderAcc, receiverAcc) =>
      let! r := attempt (DebitAccount senderAcc (tp_AmountKobo tp)) in
      match r with
      | Err e => if errors_is e ErrNoRows then fail "insufficient funds" else throw e
      | Ok _ =>
          do! CreditAccount receiverAcc (tp_AmountKobo tp) in
          do! exec (q_MarkTransferSettled (tp_TransferID tp)) in
          do! FinalizeTransactionsForTransfer (tp_TransferID tp) TxStatusCompleted
                (Some (tp_AmountKobo tp)) None in
          do! MarkEventProcessed outboxID "SETTLED" in
          ret "SETTLED"
      end
  end.

Definition notify_transfer (outcome : string) (tp : TransferPayload) : dbop unit :=
  if String.eqb outcome "SETTLED" then
    do! emit (EvNotify (tp_SenderUserID tp) "transfer_settled" (tp_TransferID tp)
                (tp_AmountKobo tp)) in
    emit (EvNotify (tp_ReceiverUserID tp) "transfer_received" (tp_TransferID tp)
            (tp_AmountKobo tp))
  else if String.eqb outcome "FAILED" then
    emit (EvNotify (tp_SenderUserID tp) "transfer_failed" (tp_TransferID tp)
            (tp_AmountKobo tp))
  else ret tt.

(** [process]: [None] is a message that is not JSON.  An error asks for redelivery. *)
Definition process (data : option json) : dbop unit :=
  match data with
  | None => emit EvTerminate
  | Some v =>
      let '(env, ok) := OutboxEnvelope_unmarshal v in
      if negb ok then emit EvTerminate
      else
        let! already := IsEventProcessed (oe_ID env) in
        if already : bool then ret tt
        else if negb (String.eqb (oe_Aggregate env) "transfer")
        then MarkEventProcessed (oe_ID env) "SKIPPED"
        else
          let '(tp, ok) := TransferPayload_unmarshal (oe_Payload env) in
          if negb ok then
            do! MarkEventProcessed (oe_ID env) "FAILED" in
            let! _ := attempt (exec (q_MarkTransferFailed (tp_TransferID tp)
                                       "malformed payload")) in
            ret tt
          else
            let! outcome := Tx (settle_in_tx (oe_ID env) tp) in
            notify_transfer outcome tp
  end.

End Process.
