(* ===== verification/Push.v ===== *)
(** * Push tokens (transport/http/bff/push_token.go, service/notification)

    A device registers the token under which Firebase reaches it, for the user who is signed in; an
    event is sent to every token of a user, and a token Firebase declares dead is dropped. *)

From S2P Require Import Prelude Domain Json Crypto Tokens Store AuthStore Text Rest Middleware.

#[local] Open Scope string_scope.
#[local] Open Scope Z_scope.

(** ** The registry (migration 0019, push_tokens.sql.go) *)

Record PushTokenRow := {
  pu_UserID : string;
  pu_Platform : string;
  pu_CreatedAt : Time;
  pu_UpdatedAt : Time;
}.

(** The table beside those of the rest of the program, which it refers to. *)
Record push_db := { push_core : db; push_tokens : gmap string PushTokenRow }.

Definition with_push_tokens v (d : push_db) : push_db :=
  {| push_core := push_core d; push_tokens := v |}.

(** A row of the same token keeps its [created_at] and takes the new owner. *)
Definition upserted (userID platform : string) (t : Time) (old : option PushTokenRow)
  : PushTokenRow := {|
  pu_UserID := userID; pu_Platform := platform;
  pu_CreatedAt := match old with Some r => pu_CreatedAt r | None => tstz t end;
  pu_UpdatedAt := tstz t |}.

Definition q_UpsertPushToken (fcmToken userID platform : string) (t : Time) (d : push_db)
  : result (unit * push_db) :=
  try _ := check "push_tokens_platform_check"
      (existsb (String.eqb platform) ["android"; "ios"]) in
  try _ := fk "push_tokens_user_id_fkey" (users (push_core d)) userID in
  Ok (tt, with_push_tokens
        (<[fcmToken := upserted userID platform t (push_tokens d !! fcmToken)]> (push_tokens d)) d).

Definition q_DeletePushToken (fcmToken userID : string) (_ : Time) (d : push_db)
  : result (unit * push_db) :=
  Ok (tt, match push_tokens d !! fcmToken with
          | Some r => if bool_decide (pu_UserID r = userID)
                      then with_push_tokens (delete fcmToken (push_tokens d)) d else d
          | None => d
          end).

Definition q_DeletePushTokenByValue (fcmToken : string) (_ : Time) (d : push_db)
  : result (unit * push_db) :=
  Ok (tt, with_push_tokens (delete fcmToken (push_tokens d)) d).

(** [ORDER BY updated_at DESC]. *)
Definition token_newest (x y : string * PushTokenRow) : Prop := pu_UpdatedAt y.2 <= pu_UpdatedAt x.2.
#[global] Instance token_newest_dec x y : Decision (token_newest x y).
Proof. unfold token_newest. apply _. Defined.

Definition q_ListPushTokensForUser (userID : string) (d : push_db) : result (list (string * string)) :=
  Ok (map (fun r : string * PushTokenRow => (r.1, pu_Platform r.2))
        (merge_sort token_newest
           (rows_where (fun _ r => bool_decide (pu_UserID r = userID)) (push_tokens d)))).

(** ** Events *)

(** [notification.Event]. *)
Record NotificationEvent := {
  nv_UserID : string;
  nv_Type : string;
  nv_Title : string;
  nv_Body : string;
  nv_Metadata : gmap string string;
}.

(** [messaging.Message], and what its errors say of the token. *)
Record PushMessage := {
  ms_Token : string;
  ms_Title : string;
  ms_Body : string;
  ms_Data : gmap string string;
}.

Inductive SendError := Unregistered | InvalidArgument | SenderIDMismatch | OtherSendError.

(** What Firebase answers the n-th message. *)
Class Messaging := { fcm_answer : nat -> PushMessage -> option SendError }.

Definition flattenPayload (ev : NotificationEvent) : gmap string string :=
  <["type" := nv_Type ev]> (nv_Metadata ev).

Definition message_to (ev : NotificationEvent) (token : string) : PushMessage := {|
  ms_Token := token; ms_Title := nv_Title ev; ms_Body := nv_Body ev; ms_Data := flattenPayload ev |}.

(** The errors after which a token is dropped. *)
Definition dead (e : SendError) : bool := match e with OtherSendError => false | _ => true end.

Section Push.
Context {E : Env} {F : Messaging}.

(** The trace holds the messages sent. *)
Abbreviation pushop A := (op push_db PushMessage A) (only parsing).

Definition fcm_send (m : PushMessage) : pushop (option SendError) :=
  let! sent := read_log in
  do! emit m in ret (fcm_answer (length sent) m).

Definition handleSendError (token : string) (e : SendError) : pushop unit :=
  if dead e then do! attempt (exec (q_DeletePushTokenByValue token)) in ret tt else ret tt.

(** One message, and what may become of its token. *)
Definition send_one (ev : NotificationEvent) (row : string * string) : pushop unit :=
  let! e := fcm_send (message_to ev row.1) in
  match e with Some e => handleSendError row.1 e | None => ret tt end.

(** [FCMSender.Send]: only a failing look-up of the tokens is an error. *)
Definition FCMSender_Send (ev : NotificationEvent) : pushop unit :=
  let! rows := wrapping "list push tokens" (query (q_ListPushTokensForUser (nv_UserID ev))) in
  for_each rows (fun _ row => send_one ev row) tt.

(** ** The handlers (push_token.go) *)

Record PushTokenBody := { pk_FcmToken : string; pk_Platform : string }.

Definition push_caller (cx : Ctx) : option string :=
  match ClaimsFromContext cx with
  | Some c => if bool_decide (at_Sub c = "") then None else Some (at_Sub c)
  | None => None
  end.

(** The caller, the trimmed token, and the statement. *)
Definition on_token (cx : Ctx) (body : option string) (failed : string)
  (stmt : string -> string -> pushop unit) : pushop (http unit) :=
  match push_caller cx with
  | None => ret (JSONError 401 "unauthorized" "missing claims")
  | Some user =>
      match body with
      | None => ret (JSONError 400 "bad_request" "missing body")
      | Some b =>
          let token := TrimSpace b in
          if bool_decide (token = "") then ret (JSONError 400 "bad_request" "fcm_token required")
          else
            let! r := attempt (stmt token user) in
            ret (match r with
                 | Ok _ => NoContent204
                 | Err _ => JSONError 400 "internal" failed
                 end)
      end
  end.

Definition PostV1DevicesPushToken (cx : Ctx) (body : option PushTokenBody) : pushop (http unit) :=
  on_token cx (pk_FcmToken <$> body) "could not store push token"
    (fun token user =>
       exec (q_UpsertPushToken token user (match body with Some b => pk_Platform b | None => "" end))).

Definition DeleteV1DevicesPushToken (cx : Ctx) (body : option string) : pushop (http unit) :=
  on_token cx body "could not remove push token" (fun token user => exec (q_DeletePushToken token user)).

(** ** What the registry keeps *)

(** Whatever a caller sends to the two handlers, the tokens of others stay, unless the caller
    registers the very token, which then is the caller's. *)
Definition owned (d : push_db) (k user : string) : Prop :=
  exists r, push_tokens d !! k = Some r /\ pu_UserID r = user.

Lemma on_token_ran cx body failed stmt w a w' :
  runs (on_token cx body failed stmt) w a w' ->
  (w' = w /\ a <> NoContent204) \/ exists user b r,
    push_caller cx = Some user /\ body = Some b /\
    stmt (TrimSpace b) user w = (r, w') /\ (a = NoContent204 <-> r = Ok tt).
Proof.
  unfold on_token. destruct (push_caller cx) as [user|]; [|intros [-> ->]%runs_ret; by left].
  destruct body as [b|]; [|intros [-> ->]%runs_ret; by left].
  case_bool_decide as Hb; [intros [-> ->]%runs_ret; by left|]. intros H.
  apply runs_bind in H as (r & w1 & H1 & H). apply runs_ret in H as [-> ->].
  apply (proj1 (runs_attempt _ _ _ _)) in H1.
  right. exists user, b, r. split_and!; try done. by destruct r as [[]|e].
Qed.

(** A statement that fails leaves everything in place. *)
Lemma exec_err {A} (f : Time -> push_db -> result (A * push_db)) (w : world push_db PushMessage) e w' :
  exec f w = (Err e, w') -> w_st w' = w_st w /\ w_log w' = w_log w.
Proof.
  unfold exec. destruct (fault _); [by intros [= _ <-]|].
  destruct (f _ _) as [[x d]|e']; by intros [= _ <-].
Qed.

(** A registered token is the caller's, and nobody else's token changed hands. *)
Lemma PostV1DevicesPushToken_registers cx body w a w' :
  runs (PostV1DevicesPushToken cx body) w a w' ->
  push_core (w_st w') = push_core (w_st w) /\ w_log w' = w_log w /\
  (a = NoContent204 -> exists user b, push_caller cx = Some user /\ body = Some b /\
     owned (w_st w') (TrimSpace (pk_FcmToken b)) user) /\
  (forall k, (forall b, body = Some b -> k <> TrimSpace (pk_FcmToken b)) ->
     push_tokens (w_st w') !! k = push_tokens (w_st w) !! k).
Proof.
  unfold PostV1DevicesPushToken. intros H. apply on_token_ran in H as
    [[-> Ha]|(user & b & r & Hu & Hb & H & Ha)]; [done|].
  destruct body as [[k p]|]; [|discriminate]. injection Hb as <-. cbn [pk_FcmToken pk_Platform] in *.
  destruct r as [[]|e].
  - apply runs_exec in H as (_ & d & Hq & ->). unfold q_UpsertPushToken in Hq.
    apply result_bind_ok in Hq as (? & _ & Hq). apply result_bind_ok in Hq as (? & _ & Hq).
    injection Hq as <-. cbn. split_and!; try done.
    + intros _. exists user, {| pk_FcmToken := k; pk_Platform := p |}. split_and!; try done.
      eexists. split; [apply lookup_insert_eq|done].
    + intros k' Hk. apply lookup_insert_ne. intros <-. by apply (Hk _ eq_refl).
  - apply exec_err in H as [-> ->]. split_and!; try done. intros Hn. by apply Ha in Hn.
Qed.

(** A deletion takes the caller's own registration and no other. *)
Lemma DeleteV1DevicesPushToken_own cx body w a w' :
  runs (DeleteV1DevicesPushToken cx body) w a w' ->
  push_core (w_st w') = push_core (w_st w) /\
  forall k r, push_tokens (w_st w) !! k = Some r ->
    push_tokens (w_st w') !! k = Some r \/
    push_caller cx = Some (pu_UserID r) /\ TrimSpace <$> body = Some k /\
    push_tokens (w_st w') !! k = None.
Proof.
  unfold DeleteV1DevicesPushToken. intros H. apply on_token_ran in H as
    [[-> _]|(user & b & r & Hu & -> & H & _)]; [split; [done|by left]|].
  destruct r as [[]|e]; [|apply exec_err in H as [-> _]; split; [done|by left]].
  apply runs_exec in H as (_ & d & [= <-] & ->). cbn [w_st tick_ops].
  destruct (push_tokens (w_st w) !! TrimSpace b) as [r0|] eqn:Hr0; [|split; [done|by left]].
  case_bool_decide as Ho; [|split; [done|by left]]. split; [done|]. intros k r Hk. cbn.
  destruct (decide (k = TrimSpace b)) as [->|Hn]; [|left; by rewrite lookup_delete_ne].
  right. rewrite Hr0 in Hk. injection Hk as <-. split_and!; [congruence|done|apply lookup_delete_eq].
Qed.

Definition declared_dead (ev : NotificationEvent) (k : string) : Prop :=
  exists n e, fcm_answer n (message_to ev k) = Some e /\ dead e = true.

Lemma runs_send_one ev row w x w' :
  runs (send_one ev row) w x w' ->
  w_log w' = (w_log w ++ [message_to ev row.1])%list /\ push_core (w_st w') = push_core (w_st w) /\
  (push_tokens (w_st w') = push_tokens (w_st w) \/
   declared_dead ev row.1 /\ push_tokens (w_st w') = delete row.1 (push_tokens (w_st w))).
Proof.
  unfold send_one, fcm_send. intros H. apply runs_bind in H as (ans & w2 & H2 & H).
  apply runs_bind in H2 as (sent & w3 & H3 & H2). injection H3 as <- <-.
  apply runs_bind in H2 as ([] & w4 & H4 & H2). injection H4 as <-.
  apply runs_ret in H2 as [-> ->].
  destruct (fcm_answer _ _) as [e|] eqn:He; [|apply runs_ret in H as [_ ->]; auto].
  unfold handleSendError in H. destruct (dead e) eqn:Hd; [|apply runs_ret in H as [_ ->]; auto].
  apply runs_bind in H as (r & w5 & H5 & H). apply runs_ret in H as [_ ->].
  apply (proj1 (runs_attempt _ _ _ _)) in H5. destruct r as [[]|e'].
  - apply runs_exec in H5 as (_ & d & [= <-] & ->). cbn. split_and!; try done. right.
    split; [by exists (length (w_log w)), e|done].
  - apply exec_err in H5 as [-> ->]. cbn. auto.
Qed.

Lemma runs_send_all ev rows : forall w x w',
  runs (for_each rows (fun _ => send_one ev) tt) w x w' ->
  w_log w' = (w_log w ++ map (fun row => message_to ev row.1) rows)%list /\
  push_core (w_st w') = push_core (w_st w) /\
  forall k, push_tokens (w_st w') !! k = push_tokens (w_st w) !! k \/
    k ∈ map fst rows /\ declared_dead ev k /\ push_tokens (w_st w') !! k = None.
Proof.
  induction rows as [|row rows IH]; intros w x w' H; cbn [for_each] in H.
  { apply runs_ret in H as [_ ->]. cbn. rewrite app_nil_r. by split_and!; [..|left]. }
  apply runs_bind in H as ([] & w1 & H1 & H). apply runs_send_one in H1 as (Hl1 & Hc1 & Hk1).
  apply IH in H as (Hl & Hc & Hk). cbn [map]. rewrite Hl, Hl1, <- app_assoc, Hc, Hc1.
  split_and!; try done. intros k. destruct (Hk k) as [->|(Hin & Hd & Hn)];
    [|right; split_and!; [by right|done|done]].
  destruct Hk1 as [->|[Hd ->]]; [by left|].
  destruct (decide (k = row.1)) as [->|Hn]; [|left; by rewrite lookup_delete_ne].
  right. split_and!; [left|done|apply lookup_delete_eq].
Qed.

(** An event goes to every token of its user, once each and newest first, whatever becomes of the
    messages; the tokens that are gone afterwards are tokens of the user that Firebase declared
    dead. *)
Lemma FCMSender_Send_fans_out ev w x w' :
  runs (FCMSender_Send ev) w x w' ->
  exists rows,
    q_ListPushTokensForUser (nv_UserID ev) (w_st w) = Ok rows /\
    w_log w' = (w_log w ++ map (fun row => message_to ev row.1) rows)%list /\
    push_core (w_st w') = push_core (w_st w) /\
    forall k, push_tokens (w_st w') !! k = push_tokens (w_st w) !! k \/
      k ∈ map fst rows /\ declared_dead ev k /\ push_tokens (w_st w') !! k = None.
Proof.
  unfold FCMSender_Send. intros H. apply runs_bind in H as (rows & w1 & H1 & H).
  apply runs_wrapping, runs_query in H1 as (_ & Hq & ->). exists rows. split; [done|].
  exact (runs_send_all ev rows _ _ _ H).
Qed.

End Push.
