(* ===== verification/Listings.v ===== *)
(** * Reading transfers (service/transfer/service.go, transferrepo, transfers.sql.go, users.sql.go)

    One transfer, or a page of those a user took part in, with the names of both sides. *)

From S2P Require Import Prelude Domain Store AuthStore Repo Text Transfer.

#[local] Open Scope string_scope.
#[local] Open Scope Z_scope.

(** ** Statements *)

Definition q_GetTransferProjection (id : string) (d : db) : result (string * TransferRow) :=
  match transfers d !! id with Some r => Ok (id, r) | None => Err ErrNoRows end.

(** [ORDER BY created_at DESC, id DESC]. *)
Definition transfer_newest (x y : string * TransferRow) : Prop :=
  f_CreatedAt y.2 < f_CreatedAt x.2
  \/ f_CreatedAt x.2 = f_CreatedAt y.2 /\ key_le y x.
#[global] Instance transfer_newest_dec x y : Decision (transfer_newest x y).
Proof. unfold transfer_newest. apply _. Defined.

(** A negative LIMIT or OFFSET is an error. *)
Definition page {A} (limit offset : Z) (rows : list A) : result (list A) :=
  if limit <? 0 then Err (ErrNew "ERROR: LIMIT must not be negative (SQLSTATE 2201W)")
  else if offset <? 0 then Err (ErrNew "ERROR: OFFSET must not be negative (SQLSTATE 2201X)")
  else Ok (take (Z.to_nat limit) (drop (Z.to_nat offset) rows)).

Definition q_ListTransfersForUser (userID : string) (limit offset : Z) (d : db)
  : result (list (string * TransferRow)) :=
  page limit offset (merge_sort transfer_newest
    (rows_where (fun _ r => bool_decide (f_SenderUserID r = userID)
                            || bool_decide (f_ReceiverUserID r = userID)) (transfers d))).

Definition q_GetUserDisplayNamesByIDs (ids : list string) (d : db)
  : result (list (string * User)) :=
  Ok (rows_where (fun i _ => bool_decide (i ∈ ids)) (users d)).

(** ** transferrepo *)

Section Listings.
Context {E : Env}.

Definition Transferrepo_GetTransfer (id : string) : dbop Transfer :=
  let! row := or_not_found (query (q_GetTransferProjection id)) in ret (transferToDomain row).

Definition ListTransfersForUser (userID : string) (limit offset : Z) : dbop (list Transfer) :=
  let! rows := query (q_ListTransfersForUser userID limit offset) in
  ret (map transferToDomain rows).

(** First and last name; a user without either is left out. *)
Definition shown_name (u : User) : option string :=
  let name := TrimSpace (u_FirstName u ++ " " ++ u_LastName u) in
  if bool_decide (name = "") then None else Some name.

Definition LookupDisplayNames (userIDs : list string) : dbop (gmap string string) :=
  if bool_decide (userIDs = []) then ret ∅
  else
    let! rows := query (q_GetUserDisplayNamesByIDs userIDs) in
    ret (foldl (fun m (r : string * User) =>
           match shown_name r.2 with Some name => <[r.1 := name]> m | None => m end) ∅ rows).

(** ** The service *)

(** The ids of both sides, each once, in order of appearance. *)
Definition add_id (ids : list string) (id : string) : list string :=
  if bool_decide (id ∈ ids) || bool_decide (id = "") then ids else (ids ++ [id])%list.
Definition party_ids (transfers : list Transfer) : list string :=
  foldl (fun ids t => add_id (add_id ids (tr_SenderUserID t)) (tr_ReceiverUserID t)) [] transfers.

Definition with_names (names : gmap string string) (t : Transfer) : Transfer := {|
  tr_ID := tr_ID t; tr_SenderUserID := tr_SenderUserID t; tr_ReceiverUserID := tr_ReceiverUserID t;
  tr_SenderDisplayName :=
    match names !! tr_SenderUserID t with Some n => Some n | None => tr_SenderDisplayName t end;
  tr_ReceiverDisplayName :=
    match names !! tr_ReceiverUserID t with Some n => Some n | None => tr_ReceiverDisplayName t end;
  tr_ReceiverAccountNumber := tr_ReceiverAccountNumber t; tr_AmountKobo := tr_AmountKobo t;
  tr_Status := tr_Status t; tr_Reference := tr_Reference t;
  tr_FailureReason := tr_FailureReason t; tr_CreatedAt := tr_CreatedAt t;
  tr_SettledAt := tr_SettledAt t |}.

(** A failing look-up leaves the names out. *)
Definition enrichDisplayNames (transfers : list Transfer) : dbop (list Transfer) :=
  let ids := party_ids transfers in
  if bool_decide (ids = []) then ret transfers
  else
    let! r := attempt (LookupDisplayNames ids) in
    match r with
    | Err _ => ret transfers
    | Ok names => ret (map (with_names names) transfers)
    end.

Definition GetTransfer (id : string) : dbop (option Transfer) :=
  let! r := attempt (Transferrepo_GetTransfer id) in
  match r with
  | Err e => if errors_is e ErrNotFound then ret None else throw e
  | Ok t => let! ts := enrichDisplayNames [t] in ret (head ts)
  end.

(** Limit and offset are converted to int32 only after they were cut to a page. *)
Definition ListTransfers (userID : string) (limit offset : Z) : dbop (list Transfer) :=
  let limit := if (limit <=? 0) || (200 <? limit) then 50 else limit in
  let offset := if offset <? 0 then 0 else offset in
  let! rows := ListTransfersForUser userID limit (int32 offset) in
  enrichDisplayNames rows.

End Listings.

(** ** The feed of a user's events (pgrepo/repo.go, domain/user_transaction.go) *)

Record UserTransaction := {
  ux_ID : string;
  ux_GroupID : string;
  ux_UserID : string;
  ux_CounterpartyUserID : option string;
  ux_Kind : TransactionKind;
  ux_Status : TransactionLifecycleStatus;
  ux_Direction : LedgerDirection;
  ux_AmountKobo : Z;
  ux_SettledAmountKobo : option Z;
  ux_Memo : string;
  ux_PaymentTokenID : option string;
  ux_TransferID : option string;
  ux_CeilingID : option string;
  ux_FailureReason : option string;
  ux_CreatedAt : Time;
  ux_UpdatedAt : Time;
}.

Definition txnRowToDomain (r : string * TxnRow) : UserTransaction := {|
  ux_ID := r.1; ux_GroupID := x_GroupID r.2; ux_UserID := x_UserID r.2;
  ux_CounterpartyUserID := x_CounterpartyUserID r.2; ux_Kind := x_Kind r.2;
  ux_Status := x_Status r.2; ux_Direction := x_Direction r.2; ux_AmountKobo := x_AmountKobo r.2;
  ux_SettledAmountKobo := x_SettledAmountKobo r.2; ux_Memo := default "" (x_Memo r.2);
  ux_PaymentTokenID := x_PaymentTokenID r.2; ux_TransferID := x_TransferID r.2;
  ux_CeilingID := x_CeilingID r.2; ux_FailureReason := x_FailureReason r.2;
  ux_CreatedAt := x_CreatedAt r.2; ux_UpdatedAt := x_UpdatedAt r.2 |}.

(** [ORDER BY created_at DESC, id DESC]. *)
Definition event_newest (x y : string * TxnRow) : Prop :=
  x_CreatedAt y.2 < x_CreatedAt x.2
  \/ x_CreatedAt x.2 = x_CreatedAt y.2 /\ key_le y x.
#[global] Instance event_newest_dec x y : Decision (event_newest x y).
Proof. unfold event_newest. apply _. Defined.

Definition user_events (userID : string) (d : db) : list (string * TxnRow) :=
  merge_sort event_newest
    (rows_where (fun _ x => bool_decide (x_UserID x = userID)) (transactions d)).

Definition q_ListTransactionsForUser (userID : string) (limit offset : Z) (d : db)
  : result (list (string * TxnRow)) := page limit offset (user_events userID d).

Definition ListTransactionsForUser {E : Env} (userID : string) (limit offset : Z)
  : dbop (list UserTransaction) :=
  let! rows := query (q_ListTransactionsForUser userID limit offset) in
  ret (map txnRowToDomain rows).

(** The rows of a paired event. *)
Definition ListTransactionsByGroup {E : Env} (groupID : string) : dbop (list UserTransaction) :=
  let! rows := query (q_ListTransactionsByGroup groupID) in ret (map txnRowToDomain rows).
