(* ===== verification/BffAccounts.v ===== *)
(** * Accounts and transfers over HTTP (internal/transport/http/bff: server.go, auth_sessions.go,
    auth_pin.go, auth_devicesession.go)

    Signing up and in, one-time codes, sessions, the PIN, the profile, KYC, account look-up and
    online transfers.  A service's own error becomes the answer its handler lists for it; any
    other is passed on and ends as a plain 500. *)

From S2P Require Import Prelude Domain Json Crypto Tokens Store AuthStore Repo Identity UserAuth Registration Keys Kyc TransferScore Transfer Listings Messages Rest Middleware.

#[local] Open Scope string_scope.
#[local] Open Scope Z_scope.

(** ** Bodies *)

Record SignupBody := {
  gb_Phone : string;
  gb_Password : string;
  gb_FirstName : string;
  gb_LastName : string;
  gb_Email : string;
}.

Record AuthTokens := {
  ato_UserId : string;
  ato_AccountNumber : string;
  ato_AccessToken : string;
  ato_RefreshToken : string;
  ato_AccessExpiresAt : Time;
  ato_RefreshExpiresAt : Time;
  ato_DisplayCard : option DisplayCardInput;
}.

Record ResetBody := { zb_Email : string; zb_Code : string; zb_NewPassword : string }.

Record MeResponse := {
  rme_UserId : string;
  rme_Phone : string;
  rme_AccountNumber : string;
  rme_KycTier : string;
  rme_FirstName : string;
  rme_LastName : string;
  rme_Email : string;
  rme_EmailVerified : bool;
  rme_DisplayCard : option DisplayCardInput;
}.

Record KYCSubmission := {
  rks_Id : string;
  rks_UserId : string;
  rks_IdType : string;
  rks_IdNumber : string;
  rks_Status : string;
  rks_RejectionReason : option string;
  rks_TierGranted : option string;
  rks_SubmittedBy : option string;
  rks_SubmittedAt : Time;
  rks_VerifiedAt : option Time;
}.

Record TransferBody := {
  tb_ReceiverAccountNumber : string;
  tb_AmountKobo : Z;
  tb_Reference : string;
  tb_Pin : string;
}.

Record rest_Transfer := {
  rtr_Id : string;
  rtr_SenderUserId : string;
  rtr_ReceiverUserId : string;
  rtr_SenderDisplayName : option string;
  rtr_ReceiverDisplayName : option string;
  rtr_ReceiverAccountNumber : string;
  rtr_AmountKobo : Z;
  rtr_Status : string;
  rtr_Reference : string;
  rtr_FailureReason : option string;
  rtr_CreatedAt : Time;
  rtr_SettledAt : option Time;
}.

Record TransferList := { rtl_Items : list rest_Transfer; rtl_Limit : Z; rtl_Offset : Z }.

Record rest_Session := {
  rse_Id : string;
  rse_UserAgent : string;
  rse_Ip : string;
  rse_DeviceId : option string;
  rse_CreatedAt : Time;
  rse_ExpiresAt : Time;
  rse_IsCurrent : bool;
}.

Record DeviceSessionBody := { sb_DeviceId : string; sb_Scope : option string }.

Record DeviceSessionResponse := {
  rds_Token : string;
  rds_ServerPublicKey : bytes;
  rds_KeyId : string;
  rds_IssuedAt : Time;
  rds_ExpiresAt : Time;
  rds_Scope : string;
}.

(** ** Conversions *)

Definition authResultToDTO (r : AuthResult) : AuthTokens := {|
  ato_UserId := ar_UserID r; ato_AccountNumber := ar_AccountNumber r;
  ato_AccessToken := ar_AccessToken r; ato_RefreshToken := ar_RefreshToken r;
  ato_AccessExpiresAt := ar_AccessExpiresAt r; ato_RefreshExpiresAt := ar_RefreshExpiresAt r;
  ato_DisplayCard := None |}.

Definition with_card (card : option DisplayCardInput) (d : AuthTokens) : AuthTokens := {|
  ato_UserId := ato_UserId d; ato_AccountNumber := ato_AccountNumber d;
  ato_AccessToken := ato_AccessToken d; ato_RefreshToken := ato_RefreshToken d;
  ato_AccessExpiresAt := ato_AccessExpiresAt d; ato_RefreshExpiresAt := ato_RefreshExpiresAt d;
  ato_DisplayCard := card |}.

Definition me_answer (me : Me) (card : option DisplayCardInput) : MeResponse := {|
  rme_UserId := me_ID me; rme_Phone := me_Phone me; rme_AccountNumber := me_AccountNumber me;
  rme_KycTier := me_KYCTier me; rme_FirstName := me_FirstName me; rme_LastName := me_LastName me;
  rme_Email := me_Email me; rme_EmailVerified := me_EmailVerified me; rme_DisplayCard := card |}.

Definition kycSubmissionToDTO (s : Submission) : KYCSubmission := {|
  rks_Id := Kyc.sb_ID s; rks_UserId := Kyc.sb_UserID s; rks_IdType := sb_IDType s;
  rks_IdNumber := sb_IDNumber s; rks_Status := Kyc.sb_Status s;
  rks_RejectionReason := sb_RejectionReason s; rks_TierGranted := sb_TierGranted s;
  rks_SubmittedBy := sb_SubmittedBy s; rks_SubmittedAt := Kyc.sb_SubmittedAt s;
  rks_VerifiedAt := sb_VerifiedAt s |}.

Definition transfer_status_text (s : TransferStatus) : string :=
  match s with
  | StatusAccepted => "ACCEPTED"
  | StatusProcessing => "PROCESSING"
  | StatusSettled => "SETTLED"
  | StatusFailed => "FAILED"
  end.

Definition transferToDTO (t : Transfer) : rest_Transfer := {|
  rtr_Id := tr_ID t; rtr_SenderUserId := tr_SenderUserID t;
  rtr_ReceiverUserId := tr_ReceiverUserID t; rtr_SenderDisplayName := tr_SenderDisplayName t;
  rtr_ReceiverDisplayName := tr_ReceiverDisplayName t;
  rtr_ReceiverAccountNumber := tr_ReceiverAccountNumber t; rtr_AmountKobo := tr_AmountKobo t;
  rtr_Status := transfer_status_text (tr_Status t); rtr_Reference := tr_Reference t;
  rtr_FailureReason := tr_FailureReason t; rtr_CreatedAt := tr_CreatedAt t;
  rtr_SettledAt := tr_SettledAt t |}.

Definition session_answer (sid : string) (s : SessionView) : rest_Session := {|
  rse_Id := sv_ID s; rse_UserAgent := sv_UserAgent s; rse_Ip := sv_IP s;
  rse_DeviceId := sv_DeviceID s; rse_CreatedAt := sv_CreatedAt s; rse_ExpiresAt := sv_ExpiresAt s;
  rse_IsCurrent := bool_decide (sv_ID s = sid) |}.

(** A [switch] over [errors.Is]: the answer of the first case one of whose errors is in the
    tree of [e]; without one the error is passed on. *)
Fixpoint answer_error {A} (cases : list (list error * http A)) (e : error) : dbop (http A) :=
  match cases with
  | [] => throw e
  | (targets, answer) :: rest =>
      if existsb (errors_is e) targets then ret answer else answer_error rest e
  end.

Section BffAccounts.
Context {E : Env} {K : CacheEnv} {C : Ed25519} {AL : AuthLib} {T : ErrorText}.
Variable auth : UserAuthService.
Variable identity : option IdentityService.

(** ** server.go: sessions and codes *)

(** The card of an answer that carries one if it could be signed. *)
Definition optional_card (userID : string) : dbop (option DisplayCardInput) :=
  match identity with
  | None => ret None
  | Some s =>
      let! r := attempt (IssueDisplayCard s userID) in
      match r with
      | Err _ => ret None
      | Ok card => ret (Some (displayCardToInput (DisplayCardToProto card)))
      end
  end.

Definition PostV1AuthSignup (cx : Ctx) (body : option SignupBody) : dbop (http AuthTokens) :=
  with_body body (fun b =>
    let! r := attempt (Signup auth {|
      si_Phone := gb_Phone b; si_Password := gb_Password b; si_FirstName := gb_FirstName b;
      si_LastName := gb_LastName b; si_Email := gb_Email b; si_UserAgent := cx_UserAgent cx;
      si_IP := cx_ClientIP cx |}) in
    match r with
    | Err e =>
        answer_error
          [([Service_ErrPhoneTaken], JSONError 409 "phone_taken" "phone already registered");
           ([Service_ErrEmailTaken], JSONError 409 "email_taken" "email already registered");
           ([ErrInvalidPhone; ErrInvalidEmail; ErrInvalidName; ErrInvalidPassword;
             ErrUnsupportedPhoneFormat], JSONError 400 "invalid_request" (error_string e))] e
    | Ok res =>
        let! card := optional_card (ar_UserID res) in
        ret (JSON200 (with_card card (authResultToDTO res)))
    end).

Definition GetV1IdentityDisplayCard (cx : Ctx) : dbop (http DisplayCardInput) :=
  with_subject cx (fun claims =>
    match identity with
    | None => ret (JSONError 502 "unconfigured" "identity service not wired")
    | Some s =>
        let! r := attempt (IssueDisplayCard s (at_Sub claims)) in
        match r with
        | Err e => ret (JSONError 502 "sign_failure" (error_string e))
        | Ok card => ret (JSON200 (displayCardToInput (DisplayCardToProto card)))
        end
    end).

Definition invalid_credentials {A} : http A :=
  JSONError 401 "invalid_credentials" "invalid credentials".

Definition PostV1AuthLogin (cx : Ctx) (body : option (string * string)) : dbop (http AuthTokens) :=
  match body with
  | None => ret invalid_credentials
  | Some (phone, password) =>
      let! r := attempt (Login auth phone password (cx_UserAgent cx) (cx_ClientIP cx)) in
      match r with
      | Err e => answer_error [([ErrInvalidCredentials], invalid_credentials)] e
      | Ok res => ret (JSON200 (authResultToDTO res))
      end
  end.

(** An operation answered with 204 when it succeeds. *)
Definition no_content {A} (call : dbop unit) (cases : error -> list (list error * http A))
  : dbop (http A) :=
  let! r := attempt call in
  match r with
  | Err e => answer_error (cases e) e
  | Ok _ => ret NoContent204
  end.

Definition user_not_found {A} : http A := JSONError 401 "unauthorized" "user not found".
Definition otp_invalid {A} : http A := JSONError 401 "otp_invalid" "invalid or expired otp".

Definition PostV1AuthEmailVerifyRequest (cx : Ctx) : dbop (http unit) :=
  with_claims cx (fun claims =>
    no_content (RequestEmailVerification auth (at_Sub claims)) (fun _ =>
      [([ErrUserNotFound], user_not_found)])).

Definition PostV1AuthEmailVerifyConfirm (cx : Ctx) (body : option string) : dbop (http unit) :=
  with_claims cx (fun claims =>
    match body with
    | None => ret (JSONError 401 "otp_invalid" "missing code")
    | Some code =>
        no_content (VerifyEmail auth (at_Sub claims) code) (fun _ =>
          [([ErrInvalidCode; ErrChallengeMissing; ErrChallengeExpired; ErrChallengeUsed;
             ErrTooManyAttempts], otp_invalid);
           ([ErrUserNotFound], user_not_found)])
    end).

(** Answered alike whether the address is known or not. *)
Definition PostV1AuthForgotPasswordRequest (body : option string) : dbop (http unit) :=
  match body with
  | None => ret NoContent204
  | Some email => let! _ := attempt (ForgotPasswordRequest auth email) in ret NoContent204
  end.

Definition PostV1AuthForgotPasswordReset (body : option ResetBody) : dbop (http unit) :=
  match body with
  | None => ret (JSONError 401 "invalid_credentials" "missing body")
  | Some b =>
      no_content (ForgotPasswordReset auth (zb_Email b) (zb_Code b) (zb_NewPassword b)) (fun e =>
        [([ErrInvalidCode; ErrChallengeMissing; ErrChallengeExpired; ErrChallengeUsed;
           ErrTooManyAttempts; ErrInvalidCredentials], otp_invalid);
         ([ErrInvalidPassword], JSONError 400 "invalid_password" (error_string e))])
  end.

Definition PostV1AuthRefresh (body : option string) : dbop (http AuthTokens) :=
  match body with
  | None => ret (JSONError 401 "unauthorized" "missing body")
  | Some token =>
      let! r := attempt (Refresh auth token) in
      match r with
      | Err e =>
          answer_error
            [([ErrInvalidRefresh],
              JSONError 401 "invalid_refresh" "refresh token invalid or revoked")] e
      | Ok res => ret (JSON200 (authResultToDTO res))
      end
  end.

Definition PostV1AuthLogout (body : option string) : dbop (http unit) :=
  match body with
  | None => ret NoContent204
  | Some token =>
      if bool_decide (token = "") then ret NoContent204
      else let! _ := attempt (Logout token) in ret NoContent204
  end.

(** ** server.go: profile, KYC and account look-up *)

Definition GetV1Me (cx : Ctx) : dbop (http MeResponse) :=
  with_claims cx (fun claims =>
    let! r := attempt (GetMe (at_Sub claims)) in
    match r with
    | Err e => answer_error [([ErrUserNotFound], user_not_found)] e
    | Ok me => let! card := optional_card (me_ID me) in ret (JSON200 (me_answer me card))
    end).

Definition PostV1KycSubmit (cx : Ctx) (body : option (string * string))
  : dbop (http KYCSubmission) :=
  with_claims cx (fun claims => with_body body (fun b =>
    let! r := attempt (Submit (at_Sub claims) b.1 b.2) in
    match r with
    | Err e =>
        answer_error
          [([ErrInvalidInput], JSONError 400 "invalid_request" (error_string e));
           ([Kyc_ErrUserNotFound], user_not_found)] e
    | Ok sub => ret (JSON200 (kycSubmissionToDTO sub))
    end)).

Definition GetV1KycSubmissions (cx : Ctx) : dbop (http (list KYCSubmission)) :=
  with_claims cx (fun claims =>
    let! subs := Kyc_List (at_Sub claims) in ret (JSON200 (map kycSubmissionToDTO subs))).

Definition GetV1KycHint (cx : Ctx) : dbop (http (gmap string string)) :=
  with_claims cx (fun claims =>
    let! r := attempt (Hint (at_Sub claims)) in
    match r with
    | Err e => answer_error [([Kyc_ErrUserNotFound], user_not_found)] e
    | Ok hint => ret (JSON200 hint)
    end).

Definition GetV1AccountsResolveAccountNumber (accountNumber : string)
  : dbop (http ResolvedAccount) :=
  match ValidateAccountNumber accountNumber with
  | Err e => ret (JSONError 400 "invalid_account_number" (error_string e))
  | Ok _ =>
      let! r := attempt (ResolveAccount accountNumber) in
      match r with
      | Err e =>
          answer_error
            [([Account_ErrNotFound], JSONError 404 "account_not_found" "account not found");
             ([ErrInvalidAccountNumber],
               JSONError 400 "invalid_account_number" (error_string e))] e
      | Ok res => ret (JSON200 res)
      end
  end.

(** ** server.go: transfers *)

Definition pin_answers {A} : list (list error * http A) :=
  [([ErrPINNotSet], JSONError 409 "pin_not_set" "set a transaction pin before transferring");
   ([ErrPINLocked], JSONError 423 "pin_locked" "pin locked — try again later");
   ([ErrBadPIN], JSONError 401 "pin_bad" "incorrect pin");
   ([ErrInvalidPIN], JSONError 400 "invalid_pin" "pin must be 4 or 6 digits");
   ([ErrUserNotFound], user_not_found)].

Definition transfer_answers {A} (e : error) : list (list error * http A) :=
  [([ErrSelfTransfer], JSONError 409 "self_transfer" (error_string e));
   ([ErrReceiverNotFound], JSONError 404 "receiver_not_found" (error_string e));
   ([ErrTierBlocked], JSONError 402 "kyc_tier_blocked" "Complete KYC to send money");
   ([ErrExceedsSingleLimit], JSONError 402 "exceeds_single_limit" (error_string e));
   ([ErrExceedsDailyLimit], JSONError 402 "exceeds_daily_limit" (error_string e));
   ([ErrFraudBlocked], JSONError 403 "fraud_block"
      "This transfer was blocked for review. Please try again later or contact support.");
   ([ErrInvalidAmount; ErrInvalidReference; ErrInvalidAccountNumber],
     JSONError 400 "invalid_request" (error_string e))].

Context {P : PgSession}.
Variable scorer : option (list TransferScore.Rule).

(** The PIN is asked for although the token is valid. *)
Definition PostV1Transfers (cx : Ctx) (body : option TransferBody) : dbop (http rest_Transfer) :=
  with_claims cx (fun claims => with_body body (fun b =>
    let! pin := attempt (VerifyPIN (at_Sub claims) (tb_Pin b)) in
    match pin with
    | Err e => answer_error pin_answers e
    | Ok _ =>
        let! r := attempt (InitiateTransfer scorer {|
          it_SenderUserID := at_Sub claims;
          it_ReceiverAccountNumber := tb_ReceiverAccountNumber b;
          it_AmountKobo := tb_AmountKobo b; it_Reference := tb_Reference b |}) in
        match r with
        | Err e => answer_error (transfer_answers e) e
        | Ok t => ret (JSON200 (transferToDTO t))
        end
    end)).

Definition GetV1TransfersID (cx : Ctx) (id : string) : dbop (http rest_Transfer) :=
  with_claims cx (fun claims =>
    let! t := GetTransfer id in
    match t with
    | None => ret (JSONError 404 "transfer_not_found" "transfer not found")
    | Some t =>
        if negb (bool_decide (tr_SenderUserID t = at_Sub claims))
           && negb (bool_decide (tr_ReceiverUserID t = at_Sub claims))
        then ret (JSONError 404 "transfer_not_found" "transfer not found")
        else ret (JSON200 (transferToDTO t))
    end).

(** The page asked for, cut to 1..100 rows. *)
Definition page_limit (limit : option Z) : Z :=
  let l := default 20 limit in
  let l := if l <=? 0 then 20 else l in
  if 100 <? l then 100 else l.
Definition page_offset (offset : option Z) : Z :=
  let o := default 0 offset in if o <? 0 then 0 else o.

Definition GetV1Transfers (cx : Ctx) (limit offset : option Z) : dbop (http TransferList) :=
  with_claims cx (fun claims =>
    let l := page_limit limit in
    let o := page_offset offset in
    let! rows := ListTransfers (at_Sub claims) l o in
    ret (JSON200 {| rtl_Items := map transferToDTO rows; rtl_Limit := l; rtl_Offset := o |})).

(** ** auth_sessions.go, auth_pin.go, auth_devicesession.go *)

Definition GetV1AuthSessions (cx : Ctx) : dbop (http (list rest_Session)) :=
  with_claims cx (fun claims =>
    let! sessions := ListSessions (at_Sub claims) in
    ret (JSON200 (map (session_answer (at_Sid claims)) sessions))).

Definition PostV1AuthSessionsIdRevoke (cx : Ctx) (id : string) : dbop (http unit) :=
  with_claims cx (fun claims =>
    no_content (RevokeSession (at_Sub claims) id (at_Sid claims)) (fun _ =>
      [([ErrCannotRevokeCurrent], JSONError 400 "cannot_revoke_current"
          "use /v1/auth/logout to revoke the current session");
       ([ErrSessionNotFound], JSONError 404 "session_not_found" "session not found")])).

Definition PostV1AuthSessionsRevokeAllOthers (cx : Ctx) : dbop (http Z) :=
  with_claims cx (fun claims =>
    let! n := RevokeAllOtherSessions (at_Sub claims) (at_Sid claims) in
    ret (JSON200 (int32 n))).

Definition PostV1AuthPin (cx : Ctx) (body : option string) : dbop (http unit) :=
  with_claims cx (fun claims => with_body body (fun pin =>
    no_content (SetPIN (at_Sub claims) pin (at_Sid claims)) (fun _ =>
      [([ErrInvalidPIN], JSONError 400 "invalid_pin" "pin must be 4 or 6 digits");
       ([ErrUserNotFound], user_not_found)]))).

Definition device_session_answers {A} : list (list error * http A) :=
  [([ErrDeviceSessionUnav],
     JSONError 400 "device_session_disabled" "device session signer not configured");
   ([ErrUnsupportedScope], JSONError 400 "unsupported_scope" "scope not supported");
   ([ErrDeviceUnknown], JSONError 403 "device_unknown" "device not registered");
   ([ErrDeviceNotOwned], JSONError 403 "device_not_owned" "device not owned by caller");
   ([ErrDeviceInactive], JSONError 403 "device_inactive" "device deactivated")].

Definition PostV1AuthDeviceSession (signer : option DeviceSessionSigner) (cx : Ctx)
  (body : option DeviceSessionBody) : dbop (http DeviceSessionResponse) :=
  with_claims cx (fun claims =>
    match body with
    | None => ret (JSONError 400 "bad_request" "device_id required")
    | Some b =>
        if bool_decide (sb_DeviceId b = "") then ret (JSONError 400 "bad_request" "device_id required")
        else
          let! r := attempt (IssueDeviceSession signer (at_Sub claims) (sb_DeviceId b)
                               (at_Sid claims) (default "" (sb_Scope b))) in
          match r with
          | Err e => answer_error device_session_answers e
          | Ok tok =>
              ret (JSON200 {|
                rds_Token := dt_Token tok; rds_ServerPublicKey := dt_ServerPublicKey tok;
                rds_KeyId := dt_KeyID tok; rds_IssuedAt := dt_IssuedAt tok;
                rds_ExpiresAt := dt_ExpiresAt tok; rds_Scope := dt_Scope tok |})
          end
    end).

End BffAccounts.
