(* ===== verification/AdminStore.v ===== *)
(** * The tables of the back office (migration 0014, sqlcgen/admin*.sql.go)

    Staff accounts, their roles, their refresh sessions and the audit log lie beside the
    tables of the program, which the back office only reads: its statements
    on those follow. *)

From Stdlib Require Import Ascii Sorting.Sorted.
From S2P Require Import Prelude Float Domain Json Store AuthStore Reconcile Transfer Listings BffAccounts.

#[local] Open Scope string_scope.
#[local] Open Scope Z_scope.

(** The columns for one-time passwords and [updated_at] are written by nothing. *)
Record AdminUserRow := {
  ad_Email : string;
  ad_FullName : string;
  ad_PasswordHash : string;
  ad_Status : string;
  ad_LastLoginAt : option Time;
  ad_CreatedAt : Time;
}.

Record AdminSessionRow := {
  an_AdminUserID : string;
  an_RefreshHash : string;
  an_UserAgent : string;
  an_Ip : string;
  an_CreatedAt : Time;
  an_ExpiresAt : Time;
  an_RevokedAt : option Time;
}.

Record AuditLogRow := {
  al_AdminUserID : option string;
  al_AdminEmail : string;
  al_Action : string;
  al_TargetType : string;
  al_TargetID : string;
  al_Payload : option json;
  al_Ip : string;
  al_UserAgent : string;
  al_CreatedAt : Time;
}.

(** Roles are named by their id; the audit log has the numbers of its sequence, of which only
    the order matters. *)
Record admin_db := {
  core : db;
  admin_users : gmap string AdminUserRow;
  admin_roles : gmap string string;
  admin_user_roles : gset (string * string);
  admin_sessions : gmap string AdminSessionRow;
  admin_audit_log : gmap Z AuditLogRow;
  admin_audit_log_id_seq : Z;
}.

(** What migration 0014 leaves beside a database of the program. *)
Definition admin_genesis (d : db) : admin_db := {|
  core := d; admin_users := ∅;
  admin_roles := list_to_map [("role_viewer", "VIEWER"); ("role_support", "SUPPORT");
    ("role_finance", "FINANCE_OPS"); ("role_fraud", "FRAUD_OPS");
    ("role_superadmin", "SUPERADMIN")];
  admin_user_roles := ∅; admin_sessions := ∅; admin_audit_log := ∅;
  admin_audit_log_id_seq := 0 |}.

Definition with_admin_users v (d : admin_db) : admin_db := {|
  core := core d; admin_users := v; admin_roles := admin_roles d;
  admin_user_roles := admin_user_roles d; admin_sessions := admin_sessions d;
  admin_audit_log := admin_audit_log d; admin_audit_log_id_seq := admin_audit_log_id_seq d |}.

Definition with_admin_user_roles v (d : admin_db) : admin_db := {|
  core := core d; admin_users := admin_users d; admin_roles := admin_roles d;
  admin_user_roles := v; admin_sessions := admin_sessions d;
  admin_audit_log := admin_audit_log d; admin_audit_log_id_seq := admin_audit_log_id_seq d |}.

Definition with_admin_sessions v (d : admin_db) : admin_db := {|
  core := core d; admin_users := admin_users d; admin_roles := admin_roles d;
  admin_user_roles := admin_user_roles d; admin_sessions := v;
  admin_audit_log := admin_audit_log d; admin_audit_log_id_seq := admin_audit_log_id_seq d |}.

Definition with_admin_audit_log v seq (d : admin_db) : admin_db := {|
  core := core d; admin_users := admin_users d; admin_roles := admin_roles d;
  admin_user_roles := admin_user_roles d; admin_sessions := admin_sessions d;
  admin_audit_log := v; admin_audit_log_id_seq := seq |}.

(** ** admin_users and their roles (admin.sql.go) *)

Definition q_CreateAdminUser (id email fullName passwordHash : string) (t : Time) (d : admin_db)
  : result (unit * admin_db) :=
  try _ := pk "admin_users_pkey" (admin_users d) id in
  try _ := unique "admin_users_email_key" (fun _ r => bool_decide (ad_Email r = email))
             (admin_users d) in
  Ok (tt, with_admin_users (<[id := {|
    ad_Email := email; ad_FullName := fullName; ad_PasswordHash := passwordHash;
    ad_Status := "ACTIVE"; ad_LastLoginAt := None; ad_CreatedAt := tstz t |}]>
    (admin_users d)) d).

Definition q_GetAdminUserByID (id : string) (d : admin_db) : result (string * AdminUserRow) :=
  match admin_users d !! id with Some r => Ok (id, r) | None => Err ErrNoRows end.

Definition q_GetAdminUserForLogin (email : string) (d : admin_db)
  : result (string * AdminUserRow) :=
  first_row (fun _ r => bool_decide (ad_Email r = email)) (admin_users d).

(** [INSERT ... SELECT]: a name no role has inserts nothing. *)
Definition q_GrantAdminRoleByName (adminUserID name : string) (_ : Time) (d : admin_db)
  : result (unit * admin_db) :=
  match rows_where (fun _ n => bool_decide (n = name)) (admin_roles d) with
  | [] => Ok (tt, d)
  | (role, _) :: _ =>
      try _ := guard_or (negb (bool_decide ((adminUserID, role) ∈ admin_user_roles d)))
                 (ErrUnique "admin_user_roles_pkey") in
      try _ := fk "admin_user_roles_admin_user_id_fkey" (admin_users d) adminUserID in
      Ok (tt, with_admin_user_roles ({[(adminUserID, role)]} ∪ admin_user_roles d) d)
  end.

(** [ORDER BY r.name]. *)
Definition name_le (x y : string) : Prop := string_leb x y = true.
#[global] Instance name_le_dec x y : Decision (name_le x y).
Proof. unfold name_le. apply _. Defined.

Definition q_ListAdminRoleNamesForUser (adminUserID : string) (d : admin_db)
  : result (list string) :=
  Ok (merge_sort name_le (map snd
       (rows_where (fun role _ => bool_decide ((adminUserID, role) ∈ admin_user_roles d))
          (admin_roles d)))).

Definition touch_login (t : Time) (r : AdminUserRow) : AdminUserRow := {|
  ad_Email := ad_Email r; ad_FullName := ad_FullName r; ad_PasswordHash := ad_PasswordHash r;
  ad_Status := ad_Status r; ad_LastLoginAt := Some (tstz t); ad_CreatedAt := ad_CreatedAt r |}.

Definition q_TouchAdminUserLastLogin (id : string) (t : Time) (d : admin_db)
  : result (unit * admin_db) :=
  Ok (tt, with_admin_users (alter (touch_login t) id (admin_users d)) d).

(** ** admin_sessions (admin_sessions.sql.go) *)

Definition q_CreateAdminSession (id adminUserID refreshHash userAgent ip : string)
  (expiresAt : Time) (t : Time) (d : admin_db) : result (unit * admin_db) :=
  try _ := pk "admin_sessions_pkey" (admin_sessions d) id in
  try _ := unique "admin_sessions_refresh_hash_key"
      (fun _ r => bool_decide (an_RefreshHash r = refreshHash)) (admin_sessions d) in
  try _ := fk "admin_sessions_admin_user_id_fkey" (admin_users d) adminUserID in
  Ok (tt, with_admin_sessions (<[id := {|
    an_AdminUserID := adminUserID; an_RefreshHash := refreshHash; an_UserAgent := userAgent;
    an_Ip := ip; an_CreatedAt := tstz t; an_ExpiresAt := tstz expiresAt;
    an_RevokedAt := None |}]> (admin_sessions d)) d).

(** The other columns have their defaults. *)
Definition q_CreateAdminSessionRotation (id adminUserID refreshHash : string) (expiresAt : Time)
  : Time -> admin_db -> result (unit * admin_db) :=
  q_CreateAdminSession id adminUserID refreshHash "" "" expiresAt.

Definition q_GetAdminSessionByRefreshHash (refreshHash : string) (d : admin_db)
  : result (string * AdminSessionRow) :=
  first_row (fun _ r => bool_decide (an_RefreshHash r = refreshHash)) (admin_sessions d).

Definition revoke_session (t : Time) (r : AdminSessionRow) : AdminSessionRow := {|
  an_AdminUserID := an_AdminUserID r; an_RefreshHash := an_RefreshHash r;
  an_UserAgent := an_UserAgent r; an_Ip := an_Ip r; an_CreatedAt := an_CreatedAt r;
  an_ExpiresAt := an_ExpiresAt r; an_RevokedAt := Some (tstz t) |}.

Definition revoke_sessions (P : string -> AdminSessionRow -> bool) (t : Time) (d : admin_db)
  : admin_db :=
  with_admin_sessions
    (map_imap (fun id r => Some (if P id r then revoke_session t r else r)) (admin_sessions d)) d.

(** [AND revoked_at IS NULL]. *)
Definition q_RevokeAdminSessionByHash (refreshHash : string) (t : Time) (d : admin_db)
  : result (unit * admin_db) :=
  Ok (tt, revoke_sessions (fun _ r => bool_decide (an_RefreshHash r = refreshHash)
                                      && bool_decide (an_RevokedAt r = None)) t d).

(** Whatever the session's state. *)
Definition q_RevokeAdminSessionByID (id : string) (t : Time) (d : admin_db)
  : result (unit * admin_db) :=
  Ok (tt, revoke_sessions (fun i _ => bool_decide (i = id)) t d).

(** ** admin_audit_log (admin_audit.sql.go) *)

Definition q_CountAdminAuditLog (d : admin_db) : result Z :=
  bigint (Z.of_nat (size (admin_audit_log d))).

Definition q_InsertAdminAuditLog (adminUserID : option string)
  (adminEmail action targetType targetID : string) (payload : option json) (ip userAgent : string)
  (t : Time) (d : admin_db) : result (unit * admin_db) :=
  try id := bigint (admin_audit_log_id_seq d + 1) in
  try _ := fk_opt "admin_audit_log_admin_user_id_fkey" (admin_users d) adminUserID in
  Ok (tt, with_admin_audit_log (<[id := {|
    al_AdminUserID := adminUserID; al_AdminEmail := adminEmail; al_Action := action;
    al_TargetType := targetType; al_TargetID := targetID; al_Payload := payload; al_Ip := ip;
    al_UserAgent := userAgent; al_CreatedAt := tstz t |}]> (admin_audit_log d)) id d).

(** [ORDER BY id DESC]. *)
Definition audit_newest (x y : Z * AuditLogRow) : Prop := y.1 <= x.1.
#[global] Instance audit_newest_dec x y : Decision (audit_newest x y).
Proof. unfold audit_newest. apply _. Defined.

Definition q_ListAdminAuditLog (limit offset : Z) (d : admin_db)
  : result (list (Z * AuditLogRow)) :=
  page limit offset (merge_sort audit_newest (map_to_list (admin_audit_log d))).

(** * What the back office reads (sqlcgen/payments.sql.go, users.sql.go, accounts.sql.go, ...)

    The read-only statements of the dashboard over the tables of the program: users with
    their balances, both kinds of payments under the filters the dashboard offers, settlement
    batches, fraud signals and the figures of the landing page. *)

(** Rows that an ORDER BY does not tell apart come in any order, another one each time: most
    listings order by an instant alone.  [scan n] is the order in which the rows of a listing are
    visited when it is the [n]-th call of the store. *)
Class TieOrder := {
  scan {A} : nat -> list A -> list A;
  scan_perm {A} n (rows : list A) : scan n rows ≡ₚ rows;
}.

Section Scans.
Context {T : TieOrder}.

(** [ORDER BY] of the rows as they are visited. *)
Definition ordered {A} (R : relation A) `{!forall x y, Decision (R x y)} (n : nat) (rows : list A) : list A :=
  merge_sort R (scan n rows).

Lemma ordered_perm {A} (R : relation A) `{!forall x y, Decision (R x y)} n rows : ordered R n rows ≡ₚ rows.
Proof. unfold ordered. by rewrite merge_sort_Permutation, scan_perm. Qed.

Lemma ordered_sorted {A} (R : relation A) `{!forall x y, Decision (R x y)} `{!Total R} n rows :
  Sorted R (ordered R n rows).
Proof. apply (Sorted_merge_sort R). Qed.

(** The text of the enumerations. *)
Definition ceiling_status_text (s : CeilingStatus) : string :=
  match s with
  | CeilingActive => "ACTIVE" | CeilingExpired => "EXPIRED" | CeilingExhausted => "EXHAUSTED"
  | CeilingRevoked => "REVOKED" | CeilingRecoveryPending => "RECOVERY_PENDING"
  | CeilingUnset => ""
  end.

Definition signal_text (s : FraudSignalType) : string :=
  match s with
  | FraudDoubleSpend => "DOUBLE_SPEND" | FraudCeilingExhaustion => "CEILING_EXHAUSTION"
  | FraudGeographicAnomaly => "GEOGRAPHIC_ANOMALY" | FraudSequenceAnomaly => "SEQUENCE_ANOMALY"
  | FraudDeviceChange => "DEVICE_CHANGE" | FraudVelocityBreach => "VELOCITY_BREACH"
  | FraudSignatureInvalid => "SIGNATURE_INVALID"
  end.

Definition fraud_severity_text (s : Severity) : string :=
  match s with
  | SevLow => "LOW" | SevMedium => "MEDIUM" | SevHigh => "HIGH" | SevCritical => "CRITICAL"
  end.

(** MIN and MAX ignore NULLs. *)
Definition pick (better : Z -> Z -> bool) (x y : option Time) : option Time :=
  match x, y with
  | Some a, Some b => Some (if better a b then a else b)
  | Some a, None | None, Some a => Some a
  | None, None => None
  end.
Definition min_of (ts : list (option Time)) : option Time := foldr (pick Z.leb) None ts.
Definition max_of (ts : list (option Time)) : option Time := foldr (pick Z.geb) None ts.

Definition count_rows {A} (P : string -> A -> bool) (m : gmap string A) : Z :=
  Z.of_nat (length (rows_where P m)).

(** ** Users *)

(** The rows of [GetUserBalancesForAdmin], [ListUsersForAdmin] and
    [SearchUsersForAdminByPhone]. *)
Record UserBalancesRow := {
  ub_ID : string;
  ub_Phone : string;
  ub_KycTier : string;
  ub_RealmKeyVersion : Z;
  ub_CreatedAt : Time;
  ub_MainBalanceKobo : Z;
  ub_LienBalanceKobo : Z;
  ub_LastSeenAt : option Time;
}.

(** A user has one account of a kind at most (accounts_user_id_kind_key), so the left joins give
    one row a user. *)
Definition balance_or_zero (userID : string) (kind : AccountKind) (d : db) : Z :=
  match q_GetAccountByUserAndKind userID kind d with
  | Ok (_, a) => a_BalanceKobo a | Err _ => 0
  end.

Definition last_seen (userID : string) (d : db) : option Time :=
  max_of (map (fun kv : string * DeviceRow => dv_LastSeenAt kv.2)
    (rows_where (fun _ v => bool_decide (dv_UserID v = userID)) (devices d))).

Definition user_balances (d : db) (kv : string * User) : UserBalancesRow := {|
  ub_ID := kv.1; ub_Phone := u_Phone kv.2; ub_KycTier := u_KycTier kv.2;
  ub_RealmKeyVersion := u_RealmKeyVersion kv.2; ub_CreatedAt := u_CreatedAt kv.2;
  ub_MainBalanceKobo := balance_or_zero kv.1 AccountKindMain d;
  ub_LienBalanceKobo := balance_or_zero kv.1 AccountKindLienHolding d;
  ub_LastSeenAt := last_seen kv.1 d |}.

Definition q_GetUserBalancesForAdmin (id : string) (d : db) : result UserBalancesRow :=
  match users d !! id with Some u => Ok (user_balances d (id, u)) | None => Err ErrNoRows end.

(** [LIKE]: [%] is any text, [_] any character, a backslash takes the next one literally.  A pattern
    that ends in a lone backslash is an error of the server; those of the code end in [%]. *)
Fixpoint like (p s : string) : bool :=
  match p with
  | EmptyString => String.eqb s ""
  | String a p' =>
      if Ascii.eqb a "%" then
        (fix tails s := like p' s
          || match s with EmptyString => false | String _ s' => tails s' end) s
      else if Ascii.eqb a "_" then
        match s with EmptyString => false | String _ s' => like p' s' end
      else if Ascii.eqb a "\" then
        match p' with
        | EmptyString => false
        | String b p'' =>
            match s with
            | EmptyString => false
            | String c s' => Ascii.eqb b c && like p'' s'
            end
        end
      else
        match s with EmptyString => false | String c s' => Ascii.eqb a c && like p' s' end
  end.

Definition user_matches (pattern : string) (id : string) (u : User) : bool :=
  like pattern (lower (u_Phone u)) || like pattern (lower id).

Definition user_newest (x y : UserBalancesRow) : Prop := ub_CreatedAt y <= ub_CreatedAt x.
#[global] Instance user_newest_dec x y : Decision (user_newest x y).
Proof. unfold user_newest. apply _. Defined.

Definition users_page (P : string -> User -> bool) (limit offset : Z) (n : nat) (d : db)
  : result (list UserBalancesRow) :=
  page limit offset (ordered user_newest n (map (user_balances d) (rows_where P (users d)))).

Definition q_ListUsersForAdmin (limit offset : Z) (n : nat) (d : db)
  : result (list UserBalancesRow) :=
  users_page (fun _ _ => true) limit offset n d.

Definition q_SearchUsersForAdminByPhone (pattern : string) (limit offset : Z) (n : nat) (d : db)
  : result (list UserBalancesRow) :=
  users_page (user_matches pattern) limit offset n d.

Definition q_CountUsers (d : db) : result Z := bigint (count_rows (fun _ _ => true) (users d)).

Definition q_CountUsersByPhone (pattern : string) (d : db) : result Z :=
  bigint (count_rows (user_matches pattern) (users d)).

(** *** What belongs to one user *)

(** [ORDER BY kind] is by the text, the name of an output column. *)
Definition kind_le (x y : string * Account) : Prop :=
  string_leb (kind_text (a_Kind x.2)) (kind_text (a_Kind y.2)) = true.
#[global] Instance kind_le_dec x y : Decision (kind_le x y).
Proof. unfold kind_le. apply _. Defined.

Definition q_ListAccountsForAdmin (userID : string) (d : db) : result (list (string * Account)) :=
  Ok (merge_sort kind_le
        (rows_where (fun _ a => bool_decide (a_UserID a = userID)) (accounts d))).

Definition device_newest (x y : string * DeviceRow) : Prop :=
  dv_CreatedAt y.2 <= dv_CreatedAt x.2.
#[global] Instance device_newest_dec x y : Decision (device_newest x y).
Proof. unfold device_newest. apply _. Defined.

Definition q_ListDevicesForAdmin (userID : string) (n : nat) (d : db)
  : result (list (string * DeviceRow)) :=
  Ok (ordered device_newest n
        (rows_where (fun _ v => bool_decide (dv_UserID v = userID)) (devices d))).

Definition ceiling_newest (x y : string * CeilingRow) : Prop :=
  c_IssuedAt y.2 <= c_IssuedAt x.2.
#[global] Instance ceiling_newest_dec x y : Decision (ceiling_newest x y).
Proof. unfold ceiling_newest. apply _. Defined.

(** With what is left of each. *)
Definition q_ListCeilingsForAdmin (userID : string) (limit : Z) (n : nat) (d : db)
  : result (list (string * CeilingRow * Z)) :=
  try rows := page limit 0 (ordered ceiling_newest n
      (rows_where (fun _ c => bool_decide (c_PayerUserID c = userID)) (ceiling_tokens d))) in
  foldr (fun kv acc =>
    try rest := acc in
    try remaining := bigint (c_CeilingKobo kv.2 - sum_settled kv.1 d) in
    Ok ((kv, remaining) :: rest)) (Ok []) rows.

Definition q_ListFraudSignalsForAdmin (userID : string) (limit : Z) (n : nat) (d : db)
  : result (list (string * FraudSignalRow)) :=
  page limit 0 (ordered signal_newest n
    (rows_where (fun _ g => bool_decide (g_UserID g = userID)) (fraud_signals d))).

Definition q_ListFraudSignalsGlobal (limit offset : Z) (n : nat) (d : db)
  : result (list (string * FraudSignalRow)) :=
  page limit offset (ordered signal_newest n (map_to_list (fraud_signals d))).

Definition q_CountFraudSignalsGlobal (d : db) : result Z :=
  bigint (Z.of_nat (size (fraud_signals d))).

(** ** Payments and transfers in one shape *)

(** [adminrepo.TxnRow]: a payment of the offline flow or a transfer, told apart by [mv_Kind]. *)
Record Movement := {
  mv_ID : string;
  mv_PayerID : string;
  mv_PayeeID : string;
  mv_Amount : Z;
  mv_Settled : Z;
  mv_Status : string;
  mv_Sequence : Z;
  mv_CeilingID : string;
  mv_BatchID : option string;
  mv_RejectionReason : option string;
  mv_CreatedAt : Time;
  mv_SubmittedAt : option Time;
  mv_SettledAt : option Time;
  mv_Kind : string;
}.

Definition payment_movement (kv : string * PaymentRow) : Movement := {|
  mv_ID := kv.1; mv_PayerID := p_PayerUserID kv.2; mv_PayeeID := p_PayeeUserID kv.2;
  mv_Amount := p_AmountKobo kv.2; mv_Settled := p_SettledAmountKobo kv.2;
  mv_Status := status_text (p_Status kv.2); mv_Sequence := p_SequenceNumber kv.2;
  mv_CeilingID := p_CeilingID kv.2; mv_BatchID := p_SettlementBatchID kv.2;
  mv_RejectionReason := p_RejectionReason kv.2; mv_CreatedAt := p_CreatedAt kv.2;
  mv_SubmittedAt := p_SubmittedAt kv.2; mv_SettledAt := p_SettledAt kv.2;
  mv_Kind := "payment_token" |}.

Definition transfer_movement (kv : string * TransferRow) : Movement := {|
  mv_ID := kv.1; mv_PayerID := f_SenderUserID kv.2; mv_PayeeID := f_ReceiverUserID kv.2;
  mv_Amount := f_AmountKobo kv.2;
  mv_Settled := match f_Status kv.2 with StatusSettled => f_AmountKobo kv.2 | _ => 0 end;
  mv_Status := transfer_status_text (f_Status kv.2); mv_Sequence := 0; mv_CeilingID := "";
  mv_BatchID := None; mv_RejectionReason := f_FailureReason kv.2;
  mv_CreatedAt := f_CreatedAt kv.2; mv_SubmittedAt := None; mv_SettledAt := f_SettledAt kv.2;
  mv_Kind := "transfer" |}.

Definition movement_newest (x y : Movement) : Prop := mv_CreatedAt y <= mv_CreatedAt x.
#[global] Instance movement_newest_dec x y : Decision (movement_newest x y).
Proof. unfold movement_newest. apply _. Defined.

(** The WHERE clauses. *)
Definition has_text (status : string) (p : PaymentRow) : bool :=
  bool_decide (status_text (p_Status p) = status).
Definition paid_by (payer : string) (p : PaymentRow) : bool :=
  bool_decide (p_PayerUserID p = payer).
Definition paid_to (payee : string) (p : PaymentRow) : bool :=
  bool_decide (p_PayeeUserID p = payee).
Definition in_batch (batch : string) (p : PaymentRow) : bool :=
  bool_decide (p_SettlementBatchID p = Some batch).

Definition payments_page (P : PaymentRow -> bool) (limit offset : Z) (n : nat) (d : db)
  : result (list Movement) :=
  page limit offset (ordered movement_newest n
    (map payment_movement (rows_where (fun _ p => P p) (payment_tokens d)))).

Definition payments_count (P : PaymentRow -> bool) (d : db) : result Z :=
  bigint (count_rows (fun _ p => P p) (payment_tokens d)).

Definition q_ListPaymentTokensForAdmin (limit offset : Z) (n : nat) (d : db)
  : result (list Movement) :=
  page limit offset (ordered movement_newest n
    (map payment_movement (map_to_list (payment_tokens d))
     ++ map transfer_movement (map_to_list (transfers d)))).
Definition q_CountPaymentTokensForAdmin (d : db) : result Z :=
  bigint (Z.of_nat (size (payment_tokens d)) + Z.of_nat (size (transfers d))).

Definition q_ListPaymentTokensForAdminByBatch (batch : string) :=
  payments_page (in_batch batch).
Definition q_CountPaymentTokensForAdminByBatch (batch : string) :=
  payments_count (in_batch batch).
Definition q_ListPaymentTokensForAdminByPayee (payee : string) := payments_page (paid_to payee).
Definition q_CountPaymentTokensForAdminByPayee (payee : string) := payments_count (paid_to payee).
Definition q_ListPaymentTokensForAdminByPayer (payer : string) := payments_page (paid_by payer).
Definition q_CountPaymentTokensForAdminByPayer (payer : string) := payments_count (paid_by payer).
Definition q_ListPaymentTokensForAdminByPayerAndPayee (payer payee : string) :=
  payments_page (fun p => paid_by payer p && paid_to payee p).
Definition q_CountPaymentTokensForAdminByPayerAndPayee (payer payee : string) :=
  payments_count (fun p => paid_by payer p && paid_to payee p).
Definition q_ListPaymentTokensForAdminByStatus (status : string) :=
  payments_page (has_text status).
Definition q_CountPaymentTokensForAdminByStatus (status : string) :=
  payments_count (has_text status).
Definition q_ListPaymentTokensForAdminByStatusAndPayee (status payee : string) :=
  payments_page (fun p => has_text status p && paid_to payee p).
Definition q_CountPaymentTokensForAdminByStatusAndPayee (status payee : string) :=
  payments_count (fun p => has_text status p && paid_to payee p).
Definition q_ListPaymentTokensForAdminByStatusAndPayer (status payer : string) :=
  payments_page (fun p => has_text status p && paid_by payer p).
Definition q_CountPaymentTokensForAdminByStatusAndPayer (status payer : string) :=
  payments_count (fun p => has_text status p && paid_by payer p).
Definition q_ListPaymentTokensForAdminByStatusAndPayerAndPayee (status payer payee : string) :=
  payments_page (fun p => has_text status p && paid_by payer p && paid_to payee p).
Definition q_CountPaymentTokensForAdminByStatusAndPayerAndPayee (status payer payee : string) :=
  payments_count (fun p => has_text status p && paid_by payer p && paid_to payee p).

Definition q_GetPaymentTokenForAdmin (id : string) (d : db) : result Movement :=
  match payment_tokens d !! id with
  | Some p => Ok (payment_movement (id, p)) | None => Err ErrNoRows
  end.

Definition q_GetTransferForAdmin (id : string) (d : db) : result Movement :=
  match transfers d !! id with
  | Some f => Ok (transfer_movement (id, f)) | None => Err ErrNoRows
  end.

(** ** Settlement batches *)

Record SettlementBatchRow := {
  sbr_ID : string;
  sbr_TxnCount : Z;
  sbr_SubmittedVolumeKobo : Z;
  sbr_SettledVolumeKobo : Z;
  sbr_FirstSubmittedAt : option Time;
  sbr_LastSettledAt : option Time;
}.

(** The aggregates over some payments; the SUMs are cast to BIGINT. *)
Definition sum_of {A} (f : A -> Z) (xs : list A) : Z := foldr (fun x acc => f x + acc) 0 xs.

Definition batch_row (batch : string) (ps : list PaymentRow) : result SettlementBatchRow :=
  try n := bigint (Z.of_nat (length ps)) in
  try submitted := bigint (sum_of p_AmountKobo ps) in
  try settled := bigint (sum_of p_SettledAmountKobo ps) in
  Ok {| sbr_ID := batch; sbr_TxnCount := n; sbr_SubmittedVolumeKobo := submitted;
        sbr_SettledVolumeKobo := settled;
        sbr_FirstSubmittedAt := min_of (map p_SubmittedAt ps);
        sbr_LastSettledAt := max_of (map p_SettledAt ps) |}.

Definition payments_in (batch : string) (d : db) : list PaymentRow :=
  map snd (rows_where (fun _ p => in_batch batch p) (payment_tokens d)).

(** An aggregate has a row, whether or not the batch has payments. *)
Definition q_GetSettlementBatchHeader (batch : string) (d : db) : result SettlementBatchRow :=
  batch_row batch (payments_in batch d).

(** [GROUP BY status]. *)
Definition q_GetSettlementBatchStatusCounts (batch : string) (d : db)
  : result (list (string * Z)) :=
  let texts := map (fun p => status_text (p_Status p)) (payments_in batch d) in
  foldr (fun s acc =>
    try rest := acc in
    try n := bigint (Z.of_nat (length (List.filter (String.eqb s) texts))) in
    Ok ((s, n) :: rest)) (Ok []) (remove_dups texts).

Definition batch_ids (d : db) : list string :=
  remove_dups (omap (fun kv : string * PaymentRow => p_SettlementBatchID kv.2)
    (map_to_list (payment_tokens d))).

Definition q_CountSettlementBatches (d : db) : result Z :=
  bigint (Z.of_nat (length (batch_ids d))).

(** [MAX(COALESCE(settled_at, submitted_at, created_at))]. *)
Definition last_touched (p : PaymentRow) : option Time :=
  match p_SettledAt p, p_SubmittedAt p with
  | Some t, _ | None, Some t => Some t
  | None, None => Some (p_CreatedAt p)
  end.
Definition batch_touched (d : db) (batch : string) : Time :=
  default 0 (max_of (map last_touched (payments_in batch d))).

Definition batch_latest (d : db) (x y : string) : Prop := batch_touched d y <= batch_touched d x.
#[global] Instance batch_latest_dec d x y : Decision (batch_latest d x y).
Proof. unfold batch_latest. apply _. Defined.

Definition q_ListSettlementBatches (limit offset : Z) (n : nat) (d : db)
  : result (list SettlementBatchRow) :=
  try ids := page limit offset (ordered (batch_latest d) n (batch_ids d)) in
  foldr (fun id acc =>
    try rest := acc in
    try row := q_GetSettlementBatchHeader id d in Ok (row :: rest)) (Ok []) ids.

(** ** The landing page *)

Record AdminOverviewStatsRow := {
  ov_UsersTotal : Z;
  ov_UsersActive24h : Z;
  ov_UsersActive7d : Z;
  ov_DevicesActive : Z;
  ov_LienFloatKobo : Z;
  ov_PendingSettlementKobo : Z;
  ov_TxnCount24h : Z;
  ov_TxnVolume24hKobo : Z;
  ov_FraudSignals24h : Z;
  ov_CeilingsActive : Z;
}.

Definition active_users (since : Time) (d : db) : Z :=
  Z.of_nat (length (remove_dups (map (fun kv : string * DeviceRow => dv_UserID kv.2)
    (rows_where (fun _ v => match dv_LastSeenAt v with Some t => since <? t | None => false end)
       (devices d))))).

Definition kind_balance (kind : AccountKind) (d : db) : Z :=
  sum_rows (fun _ a => if bool_decide (a_Kind a = kind) then a_BalanceKobo a else 0) (accounts d).

Definition recent_payment (since : Time) (p : PaymentRow) : bool := since <? p_CreatedAt p.
Definition recent_transfer (since : Time) (f : TransferRow) : bool := since <? f_CreatedAt f.

Definition q_AdminOverviewStats (t : Time) (d : db) : result AdminOverviewStatsRow :=
  let day := tstz t - Day in
  let week := tstz t - 7 * Day in
  try users_total := bigint (Z.of_nat (size (users d))) in
  try active24 := bigint (active_users day d) in
  try active7 := bigint (active_users week d) in
  try devices_active := bigint (count_rows (fun _ v => dv_Active v) (devices d)) in
  try lien := bigint (kind_balance AccountKindLienHolding d) in
  try pending := bigint (kind_balance AccountKindReceivingPending d) in
  try count := bigint (count_rows (fun _ p => recent_payment day p) (payment_tokens d)
                       + count_rows (fun _ f => recent_transfer day f) (transfers d)) in
  try volume := bigint
      (sum_rows (fun _ p => if recent_payment day p then p_AmountKobo p else 0) (payment_tokens d)
       + sum_rows (fun _ f => if recent_transfer day f then f_AmountKobo f else 0)
           (transfers d)) in
  try signals := bigint (count_rows (fun _ g => day <? g_CreatedAt g) (fraud_signals d)) in
  try ceilings := bigint
      (count_rows (fun _ c => bool_decide (c_Status c = CeilingActive)) (ceiling_tokens d)) in
  Ok {| ov_UsersTotal := users_total; ov_UsersActive24h := active24; ov_UsersActive7d := active7;
        ov_DevicesActive := devices_active; ov_LienFloatKobo := lien;
        ov_PendingSettlementKobo := pending; ov_TxnCount24h := count;
        ov_TxnVolume24hKobo := volume; ov_FraudSignals24h := signals;
        ov_CeilingsActive := ceilings |}.

(** The amounts and instants of both kinds of payments, one per row. *)
Definition movements_since (since : Time) (d : db) : list (Z * Time) :=
  (map (fun kv : string * PaymentRow => (p_AmountKobo kv.2, p_CreatedAt kv.2))
     (rows_where (fun _ p => recent_payment since p) (payment_tokens d))
   ++ map (fun kv : string * TransferRow => (f_AmountKobo kv.2, f_CreatedAt kv.2))
     (rows_where (fun _ f => recent_transfer since f) (transfers d)))%list.

Record VolumeRow := { vr_Day : Time; vr_Count : Z; vr_VolumeKobo : Z }.

(** [date_trunc('day', ...)] in the time zone of the session. *)
Definition day_of {P : PgSession} (t : Time) : Time :=
  let wall := t + session_offset in wall - wall mod Day - session_offset.

(** [GROUP BY 1 ORDER BY 1]. *)
Definition q_AdminVolumeSeries {P : PgSession} (days : Z) (t : Time) (d : db)
  : result (list VolumeRow) :=
  let ms := movements_since (tstz t - days * Day) d in
  foldr (fun day acc =>
    try rest := acc in
    let own := List.filter (fun m : Z * Time => day_of m.2 =? day) ms in
    try n := bigint (Z.of_nat (length own)) in
    try volume := bigint (sum_of fst own) in
    Ok ({| vr_Day := day; vr_Count := n; vr_VolumeKobo := volume |} :: rest))
    (Ok []) (merge_sort Z.le (remove_dups (map (fun m => day_of m.2) ms))).

End Scans.
