(* ===== verification/AdminRepo.v ===== *)
(** * The repository of the back office (internal/repository/adminrepo/repo.go)

    Staff accounts and sessions with their transactions, the audit log, and the projections
    of the dashboard. *)

From S2P Require Import Prelude Float Domain Json Store AuthStore Transfer Reconcile Listings BffAccounts AdminStore.

#[local] Open Scope string_scope.
#[local] Open Scope Z_scope.

Definition Adminrepo_ErrNotFound : error := ErrNew "adminrepo: not found".

(** The back office has no effects outside of its database. *)
Abbreviation adminop A := (op admin_db Empty_set A) (only parsing).

Record AdminUser := {
  ar_ID : string;
  ar_Email : string;
  ar_FullName : string;
  ar_Status : string;
  ar_Created : Time;
}.

Record CreateAdminInput := {
  ci_AdminID : string;
  ci_Email : string;
  ci_FullName : string;
  ci_PasswordHash : string;
  ci_Roles : list string;
}.

Record AdminSession := {
  as_SessionID : string;
  as_AdminUserID : string;
  as_Revoked : option Time;
  as_Expires : Time;
}.

(** [adminrepo.AuditEntry]: no actor is NULL, no payload is NULL. *)
Record RepoAuditEntry := {
  ra_ActorID : string;
  ra_ActorEmail : string;
  ra_Action : string;
  ra_TargetType : string;
  ra_TargetID : string;
  ra_Payload : option json;
  ra_IP : string;
  ra_UserAgent : string;
}.

Record AuditRow := {
  au_ID : Z;
  au_ActorEmail : string;
  au_Action : string;
  au_TargetType : string;
  au_TargetID : string;
  au_IP : string;
  au_CreatedAt : Time;
}.

(** [adminrepo.UserRow]. *)
Record UserRow := {
  ur_ID : string;
  ur_Phone : string;
  ur_KYCTier : string;
  ur_RealmKeyVer : Z;
  ur_CreatedAt : Time;
  ur_MainBalance : Z;
  ur_LienBalance : Z;
  ur_LastSeenAt : option Time;
}.

Record AdminAccountRow := { aa_ID : string; aa_Kind : string; aa_Balance : Z }.

Record AdminDeviceRow := {
  av_ID : string;
  av_Active : bool;
  av_LastSeenAt : option Time;
  av_CreatedAt : Time;
}.

Record AdminCeilingRow := {
  ac_ID : string;
  ac_Status : string;
  ac_Amount : Z;
  ac_Remaining : Z;
  ac_IssuedAt : Time;
  ac_ExpiresAt : Time;
}.

Record FraudRow := {
  fr_ID : string;
  fr_Signal : string;
  fr_Severity : string;
  fr_Weight : float;
  fr_CreatedAt : Time;
}.

Record FraudGlobalRow := {
  fg_ID : string;
  fg_UserID : string;
  fg_Signal : string;
  fg_Severity : string;
  fg_Weight : float;
  fg_Details : string;
  fg_CeilingTokenID : option string;
  fg_TransactionID : option string;
  fg_CreatedAt : Time;
}.

(** [adminrepo.TxnRow]. *)
Record TransactionRow := {
  tw_ID : string;
  tw_PayerID : string;
  tw_PayeeID : string;
  tw_Amount : Z;
  tw_Settled : Z;
  tw_Status : string;
  tw_Sequence : Z;
  tw_CeilingID : string;
  tw_BatchID : option string;
  tw_RejectionReason : option string;
  tw_CreatedAt : Time;
  tw_SubmittedAt : option Time;
  tw_SettledAt : option Time;
  tw_Kind : string;
}.

(** The empty string is no filter. *)
Record TxnFilter := {
  tf_Status : string;
  tf_Payer : string;
  tf_Payee : string;
  tf_Batch : string;
}.

Record TxnPage := { tp_Limit : Z; tp_Offset : Z }.

Record OverviewStats := {
  ow_UsersTotal : Z;
  ow_UsersActive24h : Z;
  ow_UsersActive7d : Z;
  ow_DevicesActive : Z;
  ow_LienFloat : Z;
  ow_PendingSettlement : Z;
  ow_TxnCount24h : Z;
  ow_TxnVolume24h : Z;
  ow_FraudSignals24h : Z;
  ow_CeilingsActive : Z;
}.

Record VolumePoint := { vp_Day : Time; vp_Count : Z; vp_Volume : Z }.

(** [adminrepo.SettlementBatch]. *)
Record RepoBatch := {
  rb_ID : string;
  rb_TxnCount : Z;
  rb_SubmittedVol : Z;
  rb_SettledVol : Z;
  rb_FirstSubmitted : option Time;
  rb_LastSettled : option Time;
}.

Record KYCSubmissionRow := {
  ky_ID : string;
  ky_UserID : string;
  ky_IDType : string;
  ky_IDNumber : string;
  ky_Status : string;
  ky_RejectionReason : option string;
  ky_TierGranted : option string;
  ky_SubmittedBy : option string;
  ky_SubmittedAt : Time;
  ky_VerifiedAt : option Time;
}.

(** ** Rows *)

Definition admin_user (r : string * AdminUserRow) : AdminUser := {|
  ar_ID := r.1; ar_Email := ad_Email r.2; ar_FullName := ad_FullName r.2;
  ar_Status := ad_Status r.2; ar_Created := ad_CreatedAt r.2 |}.

Definition user_row (r : UserBalancesRow) : UserRow := {|
  ur_ID := ub_ID r; ur_Phone := ub_Phone r; ur_KYCTier := ub_KycTier r;
  ur_RealmKeyVer := ub_RealmKeyVersion r; ur_CreatedAt := ub_CreatedAt r;
  ur_MainBalance := ub_MainBalanceKobo r; ur_LienBalance := ub_LienBalanceKobo r;
  ur_LastSeenAt := ub_LastSeenAt r |}.

Definition txn_row (r : Movement) : TransactionRow := {|
  tw_ID := mv_ID r; tw_PayerID := mv_PayerID r; tw_PayeeID := mv_PayeeID r;
  tw_Amount := mv_Amount r; tw_Settled := mv_Settled r; tw_Status := mv_Status r;
  tw_Sequence := mv_Sequence r; tw_CeilingID := mv_CeilingID r; tw_BatchID := mv_BatchID r;
  tw_RejectionReason := mv_RejectionReason r; tw_CreatedAt := mv_CreatedAt r;
  tw_SubmittedAt := mv_SubmittedAt r; tw_SettledAt := mv_SettledAt r; tw_Kind := mv_Kind r |}.

(** One conversion per statement, all alike. *)
Definition txnRowFromBatch : Movement -> TransactionRow := txn_row.
Definition mapTxnAll : list Movement -> list TransactionRow := map txn_row.
Definition mapTxnState : list Movement -> list TransactionRow := map txn_row.
Definition mapTxnPayer : list Movement -> list TransactionRow := map txn_row.
Definition mapTxnPayee : list Movement -> list TransactionRow := map txn_row.
Definition mapTxnStatePayer : list Movement -> list TransactionRow := map txn_row.
Definition mapTxnStatePayee : list Movement -> list TransactionRow := map txn_row.
Definition mapTxnPayerPayee : list Movement -> list TransactionRow := map txn_row.
Definition mapTxnStatePayerPayee : list Movement -> list TransactionRow := map txn_row.

Definition repo_batch (r : SettlementBatchRow) : RepoBatch := {|
  rb_ID := sbr_ID r; rb_TxnCount := sbr_TxnCount r; rb_SubmittedVol := sbr_SubmittedVolumeKobo r;
  rb_SettledVol := sbr_SettledVolumeKobo r; rb_FirstSubmitted := sbr_FirstSubmittedAt r;
  rb_LastSettled := sbr_LastSettledAt r |}.

Section AdminRepo.
Context {E : Env} {T : TieOrder}.

(** Statements on the tables of the program. *)
Definition core_query {A} (f : db -> result A) : adminop A := query (fun d => f (core d)).
(** A listing of them, whose ties fall as they do for this call of the store. *)
Definition core_listing {A} (f : nat -> db -> result A) : adminop A :=
  fun w => core_query (f (w_ops w)) w.
Definition core_query_at {A} (f : Time -> db -> result A) : adminop A :=
  exec (fun t d => result_map (fun a => (a, d)) (f t (core d))).

(** No deferred constraint watches the tables of the back office. *)
Definition admin_tx {A} (m : adminop A) : adminop A := tx (fun _ => Ok tt) m.

(** [if errors.Is(err, pgx.ErrNoRows) { return ErrNotFound }]. *)
Definition or_missing {A} (m : adminop A) : adminop A :=
  let! r := attempt m in
  match r with
  | Ok a => ret a
  | Err e => throw (if errors_is e ErrNoRows then Adminrepo_ErrNotFound else e)
  end.

(** ** Staff and sessions *)

Definition create_in_tx (i : CreateAdminInput) : adminop AdminUser :=
  do! exec (q_CreateAdminUser (ci_AdminID i) (ci_Email i) (ci_FullName i) (ci_PasswordHash i)) in
  do! for_each (ci_Roles i) (fun _ name =>
        wrapping ("grant role " ++ name) (exec (q_GrantAdminRoleByName (ci_AdminID i) name))) tt in
  let! row := query (q_GetAdminUserByID (ci_AdminID i)) in ret (admin_user row).

Definition Adminrepo_CreateAdmin (i : CreateAdminInput) : adminop AdminUser :=
  admin_tx (create_in_tx i).

Definition GetAdminForLogin (email : string) : adminop (AdminUser * string) :=
  let! row := or_missing (query (q_GetAdminUserForLogin email)) in
  ret (admin_user row, ad_PasswordHash row.2).

Definition GetAdminByID (id : string) : adminop AdminUser :=
  let! row := or_missing (query (q_GetAdminUserByID id)) in ret (admin_user row).

Definition TouchAdminLastLogin (id : string) : adminop unit := exec (q_TouchAdminUserLastLogin id).

Definition ListAdminRoleNames (id : string) : adminop (list string) :=
  query (q_ListAdminRoleNamesForUser id).

Definition CreateAdminSession (id adminUserID refreshHash ua ip : string) (expiresAt : Time)
  : adminop unit :=
  exec (q_CreateAdminSession id adminUserID refreshHash ua ip expiresAt).

Definition GetAdminSessionByRefreshHash (refreshHash : string) : adminop AdminSession :=
  let! row := or_missing (query (q_GetAdminSessionByRefreshHash refreshHash)) in
  ret {| as_SessionID := row.1; as_AdminUserID := an_AdminUserID row.2;
         as_Revoked := an_RevokedAt row.2; as_Expires := an_ExpiresAt row.2 |}.

Definition RevokeAdminSessionByHash (refreshHash : string) : adminop unit :=
  exec (q_RevokeAdminSessionByHash refreshHash).

Definition RotateAdminSession (oldSessionID newSessionID adminUserID newRefreshHash : string)
  (newExpiresAt : Time) : adminop unit :=
  admin_tx
    (do! exec (q_RevokeAdminSessionByID oldSessionID) in
     exec (q_CreateAdminSessionRotation newSessionID adminUserID newRefreshHash newExpiresAt)).

(** ** The audit log *)

Definition InsertAuditLog (e : RepoAuditEntry) : adminop unit :=
  let actorID := if bool_decide (ra_ActorID e = "") then None else Some (ra_ActorID e) in
  exec (q_InsertAdminAuditLog actorID (ra_ActorEmail e) (ra_Action e) (ra_TargetType e)
          (ra_TargetID e) (ra_Payload e) (ra_IP e) (ra_UserAgent e)).

Definition CountAuditLog : adminop Z := query q_CountAdminAuditLog.

Definition ListAuditLog (limit offset : Z) : adminop (list AuditRow) :=
  let! rows := query (q_ListAdminAuditLog limit offset) in
  ret (map (fun r : Z * AuditLogRow => {|
    au_ID := r.1; au_ActorEmail := al_AdminEmail r.2; au_Action := al_Action r.2;
    au_TargetType := al_TargetType r.2; au_TargetID := al_TargetID r.2; au_IP := al_Ip r.2;
    au_CreatedAt := al_CreatedAt r.2 |}) rows).

(** ** Users *)

Definition GetUserWithBalances (id : string) : adminop UserRow :=
  let! row := or_missing (core_query (q_GetUserBalancesForAdmin id)) in ret (user_row row).

Definition Adminrepo_ListUsers (limit offset : Z) : adminop (list UserRow) :=
  let! rows := core_listing (q_ListUsersForAdmin limit offset) in ret (map user_row rows).

Definition SearchUsersByPhone (pattern : string) (limit offset : Z) : adminop (list UserRow) :=
  let! rows := core_listing (q_SearchUsersForAdminByPhone pattern limit offset) in
  ret (map user_row rows).

Definition CountUsers : adminop Z := core_query q_CountUsers.
Definition CountUsersByPhone (pattern : string) : adminop Z :=
  core_query (q_CountUsersByPhone pattern).

Definition ListAccountsForUser (userID : string) : adminop (list AdminAccountRow) :=
  let! rows := core_query (q_ListAccountsForAdmin userID) in
  ret (map (fun r : string * Account =>
    {| aa_ID := r.1; aa_Kind := kind_text (a_Kind r.2); aa_Balance := a_BalanceKobo r.2 |}) rows).

Definition ListDevicesForUser (userID : string) : adminop (list AdminDeviceRow) :=
  let! rows := core_listing (q_ListDevicesForAdmin userID) in
  ret (map (fun r : string * DeviceRow =>
    {| av_ID := r.1; av_Active := dv_Active r.2; av_LastSeenAt := dv_LastSeenAt r.2;
       av_CreatedAt := dv_CreatedAt r.2 |}) rows).

Definition ListCeilingsForUser (userID : string) (limit : Z) : adminop (list AdminCeilingRow) :=
  let! rows := core_listing (q_ListCeilingsForAdmin userID limit) in
  ret (map (fun r : string * CeilingRow * Z =>
    {| ac_ID := r.1.1; ac_Status := ceiling_status_text (c_Status r.1.2);
       ac_Amount := c_CeilingKobo r.1.2; ac_Remaining := r.2; ac_IssuedAt := c_IssuedAt r.1.2;
       ac_ExpiresAt := c_ExpiresAt r.1.2 |}) rows).

(** ** Fraud signals *)

Definition Adminrepo_ListFraudSignalsForUser (userID : string) (limit : Z)
  : adminop (list FraudRow) :=
  let! rows := core_listing (q_ListFraudSignalsForAdmin userID limit) in
  ret (map (fun r : string * FraudSignalRow =>
    {| fr_ID := r.1; fr_Signal := signal_text (g_SignalType r.2);
       fr_Severity := fraud_severity_text (g_Severity r.2); fr_Weight := g_Weight r.2;
       fr_CreatedAt := g_CreatedAt r.2 |}) rows).

Definition ListFraudSignalsGlobal (limit offset : Z) : adminop (list FraudGlobalRow) :=
  let! rows := core_listing (q_ListFraudSignalsGlobal limit offset) in
  ret (map (fun r : string * FraudSignalRow =>
    {| fg_ID := r.1; fg_UserID := g_UserID r.2; fg_Signal := signal_text (g_SignalType r.2);
       fg_Severity := fraud_severity_text (g_Severity r.2); fg_Weight := g_Weight r.2;
       fg_Details := g_Details r.2; fg_CeilingTokenID := g_CeilingTokenID r.2;
       fg_TransactionID := g_TransactionID r.2; fg_CreatedAt := g_CreatedAt r.2 |}) rows).

Definition CountFraudSignalsGlobal : adminop Z := core_query q_CountFraudSignalsGlobal.

(** ** Payments *)

Definition given (s : string) : bool := negb (bool_decide (s = "")).

Definition ListTxns (f : TxnFilter) (p : TxnPage) : adminop (list TransactionRow) :=
  let limit := tp_Limit p in
  let offset := tp_Offset p in
  if given (tf_Batch f) then
    let! rows := core_listing (q_ListPaymentTokensForAdminByBatch (tf_Batch f) limit offset) in
    ret (map txnRowFromBatch rows)
  else if given (tf_Status f) && given (tf_Payer f) && given (tf_Payee f) then
    let! rows := core_listing (q_ListPaymentTokensForAdminByStatusAndPayerAndPayee
                               (tf_Status f) (tf_Payer f) (tf_Payee f) limit offset) in
    ret (mapTxnStatePayerPayee rows)
  else if given (tf_Status f) && given (tf_Payer f) then
    let! rows := core_listing (q_ListPaymentTokensForAdminByStatusAndPayer
                               (tf_Status f) (tf_Payer f) limit offset) in
    ret (mapTxnStatePayer rows)
  else if given (tf_Status f) && given (tf_Payee f) then
    let! rows := core_listing (q_ListPaymentTokensForAdminByStatusAndPayee
                               (tf_Status f) (tf_Payee f) limit offset) in
    ret (mapTxnStatePayee rows)
  else if given (tf_Payer f) && given (tf_Payee f) then
    let! rows := core_listing (q_ListPaymentTokensForAdminByPayerAndPayee
                               (tf_Payer f) (tf_Payee f) limit offset) in
    ret (mapTxnPayerPayee rows)
  else if given (tf_Status f) then
    let! rows := core_listing (q_ListPaymentTokensForAdminByStatus (tf_Status f) limit offset) in
    ret (mapTxnState rows)
  else if given (tf_Payer f) then
    let! rows := core_listing (q_ListPaymentTokensForAdminByPayer (tf_Payer f) limit offset) in
    ret (mapTxnPayer rows)
  else if given (tf_Payee f) then
    let! rows := core_listing (q_ListPaymentTokensForAdminByPayee (tf_Payee f) limit offset) in
    ret (mapTxnPayee rows)
  else
    let! rows := core_listing (q_ListPaymentTokensForAdmin limit offset) in ret (mapTxnAll rows).

Definition CountTxns (f : TxnFilter) : adminop Z :=
  core_query
    (if given (tf_Batch f) then q_CountPaymentTokensForAdminByBatch (tf_Batch f)
     else if given (tf_Status f) && given (tf_Payer f) && given (tf_Payee f) then
       q_CountPaymentTokensForAdminByStatusAndPayerAndPayee (tf_Status f) (tf_Payer f) (tf_Payee f)
     else if given (tf_Status f) && given (tf_Payer f) then
       q_CountPaymentTokensForAdminByStatusAndPayer (tf_Status f) (tf_Payer f)
     else if given (tf_Status f) && given (tf_Payee f) then
       q_CountPaymentTokensForAdminByStatusAndPayee (tf_Status f) (tf_Payee f)
     else if given (tf_Payer f) && given (tf_Payee f) then
       q_CountPaymentTokensForAdminByPayerAndPayee (tf_Payer f) (tf_Payee f)
     else if given (tf_Status f) then q_CountPaymentTokensForAdminByStatus (tf_Status f)
     else if given (tf_Payer f) then q_CountPaymentTokensForAdminByPayer (tf_Payer f)
     else if given (tf_Payee f) then q_CountPaymentTokensForAdminByPayee (tf_Payee f)
     else q_CountPaymentTokensForAdmin).

(** A payment first, then a transfer. *)
Definition GetTxn (id : string) : adminop TransactionRow :=
  let! r := attempt (core_query (q_GetPaymentTokenForAdmin id)) in
  match r with
  | Ok row => ret (txn_row row)
  | Err e =>
      if negb (errors_is e ErrNoRows) then throw e
      else let! t := or_missing (core_query (q_GetTransferForAdmin id)) in ret (txn_row t)
  end.

(** ** Figures and batches *)

Definition Adminrepo_OverviewStats : adminop OverviewStats :=
  let! r := core_query_at q_AdminOverviewStats in
  ret {| ow_UsersTotal := ov_UsersTotal r; ow_UsersActive24h := ov_UsersActive24h r;
         ow_UsersActive7d := ov_UsersActive7d r; ow_DevicesActive := ov_DevicesActive r;
         ow_LienFloat := ov_LienFloatKobo r; ow_PendingSettlement := ov_PendingSettlementKobo r;
         ow_TxnCount24h := ov_TxnCount24h r; ow_TxnVolume24h := ov_TxnVolume24hKobo r;
         ow_FraudSignals24h := ov_FraudSignals24h r; ow_CeilingsActive := ov_CeilingsActive r |}.

Definition Adminrepo_VolumeSeries {P : PgSession} (days : Z) : adminop (list VolumePoint) :=
  let! rows := core_query_at (q_AdminVolumeSeries days) in
  ret (map (fun r => {| vp_Day := vr_Day r; vp_Count := vr_Count r; vp_Volume := vr_VolumeKobo r |})
         rows).

Definition CountSettlementBatches : adminop Z := core_query q_CountSettlementBatches.

Definition ListSettlementBatches (limit offset : Z) : adminop (list RepoBatch) :=
  let! rows := core_listing (q_ListSettlementBatches limit offset) in ret (map repo_batch rows).

Definition GetSettlementHeader (batchID : string) : adminop RepoBatch :=
  let! row := core_query (q_GetSettlementBatchHeader batchID) in ret (repo_batch row).

Definition GetSettlementStateCounts (batchID : string) : adminop (gmap string Z) :=
  let! rows := core_query (q_GetSettlementBatchStatusCounts batchID) in
  ret (foldl (fun m (r : string * Z) => <[r.1 := r.2]> m) ∅ rows).

(** ** Identity verification *)

Definition Adminrepo_GetUserPhone (userID : string) : adminop string :=
  or_missing (core_query (q_GetUserPhoneByID userID)).

Definition ListKYCByUser (userID : string) : adminop (list KYCSubmissionRow) :=
  let! rows := core_query (q_ListKYCSubmissionsByUser userID) in
  ret (map (fun r : string * KycSubmissionRow => {|
    ky_ID := r.1; ky_UserID := ks_UserID r.2; ky_IDType := ks_IDType r.2;
    ky_IDNumber := ks_IDNumber r.2; ky_Status := ks_Status r.2;
    ky_RejectionReason := ks_RejectionReason r.2; ky_TierGranted := ks_TierGranted r.2;
    ky_SubmittedBy := ks_SubmittedBy r.2; ky_SubmittedAt := ks_SubmittedAt r.2;
    ky_VerifiedAt := ks_VerifiedAt r.2 |}) rows).

End AdminRepo.
