(* ===== verification/Admin.v ===== *)
(** * The back office (internal/service/admin)

    Staff sign in with e-mail and password, hold an access token that names their roles and a
    refresh session, and read the dashboard, whose pages follow. *)

From Stdlib Require Import Ascii.
From S2P Require Import Prelude Float Domain Json Crypto Store AuthStore Parse Decode Tokens Text UserAuth Kyc Reconcile Transfer Listings BffAccounts AdminStore AdminRepo.

#[local] Open Scope string_scope.
#[local] Open Scope Z_scope.

(** ** Access tokens (jwt.go) *)

Definition Admin_ErrInvalidToken : error := ErrNew "admin: invalid token".
Definition Admin_ErrExpired : error := ErrNew "admin: token expired".

Record AdminClaims := {
  cl_Sub : string;
  cl_Email : string;
  cl_Roles : list string;
  cl_Iat : Z;
  cl_Exp : Z;
  cl_Aud : string;
}.

Record AdminSigner := { sg_Secret : bytes; sg_Audience : string; sg_TTL : Duration }.

(** The roles come from [ListAdminRoleNames], which never answers a nil slice. *)
Definition admin_fields (c : AdminClaims) : list (string * result json) :=
  [("sub", js (cl_Sub c)); ("email", js (cl_Email c));
   ("roles", Ok (JArr (map marshal_string (cl_Roles c))));
   ("iat", jn (cl_Iat c)); ("exp", jn (cl_Exp c)); ("aud", js (cl_Aud c))].
Definition AdminClaims_json (c : AdminClaims) : result json := json_object (admin_fields c).

(** A slice of strings, decoded element by element over what the slice held before. *)
Fixpoint dec_string_list (old : list string) (xs : list tree) : list string * bool :=
  match xs with
  | [] => ([], true)
  | x :: xs =>
      let '(s, ok) := dec_string (default "" (head old)) x in
      let '(rest, ok') := dec_string_list (tail old) xs in (s :: rest, ok && ok')
  end.
Definition dec_strings : decoder (list string) := fun old v =>
  match v with
  | TArr xs => dec_string_list old xs
  | TNull => ([], true)
  | _ => (old, false)
  end.

Definition admin_members (c : AdminClaims) (ms : list (string * tree)) : AdminClaims * bool :=
  (field u := member "sub" dec_string (cl_Sub c) ms in
   field m := member "email" dec_string (cl_Email c) ms in
   field r := member "roles" dec_strings (cl_Roles c) ms in
   field i := member "iat" dec_int64 (cl_Iat c) ms in
   field e := member "exp" dec_int64 (cl_Exp c) ms in
   field a := member "aud" dec_string (cl_Aud c) ms in
   ({| cl_Sub := u; cl_Email := m; cl_Roles := r; cl_Iat := i; cl_Exp := e; cl_Aud := a |},
    true))%op.
Definition dec_AdminClaims : decoder AdminClaims := dec_struct admin_members.

Definition no_admin_claims : AdminClaims :=
  {| cl_Sub := ""; cl_Email := ""; cl_Roles := []; cl_Iat := 0; cl_Exp := 0; cl_Aud := "" |}.

Definition claims_at (s : AdminSigner) (sub email : string) (roles : list string) (t : Time)
  : AdminClaims := {|
  cl_Sub := sub; cl_Email := email; cl_Roles := roles; cl_Iat := Unix t;
  cl_Exp := Unix (t + sg_TTL s); cl_Aud := sg_Audience s |}.

Section AdminTokens.
Context {C : Ed25519}.

Definition admin_Sign (s : AdminSigner) (sub email : string) (roles : list string) (now : Time)
  : result string :=
  let c := claims_at s sub email roles now in
  try hb := Marshal jwt_header in
  try cb := Marshal (AdminClaims_json c) in
  let signingInput := b64 hb ++ "." ++ b64 cb in
  Ok (signingInput ++ "." ++ b64 (hmac_sha256 (sg_Secret s) signingInput)).

Definition admin_invalid {A} (o : option A) : result A :=
  match o with Some a => Ok a | None => Err Admin_ErrInvalidToken end.

Definition admin_Verify (s : AdminSigner) (tok : string) (now : Time) : result AdminClaims :=
  match split_dots tok with
  | [h; c; g] =>
      let expected := hmac_sha256 (sg_Secret s) (h ++ "." ++ c) in
      try got := admin_invalid (b64d g) in
      if negb (bool_decide (expected = got)) then Err Admin_ErrInvalidToken
      else
        try cb := admin_invalid (b64d c) in
        try c := admin_invalid (Unmarshal dec_AdminClaims no_admin_claims cb) in
        if negb (cl_Exp c =? 0) && (cl_Exp c <? Unix now) then Err Admin_ErrExpired
        else if negb (bool_decide (sg_Audience s = "")) && negb (bool_decide (cl_Aud c = sg_Audience s))
        then Err (ErrNew "admin: wrong audience")
        else Ok c
  | _ => Err Admin_ErrInvalidToken
  end.

End AdminTokens.

(** ** The service (service.go) *)

Definition RoleViewer : string := "VIEWER".
Definition RoleSupport : string := "SUPPORT".
Definition RoleFinanceOps : string := "FINANCE_OPS".
Definition RoleFraudOps : string := "FRAUD_OPS".
Definition RoleSuperAdmin : string := "SUPERADMIN".

Record AdminService := { sv_Signer : AdminSigner; sv_RefreshTTL : Duration }.

(** [admin.AdminUser], with the roles. *)
Record StaffUser := {
  sf_ID : string;
  sf_Email : string;
  sf_FullName : string;
  sf_Status : string;
  sf_Roles : list string;
  sf_Created : Time;
}.

Definition staff_user (u : AdminUser) (roles : list string) : StaffUser := {|
  sf_ID := ar_ID u; sf_Email := ar_Email u; sf_FullName := ar_FullName u;
  sf_Status := ar_Status u; sf_Roles := roles; sf_Created := ar_Created u |}.

Record LoginResult := {
  lo_Access : string;
  lo_Refresh : string;
  lo_ExpiresAt : Time;
  lo_RefreshExp : Time;
  lo_User : StaffUser;
}.

(** [admin.AuditEntry]; the payload is what encoding/json makes of the value given. *)
Record AuditEntry := {
  ae_ActorID : string;
  ae_ActorEmail : string;
  ae_Action : string;
  ae_TargetType : string;
  ae_TargetID : string;
  ae_Payload : option (result json);
  ae_IP : string;
  ae_UserAgent : string;
}.

Section Admin.
Context {E : Env} {C : Ed25519} {AL : AuthLib}.
Variable s : AdminService.

(** A draw from [crypto/rand]. *)
Definition admin_rand : adminop bytes := fun w =>
  (Ok (random_bytes (w_ids w)),
   World (w_st w) (S (w_ids w)) (w_clk w) (w_ops w) (w_log w)).

Definition Admin_newID : adminop string := let! i := fresh in ret (ToLower i).

Definition Admin_hashRefresh (tok : string) : string := EncodeToString (sha256 tok).

Definition Admin_newRefreshToken : adminop (string * string) :=
  let! b := admin_rand in
  let token := EncodeToString b in ret (token, Admin_hashRefresh token).

(** [s[:n]] of a longer text. *)
Definition Admin_truncate (t : string) (n : nat) : string :=
  if (String.length t <=? n)%nat then t else String.substring 0 n t.

Definition CreateAdmin (email fullName password : string) (roles : list string)
  : adminop StaffUser :=
  if bool_decide (password = "") then throw (ErrNew "password required")
  else
    let! salt := admin_rand in
    let! hash := lift (bcrypt_generate salt password) in
    let! id := Admin_newID in
    let! out := Adminrepo_CreateAdmin {|
      ci_AdminID := id; ci_Email := ToLower email; ci_FullName := fullName;
      ci_PasswordHash := hash; ci_Roles := roles |} in
    ret (staff_user out roles).

(** [s.Signer.Sign]. *)
Definition admin_sign (u : StaffUser) : adminop string :=
  let! t := now in lift (admin_Sign (sv_Signer s) (sf_ID u) (sf_Email u) (sf_Roles u) t).

Definition Login (email password ua ip : string) : adminop LoginResult :=
  let! r := attempt (GetAdminForLogin (ToLower email)) in
  match r with
  | Err _ => throw (ErrNew "invalid credentials")
  | Ok (row, hash) =>
      if negb (bool_decide (ar_Status row = "ACTIVE")) then throw (ErrNew "account not active")
      else if negb (bcrypt_matches hash password) then throw (ErrNew "invalid credentials")
      else
        let! roles := ListAdminRoleNames (ar_ID row) in
        let u := staff_user row roles in
        let! access := admin_sign u in
        let! tok := Admin_newRefreshToken in
        let! t := now in
        let exp := t + sv_RefreshTTL s in
        let! id := Admin_newID in
        do! CreateAdminSession id (sf_ID u) tok.2 (Admin_truncate ua 512) (Admin_truncate ip 64)
              exp in
        do! attempt (TouchAdminLastLogin (sf_ID u)) in
        let! t' := now in
        ret {| lo_Access := access; lo_Refresh := tok.1;
               lo_ExpiresAt := t' + sg_TTL (sv_Signer s); lo_RefreshExp := exp; lo_User := u |}
  end.

Definition Admin_Refresh (refresh : string) : adminop LoginResult :=
  let! r := attempt (GetAdminSessionByRefreshHash (Admin_hashRefresh refresh)) in
  match r with
  | Err _ => throw (ErrNew "invalid refresh")
  | Ok sess =>
      let! ended := (match as_Revoked sess with
                     | Some _ => ret true
                     | None => let! t := now in ret (After t (as_Expires sess))
                     end) in
      if ended : bool then throw (ErrNew "refresh expired or revoked")
      else
        let! row := GetAdminByID (as_AdminUserID sess) in
        if negb (bool_decide (ar_Status row = "ACTIVE")) then throw (ErrNew "account not active")
        else
          let! roles := ListAdminRoleNames (ar_ID row) in
          let u := staff_user row roles in
          let! access := admin_sign u in
          let! tok := Admin_newRefreshToken in
          let! t := now in
          let exp := t + sv_RefreshTTL s in
          let! id := Admin_newID in
          do! RotateAdminSession (as_SessionID sess) id (sf_ID u) tok.2 exp in
          let! t' := now in
          ret {| lo_Access := access; lo_Refresh := tok.1;
                 lo_ExpiresAt := t' + sg_TTL (sv_Signer s); lo_RefreshExp := exp; lo_User := u |}
  end.

Definition Logout (refresh : string) : adminop unit :=
  RevokeAdminSessionByHash (Admin_hashRefresh refresh).

(** What cannot be marshalled is left out, and a failing insert is not reported. *)
Definition Audit (e : AuditEntry) : adminop unit :=
  let payload := match ae_Payload e with Some (Ok v) => Some v | _ => None end in
  do! attempt (InsertAuditLog {|
        ra_ActorID := ae_ActorID e; ra_ActorEmail := ae_ActorEmail e; ra_Action := ae_Action e;
        ra_TargetType := ae_TargetType e; ra_TargetID := ae_TargetID e; ra_Payload := payload;
        ra_IP := ae_IP e; ra_UserAgent := ae_UserAgent e |}) in
  ret tt.

End Admin.

(** * The dashboard (internal/service/admin/queries.go, kyc.go)

    Pages of users, payments, settlement batches, fraud signals and audit rows, and the details
    behind them. *)

Record Paged (T : Type) := {
  pg_Items : list T;
  pg_Total : Z;
  pg_Page : Z;
  pg_PerPage : Z;
}.
Arguments Build_Paged {T}.
Arguments pg_Items {T}. Arguments pg_Total {T}. Arguments pg_Page {T}. Arguments pg_PerPage {T}.

Record UserDetail := {
  ud_User : UserRow;
  ud_Accounts : list AdminAccountRow;
  ud_Devices : list AdminDeviceRow;
  ud_Ceilings : list AdminCeilingRow;
  ud_Fraud : list FraudRow;
  ud_Recent : list TransactionRow;
}.

(** [admin.SettlementBatch]. *)
Record AdminBatch := {
  sx_ID : string;
  sx_TxnCount : Z;
  sx_SubmittedVol : Z;
  sx_SettledVol : Z;
  sx_StatesCount : gmap string Z;
  sx_FirstSubmitted : option Time;
  sx_LastSettled : option Time;
}.

Record SettlementDetail := { sd_Batch : AdminBatch; sd_Transactions : list TransactionRow }.

(** [admin.txnFilter]. *)
Record ServiceFilter := {
  sq_Status : string;
  sq_Payer : string;
  sq_Payee : string;
  sq_Batch : string;
  sq_Page : Z;
  sq_PerPage : Z;
}.

(** The page size asked for, unless it is none or too large, and the page, from 1. *)
Definition per_page (most dflt n : Z) : Z := if (n <=? 0) || (most <? n) then dflt else n.
Definition from_one (n : Z) : Z := if n <? 1 then 1 else n.

(** [int32((page - 1) * perPage)]. *)
Definition page_start (page perPage : Z) : Z := int32 (mul64 (sub64 page 1) perPage).

Definition admin_batch (r : RepoBatch) (counts : gmap string Z) : AdminBatch := {|
  sx_ID := rb_ID r; sx_TxnCount := rb_TxnCount r; sx_SubmittedVol := rb_SubmittedVol r;
  sx_SettledVol := rb_SettledVol r; sx_StatesCount := counts;
  sx_FirstSubmitted := rb_FirstSubmitted r; sx_LastSettled := rb_LastSettled r |}.

Section Dashboard.
Context {E : Env} {P : PgSession} {O : TieOrder}.

Definition Overview : adminop OverviewStats := Adminrepo_OverviewStats.

Definition VolumeSeries (days : Z) : adminop (list VolumePoint) :=
  let days := if (days <=? 0) || (180 <? days) then 14 else days in
  Adminrepo_VolumeSeries (int32 days).

(** ** Users *)

Definition ListUsers (q : string) (page perPage : Z) : adminop (Paged UserRow) :=
  let perPage := per_page 200 25 perPage in
  let page := from_one page in
  let limit := int32 perPage in
  let offset := page_start page perPage in
  let! (total, rows) :=
    (if bool_decide (q = "") then
       let! total := CountUsers in
       let! rows := Adminrepo_ListUsers limit offset in ret (total, rows)
     else
       let pattern := "%" ++ ToLower q ++ "%" in
       let! total := CountUsersByPhone pattern in
       let! rows := SearchUsersByPhone pattern limit offset in ret (total, rows)) in
  ret {| pg_Items := rows; pg_Total := total; pg_Page := page; pg_PerPage := perPage |}.

(** ** Payments *)

Definition listTxns (f : ServiceFilter) : adminop (Paged TransactionRow) :=
  let perPage := per_page 500 25 (sq_PerPage f) in
  let page := from_one (sq_Page f) in
  let filter := {| tf_Status := sq_Status f; tf_Payer := sq_Payer f; tf_Payee := sq_Payee f;
                   tf_Batch := sq_Batch f |} in
  let! total := CountTxns filter in
  let! rows := ListTxns filter {| tp_Limit := int32 perPage;
                                  tp_Offset := page_start page perPage |} in
  ret {| pg_Items := rows; pg_Total := total; pg_Page := page; pg_PerPage := perPage |}.

Definition ListTransactions (status payer payee : string) (page perPage : Z)
  : adminop (Paged TransactionRow) :=
  listTxns {| sq_Status := status; sq_Payer := payer; sq_Payee := payee; sq_Batch := "";
              sq_Page := page; sq_PerPage := perPage |}.

Definition GetTransaction (id : string) : adminop TransactionRow := GetTxn id.

(** A failing listing of the payments leaves them out. *)
Definition GetUser (id : string) : adminop UserDetail :=
  let! header := GetUserWithBalances id in
  let! accs := ListAccountsForUser id in
  let! devs := ListDevicesForUser id in
  let! ceils := ListCeilingsForUser id 20 in
  let! frauds := Adminrepo_ListFraudSignalsForUser id 20 in
  let! txns := attempt (listTxns {| sq_Status := ""; sq_Payer := id; sq_Payee := "";
                                    sq_Batch := ""; sq_Page := 1; sq_PerPage := 10 |}) in
  ret {| ud_User := header; ud_Accounts := accs; ud_Devices := devs; ud_Ceilings := ceils;
         ud_Fraud := frauds;
         ud_Recent := match txns with Ok p => pg_Items p | Err _ => [] end |}.

(** ** Settlement batches *)

Definition ListSettlements (page perPage : Z) : adminop (Paged AdminBatch) :=
  let perPage := per_page 200 25 perPage in
  let page := from_one page in
  let! total := CountSettlementBatches in
  let! rows := ListSettlementBatches (int32 perPage) (page_start page perPage) in
  ret {| pg_Items := map (fun r => admin_batch r ∅) rows; pg_Total := total; pg_Page := page;
         pg_PerPage := perPage |}.

Definition GetSettlement (batchID : string) : adminop SettlementDetail :=
  let! header := GetSettlementHeader batchID in
  let! counts := GetSettlementStateCounts batchID in
  let! txns := listTxns {| sq_Status := ""; sq_Payer := ""; sq_Payee := ""; sq_Batch := batchID;
                           sq_Page := 1; sq_PerPage := 500 |} in
  ret {| sd_Batch := admin_batch header counts; sd_Transactions := pg_Items txns |}.

(** ** Fraud signals and the audit log *)

Definition ListFraudSignals (page perPage : Z) : adminop (Paged FraudGlobalRow) :=
  let perPage := per_page 200 50 perPage in
  let page := from_one page in
  let! total := CountFraudSignalsGlobal in
  let! rows := ListFraudSignalsGlobal (int32 perPage) (page_start page perPage) in
  ret {| pg_Items := rows; pg_Total := total; pg_Page := page; pg_PerPage := perPage |}.

Definition ListAudit (page perPage : Z) : adminop (Paged AuditRow) :=
  let perPage := per_page 200 50 perPage in
  let page := from_one page in
  let! total := CountAuditLog in
  let! rows := ListAuditLog (int32 perPage) (page_start page perPage) in
  ret {| pg_Items := rows; pg_Total := total; pg_Page := page; pg_PerPage := perPage |}.

(** ** Identity verification (kyc.go) *)

Definition ListKYC (userID : string) : adminop (list KYCSubmissionRow) := ListKYCByUser userID.

Definition KYCHint (userID : string) : adminop (gmap string string) :=
  let! phone := Adminrepo_GetUserPhone userID in
  let! bvn := lift (Expected phone IDTypeBVN) in
  let! nin := lift (Expected phone IDTypeNIN) in
  ret {["BVN" := bvn; "NIN" := nin]}.

End Dashboard.
