(* ===== verification/AdminHttp.v ===== *)
(** * The HTTP surface of the back office (internal/transport/http/admin)

    [Mux]: what a request to the admin API is answered, from the CORS wrapper to the handler.
    The text a body of an answer is encoded to is not modelled: an answer has a status and a value. *)

From Stdlib Require Import Ascii.
From S2P Require Import Prelude Float Domain Json Crypto Parse Decode Tokens Store AuthStore Text UserAuth Kyc Registration Transfer Reconcile Listings BffAccounts AdminStore AdminRepo Admin.

#[local] Open Scope string_scope.
#[local] Open Scope Z_scope.

(** ** Requests and answers *)

(** The segments of a clean path (the library redirects the others), the first values of the
    query and the text of the body. *)
Record AdminRequest := {
  rq_Method : string;
  rq_Path : list string;
  rq_Query : string -> string;
  rq_Authorization : string;
  rq_UserAgent : string;
  rq_ForwardedFor : string;
  rq_RemoteAddr : string;
  rq_Body : string;
}.

Inductive AdminBody :=
| BText (s : string)
| BError (message : string)
| BLogin (r : LoginResult)
| BMe (id email : string) (roles : list string)
| BOverview (o : OverviewStats)
| BVolume (v : list VolumePoint)
| BUsers (p : Paged UserRow)
| BUser (d : UserDetail)
| BTransactions (p : Paged TransactionRow)
| BTransaction (t : TransactionRow)
| BSettlements (p : Paged AdminBatch)
| BSettlement (d : SettlementDetail)
| BFraud (p : Paged FraudGlobalRow)
| BAudit (p : Paged AuditRow)
| BKYC (l : list KYCSubmissionRow)
| BHint (m : gmap string string)
| BEmpty.

Record AdminResponse := { rs_Status : Z; rs_Body : AdminBody }.

Definition writeJSON (status : Z) (body : AdminBody) : AdminResponse :=
  {| rs_Status := status; rs_Body := body |}.
Definition writeErr (status : Z) (msg : string) : AdminResponse := writeJSON status (BError msg).

(** [strconv.Atoi]: a sign, then digits, in the range of int. *)
Definition Atoi (v : string) : option Z :=
  match v with
  | EmptyString => None
  | String a r =>
      let '(neg, ds) := if Ascii.eqb a "-" then (true, r)
                        else if Ascii.eqb a "+" then (false, r) else (false, v) in
      if bool_decide (ds = "") then None
      else
        n ← digits_value 0 ds;
        let z := if neg : bool then - n else n in
        if in_int64 z then Some z else None
  end.

Definition intQuery (r : AdminRequest) (key : string) (dflt : Z) : Z :=
  let v := rq_Query r key in
  if bool_decide (v = "") then dflt else default dflt (Atoi v).

Definition Admin_bearerToken (r : AdminRequest) : string :=
  let h := rq_Authorization r in
  if String.prefix "Bearer " h then String.substring 7 (String.length h - 7) h else "".

(** The text before the first comma, unless the comma comes first. *)
Definition Admin_clientIP (r : AdminRequest) : string :=
  let xf := rq_ForwardedFor r in
  if bool_decide (xf = "") then rq_RemoteAddr r
  else
    match String.index 0 "," xf with
    | Some (S i) => TrimSpace (String.substring 0 (S i) xf)
    | _ => TrimSpace xf
    end.

(** [json.NewDecoder(body).Decode]: the first value of the text, whatever follows it. *)
Definition decode_body {A} (dec : decoder A) (zero : A) (text : string) : A * bool :=
  match scan_value (enough text) maxNestingDepth text with
  | Some (v, _) => dec zero v
  | None => (zero, false)
  end.

Record loginReq := { lq_Email : string; lq_Password : string }.
Definition dec_loginReq : decoder loginReq := dec_struct (fun q ms =>
  (field e := member "email" dec_string (lq_Email q) ms in
   field p := member "password" dec_string (lq_Password q) ms in
   ({| lq_Email := e; lq_Password := p |}, true))%op).

Definition dec_refreshReq : decoder string := dec_struct (fun q ms =>
  (field r := member "refresh_token" dec_string q ms in (r, true))%op).

Definition hasRole (roles : list string) (needed : string) : bool :=
  existsb (fun r => bool_decide (r = needed)) roles.

(** Patterns of [net/http]'s ServeMux: [{id}] is any segment but the empty one, and [GET] stands for
    [HEAD] too. *)
Inductive segment := Seg (s : string) | Id.

Fixpoint match_path (pattern : list segment) (path : list string) : option string :=
  match pattern, path with
  | [], [] => Some ""
  | Seg s :: pattern, x :: path => if bool_decide (x = s) then match_path pattern path else None
  | Id :: pattern, x :: path =>
      if bool_decide (x = "") then None else const x <$> match_path pattern path
  | _, _ => None
  end.

Definition method_ok (wanted method : string) : bool :=
  bool_decide (method = wanted)
  || bool_decide (wanted = "GET") && bool_decide (method = "HEAD").

Section Http.
Context {E : Env} {C : Ed25519} {AL : AuthLib} {T : ErrorText} {P : PgSession} {O : TieOrder}.
Variable s : AdminService.

(** ** Middlewares

    A handler behind [authed] gets the claims of the token; the context of one that is not has
    none. *)

Definition authed (r : AdminRequest) (next : AdminClaims -> adminop AdminResponse)
  : adminop AdminResponse :=
  let tok := Admin_bearerToken r in
  if bool_decide (tok = "") then ret (writeErr 401 "missing bearer token")
  else
    let! t := now in
    match admin_Verify (sv_Signer s) tok t with
    | Err e => ret (writeErr 401 (error_string e))
    | Ok claims => next claims
    end.

Definition requireRole (role : string) (next : AdminClaims -> adminop AdminResponse)
  (c : AdminClaims) : adminop AdminResponse :=
  if hasRole (cl_Roles c) role then next c else ret (writeErr 403 ("requires role: " ++ role)).

(** No route uses it. *)
Definition requireAnyRole (roles : list string) (next : AdminClaims -> adminop AdminResponse)
  (c : AdminClaims) : adminop AdminResponse :=
  if existsb (hasRole (cl_Roles c)) roles then next c
  else ret (writeErr 403 ("requires one of: " ++ String.concat "," roles)).

(** ** Handlers *)

Definition login (r : AdminRequest) : adminop AdminResponse :=
  let '(q, ok) := decode_body dec_loginReq {| lq_Email := ""; lq_Password := "" |} (rq_Body r) in
  if negb ok then ret (writeErr 400 "bad json")
  else
    let! res := attempt (Login s (lq_Email q) (lq_Password q) (rq_UserAgent r)
                           (Admin_clientIP r)) in
    match res with
    | Err e => ret (writeErr 401 (error_string e))
    | Ok res =>
        do! Audit {| ae_ActorID := sf_ID (lo_User res); ae_ActorEmail := sf_Email (lo_User res);
                     ae_Action := "auth.login"; ae_TargetType := ""; ae_TargetID := "";
                     ae_Payload := None; ae_IP := Admin_clientIP r;
                     ae_UserAgent := rq_UserAgent r |} in
        ret (writeJSON 200 (BLogin res))
    end.

Definition refresh (r : AdminRequest) : adminop AdminResponse :=
  let '(q, ok) := decode_body dec_refreshReq "" (rq_Body r) in
  if negb ok then ret (writeErr 400 "bad json")
  else
    let! res := attempt (Admin_Refresh s q) in
    match res with
    | Err e => ret (writeErr 401 (error_string e))
    | Ok res => ret (writeJSON 200 (BLogin res))
    end.

(** Whatever happens, 204. *)
Definition logout (r : AdminRequest) : adminop AdminResponse :=
  let '(q, _) := decode_body dec_refreshReq "" (rq_Body r) in
  do! (if bool_decide (q = "") then ret (Ok tt) else attempt (Logout q)) in
  ret (writeJSON 204 BEmpty).

Definition me (c : AdminClaims) : adminop AdminResponse :=
  ret (writeJSON 200 (BMe (cl_Sub c) (cl_Email c) (cl_Roles c))).

(** [res, err := ...; if err != nil { writeErr(w, status, err.Error()) }]. *)
Definition answer {A} (status : Z) (body : A -> AdminBody) (m : adminop A)
  : adminop AdminResponse :=
  let! res := attempt m in
  ret (match res with
       | Err e => writeErr status (error_string e)
       | Ok a => writeJSON 200 (body a)
       end).

Definition overview : adminop AdminResponse := answer 500 BOverview Overview.
Definition volume (r : AdminRequest) : adminop AdminResponse :=
  answer 500 BVolume (VolumeSeries (intQuery r "days" 14)).
Definition listUsers (r : AdminRequest) : adminop AdminResponse :=
  answer 500 BUsers (ListUsers (rq_Query r "q") (intQuery r "page" 1) (intQuery r "per_page" 25)).
Definition getUser (id : string) : adminop AdminResponse := answer 404 BUser (GetUser id).
Definition listTransactions (r : AdminRequest) : adminop AdminResponse :=
  answer 500 BTransactions
    (ListTransactions (rq_Query r "state") (rq_Query r "payer") (rq_Query r "payee")
       (intQuery r "page" 1) (intQuery r "per_page" 25)).
Definition getTransaction (id : string) : adminop AdminResponse :=
  answer 404 BTransaction (GetTransaction id).
Definition listSettlements (r : AdminRequest) : adminop AdminResponse :=
  answer 500 BSettlements (ListSettlements (intQuery r "page" 1) (intQuery r "per_page" 25)).
Definition getSettlement (id : string) : adminop AdminResponse :=
  answer 404 BSettlement (GetSettlement id).
Definition listFraud (r : AdminRequest) : adminop AdminResponse :=
  answer 500 BFraud (ListFraudSignals (intQuery r "page" 1) (intQuery r "per_page" 50)).
Definition listAudit (r : AdminRequest) : adminop AdminResponse :=
  answer 500 BAudit (ListAudit (intQuery r "page" 1) (intQuery r "per_page" 50)).
Definition listKYC (id : string) : adminop AdminResponse := answer 500 BKYC (ListKYC id).
Definition kycHint (id : string) : adminop AdminResponse := answer 404 BHint (KYCHint id).

(** ** The mux *)

(** The handler of a pattern gets what [{id}] stands for, [""] where the pattern has none. *)
Record Route := {
  ro_Method : string;
  ro_Pattern : list segment;
  ro_Handler : string -> adminop AdminResponse;
}.

Definition routes (r : AdminRequest) : list Route :=
  let handle m p h := {| ro_Method := m; ro_Pattern := p; ro_Handler := h |} in
  let auth h := fun id => authed r (fun _ => h id) in
  [handle "GET" [Seg "healthz"] (fun _ => ret (writeJSON 200 (BText "ok")));
   handle "POST" [Seg "v1"; Seg "auth"; Seg "login"] (fun _ => login r);
   handle "POST" [Seg "v1"; Seg "auth"; Seg "refresh"] (fun _ => refresh r);
   handle "POST" [Seg "v1"; Seg "auth"; Seg "logout"] (fun _ => logout r);
   handle "GET" [Seg "v1"; Seg "me"] (fun _ => authed r me);
   handle "GET" [Seg "v1"; Seg "overview"; Seg "stats"] (auth (fun _ => overview));
   handle "GET" [Seg "v1"; Seg "overview"; Seg "volume"] (auth (fun _ => volume r));
   handle "GET" [Seg "v1"; Seg "users"] (auth (fun _ => listUsers r));
   handle "GET" [Seg "v1"; Seg "users"; Id] (auth getUser);
   handle "GET" [Seg "v1"; Seg "users"; Id; Seg "kyc"] (auth listKYC);
   handle "GET" [Seg "v1"; Seg "users"; Id; Seg "kyc"; Seg "hint"] (auth kycHint);
   handle "GET" [Seg "v1"; Seg "transactions"] (auth (fun _ => listTransactions r));
   handle "GET" [Seg "v1"; Seg "transactions"; Id] (auth getTransaction);
   handle "GET" [Seg "v1"; Seg "settlements"] (auth (fun _ => listSettlements r));
   handle "GET" [Seg "v1"; Seg "settlements"; Id] (auth getSettlement);
   handle "GET" [Seg "v1"; Seg "fraud"] (auth (fun _ => listFraud r));
   handle "GET" [Seg "v1"; Seg "audit"]
     (fun _ => authed r (requireRole RoleSuperAdmin (fun _ => listAudit r)))].

(** A path no pattern matches is 404, a method no matching pattern names 405; the CORS wrapper
    answers [OPTIONS] itself.  No two patterns match the same path. *)
Definition Mux (r : AdminRequest) : adminop AdminResponse :=
  if bool_decide (rq_Method r = "OPTIONS") then ret (writeJSON 204 BEmpty)
  else
    match List.filter (fun ro => bool_decide (is_Some (match_path (ro_Pattern ro) (rq_Path r))))
            (routes r) with
    | [] => ret (writeJSON 404 (BText "404 page not found"))
    | ros =>
        match List.find (fun ro => method_ok (ro_Method ro) (rq_Method r)) ros with
        | Some ro => ro_Handler ro (default "" (match_path (ro_Pattern ro) (rq_Path r)))
        | None => ret (writeJSON 405 (BText "Method Not Allowed"))
        end
    end.

End Http.
