(* ===== verification/BffProps.v ===== *)
(** * What the HTTP server promises

    Who gets through to a handler, what a posted claim is made of, and an honest payment from
    the ceiling's issue to its settlement, all over HTTP. *)

From S2P Require Import Prelude Domain Json Crypto Tokens Store AuthStore DeviceStore Repo AuthRepo Text Identity Books Solvency Wallet Settlement SettlementFacts SubmitFacts Gossip Acceptance WalletProps Honest SettlementProps UserAuth Registration DeviceFacts Keys Messages WalletServer Rest Middleware BffWallet TransferScore Transfer Listings BffAccounts.

#[local] Open Scope Z_scope.

(** ** The gate *)

Section Gate.
Context {E : Env} {C : Ed25519} {T : ErrorText}.
Implicit Types w : world db effect.

(** The context a handler gets with the claims of a token. *)
Definition request_ctx (r : HttpRequest) (claims : option AccessClaims) : Ctx := {|
  cx_Claims := claims; cx_UserAgent := hr_UserAgent r; cx_ClientIP := clientIP r;
  cx_SubmitterCountry :=
    if bool_decide (TrimSpace (hr_SubmitterCountry r) = "") then ""
    else WithSubmitterCountry (hr_SubmitterCountry r) |}.

(** The world a handler behind the gate starts in: the clock was read. *)
Definition past_gate w : world db effect :=
  World (w_st w) (w_ids w) (S (w_clk w)) (w_ops w) (w_log w).

Lemma serve_open {A} limiter signer r (h : next_handler A) w :
  needs_token (hr_Path r) = false ->
  serve limiter signer r h w = h (request_ctx r None) w.
Proof. intros Hp. unfold serve, RequestMetadata, RateLimitByUser, protect. cbn. by rewrite Hp. Qed.

Lemma serve_verified {A} limiter signer r (h : next_handler A) claims w :
  needs_token (hr_Path r) = true -> bearerToken r <> "" ->
  jwt_Verify signer (bearerToken r) (clock (w_clk w)) = Ok claims ->
  serve limiter signer r h w = h (request_ctx r (Some claims)) (past_gate w).
Proof.
  intros Hp Ht Hv. unfold serve, RequestMetadata, RateLimitByUser, protect. cbn. rewrite Hp.
  unfold RequireUserJWT. cbn zeta. rewrite bool_decide_false by done.
  erewrite bind_ok by reflexivity. by rewrite Hv.
Qed.

Lemma serve_refused {A} limiter signer r (h : next_handler A) w :
  needs_token (hr_Path r) = true ->
  (forall claims, jwt_Verify signer (bearerToken r) (clock (w_clk w)) <> Ok claims) ->
  exists message w', runs (serve limiter signer r h) w (JSONError 401 "unauthorized" message) w' /\
    w_st w' = w_st w /\ w_log w' = w_log w.
Proof.
  intros Hp Hv. unfold serve, RequestMetadata, RateLimitByUser, protect. cbn. rewrite Hp.
  unfold RequireUserJWT, runs. cbn zeta. case_bool_decide as Ht; [by do 2 eexists|].
  erewrite bind_ok by reflexivity.
  destruct (jwt_Verify _ _ _) as [claims|e] eqn:Hj; [by destruct (Hv claims)|].
  exists (error_string e), (past_gate w). split; [reflexivity|done].
Qed.

(** Claim C12: a request to a protected path gets through with a token that verifies at that
    moment, and only then: without one the answer is 401 and neither the database nor the
    outside world has changed, and with one the handler runs, once, with the claims of that
    token and nobody else's.  A path outside the list reaches its handler without claims.  The
    rate limiter plays no part in any of this, whatever it would answer. *)
Theorem serve_admits {A} limiter limiter' signer r (h : next_handler A) w :
  serve limiter signer r h w = serve limiter' signer r h w /\
  (needs_token (hr_Path r) = false ->
     serve limiter signer r h w = h (request_ctx r None) w) /\
  (needs_token (hr_Path r) = true ->
     (exists claims, jwt_Verify signer (bearerToken r) (clock (w_clk w)) = Ok claims /\
        serve limiter signer r h w = h (request_ctx r (Some claims)) (past_gate w)) \/
     (exists message w', runs (serve limiter signer r h) w (JSONError 401 "unauthorized" message) w' /\
        w_st w' = w_st w /\ w_log w' = w_log w)).
Proof.
  split; [done|]. split; [apply serve_open|]. intros Hp.
  destruct (decide (bearerToken r = "")) as [Ht|Ht].
  - right. apply serve_refused; [done|]. by rewrite Ht.
  - destruct (jwt_Verify signer (bearerToken r) (clock (w_clk w))) as [claims|e] eqn:Hj.
    + left. exists claims. split; [done|]. by apply serve_verified.
    + right. apply serve_refused; [done|]. intros claims. by rewrite Hj.
Qed.

End Gate.

(** ** What is posted *)

Definition payment_posted (i : PaymentTokenInput) : PaymentToken := {|
  pt_PayerID := rp_PayerId i; pt_PayeeID := rp_PayeeId i; pt_Amount := rp_AmountKobo i;
  pt_SequenceNumber := rp_SequenceNumber i; pt_RemainingCeiling := rp_RemainingCeilingKobo i;
  pt_Timestamp := utc (rp_Timestamp i); pt_CeilingTokenID := rp_CeilingTokenId i;
  pt_SessionNonce := rp_SessionNonce i; pt_RequestHash := rp_RequestHash i;
  pt_PayerSignature := rp_PayerSignature i |}.

Definition card_posted (i : DisplayCardInput) : DisplayCard := {|
  dc_UserID := rd_UserId i; dc_DisplayName := rd_DisplayName i;
  dc_AccountNumber := rd_AccountNumber i; dc_IssuedAt := utc (rd_IssuedAt i);
  dc_BankKeyID := rd_BankKeyId i; dc_ServerSignature := rd_ServerSignature i |}.

Definition request_posted (i : PaymentRequestInput) : PaymentRequest := {|
  pr_ReceiverID := rq_ReceiverId i; pr_ReceiverDisplayCard := card_posted (rq_ReceiverDisplayCard i);
  pr_Amount := rq_AmountKobo i; pr_SessionNonce := rq_SessionNonce i;
  pr_IssuedAt := utc (rq_IssuedAt i); pr_ExpiresAt := utc (rq_ExpiresAt i);
  pr_ReceiverDevicePubkey := rq_ReceiverDevicePubkey i;
  pr_ReceiverSignature := rq_ReceiverSignature i |}.

Definition ceiling_posted (i : CeilingTokenInput) : CeilingToken :=
  CeilingFromProto (Some (ceilingTokenFromInput i)).

Lemma timestamp_over_http t : fromTs (timeToTS t) = t.
Proof.
  unfold fromTs, timeToTS, IsZero. by destruct (Z.eqb_spec t time_zero) as [->|].
Qed.

Lemma timestamp_answered t : tsToTime (tsOrNil t) = t.
Proof.
  unfold tsToTime, tsOrNil, IsZero. by destruct (Z.eqb_spec t time_zero) as [->|].
Qed.

Lemma payment_over_http i : PaymentFromProto (Some (paymentTokenFromInput i)) = payment_posted i.
Proof. unfold PaymentFromProto, payment_posted. cbn. by rewrite timestamp_over_http. Qed.

Lemma request_over_http i : PaymentRequestFromProto (Some (paymentRequestFromInput i)) = request_posted i.
Proof.
  unfold PaymentRequestFromProto, request_posted, DisplayCardFromProto, card_posted. cbn.
  by rewrite !timestamp_over_http.
Qed.

(** A card that was answered is posted back as it was issued, at no offset. *)
Lemma card_over_http card :
  zone (dc_IssuedAt card) = 0 -> card_posted (displayCardToInput (DisplayCardToProto card)) = card.
Proof.
  unfold card_posted. cbn. rewrite timestamp_answered.
  destruct card as [? ? ? [t z] ? ?]. cbn. by intros ->.
Qed.

(** The last element a list has with a property. *)
Definition last_such {A} (P : A -> bool) (l : list A) : option A := List.find P (rev l).

Lemma last_such_snoc {A} (P : A -> bool) l x :
  last_such P (l ++ [x]) = if P x then Some x else last_such P l.
Proof. unfold last_such. rewrite rev_app_distr. cbn. by destruct (P x). Qed.

(** A map filled from a list has the last element under each key. *)
Lemma filled_lookup {A B} (key : B -> string) (f : A -> B) l k :
  foldl (fun m a => <[key (f a) := f a]> m) (∅ : gmap string B) l !! k =
    f <$> last_such (fun a => bool_decide (key (f a) = k)) l.
Proof.
  induction l as [|x l IH] using rev_ind; [done|].
  rewrite foldl_app, last_such_snoc. cbn. case_bool_decide as Hk.
  - by rewrite Hk, lookup_insert_eq.
  - by rewrite lookup_insert_ne.
Qed.

(** One item of a claim as the lists of a request determine it. *)
Definition item_posted (ceilings : list CeilingTokenInput) (requests : list PaymentRequestInput)
  (t : PaymentTokenInput) : ClaimItem := {|
  ci_Payment := payment_posted t;
  ci_Ceiling := default CeilingToken_zero
    (ceiling_posted <$> last_such (fun c => bool_decide (rc_Id c = rp_CeilingTokenId t)) ceilings);
  ci_Request := default PaymentRequest_zero
    (request_posted <$> last_such (fun q => bool_decide
       (nonce_text (rq_SessionNonce q) = nonce_text (rp_SessionNonce t))) requests) |}.

Lemma foldl_map_list {A B D} (g : D -> B -> D) (f : A -> B) l d :
  foldl g d (map f l) = foldl (fun d a => g d (f a)) d l.
Proof. revert d. induction l as [|x l IH]; intros d; cbn; auto. Qed.

Lemma items_over_http tokens ceilings requests :
  ClaimItemsFromProto (map paymentTokenFromInput tokens) (map ceilingTokenFromInput ceilings)
    (map paymentRequestFromInput requests) = map (item_posted ceilings requests) tokens.
Proof.
  unfold ClaimItemsFromProto, ceilings_by_id, requests_by_nonce. rewrite map_map, !foldl_map_list.
  apply map_ext. intros t. cbn zeta. rewrite payment_over_http. unfold item_posted.
  rewrite (filled_lookup ct_ID ceiling_posted).
  rewrite (filled_lookup (fun d => nonce_text (pr_SessionNonce d))
             (fun i => PaymentRequestFromProto (Some (paymentRequestFromInput i)))).
  f_equal; cbn [payment_posted pt_SessionNonce]. f_equal.
  enough (forall o, PaymentRequestFromProto ∘ Some ∘ paymentRequestFromInput <$> o = request_posted <$> o)
    as -> by done.
  intros [i|]; [|done]. cbn. by rewrite <- request_over_http.
Qed.

(** ** An honest payment *)

Section Relay.
Context {E : Env} {T : ErrorText}.
Implicit Types w : world db effect.

Lemma relay_runs {A B} listed (call : dbop B) (answer : B -> A) w b w' :
  runs call w b w' -> runs (relay listed call answer) w (JSON200 (answer b)) w'.
Proof.
  intros H. unfold relay. eapply bind_runs; [by apply runs_attempt|]. by apply runs_ret.
Qed.

Lemma runs_relay {A B} listed (call : dbop B) (answer : B -> A) w a w' :
  runs (relay listed call answer) w (JSON200 a) w' -> exists b, runs call w b w' /\ a = answer b.
Proof.
  intros H. unfold relay in H. apply runs_bind in H as ([b|e] & w1 & H1 & H).
  - apply (proj1 (runs_attempt _ _ _ _)) in H1. apply runs_ret in H as [[= ->] ->]. by exists b.
  - apply runs_ret in H as [H _]. unfold refuse in H. by destruct (grpcHTTPStatus e) as [[? ?] ?].
Qed.

Lemma runs_with_subject {A} cx (k : AccessClaims -> dbop (http A)) w a w' :
  runs (with_subject cx k) w (JSON200 a) w' ->
  exists claims, cx_Claims cx = Some claims /\ at_Sub claims <> ""%string /\
    runs (k claims) w (JSON200 a) w'.
Proof.
  intros H. unfold with_subject, ClaimsFromContext in H.
  destruct (cx_Claims cx) as [c|]; [|by apply runs_ret in H as [[=] _]].
  case_bool_decide as Hs; [by apply runs_ret in H as [[=] _]|]. by exists c.
Qed.

Lemma required_runs b what w : b = false -> runs (required b what) w tt w.
Proof. by intros ->. Qed.

(** A handler told the caller's own name goes on. *)
Lemma runs_own_user u v w x w' : runs (own_user (authCtx u) v) w x w' -> v <> ""%string /\ w' = w.
Proof.
  intros H. unfold own_user in H. apply runs_bind in H as ([] & v2 & H2 & H).
  apply runs_required in H2 as [Hne ->]. apply bool_decide_eq_false in Hne.
  apply runs_bind in H as (y & v3 & H3 & H). apply runs_lift in H3 as [_ ->].
  by apply runs_ret in H as [_ ->].
Qed.

Lemma match_self u : MustMatchUser (authCtx u) u = Ok {| au_UserID := u; au_DeviceID := "bff" |}.
Proof.
  unfold MustMatchUser, authCtx. cbn [MustAuthUser result_bind au_UserID].
  by rewrite (bool_decide_true (u = u)), andb_false_r.
Qed.

End Relay.

Section HonestHttp.
Context {E : Env} {K : CacheEnv} {C : Ed25519} {HC : Ed25519Laws C} {F : FreshIDs E} {T : ErrorText}.
Context {M : MapOrder} {ML : MapOrderLaws M}.
Variables (ws : Service) (cs : IdentityService) (ss : SettlementService).
Implicit Types w : world db effect.

(** What the wallet's handler answers is what the service issued, for a user whose key may
    just have been stored. *)
Lemma runs_fund_offline cx b w a w' :
  runs (PostV1WalletFundOffline ws cx (Some b)) w (JSON200 a) w' ->
  0 < fb_TtlSeconds b /\ exists u w1 ct,
    bank_signing_keys (w_st w1) = bank_signing_keys (w_st w) /\ w_log w1 = w_log w /\
    runs (FundOffline ws u (fb_AmountKobo b) (mul64 (fb_TtlSeconds b) Second)) w1 (ct, None) w' /\
    rfo_Ceiling a = ceilingTokenFromProto (CeilingToProto ct).
Proof.
  intros H. apply runs_with_subject in H as (claims & Hc & _ & H). cbn [with_body] in H.
  apply runs_relay in H as (r & H & ->). unfold srv_FundOffline, issuing in H.
  apply runs_bind in H as ([] & v1 & H1 & H).
  assert (v1 = w) as ->.
  { by apply runs_own_user in H1 as [_ ->]. }
  clear H1.
  destruct (_ <=? 0); [by apply runs_throw in H|].
  destruct (fb_TtlSeconds b <=? 0) eqn:Hpos; [by apply runs_throw in H|].
  apply runs_bind in H as ([] & w1 & H1 & H). apply runs_bind in H as (o & w2 & H2 & H).
  apply (proj1 (runs_attempt _ _ _ _)) in H2.
  destruct o as [[ct [e|]]|e]; [by apply runs_throw in H| |by apply runs_throw in H].
  apply runs_ret in H as [-> ->]. split; [by apply Z.leb_gt|].
  exists (at_Sub claims), w1, ct. case_bool_decide.
  - apply runs_ret in H1 as [_ ->]. done.
  - unfold internally in H1. apply runs_bind in H1 as ([[]|e] & w3 & H3 & H1); [|by apply runs_throw in H1].
    apply (proj1 (runs_attempt _ _ _ _)) in H3. apply runs_ret in H1 as [_ ->].
    apply runs_SetUserPayerPubkey in H3 as (_ & [ks Hks] & Hlog). by rewrite Hks.
Qed.

Lemma truncate_us_shift t d : truncate_us (truncate_us t + d) = truncate_us t + truncate_us d.
Proof. unfold truncate_us. rewrite Z.div_add_l by lia. ring. Qed.

Lemma lifetime_exact s : 0 < s <= 9223372036 -> mul64 s Second = s * Second.
Proof. intros Hs. unfold mul64. apply wrap64_id. unfold Second, int64_min, int64_max. lia. Qed.

(** What a ceiling that was answered keeps when it is posted back; the messages carry no
    offset. *)
Lemma ceiling_over_http ct :
  zone (ct_IssuedAt ct) = 0 -> zone (ct_ExpiresAt ct) = 0 ->
  let ct' := ceiling_posted (ceilingTokenFromProto (CeilingToProto ct)) in
  ct_ID ct' = ct_ID ct /\ ct_PayerID ct' = ct_PayerID ct /\
  ct_SequenceStart ct' = ct_SequenceStart ct /\ ct_ExpiresAt ct' = ct_ExpiresAt ct /\
  ct_PayerPublicKey ct' = ct_PayerPublicKey ct /\ ct_BankKeyID ct' = ct_BankKeyID ct /\
  ct_BankSignature ct' = ct_BankSignature ct /\ ceiling_payload ct' = ceiling_payload ct.
Proof.
  intros Hi He. cbn zeta. unfold ceiling_posted, ceiling_payload.
  cbn -[fromTs timeToTS tsToTime tsOrNil]. rewrite ?timestamp_answered, ?timestamp_over_http.
  destruct ct as [? ? ? [i zi] [x zx]]. cbn in *. by subst.
Qed.

(** The checks of settlement look at nothing else. *)
Lemma checked_over_http submitter p ct req t d :
  zone (ct_IssuedAt ct) = 0 -> zone (ct_ExpiresAt ct) = 0 ->
  checked ss submitter {| ci_Payment := p; ci_Ceiling := ct; ci_Request := req |} t d ->
  checked ss submitter {| ci_Payment := p; ci_Request := req;
    ci_Ceiling := ceiling_posted (ceilingTokenFromProto (CeilingToProto ct)) |} t d.
Proof.
  intros Hi He. destruct (ceiling_over_http ct Hi He) as (H1 & H2 & H3 & H4 & H5 & H6 & H7 & H8).
  remember (ceiling_posted _) as ct' eqn:Hct. clear Hct. intros [[] [] [] Hn Ho]. constructor; [constructor|constructor|constructor| |]; cbn in *;
    rewrite ?H1, ?H2, ?H3, ?H4, ?H5, ?H6, ?H7, ?H8; done.
Qed.

Lemma runs_display_card cx w a w' :
  runs (GetV1IdentityDisplayCard (Some cs) cx) w (JSON200 a) w' ->
  exists v card, runs (IssueDisplayCard cs v) w card w' /\ card_posted a = card.
Proof.
  intros H. apply runs_with_subject in H as (claims & _ & _ & H).
  apply runs_bind in H as ([card|e] & w1 & H1 & H); [|by apply runs_ret in H as [[=] _]].
  apply (proj1 (runs_attempt _ _ _ _)) in H1. apply runs_ret in H as [[= ->] ->].
  exists (at_Sub claims), card. split; [done|]. by eapply card_over_http, issued_card_utc.
Qed.

(** A claim the service takes is answered with its receipt. *)
Lemma post_claims_runs cx claims b w batch rs w' :
  cx_Claims cx = Some claims -> at_Sub claims <> ""%string ->
  runs (SubmitClaim ss (at_Sub claims) (map (item_posted (cb_Ceilings b) (cb_Requests b)) (cb_Tokens b))
          (cx_SubmitterCountry cx)) w (batch, rs, None) w' ->
  runs (PostV1SettlementClaims ss cx (Some b)) w
    (JSON200 (batchReceiptFromProto (BatchReceiptToProto batch rs))) w'.
Proof.
  intros Hc Hne H. unfold PostV1SettlementClaims, with_subject, ClaimsFromContext. rewrite Hc.
  rewrite bool_decide_false by done. cbn [with_body]. apply relay_runs. unfold srv_SubmitClaim.
  eapply bind_runs; [apply required_runs; by rewrite bool_decide_false|].
  eapply bind_runs; [apply runs_lift; by rewrite match_self|]. cbn zeta. rewrite items_over_http.
  eapply bind_runs; [apply runs_attempt; exact H|]. by apply runs_ret.
Qed.

(** Claim C13: a posted claim is paired and answered the same way whatever becomes of it: each
    payment goes to settlement with the last posted ceiling of its identifier and the last
    request of its nonce, or with empty ones, for the user of the token and nobody else; a batch
    that went through is answered with its receipt; one that stopped at a failure of the
    infrastructure is answered with a plain 502 that says nothing of the claims accepted
    before it. *)
Theorem claims_answered cx claims b w :
  cx_Claims cx = Some claims -> at_Sub claims <> ""%string ->
  exists failed, (forall e, exists message, failed e = @JSONError rest_BatchReceipt 502 "upstream_error" message) /\
  PostV1SettlementClaims ss cx (Some b) w =
    (let items := map (item_posted (cb_Ceilings b) (cb_Requests b)) (cb_Tokens b) in
     match SubmitClaim ss (at_Sub claims) items (cx_SubmitterCountry cx) w with
     | (Ok (batch, results, None), w') => (Ok (JSON200 (batchReceiptFromProto (BatchReceiptToProto batch results))), w')
     | (Ok (_, _, Some e), w') | (Err e, w') => (Ok (failed e), w')
     end).
Proof.
  intros Hc Hne.
  exists (fun e => refuse [400; 401; 403; 409] (status_of "Internal" "submit claim" e)). split.
  - intros e. by eexists.
  - unfold PostV1SettlementClaims, with_subject, ClaimsFromContext. rewrite Hc.
    rewrite bool_decide_false by done. cbn [with_body]. unfold relay, srv_SubmitClaim.
    unfold bind at 1, attempt at 1.
    rewrite (bind_ok _ _ _ tt w) by (apply required_runs; by rewrite bool_decide_false).
    rewrite (bind_ok _ _ _ {| au_UserID := at_Sub claims; au_DeviceID := "bff" |} w)
      by (by rewrite match_self).
    cbn zeta. rewrite items_over_http. unfold bind at 1, attempt at 1.
    destruct (SubmitClaim _ _ _ _ w) as [[[[batch rs] [e|]]|e] w']; done.
Qed.

(** Claim C4: an honest payment made over HTTP is accepted: the payer's ceiling is the one
    answered to her funding request, the card on the payee's request is the one answered to
    his, both parties sign with the keys their tokens name, and one of them posts the three
    with a valid token, in time, while the ceiling is open and the sequence number unused.
    Nothing on the way from the service through the messages to the phone and back loses what
    settlement checks; the answer is 200 with one pending result for the payment. *)
Theorem honest_claim_over_http limiter signer r claims cx b funding w0 w1 cx' card w2 w3
  payer_key payee_key ti ri w :
  fault_free E -> writable_clock -> quiet_service ws -> silent_gate ws -> s_Signer ws = None ->
  id_Signer cs = None -> bank_ok w0 -> bank_ok w2 -> 0 < fb_TtlSeconds b <= 9223372036 ->
  runs (PostV1WalletFundOffline ws cx (Some b)) w0 (JSON200 funding) w1 ->
  runs (GetV1IdentityDisplayCard (Some cs) cx') w2 (JSON200 card) w3 ->
  rq_ReceiverDisplayCard ri = card ->
  let ct := ceiling_posted (rfo_Ceiling funding) in
  let p := payment_posted ti in
  let req := request_posted ri in
  let item := {| ci_Payment := p; ci_Ceiling := ct; ci_Request := req |} in
  let submitter := at_Sub claims in
  let t := clock (S (w_clk w)) in
  honest_request payee_key (card_posted card) req -> honest_payment payer_key ct req p ->
  bank_signing_keys (w_st w0) ⊆ bank_signing_keys (w_st w) ->
  bank_signing_keys (w_st w2) ⊆ bank_signing_keys (w_st w) ->
  submitter <> ""%string -> pt_PayerID p <> ""%string ->
  submitter = pt_PayerID p \/ submitter = pt_PayeeID p ->
  t <= pr_ExpiresAt req + RequestGrace -> t <= ct_ExpiresAt ct + ss_ClockGrace ss ->
  open_ceiling (w_st w) (ct_ID ct) t -> new_sequence (w_st w) p -> room ss item (w_st w) ->
  unused w -> (forall n, (w_ids w <= n)%nat -> outbox (w_st w) !! new_id n = None) ->
  needs_token (hr_Path r) = true -> bearerToken r <> ""%string -> hr_SubmitterCountry r = ""%string ->
  jwt_Verify signer (bearerToken r) (clock (w_clk w)) = Ok claims ->
  exists rc w', runs (serve limiter signer r (fun cx => PostV1SettlementClaims ss cx (Some {|
      cb_ClientBatchId := ""; cb_Tokens := [ti]; cb_Ceilings := [rfo_Ceiling funding];
      cb_Requests := [ri] |}))) w (JSON200 rc) w' /\
    rbr_TotalSubmitted rc = 1 /\ rbr_TotalRejected rc = 0 /\
    rbr_Results rc = [{|
      rsr_TransactionId := new_id (S (w_ids w)); rsr_SequenceNumber := rp_SequenceNumber ti;
      rsr_SubmittedAmountKobo := rp_AmountKobo ti; rsr_SettledAmountKobo := 0;
      rsr_Status := "TRANSACTION_STATUS_PENDING"; rsr_Reason := None |}].
Proof.
  intros Hf Hclk Hq Hs Hsg Hid Hb0 Hb2 Httl Hfund Hcard Hri ct p req item submitter t
    Hreq Hpay Hk0 Hk2 Hne Hpe Hby Ht1 Ht2 Hopen Hnew Hroom Hun Hout Hpath Htok Hcountry Hjwt.
  apply runs_fund_offline in Hfund as (_ & u & v1 & ct0 & Hbk & Hlog & Hfund & Hrest).
  rewrite lifetime_exact in Hfund by done.
  apply runs_display_card in Hcard as (v & card0 & Hcard & Hc0). rewrite Hc0 in Hreq.
  assert (bank_ok v1) as Hb1 by (destruct Hb0; constructor; rewrite ?Hbk, ?Hlog; done).
  destruct (issued_ceiling_utc _ _ _ _ _ _ _ _ Hfund) as [Hz1 Hz2].
  destruct (ceiling_over_http ct0 Hz1 Hz2) as (E1 & E2 & E3 & E4 & E5 & E6 & E7 & E8).
  assert (ct = ceiling_posted (ceilingTokenFromProto (CeilingToProto ct0))) as Hct by (by unfold ct; rewrite Hrest).
  rewrite <- Hct in E1, E2, E3, E4, E5, E6, E7, E8.
  assert (honest_payment payer_key ct0 req p) as Hpay0.
  { destruct Hpay. constructor; congruence. }
  assert (checked ss submitter item t (w_st w)) as Hck.
  { unfold item. rewrite Hct. apply checked_over_http; [done..|].
    eapply (honest_checked ws cs ss u (fb_AmountKobo b) (fb_TtlSeconds b * Second) v1 ct0 None w1 v w2 card0 w3);
      try done; rewrite ?Hbk, <- ?E1, <- ?E4; try done.
    - replace (fb_TtlSeconds b * Second) with (fb_TtlSeconds b * 1000000 * 1000) by (unfold Second; lia).
      apply Z.mod_mul. lia.
    - apply (rm_sequence _ _ _ Hroom). }
  destruct (single_claim_accepted ss Hf submitter item (past_gate w) Hclk Hne Hpe Hout Hck Hroom)
    as (bt & w' & Hrun).
  { destruct Hun. by constructor. }
  pose proof (runs_SubmitClaim _ _ _ _ _ _ _ _ Hrun) as (_ & Htot & Hrej & _). cbn in Htot.
  exists (batchReceiptFromProto (BatchReceiptToProto bt [accepted p (new_id (S (w_ids w)))])), w'.
  split; [|cbn -[int32]; rewrite Htot, Hrej; by vm_compute].
  unfold runs. rewrite (serve_verified _ _ _ _ claims) by done.
  eapply (post_claims_runs _ claims); [done|done|]. cbn [request_ctx cx_SubmitterCountry].
  rewrite Hcountry. cbn [map cb_Tokens cb_Ceilings cb_Requests].
  replace (item_posted [rfo_Ceiling funding] [ri] ti) with item; [exact Hrun|].
  unfold item, item_posted, last_such. cbn [rev app List.find].
  destruct Hpay as [_ _ _ Hpc Hpn _ _ _ _]. rewrite !bool_decide_true; [done|by unfold nonce_text; f_equal|by symmetry].
Qed.

(** Claim C15: the lifetime of a ceiling asked for over HTTP is multiplied in 64 bits and has no
    limit of its own: up to 9223372036 seconds, some 292 years, the ceiling answered lives
    exactly that long; beyond, the product wraps and the ceiling lives shorter than asked for,
    whatever positive lifetime the wrapped product happens to be.  A product that wraps to
    nothing or less is never answered with a ceiling. *)
Theorem ceiling_lifetime cx b w a w' :
  quiet_service ws -> runs (PostV1WalletFundOffline ws cx (Some b)) w (JSON200 a) w' ->
  let asked := fb_TtlSeconds b * Second in
  let life := rc_ExpiresAt (rfo_Ceiling a) - rc_IssuedAt (rfo_Ceiling a) in
  0 < wrap64 asked /\ life = truncate_us (wrap64 asked) /\
  (fb_TtlSeconds b <= 9223372036 -> life = asked) /\
  (9223372036 < fb_TtlSeconds b -> life < asked).
Proof.
  intros Hq H asked life. apply runs_fund_offline in H as (Hpos & u & w1 & ct & _ & _ & H & Ha).
  apply runs_FundOffline in H as (_ & Httl & m & w2 & w3 & _ & _ & _ & H & _); [|done].
  change (mul64 (fb_TtlSeconds b) Second) with (wrap64 asked) in *. split; [done|].
  apply runs_fundOfflineInTx in H as (? & ? & id & row & -> & _ & _ & _ & _ & _ & _ & _ & _ & _ & _
    & _ & _ & _ & _ & _ & _ & t & Hi & He & _).
  assert (life = truncate_us (wrap64 asked)) as Hlife.
  { unfold life. rewrite Ha. cbn -[tsToTime tsOrNil]. rewrite !timestamp_answered.
    unfold tsz in Hi, He. destruct (IsZero (truncate_us t)); [discriminate|].
    destruct (IsZero (truncate_us t + _)); [discriminate|]. injection Hi as <-. injection He as <-.
    unfold tstz. rewrite truncate_us_idem, truncate_us_shift. lia. }
  rewrite Hlife. split; [done|]. split; intros Hle.
  - unfold asked. rewrite wrap64_id by (unfold Second, int64_min, int64_max; lia).
    unfold truncate_us, Second. replace (fb_TtlSeconds b * 10 ^ 9) with (fb_TtlSeconds b * 10 ^ 6 * 1000) by lia.
    by rewrite Z.div_mul by lia.
  - pose proof (wrap64_range asked) as [_ Hmax]. pose proof (truncate_us_near (wrap64 asked)).
    unfold asked, int64_max, Second in *. lia.
Qed.

End HonestHttp.
