(* ===== verification/TransferFacts.v ===== *)
(** * What transfers do to the database

    Lemmas about the accepting transaction, the dispatcher's pass and the processing
    transaction of Transfer.v; the properties built on them are in TransferProps.v. *)

From S2P Require Import Prelude Domain Json Crypto Wire Store Repo Books Solvency Wallet TransferScore Transfer.

(** ** Processing *)

(** A handler of transfers leaves the wallets' tables alone. *)
Definition wallet_tables (d : db) :=
  (accounts d, ledger_entries d, ceiling_tokens d, payment_tokens d).

Section ProcessFacts.
Context {E : Env}.
Implicit Types w : world db effect.

Lemma runs_LockMainAccount u w id w' :
  runs (LockMainAccount u) w id w' ->
  w_st w' = w_st w /\ account_of (w_st w) id u AccountKindMain.
Proof. apply (runs_GetAccountID u AccountKindMain). Qed.

Lemma attempt_LockMainAccount u w r w' :
  attempt (LockMainAccount u) w = (Ok r, w') ->
  w_st w' = w_st w /\ forall id, r = Ok id -> account_of (w_st w) id u AccountKindMain.
Proof.
  intros H. assert (runs (attempt (LockMainAccount u)) w r w') as Hr by done.
  unfold LockMainAccount, q_LockMainAccountForUser in Hr. quiet_in Hr Hw. split; [done|].
  intros id ->. apply (proj1 (runs_attempt _ _ _ _)), runs_LockMainAccount in H. apply H.
Qed.

Lemma runs_lock_accounts tp w r w' :
  runs (lock_accounts tp) w r w' ->
  w_st w' = w_st w /\
  forall s t, r = Some (s, t) ->
    account_of (w_st w) s (tp_SenderUserID tp) AccountKindMain /\
    account_of (w_st w) t (tp_ReceiverUserID tp) AccountKindMain.
Proof.
  intros H. unfold lock_accounts in H.
  set (a := tp_SenderUserID tp) in *. set (b := tp_ReceiverUserID tp) in *.
  destruct (if string_leb a b then (a, b) else (b, a)) as [uidA uidB] eqn:Hord.
  apply runs_bind in H as (ra & w1 & H1 & H). apply attempt_LockMainAccount in H1 as [Hw1 HA].
  destruct ra as [accA|e].
  2:{ destruct (errors_is e ErrNoRows); [|by apply runs_throw in H].
      apply runs_ret in H as [-> ->]. done. }
  apply runs_bind in H as (rb & w2 & H2 & H). apply attempt_LockMainAccount in H2 as [Hw2 HB].
  destruct rb as [accB|e].
  2:{ destruct (errors_is e ErrNoRows); [|by apply runs_throw in H].
      apply runs_ret in H as [-> ->]. split; [congruence|done]. }
  apply runs_ret in H as [-> ->]. split; [congruence|]. intros s t [= <- <-].
  specialize (HA _ eq_refl). specialize (HB _ eq_refl). rewrite Hw1 in HB.
  destruct (string_leb a b); injection Hord as <- <-.
  - rewrite String.eqb_refl. destruct (String.eqb_spec a b) as [He|]; [|done].
    rewrite He. done.
  - rewrite String.eqb_refl. destruct (String.eqb_spec b a) as [He|]; [|done].
    rewrite He. done.
Qed.

(** The business events of a transfer take [status]; nothing else changes. *)
Lemma runs_FinalizeTransactionsForTransfer id status settled reason w u w' :
  runs (FinalizeTransactionsForTransfer id status settled reason) w u w' ->
  exists m, w_st w' = with_transactions m (w_st w).
Proof.
  unfold FinalizeTransactionsForTransfer. intros H.
  apply runs_bind in H as (r & w1 & Hr & H).
  unfold GetTransactionAnchorForTransfer in Hr. quiet_in Hr Hw1. destruct r as [anchor|e].
  - unfold FinalizePairedTransactions in H. apply runs_bind in H as (rows & w2 & Hq & H).
    apply runs_query in Hq as (_ & _ & ->). apply runs_update_txns in H as (m & Hm & _).
    cbn in Hm. rewrite Hw1 in Hm. eauto.
  - destruct (errors_is e ErrNoRows); [|by apply runs_throw in H].
    apply runs_ret in H as [_ ->]. rewrite Hw1. exists (transactions (w_st w)).
    by destruct (w_st w).
Qed.

Lemma runs_MarkEventProcessed id status w u w' :
  runs (MarkEventProcessed id status) w u w' ->
  exists m, w_st w' = with_processed_events m (w_st w) /\ is_Some (m !! id) /\
    (processed_events (w_st w) !! id = None -> m !! id = Some status).
Proof.
  unfold MarkEventProcessed. rewrite runs_exec. intros (_ & d & H & ->). cbn.
  unfold q_MarkEventProcessed in H. destruct (processed_events _ !! id) eqn:Hp; injection H as _ <-.
  - exists (processed_events (w_st w)). split; [by destruct (w_st w)|]. by rewrite Hp.
  - eexists. split; [done|]. rewrite lookup_insert_eq. done.
Qed.

(** The transfer [id] takes its final status. *)
Definition transfer_after (id : string) (status : TransferStatus) (reason : option string)
  (d d' : db) : Prop :=
  exists t, transfers d' = alter (set_transfer status reason t) id (transfers d).

Lemma runs_finalizeFailed outboxID id reason w u w' :
  runs (finalizeFailed outboxID id reason) w u w' ->
  wallet_tables (w_st w') = wallet_tables (w_st w) /\
  transfer_after id StatusFailed (Some reason) (w_st w) (w_st w') /\
  is_Some (processed_events (w_st w') !! outboxID) /\
  (processed_events (w_st w) !! outboxID = None ->
   processed_events (w_st w') !! outboxID = Some "FAILED").
Proof.
  unfold finalizeFailed. intros H.
  apply runs_bind in H as ([] & w1 & H1 & H). apply runs_exec in H1 as (_ & d & H1 & ->).
  injection H1 as <-.
  apply runs_bind in H as ([] & w2 & H2 & H).
  apply runs_FinalizeTransactionsForTransfer in H2 as (m & Hm).
  apply runs_MarkEventProcessed in H as (p & Hp & Hsome & Hnew).
  rewrite Hp, Hm. rewrite Hm in Hnew. cbn in *. split_and!; try done. by eexists.
Qed.

(** Funds of a transfer: the balances move, the ledger does not. *)
Record transferred (tp : TransferPayload) (d d' : db) : Prop := {
  td_accounts : exists s r,
    account_of d s (tp_SenderUserID tp) AccountKindMain /\
    account_of d r (tp_ReceiverUserID tp) AccountKindMain /\
    tp_AmountKobo tp <= bal d s /\
    moved d d' (transfer_fn s r (tp_AmountKobo tp)) no_move;
  td_ceilings : ceiling_tokens d' = ceiling_tokens d;
  td_payments : payment_tokens d' = payment_tokens d;
  td_transfer : transfer_after (tp_TransferID tp) StatusSettled None d d';
}.

Lemma with_money_trans d1 d2 d3 f :
  money d1 d2 f no_move -> accounts d3 = accounts d2 -> ledger_entries d3 = ledger_entries d2 ->
  moved d1 d3 f no_move.
Proof.
  intros [Hm _] Ha Hl. eapply moved_ext; [eapply moved_trans; [exact Hm|by apply moved_same]| |];
    intros x; unfold no_move; lia.
Qed.

Lemma runs_settle_in_tx outboxID tp w out w' :
  runs (settle_in_tx outboxID tp) w out w' ->
  is_Some (processed_events (w_st w') !! outboxID) /\
  (out = "SETTLED" /\ transferred tp (w_st w) (w_st w') \/
   out = "FAILED" /\ wallet_tables (w_st w') = wallet_tables (w_st w) /\
   exists reason, transfer_after (tp_TransferID tp) StatusFailed (Some reason) (w_st w) (w_st w')).
Proof.
  unfold settle_in_tx. intros H.
  apply runs_bind in H as (r & w1 & Hl & H). apply runs_lock_accounts in Hl as [Hw1 Hl].
  assert (forall reason w2 x w3, w_st w2 = w_st w ->
    runs (do! finalizeFailed outboxID (tp_TransferID tp) reason in ret "FAILED") w2 x w3 ->
    is_Some (processed_events (w_st w3) !! outboxID) /\ x = "FAILED" /\
    wallet_tables (w_st w3) = wallet_tables (w_st w) /\
    transfer_after (tp_TransferID tp) StatusFailed (Some reason) (w_st w) (w_st w3)) as Hfail.
  { intros reason w2 x w3 Heq Hx. apply runs_bind in Hx as (u & w4 & Hx & Hr).
    apply runs_ret in Hr as [-> ->]. apply runs_finalizeFailed in Hx as (H1 & H2 & H3 & _).
    rewrite Heq in *. done. }
  destruct r as [[s t]|].
  2:{ apply Hfail in H as (Hp & -> & Hw & Ht); [|done]. split; [done|]. right. eauto. }
  destruct (Hl _ _ eq_refl) as [Hs Ht].
  apply runs_bind in H as (r & w2 & Hd & H). apply (proj1 (runs_attempt _ _ _ _)) in Hd.
  destruct r as [[]|e].
  2:{ destruct (errors_is e ErrNoRows); [|by apply runs_throw in H].
      assert (w_st w2 = w_st w) as Hw2.
      { unfold DebitAccount, bind, exec, ret in Hd. destruct (fault _); [by injection Hd as _ <-|].
        destruct (q_DecrementAccountBalance _ _ _ _) as [[? ?]|]; [discriminate|].
        by injection Hd as _ <-. }
      apply Hfail in H as (Hp & -> & Hw & Hx); [|done]. split; [done|]. right. eauto. }
  apply runs_DebitAccount in Hd as [Hd Hle].
  apply runs_bind in H as ([] & w3 & Hc & H). apply runs_CreditAccount in Hc.
  apply runs_bind in H as ([] & w4 & Hm & H). apply runs_exec in Hm as (_ & d & Hm & ->).
  injection Hm as <-.
  apply runs_bind in H as ([] & w5 & Hf & H).
  apply runs_FinalizeTransactionsForTransfer in Hf as (m & Hm).
  apply runs_bind in H as ([] & w6 & He & H).
  apply runs_MarkEventProcessed in He as (p & Hp & Hsome & _).
  apply runs_ret in H as [-> ->]. rewrite Hw1 in *.
  rewrite Hp, Hm. cbn. split; [done|]. left. split; [done|].
  pose proof (money_trans _ _ _ _ _ _ _ Hd Hc) as M.
  constructor; cbn.
  - exists s, t. split; [done|]. split; [done|]. split; [done|].
    eapply moved_ext; [by eapply with_money_trans; [eapply money_ext; [exact M|done|]|..]| |done].
    intros x. unfold transfer_fn. done.
  - destruct M as [_ R]. unfold rest in R. congruence.
  - destruct M as [_ R]. unfold rest in R. congruence.
  - eexists. cbn. destruct M as [_ R]. unfold rest in R. f_equal. congruence.
Qed.

End ProcessFacts.

(** ** Accepting *)

Section AcceptFacts.
Context {E : Env} {K : CacheEnv} {P : PgSession}.
Implicit Types w : world db effect.

Lemma preserves_or_not_found {A} Q (m : dbop A) : preserves Q m -> preserves Q (or_not_found m).
Proof. intros. unfold or_not_found. auto 10 with preserve. Qed.
#[local] Hint Resolve preserves_or_not_found : preserve.

Lemma preserves_cached_text Q key (m : dbop string) : preserves Q m -> preserves Q (cached_text key m).
Proof. intros. unfold cached_text. auto 10 with preserve. Qed.

Lemma preserves_ResolveReceiver Q n : preserves Q (ResolveReceiverUserID n).
Proof. apply preserves_cached_text. quiet. Qed.
Lemma preserves_GetSenderKYCTier Q u : preserves Q (GetSenderKYCTier u).
Proof. apply preserves_cached_text. quiet. Qed.

(** A statement that returns the database it was given. *)
Lemma preserves_read Q {A} (f : Time -> db -> result (A * db)) :
  (forall t d a d', f t d = Ok (a, d') -> d' = d) -> preserves (L:=effect) Q (exec f).
Proof. intros Hf. apply preserves_exec. intros t d a d' Hd H. by rewrite (Hf _ _ _ _ H). Qed.

Lemma preserves_SumToday Q u : preserves Q (SumSenderTransfersToday u).
Proof.
  apply preserves_read. intros t d a d'. unfold q_SumSenderTransfersToday.
  destruct (bigint _); [|discriminate]. by intros [= _ <-].
Qed.
Lemma preserves_CountRecent Q u win n : preserves Q (CountRecentTransfersBySender u win n).
Proof. apply preserves_read. by intros t d a d' [= _ <-]. Qed.
Lemma preserves_AccountAge Q u : preserves Q (exec (L:=effect) (q_GetUserAccountAgeHours u)).
Proof.
  apply preserves_read. intros t d a d'. unfold q_GetUserAccountAgeHours.
  destruct (users d !! u); [|discriminate]. by intros [= _ <-].
Qed.
#[local] Hint Resolve preserves_SumToday preserves_CountRecent preserves_AccountAge : preserve.

Lemma preserves_check_limits Q i l : preserves Q (check_limits i l).
Proof. unfold check_limits. auto 20 with preserve. Qed.

(** A list of rules that only read. *)
Definition reading (rules : list Rule) : Prop :=
  forall r, r ∈ rules -> forall i, (forall Q, preserves Q (r i)) /\ advances (r i).

Lemma defaultRules_reading : reading defaultRules.
Proof.
  intros r Hr i. unfold defaultRules in Hr.
  repeat (apply elem_of_cons in Hr as [->|Hr]); [..|by apply not_elem_of_nil in Hr].
  all: unfold ruleVelocitySender1m, ruleVelocitySender1h, ruleNewAccountLargeTransfer,
    ruleNovelReceiverHighAmount, ruleHighDailyShare, ExistsTransferBetween;
    (split; [intros Q; repeat case_match; quiet|]).
  all: unfold CountRecentTransfersBySender, SumSenderTransfersToday;
    repeat case_match; auto with advance.
Qed.

Lemma preserves_ScoreTransfer Q rules i : reading rules -> preserves Q (ScoreTransfer rules i).
Proof.
  intros Hr. unfold ScoreTransfer. apply preserves_bind; [|quiet].
  apply preserves_for_each. intros hits r Hin. apply preserves_bind; [|quiet].
  by apply preserves_wrapping, Hr.
Qed.

Lemma advances_ScoreTransfer rules i : reading rules -> advances (ScoreTransfer rules i).
Proof.
  intros Hr. unfold ScoreTransfer. apply advances_bind; [|auto with advance].
  apply advances_for_each. intros hits r Hin. apply advances_bind; [|auto with advance].
  by apply advances_wrapping, Hr.
Qed.

(** The transfers, the events, the scores and the outbox may change, nothing else. *)
Definition accept_frame (d : db) :=
  (wallet_tables d, users d, processed_events d, signing_keys d, bank_signing_keys d).

Definition fraud_reading (fraud : option (list Rule)) : Prop :=
  match fraud with Some rules => reading rules | None => True end.

(** The database after a failed attempt: as it was, or with the record of a blocked transfer
    of the sender besides. *)
Definition blocked (sender : string) (d d' : db) : Prop :=
  d' = d \/
  exists id row, fraud_scores d !! id = None /\ fs_Decision row = "BLOCK" /\
    fs_SenderID row = sender /\ d' = with_fraud_scores (<[id := row]> (fraud_scores d)) d.

(** A statement that leaves the database in all runs. *)
Lemma quiet_any {A} (m : dbop A) w : (forall Q, preserves Q m) -> w_st (m w).2 = w_st w.
Proof. intros H. by apply (H (fun d => d = w_st w)). Qed.

Lemma RecordScore_blocked id input sc w :
  sc_Decision sc = DecisionBlock ->
  blocked (si_SenderUserID input) (w_st w) (w_st (RecordScore id input sc w).2).
Proof.
  intros Hd. unfold RecordScore. rewrite Hd. unfold bind at 1, wrapping, lift.
  destruct (hits_json _) as [hits|e]; [|by left]. unfold bind, fresh, exec. cbn [w_ops w_st].
  destruct (fault _); [by left|].
  destruct (q_InsertFraudScore _ _ _ _) as [[[] d']|e] eqn:Hq; [|by left]. right. cbn.
  unfold q_InsertFraudScore in Hq. guards Hq. apply pk_ok in Hg1. injection Hq as <-.
  do 2 eexists. split_and!; [exact Hg1| | |reflexivity]; cbn; [by rewrite Hd|done].
Qed.

Lemma score_blocked fraud i r tier l w :
  fraud_reading fraud ->
  blocked (it_SenderUserID i) (w_st w) (w_st (score fraud i r tier l w).2).
Proof.
  intros Hf. unfold score. destruct fraud as [rules|]; [|by left]. unfold bind at 1.
  match goal with |- context [match ?m w with _ => _ end] =>
    assert (w_st (m w).2 = w_st w) as H1 by (apply quiet_any; intros Q; quiet);
    destruct (m w) as [[age|e] w1] end; [|by left]. cbn [snd] in H1.
  unfold bind at 1.
  match goal with |- context [match ?m w1 with _ => _ end] =>
    assert (w_st (m w1).2 = w_st w1) as H2 by
      (apply quiet_any; intros Q; by apply preserves_wrapping, preserves_ScoreTransfer);
    destruct (m w1) as [[sc|e] w2] end; cbn [snd] in H2; rewrite H1 in H2; [|by left].
  destruct (sc_Decision sc) eqn:Hd; [by left..|]. unfold bind, attempt, throw.
  pose proof (RecordScore_blocked "" (score_input i r tier l age) sc w2 Hd) as Hb.
  destruct (RecordScore _ _ _ w2) as [? w3]. cbn in *. by rewrite H2 in Hb.
Qed.

(** Scoring that lets the transfer through changes nothing. *)
Lemma runs_score_quiet fraud i r tier l w sc w' :
  fraud_reading fraud -> runs (score fraud i r tier l) w sc w' -> w_st w' = w_st w.
Proof.
  intros Hf H. unfold score in H. destruct fraud as [rules|]; [|by apply runs_ret in H as [_ ->]].
  apply runs_bind in H as (age & w1 & H1 & H).
  apply (quiet_runs _ _ _ _ (fun Q => preserves_wrapping Q _ _ (preserves_AccountAge Q _))) in H1.
  apply runs_bind in H as (s & w2 & H2 & H).
  apply (quiet_runs _ _ _ _ (fun Q => preserves_wrapping Q _ _ (preserves_ScoreTransfer Q _ _ Hf))) in H2.
  destruct (sc_Decision s); [apply runs_ret in H as [_ ->]; congruence..|].
  apply runs_bind in H as (? & ? & _ & H). by apply runs_throw in H.
Qed.

Lemma advances_RecordScore id input sc : advances (RecordScore id input sc).
Proof. unfold RecordScore. destruct (sc_Decision sc); auto 10 with advance. Qed.

Lemma advances_score fraud i r tier l :
  fraud_reading fraud -> advances (score fraud i r tier l).
Proof.
  intros Hf. unfold score. destruct fraud as [rules|]; [|auto with advance].
  apply advances_bind; [auto with advance|]. intros age.
  apply advances_bind; [by apply advances_wrapping, advances_ScoreTransfer|]. intros sc.
  destruct (sc_Decision sc); auto using advances_RecordScore with advance.
Qed.

Lemma advances_accept_rows fraud i r tier l sc : advances (accept_rows fraud i r tier l sc).
Proof.
  unfold accept_rows, InsertAccepted, RecordTransaction.
  auto 40 using advances_RecordScore with advance.
Qed.

(** The scoring let the transfer through. *)
Lemma runs_score_allowed fraud i r tier l w sc w' :
  runs (score fraud i r tier l) w sc w' -> sc_Decision sc <> DecisionBlock.
Proof.
  unfold score. destruct fraud as [rules|].
  - intros H. apply runs_bind in H as (age & w1 & _ & H).
    apply runs_bind in H as (s & w2 & _ & H). destruct (sc_Decision s) eqn:Hd.
    + apply runs_ret in H as [-> _]. congruence.
    + apply runs_ret in H as [-> _]. congruence.
    + apply runs_bind in H as (? & ? & _ & H). by apply runs_throw in H.
  - intros [-> _]%runs_ret. done.
Qed.

(** *** The limits *)

Definition sum_today (sender : string) (t : Time) (d : db) : Z :=
  sum_rows (fun _ f => if counts_today sender t f then f_AmountKobo f else 0) (transfers d).

Lemma runs_check_limits i l w u w' :
  runs (check_limits i l) w u w' ->
  w_st w' = w_st w /\ tl_SingleMaxKobo l <> 0 /\ it_AmountKobo i <= tl_SingleMaxKobo l /\
  (w_ops w < w_ops w')%nat /\
  sum_today (it_SenderUserID i) (sql_now (w_ops w)) (w_st w) <= int64_max /\
  add64 (sum_today (it_SenderUserID i) (sql_now (w_ops w)) (w_st w)) (it_AmountKobo i)
    <= tl_DailyMaxKobo l.
Proof.
  intros H. assert (w_st w' = w_st w) as Hw
    by (by apply (quiet_runs _ _ _ _ (fun Q => preserves_check_limits Q i l) H)).
  split; [done|]. unfold check_limits in H.
  destruct (Z.eqb_spec (tl_SingleMaxKobo l) 0); [by apply runs_throw in H|].
  destruct (Z.ltb_spec (tl_SingleMaxKobo l) (it_AmountKobo i)); [by apply runs_throw in H|].
  split; [done|]. split; [lia|].
  apply runs_bind in H as (spent & w1 & Hs & H). apply runs_wrapping in Hs.
  destruct (Z.ltb_spec (tl_DailyMaxKobo l) (add64 spent (it_AmountKobo i)));
    [by apply runs_throw in H|].
  apply runs_exec in Hs as (_ & d & Hs & ->). apply runs_ret in H as [_ ->].
  unfold q_SumSenderTransfersToday in Hs.
  destruct (bigint _) as [x|] eqn:Hb; [|discriminate]. injection Hs as -> _.
  apply bigint_ok in Hb as [-> Hr%in_int64_spec]. unfold sum_today. cbn.
  split_and!; [lia|lia|done].
Qed.

(** *** The rows *)

(** The two business events of an accepted transfer. *)
Definition event_of (i : InitiateTransferInput) (id group user : string) (kind : TransactionKind)
  (dir : LedgerDirection) (x : TxnRow) : Prop :=
  x_UserID x = user /\ x_Kind x = kind /\ x_Status x = TxStatusPending /\ x_Direction x = dir /\
  x_AmountKobo x = it_AmountKobo i /\ x_TransferID x = Some id /\ x_GroupID x = group.

Definition payload_of (i : InitiateTransferInput) (receiver id : string) : TransferPayload := {|
  tp_TransferID := id; tp_SenderUserID := it_SenderUserID i; tp_ReceiverUserID := receiver;
  tp_ReceiverAccountNumber := it_ReceiverAccountNumber i;
  tp_AmountKobo := it_AmountKobo i; tp_Reference := it_Reference i |}.

(** An undispatched message of aggregate [agg] waits in the outbox. *)
Definition queued (d d' : db) (agg aggID : string) (payload : json) : Prop :=
  exists oid t, outbox d !! oid = None /\
    outbox d' = <[oid := {| o_Aggregate := agg; o_AggregateID := aggID; o_Payload := payload;
                            o_CreatedAt := t; o_DispatchedAt := None; o_Attempts := 0;
                            o_NextAttemptAt := t |}]> (outbox d).

Record accepted_transfer (i : InitiateTransferInput) (receiver : string) (d d' : db)
  (tr : Transfer) : Prop := {
  ad_row : exists id row, tr = transferToDomain (id, row) /\
    transfers d !! id = None /\ transfers d' = <[id := row]> (transfers d) /\
    f_SenderUserID row = it_SenderUserID i /\ f_ReceiverUserID row = receiver /\
    f_AmountKobo row = it_AmountKobo i /\ f_Status row = StatusAccepted /\
    f_Reference row = it_Reference i;
  ad_new : forall k f, transfers d !! k = Some f ->
    same_reference (it_SenderUserID i) (it_Reference i) f = false;
  ad_amount : 0 < it_AmountKobo i <= int64_max;
  ad_frame : accept_frame d' = accept_frame d;
  ad_events : exists group x y sx ry,
    transactions d !! x = None /\ transactions d !! y = None /\ x <> y /\
    transactions d' = <[y := ry]> (<[x := sx]> (transactions d)) /\
    event_of i (tr_ID tr) group (it_SenderUserID i) TxKindTransferSent LedgerDirectionDEBIT sx /\
    event_of i (tr_ID tr) group receiver TxKindTransferReceived LedgerDirectionCREDIT ry;
  ad_outbox : exists v, TransferPayload_json (payload_of i receiver (tr_ID tr)) = Ok v /\
    queued d d' OutboxAggregateTransfer (tr_ID tr) v;
}.

Lemma runs_InsertAccepted p w r w' :
  runs (InsertAccepted p) w r w' ->
  exists t, r = (ia_ID p, new_transfer p t) /\ 0 < ia_AmountKobo p <= int64_max /\
    transfers (w_st w) !! ia_ID p = None /\
    (forall k f, transfers (w_st w) !! k = Some f ->
       same_reference (ia_SenderUserID p) (ia_Reference p) f = false) /\
    w_st w' = with_transfers (<[ia_ID p := new_transfer p t]> (transfers (w_st w))) (w_st w).
Proof.
  unfold InsertAccepted. rewrite runs_exec. intros (_ & d & H & ->). cbn.
  unfold q_CreateTransferAcceptedFlagged in H. guards H. injection H as <- <-.
  apply bigint_ok in Hg as [-> Hr%in_int64_spec]. apply guard_or_ok, Z.ltb_lt in Hg0.
  apply pk_ok in Hg1. pose proof (unique_ok _ _ _ _ Hg2).
  eexists. split_and!; try done; lia.
Qed.

(** Scoring writes fraud_scores only. *)
Lemma runs_RecordScore id input sc w u w' :
  runs (RecordScore id input sc) w u w' -> exists m, w_st w' = with_fraud_scores m (w_st w).
Proof.
  unfold RecordScore. assert (w_st w = with_fraud_scores (fraud_scores (w_st w)) (w_st w)) as Hid
    by (by destruct (w_st w)).
  destruct (sc_Decision sc); intros H.
  - apply runs_ret in H as [_ ->]. eauto.
  - apply runs_bind in H as (v & w1 & Hv & H). apply runs_wrapping, runs_lift in Hv as [_ ->].
    apply runs_bind in H as (k & w2 & Hk & H). apply runs_fresh in Hk as [_ ->].
    apply runs_exec in H as (_ & d & H & ->). cbn in *. unfold q_InsertFraudScore in H.
    guards H. injection H as _ <-. eauto.
  - apply runs_bind in H as (v & w1 & Hv & H). apply runs_wrapping, runs_lift in Hv as [_ ->].
    apply runs_bind in H as (k & w2 & Hk & H). apply runs_fresh in Hk as [_ ->].
    apply runs_exec in H as (_ & d & H & ->). cbn in *. unfold q_InsertFraudScore in H.
    guards H. injection H as _ <-. eauto.
Qed.

Lemma runs_accept_rows fraud i receiver tier l sc w tr w' :
  runs (accept_rows fraud i receiver tier l sc) w tr w' ->
  accepted_transfer i receiver (w_st w) (w_st w') tr.
Proof.
  unfold accept_rows. intros H.
  apply runs_bind in H as (id & w1 & H1 & H). apply runs_fresh in H1 as [_ ->].
  apply runs_bind in H as (row & w2 & H1 & H).
  apply runs_wrapping, runs_InsertAccepted in H1 as (t & -> & Ham & Hid & Hnew & Hw2). cbn in *.
  apply runs_bind in H as (g & w3 & H1 & H). apply runs_fresh in H1 as [_ ->].
  apply runs_bind in H as (x & w4 & H1 & H). apply runs_fresh in H1 as [_ ->].
  apply runs_bind in H as ([] & w5 & H1 & H).
  apply runs_wrapping, runs_RecordTransaction in H1 as (Hx & _ & tx & Hw5). cbn in *.
  apply runs_bind in H as (y & w6 & H1 & H). apply runs_fresh in H1 as [_ ->].
  apply runs_bind in H as ([] & w7 & H1 & H).
  apply runs_wrapping, runs_RecordTransaction in H1 as (Hy & _ & ty & Hw7). cbn in *.
  apply runs_bind in H as ([] & w8 & H1 & H).
  assert (exists m, w_st w8 = with_fraud_scores m (w_st w7)) as (m & Hw8).
  { assert (w_st w7 = with_fraud_scores (fraud_scores (w_st w7)) (w_st w7)) as Heq
      by (by destruct (w_st w7)).
    destruct fraud as [rules|]; [destruct (bool_decide _)|].
    - by apply runs_wrapping, runs_RecordScore in H1.
    - apply runs_ret in H1 as [_ ->]. eauto.
    - apply runs_ret in H1 as [_ ->]. eauto. }
  apply runs_bind in H as (v & w9 & H2 & H). apply runs_wrapping, runs_lift in H2 as [Hv ->].
  apply runs_bind in H as (oid & w10 & H2 & H). apply runs_fresh in H2 as [_ ->].
  apply runs_bind in H as ([] & w11 & H2 & H). apply runs_ret in H as [-> ->].
  apply runs_wrapping, runs_exec in H2 as (_ & d & H2 & ->). cbn in *.
  unfold q_InsertOutboxEntry in H2. guards H2. injection H2 as <-. apply pk_ok in Hg.
  rewrite Hw8, Hw7, Hw5, Hw2 in *. cbn in *.
  rewrite lookup_insert_None in Hy. destruct Hy as [Hy Hxy].
  constructor; cbn; try done.
  - eexists _, _. split_and!; try done.
  - exists g, x, y. do 2 eexists. split_and!; try done.
  - eexists. split; [exact Hv|]. eexists _, _. split; [exact Hg|]. done.
Qed.

(** *** The transaction and the handler *)

(** The store call [n] was made during the run from [w] to [w']. *)
Definition during (w w' : world db effect) (n : nat) : Prop := (w_ops w <= n < w_ops w')%nat.

(** The outcome of a successful call. *)
Definition transfer_outcome (i : InitiateTransferInput) (receiver tier : string)
  (w w' : world db effect) (tr : Transfer) : Prop :=
  let d := w_st w in
  (w_st w' = d /\
   exists row, q_GetTransferByRef (it_SenderUserID i) (it_Reference i) d = Ok row /\
     tr = transferToDomain row) \/
  (accepted_transfer i receiver d (w_st w') tr /\
   let l := LimitsForTier tier in
   tl_SingleMaxKobo l <> 0 /\ it_AmountKobo i <= tl_SingleMaxKobo l /\
   exists n, during w w' n /\ sum_today (it_SenderUserID i) (sql_now n) d <= int64_max /\
     add64 (sum_today (it_SenderUserID i) (sql_now n) d) (it_AmountKobo i) <= tl_DailyMaxKobo l).

Lemma attempt_GetByRef sender reference w r w' :
  attempt (GetByRef sender reference) w = (Ok r, w') ->
  w_st w' = w_st w /\ (w_ops w <= w_ops w')%nat /\
  match r with
  | Ok row => q_GetTransferByRef sender reference (w_st w) = Ok row
  | Err _ => True
  end.
Proof.
  intros H. assert (runs (attempt (GetByRef sender reference)) w r w') as Hr by done.
  assert (w_st w' = w_st w) as Hw.
  { apply (quiet_runs (attempt (GetByRef sender reference)) w r w'); [|exact Hr]. intros Q. apply preserves_attempt.
    apply preserves_or_not_found. quiet. }
  split; [done|]. split.
  { apply (runs_advances (attempt (GetByRef sender reference)) w r w'); [|done].
    unfold GetByRef, or_not_found. auto 10 with advance. }
  destruct r as [row|]; [|done].
  apply (proj1 (runs_attempt _ _ _ _)) in H. unfold GetByRef, or_not_found in H.
  apply runs_bind in H as (r & w1 & H1 & H). destruct r as [row'|e].
  - apply runs_ret in H as [-> ->]. apply (proj1 (runs_attempt _ _ _ _)) in H1.
    by apply runs_query in H1 as (_ & H1 & _).
  - by apply runs_throw in H.
Qed.

Lemma runs_accept_transfer fraud i receiver tier w tr w' :
  fraud_reading fraud -> runs (accept_in_tx fraud i receiver tier) w tr w' ->
  transfer_outcome i receiver tier w w' tr.
Proof.
  intros Hf H. unfold accept_in_tx in H. apply runs_bind in H as (r & w1 & H1 & H).
  apply attempt_GetByRef in H1 as (Hw1 & Hop1 & Hr). destruct r as [row|e].
  - apply runs_ret in H as [-> ->]. left. split; [done|]. eauto.
  - destruct (errors_is e ErrNotFound); cbn in H; [|by apply runs_throw in H].
    apply runs_bind in H as ([] & w2 & H1 & H). apply runs_check_limits in H1
      as (Hw2 & Hz & Hsingle & Hop2 & Hmax & Hday).
    apply runs_bind in H as (sc & w3 & H1 & H).
    pose proof (runs_advances _ _ _ _ (advances_score _ _ _ _ _ Hf) H1) as Hop3.
    pose proof (runs_advances _ _ _ _ (advances_accept_rows _ _ _ _ _ _) H) as Hop4.
    pose proof (runs_score_quiet _ _ _ _ _ _ _ _ Hf H1) as Hw3.
    apply runs_accept_rows in H. right. rewrite Hw3, Hw2, Hw1 in *.
    cbn zeta. do 3 (split; [done|]). exists (w_ops w1). unfold during. split; [lia|done].
Qed.

(** *** What survives an attempt that fails *)

Lemma accept_rows_blocks fraud i receiver tier l sc F :
  sc_Decision sc <> DecisionBlock ->
  preserves (fun d => blocks d = F) (accept_rows fraud i receiver tier l sc).
Proof.
  intros Hsc. unfold accept_rows, InsertAccepted, RecordTransaction.
  assert (forall id input, preserves (fun d => blocks d = F) (RecordScore id input sc)) as Hrec.
  { intros id input. unfold RecordScore. destruct (sc_Decision sc) eqn:Hd; [quiet| |done].
    apply preserves_bind; [quiet|intros hits]. apply preserves_bind; [quiet|intros k].
    apply preserves_exec. intros t d [] d' Hb H. unfold q_InsertFraudScore in H. guards H.
    apply pk_ok in Hg1. injection H as <-. rewrite <- Hb. unfold blocks. cbn.
    rewrite map_filter_insert_False; [|cbn; by rewrite Hd].
    by rewrite delete_id. }
  assert (forall A (f : Time -> db -> result (A * db)),
    (forall t d a d', f t d = Ok (a, d') -> fraud_scores d' = fraud_scores d) ->
    preserves (fun d => blocks d = F) (exec (L:=effect) f)) as Hx.
  { intros A f Hf. apply preserves_exec. intros t d a d' Hb H. unfold blocks. by rewrite (Hf _ _ _ _ H). }
  repeat first
    [ apply preserves_wrapping
    | apply preserves_bind; [|intros]
    | apply Hrec
    | apply Hx; intros ???? H
    | progress quiet
    | match goal with |- preserves _ (match ?x with _ => _ end) => destruct x end ].
  all: try (unfold q_CreateTransferAcceptedFlagged, q_RecordTransaction, q_InsertOutboxEntry in H;
    guards H; by injection H as _ <-).
Qed.

Lemma blocks_kept d : with_fraud_scores (blocks d ∪ fraud_scores d) d = d.
Proof.
  rewrite (map_subseteq_union (blocks d)) by apply map_filter_subseteq. by destruct d.
Qed.

Lemma blocked_kept sender d d1 :
  blocked sender d d1 -> blocked sender d (with_fraud_scores (blocks d1 ∪ fraud_scores d) d).
Proof.
  intros [->|(id & row & Hid & Hd & Hs & ->)]; [left; apply blocks_kept|right].
  exists id, row. do 3 (split; [done|]). unfold blocks. cbn [fraud_scores with_fraud_scores].
  rewrite map_filter_insert_True by done. rewrite <- insert_union_l.
  f_equal. f_equal. apply map_subseteq_union, map_filter_subseteq.
Qed.

(** Whatever a failed acceptance did, what is left of it is a block at most. *)
Lemma Tx_accept_blocked fraud i receiver tier w e w' :
  fraud_reading fraud ->
  Tx_beside_scores (accept_in_tx fraud i receiver tier) w = (Err e, w') ->
  blocked (it_SenderUserID i) (w_st w) (w_st w').
Proof.
  intros Hf H. apply tx_beside_err in H as [->|(r & w1 & H & ->)]; [by left|].
  assert (blocked (it_SenderUserID i) (w_st w) (w_st w1) \/ blocks (w_st w1) = blocks (w_st w)) as [Hb|Hb].
  2:{ by apply blocked_kept. }
  2:{ left. rewrite Hb. apply blocks_kept. }
  change (w_st w) with (w_st (tick_ops w (w_st w))). set (w0 := tick_ops w (w_st w)) in *. clearbody w0.
  unfold accept_in_tx, bind at 1 in H.
  assert (w_st (attempt (GetByRef (it_SenderUserID i) (it_Reference i)) w0).2 = w_st w0) as Hw2.
  { apply quiet_any. intros Q. apply preserves_attempt, preserves_or_not_found. quiet. }
  destruct (attempt _ w0) as [[[row|x]|x] w2] eqn:H2; cbn [snd] in Hw2.
  { injection H as _ <-. left. by left. }
  2:{ injection H as _ <-. left. by left. }
  destruct (errors_is x ErrNotFound); cbn [negb] in H; [|injection H as _ <-; left; by left].
  unfold bind at 1 in H.
  pose proof (quiet_any (check_limits i (LimitsForTier tier)) w2 (fun Q => preserves_check_limits Q _ _)) as Hw3.
  destruct (check_limits _ _ w2) as [[[]|y] w3]; cbn [snd] in Hw3; rewrite Hw2 in Hw3;
    [|injection H as _ <-; left; by left].
  unfold bind at 1 in H.
  destruct (score _ _ _ _ _ w3) as [[sc|y] w4] eqn:H4.
  - pose proof (runs_score_allowed _ _ _ _ _ _ _ _ H4) as Hsc.
    apply (runs_score_quiet _ _ _ _ _ _ _ _ Hf) in H4. right.
    pose proof (accept_rows_blocks fraud i receiver tier (LimitsForTier tier) sc (blocks (w_st w4)) Hsc w4 eq_refl) as Hp.
    rewrite H in Hp. cbn [snd] in Hp. by rewrite Hp, H4, Hw3.
  - injection H as _ <-. left.
    pose proof (score_blocked fraud i receiver tier (LimitsForTier tier) w3 Hf) as Hb.
    rewrite H4 in Hb. cbn [snd] in Hb. by rewrite Hw3 in Hb.
Qed.

End AcceptFacts.
