(* ===== verification/TransferProps.v ===== *)
(** * The properties of online transfers

    What a sender, the dispatcher and the processor can rely on; the lemmas are in
    TransferFacts.v. *)

From S2P Require Import Prelude Domain Json Crypto Wire Store Repo Books Solvency Wallet TransferScore Transfer TransferFacts.

(** ** Initiating *)

Section Initiate.
Context {E : Env} {K : CacheEnv} {P : PgSession}.
Implicit Types w : world db effect.

(** What a text read through the cache can be. *)
Definition text_seen (w : world db effect) (key : string) (f : db -> result string) (s : string)
  : Prop := cache_get key (w_log w) = Some (CachedText s) \/ f (w_st w) = Ok s.

(** The call changes nothing but the cached value of [key]. *)
Lemma runs_cached_text key (f : db -> result string) w s w' :
  runs (cached_text key (query f)) w s w' ->
  w_st w' = w_st w /\ (w_ops w <= w_ops w')%nat /\ text_seen w key f s /\
  forall key', key' <> key -> cache_get key' (w_log w') = cache_get key' (w_log w).
Proof.
  intros H. unfold cached_text in H. apply runs_bind in H as (hit & w1 & Hc & H).
  unfold cache_lookup in Hc. injection Hc as <- <-.
  assert (forall w2 u w3,
    runs (let! s := or_not_found (query f) in
          do! emit (EvCacheSet key (CachedText s)) in ret s) w2 u w3 ->
    w_st w3 = w_st w2 /\ (w_ops w2 <= w_ops w3)%nat /\ f (w_st w2) = Ok u /\
    forall key', key' <> key -> cache_get key' (w_log w3) = cache_get key' (w_log w2)) as Hmiss.
  { intros w2 u w3 Hm. apply runs_bind in Hm as (x & w4 & Ho & Hm).
    apply runs_bind in Hm as ([] & w5 & He & Hm). apply runs_emit in He as ->.
    apply runs_ret in Hm as [-> ->]. unfold or_not_found in Ho.
    apply runs_bind in Ho as ([y|e] & w6 & Ha & Ho); [|by apply runs_throw in Ho].
    apply (proj1 (runs_attempt _ _ _ _)) in Ha. apply runs_query in Ha as (_ & Ha & ->).
    apply runs_ret in Ho as [-> ->]. cbn [w_log w_st w_ops tick_ops]. split_and!; [done|lia|done|].
    intros key' Hk. rewrite cache_get_snoc. destruct (String.eqb_spec key key'); [congruence|done]. }
  unfold text_seen.
  destruct (cache_serves _); [|apply Hmiss in H as (? & ? & ? & ?); auto].
  destruct (cache_get key (w_log w)) as [[| |v| | |]|];
    try (apply Hmiss in H as (? & ? & ? & ?); by auto).
  apply runs_ret in H as [-> ->]. auto.
Qed.

Definition receiver_key (i : InitiateTransferInput) : string :=
  "acct:uid:" +:+ it_ReceiverAccountNumber i.
Definition tier_key (i : InitiateTransferInput) : string := "user:tier:" +:+ it_SenderUserID i.

Lemma runs_InitiateTransfer fraud i w tr w' :
  fraud_reading fraud -> runs (InitiateTransfer fraud i) w tr w' ->
  validate_input i = Ok tt /\
  exists receiver tier, receiver <> it_SenderUserID i /\
    text_seen w (receiver_key i) (q_GetUserIDByAccountNumber (it_ReceiverAccountNumber i)) receiver /\
    text_seen w (tier_key i) (q_GetUserKYCTier (it_SenderUserID i)) tier /\
    transfer_outcome i receiver tier w w' tr /\
    exists w1 w2, w_st w1 = w_st w /\ (w_ops w <= w_ops w1)%nat /\
      runs (accept_in_tx fraud i receiver tier) w1 tr w2 /\
      w_st w2 = w_st w' /\ (w_ops w2 <= w_ops w')%nat.
Proof.
  intros Hf H. unfold InitiateTransfer in H. apply runs_bind in H as ([] & w1 & H1 & H).
  apply runs_lift in H1 as [Hv ->]. split; [done|].
  apply runs_bind in H as ([u|e] & w1 & H1 & H).
  2:{ apply runs_bind in H as (r & w2 & H2 & _). by apply runs_throw in H2. }
  apply (proj1 (runs_attempt _ _ _ _)) in H1.
  apply runs_cached_text in H1 as (Hw1 & Hop1 & Hu & Hother).
  apply runs_bind in H as (receiver & w2 & H2 & H). apply runs_ret in H2 as [-> ->].
  case_bool_decide as Hself; [by apply runs_throw in H|].
  apply runs_bind in H as (tier & w2 & H2 & H).
  apply runs_wrapping, runs_cached_text in H2 as (Hw2 & Hop2 & Ht & _).
  apply runs_tx_beside, runs_tx in H as (_ & w3 & H & _ & _ & ->).
  pose proof (runs_accept_transfer _ _ _ _ _ _ _ Hf H) as Ho.
  exists u, tier. split; [done|]. split; [done|]. split; [|split].
  - unfold text_seen in *. rewrite Hw1 in Ht. by rewrite <- (Hother (tier_key i)).
  - unfold transfer_outcome in *. cbn in *. rewrite Hw2, Hw1 in Ho.
    destruct Ho as [?|(Ha & Hz & Hs & n & Hn & Hm & Hd)]; [by left|right].
    do 3 (split; [done|]). exists n. split; [|done]. unfold during in *. cbn in *. lia.
  - exists (tick_ops w2 (w_st w2)), w3. cbn. split_and!; try done; lia || congruence.
Qed.

(** Claim C11: a transfer that is newly accepted is one valid transfer row, the pair of pending
    business events of its two parties and one outbox message that decodes to it; no
    balance, ledger entry, ceiling, payment or user changes; its amount is within the
    single limit of the tier the sender is known under, and together with what the
    database counts as sent today within the daily limit. *)
Theorem InitiateTransfer_accepts fraud i w tr w' :
  fraud_reading fraud -> runs (InitiateTransfer fraud i) w tr w' ->
  transfers (w_st w') <> transfers (w_st w) ->
  exists receiver tier, receiver <> it_SenderUserID i /\
    text_seen w (receiver_key i) (q_GetUserIDByAccountNumber (it_ReceiverAccountNumber i)) receiver /\
    text_seen w (tier_key i) (q_GetUserKYCTier (it_SenderUserID i)) tier /\
    accepted_transfer i receiver (w_st w) (w_st w') tr /\
    it_AmountKobo i <= tl_SingleMaxKobo (LimitsForTier tier) /\
    exists n, during w w' n /\
      let spent := sum_today (it_SenderUserID i) (sql_now n) (w_st w) in
      (spent + it_AmountKobo i <= int64_max ->
       0 <= spent -> spent + it_AmountKobo i <= tl_DailyMaxKobo (LimitsForTier tier)).
Proof.
  intros Hf H Hne. apply runs_InitiateTransfer in H
    as (_ & receiver & tier & Hr & Hs1 & Hs2 & Ho & _); [|done].
  destruct Ho as [[Heq _]|[Ha (_ & Hs & n & Hn & _ & Hd)]]; [congruence|].
  exists receiver, tier. do 5 (split; [done|]).
  exists n. split; [done|]. cbn zeta. intros Hmax Hpos. destruct Ha. unfold add64 in Hd.
  rewrite wrap64_id in Hd; [done|]. unfold int64_min, int64_max in *. lia.
Qed.

(** What a failing call does beyond reading is what its transaction did. *)
Lemma InitiateTransfer_err (R : db -> db -> Prop) fraud i w e w' :
  (forall d, R d d) ->
  (forall receiver tier w1 x w2, w_st w1 = w_st w ->
     Tx_beside_scores (accept_in_tx fraud i receiver tier) w1 = (Err x, w2) -> R (w_st w1) (w_st w2)) ->
  InitiateTransfer fraud i w = (Err e, w') -> R (w_st w) (w_st w').
Proof.
  intros HR HTx. unfold InitiateTransfer, bind at 1. intros H.
  destruct (lift (validate_input i) w) as [[u|e0] w1] eqn:H1; injection H1 as Hv <-;
    [|by injection H as _ <-].
  unfold bind at 1 in H.
  destruct (attempt _ w) as [r w1] eqn:H1.
  assert (w_st w1 = w_st w) as Hw1.
  { pose proof (preserves_attempt (fun d => d = w_st w) _
      (preserves_ResolveReceiver _ (it_ReceiverAccountNumber i)) w eq_refl) as Hp.
    by rewrite H1 in Hp. }
  destruct r as [r|e1]; [|injection H as _ <-; by rewrite Hw1].
  unfold bind at 1 in H. destruct r as [rcv|e1].
  2:{ cbn in H. injection H as _ <-. by rewrite Hw1. }
  cbn in H. case_bool_decide; [injection H as _ <-; by rewrite Hw1|].
  unfold bind at 1 in H. destruct (wrapping _ _ w1) as [r w2] eqn:H2.
  assert (w_st w2 = w_st w1) as Hw2.
  { pose proof (preserves_wrapping (fun d => d = w_st w1) "lookup sender tier" _
      (preserves_GetSenderKYCTier _ (it_SenderUserID i)) w1 eq_refl) as Hp.
    by rewrite H2 in Hp. }
  destruct r as [tier|e2]; [|injection H as _ <-; by rewrite Hw2, Hw1].
  rewrite <- Hw1, <- Hw2. apply HTx in H; [done|congruence].
Qed.

(** A call that fails leaves the database as it was, whatever made it fail, but for the record
    of a blocked transfer, which is written through the pool. *)
Lemma InitiateTransfer_fails fraud i w e w' :
  fraud_reading fraud -> InitiateTransfer fraud i w = (Err e, w') ->
  blocked (it_SenderUserID i) (w_st w) (w_st w').
Proof.
  intros Hf. apply InitiateTransfer_err; [by left|]. intros receiver tier w1 x w2 _.
  by apply Tx_accept_blocked.
Qed.

(** The transfer [id] is the row, under the sender's reference. *)
Definition referenced (sender reference : string) (id : string) (row : TransferRow) (d : db) : Prop :=
  transfers d !! id = Some row /\ f_SenderUserID row = sender /\ f_Reference row = reference.

(** What the index transfers_sender_id_reference_key guarantees. *)
Definition one_per_reference (d : db) : Prop := forall sender reference i j f g,
  referenced sender reference i f d -> referenced sender reference j g d -> i = j.

Lemma GetByRef_referenced sender reference id row d :
  one_per_reference d -> referenced sender reference id row d ->
  q_GetTransferByRef sender reference d = Ok (id, row).
Proof.
  intros Hone Hr. pose proof Hr as (Hid & Hs & Href). unfold q_GetTransferByRef.
  apply first_row_unique; [done|unfold same_reference; by rewrite !bool_decide_true|].
  intros k f Hk Hsame. unfold same_reference in Hsame. apply andb_true_iff in Hsame as [H1 H2].
  apply bool_decide_eq_true in H1, H2. by apply (Hone sender reference k id f row).
Qed.

(** With a transfer under the reference nothing is scored either. *)
Lemma InitiateTransfer_stored_fails fraud i w id row e w' :
  q_GetTransferByRef (it_SenderUserID i) (it_Reference i) (w_st w) = Ok (id, row) ->
  InitiateTransfer fraud i w = (Err e, w') -> w_st w' = w_st w.
Proof.
  intros Hq. apply (InitiateTransfer_err (fun d d' => d' = d)); [done|].
  intros receiver tier w1 x w2 Hw1 H.
  apply tx_beside_err in H as [?|(r & w3 & H & ->)]; [done|].
  enough (w_st w3 = w_st w1) as -> by apply blocks_kept.
  unfold accept_in_tx, bind at 1, attempt at 1, GetByRef, or_not_found, bind at 1, attempt, query, exec in H.
  cbn [w_ops w_st tick_ops] in H. destruct (fault _) as [b|]; [by injection H as _ <-|].
  rewrite Hw1, Hq in H. by injection H as _ <-.
Qed.

(** Claim C37: the reference makes initiating idempotent.  A call that succeeds answers a transfer that is
    stored under the sender and the reference, and keeps the index on them unique.  As long as
    a transfer is stored there, whatever became of it in the meantime, no further call of that
    sender with that reference changes anything in the database, whatever its other arguments and
    however it ends; one that succeeds answers that transfer, as it is by then. *)
Theorem InitiateTransfer_idempotent fraud i w :
  fraud_reading fraud -> one_per_reference (w_st w) ->
  (forall tr w', runs (InitiateTransfer fraud i) w tr w' ->
     one_per_reference (w_st w') /\
     exists row, referenced (it_SenderUserID i) (it_Reference i) (tr_ID tr) row (w_st w') /\
       tr = transferToDomain (tr_ID tr, row)) /\
  (forall id row r w', referenced (it_SenderUserID i) (it_Reference i) id row (w_st w) ->
     InitiateTransfer fraud i w = (r, w') ->
     w_st w' = w_st w /\ forall tr, r = Ok tr -> tr = transferToDomain (id, row)).
Proof.
  intros Hf Hone. split.
  - intros tr w' H. apply runs_InitiateTransfer in H as (_ & rcv & tier & _ & _ & _ & Ho & _); [|done].
    destruct Ho as [(-> & [id row] & Hrow & ->)|[[] _]].
    + split; [done|]. exists row. split; [|done]. unfold q_GetTransferByRef in Hrow.
      apply first_row_ok in Hrow as [Hid Hs]. unfold same_reference in Hs.
      apply andb_true_iff in Hs as [H1 H2]. apply bool_decide_eq_true in H1, H2. done.
    + destruct ad_row as (id & row & -> & Hid & Htr & Hrs & Hrr & _ & _ & Href).
      split; [|exists row; split; [|done]].
      * assert (forall sender reference k f, referenced sender reference k f (w_st w') ->
          k = id /\ sender = it_SenderUserID i /\ reference = it_Reference i \/
          referenced sender reference k f (w_st w) /\
          ~ (sender = it_SenderUserID i /\ reference = it_Reference i)) as Hcase.
        { intros sender reference k f (Hk & <- & <-). rewrite Htr in Hk.
          apply lookup_insert_Some in Hk as [[<- <-]|[_ Hk]]; [by left|right]. split; [done|].
          intros [H1 H2]. specialize (ad_new k f Hk). unfold same_reference in ad_new.
          by rewrite !bool_decide_true in ad_new. }
        intros sender reference k l f g Hk Hl.
        destruct (Hcase _ _ _ _ Hk) as [(-> & Hk1 & Hk2)|[Hk' Hkn]],
          (Hcase _ _ _ _ Hl) as [(-> & Hl1 & Hl2)|[Hl' Hln]]; [done|by destruct Hln|by destruct Hkn|].
        by apply (Hone sender reference k l f g).
      * split; [|done]. cbn. rewrite Htr. apply lookup_insert_eq.
  - intros id row r w' Href H. pose proof (GetByRef_referenced _ _ _ _ _ Hone Href) as Hq.
    destruct r as [tr|e].
    + apply runs_InitiateTransfer in H as (_ & rcv & tier & _ & _ & _ & Ho & _); [|done].
      destruct Ho as [(-> & row' & Hrow & ->)|[[] _]].
      * split; [done|]. intros ? [= <-]. congruence.
      * pose proof Href as (Hid & Hs & Hr). specialize (ad_new id row Hid). unfold same_reference in ad_new.
        by rewrite !bool_decide_true in ad_new.
    + split; [|by intros ? [=]]. by apply (InitiateTransfer_stored_fails fraud i w id row e w').
Qed.

(** *** The velocity rule *)

Definition recent_transfers (sender : string) (t : Time) (d : db) : list (string * TransferRow) :=
  rows_where (fun _ f => sent_by sender f && (tstz t - 60 * Second <=? f_CreatedAt f))
    (transfers d).

Lemma find_block_app hits more h :
  List.find (has_severity SeverityBlock) hits = Some h ->
  List.find (has_severity SeverityBlock) (hits ++ more) = Some h.
Proof. induction hits as [|x hits IH]; cbn; [done|]. destruct (has_severity _ x); auto. Qed.

(** Hits are only ever appended. *)
Lemma runs_rules (rules : list Rule) i : forall hits w hits' w',
  runs (for_each rules (fun hits r =>
    let! h := wrapping "fraud rule" (r i) in
    ret (match h with Some h => hits ++ [h] | None => hits end)) hits) w hits' w' ->
  exists more, hits' = hits ++ more.
Proof.
  induction rules as [|r rules IH]; intros hits w hits' w' H; cbn in H.
  - apply runs_ret in H as [-> _]. exists []. by rewrite app_nil_r.
  - apply runs_bind in H as (h1 & w1 & H1 & H). apply runs_bind in H1 as (h & w2 & _ & H1).
    apply runs_ret in H1 as [-> _]. apply IH in H as (more & ->).
    destruct h; [|eauto]. exists (r0 :: more). by rewrite <- app_assoc.
Qed.

Lemma combine_block hits h :
  List.find (has_severity SeverityBlock) hits = Some h -> sc_Decision (combine hits) = DecisionBlock.
Proof. unfold combine. by intros ->. Qed.

(** The first rule runs first, and its block is the verdict's. *)
Lemma runs_first_rule r rules i w sc w' :
  reading (r :: rules) -> runs (ScoreTransfer (r :: rules) i) w sc w' ->
  exists h w1, runs (r i) w h w1 /\ (w_ops w1 <= w_ops w')%nat /\
    forall h0, h = Some h0 -> has_severity SeverityBlock h0 = true ->
      sc_Decision sc = DecisionBlock.
Proof.
  intros Hread H. unfold ScoreTransfer in H. apply runs_bind in H as (hits & w1 & H & H1).
  apply runs_ret in H1 as [-> ->]. cbn [for_each] in H.
  apply runs_bind in H as (hits1 & w2 & H1 & H).
  assert (w_ops w2 <= w_ops w1)%nat as Hop.
  { revert H. apply runs_advances, advances_for_each. intros b x Hx.
    apply advances_bind; [|auto with advance]. apply advances_wrapping, Hread. by right. }
  apply runs_rules in H as (more & ->).
  apply runs_bind in H1 as (h & w3 & H1 & H2). apply runs_ret in H2 as [-> ->].
  apply runs_wrapping in H1. exists h, w3. split; [done|]. split; [done|].
  intros h0 -> Hb. apply (combine_block _ h0), find_block_app. cbn. by rewrite Hb.
Qed.

Lemma score_velocity i w sc w' :
  si_SenderUserID i <> "" -> runs (ScoreTransfer defaultRules i) w sc w' ->
  sc_Decision sc <> DecisionBlock ->
  during w w' (w_ops w) /\
  Z.of_nat (length (recent_transfers (si_SenderUserID i) (sql_now (w_ops w)) (w_st w)))
    < VelocityCount1m.
Proof.
  intros Hs H Hd. apply runs_first_rule in H as (h & w1 & H & Hop & Hblock);
    [|apply defaultRules_reading].
  unfold ruleVelocitySender1m in H. rewrite bool_decide_false in H by done.
  apply runs_bind in H as (prior & w2 & H & H2). apply runs_ret in H2 as [-> ->].
  apply runs_exec in H as (_ & d & H & ->). injection H as <- _.
  split; [unfold during; cbn in *; lia|].
  unfold recent_transfers. apply Z.lt_nge. intros Hge. apply Hd.
  match type of Hblock with context [VelocityCount1m <=? ?n] =>
    assert ((VelocityCount1m <=? n) = true) as Hb end.
  { apply Z.leb_le. unfold VelocityCount1m in *. lia. }
  rewrite Hb in Hblock. by eapply Hblock.
Qed.

(** With the default rules, no transfer is accepted from a sender who already has ten
    transfers, whatever their status, in the minute before the scoring. *)
Theorem InitiateTransfer_velocity i w tr w' :
  runs (InitiateTransfer (Some defaultRules) i) w tr w' ->
  transfers (w_st w') <> transfers (w_st w) ->
  exists n, during w w' n /\
    Z.of_nat (length (recent_transfers (it_SenderUserID i) (sql_now n) (w_st w))) < 10.
Proof.
  intros H Hne. pose proof defaultRules_reading as Hread.
  apply runs_InitiateTransfer in H as (Hv & rcv & tier & _ & _ & _ & _ & w1 & w2 & Hw1 & Hop1 & H
    & Hw2 & Hop2); [|exact Hread].
  assert (it_SenderUserID i <> "") as Hs.
  { unfold validate_input in Hv. case_bool_decide; [discriminate|done]. }
  unfold accept_in_tx in H. apply runs_bind in H as (r & w4 & H1 & H).
  apply attempt_GetByRef in H1 as (Hw4 & Hop4 & _).
  destruct r as [row|e]; [apply runs_ret in H as [_ ->]; congruence|].
  destruct (errors_is e ErrNotFound); cbn in H; [|by apply runs_throw in H].
  apply runs_bind in H as ([] & w5 & H1 & H).
  apply runs_check_limits in H1 as (Hw5 & _ & _ & Hop5 & _).
  apply runs_bind in H as (sc & w6 & H1 & H).
  apply (runs_advances _ _ _ _ (advances_accept_rows _ _ _ _ _ _)) in H. unfold score in H1.
  apply runs_bind in H1 as (age & w7 & Hage & H1).
  pose proof (runs_advances _ _ _ _ (advances_wrapping _ _ (advances_exec _)) Hage) as Hop7.
  assert (w_st w7 = w_st w5) as Hw7.
  { apply (quiet_runs _ _ _ _ (fun Q => preserves_wrapping Q _ _ (preserves_AccountAge Q _)) Hage). }
  apply runs_bind in H1 as (sc' & w8 & Hsc & H1). apply runs_wrapping in Hsc.
  destruct (sc_Decision sc') eqn:Hd.
  3:{ apply runs_bind in H1 as (? & ? & _ & H1). by apply runs_throw in H1. }
  all: apply runs_ret in H1 as [-> ->]; apply score_velocity in Hsc as [Hdur Hn]; [|done|congruence].
  all: exists (w_ops w7); cbn in Hn; rewrite Hw7, Hw5, Hw4, Hw1 in Hn; split; [|done].
  all: unfold during in *; lia.
Qed.

End Initiate.

(** ** Processing *)

(** Moving funds changes the total by what is moved into the existing accounts. *)
Lemma moved_total d d' f g :
  moved d d' f g ->
  total_balance d' = total_balance d + sum_rows (fun id _ => f id) (accounts d).
Proof. apply (moved_sum _ _ _ _ (fun _ _ => true)). Qed.

Lemma transfer_total d d' s r n g a b :
  accounts d !! s = Some a -> accounts d !! r = Some b ->
  moved d d' (transfer_fn s r n) g -> total_balance d' = total_balance d.
Proof.
  intros Hs Hr Hm. rewrite (moved_total _ _ _ _ Hm).
  assert (sum_rows (fun id _ => transfer_fn s r n id) (accounts d) = 0) as ->; [|lia].
  rewrite (sum_rows_ext _ (fun id _ => (if decide (s = id) then - n else 0)
    + (if decide (r = id) then n else 0))).
  - rewrite sum_rows_add, (sum_rows_single _ _ _ _ Hs), (sum_rows_single _ _ _ _ Hr). lia.
  - intros k c _. unfold transfer_fn, move_at. repeat case_decide; congruence || lia.
Qed.

Section Processing.
Context {E : Env}.
Implicit Types w : world db effect.

(** The message [v] is a transfer event. *)
Record transfer_message (v : json) (eventID : string) (tp : TransferPayload) : Prop := {
  tm_envelope : exists env, OutboxEnvelope_unmarshal v = (env, true) /\ oe_ID env = eventID /\
    oe_Aggregate env = "transfer" /\ TransferPayload_unmarshal (oe_Payload env) = (tp, true);
}.

(** The first successful processing of a transfer event: the money moved and the
    transfer is settled, or nothing moved and it failed; from then on the event counts
    as processed. *)
Definition first_processing (eventID : string) (tp : TransferPayload) (d d' : db) : Prop :=
  processed_events d !! eventID = None /\ is_Some (processed_events d' !! eventID) /\
  (transferred tp d d' \/
   wallet_tables d' = wallet_tables d /\
   exists reason, transfer_after (tp_TransferID tp) StatusFailed (Some reason) d d').

Lemma notify_transfer_st out tp w : w_st (notify_transfer out tp w).2 = w_st w.
Proof. unfold notify_transfer. repeat case_match; done. Qed.

Lemma process_cases v eventID tp w :
  transfer_message v eventID tp ->
  let w' := (process (Some v) w).2 in
  w_st w' = w_st w \/ first_processing eventID tp (w_st w) (w_st w').
Proof.
  intros [(env & He & <- & Hagg & Htp)]. cbn zeta.
  destruct (process (Some v) w) as [r w'] eqn:H. cbn. unfold process in H. rewrite He in H. cbn in H.
  unfold bind at 1 in H. destruct (IsEventProcessed (oe_ID env) w) as [[already|e] w1] eqn:H1.
  2:{ injection H as _ <-. left.
      unfold IsEventProcessed, query, exec in H1. destruct (fault _); [by injection H1 as _ <-|].
      discriminate. }
  apply runs_query in H1 as (_ & Ha & ->). injection Ha as <-.
  case_bool_decide as Hp; [by injection H as _ <-; left|]. rewrite Hagg in H. cbn in H.
  rewrite Htp in H. cbn in H. unfold bind at 1 in H.
  destruct (Tx (settle_in_tx (oe_ID env) tp) (tick_ops w (w_st w))) as [[out|e] w2] eqn:H2.
  2:{ injection H as _ <-. left. unfold Tx in H2. by apply tx_err in H2. }
  right. assert (w_st w' = w_st w2) as -> by
    (pose proof (notify_transfer_st out tp w2) as Hn; by rewrite H in Hn).
  unfold Tx in H2. apply runs_tx in H2 as (_ & w3 & H2 & _ & _ & ->).
  apply runs_settle_in_tx in H2 as [Hsome Hcase]. cbn in *.
  split; [by apply eq_None_not_Some|]. split; [done|].
  destruct Hcase as [[_ ?]|(_ & ? & ?)]; auto.
Qed.

(** An event that counts as processed is not processed again. *)
Lemma process_processed v eventID tp w :
  transfer_message v eventID tp -> is_Some (processed_events (w_st w) !! eventID) ->
  w_st (process (Some v) w).2 = w_st w.
Proof.
  intros Hm Hp. destruct (process_cases v eventID tp w Hm) as [?|(Hn & _)]; [done|].
  rewrite Hn in Hp. by apply is_Some_None in Hp.
Qed.

(** A run of the system from [w] to [w'] in which the message is delivered, some number of times
    and whatever the outcome of each delivery, the database before and after each of them
    being recorded.  Anything may happen between two deliveries as long as the mark of the event
    stays, which nothing in the code removes.  A delivery is processed to its end before the next one. *)
Inductive delivered (v : json) (eventID : string) : list (db * db) -> world db effect -> world db effect -> Prop :=
| delivered_done w : delivered v eventID [] w w
| delivered_again w l w' :
    delivered v eventID l (process (Some v) w).2 w' ->
    delivered v eventID ((w_st w, w_st (process (Some v) w).2) :: l) w w'
| delivered_other w w1 l w' :
    (is_Some (processed_events (w_st w) !! eventID) -> is_Some (processed_events (w_st w1) !! eventID)) ->
    delivered v eventID l w1 w' -> delivered v eventID l w w'.

Definition unchanged (p : db * db) : Prop := p.2 = p.1.

(** Once the event counts as processed no delivery changes anything. *)
Lemma delivered_processed v eventID tp l w w' :
  transfer_message v eventID tp -> delivered v eventID l w w' ->
  is_Some (processed_events (w_st w) !! eventID) -> Forall unchanged l.
Proof.
  intros Hm. induction 1 as [w|w l w' Hd IH|w w1 l w' Hk Hd IH]; intros Hp; [done| |by apply IH, Hk].
  pose proof (process_processed v eventID tp w Hm Hp) as Heq. constructor; [done|].
  apply IH. by rewrite Heq.
Qed.

Lemma delivered_cases v eventID tp l w w' :
  transfer_message v eventID tp -> delivered v eventID l w w' ->
  Forall unchanged l \/
  exists l1 d d' l2, l = l1 ++ (d, d') :: l2 /\ Forall unchanged l1 /\ Forall unchanged l2 /\
    first_processing eventID tp d d'.
Proof.
  intros Hm. induction 1 as [w|w l w' Hd IH|w w1 l w' Hk Hd IH]; [by left| |exact IH].
  destruct (process_cases v eventID tp w Hm) as [Heq|Hf].
  - destruct IH as [IH|(l1 & d & d' & l2 & -> & H1 & H2 & H3)]; [left; by constructor|right].
    exists ((w_st w, w_st (process (Some v) w).2) :: l1), d, d', l2. split_and!; try done. by constructor.
  - right. exists [], (w_st w), (w_st (process (Some v) w).2), l. split_and!; try done.
    destruct Hf as (_ & Hp & _). exact (delivered_processed v eventID tp l (process (Some v) w).2 w' Hm Hd Hp).
Qed.

(** What one transfer does to the money: nothing, or the amount goes from the one main account
    to the other; no account is overdrawn by it. *)
Record paid_once (tp : TransferPayload) (d d' : db) : Prop := {
  po_moved : accounts d' = accounts d \/
    exists s r, account_of d s (tp_SenderUserID tp) AccountKindMain /\
      account_of d r (tp_ReceiverUserID tp) AccountKindMain /\ tp_AmountKobo tp <= bal d s /\
      forall x, bal d' x = bal d x + transfer_fn s r (tp_AmountKobo tp) x;
  po_total : total_balance d' = total_balance d;
  po_ceilings : ceiling_tokens d' = ceiling_tokens d;
  po_payments : payment_tokens d' = payment_tokens d;
  po_covered : (forall id a, accounts d !! id = Some a -> a_Kind a <> AccountKindSuspense ->
      0 <= a_BalanceKobo a) ->
    forall id a, accounts d' !! id = Some a -> a_Kind a <> AccountKindSuspense ->
      0 <= a_BalanceKobo a;
}.

(** Claim C7: a transfer message is worth one transfer.  However often it is delivered, however many of
    the deliveries fail and whatever happens in between, at most one of the deliveries changes
    the database at all, and of the money that one moves nothing or once the amount, from the
    sender's main account to the receiver's; no account is overdrawn, the total of the
    balances is unchanged, and ceilings and payments are left alone.  (Each delivery is processed
    to its end before the next: two that overlap can both find the event unprocessed, see
    [overlapping_deliveries_pay_twice].) *)
Theorem process_at_most_once v eventID tp l w w' :
  transfer_message v eventID tp -> delivered v eventID l w w' ->
  Forall unchanged l \/
  exists l1 d d' l2, l = l1 ++ (d, d') :: l2 /\ Forall unchanged l1 /\ Forall unchanged l2 /\
    paid_once tp d d'.
Proof.
  intros Hm Hl. apply (delivered_cases v eventID tp) in Hl as [?|(l1 & d & d' & l2 & -> & H1 & H2 & H3)];
    [by left| |done].
  right. exists l1, d, d', l2. split_and!; try done. destruct H3 as (_ & _ & [Ht|[Hw _]]).
  - destruct Ht as [(s & r & Hs & Hr & Hle & Hmv) Hc Hp _]. constructor; try done.
    + right. exists s, r. split_and!; try done. apply (moved_bal _ _ _ _ Hmv).
    + destruct Hs as (a & Ha & _). destruct Hr as (b & Hb & _).
      exact (transfer_total _ _ _ _ _ _ _ _ Ha Hb Hmv).
    + apply (moved_nonneg _ _ _ _ Hmv).
  - unfold wallet_tables in Hw. injection Hw as Ha _ Hc Hp. constructor; try done.
    + by left.
    + unfold total_balance. by rewrite Ha.
    + by rewrite Ha.
Qed.

(** A processed transfer is not in the ledger: settling one between two accounts
    leaves the sender's balance below, and the receiver's above, the net of their
    postings, so that the books that held before no longer do. *)
Lemma process_leaves_ledger_behind sus v eventID tp w :
  transfer_message v eventID tp -> 0 < tp_AmountKobo tp ->
  tp_SenderUserID tp <> tp_ReceiverUserID tp -> books sus (w_st w) ->
  let d' := w_st (process (Some v) w).2 in
  accounts d' <> accounts (w_st w) ->
  exists s r, account_of d' s (tp_SenderUserID tp) AccountKindMain /\
    account_of d' r (tp_ReceiverUserID tp) AccountKindMain /\
    bal d' s = net d' s - tp_AmountKobo tp /\ bal d' r = net d' r + tp_AmountKobo tp /\
    forall e, e ∈ ledger_entries d' -> posted d' e.
Proof.
  intros Hm Hpos Hne Hb d' Hch. subst d'.
  destruct (process_cases v eventID tp w Hm) as [Heq|(_ & _ & [Ht|[Hw _]])]; [congruence| |].
  2:{ unfold wallet_tables in Hw. congruence. }
  destruct Ht as [(s & r & Hs & Hr & _ & Hmv) _ _ _]. exists s, r.
  assert (s <> r) as Hsr.
  { intros ->. destruct Hs as (a & Ha & Hu & _), Hr as (b & Hb' & Hu' & _). congruence. }
  assert (forall x u, account_of (w_st w) x u AccountKindMain ->
    account_of (w_st (process (Some v) w).2) x u AccountKindMain) as Hkeep.
  { intros x u (a & Ha & Hu & Hk). destruct (meta_lookup_fwd _ _ _ _ _ _ Hmv Ha)
      as (a' & Ha' & Hu' & Hk'). exists a'. split_and!; congruence. }
  split; [by apply Hkeep|]. split; [by apply Hkeep|]. apply and_assoc.
  split; [|apply (moved_posted _ _ _ _ Hmv), Hb].
  rewrite !(moved_bal _ _ _ _ Hmv), !(moved_net _ _ _ _ Hmv), !(bk_booked _ _ Hb).
  unfold transfer_fn, no_move. rewrite !move_at_eq, (move_at_ne r), (move_at_ne s) by congruence.
  lia.
Qed.

End Processing.

(** ** Dispatching *)

(** What [process] gets to see of an outbox row. *)
Definition envelope_of (c : string * OutboxRow) : OutboxEnvelope := {|
  oe_ID := c.1; oe_Aggregate := o_Aggregate c.2; oe_AggregateID := o_AggregateID c.2;
  oe_Payload := o_Payload c.2 |}.

Lemma OutboxEnvelope_json_ok e : exists v, OutboxEnvelope_json e = Ok v.
Proof. eexists. reflexivity. Qed.

Section Dispatching.
Context {E : Env} {N : Stream}.
Variable d : Dispatcher.
Implicit Types w : world db effect.

(** The message published for a claimed row. *)
Definition publishes (c : string * OutboxRow) (ev : effect) : Prop :=
  exists body, OutboxEnvelope_json (envelope_of c) = Ok body /\
    ev = EvPublish (subjectFor d (o_Aggregate c.2)) c.1 body.

(** A claimed row afterwards: marked, with its message in [pubs], or to be tried again
    after a back-off from a reading of the clock between [lo] and [hi]. *)
Definition dispatch_result (lo hi : nat) (c : string * OutboxRow) (row : OutboxRow)
  (pubs : list effect) : Prop :=
  (exists t ev, ev ∈ pubs /\ publishes c ev /\
     row = set_dispatch (Some t) (o_Attempts c.2) (o_NextAttemptAt c.2) c.2) \/
  (exists n, (lo <= n < hi)%nat /\
     row = set_dispatch (o_DispatchedAt c.2) (o_Attempts c.2 + 1)
       (tstz (clock n + backoff (Z.to_nat (o_Attempts c.2)))) c.2).

Lemma runs_dispatch_one c w u w' :
  outbox (w_st w) !! c.1 = Some c.2 -> runs (dispatch_one d c) w u w' ->
  exists row pubs, w_st w' = with_outbox (<[c.1 := row]> (outbox (w_st w))) (w_st w) /\
    w_log w' = w_log w ++ pubs /\ Forall (publishes c) pubs /\
    dispatch_result (w_clk w) (w_clk w') c row pubs /\ (w_clk w <= w_clk w')%nat.
Proof.
  intros Hc H. unfold dispatch_one in H.
  destruct (OutboxEnvelope_json_ok (envelope_of c)) as (body & Hb). unfold envelope_of in Hb.
  rewrite Hb in H. apply runs_bind in H as (ok & w1 & H1 & H).
  unfold publish, runs in H1. destruct (publish_ok (w_ops w)).
  - injection H1 as <- <-. apply runs_exec in H as (_ & x & H & ->). injection H as _ <-. cbn.
    eexists _, [_]. split; [|split; [done|]].
    + f_equal. apply map_eq. intros i. destruct (decide (i = c.1)) as [->|Hn].
      * by rewrite lookup_alter_eq, lookup_insert_eq, Hc.
      * by rewrite lookup_alter_ne, lookup_insert_ne.
    + assert (publishes c (EvPublish (subjectFor d (o_Aggregate c.2)) c.1 body)) as Hp
        by (exists body; done).
      split; [by constructor|]. split; [|done]. left. eexists _, _. split; [left|]. done.
  - injection H1 as <- <-. apply runs_bind in H as (t & w2 & Ht & H).
    apply runs_now in Ht as [-> ->]. apply runs_exec in H as (_ & x & H & ->). cbn in *.
    unfold q_BumpOutboxAttempt in H. rewrite Hc in H. guards H. injection H as _ <-. cbn.
    unfold int4 in Hg. destruct (_ && _); [|discriminate]. injection Hg as <-.
    eexists _, []. rewrite app_nil_r. split; [done|]. split; [done|]. split; [done|].
    split; [|lia]. right. exists (w_clk w). split; [lia|done].
Qed.

Lemma dispatch_result_mono lo hi lo' hi' c row p1 p2 :
  (lo' <= lo)%nat -> (hi <= hi')%nat -> (forall ev, ev ∈ p1 -> ev ∈ p2) ->
  dispatch_result lo hi c row p1 -> dispatch_result lo' hi' c row p2.
Proof.
  intros Hlo Hhi Hp [(t & ev & Hin & H)|(n & Hn & H)]; [left|right].
  - exists t, ev. split; [by apply Hp|done].
  - exists n. split; [lia|done].
Qed.

Lemma runs_dispatch_all claims : forall w u w',
  NoDup claims.*1 -> (forall c, c ∈ claims -> outbox (w_st w) !! c.1 = Some c.2) ->
  runs (for_each claims (fun _ c => dispatch_one d c) tt) w u w' ->
  exists m pubs, w_st w' = with_outbox m (w_st w) /\ w_log w' = w_log w ++ pubs /\
    Forall (fun ev => exists c, c ∈ claims /\ publishes c ev) pubs /\
    (forall i, i ∉ claims.*1 -> m !! i = outbox (w_st w) !! i) /\
    (w_clk w <= w_clk w')%nat /\
    forall c, c ∈ claims -> exists row, m !! c.1 = Some row /\
      dispatch_result (w_clk w) (w_clk w') c row pubs.
Proof.
  induction claims as [|c claims IH]; intros w u w' Hnd Hrows H; cbn in H.
  - apply runs_ret in H as [_ ->]. exists (outbox (w_st w)), []. rewrite app_nil_r.
    split; [by destruct (w_st w)|]. split_and!; try done. intros c Hc. by apply not_elem_of_nil in Hc.
  - apply runs_bind in H as ([] & w1 & H1 & H). cbn in Hnd. apply NoDup_cons in Hnd as [Hc Hnd].
    apply runs_dispatch_one in H1 as (row & p1 & Hst & Hlog & Hpub & Hres & Hc1);
      [|apply Hrows; left].
    apply IH in H as (m & p2 & Hst2 & Hlog2 & Hpub2 & Hother & Hc2 & Hall); [|done|].
    2:{ intros x Hx. rewrite Hst. cbn. rewrite lookup_insert_ne; [apply Hrows; by right|].
        intros Heq. apply Hc. rewrite Heq. by apply list_elem_of_fmap_2. }
    exists m, (p1 ++ p2). rewrite Hst2, Hst, Hlog2, Hlog, <- app_assoc. cbn.
    split; [done|]. split; [done|]. rewrite Hst in Hother. cbn in Hother. split_and!.
    + apply Forall_app. split.
      * eapply Forall_impl; [exact Hpub|]. intros ev Hev. exists c. split; [left|done].
      * eapply Forall_impl; [exact Hpub2|]. intros ev (x & Hx & Hev). exists x.
        split; [by right|done].
    + intros i Hi. apply not_elem_of_cons in Hi as [Hi1 Hi2]. rewrite Hother by done.
      by rewrite lookup_insert_ne.
    + lia.
    + intros x Hx. apply elem_of_cons in Hx as [->|Hx].
      * exists row. rewrite Hother by done. rewrite lookup_insert_eq. split; [done|].
        eapply dispatch_result_mono; [..|exact Hres]; [done|done|]. intros ev. rewrite elem_of_app. auto.
      * destruct (Hall x Hx) as (r & Hr & Hres'). exists r. split; [done|].
        eapply dispatch_result_mono; [..|exact Hres']; [done|done|]. intros ev. rewrite elem_of_app. auto.
Qed.

(** A pass of the dispatcher that commits publishes only the messages of due rows it
    claimed, under their own ids and subjects; it marks dispatched only rows whose
    message it published and puts the others off by the back-off of their attempts;
    rows it did not claim, and all other tables, stay as they are. *)
Lemma tick_publishes w u w' :
  runs (tick d) w u w' ->
  exists claims m pubs t,
    claims ⊆ rows_where (fun _ o => due t o) (outbox (w_st w)) /\
    (length claims <= batch d)%nat /\ NoDup claims.*1 /\
    w_st w' = with_outbox m (w_st w) /\ w_log w' = w_log w ++ pubs /\
    Forall (fun ev => exists c, c ∈ claims /\ publishes c ev) pubs /\
    (forall i, i ∉ claims.*1 -> m !! i = outbox (w_st w) !! i) /\
    forall c, c ∈ claims -> exists row, m !! c.1 = Some row /\
      dispatch_result (w_clk w) (w_clk w') c row pubs.
Proof.
  intros H. unfold tick, Tx in H. apply runs_tx in H as (_ & w1 & H & _ & _ & ->). cbn.
  apply runs_bind in H as (claims & w2 & Hq & H). apply runs_exec in Hq as (_ & x & Hq & ->).
  injection Hq as <- <-. cbn in *.
  set (rows := rows_where _ (outbox (w_st w))) in *.
  set (claims := take (batch d) (merge_sort created_le rows)) in *.
  assert (claims ⊆ rows) as Hsub.
  { intros c Hc. apply elem_of_take in Hc as (i & Hi & _). apply list_elem_of_lookup_2 in Hi.
    by rewrite merge_sort_Permutation in Hi. }
  assert (NoDup claims.*1) as Hnd.
  { subst claims. rewrite fmap_take.
    assert (NoDup (merge_sort created_le rows).*1) as Hs.
    { rewrite (merge_sort_Permutation created_le rows). apply rows_where_NoDup. }
    eapply sublist_NoDup; [exact Hs|]. apply sublist_take. }
  apply runs_dispatch_all in H as (m & pubs & H1 & H2 & H3 & H4 & _ & H5); [|done|].
  2:{ intros [i r] Hc. apply Hsub, elem_of_rows_where in Hc as [Hc _]. done. }
  exists claims, m, pubs. eexists. split; [exact Hsub|]. cbn in *. split_and!; try done.
  subst claims. rewrite length_take. lia.
Qed.

Lemma backoff_capped attempts :
  backoff attempts = Z.min (60 * Second) (2 ^ Z.of_nat attempts * Second).
Proof.
  assert (forall n d, 0 < d -> Z.min (60 * Second) (backoff_loop n d)
    = Z.min (60 * Second) (2 ^ Z.of_nat n * d)) as H.
  { intros n. induction n as [|n IH]; intros d0 Hd; cbn [backoff_loop].
    - change (Z.of_nat 0) with 0. by rewrite Z.pow_0_r, Z.mul_1_l.
    - rewrite Nat2Z.inj_succ, Z.pow_succ_r by lia. destruct (Z.ltb_spec d0 (60 * Second)).
      + rewrite IH by lia. f_equal. lia.
      + assert (0 < 2 ^ Z.of_nat n) by (apply Z.pow_pos_nonneg; lia). nia. }
  unfold backoff. specialize (H attempts Second ltac:(done)).
  destruct (Z.ltb_spec (60 * Second) (backoff_loop attempts Second)); lia.
Qed.

(** The wait after an attempt that failed when [n] had failed before it. *)
Definition wait_after (n : Z) : Duration := if n <? 6 then 2 ^ n * Second else Minute.

Lemma backoff_wait n : 0 <= n -> backoff (Z.to_nat n) = wait_after n.
Proof.
  intros Hn. rewrite backoff_capped, Z2Nat.id by done. unfold wait_after, Minute.
  destruct (Z.ltb_spec n 6) as [Hlt|Hge].
  - assert (2 ^ n <= 2 ^ 5) by (apply Z.pow_le_mono_r; lia). change (2 ^ 5) with 32 in *.
    unfold Second in *. lia.
  - assert (2 ^ 6 <= 2 ^ n) by (apply Z.pow_le_mono_r; lia). change (2 ^ 6) with 64 in *.
    unfold Second in *. lia.
Qed.

(** Claim C40: a message whose publish fails is tried again later and later.  By a pass of the dispatcher that
    commits, an outbox row is left alone, or its message was published and it is marked, or one
    attempt more is counted and the next is put off from the clock by a second after the first
    failure, by twice as long after each further one up to thirty-two seconds after the sixth,
    and by a minute after the seventh and every later one.  (Attempts count from zero, as the
    column does.) *)
Theorem failed_dispatch_waits w u w' i o :
  runs (tick d) w u w' -> outbox (w_st w) !! i = Some o -> 0 <= o_Attempts o ->
  exists o', outbox (w_st w') !! i = Some o' /\
    (o' = o \/
     (exists t ev, ev ∈ drop (length (w_log w)) (w_log w') /\ publishes (i, o) ev /\
        o' = set_dispatch (Some t) (o_Attempts o) (o_NextAttemptAt o) o) \/
     (exists n, (w_clk w <= n < w_clk w')%nat /\
        o' = set_dispatch (o_DispatchedAt o) (o_Attempts o + 1)
               (tstz (clock n + wait_after (o_Attempts o))) o)).
Proof.
  intros H Hi Ho. apply tick_publishes in H as (claims & m & pubs & t & Hsub & _ & _ & Hst & Hlog & _ & Hother & Hall).
  rewrite Hst. cbn [outbox with_outbox]. destruct (decide (i ∈ claims.*1)) as [Hin|Hin].
  - apply list_elem_of_fmap in Hin as ([k x] & -> & Hin). cbn [fst] in *.
    pose proof (Hsub _ Hin) as Hrow. apply elem_of_rows_where in Hrow as [Hrow _].
    rewrite Hi in Hrow. injection Hrow as <-.
    destruct (Hall _ Hin) as (row & Hrow & [(t' & ev & Hev & Hp & ->)|(n & Hn & ->)]);
      cbn [fst snd] in *; eexists; (split; [exact Hrow|]); right.
    + left. exists t', ev. rewrite Hlog, drop_app_length. done.
    + right. exists n. split; [done|]. by rewrite backoff_wait.
  - exists o. split; [by rewrite Hother|by left].
Qed.

End Dispatching.

(** What is accepted is what is processed: the outbox row an accepted transfer leaves
    behind is due for the dispatcher, and the message published for it, decoded by the
    processor, is the transfer event of that transfer, parties and amount. *)
Lemma accepted_reaches_processor i receiver d d' tr :
  accepted_transfer i receiver d d' tr ->
  utf8 (tr_ID tr) -> utf8 (it_SenderUserID i) -> utf8 receiver ->
  utf8 (it_ReceiverAccountNumber i) -> utf8 (it_Reference i) ->
  exists oid row, outbox d' !! oid = Some row /\ outbox d !! oid = None /\
    (forall t, o_CreatedAt row <= tstz t -> due t row = true) /\
    (utf8 oid -> forall body, OutboxEnvelope_json (envelope_of (oid, row)) = Ok body ->
       transfer_message body oid (payload_of i receiver (tr_ID tr))).
Proof.
  intros [_ _ Ham _ _ (v & Hv & oid & t & Hno & Hout)] H1 H2 H3 H4 H5.
  eexists oid, _. rewrite Hout, lookup_insert_eq. split; [done|]. split; [done|]. split.
  - intros t' Ht. unfold due. cbn in *. by apply Z.leb_le.
  - intros Hoid body Hb. constructor. eexists. split; [|split; [|split]].
    + eapply OutboxEnvelope_roundtrip; [exact Hb|done| |done]. by vm_compute.
    + done.
    + done.
    + cbn. eapply TransferPayload_roundtrip; [exact Hv|..]; try done.
      cbn. apply in_int64_spec. unfold int64_min. lia.
Qed.

(** ** What counts as today *)

Section Today.
Context {P : PgSession}.

Lemma tstz_wall t : lagos_midnight t <= tstz t + lagos_offset < lagos_midnight t + Day.
Proof.
  unfold lagos_midnight. set (w := tstz t + lagos_offset).
  pose proof (Z.mod_pos_bound w Day ltac:(done)). lia.
Qed.

(** The daily sum depends on the time zone of the database session. In a session that
    runs in the zone of Lagos it is the sum of the sender's transfers since midnight
    there; in one that runs in UTC, during the last hour of the UTC day the sum is zero
    whatever the sender sent before, so that the daily limit does not bind. *)
Theorem daily_window sender t d :
  (session_offset = lagos_offset ->
   forall f, counts_today sender t f = true <->
     f_SenderUserID f = sender /\ f_Status f <> StatusFailed /\
     lagos_midnight t <= f_CreatedAt f + lagos_offset) /\
  (session_offset = 0 -> 23 * Hour <= tstz t mod Day ->
   (forall id f, transfers d !! id = Some f -> f_CreatedAt f <= tstz t) ->
   sum_today sender t d = 0).
Proof.
  split.
  - intros Ho f. unfold counts_today, sent_by. rewrite Ho, !andb_true_iff, bool_decide_eq_true, Z.leb_le.
    destruct (f_Status f); intuition (lia || congruence).
  - intros Ho Hlate Hpast. apply sum_rows_zero. intros id f Hf. specialize (Hpast id f Hf).
    unfold counts_today. rewrite Ho.
    assert (tstz t < lagos_midnight t) as Hlt.
    { unfold lagos_midnight, lagos_offset. set (w := tstz t) in *.
      assert (Day = 24 * Hour) as HD by done. assert (0 < Hour) by done.
      pose proof (Z.mod_pos_bound w Day ltac:(done)) as Hm.
      pose proof (Z.div_mod w Day ltac:(done)) as Hdiv.
      assert ((w + Hour) mod Day = w mod Day + Hour - Day) as ->; [|lia].
      symmetry. apply (Z.mod_unique_pos _ _ (w / Day + 1)); lia. }
    replace (lagos_midnight t - 0 <=? f_CreatedAt f) with false by (symmetry; apply Z.leb_gt; lia).
    by rewrite andb_false_r.
Qed.

End Today.

(** ** Scoring *)

Definition is_block (h : RuleHit) : Prop := rh_Severity h = SeverityBlock.

Lemma find_none_iff sev hits :
  List.find (has_severity sev) hits = None <-> Forall (fun h => rh_Severity h <> sev) hits.
Proof.
  induction hits as [|h hits IH]; cbn; [done|]. unfold has_severity at 1.
  case_bool_decide as Hs; rewrite Forall_cons; [intuition congruence|]. rewrite IH. tauto.
Qed.

Lemma find_first sev hits h :
  List.find (has_severity sev) hits = Some h <->
  exists before after, hits = before ++ h :: after /\ rh_Severity h = sev /\
    Forall (fun h => rh_Severity h <> sev) before.
Proof.
  induction hits as [|x hits IH]; cbn.
  - split; [done|]. by intros ([] & ? & ? & _).
  - unfold has_severity at 1. case_bool_decide as Hs.
    + split; [intros [= ->]; exists [], hits; done|].
      intros ([|y before] & after & [= -> ->] & Hh & Hb); [done|].
      apply Forall_cons in Hb as [? _]. congruence.
    + rewrite IH. split.
      * intros (before & after & -> & Hh & Hb). exists (x :: before), after. by rewrite Forall_cons.
      * intros ([|y before] & after & [= -> ->] & Hh & Hb); [congruence|].
        apply Forall_cons in Hb as [_ ?]. eauto.
Qed.

(** One blocking hit blocks, whatever its position; without one, one flagging hit flags;
    otherwise the transfer is allowed. The rule and reason reported are those of the
    first hit of the deciding severity, and all hits are kept. *)
Theorem combine_decides hits :
  sc_RuleHits (combine hits) = hits /\
  (sc_Decision (combine hits) = DecisionBlock <-> Exists is_block hits) /\
  (sc_Decision (combine hits) = DecisionAllow <-> hits = []) /\
  (sc_Decision (combine hits) <> DecisionAllow ->
   exists before h after, hits = before ++ h :: after /\
     sc_Rule (combine hits) = rh_Name h /\ sc_Reason (combine hits) = rh_Reason h /\
     rh_Severity h = (if decide (sc_Decision (combine hits) = DecisionBlock)
                      then SeverityBlock else SeverityFlag) /\
     Forall (fun x => rh_Severity x <> rh_Severity h) before).
Proof.
  unfold combine. destruct (List.find (has_severity SeverityBlock) hits) as [h|] eqn:Hb.
  - pose proof Hb as Hb'. apply find_first in Hb' as (before & after & -> & Hh & Hbef). cbn.
    split_and!; try done.
    + split; [|done]. intros _. apply Exists_app. right. by left.
    + split; [done|]. by destruct before.
    + intros _. exists before, h, after. by rewrite Hh.
  - apply find_none_iff in Hb as Hnb.
    assert (~ Exists is_block hits) as Hno.
    { rewrite Exists_exists. intros (h & Hin & Hh). rewrite Forall_forall in Hnb.
      by apply (Hnb h Hin). }
    destruct (List.find (has_severity SeverityFlag) hits) as [h|] eqn:Hf.
    + pose proof Hf as Hf'. apply find_first in Hf' as (before & after & -> & Hh & Hbef). cbn.
      split_and!; try done.
      * split; [done|]. by destruct before.
      * intros _. exists before, h, after. by rewrite Hh.
    + apply find_none_iff in Hf. cbn. split_and!; try done.
      split; [|done]. intros _. destruct hits as [|h hits]; [done|].
      apply Forall_cons in Hnb as [? _], Hf as [? _]. by destruct (rh_Severity h).
Qed.
