(* ===== verification/FinalizeProcessor.v ===== *)
(** * The finalize worker (internal/service/settlement/processor.go)

    The consumer of the settlement outbox.  It is written against two interfaces, the
    event tracker and the finalizer, as in the code; its theorems only use their laws,
    which the repository and the settlement service discharge at the end. *)

From S2P Require Import Prelude Domain Json Crypto Wire Store Repo Books Solvency Settlement SettlementFacts SubmitFacts System SettlementProps Transfer TransferFacts.

(** ** The interfaces *)

Class EventTracker := {
  et_IsEventProcessed : string -> dbop bool;
  et_MarkEventProcessedSkipped : string -> dbop unit;
  et_MarkEventProcessedFailed : string -> dbop unit;
  et_MarkEventProcessedOK : string -> dbop unit;
}.

Class FinalizerService := {
  fz_FinalizeForPayer : string -> dbop (list SettlementResult);
}.

(** The databases that differ in the processed events only. *)
Definition same_but_events (d d' : db) : Prop := exists p, d' = with_processed_events p d.

Lemma same_but_events_refl d : same_but_events d d.
Proof. exists (processed_events d). by destruct d. Qed.

Lemma same_but_events_trans d1 d2 d3 :
  same_but_events d1 d2 -> same_but_events d2 d3 -> same_but_events d1 d3.
Proof. intros [p ->] [q ->]. by exists q. Qed.

Lemma same_but_events_sym d d' : same_but_events d d' -> same_but_events d' d.
Proof. intros [p ->]. exists (processed_events d). by destruct d. Qed.

#[global] Instance same_but_events_equiv : Equivalence same_but_events.
Proof.
  split; [exact same_but_events_refl|exact same_but_events_sym|exact same_but_events_trans].
Qed.

(** What a marking operation promises. *)
Definition marks {E : Env} (eventID : string) (m : dbop unit) : Prop := forall w,
  match m w with
  | (Ok _, w') => same_but_events (w_st w) (w_st w') /\
                  is_Some (processed_events (w_st w') !! eventID)
  | (Err _, w') => w_st w' = w_st w
  end.

Class EventTrackerLaws {E : Env} (T : EventTracker) : Prop := {
  et_is id w :
    match et_IsEventProcessed id w with
    | (Ok b, w') => w_st w' = w_st w /\ (b = true <-> is_Some (processed_events (w_st w) !! id))
    | (Err _, w') => w_st w' = w_st w
    end;
  et_skipped id : marks id (et_MarkEventProcessedSkipped id);
  et_failed id : marks id (et_MarkEventProcessedFailed id);
  et_ok id : marks id (et_MarkEventProcessedOK id);
}.

(** What finalizing promises in the states of the invariant [inv]: it fails without a
    trace, and a payer it finalized is settled up, which makes finalizing again change
    nothing; neither property looks at the processed events. *)
Class FinalizerLaws {E : Env} (Fz : FinalizerService) (inv : db -> Prop)
  (settled_up : string -> db -> Prop) : Prop := {
  fz_inv_events d d' : same_but_events d d' -> inv d -> inv d';
  fz_up_events u d d' : same_but_events d d' -> settled_up u d -> settled_up u d';
  fz_err u w e w' : fz_FinalizeForPayer u w = (Err e, w') -> w_st w' = w_st w;
  fz_ok u w rs w' : inv (w_st w) -> runs (fz_FinalizeForPayer u) w rs w' ->
    inv (w_st w') /\ settled_up u (w_st w');
  fz_again u w rs w' : inv (w_st w) -> settled_up u (w_st w) ->
    runs (fz_FinalizeForPayer u) w rs w' -> rs = [] /\ w_st w' = w_st w;
}.

(** ** The worker *)

Section Worker.
Context {E : Env} {M : MapOrder} {T : EventTracker} {Fz : FinalizerService}.
Variable has_notifier : bool.

(** *** Notifications *)

Definition counted (r : SettlementResult) : bool :=
  match sr_Status r with
  | Some TxSettled | Some TxPartiallySettled => true
  | _ => false
  end.

(** The totals: the payer's, and per receiver in [byReceiver]. *)
Fixpoint aggregate (results : list SettlementResult) (payerTotal : Z)
  (byReceiver : gmap string Z) : Z * gmap string Z :=
  match results with
  | [] => (payerTotal, byReceiver)
  | r :: rest =>
      if negb (counted r) then aggregate rest payerTotal byReceiver
      else
        let payerTotal := add64 payerTotal (sr_SettledAmount r) in
        if bool_decide (sr_ReceiverUserID r = "") then aggregate rest payerTotal byReceiver
        else aggregate rest payerTotal
               (<[sr_ReceiverUserID r :=
                    add64 (default 0 (byReceiver !! sr_ReceiverUserID r)) (sr_SettledAmount r)]>
                  byReceiver)
  end.

Fixpoint notify_receivers (payer : string) (uids : list string) (tot : gmap string Z)
  : dbop unit :=
  match uids with
  | [] => ret tt
  | uid :: rest =>
      do! emit (EvNotify uid "offline_payment_received" payer (default 0 (tot !! uid))) in
      notify_receivers payer rest tot
  end.

Definition emitNotifications (fp : FinalizePayerPayload) (results : list SettlementResult)
  : dbop unit :=
  if negb has_notifier || (length results =? 0)%nat then ret tt
  else
    let '(payerTotal, byReceiver) := aggregate results 0 ∅ in
    if (payerTotal =? 0) && (size byReceiver =? 0)%nat then ret tt
    else
      do! (if 0 <? payerTotal
           then emit (EvNotify (fp_PayerUserID fp) "offline_payment_settled" (fp_Reason fp)
                        payerTotal)
           else ret tt) in
      notify_receivers (fp_PayerUserID fp) (map_order (map_to_list byReceiver).*1) byReceiver.

(** *** One message *)

(** [None] is a message that is not JSON; an error asks for redelivery. *)
Definition process_finalize (data : option json) : dbop unit :=
  match data with
  | None => emit EvTerminate
  | Some v =>
      let '(env, ok) := OutboxEnvelope_unmarshal v in
      if negb ok then emit EvTerminate
      else
        let! already := et_IsEventProcessed (oe_ID env) in
        if already : bool then ret tt
        else if negb (String.eqb (oe_Aggregate env) OutboxAggregateSettlementFinalize)
        then et_MarkEventProcessedSkipped (oe_ID env)
        else
          let '(fp, ok) := FinalizePayerPayload_unmarshal (oe_Payload env) in
          if negb ok then et_MarkEventProcessedFailed (oe_ID env)
          else if bool_decide (fp_PayerUserID fp = "")
          then et_MarkEventProcessedFailed (oe_ID env)
          else
            let! results := fz_FinalizeForPayer (fp_PayerUserID fp) in
            do! et_MarkEventProcessedOK (oe_ID env) in
            emitNotifications fp results
  end.

(** *** Any number of deliveries *)

Record finalize_message (v : json) (eventID payer : string) : Prop := {
  fm_envelope : exists env fp, OutboxEnvelope_unmarshal v = (env, true) /\ oe_ID env = eventID /\
    oe_Aggregate env = OutboxAggregateSettlementFinalize /\
    FinalizePayerPayload_unmarshal (oe_Payload env) = (fp, true) /\
    fp_PayerUserID fp = payer /\ payer <> "";
}.

Fixpoint finalize_delivered (v : json) (n : nat) (w : world db effect) : world db effect :=
  match n with
  | O => w
  | S n' => (process_finalize (Some v) (finalize_delivered v n' w)).2
  end.

Lemma notify_receivers_st payer uids tot w : w_st (notify_receivers payer uids tot w).2 = w_st w.
Proof. revert w. induction uids as [|u uids IH]; intros w; cbn; [done|]. by rewrite IH. Qed.

Lemma emitNotifications_st fp results w : w_st (emitNotifications fp results w).2 = w_st w.
Proof.
  unfold emitNotifications. destruct (negb has_notifier || _); [done|].
  destruct (aggregate _ _ _) as [tot by_]. destruct (_ && _); [done|].
  unfold bind. destruct (0 <? tot); cbn; by rewrite notify_receivers_st.
Qed.

Context {TL : EventTrackerLaws T} (inv : db -> Prop) (settled_up : string -> db -> Prop)
  {ZL : FinalizerLaws Fz inv settled_up}.
Implicit Types w : world db effect.

(** The effect of one delivery on the database: none, a finalization that was not
    recorded, a finalization and its record. *)
Lemma process_finalize_cases v eventID payer w :
  finalize_message v eventID payer ->
  let d' := w_st (process_finalize (Some v) w).2 in
  d' = w_st w \/
  exists w1 rs w2, w_st w1 = w_st w /\ runs (fz_FinalizeForPayer payer) w1 rs w2 /\
    same_but_events (w_st w2) d'.
Proof.
  intros [(env & fp & He & <- & Hagg & Hfp & <- & Hne)]. cbn zeta.
  unfold process_finalize. rewrite He, Hagg, Hfp. cbn [negb].
  pose proof (et_is (oe_ID env) w) as Hi.
  destruct (et_IsEventProcessed (oe_ID env) w) as [[already|e] w1] eqn:H1;
    [rewrite (bind_ok _ _ _ _ _ H1)|rewrite (bind_err _ _ _ _ _ H1); by left].
  destruct Hi as [Hw1 _]. destruct already; [by left|].
  rewrite String.eqb_refl. cbn [negb]. rewrite bool_decide_false by done.
  destruct (fz_FinalizeForPayer (fp_PayerUserID fp) w1) as [[rs|e] w2] eqn:Hz;
    [rewrite (bind_ok _ _ _ _ _ Hz)|rewrite (bind_err _ _ _ _ _ Hz)].
  2:{ left. apply fz_err in Hz. cbn. congruence. }
  right. exists w1, rs, w2. split; [done|]. split; [done|].
  pose proof (et_ok (oe_ID env) w2) as Hm.
  destruct (et_MarkEventProcessedOK (oe_ID env) w2) as [[u|e] w3] eqn:H3;
    [rewrite (bind_ok _ _ _ _ _ H3)|rewrite (bind_err _ _ _ _ _ H3)].
  - rewrite emitNotifications_st. apply Hm.
  - cbn. rewrite Hm. reflexivity.
Qed.

(** Claim C21: however often a finalize message is delivered and wherever the deliveries fail, before
    or after the finalization or its record, the payer is finalized at most once: the
    database is, up to the processed events, as before or as one finalization left it.
    This uses only what the two interfaces promise. *)
Theorem finalize_delivered_once v eventID payer n w :
  finalize_message v eventID payer -> inv (w_st w) ->
  let d' := w_st (finalize_delivered v n w) in
  same_but_events (w_st w) d' \/
  exists w1 rs w2, same_but_events (w_st w) (w_st w1) /\
    runs (fz_FinalizeForPayer payer) w1 rs w2 /\ same_but_events (w_st w2) d'.
Proof.
  intros Hm Hinv. cbn zeta.
  enough (same_but_events (w_st w) (w_st (finalize_delivered v n w)) \/
    (settled_up payer (w_st (finalize_delivered v n w)) /\
     inv (w_st (finalize_delivered v n w)) /\
     exists w1 rs w2, same_but_events (w_st w) (w_st w1) /\
       runs (fz_FinalizeForPayer payer) w1 rs w2 /\
       same_but_events (w_st w2) (w_st (finalize_delivered v n w)))) as [?|(_ & _ & ?)]
    by auto.
  induction n as [|n IH]; [left; reflexivity|]. cbn [finalize_delivered].
  set (w0 := finalize_delivered v n w) in *.
  destruct (process_finalize_cases v eventID payer w0 Hm) as [->|(w1 & rs & w2 & Hw1 & Hr & Hs)];
    [done|].
  destruct IH as [Hsame|(Hup & Hi0 & u1 & us & u2 & Hu1 & Hu & Hu2)].
  - right. assert (inv (w_st w1)) as Hi1 by (rewrite Hw1; by eapply fz_inv_events).
    destruct (fz_ok _ _ _ _ Hi1 Hr) as (Hi2 & Hup).
    split; [by eapply fz_up_events|]. split; [by eapply fz_inv_events|].
    exists w1, rs, w2. rewrite Hw1. done.
  - right. rewrite <- Hw1 in Hup, Hi0.
    destruct (fz_again _ _ _ _ Hi0 Hup Hr) as [_ Heq].
    assert (same_but_events (w_st w0) (w_st (process_finalize (Some v) w0).2)) as Hs'
      by (by rewrite <- Hw1, <- Heq).
    rewrite Hw1 in Hup, Hi0.
    split; [by eapply fz_up_events|]. split; [by eapply fz_inv_events|].
    exists u1, us, u2. split; [done|]. split; [done|]. by etransitivity.
Qed.

End Worker.

(** ** What the notifications say *)

Section Notifications.
Context {E : Env} {M : MapOrder} {HM : MapOrderLaws M}.

Definition settled_in (P : SettlementResult -> bool) (rs : list SettlementResult) : Z :=
  sum_list (map (fun r => if counted r && P r then sr_SettledAmount r else 0) rs).

Definition goes_to (uid : string) (r : SettlementResult) : bool :=
  bool_decide (sr_ReceiverUserID r = uid).

(** The receiver has a counted result. *)
Definition has_result_for (uid : string) (rs : list SettlementResult) : Prop :=
  uid <> "" /\ exists r, r ∈ rs /\ counted r = true /\ sr_ReceiverUserID r = uid.

Lemma settled_in_cons P r rs :
  settled_in P (r :: rs) = (if counted r && P r then sr_SettledAmount r else 0) + settled_in P rs.
Proof. done. Qed.

Lemma settled_in_bounds P rs :
  Forall (fun r => 0 <= sr_SettledAmount r) rs ->
  0 <= settled_in P rs <= settled_in (fun _ => true) rs.
Proof.
  induction rs as [|r rs IH]; intros Hp; [done|]. apply Forall_cons in Hp as [Hr Hp].
  specialize (IH Hp). rewrite !settled_in_cons, andb_true_r.
  destruct (counted r), (P r); cbn; lia.
Qed.

(** The running totals do not overflow as long as the payer's does not. *)
Lemma aggregate_spec rs : forall total by_,
  Forall (fun r => 0 <= sr_SettledAmount r) rs -> 0 <= total ->
  by_ !! "" = None -> (forall u n, by_ !! u = Some n -> 0 <= n <= total) ->
  total + settled_in (fun _ => true) rs <= int64_max ->
  exists by', aggregate rs total by_ = (total + settled_in (fun _ => true) rs, by') /\
    (forall u n, by' !! u = Some n -> n = default 0 (by_ !! u) + settled_in (goes_to u) rs) /\
    forall u, is_Some (by' !! u) <-> has_result_for u rs \/ is_Some (by_ !! u).
Proof.
  induction rs as [|r rs IH]; intros total by_ Hpos Ht Hempty Hby Hmax.
  - exists by_. split; [unfold settled_in; cbn; f_equal; lia|]. split.
    + intros u n ->. unfold settled_in. cbn. lia.
    + intros u. split; [by right|]. intros [(_ & r & Hr & _)|?]; [|done].
      by apply not_elem_of_nil in Hr.
  - pose proof Hpos as Hpos'. apply Forall_cons in Hpos' as [Hr Hrs].
    pose proof (settled_in_bounds (fun _ => true) rs Hrs) as Hb. rewrite settled_in_cons, andb_true_r in *.
    assert (forall u, (counted r = true -> sr_ReceiverUserID r = u -> u = "") ->
      has_result_for u (r :: rs) <-> has_result_for u rs) as Hother.
    { intros u Hu. split; intros (Hne & x & Hx & Hcx & Hux); (split; [done|]).
      - apply elem_of_cons in Hx as [->|Hx]; [by destruct Hne; apply Hu|by exists x].
      - exists x. split; [by right|done]. }
    cbn [aggregate]. destruct (counted r) eqn:Hc; cbn [negb].
    2:{ destruct (IH total by_) as (by' & -> & Hv & Hk); [done..|lia|].
        exists by'. split; [f_equal; lia|]. split.
        - intros u n Hn. rewrite (Hv u n Hn), settled_in_cons, Hc. cbn. lia.
        - intros u. rewrite Hk, (Hother u); [done|discriminate]. }
    unfold add64. rewrite (wrap64_id (total + _)) by (unfold int64_min; lia).
    case_bool_decide as Hrcv.
    + destruct (IH (total + sr_SettledAmount r) by_) as (by' & -> & Hv & Hk); try done; try lia.
      { intros u n Hn. specialize (Hby u n Hn). lia. }
      exists by'. split; [f_equal; lia|]. split.
      * intros u n Hn. rewrite (Hv u n Hn), settled_in_cons, Hc. unfold goes_to at 2. cbn.
        case_bool_decide as Hu; [|lia]. exfalso. assert (u = "") as -> by congruence.
        assert (is_Some (by' !! "")) as Hs by eauto. apply Hk in Hs as [[? _]|Hs]; [done|].
        rewrite Hempty in Hs. by apply is_Some_None in Hs.
      * intros u. rewrite Hk, (Hother u); [done|congruence].
    + set (u0 := sr_ReceiverUserID r) in *.
      assert (0 <= default 0 (by_ !! u0) <= total) as Hu0.
      { destruct (by_ !! u0) eqn:Hx; cbn; [by apply (Hby u0)|lia]. }
      rewrite (wrap64_id (default 0 _ + _)) by (unfold int64_min; lia).
      destruct (IH (total + sr_SettledAmount r)
        (<[u0 := default 0 (by_ !! u0) + sr_SettledAmount r]> by_)) as (by' & -> & Hv & Hk);
        try done; try lia.
      { by rewrite lookup_insert_ne. }
      { intros u n Hn. apply lookup_insert_Some in Hn as [[_ <-]|[_ Hn]]; [lia|].
        specialize (Hby u n Hn). lia. }
      exists by'. split; [f_equal; lia|]. split.
      * intros u n Hn. rewrite (Hv u n Hn), settled_in_cons, Hc. unfold goes_to at 2. cbn.
        fold u0. case_bool_decide as Hu.
        -- subst u. rewrite lookup_insert_eq. cbn. lia.
        -- by rewrite lookup_insert_ne.
      * intros u. rewrite Hk. destruct (decide (u = u0)) as [->|Hu].
        -- rewrite lookup_insert_eq. split; [|right; eauto]. intros _. left.
           split; [done|]. exists r. split; [left|done].
        -- rewrite lookup_insert_ne by done. rewrite (Hother u); [done|congruence].
Qed.

Lemma runs_notify_receivers payer uids tot w u w' :
  runs (notify_receivers payer uids tot) w u w' ->
  w_log w' = w_log w ++
    map (fun uid => EvNotify uid "offline_payment_received" payer (default 0 (tot !! uid))) uids.
Proof.
  revert w. induction uids as [|uid uids IH]; intros w H; cbn in H.
  - apply runs_ret in H as [_ ->]. by rewrite app_nil_r.
  - apply runs_bind in H as ([] & w1 & H1 & H). apply runs_emit in H1 as ->.
    apply IH in H. rewrite H. cbn. by rewrite <- app_assoc.
Qed.

(** The notifications of a finalization add up: the payer is told the total settled, every
    receiver with a settled payment is told exactly once, and what that receiver got. *)
Theorem emitNotifications_totals fp rs w u w' :
  Forall (fun r => 0 <= sr_SettledAmount r) rs ->
  settled_in (fun _ => true) rs <= int64_max ->
  runs (emitNotifications true fp rs) w u w' ->
  let total := settled_in (fun _ => true) rs in
  exists uids, NoDup uids /\ (forall uid, uid ∈ uids <-> has_result_for uid rs) /\
    w_log w' = w_log w ++
      (if 0 <? total
       then [EvNotify (fp_PayerUserID fp) "offline_payment_settled" (fp_Reason fp) total] else [])
      ++ map (fun uid => EvNotify uid "offline_payment_received" (fp_PayerUserID fp)
                (settled_in (goes_to uid) rs)) uids.
Proof.
  intros Hpos Hmax H. cbn zeta.
  destruct (aggregate_spec rs 0 ∅) as (by' & Hagg & Hv & Hk); [done..|lia|].
  assert (forall uid, is_Some (by' !! uid) <-> has_result_for uid rs) as Hkeys.
  { intros uid. rewrite Hk, lookup_empty. split; [intros [?|Hx]; [done|by apply is_Some_None in Hx]|auto]. }
  unfold emitNotifications in H. cbn [negb orb] in H.
  destruct (length rs =? 0)%nat eqn:Hlen.
  { apply Nat.eqb_eq, nil_length_inv in Hlen as ->. apply runs_ret in H as [_ ->].
    exists []. split; [constructor|]. split; [|by rewrite app_nil_r].
    intros uid. split; [by intros ?%not_elem_of_nil|].
    intros (_ & r & Hr & _). by apply not_elem_of_nil in Hr. }
  rewrite Hagg in H. cbn [Z.add] in H. rewrite Z.add_0_l in H.
  set (total := settled_in _ rs) in *.
  assert (forall uids, (forall uid, uid ∈ uids -> is_Some (by' !! uid)) ->
    map (fun uid => EvNotify uid "offline_payment_received" (fp_PayerUserID fp)
      (default 0 (by' !! uid))) uids
    = map (fun uid => EvNotify uid "offline_payment_received" (fp_PayerUserID fp)
      (settled_in (goes_to uid) rs)) uids) as Hmap.
  { intros uids Hin. apply map_ext_in. intros uid Hu%list_elem_of_In. f_equal.
    destruct (Hin uid Hu) as [n Hn]. rewrite Hn. cbn. rewrite (Hv uid n Hn), lookup_empty. done. }
  destruct ((total =? 0) && _) eqn:Hnone.
  - apply andb_true_iff in Hnone as [Ht Hs]. apply Z.eqb_eq in Ht. apply Nat.eqb_eq in Hs.
    apply map_size_empty_inv in Hs. subst by'. apply runs_ret in H as [_ ->].
    exists []. rewrite Ht, app_nil_r. split; [constructor|]. split; [|done].
    intros uid. rewrite <- Hkeys, lookup_empty. split; [by intros ?%not_elem_of_nil|].
    by intros ?%is_Some_None.
  - apply runs_bind in H as ([] & w1 & H1 & H). apply runs_notify_receivers in H.
    exists (map_order (map_to_list by').*1).
    assert (forall uid, uid ∈ map_order (map_to_list by').*1 <-> is_Some (by' !! uid)) as Hord.
    { intros uid. rewrite map_order_perm, list_elem_of_fmap. split.
      - intros ([k n] & -> & Hkn). apply elem_of_map_to_list in Hkn. by exists n.
      - intros [n Hn]. exists (uid, n). split; [done|]. by apply elem_of_map_to_list. }
    split; [rewrite map_order_perm; apply NoDup_fst_map_to_list|].
    split; [intros uid; by rewrite Hord|].
    rewrite H, Hmap by (intros uid; apply Hord). destruct (0 <? total).
    + apply runs_emit in H1 as ->. cbn. by rewrite <- app_assoc.
    + apply runs_ret in H1 as [_ ->]. done.
Qed.

End Notifications.

(** ** The real components *)

Section Instances.
Context {E : Env}.

#[export] Instance repo_events : EventTracker := {|
  et_IsEventProcessed := IsEventProcessed;
  et_MarkEventProcessedSkipped id := MarkEventProcessed id "SKIPPED";
  et_MarkEventProcessedFailed id := MarkEventProcessed id "FAILED";
  et_MarkEventProcessedOK id := MarkEventProcessed id "SETTLED";
|}.

Lemma MarkEventProcessed_marks id status : marks id (MarkEventProcessed id status).
Proof.
  intros w. destruct (MarkEventProcessed id status w) as [[u|e] w'] eqn:H.
  - apply runs_MarkEventProcessed in H as (m & -> & Hs & _). cbn. split; [by exists m|done].
  - unfold MarkEventProcessed, exec in H. destruct (fault _); [by injection H as _ <-|].
    destruct (q_MarkEventProcessed _ _ _ _) as [[? ?]|]; [discriminate|]. by injection H as _ <-.
Qed.

#[export] Instance repo_events_laws : EventTrackerLaws repo_events.
Proof.
  split; [|intros id; apply MarkEventProcessed_marks..].
  intros id w. cbn. unfold IsEventProcessed, query, exec. destruct (fault _); [done|]. cbn.
  split; [done|]. apply bool_decide_eq_true.
Qed.

Context {C : Ed25519}.
Variable s : SettlementService.

#[export] Instance settlement_finalizer : FinalizerService := {|
  fz_FinalizeForPayer := FinalizeForPayer s |}.

Lemma good_events sus d d' : same_but_events d d' -> good sus d -> good sus d'.
Proof.
  intros [p ->] [[Hb []] Hbal]. split; [|done]. split; [by apply (books_same sus d)|].
  constructor; done.
Qed.

#[export] Instance settlement_finalizer_laws :
  FinalizerLaws settlement_finalizer (good (ss_SuspenseAccountID s))
    (fun payer d => pending_rows d payer = []).
Proof.
  constructor.
  - apply good_events.
  - by intros u d d' [p ->].
  - intros u w e w'. apply tx_err.
  - intros u w rs w' Hg H. split.
    + pose proof (FinalizeForPayer_good s u w Hg) as Hg'. cbn in H. unfold runs in H.
      by rewrite H in Hg'.
    + by eapply finalize_settles_up.
  - apply finalize_nothing.
Qed.

End Instances.
