(* ===== verification/ReconcileProps.v ===== *)
(** * What reconciliation finds

    The diff reports exactly the disagreements between a device's log and the server's
    settled payments; a receipt adds up; the nightly check is clean exactly when every
    balance is the net of its postings and no ceiling is overdrawn, which the system's
    own operations guarantee and the transfer worker does not. *)

From Stdlib Require Import Ascii.
From S2P Require Import Prelude Domain Json Crypto Canonical Store SealedBox Repo UserAuth Books Solvency Wallet Settlement SettlementFacts WalletProps Members Registration System Wire Transfer TransferFacts TransferProps Reconcile.

(** ** Keys of payments *)

Lemma after_bar p p' (n n' : Z) :
  p +:+ "|" +:+ pretty n = p' +:+ "|" +:+ pretty n' -> p = p' /\ n = n'.
Proof.
  assert (forall (r q : string) (z : Z), String "|"%char (pretty z) = (r +:+ String "|"%char q)%string -> r = "") as Hbar.
  { intros [|a r] q z; [done|]. cbn. intros H. exfalso. injection H as _ H.
    pose proof (pretty_numeral z) as Hn. rewrite H in Hn. clear H.
    induction r as [|b r IH]; cbn in Hn; [discriminate|].
    apply andb_true_iff in Hn as [_ Hn]. by apply IH. }
  revert p'. induction p as [|a p IH]; intros p' H.
  - change (String "|"%char (pretty n) = (p' +:+ String "|"%char (pretty n'))%string) in H.
    pose proof (Hbar _ _ _ H) as ->. injection H as H. by apply (inj pretty) in H as ->.
  - destruct p' as [|a' p'].
    + change ((String a p +:+ String "|"%char (pretty n))%string = String "|"%char (pretty n')) in H.
      symmetry in H. by apply Hbar in H.
    + change (String a (p +:+ "|" +:+ pretty n) = String a' (p' +:+ "|" +:+ pretty n')) in H.
      injection H as -> H. apply IH in H as [-> ->]. done.
Qed.

(** The key a payment is indexed under determines the payer and the number, whatever
    the payer's id contains. *)
Lemma seqKey_inj p n p' n' : seqKey p n = seqKey p' n' -> p = p' /\ n = n'.
Proof. apply after_bar. Qed.

(** ** The diff *)

(** No two transactions of a list share an id or a payer's sequence number. *)
Definition coherent (l : list Transaction) : Prop := forall t t', t ∈ l -> t' ∈ l ->
  (t_ID t = t_ID t' -> t = t') /\
  (t_PayerID t = t_PayerID t' -> t_SequenceNumber t = t_SequenceNumber t' -> t = t').

Record indexes (l : list Transaction) (ix : index) : Prop := {
  ix_id id t : ix.1 !! id = Some t <-> t ∈ l /\ t_ID t = id;
  ix_seq p n t : ix.2 !! seqKey p n = Some t <->
    t ∈ l /\ t_PayerID t = p /\ t_SequenceNumber t = n;
}.

Lemma coherent_sub l l' : (forall t, t ∈ l -> t ∈ l') -> coherent l' -> coherent l.
Proof. intros Hs Hc t t' Ht Ht'. apply Hc; by apply Hs. Qed.

Lemma indexes_ext l l' ix : (forall t, t ∈ l <-> t ∈ l') -> indexes l ix -> indexes l' ix.
Proof. intros Hl []. constructor; intros; rewrite <- Hl; auto. Qed.

Lemma indexes_payer l ix t :
  coherent (t :: l) -> indexes l ix -> indexes (t :: l) (add_payer_txn ix t).
Proof.
  intros Hc [Hid Hseq]. constructor.
  - intros id t'. cbn. rewrite lookup_insert_Some, Hid, elem_of_cons. split.
    + intros [[? ?]|(? & ? & ?)]; subst; auto.
    + intros [[->|Hin] <-]; [by left|].
      destruct (decide (t_ID t = t_ID t')) as [Heq|]; [|by right].
      left. split; [done|]. destruct (Hc t t') as [Hx _]; [left|by right|]. by apply Hx.
  - intros p n t'. cbn. rewrite lookup_insert_Some, Hseq, elem_of_cons. split.
    + intros [[Hk ?]|(? & ? & ?)]; subst; [|by auto].
      apply seqKey_inj in Hk as [-> ->]. auto.
    + intros [[->|Hin] [<- <-]]; [by left|].
      destruct (decide (seqKey (t_PayerID t) (t_SequenceNumber t)
                        = seqKey (t_PayerID t') (t_SequenceNumber t'))) as [Heq|]; [|by right].
      left. split; [done|]. apply seqKey_inj in Heq as [? ?].
      destruct (Hc t t') as [_ Hx]; [left|by right|]. by apply Hx.
Qed.

Lemma indexes_receiver l ix t :
  coherent (t :: l) -> indexes l ix -> indexes (t :: l) (add_receiver_txn ix t).
Proof.
  intros Hc Hix. unfold add_receiver_txn. destruct (ix.1 !! t_ID t) as [t0|] eqn:H0;
    [|by apply indexes_payer].
  apply (ix_id _ _ Hix) in H0 as [Hin Hid].
  assert (t0 = t) as -> by (destruct (Hc t0 t) as [Hx _]; [by right|left|by apply Hx]).
  apply (indexes_ext l); [|done]. intros t'. rewrite elem_of_cons. split; [auto|].
  by intros [->|].
Qed.

(** Membership in rearranged lists. *)
Ltac members_of := intros ?; rewrite ?elem_of_app, ?elem_of_cons, ?elem_of_nil; tauto.

Lemma indexes_fold (f : index -> Transaction -> index) ts l ix :
  (forall l ix t, coherent (t :: l) -> indexes l ix -> indexes (t :: l) (f ix t)) ->
  coherent (ts ++ l) -> indexes l ix -> indexes (ts ++ l) (foldl f ix ts).
Proof.
  intros Hf. revert l ix. induction ts as [|t ts IH]; intros l ix Hc Hix; [done|].
  apply (indexes_ext (ts ++ t :: l)); [members_of|]. apply IH.
  - revert Hc. apply coherent_sub. members_of.
  - apply Hf; [|done]. revert Hc. apply coherent_sub. members_of.
Qed.

Lemma build_index_indexes ps rs : coherent (ps ++ rs) -> indexes (ps ++ rs) (build_index ps rs).
Proof.
  intros Hc. apply (indexes_ext (rs ++ (ps ++ []))); [members_of|].
  apply indexes_fold; [apply indexes_receiver|revert Hc; apply coherent_sub; members_of|].
  apply indexes_fold; [apply indexes_payer|revert Hc; apply coherent_sub; members_of|].
  constructor; intros; cbn; rewrite lookup_empty, elem_of_nil; naive_solver.
Qed.

(** The server's transaction an entry speaks of: the one with its id or, when it has none
    or an unknown one, the one with its payer and sequence number. *)
Definition names (sides : list Transaction) (e : ClientTxnEntry) (t : Transaction) : Prop :=
  t ∈ sides /\
  (ce_TransactionID e <> "" /\ t_ID t = ce_TransactionID e \/
   (ce_TransactionID e = "" \/ forall t', t' ∈ sides -> t_ID t' <> ce_TransactionID e) /\
   t_PayerID t = ce_PayerID e /\ t_SequenceNumber t = ce_SequenceNumber e).

Lemma resolve_names l ix e t : indexes l ix -> resolve ix e = Some t <-> names l e t.
Proof.
  intros [Hid Hseq]. unfold resolve, names. case_bool_decide as He.
  - rewrite Hseq. naive_solver.
  - destruct (ix.1 !! ce_TransactionID e) as [t0|] eqn:H0.
    + apply Hid in H0 as H1. split.
      * intros [= <-]. naive_solver.
      * intros [Hin [[_ Ht]|[[?|Hno] _]]]; [|done|].
        -- rewrite <- H0. by apply Hid.
        -- destruct H1 as [Hin0 Ht0]. by destruct (Hno t0).
    + assert (forall t', t' ∈ l -> t_ID t' <> ce_TransactionID e) as Hno.
      { intros t' Hin Ht. assert (ix.1 !! ce_TransactionID e = Some t') by (by apply Hid).
        congruence. }
      rewrite Hseq. split; [intros (? & ? & ?); auto 10|].
      intros [Hin [[_ Ht]|[_ ?]]]; [by destruct (Hno t)|done].
Qed.

(** What pass 1 finds about one entry. *)
Definition entry_diff (ix : index) (e : ClientTxnEntry) : list Discrepancy :=
  match resolve ix e with
  | None => [unknown_entry e]
  | Some t => amount_diff e t ++ status_diff e t
  end.

Lemma diff_entries ix log acc seen :
  (foldl (diff_entry ix) (acc, seen) log).1 = acc ++ concat (map (entry_diff ix) log) /\
  forall id, id ∈ (foldl (diff_entry ix) (acc, seen) log).2 <->
    id ∈ seen \/ exists e t, e ∈ log /\ resolve ix e = Some t /\ t_ID t = id.
Proof.
  revert acc seen. induction log as [|e log IH]; intros acc seen; cbn.
  { split; [by rewrite app_nil_r|]. intros id. split; [auto|].
    by intros [?|(e & t & []%elem_of_nil & _)]. }
  unfold diff_entry at 2 4, entry_diff at 1. cbn.
  destruct (resolve ix e) as [t|] eqn:Hr; cbn.
  - destruct (IH (acc ++ amount_diff e t ++ status_diff e t) ({[t_ID t]} ∪ seen)) as [H1 H2].
    split; [by rewrite H1, <- !app_assoc|]. intros id. rewrite H2, elem_of_union, elem_of_singleton.
    split.
    + intros [[->|?]|(e' & t' & ? & ? & ?)]; [right; exists e, t|by left|right; exists e', t'].
      * split; [left|done].
      * split; [by right|done].
    + intros [?|(e' & t' & Hin & Hr' & <-)]; [auto|].
      apply elem_of_cons in Hin as [->|Hin]; [|by right; exists e', t'].
      rewrite Hr in Hr'. injection Hr' as ->. auto.
  - destruct (IH (acc ++ [unknown_entry e]) seen) as [H1 H2].
    split; [by rewrite H1, <- app_assoc|]. intros id. rewrite H2. split.
    + intros [?|(e' & t' & ? & ? & ?)]; [by left|right; exists e', t']. split; [by right|done].
    + intros [?|(e' & t' & Hin & Hr' & <-)]; [auto|].
      apply elem_of_cons in Hin as [->|Hin]; [congruence|]. right. by exists e', t'.
Qed.

(** The disagreements between a log and the server, as a reference. *)
Inductive disagreement (sides : list Transaction) (log : list ClientTxnEntry) : Discrepancy -> Prop :=
| unknown_to_server e : e ∈ log -> (forall t, ~ names sides e t) ->
    disagreement sides log (unknown_entry e)
| other_amount e t : e ∈ log -> names sides e t -> ce_Amount e <> t_Amount t ->
    disagreement sides log {| ds_TransactionID := t_ID t; ds_Field := "amount";
      ds_Expected := pretty (t_Amount t); ds_Actual := pretty (ce_Amount e);
      ds_Severity := "CRITICAL" |}
| other_status e t : e ∈ log -> names sides e t -> ce_Status e <> "" ->
    ce_Status e <> status_text (t_Status t) ->
    disagreement sides log {| ds_TransactionID := t_ID t; ds_Field := "status";
      ds_Expected := status_text (t_Status t); ds_Actual := ce_Status e;
      ds_Severity := "WARNING" |}
| unknown_to_client t : t ∈ sides -> (forall e, e ∈ log -> ~ names sides e t) ->
    disagreement sides log (missing_entry (t_ID t)).

Lemma amount_diff_spec e t x :
  x ∈ amount_diff e t <-> ce_Amount e <> t_Amount t /\
    x = {| ds_TransactionID := t_ID t; ds_Field := "amount"; ds_Expected := pretty (t_Amount t);
           ds_Actual := pretty (ce_Amount e); ds_Severity := "CRITICAL" |}.
Proof.
  unfold amount_diff. destruct (Z.eqb_spec (ce_Amount e) (t_Amount t)).
  - rewrite elem_of_nil. tauto.
  - rewrite list_elem_of_singleton. tauto.
Qed.

Lemma status_diff_spec e t x :
  x ∈ status_diff e t <-> ce_Status e <> "" /\ ce_Status e <> status_text (t_Status t) /\
    x = {| ds_TransactionID := t_ID t; ds_Field := "status";
           ds_Expected := status_text (t_Status t); ds_Actual := ce_Status e;
           ds_Severity := "WARNING" |}.
Proof.
  unfold status_diff. do 2 case_bool_decide; cbn; rewrite ?elem_of_nil, ?list_elem_of_singleton; tauto.
Qed.

Section Diff.
Context {E : Env} {M : MapOrder} {ML : MapOrderLaws M}.

Lemma diffClientLog_disagreements log ps rs x :
  coherent (ps ++ rs) -> x ∈ diffClientLog log ps rs <-> disagreement (ps ++ rs) log x.
Proof.
  intros Hc. pose proof (build_index_indexes ps rs Hc) as Hix.
  unfold diffClientLog. set (ix := build_index ps rs) in *.
  assert (forall e t, resolve ix e = Some t <-> names (ps ++ rs) e t) as Hres
    by (intros; by apply resolve_names).
  destruct (diff_entries ix log [] ∅) as [H1 H2].
  destruct (foldl (diff_entry ix) ([], ∅) log) as [found seen]. cbn in H1, H2.
  rewrite H1, elem_of_app, !list_elem_of_In, in_concat, in_map_iff. split.
  - intros [(l & Hl & Hx)|(id & <- & Hid)].
    + apply in_map_iff in Hl as (e & <- & He). apply list_elem_of_In in He. apply list_elem_of_In in Hx.
      unfold entry_diff in Hx. destruct (resolve ix e) as [t|] eqn:Hr.
      * apply Hres in Hr. apply elem_of_app in Hx as [Hx|Hx].
        -- apply amount_diff_spec in Hx as [? ->]. by econstructor.
        -- apply status_diff_spec in Hx as (? & ? & ->). by econstructor.
      * apply list_elem_of_singleton in Hx as ->. constructor; [done|].
        intros t Ht. apply Hres in Ht. congruence.
    + apply filter_In in Hid as [Hid Hseen].
      rewrite <- list_elem_of_In, map_order_perm in Hid.
      apply list_elem_of_fmap in Hid as ([i t] & -> & Ht). apply elem_of_map_to_list in Ht. cbn in *.
      apply (ix_id _ _ Hix) in Ht as [Hin <-]. constructor; [done|].
      intros e He Hn. rewrite bool_decide_true in Hseen; [discriminate|].
      apply H2. right. exists e, t. split; [done|]. split; [by apply Hres|done].
  - intros [e He Hno|e t He Hn Ha|e t He Hn Hs1 Hs2|t Ht Hno].
    1-3: left; exists (entry_diff ix e); split;
      [apply in_map_iff; exists e; split; [done|by apply list_elem_of_In]|];
      apply list_elem_of_In; unfold entry_diff.
    + destruct (resolve ix e) as [t|] eqn:Hr; [|left]. exfalso. by apply (Hno t), Hres.
    + rewrite (proj2 (Hres e t) Hn). apply elem_of_app. left. by apply amount_diff_spec.
    + rewrite (proj2 (Hres e t) Hn). apply elem_of_app. right. by apply status_diff_spec.
    + right. exists (t_ID t). split; [done|]. apply filter_In. split.
      * rewrite <- list_elem_of_In, map_order_perm. apply list_elem_of_fmap. exists (t_ID t, t).
        split; [done|]. apply elem_of_map_to_list. by apply (ix_id _ _ Hix).
      * apply negb_true_iff, bool_decide_eq_false. rewrite H2.
        intros [[]%elem_of_empty|(e & t' & He & Hr & Hid)]. apply Hres in Hr.
        assert (t' = t) as ->.
        { destruct (Hc t' t) as [Hx _]; [apply Hr|done|by apply Hx]. }
        by apply (Hno e).
Qed.

End Diff.

(** ** What a client is told *)

(** The settled payments of one side. *)
Definition settled_side (d : db) (side : PaymentRow -> string) (u : string) (t : Transaction)
  : Prop :=
  exists i p, payment_tokens d !! i = Some p /\ side p = u /\ was_settled (p_Status p) = true /\
    t = paymentToDomainTxn (i, p).

Lemma elem_of_settled d (side : PaymentRow -> string) u (R : relation (string * PaymentRow))
  `{!forall x y, Decision (R x y)} t :
  t ∈ map paymentToDomainTxn (merge_sort R (rows_where
        (fun _ p => bool_decide (side p = u) && was_settled (p_Status p)) (payment_tokens d)))
  <-> settled_side d side u t.
Proof.
  rewrite list_elem_of_fmap. unfold settled_side. split.
  - intros ([i p] & -> & Hin). rewrite merge_sort_Permutation in Hin.
    apply elem_of_rows_where in Hin as [Hi Hp]. apply andb_true_iff in Hp as [Hu Hs].
    apply bool_decide_eq_true in Hu. by exists i, p.
  - intros (i & p & Hi & Hu & Hs & ->). exists (i, p). split; [done|].
    rewrite merge_sort_Permutation. apply elem_of_rows_where. split; [done|].
    by rewrite bool_decide_true, Hs.
Qed.

(** The two sides of one user are coherent, as rows of one table. *)
Lemma settled_coherent d u l :
  sequences (payment_tokens d) ->
  (forall t, t ∈ l -> settled_side d p_PayerUserID u t \/ settled_side d p_PayeeUserID u t) ->
  coherent l.
Proof.
  intros Hseq Hl t t' Ht Ht'.
  assert (forall t, t ∈ l -> exists i p, payment_tokens d !! i = Some p /\
    t = paymentToDomainTxn (i, p)) as Hrow.
  { intros x Hx. destruct (Hl x Hx) as [(i & p & Hi & _ & _ & ->)|(i & p & Hi & _ & _ & ->)];
      by exists i, p. }
  destruct (Hrow t Ht) as (i & p & Hi & ->), (Hrow t' Ht') as (j & q & Hj & ->). cbn. split.
  - intros ->. congruence.
  - intros Hu Hn. assert (i = j) as -> by (by apply (Hseq i j p q)). congruence.
Qed.

Section Sync.
Context {E : Env} {M : MapOrder} {ML : MapOrderLaws M}.
Implicit Types w : world db effect.

Lemma runs_emit_all {A} (f : A -> effect) xs w u w' :
  runs (for_each xs (fun _ x => emit (f x)) tt) w u w' ->
  w_st w' = w_st w /\ w_log w' = w_log w ++ map f xs.
Proof.
  revert w. induction xs as [|x xs IH]; intros w H; cbn in H.
  - apply runs_ret in H as [_ ->]. by rewrite app_nil_r.
  - apply runs_bind in H as ([] & w1 & He & H). apply runs_emit in He as ->.
    apply IH in H as [-> ->]. cbn. by rewrite <- app_assoc.
Qed.

Lemma runs_side q w rows w' :
  runs (let! rows := query (S:=db) (L:=effect) q in ret (map paymentToDomainTxn rows)) w rows w' ->
  w_st w' = w_st w /\ w_log w' = w_log w /\
  exists l, q (w_st w) = Ok l /\ rows = map paymentToDomainTxn l.
Proof.
  intros H. apply runs_bind in H as (l & w1 & Hq & H).
  apply runs_query in Hq as (_ & Hq & ->). apply runs_ret in H as [-> ->]. cbn. eauto.
Qed.

(** A sync tells a device the truth and all of it: it returns exactly the settled
    payments the user made and received, and its discrepancies are exactly the
    disagreements of the two views (entries the server does not know, other amounts, other
    statuses, payments the device has not reported), whatever the order in which the
    maps are visited; nothing changes in the database and one fraud event is recorded for each
    disputed payment. *)
Lemma SyncUser_reports sus u log disputed w r w' :
  books sus (w_st w) -> runs (SyncUser u log disputed) w r w' ->
  let sides := sy_PayerSide r ++ sy_ReceiverSide r in
  w_st w' = w_st w /\
  (forall t, t ∈ sy_PayerSide r <-> settled_side (w_st w) p_PayerUserID u t) /\
  (forall t, t ∈ sy_ReceiverSide r <-> settled_side (w_st w) p_PayeeUserID u t) /\
  (forall x, x ∈ sy_Discrepancies r <-> disagreement sides log x) /\
  exists t, w_log w' = w_log w ++ map (fun d => EvFraudRecord (dispute_event u d t)) disputed.
Proof.
  intros Hb H. unfold SyncUser in H. case_bool_decide; [by apply runs_throw in H|].
  apply runs_bind in H as (ps & w1 & Hp & H). apply runs_wrapping, runs_side in Hp
    as (Hw1 & Hl1 & lp & Hp & ->).
  apply runs_bind in H as (rs & w2 & Hr & H). apply runs_wrapping, runs_side in Hr
    as (Hw2 & Hl2 & lr & Hr & ->).
  apply runs_bind in H as (t & w3 & Ht & H). apply runs_now in Ht as [-> ->].
  apply runs_bind in H as ([] & w4 & He & H). apply runs_emit_all in He as [Hw4 Hl4].
  apply runs_ret in H as [-> ->]. cbn in *. rewrite Hw1 in *.
  injection Hp as <-. injection Hr as <-. rewrite Hl1 in Hl2. rewrite Hl2 in Hl4. rewrite Hw2 in Hw4.
  split; [congruence|].
  assert (forall t, t ∈ map paymentToDomainTxn (merge_sort seq_le (rows_where
        (fun _ p => bool_decide (p_PayerUserID p = u) && was_settled (p_Status p))
        (payment_tokens (w_st w)))) <-> settled_side (w_st w) p_PayerUserID u t) as Hps
    by (intros; apply elem_of_settled).
  assert (forall t, t ∈ map paymentToDomainTxn (merge_sort created_before (rows_where
        (fun _ p => bool_decide (p_PayeeUserID p = u) && was_settled (p_Status p))
        (payment_tokens (w_st w)))) <-> settled_side (w_st w) p_PayeeUserID u t) as Hrs
    by (intros; apply elem_of_settled).
  do 2 (split; [done|]). split; [|by eexists].
  intros x. apply diffClientLog_disagreements. apply (settled_coherent (w_st w) u); [apply Hb|].
  intros t Ht. apply elem_of_app in Ht as [Ht|Ht]; [left; by apply Hps|right; by apply Hrs].
Qed.

End Sync.

(** ** What a merchant is told *)

Definition has_status (st : TransactionStatus) (t : Transaction) : bool :=
  bool_decide (t_Status t = st).

Definition count_status (st : TransactionStatus) (l : list Transaction) : Z :=
  Z.of_nat (length (List.filter (has_status st) l)).

(** What was settled of a batch. *)
Fixpoint settled_amounts (l : list Transaction) : Z :=
  match l with
  | [] => 0
  | t :: rest => (if was_settled (t_Status t) then t_SettledAmount t else 0) + settled_amounts rest
  end.

Lemma settled_amounts_nonneg l :
  (forall t, t ∈ l -> 0 <= t_SettledAmount t) -> 0 <= settled_amounts l.
Proof.
  induction l as [|t l IH]; intros H; cbn [settled_amounts]; [lia|].
  assert (0 <= settled_amounts l) by (apply IH; intros; apply H; by right).
  pose proof (H t ltac:(left)). destruct (was_settled (t_Status t)); lia.
Qed.

Lemma count_status_cons st t l :
  count_status st (t :: l) = (if has_status st t then 1 else 0) + count_status st l.
Proof. unfold count_status. cbn. destruct (has_status st t); cbn; lia. Qed.

(** Case analysis on the status of a row in the counters. *)
Ltac by_status t :=
  unfold count_row; cbn -[count_status]; destruct (t_Status t); cbn -[count_status];
  repeat case_bool_decide; try congruence; lia.

Lemma count_row_amount b t :
  0 <= t_SettledAmount t -> 0 <= sb_TotalAmount b ->
  sb_TotalAmount b + (if was_settled (t_Status t) then t_SettledAmount t else 0) <= int64_max ->
  sb_TotalAmount (count_row b t) =
    sb_TotalAmount b + (if was_settled (t_Status t) then t_SettledAmount t else 0).
Proof.
  intros Ht Hb Hle. unfold count_row. cbn [sb_TotalAmount].
  assert (forall n, 0 <= n <= int64_max -> wrap64 n = n) as Hw
    by (intros; apply wrap64_id; unfold int64_min; lia).
  destruct (t_Status t); change (0 + 0 =? 0) with true; change (1 + 0 =? 0) with false;
    change (0 + 1 =? 0) with false; try (symmetry; apply Z.add_0_r); apply Hw; exact (conj
      (Z.add_nonneg_nonneg _ _ Hb Ht) Hle).
Qed.

(** The loop counts the rows by status and, without overflow, adds up what was settled. *)
Lemma count_rows l b :
  let b' := foldl count_row b l in
  sb_ID b' = sb_ID b /\ sb_TotalSubmitted b' = sb_TotalSubmitted b /\
  sb_TotalSettled b' = sb_TotalSettled b + count_status TxSettled l /\
  sb_TotalPartial b' = sb_TotalPartial b + count_status TxPartiallySettled l /\
  sb_TotalRejected b' = sb_TotalRejected b + count_status TxRejected l /\
  ((forall t, t ∈ l -> 0 <= t_SettledAmount t) -> 0 <= sb_TotalAmount b ->
   sb_TotalAmount b + settled_amounts l <= int64_max ->
   sb_TotalAmount b' = sb_TotalAmount b + settled_amounts l).
Proof.
  revert b. induction l as [|t l IH]; intros b; cbn [foldl].
  { unfold count_status. cbn. repeat split; intros; lia. }
  destruct (IH (count_row b t)) as (-> & -> & -> & -> & -> & Hsum).
  rewrite !count_status_cons. unfold has_status. cbn [settled_amounts].
  split; [done|]. split; [done|].
  split; [by_status t|].
  split; [by_status t|].
  split; [by_status t|].
  intros Hn Hb Hle. assert (forall x, x ∈ l -> 0 <= t_SettledAmount x) as Hn'
    by (intros; apply Hn; by right).
  pose proof (Hn t ltac:(left)) as Ht. pose proof (settled_amounts_nonneg l Hn') as Hl.
  assert (sb_TotalAmount (count_row b t) =
    sb_TotalAmount b + (if was_settled (t_Status t) then t_SettledAmount t else 0)) as Hone.
  { apply count_row_amount; [done..|]. destruct (was_settled (t_Status t)); lia. }
  rewrite Hsum; rewrite ?Hone; [lia|done| |]; destruct (was_settled (t_Status t)); lia.
Qed.

Lemma still_open_spec t :
  still_open t = negb (was_settled (t_Status t) || has_status TxRejected t || has_status TxExpired t).
Proof. unfold still_open, has_status. by destruct (t_Status t). Qed.

Lemma sorted_map_seq l : Sorted seq_le l -> Sorted txn_seq_le (map paymentToDomainTxn l).
Proof.
  induction 1 as [|[i p] l Hs IH Hh]; cbn [map]; constructor; [done|].
  destruct Hh as [|[j q] l Hle]; cbn [map]; constructor. exact Hle.
Qed.

(** A receipt lists the payments of the batch by sequence number and adds them up; the
    batch is COMPLETED exactly when every one of them is settled, rejected or expired. *)
Lemma BatchReceipt_adds_up {E : Env} batch (w : world db effect) b rs w' :
  runs (BatchReceipt batch) w (b, rs) w' ->
  exists rows,
    rows ≡ₚ map paymentToDomainTxn (rows_where
      (fun _ p => bool_decide (p_SettlementBatchID p = Some batch)) (payment_tokens (w_st w))) /\
    Sorted txn_seq_le rows /\ rows <> [] /\ w_st w' = w_st w /\ rs = map receipt_line rows /\
    sb_ID b = batch /\ sb_TotalSubmitted b = Z.of_nat (length rows) /\
    sb_TotalSettled b = count_status TxSettled rows /\
    sb_TotalPartial b = count_status TxPartiallySettled rows /\
    sb_TotalRejected b = count_status TxRejected rows /\
    ((forall t, t ∈ rows -> 0 <= t_SettledAmount t) -> settled_amounts rows <= int64_max ->
     sb_TotalAmount b = settled_amounts rows) /\
    sb_Status b = Some (if existsb still_open rows then BatchProcessing else BatchCompleted).
Proof.
  intros H. unfold BatchReceipt in H. case_bool_decide; [by apply runs_throw in H|].
  apply runs_bind in H as (rows & w1 & Hq & H). apply runs_wrapping in Hq.
  unfold ListPaymentsByBatch in Hq. apply runs_bind in Hq as (l & w2 & Hq & Hr).
  apply runs_query in Hq as (_ & [= <-] & ->). apply runs_ret in Hr as [-> ->].
  set (rows := map paymentToDomainTxn _) in *.
  assert (rows <> []) as Hne by (intros Hn; rewrite Hn in H; by apply runs_throw in H).
  exists rows. split; [unfold rows; by rewrite merge_sort_Permutation|]. split.
  { apply sorted_map_seq. apply Sorted_merge_sort. intros x y. unfold seq_le. lia. }
  split; [done|].
  destruct rows as [|t0 rest] eqn:Hrows; [done|]. rewrite <- Hrows in *.
  apply runs_ret in H as [[= -> ->] ->]. cbn -[foldl existsb length].
  match goal with |- context [foldl count_row ?b0 rows] =>
    pose proof (count_rows rows b0) as (H1 & H2 & H3 & H4 & H5 & H6) end.
  rewrite H1, H2, H3, H4, H5. split_and!; try done. intros Hn Hle. rewrite H6; cbn; [lia|done..].
Qed.

(** ** The nightly check *)

Definition ledger_posted (d : db) : Prop := forall e, e ∈ ledger_entries d -> posted d e.

(** What was settled on a ceiling by settled payments. *)
Definition settled_total (id : string) (d : db) : Z :=
  sum_rows (fun _ p => if was_settled (p_Status p) then settled_of id p else 0) (payment_tokens d).

(** The findings, as a reference. *)
Definition account_finding (d : db) (a : string * Account) : Discrepancy := {|
  ds_TransactionID := "";
  ds_Field := ("account_balance:" +:+ a.1 +:+ ":" +:+ kind_text (a_Kind a.2))%string;
  ds_Expected := pretty (net d a.1); ds_Actual := pretty (a_BalanceKobo a.2);
  ds_Severity := "CRITICAL" |}.

Definition ceiling_finding (d : db) (c : string * CeilingRow) : Discrepancy := {|
  ds_TransactionID := ""; ds_Field := ("ceiling_overdraw:" +:+ c.1)%string;
  ds_Expected := ("<= " +:+ pretty (c_CeilingKobo c.2))%string;
  ds_Actual := pretty (settled_total c.1 d); ds_Severity := "CRITICAL" |}.

Definition unbooked (d : db) (a : string * Account) : bool :=
  negb (net d a.1 =? a_BalanceKobo a.2).

Definition overdrawn (d : db) (c : string * CeilingRow) : bool :=
  c_CeilingKobo c.2 <? settled_total c.1 d.

Definition findings (d : db) : list Discrepancy :=
  map (account_finding d)
    (List.filter (unbooked d) (merge_sort key_le (map_to_list (accounts d)))) ++
  map (ceiling_finding d)
    (List.filter (overdrawn d) (merge_sort key_le (map_to_list (ceiling_tokens d)))).

Lemma ledger_sum_nonneg d P : ledger_posted d -> 0 <= ledger_sum P (ledger_entries d).
Proof.
  unfold ledger_posted. induction (ledger_entries d) as [|e l IH]; cbn; intros H; [lia|].
  destruct (H e) as [_ He]; [left|].
  assert (0 <= ledger_sum P l) by (apply IH; intros; apply H; by right).
  destruct (P e); lia.
Qed.

(** The sums the check reads give the net of the account, without overflow. *)
Lemma ledger_sums d id sums :
  ledger_posted d -> q_AccountLedgerSum id d = Ok sums -> sub64 sums.2 sums.1 = net d id.
Proof.
  intros Hp H. unfold q_AccountLedgerSum in H.
  apply result_bind_ok in H as (deb & Hd & H). apply result_bind_ok in H as (cred & Hc & H).
  injection H as <-. cbn.
  apply bigint_ok in Hd as [-> Hd%in_int64_spec]. apply bigint_ok in Hc as [-> Hc%in_int64_spec].
  unfold net. rewrite net_of_sums. unfold sub64. apply wrap64_id.
  match goal with |- _ <= ?x - ?y <= _ =>
    assert (0 <= x) by (by apply ledger_sum_nonneg);
    assert (0 <= y) by (by apply ledger_sum_nonneg) end.
  unfold int64_min, int64_max in *. lia.
Qed.

Lemma findings_nil d :
  findings d = [] <->
  (forall id a, accounts d !! id = Some a -> bal d id = net d id) /\
  (forall id c, ceiling_tokens d !! id = Some c -> settled_total id d <= c_CeilingKobo c).
Proof.
  unfold findings. split.
  - intros H. apply app_eq_nil in H as [Ha Hc]. apply map_eq_nil in Ha, Hc. split.
    + intros id a Hi. destruct (unbooked d (id, a)) eqn:Hu.
      * assert (In (id, a) []) as []. rewrite <- Ha. apply filter_In. split; [|done].
        apply list_elem_of_In. rewrite merge_sort_Permutation. by apply elem_of_map_to_list.
      * unfold unbooked in Hu. apply negb_false_iff, Z.eqb_eq in Hu. cbn in Hu.
        by rewrite (bal_lookup _ _ _ Hi).
    + intros id c Hi. destruct (overdrawn d (id, c)) eqn:Hu; [|by apply Z.ltb_ge].
      assert (In (id, c) []) as []. rewrite <- Hc. apply filter_In. split; [|done].
      apply list_elem_of_In. rewrite merge_sort_Permutation. by apply elem_of_map_to_list.
  - intros [Ha Hc].
    assert (forall (A : Type) (P : A -> bool) l, (forall x, x ∈ l -> P x = false) ->
      List.filter P l = []) as Hnil.
    { intros A P l H. induction l as [|x l IH]; cbn; [done|]. rewrite (H x) by left.
      apply IH. intros. apply H. by right. }
    rewrite !Hnil; [done| |]; intros [id x] Hin; rewrite merge_sort_Permutation in Hin;
      apply elem_of_map_to_list in Hin.
    + by apply Z.ltb_ge, Hc.
    + unfold unbooked. apply negb_false_iff, Z.eqb_eq. cbn.
      by rewrite <- (Ha _ _ Hin), (bal_lookup _ _ _ Hin).
Qed.

Section Nightly.
Context {E : Env}.
Implicit Types w : world db effect.

Lemma runs_check_account found a w found' w' :
  ledger_posted (w_st w) -> runs (check_account found a) w found' w' ->
  w_st w' = w_st w /\
  found' = found ++ map (account_finding (w_st w)) (List.filter (unbooked (w_st w)) [a]).
Proof.
  intros Hp H. apply runs_bind in H as (sums & w1 & Hq & H).
  apply runs_wrapping, runs_query in Hq as (_ & Hq & ->). apply runs_ret in H as [-> ->].
  split; [done|]. rewrite (ledger_sums _ _ _ Hp Hq). cbn. unfold unbooked, account_finding.
  destruct (net (w_st w) a.1 =? _); cbn; [by rewrite app_nil_r|done].
Qed.

Lemma runs_check_ceiling found c w found' w' :
  runs (check_ceiling found c) w found' w' ->
  w_st w' = w_st w /\
  found' = found ++ map (ceiling_finding (w_st w)) (List.filter (overdrawn (w_st w)) [c]).
Proof.
  intros H. apply runs_bind in H as (n & w1 & Hq & H).
  apply runs_wrapping, runs_query in Hq as (_ & Hq & ->). apply runs_ret in H as [-> ->].
  apply bigint_ok in Hq as [-> _]. split; [done|]. cbn. unfold overdrawn, ceiling_finding.
  cbn. fold (settled_total c.1 (w_st w)).
  destruct (c_CeilingKobo c.2 <? _); cbn; [done|by rewrite app_nil_r].
Qed.

(** A loop of checks collects the findings of its items in order. *)
Lemma runs_checks {A} (body : list Discrepancy -> A -> dbop (list Discrepancy))
  (f : A -> Discrepancy) (P : A -> bool) d xs :
  (forall found x w found' w', w_st w = d -> runs (body found x) w found' w' ->
     w_st w' = d /\ found' = found ++ map f (List.filter P [x])) ->
  forall found w found' w', w_st w = d -> runs (for_each xs body found) w found' w' ->
  w_st w' = d /\ found' = found ++ map f (List.filter P xs).
Proof.
  intros Hb. induction xs as [|x xs IH]; intros found w found' w' Hw H; cbn in H.
  - apply runs_ret in H as [-> ->]. cbn. by rewrite app_nil_r.
  - apply runs_bind in H as (found1 & w1 & H1 & H). apply Hb in H1 as [Hw1 ->]; [|done].
    apply IH in H as [Hw' ->]; [|done]. split; [done|]. rewrite <- app_assoc. cbn.
    by destruct (P x).
Qed.

(** Every error-free run is one of these. *)
Lemma runs_nightly w r w' :
  ledger_posted (w_st w) -> runs NightlyLedgerReconcile w r w' ->
  rr_Discrepancies r = findings (w_st w) /\
  rr_Status r = match findings (w_st w) with [] => ReconClean | _ => ReconDiscrepancy end /\
  reconciliation_runs (w_st w) !! rr_ID r = None /\
  w_st w' = with_reconciliation_runs (<[rr_ID r := r]> (reconciliation_runs (w_st w))) (w_st w).
Proof.
  intros Hp H. unfold NightlyLedgerReconcile in H.
  apply runs_bind in H as (accs & w1 & Ha & H).
  apply runs_wrapping, runs_query in Ha as (_ & [= <-] & ->).
  apply runs_bind in H as (cs & w2 & Hc & H).
  apply runs_wrapping, runs_query in Hc as (_ & [= <-] & ->).
  apply runs_bind in H as (f1 & w3 & H1 & H).
  apply (runs_checks check_account (account_finding (w_st w)) (unbooked (w_st w)) (w_st w))
    in H1 as [Hw3 ->]; [|intros ????? Hx Hr; apply runs_check_account in Hr; by rewrite Hx in *|done].
  apply runs_bind in H as (f2 & w4 & H2 & H).
  apply (runs_checks check_ceiling (ceiling_finding (w_st w)) (overdrawn (w_st w)) (w_st w))
    in H2 as [Hw4 ->]; [|intros ????? Hx Hr; apply runs_check_ceiling in Hr; by rewrite Hx in *|done].
  apply runs_bind in H as (t & w5 & Ht & H). apply runs_now in Ht as [-> ->].
  apply runs_bind in H as (id & w6 & Hi & H). apply runs_fresh in Hi as [-> ->].
  apply runs_wrapping in H. unfold InsertReconciliationRun in H.
  apply runs_bind in H as (id & w7 & Hi & H). apply runs_exec in H as (_ & d & H & ->).
  assert (w_st w7 = w_st w) as Hw7.
  { cbn in Hi. case_bool_decide; [apply runs_fresh in Hi as [_ ->]|apply runs_ret in Hi as [_ ->]]; done. }
  rewrite Hw7 in H. apply result_bind_ok in H as ([] & Hpk & [= <- <-]). cbn.
  apply guard_or_ok, bool_decide_eq_true in Hpk. done.
Qed.

(** Claim C39: the nightly run finds exactly what is wrong, in the order of the ids: one finding for
    every account whose balance is not the net of its postings and one for every ceiling
    settled beyond its amount, and nothing else; it says CLEAN exactly when there is none;
    all it changes is to add its own record. *)
Theorem NightlyLedgerReconcile_finds w r w' :
  ledger_posted (w_st w) -> runs NightlyLedgerReconcile w r w' ->
  rr_Discrepancies r = findings (w_st w) /\
  (rr_Status r = ReconClean <->
    (forall id a, accounts (w_st w) !! id = Some a -> bal (w_st w) id = net (w_st w) id) /\
    (forall id c, ceiling_tokens (w_st w) !! id = Some c ->
       settled_total id (w_st w) <= c_CeilingKobo c)) /\
  (rr_Status r = ReconClean \/ rr_Status r = ReconDiscrepancy) /\
  reconciliation_runs (w_st w) !! rr_ID r = None /\
  w_st w' = with_reconciliation_runs (<[rr_ID r := r]> (reconciliation_runs (w_st w))) (w_st w).
Proof.
  intros Hp H. destruct (runs_nightly _ _ _ Hp H) as (Hd & Hs & Hrest).
  rewrite <- findings_nil, Hs. split; [done|]. split; [|split; [|done]].
  - by destruct (findings (w_st w)).
  - destruct (findings (w_st w)); auto.
Qed.

(** *** A run that returns *)

(** No account's debits or credits exceed a BIGINT. *)
Definition sums_fit (d : db) : Prop := forall id dir,
  ledger_sum (fun e => of_account id e && has_direction dir e) (ledger_entries d) <= int64_max.

Lemma sum_settled_total id d :
  (forall i p, payment_tokens d !! i = Some p -> 0 <= p_SettledAmountKobo p) ->
  0 <= settled_total id d <= sum_settled id d.
Proof.
  unfold settled_total, sum_settled. intros H. split.
  - apply sum_rows_nonneg. intros k p Hk. specialize (H k p Hk). unfold settled_of.
    destruct (was_settled _); [|done]. case_bool_decide; lia.
  - apply sum_rows_le. intros k p Hk. specialize (H k p Hk). unfold settled_of.
    destruct (was_settled _); [done|]. case_bool_decide; lia.
Qed.

Lemma check_account_returns found a w :
  fault_free E -> ledger_posted (w_st w) -> sums_fit (w_st w) ->
  exists found' w', runs (check_account found a) w found' w' /\ w_st w' = w_st w.
Proof.
  intros Hf Hp Hs.
  assert (forall dir, bigint (ledger_sum (fun e => of_account a.1 e && has_direction dir e)
      (ledger_entries (w_st w))) = Ok (ledger_sum (fun e => of_account a.1 e && has_direction dir e)
      (ledger_entries (w_st w)))) as Hsum.
  { intros dir. unfold bigint. rewrite (proj2 (in_int64_spec _)); [done|].
    pose proof (Hs a.1 dir). pose proof (ledger_sum_nonneg _
      (fun e => of_account a.1 e && has_direction dir e) Hp). unfold int64_min. lia. }
  assert (exists sums, q_AccountLedgerSum a.1 (w_st w) = Ok sums) as [sums Hq].
  { unfold q_AccountLedgerSum, q_SumAccountDebits, q_SumAccountCredits. rewrite !Hsum. by eexists. }
  do 2 eexists. split.
  - unfold check_account. apply runs_bind. do 2 eexists. split; [|by apply runs_ret].
    apply runs_wrapping, runs_query. eauto.
  - done.
Qed.

Lemma check_ceiling_returns found c w :
  fault_free E -> (forall id, 0 <= settled_total id (w_st w) <= int64_max) ->
  exists found' w', runs (check_ceiling found c) w found' w' /\ w_st w' = w_st w.
Proof.
  intros Hf Hs. do 2 eexists. split.
  - unfold check_ceiling. apply runs_bind. do 2 eexists. split; [|by apply runs_ret].
    apply runs_wrapping, runs_query. split; [done|]. split; [|done].
    unfold q_SettledTotalForCeiling, bigint. rewrite (proj2 (in_int64_spec _)); [done|].
    fold (settled_total c.1 (w_st w)). specialize (Hs c.1). unfold int64_min. lia.
  - done.
Qed.

Lemma checks_return {A} (body : list Discrepancy -> A -> dbop (list Discrepancy)) d xs :
  (forall found x w, w_st w = d ->
     exists found' w', runs (body found x) w found' w' /\ w_st w' = d) ->
  forall found w, w_st w = d ->
  exists found' w', runs (for_each xs body found) w found' w' /\ w_st w' = d.
Proof.
  intros Hb. induction xs as [|x xs IH]; intros found w Hw; cbn.
  - exists found, w. by rewrite runs_ret.
  - destruct (Hb found x w Hw) as (f1 & w1 & H1 & Hw1).
    destruct (IH f1 w1 Hw1) as (f2 & w2 & H2 & Hw2).
    exists f2, w2. split; [|done]. apply runs_bind. eauto.
Qed.

Lemma InsertReconciliationRun_returns rec n w :
  fault_free E -> rr_ID rec = new_id n ->
  (forall n, reconciliation_runs (w_st w) !! new_id n = None) ->
  exists r w', runs (InsertReconciliationRun rec) w r w'.
Proof.
  intros Hf Hrec Hid. unfold InsertReconciliationRun.
  assert (exists id v, runs (S:=db) (L:=effect)
    (if bool_decide (rr_ID rec = "") then fresh else ret (rr_ID rec)) w id v /\
    w_st v = w_st w /\ exists k, id = new_id k) as (id & v & Hv & Hst & k & ->).
  { case_bool_decide; do 2 eexists.
    - split; [by apply runs_fresh|]. eauto.
    - split; [by apply runs_ret|]. eauto. }
  do 2 eexists. apply runs_bind. do 2 eexists. split; [exact Hv|]. apply runs_exec.
  split; [done|]. eexists. split; [|done]. rewrite Hst.
  unfold q_CreateReconciliationRun, pk. by rewrite bool_decide_true.
Qed.

Lemma nightly_returns w :
  fault_free E -> ledger_posted (w_st w) -> sums_fit (w_st w) ->
  (forall id, 0 <= settled_total id (w_st w) <= int64_max) ->
  (forall n, reconciliation_runs (w_st w) !! new_id n = None) ->
  exists r w', runs NightlyLedgerReconcile w r w'.
Proof.
  intros Hf Hp Hs Ht Hid. unfold NightlyLedgerReconcile.
  set (w2 := tick_ops (tick_ops w (w_st w)) (w_st w)).
  destruct (checks_return check_account (w_st w)
    (merge_sort key_le (map_to_list (accounts (w_st w))))
    ltac:(intros f x v Hv; rewrite <- Hv in *; by apply check_account_returns) [] w2 eq_refl)
    as (f1 & w3 & H1 & Hw3).
  destruct (checks_return check_ceiling (w_st w)
    (merge_sort key_le (map_to_list (ceiling_tokens (w_st w))))
    ltac:(intros f x v Hv; rewrite <- Hv in *; by apply check_ceiling_returns) f1 w3 Hw3)
    as (f2 & w4 & H2 & Hw4).
  set (w5 := World (w_st w4) (S (w_ids w4)) (S (w_clk w4)) (w_ops w4) (w_log w4)).
  destruct (InsertReconciliationRun_returns {|
    rr_ID := new_id (w_ids w4); rr_Type := ReconLedger; rr_EntityID := "system";
    rr_RunAt := clock (w_clk w4);
    rr_Status := match f2 with [] => ReconClean | _ => ReconDiscrepancy end;
    rr_Discrepancies := f2; rr_CreatedAt := time_zero |} (w_ids w4) w5 Hf eq_refl)
    as (r & w' & H3); [intros n; cbn; rewrite Hw4; apply Hid|].
  exists r, w'. apply runs_bind. do 2 eexists.
  split; [apply runs_wrapping, runs_query; eauto|].
  apply runs_bind. do 2 eexists. split; [apply runs_wrapping, runs_query; eauto|].
  apply runs_bind. exists f1, w3. split; [exact H1|].
  apply runs_bind. exists f2, w4. split; [exact H2|].
  apply runs_bind. do 2 eexists. split; [by apply runs_now|].
  apply runs_bind. do 2 eexists. split; [by apply runs_fresh|].
  apply runs_wrapping. exact H3.
Qed.

End Nightly.

(** ** The composition with the system *)

Section Composition.
Context {E : Env} {K : CacheEnv} {C : Ed25519} {X : NaCl} {F : FreshIDs E} {M : MapOrder} {AL : AuthLib} {TX : ErrorText}.
Variable ws : Service.
Variable ss : SettlementService.

#[local] Abbreviation sus := (ss_SuspenseAccountID ss).

(** Claim C38: reconciliation agrees with the invariants: after any sequence of the wallet, mint,
    settlement, gossip, device, account and operator calls of [operation], run one after
    the other, the nightly run, if its ledger sums fit a BIGINT and no store call fails,
    returns, and whenever it returns it reports CLEAN without a finding. As there, the
    claims uploaded are assumed to name no ceiling of another user (the code does not check
    it, and a claim on somebody else's ceiling can settle it beyond its amount), a ceiling
    is forced to expire only when nothing is left on it, and no online transfer is among
    the calls: those leave the ledger behind. *)
Theorem steps_reconcile_clean w d :
  quiet_service ws -> thriving sus d -> rtc (step ws ss) d (w_st w) ->
  (forall r w', runs NightlyLedgerReconcile w r w' ->
     rr_Status r = ReconClean /\ rr_Discrepancies r = []) /\
  (fault_free E -> sums_fit (w_st w) ->
   (forall n, reconciliation_runs (w_st w) !! new_id n = None) ->
   exists r w', runs NightlyLedgerReconcile w r w').
Proof.
  intros Hq Hd Hr. pose proof (steps_thriving ws ss d (w_st w) Hq Hr Hd) as [[[Hb Hl] _] _].
  assert (ledger_posted (w_st w)) as Hp by (intros e He; by apply (bk_posted _ _ Hb)).
  assert (forall id, 0 <= settled_total id (w_st w) <= sum_settled id (w_st w)) as Hsum.
  { intros id. apply sum_settled_total. intros i p Hi. by apply (ln_settled _ Hl i p Hi). }
  assert (findings (w_st w) = []) as Hnil.
  { apply findings_nil. split; intros id a Hi; [apply Hb|].
    pose proof (ln_cap _ Hl id a Hi). specialize (Hsum id). lia. }
  split.
  - intros r w' H. destruct (runs_nightly _ _ _ Hp H) as (-> & -> & _). by rewrite Hnil.
  - intros Hf Hs Hid. apply nightly_returns; try done. intros id. specialize (Hsum id).
    split; [apply Hsum|]. destruct (ceiling_tokens (w_st w) !! id) as [c|] eqn:Hc.
    + pose proof (ln_cap _ Hl id c Hc). pose proof (ln_ceiling _ Hl id c Hc). lia.
    + assert (sum_settled id (w_st w) = 0) as Hz; [|unfold int64_max in *; lia].
      unfold sum_settled. apply sum_rows_zero. intros i p Hi. unfold settled_of.
      case_bool_decide as Heq; [|done]. destruct (ln_bound _ Hl i p Hi) as (c & Hc' & _).
      congruence.
Qed.

(** Reconciliation sees what the transfer worker does: when the books held and a
    transfer between two users was processed, the next nightly run reports a
    DISCREPANCY with a critical finding for the main account of each of the two. *)
Lemma transfers_break_reconciliation v eventID tp w w1 r w' :
  transfer_message v eventID tp -> 0 < tp_AmountKobo tp ->
  tp_SenderUserID tp <> tp_ReceiverUserID tp -> books sus (w_st w) ->
  w_st w1 = w_st (process (Some v) w).2 -> accounts (w_st w1) <> accounts (w_st w) ->
  runs NightlyLedgerReconcile w1 r w' ->
  rr_Status r = ReconDiscrepancy /\
  forall u, u = tp_SenderUserID tp \/ u = tp_ReceiverUserID tp ->
  exists id a, accounts (w_st w1) !! id = Some a /\ a_UserID a = u /\ a_Kind a = AccountKindMain /\
    account_finding (w_st w1) (id, a) ∈ rr_Discrepancies r.
Proof.
  intros Hm Hpos Hne Hb Hw1 Hch H. rewrite Hw1 in Hch.
  destruct (process_leaves_ledger_behind sus v eventID tp w Hm Hpos Hne Hb Hch)
    as (s & r0 & Hs & Hr & Hbs & Hbr & Hp). rewrite <- Hw1 in *.
  destruct (runs_nightly _ _ _ Hp H) as (Hd & Hst & _).
  assert (forall id u, account_of (w_st w1) id u AccountKindMain -> bal (w_st w1) id <> net (w_st w1) id ->
    exists a, accounts (w_st w1) !! id = Some a /\ a_UserID a = u /\ a_Kind a = AccountKindMain /\
      account_finding (w_st w1) (id, a) ∈ findings (w_st w1)) as Hfind.
  { intros id u (a & Ha & Hu & Hk) Hneq. exists a. split_and!; try done.
    unfold findings. apply elem_of_app. left. apply list_elem_of_fmap. exists (id, a).
    split; [done|]. apply list_elem_of_In, filter_In. split.
    - apply list_elem_of_In. rewrite merge_sort_Permutation. by apply elem_of_map_to_list.
    - unfold unbooked. cbn. rewrite <- (bal_lookup _ _ _ Ha). apply negb_true_iff, Z.eqb_neq. lia. }
  rewrite Hd. split.
  - rewrite Hst. destruct (findings (w_st w1)) eqn:Hf; [|done].
    destruct (Hfind s _ Hs) as (a & _ & _ & _ & []%elem_of_nil). lia.
  - intros u [-> | ->]; [exists s|exists r0]; apply Hfind; done || lia.
Qed.

End Composition.
