(* ===== verification/BffTransferProps.v ===== *)
(** * Online transfers over HTTP: who may start one, and who may read one

    The PIN in front of a transfer, the pages of transfers a caller can ask for, and the receipts
    of batches. *)

From S2P Require Import Prelude Domain Json Crypto Store AuthStore Wire Tokens Repo AuthRepo Text Identity UserAuth Registration Keys Kyc Books Solvency Wallet Settlement Reconcile Messages WalletServer Rest Middleware BffWallet UserAuthProps TransferScore Transfer Listings BffAccounts TransferFacts TransferProps ReconcileProps.

#[local] Open Scope Z_scope.

(** ** Starting a transfer *)

Section Pin.
Context {E : Env} {AL : AuthLib}.
Implicit Types w : world db effect.

(** What wrong guesses do not touch of a PIN: its hash and when it was first set. *)
Definition lasting (r : PinRow) : string * Time := (pn_PinHash r, pn_CreatedAt r).

(** Nothing differs but the count of failed attempts and the lock of the PIN of [u], with the
    instant of that change. *)
Definition only_attempts (u : string) (d d' : db) : Prop := exists ups, d' = with_user_pins ups d /\
  (forall v, v <> u -> ups !! v = user_pins d !! v) /\
  lasting <$> ups !! u = lasting <$> user_pins d !! u.

Lemma only_attempts_refl u d : only_attempts u d d.
Proof. exists (user_pins d). split; [by destruct d|done]. Qed.

(** An update of the attempts and the lock of [u]. *)
Lemma preserves_attempts u d0 (f : Time -> db -> result (unit * db)) (g : Time -> PinRow -> PinRow) :
  (forall t r, lasting (g t r) = lasting r) ->
  (forall t d, f t d = Ok (tt, with_user_pins (alter (g t) u (user_pins d)) d)) ->
  preserves (L:=effect) (only_attempts u d0) (exec f).
Proof.
  intros Hg Hf. apply preserves_exec. intros t d [] d' (ups & -> & Hne & Hu) H. rewrite Hf in H.
  injection H as <-. exists (alter (g t) u ups). split; [done|]. split.
  - intros v Hv. rewrite lookup_alter_ne by done. by apply Hne.
  - rewrite lookup_alter_eq, <- Hu. destruct (ups !! u) as [r|]; [|done]. cbn. by rewrite Hg.
Qed.

Lemma VerifyPIN_attempts u pin w : only_attempts u (w_st w) (w_st (VerifyPIN u pin w).2).
Proof.
  enough (preserves (only_attempts u (w_st w)) (VerifyPIN u pin)) as Hp
    by (apply (Hp w), only_attempts_refl).
  assert (forall a, preserves (only_attempts u (w_st w)) (LockUserPIN u a)) as H1
    by (intros a; by apply (preserves_attempts u _ _ (fun t => set_pin (int32 a) (Some (tstz t)) t))).
  assert (forall a, preserves (only_attempts u (w_st w)) (BumpPINAttempts u a)) as H2
    by (intros a; by apply (preserves_attempts u _ _ (fun t r => set_pin (int32 a) (pn_LockedAt r) t r))).
  assert (preserves (only_attempts u (w_st w)) (ClearUserPINAttempts u)) as H3.
  { apply (preserves_attempts u _ _ (fun t r =>
      if negb (pn_Attempts r =? 0) || bool_decide (is_Some (pn_LockedAt r)) then set_pin 0 None t r else r)); [|done].
    intros t r. by destruct (_ || _). }
  unfold VerifyPIN, GetUserPINState. auto 20 with preserve.
Qed.

(** The right PIN, out of a lock. *)
Lemma runs_VerifyPIN u pin w x w' :
  runs (VerifyPIN u pin) w x w' ->
  exists r, user_pins (w_st w) !! u = Some r /\ pn_PinHash r <> ""%string /\
    bcrypt_matches (pn_PinHash r) pin = true /\ locked_at r (clock (w_clk w)) = false.
Proof.
  intros H. unfold VerifyPIN in H. destruct (bool_decide (u = _)); [by apply runs_throw in H|].
  destruct (negb (pinRe pin)); [by apply runs_throw in H|].
  apply runs_bind in H as (st & w1 & H1 & H). unfold GetUserPINState in H1.
  apply runs_bind in H1 as ([row|e] & w2 & H2 & H1); apply (proj1 (runs_attempt _ _ _ _)) in H2.
  2:{ destruct (errors_is e ErrNoRows); [|by apply runs_throw in H1]. apply runs_ret in H1 as [-> ->].
      cbn in H. by apply runs_throw in H. }
  apply runs_query in H2 as (_ & Hq & ->). apply runs_ret in H1 as [-> ->].
  cbn [ps_Set ps_Hash ps_LockedAt ps_Attempts negb orb] in H. unfold q_GetUserPINState in Hq.
  destruct (user_pins (w_st w) !! u) as [r|]; [injection Hq as ->|done]. exists row.
  case_bool_decide as Hh; [by apply runs_throw in H|]. split; [done|]. split; [done|].
  apply runs_bind in H as (locked & w3 & Hl & H).
  assert (locked = locked_at row (clock (w_clk w))) as ->.
  { unfold locked_at. destruct (pn_LockedAt row) eqn:Hlk; [|by apply runs_ret in Hl as [-> _]].
    apply runs_bind in Hl as (t & w4 & Ht & Hl). apply runs_now in Ht as [-> ->].
    apply runs_ret in Hl as [-> _]. done. }
  destruct (locked_at row _); [by apply runs_throw in H|].
  destruct (bcrypt_matches _ pin); [done|]. cbn [negb] in H.
  destruct (_ <=? _); apply runs_bind in H as (? & ? & _ & H); by apply runs_throw in H.
Qed.

End Pin.

Section Starting.
Context {E : Env} {K : CacheEnv} {AL : AuthLib} {T : ErrorText} {P : PgSession}.
Implicit Types w : world db effect.

Definition transfer_asked (claims : AccessClaims) (b : TransferBody) : InitiateTransferInput := {|
  it_SenderUserID := at_Sub claims; it_ReceiverAccountNumber := tb_ReceiverAccountNumber b;
  it_AmountKobo := tb_AmountKobo b; it_Reference := tb_Reference b |}.

Lemma answer_error_st {A} (cases : list (list error * http A)) e w :
  w_st (answer_error cases e w).2 = w_st w.
Proof. induction cases as [|[ts a] cases IH]; [done|]. cbn. by destruct (existsb _ _). Qed.

(** The PIN is the one [u] has set, and not locked. *)
Definition pin_given (u pin : string) w : Prop := exists p, user_pins (w_st w) !! u = Some p /\
  pn_PinHash p <> ""%string /\ bcrypt_matches (pn_PinHash p) pin = true /\
  locked_at p (clock (w_clk w)) = false.

(** Claim C8: a transfer over HTTP takes the transaction PIN besides the token.  Without a verified token
    nothing changes in the database.  Whatever else is asked and however it ends, of the
    tables only the failed attempts and the lock of the caller's own PIN change, unless the PIN in
    the request is the one the caller has set and is not locked; then, besides that, either a
    fraud record of a blocked transfer of the caller may be added, or the service accepts a new
    transfer, the caller being its sender and the answer 200 with it. *)
Theorem transfers_need_pin scorer cx body w r w' :
  fraud_reading scorer -> PostV1Transfers scorer cx body w = (r, w') ->
  w_st w' = w_st w \/
  exists claims b d, cx_Claims cx = Some claims /\ body = Some b /\
    let u := at_Sub claims in
    only_attempts u (w_st w) d /\
    (w_st w' = d \/
     pin_given u (tb_Pin b) w /\
     (blocked u d (w_st w') \/
      exists receiver tr, receiver <> u /\
        accepted_transfer (transfer_asked claims b) receiver d (w_st w') tr /\
        r = Ok (JSON200 (transferToDTO tr)))).
Proof.
  intros Hf H. unfold PostV1Transfers, with_claims, ClaimsFromContext in H.
  destruct (cx_Claims cx) as [claims|]; [|injection H as <- <-; by left].
  destruct body as [b|]; [|injection H as <- <-; by left]. cbn [with_body] in H. right.
  unfold bind at 1, attempt at 1 in H.
  pose proof (VerifyPIN_attempts (at_Sub claims) (tb_Pin b) w) as Hp.
  destruct (VerifyPIN (at_Sub claims) (tb_Pin b) w) as [[[]|e] w1] eqn:Hv; cbn [snd] in Hp;
    exists claims, b, (w_st w1); do 2 (split; [done|]); cbn zeta; (split; [exact Hp|]).
  2:{ left. pose proof (answer_error_st (A:=rest_Transfer) pin_answers e w1) as Hs. by rewrite H in Hs. }
  apply runs_VerifyPIN in Hv. fold (transfer_asked claims b) in H. right. split; [exact Hv|].
  unfold bind at 1, attempt at 1 in H.
  destruct (InitiateTransfer scorer (transfer_asked claims b) w1) as [[tr|e] w2] eqn:Hi.
  - injection H as <- <-. pose proof Hi as Hr.
    apply runs_InitiateTransfer in Hr as (_ & rcv & tier & Hne & _ & _ & Ho & _); [|done].
    destruct Ho as [[Hs _]|[Ha _]]; [left; by left|]. right. by exists rcv, tr.
  - left. pose proof (answer_error_st (A:=rest_Transfer) (transfer_answers e) e w2) as Hs.
    rewrite H in Hs. cbn [snd] in Hs. apply InitiateTransfer_fails in Hi; [|done]. by rewrite Hs.
Qed.

End Starting.

(** ** Reading transfers *)

Section Reading.
Context {E : Env} {T : ErrorText}.
Implicit Types w : world db effect.

(** A user's transfers, newest first. *)
Definition transfers_of (u : string) (d : db) : list (string * TransferRow) :=
  merge_sort transfer_newest
    (rows_where (fun _ r => bool_decide (f_SenderUserID r = u)
                            || bool_decide (f_ReceiverUserID r = u)) (transfers d)).

(** A transfer without the names shown beside it. *)
Definition nameless (t : Transfer) : Transfer := {|
  tr_ID := tr_ID t; tr_SenderUserID := tr_SenderUserID t; tr_ReceiverUserID := tr_ReceiverUserID t;
  tr_SenderDisplayName := None; tr_ReceiverDisplayName := None;
  tr_ReceiverAccountNumber := tr_ReceiverAccountNumber t; tr_AmountKobo := tr_AmountKobo t;
  tr_Status := tr_Status t; tr_Reference := tr_Reference t; tr_FailureReason := tr_FailureReason t;
  tr_CreatedAt := tr_CreatedAt t; tr_SettledAt := tr_SettledAt t |}.

Lemma runs_enrich ts w ts' w' :
  runs (enrichDisplayNames ts) w ts' w' -> map nameless ts' = map nameless ts /\ w_st w' = w_st w.
Proof.
  intros H. split.
  - unfold enrichDisplayNames in H. case_bool_decide; [by apply runs_ret in H as [-> _]|].
    apply runs_bind in H as ([names|e] & w1 & _ & H); apply runs_ret in H as [-> _]; [|done].
    rewrite map_map. done.
  - unfold enrichDisplayNames, LookupDisplayNames in H. by quiet_in H Hw.
Qed.

Lemma string_leb_total s t : string_leb s t = true \/ string_leb t s = true.
Proof.
  revert t. induction s as [|a s IH]; intros [|b t]; cbn; auto.
  destruct (Z.lt_trichotomy (code a) (code b)) as [H|[H|H]].
  - left. by rewrite (proj2 (Z.ltb_lt _ _) H).
  - rewrite H, Z.ltb_irrefl, Z.eqb_refl. apply IH.
  - right. by rewrite (proj2 (Z.ltb_lt _ _) H).
Qed.

Lemma newest_first d u : Sorted transfer_newest (transfers_of u d).
Proof.
  unfold transfers_of. apply Sorted_merge_sort. intros x y. unfold transfer_newest, key_le.
  destruct (Z.lt_trichotomy (f_CreatedAt x.2) (f_CreatedAt y.2)) as [?|[?|?]]; [right; by left| |left; by left].
  destruct (string_leb_total x.1 y.1); [right|left]; right; by split.
Qed.

(** The feed of a user's events: those of the user, newest first, page by page. *)
Lemma ListTransactionsForUser_page u limit offset (w : world db effect) l w' :
  0 <= limit -> 0 <= offset -> runs (ListTransactionsForUser u limit offset) w l w' ->
  l = map txnRowToDomain
        (take (Z.to_nat limit) (drop (Z.to_nat offset) (user_events u (w_st w)))) /\
  w_st w' = w_st w /\ Sorted event_newest (user_events u (w_st w)) /\
  forall i x, (i, x) ∈ user_events u (w_st w) <->
    transactions (w_st w) !! i = Some x /\ x_UserID x = u.
Proof.
  intros Hl Ho H. unfold ListTransactionsForUser in H. apply runs_bind in H as (rows & w1 & H1 & H).
  apply runs_ret in H as [-> ->]. apply runs_query in H1 as (_ & Hq & ->).
  unfold q_ListTransactionsForUser, page in Hq.
  rewrite (proj2 (Z.ltb_ge limit 0)), (proj2 (Z.ltb_ge offset 0)) in Hq by lia. injection Hq as <-.
  split_and!; try done.
  - unfold user_events. apply Sorted_merge_sort. intros x y. unfold event_newest, key_le.
    destruct (Z.lt_trichotomy (x_CreatedAt x.2) (x_CreatedAt y.2)) as [?|[?|?]];
      [right; by left| |left; by left].
    destruct (string_leb_total x.1 y.1); [right|left]; right; by split.
  - intros i x. unfold user_events. rewrite merge_sort_Permutation, elem_of_rows_where.
    by rewrite bool_decide_eq_true.
Qed.

Lemma runs_ListTransfers u l o w ts w' :
  0 < l <= 200 -> 0 <= o -> runs (ListTransfers u l o) w ts w' ->
  0 <= int32 o /\
  map nameless ts = map nameless (map transferToDomain
    (take (Z.to_nat l) (drop (Z.to_nat (int32 o)) (transfers_of u (w_st w))))) /\ w_st w' = w_st w.
Proof.
  intros Hl Ho H. unfold ListTransfers in H. cbn zeta in H.
  rewrite (proj2 (Z.leb_gt l 0)), (proj2 (Z.ltb_ge 200 l)) in H by lia. cbn [orb] in H.
  rewrite (proj2 (Z.ltb_ge o 0)) in H by lia.
  apply runs_bind in H as (rows & w1 & H1 & H). unfold ListTransfersForUser in H1.
  apply runs_bind in H1 as (x & w2 & Hq & H1). apply runs_query in Hq as (_ & Hq & ->).
  apply runs_ret in H1 as [-> ->]. apply runs_enrich in H as [-> ->].
  unfold q_ListTransfersForUser, page in Hq.
  rewrite (proj2 (Z.ltb_ge l 0)) in Hq by lia. destruct (Z.ltb_spec (int32 o) 0); [done|].
  injection Hq as <-. done.
Qed.

Lemma runs_GetTransfer id w o w' :
  runs (GetTransfer id) w o w' ->
  w_st w' = w_st w /\
  match o with
  | Some t => exists row, transfers (w_st w) !! id = Some row /\
                nameless t = nameless (transferToDomain (id, row))
  | None => transfers (w_st w) !! id = None
  end.
Proof.
  intros H. unfold GetTransfer in H. apply runs_bind in H as (r & w1 & H1 & H).
  apply (proj1 (runs_attempt _ _ _ _)) in H1. unfold Transferrepo_GetTransfer in H1.
  unfold or_not_found, bind, attempt, query, exec in H1. destruct (fault (w_ops w)) as [e|].
  { cbn in H1. injection H1 as <- <-. by apply runs_throw in H. }
  unfold q_GetTransferProjection in H1. destruct (transfers (w_st w) !! id) as [row|] eqn:Hrow; cbn in H1.
  - injection H1 as <- <-. apply runs_bind in H as (ts & w2 & H2 & H).
    apply runs_enrich in H2 as [Hn Hs]. apply runs_ret in H as [-> ->]. split; [by rewrite Hs|].
    destruct ts as [|t ts]; [discriminate|]. cbn [head map] in *. exists row. split; [done|].
    by apply (f_equal (default (nameless t) ∘ head)) in Hn.
  - injection H1 as <- <-. cbn in H. by apply runs_ret in H as [-> ->].
Qed.

(** Claim C14: a caller reads their own transfers and nobody else's.  A page is a part of all the
    transfers the caller took part in, newest first, with as many on it as asked for, at most a
    hundred; it starts at the offset asked for, as the answer says, when that is below 2^31, and
    otherwise at what is left of it in 32 bits; a single transfer is answered to its two parties as
    it is stored and to nobody else, who are told the same as for one that does not exist.  Only the
    names shown beside a transfer may come from elsewhere; nothing changes. *)
Theorem transfers_read cx claims w :
  cx_Claims cx = Some claims ->
  (forall limit offset l w', runs (GetV1Transfers cx limit offset) w (JSON200 l) w' ->
     rtl_Limit l = page_limit limit /\ 1 <= rtl_Limit l <= 100 /\
     rtl_Offset l = page_offset offset /\ 0 <= int32 (rtl_Offset l) /\
     (rtl_Offset l < 2 ^ 31 -> int32 (rtl_Offset l) = rtl_Offset l) /\ Sorted transfer_newest (transfers_of (at_Sub claims) (w_st w)) /\
     (exists ts, rtl_Items l = map transferToDTO ts /\
        map nameless ts = map nameless (map transferToDomain (take (Z.to_nat (rtl_Limit l))
          (drop (Z.to_nat (int32 (rtl_Offset l))) (transfers_of (at_Sub claims) (w_st w)))))) /\
     w_st w' = w_st w) /\
  (forall id a w', runs (GetV1TransfersID cx id) w a w' ->
     w_st w' = w_st w /\
     match transfers (w_st w) !! id with
     | Some row =>
         if bool_decide (f_SenderUserID row = at_Sub claims)
            || bool_decide (f_ReceiverUserID row = at_Sub claims)
         then exists t, a = JSON200 (transferToDTO t) /\
                nameless t = nameless (transferToDomain (id, row))
         else a = JSONError 404 "transfer_not_found" "transfer not found"
     | None => a = JSONError 404 "transfer_not_found" "transfer not found"
     end).
Proof.
  intros Hc. split.
  - intros limit offset l w' H. unfold GetV1Transfers, with_claims, ClaimsFromContext in H.
    rewrite Hc in H. cbn zeta in H. apply runs_bind in H as (rows & w1 & H1 & H).
    apply runs_ret in H as [[= ->] ->]. cbn [rtl_Limit rtl_Offset rtl_Items].
    assert (1 <= page_limit limit <= 100) as Hl.
    { unfold page_limit. destruct (_ <=? 0) eqn:H0; [cbn; lia|]. apply Z.leb_gt in H0.
      destruct (100 <? _) eqn:H2; [lia|]. apply Z.ltb_ge in H2. lia. }
    assert (0 <= page_offset offset) as Hoff.
    { unfold page_offset. destruct (_ <? 0) eqn:H0; [lia|]. by apply Z.ltb_ge in H0. }
    apply runs_ListTransfers in H1 as (Ho & Hn & Hs); [|lia|done].
    do 4 (split; [done|]). split; [intros Hlt; apply int32_id; lia|].
    split; [apply newest_first|]. split; [by exists rows|done].
  - intros id a w' H. unfold GetV1TransfersID, with_claims, ClaimsFromContext in H. rewrite Hc in H.
    apply runs_bind in H as (o & w1 & H1 & H). apply runs_GetTransfer in H1 as [Hs Ho].
    destruct o as [t|]; [|by rewrite Ho; apply runs_ret in H as [-> ->]].
    destruct Ho as (row & -> & Hn).
    assert (tr_SenderUserID t = f_SenderUserID row) as Hsend by (by injection Hn).
    assert (tr_ReceiverUserID t = f_ReceiverUserID row) as Hrecv by (by injection Hn).
    rewrite Hsend, Hrecv, <- negb_orb in H. destruct (_ || _); cbn [negb] in H;
      apply runs_ret in H as [-> ->]; split; eauto.
Qed.

End Reading.

(** * Receipts over HTTP

    Who may read the receipt of a batch, and what is on it. *)

Section Receipts.
Context {E : Env} {C : Ed25519} {T : ErrorText}.
Implicit Types w : world db effect.

(** The payments of a batch, by sequence number. *)
Definition batch_rows (batchID : string) (d : db) : list Transaction :=
  map paymentToDomainTxn (merge_sort seq_le (rows_where
    (fun _ p => bool_decide (p_SettlementBatchID p = Some batchID)) (payment_tokens d))).

Definition receipt_answered (t : Transaction) : rest_SettlementResult :=
  settlementResultFromProto (SettlementResultToProto (receipt_line t)).

(** The receipt of a batch is answered to every caller with a token, party or not:
    who asks has no influence.  It lists the payments stored for the batch by sequence number
    and counts them; the claims of the batch that were rejected when it was submitted are not
    stored and so not on it, and a batch without a stored payment is not found. *)
Lemma receipts_answered cx claims batchID w :
  fault_free E -> cx_Claims cx = Some claims -> at_Sub claims <> ""%string -> batchID <> ""%string ->
  exists a w', runs (GetV1SettlementClaimsBatchID cx batchID) w a w' /\ w_st w' = w_st w /\
    (forall cx' claims', cx_Claims cx' = Some claims' -> at_Sub claims' <> ""%string ->
       runs (GetV1SettlementClaimsBatchID cx' batchID) w a w') /\
    match batch_rows batchID (w_st w) with
    | [] => exists message, a = JSONError 404 "not_found" message
    | rows => exists rc, a = JSON200 rc /\ rbr_BatchId rc = batchID /\
        rbr_TotalSubmitted rc = int32 (Z.of_nat (length rows)) /\
        rbr_Results rc = map receipt_answered rows
    end.
Proof.
  intros Hf Hc Hne Hb.
  assert (forall cx' claims', cx_Claims cx' = Some claims' -> at_Sub claims' <> ""%string ->
    GetV1SettlementClaimsBatchID cx' batchID w =
    relay [401; 403; 404] (srv_GetBatchReceipt batchID) batchReceiptFromProto w) as Heq.
  { intros cx' claims' Hc' Hne'. unfold GetV1SettlementClaimsBatchID, with_subject, ClaimsFromContext.
    rewrite Hc'. by rewrite bool_decide_false. }
  assert (exists a w', runs (relay [401; 403; 404] (srv_GetBatchReceipt batchID) batchReceiptFromProto) w a w' /\
    w_st w' = w_st w /\
    match batch_rows batchID (w_st w) with
    | [] => exists message, a = JSONError 404 "not_found" message
    | rows => exists rc, a = JSON200 rc /\ rbr_BatchId rc = batchID /\
        rbr_TotalSubmitted rc = int32 (Z.of_nat (length rows)) /\
        rbr_Results rc = map receipt_answered rows
    end) as (a & w' & Hr & Hs & Hm).
  2:{ exists a, w'. split; [|split; [done|split; [|done]]].
      - unfold runs. by rewrite (Heq cx claims).
      - intros cx' claims' Hc' Hne'. unfold runs. by rewrite (Heq cx' claims'). }
  clear Heq. unfold srv_GetBatchReceipt, required. rewrite (bool_decide_false (batchID = "")) by done.
  unfold relay, runs, bind at 1, attempt at 1. rewrite bind_ok with (a := tt) (w1 := w) by done.
  unfold bind at 1, attempt at 1. unfold BatchReceipt. rewrite (bool_decide_false (batchID = "")) by done.
  rewrite bind_ok with (a := batch_rows batchID (w_st w)) (w1 := tick_ops w (w_st w)).
  2:{ apply runs_wrapping. eapply bind_runs; [by apply query_runs|]. by apply runs_ret. }
  destruct (batch_rows batchID (w_st w)) as [|t rows] eqn:Hrows.
  - do 2 eexists. split; [reflexivity|]. split; [done|]. by eexists.
  - do 2 eexists. split; [reflexivity|]. split; [done|]. eexists. split; [reflexivity|].
    match goal with |- context [foldl count_row ?b0 ?l] => destruct (count_rows l b0) as (H1 & H2 & _) end.
    unfold batchReceiptFromProto, BatchReceiptToProto.
    cbn [rbr_BatchId rbr_TotalSubmitted rbr_Results pbb_BatchId pbb_TotalSubmitted pbb_Results sb_ID
         sb_TotalSubmitted] in *.
    rewrite H1, H2. split; [done|]. split; [done|]. unfold receipt_answered. by rewrite !map_map.
Qed.

End Receipts.
