(* ===== verification/AdminProps.v ===== *)
(** * What the back office may do

    Nothing it serves changes the tables of the program; only signing in, refreshing and signing
    out write at all; the dashboard is served to the holder of a valid token alone; a refresh
    session is used once. *)

From Stdlib Require Import Ascii.
From S2P Require Import Prelude Float Domain Json Crypto Store AuthStore Wire Canonical Parse Decode Tokens Text UserAuth Registration Kyc Reconcile Transfer Listings BffAccounts AdminStore AdminRepo Admin AdminHttp.

#[local] Open Scope string_scope.
#[local] Open Scope Z_scope.

(** ** Reading *)

Create HintDb reading discriminated.

Section Reading.
Context {E : Env}.
Implicit Types Q : admin_db -> Prop.

(** An operation that never writes. *)
Definition reading {A} (m : adminop A) : Prop := forall Q, preserves Q m.

Lemma reading_core_query {A} (f : db -> result A) : reading (core_query f).
Proof. intros Q. apply preserves_query. Qed.
Lemma reading_core_listing {A} (f : nat -> db -> result A) : reading (core_listing f).
Proof. intros Q w. apply reading_core_query. Qed.
Lemma reading_query {A} (f : admin_db -> result A) : reading (query f).
Proof. intros Q. apply preserves_query. Qed.
Lemma reading_core_query_at {A} (f : Time -> db -> result A) : reading (core_query_at f).
Proof.
  intros Q. apply preserves_exec. intros t d a d' Hd H. destruct (f t (core d)); [|discriminate].
  by injection H as _ <-.
Qed.
Lemma reading_ret {A} (a : A) : reading (ret a).
Proof. intros Q. apply preserves_ret. Qed.
Lemma reading_throw {A} e : reading (throw (A:=A) e).
Proof. intros Q. apply preserves_throw. Qed.
Lemma reading_lift {A} (r : result A) : reading (lift r).
Proof. intros Q. apply preserves_lift. Qed.
Lemma reading_now : reading now.
Proof. intros Q. apply preserves_now. Qed.
Lemma reading_bind {A B} (m : adminop A) (k : A -> adminop B) :
  reading m -> (forall a, reading (k a)) -> reading (bind m k).
Proof. intros Hm Hk Q. apply preserves_bind; [apply Hm|]. intros a. apply Hk. Qed.
Lemma reading_attempt {A} (m : adminop A) : reading m -> reading (attempt m).
Proof. intros Hm Q. apply preserves_attempt, Hm. Qed.

Lemma reading_st {A} (m : adminop A) w : reading m -> w_st (m w).2 = w_st w.
Proof. intros H. symmetry. by apply (H (eq (w_st w))). Qed.

End Reading.

#[export] Hint Resolve reading_core_query reading_core_listing reading_query reading_core_query_at reading_ret
  reading_throw reading_lift reading_now reading_attempt : reading.
#[export] Hint Extern 2 (reading (bind _ _)) => apply reading_bind; [| intros ?] : reading.
#[export] Hint Extern 3 (reading (match ?x with _ => _ end)) => destruct x : reading.

(** Opens the operations of the repository and the service down to their statements. *)
Ltac reads :=
  unfold or_missing; cbv zeta; eauto 30 with reading.

Section ReadingRepo.
Context {E : Env} {P : PgSession} {O : TieOrder}.

Lemma reading_or_missing {A} (m : adminop A) : reading m -> reading (or_missing m).
Proof. intros Hm. unfold or_missing. auto with reading. Qed.
#[local] Hint Resolve reading_or_missing : reading.

Lemma reading_ListTxns f p : reading (ListTxns f p).
Proof. unfold ListTxns. cbv zeta. auto 20 with reading. Qed.
Lemma reading_CountTxns f : reading (CountTxns f).
Proof. unfold CountTxns. auto with reading. Qed.
#[local] Hint Resolve reading_ListTxns reading_CountTxns : reading.

Lemma reading_listTxns f : reading (listTxns f).
Proof. unfold listTxns. cbv zeta. auto with reading. Qed.
#[local] Hint Resolve reading_listTxns : reading.

Lemma reading_GetTxn id : reading (GetTxn id).
Proof. unfold GetTxn. auto 20 with reading. Qed.
Lemma reading_GetUser id : reading (GetUser id).
Proof.
  unfold GetUser, GetUserWithBalances, ListAccountsForUser, ListDevicesForUser,
    ListCeilingsForUser, Adminrepo_ListFraudSignalsForUser. auto 30 with reading.
Qed.
Lemma reading_ListUsers q page pp : reading (ListUsers q page pp).
Proof.
  unfold ListUsers, CountUsers, Adminrepo_ListUsers, CountUsersByPhone, SearchUsersByPhone.
  cbv zeta. auto 30 with reading.
Qed.
Lemma reading_ListSettlements page pp : reading (ListSettlements page pp).
Proof.
  unfold ListSettlements, CountSettlementBatches, ListSettlementBatches. cbv zeta.
  auto 30 with reading.
Qed.
Lemma reading_GetSettlement id : reading (GetSettlement id).
Proof. unfold GetSettlement, GetSettlementHeader, GetSettlementStateCounts. auto 30 with reading. Qed.
Lemma reading_ListFraudSignals page pp : reading (ListFraudSignals page pp).
Proof.
  unfold ListFraudSignals, CountFraudSignalsGlobal, ListFraudSignalsGlobal. cbv zeta.
  auto 30 with reading.
Qed.
Lemma reading_ListAudit page pp : reading (ListAudit page pp).
Proof. unfold ListAudit, CountAuditLog, ListAuditLog. cbv zeta. auto 30 with reading. Qed.
Lemma reading_Overview : reading Overview.
Proof. unfold Overview, Adminrepo_OverviewStats. auto with reading. Qed.
Lemma reading_VolumeSeries days : reading (VolumeSeries days).
Proof. unfold VolumeSeries, Adminrepo_VolumeSeries. cbv zeta. auto with reading. Qed.
Lemma reading_ListKYC id : reading (ListKYC id).
Proof. unfold ListKYC, ListKYCByUser. auto with reading. Qed.
Lemma reading_KYCHint id : reading (KYCHint id).
Proof. unfold KYCHint, Adminrepo_GetUserPhone. auto 20 with reading. Qed.

End ReadingRepo.

#[export] Hint Resolve reading_or_missing reading_GetTxn reading_GetUser reading_ListUsers
  reading_ListSettlements reading_GetSettlement reading_ListFraudSignals reading_ListAudit
  reading_Overview reading_VolumeSeries reading_ListKYC reading_KYCHint reading_listTxns : reading.

(** ** Writing *)

(** The statement leads from states of [Q] to states of [Q]. *)
Definition statement_keeps {A} (Q : admin_db -> Prop) (f : Time -> admin_db -> result (A * admin_db))
  : Prop := forall t d a d', Q d -> f t d = Ok (a, d') -> Q d'.

(** What every statement that writes the tables of the back office keeps. *)
Class StatementLaw (Q : admin_db -> Prop) : Prop := {
  law_user i m n h : statement_keeps Q (q_CreateAdminUser i m n h);
  law_grant i n : statement_keeps Q (q_GrantAdminRoleByName i n);
  law_touch i : statement_keeps Q (q_TouchAdminUserLastLogin i);
  law_session i u h ua ip e : statement_keeps Q (q_CreateAdminSession i u h ua ip e);
  law_revoke_id i : statement_keeps Q (q_RevokeAdminSessionByID i);
  law_revoke_hash h : statement_keeps Q (q_RevokeAdminSessionByHash h);
  law_audit i m x k j v n y : statement_keeps Q (q_InsertAdminAuditLog i m x k j v n y);
}.

(** Opens a statement that succeeds: the database it leaves. *)
Ltac statement_done H := repeat match type of H with
  | result_bind _ _ = Ok _ => apply result_bind_ok in H as (? & _ & H)
  end; injection H as _ <-.

(** The tables of the program. *)
#[export] Instance core_law c : StatementLaw (fun d => core d = c).
Proof.
  split; intros; intros t d a d' Hd H; try (unfold q_CreateAdminUser, q_TouchAdminUserLastLogin,
    q_CreateAdminSession, q_RevokeAdminSessionByID, q_RevokeAdminSessionByHash,
    q_InsertAdminAuditLog in H; by statement_done H).
  unfold q_GrantAdminRoleByName in H. destruct (rows_where _ _) as [|[role x] l]; by statement_done H.
Qed.

Create HintDb writing discriminated.

Section Writing.
Context {E : Env} {C : Ed25519} {AL : AuthLib} {T : ErrorText} {P : PgSession} {O : TieOrder}.
Context (Q : admin_db -> Prop) {HQ : StatementLaw Q}.
Variable s : AdminService.

Definition keeps {A} (m : adminop A) : Prop := preserves Q m.

Lemma keeps_exec {A} (f : Time -> admin_db -> result (A * admin_db)) :
  statement_keeps Q f -> keeps (exec f).
Proof. intros Hf. apply preserves_exec. exact Hf. Qed.
Lemma keeps_reading {A} (m : adminop A) : reading m -> keeps m.
Proof. intros H. apply H. Qed.
Lemma keeps_bind {A B} (m : adminop A) (k : A -> adminop B) :
  keeps m -> (forall a, keeps (k a)) -> keeps (bind m k).
Proof. apply preserves_bind. Qed.
Lemma keeps_attempt {A} (m : adminop A) : keeps m -> keeps (attempt m).
Proof. apply preserves_attempt. Qed.
Lemma keeps_wrapping {A} c (m : adminop A) : keeps m -> keeps (wrapping c m).
Proof. apply preserves_wrapping. Qed.
Lemma keeps_tx {A} (m : adminop A) : keeps m -> keeps (admin_tx m).
Proof.
  intros Hm. apply preserves_tx. intros w a w' Hw H _. by apply (runs_preserves _ _ _ _ _ Hm H).
Qed.
Lemma keeps_rand : keeps admin_rand.
Proof. by intros w. Qed.
Lemma keeps_newID : keeps Admin_newID.
Proof. by intros w. Qed.

#[local] Hint Resolve keeps_exec law_user law_grant law_touch law_session law_revoke_id
  law_revoke_hash law_audit keeps_attempt keeps_wrapping keeps_tx keeps_rand keeps_newID : writing.
#[local] Hint Extern 1 (keeps _) => (apply keeps_reading; solve [eauto 2 with reading]) : writing.
#[local] Hint Extern 2 (keeps (bind _ _)) => apply keeps_bind; [| intros ?] : writing.
#[local] Hint Extern 3 (keeps (match ?x with _ => _ end)) => destruct x : writing.

Lemma Login_keeps email password ua ip : keeps (Login s email password ua ip).
Proof.
  unfold Login, GetAdminForLogin, ListAdminRoleNames, admin_sign, Admin_newRefreshToken,
    CreateAdminSession, TouchAdminLastLogin.
  cbv zeta. auto 40 with writing.
Qed.

Lemma Admin_Refresh_keeps tok : keeps (Admin_Refresh s tok).
Proof.
  unfold Admin_Refresh, GetAdminSessionByRefreshHash, GetAdminByID, ListAdminRoleNames, admin_sign,
    Admin_newRefreshToken, RotateAdminSession, q_CreateAdminSessionRotation.
  cbv zeta. auto 40 with writing.
Qed.

Lemma Logout_keeps tok : keeps (Logout tok).
Proof. unfold Logout, RevokeAdminSessionByHash. auto with writing. Qed.

Lemma CreateAdmin_keeps email name password roles :
  keeps (CreateAdmin email name password roles).
Proof.
  unfold CreateAdmin, Adminrepo_CreateAdmin, create_in_tx.
  assert (forall i, keeps (for_each roles (fun _ name =>
    wrapping ("grant role " ++ name) (exec (q_GrantAdminRoleByName i name))) tt)) as Hg.
  { intros i. apply preserves_for_each. intros b x _. change (keeps
      (wrapping ("grant role " ++ x) (exec (q_GrantAdminRoleByName i x)))). auto with writing. }
  cbn [ci_Roles ci_AdminID ci_Email ci_FullName ci_PasswordHash]. auto 40 with writing.
Qed.

Lemma login_keeps r : keeps (login s r).
Proof.
  unfold login, Audit, InsertAuditLog. destruct (decode_body _ _ _) as [q ok].
  pose proof (Login_keeps (lq_Email q) (lq_Password q) (rq_UserAgent r) (Admin_clientIP r)).
  cbv zeta. auto 40 with writing.
Qed.

Lemma refresh_keeps r : keeps (refresh s r).
Proof.
  unfold refresh. destruct (decode_body _ _ _) as [q ok]. pose proof (Admin_Refresh_keeps q).
  auto 40 with writing.
Qed.

Lemma logout_keeps r : keeps (logout r).
Proof.
  unfold logout. destruct (decode_body _ _ _) as [q ok]. pose proof (Logout_keeps q).
  auto 40 with writing.
Qed.

End Writing.

(** ** Requests *)

Section Requests.
Context {E : Env} {C : Ed25519} {AL : AuthLib} {T : ErrorText} {P : PgSession} {O : TieOrder}.
Variable s : AdminService.
Implicit Types (r : AdminRequest) (w : world admin_db Empty_set).

(** Whatever happens inside, there is an answer. *)
Definition answers (m : adminop AdminResponse) : Prop := forall w, exists a w', runs m w a w'.

(** What the dashboard shows. *)
Definition shows (b : AdminBody) : bool :=
  match b with BText _ | BError _ | BLogin _ | BEmpty => false | _ => true end.

Lemma answer_runs {A} status body (m : adminop A) w :
  exists a, runs (answer status body m) w a (m w).2 /\
    (forall b, rs_Body a = b -> shows b = true -> exists x, (m w).1 = Ok x /\ b = body x).
Proof.
  unfold answer, runs, bind, attempt. destruct (m w) as [[x|e] w1]; eexists; split; try reflexivity.
  - intros b <- _. by exists x.
  - intros b <-. discriminate.
Qed.

Lemma answers_answer {A} status body (m : adminop A) : answers (answer status body m).
Proof. intros w. destruct (answer_runs status body m w) as (a & H & _). by eexists _, _. Qed.

Lemma reading_answer {A} status body (m : adminop A) : reading m -> reading (answer status body m).
Proof. intros Hm. unfold answer. auto with reading. Qed.

(** The world after the clock was read. *)
Definition clock_read w : world admin_db Empty_set :=
  World (w_st w) (w_ids w) (S (w_clk w)) (w_ops w) (w_log w).

Lemma authed_runs r next w :
  (forall claims, answers (next claims)) ->
  exists a w', runs (authed s r next) w a w' /\
    (shows (rs_Body a) = false \/
     exists claims, admin_Verify (sv_Signer s) (Admin_bearerToken r) (clock (w_clk w)) = Ok claims /\
       runs (next claims) (clock_read w) a w').
Proof.
  intros Hn. unfold authed, runs. cbv zeta. case_bool_decide as Ht.
  { eexists _, _. split; [reflexivity|by left]. }
  erewrite bind_ok by reflexivity.
  destruct (admin_Verify _ _ _) as [claims|e] eqn:Hv.
  - destruct (Hn claims (clock_read w)) as (a & w' & H). exists a, w'. split; [exact H|].
    right. by exists claims.
  - eexists _, _. split; [reflexivity|by left].
Qed.

Lemma reading_authed r next : (forall claims, reading (next claims)) -> reading (authed s r next).
Proof. intros Hn. unfold authed. cbv zeta. auto with reading. Qed.

(** What a route promises. *)
Record lawful_route (r : AdminRequest) (ro : Route) : Prop := {
  lr_answers : forall id w, exists a w', runs (ro_Handler ro id) w a w' /\
    (shows (rs_Body a) = true -> exists claims,
       admin_Verify (sv_Signer s) (Admin_bearerToken r) (clock (w_clk w)) = Ok claims /\
       (forall p, rs_Body a = BAudit p -> RoleSuperAdmin ∈ cl_Roles claims));
  lr_keeps Q : StatementLaw Q -> forall id, keeps Q (ro_Handler ro id);
  lr_reads : ro_Method ro <> "POST" -> forall id, reading (ro_Handler ro id);
}.

(** A dashboard route that does not show the audit log. *)
Lemma lawful_dashboard {A} r pattern status (body : A -> AdminBody) (m : string -> adminop A) :
  (forall x p, body x <> BAudit p) -> (forall id, reading (m id)) ->
  lawful_route r {| ro_Method := "GET"; ro_Pattern := pattern;
                    ro_Handler := fun id => authed s r (fun _ => answer status body (m id)) |}.
Proof.
  intros Hb Hm. assert (forall id, reading (authed s r (fun _ => answer status body (m id)))) as Hr
    by (intros; apply reading_authed; intros; by apply reading_answer).
  constructor; cbn.
  - intros id w.
    destruct (authed_runs r (fun _ => answer status body (m id)) w) as (a & w' & H & Hshow).
    { intros _. apply answers_answer. }
    exists a, w'. split; [done|]. intros Hs. destruct Hshow as [Hn|(claims & Hv & H')]; [congruence|].
    exists claims. split; [done|]. intros p Hp.
    destruct (answer_runs status body (m id) (clock_read w)) as (a' & Ha' & Hx).
    assert (a = a') as -> by (unfold runs in *; congruence).
    destruct (Hx _ eq_refl Hs) as (x & _ & Hb'). rewrite Hp in Hb'. by destruct (Hb x p).
  - intros Q _ id. apply keeps_reading, Hr.
  - intros _. exact Hr.
Qed.

Lemma lawful_me r pattern :
  lawful_route r {| ro_Method := "GET"; ro_Pattern := pattern; ro_Handler := fun _ => authed s r me |}.
Proof.
  assert (reading (authed s r me)) as Hr by (apply reading_authed; intros; apply reading_ret).
  constructor; cbn.
  - intros _ w. destruct (authed_runs r me w) as (a & w' & H & Hshow).
    { intros claims w0. unfold me. by eexists _, _. }
    exists a, w'. split; [done|]. intros Hs. destruct Hshow as [Hn|(claims & Hv & H')]; [congruence|].
    exists claims. split; [done|]. unfold me in H'. apply runs_ret in H' as [-> _]. discriminate.
  - intros Q _ _. by apply keeps_reading.
  - done.
Qed.

Lemma hasRole_elem roles role : hasRole roles role = true <-> role ∈ roles.
Proof.
  unfold hasRole. rewrite existsb_exists. split.
  - intros (x & Hx & Hr). apply bool_decide_eq_true in Hr as ->. by apply list_elem_of_In.
  - intros H. exists role. rewrite bool_decide_true by done. by apply list_elem_of_In in H.
Qed.

Lemma lawful_audit r pattern :
  lawful_route r {| ro_Method := "GET"; ro_Pattern := pattern;
    ro_Handler := fun _ => authed s r (requireRole RoleSuperAdmin (fun _ => listAudit r)) |}.
Proof.
  assert (forall claims, reading (requireRole RoleSuperAdmin (fun _ => listAudit r) claims)) as Hq.
  { intros. unfold requireRole, listAudit. destruct (hasRole _ _); auto using reading_answer with reading. }
  constructor; cbn.
  - intros _ w. destruct (authed_runs r (requireRole RoleSuperAdmin (fun _ => listAudit r)) w)
      as (a & w' & H & Hshow).
    { intros claims. unfold requireRole. destruct (hasRole _ _); [apply answers_answer|].
      intros w0. by eexists _, _. }
    exists a, w'. split; [done|]. intros Hs. destruct Hshow as [Hn|(claims & Hv & H')]; [congruence|].
    exists claims. split; [done|]. intros p Hp. apply hasRole_elem. unfold requireRole in H'.
    destruct (hasRole _ _); [done|]. apply runs_ret in H' as [-> _]. discriminate.
  - intros Q _ _. apply keeps_reading. by apply reading_authed.
  - intros _ _. by apply reading_authed.
Qed.

(** A route that answers anybody, and shows nothing of the dashboard. *)
Lemma lawful_open r m pattern (h : adminop AdminResponse) :
  (forall w, exists a w', runs h w a w' /\ shows (rs_Body a) = false) -> (forall Q, StatementLaw Q -> keeps Q h) ->
  (m <> "POST" -> reading h) ->
  lawful_route r {| ro_Method := m; ro_Pattern := pattern; ro_Handler := fun _ => h |}.
Proof.
  intros Ha Hc Hr. constructor; cbn; [|by intros Q HQ _; apply Hc|by intros Hm _; apply Hr].
  intros _ w. destruct (Ha w) as (a & w' & H & Hs). exists a, w'. split; [done|congruence].
Qed.

Lemma Audit_runs e w : exists w', runs (Audit e) w tt w'.
Proof.
  unfold Audit, runs. cbv zeta.
  match goal with |- context [InsertAuditLog ?x] => destruct (InsertAuditLog x w) as [y w'] eqn:Hx end.
  exists w'. unfold bind, attempt. by rewrite Hx.
Qed.

Lemma login_answers r w : exists a w', runs (login s r) w a w' /\ shows (rs_Body a) = false.
Proof.
  unfold login, runs. destruct (decode_body _ _ _) as [q ok]. destruct ok; cbn [negb];
    [|by eexists _, _].
  unfold bind at 1, attempt. destruct (Login _ _ _ _ _ w) as [[res|e] w1]; [|by eexists _, _].
  match goal with |- context [Audit ?e] => destruct (Audit_runs e w1) as (w2 & Hw) end.
  eexists _, _. split; [by erewrite bind_ok by exact Hw|done].
Qed.

Lemma refresh_answers r w : exists a w', runs (refresh s r) w a w' /\ shows (rs_Body a) = false.
Proof.
  unfold refresh, runs. destruct (decode_body _ _ _) as [q ok]. destruct ok; cbn [negb];
    [|by eexists _, _].
  unfold bind, attempt. destruct (Admin_Refresh _ _ w) as [[res|e] w1]; by eexists _, _.
Qed.

Lemma logout_answers r w : exists a w', runs (logout r) w a w' /\ shows (rs_Body a) = false.
Proof.
  unfold logout, runs. destruct (decode_body _ _ _) as [q ok]. unfold bind.
  case_bool_decide; [by eexists _, _|]. unfold attempt. destruct (Logout q w) as [x w1].
  by eexists _, _.
Qed.

Lemma routes_lawful r : Forall (lawful_route r) (routes s r).
Proof.
  unfold routes. cbv zeta.
  constructor.
  { apply lawful_open; [|intros; apply keeps_reading, reading_ret|intros _; apply reading_ret].
    intros w. by eexists _, _. }
  constructor; [apply lawful_open; [apply login_answers|intros; by apply login_keeps|done]|].
  constructor; [apply lawful_open; [apply refresh_answers|intros; by apply refresh_keeps|done]|].
  constructor; [apply lawful_open; [apply logout_answers|intros; by apply logout_keeps|done]|].
  constructor; [apply lawful_me|].
  unfold overview, volume, listUsers, getUser, listKYC, kycHint, listTransactions, getTransaction,
    listSettlements, getSettlement, listFraud, ListTransactions, GetTransaction.
  repeat (constructor;
    [apply (lawful_dashboard r); [by intros x p [=]|intros; solve [auto with reading]]|]).
  constructor; [apply lawful_audit|constructor].
Qed.

Lemma Mux_keeps Q r : StatementLaw Q -> keeps Q (Mux s r).
Proof.
  intros HQ. unfold Mux. case_bool_decide; [apply preserves_ret|].
  pose proof (routes_lawful r) as Hl. rewrite Forall_forall in Hl.
  destruct (List.filter _ _) as [|ro ros] eqn:Hf; [apply preserves_ret|].
  destruct (List.find _ _) as [ro'|] eqn:Hfind; [|apply preserves_ret].
  apply find_some in Hfind as [Hin _]. rewrite <- Hf in Hin. apply filter_In in Hin as [Hin _].
  apply list_elem_of_In, Hl in Hin as []. by apply lr_keeps0.
Qed.

(** Claim C17: the back office shows its dashboard only to the holder of a token of its own that has not
    expired, and the audit log only if the token names the role SUPERADMIN.  Whatever a request
    asks, however it is answered, the tables of the program stay as they are, and unless it is a
    POST (signing in, refreshing, signing out) the whole database does.  Every request is
    answered. *)
Theorem back_office_admits r w :
  exists a w', runs (Mux s r) w a w' /\
    core (w_st w') = core (w_st w) /\
    (rq_Method r <> "POST" -> w_st w' = w_st w) /\
    (shows (rs_Body a) = true -> exists claims,
       admin_Verify (sv_Signer s) (Admin_bearerToken r) (clock (w_clk w)) = Ok claims /\
       (forall p, rs_Body a = BAudit p -> RoleSuperAdmin ∈ cl_Roles claims)).
Proof.
  unfold Mux. case_bool_decide as Ho; [by eexists _, _|].
  pose proof (routes_lawful r) as Hl. rewrite Forall_forall in Hl.
  destruct (List.filter _ _) as [|ro ros] eqn:Hf; [by eexists _, _|].
  destruct (List.find _ _) as [ro'|] eqn:Hfind; [|by eexists _, _].
  apply find_some in Hfind as [Hin Hm]. rewrite <- Hf in Hin. apply filter_In in Hin as [Hin _].
  apply list_elem_of_In, Hl in Hin as [Ha Hc Hr].
  destruct (Ha (default "" (match_path (ro_Pattern ro') (rq_Path r))) w) as (a & w' & H & Hs).
  exists a, w'. split; [exact H|]. split; [|split; [|exact Hs]].
  - by apply (runs_preserves _ _ _ _ _ (Hc _ (core_law (core (w_st w))) _) H).
  - intros Hp. assert (ro_Method ro' <> "POST") as Hn.
    { intros Heq. unfold method_ok in Hm. rewrite Heq in Hm.
      apply orb_true_iff in Hm as [Hm%bool_decide_eq_true|[Hm _]%andb_true_iff]; [done|].
      by apply bool_decide_eq_true in Hm. }
    symmetry. by apply (runs_preserves (eq (w_st w)) _ _ _ _ (Hr Hn _ _) H).
Qed.

End Requests.

(** * Refresh sessions of the back office

    Hashes of refresh tokens are unique, and a session that ended does not come back: a token that
    was refreshed or signed out is never taken again. *)

(** ** States *)

Definition hashes_once (d : admin_db) : Prop := forall i j r r',
  admin_sessions d !! i = Some r -> admin_sessions d !! j = Some r' ->
  an_RefreshHash r = an_RefreshHash r' -> i = j.

(** The session of the hash has ended. *)
Definition spent (h : string) (d : admin_db) : Prop :=
  hashes_once d /\ exists i r,
    admin_sessions d !! i = Some r /\ an_RefreshHash r = h /\ an_RevokedAt r <> None.

Lemma hashes_once_same d d' :
  admin_sessions d' = admin_sessions d -> hashes_once d -> hashes_once d'.
Proof. unfold hashes_once. by intros ->. Qed.

Lemma spent_same h d d' : admin_sessions d' = admin_sessions d -> spent h d -> spent h d'.
Proof. unfold spent, hashes_once. by intros ->. Qed.

Lemma genesis_once d : hashes_once (admin_genesis d).
Proof. intros i j r r'. cbn. by rewrite lookup_empty. Qed.

(** *** Statements *)

Lemma create_session_ok id u h ua ip exp t d x d' :
  q_CreateAdminSession id u h ua ip exp t d = Ok (x, d') ->
  admin_sessions d !! id = None /\
  (forall i r, admin_sessions d !! i = Some r -> an_RefreshHash r <> h) /\
  admin_sessions d' = <[id := {|
    an_AdminUserID := u; an_RefreshHash := h; an_UserAgent := ua; an_Ip := ip;
    an_CreatedAt := tstz t; an_ExpiresAt := tstz exp; an_RevokedAt := None |}]>
    (admin_sessions d).
Proof.
  unfold q_CreateAdminSession. intros H.
  apply result_bind_ok in H as ([] & Hpk & H). apply result_bind_ok in H as ([] & Hu & H).
  apply result_bind_ok in H as ([] & _ & H). injection H as _ <-.
  apply guard_or_ok, bool_decide_eq_true in Hpk. split; [done|]. split; [|done].
  intros i r Hi Hr. apply guard_or_ok, negb_true_iff in Hu. unfold exists_row in Hu.
  destruct (rows_where _ _) as [|kv l] eqn:Hl; [|discriminate].
  assert ((i, r) ∈ rows_where (fun _ r => bool_decide (an_RefreshHash r = h)) (admin_sessions d))
    as Hin by (apply elem_of_rows_where; split; [done|by apply bool_decide_eq_true]).
  rewrite Hl in Hin. by apply not_elem_of_nil in Hin.
Qed.

Lemma create_session_once id u h ua ip exp t d x d' :
  q_CreateAdminSession id u h ua ip exp t d = Ok (x, d') -> hashes_once d -> hashes_once d'.
Proof.
  intros (Hid & Hnew & Hd)%create_session_ok Ho i j r r'. rewrite Hd.
  rewrite !lookup_insert_Some. intros [[<- <-]|[Hi Hr]] [[<- <-]|[Hj Hr']] Heq; cbn in *; try done.
  - by destruct (Hnew j r').
  - by destruct (Hnew i r).
  - by eapply Ho.
Qed.

Lemma create_session_spent id u h ua ip exp t d x d' k :
  q_CreateAdminSession id u h ua ip exp t d = Ok (x, d') -> spent k d -> spent k d'.
Proof.
  intros H [Ho (i & r & Hi & Hk & Hr)]. split; [by eapply create_session_once|].
  apply create_session_ok in H as (Hid & Hnew & Hd). exists i, r. rewrite Hd.
  rewrite lookup_insert_ne; [done|congruence].
Qed.

Lemma revoke_sessions_lookup Q t d i :
  admin_sessions (revoke_sessions Q t d) !! i =
  (fun r => if Q i r then revoke_session t r else r) <$> admin_sessions d !! i.
Proof. cbn. rewrite map_lookup_imap. by destruct (admin_sessions d !! i). Qed.

Lemma revoke_sessions_once Q t d : hashes_once d -> hashes_once (revoke_sessions Q t d).
Proof.
  intros Ho i j r r'. rewrite !revoke_sessions_lookup. intros (r0 & Hr & Hi)%fmap_Some (r1 & Hr' & Hj)%fmap_Some Heq.
  apply (Ho i j r0 r1); [done..|]. subst. by destruct (Q i r0), (Q j r1).
Qed.

Lemma revoke_sessions_spent Q t d k : spent k d -> spent k (revoke_sessions Q t d).
Proof.
  intros [Ho (i & r & Hi & Hk & Hr)]. split; [by apply revoke_sessions_once|].
  exists i, (if Q i r then revoke_session t r else r). rewrite revoke_sessions_lookup, Hi.
  split; [done|]. by destruct (Q i r).
Qed.

(** Revoking the session itself. *)
Lemma revoke_sessions_spends Q t d i r :
  hashes_once d -> admin_sessions d !! i = Some r -> Q i r = true ->
  spent (an_RefreshHash r) (revoke_sessions Q t d).
Proof.
  intros Ho Hi HQ. split; [by apply revoke_sessions_once|].
  exists i, (revoke_session t r). rewrite revoke_sessions_lookup, Hi. cbn. by rewrite HQ.
Qed.

(** A predicate on the sessions alone. *)
Lemma session_law (Q : admin_db -> Prop) :
  (forall d d', admin_sessions d' = admin_sessions d -> Q d -> Q d') ->
  (forall i u h ua ip e, statement_keeps Q (q_CreateAdminSession i u h ua ip e)) ->
  (forall R t d, Q d -> Q (revoke_sessions R t d)) -> StatementLaw Q.
Proof.
  intros Hs Hc Hr. split; intros; intros t d a d' Hd H.
  - apply (Hs d); [|done]. unfold q_CreateAdminUser in H. by statement_done H.
  - apply (Hs d); [|done]. unfold q_GrantAdminRoleByName in H.
    destruct (rows_where _ _) as [|[role x] l]; by statement_done H.
  - apply (Hs d); [|done]. unfold q_TouchAdminUserLastLogin in H. by statement_done H.
  - by eapply Hc.
  - unfold q_RevokeAdminSessionByID in H. injection H as _ <-. by apply Hr.
  - unfold q_RevokeAdminSessionByHash in H. injection H as _ <-. by apply Hr.
  - apply (Hs d); [|done]. unfold q_InsertAdminAuditLog in H. by statement_done H.
Qed.

#[global] Instance hashes_once_law : StatementLaw hashes_once.
Proof.
  apply session_law; [apply hashes_once_same| |intros; by apply revoke_sessions_once].
  intros i u h ua ip e t d a d' Hd H. by eapply create_session_once.
Qed.
#[global] Instance spent_law h : StatementLaw (spent h).
Proof.
  apply session_law; [apply spent_same| |intros; by apply revoke_sessions_spent].
  intros i u k ua ip e t d a d' Hd H. by eapply create_session_spent.
Qed.

(** ** The console *)

Section Console.
Context {E : Env} {C : Ed25519} {AL : AuthLib} {T : ErrorText} {P : PgSession} {O : TieOrder}.
Variable s : AdminService.

(** What happens to the tables of the back office: a request, a staff account created by an
    operator, or nothing while the program goes on. *)
Inductive console_step : world admin_db Empty_set -> world admin_db Empty_set -> Prop :=
| step_request r w : console_step w (Mux s r w).2
| step_create email name password roles w :
    console_step w (CreateAdmin email name password roles w).2
| step_program d ids clk ops w :
    admin_sessions d = admin_sessions (w_st w) ->
    console_step w (World d ids clk ops (w_log w)).

Lemma console_keeps Q w w' :
  StatementLaw Q -> (forall d d', admin_sessions d' = admin_sessions d -> Q d -> Q d') ->
  rtc console_step w w' -> Q (w_st w) -> Q (w_st w').
Proof.
  intros HQ Hsame. induction 1 as [|w1 w2 w3 Hs _ IH]; [done|]. intros Hw. apply IH.
  destruct Hs as [r w|email name password roles w|d ids clk ops w Hd].
  - by apply (Mux_keeps s).
  - by apply (CreateAdmin_keeps Q).
  - by apply (Hsame (w_st w) d).
Qed.

(** The look-up of a session, and the look-ups that end in [ErrNotFound]. *)
Lemma runs_admin_or_missing {A} (m : adminop A) w a w' : runs (or_missing m) w a w' <-> runs m w a w'.
Proof.
  unfold or_missing, runs, bind, attempt. destruct (m w) as [[x|e] w1]; cbn; [done|].
  unfold throw. split; intros H; discriminate.
Qed.

Lemma runs_session_lookup h w sess w' :
  runs (GetAdminSessionByRefreshHash h) w sess w' ->
  w' = tick_ops w (w_st w) /\ exists i r,
    admin_sessions (w_st w) !! i = Some r /\ an_RefreshHash r = h /\
    sess = {| as_SessionID := i; as_AdminUserID := an_AdminUserID r;
              as_Revoked := an_RevokedAt r; as_Expires := an_ExpiresAt r |}.
Proof.
  unfold GetAdminSessionByRefreshHash. intros H.
  apply runs_bind in H as ([i r] & w1 & H1 & H). apply runs_ret in H as [-> ->].
  apply runs_admin_or_missing, runs_query in H1 as (_ & Hq & ->). split; [done|].
  apply first_row_ok in Hq as [Hi Hh]. apply bool_decide_eq_true in Hh. by exists i, r.
Qed.

Lemma runs_admin_by_id id w u w' :
  runs (GetAdminByID id) w u w' ->
  w' = tick_ops w (w_st w) /\ exists row,
    admin_users (w_st w) !! id = Some row /\ u = admin_user (id, row).
Proof.
  unfold GetAdminByID. intros H. apply runs_bind in H as (x & w1 & H1 & H).
  apply runs_ret in H as [-> ->]. apply runs_admin_or_missing, runs_query in H1 as (_ & Hq & ->).
  unfold q_GetAdminUserByID in Hq. destruct (admin_users (w_st w) !! id) as [row|] eqn:Hr; [|done].
  injection Hq as <-. split; [done|]. by exists row.
Qed.

(** What a refresh needs, what it answers and what it leaves behind. *)
Lemma runs_Admin_Refresh tok w res w' :
  runs (Admin_Refresh s tok) w res w' ->
  exists i r row roles t t0 t1 id d1,
    admin_sessions (w_st w) !! i = Some r /\ an_RefreshHash r = Admin_hashRefresh tok /\
    an_RevokedAt r = None /\ clock (w_clk w) <= an_ExpiresAt r /\
    admin_users (w_st w) !! an_AdminUserID r = Some row /\ ad_Status row = "ACTIVE" /\
    q_ListAdminRoleNamesForUser (an_AdminUserID r) (w_st w) = Ok roles /\
    lo_User res = staff_user (admin_user (an_AdminUserID r, row)) roles /\
    admin_Sign (sv_Signer s) (an_AdminUserID r) (ad_Email row) roles t = Ok (lo_Access res) /\
    d1 = revoke_sessions (fun j _ => bool_decide (j = i)) t0 (w_st w) /\
    q_CreateAdminSessionRotation id (an_AdminUserID r) (Admin_hashRefresh (lo_Refresh res))
      (lo_RefreshExp res) t1 d1 = Ok (tt, w_st w').
Proof.
  unfold Admin_Refresh. intros H. apply runs_bind in H as (a & w1 & H1 & H).
  apply (proj1 (runs_attempt _ _ _ _)) in H1. destruct a as [sess|e]; [|by apply runs_throw in H].
  apply runs_session_lookup in H1 as (-> & i & r & Hi & Hh & ->). cbn in H.
  apply runs_bind in H as (ended & w2 & H2 & H).
  destruct (an_RevokedAt r) as [x|] eqn:Hr.
  { apply runs_ret in H2 as [-> _]. by apply runs_throw in H. }
  apply runs_bind in H2 as (t & w2' & H2 & H2'). apply runs_now in H2 as [-> ->].
  apply runs_ret in H2' as [-> ->]. unfold After in H.
  destruct (_ <? _) eqn:Hexp; [by apply runs_throw in H|]. apply Z.ltb_ge in Hexp. cbn in Hexp.
  apply runs_bind in H as (u & w3 & H3 & H).
  apply runs_admin_by_id in H3 as (-> & row & Hrow & ->). cbn [w_st tick_ops] in Hrow.
  destruct (negb _) eqn:Hs; [by apply runs_throw in H|].
  apply negb_false_iff, bool_decide_eq_true in Hs.
  apply runs_bind in H as (roles & w4 & H4 & H). apply runs_query in H4 as (_ & Hroles & ->).
  apply runs_bind in H as (access & w5 & H5 & H). unfold admin_sign in H5.
  apply runs_bind in H5 as (t & w5' & H5 & H5'). apply runs_now in H5 as [-> ->].
  apply runs_lift in H5' as [Hsign ->].
  apply runs_bind in H as ([token h] & w6 & H6 & H).
  assert (h = Admin_hashRefresh token /\ w_st w6 = w_st w) as [-> Hst].
  { unfold Admin_newRefreshToken in H6. apply runs_bind in H6 as (b & w6' & H6 & H6').
    injection H6 as <- <-. apply runs_ret in H6' as [[= <- <-] ->]. done. }
  apply runs_bind in H as (t1 & w7 & H7 & H). apply runs_now in H7 as [-> ->].
  apply runs_bind in H as (id & w8 & H8 & H). unfold Admin_newID in H8.
  apply runs_bind in H8 as (id0 & w8' & H8 & H8'). apply runs_fresh in H8 as [-> ->].
  apply runs_ret in H8' as [-> ->].
  apply runs_bind in H as ([] & w9 & H9 & H). unfold RotateAdminSession, admin_tx in H9.
  apply runs_tx in H9 as (_ & w10 & H9 & _ & _ & ->).
  apply runs_bind in H9 as ([] & w11 & H9 & H10). apply runs_exec in H9 as (_ & d1 & Hd1 & ->).
  apply runs_exec in H10 as (_ & d2 & Hd2 & ->). injection Hd1 as <-.
  apply runs_bind in H as (t2 & w12 & H12 & H). apply runs_now in H12 as [-> ->].
  apply runs_ret in H as [-> ->]. cbn [w_st tick_ops lo_User lo_Access lo_Refresh lo_RefreshExp] in *.
  rewrite Hst in Hd2. do 9 eexists. split_and!; try done.
Qed.

(** A spent token opens nothing. *)
Lemma spent_refused tok w res w' :
  spent (Admin_hashRefresh tok) (w_st w) -> ~ runs (Admin_Refresh s tok) w res w'.
Proof.
  intros [Ho (i & r & Hi & Hh & Hr)] H.
  apply runs_Admin_Refresh in H as (j & r' & row & roles & t & t0 & t1 & id & d1 & Hj & Hh' & Hr' & _).
  assert (i = j) as <- by (eapply Ho; [exact Hi|exact Hj|congruence]). congruence.
Qed.

Lemma refresh_spends tok w res w' :
  hashes_once (w_st w) -> runs (Admin_Refresh s tok) w res w' ->
  spent (Admin_hashRefresh tok) (w_st w').
Proof.
  intros Ho H.
  apply runs_Admin_Refresh in H as (i & r & row & roles & t & t0 & t1 & id & d1 & Hi & Hh & _ & _ & _
    & _ & _ & _ & _ & -> & Hd).
  eapply create_session_spent; [exact Hd|]. rewrite <- Hh.
  apply (revoke_sessions_spends _ _ _ i); [done|done|by apply bool_decide_eq_true].
Qed.

(** Signing out ends the session of the token, if there is one. *)
Lemma logout_spends tok w x w' i r :
  hashes_once (w_st w) -> admin_sessions (w_st w) !! i = Some r ->
  an_RefreshHash r = Admin_hashRefresh tok -> runs (Logout tok) w x w' ->
  spent (Admin_hashRefresh tok) (w_st w').
Proof.
  intros Ho Hi Hh H. unfold Logout, RevokeAdminSessionByHash in H.
  apply runs_exec in H as (_ & d & [= <- <-] & ->). cbn [w_st tick_ops].
  destruct (an_RevokedAt r) as [t|] eqn:Hr.
  - apply revoke_sessions_spent. split; [done|]. exists i, r. by rewrite Hr.
  - rewrite <- Hh. apply (revoke_sessions_spends _ _ _ i); [done|done|].
    by rewrite Hr, !bool_decide_true.
Qed.

(** Claim C16: a refresh token of the back office works once.  It works only for a session that is
    neither revoked nor expired, of a member of staff who is active at that moment, and the
    new access token names the roles held at that moment; but then, whatever requests are served
    afterwards, whatever staff is created and whatever the program does, the token is never
    taken again. *)
Theorem admin_refresh_once d w0 w tok res w1 w2 :
  w_st w0 = admin_genesis d -> rtc console_step w0 w ->
  runs (Admin_Refresh s tok) w res w1 -> rtc console_step w1 w2 ->
  (exists i r row roles t,
     admin_sessions (w_st w) !! i = Some r /\ an_RefreshHash r = Admin_hashRefresh tok /\
     an_RevokedAt r = None /\ clock (w_clk w) <= an_ExpiresAt r /\
     admin_users (w_st w) !! an_AdminUserID r = Some row /\ ad_Status row = "ACTIVE" /\
     q_ListAdminRoleNamesForUser (an_AdminUserID r) (w_st w) = Ok roles /\
     admin_Sign (sv_Signer s) (an_AdminUserID r) (ad_Email row) roles t = Ok (lo_Access res)) /\
  forall res' w3, ~ runs (Admin_Refresh s tok) w2 res' w3.
Proof.
  intros H0 Hreach H Hlater. split.
  - apply runs_Admin_Refresh in H as (i & r & row & roles & t & t0 & t1 & id & d1 & Hi & Hh & Hr & He
      & Hrow & Hs & Hroles & _ & Hsign & _). by exists i, r, row, roles, t.
  - intros res' w3. apply spent_refused.
    apply (console_keeps _ w1 w2 (spent_law _) (spent_same _) Hlater).
    apply (refresh_spends tok w res w1); [|exact H].
    apply (console_keeps _ w0 w hashes_once_law hashes_once_same Hreach). rewrite H0.
    apply genesis_once.
Qed.

End Console.
