(* ===== verification/AdminListProps.v ===== *)
(** * What the dashboard shows

    Its pages are the pages of the rows that match, newest first; the search finds what contains
    the text; the figures of the landing page agree with the invariants of the program. *)

From Stdlib Require Import Ascii Sorting.Sorted.
From S2P Require Import Prelude Float Domain Json Crypto Canonical Store AuthStore Repo Books Solvency Members Text UserAuth Kyc Transfer Reconcile Listings BffAccounts AdminStore AdminRepo Admin AdminProps.

#[local] Open Scope string_scope.
#[local] Open Scope Z_scope.

(** ** Pages *)

Definition window {A} (n k : nat) (rows : list A) : list A := take n (drop (k * n) rows).

(** The pages put together are the list. *)
Lemma windows_cover {A} (n m : nat) (rows : list A) :
  (length rows <= m * n)%nat -> mjoin (map (fun k => window n k rows) (seq 0 m)) = rows.
Proof.
  assert (forall m k (l : list A), drop (k * n) rows = l -> (length l <= m * n)%nat ->
    mjoin (map (fun j => window n j rows) (seq k m)) = l) as H.
  { clear m. induction m as [|m IH]; intros k l Hl Hlen; cbn.
    - destruct l; [done|cbn in Hlen; lia].
    - assert (drop (S k * n) rows = drop n l) as Hn by (rewrite <- Hl, drop_drop; f_equal; lia).
      change (window n k rows ++ mjoin (map (fun j => window n j rows) (seq (S k) m)) = l)%list.
      rewrite (IH (S k) (drop n l) Hn) by (rewrite length_drop; lia).
      unfold window. rewrite Hl. apply take_drop. }
  intros Hlen. by apply H.
Qed.

Lemma per_page_range most dflt n : 1 <= dflt <= most -> 1 <= per_page most dflt n <= most.
Proof.
  intros Hd. unfold per_page. destruct (n <=? 0) eqn:H1; cbn; [lia|].
  destruct (most <? n) eqn:H2; [lia|]. lia.
Qed.

Lemma from_one_range n : n <= int64_max -> 1 <= from_one n <= int64_max.
Proof. unfold from_one, int64_max. destruct (n <? 1) eqn:H; lia. Qed.

(** Where a page starts, as long as the product fits. *)
Lemma page_start_ok page pp :
  1 <= page <= int64_max -> 1 <= pp -> (page - 1) * pp < 2 ^ 31 -> page_start page pp = (page - 1) * pp.
Proof.
  intros Hp Hpp Hs. unfold page_start, sub64, mul64. unfold int64_max in Hp.
  rewrite (wrap64_id (page - 1)) by (unfold int64_min, int64_max; lia).
  rewrite wrap64_id by (unfold int64_min, int64_max; nia). apply int32_id. nia.
Qed.

(** Beyond that it starts anywhere: page 171798693 of 25 rows shows the rows from the fifth. *)
Lemma page_start_wraps : page_start 171798693 25 = 4.
Proof. vm_compute. reflexivity. Qed.

Lemma page_ok {A} limit offset (rows : list A) :
  0 <= limit -> 0 <= offset -> page limit offset rows = Ok (take (Z.to_nat limit) (drop (Z.to_nat offset) rows)).
Proof.
  intros Hl Ho. unfold page. destruct (limit <? 0) eqn:H1; [lia|]. by destruct (offset <? 0) eqn:H2; [lia|].
Qed.

(** The page a listing asks for. *)
Lemma page_window {A} page' pp (rows : list A) :
  1 <= page' <= int64_max -> 1 <= pp <= 500 -> (page' - 1) * pp < 2 ^ 31 ->
  page (int32 pp) (page_start page' pp) rows
  = Ok (window (Z.to_nat pp) (Z.to_nat (page' - 1)) rows).
Proof.
  intros Hp Hpp Hs. rewrite page_start_ok, int32_id by lia. rewrite page_ok by nia.
  unfold window. do 3 f_equal. nia.
Qed.

(** ** Payments and transfers *)

(** The rows a filter is about, by the filters that are given. *)
Definition wanted (status payer payee : string) (p : PaymentRow) : bool :=
  (negb (given status) || has_text status p) && (negb (given payer) || paid_by payer p)
  && (negb (given payee) || paid_to payee p).

Definition selected (status payer payee : string) (d : db) : list Movement :=
  (map payment_movement (rows_where (fun _ p => wanted status payer payee p) (payment_tokens d))
   ++ (if given status || given payer || given payee then []
       else map transfer_movement (map_to_list (transfers d))))%list.

#[global] Instance movement_newest_total : Total movement_newest.
Proof. intros x y. unfold movement_newest. lia. Qed.

(** A payment and a transfer are different rows, whatever their ids. *)
Lemma selected_NoDup status payer payee d : NoDup (selected status payer payee d).
Proof.
  unfold selected. apply NoDup_app. split; [|split].
  - apply (NoDup_fmap_1 mv_ID). rewrite <- list_fmap_compose.
    apply (rows_where_NoDup (fun _ p => wanted status payer payee p) (payment_tokens d)).
  - intros x Hx%list_elem_of_In Hy%list_elem_of_In. apply in_map_iff in Hx as (a & <- & _).
    destruct (given status || given payer || given payee); [done|].
    by apply in_map_iff in Hy as (b & Hb & _).
  - destruct (given status || given payer || given payee); [apply NoDup_nil_2|].
    apply (NoDup_fmap_1 mv_ID). rewrite <- list_fmap_compose.
    apply (NoDup_fst_map_to_list (transfers d)).
Qed.

Section Ties.
Context {O : TieOrder}.

(** The selected rows in the order the [n]-th call of the store lists them. *)
Definition newest (n : nat) (ms : list Movement) : list Movement := ordered movement_newest n ms.

(** Whichever way the ties fall, the instants come in one order. *)
Lemma newest_instants n m ms :
  map mv_CreatedAt (newest n ms) = map mv_CreatedAt (newest m ms).
Proof.
  assert (forall l, Sorted movement_newest l -> Sorted Z.ge (map mv_CreatedAt l)) as Hs.
  { induction 1 as [|x l Hl IH Hx]; cbn; [done|]. constructor; [done|].
    destruct Hx as [|y l Hxy]; constructor. unfold movement_newest in Hxy. lia. }
  assert (Transitive Z.ge) by (intros x y z; lia).
  assert (AntiSymm eq Z.ge) by (intros x y; lia). apply (Sorted_unique Z.ge).
  - apply Hs, ordered_sorted. apply _.
  - apply Hs, ordered_sorted. apply _.
  - unfold newest. by rewrite !ordered_perm.
Qed.

(** The pages from the first on, the [k]-th listed by the store call [ns !! k]. *)
Definition shown (p : nat) (ns : list nat) (ms : list Movement) : list Movement :=
  mjoin (imap (fun k n => window p k (newest n ms)) ns).

Lemma shown_instants p ns ms n :
  (length ms <= length ns * p)%nat -> map mv_CreatedAt (shown p ns ms) = map mv_CreatedAt (newest n ms).
Proof.
  intros Hlen. assert (forall j, map mv_CreatedAt (mjoin (imap (fun k n => window p (j + k) (newest n ms)) ns))
    = mjoin (map (fun k => window p k (map mv_CreatedAt (newest n ms))) (seq j (length ns)))) as H.
  { clear Hlen. induction ns as [|m ns IH]; intros j; [done|]. cbn [imap length seq map mjoin list_join].
    rewrite map_app. f_equal.
    - rewrite Nat.add_0_r. unfold window. by rewrite <- (newest_instants m n ms), skipn_map, firstn_map.
    - rewrite <- IH. do 2 f_equal. apply imap_ext. intros k m' _. cbn. by rewrite Nat.add_succ_r. }
  etransitivity; [exact (H 0%nat)|]. apply windows_cover.
  rewrite length_map. unfold newest. by rewrite ordered_perm.
Qed.

Lemma shown_selected p ns ms x : x ∈ shown p ns ms -> x ∈ ms.
Proof.
  unfold shown. intros (l & Hx & Hl)%list_elem_of_join. apply elem_of_lookup_imap in Hl as (k & n & -> & _).
  unfold window in Hx. apply elem_of_take in Hx as (i & Hx & _). rewrite lookup_drop in Hx.
  apply list_elem_of_lookup_2 in Hx. unfold newest in Hx. by rewrite ordered_perm in Hx.
Qed.

(** A row that was created at an instant of its own is on one page, and once. *)
Lemma shown_once p ns ms x :
  NoDup ms -> (length ms <= length ns * p)%nat -> x ∈ ms ->
  (forall y, y ∈ ms -> mv_CreatedAt y = mv_CreatedAt x -> y = x) ->
  exists! i, shown p ns ms !! i = Some x.
Proof.
  intros Hn Hlen Hx Hown. set (l := shown p ns ms).
  assert (map mv_CreatedAt l ≡ₚ map mv_CreatedAt ms) as Hperm.
  { unfold l. rewrite (shown_instants p ns ms 0) by done. unfold newest. by rewrite ordered_perm. }
  assert (forall i y, l !! i = Some y -> mv_CreatedAt y = mv_CreatedAt x -> y = x) as Hl.
  { intros i y Hi. apply Hown, (shown_selected p ns). by eapply list_elem_of_lookup_2. }
  assert (exists i, l !! i = Some x) as [i Hi].
  { assert (mv_CreatedAt x ∈ map mv_CreatedAt l) as Hin by (rewrite Hperm; by apply list_elem_of_fmap_2).
    apply list_elem_of_fmap in Hin as (y & Hy & [i Hi]%list_elem_of_lookup). exists i.
    by rewrite <- (Hl i y Hi). }
  exists i. split; [done|]. intros j Hj.
  apply Permutation_inj in Hperm as [_ (f & Hf & Hfl)]. apply Hf.
  assert (forall k, l !! k = Some x -> ms !! f k = Some x) as Hms.
  { intros k Hk. specialize (Hfl k). rewrite !list_lookup_fmap, Hk in Hfl. cbn in Hfl.
    destruct (ms !! f k) as [y|] eqn:Hy; [|done]. injection Hfl as Hfl.
    f_equal. apply Hown; [by eapply list_elem_of_lookup_2|done]. }
  by apply (NoDup_lookup ms _ _ x); [|apply Hms|apply Hms].
Qed.

End Ties.

Lemma rows_where_ext {A} (P Q : string -> A -> bool) m :
  (forall k a, P k a = Q k a) -> rows_where P m = rows_where Q m.
Proof. intros H. unfold rows_where. apply List.filter_ext. intros [k a]. apply H. Qed.

Lemma rows_where_all {A} (m : gmap string A) : rows_where (fun _ _ => true) m = map_to_list m.
Proof. unfold rows_where. induction (map_to_list m) as [|x l IH]; cbn; [done|]. by rewrite IH. Qed.

Section Listing.
Context {E : Env} {O : TieOrder}.

Definition no_batch (status payer payee : string) : TxnFilter :=
  {| tf_Status := status; tf_Payer := payer; tf_Payee := payee; tf_Batch := "" |}.

(** The nine statements as one. *)
Lemma ListTxns_selected status payer payee p w :
  ListTxns (no_batch status payer payee) p w =
  bind (core_listing (fun n d =>
         page (tp_Limit p) (tp_Offset p) (newest n (selected status payer payee d))))
       (fun rows => ret (map txn_row rows)) w.
Proof.
  assert (forall P n d, (forall q, P q = wanted status payer payee q) ->
    given status || given payer || given payee = true ->
    payments_page P (tp_Limit p) (tp_Offset p) n d
    = page (tp_Limit p) (tp_Offset p) (newest n (selected status payer payee d))) as H.
  { intros P n d HP Hg. unfold payments_page, selected, newest. rewrite Hg, app_nil_r.
    do 3 f_equal. by apply rows_where_ext. }
  assert (forall f g : nat -> db -> result (list Movement), (forall n d, f n d = g n d) ->
    (bind (core_listing f) (fun rows => ret (map txn_row rows)) : adminop _) w
    = (bind (core_listing g) (fun rows => ret (map txn_row rows)) : adminop _) w) as Hext.
  { intros f g Hfg. unfold bind, core_listing, core_query, query, exec. destruct (fault _); [done|].
    by rewrite Hfg. }
  unfold ListTxns, no_batch. cbn [tf_Status tf_Payer tf_Payee tf_Batch]. cbv zeta.
  change (given "") with false. cbv iota.
  unfold mapTxnStatePayerPayee, mapTxnStatePayer, mapTxnStatePayee, mapTxnPayerPayee, mapTxnState,
    mapTxnPayer, mapTxnPayee, mapTxnAll.
  destruct (given status) eqn:Hs, (given payer) eqn:Hp, (given payee) eqn:Hq; cbn [andb];
    apply Hext; intros n d; try (apply H; [|by rewrite ?Hs, ?Hp, ?Hq]; intros q; unfold wanted;
      rewrite Hs, Hp, Hq; cbn [negb orb andb]; by rewrite ?andb_true_r).
  unfold q_ListPaymentTokensForAdmin, newest, selected. rewrite Hs, Hp, Hq. cbn [orb].
  do 4 f_equal. rewrite <- rows_where_all. apply rows_where_ext. intros k a. unfold wanted.
  by rewrite Hs, Hp, Hq.
Qed.

Lemma selected_length status payer payee d :
  Z.of_nat (length (selected status payer payee d))
  = count_rows (fun _ p => wanted status payer payee p) (payment_tokens d)
    + (if given status || given payer || given payee then 0 else Z.of_nat (size (transfers d))).
Proof.
  unfold count_rows, selected.
  rewrite length_app, length_map. destruct (given status || given payer || given payee); cbn; [lia|].
  rewrite length_map, length_map_to_list. lia.
Qed.

(** And so the nine counts. *)
Lemma CountTxns_selected status payer payee w :
  CountTxns (no_batch status payer payee) w =
  core_query (fun d => bigint (Z.of_nat (length (selected status payer payee d)))) w.
Proof.
  unfold CountTxns, no_batch. cbn [tf_Status tf_Payer tf_Payee tf_Batch].
  change (given "") with false. cbv iota.
  assert (forall f g : db -> result Z, (forall d, f d = g d) -> core_query f w = core_query g w) as Hext.
  { intros f g Hfg. unfold core_query, query, exec. destruct (fault _); [done|]. by rewrite Hfg. }
  assert (forall P d, (forall q, P q = wanted status payer payee q) ->
    given status || given payer || given payee = true ->
    payments_count P d = bigint (Z.of_nat (length (selected status payer payee d)))) as H.
  { intros P d HP Hg. unfold payments_count, count_rows. rewrite selected_length, Hg, Z.add_0_r.
    unfold count_rows. do 3 f_equal. by apply rows_where_ext. }
  destruct (given status) eqn:Hs, (given payer) eqn:Hp, (given payee) eqn:Hq; cbn [andb];
    apply Hext; intros d; try (apply H; [|by rewrite ?Hs, ?Hp, ?Hq]; intros q; unfold wanted;
      rewrite Hs, Hp, Hq; cbn [negb orb andb]; by rewrite ?andb_true_r).
  unfold q_CountPaymentTokensForAdmin. rewrite selected_length, Hs, Hp, Hq. cbn [orb].
  do 2 f_equal. unfold count_rows.
  rewrite (rows_where_ext _ (fun _ _ => true)), rows_where_all, length_map_to_list; [done|].
  intros k a. unfold wanted. by rewrite Hs, Hp, Hq.
Qed.

(** A look-up that cannot fail by itself. *)
Lemma runs_core_query {A} (f : db -> result A) (w : world admin_db Empty_set) a w' :
  runs (core_query f) w a w' <->
  fault (w_ops w) = None /\ f (core (w_st w)) = Ok a /\ w' = tick_ops w (w_st w).
Proof. unfold core_query. by rewrite runs_query. Qed.

Lemma runs_core_listing {A} (f : nat -> db -> result A) (w : world admin_db Empty_set) a w' :
  runs (core_listing f) w a w' <->
  fault (w_ops w) = None /\ f (w_ops w) (core (w_st w)) = Ok a /\ w' = tick_ops w (w_st w).
Proof. apply runs_core_query. Qed.

Lemma bigint_iff z a : bigint z = Ok a <-> in_int64 z = true /\ a = z.
Proof. unfold bigint. destruct (in_int64 z); split; intros H; naive_solver. Qed.

(** Claim C19: the payments the back office lists are exactly those every given filter is met by, newest
    first, and online transfers beside them when no filter is given at all; the total is their
    number, and listing needs nothing but the database to answer and changes nothing. Page
    after page, over a database that stays as it is, the rows shown come in the order of their
    instants, and every row that was created at an instant of its own is shown exactly once. The
    statement has no tie-breaker: of several rows of one instant, whose order is another one each
    time, one can come twice and another not at all.  (This holds for pages that start within
    the range of an int32.) *)
Theorem ListTransactions_pages status payer payee page' perPage (w : world admin_db Empty_set) :
  let pp := per_page 500 25 perPage in
  let pg := from_one page' in
  let rows := selected status payer payee (core (w_st w)) in
  page' <= int64_max -> (pg - 1) * pp < 2 ^ 31 ->
  (forall p w', runs (ListTransactions status payer payee page' perPage) w p w' <->
     fault (w_ops w) = None /\ fault (S (w_ops w)) = None /\
     in_int64 (Z.of_nat (length rows)) = true /\
     p = {| pg_Items := map txn_row (window (Z.to_nat pp) (Z.to_nat (pg - 1))
                                       (newest (S (w_ops w)) rows));
            pg_Total := Z.of_nat (length rows); pg_Page := pg; pg_PerPage := pp |} /\
     w' = tick_ops (tick_ops w (w_st w)) (w_st w)) /\
  (forall n, newest n rows ≡ₚ rows /\ Sorted movement_newest (newest n rows)) /\
  forall ns, (length rows <= length ns * Z.to_nat pp)%nat ->
    let pages := shown (Z.to_nat pp) ns rows in
    (forall n, map mv_CreatedAt pages = map mv_CreatedAt (newest n rows)) /\
    (forall x, x ∈ pages -> x ∈ rows) /\
    forall x, x ∈ rows ->
      (forall y, y ∈ rows -> mv_CreatedAt y = mv_CreatedAt x -> y = x) ->
      exists! i, pages !! i = Some x.
Proof.
  cbv zeta. intros Hpage Hs. set (pp := per_page 500 25 perPage) in *.
  set (pg := from_one page') in *. set (rows := selected _ _ _ _).
  pose proof (per_page_range 500 25 perPage ltac:(lia)) as Hpp. fold pp in Hpp.
  pose proof (from_one_range page' Hpage) as Hpg. fold pg in Hpg.
  split; [|split].
  2:{ intros n. split; [apply ordered_perm|apply ordered_sorted, _]. }
  2:{ intros ns Hlen. split; [intros n; by apply shown_instants|]. split; [apply shown_selected|].
      intros x Hx Hown. apply shown_once; try done. apply selected_NoDup. }
  intros p w'. unfold ListTransactions, listTxns.
  cbn [sq_Status sq_Payer sq_Payee sq_Batch sq_Page sq_PerPage]. fold pp pg. cbv zeta.
  change {| tf_Status := status; tf_Payer := payer; tf_Payee := payee; tf_Batch := "" |}
    with (no_batch status payer payee).
  rewrite runs_bind. setoid_rewrite runs_bind. unfold runs at 1 2.
  setoid_rewrite CountTxns_selected. setoid_rewrite ListTxns_selected. cbn [tp_Limit tp_Offset].
  split.
  - intros (n & w1 & Hn & ms & w2 & Hl & H). apply runs_ret in H as [-> ->].
    apply runs_core_query in Hn as (H1 & Hn & ->). apply bigint_iff in Hn as [Hn ->].
    apply runs_bind in Hl as (ms' & w3 & Hl & H). apply runs_ret in H as [-> ->].
    apply runs_core_listing in Hl as (H2 & Hl & ->). cbn [w_st w_ops tick_ops core] in Hl.
    rewrite page_window in Hl by lia. injection Hl as <-. done.
  - intros (H1 & H2 & Hn & -> & ->). do 2 eexists. split.
    { apply runs_core_query. split; [done|]. split; [by apply bigint_iff|reflexivity]. }
    do 2 eexists. split.
    { apply runs_bind. do 2 eexists. split; [|by apply runs_ret]. apply runs_core_listing.
      split; [done|]. split; [|reflexivity]. cbn [w_st w_ops tick_ops]. by rewrite page_window by lia. }
    by apply runs_ret.
Qed.

End Listing.

(** ** The search *)

(** Text without the characters [LIKE] gives a meaning to. *)
Definition literal (a : ascii) : bool :=
  negb (Ascii.eqb a "%") && negb (Ascii.eqb a "_") && negb (Ascii.eqb a "\").
Definition no_wildcard (q : string) : Prop := forallb literal (String.list_ascii_of_string q) = true.

Definition contains (q t : string) : Prop := exists a b, t = a ++ q ++ b.

Lemma like_literal q : no_wildcard q -> forall p t,
  like (q ++ p) t = true <-> exists b, t = q ++ b /\ like p b = true.
Proof.
  induction q as [|a q IH]; intros Hq p t.
  { split; [by exists t|]. by intros (b & -> & H). }
  unfold no_wildcard in Hq. cbn [String.list_ascii_of_string forallb] in Hq.
  apply andb_true_iff in Hq as [[[H1 H2]%andb_true_iff H3]%andb_true_iff Hq].
  apply negb_true_iff in H1, H2, H3. change (String a q ++ p) with (String a (q ++ p)).
  cbn [like]. rewrite H1, H2, H3. destruct t as [|c t].
  { split; [done|]. by intros (b & [=] & _). }
  rewrite andb_true_iff, (IH Hq). split.
  - intros [Hc%Ascii.eqb_eq (b & -> & Hb)]. exists b. by subst c.
  - intros (b & [= -> ->] & Hb). split; [apply Ascii.eqb_refl|]. by exists b.
Qed.

Lemma like_any p t : like (String "%" p) t = true <-> exists a b, t = a ++ b /\ like p b = true.
Proof.
  cbn [like]. change (Ascii.eqb "%" "%") with true. cbv iota.
  induction t as [|c t IH].
  - rewrite orb_false_r. split; [intros H; by exists "", ""|].
    intros (a & b & Hab & H). destruct a; [|discriminate]. cbn in Hab. by rewrite Hab.
  - rewrite orb_true_iff. split.
    + intros [H|(a & b & -> & H)%IH]; [by exists "", (String c t)|by exists (String c a), b].
    + intros ([|c' a] & b & Hab & H); cbn in Hab; [left; by rewrite Hab|].
      injection Hab as -> ->. right. apply IH. by exists a, b.
Qed.

(** The pattern the service makes of a text finds what contains the text. *)
Lemma like_contains q t : no_wildcard q -> like ("%" ++ q ++ "%") t = true <-> contains q t.
Proof.
  intros Hq. change ("%" ++ q ++ "%") with (String "%" (q ++ "%")). rewrite like_any. split.
  - intros (a & b & -> & Hb). apply (like_literal q Hq) in Hb as (c & -> & _). by exists a, c.
  - intros (a & b & ->). exists a, (q ++ b). split; [done|]. apply (like_literal q Hq).
    exists b. split; [done|]. apply like_any. exists b, "".
    split; [|done]. by rewrite str_app_nil.
Qed.

#[global] Instance user_newest_total : Total user_newest.
Proof. intros x y. unfold user_newest. lia. Qed.

(** The users the search is about. *)
Definition found (q : string) (d : db) (r : UserBalancesRow) : Prop := exists u,
  users d !! ub_ID r = Some u /\ r = user_balances d (ub_ID r, u) /\
  (contains (ToLower q) (lower (u_Phone u)) \/ contains (ToLower q) (lower (ub_ID r))).

Lemma found_rows q d r : no_wildcard (ToLower q) ->
  r ∈ map (user_balances d) (rows_where (user_matches ("%" ++ ToLower q ++ "%")) (users d))
  <-> found q d r.
Proof.
  intros Hq. rewrite list_elem_of_In, in_map_iff. unfold found. split.
  - intros ([i u] & <- & Hin). apply list_elem_of_In, elem_of_rows_where in Hin as [Hi Hm].
    exists u. cbn [ub_ID user_balances fst]. split; [done|]. split; [done|].
    unfold user_matches in Hm. by rewrite orb_true_iff, !like_contains in Hm.
  - intros (u & Hi & Hr & Hc). exists (ub_ID r, u). split; [done|].
    apply list_elem_of_In, elem_of_rows_where. split; [done|].
    unfold user_matches. by rewrite orb_true_iff, !like_contains.
Qed.

Section Search.
Context {E : Env} {O : TieOrder}.

(** The search of the back office shows the users whose phone number or id contains the text,
    whatever its case: all of them and nobody else, each once, newest first, page by page, with
    their number and with the balances of their accounts.  (This holds for texts without the
    characters that LIKE gives a meaning to, which the service does not escape.) *)
Lemma ListUsers_finds q page' perPage (w : world admin_db Empty_set) p w' :
  let pp := per_page 200 25 perPage in
  let pg := from_one page' in
  q <> "" -> no_wildcard (ToLower q) -> page' <= int64_max -> (pg - 1) * pp < 2 ^ 31 ->
  runs (ListUsers q page' perPage) w p w' ->
  exists rows,
    (forall r, r ∈ rows <-> found q (core (w_st w)) r) /\ NoDup (map ub_ID rows) /\
    Sorted user_newest rows /\ pg_Total p = Z.of_nat (length rows) /\
    pg_Items p = map user_row (window (Z.to_nat pp) (Z.to_nat (pg - 1)) rows) /\ w_st w' = w_st w.
Proof.
  cbv zeta. intros Hne Hq Hpage Hs H. unfold ListUsers in H. cbv zeta in H.
  rewrite bool_decide_eq_false_2 in H by done.
  pose proof (per_page_range 200 25 perPage ltac:(lia)) as Hpp.
  pose proof (from_one_range page' Hpage) as Hpg.
  apply runs_bind in H as ([total items] & w1 & H1 & H). apply runs_ret in H as [-> ->].
  apply runs_bind in H1 as (n & w2 & Hn & H1). unfold CountUsersByPhone in Hn.
  apply runs_core_query in Hn as (_ & Hn & ->). apply bigint_iff in Hn as [_ ->].
  apply runs_bind in H1 as (rows' & w3 & Hl & H1). apply runs_ret in H1 as [[= -> ->] ->].
  unfold SearchUsersByPhone in Hl. apply runs_bind in Hl as (rows & w4 & Hl & H).
  apply runs_ret in H as [-> ->]. apply runs_core_listing in Hl as (_ & Hl & ->).
  unfold q_SearchUsersForAdminByPhone, users_page in Hl. cbn [w_st tick_ops] in Hl.
  rewrite page_window in Hl by lia. injection Hl as <-.
  eexists (ordered user_newest _ _). split; [|split; [|split; [|split; [|split; [reflexivity|done]]]]].
  - intros r. rewrite ordered_perm. by apply found_rows.
  - rewrite ordered_perm. rewrite map_map. cbn [ub_ID user_balances].
    apply (rows_where_NoDup _ (users (core (w_st w)))).
  - apply ordered_sorted, _.
  - cbn [pg_Total]. unfold count_rows. by rewrite ordered_perm, length_map.
Qed.

End Search.

(** ** The landing page *)

Lemma sum_rows_swap {A B} (f : string -> A -> string -> B -> Z) (m : gmap string A)
  (m' : gmap string B) :
  sum_rows (fun i a => sum_rows (f i a) m') m
  = sum_rows (fun j b => sum_rows (fun i a => f i a j b) m) m'.
Proof.
  induction m as [|i a m Hi IH] using map_ind.
  - rewrite sum_rows_empty. symmetry. apply sum_rows_zero. intros. apply sum_rows_empty.
  - rewrite sum_rows_fresh by done. rewrite IH, <- sum_rows_add. apply sum_rows_ext.
    intros j b _. by rewrite sum_rows_fresh.
Qed.

Lemma sum_rows_only {A} (f : string -> A -> Z) m k a :
  m !! k = Some a -> (forall k' a', m !! k' = Some a' -> k' <> k -> f k' a' = 0) ->
  sum_rows f m = f k a.
Proof.
  intros Hk H. rewrite (sum_rows_delete f m k a Hk), sum_rows_zero; [lia|].
  intros k' a' [Hn Hk']%lookup_delete_Some. by apply (H k').
Qed.

(** What a live ceiling still locks. *)
Definition locked (d : db) (i : string) (c : CeilingRow) : Z :=
  if is_live (c_Status c) then c_CeilingKobo c - sum_settled i d else 0.

(** Who has a live ceiling has a lien account, and who is owed a pending payment has an account for
    it. *)
Definition holders (d : db) : Prop :=
  (forall i c, ceiling_tokens d !! i = Some c -> is_live (c_Status c) = true ->
     exists id, account_of d id (c_PayerUserID c) AccountKindLienHolding) /\
  (forall i p, payment_tokens d !! i = Some p -> p_Status p = TxPending ->
     exists id, account_of d id (p_PayeeUserID p) AccountKindReceivingPending).

Lemma account_sum sus d kind (g : string -> Z) id u :
  books sus d -> account_of d id u kind ->
  sum_rows (fun _ a => if bool_decide (a_Kind a = kind)
                       then if decide (a_UserID a = u) then g u else 0 else 0) (accounts d) = g u.
Proof.
  intros Hb (a & Ha & Hu & Hk).
  rewrite (sum_rows_only _ _ id a Ha).
  - rewrite bool_decide_true by done. by rewrite decide_True.
  - intros j b Hj Hn. case_bool_decide as Hkb; [|done]. destruct (decide _) as [Hub|]; [|done].
    destruct Hn. apply (bk_unique _ _ Hb j id b a); congruence.
Qed.

(** The owner's lien: a sum over all ceilings with one term at most. *)
Lemma lien_balance sus d id a :
  solvent sus d -> accounts d !! id = Some a -> a_Kind a = AccountKindLienHolding ->
  a_BalanceKobo a
  = sum_rows (fun i c => if decide (a_UserID a = c_PayerUserID c) then locked d i c else 0)
      (ceiling_tokens d).
Proof.
  intros [Hb Hl] Ha Hk. rewrite <- (bal_lookup d id a Ha).
  destruct (exists_row (fun _ c => live_of (a_UserID a) c) (ceiling_tokens d)) eqn:Hex.
  - apply exists_row_true in Hex as (i & c & Hi & Hlive).
    rewrite (ln_live _ Hl id a i c Ha Hk Hi Hlive). apply live_of_spec in Hlive as [Hu Hlive].
    rewrite (sum_rows_only _ _ i c Hi).
    + rewrite decide_True by done. unfold locked. by rewrite Hlive.
    + intros j c' Hj Hn. destruct (decide _) as [Hu'|]; [|done]. unfold locked.
      destruct (is_live (c_Status c')) eqn:Hl'; [|done]. destruct Hn.
      apply (ln_one _ Hl j i c' c); congruence.
  - rewrite exists_row_false in Hex. rewrite (ln_idle _ Hl id a Ha Hk Hex).
    symmetry. apply sum_rows_zero. intros i c Hi. destruct (decide _) as [Hu|]; [|done].
    unfold locked. destruct (is_live (c_Status c)) eqn:Hlv; [|done].
    specialize (Hex i c Hi). apply not_true_iff_false in Hex. destruct Hex.
    by apply live_of_spec.
Qed.

Lemma lien_float sus d :
  solvent sus d -> holders d ->
  kind_balance AccountKindLienHolding d = sum_rows (locked d) (ceiling_tokens d).
Proof.
  intros Hs [Hh _]. unfold kind_balance.
  transitivity (sum_rows (fun _ a => sum_rows (fun i c =>
    if bool_decide (a_Kind a = AccountKindLienHolding)
    then if decide (a_UserID a = c_PayerUserID c) then locked d i c else 0 else 0)
    (ceiling_tokens d)) (accounts d)).
  { apply sum_rows_ext. intros id a Ha. case_bool_decide as Hk; [by eapply lien_balance|].
    symmetry. by apply sum_rows_zero. }
  rewrite sum_rows_swap. apply sum_rows_ext. intros i c Hi.
  destruct (is_live (c_Status c)) eqn:Hl.
  - destruct (Hh i c Hi Hl) as [id Hid].
    by apply (account_sum sus d _ (fun _ => locked d i c) id (c_PayerUserID c) (sv_books _ _ Hs) Hid).
  - unfold locked. rewrite Hl. apply sum_rows_zero. intros k a _. case_bool_decide; [|done].
    by destruct (decide _).
Qed.

Lemma pending_float sus d :
  books sus d -> holders d -> kind_balance AccountKindReceivingPending d = pend_all d.
Proof.
  intros Hb [_ Hh]. unfold kind_balance, pend_all.
  transitivity (sum_rows (fun _ a => sum_rows (fun i p =>
    if bool_decide (a_Kind a = AccountKindReceivingPending)
    then if decide (a_UserID a = p_PayeeUserID p) then pending_amount p else 0 else 0)
    (payment_tokens d)) (accounts d)).
  { apply sum_rows_ext. intros id a Ha. case_bool_decide as Hk; [|by symmetry; apply sum_rows_zero].
    rewrite <- (bal_lookup d id a Ha), (bk_pending _ _ Hb id a Ha Hk). apply sum_rows_ext.
    intros i p _. unfold pending_to. destruct (decide _), (decide _); congruence. }
  rewrite sum_rows_swap. apply sum_rows_ext. intros i p Hi.
  destruct (decide (p_Status p = TxPending)) as [Hp|Hp].
  - destruct (Hh i p Hi Hp) as [id Hid].
    by apply (account_sum sus d _ (fun _ => pending_amount p) id (p_PayeeUserID p) Hb Hid).
  - unfold pending_amount. rewrite decide_False by done. apply sum_rows_zero. intros k a _.
    case_bool_decide; [|done]. by destruct (decide _).
Qed.

Section Overview.
Context {E : Env} {O : TieOrder}.

Ltac bigint_in H x Hx := apply result_bind_ok in H as (x & Hx & H); apply bigint_iff in Hx as [_ ->].

(** Claim C18: the landing page of the back office tells the truth about the money: in a state in
    which the books and the liens hold, the lien float is what the live ceilings still lock, all
    of them and nothing else, and the pending settlement is the sum of the pending payments,
    which is what the suspense account owes; the live figures are counts of the rows they name.
    (Every holder of a ceiling or of a claim is taken to have the account for it.) *)
Theorem Overview_reports sus (w : world admin_db Empty_set) o w' :
  let d := core (w_st w) in
  solvent sus d -> holders d -> runs Overview w o w' ->
  ow_LienFloat o = sum_rows (locked d) (ceiling_tokens d) /\
  ow_PendingSettlement o = pend_all d /\ ow_PendingSettlement o = - bal d sus /\
  ow_UsersTotal o = Z.of_nat (size (users d)) /\
  ow_DevicesActive o = count_rows (fun _ v => dv_Active v) (devices d) /\
  ow_CeilingsActive o
    = count_rows (fun _ c => bool_decide (c_Status c = CeilingActive)) (ceiling_tokens d) /\
  w_st w' = w_st w.
Proof.
  cbv zeta. intros Hs Hh H. unfold Overview, Adminrepo_OverviewStats in H.
  apply runs_bind in H as (r & w1 & H1 & H). apply runs_ret in H as [-> ->].
  unfold core_query_at in H1. apply runs_exec in H1 as (_ & d' & Hq & ->).
  destruct (q_AdminOverviewStats _ _) as [r'|] eqn:Hr; [|discriminate Hq]. injection Hq as <- <-.
  unfold q_AdminOverviewStats in Hr.
  bigint_in Hr x1 H1. bigint_in Hr x2 H2. bigint_in Hr x3 H3. bigint_in Hr x4 H4.
  bigint_in Hr x5 H5. bigint_in Hr x6 H6. bigint_in Hr x7 H7. bigint_in Hr x8 H8.
  bigint_in Hr x9 H9. bigint_in Hr x10 H10. injection Hr as <-.
  cbn [ow_LienFloat ow_PendingSettlement ow_UsersTotal ow_DevicesActive ow_CeilingsActive
    ov_LienFloatKobo ov_PendingSettlementKobo ov_UsersTotal ov_DevicesActive ov_CeilingsActive].
  rewrite (lien_float sus) by done. rewrite (pending_float sus) by (try apply Hs; done).
  rewrite (bk_suspense_bal _ _ (sv_books _ _ Hs)). split_and!; try done. lia.
Qed.

(** ** One settlement batch *)

Lemma sum_of_perm {A} (f : A -> Z) xs ys : xs ≡ₚ ys -> sum_of f xs = sum_of f ys.
Proof. unfold sum_of. induction 1; cbn in *; lia. Qed.
Lemma sum_of_map {A B} (f : B -> Z) (g : A -> B) xs : sum_of f (map g xs) = sum_of (fun x => f (g x)) xs.
Proof. unfold sum_of. induction xs as [|x xs IH]; cbn; [done|]. by rewrite IH. Qed.

Lemma inserts_lookup (rows : list (string * Z)) k : forall m : gmap string Z,
  NoDup (map fst rows) ->
  foldl (fun m (r : string * Z) => <[r.1 := r.2]> m) m rows !! k
  = match List.find (fun r : string * Z => String.eqb r.1 k) rows with
    | Some r => Some r.2 | None => m !! k
    end.
Proof.
  induction rows as [|[a n] rows IH]; intros m Hn; [done|]. cbn in *.
  apply NoDup_cons in Hn as [Ha Hn]. rewrite (IH _ Hn). destruct (String.eqb_spec a k) as [->|Hk].
  - destruct (List.find _ rows) as [r|] eqn:Hf; [|by rewrite lookup_insert_eq].
    apply find_some in Hf as [Hin Hr]. apply String.eqb_eq in Hr. destruct Ha.
    apply list_elem_of_In, in_map_iff. by exists r.
  - destruct (List.find _ rows) as [r|]; [done|]. by rewrite lookup_insert_ne.
Qed.

Lemma counted (texts : list string) : forall ss rows,
  foldr (fun s acc => result_bind acc (fun rest =>
    result_bind (bigint (Z.of_nat (length (List.filter (String.eqb s) texts)))) (fun n =>
    Ok ((s, n) :: rest)))) (Ok []) ss = Ok rows ->
  rows = map (fun s => (s, Z.of_nat (length (List.filter (String.eqb s) texts)))) ss.
Proof.
  induction ss as [|s ss IH]; intros rows H; cbn in H; [by injection H as <-|].
  apply result_bind_ok in H as (rest & Hr & H). apply result_bind_ok in H as (n & Hn & H).
  apply bigint_iff in Hn as [_ ->]. injection H as <-. cbn. by rewrite (IH rest Hr).
Qed.

(** What the status counts say of a status. *)
Lemma state_counts batch d rows k :
  q_GetSettlementBatchStatusCounts batch d = Ok rows ->
  default 0 (foldl (fun m (r : string * Z) => <[r.1 := r.2]> m) (∅ : gmap string Z) rows !! k)
  = Z.of_nat (length (List.filter (String.eqb k)
      (map (fun p => status_text (p_Status p)) (payments_in batch d)))).
Proof.
  unfold q_GetSettlementBatchStatusCounts. set (texts := map _ _). intros H.
  apply counted in H as ->.
  rewrite inserts_lookup by (rewrite map_map; cbn; rewrite map_id; apply NoDup_remove_dups).
  rewrite lookup_empty. destruct (List.find _ _) as [r|] eqn:Hf.
  - apply find_some in Hf as [Hin Hk]. apply in_map_iff in Hin as (t & <- & _).
    cbn in Hk. apply String.eqb_eq in Hk as ->. done.
  - cbn. replace (List.filter (String.eqb k) texts) with (@nil string); [done|].
    symmetry. destruct (List.filter (String.eqb k) texts) as [|x l] eqn:Hx; [done|]. exfalso.
    assert (In x texts /\ String.eqb k x = true) as [Hin Hk].
    { apply filter_In. rewrite Hx. by left. }
    apply String.eqb_eq in Hk as <-.
    assert (In k (remove_dups texts)) as Hin'.
    { apply list_elem_of_In, elem_of_remove_dups, list_elem_of_In. exact Hin. }
    pose proof (find_none _ _ Hf (k, Z.of_nat (length (List.filter (String.eqb k) texts)))) as Hn.
    cbn in Hn. rewrite String.eqb_refl in Hn. discriminate Hn.
    apply in_map_iff. by exists k.
Qed.

(** A batch of at most five hundred payments adds up: the header's count and volumes and the
    counts by status are those of the payments listed with it.  A batch nobody submitted is shown
    too, with nothing in it. *)
Lemma GetSettlement_adds_up batch (w : world admin_db Empty_set) x w' :
  batch <> "" -> (length (payments_in batch (core (w_st w))) <= 500)%nat ->
  runs (GetSettlement batch) w x w' ->
  sx_ID (sd_Batch x) = batch /\
  sx_TxnCount (sd_Batch x) = Z.of_nat (length (sd_Transactions x)) /\
  sx_SubmittedVol (sd_Batch x) = sum_of tw_Amount (sd_Transactions x) /\
  sx_SettledVol (sd_Batch x) = sum_of tw_Settled (sd_Transactions x) /\
  (forall s, default 0 (sx_StatesCount (sd_Batch x) !! s)
     = Z.of_nat (length (List.filter (String.eqb s) (map tw_Status (sd_Transactions x))))) /\
  (forall t, t ∈ sd_Transactions x <-> exists i p,
     payment_tokens (core (w_st w)) !! i = Some p /\ p_SettlementBatchID p = Some batch /\
     t = txn_row (payment_movement (i, p))).
Proof.
  intros Hb Hlen H. unfold GetSettlement in H.
  apply runs_bind in H as (header & w1 & H1 & H). unfold GetSettlementHeader in H1.
  apply runs_bind in H1 as (row & w1' & Hrow & H1). apply runs_ret in H1 as [-> ->].
  apply runs_core_query in Hrow as (_ & Hrow & ->).
  apply runs_bind in H as (counts & w2 & H2 & H). unfold GetSettlementStateCounts in H2.
  apply runs_bind in H2 as (rows & w2' & Hrows & H2). apply runs_ret in H2 as [-> ->].
  apply runs_core_query in Hrows as (_ & Hrows & ->).
  apply runs_bind in H as (p & w3 & H3 & H). apply runs_ret in H as [-> ->].
  unfold listTxns in H3. cbn [sq_Status sq_Payer sq_Payee sq_Batch sq_Page sq_PerPage] in H3.
  cbv zeta in H3. change (per_page 500 25 500) with 500 in H3. change (from_one 1) with 1 in H3.
  apply runs_bind in H3 as (total & w4 & H4 & H3). unfold CountTxns in H4.
  apply runs_core_query in H4 as (_ & _ & ->).
  apply runs_bind in H3 as (ts & w5 & H5 & H3). apply runs_ret in H3 as [-> ->].
  unfold ListTxns in H5. cbn [tf_Batch tp_Limit tp_Offset] in H5. cbv zeta in H5.
  assert (given batch = true) as Hg by (unfold given; by rewrite bool_decide_false).
  rewrite Hg in H5. apply runs_bind in H5 as (ms & w6 & H6 & H5). apply runs_ret in H5 as [-> ->].
  apply runs_core_listing in H6 as (_ & Hms & ->).
  cbn [w_st tick_ops core] in *. change (page_start 1 500) with 0 in Hms.
  change (int32 500) with 500 in Hms.
  unfold q_ListPaymentTokensForAdminByBatch, payments_page in Hms. rewrite page_ok in Hms by lia.
  cbn [Z.to_nat drop] in Hms. rewrite drop_0 in Hms. injection Hms as Hms.
  set (d := core (w_st w)) in *.
  set (bs := rows_where (fun _ p => in_batch batch p) (payment_tokens d)) in *.
  assert (payments_in batch d = map snd bs) as Hin by done.
  assert (ms ≡ₚ map payment_movement bs) as Hperm.
  { rewrite <- Hms. rewrite take_ge; [apply ordered_perm|].
    rewrite ordered_perm, length_map. rewrite Hin, length_map in Hlen. lia. }
  unfold q_GetSettlementBatchHeader, batch_row in Hrow.
  apply result_bind_ok in Hrow as (n & Hn & Hrow). apply bigint_iff in Hn as [_ ->].
  apply result_bind_ok in Hrow as (sub & Hn & Hrow). apply bigint_iff in Hn as [_ ->].
  apply result_bind_ok in Hrow as (set & Hn & Hrow). apply bigint_iff in Hn as [_ ->].
  injection Hrow as <-. cbn [sd_Batch sd_Transactions admin_batch repo_batch rb_ID rb_TxnCount
    rb_SubmittedVol rb_SettledVol sbr_ID sbr_TxnCount sbr_SubmittedVolumeKobo
    sbr_SettledVolumeKobo sx_ID sx_TxnCount sx_SubmittedVol sx_SettledVol sx_StatesCount pg_Items].
  split; [done|]. split; [|split; [|split; [|split]]].
  - rewrite length_map, Hperm, Hin, !length_map. done.
  - rewrite Hin, !sum_of_map. erewrite (sum_of_perm _ ms) by exact Hperm. by rewrite sum_of_map.
  - rewrite Hin, !sum_of_map. erewrite (sum_of_perm _ ms) by exact Hperm. by rewrite sum_of_map.
  - intros k. rewrite (state_counts batch d rows k Hrows), Hin. f_equal. rewrite !map_map.
    assert (forall (f : string -> bool) l l', l ≡ₚ l' -> length (List.filter f l) = length (List.filter f l')) as Hf.
    { intros f l l'. induction 1; cbn; repeat case_match; cbn; lia. }
    apply Hf. rewrite Hperm, !map_map. done.
  - intros t. rewrite list_elem_of_In, in_map_iff. split.
    + intros (mv & <- & Hmv). apply list_elem_of_In in Hmv. rewrite Hperm in Hmv.
      apply list_elem_of_In, in_map_iff in Hmv as ([i p] & <- & Hip).
      apply list_elem_of_In, elem_of_rows_where in Hip as [Hi Hp].
      apply bool_decide_eq_true in Hp. by exists i, p.
    + intros (i & p & Hi & Hp & ->). exists (payment_movement (i, p)). split; [done|].
      apply list_elem_of_In. rewrite Hperm. apply list_elem_of_In, in_map_iff. exists (i, p).
      split; [done|]. apply list_elem_of_In, elem_of_rows_where. split; [done|].
      by apply bool_decide_eq_true.
Qed.

End Overview.
