(* ===== verification/Demo.v ===== *)
(** * A worked run of the system

    Concrete instances of everything the model leaves open (clock, identifiers, faults,
    signatures, cache, map order) and the states of one small history: two users join,
    money is minted, a ceiling is issued, a payment is claimed and settled.  The
    witnesses of the theorems evaluate the operations in these states. *)

From Stdlib Require Import Strings.Byte.
From S2P Require Import Prelude Domain Json Crypto Store SealedBox Repo UserAuth Registration Books Solvency Wallet DemoMint Settlement Members Genesis System WalletProps TransferScore Transfer.

(** ** The surroundings *)

(** 2026-01-01T00:00:00Z. *)
Definition new_year : Time := 1767225600 * Second.

(** Time passes by a second at each of the first thousand readings; nothing fails. *)
Definition env_at (t : Time) : Env := {|
  clock n := t + Z.min (Z.of_nat n) 1000 * Second;
  sql_now n := t + Z.of_nat n * Second;
  new_id n := ("id-" +:+ pretty n)%string;
  fault _ := None;
|}.

#[global] Instance demo_env : Env := env_at new_year.

#[global] Instance fresh_at t : FreshIDs (env_at t).
Proof. by constructor. Qed.

Definition length_byte (msg : string) : byte :=
  default Byte.x00 (Byte.of_nat (String.length msg mod 256)).

(** A toy scheme: the signature is the key and the length of the message. *)
#[global] Instance demo_ed : Ed25519 := {|
  ed_sign priv msg := priv ++ [length_byte msg];
  ed_verify pub msg sig := bool_decide (sig = pub ++ [length_byte msg]);
  ed_public priv := priv;
  sha256 msg := String.list_byte_of_string msg;
|}.

#[global] Instance demo_ed_laws : Ed25519Laws demo_ed.
Proof. constructor. intros priv msg. by apply bool_decide_eq_true. Qed.

(** A toy password hash, and random bytes that repeat the number of the draw. *)
#[global] Instance demo_auth : AuthLib := {|
  bcrypt_generate _ pw :=
    if (String.length pw <=? 72)%nat then Ok ("hash:" +:+ pw)%string
    else Err (ErrNew "bcrypt: password length exceeds 72 bytes");
  bcrypt_matches hash pw := String.eqb hash ("hash:" +:+ pw)%string;
  random_bytes n := repeat (default Byte.x00 (Byte.of_nat n)) 48;
|}.

#[global] Instance demo_auth_laws : AuthLibLaws demo_auth.
Proof.
  constructor; intros salt pw hash; cbn; destruct (String.length pw <=? 72)%nat; intros [= <-].
  - apply String.eqb_refl.
  - discriminate.
Qed.

(** A toy box: nothing is hidden, but its tag is the sum of the two public keys, which both
    parties know and nobody else opens the box with. *)
Definition byte_xor (a b : byte) : byte :=
  default Byte.x00 (Byte.of_N (N.lxor (Byte.to_N a) (Byte.to_N b))).

Definition fit (n : nat) (l : bytes) : bytes := take n (l ++ repeat Byte.x00 n).

Lemma length_fit n l : length (fit n l) = n.
Proof. unfold fit. rewrite length_take, length_app, repeat_length. lia. Qed.

Definition box_tag (p q : bytes) : bytes := fit 16 (zip_with byte_xor p q).

#[global] Instance demo_nacl : NaCl := {|
  box_Seal _ pub priv m := box_tag (fit 32 priv) pub ++ m;
  box_Open _ pub priv c :=
    if bool_decide (take 16 c = box_tag pub (fit 32 priv)) then Some (drop 16 c) else None;
  ScalarBaseMult priv := fit 32 priv;
  blake2b n m := fit n m;
|}.

#[global] Instance demo_nacl_laws : NaClLaws demo_nacl.
Proof.
  constructor; cbn [demo_nacl box_Open box_Seal ScalarBaseMult].
  - intros _ a b m. rewrite take_app_length', drop_app_length' by (symmetry; apply length_fit).
    by rewrite bool_decide_true.
  - intros _ p k m. rewrite length_app. unfold box_tag, box_Overhead. rewrite length_fit. lia.
  - intros k. apply length_fit.
Qed.

#[global] Instance demo_cache : CacheEnv := {| cache_serves _ := false; cache_obeys _ := true |}.
#[global] Instance demo_order : MapOrder := {| map_order keys := keys |}.
#[global] Instance demo_order_laws : MapOrderLaws demo_order.
Proof. by constructor. Qed.

(** Texts of errors, shortened. *)
Fixpoint demo_error_text (e : error) : string :=
  match e with
  | ErrNew t => t
  | ErrNoRows => "no rows in result set"
  | ErrWrap c e' => (c +:+ ": " +:+ demo_error_text e')%string
  | ErrStatus c t => ("rpc error: code = " +:+ c +:+ " desc = " +:+ t)%string
  | _ => "database error"
  end.
#[global] Instance demo_text : ErrorText := {| error_string := demo_error_text |}.

(** The wallet as [New] makes it. *)
Lemma New_quiet {E : Env} : quiet_service New.
Proof.
  intros P. split.
  - intros clamp u n [= <-]. apply preserves_ret.
  - intros reg u i n [= <-]. apply preserves_ret.
Qed.

(** ** The history *)

Definition after {A} (m : dbop A) (w : world db effect) : world db effect := (m w).2.
Definition result_of {A} (d : A) (m : dbop A) (w : world db effect) : A :=
  match (m w).1 with Ok a => a | Err _ => d end.

(** A call that succeeds in [w] is a run. *)
Lemma succeeds {A} d (m : dbop A) w :
  is_ok (m w).1 = true -> runs m w (result_of d m w) (after m w).
Proof. unfold result_of, after, runs. by destruct (m w) as [[a|e] w1]. Qed.

(** The run of a call in a state, when it succeeds there. *)
Ltac play d m w H :=
  let Hok := fresh in
  assert (is_ok (m w).1 = true) as Hok by (vm_compute; reflexivity);
  pose proof (succeeds d m w Hok) as H; clear Hok.

Definition start : world db effect := World (genesis new_year) 0 0 0 [].

Definition bank_private : bytes := repeat Byte.x01 64.
Definition alice_key : bytes := [Byte.x0a].
Definition bob_key : bytes := [Byte.x0b].

Definition bank_key : BankSigningKey := {|
  bk_KeyID := "bank-1"; bk_PublicKey := bank_private; bk_PrivateKey := bank_private;
  bk_ActiveFrom := new_year; bk_ActiveTo := None; bk_CreatedAt := new_year |}.

Definition joined : world db effect :=
  after (SetUserPayerPubkey "alice" alice_key)
  (after (RegisterUserWithID "bob" "+2348000000002" "8000000002" "" "" 0)
  (after (RegisterUserWithID "alice" "+2348000000001" "8000000001" "" "" 0)
  (after (UpsertBankSigningKey bank_key) start))).

Definition minted : world db effect := after (Fund "8000000001" "TEST" 100000) joined.

Definition ttl : Duration := 24 * Hour.
Definition funded : world db effect := after (FundOffline New "alice" 50000 ttl) minted.

Definition no_token : CeilingToken := {|
  ct_ID := ""; ct_PayerID := ""; ct_CeilingAmount := 0; ct_IssuedAt := utc time_zero;
  ct_ExpiresAt := utc time_zero; ct_SequenceStart := 0; ct_NextSequence := 0;
  ct_PayerPublicKey := []; ct_BankKeyID := ""; ct_BankSignature := [];
  ct_Status := CeilingActive; ct_ReleaseAfter := None; ct_CreatedAt := time_zero |}.

Definition alice_ceiling : CeilingToken :=
  (result_of (no_token, None) (FundOffline New "alice" 50000 ttl) minted).1.

Definition signed_or_nil (r : result bytes) : bytes := match r with Ok b => b | Err _ => [] end.

(** Bob's card, signed by the bank. *)
Definition bob_card_unsigned : DisplayCard := {|
  dc_UserID := "bob"; dc_DisplayName := "Bob"; dc_AccountNumber := "8000000002";
  dc_IssuedAt := utc new_year; dc_BankKeyID := "bank-1"; dc_ServerSignature := [] |}.
Definition bob_card : DisplayCard := {|
  dc_UserID := "bob"; dc_DisplayName := "Bob"; dc_AccountNumber := "8000000002";
  dc_IssuedAt := utc new_year; dc_BankKeyID := "bank-1";
  dc_ServerSignature :=
    signed_or_nil (SignDisplayCard bank_private (DisplayCard_Payload bob_card_unsigned)) |}.

(** What Bob asks for in one session, signed by his device. *)
Definition bob_request_with (amount : Z) (nonce sig : bytes) : PaymentRequest := {|
  pr_ReceiverID := "bob"; pr_ReceiverDisplayCard := bob_card; pr_Amount := amount;
  pr_SessionNonce := nonce; pr_IssuedAt := utc (new_year + Minute);
  pr_ExpiresAt := utc (new_year + 10 * Minute); pr_ReceiverDevicePubkey := bob_key;
  pr_ReceiverSignature := sig |}.
Definition bob_request (amount : Z) (nonce : bytes) : PaymentRequest :=
  bob_request_with amount nonce
    (signed_or_nil (SignRequest bob_key
       (PaymentRequest_Payload (bob_request_with amount nonce [])))).

(** Alice's payment for it, signed by hers. *)
Definition alice_payment_with (amount seq left_ : Z) (nonce hash sig : bytes) : PaymentToken := {|
  pt_PayerID := "alice"; pt_PayeeID := "bob"; pt_Amount := amount; pt_SequenceNumber := seq;
  pt_RemainingCeiling := left_; pt_Timestamp := utc (new_year + 2 * Minute);
  pt_CeilingTokenID := ct_ID alice_ceiling; pt_SessionNonce := nonce; pt_RequestHash := hash;
  pt_PayerSignature := sig |}.

Definition alice_claim (amount seq left_ : Z) (nonce : bytes) : ClaimItem :=
  let req := bob_request amount nonce in
  let hash := signed_or_nil (HashRequest req) in
  let sig := signed_or_nil (SignPayment alice_key
               (payment_payload (alice_payment_with amount seq left_ nonce hash []))) in
  {| ci_Payment := alice_payment_with amount seq left_ nonce hash sig;
     ci_Ceiling := alice_ceiling; ci_Request := req |}.

Definition nonce (b : byte) : bytes := repeat b 16.
Definition claim1 : ClaimItem := alice_claim 20000 1 30000 (nonce Byte.x01).
Definition claim2 : ClaimItem := alice_claim 40000 2 0 (nonce Byte.x02).

Definition claimed : world db effect :=
  after (SubmitClaim NewSettlement "bob" [claim1; claim2] "NG") funded.
Definition settled : world db effect := after (FinalizeForPayer NewSettlement "alice") claimed.

(** ** A transfer

    Two verified users; Alice is funded and sends some of it to Bob. *)

#[global] Instance demo_session : PgSession := {| session_offset := 0 |}.
#[global] Instance demo_stream : Stream := {| publish_ok _ := true |}.

Definition verified : world db effect :=
  after (Fund "8000000001" "TEST" 100000)
  (after (RegisterUserWithID "bob" "+2348000000002" "8000000002" "" "TIER_2" 0)
  (after (RegisterUserWithID "alice" "+2348000000001" "8000000001" "" "TIER_2" 0) start)).

Definition rent : InitiateTransferInput := {|
  it_SenderUserID := "alice"; it_ReceiverAccountNumber := "8000000002";
  it_AmountKobo := 2000; it_Reference := "rent" |}.

Definition sent : world db effect := after (InitiateTransfer (Some defaultRules) rent) verified.

Definition no_transfer : Transfer := {|
  tr_ID := ""; tr_SenderUserID := ""; tr_ReceiverUserID := ""; tr_SenderDisplayName := None;
  tr_ReceiverDisplayName := None; tr_ReceiverAccountNumber := ""; tr_AmountKobo := 0;
  tr_Status := StatusAccepted; tr_Reference := ""; tr_FailureReason := None;
  tr_CreatedAt := 0; tr_SettledAt := None |}.

(** The dispatcher's pass over its outbox, and the message it publishes. *)
Definition dispatcher : Dispatcher := {|
  dp_Subject := ""; dp_SubjectByAggregate := []; dp_BatchSize := 0 |}.
Definition dispatched : world db effect := after (tick dispatcher) sent.

Definition last_message (w : world db effect) : option json :=
  match last (w_log w) with Some (EvPublish _ _ v) => Some v | _ => None end.

Definition processed : world db effect := after (process (last_message dispatched)) dispatched.
