(* ===== verification/Witnesses.v ===== *)
(** * The theorems at work

    Each theorem with hypotheses is applied in a state of the worked run of Demo.v: those of the
    services first, then those on fraud and on reconciliation. *)

From Stdlib Require Import Floats.SpecFloat Sorting.Sorted.
From S2P Require Import Prelude Float Domain Json Crypto Store Wire Canonical SealedBox Repo Fraud Detector UserAuth Books Solvency Wallet DemoMint Settlement SettlementFacts SubmitFacts Reconcile WalletProps Honest FraudProps Members Genesis System Purses SettlementProps TransferScore Transfer TransferFacts TransferProps FinalizeProcessor ReconcileProps Demo.

(** ** The states are reached from the genesis *)

#[local] Abbreviation commits := (rtc (commit New NewSettlement)).
#[local] Abbreviation steps := (rtc (step New NewSettlement)).

Lemma commit_to {A} (m : dbop A) d w :
  transaction New NewSettlement A m -> commits d (w_st w) -> commits d (w_st (after m w)).
Proof. intros Ht H. eapply rtc_r; [exact H|]. by apply (commit_run _ _ A m w). Qed.

Lemma step_to {A} pre (m : dbop A) d w :
  operation New NewSettlement pre A m -> pre (w_st w) -> steps d (w_st w) ->
  steps d (w_st (after m w)).
Proof. intros Ho Hp H. eapply rtc_r; [exact H|]. by apply (step_run _ _ pre A m w). Qed.

Lemma joined_commits : commits (genesis new_year) (w_st joined).
Proof.
  do 4 (eapply commit_to; [constructor|]). apply rtc_refl.
Qed.

Lemma funded_steps : steps (genesis new_year) (w_st funded).
Proof.
  do 6 (eapply step_to; [constructor|exact I|]). apply rtc_refl.
Qed.

Definition is_bound (d : db) (item : ClaimItem) : bool :=
  match ceiling_tokens d !! ct_ID (ci_Ceiling item) with
  | Some c => bool_decide (c_PayerUserID c = pt_PayerID (ci_Payment item))
  | None => false
  end.

Lemma is_bound_spec d item : is_bound d item = true -> bound d item.
Proof.
  unfold is_bound, bound. destruct (ceiling_tokens d !! _) as [c|]; [|done].
  by intros Hc%bool_decide_eq_true _ [= <-].
Qed.

Lemma claimed_steps : steps (genesis new_year) (w_st claimed).
Proof.
  eapply step_to; [constructor| |apply funded_steps].
  repeat constructor; apply is_bound_spec; vm_compute; reflexivity.
Qed.

Lemma settled_steps : steps (genesis new_year) (w_st settled).
Proof. eapply step_to; [constructor|exact I|apply claimed_steps]. Qed.

Lemma start_thriving : thriving (ss_SuspenseAccountID NewSettlement) (genesis new_year).
Proof. apply genesis_thriving. Qed.

Lemma funded_good : good (ss_SuspenseAccountID NewSettlement) (w_st funded).
Proof. apply (steps_thriving _ _ _ _ New_quiet funded_steps start_thriving). Qed.

Lemma claimed_thriving : thriving (ss_SuspenseAccountID NewSettlement) (w_st claimed).
Proof. apply (steps_thriving _ _ _ _ New_quiet claimed_steps start_thriving). Qed.

(** ** System.v *)

Lemma commits_keep_books_witness :
  total_balance (w_st (after (MoveToMain "alice") (after (Tx (fundOfflineInTx New "alice" 50000 ttl))
    (after (Fund "8000000001" "TEST" 100000) joined)))) = 0.
Proof.
  apply (commits_keep_books New NewSettlement (genesis new_year)).
  - apply thriving_established, start_thriving.
  - do 3 (eapply commit_to; [constructor|]). apply joined_commits.
Defined.

Lemma commits_advance_payments_witness :
  exists p p', payment_tokens (w_st claimed) !! "id-15" = Some p /\ p_Status p = TxPending /\
    payment_tokens (w_st settled) !! "id-15" = Some p' /\ follows p p'.
Proof.
  eexists. edestruct (commits_advance_payments New NewSettlement (w_st claimed) (w_st settled) "id-15")
    as (p' & Hp' & Hf & _).
  - apply thriving_established, claimed_thriving.
  - eapply commit_to; [constructor|apply rtc_refl].
  - vm_compute. reflexivity.
  - exists p'. split; [vm_compute; reflexivity|]. split; [reflexivity|]. split; [exact Hp'|exact Hf].
Defined.

Lemma steps_keep_liens_witness :
  bal (w_st funded) "id-1" =
    50000 - sum_settled (ct_ID alice_ceiling) (w_st funded).
Proof.
  edestruct (steps_keep_liens New NewSettlement (genesis new_year) (w_st funded)) as (_ & H).
  - apply New_quiet.
  - apply start_thriving.
  - apply funded_steps.
  - edestruct (H "alice" "id-1") as [Hl _]; [eexists; split; [vm_compute; reflexivity|done]|].
    edestruct (Hl (ct_ID alice_ceiling)) as [_ Hb]; [vm_compute; reflexivity|reflexivity|].
    exact Hb.
Defined.

(** ** Purses.v *)

(** Finalizing Alice's two claims pays her two debts out of what she has locked. *)
Lemma transactions_refine_purses_witness :
  (exists a, rtc (doing (may New NewSettlement _ (FinalizeForPayer NewSettlement "alice")))
               (purses_of (w_st claimed)) a /\ a ≡ purses_of (w_st settled)) /\
  (pu_locked (purses_of (w_st claimed)) "alice", pu_main (purses_of (w_st claimed)) "bob",
   size (pu_debts (purses_of (w_st claimed)))) = (50000, 0, 2%nat) /\
  (pu_locked (purses_of (w_st settled)) "alice", pu_main (purses_of (w_st settled)) "bob",
   size (pu_debts (purses_of (w_st settled)))) = (0, 50000, 0%nat).
Proof.
  split; [|split; vm_compute; reflexivity].
  destruct (transactions_refine_purses New NewSettlement) as [H _].
  apply (H _ (FinalizeForPayer NewSettlement "alice") claimed); [constructor|].
  apply thriving_established, claimed_thriving.
Defined.

(** ** DemoMint.v and WalletProps.v *)

Definition no_fund : FundResult := {| fr_TxnID := ""; fr_NewBalanceKobo := 0 |}.

Lemma Fund_mints_witness :
  exists main, 100000 <= bal (w_st joined) TreasuryAccountID /\
    forall x, bal (w_st minted) x
              = bal (w_st joined) x + transfer_fn TreasuryAccountID main 100000 x.
Proof.
  play no_fund (Fund "8000000001" "TEST" 100000) joined H.
  apply Fund_mints in H
    as (_ & _ & u & row & main & _ & _ & _ & _ & Hle & Hb & _). by exists main.
Defined.

(** Funding again fails: there already is an active ceiling. *)
Lemma FundOffline_atomic_witness :
  w_st (FundOffline New "alice" 10 ttl funded).2 = w_st funded.
Proof.
  assert ((FundOffline New "alice" 10 ttl funded).1 = Err ErrActiveCeilingExists) as H
    by (vm_compute; reflexivity).
  destruct (FundOffline New "alice" 10 ttl funded) as [r w'] eqn:Hr. cbn in H |- *. subst r.
  apply (FundOffline_atomic New "alice" 10 ttl funded ErrActiveCeilingExists w' New_quiet).
  by left.
Defined.

Lemma alice_lien : account_of (w_st funded) "id-1" "alice" AccountKindLienHolding.
Proof. eexists. split; [vm_compute; reflexivity|done]. Qed.

Lemma MoveToMain_releases_witness : bal (w_st (after (MoveToMain "alice") funded)) "id-1" = 0.
Proof.
  play tt (MoveToMain "alice") funded H.
  apply (MoveToMain_releases (ss_SuspenseAccountID NewSettlement) _ _ _ _ funded_good) in H
    as (id & row & _ & _ & _ & _ & _ & _ & _ & H).
  apply H, alice_lien.
Defined.

Lemma RecoverOfflineCeiling_quarantines_witness :
  accounts (w_st (after (RecoverOfflineCeiling New "alice") funded)) = accounts (w_st funded).
Proof.
  play no_token (RecoverOfflineCeiling New "alice") funded H.
  by apply RecoverOfflineCeiling_quarantines in H as (id & row & t & _ & _ & _ & Ha & _).
Defined.

(** Two days later the ceiling is due. *)
Definition later : Env := env_at (new_year + 48 * Hour).

Definition alice_row : CeilingRow := Eval vm_compute in
  match ceiling_tokens (w_st funded) !! ct_ID alice_ceiling with
  | Some c => c
  | None => {| c_PayerUserID := ""; c_CeilingKobo := 0; c_SequenceStart := 0; c_IssuedAt := 0;
               c_ExpiresAt := 0; c_PayerPubkey := []; c_BankKeyID := ""; c_BankSig := [];
               c_Status := CeilingActive; c_LienAccountID := ""; c_CreatedAt := 0;
               c_ReleaseAfter := None |}
  end.

Lemma alice_row_ok : ceiling_tokens (w_st funded) !! ct_ID alice_ceiling = Some alice_row.
Proof. vm_compute. reflexivity. Qed.

Lemma ReleaseOnExpiry_only_due_witness :
  releasable (tstz (clock (Env := later) (w_clk funded) - ReleaseGrace)) (w_st funded)
    (ct_ID alice_ceiling) alice_row = true.
Proof.
  destruct (ReleaseOnExpiry_only_due (E := later) funded _ _ alice_row_ok) as [H|[H _]];
    [|exact H].
  exfalso. revert H. vm_compute. discriminate.
Defined.

Lemma due_ceilings_take_no_claims_witness :
  ~ checked NewSettlement "bob" claim1 (new_year + 48 * Hour) (w_st funded).
Proof.
  apply (due_ceilings_take_no_claims NewSettlement (w_st funded) (ct_ID alice_ceiling) alice_row
           (new_year + 48 * Hour)).
  - vm_compute. discriminate.
  - apply alice_row_ok.
  - vm_compute. reflexivity.
  - reflexivity.
  - reflexivity.
  - vm_compute. reflexivity.
Defined.

(** ** SettlementProps.v *)

Definition no_answer : SettlementResult := new_result (ci_Payment claim1).

Lemma submitOne_accepted_witness :
  checked NewSettlement "bob" claim1 (new_year + 5 * Minute) (w_st funded).
Proof.
  play no_answer (submitOne NewSettlement "batch-1" "bob" claim1 (new_year + 5 * Minute)) funded H.
  apply submitOne_accepted in H as [H _]; [exact H|].
  intros Heq. apply (f_equal size) in Heq. revert Heq. vm_compute. discriminate.
Defined.

(** The same claim again, from the other party and in another batch. *)
Lemma submitOne_duplicate_witness :
  let w' := after (submitOne NewSettlement "batch-2" "alice" claim1 (new_year + 6 * Minute)) claimed in
  w_st w' = w_st claimed.
Proof.
  play no_answer (submitOne NewSettlement "batch-2" "alice" claim1 (new_year + 6 * Minute)) claimed H.
  destruct (payment_tokens (w_st claimed) !! "id-15") as [q|] eqn:Hq;
    [|vm_compute in Hq; discriminate].
  apply (submitOne_duplicate _ _ _ _ _ _ _ _ "id-15" q Hq) in H as [H _]; [exact H|..];
    revert Hq; vm_compute; by intros [= <-].
Defined.

Lemma FinalizeForPayer_waterfall_witness : pending_rows (w_st settled) "alice" = [].
Proof.
  play (@nil SettlementResult) (FinalizeForPayer NewSettlement "alice") claimed H.
  apply FinalizeForPayer_waterfall in H as (txns & Hperm & _ & H); [|apply claimed_thriving].
  destruct H as [(-> & _)|(cid & c & _ & _ & _ & _ & _ & Hnone & _)]; [|exact Hnone].
  exfalso. apply Permutation_length in Hperm. revert Hperm. vm_compute. discriminate.
Defined.

Lemma FinalizeForPayer_twice_witness :
  w_st (after (FinalizeForPayer NewSettlement "alice") settled) = w_st settled.
Proof.
  play (@nil SettlementResult) (FinalizeForPayer NewSettlement "alice") claimed H1.
  play (@nil SettlementResult) (FinalizeForPayer NewSettlement "alice") settled H2.
  apply (FinalizeForPayer_twice NewSettlement "alice" claimed _ _ _ _ _ (proj1 claimed_thriving)
    H1 eq_refl) in H2 as [_ H]. exact H.
Defined.

Lemma SubmitClaim_batch_witness :
  finalize_job (w_st claimed) "alice" FinalizeReasonClaimAccepted.
Proof.
  set (d := (SettlementBatch_zero, @nil SettlementResult, @None error)).
  set (m := SubmitClaim NewSettlement "bob" [claim1; claim2] "NG").
  play d m funded H.
  assert ((let '(b, rs, e) := result_of d m funded in (e, rs !! 0%nat ≫= sr_Status))
          = (None, Some TxPending)) as Hr by (vm_compute; reflexivity).
  destruct (result_of d m funded) as [[b rs] e]. injection Hr as -> Hst.
  pose proof (SubmitClaim_batch NewSettlement "bob" [claim1; claim2] "NG" funded b rs _ H)
    as (_ & _ & _ & _ & Hjob).
  destruct (rs !! 0%nat) as [r|] eqn:Hrs; [|discriminate].
  exact (Hjob 0%nat claim1 r eq_refl Hrs Hst).
Defined.

(** ** TransferProps.v *)

Lemma rules_reading : fraud_reading (Some defaultRules).
Proof. exact defaultRules_reading. Qed.

Lemma sent_new : transfers (w_st sent) <> transfers (w_st verified).
Proof. intros Heq. apply (f_equal size) in Heq. revert Heq. vm_compute. discriminate. Qed.

Lemma sent_runs : exists tr, runs (InitiateTransfer (Some defaultRules) rent) verified tr sent.
Proof. play no_transfer (InitiateTransfer (Some defaultRules) rent) verified H. by eexists. Qed.

Lemma InitiateTransfer_accepts_witness :
  exists tr receiver, accepted_transfer rent receiver (w_st verified) (w_st sent) tr.
Proof.
  destruct sent_runs as [tr H].
  apply (InitiateTransfer_accepts _ _ _ _ _ rules_reading) in H
    as (receiver & tier & _ & _ & _ & Ha & _); [|apply sent_new]. by exists tr, receiver.
Defined.

Lemma verified_references : one_per_reference (w_st verified).
Proof.
  assert (transfers (w_st verified) = ∅) as H by (vm_compute; reflexivity).
  intros s r i j f g [Hf _] _. rewrite H, lookup_empty in Hf. discriminate.
Qed.

Definition rent_row : TransferRow := Eval vm_compute in
  default (new_transfer {| ia_ID := ""; ia_SenderUserID := ""; ia_ReceiverUserID := "";
             ia_ReceiverAccountNumber := ""; ia_AmountKobo := 0; ia_Reference := "";
             ia_Flagged := false |} 0) (transfers (w_st sent) !! "id-9").

Lemma rent_referenced : referenced "alice" "rent" "id-9" rent_row (w_st sent).
Proof. by repeat split; vm_compute. Qed.

(** The same call again, and one of another amount under the same reference. *)
Lemma InitiateTransfer_idempotent_witness :
  one_per_reference (w_st sent) /\
  w_st (after (InitiateTransfer None rent) sent) = w_st sent /\
  w_st (after (InitiateTransfer None {| it_SenderUserID := "alice";
    it_ReceiverAccountNumber := it_ReceiverAccountNumber rent; it_AmountKobo := 77;
    it_Reference := "rent" |}) sent) = w_st sent.
Proof.
  destruct sent_runs as [tr H].
  destruct (InitiateTransfer_idempotent (Some defaultRules) rent verified rules_reading
    verified_references) as [H1 _].
  destruct (H1 tr sent H) as [Hone _]. split; [exact Hone|].
  assert (fraud_reading None) as Hf by done. split.
  - destruct (InitiateTransfer_idempotent None rent sent Hf Hone) as [_ H2].
    exact (proj1 (H2 _ _ _ _ rent_referenced (surjective_pairing _))).
  - set (other := {| it_SenderUserID := "alice" |}).
    destruct (InitiateTransfer_idempotent None other sent Hf Hone) as [_ H2].
    exact (proj1 (H2 _ _ _ _ rent_referenced (surjective_pairing _))).
Defined.

(** Bob is no verified sender. *)
Lemma InitiateTransfer_fails_witness :
  blocked (it_SenderUserID rent) (w_st joined) (w_st (InitiateTransfer (Some defaultRules) rent joined).2).
Proof.
  assert (is_ok (InitiateTransfer (Some defaultRules) rent joined).1 = false) as H by (vm_compute; reflexivity).
  destruct (InitiateTransfer (Some defaultRules) rent joined) as [[tr|e] w'] eqn:Hr; [discriminate H|].
  exact (InitiateTransfer_fails (Some defaultRules) rent joined e w' rules_reading Hr).
Defined.

Lemma InitiateTransfer_velocity_witness :
  exists n, during verified sent n /\
    Z.of_nat (length (recent_transfers "alice" (sql_now n) (w_st verified))) < 10.
Proof.
  destruct sent_runs as [tr H]. exact (InitiateTransfer_velocity rent _ _ _ H sent_new).
Defined.

Definition rent_message : json := Eval vm_compute in default JNull (last_message dispatched).
Definition rent_payload : TransferPayload := {|
  tp_TransferID := "id-9"; tp_SenderUserID := "alice"; tp_ReceiverUserID := "bob";
  tp_ReceiverAccountNumber := "8000000002"; tp_AmountKobo := 2000; tp_Reference := "rent" |}.

Lemma rent_message_ok : transfer_message rent_message "id-13" rent_payload.
Proof.
  split. eexists. split; [vm_compute; reflexivity|]. repeat split.
Qed.

(** Delivered, and delivered again after Bob has spent some of it. *)
Definition delivered_once : world db effect := after (process (Some rent_message)) dispatched.
Definition spent_some : world db effect := after (SetUserPayerPubkey "bob" bob_key) delivered_once.

Lemma process_at_most_once_witness :
  exists l, length l = 2%nat /\
    delivered rent_message "id-13" l dispatched (after (process (Some rent_message)) spent_some) /\
    bal (w_st (after (process (Some rent_message)) spent_some)) "id-3"
      = bal (w_st dispatched) "id-3" + 2000 /\
    exists l1 d d' l2, l = l1 ++ (d, d') :: l2 /\ Forall unchanged l1 /\ Forall unchanged l2 /\
      paid_once rent_payload d d'.
Proof.
  assert (delivered rent_message "id-13"
    [(w_st dispatched, w_st delivered_once);
     (w_st spent_some, w_st (after (process (Some rent_message)) spent_some))]
    dispatched (after (process (Some rent_message)) spent_some)) as Hd.
  { apply delivered_again, (delivered_other _ _ _ spent_some).
    - intros _. vm_compute. by eexists.
    - apply delivered_again, delivered_done. }
  eexists. split; [|split; [exact Hd|split; [vm_compute; reflexivity|]]]; [reflexivity|].
  destruct (process_at_most_once rent_message "id-13" rent_payload _ _ _ rent_message_ok Hd) as [H|H];
    [|exact H].
  exfalso. apply Forall_inv in H. apply (f_equal (fun d => bal d "id-3")) in H. revert H.
  vm_compute. discriminate.
Defined.

(** Deliveries that overlap: two of them find the event unprocessed before either has begun its
    transaction, and the money moves twice. *)
Lemma overlapping_deliveries_pay_twice :
  let first := after (process (Some rent_message)) dispatched in
  let second := after (Tx (settle_in_tx "id-13" rent_payload)) first in
  processed_events (w_st dispatched) !! "id-13" = None /\
  bal (w_st first) "id-3" = bal (w_st dispatched) "id-3" + 2000 /\
  bal (w_st second) "id-3" = bal (w_st dispatched) "id-3" + 4000.
Proof. vm_compute. auto. Qed.

Lemma verified_steps : steps (genesis new_year) (w_st verified).
Proof. do 3 (eapply step_to; [constructor|exact I|]). apply rtc_refl. Qed.

Lemma dispatched_books : books SystemSuspenseAccountID (w_st dispatched).
Proof.
  apply (books_same SystemSuspenseAccountID (w_st verified)).
  - pose proof (steps_thriving _ _ _ _ New_quiet verified_steps start_thriving) as [[[H _] _] _].
    exact H.
  - vm_compute. reflexivity.
  - vm_compute. reflexivity.
  - vm_compute. reflexivity.
Qed.

Lemma tick_publishes_witness :
  exists (claims : list (string * OutboxRow)) m pubs, w_st dispatched = with_outbox m (w_st sent) /\
    w_log dispatched = w_log sent ++ pubs /\
    Forall (fun ev => exists c, c ∈ claims /\ publishes dispatcher c ev) pubs.
Proof.
  play tt (tick dispatcher) sent H.
  apply tick_publishes in H as (claims & m & pubs & t & _ & _ & _ & Hst & Hlog & Hp & _).
  exists claims, m, pubs. exact (conj Hst (conj Hlog Hp)).
Defined.

(** A broker that confirms nothing: the message of Alice's transfer waits for a second. *)
Definition deaf : Stream := {| publish_ok _ := false |}.

Lemma failed_dispatch_waits_witness :
  exists o o', outbox (w_st sent) !! "id-13" = Some o /\ o_Attempts o = 0 /\
    outbox (w_st (after (tick (N := deaf) dispatcher) sent)) !! "id-13" = Some o' /\
    o_Attempts o' = 1 /\
    exists n, o_NextAttemptAt o' = tstz (clock n + Second).
Proof.
  pose (w' := after (tick (N := deaf) dispatcher) sent).
  play tt (tick (N := deaf) dispatcher) sent H.
  destruct (outbox (w_st sent) !! "id-13") as [o|] eqn:Ho; [|vm_compute in Ho; discriminate].
  assert (o_Attempts o = 0) as Hz by (revert Ho; vm_compute; by intros [= <-]).
  destruct (failed_dispatch_waits (N := deaf) dispatcher sent _ _ "id-13" o H Ho) as (o' & Ho' & Hcase); [lia|].
  exists o, o'. split; [done|]. split; [done|]. split; [exact Ho'|].
  assert (o_Attempts o' = 1) as H1.
  { assert (o_Attempts <$> outbox (w_st (after (tick (N := deaf) dispatcher) sent)) !! "id-13" = Some 1) as Hx
      by (vm_compute; reflexivity). rewrite Ho' in Hx. by injection Hx. }
  split; [done|]. destruct Hcase as [->|[(t & ev & _ & _ & ->)|(n & _ & ->)]].
  - exfalso. rewrite Hz in H1. discriminate H1.
  - exfalso. cbn in H1. rewrite Hz in H1. discriminate H1.
  - exists n. cbn. by rewrite Hz.
Defined.

Lemma rent_accepted :
  exists tr, accepted_transfer rent "bob" (w_st verified) (w_st sent) tr /\ tr_ID tr = "id-9".
Proof.
  assert (transfers (w_st sent) = {["id-9" := rent_row]}) as Hone by (vm_compute; reflexivity).
  destruct sent_runs as [tr H].
  apply runs_InitiateTransfer in H as (_ & receiver & tier & _ & _ & _ & Ho & _);
    [|exact rules_reading].
  destruct Ho as [[Heq _]|[Ha _]]; [by destruct (sent_new (f_equal transfers Heq))|]. exists tr.
  destruct (ad_row _ _ _ _ _ Ha) as (id & row & -> & _ & Hins & _ & Hrcv & _).
  assert (({["id-9" := rent_row]} : gmap string TransferRow) !! id = Some row) as Hl
    by exact (eq_trans (f_equal (lookup id) (eq_trans (eq_sym Hone) Hins)) (lookup_insert_eq _ _ _)).
  apply lookup_singleton_Some in Hl as [<- <-]. split; [|reflexivity].
  rewrite <- Hrcv in Ha. exact Ha.
Qed.

Lemma accepted_reaches_processor_witness :
  exists oid row, outbox (w_st sent) !! oid = Some row /\ outbox (w_st verified) !! oid = None.
Proof.
  destruct rent_accepted as (tr & Ha & Hid).
  destruct (accepted_reaches_processor rent "bob" _ _ tr Ha) as (oid & row & Ho & Hn & _).
  - rewrite Hid. reflexivity.
  - reflexivity.
  - reflexivity.
  - reflexivity.
  - reflexivity.
  - exists oid, row. exact (conj Ho Hn).
Defined.

(** At 23:30 UTC what Alice just sent does not count. *)
Lemma daily_window_witness : sum_today "alice" (new_year + 23 * Hour + 30 * Minute) (w_st sent) = 0.
Proof.
  destruct (daily_window "alice" (new_year + 23 * Hour + 30 * Minute) (w_st sent)) as [_ H].
  apply H.
  - reflexivity.
  - vm_compute. discriminate.
  - assert (transfers (w_st sent) = {["id-9" := rent_row]}) as -> by (vm_compute; reflexivity).
    intros id f Hf. apply lookup_singleton_Some in Hf as [_ <-]. vm_compute. discriminate.
Defined.

(** ** FinalizeProcessor.v and Canonical.v *)

#[local] Existing Instance repo_events.
#[local] Existing Instance repo_events_laws.

Definition finalize_body : json := Eval vm_compute in
  match outbox (w_st claimed) !! "id-25" with
  | Some o => match OutboxEnvelope_json (envelope_of ("id-25", o)) with Ok v => v | Err _ => JNull end
  | None => JNull
  end.

Lemma finalize_body_ok : finalize_message finalize_body "id-25" "alice".
Proof.
  split. do 2 eexists. split; [vm_compute; reflexivity|]. split; [reflexivity|].
  split; [reflexivity|]. split; [vm_compute; reflexivity|]. by split.
Qed.

#[local] Existing Instance settlement_finalizer.

Lemma finalize_delivered_once_witness :
  let d' := w_st (finalize_delivered (T := repo_events)
    (Fz := settlement_finalizer NewSettlement) true finalize_body 2 claimed) in
  same_but_events (w_st claimed) d' \/
  exists w1 rs w2, same_but_events (w_st claimed) (w_st w1) /\
    runs (FinalizeForPayer NewSettlement "alice") w1 rs w2 /\ same_but_events (w_st w2) d'.
Proof.
  exact (finalize_delivered_once (T := repo_events) (Fz := settlement_finalizer NewSettlement)
    (TL := repo_events_laws) true (good (ss_SuspenseAccountID NewSettlement))
    (fun payer d => pending_rows d payer = []) (ZL := settlement_finalizer_laws NewSettlement)
    finalize_body "id-25" "alice" 2 claimed finalize_body_ok (proj1 claimed_thriving)).
Defined.

Definition two_results : list SettlementResult := [
  {| sr_TransactionID := "p1"; sr_SequenceNumber := 1; sr_SubmittedAmount := 20000;
     sr_SettledAmount := 20000; sr_Status := Some TxSettled; sr_Reason := "";
     sr_ReceiverUserID := "bob" |};
  {| sr_TransactionID := "p2"; sr_SequenceNumber := 2; sr_SubmittedAmount := 40000;
     sr_SettledAmount := 30000; sr_Status := Some TxPartiallySettled; sr_Reason := "";
     sr_ReceiverUserID := "bob" |}].

Lemma emitNotifications_totals_witness :
  exists uids, NoDup uids /\ (forall uid, uid ∈ uids <-> has_result_for uid two_results).
Proof.
  set (fp := {| fp_PayerUserID := "alice"; fp_Reason := "sweep"; fp_EnqueuedAt := new_year |}).
  play tt (emitNotifications true fp two_results) start H.
  apply emitNotifications_totals in H as (uids & H1 & H2 & _).
  - by exists uids.
  - by repeat constructor.
  - vm_compute. discriminate.
Defined.

Definition card_payload : DisplayCardPayload := DisplayCard_Payload bob_card.

(** Whatever has the text of Bob's card is Bob's card. *)
Lemma signed_text_determines_witness :
  exists m, Canonicalize (signed_json (SignedCard card_payload)) = Ok m /\
    SignedCard card_payload = SignedCard (DisplayCard_Payload bob_card_unsigned).
Proof.
  eexists. split; [vm_compute; reflexivity|].
  eapply signed_text_determines; [| |vm_compute; reflexivity|vm_compute; reflexivity];
    vm_compute; repeat split; reflexivity.
Defined.

(** * Scores, tiers and bursts

    Toy versions of math.Pow and math.Exp with the laws the score needs; Alice, with one and
    with three bad signatures on record, asks for a ceiling; and a burst of payments. *)

(** Steps that fall from one as their argument does. *)
Definition step (x : float) : float :=
  if fleb x (fopp (float_of_Z 2)) then ratio 2 10
  else if fleb x (fopp (ratio 6 10)) then ratio 6 10 else fone.

#[global] Instance demo_libm : Libm := {| Pow _ := step; Exp := step |}.

#[global] Instance demo_libm_laws : LibmLaws demo_libm.
Proof.
  constructor; intros x _; cbn; unfold step;
    (destruct (fleb x (fopp (float_of_Z 2))); [|destruct (fleb x _)]); repeat split;
    vm_compute; reflexivity.
Qed.

Definition guarded : Service := {|
  s_Fraud := Some ClampCeiling; s_SeqTracker := s_SeqTracker New; s_Signer := s_Signer New;
  s_AutoSettleTimeout := s_AutoSettleTimeout New |}.

Definition bad_signature : FraudEvent := {|
  fe_ID := ""; fe_UserID := "alice"; fe_SignalType := FraudSignatureInvalid;
  fe_CeilingTokenID := None; fe_TransactionID := None; fe_Severity := SevHigh;
  fe_Details := "payer signature"; fe_CreatedAt := time_zero |}.

Definition rich : world db effect := after (Fund "8000000001" "TEST" 800000) joined.
Definition suspected : world db effect := after (RecordSignal bad_signature) rich.
Definition convicted : world db effect :=
  after (RecordSignal bad_signature) (after (RecordSignal bad_signature) suspected).

Definition no_score : FraudScore := score_of "" [] 0.

Lemma Score_bounded_witness :
  let s := result_of no_score (Fraud.Score "alice") convicted in
  sr_CeilingTier s = TierSuspended /\ unit_interval (sr_Score s) /\ sr_EventCount s = 3.
Proof.
  intros s. play no_score (Fraud.Score "alice") convicted H.
  destruct (Score_bounded "alice" convicted _ _ H) as (_ & Hu & _ & _).
  split; [vm_compute; reflexivity|]. split; [exact Hu|]. vm_compute. reflexivity.
Defined.

(** Suspected, Alice gets the reduced cap; convicted, nothing. *)
Lemma FundOffline_tiers_witness :
  (let ct := (result_of (no_token, None) (FundOffline guarded "alice" 800000 ttl) suspected).1 in
   ct_CeilingAmount ct = 500000) /\
  (FundOffline guarded "alice" 800000 ttl convicted).1 = Err ErrSuspended.
Proof.
  assert (0 < 800000) as Hn by lia. assert (0 < ttl) as Ht by (vm_compute; reflexivity). split.
  - play (no_token, None : option error) (FundOffline guarded "alice" 800000 ttl) suspected H.
    pose proof (FundOffline_tiers guarded "alice" 800000 ttl suspected eq_refl Hn Ht) as Hp.
    destruct (Fraud.Score "alice" suspected) as [[sc|e] w1] eqn:Hs.
    2: { exfalso. apply (f_equal (fun x => is_ok x.1)) in Hs. vm_compute in Hs. discriminate. }
    destruct Hp as [_ Hp].
    assert (sc = result_of no_score (Fraud.Score "alice") suspected) as -> by (unfold result_of; by rewrite Hs).
    replace (fleb ThresholdSuspended _) with false in Hp by (vm_compute; reflexivity).
    replace (fleb ThresholdReduced _) with true in Hp by (vm_compute; reflexivity).
    destruct (result_of _ _ suspected) as [ct e]. exact (Hp ct e _ H).
  - pose proof (FundOffline_tiers guarded "alice" 800000 ttl convicted eq_refl Hn Ht) as Hp.
    destruct (Fraud.Score "alice" convicted) as [[sc|e] w1] eqn:Hs.
    2: { exfalso. apply (f_equal (fun x => is_ok x.1)) in Hs. vm_compute in Hs. discriminate. }
    destruct Hp as [_ Hp].
    assert (sc = result_of no_score (Fraud.Score "alice") convicted) as -> by (unfold result_of; by rewrite Hs).
    replace (fleb ThresholdSuspended _) with true in Hp by (vm_compute; reflexivity).
    by rewrite Hp.
Defined.

(** ** A burst *)

(** Twenty-five payments, ten seconds apart, and one an hour later. *)
Definition instants : list Time :=
  map (fun k => new_year + Z.of_nat k * 10 * Second) (seq 0 25) ++ [new_year + Hour].
Definition burst_trace : list effect := map (EvObserveSettled "alice") instants.

Lemma burst_in_order : in_order burst_trace.
Proof.
  intros u. destruct (decide (u = "alice")) as [->|Hu].
  - assert (omap (settled_of "alice") burst_trace = instants) as -> by (vm_compute; reflexivity).
    repeat (constructor; [|repeat (constructor; [vm_compute; discriminate|]); constructor]).
    constructor.
  - assert (omap (settled_of u) burst_trace = []) as ->; [|constructor].
    unfold burst_trace. generalize instants. intros l. induction l as [|t l IH]; [done|].
    cbn. by rewrite bool_decide_eq_false_2 by congruence.
Qed.

(** The payment that makes it twenty-one is signalled, and no other. *)
Lemma detector_signals_witness :
  all_deserved (NewDetector true) [] burst_trace
  = [velocity_signal (NewDetector true) "alice" 21 (new_year + 200 * Second)].
Proof.
  rewrite <- (detector_signals (NewDetector true) burst_trace burst_in_order).
  vm_compute. reflexivity.
Defined.

(** * Reconciling the worked run

    The theorems of ReconcileProps.v, applied after the settlement and after the transfer
    of Demo.v. *)

Lemma settled_good : good (ss_SuspenseAccountID NewSettlement) (w_st settled).
Proof. apply (steps_thriving _ _ _ _ New_quiet settled_steps start_thriving). Qed.

(** Alice's device reports her first payment with a wrong amount and forgets the second. *)
Definition alice_log : list ClientTxnEntry := [
  {| ce_TransactionID := ""; ce_PayerID := "alice"; ce_PayeeID := "bob"; ce_Amount := 2000;
     ce_SequenceNumber := 1; ce_Status := "SETTLED" |} ].

Definition no_sync : SyncResult :=
  {| sy_PayerSide := []; sy_ReceiverSide := []; sy_Discrepancies := [] |}.

Definition no_run : ReconciliationRecord := {|
  rr_ID := ""; rr_Type := ReconLedger; rr_EntityID := ""; rr_RunAt := 0; rr_Status := ReconClean;
  rr_Discrepancies := []; rr_CreatedAt := 0 |}.

Lemma SyncUser_reports_witness :
  let r := result_of no_sync (SyncUser "alice" alice_log []) settled in
  disagreement (sy_PayerSide r ++ sy_ReceiverSide r) alice_log
    {| ds_TransactionID := "id-15"; ds_Field := "amount"; ds_Expected := "20000";
       ds_Actual := "2000"; ds_Severity := "CRITICAL" |} /\
  length (sy_Discrepancies r) = 2%nat.
Proof.
  intros r. split; [|vm_compute; reflexivity].
  play no_sync (SyncUser "alice" alice_log []) settled H.
  apply (SyncUser_reports (ss_SuspenseAccountID NewSettlement)) in H as (_ & _ & _ & H & _);
    [|apply settled_good].
  apply H. vm_compute. left.
Defined.

Lemma NightlyLedgerReconcile_finds_witness :
  rr_Discrepancies (result_of no_run NightlyLedgerReconcile settled) = findings (w_st settled).
Proof.
  play no_run NightlyLedgerReconcile settled H.
  apply NightlyLedgerReconcile_finds in H as [H _]; [exact H|].
  intros e He. apply (bk_posted (ss_SuspenseAccountID NewSettlement)); [apply settled_good|exact He].
Defined.

Lemma steps_reconcile_clean_witness :
  rr_Status (result_of no_run NightlyLedgerReconcile settled) = ReconClean.
Proof.
  play no_run NightlyLedgerReconcile settled H.
  apply (steps_reconcile_clean New NewSettlement settled (genesis new_year) New_quiet start_thriving
    settled_steps) in H as [H _]. exact H.
Defined.

Lemma transfers_break_reconciliation_witness :
  rr_Status (result_of no_run NightlyLedgerReconcile
    (after (process (Some rent_message)) dispatched)) = ReconDiscrepancy.
Proof.
  play no_run NightlyLedgerReconcile (after (process (Some rent_message)) dispatched) H.
  apply (transfers_break_reconciliation NewSettlement rent_message "id-13" rent_payload dispatched)
    in H as [H _]; [exact H|exact rent_message_ok|reflexivity|discriminate|apply dispatched_books
    |reflexivity|].
  intros Heq. apply (f_equal (fun m => a_BalanceKobo <$> m !! "id-0")) in Heq.
  revert Heq. vm_compute. discriminate.
Defined.
