(* ===== verification/AuthDemo.v ===== *)
(** * Authentication at work

    A user signs up, refreshes, resets the password and mistypes the PIN; each theorem of
    UserAuthProps.v with hypotheses is applied in one of those states. *)

From S2P Require Import Prelude Domain Json Crypto Store AuthStore Repo AuthRepo Books Solvency Members Text UserAuth Kyc AuthFacts UserAuthProps Genesis System Demo.

Definition demo_service : UserAuthService := {|
  ua_Sign u acc sid t := Ok ("jwt:" +:+ u)%string;
  ua_Send _ _ _ := Ok tt;
  ua_AccessTTL := 15 * Minute; ua_RefreshTTL := 720 * Hour; ua_OTPTTL := 10 * Minute;
  ua_OTPMaxAttempts := 5 |}.

Definition ada : SignupInput := {|
  si_Phone := "0803 123-4567"; si_Password := "correct-horse-1"; si_FirstName := " Ada ";
  si_LastName := "Obi"; si_Email := "Ada@Example.com"; si_UserAgent := "app/1"; si_IP := "10.0.0.1" |}.

Definition no_answer : AuthResult := {|
  ar_UserID := ""; ar_AccountNumber := ""; ar_AccessToken := ""; ar_RefreshToken := "";
  ar_AccessExpiresAt := 0; ar_RefreshExpiresAt := 0 |}.

Definition signed_up : world db effect := after (Signup demo_service ada) start.
Definition ada_answer : AuthResult := result_of no_answer (Signup demo_service ada) start.
Definition ada_id : string := ar_UserID ada_answer.

(** Her phone, email and name are normalised. *)
Example ada_normalised :
  (fun u => (u_Phone u, u_Email u, u_FirstName u, u_AccountNumber u)) <$>
    users (w_st signed_up) !! ada_id
  = Some ("+2348031234567", "ada@example.com", "Ada", "8031234567").
Proof. vm_compute. reflexivity. Qed.

Lemma Signup_opens_witness :
  exists user, users (w_st start) !! ada_id = None /\
    users (w_st signed_up) = <[ada_id := user]> (users (w_st start)) /\
    bcrypt_matches (u_PasswordHash user) "correct-horse-1" = true.
Proof.
  play no_answer (Signup demo_service ada) start H.
  destruct (Signup_opens demo_service _ ada _ _ _ H) as
    (user & session & sid & id1 & id2 & id3 & _ & _ & _ & _ & _ & _ & _ & _ & _ & Hpw & Hn & _ & Hu & _).
  exists user. exact (conj Hn (conj Hu Hpw)).
Defined.

Lemma start_kept : kept_from (user_sessions (w_st start)) (w_st start).
Proof. split; [reflexivity|]. intros i j r q H. discriminate. Qed.

Lemma signed_up_distinct : tokens_distinct (user_sessions (w_st signed_up)).
Proof.
  play no_answer (Signup demo_service ada) start H.
  refine (proj2 (runs_preserves _ _ _ _ _ (auth_handler_keeps demo_service _
    (kept_from_blind (user_sessions (w_st start))) _ _ _) H start_kept)). constructor.
Qed.

Definition ada_token : string := ar_RefreshToken ada_answer.

Lemma Refresh_single_use_witness :
  exists v, Refresh demo_service ada_token (after (Refresh demo_service ada_token) signed_up)
            = (Err ErrInvalidRefresh, v).
Proof.
  play no_answer (Refresh demo_service ada_token) signed_up H.
  destruct (Refresh_single_use demo_service ada_token _ _ _ signed_up_distinct H) as (_ & _ & Hr).
  apply Hr, rtc_refl.
Defined.

(** She forgets her password: the code is the end of her address. *)
Definition asked : world db effect := after (ForgotPasswordRequest demo_service "ada@example.com") signed_up.

Lemma ForgotPasswordReset_resets_witness :
  exists u row t, users (w_st asked) !! u = Some row /\
    users (w_st (after (ForgotPasswordReset demo_service "ada@example.com" "le.com" "battery-2") asked))
    = <[u := set_credentials "hash:battery-2" (u_EmailVerified row) t row]> (users (w_st asked)).
Proof.
  play tt (ForgotPasswordReset demo_service "ada@example.com" "le.com" "battery-2") asked H.
  destruct (ForgotPasswordReset_resets demo_service _ _ _ _ _ _ _ H) as
    (e & u & row & hash & ch & t & _ & _ & Hrow & _ & _ & _ & Hu & Hh & _).
  apply String.eqb_eq in Hh. subst hash. exists u, row, t. exact (conj Hrow Hu).
Defined.

(** A PIN of hers, and five wrong ones. *)
Definition with_pin : world db effect := after (SetPIN ada_id "1234" "") signed_up.
Definition guesses : list string := ["0000"; "1111"; "2222"; "3333"; "4444"].

Definition no_pin : PinRow := {|
  pn_PinHash := ""; pn_Attempts := 0; pn_LockedAt := None; pn_CreatedAt := 0; pn_UpdatedAt := 0 |}.

Lemma VerifyPIN_guess_bound_witness :
  exists w', tries ada_id guesses with_pin
    = ([Err ErrBadPIN; Err ErrBadPIN; Err ErrBadPIN; Err ErrBadPIN; Err ErrPINLocked], w') /\
  exists r, user_pins (w_st w') !! ada_id = Some r /\ pn_Attempts r = 5.
Proof.
  destruct (VerifyPIN_guess_bound ada_id
    (default no_pin (user_pins (w_st with_pin) !! ada_id)) guesses with_pin) as (w' & Ht & Hl).
  - intros n. reflexivity.
  - vm_compute. reflexivity.
  - vm_compute. discriminate.
  - vm_compute. split; [discriminate|reflexivity].
  - repeat constructor; vm_compute; discriminate.
  - intros n. vm_compute. reflexivity.
  - intros n m Hn _. change (length guesses) with 5%nat in Hn.
    assert (w_clk with_pin <= 10)%nat as Hc by (vm_compute; lia).
    cbn [clock sql_now demo_env env_at]. unfold tstz.
    pose proof (truncate_us_near (new_year + Z.of_nat m * Second)) as Ht.
    unfold pinLockWindow, Minute, Second in *. lia.
  - exists w'. split; [exact Ht|]. destruct Hl as (r & l & Hr & Ha & _); [vm_compute; discriminate|].
    exists r. exact (conj Hr Ha).
Defined.

(** Her NIN, from the last digits of her phone. *)
Definition no_submission : Submission := {|
  sb_ID := ""; sb_UserID := ""; sb_IDType := ""; sb_IDNumber := ""; sb_Status := "";
  sb_RejectionReason := None; sb_TierGranted := None; sb_SubmittedBy := None;
  sb_SubmittedAt := 0; sb_VerifiedAt := None |}.

Lemma Submit_promotes_witness :
  exists row, users (w_st (after (Submit ada_id " nin" "33331234567") signed_up)) !! ada_id = Some row /\
    tier_rank (u_KycTier row) = 2.
Proof.
  play no_submission (Submit ada_id " nin" "33331234567") signed_up H.
  destruct (Submit_promotes ada_id " nin" "33331234567" _ _ _ H) as
    (row & expected & t & _ & Hr & He & _ & _ & _ & _ & Hv).
  assert (Ok expected = Ok "33331234567") as Heq.
  { rewrite <- He. vm_compute in Hr. injection Hr as <-. vm_compute. reflexivity. }
  injection Heq as ->. change (String.eqb _ _) with true in Hv at 1.
  destruct Hv as (_ & _ & row' & t' & Hu & _ & Hm).
  exists row'. split; [rewrite Hu; apply lookup_insert_eq|].
  rewrite Hm. vm_compute in Hr. injection Hr as <-. vm_compute. reflexivity.
Defined.
