(* ===== verification/HonestDemo.v ===== *)
(** * An honest payment, step by step

    Alice's wallet is funded, Bob is issued a card and asks for money, Alice pays, and the
    claim is accepted, from Bob's hands or out of a blob that Carol carries. *)

From Stdlib Require Import Strings.Byte.
From S2P Require Import Prelude Domain Json Crypto Store AuthStore Wire Canonical Parse Decode SealedBox Repo AuthRepo Text Identity UserAuth Kyc Books Solvency Wallet DemoMint Settlement SettlementFacts SubmitFacts Gossip Acceptance WalletProps Honest Members UserAuthProps Genesis System SettlementProps GossipProps Demo.

Definition cards : IdentityService := {| id_Signer := None |}.

Definition no_card : DisplayCard := {|
  dc_UserID := ""; dc_DisplayName := ""; dc_AccountNumber := ""; dc_IssuedAt := utc 0;
  dc_BankKeyID := ""; dc_ServerSignature := [] |}.

Definition bobs_card : DisplayCard := result_of no_card (IssueDisplayCard cards "bob") funded.

Definition bobs_request_with (sig : bytes) : PaymentRequest := {|
  pr_ReceiverID := "bob"; pr_ReceiverDisplayCard := bobs_card; pr_Amount := 20000;
  pr_SessionNonce := nonce Byte.x05; pr_IssuedAt := utc (new_year + Minute);
  pr_ExpiresAt := utc (new_year + 10 * Minute); pr_ReceiverDevicePubkey := bob_key;
  pr_ReceiverSignature := sig |}.
Definition bobs_request : PaymentRequest :=
  bobs_request_with (signed_or_nil (SignRequest bob_key
    (PaymentRequest_Payload (bobs_request_with [])))).

Definition alices_payment_with (sig : bytes) : PaymentToken := {|
  pt_PayerID := "alice"; pt_PayeeID := "bob"; pt_Amount := 20000; pt_SequenceNumber := 1;
  pt_RemainingCeiling := 30000; pt_Timestamp := utc (new_year + 2 * Minute);
  pt_CeilingTokenID := ct_ID alice_ceiling; pt_SessionNonce := nonce Byte.x05;
  pt_RequestHash := signed_or_nil (HashRequest bobs_request); pt_PayerSignature := sig |}.
Definition alices_payment : PaymentToken :=
  alices_payment_with (signed_or_nil (SignPayment alice_key
    (payment_payload (alices_payment_with [])))).

Definition honest_item : ClaimItem :=
  {| ci_Payment := alices_payment; ci_Ceiling := alice_ceiling; ci_Request := bobs_request |}.

Lemma demo_bank_ok w :
  bank_signing_keys (w_st w) = {["bank-1" := bank_key]} ->
  (cache_get bankSigningActiveCacheKey (w_log w) = None \/
   cache_get bankSigningActiveCacheKey (w_log w) = Some (CachedBankKey bank_key)) ->
  bank_ok w.
Proof.
  intros Hk Hc. constructor; rewrite ?Hk.
  - by intros id k [<- <-]%lookup_singleton_Some.
  - by intros id k [<- <-]%lookup_singleton_Some.
  - destruct Hc as [->| ->]; [done|]. intros k [= <-]. by rewrite lookup_singleton_eq.
Qed.

(** Fifty thousand are granted, under the bank's stored key. *)
Lemma FundOffline_funds_witness :
  exists ct e, runs (FundOffline New "alice" 50000 ttl) minted (ct, e) funded /\
    (exists m mainAcc lienAcc, 0 < m <= 50000 /\
       account_of (w_st minted) mainAcc "alice" AccountKindMain /\
       forall x, bal (w_st funded) x = bal (w_st minted) x + transfer_fn mainAcc lienAcc m x) /\
    exists key, bank_signing_keys (w_st minted) !! ct_BankKeyID ct = Some key /\
      VerifyCeiling (bk_PublicKey key) (ceiling_payload ct) (ct_BankSignature ct) = Ok tt.
Proof.
  play (no_token, @None error) (FundOffline New "alice" 50000 ttl) minted H.
  destruct (result_of _ _ minted) as [ct e]. exists ct, e. split; [exact H|].
  assert (bank_signing_keys (w_st minted) = {["bank-1" := bank_key]}) as Hk by (vm_compute; reflexivity).
  apply FundOffline_funds in H as (m & mainAcc & lienAcc & id & row & Hm & Ha & _ & _ & Hb & _ & _ & _
    & _ & _ & _ & _ & _ & Hkey); [|apply New_quiet].
  split; [exists m, mainAcc, lienAcc; exact (conj Hm (conj Ha Hb))|]. apply Hkey.
  - reflexivity.
  - apply demo_bank_ok; [exact Hk|left; vm_compute; reflexivity].
  - intros clamp u n [= <-]. apply silent_ret.
  - vm_compute. reflexivity.
Defined.

(** The identifiers in use were all drawn. *)
Definition drawn (w : world db effect) (id : string) : bool :=
  existsb (fun j => String.eqb id (new_id j)) (seq 0 (w_ids w)) || negb (String.eqb (String.substring 0 3 id) "id-").

Lemma drawn_old w id n : drawn w id = true -> (w_ids w <= n)%nat -> id <> new_id n.
Proof.
  unfold drawn. intros [Hd|Hd]%orb_true_iff Hn ->.
  - apply existsb_exists in Hd as (j & Hj & Heq). apply in_seq in Hj.
    apply String.eqb_eq in Heq. unfold new_id, demo_env, env_at in Heq.
    apply (inj (String.app "id-")) in Heq. apply (inj pretty) in Heq. lia.
  - apply negb_true_iff in Hd. cbn in Hd. by destruct (pretty n).
Qed.

Lemma demo_unused w :
  forallb (drawn w) (map fst (map_to_list (payment_tokens (w_st w)))) = true ->
  forallb (drawn w) (map fst (map_to_list (transactions (w_st w)))) = true ->
  forallb (fun e => drawn w (le_ID e) && drawn w (le_TxnID e)) (ledger_entries (w_st w)) = true ->
  unused w.
Proof.
  intros Hp Ht Hl.
  assert (forall A (m : gmap string A) n, forallb (drawn w) (map fst (map_to_list m)) = true ->
    (w_ids w <= n)%nat -> m !! new_id n = None) as Hnone.
  { intros A m n Hm Hn. destruct (m !! new_id n) as [a|] eqn:Ha; [|done]. exfalso.
    eapply drawn_old; [|exact Hn|reflexivity]. rewrite forallb_forall in Hm. apply Hm.
    apply in_map_iff. exists (new_id n, a). split; [done|].
    by apply list_elem_of_In, elem_of_map_to_list. }
  rewrite forallb_forall in Hl.
  constructor; [|by intros; apply Hnone..| |].
  - intros n m H. apply (inj (String.app "id-")) in H. by apply (inj pretty) in H.
  - intros n e Hn He. apply list_elem_of_In, Hl, andb_true_iff in He as [He _]. by eapply drawn_old.
  - intros n e Hn He. apply list_elem_of_In, Hl, andb_true_iff in He as [_ He]. by eapply drawn_old.
Qed.

Lemma honest_room : room NewSettlement honest_item (w_st funded).
Proof.
  constructor.
  - vm_compute. by eexists.
  - vm_compute. by eexists.
  - vm_compute. done.
  - vm_compute. done.
  - vm_compute. done.
  - reflexivity.
  - reflexivity.
  - vm_compute. discriminate.
  - vm_compute. discriminate.
  - vm_compute. discriminate.
  - intros i q. assert (payment_tokens (w_st funded) = ∅) as -> by (vm_compute; reflexivity).
    by rewrite lookup_empty.
  - destruct (first_row (fun _ a => account_is "bob" AccountKindReceivingPending a)
      (accounts (w_st funded))) as [[id a]|] eqn:H; [|vm_compute in H; discriminate].
    exists id, a. by apply first_row_ok in H.
  - assert (map_Forall (fun _ a => account_is "bob" AccountKindReceivingPending a = true ->
      0 <= a_BalanceKobo a /\ a_BalanceKobo a + 20000 <= int64_max) (accounts (w_st funded))) as H
      by (apply (bool_decide_eq_true _); vm_compute; reflexivity).
    exact H.
  - eexists. split; [vm_compute; reflexivity|]. split; reflexivity.
  - vm_compute. reflexivity.
Qed.

(** Alice pays Bob, and the claim is accepted. *)
Lemma honest_claim_accepted_witness :
  exists w', runs (submitOne NewSettlement "batch-1" "bob" honest_item (new_year + 3 * Minute)) funded
    (accepted alices_payment "id-14") w'.
Proof.
  play (no_token, None : option error) (FundOffline New "alice" 50000 ttl) minted Hfund.
  assert (result_of (no_token, None) (FundOffline New "alice" 50000 ttl) minted = (alice_ceiling, None))
    as Hceiling by (vm_compute; reflexivity).
  rewrite Hceiling in Hfund. clear Hceiling.
  play no_card (IssueDisplayCard cards "bob") funded Hcard. fold bobs_card in Hcard.
  assert (bank_signing_keys (w_st minted) = {["bank-1" := bank_key]}) as Hk0 by (vm_compute; reflexivity).
  assert (bank_signing_keys (w_st funded) = {["bank-1" := bank_key]}) as Hk by (vm_compute; reflexivity).
  change (accepted alices_payment "id-14")
    with (accepted alices_payment (@new_id demo_env 14)).
  replace 14%nat with (w_ids funded) by (vm_compute; reflexivity).
  refine (honest_claim_accepted New cards NewSettlement "alice" 50000 ttl minted alice_ceiling _ _ "bob"
    funded bobs_card _ alice_key bob_key bobs_request alices_payment "batch-1" "bob"
    (new_year + 3 * Minute) funded _ New_quiet _ _ _ _ Hfund _ _ Hcard _ _ _ _ _ _ _ _ _ honest_room _).
  - intros n. reflexivity.
  - intros clamp u n [= <-]. apply silent_ret.
  - reflexivity.
  - vm_compute. reflexivity.
  - apply demo_bank_ok; [exact Hk0|left; vm_compute; reflexivity].
  - reflexivity.
  - apply demo_bank_ok; [exact Hk|right; vm_compute; reflexivity].
  - constructor; vm_compute; reflexivity.
  - constructor; try (vm_compute; reflexivity).
    + vm_compute. discriminate.
    + right. vm_compute. reflexivity.
  - rewrite Hk0, Hk. reflexivity.
  - rewrite Hk. reflexivity.
  - right. reflexivity.
  - vm_compute. discriminate.
  - vm_compute. discriminate.
  - eexists. split; [vm_compute; reflexivity|]. left. reflexivity.
  - intros i q. assert (payment_tokens (w_st funded) = ∅) as -> by (vm_compute; reflexivity).
    rewrite lookup_empty. discriminate.
  - apply demo_unused; vm_compute; reflexivity.
Defined.

(** * A claim carried by strangers

    Alice's honest payment of HonestDemo.v, sealed to a retired key of the server and uploaded
    next to a blob that cannot be opened. *)

Definition server_key (n : byte) : SealedBoxKey := {|
  sk_KeyID := "sealed-box"; sk_Public := ScalarBaseMult (repeat n 32);
  sk_Private := repeat n 32; sk_RetiredAt := None |}.

Definition ring : SealedBoxKeyring := {|
  kr_Current := Some (server_key Byte.x01); kr_Previous := [server_key Byte.x02] |}.

Definition honest_inner : WireInnerPayload := {|
  wi_Ceiling := wire_of alice_ceiling; wi_Payment := alices_payment;
  wi_Request := bobs_request; wi_SenderUserID := "" |}.

Definition honest_text : string :=
  match EncodeInner honest_inner with Ok t => t | Err _ => "" end.

Definition sealed : bytes :=
  signed_or_nil (SealAnonymous (Ok (repeat Byte.x07 32)) (sk_Public (server_key Byte.x02))
    (String.list_byte_of_string honest_text)).

Definition blob_of (c : bytes) (hops : Z) : GossipBlob := {|
  gb_TransactionHash := [Byte.x01]; gb_EncryptedBlob := c; gb_BankSignature := [Byte.x02];
  gb_CeilingTokenHash := [Byte.x03]; gb_HopCount := hops; gb_BlobSize := Z.of_nat (length c) |}.

Definition honest_blob : GossipBlob := blob_of sealed 2.

(** Tired blobs, and blobs for somebody else. *)
Definition tired_blob : GossipBlob := blob_of sealed 4.
Definition foreign_blob : GossipBlob := blob_of (repeat Byte.x09 100) 1.

Lemma honest_carried : carries ring honest_inner honest_blob.
Proof.
  constructor.
  - vm_compute. reflexivity.
  - unfold clean_inner, clean_wire, clean_ceiling, clean_payment, clean_request, clean_card, utf8.
    repeat split; vm_compute; reflexivity.
  - exists [server_key Byte.x01], (server_key Byte.x02), [], (Ok (repeat Byte.x07 32)), honest_text.
    split; [reflexivity|]. split; [reflexivity|]. split; [vm_compute; reflexivity|].
    split; [vm_compute; reflexivity|]. constructor; [vm_compute; reflexivity|constructor].
Qed.

Lemma carried_claim_opens_witness : open_blob (all_keys ring) honest_blob = Ok honest_inner.
Proof. exact (proj1 (carried_claim_opens ring honest_inner honest_blob honest_carried)). Defined.

(** A key in another case, a member twice, a stray byte in a name: the text is not what the
    encoder writes, the claim is well formed all the same. *)
Definition odd_text : string :=
  "{" +:+ quoted "SENDER_user_id" +:+ ":" +:+ quoted "x" +:+ "," +:+ quoted "payment" +:+
  ":{" +:+ quoted "amount" +:+ ":-7," +:+ quoted "AMOUNT" +:+ ":9," +:+ quoted "payer_id" +:+ ":" +:+
  quoted (String (Ascii.ascii_of_nat 255) "a") +:+ "}}".

Lemma DecodeInner_clean_witness :
  exists p, DecodeInner odd_text = Ok p /\ pt_Amount (wi_Payment p) = 9 /\ clean_inner p.
Proof.
  destruct (DecodeInner odd_text) as [p|] eqn:Hp; [|vm_compute in Hp; discriminate].
  exists p. split; [reflexivity|]. split; [|exact (proj1 (DecodeInner_clean odd_text p Hp))].
  vm_compute in Hp. injection Hp as <-. reflexivity.
Defined.

Definition no_upload : UploadResult := {| ur_Accepted := -1; ur_Rejected := 0; ur_Items := [] |}.

Definition demo_submitter : SettlementSubmitter := settlement_submitter NewSettlement.

(** Of three blobs one opens; the others change nothing. *)
Lemma Upload_isolates_witness :
  let blobs := [tired_blob; honest_blob; foreign_blob] in
  let out := result_of no_upload (Upload (Sub := demo_submitter) ring "carol" blobs) funded in
  ur_Accepted out + ur_Rejected out = 3 /\
  exists out' w', runs (Upload (Sub := demo_submitter) ring "dave" [honest_blob]) funded out' w'.
Proof.
  intros blobs out.
  play no_upload (Upload (Sub := demo_submitter) ring "carol" blobs) funded H.
  pose proof (Upload_isolates (HS := settlement_answers NewSettlement) ring "carol" "dave" blobs funded
    _ _ H) as (_ & _ & _ & Hsum & out' & Hout & _).
  split; [exact Hsum|].
  assert (List.filter (opens ring) blobs = [honest_blob]) as Hf by (vm_compute; reflexivity).
  rewrite Hf in Hout. eexists _, _. exact Hout.
Defined.

Lemma demo_clock : writable_clock.
Proof.
  assert (all_below 1001 0 (fun k => is_ok (marshal_time (utc (new_year + k * Second)))) = true) as H
    by (vm_compute; reflexivity).
  intros n. apply (all_below_spec _ _ _ (Z.min (Z.of_nat n) 1000)) in H; [|lia].
  cbv beta in H. change (clock n) with (new_year + Z.min (Z.of_nat n) 1000 * Second).
  destruct (marshal_time _) as [v|]; [by exists v|discriminate H].
Qed.

(** Carol uploads Alice's payment to Bob. *)
Lemma honest_gossip_accepted_witness :
  exists out w',
    runs (Upload (Sub := demo_submitter) ring "carol" [honest_blob]) funded out w' /\
    ur_Items out = [routed honest_blob (accepted alices_payment (@new_id demo_env (S (w_ids funded))))].
Proof.
  play (no_token, None : option error) (FundOffline New "alice" 50000 ttl) minted Hfund.
  assert (result_of (no_token, None) (FundOffline New "alice" 50000 ttl) minted = (alice_ceiling, None))
    as Hceiling by (vm_compute; reflexivity).
  rewrite Hceiling in Hfund. clear Hceiling.
  play no_card (IssueDisplayCard cards "bob") funded Hcard. fold bobs_card in Hcard.
  assert (bank_signing_keys (w_st minted) = {["bank-1" := bank_key]}) as Hk0 by (vm_compute; reflexivity).
  assert (bank_signing_keys (w_st funded) = {["bank-1" := bank_key]}) as Hk by (vm_compute; reflexivity).
  assert (fault_free demo_env) as Hff by (intros n; reflexivity).
  assert (silent_gate New) as Hgate by (intros clamp u n [= <-]; apply silent_ret).
  assert (ttl mod 1000 = 0) as Httl by (vm_compute; reflexivity).
  assert (bank_ok minted) as Hb0 by (apply demo_bank_ok; [exact Hk0|left; vm_compute; reflexivity]).
  assert (bank_ok funded) as Hb2 by (apply demo_bank_ok; [exact Hk|right; vm_compute; reflexivity]).
  destruct (honest_gossip_accepted New cards NewSettlement "alice" 50000 ttl minted alice_ceiling _ _
    "bob" funded bobs_card _ alice_key bob_key bobs_request alices_payment "" ring honest_blob "carol"
    funded Hff demo_clock New_quiet Hgate eq_refl Httl Hb0 Hfund eq_refl Hb2 Hcard)
    as (out & w' & Hr & Hi & _); [..|exists out, w'; split; [exact Hr|exact Hi]].
  - constructor; vm_compute; reflexivity.
  - constructor; try (vm_compute; reflexivity).
    + vm_compute. discriminate.
    + right. vm_compute. reflexivity.
  - exact honest_carried.
  - left. reflexivity.
  - rewrite Hk0, Hk. reflexivity.
  - rewrite Hk. reflexivity.
  - vm_compute. discriminate.
  - vm_compute. discriminate.
  - eexists. split; [vm_compute; reflexivity|]. left. reflexivity.
  - intros i q. assert (payment_tokens (w_st funded) = ∅) as -> by (vm_compute; reflexivity).
    rewrite lookup_empty. discriminate.
  - exact honest_room.
  - apply demo_unused; vm_compute; reflexivity.
  - intros n _. assert (outbox (w_st funded) = ∅) as -> by (vm_compute; reflexivity).
    apply lookup_empty.
Defined.
