(* ===== verification/DeviceDemo.v ===== *)
(** * Devices, tokens and operators at work

    Alice registers a device with a challenge of the server, rotates, revokes and recovers it
    and gets an offline session; the operators rotate keys, force a ceiling to expire and freeze
    her. *)

From Stdlib Require Import Strings.Byte.
From S2P Require Import Prelude Float Domain Json Crypto Store AuthStore DeviceStore Wire Canonical Parse Decode Tokens SealedBox Repo Fraud Devices AuthRepo UserAuth Registration Keys Books Solvency Wallet DemoMint Settlement Members DeviceFacts DeviceProps RegistrationProps OpsProps Genesis System WalletProps FraudProps Demo Witnesses.

(** Keys of the sizes Ed25519 has: the public half is the last half of the private key. *)
#[local] Instance token_ed : Ed25519 := {|
  ed_sign priv msg := drop 32 priv ++ [length_byte msg];
  ed_verify pub msg sig := bool_decide (sig = pub ++ [length_byte msg]);
  ed_public priv := drop 32 priv;
  sha256 msg := String.list_byte_of_string msg;
|}.

#[local] Instance token_ed_laws : Ed25519Laws token_ed.
Proof. constructor. intros priv msg. by apply bool_decide_eq_true. Qed.

(** ** Registering *)

(** A user this server has not seen: her account number will be made of the digits. *)
Definition alice : string := "alice-7000000001".

Definition registration : RegistrationServer :=
  match wireAttestation "dev" NewRegistrationServer with Ok s => s | Err _ => NewRegistrationServer end.

Lemma registration_wired : wired registration.
Proof. by exists "dev". Qed.

Definition no_challenge : ChallengeResponse := {| ch_Nonce := []; ch_ExpiresAt := 0 |}.
Definition no_device : DeviceResponse := {| dr_DeviceID := ""; dr_At := 0; dr_RealmKeyVersion := 0 |}.

Definition phone_key : bytes := repeat x0a 32.
Definition tablet_key : bytes := repeat x0b 32.

(** What the dev attestor of the mobile application sends. *)
Definition dev_blob (key nonce : bytes) : option bytes :=
  match Marshal (json_object [("platform", js "android"); ("device_public_key", jb key);
                              ("nonce", jb nonce)]) with
  | Ok b => Some b
  | Err _ => None
  end.

Definition challenged (w : world db effect) : world db effect :=
  after (GetAttestationChallenge registration alice) w.
Definition challenge (w : world db effect) : bytes :=
  ch_Nonce (result_of no_challenge (GetAttestationChallenge registration alice) w).

Definition register_alice (key : bytes) (w : world db effect) : dbop DeviceResponse :=
  srv_RegisterDevice registration alice "android" (dev_blob key (challenge w)) (challenge w) key.
Definition enrolled : world db effect := after (register_alice phone_key start) (challenged start).
Definition phone : string :=
  dr_DeviceID (result_of no_device (register_alice phone_key start) (challenged start)).

Lemma enrolled_reached : rtc (device_step registration) start enrolled.
Proof.
  eapply rtc_l; [apply (device_run registration _ (GetAttestationChallenge registration alice)), dh_challenge|].
  eapply rtc_l; [apply (device_run registration _ (register_alice phone_key start)), dh_register|]. apply rtc_refl.
Qed.

Lemma start_one : one_active (w_st start).
Proof. intros i j r r' H. discriminate H. Qed.

Lemma enrolled_one : one_active (w_st enrolled).
Proof.
  apply (kp_one start enrolled (so_kept _ _ (device_steps_sound registration _ _ registration_wired enrolled_reached))), start_one.
Qed.

Definition bff_alice : option AuthUser := Some {| au_UserID := alice; au_DeviceID := "bff" |}.

(** Revoked, the phone gets nothing after another attempt at a session; its key stays. *)
Lemma revoked_device_shut_out_witness :
  let revoked := after (RevokeDevice bff_alice phone) enrolled in
  let later := after (IssueDeviceSession None alice phone "" "") revoked in
  (forall signer u sid scope, is_ok (IssueDeviceSession signer u phone sid scope later).1 = false) /\
  q_GetActiveSigningKeyPubkey alice (w_st revoked) = Ok phone_key.
Proof.
  intros revoked later. play 0 (RevokeDevice bff_alice phone) enrolled H.
  destruct (devices (w_st enrolled) !! phone) as [row|] eqn:Hrow; [|vm_compute in Hrow; discriminate].
  destruct (revoked_device_shut_out registration bff_alice phone row enrolled _ revoked later
              registration_wired Hrow H) as (_ & Hcache & Hout & _).
  { apply rtc_once, (device_run registration _ (IssueDeviceSession None alice phone "" "")), dh_session. }
  split; [|vm_compute; reflexivity]. apply Hout. intros (u & p & Hc).
  rewrite Hcache in Hc by reflexivity. discriminate Hc.
Defined.

(** A tablet replaces the phone. *)
Lemma challenged_one : one_active (w_st (challenged enrolled)).
Proof.
  apply (kp_one enrolled); [|exact enrolled_one]. apply so_kept.
  apply (device_steps_sound registration _ _ registration_wired).
  apply rtc_once, (device_run registration _ (GetAttestationChallenge registration alice)), dh_challenge.
Qed.

Definition tabled : world db effect := after (register_alice tablet_key enrolled) (challenged enrolled).

Lemma replacement_enrolls_witness :
  (exists row, q_GetActiveDeviceForUser alice (w_st tabled) =
     Ok (dr_DeviceID (result_of no_device (register_alice tablet_key enrolled) (challenged enrolled)), row) /\
     dv_PublicKey row = tablet_key) /\
  (exists row, devices (w_st tabled) !! phone = Some row /\ dv_Active row = false).
Proof.
  play no_device (register_alice tablet_key enrolled) (challenged enrolled) H.
  destruct (replacement_enrolls registration alice tablet_key true _ _ _ _ registration_wired challenged_one
              (by_registration registration alice tablet_key "android" _ _) H) as (H1 & _).
  split; [exact H1|]. eexists. split; vm_compute; reflexivity.
Defined.

(** Asked for over HTTP the rotation fails, but the payer key is the tablet's. *)
Lemma rotation_splits_witness :
  let w' := after (RotateDevice bff_alice alice "" (Some []) tablet_key) enrolled in
  devices (w_st w') = devices (w_st enrolled) /\
  q_GetActiveSigningKeyPubkey alice (w_st w') = Ok tablet_key.
Proof.
  intros w'. unfold w', after.
  assert (exists r, devices (w_st enrolled) !! phone = Some r /\ active_device_of alice r = true) as (r & Hr & Ha)
    by (eexists; split; vm_compute; reflexivity).
  destruct (rotation_splits alice "bff" "" (Some []) tablet_key enrolled phone r) as (e & v & H & Hd & Hk);
    [vm_compute; reflexivity|exact Hr|exact Ha|].
  change bff_alice with (Some {| au_UserID := alice; au_DeviceID := "bff" |}). rewrite H. cbn [snd].
  split; [exact Hd|]. apply Hk.
  - intros n. reflexivity.
  - vm_compute. reflexivity.
  - eexists. vm_compute. reflexivity.
  - vm_compute. reflexivity.
  - discriminate.
  - by left.
Defined.

Lemma registration_spends_nonce_witness :
  srv_RegisterDevice registration alice "ios" None (challenge start) tablet_key enrolled =
  (Err (ErrStatus "FailedPrecondition" "attestation nonce invalid or already consumed"), enrolled).
Proof.
  play no_device (register_alice phone_key start) (challenged start) H.
  destruct (registration_spends_nonce registration alice "android" _ _ _ _ _ _ registration_wired H)
    as (_ & _ & Hs).
  apply (Hs enrolled []); [by rewrite app_nil_r|by intros x y ?%elem_of_nil|done].
Defined.

(** ** An offline session *)

Definition session_signer : DeviceSessionSigner := {|
  sg_KeyID := "device-session-1"; sg_PrivateKey := repeat x01 32 ++ repeat x02 32;
  sg_PublicKey := repeat x02 32; sg_Audience := "offlinepay"; sg_TTL := 14 * 24 * Hour |}.

Definition no_session : DeviceSessionToken := {|
  dt_Token := ""; dt_ServerPublicKey := []; dt_KeyID := ""; dt_IssuedAt := 0; dt_ExpiresAt := 0;
  dt_Scope := "" |}.

Definition alice_session : DeviceSessionToken :=
  result_of no_session (IssueDeviceSession (Some session_signer) alice phone "s-1" "") enrolled.

Lemma numbers_enrolled :
  (fun kv : string * User => u_AccountNumber kv.2) <$> map_to_list (users (w_st enrolled))
  = ["0000000000"; "0000000001"; "7000000001"].
Proof. vm_compute. reflexivity. Qed.

Lemma enrolled_numbers : utf8_numbers enrolled alice.
Proof.
  split; [|intros v Hv; vm_compute in Hv; discriminate Hv]. intros i x Hx.
  apply elem_of_map_to_list, (list_elem_of_fmap_2 (fun kv : string * User => u_AccountNumber kv.2)) in Hx.
  rewrite numbers_enrolled in Hx. cbn [snd] in Hx. revert Hx. generalize (u_AccountNumber x).
  apply Forall_forall. repeat constructor; vm_compute; reflexivity.
Qed.

(** A week later the token is accepted, after a month it is not. *)
Lemma IssueDeviceSession_issues_witness :
  exists p, ParseDeviceSession (dt_Token alice_session) = Ok p /\
    Verify p (dt_ServerPublicKey alice_session) "offlinepay" phone (new_year + 7 * 24 * Hour) 0 = Ok tt /\
    Verify p (dt_ServerPublicKey alice_session) "offlinepay" phone (new_year + 30 * 24 * Hour) 0 <> Ok tt.
Proof.
  play no_session (IssueDeviceSession (Some session_signer) alice phone "s-1" "") enrolled H.
  destruct (IssueDeviceSession_issues session_signer alice phone "s-1" "" enrolled _ _ enrolled_numbers H)
    as (_ & _ & p & Hp & _ & _ & _ & Hv); [reflexivity|reflexivity| |vm_compute; reflexivity..|].
  { repeat constructor; vm_compute; reflexivity. }
  exists p. split; [exact Hp|]. split.
  - apply Hv. split; [by right|]. split; [by right|]. intros _. vm_compute. discriminate.
  - intros Ho. apply Hv in Ho as (_ & _ & Ho). revert Ho. vm_compute. intros Ho. by apply Ho.
Defined.

(** ** Operators *)

Definition first_realm : world db effect := after (RotateRealmKey [x01] (30 * 24 * Hour)) start.

(** After the second rotation both keys can be had, the second is in force. *)
Lemma RotateRealmKey_overlaps_witness :
  let w' := after (RotateRealmKey [x02] (30 * 24 * Hour)) first_realm in
  (exists row, q_GetActiveRealmKey (w_st w') = Ok (2, row) /\ rk_KeyEnc row = [x02]) /\
  (exists r, realm_keys (w_st w') !! 1 = Some r /\ rk_KeyEnc r = [x01] /\
             in_overlap (new_year + 29 * 24 * Hour) r = true).
Proof.
  intros w'. play 0 (RotateRealmKey [x02] (30 * 24 * Hour)) first_realm H.
  destruct (RotateRealmKey_overlaps _ _ _ _ _ H) as (_ & _ & row & Hr & Hk).
  split; [exists row; split; [exact Hr|exact Hk]|]. eexists. split_and!; vm_compute; reflexivity.
Defined.

#[local] Instance serving : CacheEnv := {| cache_serves _ := true; cache_obeys _ := true |}.

Definition served : world db effect := after GetActiveBankSigningKey joined.

(** The server goes on with the key it cached. *)
Lemma RotateBankKey_unseen_witness :
  let w' := after (RotateBankKey "bank-2" [x03] [x04] true) served in
  (exists k, q_GetActiveBankSigningKey (w_st w') = Ok k /\ bk_KeyID k = "bank-2") /\
  runs GetActiveBankSigningKey w' bank_key w'.
Proof.
  intros w'. play tt (RotateBankKey "bank-2" [x03] [x04] true) served H.
  destruct (RotateBankKey_unseen (K := serving) _ _ _ _ _ _ H) as ((k & Hk & Hid & _) & _ & Hc).
  split; [exists k; split; [exact Hk|exact Hid]|]. apply Hc; [done|done|vm_compute; reflexivity|done].
Defined.

(** A cache that serves and does not delete: the phone was looked up before it is revoked, and gets
    a session after it. *)
#[local] Instance stuck : CacheEnv := {| cache_serves _ := true; cache_obeys n := (n <? 4)%nat |}.

Lemma revocation_unseen :
  let looked := after (DeviceLookup phone) enrolled in
  let revoked := after (RevokeDevice bff_alice phone) looked in
  (exists r, devices (w_st revoked) !! phone = Some r /\ dv_Active r = false) /\
  is_ok (IssueDeviceSession (Some session_signer) alice phone "s-1" "" revoked).1 = true.
Proof. cbv zeta. split; [eexists; split; vm_compute; reflexivity|]. vm_compute. reflexivity. Qed.

Definition lien_of_alice : string :=
  match q_GetAccountByUserAndKind "alice" AccountKindLienHolding (w_st funded) with
  | Ok (i, _) => i
  | Err _ => ""
  end.

Lemma lien_of_alice_held : exists a, accounts (w_st funded) !! lien_of_alice = Some a /\
  a_Kind a = AccountKindLienHolding /\ a_UserID a = "alice".
Proof. eexists. split_and!; vm_compute; reflexivity. Qed.

Lemma ceiling_of_alice_active : exists c, ceiling_tokens (w_st funded) !! ct_ID alice_ceiling = Some c /\
  c_Status c = CeilingActive /\ c_PayerUserID c = "alice" /\ c_CeilingKobo c = 50000.
Proof. eexists. split_and!; vm_compute; reflexivity. Qed.

Lemma nothing_settled :
  sum_settled (ct_ID alice_ceiling) (w_st (after (ForceExpireActiveCeiling (ct_ID alice_ceiling)) funded)) = 0.
Proof. vm_compute. reflexivity. Qed.

(** Alice's ceiling forced to expire: the fifty thousand stay where they are. *)
Lemma ForceExpireActiveCeiling_strands_witness :
  bal (w_st (after (ForceExpireActiveCeiling (ct_ID alice_ceiling)) funded)) lien_of_alice = 50000 /\
  is_ok (MoveToMain "alice" (after (ForceExpireActiveCeiling (ct_ID alice_ceiling)) funded)).1 = false.
Proof.
  play false (ForceExpireActiveCeiling (ct_ID alice_ceiling)) funded H.
  destruct ceiling_of_alice_active as (c & Hc & Hs & Hp & Hn).
  destruct lien_of_alice_held as (a & Ha & Hk & Hu). rewrite <- Hp in Hu.
  destruct (ForceExpireActiveCeiling_strands New _ _ c lien_of_alice a funded _ _ (proj1 funded_good) Hc Hs Ha Hk Hu H)
    as (_ & Hb & _ & Hm).
  split; [by rewrite Hb, Hn, nothing_settled|]. rewrite <- Hp. apply (proj1 (Hm _ eq_refl)).
Defined.

(** Frozen, Alice is granted the reduced cap. *)
Lemma FreezeUser_does_not_suspend_witness :
  500000 <= (result_of (0, "") (ClampCeiling "alice" 800000)
               (after (FreezeUser "freeze-1" "alice" "manual ops freeze") rich)).1.
Proof.
  play tt (FreezeUser "freeze-1" "alice" "manual ops freeze") rich H.
  play (0, "") (ClampCeiling "alice" 800000)
    (after (FreezeUser "freeze-1" "alice" "manual ops freeze") rich) Hc.
  assert (one_signal_short (M := demo_libm)) as Hshort.
  { intros y _. cbn [Pow demo_libm]. unfold step at 1. destruct (fleb y _); [|destruct (fleb y _)];
      vm_compute; reflexivity. }
  assert (forall i g, fraud_signals (w_st rich) !! i = Some g -> g_UserID g <> "alice") as Hnone.
  { intros i g Hg. assert (fraud_signals (w_st rich) = ∅) as He by (vm_compute; reflexivity).
    rewrite He in Hg. discriminate Hg. }
  destruct (FreezeUser_does_not_suspend _ _ _ _ _ _ _ _ _ _ Hshort Hnone H eq_refl Hc) as (_ & _ & Hb).
  exact Hb.
Defined.
