(* ===== verification/BffDemo.v ===== *)
(** * Over HTTP, step by step

    Alice funds a ceiling, Bob gets his card and posts her payment; Alice sets a PIN, sends a
    transfer with it and reads her transfers; each theorem on the HTTP server with hypotheses is
    applied in one of those states. *)

From Stdlib Require Import Strings.Byte.
From S2P Require Import Prelude Domain Json Crypto Tokens Store AuthStore Repo AuthRepo Text Identity UserAuth Registration Books Solvency Wallet DemoMint Settlement SettlementFacts SubmitFacts Gossip Acceptance WalletProps Honest Members Genesis System Demo HonestDemo TransferScore Transfer Listings TransferFacts TransferProps Messages WalletServer Rest Middleware BffWallet BffAccounts BffProps BffTransferProps Witnesses.

#[local] Open Scope string_scope.
#[local] Open Scope Z_scope.

(** ** Requests with a token *)

Definition issuer : JWTSigner := {|
  jw_Secret := repeat Byte.x07 32; jw_Audience := "user"; jw_TTL := 15 * Minute |}.

Definition claims_of (u : string) : AccessClaims := access_claims issuer u "8000000002" "" new_year.

Definition token_of (u : string) : string :=
  match jwt_Sign issuer u "8000000002" "" new_year with Ok t => t | Err _ => "" end.

Definition request_to (path token : string) : HttpRequest := {|
  hr_Path := path; hr_Authorization := "Bearer " ++ token; hr_UserAgent := "app/1";
  hr_ForwardedFor := ""; hr_RemoteAddr := "10.0.0.1:4000"; hr_SubmitterCountry := "" |}.

Definition as_user (u : string) : Ctx := {|
  cx_Claims := Some (claims_of u); cx_UserAgent := ""; cx_ClientIP := "";
  cx_SubmitterCountry := "" |}.

(** A limiter that refuses everybody. *)
Definition closed : UserLimiter := fun _ => ret false.

Definition claims_request : HttpRequest := request_to "/v1/settlement/claims" (token_of "bob").

Lemma bob_verified :
  jwt_Verify issuer (bearerToken claims_request) (clock (w_clk funded)) = Ok (claims_of "bob").
Proof. vm_compute. reflexivity. Qed.

(** Without a token, nothing. *)
Lemma serve_admits_witness :
  exists message w', runs (serve closed issuer (request_to "/v1/settlement/claims" "")
    (fun cx => PostV1SettlementClaims NewSettlement cx None)) funded
    (JSONError 401 "unauthorized" message) w' /\ w_st w' = w_st funded.
Proof.
  destruct (serve_admits closed closed issuer (request_to "/v1/settlement/claims" "")
    (fun cx => PostV1SettlementClaims NewSettlement cx None) funded) as (_ & _ & H).
  destruct (H eq_refl) as [(claims & Hc & _)|(message & w' & Hr & Hs & _)].
  - revert Hc. vm_compute. discriminate.
  - exists message, w'. exact (conj Hr Hs).
Defined.

(** ** A payment *)

Definition payment_input (p : PaymentToken) : PaymentTokenInput := {|
  rp_PayerId := pt_PayerID p; rp_PayeeId := pt_PayeeID p; rp_AmountKobo := pt_Amount p;
  rp_SequenceNumber := pt_SequenceNumber p; rp_RemainingCeilingKobo := pt_RemainingCeiling p;
  rp_Timestamp := pt_Timestamp p; rp_CeilingTokenId := pt_CeilingTokenID p;
  rp_PayerSignature := pt_PayerSignature p; rp_SessionNonce := pt_SessionNonce p;
  rp_RequestHash := pt_RequestHash p |}.

Definition request_input (r : PaymentRequest) : PaymentRequestInput := {|
  rq_ReceiverId := pr_ReceiverID r;
  rq_ReceiverDisplayCard := displayCardToInput (DisplayCardToProto (pr_ReceiverDisplayCard r));
  rq_AmountKobo := pr_Amount r; rq_SessionNonce := pr_SessionNonce r;
  rq_IssuedAt := pr_IssuedAt r; rq_ExpiresAt := pr_ExpiresAt r;
  rq_ReceiverDevicePubkey := pr_ReceiverDevicePubkey r;
  rq_ReceiverSignature := pr_ReceiverSignature r |}.

Lemma payment_input_posted : payment_posted (payment_input alices_payment) = alices_payment.
Proof. vm_compute. reflexivity. Qed.

Lemma request_input_posted : request_posted (request_input bobs_request) = bobs_request.
Proof. vm_compute. reflexivity. Qed.

Definition fund_body (seconds : Z) : FundOfflineBody :=
  {| fb_AmountKobo := 50000; fb_PayerPublicKey := []; fb_TtlSeconds := seconds |}.
Definition fund_request (seconds : Z) : dbop (http rest_FundOfflineResponse) :=
  PostV1WalletFundOffline New (as_user "alice") (Some (fund_body seconds)).

Definition no_funding : rest_FundOfflineResponse := {|
  rfo_Ceiling := ceilingTokenFromProto (CeilingToProto no_token); rfo_LienId := "" |}.
Definition body_of {A} (d : A) (h : http A) : A := match h with JSON200 a => a | _ => d end.
Definition funding (seconds : Z) : rest_FundOfflineResponse :=
  body_of no_funding (result_of NoContent204 (fund_request seconds) minted).

Definition bob_card_request : dbop (http DisplayCardInput) :=
  GetV1IdentityDisplayCard (Some cards) (as_user "bob").

Lemma alices_ceiling_posted :
  let ct := ceiling_posted (rfo_Ceiling (funding 86400)) in
  ct_ID ct = ct_ID alice_ceiling /\ ct_PayerID ct = "alice" /\ ct_PayerPublicKey ct = alice_key /\
  ct_ExpiresAt ct = ct_ExpiresAt alice_ceiling.
Proof. vm_compute. auto. Qed.

Lemma posted_room ct :
  room NewSettlement {| ci_Payment := payment_posted (payment_input alices_payment); ci_Ceiling := ct;
    ci_Request := request_posted (request_input bobs_request) |} (w_st funded).
Proof.
  rewrite payment_input_posted, request_input_posted. destruct honest_room. by constructor.
Qed.

Lemma honest_claim_over_http_witness :
  exists rc w', runs (serve closed issuer claims_request (fun cx => PostV1SettlementClaims NewSettlement cx (Some {|
      cb_ClientBatchId := ""; cb_Tokens := [payment_input alices_payment];
      cb_Ceilings := [rfo_Ceiling (funding 86400)]; cb_Requests := [request_input bobs_request] |})))
      funded (JSON200 rc) w' /\ rbr_TotalSubmitted rc = 1 /\ rbr_TotalRejected rc = 0.
Proof.
  play (@NoContent204 rest_FundOfflineResponse) (fund_request 86400) minted Hfund.
  assert (result_of NoContent204 (fund_request 86400) minted = JSON200 (funding 86400)) as Heq
    by (vm_compute; reflexivity).
  rewrite Heq in Hfund. clear Heq.
  play (@NoContent204 DisplayCardInput) bob_card_request funded Hcard.
  assert (result_of NoContent204 bob_card_request funded
    = JSON200 (rq_ReceiverDisplayCard (request_input bobs_request))) as Heq by (vm_compute; reflexivity).
  rewrite Heq in Hcard. clear Heq.
  assert (bank_signing_keys (w_st minted) = {["bank-1" := bank_key]}) as Hk0 by (vm_compute; reflexivity).
  assert (bank_signing_keys (w_st funded) = {["bank-1" := bank_key]}) as Hk by (vm_compute; reflexivity).
  destruct alices_ceiling_posted as (C1 & C2 & C3 & C4).
  unshelve epose proof (honest_claim_over_http New cards NewSettlement closed issuer claims_request (claims_of "bob")
    (as_user "alice") (fund_body 86400) (funding 86400) minted _ (as_user "bob") _ funded _ alice_key bob_key
    (payment_input alices_payment) (request_input bobs_request) funded
    _ demo_clock New_quiet _ _ _ _ _ _ Hfund Hcard _ _ _ _ _ _ _ _ _ _ _ _ (posted_room _) _ _ _ _ _
    bob_verified) as (rc & w' & Hr & H1 & H2 & _); rewrite ?payment_input_posted, ?request_input_posted.
  - intros n. reflexivity.
  - intros clamp u n [= <-]. apply silent_ret.
  - reflexivity.
  - reflexivity.
  - apply demo_bank_ok; [exact Hk0|left; vm_compute; reflexivity].
  - apply demo_bank_ok; [exact Hk|right; vm_compute; reflexivity].
  - vm_compute. split; [reflexivity|discriminate].
  - reflexivity.
  - constructor; vm_compute; reflexivity.
  - constructor; try (vm_compute; reflexivity).
    + vm_compute. discriminate.
    + right. vm_compute. reflexivity.
  - rewrite Hk0, Hk. reflexivity.
  - rewrite Hk. reflexivity.
  - discriminate.
  - discriminate.
  - right. reflexivity.
  - vm_compute. discriminate.
  - vm_compute. discriminate.
  - eexists. split; [vm_compute; reflexivity|]. left. reflexivity.
  - intros i q. assert (payment_tokens (w_st funded) = ∅) as -> by (vm_compute; reflexivity).
    rewrite lookup_empty. discriminate.
  - apply demo_unused; vm_compute; reflexivity.
  - intros n _. assert (outbox (w_st funded) = ∅) as -> by (vm_compute; reflexivity). apply lookup_empty.
  - reflexivity.
  - vm_compute. discriminate.
  - reflexivity.
  - exists rc, w'. exact (conj Hr (conj H1 H2)).
Defined.

(** One claim of bob's, and a second one without a ceiling. *)
Definition posted_claims : SubmitClaimBody := {|
  cb_ClientBatchId := ""; cb_Tokens := [payment_input alices_payment];
  cb_Ceilings := [rfo_Ceiling (funding 86400)]; cb_Requests := [request_input bobs_request] |}.
Definition post_claims : dbop (http rest_BatchReceipt) :=
  PostV1SettlementClaims NewSettlement (as_user "bob") (Some posted_claims).

Lemma claims_answered_witness :
  exists rc, (post_claims funded).1 = Ok (JSON200 rc) /\ length (rbr_Results rc) = 1%nat.
Proof.
  destruct (claims_answered NewSettlement (as_user "bob") (claims_of "bob") posted_claims funded)
    as (failed & _ & Heq); [reflexivity|discriminate|].
  unfold post_claims. rewrite Heq. clear Heq. cbn zeta.
  set (m := SubmitClaim _ _ _ _).
  assert (match (m funded).1 with Ok (_, rs, None) => length rs = 1%nat | _ => False end) as H
    by (vm_compute; reflexivity).
  destruct (m funded) as [[[[batch rs] [e|]]|e] w']; [destruct H| |destruct H].
  eexists. split; [reflexivity|]. cbn. by rewrite !length_map.
Defined.

(** Five hundred and eighty-four years asked for, a third of a second granted. *)
Lemma ceiling_lifetime_witness :
  let c := rfo_Ceiling (funding 18446744074) in
  rc_ExpiresAt c - rc_IssuedAt c = truncate_us 290448384 /\
  rc_ExpiresAt c - rc_IssuedAt c < 18446744074 * Second.
Proof.
  play (@NoContent204 rest_FundOfflineResponse) (fund_request 18446744074) minted Hfund.
  assert (result_of NoContent204 (fund_request 18446744074) minted = JSON200 (funding 18446744074)) as Heq
    by (vm_compute; reflexivity).
  rewrite Heq in Hfund. clear Heq.
  destruct (ceiling_lifetime New _ _ _ _ _ New_quiet Hfund) as (_ & Hl & _ & Hw).
  split; [exact Hl|apply Hw; reflexivity].
Defined.

(** ** Transfers *)

Definition pinned : world db effect := after (SetPIN "alice" "1234" "") verified.
Definition rent_body (pin : string) : TransferBody := {|
  tb_ReceiverAccountNumber := "8000000002"; tb_AmountKobo := 2000; tb_Reference := "rent";
  tb_Pin := pin |}.
Definition pay_rent (pin : string) : dbop (http rest_Transfer) :=
  PostV1Transfers (Some defaultRules) (as_user "alice") (Some (rent_body pin)).
Definition rent_sent : world db effect := after (pay_rent "1234") pinned.

Lemma attempts_transfers u d d' : only_attempts u d d' -> transfers d' = transfers d.
Proof. by intros (ups & -> & _). Qed.
Lemma blocked_transfers u d d' : blocked u d d' -> transfers d' = transfers d.
Proof. by intros [->|(id & row & _ & _ & _ & ->)]. Qed.

Lemma transfers_need_pin_witness :
  exists b, pin_given "alice" "1234" pinned /\ tb_Pin b = "1234" /\
    exists d receiver tr, accepted_transfer (transfer_asked (claims_of "alice") b) receiver d (w_st rent_sent) tr.
Proof.
  assert (size (transfers (w_st rent_sent)) = 1%nat) as H1 by (vm_compute; reflexivity).
  assert (size (transfers (w_st pinned)) = 0%nat) as H0 by (vm_compute; reflexivity).
  destruct (transfers_need_pin (Some defaultRules) (as_user "alice") (Some (rent_body "1234")) pinned
    (pay_rent "1234" pinned).1 rent_sent rules_reading (surjective_pairing _))
    as [H|(claims & b & d & [= <-] & [= <-] & Hatt & H)]; [congruence|].
  assert (transfers d = transfers (w_st pinned)) as Hd by (exact (attempts_transfers _ _ _ Hatt)).
  destruct H as [H|(Hp & [H|(receiver & tr & _ & Ha & _)])].
  - congruence.
  - assert (transfers (w_st rent_sent) = transfers d) by (exact (blocked_transfers _ _ _ H)).
    congruence.
  - exists (rent_body "1234"). split; [exact Hp|]. split; [reflexivity|]. by exists d, receiver, tr.
Defined.

Definition no_page : TransferList := {| rtl_Items := []; rtl_Limit := 0; rtl_Offset := 0 |}.
Definition first_page : dbop (http TransferList) := GetV1Transfers (as_user "alice") None None.

Definition rent_id : string := hd "" (map fst (map_to_list (transfers (w_st rent_sent)))).
Definition carol_looks : dbop (http rest_Transfer) := GetV1TransfersID (as_user "carol") rent_id.

(** Alice's page has her transfer; a stranger who asks for it by name is told there is none. *)
Lemma transfers_read_witness :
  (exists ts l, length ts = 1%nat /\ result_of NoContent204 first_page rent_sent = JSON200 l /\
     rtl_Items l = map transferToDTO ts) /\
  is_Some (transfers (w_st rent_sent) !! rent_id) /\
  result_of NoContent204 carol_looks rent_sent =
    JSONError 404 "transfer_not_found" "transfer not found".
Proof.
  split.
  - destruct (transfers_read (as_user "alice") (claims_of "alice") rent_sent eq_refl) as [H _].
    play (@NoContent204 TransferList) first_page rent_sent Hp.
    assert (match result_of NoContent204 first_page rent_sent with
            | JSON200 l => (rtl_Limit l =? 20) && (rtl_Offset l =? 0) | _ => false end = true) as Hl
      by (vm_compute; reflexivity).
    destruct (result_of NoContent204 first_page rent_sent) as [l| |]; [|discriminate..].
    destruct (H None None l _ Hp) as (_ & _ & _ & _ & Hoff & _ & (ts & Hi & Hn) & _).
    apply andb_true_iff in Hl as [Hl Ho]. apply Z.eqb_eq in Hl, Ho.
    exists ts, l. split; [|exact (conj eq_refl Hi)].
    apply (f_equal length) in Hn. rewrite !length_map, Hl, Ho in Hn. rewrite Hn. vm_compute. reflexivity.
  - destruct (transfers_read (as_user "carol") (claims_of "carol") rent_sent eq_refl) as [_ H].
    play (@NoContent204 rest_Transfer) carol_looks rent_sent Hg.
    destruct (H rent_id _ _ Hg) as [_ Ha]. clear H Hg.
    assert (match transfers (w_st rent_sent) !! rent_id with
            | Some row => negb (bool_decide (f_SenderUserID row = "carol")
                                || bool_decide (f_ReceiverUserID row = "carol"))
            | None => false end = true) as Hr by (vm_compute; reflexivity).
    destruct (transfers (w_st rent_sent) !! rent_id) as [row|]; [|discriminate].
    change (at_Sub (claims_of "carol")) with "carol" in Ha. apply negb_true_iff in Hr.
    rewrite Hr in Ha. split; [by eexists|exact Ha].
Defined.

(** ** A receipt *)

Definition batch_id : string :=
  rbr_BatchId (body_of (batchReceiptFromProto (BatchReceiptToProto SettlementBatch_zero []))
    (result_of NoContent204 post_claims funded)).

(** Carol, who is no party to it, reads bob's receipt. *)
Lemma receipts_answered_witness :
  exists rc w', runs (GetV1SettlementClaimsBatchID (as_user "carol") batch_id)
    (after post_claims funded) (JSON200 rc) w' /\ rbr_TotalSubmitted rc = 1.
Proof.
  destruct (receipts_answered (as_user "carol") (claims_of "carol") batch_id (after post_claims funded))
    as (a & w' & Hr & _ & _ & Ha); [intros n; reflexivity|reflexivity|discriminate|vm_compute; discriminate|].
  assert (length (batch_rows batch_id (w_st (after post_claims funded))) = 1%nat) as Hlen
    by (vm_compute; reflexivity).
  destruct (batch_rows _ _) as [|t [|? ?]]; [discriminate| |discriminate].
  destruct Ha as (rc & -> & _ & Ht & _). exists rc, w'. exact (conj Hr Ht).
Defined.
