(* ===== verification/AdminDemo.v ===== *)
(** * The back office at work

    A member of staff is created, signs in and refreshes; the listings are read in a state in which
    a payment is pending; each theorem on the back office with hypotheses is applied in one of
    those states. *)

From Stdlib Require Import Ascii Sorting.Sorted Strings.Byte.
From S2P Require Import Prelude Float Domain Json Crypto Canonical Store AuthStore Repo Books Solvency Members Text UserAuth Kyc Registration Wallet Settlement Genesis System Demo Transfer Reconcile Listings BffAccounts AdminStore AdminRepo Admin AdminHttp AdminProps AdminListProps Witnesses.

#[local] Open Scope string_scope.
#[local] Open Scope Z_scope.

(** Ties fall one way at every other call of the store, and the other way in between. *)
#[global] Instance demo_ties : TieOrder.
Proof.
  refine {| scan A n rows := if Nat.even n then rows else rev rows |}.
  intros A n rows. destruct (Nat.even n); [done|]. symmetry. apply Permutation_rev.
Defined.

(** ** Staff *)

Definition back_office : AdminService := {|
  sv_Signer := {| sg_Secret := repeat Byte.x09 32; sg_Audience := "admin"; sg_TTL := 15 * Minute |};
  sv_RefreshTTL := 24 * Hour |}.

Definition admin_after {A} (m : adminop A) (w : world admin_db Empty_set)
  : world admin_db Empty_set := (m w).2.
Definition admin_result {A} (d : A) (m : adminop A) (w : world admin_db Empty_set) : A :=
  match (m w).1 with Ok a => a | Err _ => d end.

Lemma admin_succeeds {A} d (m : adminop A) w :
  is_ok (m w).1 = true -> runs m w (admin_result d m w) (admin_after m w).
Proof. unfold admin_result, admin_after, runs. by destruct (m w) as [[a|e] w1]. Qed.

Ltac play_admin d m w H :=
  let Hok := fresh in
  assert (is_ok (m w).1 = true) as Hok by (vm_compute; reflexivity);
  pose proof (admin_succeeds d m w Hok) as H; clear Hok.

Definition office_over (d : db) : world admin_db Empty_set := World (admin_genesis d) 0 0 0 [].

Definition desk : world admin_db Empty_set := office_over (w_st claimed).

Definition hire : adminop StaffUser :=
  CreateAdmin "Grace@Example.com" "Grace" "s3cret" [RoleSupport; RoleSuperAdmin; "GARDENER"].

Definition staffed : world admin_db Empty_set := admin_after hire desk.

Definition sign_in : AdminRequest := {|
  rq_Method := "POST"; rq_Path := ["v1"; "auth"; "login"]; rq_Query := fun _ => "";
  rq_Authorization := ""; rq_UserAgent := "browser"; rq_ForwardedFor := "10.1.1.1, 10.0.0.9";
  rq_RemoteAddr := "10.0.0.2:4000";
  rq_Body := "{" +:+ String "034" "email" +:+ String "034" ":" +:+ String "034" "GRACE@example.com"
    +:+ String "034" "," +:+ String "034" "password" +:+ String "034" ":" +:+ String "034" "s3cret"
    +:+ String "034" "} and more" |}.

Definition answered : AdminResponse := writeJSON 0 BEmpty.
Definition signed_in : world admin_db Empty_set := admin_after (Mux back_office sign_in) staffed.

Definition login_of (r : AdminResponse) : option LoginResult :=
  match rs_Body r with BLogin l => Some l | _ => None end.

(** The address is lowered, the roles are those that exist, in the order of their names, and what
    follows the body is not looked at. *)
Example grace_signs_in :
  (fun l => (sf_Email (lo_User l), sf_Roles (lo_User l), lo_Refresh l))
    <$> login_of (admin_result answered (Mux back_office sign_in) staffed)
  = Some ("grace@example.com", ["SUPERADMIN"; "SUPPORT"], EncodeToString (random_bytes 2)).
Proof. vm_compute. reflexivity. Qed.

Definition access_of (w : world admin_db Empty_set) : string :=
  match login_of (admin_result answered (Mux back_office sign_in) w) with
  | Some l => lo_Access l | None => ""
  end.

Definition get (path : list string) (token : string) : AdminRequest := {|
  rq_Method := "GET"; rq_Path := path; rq_Query := fun _ => ""; rq_Authorization := "Bearer " ++ token;
  rq_UserAgent := "browser"; rq_ForwardedFor := ""; rq_RemoteAddr := "10.0.0.2:4000"; rq_Body := "" |}.

Definition status_of (r : AdminRequest) (w : world admin_db Empty_set) : Z :=
  rs_Status (admin_result answered (Mux back_office r) w).

(** What the mux answers. *)
Example grace_reads_the_audit_log :
  map (fun r => status_of r signed_in)
    [get ["v1"; "audit"] (access_of staffed); get ["v1"; "audit"] "a.b.c"; get ["v1"; "audit"] "";
     get ["v1"; "users"; "alice"; "kyc"] (access_of staffed);
     get ["v1"; "users"; "nobody"] (access_of staffed);
     get ["v1"; "settlements"; "no-such-batch"] (access_of staffed);
     get ["v1"; "nothing"] ""; get ["v1"; "auth"; "login"] ""]
  = [200; 401; 401; 200; 404; 200; 404; 405].
Proof. vm_compute. reflexivity. Qed.

Definition no_login : LoginResult := {|
  lo_Access := ""; lo_Refresh := ""; lo_ExpiresAt := 0; lo_RefreshExp := 0;
  lo_User := {| sf_ID := ""; sf_Email := ""; sf_FullName := ""; sf_Status := ""; sf_Roles := [];
                sf_Created := 0 |} |}.

Definition grace_token : string := EncodeToString (random_bytes 2).
Definition again : adminop LoginResult := Admin_Refresh back_office grace_token.

Lemma step_hired : console_step back_office desk staffed.
Proof. apply (step_create back_office "Grace@Example.com" "Grace" "s3cret" _ desk). Qed.
Lemma step_signed_in w : console_step back_office w (admin_after (Mux back_office sign_in) w).
Proof. apply (step_request back_office sign_in w). Qed.

(** The second attempt comes after another sign-in. *)
Definition later_on : world admin_db Empty_set :=
  admin_after (Mux back_office sign_in) (admin_after again signed_in).

Lemma admin_refresh_once_witness : is_ok (again signed_in).1 = true /\ is_ok (again later_on).1 = false.
Proof.
  split; [vm_compute; reflexivity|]. play_admin no_login again signed_in H.
  pose proof (proj2 (admin_refresh_once back_office (w_st claimed) desk signed_in grace_token _ _
    later_on eq_refl (rtc_l _ _ _ _ step_hired (rtc_once _ _ (step_signed_in staffed))) H
    (rtc_once _ _ (step_signed_in (admin_after again signed_in))))) as Hn.
  destruct (again later_on) as [[res|e] w] eqn:Hr; [|reflexivity].
  destruct (Hn res w). exact Hr.
Defined.

(** ** The listings *)

(** Alice's two payments, one a page, the pages read by the fifth and by the eighth call. *)
Lemma ListTransactions_pages_witness :
  let rows := selected "PENDING" "alice" "" (core (w_st desk)) in
  length rows = 2%nat /\ Sorted movement_newest (newest 5 rows) /\
  map mv_CreatedAt (shown 1 [5; 8]%nat rows) = map mv_CreatedAt (newest 0 rows) /\
  forall x, x ∈ rows -> exists! i, shown 1 [5; 8]%nat rows !! i = Some x.
Proof.
  intros rows. assert (length rows = 2%nat) as Hlen by (vm_compute; reflexivity).
  destruct (ListTransactions_pages "PENDING" "alice" "" 1 1 desk) as (_ & Hp & Hs);
    [vm_compute; discriminate|vm_compute; reflexivity|].
  change (Z.to_nat (per_page 500 25 1)) with 1%nat in Hs. fold rows in Hp, Hs.
  destruct (Hs [5; 8]%nat) as (Hi & _ & Ho); [by rewrite Hlen|].
  split; [exact Hlen|]. split; [apply Hp|]. split; [apply Hi|]. intros x Hx. apply Ho; [exact Hx|].
  assert (NoDup (map mv_CreatedAt rows)) as Hn by (apply (bool_decide_unpack _); vm_compute; exact I).
  intros y Hy Heq. clear Hi Ho Hp Hs Hlen. revert x y Hx Hy Heq Hn. generalize rows. clear rows.
  intros rows x y [i Hx]%list_elem_of_lookup [j Hy]%list_elem_of_lookup Heq Hn.
  assert (i = j) as ->; [|congruence].
  apply (NoDup_lookup (map mv_CreatedAt rows) i j (mv_CreatedAt x) Hn);
    rewrite list_lookup_fmap, ?Hx, ?Hy; cbn; congruence.
Defined.

(** The two users of the migrations share an instant: one of them is shown on both pages of one
    row, the other on neither. *)
Lemma ties_repeat :
  let page k n := (Adminrepo_ListUsers 1 k (World (admin_genesis (genesis new_year)) 0 0 n [])).1 in
  exists u, page 0 0%nat = Ok [u] /\ page 1 1%nat = Ok [u].
Proof. eexists. split; vm_compute; reflexivity. Qed.

Definition no_users : Paged UserRow := Build_Paged [] 0 0 0.
Definition search : adminop (Paged UserRow) := ListUsers "80000" 1 25.

Lemma ListUsers_finds_witness :
  pg_Total (admin_result no_users search desk) = 2 /\
  exists rows, (forall r, r ∈ rows <-> found "80000" (core (w_st desk)) r) /\
    pg_Total (admin_result no_users search desk) = Z.of_nat (length rows).
Proof.
  play_admin no_users search desk H.
  destruct (ListUsers_finds "80000" 1 25 desk _ _ ltac:(discriminate) eq_refl
    ltac:(vm_compute; discriminate) ltac:(vm_compute; reflexivity) H) as (rows & Hr & _ & _ & Ht & _).
  split; [vm_compute; reflexivity|]. exists rows. exact (conj Hr Ht).
Defined.

(** Who has an account of a kind, by evaluation. *)
Definition has_account (kind : AccountKind) (d : db) (u : string) : bool :=
  exists_row (fun _ a => bool_decide (a_UserID a = u) && bool_decide (a_Kind a = kind)) (accounts d).

Lemma has_account_spec kind d u :
  has_account kind d u = true -> exists id, account_of d id u kind.
Proof.
  intros (id & a & Ha & [Hu%bool_decide_eq_true Hk%bool_decide_eq_true]%andb_true_iff)%exists_row_true.
  by exists id, a.
Qed.

Lemma holders_by (d : db) :
  exists_row (fun _ c => is_live (c_Status c)
    && negb (has_account AccountKindLienHolding d (c_PayerUserID c))) (ceiling_tokens d) = false ->
  exists_row (fun _ p => bool_decide (p_Status p = TxPending)
    && negb (has_account AccountKindReceivingPending d (p_PayeeUserID p))) (payment_tokens d) = false ->
  holders d.
Proof.
  rewrite !exists_row_false. intros Hc Hp. split.
  - intros i c Hi Hl. apply has_account_spec. specialize (Hc i c Hi). rewrite Hl in Hc.
    by apply negb_false_iff.
  - intros i p Hi Hs. apply has_account_spec. specialize (Hp i p Hi).
    rewrite bool_decide_true in Hp by done. by apply negb_false_iff.
Qed.

Lemma claimed_holders : holders (w_st claimed).
Proof. apply holders_by; vm_compute; reflexivity. Qed.

Definition no_stats : OverviewStats := {|
  ow_UsersTotal := 0; ow_UsersActive24h := 0; ow_UsersActive7d := 0; ow_DevicesActive := 0;
  ow_LienFloat := 0; ow_PendingSettlement := 0; ow_TxnCount24h := 0; ow_TxnVolume24h := 0;
  ow_FraudSignals24h := 0; ow_CeilingsActive := 0 |}.

Lemma Overview_reports_witness :
  let o := admin_result no_stats Overview desk in
  ow_LienFloat o = 50000 /\ ow_PendingSettlement o = 60000 /\
  ow_PendingSettlement o = - bal (w_st claimed) (ss_SuspenseAccountID NewSettlement).
Proof.
  play_admin no_stats Overview desk H.
  destruct (Overview_reports (ss_SuspenseAccountID NewSettlement) desk _ _
    (proj1 (proj1 claimed_thriving)) claimed_holders H) as (_ & _ & Hs & _).
  split; [vm_compute; reflexivity|]. split; [vm_compute; reflexivity|]. exact Hs.
Defined.
